(* ===== verification/_CoqProject ===== *)
-Q . S2P
Prelude.v
Concurrency.v
Strings.v
Calendar.v
Schema.v
Runtime.v
Demo.v
Float64.v
Money.v
AllocationEngine.v
Access.v
Allocations.v
IncomeProjector.v
OnChain.v
Solana.v
Payouts.v
Settlement.v
Settling.v
Income.v
Evidence.v
Square.v
Providers.v
SquareSync.v
EvidenceStore.v
Worker.v
Payroll.v
Workers.v
Staffing.v
Auth.v
Policies.v
Mappings.v
Disclosure.v
DemoCsv.v
Organizations.v
Seeding.v
DemoDoctor.v
DemoPrepare.v
WebSession.v
WebDemo.v
SessionTabs.v
SessionStore.v
ApiShell.v
Observability.v
Pages.v
Dashboard.v
WalletPrompts.v
VerifyPage.v
LoginPage.v
StaffingCards.v
StaffingOffers.v
MyIncome.v
I18n.v
Ui.v
Connections.v
ShareForm.v
