(* ===== verification/Prelude.v ===== *)
(** * Verification of the ServeProof services

    ServeProof turns the tips, shifts and payouts of restaurants into verified
    income of their workers.  The evidence of a day (tips and shifts) is split
    over the workers by a policy (an _allocation batch_); an approved batch is
    paid by USDC on Solana or by a legacy rail (_payouts_); evidence, shares
    and payouts are projected into a ledger of _income entries_; a worker
    discloses the ledger to third parties through revocable _grants_ and
    frozen _reports_.  The code is a NestJS API ([src/apps/api]), a queue worker
    ([src/apps/worker]), shared packages ([src/packages]) over PostgreSQL
    (Prisma), Redis, BullMQ and Solana, and a web client ([src/apps/web]) that
    keeps the sessions of several accounts in the browser and drives the API
    from the dashboard of a venue and the pages of a worker.  The USDC payouts
    are carried out by a program on Solana ([src/onchain], in Rust).

    ** How the code is modelled

    - [World] (Schema.v) is the state: one list of rows per table in creation
      order, the Redis store, the log of outgoing effects (mails, queue jobs,
      transactions sent) and a tick.  The rows are the models of
      [src/packages/db/prisma/schema.prisma], the enumerations those of that
      file and of [src/packages/shared/src/enums.ts].
    - A handler is a [prog] (Prelude.v): a value, a thrown exception, or an
      atomic action on the world with a continuation.  Every Prisma statement,
      Redis command, clock reading and RPC request is one action; [transaction]
      makes its body one action (it commits or leaves the world as it was).  [run] executes a handler alone; [pool_step]
      (Concurrency.v) interleaves any number of handlers action by action, and
      [safe] is the rely-free invariant logic for all interleavings, with a
      potential that bounds how often an effect can happen.
    - [Browser] (WebSession.v) is the state of a browser: the local storage its
      tabs share, the tabs with their session storage and module state, the
      locks of the Web Locks API, and the log of requests.  A _page_ is a [prog]
      on it; each storage access, request and answer is one action, so pages
      of several tabs interleave between any two of them.  [App] (Pages.v) is
      the state of one React page with the log of its interactions; its
      handlers are [prog]s too, and close over the values of the render they were
      created in.
    - [Ledger] (OnChain.v) is the state of the Solana cluster: the accounts, by
      address, and the events of the program.  An instruction gives the next
      ledger or an error; [step] lets other programs act on the accounts too.
    - A protocol that depends on where each handler stands (who holds a lock,
      what it has asked for) is proved with an _outline_ (Concurrency.v): each
      handler has a ghost stage, and an invariant relates the world to all
      stages.
    - What the code does not define is an interface: [Platform] (Schema.v: the
      clock, fresh identifiers and tokens, digests, JSON text, the collation
      order, the calendar of [Intl]), [Environment] (Runtime.v: process
      environment, Redis and mail failures), [Chain] (Solana.v: RPC answers and
      @solana/web3.js), [Runtime] with its laws [RuntimeLaws] (OnChain.v: derived
      addresses, rent, who pays), [Digest] (Settling.v: SHA-256), [Renderer] (Disclosure.v: PDF output), [RowSchema]
      (Evidence.v: zod's instants and messages), [Treasury] (Organizations.v:
      balances of the treasury), [Square] and [Cipher] (Square.v: the answers of
      Square, JavaScript's Date, Number and String; AES-GCM),
      [SquareEnvironment] (Providers.v), [Shell] (ApiShell.v: the JWT library and
      zod's e-mail pattern), [Web] (WebSession.v: the answers of the network,
      JSON, base64 and the clock of a browser), [Client], [FormReading]
      (Pages.v: the answers of the API and of the wallet, the reading of form
      texts), [Devices] (MyIncome.v: local time, clipboard, QR codes), [Amounts] (ShareForm.v: a positive
      number of a form), [Network]
      and [Showing] (VerifyPage.v: lost requests, the texts of unusual values),
      [Errors], [Dependencies] and [Timing] (Observability.v: error objects, which
      may be cyclic, what a probe gets from its dependency, the thresholds),
      [Devnet] (DemoDoctor.v: the ledger behind an RPC address at an instant) and
      [Files] (DemoPrepare.v: indented JSON and the directory of artifacts).  Three
      interfaces carry laws of the API that a page relies on: [TokenServer]
      (a refresh token is issued once and for one person), [PayoutApi] (a payout
      and its transaction are of the share asked for) and [TimelineApi] (the
      entries of a page differ); each has an instance with which the theorem is
      applied.  No theorem assumes a digest to be
      injective.  Demo.v and the [demo_] instances give concrete ones, with which
      examples and witnesses compute.
    - A JavaScript number that takes part in a division or a weight is an IEEE double
      (Float64.v, on [SpecFloat]); a number that only counts cents in a safe
      range is a [Z], converted where the source divides it.

    ** Files

    - Prelude: record update, results, [prog], Prisma's table operations,
      association lists as [Map], stable sort, and their lemmas; the tactics
      [exec] and [wexec] that run a handler symbolically.
    - Concurrency: interleavings, [schedule], [safe], [keeps] (invariants), [ends] (answers) and
      [guar] (what a handler guarantees
      step by step, used for frame properties such as "touches no payout"),
      [outline] (ghost stages of a protocol).
    - Strings: the string operations, decimal numbers and calendar dates;
      Calendar: the days of the Gregorian calendar and their texts.
    - Schema, Runtime, Demo, Float64: described above; Float64 proves the
      error bounds of the double operations that the money theorems need.
    - Money: [packages/shared/src/money.ts], [base58.ts],
      [solana-transaction.ts].
    - AllocationEngine: [packages/shared/src/allocation.ts].
    - Access: [apps/api/src/auth/access.service.ts], the guard the other
      controllers call.
    - Allocations: [apps/api/src/allocations] (service and controller).
    - IncomeProjector: [packages/db/src/income-projector.ts].
    - OnChain: [onchain/programs/serveproof/src/lib.rs], every instruction with
      the checks of its accounts; its Module [Validator] is a concrete cluster.
    - Solana: [packages/solana/src/index.ts] over the [Chain] interface;
      Settling: the same functions over a history of ledgers of OnChain, and
      with them Payouts and Settlement.
    - Payouts: [apps/api/src/payouts] (service and controller).
    - Settlement: [apps/worker/src/solana-settlement.service.ts] and the report
      expiry of [queue-runner.service.ts].
    - Evidence: [apps/api/src/evidence] and [packages/shared/src/csv.ts].
    - Square: [packages/providers/src] (the client and the token envelope);
      Providers: [apps/api/src/providers]; SquareSync:
      [apps/worker/src/square-sync.service.ts].
    - EvidenceStore: what the two writers of evidence promise, as operations on
      two finite maps that the tables refine.
    - Worker: the processors of [apps/worker/src/queue-runner.service.ts], and
      what retrying the confirmation job achieves.
    - Organizations, Payroll, Workers (with [common/privacy.ts]), Income,
      Staffing, Auth, Policies, Mappings, Disclosure: the services (and
      controllers) of the same name under [apps/api/src].
    - DemoCsv: [scripts/generate-demo-csv.mjs], against the reader of Evidence.
      Seeding: [scripts/demo-config.mjs] and [packages/db/prisma/seed.mjs];
      DemoDoctor: [demo-doctor.mjs] there, against OnChain and Settling;
      DemoPrepare: [demo-prepare.mjs] there, which runs the doctor, the generator
      and the rebuild of IncomeProjector.

    - ApiShell: the bearer guard, [auth.controller.ts] with its input schemas
      ([common/zod.ts]) and the counters of [common/performance-context.ts].
    - Observability: [health/health.controller.ts],
      [common/performance.interceptor.ts] and the query log of
      [prisma/prisma.service.ts].
    - WebSession: [apps/web/src/lib/api.ts] (and the sign-in of the login page):
      the stored sessions, the current one of a tab, renewal, logout and the
      [api] call.  WebDemo: a concrete browser and server.  SessionTabs: the
      renewal protocol of several tabs.  SessionStore: what the stored sessions
      satisfy.
    - Pages: what the pages share, with [lib/wallet.ts] and [lib/query.tsx].
      Dashboard: the handlers of [app/dashboard/page.tsx]; WalletPrompts: its
      payment protocol.  MyIncome: the handlers of [app/me/page.tsx].
    - VerifyPage: the page of [app/verify] against the service of
      Disclosure, whose handlers run on the server part of its state ([within]).
      LoginPage: [app/login/page.tsx] and [app/page.tsx], on the browser of WebSession.
    - StaffingCards: [components/staffing-cards.tsx]; StaffingOffers: its actions
      against the service of Staffing.
    - I18n: [lib/i18n.tsx], the dictionary and the locale; Ui: [components/ui.tsx].
      Connections: [components/venue-connection-cards.tsx] and
      [worker-connections.tsx] with [lib/solana.ts], over the answers of Workers and
      Organizations.  ShareForm: the form of [app/me/page.tsx] that shares a report,
      against the schema of [disclosure.controller.ts] and the service of Disclosure.

    A definition has the name of the method it models; [post_], [get_],
    [patch_] and [delete_] definitions are the controller methods, with their
    role guards.

    ** What the theorems show

    - Money is split exactly: [alloc_exact], [alloc_pool_and_blocking],
      [alloc_recipients] (allocation engine, in double precision),
      [day_shares_conserve], [splitProportionally_exact] (projection),
      [attach_conserves] (held shares), [settlementClose_adds_up] (the close of a
      day), [parse_format_roundtrip], [encodeBase58_value] (formats).
    - Nothing is paid twice by the USDC path: [submit_broadcasts_once] (all
      interleavings), [buildTransaction_golden_rule], [createUsdcPayout_spec];
      [outcomes_read_from_chain]: a payout is finalized or failed only on what the
      chain answered; [confirmation_finalizes]: a submitted payout whose
      transaction lands is paid out by the retried confirmation job, when no other
      job gives it up in between.
    - The on-chain program: [settle_payout_spec] (what a settlement that succeeds
      has checked and done), [settled_once] (a payment is settled at most once),
      [vault_accounted] (tokens leave a vault only against records); the services
      against it: [built_transaction_settles] (what the API builds the program
      carries out), [finalized_payout_settled] (what the worker calls final has
      one settlement), [finalized_unpaid] (but perhaps of another venue and amount).
    - Evidence: [importCsv_refines] and [sync_refines] (the tables refine finite
      maps under both writers), [evidence_stays_in_range] (all interleavings of
      both), [importCsv_idempotent], [normalizeCsv_partitions],
      [fetchEvidence_wellformed], [pages_complete], [sync_health],
      [flagStale_once], [splitCsvLine_reads], [payrollExport_reads_back],
      [generated_csv_reads_back] (the demo file reads back as what was drawn).
    - The demo: [seed_idempotent], [seed_refuses_other_venue], [doctor_ready] (what
      a check that does not fail says) and [ready_demo_pays] (on such a cluster the
      program carries the payment out, if what the check does not read holds too),
      [reset_clears], [prepare_spares_others] (the
      preparation keeps to the demo venue and its two confirmations, table by table),
      [allocate_exact] (its own split of a day, to the cent).
    - Approved and recorded facts stay: [recalculation_spares_approved],
      [approve_guarded], [calculation_stores_result] (batches),
      [correctEntry_one_active], [correctEntry_spec], [rebuild_keeps_ledger]
      (ledger; nor does a rebuild touch entries of other shifts), [createVersion_appends] (policies), [importRecords_spec] (payroll).
    - Staffing: [headcount_never_exceeded] (under every sequence of requests),
      [approve_attests] (attested evidence).
    - Access: [refresh_never_multiplies] and [oauth_state_single_use] (all
      interleavings), [verifyOtp_consumes], [verifyOtp_lockout],
      [assertVenueRole_iff], [verify_discloses_only_valid], [revoke_effective],
      [recipient_session_spec], [respond_owner_only], [payroll_status_guarded],
      [one_default_wallet], [post_member_spec], [decrypt_encrypt].
    - [timeline_pages_cover]: paging terminates, covers the timeline and shows it
      newest first.
    - The web client: [refresh_token_single_use] (all interleavings of the tabs:
      a refresh token is not presented again once answered, so the reuse
      detection of the API is not set off by a race; tabs come and go, but not
      while they hold the lock of a renewal, see [closed_tab_replays]),
      [renewed_session_accepted] (what the API renews its guard admits),
      [logout_forgets], [currentSession_spec], [tab_identity_isolated],
      [index_one_entry] (the accounts of a browser),
      [one_prompt_per_share] and [resolving_payout_not_signed] (the wallet is
      never asked for two signatures of one share), [worker_actions_accepted]
      (the staffing service carries out what the card offers),
      [timeline_no_duplicates], [update_real_date], [recipient_opens_report] (the
      code a recipient enters leads to the figures of the report),
      [figures_only_disclosed], [listed_session_opens], [ready_share_accepted] and
      [offered_answers_accepted] (what the enabled button of the form and the
      buttons of a pending request send, the services accept), [form_consistent].
    - Texts: [dict_ok], [locale_kept], [verify_keys_known], [shown_alerts_labelled]
      (every alert a worker is shown has its texts, after any jobs that write
      alerts), [member_stages_labelled], [status_tones].
    - Operation: [probes_answer] and [causes_bounded] (the health probes never
      throw, whatever the errors they describe refer to),
      [intercept_transparent], [recorded_queries], [queryIdentity_names].
    - Executions in which the code does not do what it means to do:
      [recalculation_races_approval], [corrections_race], [clock_in_race],
      [add_wallet_race], [imports_race] (checks outside the transaction that
      relies on them), [legacy_overwrites_in_flight], [decline_reopens_completed],
      [attach_race] (two acceptances run alternately lose a share),
      [attach_to_paid_row], [corrected_tip_stays] (missing status checks and
      keys), [reconcile_fails_settled] (a read order of the sweep),
      [held_key_collision], [finalized_unpaid] (a settlement of another venue is
      taken for the payment), [logout_undone_by_renewal] (a renewal in flight
      brings a logged-out account back), [closed_tab_replays] (a tab closed during a
      renewal loses the session), [paused_demo_passes] (what the readiness check
      does not read), [full_shift_offered],
      [filled_shift_invitation] (offers the service refuses),
      [range_skips_short_month], [fraction_of_a_cent] (the button is enabled for what
      the API refuses), [korean_payout_texts] (statuses without a text) and
      [probes_ex] (a part of a password in the answer of a probe).  [unlocked_tabs_replay] shows what the lock of
      [refresh_token_single_use] is for.  The sequential theorems are the other half:
      [recalculation_spares_approved], [correctEntry_one_active], [attach_conserves],
      [confirmation_finalizes], [logout_forgets],
      [headcount_never_exceeded] and [one_default_wallet] hold request by request
      and fail interleaved.  [export_line_break]: a field with a line break is split
      by a reader of lines, which [payrollExport_reads_back] therefore excludes of the
      whole text.

    ** Bounds and fuel

    Amounts and minutes are below 2^31 and a batch has at most 2^20 shifts in
    the exactness theorems: the columns are 32-bit integers, and within these
    bounds the error of every double operation stays below the distance to the next cent.
    Weights are zero or between 2^-200 and 2^200.  Formats are exact for all safe integers
    (below 2^53).  Fuel bounds four recursions: [IncomeService.walk], which answers
    [None] when it is spent, and [timeline_pages_cover] proves that any fuel above
    the number of entries is enough;
    [SquareClient.chunks], with the length of the list it cuts; and
    [SquareClient.pages], whose number of rounds is the server's choice:
    [pages_complete] proves the result for every fuel of at least the number of
    pages, and a larger one changes nothing; and the waiting for a lock or for the
    renewal another call has started ([polls] in WebSession.v), which gives up
    with an error when the fuel is spent: the safety theorems hold for every
    number of polls, and the witnesses use one that is never spent.  The
    dashboard follows a payout for the 30 rounds of its source, and the chain of
    causes of an error is followed for the five levels of its source.  Loops whose bound the
    code does not show ([distribute], the carries of base58) recurse on the remainder or
    on the carry, which every round lowers; [splitProportionally_exact] and
    [encodeBase58_value] depend on it.

    ** Not modelled

    zod parsing of request bodies (beyond the CSV row schema, the
    authentication endpoints, the code of a recipient and the request of a
    disclosure), the wiring of the
    framework and the connection to the database; mail bodies; the JWT library; the markup and the
    scrolling of the React pages (their handlers take the lookup of a text from
    the interface [Client]), the guide of grades, a page of text, and
    server-side rendering; the query cache, whose answers
    are answers of the outside; of the cluster, the token program and the rent
    only as far as the on-chain program relies on them, fees not at all;
    the declaration of queues and schedules; the operator scripts for the Square
    sandbox, the cluster and keys, shell scripts and tests, and what the demo
    scripts print.  Columns that only
    record when a row was written are left out where nothing of the model reads them
    (updatedAt, which the client rewrites on every update, is one: [seed_idempotent]
    holds up to it), foreign keys are lookups (what the database does to the columns
    that name a deleted row is not modelled), and so
    are left out the retry-after of a Square error and the prototype properties a
    JavaScript object has besides its own.  [trim] removes ASCII white space.
    An error of Prisma carries its code, not the text of the library.  The
    requests of a Promise.all are made in order.
    String lengths count bytes, which differs from JavaScript on
    non-ASCII text.  Transactions are atomic and isolated, which is stronger than PostgreSQL's
    default isolation between two transactions: races inside transactions are
    out of scope, races between them are modelled.  A timeline cursor that names no entry
    gives an empty page, as Prisma does. *)

From stdpp Require Export base list option strings.
From Stdlib Require Export Sorted.
From Stdlib Require Export ZArith Lia Bool.

(* ------------------------------------------------------------------ *)
(** ** Functional record update

    [r <| field := v |>] is the record [r] with [field] replaced, the reading
    of the source's [{ ...r, field: v }].  [Eta] gives the constructor applied
    to the projections; the setter of a field is found by abstracting that
    projection. *)

Class Eta (R : Type) := eta : R -> R.
Class Setter {R T : Type} (proj : R -> T) := set : (T -> T) -> R -> R.
Arguments set {R T} proj {_} _ _.

Ltac solve_setter :=
  match goal with
  | |- @Setter ?R ?T ?proj =>
      let i := constr:(_ : Eta R) in
      let i' := eval hnf in i in
      match eval pattern proj in i' with
      | ?F _ =>
          let s := eval cbv beta in
            (fun (f : T -> T) (r : R) => F (fun r0 => f (proj r0)) r) in
          exact s
      end
  end.

#[export] Hint Extern 1 (Setter _) => solve_setter : typeclass_instances.

Declare Scope record_scope.
Delimit Scope record_scope with record.
Notation "r <| p := v |>" := (set p (fun _ => v) r)
  (at level 1, left associativity, p at level 9) : record_scope.
Notation "r <| p ::= f |>" := (set p f r)
  (at level 1, left associativity, p at level 9) : record_scope.
#[global] Open Scope record_scope.

(* ------------------------------------------------------------------ *)
(** ** Decidable tests used as booleans *)

Notation "a ==? b" := (bool_decide (a = b)) (at level 70, no associativity).
Notation "a !=? b" := (negb (bool_decide (a = b))) (at level 70, no associativity).

(** [xs.includes(x)] *)
Definition includes {A} `{EqDecision A} (xs : list A) (x : A) : bool :=
  existsb (fun y => y ==? x) xs.

Section includes.
Context {A : Type} `{!EqDecision A}.

Lemma includes_In (xs : list A) x : includes xs x = true <-> In x xs.
Proof.
  unfold includes. rewrite existsb_exists. split.
  - intros (y & Hy & E). apply bool_decide_eq_true in E. by subst.
  - intros H. exists x. split; [done|]. by apply bool_decide_eq_true.
Qed.

Lemma includes_not_In (xs : list A) x : includes xs x = false <-> ~ In x xs.
Proof. rewrite <- includes_In. destruct (includes xs x); naive_solver. Qed.
End includes.

Lemma bd_refl {A} `{EqDecision A} (x : A) : (x ==? x) = true.
Proof. by apply bool_decide_eq_true. Qed.
Create Rewrite HintDb bd.
#[export] Hint Rewrite @bd_refl : bd.

(** JavaScript truthiness of a nullable string: [null], [undefined] and [""]
    are falsy. *)
Definition truthy (s : option string) : bool :=
  match s with Some s' => s' !=? "" | None => false end.

(** JavaScript [a ?? b] *)
Definition nullish {A} (a : option A) (b : A) : A :=
  match a with Some x => x | None => b end.

(** JavaScript [a ?? b] where [b] may be null too *)
Definition nullish2 {A} (a b : option A) : option A :=
  match a with Some x => Some x | None => b end.

(* ------------------------------------------------------------------ *)
(** ** Exceptions and results *)

(** The exceptions of the services: the NestJS [HttpException]s by class with
    their message, a plain [Error], the errors of the Square client and of the
    web client with the HTTP status, and a Prisma client error by code. *)
Inductive exn :=
| BadRequestException (msg : string)
| UnauthorizedException (msg : string)
| ForbiddenException (msg : string)
| NotFoundException (msg : string)
| ConflictException (msg : string)
| TooManyRequestsException (msg : string)
| ServiceUnavailableException (msg : string)
| JsError (msg : string)
| SquareApiError (msg : string) (status : Z)
| ApiError (status : Z) (msg : string)
| PrismaError (code : string).

#[export] Instance exn_eq_dec : EqDecision exn.
Proof. solve_decision. Defined.

(** [error.message] *)
Definition exn_message (e : exn) : string :=
  match e with
  | BadRequestException m | UnauthorizedException m | ForbiddenException m
  | NotFoundException m | ConflictException m | TooManyRequestsException m
  | ServiceUnavailableException m | JsError m | SquareApiError m _ | ApiError _ m => m
  | PrismaError c => c
  end.

Inductive result (A : Type) :=
| Ok (a : A)
| Err (e : exn).
Arguments Ok {A} a.
Arguments Err {A} e.

#[export] Instance result_eq_dec {A} `{EqDecision A} : EqDecision (result A).
Proof. solve_decision. Defined.

Definition is_ok {A} (r : result A) : bool := match r with Ok _ => true | Err _ => false end.

(** Sequencing of pure code that may throw. *)
Definition rbind {A B} (r : result A) (f : A -> result B) : result B :=
  match r with Ok a => f a | Err e => Err e end.

Declare Scope prog_scope.
Delimit Scope prog_scope with prog.
#[global] Open Scope prog_scope.
Notation "'try!' x := r 'in' k" := (rbind r (fun x => k))
  (at level 200, x name, right associativity) : prog_scope.

(* ------------------------------------------------------------------ *)
(** ** Programs

    An [async] handler is a sequence of atomic interactions with the world
    [W] (one database statement or transaction, one clock read, one remote
    call): between two [await]s another handler may run.  [Act op k] performs
    [op] and continues with its answer.  [run] is the execution with no
    interference; [Concurrency.v] interleaves programs action by action. *)

Inductive prog (W A : Type) : Type :=
| Ret (a : A)
| Throw (e : exn)
| Act (B : Type) (op : W -> W * B) (k : B -> prog W A).
Arguments Ret {W A} a.
Arguments Throw {W A} e.
Arguments Act {W A B} op k.

Fixpoint bind {W A B} (p : prog W A) (f : A -> prog W B) : prog W B :=
  match p with
  | Ret a => f a
  | Throw e => Throw e
  | Act op k => Act op (fun b => bind (k b) f)
  end.

(** [try { p } catch (e) { h e }] *)
Fixpoint catch {W A} (p : prog W A) (h : exn -> prog W A) : prog W A :=
  match p with
  | Ret a => Ret a
  | Throw e => h e
  | Act op k => Act op (fun b => catch (k b) h)
  end.

Notation "'let*' x := p 'in' k" := (bind p (fun x => k))
  (at level 200, x name, right associativity) : prog_scope.
Notation "'let*' ' pat := p 'in' k" := (bind p (fun x => match x with pat => k end))
  (at level 200, pat strict pattern, right associativity) : prog_scope.
Notation "'do*' p 'in' k" := (bind p (fun _ => k))
  (at level 200, right associativity) : prog_scope.

Fixpoint run {W A} (p : prog W A) (w : W) : W * result A :=
  match p with
  | Ret a => (w, Ok a)
  | Throw e => (w, Err e)
  | Act op k => let '(w', b) := op w in run (k b) w'
  end.

Definition lift_result {W A} (r : result A) : prog W A :=
  match r with Ok a => Ret a | Err e => Throw e end.

(** An atomic action that may throw. *)
Definition act {W A} (op : W -> W * result A) : prog W A := Act op lift_result.

(** An atomic read. *)
Definition query {W A} (f : W -> A) : prog W A := Act (fun w => (w, f w)) Ret.

(** [prisma.$transaction]: all the statements or none. *)
Definition transaction {W A} (p : prog W A) : prog W A :=
  act (fun w => match run p w with (w', Ok a) => (w', Ok a) | (_, Err e) => (w, Err e) end).

(** [if (c) throw e] *)
Definition throw_if {W} (c : bool) (e : exn) : prog W unit :=
  if c then Throw e else Ret tt.

(** [if (x === null) throw e] *)
Definition require {W A} (o : option A) (e : exn) : prog W A :=
  match o with Some a => Ret a | None => Throw e end.

Fixpoint for_each {W A} (xs : list A) (body : A -> prog W unit) : prog W unit :=
  match xs with
  | [] => Ret tt
  | x :: xs' => do* body x in for_each xs' body
  end.

(** A program that runs on a part of a larger state. *)
Fixpoint within {W V A} (get : V -> W) (put : W -> V -> V) (p : prog W A) : prog V A :=
  match p with
  | Ret a => Ret a
  | Throw e => Throw e
  | Act op k => Act (fun v => let '(w, b) := op (get v) in (put w v, b)) (fun b => within get put (k b))
  end.

(** A loop that threads an accumulator. *)
Fixpoint fold_prog {W A B} (xs : list A) (acc : B) (body : B -> A -> prog W B) : prog W B :=
  match xs with
  | [] => Ret acc
  | x :: xs' => let* acc' := body acc x in fold_prog xs' acc' body
  end.

Lemma run_bind {W A B} (p : prog W A) (f : A -> prog W B) w :
  run (bind p f) w =
  match run p w with
  | (w', Ok a) => run (f a) w'
  | (w', Err e) => (w', Err e)
  end.
Proof.
  revert w. induction p as [a|e|C op k IH]; intros w; cbn; try done.
  destruct (op w) as [w' b]. apply IH.
Qed.

Lemma run_catch {W A} (p : prog W A) h w :
  run (catch p h) w =
  match run p w with
  | (w', Ok a) => (w', Ok a)
  | (w', Err e) => run (h e) w'
  end.
Proof.
  revert w. induction p as [a|e|C op k IH]; intros w; cbn; try done.
  destruct (op w) as [w' b]. apply IH.
Qed.

Lemma run_act {W A} (op : W -> W * result A) w : run (act op) w = op w.
Proof. unfold act; cbn. by destruct (op w) as [w' [a|e]]. Qed.

Lemma run_query {W A} (f : W -> A) w : run (query f) w = (w, Ok (f w)).
Proof. done. Qed.

Lemma run_transaction {W A} (p : prog W A) w :
  run (transaction p) w =
  match run p w with (w', Ok a) => (w', Ok a) | (_, Err e) => (w, Err e) end.
Proof. unfold transaction. by rewrite run_act. Qed.

Lemma run_throw_if {W} c e (w : W) :
  run (throw_if c e) w = (w, if c then Err e else Ok tt).
Proof. by destruct c. Qed.

Lemma run_require {W A} (o : option A) e (w : W) :
  run (require o e) w = (w, match o with Some a => Ok a | None => Err e end).
Proof. by destruct o. Qed.

Lemma run_ret {W A} (a : A) (w : W) : run (Ret a) w = (w, Ok a).
Proof. done. Qed.
Lemma run_throw {W A} e (w : W) : run (Throw (A:=A) e) w = (w, Err e).
Proof. done. Qed.

Lemma run_within {W V A} (get : V -> W) (put : W -> V -> V) (p : prog W A) v :
  (forall w v, get (put w v) = w) -> (forall w w' v, put w' (put w v) = put w' v) -> (forall v, put (get v) v = v) ->
  run (within get put p) v = let '(w, r) := run p (get v) in (put w v, r).
Proof.
  intros Hgp Hpp Hpg. revert v. induction p as [a|e|B op k IH]; intros v; cbn; [by rewrite Hpg|by rewrite Hpg|].
  destruct (op (get v)) as [w b]. rewrite IH, Hgp. destruct (run (k b) w) as [w' r]. by rewrite Hpp.
Qed.

Create Rewrite HintDb run.
#[export] Hint Rewrite @run_ret @run_throw @run_bind @run_catch @run_act @run_query @run_transaction
  @run_throw_if @run_require : run.

(* ------------------------------------------------------------------ *)
(** ** Tables

    A table of the database is the list of its rows, in the order a query
    without [orderBy] returns them.  [row_clash new old] says that a unique
    constraint of schema.prisma forbids inserting [new] beside [old]. *)

Class Row (R : Type) := { row_id : R -> string; row_clash : R -> R -> bool }.

Class Table (W R : Type) := {
  rows : W -> list R;
  set_rows : list R -> W -> W
}.

Definition by_id {R} `{Row R} (i : string) (r : R) : bool := row_id r ==? i.

Definition upd_where {R} (p : R -> bool) (f : R -> R) (l : list R) : list R :=
  map (fun r => if p r then f r else r) l.

Section statements.
Context {W R : Type} `{!Row R} `{!Table W R}.

Definition findFirst (p : R -> bool) : prog W (option R) :=
  query (fun w => List.find p (rows w)).

Definition findUnique (i : string) : prog W (option R) := findFirst (by_id i).

Definition findMany (p : R -> bool) : prog W (list R) :=
  query (fun w => List.filter p (rows w)).

Definition countRows (p : R -> bool) : prog W nat :=
  query (fun w => length (List.filter p (rows w))).

(** [updateMany] answers the number of rows it changed. *)
Definition updateMany (p : R -> bool) (f : R -> R) : prog W nat :=
  Act (fun w => (set_rows (upd_where p f (rows w)) w, length (List.filter p (rows w)))) Ret.

(** [update({ where: { id } })] throws P2025 when there is no such row. *)
Definition update (i : string) (f : R -> R) : prog W R :=
  act (fun w => match List.find (by_id i) (rows w) with
                | Some r => (set_rows (upd_where (by_id i) f (rows w)) w, Ok (f r))
                | None => (w, Err (PrismaError "P2025"))
                end).

(** [create] throws P2002 when a unique constraint is violated. *)
Definition create (r : R) : prog W R :=
  act (fun w => if existsb (row_clash r) (rows w) then (w, Err (PrismaError "P2002"))
                else (set_rows (rows w ++ [r]) w, Ok r)).

(** [upsert] on a unique key [p]. *)
Definition upsert (p : R -> bool) (f : R -> R) (r : R) : prog W R :=
  act (fun w => match List.find p (rows w) with
                | Some old => (set_rows (upd_where p f (rows w)) w, Ok (f old))
                | None => if existsb (row_clash r) (rows w)
                          then (w, Err (PrismaError "P2002"))
                          else (set_rows (rows w ++ [r]) w, Ok r)
                end).

Definition deleteMany (p : R -> bool) : prog W unit :=
  Act (fun w => (set_rows (List.filter (fun r => negb (p r)) (rows w)) w, tt)) Ret.

Definition delete (i : string) : prog W unit :=
  act (fun w => match List.find (by_id i) (rows w) with
                | Some _ => (set_rows (List.filter (fun r => negb (by_id i r)) (rows w)) w, Ok tt)
                | None => (w, Err (PrismaError "P2025"))
                end).

Lemma run_findFirst p w : run (findFirst p) w = (w, Ok (List.find p (rows w))).
Proof. done. Qed.
Lemma run_findUnique i w : run (findUnique i) w = (w, Ok (List.find (by_id i) (rows w))).
Proof. done. Qed.
Lemma run_findMany p w : run (findMany p) w = (w, Ok (List.filter p (rows w))).
Proof. done. Qed.
Lemma run_countRows p w : run (countRows p) w = (w, Ok (length (List.filter p (rows w)))).
Proof. done. Qed.
Lemma run_updateMany p f w :
  run (updateMany p f) w
  = (set_rows (upd_where p f (rows w)) w, Ok (length (List.filter p (rows w)))).
Proof. done. Qed.
Lemma run_update i f w :
  run (update i f) w =
  match List.find (by_id i) (rows w) with
  | Some r => (set_rows (upd_where (by_id i) f (rows w)) w, Ok (f r))
  | None => (w, Err (PrismaError "P2025"))
  end.
Proof. unfold update. by rewrite run_act. Qed.
Lemma run_create r w :
  run (create r) w =
  if existsb (row_clash r) (rows w) then (w, Err (PrismaError "P2002"))
  else (set_rows (rows w ++ [r]) w, Ok r).
Proof. unfold create. by rewrite run_act. Qed.
Lemma run_upsert p f r w :
  run (upsert p f r) w =
  match List.find p (rows w) with
  | Some old => (set_rows (upd_where p f (rows w)) w, Ok (f old))
  | None => if existsb (row_clash r) (rows w) then (w, Err (PrismaError "P2002"))
            else (set_rows (rows w ++ [r]) w, Ok r)
  end.
Proof. unfold upsert. by rewrite run_act. Qed.
Lemma run_deleteMany p w :
  run (deleteMany p) w = (set_rows (List.filter (fun r => negb (p r)) (rows w)) w, Ok tt).
Proof. done. Qed.
Lemma run_delete i w :
  run (delete i) w =
  match List.find (by_id i) (rows w) with
  | Some _ => (set_rows (List.filter (fun r => negb (by_id i r)) (rows w)) w, Ok tt)
  | None => (w, Err (PrismaError "P2025"))
  end.
Proof. unfold delete. by rewrite run_act. Qed.
End statements.

#[export] Hint Rewrite @run_findFirst @run_findUnique @run_findMany @run_countRows
  @run_updateMany @run_update @run_create @run_upsert @run_deleteMany @run_delete : run.

#[global] Arguments findFirst : simpl never.
#[global] Arguments findUnique : simpl never.
#[global] Arguments findMany : simpl never.
#[global] Arguments countRows : simpl never.
#[global] Arguments updateMany : simpl never.
#[global] Arguments update : simpl never.
#[global] Arguments create : simpl never.
#[global] Arguments upsert : simpl never.
#[global] Arguments deleteMany : simpl never.
#[global] Arguments delete : simpl never.
#[global] Arguments transaction : simpl never.
#[global] Arguments act : simpl never.
#[global] Arguments query : simpl never.
#[global] Arguments throw_if : simpl never.
#[global] Arguments require : simpl never.
#[global] Arguments upd_where : simpl never.

(** Symbolic execution of a handler. *)
Ltac exec := repeat (progress (autorewrite with run; cbn [fst snd])).

(* ------------------------------------------------------------------ *)
(** ** Lemmas on rows *)

Section rows.
Context {R : Type}.
Implicit Types (l : list R) (p q : R -> bool) (f : R -> R).

Lemma upd_where_length p f l : length (upd_where p f l) = length l.
Proof. apply length_map. Qed.

Lemma upd_where_id p f l :
  (forall r, In r l -> p r = true -> f r = r) -> upd_where p f l = l.
Proof.
  intros H. unfold upd_where. rewrite <- (map_id l) at 2. apply map_ext_in.
  intros r Hr. destruct (p r) eqn:E; auto.
Qed.

Lemma in_upd_where p f l r :
  In r (upd_where p f l) <->
  exists r0, In r0 l /\ r = (if p r0 then f r0 else r0).
Proof. unfold upd_where. rewrite in_map_iff. naive_solver. Qed.

Lemma filter_upd_where p f q l :
  (forall r, In r l -> p r = true -> q (f r) = q r) ->
  List.filter q (upd_where p f l) = upd_where p f (List.filter q l).
Proof.
  unfold upd_where. induction l as [|r l IH]; intros H; cbn; [done|].
  rewrite IH by (intros; apply H; cbn; auto).
  assert (q (if p r then f r else r) = q r) as ->.
  { destruct (p r) eqn:E; [apply H; cbn; auto|done]. }
  by destruct (q r).
Qed.

Lemma find_upd_where p f q l :
  (forall r, In r l -> p r = true -> q (f r) = q r) ->
  List.find q (upd_where p f l) = (fun r => if p r then f r else r) <$> List.find q l.
Proof.
  unfold upd_where. induction l as [|r l IH]; intros H; cbn; [done|].
  assert (q (if p r then f r else r) = q r) as ->.
  { destruct (p r) eqn:E; [apply H; cbn; auto|done]. }
  destruct (q r); [done|]. apply IH. intros; apply H; cbn; auto.
Qed.

(** Rows that an update takes out of [q] are no longer counted. *)
Lemma filter_upd_claim p f q l :
  (forall r, p r = true -> q r = true /\ q (f r) = false) ->
  length (List.filter q (upd_where p f l)) + length (List.filter p l) = length (List.filter q l).
Proof.
  intros H. unfold upd_where. induction l as [|r l IH]; cbn [map List.filter]; [done|].
  destruct (p r) eqn:E.
  - destruct (H r E) as [-> ->]. cbn [length]. lia.
  - destruct (q r); cbn [length]; lia.
Qed.

(** An update that puts no row into [q] does not raise their number. *)
Lemma filter_upd_le p f q l :
  (forall r, In r l -> p r = true -> q (f r) = true -> q r = true) ->
  length (List.filter q (upd_where p f l)) <= length (List.filter q l).
Proof.
  unfold upd_where. induction l as [|r l IH]; intros H; cbn [map List.filter]; [done|].
  specialize (IH (fun x Hx => H x (or_intror Hx))). pose proof (H r (or_introl eq_refl)) as Hr.
  destruct (p r).
  - destruct (q (f r)); [rewrite (Hr eq_refl eq_refl)|destruct (q r)]; cbn [length]; lia.
  - destruct (q r); cbn [length]; lia.
Qed.

Lemma find_app p l1 l2 :
  List.find p (l1 ++ l2) = match List.find p l1 with Some r => Some r | None => List.find p l2 end.
Proof. induction l1 as [|r l1 IH]; cbn; [done|]. by destruct (p r). Qed.

Lemma find_In p l r : List.find p l = Some r -> In r l /\ p r = true.
Proof. apply List.find_some. Qed.

Lemma find_none_filter p l : List.find p l = None -> List.filter p l = [].
Proof.
  induction l as [|r l IH]; cbn; [done|]. by destruct (p r).
Qed.

Lemma filter_length_le p l : length (List.filter p l) <= length l.
Proof. induction l as [|r l IH]; cbn; [lia|]. destruct (p r); cbn; lia. Qed.

Lemma filter_filter p q l :
  List.filter p (List.filter q l) = List.filter (fun r => p r && q r) l.
Proof.
  induction l as [|r l IH]; cbn; [done|].
  destruct (q r) eqn:E; cbn; rewrite ?IH; by destruct (p r).
Qed.

Lemma filter_ext_in p q l :
  (forall r, In r l -> p r = q r) -> List.filter p l = List.filter q l.
Proof. apply List.filter_ext_in. Qed.

Lemma filter_none p l : (forall r, In r l -> p r = false) -> List.filter p l = [].
Proof.
  induction l as [|r l IH]; intros H; cbn; [done|].
  rewrite H by (cbn; auto). apply IH. intros; apply H; cbn; auto.
Qed.
End rows.

(** A function without duplicates over a list identifies its elements. *)
Lemma NoDup_map_inj {R X} (f : R -> X) (l : list R) a b :
  NoDup (map f l) -> In a l -> In b l -> f a = f b -> a = b.
Proof.
  induction l as [|x l IH]; cbn; intros HN Ha Hb E; [done|].
  apply NoDup_cons in HN as [Hn HN]. rewrite list_elem_of_In in Hn.
  destruct Ha as [->|Ha], Hb as [->|Hb]; [done| | |by apply IH]; exfalso; apply Hn.
  - rewrite E. by apply in_map.
  - rewrite <- E. by apply in_map.
Qed.

(** With distinct primary keys a row is found by its key. *)
Lemma find_by_id_NoDup {R} `{Row R} (l : list R) r :
  NoDup (map row_id l) -> In r l -> List.find (by_id (row_id r)) l = Some r.
Proof.
  intros HN Hr. destruct (List.find (by_id (row_id r)) l) as [x|] eqn:E.
  - apply find_In in E as [Hx Ex]. apply bool_decide_eq_true in Ex. f_equal.
    by apply (NoDup_map_inj row_id l).
  - exfalso. apply (List.find_none _ _ E) in Hr. unfold by_id in Hr. by rewrite bd_refl in Hr.
Qed.

(** The primary key and the unique constraints hold: rows that collide are the
    same row. *)
Definition unique_rows {R} `{Row R} (l : list R) : Prop :=
  NoDup (map row_id l) /\
  forall r1 r2, In r1 l -> In r2 l -> row_clash r1 r2 = true -> r1 = r2.

Lemma unique_by_id {R} `{Row R} (l : list R) r1 r2 :
  unique_rows l -> In r1 l -> In r2 l -> row_id r1 = row_id r2 -> r1 = r2.
Proof. intros [HN _]. by apply NoDup_map_inj. Qed.

Lemma find_by_id_unique {R} `{Row R} (l : list R) r :
  unique_rows l -> In r l -> List.find (by_id (row_id r)) l = Some r.
Proof. intros [HN _]. by apply find_by_id_NoDup. Qed.

Lemma NoDup_map_filter {R X} (f : R -> X) (p : R -> bool) (l : list R) :
  NoDup (map f l) -> NoDup (map f (List.filter p l)).
Proof.
  induction l as [|r l IH]; cbn [map List.filter]; [done|]. intros H. apply NoDup_cons in H as [Hn H].
  destruct (p r); cbn [map]; [|auto]. apply NoDup_cons. split; [|auto].
  rewrite list_elem_of_In in Hn |- *. rewrite in_map_iff in Hn |- *.
  intros (x & E & Hx). apply Hn. exists x. split; [done|]. by apply filter_In in Hx as [? _].
Qed.

(** [distinct]: the first of each value. *)
Definition distinct {A} `{EqDecision A} (l : list A) : list A :=
  fold_left (fun acc v => if includes acc v then acc else acc ++ [v]) l [].

(** Sum of a numeric field. *)
Fixpoint sumZ {R} (f : R -> Z) (l : list R) : Z :=
  match l with [] => 0%Z | r :: l' => (f r + sumZ f l')%Z end.

Section sumZ.
Context {R : Type}.
Implicit Types (l : list R) (f g : R -> Z).

Lemma sumZ_app f l1 l2 : sumZ f (l1 ++ l2) = (sumZ f l1 + sumZ f l2)%Z.
Proof. induction l1 as [|r l1 IH]; cbn; lia. Qed.

Lemma sumZ_ext_in f g l : (forall r, In r l -> f r = g r) -> sumZ f l = sumZ g l.
Proof.
  induction l as [|r l IH]; intros H; cbn; [done|].
  rewrite (H r) by (cbn; auto). f_equal. apply IH. intros; apply H; cbn; auto.
Qed.

Lemma sumZ_map {X} (h : X -> R) f (l : list X) :
  sumZ f (map h l) = sumZ (fun x => f (h x)) l.
Proof. induction l as [|x l IH]; cbn; [done|]. by rewrite IH. Qed.

Lemma sumZ_Permutation f l1 l2 : l1 ≡ₚ l2 -> sumZ f l1 = sumZ f l2.
Proof. induction 1; cbn; lia. Qed.

Lemma sumZ_nonneg f l : (forall r, In r l -> (0 <= f r)%Z) -> (0 <= sumZ f l)%Z.
Proof.
  induction l as [|r l IH]; intros H; cbn; [lia|].
  pose proof (H r (or_introl eq_refl)). pose proof (IH (fun r0 h => H r0 (or_intror h))). lia.
Qed.

Lemma sumZ_plus f g l : sumZ (fun r => (f r + g r)%Z) l = (sumZ f l + sumZ g l)%Z.
Proof. induction l as [|r l IH]; cbn; lia. Qed.

(** The reading of [xs.reduce((s, x) => s + f(x), acc)]. *)
Lemma fold_left_sumZ f l acc :
  fold_left (fun s r => (s + f r)%Z) l acc = (acc + sumZ f l)%Z.
Proof. revert acc. induction l as [|r l IH]; intros acc; cbn; [lia|]. rewrite IH. lia. Qed.
End sumZ.

(* ------------------------------------------------------------------ *)
(** ** JavaScript maps and stable sorting *)

(** A JavaScript [Map] (or an object used as one): entries in insertion
    order; setting an existing key keeps its place. *)
Section jsmap.
Context {K V : Type} `{!EqDecision K}.

Fixpoint map_get (m : list (K * V)) (k : K) : option V :=
  match m with
  | [] => None
  | (k', v) :: m' => if k' ==? k then Some v else map_get m' k
  end.

Fixpoint map_set (m : list (K * V)) (k : K) (v : V) : list (K * V) :=
  match m with
  | [] => [(k, v)]
  | (k', v') :: m' => if k' ==? k then (k', v) :: m' else (k', v') :: map_set m' k v
  end.

Lemma map_get_set_eq m k v : map_get (map_set m k v) k = Some v.
Proof.
  induction m as [|[k' v'] m IH]; cbn; [by rewrite bd_refl|].
  destruct (bool_decide (k' = k)) eqn:E; cbn; rewrite E; auto.
Qed.

Lemma map_get_set_ne m k k2 v : k <> k2 -> map_get (map_set m k v) k2 = map_get m k2.
Proof.
  intros Hne. induction m as [|[k' v'] m IH]; cbn.
  - by rewrite bool_decide_eq_false_2.
  - destruct (bool_decide (k' = k)) eqn:E; cbn.
    + apply bool_decide_eq_true in E as ->. by rewrite !bool_decide_eq_false_2.
    + by rewrite IH.
Qed.

Lemma map_set_keys m k v k2 :
  In k2 (map fst (map_set m k v)) <-> k2 = k \/ In k2 (map fst m).
Proof.
  induction m as [|[k' v'] m IH]; cbn; [naive_solver|].
  destruct (bool_decide (k' = k)) eqn:E; cbn.
  - apply bool_decide_eq_true in E as ->. naive_solver.
  - rewrite IH. naive_solver.
Qed.

Lemma map_set_NoDup m k v : NoDup (map fst m) -> NoDup (map fst (map_set m k v)).
Proof.
  induction m as [|[k' v'] m IH]; cbn; intros H.
  - apply NoDup_singleton.
  - apply NoDup_cons in H as [Hn Hd].
    destruct (bool_decide (k' = k)) eqn:E; cbn; apply NoDup_cons; [done|].
    split; [|auto]. rewrite list_elem_of_In in Hn |- *. rewrite map_set_keys.
    apply bool_decide_eq_false in E. naive_solver.
Qed.
End jsmap.

(** [Array.prototype.sort]: a stable sort by a comparator; [lt a b] reads
    "the comparator of [(a, b)] is negative". *)
Section sort.
Context {A : Type} (lt : A -> A -> bool).

Fixpoint sort_insert (x : A) (l : list A) : list A :=
  match l with
  | [] => [x]
  | y :: l' => if lt y x then y :: sort_insert x l' else x :: y :: l'
  end.

Definition stable_sort (l : list A) : list A := fold_right sort_insert [] l.

Lemma sort_insert_Permutation x l : sort_insert x l ≡ₚ x :: l.
Proof.
  induction l as [|y l IH]; cbn; [done|].
  destruct (lt y x); [|done]. rewrite IH. apply Permutation_swap.
Qed.

Lemma stable_sort_Permutation l : stable_sort l ≡ₚ l.
Proof.
  induction l as [|x l IH]; cbn; [done|]. by rewrite sort_insert_Permutation, IH.
Qed.

(** Sorted by any order the comparator decides. *)
Lemma stable_sort_sorted (R : A -> A -> Prop) l :
  Transitive R -> (forall a b, lt a b = true -> R a b) -> (forall a b, lt a b = false -> R b a) ->
  StronglySorted R (stable_sort l).
Proof.
  intros HT Hlt Hnlt.
  assert (forall x l, StronglySorted R l -> StronglySorted R (sort_insert x l)) as Hi.
  { intros x l0. induction 1 as [|y l0 Hs IH Hy]; cbn; [by repeat constructor|]. destruct (lt y x) eqn:E.
    - constructor; [exact IH|]. rewrite sort_insert_Permutation. constructor; [by apply Hlt|done].
    - constructor; [by constructor|]. constructor; [by apply Hnlt|]. eapply Forall_impl; [exact Hy|].
      intros z Hz. by etransitivity; [apply Hnlt|]. }
  induction l as [|x l IH]; cbn; [constructor|by apply Hi].
Qed.
End sort.

(* ------------------------------------------------------------------ *)
(** ** Loops of upserts

    A loop that upserts the rows of a list of items [X], each under its unique
    key.  [key x] finds the row of an item, [upd x] overwrites the columns the
    item carries and [new i x] is the row created for it. *)
Section upserts.
Context {W R X A : Type} `{!Row R} `{!Table W R}.
Context (key : X -> R -> bool) (upd : X -> R -> R) (new : string -> X -> R).
Context (body : A -> X -> prog W A) (next : A -> X -> A) (ok : X -> Prop).
Hypothesis key_upd : forall x y r, key y (upd x r) = key y r.
Hypothesis upd_upd : forall x y r, upd x (upd y r) = upd x r.
Hypothesis upd_new : forall i x, upd x (new i x) = new i x.
Hypothesis key_new : forall i x, key x (new i x) = true.
Hypothesis body_spec : forall acc x w w' acc', run (body acc x) w = (w', Ok acc') ->
  ok x /\ acc' = next acc x /\
  match List.find (key x) (rows w) with
  | Some _ => rows w' = upd_where (key x) (upd x) (rows w)
  | None => exists i, rows w' = rows w ++ [new i x]
  end.
Hypothesis body_total : forall acc x w, ok x -> List.find (key x) (rows w) <> None ->
  exists w', run (body acc x) w = (w', Ok (next acc x)) /\ rows w' = upd_where (key x) (upd x) (rows w).

(** What the items of a list leave of a row. *)
Definition apply_all (xs : list X) (r : R) : R :=
  fold_left (fun r x => if key x r then upd x r else r) xs r.

Lemma apply_all_key xs y r : key y (apply_all xs r) = key y r.
Proof.
  revert r. induction xs as [|x xs IH]; intros r; [done|]. cbn. rewrite IH.
  destruct (key x r); [apply key_upd|done].
Qed.

Lemma apply_all_absorb xs y r : upd y (apply_all xs r) = upd y r.
Proof.
  revert r. induction xs as [|x xs IH]; intros r; [done|]. cbn. rewrite IH.
  destruct (key x r); [apply upd_upd|done].
Qed.

Lemma apply_all_app xs x r :
  apply_all (xs ++ [x]) r = if key x r then upd x r else apply_all xs r.
Proof.
  unfold apply_all at 1. rewrite fold_left_app. cbn. fold (apply_all xs r). rewrite apply_all_key.
  by rewrite apply_all_absorb.
Qed.

Lemma upserts_find_key x y (l : list R) :
  List.find (key y) l <> None -> List.find (key y) (upd_where (key x) (upd x) l) <> None.
Proof.
  induction l as [|r l IH]; [done|]. unfold upd_where. cbn. fold (upd_where (key x) (upd x) l).
  assert (key y (if key x r then upd x r else r) = key y r) as -> by (destruct (key x r); [apply key_upd|done]).
  by destruct (key y r).
Qed.

(** After a pass every row is as the items leave it, and every item has one. *)
Lemma upserts_settle done_ xs acc acc' w w' :
  run (fold_prog xs acc body) w = (w', Ok acc') ->
  Forall (fun r => apply_all done_ r = r) (rows w) -> Forall ok done_ ->
  Forall (fun x => List.find (key x) (rows w) <> None) done_ ->
  acc' = fold_left next xs acc /\
  Forall (fun r => apply_all (done_ ++ xs) r = r) (rows w') /\ Forall ok (done_ ++ xs) /\
  Forall (fun x => List.find (key x) (rows w') <> None) (done_ ++ xs).
Proof.
  revert done_ acc w. induction xs as [|x xs IH]; intros done_ acc w E HS HO HK; cbn [fold_prog] in E.
  { injection E as <- <-. by rewrite app_nil_r. }
  rewrite run_bind in E. destruct (run (body acc x) w) as [w1 [acc1|e]] eqn:E1; [|done].
  apply body_spec in E1 as (Hx & -> & E1).
  assert (Forall (fun r => apply_all (done_ ++ [x]) r = r) (rows w1) /\
          Forall (fun y => List.find (key y) (rows w1) <> None) (done_ ++ [x])) as [HS1 HK1].
  { destruct (List.find (key x) (rows w)) as [r0|] eqn:Ef.
    - rewrite E1. split.
      + unfold upd_where. apply Forall_map. eapply Forall_impl; [exact HS|]. intros r Hr. cbn.
        rewrite apply_all_app. destruct (key x r) eqn:Ek; [by rewrite key_upd, Ek, upd_upd|by rewrite Ek].
      + apply Forall_app. split; [|constructor; [|done]].
        * eapply Forall_impl; [exact HK|]. intros y. apply upserts_find_key.
        * apply upserts_find_key. by rewrite Ef.
    - destruct E1 as [i E1]. rewrite E1. split.
      + apply Forall_app. split; [|constructor; [|done]].
        * rewrite Forall_forall in HS |- *. intros r Hr. rewrite apply_all_app.
          assert (key x r = false) as -> by (apply (List.find_none _ _ Ef); by apply list_elem_of_In). by apply HS.
        * by rewrite apply_all_app, key_new, upd_new.
      + apply Forall_app. split; [|constructor; [|done]].
        * eapply Forall_impl; [exact HK|]. intros y. cbn beta. rewrite find_app. by destruct (List.find (key y) (rows w)).
        * rewrite find_app, Ef. cbn. by rewrite key_new. }
  apply (IH (done_ ++ [x])) in E as E2; [|done|apply Forall_app; split; [done|by constructor]|done].
  by rewrite <- app_assoc in E2.
Qed.

(** A pass over items that all have their row only updates. *)
Lemma upserts_again xs acc w :
  Forall ok xs -> Forall (fun x => List.find (key x) (rows w) <> None) xs ->
  exists w', run (fold_prog xs acc body) w = (w', Ok (fold_left next xs acc)) /\
             rows w' = map (apply_all xs) (rows w).
Proof.
  revert acc w. induction xs as [|x xs IH]; intros acc w HO HK; cbn [fold_prog].
  { exists w. split; [done|]. symmetry. apply map_id. }
  apply Forall_cons in HO as [Hx HO]. apply Forall_cons in HK as [Hk HK].
  destruct (body_total acc x w Hx Hk) as (w1 & E1 & R1). rewrite run_bind, E1.
  destruct (IH (next acc x) w1) as (w2 & E2 & R2); [done| |].
  { rewrite R1. eapply Forall_impl; [exact HK|]. intros y. apply upserts_find_key. }
  exists w2. split; [exact E2|]. rewrite R2, R1. unfold upd_where. rewrite map_map. done.
Qed.

(** Repeating a pass that succeeded succeeds with the same answer and leaves
    the rows as they are. *)
Lemma upserts_idempotent xs acc acc' w w1 w2 :
  run (fold_prog xs acc body) w = (w1, Ok acc') -> rows w2 = rows w1 ->
  exists w', run (fold_prog xs acc body) w2 = (w', Ok acc') /\ rows w' = rows w1.
Proof.
  intros E Hw. apply (upserts_settle []) in E as (-> & HS & HO & HK); [|by apply Forall_true|done|done].
  destruct (upserts_again xs acc w2 HO) as (w' & E & ER); [by rewrite Hw|].
  exists w'. split; [exact E|]. rewrite ER, Hw. clear -HS.
  induction HS as [|r l Hr _ IH]; [done|]. cbn [map]. f_equal; [exact Hr|exact IH].
Qed.
End upserts.
