(* ===== verification/Concurrency.v ===== *)
(** * Interleaved handlers

    The API and the worker process run many handlers at once on one database;
    each is a [prog] whose actions are atomic.  This file gives the
    interleaving step relation of a pool of handlers, an executable scheduler,
    and the proof rules the components use: an invariant every action keeps,
    and a potential that no action raises beyond the tokens its handler holds
    (which bounds how often a guarded effect can happen under any
    interleaving). *)

From S2P Require Import Prelude.
From stdpp Require Import relations.

Section pool.
Context {W A : Type}.

Definition pool : Type := W * list (prog W A).

(** One handler of the pool performs its next action. *)
Inductive pool_step : pool -> pool -> Prop :=
| pool_step_act w ts1 B (op : W -> W * B) k ts2 w' b :
    op w = (w', b) ->
    pool_step (w, ts1 ++ Act op k :: ts2) (w', ts1 ++ k b :: ts2).

(** An executable schedule: the indices of the handlers that step.  An index
    that names no runnable handler is skipped. *)
Definition sched_step (i : nat) (c : pool) : pool :=
  match c.2 !! i with
  | Some (Act op k) => let '(w', b) := op c.1 in (w', <[i:=k b]> c.2)
  | _ => c
  end.

Fixpoint schedule (order : list nat) (c : pool) : pool :=
  match order with
  | [] => c
  | i :: order' => schedule order' (sched_step i c)
  end.

Lemma sched_step_sound i c : c = sched_step i c \/ pool_step c (sched_step i c).
Proof.
  unfold sched_step. destruct c as [w ts]; cbn.
  destruct (ts !! i) as [p|] eqn:E; [|by left]. destruct p as [a|e|B op k]; [by left..|].
  destruct (op w) as [w' b] eqn:Eop. right.
  pose proof (lookup_lt_Some _ _ _ E) as Hlt.
  rewrite insert_take_drop by done.
  rewrite <- (take_drop_middle ts i (Act op k)) at 1 by done.
  by constructor.
Qed.

Lemma schedule_sound order c : rtc pool_step c (schedule order c).
Proof.
  revert c. induction order as [|i order IH]; intros c; cbn; [done|].
  destruct (sched_step_sound i c) as [<-|Hs]; [apply IH|].
  eapply rtc_l; [exact Hs|apply IH].
Qed.

(** A step neither adds nor drops a handler. *)
Lemma pool_step_length c c' : pool_step c c' -> length c'.2 = length c.2.
Proof. intros []. cbn. by rewrite !length_app. Qed.
End pool.

(* ------------------------------------------------------------------ *)
(** ** The proof rules *)

Section safe.
Context {W : Type} (I : W -> Prop) (pot : W -> nat).

(** [safe t p Q]: holding [t] tokens, [p] keeps the invariant at each of its
    actions, whatever other handlers did before it; an action may raise the
    potential only by spending tokens; [p] ends in [Q]. *)
Fixpoint safe {A} (t : nat) (p : prog W A) (Q : result A -> nat -> Prop) : Prop :=
  match p with
  | Ret a => Q (Ok a) t
  | Throw e => Q (Err e) t
  | Act op k => forall w, I w ->
      I (op w).1 /\ exists t', pot (op w).1 + t' <= pot w + t /\ safe t' (k (op w).2) Q
  end.

Definition any_end {A} : result A -> nat -> Prop := fun _ _ => True.

Lemma safe_weaken {A} t (p : prog W A) (Q Q' : result A -> nat -> Prop) :
  (forall r t', Q r t' -> Q' r t') -> safe t p Q -> safe t p Q'.
Proof.
  intros HQ. revert t. induction p as [a|e|B op k IH]; intros t; cbn; auto.
  intros H w Hw. destruct (H w Hw) as (HI & t' & Hp & Hs). eauto 6.
Qed.

(** Unused tokens can be dropped. *)
Lemma safe_tokens {A} t t' (p : prog W A) :
  t <= t' -> safe t p any_end -> safe t' p any_end.
Proof.
  revert t t'. induction p as [a|e|B op k IH]; intros t t' Ht; cbn; auto.
  intros H w Hw. destruct (H w Hw) as (HI & t1 & Hp & Hs). split; [done|].
  exists t1. split; [lia|done].
Qed.

Lemma safe_bind {A B} t (p : prog W A) (f : A -> prog W B) Q :
  safe t p (fun r t' => match r with Ok a => safe t' (f a) Q | Err e => Q (Err e) t' end) ->
  safe t (bind p f) Q.
Proof.
  revert t. induction p as [a|e|C op k IH]; intros t; cbn; auto.
  intros H w Hw. destruct (H w Hw) as (HI & t' & Hp & Hs). eauto 6.
Qed.

Lemma safe_catch {A} t (p : prog W A) h Q :
  safe t p (fun r t' => match r with Ok a => Q (Ok a) t' | Err e => safe t' (h e) Q end) ->
  safe t (catch p h) Q.
Proof.
  revert t. induction p as [a|e|C op k IH]; intros t; cbn; auto.
  intros H w Hw. destruct (H w Hw) as (HI & t' & Hp & Hs). eauto 6.
Qed.

Lemma safe_act {A} t (op : W -> W * result A) Q :
  (forall w, I w -> I (op w).1 /\ exists t', pot (op w).1 + t' <= pot w + t /\ Q (op w).2 t') ->
  safe t (act op) Q.
Proof.
  intros H w Hw. destruct (H w Hw) as (HI & t' & Hp & HQ).
  split; [done|]. exists t'. split; [done|]. by destruct (op w).2.
Qed.

Lemma safe_query {A} t (f : W -> A) Q :
  (forall w, I w -> Q (Ok (f w)) t) -> safe t (query f) Q.
Proof. intros H w Hw. cbn. eauto 6. Qed.

Lemma safe_throw_if t c e Q :
  (c = true -> Q (Err e) t) -> (c = false -> Q (Ok tt) t) -> safe t (throw_if (W:=W) c e) Q.
Proof. unfold throw_if. destruct c; cbn; auto. Qed.

Lemma safe_require {A} t (o : option A) e Q :
  (forall a, o = Some a -> Q (Ok a) t) -> (o = None -> Q (Err e) t) ->
  safe t (require (W:=W) o e) Q.
Proof. unfold require. destruct o; cbn; auto. Qed.

Lemma safe_lift {A} t (r : result A) Q : Q r t -> safe t (lift_result r) Q.
Proof. by destruct r. Qed.

Section tables.
Context {R : Type} `{!Row R} `{!Table W R}.

Lemma safe_findFirst t (p : R -> bool) Q :
  (forall o, Q (Ok o) t) -> safe t (findFirst p) Q.
Proof. intros H. apply safe_query. auto. Qed.

Lemma safe_findMany t (p : R -> bool) Q :
  (forall l, Q (Ok l) t) -> safe t (findMany p) Q.
Proof. intros H. apply safe_query. auto. Qed.

Lemma safe_updateMany t (p : R -> bool) f Q :
  (forall w, I w ->
     I (set_rows (upd_where p f (rows w)) w) /\
     exists t', pot (set_rows (upd_where p f (rows w)) w) + t' <= pot w + t /\
                Q (Ok (length (List.filter p (rows w)))) t') ->
  safe t (updateMany p f) Q.
Proof. intros H w Hw. cbn. destruct (H w Hw) as (?&t'&?&?). eauto 6. Qed.
End tables.
End safe.

#[global] Arguments safe {W} I pot {A} t p Q : simpl never.

(** The pool theorem: handlers that are each safe keep the invariant and never
    raise the potential beyond the tokens they hold, in every interleaving; the
    tokens a handler still holds when it ends are among those it may end with. *)
Section pool_safe.
Context {W A : Type} (I : W -> Prop) (pot : W -> nat).

(** A handler with its tokens and its end condition. *)
Definition holds (x : nat * (result A -> nat -> Prop)) (p : prog W A) : Prop := safe I pot x.1 p x.2.

Lemma pool_step_holds (c c' : pool (W:=W) (A:=A)) xs :
  pool_step c c' -> I c.1 -> Forall2 holds xs c.2 ->
  I c'.1 /\ exists xs', Forall2 holds xs' c'.2 /\ map snd xs' = map snd xs /\
    pot c'.1 + sum_list (map fst xs') <= pot c.1 + sum_list (map fst xs).
Proof.
  intros Hs HI HF. destruct Hs as [w ts1 B op k ts2 w' b Hop]; cbn in *.
  apply Forall2_app_inv_r in HF as (l1 & l2 & H1 & H2 & ->).
  apply Forall2_cons_inv_r in H2 as ([t Q] & l2' & Ht & H2 & ->).
  destruct (Ht w HI) as (HI' & t' & Hp & Hs). rewrite Hop in *; cbn in *.
  split; [done|]. exists (l1 ++ (t', Q) :: l2'). split; [|split].
  - apply Forall2_app; [done|]. by constructor.
  - by rewrite !map_app.
  - rewrite !map_app, !sum_list_with_app. cbn. unfold id in *. lia.
Qed.

Lemma pool_holds (c c' : pool (W:=W) (A:=A)) xs :
  rtc pool_step c c' -> I c.1 -> Forall2 holds xs c.2 ->
  I c'.1 /\ exists xs', Forall2 holds xs' c'.2 /\ map snd xs' = map snd xs /\
    pot c'.1 + sum_list (map fst xs') <= pot c.1 + sum_list (map fst xs).
Proof.
  intros Hr. revert xs. induction Hr as [c|c c1 c2 Hs Hr IH]; intros xs HI HF; [by eauto 6|].
  destruct (pool_step_holds _ _ _ Hs HI HF) as (HI1 & xs1 & HF1 & E1 & Hle1).
  destruct (IH _ HI1 HF1) as (HI2 & xs2 & HF2 & E2 & Hle2).
  split; [done|]. exists xs2. split; [done|]. split; [congruence|lia].
Qed.

Theorem pool_safe (c c' : pool (W:=W) (A:=A)) toks :
  rtc pool_step c c' -> I c.1 ->
  Forall2 (fun t p => safe I pot t p any_end) toks c.2 ->
  I c'.1 /\ pot c'.1 <= pot c.1 + sum_list toks.
Proof.
  intros Hr HI HF. destruct (pool_holds c c' (map (fun t => (t, any_end)) toks) Hr HI) as (HI' & xs & _ & _ & Hle).
  - by apply Forall2_fmap_l.
  - split; [done|]. rewrite map_map, map_id in Hle. lia.
Qed.

(** A handler that has ended satisfies its end condition with its tokens. *)
Definition ended_ok (p : prog W A) : bool := match p with Ret _ => true | _ => false end.

(** The handlers among those counted that have returned. *)
Definition successes (counts : list bool) (ps : list (prog W A)) : nat :=
  length (List.filter (fun x : bool * prog W A => x.1 && ended_ok x.2) (zip counts ps)).

(** When a handler of the pool can only succeed by holding a token, the
    successes are bounded by the potential. *)
Theorem pool_successes (c c' : pool (W:=W) (A:=A)) (counts : list bool) :
  rtc pool_step c c' -> I c.1 ->
  Forall2 (fun (b : bool) p => safe I pot 0 p (fun r t => b = true -> is_ok r = true -> 1 <= t)) counts c.2 ->
  successes counts c'.2 <= pot c.1.
Proof.
  intros Hr HI HF.
  set (Q := fun b : bool => fun (r : result A) t => b = true -> is_ok r = true -> 1 <= t).
  destruct (pool_holds c c' (map (fun b => (0, Q b)) counts) Hr HI) as (_ & xs & HF' & E & Hle).
  { by apply Forall2_fmap_l. }
  rewrite (map_map _ fst) in Hle. cbn [fst] in Hle.
  assert (sum_list (map (fun _ : bool => 0) counts) = 0) as Hz by (clear; induction counts; done).
  rewrite Hz in Hle. rewrite map_map in E. cbn [snd] in E.
  cut (successes counts c'.2 <= sum_list (map fst xs)); [lia|].
  unfold successes. clear -HF' E. revert xs HF' E. generalize (c'.2) as ps. induction counts as [|b bs IH]; intros ps xs HF E.
  { cbn. lia. }
  destruct HF as [|[t Q'] p xs ps Hx HF]; [done|]. injection E as -> E. cbn [zip zip_with List.filter fst snd map].
  specialize (IH ps xs HF E). destruct b, p as [a|e|B op k]; cbn [andb ended_ok length sum_list sum_list_with]; cbn;
    try (unfold id in *; cbn in *; lia).
  specialize (Hx eq_refl eq_refl). unfold id in *. cbn in *. lia.
Qed.
End pool_safe.

(** A single handler run alone is one of the interleavings. *)
Lemma run_rtc {W A} (p : prog W A) (w : W) :
  exists p', rtc pool_step (w, [p]) ((run p w).1, [p']).
Proof.
  revert w. induction p as [a|e|B op k IH]; intros w; cbn.
  - by exists (Ret a).
  - by exists (Throw e).
  - destruct (op w) as [w' b] eqn:E. destruct (IH b w') as [p' Hp]. exists p'.
    eapply rtc_l; [|exact Hp].
    exact (pool_step_act w [] B op k [] w' b E).
Qed.

(* ------------------------------------------------------------------ *)
(** ** Guarantees

    [guar G p]: each action of [p], in whatever world it runs, changes the
    world by [G].  For a preorder [G] this bounds what [p] does alone, and what
    any interleaving of such handlers does. *)
Section guar.
Context {W : Type} (G : W -> W -> Prop).

Fixpoint guar {A} (p : prog W A) : Prop :=
  match p with
  | Ret _ | Throw _ => True
  | Act op k => forall w, G w (op w).1 /\ guar (k (op w).2)
  end.

Lemma guar_bind {A B} (p : prog W A) (f : A -> prog W B) :
  guar p -> (forall a, guar (f a)) -> guar (bind p f).
Proof.
  intros Hp Hf. induction p as [a|e|C op k IH]; cbn; [apply Hf|done|].
  intros w. destruct (Hp w) as [HG Hk]. split; [done|]. by apply IH.
Qed.

Lemma guar_catch {A} (p : prog W A) h : guar p -> (forall e, guar (h e)) -> guar (catch p h).
Proof.
  intros Hp Hf. induction p as [a|e|C op k IH]; cbn; [done|apply Hf|].
  intros w. destruct (Hp w) as [HG Hk]. split; [done|]. by apply IH.
Qed.

Lemma guar_act {A} (op : W -> W * result A) : (forall w, G w (op w).1) -> guar (act op).
Proof. intros H w. split; [apply H|]. by destruct (op w).2. Qed.

Lemma guar_throw_if c e : guar (throw_if c e).
Proof. by destruct c. Qed.

Lemma guar_require {A} (o : option A) e : guar (require o e).
Proof. by destruct o. Qed.

Lemma guar_lift {A} (r : result A) : guar (lift_result r).
Proof. by destruct r. Qed.

Lemma guar_for_each {A} (xs : list A) body : (forall x, guar (body x)) -> guar (for_each xs body).
Proof. intros H. induction xs as [|x xs IH]; cbn; [done|]. by apply guar_bind. Qed.

Lemma guar_fold {A B} (xs : list A) (acc : B) body :
  (forall a x, guar (body a x)) -> guar (fold_prog xs acc body).
Proof.
  intros H. revert acc. induction xs as [|x xs IH]; intros acc; cbn; [done|]. by apply guar_bind.
Qed.

Context `{!PreOrder G}.

Lemma guar_query {A} (f : W -> A) : guar (query f).
Proof. intros w. split; [reflexivity|done]. Qed.

Lemma guar_run {A} (p : prog W A) w : guar p -> G w (run p w).1.
Proof.
  revert w. induction p as [a|e|C op k IH]; intros w H; cbn; [reflexivity..|].
  destruct (H w) as [HG Hk]. destruct (op w) as [w' b]. cbn in *. etrans; [exact HG|]. by apply IH.
Qed.

Lemma guar_transaction {A} (p : prog W A) : guar p -> guar (transaction p).
Proof.
  intros H. apply guar_act. intros w. pose proof (guar_run p w H) as HG.
  destruct (run p w) as [w' [a|e]]; cbn in *; [done|reflexivity].
Qed.

Lemma pool_guar {A} (c c' : pool (W:=W) (A:=A)) :
  rtc pool_step c c' -> Forall guar c.2 -> G c.1 c'.1.
Proof.
  intros Hr. induction Hr as [c|c c1 c2 Hs Hr IH]; intros HF; [reflexivity|].
  destruct Hs as [w ts1 B op k ts2 w' b Hop]; cbn in *.
  apply Forall_app in HF as [H1 H2]. apply Forall_cons in H2 as [Hp H2].
  destruct (Hp w) as [HG Hk]. rewrite Hop in *. cbn in *. etrans; [exact HG|].
  apply IH. apply Forall_app. split; [done|]. by constructor.
Qed.
End guar.
#[global] Arguments guar {W} G {A} p : simpl never.

Lemma guar_mono {W A} (G G' : W -> W -> Prop) (p : prog W A) :
  (forall w w', G w w' -> G' w w') -> guar G p -> guar G' p.
Proof.
  intros HG. induction p as [a|e|B op k IH]; [done|done|]. intros Hp w. destruct (Hp w) as [Hs Hk].
  split; [by apply HG|by apply IH].
Qed.

(* ------------------------------------------------------------------ *)
(** ** Invariants

    [keeps I p]: every action of [p] keeps the invariant [I], whatever the other
    handlers (which keep it too) did in between. *)
(** A program whose steps change neither the invariant nor the potential. *)
Lemma safe_guar {W A} (I : W -> Prop) pot (G : W -> W -> Prop) t (p : prog W A) Q :
  (forall w w', I w -> G w w' -> I w' /\ pot w' <= pot w) -> guar G p -> (forall r, Q r t) ->
  safe I pot t p Q.
Proof.
  intros HG Hp HQ. revert Hp. induction p as [a|e|B op k IH]; intros Hp; [apply HQ|apply HQ|].
  intros w Hw. destruct (Hp w) as [Hs Hk]. destruct (HG _ _ Hw Hs) as [HI Hle].
  split; [done|]. exists t. split; [lia|]. by apply IH.
Qed.

Section keeps.
Context {W : Type} (I : W -> Prop).

Definition keeps {A} (p : prog W A) : Prop := safe I (fun _ => 0) 0 p any_end.

Lemma keeps_ret {A} (a : A) : keeps (Ret a).
Proof. done. Qed.
Lemma keeps_throw {A} e : keeps (Throw (A:=A) e).
Proof. done. Qed.

Lemma keeps_bind {A B} (p : prog W A) (f : A -> prog W B) :
  keeps p -> (forall a, keeps (f a)) -> keeps (bind p f).
Proof.
  intros Hp Hf. unfold keeps in *. induction p as [a|e|C op k IH]; [apply Hf|done|].
  intros w Hw. destruct (Hp w Hw) as (HI & t' & Ht & Hs). split; [done|].
  exists 0. split; [done|]. destruct t'; [|cbn in Ht; lia]. by apply IH.
Qed.

Lemma keeps_catch {A} (p : prog W A) h : keeps p -> (forall e, keeps (h e)) -> keeps (catch p h).
Proof.
  intros Hp Hh. unfold keeps in *. induction p as [a|e|C op k IH]; [done|apply Hh|].
  intros w Hw. destruct (Hp w Hw) as (HI & t' & Ht & Hs). split; [done|].
  exists 0. split; [done|]. destruct t'; [|cbn in Ht; lia]. by apply IH.
Qed.

Lemma keeps_act {A} (op : W -> W * result A) :
  (forall w, I w -> I (op w).1) -> keeps (act op).
Proof. intros H. apply safe_act. intros w Hw. split; [auto|]. by exists 0. Qed.

Lemma keeps_transaction {A} (p : prog W A) :
  (forall w, I w -> I (run p w).1) -> keeps (transaction p).
Proof.
  intros H. apply keeps_act. intros w Hw. pose proof (H w Hw) as H1.
  by destruct (run p w) as [w' [a|e]].
Qed.

(** A read: what is read comes from a world that satisfies the invariant. *)
Lemma keeps_query_bind {A B} (g : W -> A) (f : A -> prog W B) :
  (forall w, I w -> keeps (f (g w))) -> keeps (bind (query g) f).
Proof. intros H w Hw. cbn. split; [done|]. exists 0. split; [done|]. by apply H. Qed.

Lemma keeps_query {A} (g : W -> A) : keeps (query g).
Proof. intros w Hw. cbn. split; [done|]. by exists 0. Qed.

Lemma keeps_throw_if c e : keeps (throw_if c e).
Proof. by destruct c. Qed.
Lemma keeps_require {A} (o : option A) e : keeps (require o e).
Proof. by destruct o. Qed.
Lemma keeps_lift {A} (r : result A) : keeps (lift_result r).
Proof. by destruct r. Qed.

Lemma keeps_for_each {A} (xs : list A) body :
  (forall x, In x xs -> keeps (body x)) -> keeps (for_each xs body).
Proof.
  induction xs as [|x xs IH]; intros H; cbn; [done|].
  apply keeps_bind; [apply H; by left|]. intros _. apply IH. intros; apply H; by right.
Qed.

Lemma keeps_fold {A B} (xs : list A) (acc : B) body :
  (forall a x, In x xs -> keeps (body a x)) -> keeps (fold_prog xs acc body).
Proof.
  revert acc. induction xs as [|x xs IH]; intros acc H; cbn; [done|].
  apply keeps_bind; [apply H; by left|]. intros a. apply IH. intros; apply H; by right.
Qed.

Lemma keeps_guar {A} (G : W -> W -> Prop) (p : prog W A) :
  (forall w w', I w -> G w w' -> I w') -> guar G p -> keeps p.
Proof.
  intros HG. induction p as [a|e|B op k IH]; intros Hp; [done|done|].
  intros w Hw. destruct (Hp w) as [Hs Hk]. split; [by eapply HG|]. exists 0. split; [done|]. by apply IH.
Qed.

Lemma keeps_updateMany {R} `{!Row R} `{!Table W R} (p : R -> bool) f :
  (forall w, I w -> I (set_rows (upd_where p f (rows w)) w)) -> keeps (updateMany p f).
Proof. intros H w Hw. cbn. split; [auto|]. by exists 0. Qed.

Lemma keeps_run {A} (p : prog W A) w : keeps p -> I w -> I (run p w).1.
Proof.
  unfold keeps. revert w. induction p as [a|e|B op k IH]; intros w Hp Hw; [done|done|].
  destruct (Hp w Hw) as (HI & t' & Ht & Hs). cbn. destruct (op w) as [w' b]. cbn in *.
  destruct t'; [|lia]. by apply IH.
Qed.

Lemma pool_keeps {A} (c c' : pool (W:=W) (A:=A)) :
  rtc pool_step c c' -> I c.1 -> Forall keeps c.2 -> I c'.1.
Proof.
  intros Hr HI HF. apply (pool_safe I (fun _ => 0) c c' (map (fun _ => 0) c.2) Hr HI).
  clear -HF. induction HF as [|p l Hp _ IH]; constructor; done.
Qed.
End keeps.
#[global] Arguments keeps {W} I {A} p : simpl never.

(* ------------------------------------------------------------------ *)
(** ** Answers

    [ends P p]: whatever the world is at each of its actions, what [p] returns
    satisfies [P]. *)
Section ends.
Context {W : Type}.

Fixpoint ends {A} (P : A -> Prop) (p : prog W A) : Prop :=
  match p with
  | Ret a => P a
  | Throw _ => True
  | Act op k => forall w, ends P (k (op w).2)
  end.

Lemma ends_any {A} (p : prog W A) : ends (fun _ => True) p.
Proof. by induction p; cbn. Qed.

Lemma ends_bind {A B} (P : A -> Prop) (Q : B -> Prop) (p : prog W A) (f : A -> prog W B) :
  ends P p -> (forall a, P a -> ends Q (f a)) -> ends Q (bind p f).
Proof. intros Hp Hf. induction p as [a|e|C op k IH]; cbn in *; auto. Qed.

Lemma ends_catch {A} (P : A -> Prop) (p : prog W A) h : ends P p -> (forall e, ends P (h e)) -> ends P (catch p h).
Proof. intros Hp Hh. induction p as [a|e|C op k IH]; cbn in *; auto. Qed.

Lemma ends_lift {A} (P : A -> Prop) (r : result A) : (forall a, r = Ok a -> P a) -> ends P (lift_result (W:=W) r).
Proof. destruct r; cbn; auto. Qed.

Lemma keeps_bind_ends {A B} (I : W -> Prop) (P : A -> Prop) (p : prog W A) (f : A -> prog W B) :
  keeps I p -> ends P p -> (forall a, P a -> keeps I (f a)) -> keeps I (bind p f).
Proof.
  intros Hk Hp Hf. unfold keeps in *. induction p as [a|e|C op k IH]; [by apply Hf|done|].
  intros w Hw. destruct (Hk w Hw) as (HI & t' & Ht & Hs). split; [done|]. exists 0. split; [done|].
  destruct t'; [|cbn in Ht; lia]. by apply IH.
Qed.
End ends.
#[global] Arguments ends {W A} P p : simpl never.

(* ------------------------------------------------------------------ *)
(** ** Handlers that do not throw *)
Section returns.
Context {W : Type}.

Fixpoint returns {A} (p : prog W A) : Prop :=
  match p with
  | Ret _ => True
  | Throw _ => False
  | Act op k => forall w, returns (k (op w).2)
  end.

Lemma returns_bind {A B} (p : prog W A) (f : A -> prog W B) :
  returns p -> (forall a, returns (f a)) -> returns (bind p f).
Proof. intros Hp Hf. induction p as [a|e|C op k IH]; cbn in *; auto. Qed.

Lemma returns_for_each {A} (xs : list A) (body : A -> prog W unit) :
  (forall x, returns (body x)) -> returns (for_each xs body).
Proof. intros H. induction xs as [|x xs IH]; cbn; [done|]. by apply returns_bind. Qed.

Lemma returns_query {A} (f : W -> A) : returns (query f).
Proof. done. Qed.
End returns.
#[global] Arguments returns {W A} p : simpl never.

(* ------------------------------------------------------------------ *)
(** ** Outlines

    A protocol whose correctness depends on where each handler stands (who
    holds a lock, what it has already done) needs more than an invariant of the
    world.  Each handler has a _stage_, a ghost value that its actions may
    change; [J w ss] relates the world to the stages of all the handlers.
    [outline s p Q]: from the stage [s], each action of [p] can move to a stage
    that keeps [J], whatever the other handlers did before it, and [p] ends at
    a stage in [Q]. *)
Section outline.
Context {W S : Type} (J : W -> list S -> Prop).

Fixpoint outline {A} (s : S) (p : prog W A) (Q : result A -> S -> Prop) : Prop :=
  match p with
  | Ret a => Q (Ok a) s
  | Throw e => Q (Err e) s
  | Act op k => forall w ss i, J w ss -> ss !! i = Some s ->
      exists s', J (op w).1 (<[i:=s']> ss) /\ outline s' (k (op w).2) Q
  end.

(** The handler ends at the stage [s'], whatever its answer. *)
Definition ends_at {A} (s' : S) : result A -> S -> Prop := fun _ s => s = s'.

Lemma outline_weaken {A} s (p : prog W A) (Q Q' : result A -> S -> Prop) :
  (forall r s', Q r s' -> Q' r s') -> outline s p Q -> outline s p Q'.
Proof.
  intros HQ. revert s. induction p as [a|e|B op k IH]; intros s; cbn; auto.
  intros H w ss i Hw Hi. destruct (H w ss i Hw Hi) as (s' & HJ & Hs). eauto.
Qed.

Lemma outline_bind {A B} s (p : prog W A) (f : A -> prog W B) Q :
  outline s p (fun r s' => match r with Ok a => outline s' (f a) Q | Err e => Q (Err e) s' end) ->
  outline s (bind p f) Q.
Proof.
  revert s. induction p as [a|e|C op k IH]; intros s; cbn; auto.
  intros H w ss i Hw Hi. destruct (H w ss i Hw Hi) as (s' & HJ & Hs). eauto.
Qed.

Lemma outline_catch {A} s (p : prog W A) h Q :
  outline s p (fun r s' => match r with Ok a => Q (Ok a) s' | Err e => outline s' (h e) Q end) ->
  outline s (catch p h) Q.
Proof.
  revert s. induction p as [a|e|C op k IH]; intros s; cbn; auto.
  intros H w ss i Hw Hi. destruct (H w ss i Hw Hi) as (s' & HJ & Hs). eauto.
Qed.

(** Sequencing of a part that comes back to its stage. *)
Lemma outline_bind_at {A B} s s1 (p : prog W A) (f : A -> prog W B) Q :
  outline s p (ends_at s1) -> (forall a, outline s1 (f a) Q) -> (forall e, Q (Err e) s1) ->
  outline s (bind p f) Q.
Proof.
  intros Hp Hf He. apply outline_bind. eapply outline_weaken; [|exact Hp].
  intros [a|e] s' ->; auto.
Qed.

Lemma outline_catch_at {A} s s1 (p : prog W A) h Q :
  outline s p (ends_at s1) -> (forall a, Q (Ok a) s1) -> (forall e, outline s1 (h e) Q) ->
  outline s (catch p h) Q.
Proof.
  intros Hp Ha Hh. apply outline_catch. eapply outline_weaken; [|exact Hp].
  intros [a|e] s' ->; auto.
Qed.

(** A read: what is read comes from a world that satisfies [J]. *)
Lemma outline_query {A} s (g : W -> A) Q :
  (forall w ss i, J w ss -> ss !! i = Some s -> exists s', J w (<[i:=s']> ss) /\ Q (Ok (g w)) s') ->
  outline s (query g) Q.
Proof. intros H w ss i Hw Hi. exact (H w ss i Hw Hi). Qed.

(** A read that leaves the stage. *)
Lemma outline_query_same {A} s (g : W -> A) Q :
  (forall w ss i, J w ss -> ss !! i = Some s -> Q (Ok (g w)) s) -> outline s (query g) Q.
Proof. intros H w ss i Hw Hi. exists s. rewrite list_insert_id by done. split; [done|]. by eapply H. Qed.

(** Actions within a relation that keeps [J] leave the stage alone. *)
Lemma outline_guar {A} (G : W -> W -> Prop) s (p : prog W A) :
  (forall w w' ss, G w w' -> J w ss -> J w' ss) -> guar G p -> outline s p (ends_at s).
Proof.
  intros HG. induction p as [a|e|B op k IH]; intros Hp; [done|done|].
  intros w ss i Hw Hi. destruct (Hp w) as [Hs Hk]. exists s. rewrite list_insert_id by done.
  split; [by eapply HG|by apply IH].
Qed.

(** The same for a part of a handler that does not throw. *)
Lemma outline_returns_bind {A B} (G : W -> W -> Prop) s (p : prog W A) (f : A -> prog W B) Q :
  (forall w w' ss, G w w' -> J w ss -> J w' ss) -> guar G p -> returns p ->
  (forall a, outline s (f a) Q) -> outline s (bind p f) Q.
Proof.
  intros HG Hp Hr Hf. induction p as [a|e|C op k IH]; [apply Hf|done|].
  intros w ss i Hw Hi. destruct (Hp w) as [Hs Hk]. exists s. rewrite list_insert_id by done.
  split; [by eapply HG|]. apply IH; [done|]. apply Hr.
Qed.

Lemma outline_returns {A} (G : W -> W -> Prop) s (p : prog W A) :
  (forall w w' ss, G w w' -> J w ss -> J w' ss) -> guar G p -> returns p ->
  outline s p (fun r s' => is_ok r = true /\ s' = s).
Proof.
  intros HG Hp Hr. induction p as [a|e|C op k IH]; [done|done|].
  intros w ss i Hw Hi. destruct (Hp w) as [Hs Hk]. exists s. rewrite list_insert_id by done.
  split; [by eapply HG|]. apply IH; [done|]. apply Hr.
Qed.

Lemma outline_for_each {A} s (xs : list A) body :
  (forall x, In x xs -> outline s (body x) (ends_at s)) -> outline s (for_each xs body) (ends_at s).
Proof.
  induction xs as [|x xs IH]; intros H; cbn; [done|].
  eapply outline_bind_at; [apply H; by left|intros _; apply IH; intros; apply H; by right|done].
Qed.

(** A step of a pool of handlers with an outline keeps the relation. *)
Lemma step_outline {A} (c c' : pool (W:=W) (A:=A)) ss :
  pool_step c c' -> J c.1 ss -> Forall2 (fun s p => outline s p (fun _ _ => True)) ss c.2 ->
  exists ss', J c'.1 ss' /\ Forall2 (fun s p => outline s p (fun _ _ => True)) ss' c'.2.
Proof.
  intros Hs HJ HF. destruct Hs as [w ts1 B op k ts2 w' b Hop]; cbn in *.
  apply Forall2_app_inv_r in HF as (l1 & l2 & H1 & H2 & ->).
  apply Forall2_cons_inv_r in H2 as (s & l2' & Ht & H2 & ->).
  destruct (Ht w (l1 ++ s :: l2') (length l1) HJ) as (s' & HJ' & Hs).
  { by rewrite lookup_app_r, Nat.sub_diag by done. }
  rewrite Hop in *; cbn in *. exists (l1 ++ s' :: l2'). split.
  - by rewrite insert_app_r_alt, Nat.sub_diag in HJ' by done.
  - apply Forall2_app; [done|]. by constructor.
Qed.

(** In every interleaving of handlers with an outline, the world and the stages
    stay related. *)
Theorem pool_outline {A} (c c' : pool (W:=W) (A:=A)) ss :
  rtc pool_step c c' -> J c.1 ss ->
  Forall2 (fun s p => outline s p (fun _ _ => True)) ss c.2 ->
  exists ss', J c'.1 ss'.
Proof.
  intros Hr. revert ss. induction Hr as [c|c c1 c2 Hs Hr IH]; intros ss HJ HF; [by eauto|].
  destruct (step_outline _ _ _ Hs HJ HF) as (ss1 & HJ1 & HF1). by apply (IH ss1).
Qed.
End outline.
#[global] Arguments outline {W S} J {A} s p Q : simpl never.

(** The steps that leave a part of the world as it is. *)
Definition same_on {W T} (f : W -> T) (w w' : W) : Prop := f w' = f w.

#[global] Instance same_on_preorder {W T} (f : W -> T) : PreOrder (same_on f).
Proof. split; [done|]. intros w1 w2 w3 H1 H2. unfold same_on in *. congruence. Qed.

(** One step of a proof of [guar G p]: the rule of the program's head. *)
Ltac guar_step_at G :=
  first [ apply guar_bind | apply guar_catch | apply guar_throw_if | apply guar_require | apply guar_lift
        | apply (guar_query G) | apply (guar_transaction G) | apply guar_for_each | apply guar_fold
        | (intros ?; split; [by repeat split|exact I])
        | (apply guar_act; intros ?; cbv beta; repeat case_match; by repeat split) ].

(** The same to the end, through the code's own case distinctions. *)
Ltac guar_at G := repeat (cbv beta zeta; first [progress intros | done | guar_step_at G | case_match]).
