(* ===== verification/Strings.v ===== *)
(** * Strings and decimal numerals

    Strings are byte strings (UTF-8).  This file has the string operations of
    the JavaScript library that the modelled code uses (trim, slice, split at a
    character, padStart, padEnd, repeat, join, includes) and the decimal
    notation of integers with its reading. *)

From S2P Require Import Prelude.
From Stdlib Require Export Ascii.

#[global] Arguments String.append !s1 s2 / : simpl nomatch.

(** [s1 + s2] on JavaScript strings. *)
Fixpoint repeat_str (s : string) (n : nat) : string :=
  match n with 0 => "" | S n' => s +:+ repeat_str s n' end.

Definition padStart (s : string) (n : nat) (c : string) : string :=
  repeat_str c (n - String.length s) +:+ s.

Definition padEnd (s : string) (n : nat) (c : string) : string :=
  s +:+ repeat_str c (n - String.length s).

(** [s.slice(0, n)] and [s.slice(n)] *)
Definition slice_to (s : string) (n : nat) : string := String.substring 0 n s.
Fixpoint slice_from (s : string) (n : nat) : string :=
  match n, s with
  | 0, _ => s
  | S n', String _ s' => slice_from s' n'
  | S _, EmptyString => ""
  end.

Fixpoint join (sep : string) (l : list string) : string :=
  match l with
  | [] => ""
  | [s] => s
  | s :: l' => s +:+ sep +:+ join sep l'
  end.

Fixpoint str_of_list (l : list ascii) : string :=
  match l with [] => "" | c :: l' => String c (str_of_list l') end.

Fixpoint list_of_str (s : string) : list ascii :=
  match s with EmptyString => [] | String c s' => c :: list_of_str s' end.

(** The ASCII whitespace of [String.prototype.trim]. *)
Definition is_space (c : ascii) : bool :=
  match N_of_ascii c with 9%N | 10%N | 11%N | 12%N | 13%N | 32%N => true | _ => false end.

Fixpoint trim_start (s : string) : string :=
  match s with
  | String c s' => if is_space c then trim_start s' else s
  | EmptyString => ""
  end.

Fixpoint trim_end (s : string) : string :=
  match s with
  | EmptyString => ""
  | String c s' =>
      match trim_end s' with
      | EmptyString => if is_space c then "" else String c ""
      | t => String c t
      end
  end.

Definition trim (s : string) : string := trim_end (trim_start s).

(** The longest prefix of characters in [p], and the rest. *)
Fixpoint span (p : ascii -> bool) (s : string) : string * string :=
  match s with
  | EmptyString => ("", "")
  | String c s' => if p c then let '(a, b) := span p s' in (String c a, b) else ("", s)
  end.

Fixpoint all_chars (p : ascii -> bool) (s : string) : bool :=
  match s with EmptyString => true | String c s' => p c && all_chars p s' end.

(** [s.indexOf(c)] for a one-character string; [None] for -1. *)
Fixpoint indexOf (c : ascii) (s : string) : option nat :=
  match s with
  | EmptyString => None
  | String c' s' => if Ascii.eqb c' c then Some 0 else S <$> indexOf c s'
  end.

(** [s < t] on strings (by character codes), the order of
    [Array.prototype.sort] without a comparator. *)
Fixpoint str_lt (s t : string) : bool :=
  match s, t with
  | EmptyString, EmptyString => false
  | EmptyString, _ => true
  | _, EmptyString => false
  | String c s', String d t' =>
      if (N_of_ascii c <? N_of_ascii d)%N then true
      else if Ascii.eqb c d then str_lt s' t' else false
  end.

Lemma str_lt_asym s t : str_lt s t = true -> str_lt t s = false.
Proof.
  revert t. induction s as [|c s IH]; intros [|d t]; cbn; try done.
  destruct (N.ltb_spec (N_of_ascii c) (N_of_ascii d)), (N.ltb_spec (N_of_ascii d) (N_of_ascii c)); try done; try lia;
    destruct (Ascii.eqb_spec c d) as [->|]; rewrite ?Ascii.eqb_refl; try lia; try done; [|apply IH].
  intros _. destruct (Ascii.eqb_spec d c) as [->|]; [lia|done].
Qed.

Lemma str_le_trans s t u : str_lt t s = false -> str_lt u t = false -> str_lt u s = false.
Proof.
  revert t u. induction s as [|c s IH]; intros [|d t] [|e u]; cbn; try done.
  destruct (N.ltb_spec (N_of_ascii d) (N_of_ascii c)); [done|]. destruct (N.ltb_spec (N_of_ascii e) (N_of_ascii d)); [done|].
  intros Hst Htu. destruct (N.ltb_spec (N_of_ascii e) (N_of_ascii c)); [lia|].
  destruct (Ascii.eqb_spec e c) as [->|]; [|done].
  assert (d = c) as -> by (rewrite <- (ascii_N_embedding d), <- (ascii_N_embedding c); f_equal; lia).
  rewrite Ascii.eqb_refl in *. by apply (IH t u).
Qed.

(* ------------------------------------------------------------------ *)
(** ** Decimal numerals *)

Open Scope Z_scope.

Definition is_digit (c : ascii) : bool :=
  (48 <=? Z.of_N (N_of_ascii c)) && (Z.of_N (N_of_ascii c) <=? 57).

Definition digit_value (c : ascii) : Z := Z.of_N (N_of_ascii c) - 48.

Definition digit (d : Z) : ascii := ascii_of_N (Z.to_N (48 + d)).

(** The value of a string of digits read after [acc]. *)
Fixpoint digits_from (acc : Z) (s : string) : Z :=
  match s with
  | EmptyString => acc
  | String c s' => digits_from (10 * acc + digit_value c) s'
  end.

Definition digits_value (s : string) : Z := digits_from 0 s.

Fixpoint show_digits (fuel : nat) (n : Z) (acc : string) : string :=
  match fuel with
  | O => acc
  | S fuel' =>
      let acc' := String (digit (n mod 10)) acc in
      if n <? 10 then acc' else show_digits fuel' (n / 10) acc'
  end.

(** [String(n)] of an integer (below 10^21 in magnitude, where JavaScript
    prints plain digits); log2 n + 1 digits are enough. *)
Definition str_of_Z (n : Z) : string :=
  if n <? 0 then "-" +:+ show_digits (S (Z.to_nat (Z.log2 (- n)))) (- n) ""
  else show_digits (S (Z.to_nat (Z.log2 n))) n "".

Lemma digit_code d : 0 <= d < 10 -> Z.of_N (N_of_ascii (digit d)) = 48 + d.
Proof. intros H. unfold digit. rewrite N_ascii_embedding by lia. lia. Qed.

Lemma digit_value_digit d : 0 <= d < 10 -> digit_value (digit d) = d.
Proof. intros H. unfold digit_value. rewrite digit_code by done. lia. Qed.

Lemma is_digit_digit d : 0 <= d < 10 -> is_digit (digit d) = true.
Proof. intros H. unfold is_digit. rewrite digit_code by done. lia. Qed.

Lemma show_digits_value fuel n s :
  0 <= n < 10 ^ Z.of_nat fuel -> digits_from 0 (show_digits fuel n s) = digits_from n s.
Proof.
  revert n s. induction fuel as [|fuel IH]; intros n s Hn; cbn [show_digits].
  - by replace n with 0 by lia.
  - rewrite Nat2Z.inj_succ, Z.pow_succ_r in Hn by lia.
    pose proof (Z.mod_pos_bound n 10 ltac:(lia)) as Hm. pose proof (Z.div_mod n 10 ltac:(lia)).
    destruct (Z.ltb_spec n 10).
    + cbn [digits_from]. rewrite digit_value_digit, Z.mod_small by lia. f_equal; lia.
    + rewrite IH by (split; [apply Z.div_pos; lia|apply Z.div_lt_upper_bound; lia]).
      cbn [digits_from]. rewrite digit_value_digit by lia. f_equal; lia.
Qed.

Lemma show_digits_all fuel n s :
  all_chars is_digit (show_digits fuel n s) = all_chars is_digit s.
Proof.
  revert n s. induction fuel as [|fuel IH]; intros n s; cbn [show_digits]; [done|].
  pose proof (Z.mod_pos_bound n 10 ltac:(lia)).
  destruct (n <? 10); rewrite ?IH; cbn [all_chars]; by rewrite is_digit_digit.
Qed.

Lemma show_digits_length fuel n s :
  (fuel <> 0)%nat -> (String.length s < String.length (show_digits fuel n s))%nat.
Proof.
  revert n s. induction fuel as [|fuel IH]; intros n s Hf; cbn [show_digits]; [done|].
  destruct (n <? 10); cbn; [lia|]. destruct fuel; [cbn; lia|].
  specialize (IH (n / 10) (String (digit (n mod 10)) s) ltac:(done)). cbn in *. lia.
Qed.

Lemma log2_fuel n : 0 <= n -> n < 10 ^ Z.of_nat (S (Z.to_nat (Z.log2 n))).
Proof.
  intros H. destruct (Z.eq_dec n 0) as [->|]; [done|].
  pose proof (Z.log2_spec n ltac:(lia)) as [_ L]. pose proof (Z.log2_nonneg n).
  rewrite Nat2Z.inj_succ, Z2Nat.id by lia.
  eapply Z.lt_le_trans; [exact L|]. apply Z.pow_le_mono_l. lia.
Qed.

(** [Number(String(n)) = n] *)
Lemma digits_value_str n : 0 <= n -> digits_value (str_of_Z n) = n.
Proof.
  intros H. unfold str_of_Z. destruct (Z.ltb_spec n 0); [lia|].
  unfold digits_value. rewrite show_digits_value; [done|]. pose proof (log2_fuel n H). lia.
Qed.

Lemma str_of_Z_digits n : 0 <= n -> all_chars is_digit (str_of_Z n) = true.
Proof.
  intros H. unfold str_of_Z. destruct (Z.ltb_spec n 0); [lia|]. by rewrite show_digits_all.
Qed.

Lemma str_of_Z_nonempty n : 0 <= n -> str_of_Z n <> "".
Proof.
  intros H E. unfold str_of_Z in E. destruct (Z.ltb_spec n 0); [lia|].
  pose proof (show_digits_length (S (Z.to_nat (Z.log2 n))) n "" ltac:(done)) as L.
  rewrite E in L. cbn in L. lia.
Qed.

Lemma span_all p s r :
  all_chars p s = true -> (match r with String c _ => p c = false | EmptyString => True end) ->
  span p (s +:+ r) = (s, r).
Proof.
  intros Hs Hr. induction s as [|c s IH]; cbn in *.
  - destruct r as [|c r]; [done|]. cbn. by rewrite Hr.
  - apply andb_true_iff in Hs as [-> Hs]. by rewrite IH.
Qed.

Lemma span_parts p s a b : span p s = (a, b) -> s = a +:+ b /\ all_chars p a = true.
Proof.
  revert a b. induction s as [|c s IH]; cbn; intros a b; [by intros [= <- <-]|].
  destruct (p c) eqn:Ec; [|by intros [= <- <-]].
  destruct (span p s) as [a1 b1]. intros [= <- <-]. destruct (IH a1 b1 eq_refl) as [-> Ha].
  split; [done|]. cbn. by rewrite Ec.
Qed.

Lemma all_chars_app p s t : all_chars p (s +:+ t) = all_chars p s && all_chars p t.
Proof. induction s as [|c s IH]; cbn; [done|]. by rewrite IH, andb_assoc. Qed.

Lemma digits_from_app acc s t : digits_from acc (s +:+ t) = digits_from (digits_from acc s) t.
Proof. revert acc. induction s as [|c s IH]; intros acc; cbn; [done|]. apply IH. Qed.

Lemma str_app_assoc (s t r : string) : (s +:+ t) +:+ r = s +:+ (t +:+ r).
Proof. induction s as [|c s IH]; cbn; [done|]. by rewrite IH. Qed.

Lemma str_app_nil (s : string) : s +:+ "" = s.
Proof. induction s as [|c s IH]; cbn; [done|]. by rewrite IH. Qed.

Lemma str_length_app (s t : string) :
  String.length (s +:+ t) = (String.length s + String.length t)%nat.
Proof. induction s as [|c s IH]; cbn; [done|]. by rewrite IH. Qed.

Lemma str_app_inv_head (a b c : string) : a +:+ b = a +:+ c -> b = c.
Proof. induction a as [|x a IH]; cbn; [done|]. intros [= E]. auto. Qed.

Lemma str_app_inv_tail (a b c d : string) :
  String.length c = String.length d -> a +:+ c = b +:+ d -> a = b /\ c = d.
Proof.
  intros Hl. revert b. induction a as [|x a IH]; intros [|y b] E; cbn in *.
  - done.
  - subst c. cbn in Hl. rewrite str_length_app in Hl. lia.
  - subst d. cbn in Hl. rewrite str_length_app in Hl. lia.
  - injection E as -> E. destruct (IH b E) as [-> ->]. done.
Qed.

(** A string without whitespace is its own trim. *)
Lemma trim_id s : all_chars (fun c => negb (is_space c)) s = true -> trim s = s.
Proof.
  intros H. assert (trim_start s = s) as E.
  { destruct s as [|c s]; [done|]. cbn in *. apply andb_true_iff in H as [H _].
    by destruct (is_space c). }
  unfold trim. rewrite E. clear E. induction s as [|c s IH]; cbn in *; [done|].
  apply andb_true_iff in H as [Hc Hs]. rewrite (IH Hs). destruct (is_space c); [done|].
  by destruct s.
Qed.

(* ------------------------------------------------------------------ *)
(** ** Dates *)

(** Days from 1970-01-01 to a civil date. *)
Definition days_from_civil (y m d : Z) : Z :=
  let y := if m <=? 2 then y - 1 else y in
  let era := y / 400 in
  let yoe := y - era * 400 in
  let doy := (153 * (m + (if m <=? 2 then 9 else -3)) + 2) / 5 + d - 1 in
  let doe := yoe * 365 + yoe / 4 - yoe / 100 + doy in
  era * 146097 + doe - 719468.

(** The milliseconds of the UTC midnight of a "YYYY-MM-DD" date; [None] is the
    invalid date.  A day past the month's end but at most 31 is accepted and
    rolls over, as V8's Date parser does. *)
Definition parseDate (s : string) : option Z :=
  match list_of_str s with
  | [y1; y2; y3; y4; d1; m1; m2; d2; a; b] =>
      if forallb is_digit [y1; y2; y3; y4; m1; m2; a; b] && Ascii.eqb d1 "-" && Ascii.eqb d2 "-"
      then
        let y := digits_value (str_of_list [y1; y2; y3; y4]) in
        let m := digits_value (str_of_list [m1; m2]) in
        let d := digits_value (str_of_list [a; b]) in
        if (1 <=? m) && (m <=? 12) && (1 <=? d) && (d <=? 31)
        then Some (days_from_civil y m d * 86400000) else None
      else None
  | _ => None
  end.

(** [new Date(`${s}T12:00:00Z`)] *)
Definition noonUtc (s : string) : option Z := (fun t => t + 43200000) <$> parseDate s.

Example parseDate_ex : parseDate "1970-01-02" = Some 86400000 /\ parseDate "2026-08-17" = Some 1786924800000
  /\ parseDate "2026-13-01" = None.
Proof. vm_compute. done. Qed.

(** The civil date (year, month, day) of a day number. *)
Definition civil_from_days (z : Z) : Z * Z * Z :=
  let z := z + 719468 in
  let era := z / 146097 in
  let doe := z - era * 146097 in
  let yoe := (doe - doe / 1460 + doe / 36524 - doe / 146096) / 365 in
  let doy := doe - (365 * yoe + yoe / 4 - yoe / 100) in
  let mp := (5 * doy + 2) / 153 in
  let d := doy - (153 * mp + 2) / 5 + 1 in
  let m := if mp <? 10 then mp + 3 else mp - 9 in
  (yoe + era * 400 + (if m <=? 2 then 1 else 0), m, d).

Definition pad_Z (n : nat) (z : Z) : string := padStart (str_of_Z z) n "0".

(** [date.toISOString()]; years outside 0..9999 have a sign and six digits. *)
Definition toISOString (ms : Z) : string :=
  let '(y, m, d) := civil_from_days (ms / 86400000) in
  let t := ms mod 86400000 in
  (if (0 <=? y) && (y <=? 9999) then pad_Z 4 y
   else (if y <? 0 then "-" else "+") +:+ pad_Z 6 (Z.abs y))
  +:+ "-" +:+ pad_Z 2 m +:+ "-" +:+ pad_Z 2 d
  +:+ "T" +:+ pad_Z 2 (t / 3600000) +:+ ":" +:+ pad_Z 2 (t / 60000 mod 60)
  +:+ ":" +:+ pad_Z 2 (t / 1000 mod 60) +:+ "." +:+ pad_Z 3 (t mod 1000) +:+ "Z".

Example toISOString_ex :
  toISOString 0 = "1970-01-01T00:00:00.000Z" /\
  toISOString 1786924800123 = "2026-08-17T00:00:00.123Z" /\
  toISOString 951782400000 = "2000-02-29T00:00:00.000Z" /\
  toISOString (-1) = "1969-12-31T23:59:59.999Z".
Proof. vm_compute. done. Qed.

(* ------------------------------------------------------------------ *)
(** ** Splitting and case *)

(** [s.split(c)] for a single character [c] *)
Fixpoint split (c : ascii) (s : string) : list string :=
  match s with
  | EmptyString => [""]
  | String a s' =>
      if Ascii.eqb a c then "" :: split c s'
      else match split c s' with
           | [] => [String a ""]
           | x :: r => String a x :: r
           end
  end.

(** [s.toLowerCase()] on ASCII text *)
Definition lower_char (c : ascii) : ascii :=
  let n := Z.of_N (N_of_ascii c) in
  if (65 <=? n) && (n <=? 90) then ascii_of_N (Z.to_N (n + 32)) else c.

Fixpoint toLowerCase (s : string) : string :=
  match s with EmptyString => "" | String c s' => String (lower_char c) (toLowerCase s') end.

Example string_split_ex : split "@" "Ann@Bar.io" = ["Ann"; "Bar.io"] /\ split "," "" = [""] /\
  toLowerCase "Ann@Bar.io" = "ann@bar.io".
Proof. vm_compute. done. Qed.

Lemma split_nonempty c s : split c s <> [].
Proof. destruct s as [|a s]; cbn; [done|]. destruct (Ascii.eqb a c); [done|]. by destruct (split c s). Qed.

(** [s.split(c)] is undone by [join]. *)
Lemma join_split c s : join (String c "") (split c s) = s.
Proof.
  induction s as [|a s IH]; [done|]. cbn [split]. destruct (Ascii.eqb a c) eqn:E.
  - apply Ascii.eqb_eq in E as ->. destruct (split c s) as [|x r] eqn:Es; [by apply split_nonempty in Es|].
    change (join (String c "") ("" :: x :: r)) with (String c "" +:+ join (String c "") (x :: r)). by rewrite IH.
  - destruct (split c s) as [|x r] eqn:Es; [by apply split_nonempty in Es|].
    destruct r as [|y r]; cbn [join] in *; [cbn in *; congruence|]. rewrite <- IH. done.
Qed.

Close Scope Z_scope.

(** [join] is undone by [split] when no piece has the separator. *)
Lemma split_no_char c s : all_chars (fun a => negb (Ascii.eqb a c)) s = true -> split c s = [s].
Proof.
  induction s as [|a s IH]; [done|]. cbn [all_chars split]. intros H. apply andb_true_iff in H as [Ha Hs].
  apply negb_true_iff in Ha. by rewrite Ha, (IH Hs).
Qed.

Lemma split_app c s t :
  all_chars (fun a => negb (Ascii.eqb a c)) s = true -> split c (s +:+ String c t) = s :: split c t.
Proof.
  induction s as [|a s IH]; cbn [String.append split all_chars]; [by rewrite Ascii.eqb_refl|].
  intros H. apply andb_true_iff in H as [Ha Hs]. apply negb_true_iff in Ha. by rewrite Ha, (IH Hs).
Qed.

Lemma split_join c l :
  Forall (fun s => all_chars (fun a => negb (Ascii.eqb a c)) s = true) l -> l <> [] ->
  split c (join (String c "") l) = l.
Proof.
  induction 1 as [|s l Hs Hl IH]; intros Hne; [done|]. destruct l as [|t l]; [by apply split_no_char|].
  change (join (String c "") (s :: t :: l)) with (s +:+ String c (join (String c "") (t :: l))).
  rewrite split_app by done. by rewrite IH.
Qed.
