(* ===== verification/Calendar.v ===== *)
(** * Dates read back

    The calendar of Strings.v is consistent: the date text of an instant, as
    [toISOString] prints it, parses back to the midnight of its day, for every
    instant of the years 0 to 9999.  The quotient that
    finds the year is monotone, so it is checked at the ends of the 400 years of a
    cycle only. *)

From S2P Require Import Prelude Strings.

Open Scope Z_scope.

Module Calendar.

(** The day number of the civil date of a day is the day, and its month and
    day are in range. *)
Definition day_ok (z : Z) : bool :=
  let '(y, m, d) := civil_from_days z in
  (days_from_civil y m d =? z) && (1 <=? m) && (m <=? 12) && (1 <=? d) && (d <=? 31).

(** [forallb] on a range of integers, by binary counting. *)
Fixpoint all_from (n : nat) (z : Z) (p : Z -> bool) : bool :=
  match n with O => true | S n' => p z && all_from n' (z + 1) p end.
Lemma all_from_In n z p x : all_from n z p = true -> z <= x < z + Z.of_nat n -> p x = true.
Proof.
  revert z. induction n as [|n IH]; intros z H Hx; [lia|]. cbn in H. apply andb_true_iff in H as [Hp Hn].
  destruct (decide (x = z)) as [->|Hne]; [done|]. apply (IH (z + 1)); [done|lia].
Qed.

(** The year of a day of the cycle: the quotient is monotone, and right at the
    two ends of each of the 400 years. *)
Definition year_days (doe : Z) : Z := doe - doe / 1460 + doe / 36524 - doe / 146096.
Definition year_start (y : Z) : Z := if y =? 400 then 146097 else y * 365 + y / 4 - y / 100.

Lemma year_days_step d : 0 <= d -> year_days d <= year_days (d + 1).
Proof. unfold year_days. intros. Z.to_euclidean_division_equations. lia. Qed.
Lemma year_days_mono a b : 0 <= a <= b -> year_days a <= year_days b.
Proof.
  intros H. replace b with (a + Z.of_nat (Z.to_nat (b - a))) by lia.
  induction (Z.to_nat (b - a)) as [|n IH]; [rewrite Z.add_0_r; lia|].
  pose proof (year_days_step (a + Z.of_nat n)). rewrite Nat2Z.inj_succ. unfold Z.succ. rewrite Z.add_assoc. lia.
Qed.

Definition year_ok (y : Z) : bool :=
  (year_days (year_start y) / 365 =? y) && (year_days (year_start (y + 1) - 1) / 365 =? y)
  && (0 <=? year_start y) && (year_start (y + 1) - year_start y <=? 366).
Lemma years_ok y : 0 <= y < 400 -> year_ok y = true.
Proof. apply (all_from_In 400 0 year_ok). vm_compute. reflexivity. Qed.

Lemma year_of_day doe : 0 <= doe < 146097 -> exists y, 0 <= y < 400 /\ year_start y <= doe < year_start (y + 1).
Proof.
  intros H. assert (forall n : nat, (n <= 400)%nat -> doe < year_start (Z.of_nat n) ->
    exists y, 0 <= y < 400 /\ year_start y <= doe < year_start (y + 1)) as Hn.
  { induction n as [|n IH]; intros Hle Hlt; [change (year_start (Z.of_nat 0)) with 0 in Hlt; lia|].
    destruct (Z.ltb_spec doe (year_start (Z.of_nat n))); [apply IH; lia|].
    exists (Z.of_nat n). rewrite Nat2Z.inj_succ in Hlt. split; [lia|]. split; [done|exact Hlt]. }
  apply (Hn 400%nat); [lia|]. change (year_start (Z.of_nat 400)) with 146097. lia.
Qed.

Lemma year_of_era doe :
  0 <= doe < 146097 -> let y := year_days doe / 365 in
  0 <= y < 400 /\ 0 <= doe - (365 * y + y / 4 - y / 100) <= 365.
Proof.
  intros H y. destruct (year_of_day doe H) as (y' & Hy & Hd). pose proof (years_ok y' Hy) as Hk. unfold year_ok in Hk.
  rewrite !andb_true_iff, !Z.eqb_eq, !Z.leb_le in Hk. destruct Hk as [[[H1 H2] H3] H4].
  assert (y = y') as ->.
  { pose proof (year_days_mono (year_start y') doe ltac:(lia)) as M1.
    pose proof (year_days_mono doe (year_start (y' + 1) - 1) ltac:(lia)) as M2. unfold y.
    apply (Z.div_le_mono _ _ 365) in M1, M2; lia. }
  split; [done|]. assert (year_start y' = y' * 365 + y' / 4 - y' / 100) as E
    by (unfold year_start; destruct (Z.eqb_spec y' 400); lia). lia.
Qed.

(** The month and day of a day of the year that starts in March. *)
Definition month_day (doy : Z) : Z * Z :=
  let mp := (5 * doy + 2) / 153 in
  (if mp <? 10 then mp + 3 else mp - 9, doy - (153 * mp + 2) / 5 + 1).
Definition month_ok (doy : Z) : bool :=
  let '(m, d) := month_day doy in
  (1 <=? m) && (m <=? 12) && (1 <=? d) && (d <=? 31)
  && ((153 * (m + (if m <=? 2 then 9 else -3)) + 2) / 5 + d - 1 =? doy).
Lemma months_ok doy : 0 <= doy <= 365 -> month_ok doy = true.
Proof. intros H. apply (all_from_In 366 0 month_ok); [vm_compute; reflexivity|lia]. Qed.

Lemma day_back z : day_ok z = true.
Proof.
  unfold day_ok, civil_from_days. cbv zeta.
  pose proof (Z.div_mod (z + 719468) 146097 ltac:(lia)) as E.
  pose proof (Z.mod_pos_bound (z + 719468) 146097 ltac:(lia)) as Hm.
  set (era := (z + 719468) / 146097) in *.
  replace (z + 719468 - era * 146097) with ((z + 719468) mod 146097) by lia.
  set (doe := (z + 719468) mod 146097) in *. fold (year_days doe).
  destruct (year_of_era doe Hm) as [Hy Hd]. set (y := year_days doe / 365) in *. cbv zeta in Hy, Hd.
  set (doy := doe - (365 * y + y / 4 - y / 100)) in *. pose proof (months_ok doy Hd) as Hk.
  unfold month_ok, month_day in Hk. set (mp := (5 * doy + 2) / 153) in *.
  set (m := if mp <? 10 then mp + 3 else mp - 9) in *. set (d := doy - (153 * mp + 2) / 5 + 1) in *. cbv zeta in Hk.
  rewrite !andb_true_iff, !Z.leb_le, !Z.eqb_eq in Hk. destruct Hk as [[[[H1 H2] H3] H4] H5].
  rewrite !andb_true_iff, !Z.leb_le, Z.eqb_eq. repeat split; try assumption.
  unfold days_from_civil. cbv zeta. rewrite <- (Z.add_sub_assoc _ d 1), Z.add_sub_assoc, H5.
  replace (if m <=? 2 then y + era * 400 + (if m <=? 2 then 1 else 0) - 1 else y + era * 400 + (if m <=? 2 then 1 else 0))
    with (y + era * 400) by (destruct (m <=? 2); lia).
  rewrite Z.div_add, (Z.div_small y 400) by lia. rewrite Z.add_0_l. replace (y + era * 400 - era * 400) with y by lia.
  clearbody y era m mp d. subst doy. lia.
Qed.

(** The calendar repeats after 400 years. *)
Lemma days_from_civil_era y m d k : days_from_civil (y + k * 400) m d = days_from_civil y m d + k * 146097.
Proof.
  unfold days_from_civil. destruct (m <=? 2).
  - replace (y + k * 400 - 1) with ((y - 1) + k * 400) by lia. rewrite Z.div_add by lia.
    replace (y - 1 + k * 400 - ((y - 1) / 400 + k) * 400) with (y - 1 - (y - 1) / 400 * 400) by lia. lia.
  - rewrite Z.div_add by lia.
    replace (y + k * 400 - (y / 400 + k) * 400) with (y - y / 400 * 400) by lia. lia.
Qed.

Lemma civil_era z k :
  civil_from_days (z + k * 146097) = let '(y, m, d) := civil_from_days z in (y + k * 400, m, d).
Proof.
  unfold civil_from_days. replace (z + k * 146097 + 719468) with (z + 719468 + k * 146097) by lia.
  rewrite Z.div_add by lia.
  replace (z + 719468 + k * 146097 - ((z + 719468) / 146097 + k) * 146097)
    with (z + 719468 - (z + 719468) / 146097 * 146097) by lia. cbv zeta. f_equal. f_equal. lia.
Qed.
Lemma civil_day_era z k : (civil_from_days (z + k * 146097)).2 = (civil_from_days z).2.
Proof. rewrite civil_era. by destruct (civil_from_days z) as [[y m] d]. Qed.

Lemma civil_spec z y m d :
  civil_from_days z = (y, m, d) -> days_from_civil y m d = z /\ 1 <= m <= 12 /\ 1 <= d <= 31.
Proof.
  intros E. pose proof (day_back z) as H. unfold day_ok in H. rewrite E in H.
  rewrite !andb_true_iff, Z.eqb_eq, !Z.leb_le in H. lia.
Qed.

(** Padded numerals are digits with the right value. *)
Definition pad_ok (n : nat) (z : Z) : bool :=
  (String.length (pad_Z n z) =? n)%nat && all_chars is_digit (pad_Z n z) && (digits_value (pad_Z n z) =? z).
Lemma pad2_ok z : 0 <= z < 100 -> pad_ok 2 z = true.
Proof. apply (all_from_In 100 0 (pad_ok 2)). vm_compute. reflexivity. Qed.
Lemma pad3_ok z : 0 <= z < 1000 -> pad_ok 3 z = true.
Proof. apply (all_from_In 1000 0 (pad_ok 3)). vm_compute. reflexivity. Qed.
Lemma pad4_ok z : 0 <= z < 10000 -> pad_ok 4 z = true.
Proof. apply (all_from_In (Z.to_nat 10000) 0 (pad_ok 4)). vm_compute. reflexivity. Qed.

Definition date_text (y m d : Z) : string := pad_Z 4 y +:+ "-" +:+ pad_Z 2 m +:+ "-" +:+ pad_Z 2 d.

Lemma parse_date_text y m d :
  0 <= y < 10000 -> 1 <= m <= 12 -> 1 <= d <= 31 -> parseDate (date_text y m d) = Some (days_from_civil y m d * 86400000).
Proof.
  intros Hy Hm Hd. pose proof (pad4_ok y Hy) as H1. pose proof (pad2_ok m ltac:(lia)) as H2.
  pose proof (pad2_ok d ltac:(lia)) as H3. unfold pad_ok in *. unfold date_text.
  rewrite !andb_true_iff, Z.eqb_eq, Nat.eqb_eq in *.
  destruct (pad_Z 4 y) as [|a [|b [|c [|e [|? ?]]]]]; cbn [String.length] in H1; try lia.
  destruct (pad_Z 2 m) as [|f [|g [|? ?]]]; cbn [String.length] in H2; try lia.
  destruct (pad_Z 2 d) as [|i [|j [|? ?]]]; cbn [String.length] in H3; try lia.
  destruct H1 as [[_ H1] E1], H2 as [[_ H2] E2], H3 as [[_ H3] E3].
  cbn [String.append list_of_str parseDate forallb str_of_list]. rewrite !Ascii.eqb_refl.
  rewrite E1, E2, E3. cbn [all_chars] in H1, H2, H3.
  repeat match goal with H : _ && _ = true |- _ => apply andb_true_iff in H as [? ?] end.
  repeat match goal with H : is_digit _ = true |- _ => rewrite H; clear H end. cbn [andb].
  rewrite !(proj2 (Z.leb_le _ _)) by lia. done.
Qed.

(** The instants of the years 0 to 9999. *)
Definition in_calendar (ms : Z) : Prop :=
  let '(y, _, _) := civil_from_days (ms / 86400000) in 0 <= y < 10000.

(** The first ten characters of [toISOString] are the date of the day. *)
Definition iso_day (ms : Z) : string := slice_to (toISOString ms) 10.

Lemma iso_day_text ms y m d :
  civil_from_days (ms / 86400000) = (y, m, d) -> 0 <= y < 10000 -> iso_day ms = date_text y m d.
Proof.
  intros E Hy. destruct (civil_spec _ _ _ _ E) as (_ & Hm & Hd). unfold iso_day, toISOString, slice_to, date_text. rewrite E.
  rewrite (proj2 (Z.leb_le 0 y)), (proj2 (Z.leb_le y 9999)) by lia. cbn [andb].
  pose proof (pad4_ok y Hy) as H1. pose proof (pad2_ok m ltac:(lia)) as H2. pose proof (pad2_ok d ltac:(lia)) as H3.
  unfold pad_ok in *. rewrite !andb_true_iff, Nat.eqb_eq in *.
  destruct (pad_Z 4 y) as [|a [|b [|c [|e [|? ?]]]]]; cbn [String.length] in H1; try lia.
  destruct (pad_Z 2 m) as [|f [|g [|? ?]]]; cbn [String.length] in H2; try lia.
  destruct (pad_Z 2 d) as [|i [|j [|? ?]]]; cbn [String.length] in H3; try lia. done.
Qed.

(** The date of an instant reads back as the midnight of its day. *)
Theorem iso_day_midnight ms : in_calendar ms -> parseDate (iso_day ms) = Some (ms / 86400000 * 86400000).
Proof.
  unfold in_calendar. destruct (civil_from_days (ms / 86400000)) as [[y m] d] eqn:E. intros Hy.
  destruct (civil_spec _ _ _ _ E) as (Hz & Hm & Hd). rewrite (iso_day_text _ _ _ _ E Hy), parse_date_text by done.
  by rewrite Hz.
Qed.
End Calendar.
