(* ===== verification/Schema.v ===== *)
(** * The data model

    The enumerations of packages/shared/src/enums.ts and of
    packages/db/prisma/schema.prisma, one record per table with the columns
    the modelled services use, the unique constraints of the schema, and the
    world the handlers run in: the tables, the Redis store, the log of
    external effects and a tick that numbers the interactions with the outside
    (clock reads, random draws, remote calls).  Amounts are the integer cents
    of the schema (Z), instants are milliseconds (Z), identifiers strings. *)

From S2P Require Import Prelude Concurrency.
From Stdlib Require Export SpecFloat.

(* ------------------------------------------------------------------ *)
(** ** Enumerations *)

Module OrgRole.
Inductive t :=
  OWNER | MANAGER | PAYROLL_ADMIN | VIEWER.
#[global] Instance t_eq_dec : EqDecision t.
Proof. solve_decision. Defined.
Definition name (x : t) : string :=
  match x with
  | OWNER => "OWNER" | MANAGER => "MANAGER" | PAYROLL_ADMIN => "PAYROLL_ADMIN"
  | VIEWER => "VIEWER"
  end.
End OrgRole.

Module GlobalRole.
Inductive t :=
  WORKER | VENUE_OWNER | VENUE_MANAGER | PAYROLL_ADMIN | VIEWER.
#[global] Instance t_eq_dec : EqDecision t.
Proof. solve_decision. Defined.
Definition name (x : t) : string :=
  match x with
  | WORKER => "WORKER" | VENUE_OWNER => "VENUE_OWNER"
  | VENUE_MANAGER => "VENUE_MANAGER" | PAYROLL_ADMIN => "PAYROLL_ADMIN"
  | VIEWER => "VIEWER"
  end.
End GlobalRole.

Module TipType.
Inductive t :=
  CASH_TIP | CARD_TIP | QR_TIP | AUTOMATIC_GRATUITY | SERVICE_CHARGE.
#[global] Instance t_eq_dec : EqDecision t.
Proof. solve_decision. Defined.
Definition name (x : t) : string :=
  match x with
  | CASH_TIP => "CASH_TIP" | CARD_TIP => "CARD_TIP" | QR_TIP => "QR_TIP"
  | AUTOMATIC_GRATUITY => "AUTOMATIC_GRATUITY" | SERVICE_CHARGE => "SERVICE_CHARGE"
  end.
End TipType.

Module PayoutRail.
Inductive t :=
  CASH_RETAINED | CASH_DRAWER | PAYROLL | PAYOUT_PROVIDER | BANK_REFERENCE | USDC.
#[global] Instance t_eq_dec : EqDecision t.
Proof. solve_decision. Defined.
Definition name (x : t) : string :=
  match x with
  | CASH_RETAINED => "CASH_RETAINED" | CASH_DRAWER => "CASH_DRAWER"
  | PAYROLL => "PAYROLL" | PAYOUT_PROVIDER => "PAYOUT_PROVIDER"
  | BANK_REFERENCE => "BANK_REFERENCE" | USDC => "USDC"
  end.
End PayoutRail.

Module BatchStatus.
Inductive t :=
  DRAFT | CALCULATED | REVIEW_REQUIRED | APPROVED | PAYABLE | PARTIALLY_PAID | PAID
  | CORRECTED | REVERSED | DISPUTED.
#[global] Instance t_eq_dec : EqDecision t.
Proof. solve_decision. Defined.
Definition name (x : t) : string :=
  match x with
  | DRAFT => "DRAFT" | CALCULATED => "CALCULATED"
  | REVIEW_REQUIRED => "REVIEW_REQUIRED" | APPROVED => "APPROVED"
  | PAYABLE => "PAYABLE" | PARTIALLY_PAID => "PARTIALLY_PAID" | PAID => "PAID"
  | CORRECTED => "CORRECTED" | REVERSED => "REVERSED" | DISPUTED => "DISPUTED"
  end.
End BatchStatus.

Module PayoutStatus.
Inductive t :=
  CREATED | INITIATED | SUBMITTED | CONFIRMED | FINALIZED | FAILED | REVERSED |
  CORRECTED.
#[global] Instance t_eq_dec : EqDecision t.
Proof. solve_decision. Defined.
Definition name (x : t) : string :=
  match x with
  | CREATED => "CREATED" | INITIATED => "INITIATED" | SUBMITTED => "SUBMITTED"
  | CONFIRMED => "CONFIRMED" | FINALIZED => "FINALIZED" | FAILED => "FAILED"
  | REVERSED => "REVERSED" | CORRECTED => "CORRECTED"
  end.
End PayoutStatus.

Module ReportStatus.
Inductive t :=
  DRAFT | ISSUED | EXPIRED | CORRECTED | REVOKED.
#[global] Instance t_eq_dec : EqDecision t.
Proof. solve_decision. Defined.
Definition name (x : t) : string :=
  match x with
  | DRAFT => "DRAFT" | ISSUED => "ISSUED" | EXPIRED => "EXPIRED"
  | CORRECTED => "CORRECTED" | REVOKED => "REVOKED"
  end.
End ReportStatus.

Module EvidenceGrade.
Inductive t :=
  A | B | C | D | E.
#[global] Instance t_eq_dec : EqDecision t.
Proof. solve_decision. Defined.
Definition name (x : t) : string :=
  match x with
  | A => "A" | B => "B" | C => "C" | D => "D" | E => "E"
  end.
End EvidenceGrade.

Module DiscrepancyType.
Inductive t :=
  ALLOCATION_GAP | PAYOUT_GAP | PAYROLL_GAP | WITHHOLDING_UNKNOWN |
  REFUND_ADJUSTMENT_REQUIRED | DUPLICATE_EVIDENCE | UNMAPPED_WORKER |
  STALE_PROVIDER_DATA.
#[global] Instance t_eq_dec : EqDecision t.
Proof. solve_decision. Defined.
Definition name (x : t) : string :=
  match x with
  | ALLOCATION_GAP => "ALLOCATION_GAP" | PAYOUT_GAP => "PAYOUT_GAP"
  | PAYROLL_GAP => "PAYROLL_GAP" | WITHHOLDING_UNKNOWN => "WITHHOLDING_UNKNOWN"
  | REFUND_ADJUSTMENT_REQUIRED => "REFUND_ADJUSTMENT_REQUIRED"
  | DUPLICATE_EVIDENCE => "DUPLICATE_EVIDENCE" | UNMAPPED_WORKER => "UNMAPPED_WORKER"
  | STALE_PROVIDER_DATA => "STALE_PROVIDER_DATA"
  end.
End DiscrepancyType.

Module PaymentStatus.
Inductive t :=
  COMPLETED | PENDING | CANCELED.
#[global] Instance t_eq_dec : EqDecision t.
Proof. solve_decision. Defined.
Definition name (x : t) : string :=
  match x with
  | COMPLETED => "COMPLETED" | PENDING => "PENDING" | CANCELED => "CANCELED"
  end.
End PaymentStatus.

Module RefundStatus.
Inductive t :=
  NONE | PARTIAL | FULL.
#[global] Instance t_eq_dec : EqDecision t.
Proof. solve_decision. Defined.
Definition name (x : t) : string :=
  match x with
  | NONE => "NONE" | PARTIAL => "PARTIAL" | FULL => "FULL"
  end.
End RefundStatus.

Module IngestSource.
Inductive t :=
  CSV_UPLOAD | PROVIDER_API | PLATFORM_ATTESTED.
#[global] Instance t_eq_dec : EqDecision t.
Proof. solve_decision. Defined.
Definition name (x : t) : string :=
  match x with
  | CSV_UPLOAD => "CSV_UPLOAD" | PROVIDER_API => "PROVIDER_API"
  | PLATFORM_ATTESTED => "PLATFORM_ATTESTED"
  end.
End IngestSource.

Module ShiftStatus.
Inductive t :=
  IN_PROGRESS | COMPLETED | APPROVED | VOIDED.
#[global] Instance t_eq_dec : EqDecision t.
Proof. solve_decision. Defined.
Definition name (x : t) : string :=
  match x with
  | IN_PROGRESS => "IN_PROGRESS" | COMPLETED => "COMPLETED" | APPROVED => "APPROVED"
  | VOIDED => "VOIDED"
  end.
End ShiftStatus.

Module OpenShiftStatus.
Inductive t :=
  DRAFT | OPEN | FILLED | IN_PROGRESS | COMPLETED | CANCELLED.
#[global] Instance t_eq_dec : EqDecision t.
Proof. solve_decision. Defined.
Definition name (x : t) : string :=
  match x with
  | DRAFT => "DRAFT" | OPEN => "OPEN" | FILLED => "FILLED"
  | IN_PROGRESS => "IN_PROGRESS" | COMPLETED => "COMPLETED" | CANCELLED => "CANCELLED"
  end.
End OpenShiftStatus.

Module AssignmentStatus.
Inductive t :=
  INVITED | ACCEPTED | DECLINED | CANCELLED | CLOCKED_IN | CLOCKED_OUT | APPROVED |
  NO_SHOW.
#[global] Instance t_eq_dec : EqDecision t.
Proof. solve_decision. Defined.
Definition name (x : t) : string :=
  match x with
  | INVITED => "INVITED" | ACCEPTED => "ACCEPTED" | DECLINED => "DECLINED"
  | CANCELLED => "CANCELLED" | CLOCKED_IN => "CLOCKED_IN"
  | CLOCKED_OUT => "CLOCKED_OUT" | APPROVED => "APPROVED" | NO_SHOW => "NO_SHOW"
  end.
End AssignmentStatus.

Module PolicyStatus.
Inductive t :=
  DRAFT | ACTIVE | ARCHIVED.
#[global] Instance t_eq_dec : EqDecision t.
Proof. solve_decision. Defined.
Definition name (x : t) : string :=
  match x with
  | DRAFT => "DRAFT" | ACTIVE => "ACTIVE" | ARCHIVED => "ARCHIVED"
  end.
End PolicyStatus.

Module AllocationType.
Inductive t :=
  HOURS_WEIGHTED | ROLE_WEIGHTED_HOURS | EQUAL_SPLIT.
#[global] Instance t_eq_dec : EqDecision t.
Proof. solve_decision. Defined.
Definition name (x : t) : string :=
  match x with
  | HOURS_WEIGHTED => "HOURS_WEIGHTED" | ROLE_WEIGHTED_HOURS => "ROLE_WEIGHTED_HOURS"
  | EQUAL_SPLIT => "EQUAL_SPLIT"
  end.
End AllocationType.

Module AllocPayoutStatus.
Inductive t :=
  UNPAID | PENDING | PAID | FAILED.
#[global] Instance t_eq_dec : EqDecision t.
Proof. solve_decision. Defined.
Definition name (x : t) : string :=
  match x with
  | UNPAID => "UNPAID" | PENDING => "PENDING" | PAID => "PAID" | FAILED => "FAILED"
  end.
End AllocPayoutStatus.

Module MappingStatus.
Inductive t :=
  PENDING | CONFIRMED | REJECTED.
#[global] Instance t_eq_dec : EqDecision t.
Proof. solve_decision. Defined.
Definition name (x : t) : string :=
  match x with
  | PENDING => "PENDING" | CONFIRMED => "CONFIRMED" | REJECTED => "REJECTED"
  end.
End MappingStatus.

Module WalletType.
Inductive t :=
  EXTERNAL | EMBEDDED.
#[global] Instance t_eq_dec : EqDecision t.
Proof. solve_decision. Defined.
Definition name (x : t) : string :=
  match x with
  | EXTERNAL => "EXTERNAL" | EMBEDDED => "EMBEDDED"
  end.
End WalletType.

Module WalletStatus.
Inductive t :=
  ACTIVE | DISABLED.
#[global] Instance t_eq_dec : EqDecision t.
Proof. solve_decision. Defined.
Definition name (x : t) : string :=
  match x with
  | ACTIVE => "ACTIVE" | DISABLED => "DISABLED"
  end.
End WalletStatus.

Module PayrollStatus.
Inductive t :=
  PENDING | PROVIDER_CONFIRMED | DISPUTED.
#[global] Instance t_eq_dec : EqDecision t.
Proof. solve_decision. Defined.
Definition name (x : t) : string :=
  match x with
  | PENDING => "PENDING" | PROVIDER_CONFIRMED => "PROVIDER_CONFIRMED"
  | DISPUTED => "DISPUTED"
  end.
End PayrollStatus.

Module WithholdingStatus.
Inductive t :=
  UNKNOWN | PENDING | CONFIRMED.
#[global] Instance t_eq_dec : EqDecision t.
Proof. solve_decision. Defined.
Definition name (x : t) : string :=
  match x with
  | UNKNOWN => "UNKNOWN" | PENDING => "PENDING" | CONFIRMED => "CONFIRMED"
  end.
End WithholdingStatus.

Module EffectiveStatus.
Inductive t :=
  ACTIVE | SUPERSEDED | REVERSED.
#[global] Instance t_eq_dec : EqDecision t.
Proof. solve_decision. Defined.
Definition name (x : t) : string :=
  match x with
  | ACTIVE => "ACTIVE" | SUPERSEDED => "SUPERSEDED" | REVERSED => "REVERSED"
  end.
End EffectiveStatus.

Module DisclosureLevel.
Inductive t :=
  LEVEL_1 | LEVEL_2 | LEVEL_3.
#[global] Instance t_eq_dec : EqDecision t.
Proof. solve_decision. Defined.
Definition name (x : t) : string :=
  match x with
  | LEVEL_1 => "LEVEL_1" | LEVEL_2 => "LEVEL_2" | LEVEL_3 => "LEVEL_3"
  end.
End DisclosureLevel.

Module AccessMode.
Inductive t :=
  LINK | RECIPIENT_OTP.
#[global] Instance t_eq_dec : EqDecision t.
Proof. solve_decision. Defined.
Definition name (x : t) : string :=
  match x with
  | LINK => "LINK" | RECIPIENT_OTP => "RECIPIENT_OTP"
  end.
End AccessMode.

Module OrganizationStatus.
Inductive t :=
  ACTIVE | SUSPENDED.
#[global] Instance t_eq_dec : EqDecision t.
Proof. solve_decision. Defined.
Definition name (x : t) : string :=
  match x with
  | ACTIVE => "ACTIVE" | SUSPENDED => "SUSPENDED"
  end.
End OrganizationStatus.

Module ConnectionStatus.
Inductive t :=
  PENDING | CONNECTED | ERROR | REVOKED.
#[global] Instance t_eq_dec : EqDecision t.
Proof. solve_decision. Defined.
Definition name (x : t) : string :=
  match x with
  | PENDING => "PENDING" | CONNECTED => "CONNECTED" | ERROR => "ERROR" | REVOKED => "REVOKED"
  end.
End ConnectionStatus.

(** JSON values (the [Json] columns and the hashed documents). *)
Inductive json :=
| JNull
| JBool (b : bool)
| JInt (z : Z)
| JFloat (f : spec_float)
| JStr (s : string)
| JArr (l : list json)
| JObj (l : list (string * json)).

Definition JStrOpt (o : option string) : json := match o with Some s => JStr s | None => JNull end.

(** [same_key a b]: two nullable columns collide in a unique index ([null]
    never does, as in PostgreSQL). *)
Definition same_key {A} `{EqDecision A} (a b : option A) : bool :=
  match a, b with Some x, Some y => x ==? y | _, _ => false end.

(* ------------------------------------------------------------------ *)
(** ** Rows *)

(** Without createdAt and updatedAt (@updatedAt: the client rewrites it on every
    update), which no code reads: an update with the values the row has is the
    identity here. *)
Record User := mkUser {
  user_id : string;
  user_authUserId : string;
  user_email : string;
  user_displayName : string;
  user_role : GlobalRole.t
}.
#[export] Instance eta_User : Eta User := fun r => mkUser
  (user_id r) (user_authUserId r) (user_email r) (user_displayName r) (user_role r).
#[export] Instance row_User : Row User := {
  row_id := user_id;
  row_clash a b := (user_id a ==? user_id b)
    || ((user_authUserId a ==? user_authUserId b))
    || ((user_email a ==? user_email b))
}.

Record Organization := mkOrganization {
  organization_id : string;
  organization_legalName : string;
  organization_displayName : string;
  organization_status : OrganizationStatus.t;
  organization_country : string;
  organization_timezone : string
}.
#[export] Instance eta_Organization : Eta Organization := fun r => mkOrganization
  (organization_id r) (organization_legalName r) (organization_displayName r) (organization_status r)
  (organization_country r) (organization_timezone r).
#[export] Instance row_Organization : Row Organization := {
  row_id := organization_id;
  row_clash a b := (organization_id a ==? organization_id b)
}.

Record OrganizationMember := mkOrganizationMember {
  member_id : string;
  member_organizationId : string;
  member_userId : string;
  member_role : OrgRole.t
}.
#[export] Instance eta_OrganizationMember : Eta OrganizationMember := fun r => mkOrganizationMember
  (member_id r) (member_organizationId r) (member_userId r) (member_role r).
#[export] Instance row_OrganizationMember : Row OrganizationMember := {
  row_id := member_id;
  row_clash a b := (member_id a ==? member_id b)
    || ((member_organizationId a ==? member_organizationId b) && (member_userId a ==? member_userId b))
}.

Record Venue := mkVenue {
  venue_id : string;
  venue_organizationId : string;
  venue_name : string;
  venue_timezone : string;
  venue_solanaVenuePda : option string;
  venue_vaultTokenAccount : option string;
  venue_payoutSignerWallet : option string;
  venue_externalIds : list (string * string)
}.
#[export] Instance eta_Venue : Eta Venue := fun r => mkVenue
  (venue_id r) (venue_organizationId r) (venue_name r) (venue_timezone r)
  (venue_solanaVenuePda r) (venue_vaultTokenAccount r) (venue_payoutSignerWallet r) (venue_externalIds r).
#[export] Instance row_Venue : Row Venue := {
  row_id := venue_id;
  row_clash a b := (venue_id a ==? venue_id b)
}.

Record Worker := mkWorker {
  worker_id : string;
  worker_userId : string;
  worker_defaultWalletId : option string
}.
#[export] Instance eta_Worker : Eta Worker := fun r => mkWorker
  (worker_id r) (worker_userId r) (worker_defaultWalletId r).
#[export] Instance row_Worker : Row Worker := {
  row_id := worker_id;
  row_clash a b := (worker_id a ==? worker_id b)
    || ((worker_userId a ==? worker_userId b))
    || (same_key (worker_defaultWalletId a) (worker_defaultWalletId b))
}.

Record WorkerWallet := mkWorkerWallet {
  wallet_id : string;
  wallet_workerId : string;
  wallet_chain : string;
  wallet_address : string;
  wallet_walletType : WalletType.t;
  wallet_status : WalletStatus.t;
  wallet_isDefault : bool;
  wallet_linkedAt : Z
}.
#[export] Instance eta_WorkerWallet : Eta WorkerWallet := fun r => mkWorkerWallet
  (wallet_id r) (wallet_workerId r) (wallet_chain r) (wallet_address r)
  (wallet_walletType r) (wallet_status r) (wallet_isDefault r) (wallet_linkedAt r).
#[export] Instance row_WorkerWallet : Row WorkerWallet := {
  row_id := wallet_id;
  row_clash a b := (wallet_id a ==? wallet_id b)
    || ((wallet_workerId a ==? wallet_workerId b) && (wallet_chain a ==? wallet_chain b) && (wallet_address a ==? wallet_address b))
}.

Record ExternalWorkerAccount := mkExternalWorkerAccount {
  account_id : string;
  account_workerId : string;
  account_venueId : string;
  account_provider : string;
  account_externalWorkerId : string;
  account_mappingStatus : MappingStatus.t;
  account_verifiedBy : option string;
  account_verifiedAt : option Z
}.
#[export] Instance eta_ExternalWorkerAccount : Eta ExternalWorkerAccount := fun r => mkExternalWorkerAccount
  (account_id r) (account_workerId r) (account_venueId r) (account_provider r)
  (account_externalWorkerId r) (account_mappingStatus r) (account_verifiedBy r)
  (account_verifiedAt r).
#[export] Instance row_ExternalWorkerAccount : Row ExternalWorkerAccount := {
  row_id := account_id;
  row_clash a b := (account_id a ==? account_id b)
    || ((account_venueId a ==? account_venueId b) && (account_provider a ==? account_provider b) && (account_externalWorkerId a ==? account_externalWorkerId b))
}.

Record TipEvidence := mkTipEvidence {
  tip_id : string;
  tip_provider : string;
  tip_ingestSource : IngestSource.t;
  tip_venueId : string;
  tip_externalPaymentId : string;
  tip_externalOrderId : option string;
  tip_tipType : TipType.t;
  tip_grossAmountUsdCents : Z;
  tip_paymentStatus : PaymentStatus.t;
  tip_refundStatus : RefundStatus.t;
  tip_businessDate : string;
  tip_sourceHash : string;
  tip_sourcePayoutRail : option PayoutRail.t;
  tip_sourcePayrollStatus : option string
}.
#[export] Instance eta_TipEvidence : Eta TipEvidence := fun r => mkTipEvidence
  (tip_id r) (tip_provider r) (tip_ingestSource r) (tip_venueId r)
  (tip_externalPaymentId r) (tip_externalOrderId r) (tip_tipType r)
  (tip_grossAmountUsdCents r) (tip_paymentStatus r) (tip_refundStatus r)
  (tip_businessDate r) (tip_sourceHash r) (tip_sourcePayoutRail r)
  (tip_sourcePayrollStatus r).
#[export] Instance row_TipEvidence : Row TipEvidence := {
  row_id := tip_id;
  row_clash a b := (tip_id a ==? tip_id b)
    || ((tip_venueId a ==? tip_venueId b) && (tip_provider a ==? tip_provider b) && (tip_externalPaymentId a ==? tip_externalPaymentId b) && (tip_tipType a ==? tip_tipType b))
}.

Record ShiftEvidence := mkShiftEvidence {
  shift_id : string;
  shift_provider : string;
  shift_ingestSource : IngestSource.t;
  shift_venueId : string;
  shift_externalShiftId : string;
  shift_externalWorkerId : string;
  shift_mappedWorkerId : option string;
  shift_role : string;
  shift_clockIn : Z;
  shift_clockOut : option Z;
  shift_workedMinutes : Z;
  shift_shiftStatus : ShiftStatus.t;
  shift_businessDate : string;
  shift_sourceHash : string;
  shift_sourcePayoutRail : option PayoutRail.t;
  shift_sourcePayrollStatus : option string
}.
#[export] Instance eta_ShiftEvidence : Eta ShiftEvidence := fun r => mkShiftEvidence
  (shift_id r) (shift_provider r) (shift_ingestSource r) (shift_venueId r)
  (shift_externalShiftId r) (shift_externalWorkerId r) (shift_mappedWorkerId r)
  (shift_role r) (shift_clockIn r) (shift_clockOut r) (shift_workedMinutes r)
  (shift_shiftStatus r) (shift_businessDate r) (shift_sourceHash r)
  (shift_sourcePayoutRail r) (shift_sourcePayrollStatus r).
#[export] Instance row_ShiftEvidence : Row ShiftEvidence := {
  row_id := shift_id;
  row_clash a b := (shift_id a ==? shift_id b)
    || ((shift_venueId a ==? shift_venueId b) && (shift_provider a ==? shift_provider b) && (shift_externalShiftId a ==? shift_externalShiftId b))
}.

Record OpenShift := mkOpenShift {
  openShift_id : string;
  openShift_venueId : string;
  openShift_role : string;
  openShift_description : option string;
  openShift_startsAt : Z;
  openShift_endsAt : Z;
  openShift_hourlyRateUsdCents : Z;
  openShift_expectedTipUsdCents : Z;
  openShift_headcount : Z;
  openShift_status : OpenShiftStatus.t;
  openShift_createdByUserId : string;
  openShift_publishedAt : option Z;
  openShift_cancelledAt : option Z
}.
#[export] Instance eta_OpenShift : Eta OpenShift := fun r => mkOpenShift
  (openShift_id r) (openShift_venueId r) (openShift_role r) (openShift_description r)
  (openShift_startsAt r) (openShift_endsAt r) (openShift_hourlyRateUsdCents r)
  (openShift_expectedTipUsdCents r) (openShift_headcount r) (openShift_status r)
  (openShift_createdByUserId r) (openShift_publishedAt r) (openShift_cancelledAt r).
#[export] Instance row_OpenShift : Row OpenShift := {
  row_id := openShift_id;
  row_clash a b := (openShift_id a ==? openShift_id b)
}.

Record ShiftAssignment := mkShiftAssignment {
  assignment_id : string;
  assignment_openShiftId : string;
  assignment_workerId : string;
  assignment_status : AssignmentStatus.t;
  assignment_invitedByUserId : option string;
  assignment_respondedAt : option Z;
  assignment_checkInAt : option Z;
  assignment_checkOutAt : option Z;
  assignment_approvedAt : option Z;
  assignment_approvedByUserId : option string;
  assignment_shiftEvidenceId : option string;
  assignment_cancellationReason : option string
}.
#[export] Instance eta_ShiftAssignment : Eta ShiftAssignment := fun r => mkShiftAssignment
  (assignment_id r) (assignment_openShiftId r) (assignment_workerId r)
  (assignment_status r) (assignment_invitedByUserId r) (assignment_respondedAt r)
  (assignment_checkInAt r) (assignment_checkOutAt r) (assignment_approvedAt r)
  (assignment_approvedByUserId r) (assignment_shiftEvidenceId r)
  (assignment_cancellationReason r).
#[export] Instance row_ShiftAssignment : Row ShiftAssignment := {
  row_id := assignment_id;
  row_clash a b := (assignment_id a ==? assignment_id b)
    || (same_key (assignment_shiftEvidenceId a) (assignment_shiftEvidenceId b))
    || ((assignment_openShiftId a ==? assignment_openShiftId b) && (assignment_workerId a ==? assignment_workerId b))
}.

Record AllocationPolicy := mkAllocationPolicy {
  policy_id : string;
  policy_venueId : string;
  policy_version : Z;
  policy_status : PolicyStatus.t;
  policy_allocationType : AllocationType.t;
  policy_roleWeights : list (string * spec_float);
  policy_tipOutRules : json;
  policy_poolInclusion : list (string * bool);
  policy_excludedRoles : list string;
  policy_effectiveFrom : Z;
  policy_effectiveTo : option Z;
  policy_createdBy : string
}.
#[export] Instance eta_AllocationPolicy : Eta AllocationPolicy := fun r => mkAllocationPolicy
  (policy_id r) (policy_venueId r) (policy_version r) (policy_status r)
  (policy_allocationType r) (policy_roleWeights r) (policy_tipOutRules r)
  (policy_poolInclusion r) (policy_excludedRoles r) (policy_effectiveFrom r)
  (policy_effectiveTo r) (policy_createdBy r).
#[export] Instance row_AllocationPolicy : Row AllocationPolicy := {
  row_id := policy_id;
  row_clash a b := (policy_id a ==? policy_id b)
    || ((policy_venueId a ==? policy_venueId b) && (policy_version a ==? policy_version b))
}.

Record AllocationBatch := mkAllocationBatch {
  batch_id : string;
  batch_venueId : string;
  batch_businessDate : string;
  batch_tipPoolAmountUsdCents : Z;
  batch_policyId : string;
  batch_policyVersion : Z;
  batch_status : BatchStatus.t;
  batch_evidenceHash : option string;
  batch_allocationHash : option string;
  batch_reviewIssues : json;
  batch_calculatedAt : option Z;
  batch_calculatedBy : option string;
  batch_approvedAt : option Z;
  batch_approvedBy : option string
}.
#[export] Instance eta_AllocationBatch : Eta AllocationBatch := fun r => mkAllocationBatch
  (batch_id r) (batch_venueId r) (batch_businessDate r) (batch_tipPoolAmountUsdCents
  r) (batch_policyId r) (batch_policyVersion r) (batch_status r) (batch_evidenceHash
  r) (batch_allocationHash r) (batch_reviewIssues r) (batch_calculatedAt r)
  (batch_calculatedBy r) (batch_approvedAt r) (batch_approvedBy r).
#[export] Instance row_AllocationBatch : Row AllocationBatch := {
  row_id := batch_id;
  row_clash a b := (batch_id a ==? batch_id b)
    || ((batch_venueId a ==? batch_venueId b) && (batch_businessDate a ==? batch_businessDate b) && (batch_policyVersion a ==? batch_policyVersion b))
}.

Record WorkerAllocation := mkWorkerAllocation {
  alloc_id : string;
  alloc_batchId : string;
  alloc_workerId : option string;
  alloc_provider : option string;
  alloc_externalWorkerId : option string;
  alloc_pooledTipUsdCents : Z;
  alloc_netAllocatedUsdCents : Z;
  alloc_plannedPayoutRail : option PayoutRail.t;
  alloc_payoutRail : option PayoutRail.t;
  alloc_payoutStatus : AllocPayoutStatus.t
}.
#[export] Instance eta_WorkerAllocation : Eta WorkerAllocation := fun r => mkWorkerAllocation
  (alloc_id r) (alloc_batchId r) (alloc_workerId r) (alloc_provider r)
  (alloc_externalWorkerId r) (alloc_pooledTipUsdCents r) (alloc_netAllocatedUsdCents
  r) (alloc_plannedPayoutRail r) (alloc_payoutRail r) (alloc_payoutStatus r).
#[export] Instance row_WorkerAllocation : Row WorkerAllocation := {
  row_id := alloc_id;
  row_clash a b := (alloc_id a ==? alloc_id b)
    || ((alloc_batchId a ==? alloc_batchId b) && same_key (alloc_workerId a) (alloc_workerId b))
    || ((alloc_batchId a ==? alloc_batchId b) && same_key (alloc_provider a) (alloc_provider b) && same_key (alloc_externalWorkerId a) (alloc_externalWorkerId b))
}.

Record Payout := mkPayout {
  payout_id : string;
  payout_paymentId : string;
  payout_paymentIdHash : option string;
  payout_allocationId : string;
  payout_workerId : string;
  payout_venueId : string;
  payout_walletId : option string;
  payout_rail : PayoutRail.t;
  payout_asset : string;
  payout_amountBaseUnits : Z;
  payout_amountUsdCents : Z;
  payout_status : PayoutStatus.t;
  payout_externalReference : option string;
  payout_txSignature : option string;
  payout_settlementPda : option string;
  payout_recentBlockhash : option string;
  payout_lastValidBlockHeight : option Z;
  payout_signedTransactionBase64 : option string;
  payout_lastBroadcastAt : option Z;
  payout_broadcastAttempts : Z;
  payout_slot : option Z;
  payout_blockTime : option Z;
  payout_initiatedAt : option Z;
  payout_initiatedByUserId : option string;
  payout_submittedByUserId : option string;
  payout_signerWallet : option string;
  payout_settledAt : option Z;
  payout_failedReason : option string
}.
#[export] Instance eta_Payout : Eta Payout := fun r => mkPayout
  (payout_id r) (payout_paymentId r) (payout_paymentIdHash r) (payout_allocationId r)
  (payout_workerId r) (payout_venueId r) (payout_walletId r) (payout_rail r)
  (payout_asset r) (payout_amountBaseUnits r) (payout_amountUsdCents r) (payout_status
  r) (payout_externalReference r) (payout_txSignature r) (payout_settlementPda r)
  (payout_recentBlockhash r) (payout_lastValidBlockHeight r)
  (payout_signedTransactionBase64 r) (payout_lastBroadcastAt r)
  (payout_broadcastAttempts r) (payout_slot r) (payout_blockTime r)
  (payout_initiatedAt r) (payout_initiatedByUserId r) (payout_submittedByUserId r)
  (payout_signerWallet r) (payout_settledAt r) (payout_failedReason r).
#[export] Instance row_Payout : Row Payout := {
  row_id := payout_id;
  row_clash a b := (payout_id a ==? payout_id b)
    || ((payout_paymentId a ==? payout_paymentId b))
    || (same_key (payout_paymentIdHash a) (payout_paymentIdHash b))
}.

Record PayrollRecord := mkPayrollRecord {
  payroll_id : string;
  payroll_workerId : string;
  payroll_venueId : string;
  payroll_periodStart : Z;
  payroll_periodEnd : Z;
  payroll_reportedTipUsdCents : Z;
  payroll_federalWithholdingUsdCents : option Z;
  payroll_stateWithholdingUsdCents : option Z;
  payroll_socialSecurityUsdCents : option Z;
  payroll_medicareUsdCents : option Z;
  payroll_status : PayrollStatus.t;
  payroll_providerReference : option string
}.
#[export] Instance eta_PayrollRecord : Eta PayrollRecord := fun r => mkPayrollRecord
  (payroll_id r) (payroll_workerId r) (payroll_venueId r) (payroll_periodStart r)
  (payroll_periodEnd r) (payroll_reportedTipUsdCents r)
  (payroll_federalWithholdingUsdCents r) (payroll_stateWithholdingUsdCents r)
  (payroll_socialSecurityUsdCents r) (payroll_medicareUsdCents r) (payroll_status r)
  (payroll_providerReference r).
#[export] Instance row_PayrollRecord : Row PayrollRecord := {
  row_id := payroll_id;
  row_clash a b := (payroll_id a ==? payroll_id b)
}.

Record IncomeEntry := mkIncomeEntry {
  entry_id : string;
  entry_workerId : string;
  entry_venueId : string;
  entry_shiftId : option string;
  entry_payoutId : option string;
  entry_earnedUsdCents : Z;
  entry_allocatedUsdCents : Z;
  entry_paidUsdCents : Z;
  entry_payrollReportedUsdCents : Z;
  entry_withholdingStatus : WithholdingStatus.t;
  entry_payoutRail : option PayoutRail.t;
  entry_evidenceGrade : EvidenceGrade.t;
  entry_effectiveStatus : EffectiveStatus.t;
  entry_originalEntryId : option string;
  entry_correctionOfId : option string;
  entry_correctionReason : option string;
  entry_createdAt : Z
}.
#[export] Instance eta_IncomeEntry : Eta IncomeEntry := fun r => mkIncomeEntry
  (entry_id r) (entry_workerId r) (entry_venueId r) (entry_shiftId r) (entry_payoutId
  r) (entry_earnedUsdCents r) (entry_allocatedUsdCents r) (entry_paidUsdCents r)
  (entry_payrollReportedUsdCents r) (entry_withholdingStatus r) (entry_payoutRail r)
  (entry_evidenceGrade r) (entry_effectiveStatus r) (entry_originalEntryId r)
  (entry_correctionOfId r) (entry_correctionReason r) (entry_createdAt r).
#[export] Instance row_IncomeEntry : Row IncomeEntry := {
  row_id := entry_id;
  row_clash a b := (entry_id a ==? entry_id b)
}.

Record DiscrepancyAlert := mkDiscrepancyAlert {
  alert_id : string;
  alert_workerId : option string;
  alert_venueId : string;
  alert_shiftId : option string;
  alert_type : DiscrepancyType.t;
  alert_detail : json;
  alert_resolvedAt : option Z;
  alert_createdAt : Z
}.
#[export] Instance eta_DiscrepancyAlert : Eta DiscrepancyAlert := fun r => mkDiscrepancyAlert
  (alert_id r) (alert_workerId r) (alert_venueId r) (alert_shiftId r) (alert_type r)
  (alert_detail r) (alert_resolvedAt r) (alert_createdAt r).
#[export] Instance row_DiscrepancyAlert : Row DiscrepancyAlert := {
  row_id := alert_id;
  row_clash a b := (alert_id a ==? alert_id b)
}.

Record DisclosureGrant := mkDisclosureGrant {
  grant_id : string;
  grant_workerId : string;
  grant_recipientEmail : option string;
  grant_accessMode : AccessMode.t;
  grant_purpose : string;
  grant_level : DisclosureLevel.t;
  grant_thresholdUsdCents : option Z;
  grant_dateRangeStart : Z;
  grant_dateRangeEnd : Z;
  grant_expiresAt : Z;
  grant_allowDownload : bool;
  grant_revokedAt : option Z;
  grant_accessTokenHash : string
}.
#[export] Instance eta_DisclosureGrant : Eta DisclosureGrant := fun r => mkDisclosureGrant
  (grant_id r) (grant_workerId r) (grant_recipientEmail r) (grant_accessMode r)
  (grant_purpose r) (grant_level r) (grant_thresholdUsdCents r) (grant_dateRangeStart
  r) (grant_dateRangeEnd r) (grant_expiresAt r) (grant_allowDownload r)
  (grant_revokedAt r) (grant_accessTokenHash r).
#[export] Instance row_DisclosureGrant : Row DisclosureGrant := {
  row_id := grant_id;
  row_clash a b := (grant_id a ==? grant_id b)
    || ((grant_accessTokenHash a ==? grant_accessTokenHash b))
}.

Record DisclosureAccessLog := mkDisclosureAccessLog {
  access_id : string;
  access_grantId : string;
  access_ip : option string;
  access_userAgent : option string;
  access_accessedAt : Z
}.
#[export] Instance eta_DisclosureAccessLog : Eta DisclosureAccessLog := fun r => mkDisclosureAccessLog
  (access_id r) (access_grantId r) (access_ip r) (access_userAgent r)
  (access_accessedAt r).
#[export] Instance row_DisclosureAccessLog : Row DisclosureAccessLog := {
  row_id := access_id;
  row_clash a b := (access_id a ==? access_id b)
}.

Record VerificationReport := mkVerificationReport {
  report_id : string;
  report_workerId : string;
  report_disclosureGrantId : string;
  report_reportHash : string;
  report_reportUri : option string;
  report_snapshot : json;
  report_status : ReportStatus.t;
  report_issuedAt : option Z;
  report_expiresAt : option Z;
  report_revokedAt : option Z;
  report_previousReportId : option string;
  report_createdAt : Z
}.
#[export] Instance eta_VerificationReport : Eta VerificationReport := fun r => mkVerificationReport
  (report_id r) (report_workerId r) (report_disclosureGrantId r) (report_reportHash r)
  (report_reportUri r) (report_snapshot r) (report_status r) (report_issuedAt r)
  (report_expiresAt r) (report_revokedAt r) (report_previousReportId r)
  (report_createdAt r).
#[export] Instance row_VerificationReport : Row VerificationReport := {
  row_id := report_id;
  row_clash a b := (report_id a ==? report_id b)
    || (same_key (report_previousReportId a) (report_previousReportId b))
}.

Record RefreshToken := mkRefreshToken {
  token_id : string;
  token_userId : string;
  token_tokenHash : string;
  token_expiresAt : Z;
  token_revokedAt : option Z
}.
#[export] Instance eta_RefreshToken : Eta RefreshToken := fun r => mkRefreshToken
  (token_id r) (token_userId r) (token_tokenHash r) (token_expiresAt r)
  (token_revokedAt r).
#[export] Instance row_RefreshToken : Row RefreshToken := {
  row_id := token_id;
  row_clash a b := (token_id a ==? token_id b)
    || ((token_tokenHash a ==? token_tokenHash b))
}.

Record AuditLog := mkAuditLog {
  audit_id : string;
  audit_organizationId : option string;
  audit_venueId : option string;
  audit_actorUserId : option string;
  audit_action : string;
  audit_entityType : string;
  audit_entityId : option string;
  audit_detail : json
}.
#[export] Instance eta_AuditLog : Eta AuditLog := fun r => mkAuditLog
  (audit_id r) (audit_organizationId r) (audit_venueId r) (audit_actorUserId r)
  (audit_action r) (audit_entityType r) (audit_entityId r) (audit_detail r).
#[export] Instance row_AuditLog : Row AuditLog := {
  row_id := audit_id;
  row_clash a b := (audit_id a ==? audit_id b)
}.

Record ProviderConnection := mkProviderConnection {
  connection_id : string;
  connection_venueId : string;
  connection_provider : string;
  connection_environment : string;
  connection_status : ConnectionStatus.t;
  connection_merchantId : option string;
  connection_locationId : option string;
  connection_encryptedAccessToken : option string;
  connection_encryptedRefreshToken : option string;
  connection_tokenExpiresAt : option Z;
  connection_oauthStateHash : option string;
  connection_oauthStateExpiresAt : option Z;
  connection_lastSyncStartedAt : option Z;
  connection_lastSyncSucceededAt : option Z;
  connection_lastSyncFailedAt : option Z;
  connection_lastError : option string;
  connection_consecutiveFailures : Z
}.
#[export] Instance eta_ProviderConnection : Eta ProviderConnection := fun r => mkProviderConnection
  (connection_id r) (connection_venueId r) (connection_provider r) (connection_environment r)
  (connection_status r) (connection_merchantId r) (connection_locationId r)
  (connection_encryptedAccessToken r) (connection_encryptedRefreshToken r)
  (connection_tokenExpiresAt r) (connection_oauthStateHash r) (connection_oauthStateExpiresAt r)
  (connection_lastSyncStartedAt r) (connection_lastSyncSucceededAt r)
  (connection_lastSyncFailedAt r) (connection_lastError r) (connection_consecutiveFailures r).
#[export] Instance row_ProviderConnection : Row ProviderConnection := {
  row_id := connection_id;
  row_clash a b := (connection_id a ==? connection_id b)
    || ((connection_venueId a ==? connection_venueId b) && (connection_provider a ==? connection_provider b))
}.

(* ------------------------------------------------------------------ *)
(** ** The world *)

(** Effects outside the database. *)
Inductive effect :=
| Broadcast (raw : string)
| Enqueue (queue : string) (job : json)
| Mail (recipient subject : string)
| WriteFile (path content : string).

Record World := mkWorld {
  w_users : list User;
  w_members : list OrganizationMember;
  w_venues : list Venue;
  w_workers : list Worker;
  w_wallets : list WorkerWallet;
  w_accounts : list ExternalWorkerAccount;
  w_tips : list TipEvidence;
  w_shifts : list ShiftEvidence;
  w_openShifts : list OpenShift;
  w_assignments : list ShiftAssignment;
  w_policies : list AllocationPolicy;
  w_batches : list AllocationBatch;
  w_allocations : list WorkerAllocation;
  w_payouts : list Payout;
  w_payrollRecords : list PayrollRecord;
  w_incomeEntries : list IncomeEntry;
  w_alerts : list DiscrepancyAlert;
  w_grants : list DisclosureGrant;
  w_accesses : list DisclosureAccessLog;
  w_reports : list VerificationReport;
  w_refreshTokens : list RefreshToken;
  w_auditLogs : list AuditLog;
  w_organizations : list Organization;
  w_connections : list ProviderConnection;
  w_redis : list (string * (string * option Z));
  w_effects : list effect;
  w_tick : nat
}.
#[export] Instance eta_World : Eta World := fun w => mkWorld
  (w_users w) (w_members w) (w_venues w) (w_workers w) (w_wallets w) (w_accounts w)
  (w_tips w) (w_shifts w) (w_openShifts w) (w_assignments w) (w_policies w) (w_batches
  w) (w_allocations w) (w_payouts w) (w_payrollRecords w) (w_incomeEntries w)
  (w_alerts w) (w_grants w) (w_accesses w) (w_reports w) (w_refreshTokens w)
  (w_auditLogs w) (w_organizations w) (w_connections w) (w_redis w) (w_effects w) (w_tick w).

#[export] Instance table_User : Table World User := {
  rows := w_users; set_rows l w := w <| w_users := l |>
}.
#[export] Instance table_OrganizationMember : Table World OrganizationMember := {
  rows := w_members; set_rows l w := w <| w_members := l |>
}.
#[export] Instance table_Venue : Table World Venue := {
  rows := w_venues; set_rows l w := w <| w_venues := l |>
}.
#[export] Instance table_Worker : Table World Worker := {
  rows := w_workers; set_rows l w := w <| w_workers := l |>
}.
#[export] Instance table_WorkerWallet : Table World WorkerWallet := {
  rows := w_wallets; set_rows l w := w <| w_wallets := l |>
}.
#[export] Instance table_ExternalWorkerAccount : Table World ExternalWorkerAccount := {
  rows := w_accounts; set_rows l w := w <| w_accounts := l |>
}.
#[export] Instance table_TipEvidence : Table World TipEvidence := {
  rows := w_tips; set_rows l w := w <| w_tips := l |>
}.
#[export] Instance table_ShiftEvidence : Table World ShiftEvidence := {
  rows := w_shifts; set_rows l w := w <| w_shifts := l |>
}.
#[export] Instance table_OpenShift : Table World OpenShift := {
  rows := w_openShifts; set_rows l w := w <| w_openShifts := l |>
}.
#[export] Instance table_ShiftAssignment : Table World ShiftAssignment := {
  rows := w_assignments; set_rows l w := w <| w_assignments := l |>
}.
#[export] Instance table_AllocationPolicy : Table World AllocationPolicy := {
  rows := w_policies; set_rows l w := w <| w_policies := l |>
}.
#[export] Instance table_AllocationBatch : Table World AllocationBatch := {
  rows := w_batches; set_rows l w := w <| w_batches := l |>
}.
#[export] Instance table_WorkerAllocation : Table World WorkerAllocation := {
  rows := w_allocations; set_rows l w := w <| w_allocations := l |>
}.
#[export] Instance table_Payout : Table World Payout := {
  rows := w_payouts; set_rows l w := w <| w_payouts := l |>
}.
#[export] Instance table_PayrollRecord : Table World PayrollRecord := {
  rows := w_payrollRecords; set_rows l w := w <| w_payrollRecords := l |>
}.
#[export] Instance table_IncomeEntry : Table World IncomeEntry := {
  rows := w_incomeEntries; set_rows l w := w <| w_incomeEntries := l |>
}.
#[export] Instance table_DiscrepancyAlert : Table World DiscrepancyAlert := {
  rows := w_alerts; set_rows l w := w <| w_alerts := l |>
}.
#[export] Instance table_DisclosureGrant : Table World DisclosureGrant := {
  rows := w_grants; set_rows l w := w <| w_grants := l |>
}.
#[export] Instance table_DisclosureAccessLog : Table World DisclosureAccessLog := {
  rows := w_accesses; set_rows l w := w <| w_accesses := l |>
}.
#[export] Instance table_VerificationReport : Table World VerificationReport := {
  rows := w_reports; set_rows l w := w <| w_reports := l |>
}.
#[export] Instance table_RefreshToken : Table World RefreshToken := {
  rows := w_refreshTokens; set_rows l w := w <| w_refreshTokens := l |>
}.
#[export] Instance table_AuditLog : Table World AuditLog := {
  rows := w_auditLogs; set_rows l w := w <| w_auditLogs := l |>
}.

#[export] Instance table_Organization : Table World Organization := {
  rows := w_organizations; set_rows l w := w <| w_organizations := l |>
}.
#[export] Instance table_ProviderConnection : Table World ProviderConnection := {
  rows := w_connections; set_rows l w := w <| w_connections := l |>
}.

(** What the services take from the JavaScript runtime and node's crypto
    library: the clock, random draws (answers numbered by the tick), digests,
    JSON.stringify, String.prototype.localeCompare and Intl.DateTimeFormat. *)
Class Platform := {
  now : nat -> Z;
  uuid : nat -> string;
  randomToken : nat -> string;
  randomCode : nat -> Z;
  sha256 : string -> string;
  hmacSha256 : string -> string -> string;
  stringify : json -> string;
  localeLt : string -> string -> bool;
  intlDate : Z -> string -> string
}.

Abbreviation handler := (prog World).

(** A numbered interaction with the outside. *)
Definition ask {A} (f : nat -> A) : handler A :=
  Act (fun w => (w <| w_tick ::= S |>, f (w_tick w))) Ret.

Definition newDate `{Platform} : handler Z := ask now.
Definition freshId `{Platform} : handler string := ask uuid.

Definition emit (e : effect) : handler unit :=
  Act (fun w => (w <| w_effects ::= fun l => l ++ [e] |>, tt)) Ret.

Lemma run_ask {A} (f : nat -> A) w : run (ask f) w = (w <| w_tick ::= S |>, Ok (f (w_tick w))).
Proof. done. Qed.
Lemma run_emit e w : run (emit e) w = (w <| w_effects ::= fun l => l ++ [e] |>, Ok tt).
Proof. done. Qed.
Lemma run_newDate `{Platform} w :
  run newDate w = (w <| w_tick ::= S |>, Ok (now (w_tick w))).
Proof. done. Qed.
Lemma run_freshId `{Platform} w :
  run freshId w = (w <| w_tick ::= S |>, Ok (uuid (w_tick w))).
Proof. done. Qed.

#[export] Hint Rewrite @run_ask @run_emit @run_newDate @run_freshId : run.
#[global] Arguments ask : simpl never.
#[global] Arguments emit : simpl never.
#[global] Arguments newDate : simpl never.
#[global] Arguments freshId : simpl never.

(** The proof rules of the numbered interactions and of effects. *)
Lemma safe_ask {A} I pot t (f : nat -> A) Q :
  (forall w, I w -> I (w <| w_tick ::= S |>)) -> (forall w, pot (w <| w_tick ::= S |>) = pot w) ->
  (forall a, Q (Ok a) t) -> safe I pot t (ask f) Q.
Proof.
  intros HI HP HQ w Hw. cbn. split; [by apply HI|]. exists t. split; [|apply HQ]. rewrite HP. lia.
Qed.

Lemma guar_ask {A} (G : World -> World -> Prop) (f : nat -> A) :
  (forall w, G w (w <| w_tick ::= S |>)) -> guar G (ask f).
Proof. intros H w. split; [apply H|done]. Qed.

(** An audit row: [prisma.auditLog.create]. *)
Definition audit `{Platform} (organizationId venueId actorUserId : option string)
    (action entityType : string) (entityId : option string) (detail : json) : handler AuditLog :=
  let* i := freshId in
  create (mkAuditLog i organizationId venueId actorUserId action entityType entityId detail).

(** [orderBy: { f: "desc" }] and ["asc"]; a table lists its rows in creation
    order, so a query ordered by [createdAt] needs no sorting. *)
Definition orderByDesc {R} (f : R -> Z) (l : list R) : list R := stable_sort (fun a b => (f b <? f a)%Z) l.
Definition orderByAsc {R} (f : R -> Z) (l : list R) : list R := stable_sort (fun a b => (f a <? f b)%Z) l.

(** Reading one table of an updated world. *)
Ltac wcbn :=
  cbn [rows set_rows set 
    table_User table_OrganizationMember table_Venue table_Worker table_WorkerWallet table_ExternalWorkerAccount table_TipEvidence table_ShiftEvidence table_OpenShift table_ShiftAssignment table_AllocationPolicy
    table_AllocationBatch table_WorkerAllocation table_Payout table_PayrollRecord table_IncomeEntry table_DiscrepancyAlert table_DisclosureGrant table_DisclosureAccessLog table_VerificationReport table_RefreshToken table_AuditLog table_Organization table_ProviderConnection
    w_users w_members w_venues w_workers w_wallets w_accounts w_tips w_shifts w_openShifts w_assignments w_policies w_batches w_allocations
    w_payouts w_payrollRecords w_incomeEntries w_alerts w_grants w_accesses w_reports w_refreshTokens w_auditLogs w_organizations w_connections w_redis w_effects w_tick].
Ltac wexec := repeat (progress (exec; wcbn)).
