(* ===== verification/Runtime.v ===== *)
(** * Redis, mail and the process environment

    The store the one-time codes live in, the delivery of mail
    (apps/api/src/auth/mail.service.ts) and the environment variables the
    services read.  The Redis server, the mail providers and the JWT library
    are outside the repository: [Environment] lists what the code takes from
    them.  The commands have Redis' documented meaning on a table of keys with
    an optional expiry; a command fails when [redisError] says so at its tick,
    and then changes nothing. *)

From S2P Require Import Prelude Concurrency Strings Schema.

Open Scope Z_scope.

Class Environment := {
  APP_ENV : option string;
  OTP_DEVCODE_DOMAINS : option string;
  REPORT_SIGNING_KEY : option string;
  WEB_ORIGIN : option string;
  BREVO_API_KEY : option string;
  SMTP_HOST : option string;
  (** the error of a Redis command at a tick, if it fails *)
  redisError : nat -> option string;
  (** the error of the mail provider at a tick, if it refuses the message *)
  mailError : nat -> option string;
  (** [jwt.signAsync(payload, { expiresIn })] *)
  signJwt : json -> string -> nat -> string
}.

(* ------------------------------------------------------------------ *)
(** ** Redis *)

Definition store : Type := list (string * (string * option Z)).

(** A key whose expiry has passed is gone. *)
Definition live (t : Z) (s : store) (key : string) : option (string * option Z) :=
  match map_get s key with
  | Some (v, Some e) => if e <=? t then None else Some (v, Some e)
  | o => o
  end.

Definition store_del (s : store) (keys : list string) : store :=
  List.filter (fun kv => negb (includes keys kv.1)) s.

(** The integer a counter holds. *)
Definition counter (o : option (string * option Z)) : Z :=
  match o with Some (v, _) => digits_value v | None => 0 end.

Section redis.
Context `{Platform} `{Environment}.

(** One command: the error of the store, or the answer of [f]. *)
Definition redis {A} (f : Z -> store -> store * A) : handler (result A) :=
  Act (fun w =>
    let w1 := w <| w_tick ::= S |> in
    match redisError (w_tick w) with
    | Some m => (w1, Err (JsError m))
    | None => let '(s, a) := f (now (w_tick w)) (w_redis w) in (w1 <| w_redis := s |>, Ok a)
    end) Ret.

Definition redis_get (key : string) : handler (result (option string)) :=
  redis (fun t s => (s, option_map fst (live t s key))).

(** [SET key value EX seconds] *)
Definition redis_set (key value : string) (seconds : Z) : handler (result unit) :=
  redis (fun t s => (map_set s key (value, Some (t + seconds * 1000)), tt)).

(** [SET key value EX seconds NX]: [false] when the key exists. *)
Definition redis_set_nx (key value : string) (seconds : Z) : handler (result bool) :=
  redis (fun t s => match live t s key with
                    | Some _ => (s, false)
                    | None => (map_set s key (value, Some (t + seconds * 1000)), true)
                    end).

(** [INCR]: the expiry of the key stays. *)
Definition redis_incr (key : string) : handler (result Z) :=
  redis (fun t s => let o := live t s key in
                    let n := counter o + 1 in
                    (map_set s key (str_of_Z n, match o with Some (_, e) => e | None => None end), n)).

Definition redis_expire (key : string) (seconds : Z) : handler (result unit) :=
  redis (fun t s => match live t s key with
                    | Some (v, _) => (map_set s key (v, Some (t + seconds * 1000)), tt)
                    | None => (s, tt)
                    end).

Definition redis_del (keys : list string) : handler (result unit) :=
  redis (fun _ s => (store_del s keys, tt)).

Lemma run_redis {A} (f : Z -> store -> store * A) w :
  run (redis f) w =
  match redisError (w_tick w) with
  | Some m => (w <| w_tick ::= S |>, Ok (Err (JsError m)))
  | None => let '(s, a) := f (now (w_tick w)) (w_redis w) in
            ((w <| w_tick ::= S |>) <| w_redis := s |>, Ok (Ok a))
  end.
Proof.
  unfold redis. cbn. destruct (redisError (w_tick w)); [done|].
  by destruct (f (now (w_tick w)) (w_redis w)).
Qed.
End redis.

#[global] Arguments redis : simpl never.

Lemma store_del_In s keys key : In key keys -> map_get (store_del s keys) key = None.
Proof.
  intros Hk. induction s as [|[k v] s IH]; cbn; [done|].
  destruct (includes keys k) eqn:E; cbn; [exact IH|]. rewrite bool_decide_eq_false_2; [exact IH|].
  intros ->. apply includes_In in Hk. congruence.
Qed.

Lemma live_set_ne t s k1 k2 v : k1 <> k2 -> live t (map_set s k1 v) k2 = live t s k2.
Proof. intros Hne. unfold live. by rewrite map_get_set_ne. Qed.

(** A command whose failure is the handler's failure. *)
Definition orThrow {W A} (wrap : string -> exn) (p : prog W (result A)) : prog W A :=
  let* r := p in
  match r with Ok a => Ret a | Err e => Throw (wrap (exn_message e)) end.

Lemma run_orThrow {A} wrap (p : handler (result A)) w :
  run (orThrow wrap p) w =
  match run p w with
  | (w', Ok (Ok a)) => (w', Ok a)
  | (w', Ok (Err e)) => (w', Err (wrap (exn_message e)))
  | (w', Err e) => (w', Err e)
  end.
Proof. unfold orThrow. rewrite run_bind. by destruct (run p w) as [w' [[a|e]|e]]. Qed.

(* ------------------------------------------------------------------ *)
(** ** Mail

    The text of a message is not modelled: a message is its recipient and its
    subject. *)

Module MailService.
Section mail.
Context `{Environment}.

Definition enabled : bool := truthy BREVO_API_KEY || truthy SMTP_HOST.

Definition send (to subject : string) : handler unit :=
  if negb enabled
  then Throw (ServiceUnavailableException
                "Email delivery is not configured (BREVO_API_KEY / SMTP_HOST unset)")
  else
    let* failure := ask mailError in
    match failure with
    | Some message => Throw (ServiceUnavailableException ("Email delivery failed: " +:+ message))
    | None => emit (Mail to subject)
    end.

Definition otpSubject (code : string) : string := "[ServeProof] 로그인 코드 " +:+ code.

Definition sendOtp (to code : string) : handler unit := send to (otpSubject code).
End mail.
End MailService.

(** [(OTP_DEVCODE_DOMAINS ?? "").split(",").map(trim, toLowerCase).filter(Boolean)] *)
Definition devCodeDomains `{Environment} : list string :=
  List.filter (fun d => negb (d ==? ""))
    (map (fun d => toLowerCase (trim d)) (split "," (nullish OTP_DEVCODE_DOMAINS ""))).

(** [s.split("@")[1] ?? ""] *)
Definition email_domain (email : string) : string := nullish (nth_error (split "@" email) 1) "".

(** [s.split("@")[0] ?? s] *)
Definition email_local (email : string) : string := nullish (head (split "@" email)) email.

(** [(APP_ENV ?? "local") === "local" || devCodeDomains.includes(domain)] *)
Definition exposesDevCode `{Environment} (domain : string) : bool :=
  (nullish APP_ENV "local" ==? "local") || includes devCodeDomains domain.

(** A staging environment for the examples: mail works, no code is exposed, the
    store never fails. *)
Definition demo_environment : Environment := {|
  APP_ENV := Some "staging";
  OTP_DEVCODE_DOMAINS := Some "demo.test";
  REPORT_SIGNING_KEY := Some "key";
  WEB_ORIGIN := None;
  BREVO_API_KEY := Some "brevo";
  SMTP_HOST := None;
  redisError _ := None;
  mailError _ := None;
  signJwt _ _ t := "jwt" +:+ str_of_Z (Z.of_nat t)
|}.
