(* ===== verification/Demo.v ===== *)
(** * A concrete platform

    A runtime for the examples and witnesses: a clock that advances one second
    per interaction, identifiers and tokens numbered by the interaction, an
    injective stand-in for the digests (the text with a prefix), strings
    compared by character codes, and days of 86,400,000 milliseconds. *)

From S2P Require Import Prelude Strings Schema.

Open Scope Z_scope.

Fixpoint show_json (j : json) : string :=
  match j with
  | JNull => "null"
  | JBool b => if b then "true" else "false"
  | JInt z => str_of_Z z
  | JFloat _ => "float"
  | JStr s => s
  | JArr l => "[" +:+ join "," (map show_json l) +:+ "]"
  | JObj l => "{" +:+ join "," (map (fun kv => kv.1 +:+ ":" +:+ show_json kv.2) l) +:+ "}"
  end.

#[export] Instance demo_platform : Platform := {|
  now t := 1000 * Z.of_nat t;
  uuid t := "id" +:+ str_of_Z (Z.of_nat t);
  randomToken t := "token" +:+ str_of_Z (Z.of_nat t);
  randomCode t := 100000 + Z.of_nat t;
  sha256 s := "#" +:+ s;
  hmacSha256 k s := k +:+ "#" +:+ s;
  stringify := show_json;
  localeLt := str_lt;
  intlDate ms _ := "day" +:+ str_of_Z (ms / 86400000)
|}.

(** The empty database at tick 0. *)
Definition empty_world : World :=
  mkWorld [] [] [] [] [] [] [] [] [] [] [] [] [] [] [] [] [] [] [] [] [] [] [] [] [] [] 0%nat.
