(* ===== verification/Float64.v ===== *)
(** * JavaScript numbers

    A JavaScript number is an IEEE 754 binary64; its arithmetic is the
    standard library's specification of floating-point operations at precision
    53 and exponent range 1024, which computes.  The second half bounds the
    error of each operation on non-negative numbers: the computed product,
    quotient or sum is within a relative 2^-53 of the exact one while the exact
    result stays in the normal range.  The allocation engine and the income
    projector use these bounds. *)

From S2P Require Import Prelude.
From Stdlib Require Export SpecFloat.
From Stdlib Require Import Reals Lra Psatz.

(* ------------------------------------------------------------------ *)
(** ** Numbers and their operations *)

Definition number : Type := spec_float.

Definition num_add : number -> number -> number := SFadd 53 1024.
Definition num_sub : number -> number -> number := SFsub 53 1024.
Definition num_mul : number -> number -> number := SFmul 53 1024.
Definition num_div : number -> number -> number := SFdiv 53 1024.
Definition num_ltb : number -> number -> bool := SFltb.
Definition num_eqb : number -> number -> bool := SFeqb.

(** The number nearest to an integer (exact up to 2^53). *)
Definition num_of_Z (z : Z) : number := binary_normalize 53 1024 z 0 false.

(** The integer part towards minus infinity of a finite number; [None] for
    the infinities and NaN, which [Math.floor] returns unchanged. *)
Definition num_floor (x : number) : option Z :=
  match x with
  | S754_zero _ => Some 0%Z
  | S754_finite s m e => Some (Z.shiftl (cond_Zopp s (Zpos m)) e)
  | _ => None
  end.

(** [Number.isInteger] *)
Definition num_isInteger (x : number) : bool :=
  match x with
  | S754_zero _ => true
  | S754_finite s m e =>
      Z.eqb (Z.shiftl (Z.shiftr (Zpos m) (- e)) (- e)) (Zpos m)
  | _ => false
  end.

Example num_floor_ex : num_floor (num_div (num_of_Z 7) (num_of_Z 2)) = Some 3%Z.
Proof. reflexivity. Qed.
Example num_isInteger_ex :
  num_isInteger (num_of_Z 1200) = true /\ num_isInteger (num_div (num_of_Z 7) (num_of_Z 2)) = false.
Proof. split; reflexivity. Qed.

(* ------------------------------------------------------------------ *)
(** ** Values *)

Local Open Scope R_scope.

Definition bpow (e : Z) : R := powerRZ 2 e.

Lemma bpow_pos e : 0 < bpow e.
Proof. apply powerRZ_lt. lra. Qed.

Lemma bpow_add a b : bpow (a + b) = bpow a * bpow b.
Proof. apply powerRZ_add. lra. Qed.

Lemma bpow_opp_mul a : bpow a * bpow (- a) = 1.
Proof. rewrite <- bpow_add. by rewrite Z.add_opp_diag_r. Qed.

Lemma bpow_IZR e : (0 <= e)%Z -> bpow e = IZR (2 ^ e).
Proof.
  intros H. unfold bpow. destruct e as [|p|p]; [done| |lia].
  cbn [powerRZ]. rewrite pow_IZR. by rewrite positive_nat_Z.
Qed.

Lemma bpow_le a b : (a <= b)%Z -> bpow a <= bpow b.
Proof.
  intros H. replace b with (a + (b - a))%Z by lia. rewrite bpow_add.
  assert (1 <= bpow (b - a)).
  { rewrite bpow_IZR by lia. apply IZR_le. pose proof (Z.pow_pos_nonneg 2 (b - a)). lia. }
  pose proof (bpow_pos a). nra.
Qed.

Lemma bpow_lt_inv a b : bpow a < bpow b -> (a < b)%Z.
Proof. intros H. apply Z.nle_gt. intros Hle. apply bpow_le in Hle. lra. Qed.

(** The unit roundoff. *)
Definition u : R := bpow (-53).

Definition num_val (x : number) : R :=
  match x with
  | S754_finite s m e => IZR (cond_Zopp s (Zpos m)) * bpow e
  | _ => 0
  end.

(** Non-negative numbers in normal form. *)
Definition nonneg (x : number) : Prop :=
  x = S754_zero false \/
  exists m e, x = S754_finite false m e /\ digits2_pos m = 53%positive.

(* ------------------------------------------------------------------ *)
(** ** Shifting and rounding *)

Definition inb (r : shr_record) (x : R) : Prop :=
  match shr_r r, shr_s r with
  | false, false => x = IZR (shr_m r)
  | false, true => IZR (shr_m r) < x < IZR (shr_m r) + / 2
  | true, false => x = IZR (shr_m r) + / 2
  | true, true => IZR (shr_m r) + / 2 < x < IZR (shr_m r) + 1
  end.

Lemma inb_bounds r x : inb r x -> IZR (shr_m r) <= x < IZR (shr_m r) + 1.
Proof. unfold inb. destruct (shr_r r), (shr_s r); lra. Qed.

Lemma shr_1_inb r x :
  (0 <= shr_m r)%Z -> inb r x ->
  inb (shr_1 r) (x / 2) /\ shr_m (shr_1 r) = (shr_m r / 2)%Z.
Proof.
  destruct r as [m rb sb]. unfold inb, shr_1; cbn [shr_m shr_r shr_s]. intros Hm H.
  destruct m as [|[p|p|]|p]; cbn [shr_m shr_r shr_s]; [| | | |lia].
  - split; [|done]. destruct rb, sb; cbn [orb] in *; lra.
  - rewrite (Pos2Z.inj_xI p), plus_IZR, mult_IZR in H. split.
    + destruct rb, sb; cbn [orb] in *; lra.
    + apply (Z.div_unique _ _ _ 1); lia.
  - rewrite (Pos2Z.inj_xO p), mult_IZR in H. split.
    + destruct rb, sb; cbn [orb] in *; lra.
    + apply (Z.div_unique _ _ _ 0); lia.
  - split; [|done]. destruct rb, sb; cbn [orb] in *; lra.
Qed.

Lemma iter_shr_inb p r x :
  (0 <= shr_m r)%Z -> inb r x ->
  inb (SpecFloat.iter_pos shr_1 p r) (x * bpow (- Zpos p)) /\
  shr_m (SpecFloat.iter_pos shr_1 p r) = (shr_m r / 2 ^ Zpos p)%Z.
Proof.
  revert r x. induction p as [p IH|p IH|]; intros r x Hm Hi; cbn [SpecFloat.iter_pos].
  - destruct (shr_1_inb r x Hm Hi) as [H1 E1].
    assert (0 <= shr_m (shr_1 r))%Z as P1 by (rewrite E1; apply Z.div_pos; lia).
    destruct (IH _ _ P1 H1) as [H2 E2].
    assert (0 <= shr_m (SpecFloat.iter_pos shr_1 p (shr_1 r)))%Z as P2
      by (rewrite E2; apply Z.div_pos; lia).
    destruct (IH _ _ P2 H2) as [H3 E3]. split.
    + replace (x * bpow (- Zpos p~1)) with (x / 2 * bpow (- Zpos p) * bpow (- Zpos p)); [done|].
      replace (- Zpos p~1)%Z with (-1 + (- Zpos p + - Zpos p))%Z by lia.
      rewrite !bpow_add. change (bpow (-1)) with (/ (2 * 1)). field.
    + rewrite E3, E2, E1, !Z.div_div by lia. f_equal.
      replace (Zpos p~1) with (1 + Zpos p + Zpos p)%Z by lia.
      rewrite !Z.pow_add_r, Z.pow_1_r by lia. ring.
  - destruct (IH _ _ Hm Hi) as [H2 E2].
    assert (0 <= shr_m (SpecFloat.iter_pos shr_1 p r))%Z as P2
      by (rewrite E2; apply Z.div_pos; lia).
    destruct (IH _ _ P2 H2) as [H3 E3]. split.
    + replace (x * bpow (- Zpos p~0)) with (x * bpow (- Zpos p) * bpow (- Zpos p)); [done|].
      replace (- Zpos p~0)%Z with (- Zpos p + - Zpos p)%Z by lia.
      rewrite !bpow_add. ring.
    + rewrite E3, E2, !Z.div_div by lia. f_equal.
      replace (Zpos p~0) with (Zpos p + Zpos p)%Z by lia.
      rewrite !Z.pow_add_r by lia. done.
  - destruct (shr_1_inb r x Hm Hi) as [H1 E1]. split; [|exact E1].
    assert (x * bpow (Z.opp 1) = x / 2) as ->; [|exact H1].
    change (bpow (Z.opp 1)) with (/ (2 * 1)). field.
Qed.

Lemma round_nearest_inb r x :
  inb r x ->
  let m := round_nearest_even (shr_m r) (loc_of_shr_record r) in
  Rabs (IZR m - x) <= / 2 /\ (shr_m r <= m <= shr_m r + 1)%Z.
Proof.
  destruct r as [m [|] [|]]; unfold inb; cbn; intros H.
  - rewrite plus_IZR. split; [apply Rabs_le; lra|lia].
  - destruct (Z.even m); rewrite ?plus_IZR; (split; [apply Rabs_le; lra|lia]).
  - split; [apply Rabs_le; lra|lia].
  - split; [apply Rabs_le; lra|lia].
Qed.

Lemma inb_integer r x n :
  inb r x -> x = IZR n -> IZR (round_nearest_even (shr_m r) (loc_of_shr_record r)) = x.
Proof.
  destruct r as [m [|] [|]]; unfold inb; cbn; intros H ->; [| | |done]; exfalso.
  all: assert (m < n)%Z by (apply lt_IZR; lra).
  all: assert (n < m + 1)%Z by (apply lt_IZR; rewrite plus_IZR; lra).
  all: lia.
Qed.

Lemma digits_bounds p : (2 ^ (Zpos (digits2_pos p) - 1) <= Zpos p < 2 ^ Zpos (digits2_pos p))%Z.
Proof.
  induction p as [p IH|p IH|]; cbn [digits2_pos]; [| |done].
  all: rewrite Pos2Z.inj_succ, Z.pow_succ_r by lia.
  all: set (d := Zpos (digits2_pos p)) in *.
  all: assert (2 ^ d = 2 * 2 ^ (d - 1))%Z
         by (rewrite <- Z.pow_succ_r by lia; f_equal; lia).
  all: replace (Z.succ d - 1)%Z with d by lia.
  all: rewrite ?(Pos2Z.inj_xI p), ?(Pos2Z.inj_xO p); lia.
Qed.

Lemma digits_unique p d :
  (0 < d)%Z -> (2 ^ (d - 1) <= Zpos p < 2 ^ d)%Z -> Zpos (digits2_pos p) = d.
Proof.
  intros Hd H. pose proof (digits_bounds p) as B.
  assert (Zpos (digits2_pos p) - 1 < d)%Z by (apply (Z.pow_lt_mono_r_iff 2); lia).
  assert (d - 1 < Zpos (digits2_pos p))%Z by (apply (Z.pow_lt_mono_r_iff 2); lia).
  lia.
Qed.

Lemma shr_inb r x e n :
  (0 <= n)%Z -> (0 <= shr_m r)%Z -> inb r x ->
  exists r', shr r e n = (r', (e + n)%Z) /\ inb r' (x * bpow (- n)) /\
             shr_m r' = (shr_m r / 2 ^ n)%Z.
Proof.
  intros Hn Hm Hi. destruct n as [|p|p]; [| |lia].
  - exists r. split; [by rewrite Z.add_0_r|]. split.
    + assert (x * bpow (- 0) = x) as ->; [change (bpow (- 0)) with 1; ring|done].
    + by rewrite Z.div_1_r.
  - exists (SpecFloat.iter_pos shr_1 p r). split; [done|]. by apply iter_shr_inb.
Qed.

Lemma fexp_normal e : (-1021 <= e)%Z -> fexp 53 1024 e = (e - 53)%Z.
Proof. unfold fexp, emin. lia. Qed.

(** The second normalisation of a rounded mantissa. *)
Lemma renormalize sx m e :
  (2 ^ 52 <= m <= 2 ^ 53)%Z -> (-1073 <= e <= 970)%Z ->
  exists m' e', (let '(mrs, e2) := shr_fexp 53 1024 m e loc_Exact in
     match shr_m mrs with
     | Z0 => S754_zero sx
     | Zpos m0 => if Z.leb e2 (1024 - 53) then S754_finite sx m0 e2 else S754_infinity sx
     | _ => S754_nan end) = S754_finite sx m' e' /\
    digits2_pos m' = 53%positive /\ IZR (Zpos m') * bpow e' = IZR m * bpow e.
Proof.
  intros Hm He. destruct m as [|p|p]; [lia| |lia]. unfold shr_fexp. cbn [Zdigits2].
  destruct (Z.eq_dec (Zpos p) (2 ^ 53)) as [E|E].
  - assert (p = xO (2 ^ 52)) as -> by (injection E as ->; reflexivity).
    assert (digits2_pos (xO (2 ^ 52)) = 54%positive) as -> by reflexivity.
    rewrite fexp_normal by lia. replace (54 + e - 53 - e)%Z with 1%Z by lia.
    set (q := (2 ^ 52)%positive). cbn -[Z.leb bpow q].
    destruct (Z.leb_spec (e + 1) (1024 - 53)) as [_|]; [|lia].
    exists q, (e + 1)%Z. split; [done|]. split; [reflexivity|].
    rewrite bpow_add, (Pos2Z.inj_xO q), mult_IZR. change (bpow 1) with (2 * 1). ring.
  - assert (Zpos (digits2_pos p) = 53)%Z as D by (apply digits_unique; lia).
    rewrite D, fexp_normal by lia. replace (53 + e - 53 - e)%Z with 0%Z by lia. cbn [shr].
    cbn -[Z.leb bpow]. destruct (Z.leb_spec e (1024 - 53)) as [_|]; [|lia].
    exists p, e. split; [done|]. split; [lia|done].
Qed.

(** Rounding: a positive real [x] in the normal range, given by a mantissa of
    at least 53 bits and its location, rounds to a number in normal form within
    a relative [u]. *)
Lemma round_aux_spec sx p ex lx x :
  (53 <= Zpos (digits2_pos p))%Z ->
  inb (shr_record_of_loc (Zpos p) lx) (x * bpow (- ex)) ->
  bpow (-1000) <= x <= bpow 900 ->
  exists m e, binary_round_aux 53 1024 sx (Zpos p) ex lx = S754_finite sx m e /\
    digits2_pos m = 53%positive /\ Rabs (IZR (Zpos m) * bpow e - x) <= u * x /\
    (forall n j, x = IZR n * bpow j -> (n < 2 ^ 53)%Z -> IZR (Zpos m) * bpow e = x).
Proof.
  intros Hd Hi Hx. set (d := Zpos (digits2_pos p)) in *.
  assert (shr_m (shr_record_of_loc (Zpos p) lx) = Zpos p) as Em
    by (destruct lx as [|[| |]]; reflexivity).
  pose proof (inb_bounds _ _ Hi) as B. rewrite Em in B.
  pose proof (digits_bounds p) as Dp. fold d in Dp.
  pose proof (bpow_pos ex) as Pex. pose proof (bpow_opp_mul ex) as Oex.
  set (X := x * bpow (- ex)) in *.
  assert (x = X * bpow ex) as Ex by (unfold X; rewrite Rmult_assoc, (Rmult_comm (bpow (- ex))), Oex; ring).
  assert (bpow (d - 1) <= X < bpow d) as HX.
  { rewrite !bpow_IZR by lia. split.
    - apply Rle_trans with (IZR (Zpos p)); [apply IZR_le; lia|lra].
    - apply Rlt_le_trans with (IZR (Zpos p + 1)); [rewrite plus_IZR; lra|apply IZR_le; lia]. }
  assert (bpow (d - 1 + ex) <= x) as Lx by (rewrite bpow_add, Ex; nra).
  assert (x < bpow (d + ex)) as Ux by (rewrite bpow_add, Ex; nra).
  assert (d - 1 + ex < 901)%Z as R1.
  { apply bpow_lt_inv. pose proof (bpow_add 900 1) as E1. change (bpow 1) with (2 * 1) in E1.
    change (900 + 1)%Z with 901%Z in E1. pose proof (bpow_pos 900). lra. }
  assert (-1000 < d + ex)%Z as R2 by (apply bpow_lt_inv; lra).
  unfold binary_round_aux, shr_fexp at 1. change (Zdigits2 (Zpos p)) with d.
  rewrite fexp_normal by lia. replace (d + ex - 53 - ex)%Z with (d - 53)%Z by lia.
  destruct (shr_inb _ X ex (d - 53) ltac:(lia) ltac:(rewrite Em; lia) Hi) as (r' & -> & Hi' & Em').
  rewrite Em in Em'. set (e' := (ex + (d - 53))%Z) in *.
  assert (X * bpow (- (d - 53)) * bpow e' = x) as EX'.
  { unfold e'. rewrite bpow_add, Ex.
    replace (X * bpow (- (d - 53)) * (bpow ex * bpow (d - 53)))
      with (X * bpow ex * (bpow (d - 53) * bpow (- (d - 53)))) by ring.
    rewrite bpow_opp_mul. ring. }
  set (X' := X * bpow (- (d - 53))) in *.
  assert (2 ^ 52 <= shr_m r' < 2 ^ 53)%Z as M.
  { rewrite Em'. replace d with (53 + (d - 53))%Z in Dp at 2 by lia.
    replace (d - 1)%Z with (52 + (d - 53))%Z in Dp by lia.
    rewrite !Z.pow_add_r in Dp by lia.
    pose proof (Z.pow_pos_nonneg 2 (d - 53)).
    split; [apply Z.div_le_lower_bound; lia|apply Z.div_lt_upper_bound; lia]. }
  destruct (round_nearest_inb _ _ Hi') as [Herr HM]. cbv zeta.
  set (m2 := round_nearest_even (shr_m r') (loc_of_shr_record r')) in *.
  destruct (renormalize sx m2 e' ltac:(lia) ltac:(lia)) as (m & e & -> & Dm & Em2).
  exists m, e. split; [done|]. split; [done|]. rewrite Em2, <- EX'.
  pose proof (bpow_pos e') as Pe'.
  replace (IZR m2 * bpow e' - X' * bpow e') with ((IZR m2 - X') * bpow e') by ring.
  split; [|intros n j En Hn; f_equal; apply (inb_integer r' X' (n * 2 ^ (j - e'))); [done|]].
  2: { assert (e' <= j)%Z as Hj.
       { assert (d - 1 + ex < 53 + j)%Z; [|lia]. apply bpow_lt_inv. apply Rle_lt_trans with x; [done|].
         rewrite <- EX', En, bpow_add, (bpow_IZR 53) by lia. apply Rmult_lt_compat_r; [apply bpow_pos|by apply IZR_lt]. }
       rewrite mult_IZR, <- bpow_IZR by lia. replace (j - e')%Z with (j + - e')%Z by lia.
       rewrite bpow_add, <- Rmult_assoc, <- En, Rmult_assoc, bpow_opp_mul. ring. }
  rewrite Rabs_mult, (Rabs_pos_eq (bpow e')) by lra.
  pose proof (inb_bounds _ _ Hi') as B'.
  assert (IZR (2 ^ 52) <= X') as L by (apply Rle_trans with (IZR (shr_m r')); [apply IZR_le; lia|lra]).
  rewrite <- bpow_IZR in L by lia.
  assert (u * bpow 52 = / 2) as Hu.
  { unfold u. rewrite <- bpow_add. change (bpow (-53 + 52)) with (/ (2 * 1)). field. }
  pose proof (bpow_pos (-53)) as Pu. fold u in Pu.
  assert (/ 2 <= u * X') as Hh by (rewrite <- Hu; apply Rmult_le_compat_l; lra).
  rewrite <- Rmult_assoc. apply Rmult_le_compat_r; lra.
Qed.

Lemma nonneg_val x : nonneg x -> 0 <= num_val x.
Proof.
  intros [->|(m & e & -> & _)]; cbn -[bpow]; [lra|].
  pose proof (bpow_pos e). assert (0 <= IZR (Zpos m)) by (apply IZR_le; lia). nra.
Qed.

(** [within r x]: the computed number [r] is a normal-form number at a
    relative distance at most [u] from the real [x], and is [x] when [x] is an
    integer below 2^53 times a power of two. *)
Definition within (r : number) (x : R) : Prop :=
  nonneg r /\ Rabs (num_val r - x) <= u * x /\
  (forall n j, x = IZR n * bpow j -> (n < 2 ^ 53)%Z -> num_val r = x).

(** The magnitudes the bounds are stated for: zero or well inside the normal
    range. *)
Definition in_range (x : R) : Prop := x = 0 \/ bpow (-1000) <= x <= bpow 900.

Lemma within_finite m e x :
  digits2_pos m = 53%positive -> Rabs (IZR (Zpos m) * bpow e - x) <= u * x ->
  (forall n j, x = IZR n * bpow j -> (n < 2 ^ 53)%Z -> IZR (Zpos m) * bpow e = x) ->
  within (S754_finite false m e) x.
Proof. intros D H Hn. split; [|done]. right. by exists m, e. Qed.

Lemma within_zero : within (S754_zero false) 0.
Proof. split; [by left|]. cbn. split; [|done]. rewrite Rminus_diag, Rabs_R0. lra. Qed.

Lemma digits_mul p q :
  (Zpos (digits2_pos p) + Zpos (digits2_pos q) - 1 <= Zpos (digits2_pos (p * q)))%Z.
Proof.
  pose proof (digits_bounds p). pose proof (digits_bounds q). pose proof (digits_bounds (p * q)) as B.
  set (a := Zpos (digits2_pos p)) in *. set (b := Zpos (digits2_pos q)) in *.
  set (c := Zpos (digits2_pos (p * q))) in *.
  assert (a + b - 2 < c)%Z; [|lia].
  apply (Z.pow_lt_mono_r_iff 2); [lia|lia|].
  replace (a + b - 2)%Z with ((a - 1) + (b - 1))%Z by lia.
  rewrite Z.pow_add_r by lia. rewrite Pos2Z.inj_mul in B.
  pose proof (Z.pow_pos_nonneg 2 (a - 1)). pose proof (Z.pow_pos_nonneg 2 (b - 1)). nia.
Qed.

Lemma num_mul_spec x y :
  nonneg x -> nonneg y -> in_range (num_val x * num_val y) ->
  within (num_mul x y) (num_val x * num_val y).
Proof.
  intros [->|(m1 & e1 & -> & D1)] [->|(m2 & e2 & -> & D2)] HR; unfold num_mul; cbn [SFmul].
  1-3: cbn -[bpow]; rewrite ?Rmult_0_l, ?Rmult_0_r; apply within_zero.
  set (z := num_val _ * num_val _) in *.
  assert (z * bpow (- (e1 + e2)) = IZR (Zpos (m1 * m2))) as Ez.
  { unfold z. cbn -[bpow Pos.mul]. rewrite Pos2Z.inj_mul, mult_IZR.
    replace (- (e1 + e2))%Z with (- e1 + - e2)%Z by lia. rewrite bpow_add.
    pose proof (bpow_opp_mul e1) as O1. pose proof (bpow_opp_mul e2) as O2.
    transitivity (IZR (Zpos m1) * IZR (Zpos m2) * (bpow e1 * bpow (- e1)) * (bpow e2 * bpow (- e2)));
      [ring|]. rewrite O1, O2. ring. }
  assert (0 < z) as Pz.
  { unfold z. cbn -[bpow]. pose proof (bpow_pos e1). pose proof (bpow_pos e2).
    assert (0 < IZR (Zpos m1)) by (apply IZR_lt; lia).
    assert (0 < IZR (Zpos m2)) by (apply IZR_lt; lia).
    apply Rmult_lt_0_compat; apply Rmult_lt_0_compat; done. }
  destruct HR as [HR|HR]; [lra|].
  destruct (round_aux_spec false (m1 * m2) (e1 + e2) loc_Exact z) as (m & e & E & D & Herr & Hint).
  - pose proof (digits_mul m1 m2). rewrite D1, D2 in *. lia.
  - exact Ez.
  - done.
  - cbn [xorb]. rewrite E. by apply within_finite.
Qed.

Lemma new_location_inb q r n :
  (0 < n)%Z -> (0 <= r < n)%Z -> (0 <= q)%Z ->
  inb (shr_record_of_loc q (new_location n r)) (IZR q + IZR r / IZR n).
Proof.
  intros Hn Hr Hq.
  assert (0 < IZR n) as Pn by (apply IZR_lt; lia).
  set (t := IZR r / IZR n). assert (t * IZR n = IZR r) as Et by (unfold t; field; lra).
  assert (r = 0%Z -> t = 0) as H0 by (intros ->; unfold t, Rdiv; lra).
  assert ((0 < r)%Z -> 0 < t) as Hpos by (intros; assert (0 < IZR r) by (apply IZR_lt; lia); nra).
  assert (t < 1) as H1 by (assert (IZR r < IZR n) by (apply IZR_lt; lia); nra).
  assert ((2 * r < n)%Z -> t < / 2) as Hlt.
  { intros H. apply IZR_lt in H. rewrite mult_IZR in H. nra. }
  assert ((2 * r = n)%Z -> t = / 2) as Heq.
  { intros H. apply (f_equal IZR) in H. rewrite mult_IZR in H. nra. }
  assert ((n < 2 * r)%Z -> / 2 < t) as Hgt.
  { intros H. apply IZR_lt in H. rewrite mult_IZR in H. nra. }
  unfold new_location. destruct (Z.even n) eqn:Ev.
  - unfold new_location_even. destruct (Z.eqb_spec r 0) as [E|E].
    + unfold inb; cbn. rewrite (H0 E). lra.
    + specialize (Hpos ltac:(lia)).
      destruct (Z.compare_spec (2 * r) n) as [E2|E2|E2]; unfold inb; cbn.
      * rewrite (Heq E2). lra.
      * specialize (Hlt E2). lra.
      * specialize (Hgt E2). lra.
  - unfold new_location_odd. destruct (Z.eqb_spec r 0) as [E|E].
    + unfold inb; cbn. rewrite (H0 E). lra.
    + specialize (Hpos ltac:(lia)).
      destruct (Z.compare_spec (2 * r + 1) n) as [E2|E2|E2]; unfold inb; cbn.
      * specialize (Hlt ltac:(lia)). lra.
      * specialize (Hlt ltac:(lia)). lra.
      * assert (n <> 2 * r)%Z.
        { intros ->. rewrite Z.even_mul in Ev. cbn in Ev. done. }
        specialize (Hgt ltac:(lia)). lra.
Qed.

Lemma num_div_spec x y :
  nonneg x -> nonneg y -> 0 < num_val y -> in_range (num_val x / num_val y) ->
  within (num_div x y) (num_val x / num_val y).
Proof.
  intros [->|(m1 & e1 & -> & D1)] [->|(m2 & e2 & -> & D2)] Hy HR; unfold num_div; cbn [SFdiv].
  1,3: exfalso; cbn in Hy; lra.
  { cbn -[bpow]. unfold Rdiv. rewrite Rmult_0_l. apply within_zero. }
  set (z := num_val _ / num_val _) in *. cbn -[bpow] in Hy.
  pose proof (digits_bounds m1) as B1. pose proof (digits_bounds m2) as B2.
  rewrite D1 in B1. rewrite D2 in B2.
  assert (IZR (2 ^ 52) <= IZR (Zpos m1) < IZR (2 ^ 53)) as I1
    by (split; [apply IZR_le; lia|apply IZR_lt; lia]).
  assert (IZR (2 ^ 52) <= IZR (Zpos m2) < IZR (2 ^ 53)) as I2
    by (split; [apply IZR_le; lia|apply IZR_lt; lia]).
  assert (IZR (2 ^ 53) = 2 * IZR (2 ^ 52)) as P53 by (rewrite <- mult_IZR; apply f_equal; done).
  assert (0 < IZR (2 ^ 52)) as P52 by (apply IZR_lt; done).
  set (q0 := IZR (Zpos m1) / IZR (Zpos m2)).
  assert (q0 * IZR (Zpos m2) = IZR (Zpos m1)) as Eq0 by (unfold q0; field; lra).
  assert (0 < q0 < 2) as Hq0 by nra.
  assert (z = q0 * bpow (e1 - e2)) as Ez.
  { unfold z, q0. cbn -[bpow]. replace (e1 - e2)%Z with (e1 + - e2)%Z by lia.
    rewrite bpow_add. pose proof (bpow_opp_mul e2). pose proof (bpow_pos e2).
    replace (bpow (- e2)) with (/ bpow e2) by (field_simplify_eq; lra). field. lra. }
  pose proof (bpow_pos (e1 - e2)) as Pe.
  destruct HR as [HR|HR]; [rewrite Ez in HR; nra|].
  assert (-1000 < e1 - e2 + 1)%Z as He.
  { apply bpow_lt_inv. rewrite bpow_add. change (bpow 1) with (2 * 1). nra. }
  unfold SFdiv_core_binary. cbn [Zdigits2]. rewrite D1, D2.
  replace (53 + e1 - (53 + e2))%Z with (e1 - e2)%Z by lia.
  rewrite fexp_normal by lia. rewrite Z.min_l by lia.
  replace (e1 - e2 - (e1 - e2 - 53))%Z with 53%Z by lia. cbv zeta.
  rewrite Z.shiftl_mul_pow2 by lia.
  pose proof (Z_div_mod (Zpos m1 * 2 ^ 53) (Zpos m2) ltac:(lia)) as DM.
  destruct (Z.div_eucl (Zpos m1 * 2 ^ 53) (Zpos m2)) as [q r]. destruct DM as [DM Hr].
  assert (2 ^ 52 <= q)%Z as Hq by nia.
  destruct q as [|q|q]; [lia| |lia].
  destruct (round_aux_spec (xorb false false) q (e1 - e2 - 53) (new_location (Zpos m2) r) z)
    as (m & e & E & D & Herr & Hint).
  - pose proof (digits_bounds q) as Bq.
    assert (52 < Zpos (digits2_pos q))%Z by (apply (Z.pow_lt_mono_r_iff 2); lia). lia.
  - replace (z * bpow (- (e1 - e2 - 53))) with (IZR (Zpos q) + IZR r / IZR (Zpos m2)).
    + apply new_location_inb; lia.
    + rewrite Ez. replace (- (e1 - e2 - 53))%Z with (- (e1 - e2) + 53)%Z by lia.
      rewrite bpow_add. pose proof (bpow_opp_mul (e1 - e2)) as O.
      replace (q0 * bpow (e1 - e2) * (bpow (- (e1 - e2)) * bpow 53))
        with (q0 * bpow 53 * (bpow (e1 - e2) * bpow (- (e1 - e2)))) by ring.
      rewrite O, Rmult_1_r, (bpow_IZR 53) by lia.
      apply (f_equal IZR) in DM. rewrite mult_IZR, plus_IZR, mult_IZR in DM.
      unfold q0. field_simplify_eq; lra.
  - done.
  - rewrite E. by apply within_finite.
Qed.

Lemma iter_xO m d : Zpos (Pos.iter xO m d) = (Zpos m * 2 ^ Zpos d)%Z.
Proof.
  induction d as [|d IH] using Pos.peano_ind; [cbn; lia|].
  rewrite Pos.iter_succ, Pos2Z.inj_xO, IH, Pos2Z.inj_succ, Z.pow_succ_r by lia. lia.
Qed.

Lemma shl_align_val m e e' :
  (e' <= e)%Z -> exists p, shl_align m e e' = (p, e') /\ Zpos p = (Zpos m * 2 ^ (e - e'))%Z.
Proof.
  intros H. unfold shl_align. destruct (e' - e)%Z as [|p|p] eqn:E; [|lia|].
  - exists m. replace e' with e by lia. split; [done|]. rewrite Z.sub_diag. lia.
  - eexists. split; [done|]. rewrite iter_xO. repeat f_equal. lia.
Qed.

Lemma shl_align_id m e e' : (e <= e')%Z -> shl_align m e e' = (m, e).
Proof. intros H. unfold shl_align. by destruct (e' - e)%Z eqn:E; [| |lia]. Qed.

Lemma digits_mono p q : (Zpos p <= Zpos q)%Z -> (Zpos (digits2_pos p) <= Zpos (digits2_pos q))%Z.
Proof.
  intros H. pose proof (digits_bounds p). pose proof (digits_bounds q).
  assert (Zpos (digits2_pos p) - 1 < Zpos (digits2_pos q))%Z; [|lia].
  apply (Z.pow_lt_mono_r_iff 2); lia.
Qed.

(** Rounding a mantissa of at least 53 bits, as the addition does. *)
Lemma binary_round_spec p e x :
  (53 <= Zpos (digits2_pos p))%Z -> x = IZR (Zpos p) * bpow e ->
  bpow (-1000) <= x <= bpow 900 -> within (binary_round 53 1024 false p e) x.
Proof.
  intros Hd Ex Hx. unfold binary_round.
  assert (-1000 < Zpos (digits2_pos p) + e)%Z.
  { apply bpow_lt_inv. rewrite bpow_add. pose proof (digits_bounds p) as [_ B].
    apply IZR_lt in B. rewrite <- bpow_IZR in B by lia. pose proof (bpow_pos e). nra. }
  rewrite fexp_normal by lia. rewrite shl_align_id by lia.
  destruct (round_aux_spec false p e loc_Exact x) as (m & e' & E & D & Herr & Hint); [done| |done|].
  - unfold inb; cbn -[bpow]. rewrite Ex, Rmult_assoc, bpow_opp_mul. ring.
  - rewrite E. by apply within_finite.
Qed.

Lemma num_add_spec x y :
  nonneg x -> nonneg y -> in_range (num_val x + num_val y) ->
  within (num_add x y) (num_val x + num_val y).
Proof.
  assert (Hid : forall z, nonneg z -> within z (num_val z)).
  { intros z Hz. split; [done|]. split; [|done]. rewrite Rminus_diag, Rabs_R0.
    pose proof (nonneg_val z Hz). pose proof (bpow_pos (-53)). unfold u. nra. }
  intros Hx Hy HR. destruct Hx as [->|(m1 & e1 & -> & D1)], Hy as [->|(m2 & e2 & -> & D2)];
    unfold num_add; cbn [SFadd].
  - cbn -[bpow]. rewrite Rplus_0_l. apply within_zero.
  - cbn [num_val]. rewrite Rplus_0_l. apply (Hid (S754_finite false m2 e2)). right. eauto.
  - cbn [num_val]. rewrite Rplus_0_r. apply (Hid (S754_finite false m1 e1)). right. eauto.
  - destruct (shl_align_val m1 e1 (Z.min e1 e2)) as (p1 & -> & E1); [lia|].
    destruct (shl_align_val m2 e2 (Z.min e1 e2)) as (p2 & -> & E2); [lia|].
    cbn -[bpow] in *. set (ez := Z.min e1 e2) in *.
    assert (IZR (Zpos m1) * bpow e1 + IZR (Zpos m2) * bpow e2 = IZR (Zpos (p1 + p2)) * bpow ez) as Es.
    { rewrite Pos2Z.inj_add, plus_IZR, E1, E2, !mult_IZR, <- !bpow_IZR by lia.
      replace e1 with ((e1 - ez) + ez)%Z at 1 by lia.
      replace e2 with ((e2 - ez) + ez)%Z at 1 by lia. rewrite !bpow_add. ring. }
    pose proof (bpow_pos ez).
    assert (0 < IZR (Zpos (p1 + p2))) by (apply IZR_lt; lia).
    destruct HR as [HR|HR]; [nra|]. apply binary_round_spec; [|done|done].
    assert (1 <= 2 ^ (e1 - ez))%Z by (pose proof (Z.pow_pos_nonneg 2 (e1 - ez)); lia).
    pose proof (digits_mono m1 (p1 + p2) ltac:(nia)). lia.
Qed.

(** Integers up to 2^53 are represented exactly. *)
Lemma num_of_Z_spec z :
  (0 <= z < 2 ^ 53)%Z -> nonneg (num_of_Z z) /\ num_val (num_of_Z z) = IZR z.
Proof.
  intros Hz. destruct z as [|p|p]; [split; [by left|done]| |lia].
  unfold num_of_Z, binary_normalize, binary_round.
  pose proof (digits_bounds p) as B. set (d := Zpos (digits2_pos p)) in *.
  assert (d - 1 < 53)%Z by (apply (Z.pow_lt_mono_r_iff 2); lia).
  rewrite Z.add_0_r, fexp_normal by lia.
  destruct (shl_align_val p 0 (d - 53) ltac:(lia)) as (q & -> & Eq).
  assert (2 ^ 52 <= Zpos q < 2 ^ 53)%Z as Bq.
  { rewrite Eq. assert (2 ^ 52 = 2 ^ (d - 1) * 2 ^ (0 - (d - 53)))%Z as ->
      by (rewrite <- Z.pow_add_r by lia; f_equal; lia).
    assert (2 ^ 53 = 2 ^ d * 2 ^ (0 - (d - 53)))%Z as ->
      by (rewrite <- Z.pow_add_r by lia; f_equal; lia).
    pose proof (Z.pow_pos_nonneg 2 (0 - (d - 53)) ltac:(lia) ltac:(lia)).
    split; [apply Z.mul_le_mono_nonneg_r; lia|apply Z.mul_lt_mono_pos_r; lia]. }
  assert (Zpos (digits2_pos q) = 53)%Z as Dq by (apply digits_unique; lia).
  destruct (renormalize false (Zpos q) (d - 53) ltac:(lia) ltac:(lia)) as (m & e & En & D & E).
  assert (binary_round_aux 53 1024 false (Zpos q) (d - 53) loc_Exact = S754_finite false m e) as ->.
  { rewrite <- En. unfold binary_round_aux, shr_fexp at 1. cbn [Zdigits2].
    rewrite Dq, fexp_normal by lia.
    replace (53 + (d - 53) - 53 - (d - 53))%Z with 0%Z by lia. reflexivity. }
  split; [right; eauto|]. cbn [num_val cond_Zopp]. rewrite E, Eq, mult_IZR, <- bpow_IZR by lia.
  rewrite Rmult_assoc, <- bpow_add. replace (0 - (d - 53) + (d - 53))%Z with 0%Z by lia.
  change (bpow 0) with 1. ring.
Qed.

Lemma num_floor_spec x :
  nonneg x -> exists n, num_floor x = Some n /\ (0 <= n)%Z /\ IZR n <= num_val x < IZR n + 1.
Proof.
  intros [->|(m & e & -> & _)]; [exists 0%Z; cbn; split; [done|]; split; [done|lra]|].
  cbn -[bpow]. eexists. split; [done|]. destruct (Z.le_gt_cases 0 e) as [He|He].
  - rewrite Z.shiftl_mul_pow2, mult_IZR, <- bpow_IZR by lia.
    pose proof (Z.pow_pos_nonneg 2 e). split; [nia|lra].
  - set (k := (- e)%Z). assert (Z.shiftl (Zpos m) e = Zpos m / 2 ^ k)%Z as ->.
    { rewrite <- Z.shiftr_div_pow2, <- Z.shiftl_opp_r by lia. f_equal. lia. }
    pose proof (Z.pow_pos_nonneg 2 k ltac:(lia) ltac:(lia)) as Pk.
    pose proof (Z.mul_div_le (Zpos m) (2 ^ k) Pk) as L.
    pose proof (Z.mul_succ_div_gt (Zpos m) (2 ^ k) Pk) as U.
    split; [apply Z.div_pos; lia|].
    apply IZR_le in L. apply IZR_lt in U. rewrite mult_IZR, <- bpow_IZR in L, U by lia.
    unfold Z.succ in U. rewrite plus_IZR in U.
    pose proof (bpow_opp_mul k) as O. replace (- k)%Z with e in O by lia.
    pose proof (bpow_pos e) as Pe.
    apply (Rmult_le_compat_r (bpow e)) in L; [|lra].
    apply (Rmult_lt_compat_r (bpow e)) in U; [|lra].
    revert L U. generalize (IZR (Zpos m / 2 ^ k)) as q. intros q L U.
    assert (bpow k * q * bpow e = q) as Eq by (transitivity (q * (bpow k * bpow e)); [ring|rewrite O; ring]).
    assert (bpow k * (q + 1) * bpow e = q + 1) as Eq1
      by (transitivity ((q + 1) * (bpow k * bpow e)); [ring|rewrite O; ring]).
    lra.
Qed.

(** Non-negative numbers compare with zero as their values do. *)
Lemma num_eqb_zero x : nonneg x -> num_eqb x (S754_zero false) = true <-> num_val x = 0.
Proof.
  intros [->|(m & e & -> & _)]; cbn -[bpow]; [done|]. split; [done|].
  intros H. pose proof (bpow_pos e). assert (0 < IZR (Zpos m)) by (apply IZR_lt; lia). nra.
Qed.

(** A number in normal form is determined by its value. *)
Lemma num_val_inj x y : nonneg x -> nonneg y -> num_val x = num_val y -> x = y.
Proof.
  assert (Hle : forall m e m' e', digits2_pos m = 53%positive -> digits2_pos m' = 53%positive ->
    IZR (Zpos m) * bpow e = IZR (Zpos m') * bpow e' -> (e' <= e)%Z -> m = m' /\ e = e').
  { intros m e m' e' D D' E He. pose proof (digits_bounds m) as B. pose proof (digits_bounds m') as B'.
    rewrite D in B. rewrite D' in B'. pose proof (bpow_pos e').
    replace e with ((e - e') + e')%Z in E by lia. rewrite bpow_add, <- Rmult_assoc in E.
    apply Rmult_eq_reg_r in E; [|lra]. rewrite bpow_IZR, <- mult_IZR in E by lia. apply eq_IZR in E.
    destruct (Z.eq_dec e e') as [->|Hne].
    - rewrite Z.sub_diag in E. split; [lia|done].
    - exfalso. assert (2 ^ 1 <= 2 ^ (e - e'))%Z by (apply Z.pow_le_mono_r; lia). nia. }
  assert (Hz : forall m e, 0 = IZR (Zpos m) * bpow e -> False).
  { intros m e H. pose proof (bpow_pos e). assert (0 < IZR (Zpos m)) by (apply IZR_lt; lia). nra. }
  intros [->|(m & e & -> & D)] [->|(m' & e' & -> & D')] E; cbn -[bpow IZR] in E; [done| | |].
  - by apply Hz in E.
  - symmetry in E. by apply Hz in E.
  - destruct (Z.le_ge_cases e' e) as [He|He].
    + destruct (Hle _ _ _ _ D D' E He) as [-> ->]. done.
    + symmetry in E. destruct (Hle _ _ _ _ D' D E He) as [-> ->]. done.
Qed.

(** What [within] says of an integer result. *)
Lemma within_Z r z : within r (IZR z) -> (0 <= z < 2 ^ 53)%Z -> r = num_of_Z z.
Proof.
  intros (Hr & _ & Hi) Hz. destruct (num_of_Z_spec z Hz) as [Hn Hv].
  apply num_val_inj; [done|done|]. rewrite Hv. apply (Hi z 0%Z); [change (bpow 0) with 1; ring|lia].
Qed.

Lemma in_range_Z z : (0 <= z < 2 ^ 53)%Z -> in_range (IZR z).
Proof.
  intros Hz. destruct (Z.eq_dec z 0) as [->|]; [by left|]. right. split.
  - apply Rle_trans with 1; [change 1 with (bpow 0); by apply bpow_le|apply IZR_le; lia].
  - apply Rle_trans with (bpow 53); [|by apply bpow_le]. rewrite bpow_IZR by lia. apply IZR_le; lia.
Qed.

(** Integer arithmetic below 2^53 is exact. *)
Lemma num_mul_Z a b :
  (0 <= a < 2 ^ 53)%Z -> (0 <= b < 2 ^ 53)%Z -> (a * b < 2 ^ 53)%Z ->
  num_mul (num_of_Z a) (num_of_Z b) = num_of_Z (a * b).
Proof.
  intros Ha Hb Hab. destruct (num_of_Z_spec a Ha) as [Na Va]. destruct (num_of_Z_spec b Hb) as [Nb Vb].
  apply within_Z; [|nia]. rewrite mult_IZR, <- Va, <- Vb. apply num_mul_spec; [done|done|].
  rewrite Va, Vb, <- mult_IZR. apply in_range_Z. nia.
Qed.

Lemma num_add_Z a b :
  (0 <= a)%Z -> (0 <= b)%Z -> (a + b < 2 ^ 53)%Z ->
  num_add (num_of_Z a) (num_of_Z b) = num_of_Z (a + b).
Proof.
  intros Ha Hb Hab. destruct (num_of_Z_spec a ltac:(lia)) as [Na Va].
  destruct (num_of_Z_spec b ltac:(lia)) as [Nb Vb].
  apply within_Z; [|lia]. rewrite plus_IZR, <- Va, <- Vb. apply num_add_spec; [done|done|].
  rewrite Va, Vb, <- plus_IZR. apply in_range_Z. lia.
Qed.

(** A mantissa of at most 53 bits is kept. *)
Lemma binary_round_exact p e :
  (Zpos p < 2 ^ 53)%Z -> (-900 <= e <= 800)%Z ->
  nonneg (binary_round 53 1024 false p e) /\ num_val (binary_round 53 1024 false p e) = IZR (Zpos p) * bpow e.
Proof.
  intros Hp He. unfold binary_round.
  pose proof (digits_bounds p) as B. set (d := Zpos (digits2_pos p)) in *.
  assert (d - 1 < 53)%Z by (apply (Z.pow_lt_mono_r_iff 2); lia).
  rewrite fexp_normal by lia.
  destruct (shl_align_val p e (d + e - 53) ltac:(lia)) as (q & -> & Eq).
  replace (e - (d + e - 53))%Z with (53 - d)%Z in Eq by lia.
  assert (2 ^ 52 <= Zpos q < 2 ^ 53)%Z as Bq.
  { rewrite Eq. assert (2 ^ 52 = 2 ^ (d - 1) * 2 ^ (53 - d))%Z as -> by (rewrite <- Z.pow_add_r by lia; f_equal; lia).
    assert (2 ^ 53 = 2 ^ d * 2 ^ (53 - d))%Z as -> by (rewrite <- Z.pow_add_r by lia; f_equal; lia).
    pose proof (Z.pow_pos_nonneg 2 (53 - d) ltac:(lia) ltac:(lia)).
    split; [apply Z.mul_le_mono_nonneg_r; lia|apply Z.mul_lt_mono_pos_r; lia]. }
  assert (Zpos (digits2_pos q) = 53)%Z as Dq by (apply digits_unique; lia).
  destruct (renormalize false (Zpos q) (d + e - 53) ltac:(lia) ltac:(lia)) as (m & e' & En & D & E).
  assert (binary_round_aux 53 1024 false (Zpos q) (d + e - 53) loc_Exact = S754_finite false m e') as ->.
  { rewrite <- En. unfold binary_round_aux, shr_fexp at 1. cbn [Zdigits2].
    rewrite Dq, fexp_normal by lia.
    replace (53 + (d + e - 53) - 53 - (d + e - 53))%Z with 0%Z by lia. reflexivity. }
  split; [right; eauto|]. cbn [num_val cond_Zopp]. rewrite E, Eq, mult_IZR, <- bpow_IZR by lia.
  rewrite Rmult_assoc, <- bpow_add. do 2 f_equal. lia.
Qed.

(** Subtracting the floor is exact. *)
Lemma num_sub_floor x n :
  nonneg x -> (0 <= n < 2 ^ 53)%Z -> IZR n <= num_val x < IZR n + 1 ->
  nonneg (num_sub x (num_of_Z n)) /\ num_val (num_sub x (num_of_Z n)) = num_val x - IZR n.
Proof.
  intros Hx Hn Hv. destruct (num_of_Z_spec n Hn) as [[En|(m2 & e2 & En & D2)] Vn]; rewrite En in *.
  { cbn in Vn. rewrite <- Vn, Rminus_0_r. destruct Hx as [->|(m & e & -> & D)]; cbn [num_sub SFsub]; [|split; [right; eauto|done]].
    split; [by left|done]. }
  assert (1 <= n)%Z as Hn1 by (destruct (Z.eq_dec n 0) as [->|]; [discriminate En|lia]).
  destruct Hx as [->|(m & e & -> & D)].
  { exfalso. cbn in Hv. assert (1 <= IZR n) by (apply IZR_le; lia). lra. }
  cbn [num_val cond_Zopp] in Hv, Vn |- *. rewrite <- Vn in Hv |- *.
  pose proof (digits_bounds m) as B. pose proof (digits_bounds m2) as B2. rewrite D in B. rewrite D2 in B2.
  cbn in B, B2. pose proof (bpow_pos e) as Pe. pose proof (bpow_pos e2) as Pe2.
  assert (IZR (Zpos m) < bpow 53) as M by (rewrite bpow_IZR by lia; apply IZR_lt; lia).
  assert (bpow 52 <= IZR (Zpos m2) < bpow 53) as M2 by (rewrite !bpow_IZR by lia; split; [apply IZR_le|apply IZR_lt]; lia).
  assert (1 <= IZR (Zpos m2) * bpow e2) as H1 by (rewrite Vn; apply IZR_le; lia).
  assert (-53 < e2)%Z as He2.
  { assert (0 < 53 + e2)%Z; [|lia]. apply bpow_lt_inv. change (bpow 0) with 1. rewrite bpow_add. nra. }
  assert (e2 <= 0)%Z as He2'.
  { assert (52 + e2 < 53)%Z; [|lia]. apply bpow_lt_inv. rewrite bpow_add, (bpow_IZR 53) by lia.
    apply Rle_lt_trans with (IZR (Zpos m2) * bpow e2); [nra|]. rewrite Vn. apply IZR_lt. lia. }
  assert (e2 <= e)%Z as Hle.
  { assert (52 + e2 < 53 + e)%Z; [|lia]. apply bpow_lt_inv. rewrite !bpow_add. nra. }
  unfold num_sub. cbn [SFsub cond_Zopp]. rewrite (Z.min_r e e2) by lia.
  destruct (shl_align_val m e e2 Hle) as (p1 & -> & E1). rewrite shl_align_id by lia. cbn [fst].
  assert (IZR (Zpos p1) * bpow e2 = IZR (Zpos m) * bpow e) as V1.
  { rewrite E1, mult_IZR, <- bpow_IZR, Rmult_assoc, <- bpow_add by lia. do 2 f_equal. lia. }
  rewrite <- V1 in *. rewrite <- Rmult_minus_distr_r, <- minus_IZR.
  assert (Zpos m2 <= Zpos p1)%Z as Hmp by (apply le_IZR; nra).
  destruct (Zpos p1 - Zpos m2)%Z as [|p|p] eqn:Ep; [|cbn [binary_normalize]|lia].
  { cbn. split; [by left|]. rewrite Rmult_0_l. done. }
  apply binary_round_exact; [|lia].
  apply lt_IZR. rewrite <- bpow_IZR by lia. rewrite <- Ep, minus_IZR.
  assert (bpow (- e2) <= bpow 53) as Hb by (apply bpow_le; lia). pose proof (bpow_opp_mul e2) as O.
  assert ((IZR (Zpos p1) - IZR (Zpos m2)) * bpow e2 < 1) as Hd by lra. nra.
Qed.

(** Non-negative numbers compare as their values do. *)
Lemma num_ltb_val x y : nonneg x -> nonneg y -> num_ltb x y = true <-> num_val x < num_val y.
Proof.
  assert (Hpos : forall m e, 0 < IZR (Zpos m) * bpow e).
  { intros m e. apply Rmult_lt_0_compat; [apply IZR_lt; lia|apply bpow_pos]. }
  assert (Hexp : forall m e m' e', digits2_pos m = 53%positive -> digits2_pos m' = 53%positive ->
    (e < e')%Z -> IZR (Zpos m) * bpow e < IZR (Zpos m') * bpow e').
  { intros m e m' e' D D' He. pose proof (digits_bounds m) as [_ B]. pose proof (digits_bounds m') as [B' _].
    rewrite D in B. rewrite D' in B'. apply IZR_lt in B. apply IZR_le in B'. rewrite <- bpow_IZR in B, B' by lia.
    apply Rlt_le_trans with (bpow 53 * bpow e); [apply Rmult_lt_compat_r; [apply bpow_pos|exact B]|].
    apply Rle_trans with (bpow 52 * bpow e'); [rewrite <- !bpow_add; apply bpow_le; lia|].
    apply Rmult_le_compat_r; [left; apply bpow_pos|exact B']. }
  intros [->|(m & e & -> & D)] [->|(m' & e' & -> & D')]; unfold num_ltb, SFltb; cbn [SFcompare num_val cond_Zopp].
  - split; [done|]. lra.
  - split; [intros _; apply Hpos|done].
  - split; [done|]. pose proof (Hpos m e). lra.
  - pose proof (bpow_pos e). destruct (Z.compare_spec e e') as [E|E|E].
    + subst e'. change (Pos.compare_cont Eq m m') with (Pos.compare m m').
      destruct (Pos.compare_spec m m') as [->|Hm|Hm].
      * split; [done|lra].
      * split; [intros _|done]. apply Rmult_lt_compat_r; [done|apply IZR_lt; lia].
      * split; [done|]. intros Hlt. apply Rmult_lt_reg_r in Hlt; [|done]. apply lt_IZR in Hlt. lia.
    + split; [intros _; by apply Hexp|done].
    + split; [done|]. intros Hlt. pose proof (Hexp m' e' m e D' D E). lra.
Qed.

(** Flooring a computed quotient of safe integers gives the integer quotient:
    the rounding error of [a / b] is below [1 / b]. *)
Lemma num_floor_div a b :
  (0 <= a < 2 ^ 53)%Z -> (0 < b < 2 ^ 53)%Z ->
  num_floor (num_div (num_of_Z a) (num_of_Z b)) = Some (a / b)%Z.
Proof.
  intros Ha Hb. destruct (num_of_Z_spec a Ha) as [Na Va].
  destruct (num_of_Z_spec b ltac:(lia)) as [Nb Vb].
  assert (0 < IZR b) as Pb by (apply IZR_lt; lia).
  set (x := IZR a / IZR b). assert (x * IZR b = IZR a) as Ex by (unfold x; field; lra).
  assert (0 <= IZR a) by (apply IZR_le; lia).
  assert (in_range x) as Rx.
  { destruct (Z.eq_dec a 0) as [->|Hn]; [left; unfold x; lra|right].
    assert (1 <= IZR a) by (apply IZR_le; lia).
    assert (IZR a <= bpow 53) by (rewrite bpow_IZR by lia; apply IZR_le; lia).
    assert (IZR b <= bpow 53) by (rewrite bpow_IZR by lia; apply IZR_le; lia).
    assert (1 <= IZR b) by (apply IZR_le; lia).
    pose proof (bpow_opp_mul 53) as O. pose proof (bpow_pos (-53)). change (Z.opp 53) with (-53)%Z in O.
    split.
    - apply Rle_trans with (bpow (-53)); [apply bpow_le; lia|]. nra.
    - apply Rle_trans with (bpow 53); [nra|apply bpow_le; lia]. }
  pose proof (num_div_spec (num_of_Z a) (num_of_Z b) Na Nb) as D. rewrite Va, Vb in D.
  fold x in D. destruct (D Pb Rx) as (Nr & Er & Ir). set (r := num_div _ _) in *.
  destruct (num_floor_spec r Nr) as (n & -> & Hn & Hlo). f_equal.
  pose proof (Z.mul_div_le a b ltac:(lia)) as L. pose proof (Z.mul_succ_div_gt a b ltac:(lia)) as U.
  set (q := (a / b)%Z) in *.
  assert (Rabs (num_val r - x) * IZR b < 1) as Herr.
  { apply Rle_lt_trans with (u * IZR a); [rewrite <- Ex, <- Rmult_assoc; apply Rmult_le_compat_r; lra|].
    apply Rlt_le_trans with (u * bpow 53).
    - apply Rmult_lt_compat_l; [apply bpow_pos|]. rewrite bpow_IZR by lia. apply IZR_lt; lia.
    - unfold u. rewrite <- bpow_add. change (bpow (-53 + 53)) with 1. lra. }
  assert (Herr' : -1 < (num_val r - x) * IZR b < 1).
  { pose proof (Rle_abs (num_val r - x)). pose proof (Rle_abs (- (num_val r - x))) as A.
    rewrite Rabs_Ropp in A. nra. }
  assert (num_val r * IZR b < IZR a + 1) as H1 by lra.
  assert (IZR q <= num_val r) as Hq.
  { destruct (Z.eq_dec (b * q) a) as [E|E].
    - rewrite (Ir q 0%Z); [|unfold x; rewrite <- E, mult_IZR; change (bpow 0) with 1; field; lra|nia].
      assert (x = IZR q) as ->; [|lra]. unfold x. rewrite <- E, mult_IZR. field. lra.
    - assert (b * q + 1 <= a)%Z as L1 by lia. apply IZR_le in L1. rewrite plus_IZR, mult_IZR in L1. nra. }
  assert (num_val r < IZR q + 1) as Hq'.
  { assert (a + 1 <= b * (q + 1))%Z as L1 by lia. apply IZR_le in L1.
    rewrite mult_IZR, !plus_IZR in L1. nra. }
  assert (n < q + 1)%Z by (apply lt_IZR; rewrite plus_IZR; lra).
  assert (q < n + 1)%Z by (apply lt_IZR; rewrite plus_IZR; lra). lia.
Qed.

(** The quotient of safe integers is in range, and its rounding error is
    below [u a / b]. *)
Lemma num_div_Z a b :
  (0 <= a < 2 ^ 53)%Z -> (0 < b < 2 ^ 53)%Z ->
  within (num_div (num_of_Z a) (num_of_Z b)) (IZR a / IZR b).
Proof.
  intros Ha Hb. destruct (num_of_Z_spec a Ha) as [Na Va]. destruct (num_of_Z_spec b ltac:(lia)) as [Nb Vb].
  assert (1 <= IZR b) by (apply IZR_le; lia). rewrite <- Va, <- Vb. apply num_div_spec; [done|done|rewrite Vb; lra|].
  rewrite Va, Vb. destruct (Z.eq_dec a 0) as [->|Hn]; [left; lra|right].
  assert (1 <= IZR a) by (apply IZR_le; lia).
  assert (IZR a <= bpow 53) by (rewrite bpow_IZR by lia; apply IZR_le; lia).
  assert (IZR b <= bpow 53) by (rewrite bpow_IZR by lia; apply IZR_le; lia).
  pose proof (bpow_opp_mul 53) as O. pose proof (bpow_pos (-53)). change (Z.opp 53) with (-53)%Z in O.
  assert (IZR a / IZR b * IZR b = IZR a) as Ex by (field; lra). split.
  - apply Rle_trans with (bpow (-53)); [apply bpow_le; lia|]. nra.
  - apply Rle_trans with (bpow 53); [nra|apply bpow_le; lia].
Qed.

(** The number one half. *)
Lemma num_half : nonneg (num_div (num_of_Z 1) (num_of_Z 2)) /\ num_val (num_div (num_of_Z 1) (num_of_Z 2)) = / 2.
Proof.
  assert (num_div (num_of_Z 1) (num_of_Z 2) = S754_finite false 4503599627370496 (-53)) as -> by (vm_compute; reflexivity).
  split; [right; eexists _, _; split; [done|vm_compute; reflexivity]|]. cbn [num_val cond_Zopp].
  change (Zpos 4503599627370496) with (2 ^ 52)%Z. rewrite <- bpow_IZR, <- bpow_add by lia.
  change (bpow (52 + -53)) with (/ (2 * 1)). field.
Qed.

(** Whether a computed quotient of safe integers is in the lower half of its
    unit interval is decided exactly. *)
Lemma num_half_div a b :
  (0 <= a < 2 ^ 52)%Z -> (0 < b < 2 ^ 53)%Z ->
  let x := num_div (num_of_Z a) (num_of_Z b) in
  num_ltb (num_sub x (num_of_Z (a / b))) (num_div (num_of_Z 1) (num_of_Z 2)) = (2 * (a mod b) <? b)%Z.
Proof.
  intros Ha Hb x. destruct (num_div_Z a b ltac:(lia) Hb) as (Nx & Ex & Ix). fold x in Nx, Ex, Ix.
  destruct (num_floor_spec x Nx) as (n & Ef & Hn & Hv). unfold x in Ef. rewrite num_floor_div in Ef by lia.
  injection Ef as <-. pose proof (Z.div_mod a b ltac:(lia)) as DM. pose proof (Z.mod_pos_bound a b ltac:(lia)) as Hr.
  set (n := (a / b)%Z) in *. set (r := (a mod b)%Z) in *.
  destruct (num_sub_floor x n Nx ltac:(nia) Hv) as [Nd Vd]. destruct num_half as [Nh Vh].
  assert (0 < IZR b) as Pb by (apply IZR_lt; lia). set (q := IZR a / IZR b) in *.
  assert (q * IZR b = IZR a) as Eq by (unfold q; field; lra).
  assert (IZR a = IZR b * IZR n + IZR r) as Da by (rewrite <- mult_IZR, <- plus_IZR; by f_equal).
  assert (Rabs (num_val x - q) * IZR b < / 2) as Herr.
  { apply Rle_lt_trans with (u * IZR a); [rewrite <- Eq, <- Rmult_assoc; apply Rmult_le_compat_r; lra|].
    apply Rlt_le_trans with (u * bpow 52).
    - apply Rmult_lt_compat_l; [apply bpow_pos|]. rewrite bpow_IZR by lia. apply IZR_lt; lia.
    - unfold u. rewrite <- bpow_add. change (bpow (-53 + 52)) with (/ (2 * 1)). lra. }
  assert (- / 2 < (num_val x - q) * IZR b < / 2) as Herr'.
  { pose proof (Rle_abs (num_val x - q)). pose proof (Rle_abs (- (num_val x - q))) as A.
    rewrite Rabs_Ropp in A. split; nra. }
  apply eq_bool_prop_intro. rewrite !Is_true_true, (num_ltb_val _ _ Nd Nh), Vd, Vh, Z.ltb_lt.
  destruct (Z.lt_trichotomy (2 * r) b) as [H|[H|H]].
  - split; [done|intros _]. assert (2 * r + 1 <= b)%Z as H1 by lia. apply IZR_le in H1. rewrite plus_IZR, mult_IZR in H1. nra.
  - split; [intros Hlt|lia]. exfalso. rewrite (Ix (2 * n + 1)%Z (-1)%Z) in Hlt.
    + unfold q in Hlt. apply (Rmult_lt_compat_r (IZR b)) in Hlt; [|done].
      rewrite Rmult_minus_distr_r in Hlt. fold q in Hlt. rewrite Eq in Hlt. rewrite <- H, mult_IZR in Hlt, Da. nra.
    + change (bpow (-1)) with (/ (2 * 1)). rewrite plus_IZR, mult_IZR.
      apply (Rmult_eq_reg_r (IZR b)); [|lra]. rewrite Eq, Da, <- H, mult_IZR. field.
    + nia.
  - split; [|lia]. intros Hlt. exfalso. assert (b + 1 <= 2 * r)%Z as H1 by lia. apply IZR_le in H1.
    rewrite plus_IZR, mult_IZR in H1. nra.
Qed.

Definition num_opp : number -> number := SFopp.

Lemma num_of_Z_opp z : (0 < z)%Z -> num_of_Z (- z) = num_opp (num_of_Z z).
Proof.
  intros Hz. destruct z as [|p|p]; [lia| |lia]. change (- Zpos p)%Z with (Zneg p).
  unfold num_of_Z, binary_normalize, binary_round. destruct (shl_align _ _ _) as [m e].
  unfold binary_round_aux. repeat case_match; reflexivity.
Qed.

(** Rounding is symmetric in the sign. *)
Lemma binary_round_aux_opp s m e l :
  binary_round_aux 53 1024 (negb s) m e l = num_opp (binary_round_aux 53 1024 s m e l).
Proof. unfold binary_round_aux. repeat case_match; reflexivity. Qed.

(** A quotient by a positive integer has the sign of its dividend. *)
Lemma num_div_opp x b :
  nonneg x -> (0 < b < 2 ^ 53)%Z -> num_div (num_opp x) (num_of_Z b) = num_opp (num_div x (num_of_Z b)).
Proof.
  intros Hx Hb. destruct (num_of_Z_spec b ltac:(lia)) as [[Eb|(m2 & e2 & -> & _)] Vb].
  { rewrite Eb in Vb. cbn in Vb. apply eq_IZR in Vb. lia. }
  destruct Hx as [->|(m & e & -> & _)]; [done|]. unfold num_div. cbn [num_opp SFopp SFdiv xorb].
  destruct (SFdiv_core_binary _ _ _ _ _ _) as [[mz ez] lz]. apply (binary_round_aux_opp false).
Qed.

(** Integers below 2^53 are integral and their own floor. *)
Lemma num_of_Z_integer_pos z :
  (0 <= z < 2 ^ 53)%Z ->
  num_isInteger (num_of_Z z) = true /\ num_floor (num_of_Z z) = Some z /\
  ((0 < z)%Z -> num_isInteger (num_opp (num_of_Z z)) = true /\
                num_floor (num_opp (num_of_Z z)) = Some (- z)%Z).
Proof.
  intros Hz. destruct (num_of_Z_spec z Hz) as [[->|(m & e & -> & D)] V].
  { cbn in V. apply eq_IZR in V as <-. repeat split; lia. }
  cbn [num_opp SFopp num_isInteger num_floor negb cond_Zopp].
  cbn [num_val cond_Zopp] in V. destruct (Z.le_gt_cases 0 e) as [He|He].
  - rewrite bpow_IZR, <- mult_IZR in V by lia. apply eq_IZR in V.
    rewrite (Z.shiftr_opp_r (Zpos m)), (Z.shiftl_opp_r (Z.shiftl _ _)), Z.shiftr_shiftl_l by lia.
    rewrite Z.sub_diag, !Z.shiftl_mul_pow2 by lia. rewrite Z.mul_1_r, Z.eqb_refl.
    repeat split; f_equal; lia.
  - assert (exists k, (0 < k)%Z /\ e = (- k)%Z) as (k & Hk & ->) by (exists (- e)%Z; lia).
    assert (Zpos m = z * 2 ^ k)%Z as Em.
    { apply eq_IZR. rewrite mult_IZR, <- V, <- bpow_IZR, Rmult_assoc, (Rmult_comm (bpow (- k))), bpow_opp_mul by lia. ring. }
    pose proof (Z.pow_pos_nonneg 2 k ltac:(lia) ltac:(lia)).
    rewrite Z.opp_involutive, !Z.shiftl_opp_r, !Z.shiftr_div_pow2, Z.shiftl_mul_pow2 by lia.
    change (Z.neg m) with (- Zpos m)%Z. rewrite Em, Z.div_mul, Z.eqb_refl by lia.
    assert (- (z * 2 ^ k) / 2 ^ k = - z)%Z as ->.
    { rewrite <- Z.mul_opp_l. apply Z.div_mul. lia. }
    repeat split.
Qed.

Lemma num_of_Z_integer z :
  (-2 ^ 53 < z < 2 ^ 53)%Z -> num_isInteger (num_of_Z z) = true /\ num_floor (num_of_Z z) = Some z.
Proof.
  intros Hz. destruct (Z.le_gt_cases 0 z) as [H|H].
  - destruct (num_of_Z_integer_pos z) as (? & ? & _); [lia|done].
  - destruct (num_of_Z_integer_pos (- z)) as (_ & _ & Ho); [lia|]. destruct Ho as [H1 H2]; [lia|].
    rewrite <- (num_of_Z_opp (- z)), !Z.opp_involutive in * by lia. done.
Qed.

(** A positive integral number is at least one. *)
Lemma num_floor_positive x z :
  num_isInteger x = true -> num_floor x = Some z -> num_ltb (num_of_Z 0) x = true -> (0 < z)%Z.
Proof.
  change (num_of_Z 0) with (S754_zero false).
  destruct x as [s| s| |[] m e]; try done. cbn [num_isInteger num_floor cond_Zopp]. intros Hi [= <-] _.
  apply Z.eqb_eq in Hi. destruct (Z.le_gt_cases 0 e) as [He|He].
  - rewrite Z.shiftl_mul_pow2 by lia. pose proof (Z.pow_pos_nonneg 2 e). lia.
  - rewrite Z.shiftr_div_pow2, Z.shiftl_mul_pow2 in Hi by lia.
    replace e with (- (- e))%Z by lia. rewrite Z.shiftl_opp_r, Z.shiftr_div_pow2 by lia.
    destruct (Z.lt_trichotomy (Zpos m / 2 ^ (- e)) 0) as [H|[H|H]]; [|rewrite H in Hi; lia|done].
    pose proof (Z.pow_pos_nonneg 2 (- e)). pose proof (Z.div_pos (Zpos m) (2 ^ (- e))). lia.
Qed.
