(* ===== verification/Money.v ===== *)
(** * Money, base58 and transaction expiry

    packages/shared/src/money.ts, base58.ts and solana-transaction.ts.  USD
    amounts are integer cents; the arithmetic that the source performs on
    JavaScript numbers is performed on binary64 numbers here ([parseUsdToCents]
    returns a [number]), so that the safe-integer bound of the theorems is the
    real one. *)

From S2P Require Import Prelude Strings Float64.
From Stdlib Require Import Reals Lra.

Open Scope Z_scope.

Module Money.

(** The groups of the regular expression
    [^(-?)(\d+)(?:\.(\d{1,2}))?$]: sign, whole part, fraction (empty when the
    group is absent). *)
Definition usd_match (s : string) : option (bool * string * string) :=
  let '(sign, s1) := match s with
                     | String c s' => if Ascii.eqb c "-" then (true, s') else (false, s)
                     | EmptyString => (false, "")
                     end in
  let '(whole, rest) := span is_digit s1 in
  if whole ==? "" then None else
  match rest with
  | EmptyString => Some (sign, whole, "")
  | String c frac =>
      if Ascii.eqb c "." && all_chars is_digit frac
         && (1 <=? String.length frac)%nat && (String.length frac <=? 2)%nat
      then Some (sign, whole, frac) else None
  end.

(** [Number(s)] of a string of digits. *)
Definition Number (s : string) : number := num_of_Z (digits_value s).

Definition parseUsdToCents (value : string) : result number :=
  match usd_match (trim value) with
  | None => Err (JsError ("Invalid USD amount: " +:+ value))
  | Some (sign, whole, frac) =>
      let cents := num_add (num_mul (Number whole) (num_of_Z 100)) (Number (padEnd frac 2 "0")) in
      Ok (if sign then num_opp cents else cents)
  end.

(** [cents] is an integral number; the quotient by 100 is computed on
    numbers, as the source does.  [None] stands for no case of the source (the
    floor of a finite number). *)
Definition formatCentsToUsd (cents : Z) : string :=
  let sign := if cents <? 0 then "-" else "" in
  let abs := Z.abs cents in
  let whole := match num_floor (num_div (num_of_Z abs) (num_of_Z 100)) with
               | Some n => str_of_Z n
               | None => "NaN"
               end in
  sign +:+ whole +:+ "." +:+ padStart (str_of_Z (Z.rem abs 100)) 2 "0".

(** A JavaScript number given to [BigInt]: its integral value. *)
Definition centsToUsdcBaseUnits (cents : number) : result Z :=
  if negb (num_isInteger cents) then Err (JsError "Cents must be an integer")
  else match num_floor cents with
       | Some n => Ok (n * 10000)
       | None => Err (JsError "RangeError")
       end.

Definition usdcBaseUnitsToCents (baseUnits : Z) : result number :=
  if negb (Z.rem baseUnits 10000 =? 0)
  then Err (JsError ("USDC amount " +:+ str_of_Z baseUnits +:+ " has sub-cent precision"))
  else Ok (num_of_Z (Z.quot baseUnits 10000)).

(* ------------------------------------------------------------------ *)
(** ** base58 *)

Definition ALPHABET : string := "123456789ABCDEFGHJKLMNPQRSTUVWXYZabcdefghijkmnopqrstuvwxyz".

(** [ALPHABET[d]] *)
Definition alphabet_at (d : Z) : ascii := nth (Z.to_nat d) (list_of_str ALPHABET) "?"%char.

Fixpoint leading_zeros (bytes : list Z) : nat :=
  match bytes with
  | b :: bytes' => if b =? 0 then S (leading_zeros bytes') else 0%nat
  | [] => 0%nat
  end.

(** The inner [for]: digits (least significant first) times 256 plus [carry];
    returns the digits and the carry out. *)
Fixpoint mul256_add (digits : list Z) (carry : Z) : list Z * Z :=
  match digits with
  | [] => ([], carry)
  | d :: ds =>
      let value := d * 256 + carry in
      let '(ds', carry') := mul256_add ds (value / 58) in
      (value mod 58 :: ds', carry')
  end.

(** [while (carry > 0)]; the fuel [carry] is enough, each turn divides it. *)
Fixpoint push_carry (fuel : nat) (carry : Z) : list Z :=
  match fuel with
  | O => []
  | S fuel' => if 0 <? carry then carry mod 58 :: push_carry fuel' (carry / 58) else []
  end.

Definition add_byte (digits : list Z) (byte : Z) : list Z :=
  let '(ds, carry) := mul256_add digits byte in ds ++ push_carry (Z.to_nat carry) carry.

Definition base58_digits (bytes : list Z) : list Z := fold_left add_byte bytes [0].

Definition encodeBase58 (bytes : list Z) : string :=
  repeat_str "1" (leading_zeros bytes)
  +:+ str_of_list (map alphabet_at (rev (base58_digits bytes))).

(* ------------------------------------------------------------------ *)
(** ** solana-transaction.ts *)

Inductive TransactionConfirmationStatus := processed | confirmed | finalized.
#[global] Instance confirmation_eq_dec : EqDecision TransactionConfirmationStatus.
Proof. solve_decision. Defined.

Definition isBlockhashExpired (currentBlockHeight lastValidBlockHeight : Z) : bool :=
  lastValidBlockHeight <? currentBlockHeight.

Definition shouldRebroadcastSignedTransaction
    (confirmationStatus : option TransactionConfirmationStatus) (blockhashExpired : bool) : bool :=
  negb blockhashExpired
  && ((confirmationStatus ==? None) || (confirmationStatus ==? Some processed)).

Definition canReplaceTransactionBlockhash
    (confirmationStatus : option TransactionConfirmationStatus) (blockhashExpired : bool) : bool :=
  blockhashExpired && (confirmationStatus ==? None).

Example parse_ex : parseUsdToCents " 120.5 " = Ok (num_of_Z 12050).
Proof. vm_compute. reflexivity. Qed.
Example parse_ex2 : is_ok (parseUsdToCents "1.234") = false /\ is_ok (parseUsdToCents "$5") = false.
Proof. vm_compute. done. Qed.
Example format_ex : formatCentsToUsd (-105) = "-1.05".
Proof. vm_compute. reflexivity. Qed.
Example base58_ex : encodeBase58 [0; 1; 255] = "19p".
Proof. vm_compute. reflexivity. Qed.

(* ------------------------------------------------------------------ *)
(** ** Amounts *)

Lemma digit_not_space c : is_digit c = true -> is_space c = false.
Proof.
  unfold is_digit, is_space. intros H. apply andb_true_iff in H as [H1 H2].
  destruct (N_of_ascii c) as [|p] eqn:E; [done|].
  repeat (destruct p as [p|p|]; try done; try lia).
Qed.

Lemma digits_no_space s :
  all_chars is_digit s = true -> all_chars (fun c => negb (is_space c)) s = true.
Proof.
  induction s as [|c s IH]; cbn; [done|]. intros H. apply andb_true_iff in H as [Hc Hs].
  by rewrite digit_not_space, IH.
Qed.

(** An unsigned amount has no whitespace: trimming it changes nothing. *)
Lemma usd_match_trim v whole frac : usd_match v = Some (false, whole, frac) -> trim v = v.
Proof.
  intros H. apply trim_id. unfold usd_match in H.
  destruct v as [|c v]; [done|]. destruct (Ascii.eqb c "-").
  { destruct (span is_digit v) as [a b]. destruct (a ==? ""); [done|].
    destruct b as [|d b]; [done|]. by destruct (_ && _ && _ && _). }
  destruct (span is_digit (String c v)) as [a b] eqn:Es. apply span_parts in Es as [-> Ha].
  destruct (a ==? ""); [done|]. rewrite all_chars_app, (digits_no_space _ Ha).
  destruct b as [|d b]; [done|].
  destruct (Ascii.eqb d "." && all_chars is_digit b && (1 <=? String.length b)%nat && (String.length b <=? 2)%nat) eqn:E; [|done].
  rewrite !andb_true_iff in E. destruct E as [[[Ed Hb] _] _]. apply Ascii.eqb_eq in Ed as ->.
  cbn. by apply digits_no_space.
Qed.

(** The numeral of an unsigned amount splits into its groups. *)
Lemma usd_match_unsigned whole frac :
  all_chars is_digit whole = true -> whole <> "" ->
  all_chars is_digit frac = true -> String.length frac = 2%nat ->
  usd_match (whole +:+ "." +:+ frac) = Some (false, whole, frac) /\
  usd_match ("-" +:+ whole +:+ "." +:+ frac) = Some (true, whole, frac).
Proof.
  intros Hw Hne Hf Hl. assert (Hs : span is_digit (whole +:+ "." +:+ frac) = (whole, "." +:+ frac))
    by (apply span_all; [done|reflexivity]).
  split; unfold usd_match.
  - destruct whole as [|c w]; [done|].
    cbn [all_chars] in Hw. apply andb_true_iff in Hw as [Hc _].
    change (String c w +:+ "." +:+ frac) with (String c (w +:+ "." +:+ frac)) in *.
    cbv beta iota.
    assert (Ascii.eqb c "-" = false) as ->.
    { destruct (Ascii.eqb_spec c "-") as [->|]; [discriminate Hc|done]. }
    rewrite Hs. cbn [bool_decide decide]. rewrite bool_decide_eq_false_2 by done.
    cbn. by rewrite Hf, Hl.
  - change ("-" +:+ whole +:+ "." +:+ frac) with (String "-" (whole +:+ "." +:+ frac)).
    cbv beta iota.
    rewrite Ascii.eqb_refl, Hs. rewrite bool_decide_eq_false_2 by done.
    cbn. by rewrite Hf, Hl.
Qed.

Lemma frac_digits r :
  0 <= r < 100 ->
  let f := padStart (str_of_Z r) 2 "0" in
  all_chars is_digit f = true /\ String.length f = 2%nat /\ digits_value f = r.
Proof.
  intros Hr. assert (exists n, r = Z.of_nat n /\ (n < 100)%nat) as (n & -> & Hn)
    by (exists (Z.to_nat r); lia).
  clear Hr. do 100 (destruct n as [|n]; [vm_compute; done|]). lia.
Qed.

Lemma format_parts a :
  0 <= a < 2 ^ 53 ->
  num_floor (num_div (num_of_Z a) (num_of_Z 100)) = Some (a / 100) /\ Z.rem a 100 = a mod 100.
Proof. intros H. split; [apply num_floor_div; lia|apply Z.rem_mod_nonneg; lia]. Qed.

Lemma parse_formatted (c : Z) : Z.abs c < 2 ^ 53 -> parseUsdToCents (formatCentsToUsd c) = Ok (num_of_Z c).
Proof.
  intros Hc. set (a := Z.abs c) in *. destruct (format_parts a) as [Hq Hr]; [lia|].
  pose proof (Z.mod_pos_bound a 100 ltac:(lia)) as Hm. pose proof (Z.div_mod a 100 ltac:(lia)).
  assert (0 <= a / 100) as Hq0 by (apply Z.div_pos; lia).
  destruct (frac_digits (a mod 100) Hm) as (Hf & Hl & Hv). cbv zeta in *.
  pose proof (str_of_Z_digits _ Hq0) as Hw. pose proof (str_of_Z_nonempty _ Hq0) as Hn.
  destruct (usd_match_unsigned _ _ Hw Hn Hf Hl) as [Mp Mn].
  assert (Hval : num_add (num_mul (Number (str_of_Z (a / 100))) (num_of_Z 100))
      (Number (padEnd (padStart (str_of_Z (a mod 100)) 2 "0") 2 "0")) = num_of_Z a).
  { unfold Number at 1. rewrite digits_value_str, num_mul_Z by lia.
    unfold padEnd. rewrite Hl. cbn [Nat.sub repeat_str]. rewrite str_app_nil. unfold Number.
    rewrite Hv, num_add_Z by lia. f_equal. lia. }
  unfold parseUsdToCents, formatCentsToUsd. fold a. rewrite Hq, Hr.
  assert (Ht : all_chars (fun c => negb (is_space c))
      (str_of_Z (a / 100) +:+ "." +:+ padStart (str_of_Z (a mod 100)) 2 "0") = true).
  { rewrite !all_chars_app, (digits_no_space _ Hw), (digits_no_space _ Hf). done. }
  destruct (Z.ltb_spec c 0).
  - rewrite trim_id by (rewrite all_chars_app, Ht; done). rewrite Mn, Hval.
    f_equal. replace c with (- a) by lia. symmetry. apply num_of_Z_opp. lia.
  - change ("" +:+ ?s) with s. rewrite trim_id by done. rewrite Mp, Hval. do 2 f_equal. lia.
Qed.

(** C35: [parseUsdToCents] reads back what [formatCentsToUsd] prints, for every
    amount in the safe-integer range, computed with the source's floating-point
    operations. *)
Theorem parse_format_roundtrip (c : Z) :
  Z.abs c < 2 ^ 53 -> parseUsdToCents (formatCentsToUsd c) = Ok (num_of_Z c).
Proof. exact (parse_formatted c). Qed.

Lemma parse_format_roundtrip_witness :
  Z.abs (-105) < 2 ^ 53 /\ parseUsdToCents (formatCentsToUsd (-105)) = Ok (num_of_Z (-105)).
Proof. split; [done|apply (parse_format_roundtrip (-105)); done]. Defined.

Lemma centsToUsdcBaseUnits_ok c :
  Z.abs c < 2 ^ 53 -> centsToUsdcBaseUnits (num_of_Z c) = Ok (c * 10000).
Proof.
  intros Hc. destruct (num_of_Z_integer c) as [Hi Hf]; [lia|].
  unfold centsToUsdcBaseUnits. by rewrite Hi, Hf.
Qed.

(** Converting cents to USDC base units and back is exact, and a USDC
    amount is refused exactly when it has a sub-cent part. *)
Theorem usdc_roundtrip (c b : Z) :
  Z.abs c < 2 ^ 53 ->
  centsToUsdcBaseUnits (num_of_Z c) = Ok (c * 10000) /\
  usdcBaseUnitsToCents (c * 10000) = Ok (num_of_Z c) /\
  (is_ok (usdcBaseUnitsToCents b) = true <-> (10000 | b)).
Proof.
  intros Hc. destruct (num_of_Z_integer c) as [Hi Hf]; [lia|].
  unfold centsToUsdcBaseUnits, usdcBaseUnitsToCents. rewrite Hi, Hf. cbn [negb].
  rewrite Z.rem_mul, Z.quot_mul by lia. split; [done|]. split; [done|].
  destruct (Z.eqb_spec (Z.rem b 10000) 0) as [E|E]; cbn; (split; [intros H|intros [k Hk]]); try done.
  - exists (Z.quot b 10000). pose proof (Z.quot_rem' b 10000). lia.
  - exfalso. apply E. rewrite Hk. apply Z.rem_mul. lia.
Qed.

Lemma usdc_roundtrip_witness :
  Z.abs 12000 < 2 ^ 53 /\ centsToUsdcBaseUnits (num_of_Z 12000) = Ok 120000000.
Proof. split; [done|]. apply (usdc_roundtrip 12000 0). done. Defined.

(* ------------------------------------------------------------------ *)
(** ** base58 *)

(** The number a little-endian list of base-58 digits stands for. *)
Fixpoint le58 (ds : list Z) : Z := match ds with [] => 0 | d :: ds' => d + 58 * le58 ds' end.

Definition digit58 (d : Z) : Prop := 0 <= d < 58.

(** The number a list of bytes stands for, most significant first. *)
Definition bytes_value (bytes : list Z) : Z := fold_left (fun acc b => 256 * acc + b) bytes 0.

Lemma mul256_add_spec ds carry :
  0 <= carry < 256 -> Forall digit58 ds ->
  let '(ds', c') := mul256_add ds carry in
  Forall digit58 ds' /\ 0 <= c' < 256 /\ length ds' = length ds /\
  le58 ds' + c' * 58 ^ Z.of_nat (length ds) = 256 * le58 ds + carry.
Proof.
  intros Hc H. revert carry Hc. induction H as [|d ds Hd Hds IH]; intros carry Hc.
  - cbn. repeat split; [constructor|lia..].
  - cbn [mul256_add]. unfold digit58 in Hd. set (v := d * 256 + carry).
    pose proof (Z.div_mod v 58 ltac:(lia)). pose proof (Z.mod_pos_bound v 58 ltac:(lia)) as Hm.
    assert (0 <= v / 58 < 256) as Hv
      by (split; [apply Z.div_pos; lia|apply Z.div_lt_upper_bound; lia]).
    specialize (IH _ Hv). destruct (mul256_add ds (v / 58)) as [ds' c'].
    destruct IH as (H1 & H2 & H3 & H4). split; [constructor; [exact Hm|done]|]. split; [done|].
    split; [cbn; lia|]. cbn [le58 length]. rewrite Nat2Z.inj_succ, Z.pow_succ_r by lia. lia.
Qed.

Lemma push_carry_spec fuel c :
  0 <= c <= Z.of_nat fuel ->
  Forall digit58 (push_carry fuel c) /\ le58 (push_carry fuel c) = c.
Proof.
  revert c. induction fuel as [|fuel IH]; intros c Hc; cbn [push_carry].
  - split; [constructor|]. cbn. lia.
  - destruct (Z.ltb_spec 0 c); [|split; [constructor|cbn; lia]].
    pose proof (Z.div_mod c 58 ltac:(lia)). pose proof (Z.mod_pos_bound c 58 ltac:(lia)) as Hm.
    assert (0 <= c / 58) by (apply Z.div_pos; lia).
    destruct (IH (c / 58)) as (IH1 & IH2); [lia|].
    split; [by constructor|]. cbn. lia.
Qed.

Lemma le58_app ds ds' : le58 (ds ++ ds') = le58 ds + 58 ^ Z.of_nat (length ds) * le58 ds'.
Proof.
  induction ds as [|d ds IH]; [cbn [app le58 length]; lia|].
  cbn [app le58 length]. rewrite IH, Nat2Z.inj_succ, Z.pow_succ_r by lia. lia.
Qed.

Lemma add_byte_spec ds b :
  0 <= b < 256 -> Forall digit58 ds ->
  Forall digit58 (add_byte ds b) /\ le58 (add_byte ds b) = 256 * le58 ds + b.
Proof.
  intros Hb H. unfold add_byte. pose proof (mul256_add_spec ds b Hb H) as M.
  destruct (mul256_add ds b) as [ds' c']. destruct M as (H1 & H2 & H3 & H4).
  destruct (push_carry_spec (Z.to_nat c') c') as (P1 & P2); [lia|].
  split; [by apply Forall_app|]. rewrite le58_app, P2, H3. lia.
Qed.

Lemma base58_digits_spec bytes :
  Forall (fun b => 0 <= b < 256) bytes ->
  Forall digit58 (base58_digits bytes) /\ le58 (base58_digits bytes) = bytes_value bytes.
Proof.
  intros H. unfold base58_digits, bytes_value.
  assert (G : forall ds acc, Forall digit58 ds -> le58 ds = acc ->
    Forall digit58 (fold_left add_byte bytes ds) /\
    le58 (fold_left add_byte bytes ds) = fold_left (fun acc b => 256 * acc + b) bytes acc).
  { induction H as [|b bytes Hb _ IH]; intros ds acc Hd <-; cbn [fold_left]; [done|].
    destruct (add_byte_spec ds b Hb Hd). by apply IH. }
  apply G; [|done]. constructor; [split; lia|constructor].
Qed.

(** Reading a base-58 string as a number; [None] on a foreign character. *)
Definition char58 (c : ascii) : option Z :=
  Z.of_nat <$> indexOf c ALPHABET.

Fixpoint base58_from (acc : Z) (s : string) : option Z :=
  match s with
  | EmptyString => Some acc
  | String c s' => match char58 c with Some d => base58_from (58 * acc + d) s' | None => None end
  end.

Lemma char58_alphabet d : digit58 d -> char58 (alphabet_at d) = Some d.
Proof.
  intros H. assert (exists n, d = Z.of_nat n /\ (n < 58)%nat) as (n & -> & Hn)
    by (exists (Z.to_nat d); unfold digit58 in H; lia).
  clear H. do 58 (destruct n as [|n]; [vm_compute; done|]). lia.
Qed.

Lemma base58_from_digits ds acc :
  Forall digit58 ds ->
  base58_from acc (str_of_list (map alphabet_at (rev ds)))
  = Some (58 ^ Z.of_nat (length ds) * acc + le58 ds).
Proof.
  revert acc. induction ds as [|d ds IH] using rev_ind; intros acc H.
  - cbn [rev map str_of_list base58_from length le58]. f_equal. lia.
  - apply Forall_app in H as [Hds Hd]. apply Forall_inv in Hd as Hd'.
    rewrite rev_app_distr. cbn [rev app map str_of_list base58_from].
    rewrite char58_alphabet, IH by done.
    rewrite length_app, le58_app, Nat2Z.inj_add, Z.pow_add_r by lia. cbn [length le58].
    f_equal. change (Z.of_nat 1) with 1. lia.
Qed.

Lemma base58_from_ones n s : base58_from 0 (repeat_str "1" n +:+ s) = base58_from 0 s.
Proof. induction n as [|n IH]; [done|]. exact IH. Qed.

(** C36: the base-58 string of a byte string denotes the same number, most
    significant first, for every byte string. *)
Theorem encodeBase58_value (bytes : list Z) :
  Forall (fun b => 0 <= b < 256) bytes ->
  base58_from 0 (encodeBase58 bytes) = Some (bytes_value bytes).
Proof.
  intros H. destruct (base58_digits_spec bytes H) as [Hd Hv]. unfold encodeBase58.
  rewrite base58_from_ones, base58_from_digits, Hv by done. f_equal. lia.
Qed.

Lemma encodeBase58_value_witness :
  base58_from 0 (encodeBase58 [0; 1; 255]) = Some 511.
Proof. apply (encodeBase58_value [0; 1; 255]). repeat constructor; lia. Defined.

(** Base58 of an all-zero byte string has one "1" too many: the digit list
    starts as [[0]] and that zero is printed after the leading ones.  The empty
    string encodes to "1". *)
Theorem encodeBase58_zeros (n : nat) :
  encodeBase58 (repeat 0 n) = repeat_str "1" (S n).
Proof.
  assert (D : base58_digits (repeat 0 n) = [0]).
  { unfold base58_digits. induction n as [|n IH]; [done|exact IH]. }
  assert (L : leading_zeros (repeat 0 n) = n) by (induction n as [|n IH]; cbn; [done|]; by rewrite IH).
  unfold encodeBase58. rewrite D, L. clear. induction n as [|n IH]; [done|].
  cbn [repeat_str]. rewrite str_app_assoc, IH. done.
Qed.

(** At any height and status at most one of "send the same transaction
    again" and "sign a new one" is allowed, and a new one only past the last
    valid height of a signature the cluster does not know. *)
Theorem replace_rebroadcast_exclusive status height lastValid :
  let expired := isBlockhashExpired height lastValid in
  shouldRebroadcastSignedTransaction status expired && canReplaceTransactionBlockhash status expired = false /\
  (canReplaceTransactionBlockhash status expired = true <-> lastValid < height /\ status = None) /\
  (shouldRebroadcastSignedTransaction status expired = true <->
     height <= lastValid /\ (status = None \/ status = Some processed)).
Proof.
  unfold shouldRebroadcastSignedTransaction, canReplaceTransactionBlockhash, isBlockhashExpired.
  destruct (Z.ltb_spec lastValid height); destruct status as [[]|]; cbn;
    repeat split; try done; try lia; naive_solver lia.
Qed.

End Money.
