(* ===== verification/AllocationEngine.v ===== *)
(** * The allocation engine

    packages/shared/src/allocation.ts: the split of a tip pool over the
    eligible shifts.  Cents and minutes are integral numbers carried as Z (the
    columns are 32-bit integers); weights, scores and quotients are binary64
    numbers and every operation on them is the rounded one.  The engine's
    result is exact to the cent for pools below 2^31 cents and up to 2^20
    recipients, the bounds of [alloc_exact]. *)

From Stdlib Require Import Reals Lra Psatz.
From S2P Require Import Prelude Strings Schema Demo Float64.

Open Scope Z_scope.

Module AllocationEngine.

Record AllocationTipInput := mkTipInput {
  ti_tipType : TipType.t;
  ti_grossAmountUsdCents : Z;
  ti_paymentStatus : option PaymentStatus.t;
  ti_refundStatus : option RefundStatus.t
}.

Record AllocationShiftInput := mkShiftInput {
  si_workerId : option string;
  si_externalWorkerId : string;
  si_provider : string;
  si_role : string;
  si_workedMinutes : Z;
  si_shiftStatus : ShiftStatus.t
}.

(** [roleWeights] is an object (string keys); [poolInclusion] a partial record
    keyed by the tip type's name. *)
Record AllocationPolicyInput := mkPolicyInput {
  pi_roleWeights : list (string * number);
  pi_excludedRoles : list string;
  pi_poolInclusion : list (string * bool)
}.

Inductive AllocationIssueCode :=
| UNMAPPED_WORKER | NON_POSITIVE_MINUTES | UNKNOWN_ROLE | REFUNDED_PAYMENT_EXCLUDED
| CANCELED_PAYMENT_EXCLUDED | EMPTY_POOL | NO_ELIGIBLE_SHIFTS.
#[export] Instance issueCode_eq_dec : EqDecision AllocationIssueCode.
Proof. solve_decision. Defined.

Record AllocationIssue := mkIssue {
  is_code : AllocationIssueCode;
  is_blocking : bool;
  is_detail : json
}.

Record WorkerAllocationResult := mkAllocationResult {
  ar_workerId : option string;
  ar_provider : option string;
  ar_externalWorkerId : option string;
  ar_score : number;
  ar_pooledTipUsdCents : Z;
  ar_netAllocatedUsdCents : Z
}.

Record AllocationBatchResult := mkBatchResult {
  br_poolUsdCents : Z;
  br_totalScore : number;
  br_allocations : list WorkerAllocationResult;
  br_issues : list AllocationIssue
}.

(* ------------------------------------------------------------------ *)
(** ** Pool *)

(** [policy.poolInclusion[tip.tipType]], absent meaning falsy. *)
Definition included (policy : AllocationPolicyInput) (tip : AllocationTipInput) : bool :=
  nullish (map_get (pi_poolInclusion policy) (TipType.name (ti_tipType tip))) false.

Definition excluded_detail (tip : AllocationTipInput) : json :=
  JObj [("tipType", JStr (TipType.name (ti_tipType tip)));
        ("amountUsdCents", JInt (ti_grossAmountUsdCents tip))].

(** One turn of the loop over the tips. *)
Definition add_tip (policy : AllocationPolicyInput) (st : Z * list AllocationIssue)
    (tip : AllocationTipInput) : Z * list AllocationIssue :=
  let '(pool, issues) := st in
  if negb (included policy tip) then st
  else if ti_refundStatus tip ==? Some RefundStatus.FULL
  then (pool, issues ++ [mkIssue REFUNDED_PAYMENT_EXCLUDED false (excluded_detail tip)])
  else if ti_paymentStatus tip ==? Some PaymentStatus.CANCELED
  then (pool, issues ++ [mkIssue CANCELED_PAYMENT_EXCLUDED false (excluded_detail tip)])
  else (pool + ti_grossAmountUsdCents tip, issues).

(* ------------------------------------------------------------------ *)
(** ** Scores *)

Record RecipientIdentity := mkIdentity {
  ri_workerId : option string;
  ri_provider : option string;
  ri_externalWorkerId : option string
}.

Record Scores := mkScores {
  scoreByKey : list (string * number);
  identityByKey : list (string * RecipientIdentity);
  sc_issues : list AllocationIssue
}.
#[export] Instance eta_Scores : Eta Scores :=
  fun r => mkScores (scoreByKey r) (identityByKey r) (sc_issues r).

Definition shiftLabel (shift : AllocationShiftInput) : string :=
  nullish (si_workerId shift) (si_provider shift +:+ ":" +:+ si_externalWorkerId shift).

Definition shift_key (shift : AllocationShiftInput) : string :=
  match si_workerId shift with
  | Some w => if w ==? "" then "held:" +:+ si_provider shift +:+ ":" +:+ si_externalWorkerId shift
              else "worker:" +:+ w
  | None => "held:" +:+ si_provider shift +:+ ":" +:+ si_externalWorkerId shift
  end.

Definition shift_identity (shift : AllocationShiftInput) : RecipientIdentity :=
  if truthy (si_workerId shift) then mkIdentity (si_workerId shift) None None
  else mkIdentity None (Some (si_provider shift)) (Some (si_externalWorkerId shift)).

Definition push_issue (i : AllocationIssue) (st : Scores) : Scores :=
  st <| sc_issues ::= fun l => l ++ [i] |>.

Definition eligible_status (s : ShiftStatus.t) : bool :=
  (s ==? ShiftStatus.COMPLETED) || (s ==? ShiftStatus.APPROVED).

(** One turn of the loop over the shifts. *)
Definition add_shift (policy : AllocationPolicyInput) (st : Scores)
    (shift : AllocationShiftInput) : Scores :=
  if negb (eligible_status (si_shiftStatus shift)) then st
  else if includes (pi_excludedRoles policy) (si_role shift) then st
  else
    let st := match si_workerId shift with
              | None => push_issue (mkIssue UNMAPPED_WORKER false
                  (JObj [("externalWorkerId", JStr (si_externalWorkerId shift));
                         ("provider", JStr (si_provider shift));
                         ("role", JStr (si_role shift))])) st
              | Some _ => st
              end in
    if si_workedMinutes shift <=? 0
    then push_issue (mkIssue NON_POSITIVE_MINUTES true
           (JObj [("workerId", JStr (shiftLabel shift));
                  ("workedMinutes", JInt (si_workedMinutes shift))])) st
    else match map_get (pi_roleWeights policy) (si_role shift) with
         | None => push_issue (mkIssue UNKNOWN_ROLE true
             (JObj [("workerId", JStr (shiftLabel shift)); ("role", JStr (si_role shift))])) st
         | Some weight =>
             let score := num_mul (num_of_Z (si_workedMinutes shift)) weight in
             let key := shift_key shift in
             st <| scoreByKey ::= fun m =>
                     map_set m key (num_add (nullish (map_get m key) (num_of_Z 0)) score) |>
                <| identityByKey ::= fun m => map_set m key (shift_identity shift) |>
         end.

(* ------------------------------------------------------------------ *)
(** ** The largest-remainder split *)

Record RawShare := mkRaw {
  raw_key : string;
  raw_score : number;
  raw_floor : Z;
  raw_remainder : number
}.
#[export] Instance eta_RawShare : Eta RawShare :=
  fun r => mkRaw (raw_key r) (raw_score r) (raw_floor r) (raw_remainder r).

(** [None] when the quotient is infinite or NaN. *)
Definition raw_share (pool : Z) (total : number) (e : string * number) : option RawShare :=
  let exact := num_div (num_mul (num_of_Z pool) e.2) total in
  match num_floor exact with
  | Some f => Some (mkRaw e.1 e.2 f (num_sub exact (num_of_Z f)))
  | None => None
  end.

Fixpoint raw_shares (pool : Z) (total : number) (es : list (string * number))
    : option (list RawShare) :=
  match es with
  | [] => Some []
  | e :: es' => match raw_share pool total e, raw_shares pool total es' with
                | Some r, Some rs => Some (r :: rs)
                | _, _ => None
                end
  end.

Definition is_nan (x : number) : bool := match x with S754_nan => true | _ => false end.

(** The objects of [byRemainder] are those of [raw], so [r.floor += 1] changes
    the entry of [raw] with that key (the keys are those of a Map). *)
Fixpoint give_leftover (order : list string) (leftover : Z) (raw : list RawShare)
    : list RawShare :=
  match order with
  | [] => raw
  | k :: order' =>
      if leftover <=? 0 then raw
      else give_leftover order' (leftover - 1)
             (upd_where (fun r => raw_key r ==? k) (fun r => r <| raw_floor ::= Z.succ |>) raw)
  end.

Section split.
Context `{Platform}.

Definition by_remainder_lt (a b : RawShare) : bool :=
  let d := num_sub (raw_remainder b) (raw_remainder a) in
  if num_eqb d (num_of_Z 0) || is_nan d then localeLt (raw_key a) (raw_key b)
  else num_ltb d (num_of_Z 0).

Definition to_allocation (ids : list (string * RecipientIdentity)) (r : RawShare)
    : WorkerAllocationResult :=
  let identity := nullish (map_get ids (raw_key r)) (mkIdentity None None None) in
  mkAllocationResult (ri_workerId identity) (ri_provider identity)
    (ri_externalWorkerId identity) (raw_score r) (raw_floor r) (raw_floor r).

Definition invariant_error (total : string) (pool : Z) : exn :=
  JsError ("Allocation invariant violated: allocated " +:+ total +:+ " != pool "
           +:+ str_of_Z pool).

(** A share that is not finite makes the total NaN or infinite, which is
    never the pool: the invariant check throws. *)
Definition split_pool (pool : Z) (totalScore : number) (scores : list (string * number))
    (ids : list (string * RecipientIdentity)) : result (list WorkerAllocationResult) :=
  let entries := stable_sort (fun a b => localeLt a.1 b.1) scores in
  match raw_shares pool totalScore entries with
  | None => Err (invariant_error "NaN" pool)
  | Some raw =>
      let leftover := pool - sumZ raw_floor raw in
      let byRemainder := stable_sort by_remainder_lt raw in
      let raw := give_leftover (map raw_key byRemainder) leftover raw in
      let allocations := map (to_allocation ids) raw in
      let total := sumZ ar_pooledTipUsdCents allocations in
      if negb (total =? pool) then Err (invariant_error (str_of_Z total) pool)
      else Ok allocations
  end.

Definition computeAllocationBatch (tips : list AllocationTipInput)
    (shifts : list AllocationShiftInput) (policy : AllocationPolicyInput)
    : result AllocationBatchResult :=
  let '(poolUsdCents, issues) := fold_left (add_tip policy) tips (0, []) in
  let st := fold_left (add_shift policy) shifts (mkScores [] [] issues) in
  let totalScore := fold_left (fun a e => num_add a e.2) (scoreByKey st) (num_of_Z 0) in
  let issues := if poolUsdCents =? 0 then sc_issues st ++ [mkIssue EMPTY_POOL false (JObj [])]
                else sc_issues st in
  if num_eqb totalScore (num_of_Z 0)
  then Ok (mkBatchResult poolUsdCents totalScore []
             (issues ++ [mkIssue NO_ELIGIBLE_SHIFTS (0 <? poolUsdCents) (JObj [])]))
  else
    try! allocations := split_pool poolUsdCents totalScore (scoreByKey st) (identityByKey st) in
    Ok (mkBatchResult poolUsdCents totalScore allocations issues).

(** [businessDateInTimezone]: the formatting is Intl's. *)
Definition businessDateInTimezone (instant : Z) (timeZone : string) : string :=
  intlDate instant timeZone.
End split.

(* ------------------------------------------------------------------ *)
(** ** Error analysis of the scores *)

Section rounding.
Local Open Scope R_scope.

Lemma within_bounds r x :
within r x -> 0 <= x -> (1 - u) * x <= num_val r <= (1 + u) * x.
Proof.
intros (_ & H & _) Hx. pose proof (Rle_abs (num_val r - x)).
pose proof (Rle_abs (- (num_val r - x))) as A. rewrite Rabs_Ropp in A. lra.
Qed.

Lemma u_small : 0 < u /\ u * bpow 20 <= / 1048576.
Proof.
split; [apply bpow_pos|]. unfold u. rewrite <- bpow_add. change (-53 + 20)%Z with (-33)%Z.
apply Rle_trans with (bpow (-20)); [by apply bpow_le|].
change (bpow (-20)) with (/ (2 ^ 20)). lra.
Qed.

Lemma u_tiny : u <= / 1048576.
Proof.
apply Rle_trans with (bpow (-20)); [by apply bpow_le|].
change (bpow (-20)) with (/ (2 ^ 20)). lra.
Qed.

Lemma nonneg_zero x : nonneg x -> num_val x = 0 -> x = S754_zero false.
Proof.
intros [->|(m & e & -> & _)]; [done|]. cbn -[bpow IZR]. intros H. exfalso.
pose proof (bpow_pos e). assert (0 < IZR (Zpos m)) by (apply IZR_lt; lia). nra.
Qed.

Lemma num_add_zero_l x : nonneg x -> num_add (S754_zero false) x = x.
Proof. intros [->|(m & e & -> & _)]; done. Qed.
Lemma num_add_zero_r x : nonneg x -> num_add x (S754_zero false) = x.
Proof. intros [->|(m & e & -> & _)]; done. Qed.

(** A weight the policies use: zero or of a magnitude between 2^-200 and
  2^200. *)
Definition weight_ok (w : number) : Prop :=
nonneg w /\ (num_val w = 0 \/ bpow (-200) <= num_val w <= bpow 200).

(** A score accumulated from [k] shifts. *)
Definition score_ok (k : R) (s : number) : Prop :=
nonneg s /\ (num_val s = 0 \/ bpow (-201) <= num_val s <= k * bpow 233).

Lemma bpow_double e : bpow (e + 1) = 2 * bpow e.
Proof. rewrite bpow_add. change (bpow 1) with (2 * 1). ring. Qed.

Lemma score_mul_ok minutes w :
(0 < minutes < 2 ^ 31)%Z -> weight_ok w ->
nonneg (num_mul (num_of_Z minutes) w) /\
(num_val (num_mul (num_of_Z minutes) w) = 0 \/
 bpow (-201) <= num_val (num_mul (num_of_Z minutes) w) <= bpow 232).
Proof.
intros Hm [Nw Hw]. destruct (num_of_Z_spec minutes ltac:(lia)) as [Nm Vm].
destruct Hw as [Hw|Hw].
- rewrite (nonneg_zero w Nw Hw). destruct Nm as [->|(m & e & -> & _)]; (split; [by left|by left]).
- assert (1 <= IZR minutes) by (apply IZR_le; lia).
  assert (IZR minutes <= bpow 31) by (rewrite bpow_IZR by lia; apply IZR_le; lia).
  assert (bpow (-200) <= IZR minutes * num_val w <= bpow 231) as Hr.
  { change 231%Z with (31 + 200)%Z. rewrite bpow_add. pose proof (bpow_pos (-200)).
    split; [nra|]. apply Rmult_le_compat; lra. }
  pose proof (num_mul_spec _ w Nm Nw) as D. rewrite Vm in D.
  assert (in_range (IZR minutes * num_val w)) as R.
  { right. split; [apply Rle_trans with (bpow (-200)); [by apply bpow_le|lra]|].
    apply Rle_trans with (bpow 231); [lra|by apply bpow_le]. }
  specialize (D R). split; [apply D|]. right. pose proof (bpow_pos (-200)).
  destruct (within_bounds _ _ D ltac:(lra)) as [L U]. pose proof u_tiny. pose proof u_small.
  pose proof (bpow_double (-201)) as E1. pose proof (bpow_double 231) as E2.
  change (-201 + 1)%Z with (-200)%Z in E1. change (231 + 1)%Z with 232%Z in E2.
  split; [nra|]. nra.
Qed.

Lemma score_add_ok k s t :
0 <= k <= bpow 20 -> score_ok k s -> nonneg t ->
(num_val t = 0 \/ bpow (-201) <= num_val t <= bpow 232) ->
score_ok (k + 1) (num_add s t).
Proof.
intros Hk [Ns Hs] Nt Ht. pose proof (bpow_pos 233). pose proof (bpow_pos (-201)).
pose proof (bpow_double 232) as E2. change (232 + 1)%Z with 233%Z in E2.
destruct Hs as [Hs|Hs].
{ rewrite (nonneg_zero s Ns Hs), num_add_zero_l by done. split; [done|].
  destruct Ht as [Ht|Ht]; [by left|right]. nra. }
destruct Ht as [Ht|Ht].
{ rewrite (nonneg_zero t Nt Ht), num_add_zero_r by done. split; [done|]. right. nra. }
assert (k * bpow 233 <= bpow 253) as K
  by (change 253%Z with (20 + 233)%Z; rewrite bpow_add; nra).
assert (bpow 253 <= bpow 890 /\ bpow 233 <= bpow 890 /\ 2 * bpow 890 <= bpow 900) as (B1 & B2 & B3).
{ split; [by apply bpow_le|]. split; [by apply bpow_le|].
  rewrite <- bpow_double. by apply bpow_le. }
assert (within (num_add s t) (num_val s + num_val t)) as D.
{ apply num_add_spec; [done|done|]. right. split; [|lra].
  apply Rle_trans with (bpow (-201)); [by apply bpow_le|lra]. }
split; [apply D|]. right. destruct (within_bounds _ _ D ltac:(lra)) as [L U].
pose proof u_tiny. pose proof u_small as [U0 U20]. split; [nra|].
apply Rle_trans with ((1 + u) * (k * bpow 233 + bpow 232)); [nra|].
assert (u * k <= / 1048576) by nra. nra.
Qed.

(** *** The total score *)

Fixpoint sumR {X} (f : X -> R) (l : list X) : R :=
match l with [] => 0 | x :: l' => f x + sumR f l' end.

Lemma sumR_app {X} (f : X -> R) l1 l2 : sumR f (l1 ++ l2) = sumR f l1 + sumR f l2.
Proof. induction l1 as [|x l IH]; cbn; [ring|]. rewrite IH. ring. Qed.

Lemma sumR_Permutation {X} (f : X -> R) l1 l2 : l1 ≡ₚ l2 -> sumR f l1 = sumR f l2.
Proof. induction 1; cbn; lra. Qed.

Lemma sumR_le {X} (f g : X -> R) l : (forall x, In x l -> f x <= g x) -> sumR f l <= sumR g l.
Proof.
induction l as [|x l IH]; intros H; cbn; [lra|].
pose proof (H x (or_introl eq_refl)). pose proof (IH (fun y h => H y (or_intror h))). lra.
Qed.

Lemma sumR_scale {X} c (f : X -> R) l : sumR (fun x => c * f x) l = c * sumR f l.
Proof. induction l as [|x l IH]; cbn; [ring|]. rewrite IH. ring. Qed.

Lemma sumR_plus {X} (f g : X -> R) l : sumR (fun x => f x + g x) l = sumR f l + sumR g l.
Proof. induction l as [|x l IH]; cbn; [ring|]. rewrite IH. ring. Qed.

Lemma sumR_const {X} c (l : list X) : sumR (fun _ => c) l = IZR (Z.of_nat (length l)) * c.
Proof.
induction l as [|x l IH]; [cbn; ring|]. cbn [sumR length].
rewrite IH, Nat2Z.inj_succ, succ_IZR. ring.
Qed.

Lemma sumR_IZR {X} (f : X -> Z) l : sumR (fun x => IZR (f x)) l = IZR (sumZ f l).
Proof. induction l as [|x l IH]; cbn [sumR sumZ]; [done|]. by rewrite IH, plus_IZR. Qed.

Lemma sumR_nonneg {X} (f : X -> R) l : (forall x, In x l -> 0 <= f x) -> 0 <= sumR f l.
Proof.
induction l as [|x l IH]; intros H; cbn; [lra|].
pose proof (H x (or_introl eq_refl)). pose proof (IH (fun y h => H y (or_intror h))). lra.
Qed.

(** The scores a batch can hold. *)
Definition entry_ok (e : string * number) : Prop := score_ok (bpow 20) e.2.

Definition exact_total (es : list (string * number)) : R := sumR (fun e => num_val e.2) es.

Lemma entry_ok_bounds e : entry_ok e -> 0 <= num_val e.2 <= bpow 253.
Proof.
intros [_ H]. pose proof (bpow_pos 253). pose proof (bpow_pos (-201)).
destruct H as [H|H]; [lra|]. rewrite <- bpow_add in H. change (20 + 233)%Z with 253%Z in H. lra.
Qed.

Lemma exact_total_bounds es :
Forall entry_ok es -> 0 <= exact_total es <= IZR (Z.of_nat (length es)) * bpow 253 /\
(exact_total es = 0 \/ bpow (-201) <= exact_total es).
Proof.
intros H. unfold exact_total. rewrite <- sumR_const. split; [split|].
- apply sumR_nonneg. intros x Hx. rewrite List.Forall_forall in H.
  pose proof (entry_ok_bounds x (H x Hx)). lra.
- apply sumR_le. intros x Hx. rewrite List.Forall_forall in H. apply entry_ok_bounds; auto.
- induction H as [|e es He Hes IH]; cbn [sumR]; [by left|].
  assert (0 <= sumR (fun e => num_val e.2) es).
  { apply sumR_nonneg. intros x Hx. rewrite List.Forall_forall in Hes.
    pose proof (entry_ok_bounds x (Hes x Hx)). lra. }
  pose proof (entry_ok_bounds e He). destruct He as [_ [E|E]]; [|right; lra].
  destruct IH as [IH|IH]; [left; lra|right; lra].
Qed.

(** The computed total of [n] scores is within a relative [2 n u] of the exact
  sum. *)
Lemma total_score_spec es :
Forall entry_ok es -> IZR (Z.of_nat (length es)) <= bpow 20 ->
let T := fold_left (fun a e => num_add a e.2) es (num_of_Z 0) in
let n := IZR (Z.of_nat (length es)) in
nonneg T /\ (1 - n * u) * exact_total es <= num_val T <= (1 + 2 * (n * u)) * exact_total es.
Proof.
induction es as [|e es IH] using rev_ind; intros H Hn; cbv zeta.
{ split; [by left|]. unfold exact_total. cbn. lra. }
apply Forall_app in H as [Hes He]. apply Forall_inv in He.
rewrite length_app, Nat2Z.inj_add, plus_IZR in Hn |- *. cbn [length] in *. change (IZR (Z.of_nat 1)) with 1 in *.
destruct (IH Hes ltac:(lra)) as [NT BT]. clear IH. rewrite fold_left_app. cbn [fold_left].
unfold exact_total in *. rewrite sumR_app. cbn [sumR]. rewrite Rplus_0_r.
set (T := fold_left _ es _) in *. set (n := IZR (Z.of_nat (length es))) in *.
destruct (exact_total_bounds es Hes) as [SB SZ]. unfold exact_total in SB, SZ. fold n in SB.
set (S := sumR _ es) in *. pose proof (entry_ok_bounds e He) as EB.
assert (0 <= n) as n0 by (apply IZR_le; lia).
pose proof u_small as [U0 U20]. pose proof u_tiny.
assert (n * u <= / 1048576) as Hnu by nra.
pose proof (bpow_pos 253).
assert (S <= bpow 273) as S273
  by (change 273%Z with (20 + 253)%Z; rewrite bpow_add; nra).
assert (bpow 253 <= bpow 273 /\ 8 * bpow 273 <= bpow 900) as [B1 B2].
{ split; [by apply bpow_le|]. replace (8 * bpow 273) with (bpow 276) by
    (change 276%Z with (273 + 1 + 1 + 1)%Z; rewrite !bpow_double; ring). by apply bpow_le. }
assert (2 * bpow (-202) = bpow (-201)) as E202 by (rewrite <- bpow_double; done).
assert (bpow (-1000) <= bpow (-202)) as E1000 by by apply bpow_le.
pose proof (bpow_pos (-202)).
assert (0 <= n * u) as nu0 by nra.
assert (num_val T + num_val e.2 <= 4 * bpow 273) as HT by nra.
assert (in_range (num_val T + num_val e.2)) as R.
{ destruct SZ as [SZ|SZ].
  - assert (num_val T = 0) as -> by (rewrite SZ in BT; lra). rewrite Rplus_0_l.
    destruct He as [_ [E|E]]; [by left|right]. lra.
  - right. split; [|lra]. nra. }
pose proof (num_add_spec T e.2 NT (proj1 He) R) as D. split; [apply D|].
destruct (within_bounds _ _ D) as [L U]; [nra|]. split.
- apply Rle_trans with ((1 - u) * ((1 - n * u) * S + num_val e.2)); [|nra].
  apply Rle_trans with ((1 - u) * ((1 - n * u) * (S + num_val e.2)));
    [|apply Rmult_le_compat_l; [lra|nra]].
  rewrite <- Rmult_assoc. apply Rmult_le_compat_r; [lra|nra].
- apply Rle_trans with ((1 + u) * ((1 + 2 * (n * u)) * S + num_val e.2)); [nra|].
  apply Rle_trans with ((1 + u) * ((1 + 2 * (n * u)) * (S + num_val e.2)));
    [apply Rmult_le_compat_l; [lra|nra]|].
  rewrite <- Rmult_assoc. apply Rmult_le_compat_r; [lra|].
  assert (u * (n * u) <= u * / 1048576) by (apply Rmult_le_compat_l; lra). lra.
Qed.

(** *** One share *)

Lemma raw_share_spec P T e :
(0 <= P < 2 ^ 31)%Z -> entry_ok e -> nonneg T -> bpow (-203) <= num_val T <= bpow 275 ->
exists r, raw_share P T e = Some r /\ raw_key r = e.1 /\ raw_score r = e.2 /\
  (0 <= raw_floor r)%Z /\
  let x := IZR P * num_val e.2 / num_val T in
  IZR (raw_floor r) <= (1 + u) * (1 + u) * x /\ (1 - u) * (1 - u) * x < IZR (raw_floor r) + 1.
Proof.
intros HP [Ns Hs] NT HT. destruct (num_of_Z_spec P ltac:(lia)) as [NP VP].
pose proof (bpow_pos (-203)). assert (0 < num_val T) as T0 by lra.
set (s := num_val e.2) in *. pose proof u_small as [U0 _]. pose proof u_tiny as U1.
pose proof (bpow_pos (-201)). pose proof (bpow_pos 253).
rewrite <- bpow_add in Hs. change (20 + 233)%Z with 253%Z in Hs.
assert (0 <= IZR P <= bpow 31) as HPR
  by (rewrite bpow_IZR by lia; split; apply IZR_le; lia).
set (q := IZR P * s).
assert (q = 0 \/ bpow (-201) <= q <= bpow 284) as Hq.
{ unfold q. destruct Hs as [->|Hs]; [left; ring|].
  destruct (Z.eq_dec P 0) as [->|]; [left; ring|right].
  assert (1 <= IZR P) by (apply IZR_le; lia).
  change 284%Z with (31 + 253)%Z. rewrite bpow_add. split; [nra|].
  apply Rmult_le_compat; lra. }
assert (within (num_mul (num_of_Z P) e.2) q) as Dq.
{ unfold q, s. rewrite <- VP. apply num_mul_spec; [done|done|]. rewrite VP. fold s. fold q.
  destruct Hq as [->|Hq]; [by left|right]. split.
  - apply Rle_trans with (bpow (-201)); [by apply bpow_le|lra].
  - apply Rle_trans with (bpow 284); [lra|by apply bpow_le]. }
destruct (within_bounds _ _ Dq) as [L U]; [lra|].
set (y := num_mul (num_of_Z P) e.2) in *. set (v := num_val y) in *.
assert (bpow (-203) * bpow 203 = 1 /\ bpow (-275) * bpow 275 = 1) as [I1 I2].
{ rewrite <- !bpow_add. split; reflexivity. }
assert (0 < / num_val T <= bpow 203 /\ bpow (-275) <= / num_val T) as [Ti1 Ti2].
{ assert (num_val T * / num_val T = 1) by (apply Rinv_r; lra).
  pose proof (Rinv_0_lt_compat _ T0). pose proof (bpow_pos 203). pose proof (bpow_pos (-275)).
  split; [split; [done|]|]; nra. }
assert (within (num_div y T) (v / num_val T)) as D.
{ apply num_div_spec; [apply Dq|done|done|]. fold v. destruct Hq as [Hq|Hq].
  - left. assert (v = 0) as -> by nra. unfold Rdiv. ring.
  - right. assert (bpow (-202) <= v <= bpow 285) as Hv.
    { pose proof (bpow_double (-202)) as E1. pose proof (bpow_double 284) as E2.
      change (-202 + 1)%Z with (-201)%Z in E1. change (284 + 1)%Z with 285%Z in E2. split; nra. }
    pose proof (bpow_pos (-202)). pose proof (bpow_pos (-275)). unfold Rdiv. split.
    + apply Rle_trans with (bpow (-202) * bpow (-275)); [rewrite <- bpow_add; by apply bpow_le|].
      apply Rmult_le_compat; lra.
    + apply Rle_trans with (bpow 285 * bpow 203); [|rewrite <- bpow_add; by apply bpow_le].
      apply Rmult_le_compat; lra. }
assert (0 <= v) as v0 by nra. assert (0 <= v / num_val T) by (unfold Rdiv; nra).
destruct (within_bounds _ _ D) as [L' U']; [done|].
destruct (num_floor_spec _ (proj1 D)) as (f & Ef & Hf & Lf & Uf).
unfold raw_share. fold y. rewrite Ef. eexists. split; [done|].
cbn [raw_key raw_score raw_floor]. split; [done|]. split; [done|]. split; [done|]. cbv zeta. fold q.
unfold Rdiv in *. split.
- apply Rle_trans with ((1 + u) * (v * / num_val T)); [lra|]. rewrite !Rmult_assoc.
  apply Rmult_le_compat_l; [lra|]. rewrite <- Rmult_assoc. apply Rmult_le_compat_r; lra.
- apply Rle_lt_trans with ((1 - u) * (v * / num_val T)); [|lra]. rewrite !Rmult_assoc.
  apply Rmult_le_compat_l; [lra|]. rewrite <- Rmult_assoc. apply Rmult_le_compat_r; lra.
Qed.

Definition share_of (P : Z) (T : number) (e : string * number) (r : RawShare) : Prop :=
raw_key r = e.1 /\ raw_score r = e.2 /\ (0 <= raw_floor r)%Z /\
let x := IZR P * num_val e.2 / num_val T in
IZR (raw_floor r) <= (1 + u) * (1 + u) * x /\ (1 - u) * (1 - u) * x < IZR (raw_floor r) + 1.

Lemma raw_shares_spec P T es :
(0 <= P < 2 ^ 31)%Z -> Forall entry_ok es -> nonneg T -> bpow (-203) <= num_val T <= bpow 275 ->
exists rs, raw_shares P T es = Some rs /\ Forall2 (share_of P T) es rs.
Proof.
intros HP Hes NT HT. induction Hes as [|e es He _ (rs & Ers & HF)].
- exists []. by split.
- destruct (raw_share_spec P T e HP He NT HT) as (r & Er & Hr).
  exists (r :: rs). cbn. rewrite Er, Ers. split; [done|]. by constructor.
Qed.

Lemma shares_sum P T es rs :
Forall2 (share_of P T) es rs ->
let X := IZR P * exact_total es / num_val T in
IZR (sumZ raw_floor rs) <= (1 + u) * (1 + u) * X /\
(1 - u) * (1 - u) * X <= IZR (sumZ raw_floor rs) + IZR (Z.of_nat (length rs)).
Proof.
unfold exact_total. induction 1 as [|e r es rs (_ & _ & _ & H1 & H2) _ IH]; cbv zeta in *.
- cbn [sumR sumZ length]. change (IZR (Z.of_nat 0)) with 0.
  replace (IZR P * 0 / num_val T) with 0 by (unfold Rdiv; ring). lra.
- cbn [sumZ sumR length]. rewrite Nat2Z.inj_succ, plus_IZR, succ_IZR.
  unfold Rdiv in *. rewrite (Rmult_plus_distr_l (IZR P)), (Rmult_plus_distr_r (IZR P * _)).
  lra.
Qed.

(** The floors leave at most one cent per recipient to give. *)
Lemma leftover_bounds P T es rs :
(0 <= P < 2 ^ 31)%Z -> IZR (Z.of_nat (length es)) <= bpow 20 ->
0 < exact_total es ->
(1 - IZR (Z.of_nat (length es)) * u) * exact_total es <= num_val T
  <= (1 + 2 * (IZR (Z.of_nat (length es)) * u)) * exact_total es ->
Forall2 (share_of P T) es rs ->
(0 <= P - sumZ raw_floor rs <= Z.of_nat (length rs))%Z.
Proof.
intros HP Hn HS HT HF. destruct (shares_sum P T es rs HF) as [HU HL].
rewrite <- (Forall2_length _ _ _ HF) in *.
set (n := IZR (Z.of_nat (length es))) in *. set (S := exact_total es) in *.
pose proof u_small as [U0 _]. pose proof u_tiny as U1.
assert (0 <= n) by (apply IZR_le; lia). assert (0 <= n * u) by nra.
assert (n * u <= bpow (-33)) as Hnu.
{ apply Rle_trans with (bpow 20 * u); [apply Rmult_le_compat_r; lra|].
  unfold u. rewrite <- bpow_add. apply bpow_le. lia. }
assert (u <= bpow (-33)) as Hu by by apply bpow_le.
assert (bpow 31 * bpow (-33) = / 4) as E33.
{ rewrite <- bpow_add. change (bpow (31 + -33)) with (/ (2 * (2 * 1))). field. }
set (d := bpow (-33)) in *. assert (0 < d) by apply bpow_pos.
assert (d <= / 1048576) as Hd.
{ apply Rle_trans with (bpow (-20)); [by apply bpow_le|]. change (bpow (-20)) with (/ (2 ^ 20)). lra. }
assert (0 <= IZR P) by (apply IZR_le; lia).
assert (IZR P < bpow 31) by (rewrite bpow_IZR by lia; apply IZR_lt; lia).
assert (IZR P * d < / 4) as HPd by nra.
assert (0 < num_val T) as T0 by nra.
set (ratio := S / num_val T). assert (ratio * num_val T = S) as Er by (unfold ratio; field; lra).
assert (IZR P * S / num_val T = IZR P * ratio) as EX by (unfold ratio, Rdiv; ring).
rewrite EX in HU, HL.
assert (0 < ratio) by (unfold ratio; apply Rdiv_lt_0_compat; lra).
assert (ratio <= 1 + 5 / 4 * d) as R1.
{ assert (ratio * ((1 - n * u) * S) <= S) by nra.
  assert (ratio * (1 - n * u) <= 1) by nra. nra. }
assert (1 - 2 * d <= ratio) as R2.
{ assert (S <= ratio * ((1 + 2 * (n * u)) * S)) by nra.
  assert (1 <= ratio * (1 + 2 * (n * u))) by nra. nra. }
split.
- assert (sumZ raw_floor rs < P + 1)%Z; [|lia]. apply lt_IZR. rewrite plus_IZR.
  apply Rle_lt_trans with (IZR P * (1 + 15 / 4 * d)); [|nra].
  apply Rle_trans with ((1 + u) * (1 + u) * (IZR P * ratio)); [done|].
  assert ((1 + u) * (1 + u) <= 1 + 9 / 4 * d) as A by nra.
  assert ((1 + u) * (1 + u) * ratio <= (1 + 9 / 4 * d) * (1 + 5 / 4 * d))
    by (apply Rmult_le_compat; nra).
  assert ((1 + u) * (1 + u) * ratio <= 1 + 15 / 4 * d) by nra. nra.
- assert (P < sumZ raw_floor rs + Z.of_nat (length es) + 1)%Z; [|lia].
  apply lt_IZR. rewrite !plus_IZR. fold n.
  apply Rlt_le_trans with ((1 - u) * (1 - u) * (IZR P * ratio) + 1); [|lra].
  assert (1 - 2 * d <= (1 - u) * (1 - u)) as A by nra.
  assert ((1 - 2 * d) * (1 - 2 * d) <= (1 - u) * (1 - u) * ratio)
    by (apply Rmult_le_compat; lra).
  assert (1 - 4 * d <= (1 - u) * (1 - u) * ratio) by nra. nra.
Qed.
End rounding.

(* ------------------------------------------------------------------ *)
(** ** Giving the leftover cents *)

(** The same entry, at most one cent higher. *)
Definition bumped (r r' : RawShare) : Prop :=
  raw_key r' = raw_key r /\ raw_score r' = raw_score r /\
  (raw_floor r' = raw_floor r \/ raw_floor r' = raw_floor r + 1).

Lemma upd_none {R} (p : R -> bool) f l : (forall x, In x l -> p x = false) -> upd_where p f l = l.
Proof. intros H. apply upd_where_id. intros x Hx E. rewrite H in E by done. done. Qed.

Lemma keys_bump k raw :
  map raw_key (upd_where (fun r => raw_key r ==? k) (fun r => r <| raw_floor ::= Z.succ |>) raw)
  = map raw_key raw.
Proof.
  unfold upd_where. rewrite map_map. apply map_ext. intros r. by destruct (raw_key r ==? k).
Qed.

Lemma sum_bump k raw :
  NoDup (map raw_key raw) -> In k (map raw_key raw) ->
  sumZ raw_floor (upd_where (fun r => raw_key r ==? k) (fun r => r <| raw_floor ::= Z.succ |>) raw)
  = sumZ raw_floor raw + 1.
Proof.
  induction raw as [|r raw IH]; cbn [map]; intros HN HI; [done|].
  apply NoDup_cons in HN as [Hn HN]. unfold upd_where in *. cbn [map sumZ].
  destruct (bool_decide (raw_key r = k)) eqn:E.
  - apply bool_decide_eq_true in E. subst k.
    fold (upd_where (fun r0 => raw_key r0 ==? raw_key r) (fun r => r <| raw_floor ::= Z.succ |>) raw).
    rewrite upd_none; [cbn; lia|]. intros x Hx. apply bool_decide_eq_false_2. intros Ex.
    apply Hn. rewrite list_elem_of_In, <- Ex. by apply in_map.
  - apply bool_decide_eq_false in E. rewrite IH; [lia|done|]. destruct HI; [done|done].
Qed.

Lemma bump_bumped order leftover raw raw0 :
  NoDup order -> Forall2 bumped raw0 raw ->
  (forall r0 r, (r0, r) ∈ zip raw0 raw -> In (raw_key r0) order -> raw_floor r = raw_floor r0) ->
  Forall2 bumped raw0 (give_leftover order leftover raw).
Proof.
  revert leftover raw. induction order as [|k order IH]; intros L raw HN HF Hf; cbn [give_leftover]; [done|].
  destruct (L <=? 0); [done|]. apply NoDup_cons in HN as [Hk HN]. apply IH; [done| |].
  - clear IH HN Hk. induction HF as [|r0 r raw0 raw (B1 & B2 & B3) HF IHF]; [constructor|].
    unfold upd_where in *. cbn [map]. constructor.
    + destruct (bool_decide (raw_key r = k)) eqn:E; [|done].
      apply bool_decide_eq_true in E. repeat split; cbn; [done|done|].
      rewrite (Hf r0 r); [right; lia|cbn; apply list_elem_of_here|cbn; left; congruence].
    + apply IHF. intros x y Hxy. apply Hf. cbn. by apply list_elem_of_further.
  - clear IH HN. induction HF as [|r0 r raw0 raw (B1 & B2 & B3) HF IHF]; [intros ? ? H; by apply elem_of_nil in H|].
    unfold upd_where in *. cbn [map zip]. intros x y Hxy Hin. apply elem_of_cons in Hxy as [E|Hxy].
    + injection E as -> ->. destruct (bool_decide (raw_key r = k)) eqn:E.
      * apply bool_decide_eq_true in E. exfalso. apply Hk. rewrite list_elem_of_In. congruence.
      * apply Hf; [cbn; apply list_elem_of_here|by right].
    + apply IHF; [|done|done]. intros a b Hab. apply Hf. cbn. by apply list_elem_of_further.
Qed.

Lemma give_leftover_sum order leftover raw :
  NoDup order -> NoDup (map raw_key raw) -> (forall k, In k order -> In k (map raw_key raw)) ->
  0 <= leftover <= Z.of_nat (length order) ->
  sumZ raw_floor (give_leftover order leftover raw) = sumZ raw_floor raw + leftover.
Proof.
  revert leftover raw. induction order as [|k order IH]; intros L raw HO HN Hin HL; cbn [give_leftover length] in *.
  - lia.
  - apply NoDup_cons in HO as [_ HO]. destruct (Z.leb_spec L 0); [lia|].
    rewrite IH, sum_bump; [lia|done|apply Hin; by left|done| | |lia].
    + by rewrite keys_bump.
    + intros k' Hk'. rewrite keys_bump. apply Hin. by right.
Qed.

(* ------------------------------------------------------------------ *)
(** ** The scores of a list of shifts *)

(** What the loop keeps: one score per key, in the range of [score_ok], and an
    identity for each key. *)
Definition scores_inv (k : nat) (st : Scores) : Prop :=
  NoDup (map fst (scoreByKey st)) /\
  map fst (identityByKey st) = map fst (scoreByKey st) /\
  (length (scoreByKey st) <= k)%nat /\
  Forall (fun e => score_ok (IZR (Z.of_nat k)) e.2) (scoreByKey st).

Lemma map_set_length {V} (m : list (string * V)) k v :
  (length (map_set m k v) <= S (length m))%nat.
Proof. induction m as [|[k' v'] m IH]; cbn; [lia|]. destruct (k' ==? k); cbn; lia. Qed.

Lemma map_set_keys_eq {V V'} (m : list (string * V)) (m' : list (string * V')) k v v' :
  map fst m = map fst m' -> map fst (map_set m k v) = map fst (map_set m' k v').
Proof.
  revert m'. induction m as [|[a b] m IH]; intros [|[a' b'] m'] E; cbn in *; try done.
  injection E as -> E. destruct (a' ==? k); cbn; [by rewrite E|]. f_equal. auto.
Qed.

Lemma map_set_Forall {V} (P : string * V -> Prop) m k v :
  Forall P m -> (forall k', P (k', v)) -> Forall P (map_set m k v).
Proof.
  intros H Hv. induction H as [|[k' v'] m Hx Hm IH]; cbn; [by constructor|].
  destruct (k' ==? k); by constructor.
Qed.

Lemma map_get_In {V} (m : list (string * V)) k v : map_get m k = Some v -> In (k, v) m.
Proof.
  induction m as [|[k' v'] m IH]; cbn; [done|]. destruct (bool_decide (k' = k)) eqn:E; [|auto].
  apply bool_decide_eq_true in E as ->. intros [= ->]. by left.
Qed.

Lemma map_get_Some_keys {V} (m : list (string * V)) k : In k (map fst m) -> exists v, map_get m k = Some v.
Proof.
  induction m as [|[k' v'] m IH]; cbn; [done|]. destruct (bool_decide (k' = k)) eqn:E; [eauto|].
  apply bool_decide_eq_false in E. intros [?|?]; [done|auto].
Qed.

Section scores.
Local Open Scope R_scope.

Lemma score_ok_mono k k' s : k <= k' -> score_ok k s -> score_ok k' s.
Proof.
intros Hk [Ns Hs]. split; [done|]. destruct Hs as [Hs|Hs]; [by left|right].
pose proof (bpow_pos 233). nra.
Qed.

Definition weights_ok (policy : AllocationPolicyInput) : Prop :=
Forall (fun e => weight_ok e.2) (pi_roleWeights policy).

Lemma add_shift_inv policy k st shift :
weights_ok policy -> (si_workedMinutes shift < 2 ^ 31)%Z -> IZR (Z.of_nat k) <= bpow 20 ->
scores_inv k st -> scores_inv (S k) (add_shift policy st shift).
Proof.
intros HW Hm Hk (H1 & H2 & H3 & H4).
assert (Hup : forall st', scoreByKey st' = scoreByKey st -> identityByKey st' = identityByKey st ->
  scores_inv (S k) st').
{ intros st' E1 E2. unfold scores_inv. rewrite E1, E2. repeat split; [done|done|lia|].
  eapply Forall_impl; [exact H4|]. intros e. apply score_ok_mono. apply IZR_le. lia. }
unfold add_shift. destruct (negb _); [by apply Hup|]. destruct (includes _ _); [by apply Hup|].
set (st1 := match si_workerId shift with Some _ => st | None => _ end).
assert (scoreByKey st1 = scoreByKey st /\ identityByKey st1 = identityByKey st) as [S1 S2]
  by (unfold st1; by destruct (si_workerId shift)).
destruct (Z.leb_spec (si_workedMinutes shift) 0); [by apply Hup|].
destruct (map_get (pi_roleWeights policy) (si_role shift)) as [w|] eqn:Ew; [|by apply Hup].
apply map_get_In in Ew. unfold weights_ok in HW. rewrite List.Forall_forall in HW. specialize (HW _ Ew).
destruct (score_mul_ok (si_workedMinutes shift) w ltac:(lia) HW) as [Nt Ht].
cbv zeta. unfold scores_inv. cbn [scoreByKey identityByKey set]. unfold set; cbn. rewrite S1, S2.
split; [by apply map_set_NoDup|]. split; [by apply map_set_keys_eq|].
split; [eapply Nat.le_trans; [apply map_set_length|lia]|].
assert (0 <= IZR (Z.of_nat k)) by (apply IZR_le; lia).
apply map_set_Forall.
- eapply Forall_impl; [exact H4|]. intros e. apply score_ok_mono. apply IZR_le. lia.
- intros k'. cbn [snd]. rewrite Nat2Z.inj_succ, succ_IZR. apply score_add_ok; [lra| |done|done].
  destruct (map_get (scoreByKey st) (shift_key shift)) as [s|] eqn:Es; cbn [nullish].
  + apply map_get_In in Es. rewrite List.Forall_forall in H4. by apply (H4 _ Es).
  + split; [by left|by left].
Qed.

Lemma add_shifts_inv policy shifts k st :
weights_ok policy -> Forall (fun s => (si_workedMinutes s < 2 ^ 31)%Z) shifts ->
IZR (Z.of_nat (k + length shifts)) <= bpow 20 ->
scores_inv k st -> scores_inv (k + length shifts) (fold_left (add_shift policy) shifts st).
Proof.
intros HW Hm. revert k st. induction Hm as [|s shifts Hs _ IH]; intros k st Hk HI; cbn [fold_left length].
- by rewrite Nat.add_0_r.
- cbn [length] in Hk. rewrite Nat.add_succ_r, <- Nat.add_succ_l in Hk |- *. apply IH; [done|].
  apply add_shift_inv; [done|done| |done]. eapply Rle_trans; [|exact Hk]. apply IZR_le. lia.
Qed.
End scores.

(* ------------------------------------------------------------------ *)
(** ** The split *)

Lemma share_of_keys P T es rs : Forall2 (share_of P T) es rs -> map raw_key rs = map fst es.
Proof. induction 1 as [|e r es rs (Hk & _) _ IH]; cbn; [done|]. by rewrite Hk, IH. Qed.

Lemma bumped_keys rs rs' : Forall2 bumped rs rs' -> map raw_key rs' = map raw_key rs.
Proof. induction 1 as [|r r' rs rs' (Hk & _) _ IH]; cbn; [done|]. by rewrite Hk, IH. Qed.

(** A share is within a cent (and the rounding error) of the exact
    proportional amount. *)
Definition fair_share (P : Z) (T : number) (a : WorkerAllocationResult) : Prop :=
  0 <= ar_pooledTipUsdCents a /\ ar_netAllocatedUsdCents a = ar_pooledTipUsdCents a /\
  (let x := IZR P * num_val (ar_score a) / num_val T in
   (1 - u) * (1 - u) * x - 1 < IZR (ar_pooledTipUsdCents a) <= (1 + u) * (1 + u) * x + 1)%R.

Lemma bumped_fair `{Platform} P T es rs rs' ids :
  Forall2 (share_of P T) es rs -> Forall2 bumped rs rs' ->
  Forall (fair_share P T) (map (to_allocation ids) rs').
Proof.
  intros HS HB. revert rs' HB. induction HS as [|e r es rs (Hk & Hsc & H0 & H1 & H2) _ IH]; intros rs' HB.
  - inversion HB. constructor.
  - apply Forall2_cons_inv_l in HB as (r' & rs2 & (B1 & B2 & B3) & HB & ->). cbn [map].
    constructor; [|by apply IH]. unfold fair_share, to_allocation.
    cbn [ar_pooledTipUsdCents ar_netAllocatedUsdCents ar_score]. rewrite B2, Hsc.
    destruct B3 as [->| ->]; rewrite ?plus_IZR; (split; [lia|]); (split; [done|]); cbv zeta in *; lra.
Qed.

(** The floors of entries with a positive total, and what they leave to give. *)
Lemma raw_split P scores es :
  0 <= P < 2 ^ 31 -> Forall entry_ok scores -> (IZR (Z.of_nat (length scores)) <= bpow 20)%R -> es ≡ₚ scores ->
  let T := fold_left (fun a e => num_add a e.2) scores (num_of_Z 0) in
  num_eqb T (num_of_Z 0) = false ->
  exists rs, raw_shares P T es = Some rs /\ Forall2 (share_of P T) es rs /\
    0 <= P - sumZ raw_floor rs <= Z.of_nat (length rs).
Proof.
  intros HP HE Hn Pes T HT.
  destruct (total_score_spec scores HE Hn) as [NT BT]. fold T in NT, BT.
  destruct (exact_total_bounds scores HE) as [SB SZ].
  assert (exact_total es = exact_total scores) as ES by (by apply sumR_Permutation).
  assert (length es = length scores) as EL by (by apply Permutation_length).
  assert (Forall entry_ok es) as HE' by (rewrite Pes; done).
  pose proof u_small as [U0 _]. pose proof u_tiny as U1.
  assert (0 <= IZR (Z.of_nat (length scores)) * u <= / 1048576)%R as Hnu.
  { pose proof u_small. assert (0 <= IZR (Z.of_nat (length scores)))%R by (apply IZR_le; lia).
    split; nra. }
  set (n := IZR (Z.of_nat (length scores))) in *. set (S := exact_total scores) in *.
  assert (0 < S)%R as S0.
  { destruct SZ as [SZ|SZ]; [|pose proof (bpow_pos (-201)); lra]. exfalso.
    assert (num_val T = 0%R) as E0 by (rewrite SZ in BT; lra).
    apply (num_eqb_zero T NT) in E0. change (num_of_Z 0) with (S754_zero false) in HT. congruence. }
  assert (bpow (-203) <= num_val T <= bpow 275)%R as RT.
  { assert (bpow (-201) <= S)%R as HS by (destruct SZ; lra).
    pose proof (bpow_double (-202)) as E1. pose proof (bpow_double (-203)) as E2.
    change (-202 + 1)%Z with (-201)%Z in E1. change (-203 + 1)%Z with (-202)%Z in E2.
    assert (S <= bpow 273)%R.
    { eapply Rle_trans; [apply SB|]. change 273 with (20 + 253). rewrite bpow_add.
      apply Rmult_le_compat_r; [pose proof (bpow_pos 253); lra|done]. }
    pose proof (bpow_double 273) as E3. pose proof (bpow_double 274) as E4.
    change (273 + 1)%Z with 274%Z in E3. change (274 + 1)%Z with 275%Z in E4. split; nra. }
  destruct (raw_shares_spec P T es HP HE' NT RT) as (rs & Ers & HF). exists rs. split_and!; [done|done| |];
    apply (leftover_bounds P T es rs HP); rewrite ?EL, ?ES; done.
Qed.

Lemma split_pool_exact `{Platform} P scores ids :
  0 <= P < 2 ^ 31 -> NoDup (map fst scores) -> Forall entry_ok scores ->
  (IZR (Z.of_nat (length scores)) <= bpow 20)%R ->
  let T := fold_left (fun a e => num_add a e.2) scores (num_of_Z 0) in
  num_eqb T (num_of_Z 0) = false ->
  exists allocs, split_pool P T scores ids = Ok allocs /\
    sumZ ar_pooledTipUsdCents allocs = P /\ Forall (fair_share P T) allocs.
Proof.
  intros HP HN HE Hn T HT.
  set (es := stable_sort (fun a b => localeLt a.1 b.1) scores).
  assert (es ≡ₚ scores) as Pes by apply stable_sort_Permutation.
  assert (NoDup (map fst es)) as HN' by (rewrite (Permutation_map fst Pes); done).
  destruct (raw_split P scores es HP HE Hn Pes HT) as (rs & Ers & HF & HL). fold T in Ers, HF.
  set (order := map raw_key (stable_sort by_remainder_lt rs)).
  assert (order ≡ₚ map raw_key rs) as Ho by (apply Permutation_map, stable_sort_Permutation).
  pose proof (share_of_keys _ _ _ _ HF) as Hk.
  assert (NoDup order) as HNo by (rewrite Ho, Hk; done).
  assert (NoDup (map raw_key rs)) as HNr by (rewrite Hk; done).
  set (rs' := give_leftover order (P - sumZ raw_floor rs) rs).
  assert (sumZ raw_floor rs' = P) as Hsum.
  { unfold rs'. rewrite give_leftover_sum; [lia|done|done| |].
    - intros k. rewrite Ho. done.
    - rewrite (Permutation_length Ho), length_map. done. }
  assert (Forall2 bumped rs rs') as HB.
  { apply bump_bumped; [done| |].
    - clear. induction rs as [|r rs IH]; constructor; [|done]. split; [done|]. by split; [|left].
    - intros r0 r Hin _. clear -Hin. induction rs as [|r1 rs IH]; cbn in Hin; [by apply elem_of_nil in Hin|].
      apply elem_of_cons in Hin as [E|Hin]; [by injection E as -> ->|auto]. }
  exists (map (to_allocation ids) rs').
  assert (sumZ ar_pooledTipUsdCents (map (to_allocation ids) rs') = P) as Htot
    by (rewrite sumZ_map; exact Hsum).
  unfold split_pool. fold es. rewrite Ers. cbv zeta. fold order rs'. rewrite Htot, Z.eqb_refl.
  split; [done|]. split; [done|]. by apply (bumped_fair P T es rs).
Qed.

(* ------------------------------------------------------------------ *)
(** ** The pool and the issues *)

(** The tips that enter the pool. *)
Definition pooled_tip (policy : AllocationPolicyInput) (tip : AllocationTipInput) : bool :=
  included policy tip && (ti_refundStatus tip !=? Some RefundStatus.FULL)
  && (ti_paymentStatus tip !=? Some PaymentStatus.CANCELED).

Lemma pool_fold policy tips p issues :
  (fold_left (add_tip policy) tips (p, issues)).1
  = p + sumZ ti_grossAmountUsdCents (List.filter (pooled_tip policy) tips) /\
  (Forall (fun i => is_blocking i = false) issues ->
   Forall (fun i => is_blocking i = false) (fold_left (add_tip policy) tips (p, issues)).2).
Proof.
  revert p issues. induction tips as [|tip tips IH]; intros p issues; cbn [fold_left List.filter].
  { split; [cbn; lia|done]. }
  unfold add_tip at 2 4, pooled_tip at 1.
  destruct (included policy tip); cbn [negb andb]; [|apply IH].
  destruct (ti_refundStatus tip ==? _); cbn [negb andb].
  { destruct (IH p (issues ++ [mkIssue REFUNDED_PAYMENT_EXCLUDED false (excluded_detail tip)])) as [I1 I2].
    split; [exact I1|]. intros H. apply I2, Forall_app. split; [done|by constructor]. }
  destruct (ti_paymentStatus tip ==? _); cbn [negb andb].
  { destruct (IH p (issues ++ [mkIssue CANCELED_PAYMENT_EXCLUDED false (excluded_detail tip)])) as [I1 I2].
    split; [exact I1|]. intros H. apply I2, Forall_app. split; [done|by constructor]. }
  destruct (IH (p + ti_grossAmountUsdCents tip) issues) as [I1 I2]. split; [|exact I2].
  rewrite I1. cbn. lia.
Qed.

(** A shift the engine cannot score: eligible by status and role, with no
    minutes or a role without a weight. *)
Definition unscorable (policy : AllocationPolicyInput) (s : AllocationShiftInput) : bool :=
  eligible_status (si_shiftStatus s) && negb (includes (pi_excludedRoles policy) (si_role s))
  && ((si_workedMinutes s <=? 0)
      || match map_get (pi_roleWeights policy) (si_role s) with None => true | Some _ => false end).

Lemma add_shift_blocking policy st s :
  existsb is_blocking (sc_issues (add_shift policy st s))
  = existsb is_blocking (sc_issues st) || unscorable policy s.
Proof.
  unfold add_shift, unscorable. destruct (eligible_status _); cbn [negb andb]; [|by rewrite orb_false_r].
  destruct (includes _ _); cbn [negb andb]; [by rewrite orb_false_r|].
  set (st1 := match si_workerId s with Some _ => st | None => _ end).
  assert (existsb is_blocking (sc_issues st1) = existsb is_blocking (sc_issues st)) as E.
  { unfold st1. destruct (si_workerId s); [done|]. unfold push_issue, set; cbn.
    rewrite existsb_app. cbn. by rewrite orb_false_r. }
  rewrite <- E. destruct (si_workedMinutes s <=? 0); cbn [orb].
  { unfold push_issue, set; cbn. rewrite existsb_app. cbn. done. }
  destruct (map_get _ _); unfold push_issue, set; cbn; [by rewrite orb_false_r|].
  by rewrite existsb_app.
Qed.

Lemma add_shifts_blocking policy shifts st :
  existsb is_blocking (sc_issues (fold_left (add_shift policy) shifts st))
  = existsb is_blocking (sc_issues st) || existsb (unscorable policy) shifts.
Proof.
  revert st. induction shifts as [|s shifts IH]; intros st; cbn [fold_left existsb].
  - by rewrite orb_false_r.
  - by rewrite IH, add_shift_blocking, orb_assoc.
Qed.

Lemma existsb_nonblocking l :
  Forall (fun i => is_blocking i = false) l -> existsb is_blocking l = false.
Proof. induction 1 as [|i l Hi _ IH]; cbn; [done|]. by rewrite Hi. Qed.

Lemma gross_filter policy tips :
  Forall (fun t => 0 <= ti_grossAmountUsdCents t) tips ->
  0 <= sumZ ti_grossAmountUsdCents (List.filter (pooled_tip policy) tips)
    <= sumZ ti_grossAmountUsdCents tips.
Proof.
  induction 1 as [|t tips Ht _ IH]; cbn; [lia|]. destruct (pooled_tip policy t); cbn; lia.
Qed.

(** The inputs of a batch: non-negative gross amounts adding up to less than
    2^31 cents, shifts shorter than 2^31 minutes and at most 2^20 of them, and
    weights of sane magnitude. *)
Definition batch_input_ok (tips : list AllocationTipInput) (shifts : list AllocationShiftInput)
    (policy : AllocationPolicyInput) : Prop :=
  Forall (fun t => 0 <= ti_grossAmountUsdCents t) tips /\
  sumZ ti_grossAmountUsdCents tips < 2 ^ 31 /\
  Forall (fun s => si_workedMinutes s < 2 ^ 31) shifts /\
  Z.of_nat (length shifts) <= 2 ^ 20 /\ weights_ok policy.

Section theorems.
Context `{Platform}.

(** C1: on every batch input in range the engine returns (its own invariant
    check never throws), the shares add up to the pool to the cent whenever
    some score is positive, and every share is a non-negative amount within
    a cent of the exact proportional one.  Without a positive score there is
    no share at all. *)
Theorem alloc_exact tips shifts policy :
  batch_input_ok tips shifts policy ->
  exists r, computeAllocationBatch tips shifts policy = Ok r /\
    (if num_eqb (br_totalScore r) (num_of_Z 0) then br_allocations r = []
     else sumZ ar_pooledTipUsdCents (br_allocations r) = br_poolUsdCents r) /\
    Forall (fair_share (br_poolUsdCents r) (br_totalScore r)) (br_allocations r).
Proof.
  intros (HG & HP & HM & HL & HW). unfold computeAllocationBatch.
  destruct (pool_fold policy tips 0 []) as [Ep _].
  pose proof (gross_filter policy tips HG) as Hpool.
  destruct (fold_left (add_tip policy) tips (0, [])) as [pool issues]. cbn [fst] in Ep.
  set (st := fold_left (add_shift policy) shifts _).
  assert (IZR (Z.of_nat (length shifts)) <= bpow 20)%R as HL'
    by (rewrite bpow_IZR by lia; apply IZR_le; lia).
  assert (scores_inv (0 + length shifts) st) as (I1 & _ & I3 & I4).
  { apply add_shifts_inv; [done|done|done|]. repeat split; [constructor|done|constructor]. }
  cbv zeta. set (T := fold_left _ (scoreByKey st) _).
  destruct (num_eqb T (num_of_Z 0)) eqn:ET.
  { eexists. split; [done|]. cbn [br_totalScore br_allocations]. rewrite ET. by split. }
  destruct (split_pool_exact pool (scoreByKey st) (identityByKey st)) as (allocs & Ea & Hs & Hf).
  - lia.
  - done.
  - eapply Forall_impl; [exact I4|]. intros e. apply score_ok_mono. done.
  - eapply Rle_trans; [|exact HL']. apply IZR_le. lia.
  - exact ET.
  - fold T in Ea, Hf. rewrite Ea. cbn [rbind]. eexists. split; [done|].
    cbn [br_totalScore br_allocations br_poolUsdCents]. rewrite ET. by split.
Qed.

(** The pool is the sum of the gross amounts of the included tips that
    are neither fully refunded nor canceled, and the result carries a
    blocking issue (which sends the batch to review) exactly when an eligible
    shift has no minutes or an unweighted role, or when there is money and no
    score to split it by. *)
Theorem alloc_pool_and_blocking tips shifts policy r :
  computeAllocationBatch tips shifts policy = Ok r ->
  br_poolUsdCents r = sumZ ti_grossAmountUsdCents (List.filter (pooled_tip policy) tips) /\
  existsb is_blocking (br_issues r)
  = existsb (unscorable policy) shifts
    || (num_eqb (br_totalScore r) (num_of_Z 0) && (0 <? br_poolUsdCents r)).
Proof.
  unfold computeAllocationBatch. destruct (pool_fold policy tips 0 []) as [Ep Hi].
  specialize (Hi ltac:(constructor)). destruct (fold_left (add_tip policy) tips (0, [])) as [pool issues].
  cbn [fst snd] in *. set (st := fold_left (add_shift policy) shifts _). cbv zeta.
  assert (existsb is_blocking (sc_issues st) = existsb (unscorable policy) shifts) as EB.
  { unfold st. rewrite add_shifts_blocking. cbn [sc_issues]. by rewrite existsb_nonblocking. }
  set (issues2 := if pool =? 0 then _ else _).
  assert (existsb is_blocking issues2 = existsb (unscorable policy) shifts) as EI.
  { unfold issues2. destruct (pool =? 0); [|done]. rewrite existsb_app. cbn. by rewrite orb_false_r. }
  set (T := fold_left _ (scoreByKey st) _). destruct (num_eqb T (num_of_Z 0)) eqn:ET.
  - intros [= <-]. cbn [br_poolUsdCents br_issues br_totalScore]. rewrite ET. split; [lia|].
    rewrite existsb_app, EI. cbn. by rewrite orb_false_r.
  - destruct (split_pool _ _ _ _) as [allocs|e]; cbn [rbind]; [|done].
    intros [= <-]. cbn [br_poolUsdCents br_issues br_totalScore]. rewrite ET. split; [lia|].
    by rewrite EI, orb_false_r.
Qed.
End theorems.

Lemma alloc_exact_witness :
  let tips := [mkTipInput TipType.CARD_TIP 1000 (Some PaymentStatus.COMPLETED) None] in
  let shifts := [mkShiftInput (Some "w1") "e1" "csv" "server" 300 ShiftStatus.COMPLETED;
                 mkShiftInput None "e2" "csv" "server" 300 ShiftStatus.APPROVED;
                 mkShiftInput (Some "w3") "e3" "csv" "server" 300 ShiftStatus.COMPLETED] in
  let policy := mkPolicyInput [("server", num_of_Z 1)] [] [("CARD_TIP", true)] in
  exists r, computeAllocationBatch tips shifts policy = Ok r /\
    (if num_eqb (br_totalScore r) (num_of_Z 0) then br_allocations r = []
     else sumZ ar_pooledTipUsdCents (br_allocations r) = br_poolUsdCents r).
Proof.
  cbv zeta. destruct (alloc_exact
    [mkTipInput TipType.CARD_TIP 1000 (Some PaymentStatus.COMPLETED) None]
    [mkShiftInput (Some "w1") "e1" "csv" "server" 300 ShiftStatus.COMPLETED;
     mkShiftInput None "e2" "csv" "server" 300 ShiftStatus.APPROVED;
     mkShiftInput (Some "w3") "e3" "csv" "server" 300 ShiftStatus.COMPLETED]
    (mkPolicyInput [("server", num_of_Z 1)] [] [("CARD_TIP", true)])) as (r & E & S & _).
  - split; [repeat constructor; cbn; lia|]. split; [cbn; lia|].
    split; [repeat constructor; cbn; lia|]. split; [cbn; lia|].
    constructor; [|constructor]. destruct (num_of_Z_spec 1) as [N V]; [lia|].
    split; [exact N|]. right. cbn [snd]. rewrite V.
    split; [change 1%R with (bpow 0)|change 1%R with (bpow 0)]; apply bpow_le; lia.
  - exists r. by split.
Defined.

Lemma alloc_pool_and_blocking_witness :
  exists r, computeAllocationBatch
    [mkTipInput TipType.CARD_TIP 1000 None (Some RefundStatus.FULL);
     mkTipInput TipType.CASH_TIP 500 None None] [] (mkPolicyInput [] [] [("CARD_TIP", true); ("CASH_TIP", true)])
    = Ok r /\ br_poolUsdCents r = 500 /\ existsb is_blocking (br_issues r) = true.
Proof.
  eexists. split; [vm_compute; reflexivity|].
  match goal with |- br_poolUsdCents ?r = _ /\ _ =>
    destruct (alloc_pool_and_blocking
      [mkTipInput TipType.CARD_TIP 1000 None (Some RefundStatus.FULL);
       mkTipInput TipType.CASH_TIP 500 None None] [] (mkPolicyInput [] [] [("CARD_TIP", true); ("CASH_TIP", true)])
      r ltac:(vm_compute; reflexivity)) as [E1 E2] end.
  split; [exact E1|]. rewrite E2. vm_compute. reflexivity.
Defined.

(* ------------------------------------------------------------------ *)
(** ** Recipients *)

Definition scorable (policy : AllocationPolicyInput) (s : AllocationShiftInput) : bool :=
  eligible_status (si_shiftStatus s) && negb (includes (pi_excludedRoles policy) (si_role s))
  && (0 <? si_workedMinutes s)
  && match map_get (pi_roleWeights policy) (si_role s) with None => false | Some _ => true end.

(** Every key comes from a scored shift and carries the identity of one. *)
Definition recipients_inv (policy : AllocationPolicyInput) (done_ : list AllocationShiftInput)
    (st : Scores) : Prop :=
  NoDup (map fst (scoreByKey st)) /\
  map fst (identityByKey st) = map fst (scoreByKey st) /\
  (forall s, In s done_ -> scorable policy s = true -> In (shift_key s) (map fst (scoreByKey st))) /\
  (forall k i, In (k, i) (identityByKey st) ->
     exists s, In s done_ /\ scorable policy s = true /\ shift_key s = k /\ shift_identity s = i).

Lemma in_map_set {V} (m : list (string * V)) k v k' v' :
  In (k', v') (map_set m k v) -> (k' = k /\ v' = v) \/ In (k', v') m.
Proof.
  induction m as [|[a b] m IH]; cbn; [naive_solver|].
  destruct (bool_decide (a = k)) eqn:E; cbn; [apply bool_decide_eq_true in E|]; naive_solver.
Qed.

Lemma add_shift_recipients policy done_ st s :
  recipients_inv policy done_ st -> recipients_inv policy (done_ ++ [s]) (add_shift policy st s).
Proof.
  intros (H1 & H2 & H3 & H4).
  assert (Hskip : forall st', scoreByKey st' = scoreByKey st -> identityByKey st' = identityByKey st ->
    scorable policy s = false -> recipients_inv policy (done_ ++ [s]) st').
  { intros st' E1 E2 Es. unfold recipients_inv. rewrite E1, E2. repeat split; [done|done| |].
    - intros x Hx Sx. apply in_app_or in Hx as [Hx|[<-|[]]]; [by apply H3|congruence].
    - intros k i Hki. destruct (H4 k i Hki) as (x & Hx & ?). exists x. split; [apply in_or_app; by left|done]. }
  unfold add_shift. destruct (eligible_status (si_shiftStatus s)) eqn:A1; cbn [negb];
    [|apply Hskip; [done|done|unfold scorable; by rewrite A1]].
  destruct (includes (pi_excludedRoles policy) (si_role s)) eqn:A2;
    [apply Hskip; [done|done|unfold scorable; by rewrite A1, A2]|].
  set (st1 := match si_workerId s with Some _ => st | None => _ end).
  assert (scoreByKey st1 = scoreByKey st /\ identityByKey st1 = identityByKey st) as [S1 S2]
    by (unfold st1; by destruct (si_workerId s)).
  destruct (Z.leb_spec (si_workedMinutes s) 0).
  { apply Hskip; [done|done|]. unfold scorable. rewrite A1, A2. cbn [negb andb].
    destruct (Z.ltb_spec 0 (si_workedMinutes s)); [lia|done]. }
  destruct (map_get (pi_roleWeights policy) (si_role s)) as [w|] eqn:A3.
  2: { apply Hskip; [done|done|]. unfold scorable. rewrite A3. by rewrite andb_false_r. }
  assert (scorable policy s = true) as Es.
  { unfold scorable. rewrite A1, A2, A3. destruct (Z.ltb_spec 0 (si_workedMinutes s)); [done|lia]. }
  cbv zeta. unfold recipients_inv, set; cbn [scoreByKey identityByKey]. rewrite S1, S2.
  split; [by apply map_set_NoDup|]. split; [by apply map_set_keys_eq|]. split.
  - intros x Hx Sx. apply map_set_keys. apply in_app_or in Hx as [Hx|[<-|[]]]; [right; auto|by left].
  - intros k i Hki. apply in_map_set in Hki as [[-> ->]|Hki].
    + exists s. split; [apply in_or_app; right; by left|done].
    + destruct (H4 k i Hki) as (x & Hx & ?). exists x. split; [apply in_or_app; by left|done].
Qed.

Lemma add_shifts_recipients policy shifts done_ st :
  recipients_inv policy done_ st ->
  recipients_inv policy (done_ ++ shifts) (fold_left (add_shift policy) shifts st).
Proof.
  revert done_ st. induction shifts as [|s shifts IH]; intros done_ st H; cbn [fold_left].
  - by rewrite app_nil_r.
  - replace (done_ ++ s :: shifts) with ((done_ ++ [s]) ++ shifts) by by rewrite <- app_assoc.
    apply IH. by apply add_shift_recipients.
Qed.

Lemma shift_key_worker s w :
  w <> "" -> shift_key s = "worker:" +:+ w <-> si_workerId s = Some w.
Proof.
  intros Hw. unfold shift_key. destruct (si_workerId s) as [x|].
  - destruct (bool_decide (x = "")) eqn:E.
    + apply bool_decide_eq_true in E as ->. cbn. split; [done|]. intros [= <-]. done.
    + split; [intros H|intros [= ->]; done]. cbn in H. injection H as ->. done.
  - cbn. split; done.
Qed.

Lemma shift_identity_worker s w :
  ri_workerId (shift_identity s) = Some w <-> si_workerId s = Some w /\ w <> "".
Proof.
  unfold shift_identity, truthy. destruct (si_workerId s) as [x|]; cbn; [|naive_solver].
  destruct (bool_decide (x = "")) eqn:E; cbn.
  - apply bool_decide_eq_true in E. naive_solver.
  - apply bool_decide_eq_false in E. naive_solver.
Qed.

Lemma raw_shares_keys P T es rs : raw_shares P T es = Some rs -> map raw_key rs = map fst es.
Proof.
  revert rs. induction es as [|e es IH]; intros rs; cbn; [by intros [= <-]|].
  unfold raw_share. destruct (num_floor _); [|done]. destruct (raw_shares P T es) as [rs'|]; [|done].
  intros [= <-]. cbn. by rewrite IH.
Qed.

Lemma give_leftover_keys order L raw : map raw_key (give_leftover order L raw) = map raw_key raw.
Proof.
  revert L raw. induction order as [|k order IH]; intros L raw; cbn [give_leftover]; [done|].
  destruct (L <=? 0); [done|]. by rewrite IH, keys_bump.
Qed.

Section recipients.
Context `{Platform}.

Lemma split_pool_keys P T scores ids allocs :
  split_pool P T scores ids = Ok allocs ->
  exists rs, allocs = map (to_allocation ids) rs /\ map raw_key rs ≡ₚ map fst scores.
Proof.
  unfold split_pool. destruct (raw_shares _ _ _) as [raw|] eqn:E; [|done]. cbv zeta.
  destruct (negb _); [done|]. intros [= <-]. eexists. split; [done|].
  rewrite give_leftover_keys, (raw_shares_keys _ _ _ _ E).
  apply Permutation_map, stable_sort_Permutation.
Qed.

(** What the invariant check of the source guarantees of every result. *)
Lemma compute_total tips shifts policy r :
  computeAllocationBatch tips shifts policy = Ok r ->
  if num_eqb (br_totalScore r) (num_of_Z 0) then br_allocations r = []
  else sumZ ar_pooledTipUsdCents (br_allocations r) = br_poolUsdCents r.
Proof.
  unfold computeAllocationBatch. destruct (fold_left (add_tip policy) tips (0, [])) as [pool issues].
  set (st := fold_left (add_shift policy) shifts _). cbv zeta.
  set (T := fold_left _ (scoreByKey st) _). destruct (num_eqb T (num_of_Z 0)) eqn:ET.
  { intros [= <-]. cbn [br_totalScore br_allocations]. by rewrite ET. }
  unfold split_pool. destruct (raw_shares _ _ _) as [raw|]; [|done]. cbv zeta.
  match goal with |- context [negb (?t =? ?p)] => destruct (Z.eqb_spec t p) as [E|E] end; cbn [negb rbind]; [|done].
  intros [= <-]. cbn [br_totalScore br_allocations br_poolUsdCents]. by rewrite ET.
Qed.

(** No worker has two allocations in a batch, and a connected worker has
    one exactly when one of the worker's shifts is eligible (completed or
    approved, role not excluded, positive minutes, weighted role). *)
Theorem alloc_recipients tips shifts policy r :
  computeAllocationBatch tips shifts policy = Ok r ->
  NoDup (omap ar_workerId (br_allocations r)) /\
  (num_eqb (br_totalScore r) (num_of_Z 0) = false -> forall w, w <> "" ->
   In w (omap ar_workerId (br_allocations r)) <->
   exists s, In s shifts /\ si_workerId s = Some w /\ scorable policy s = true).
Proof.
  unfold computeAllocationBatch. destruct (fold_left (add_tip policy) tips (0, [])) as [pool issues].
  set (st := fold_left (add_shift policy) shifts _).
  assert (recipients_inv policy ([] ++ shifts) st) as (I1 & I2 & I3 & I4).
  { apply add_shifts_recipients. repeat split; [constructor|done|done]. }
  cbn [app] in *. cbv zeta. set (T := fold_left _ (scoreByKey st) _).
  destruct (num_eqb T (num_of_Z 0)) eqn:ET.
  { intros [= <-]. cbn [br_allocations br_totalScore]. rewrite ET. split; [constructor|done]. }
  destruct (split_pool _ _ _ _) as [allocs|e] eqn:Es; cbn [rbind]; [|done].
  intros [= <-]. cbn [br_allocations br_totalScore].
  apply split_pool_keys in Es as (rs & -> & Pk).
  assert (Hid : forall x w, In x rs -> ar_workerId (to_allocation (identityByKey st) x) = Some w ->
            w <> "" /\ raw_key x = "worker:" +:+ w /\
            exists s, In s shifts /\ si_workerId s = Some w /\ scorable policy s = true).
  { intros x w Hx. unfold to_allocation. cbn [ar_workerId].
    destruct (map_get (identityByKey st) (raw_key x)) as [i|] eqn:Ei; cbn [nullish]; [|done].
    apply map_get_In in Ei. destruct (I4 _ _ Ei) as (s & Hs & Ss & Ks & <-).
    intros Hw. apply shift_identity_worker in Hw as [Hw Hne]. split; [done|].
    split; [|eauto]. rewrite <- Ks. by apply shift_key_worker. }
  assert (NoDup (map raw_key rs)) as HN by (rewrite Pk; done). split.
  - clear Pk. induction rs as [|x rs IH]; cbn; [constructor|].
    cbn in HN. apply NoDup_cons in HN as [Hn HN].
    specialize (IH ltac:(intros; apply Hid; [by right|done]) HN).
    destruct (ri_workerId _) as [w|] eqn:Ew; [|exact IH]. apply NoDup_cons. split; [|exact IH].
    rewrite list_elem_of_omap. intros (a & Ha & Hwa). apply list_elem_of_fmap in Ha as (y & -> & Hy).
    rewrite list_elem_of_In in Hy.
    destruct (Hid x w (or_introl eq_refl) Ew) as (_ & Kx & _).
    destruct (Hid y w (or_intror Hy) Hwa) as (_ & Ky & _).
    apply Hn. rewrite list_elem_of_In, Kx, <- Ky. by apply in_map.
  - intros _ w Hw. rewrite <- list_elem_of_In, list_elem_of_omap. split.
    + intros (a & Ha & Hwa). apply list_elem_of_fmap in Ha as (y & -> & Hy).
      rewrite list_elem_of_In in Hy. by destruct (Hid y w Hy Hwa) as (_ & _ & ?).
    + intros (s & Hs & Hsw & Ss). pose proof (I3 s Hs Ss) as Hk.
      assert (In (shift_key s) (map raw_key rs)) as Hr by (rewrite Pk; done).
      apply in_map_iff in Hr as (x & Kx & Hx).
      exists (to_allocation (identityByKey st) x). split; [apply list_elem_of_fmap; exists x; by rewrite list_elem_of_In|].
      unfold to_allocation. cbn [ar_workerId]. rewrite Kx.
      destruct (map_get_Some_keys (identityByKey st) (shift_key s)) as [i Ei]; [by rewrite I2|].
      rewrite Ei. cbn [nullish]. apply map_get_In in Ei. destruct (I4 _ _ Ei) as (s' & _ & _ & Ks & <-).
      apply shift_identity_worker. split; [|done]. apply shift_key_worker; [done|].
      rewrite Ks. by apply shift_key_worker.
Qed.
End recipients.

Lemma alloc_recipients_witness :
  exists r, computeAllocationBatch
    [mkTipInput TipType.CASH_TIP 500 None None]
    [mkShiftInput (Some "w1") "e1" "csv" "server" 60 ShiftStatus.COMPLETED;
     mkShiftInput (Some "w1") "e1" "csv" "server" 90 ShiftStatus.APPROVED]
    (mkPolicyInput [("server", num_of_Z 2)] [] [("CASH_TIP", true)]) = Ok r /\
  NoDup (omap ar_workerId (br_allocations r)).
Proof.
  eexists. split; [vm_compute; reflexivity|].
  apply (alloc_recipients [mkTipInput TipType.CASH_TIP 500 None None]
    [mkShiftInput (Some "w1") "e1" "csv" "server" 60 ShiftStatus.COMPLETED;
     mkShiftInput (Some "w1") "e1" "csv" "server" 90 ShiftStatus.APPROVED]
    (mkPolicyInput [("server", num_of_Z 2)] [] [("CASH_TIP", true)])).
  vm_compute. reflexivity.
Defined.

(** The key of a held share joins provider and external id with ":", so two
    different unconnected workers whose pairs join to the same text are merged:
    one of them receives the whole amount of both. *)
Theorem held_key_collision :
  exists r a, computeAllocationBatch
    [mkTipInput TipType.CASH_TIP 1000 None None]
    [mkShiftInput None "b:c" "a" "server" 60 ShiftStatus.COMPLETED;
     mkShiftInput None "c" "a:b" "server" 60 ShiftStatus.COMPLETED]
    (mkPolicyInput [("server", num_of_Z 1)] [] [("CASH_TIP", true)]) = Ok r /\
  br_allocations r = [a] /\ ar_provider a = Some "a:b" /\ ar_externalWorkerId a = Some "c" /\
  ar_pooledTipUsdCents a = 1000.
Proof. do 2 eexists. split; [vm_compute; reflexivity|]. vm_compute. done. Qed.

End AllocationEngine.
