(* ===== verification/Access.v ===== *)
(** * Organization-scoped access control

    apps/api/src/auth/access.service.ts: the two guards every venue-scoped
    handler calls before it touches data. *)

From S2P Require Import Prelude Concurrency Schema.

Module AccessService.

Definition VENUE_MANAGE_ROLES : list OrgRole.t := [OrgRole.OWNER; OrgRole.MANAGER].
Definition VENUE_READ_ROLES : list OrgRole.t :=
  [OrgRole.OWNER; OrgRole.MANAGER; OrgRole.PAYROLL_ADMIN; OrgRole.VIEWER].

Definition is_member (organizationId userId : string) (m : OrganizationMember) : bool :=
  (member_organizationId m ==? organizationId) && (member_userId m ==? userId).

Definition role_allowed (allowed : list OrgRole.t) (m : option OrganizationMember) : bool :=
  match m with Some m => includes allowed (member_role m) | None => false end.

Definition assertOrgRole (userId organizationId : string) (allowed : list OrgRole.t) : handler unit :=
  let* membership := findFirst (is_member organizationId userId) in
  throw_if (negb (role_allowed allowed membership))
    (ForbiddenException "Insufficient organization role").

Definition assertVenueRole (userId venueId : string) (allowed : list OrgRole.t) : handler unit :=
  let* venue := findUnique (R:=Venue) venueId in
  let* venue := require venue (NotFoundException ("Venue " +:+ venueId +:+ " not found")) in
  let* membership := findFirst (is_member (venue_organizationId venue) userId) in
  throw_if (negb (role_allowed allowed membership))
    (ForbiddenException "Insufficient organization role for this venue").

(** The state of the tables says that the user has one of the roles in the
    organization of the venue. *)
Definition has_venue_role (w : World) (userId venueId : string) (allowed : list OrgRole.t) : bool :=
  match List.find (by_id venueId) (w_venues w) with
  | Some v => role_allowed allowed
                (List.find (is_member (venue_organizationId v) userId) (w_members w))
  | None => false
  end.

Lemma run_assertVenueRole userId venueId allowed w :
  run (assertVenueRole userId venueId allowed) w =
  (w, match List.find (by_id venueId) (w_venues w) with
      | None => Err (NotFoundException ("Venue " +:+ venueId +:+ " not found"))
      | Some v =>
          if role_allowed allowed (List.find (is_member (venue_organizationId v) userId) (w_members w))
          then Ok tt
          else Err (ForbiddenException "Insufficient organization role for this venue")
      end).
Proof.
  unfold assertVenueRole. exec. cbn [rows table_Venue].
  destruct (List.find _ (w_venues w)) as [v|]; [|done]. exec. cbn [rows table_OrganizationMember].
  by destruct (role_allowed _ _).
Qed.

Lemma run_assertOrgRole userId organizationId allowed w :
  run (assertOrgRole userId organizationId allowed) w =
  (w, if role_allowed allowed (List.find (is_member organizationId userId) (w_members w))
      then Ok tt else Err (ForbiddenException "Insufficient organization role")).
Proof.
  unfold assertOrgRole. exec. cbn [rows table_OrganizationMember]. by destruct (role_allowed _ _).
Qed.

(** The venue guard passes exactly for the members of the venue's own
    organization whose role is allowed (tenant isolation), and never changes
    the database. *)
Theorem assertVenueRole_iff userId venueId allowed w :
  run (assertVenueRole userId venueId allowed) w = (w, Ok tt) <->
  exists v m, List.find (by_id venueId) (w_venues w) = Some v /\
    List.find (is_member (venue_organizationId v) userId) (w_members w) = Some m /\
    member_organizationId m = venue_organizationId v /\ member_userId m = userId /\
    In (member_role m) allowed.
Proof.
  rewrite run_assertVenueRole.
  destruct (List.find (by_id venueId) (w_venues w)) as [v|]; [|split; [done|naive_solver]].
  destruct (List.find (is_member _ _) (w_members w)) as [m|] eqn:Em; cbn [role_allowed].
  2: { split; [done|]. intros (v' & m' & [= <-] & E & _). congruence. }
  destruct (includes allowed (member_role m)) eqn:Er.
  - split; [|done]. intros _. exists v, m. split; [done|]. split; [done|].
    apply find_In in Em as [_ Em]. apply andb_true_iff in Em as [E1 E2].
    apply bool_decide_eq_true in E1, E2. rewrite includes_In in Er. done.
  - split; [done|]. intros (v' & m' & [= <-] & E & _ & _ & Hr). exfalso.
    rewrite Em in E. injection E as <-. apply includes_In in Hr. congruence.
Qed.

(** The guard is safe in any interleaving and, like every read, leaves the
    tokens of its handler alone. *)
Lemma safe_assertVenueRole I pot t userId venueId allowed Q :
  (forall r, Q r t) -> safe I pot t (assertVenueRole userId venueId allowed) Q.
Proof.
  intros H. unfold assertVenueRole. apply safe_bind, safe_findFirst. intros o.
  apply safe_bind, safe_require; [|auto]. intros v _.
  apply safe_bind, safe_findFirst. intros m. apply safe_throw_if; auto.
Qed.

End AccessService.

#[export] Hint Rewrite AccessService.run_assertVenueRole AccessService.run_assertOrgRole : run.
#[global] Arguments AccessService.assertVenueRole : simpl never.
#[global] Arguments AccessService.assertOrgRole : simpl never.
