(* ===== verification/Allocations.v ===== *)
(** * Allocation batches

    apps/api/src/allocations/allocations.service.ts with the role guards of
    allocations.controller.ts.  A batch is stored by [calculate], reviewed by
    [approve] or [reject]; the manager assigns settlement rails to its rows. *)

From S2P Require Import Prelude Concurrency Strings Schema Demo Float64 AllocationEngine Access.

Module AllocationsService.
Import AllocationEngine AccessService.

(** The state of the batches that [calculate] may overwrite. *)
Definition recalculable : list BatchStatus.t :=
  [BatchStatus.DRAFT; BatchStatus.CALCULATED; BatchStatus.REVIEW_REQUIRED].

(** [findUnique({ where: { venueId_businessDate_policyVersion } })] *)
Definition batch_key (venueId businessDate : string) (version : Z) (b : AllocationBatch) : bool :=
  (batch_venueId b ==? venueId) && (batch_businessDate b ==? businessDate)
  && (batch_policyVersion b ==? version).

Definition engineTip (t : TipEvidence) : AllocationTipInput :=
  mkTipInput (tip_tipType t) (tip_grossAmountUsdCents t)
    (Some (tip_paymentStatus t)) (Some (tip_refundStatus t)).

Definition engineShift (s : ShiftEvidence) : AllocationShiftInput :=
  mkShiftInput (shift_mappedWorkerId s) (shift_externalWorkerId s) (shift_provider s)
    (shift_role s) (shift_workedMinutes s) (shift_shiftStatus s).

Definition enginePolicy (p : AllocationPolicy) : AllocationPolicyInput :=
  mkPolicyInput (policy_roleWeights p) (policy_excludedRoles p) (policy_poolInclusion p).

Definition map_delete {V} (m : list (string * V)) (k : string) : list (string * V) :=
  List.filter (fun kv => kv.1 !=? k) m.

(** One turn of the loop that plans rails from the shifts' source rails:
    (plannedRailByWorker, conflictingRailWorkers). *)
Definition plan_rail (st : list (string * PayoutRail.t) * list string) (shift : ShiftEvidence)
    : list (string * PayoutRail.t) * list string :=
  let '(planned, conflicting) := st in
  match shift_mappedWorkerId shift, shift_sourcePayoutRail shift with
  | Some w, Some rail =>
      if w ==? "" then st
      else
        let previous := map_get planned w in
        if match previous with Some p => p !=? rail | None => false end
        then (map_delete planned w, if includes conflicting w then conflicting else conflicting ++ [w])
        else if negb (includes conflicting w) then (map_set planned w rail, conflicting)
        else st
  | _, _ => st
  end.

Definition plannedRailByWorker (shifts : list ShiftEvidence) : list (string * PayoutRail.t) :=
  (fold_left plan_rail shifts ([], [])).1.

Definition issueCode_name (c : AllocationIssueCode) : string :=
  match c with
  | UNMAPPED_WORKER => "UNMAPPED_WORKER" | NON_POSITIVE_MINUTES => "NON_POSITIVE_MINUTES"
  | UNKNOWN_ROLE => "UNKNOWN_ROLE" | REFUNDED_PAYMENT_EXCLUDED => "REFUNDED_PAYMENT_EXCLUDED"
  | CANCELED_PAYMENT_EXCLUDED => "CANCELED_PAYMENT_EXCLUDED" | EMPTY_POOL => "EMPTY_POOL"
  | NO_ELIGIBLE_SHIFTS => "NO_ELIGIBLE_SHIFTS"
  end.

Definition issue_json (i : AllocationIssue) : json :=
  JObj [("code", JStr (issueCode_name (is_code i))); ("blocking", JBool (is_blocking i));
        ("detail", is_detail i)].

Definition result_json (a : WorkerAllocationResult) : json :=
  JObj [("workerId", JStrOpt (ar_workerId a)); ("provider", JStrOpt (ar_provider a));
        ("externalWorkerId", JStrOpt (ar_externalWorkerId a)); ("score", JFloat (ar_score a));
        ("pooledTipUsdCents", JInt (ar_pooledTipUsdCents a));
        ("netAllocatedUsdCents", JInt (ar_netAllocatedUsdCents a))].

(** The batch with what [getBatch] includes: each allocation with the worker's
    display name and the latest finalized payout. *)
Record BatchView := mkBatchView {
  bv_batch : AllocationBatch;
  bv_allocations : list (WorkerAllocation * option string * option Payout)
}.

Definition displayName (workers : list Worker) (users : list User) (a : WorkerAllocation)
    : option string :=
  match alloc_workerId a with
  | None => None
  | Some i => match List.find (by_id i) workers with
              | None => None
              | Some w => user_displayName <$> List.find (by_id (worker_userId w)) users
              end
  end.

Definition latest_finalized (payouts : list Payout) (a : WorkerAllocation) : option Payout :=
  last (List.filter (fun p => (payout_allocationId p ==? alloc_id a)
                              && (payout_status p ==? PayoutStatus.FINALIZED)) payouts).

Definition of_batch (i : string) (a : WorkerAllocation) : bool := alloc_batchId a ==? i.

(** One query with its includes. *)
Definition view_batch (b : AllocationBatch) (w : World) : BatchView :=
  mkBatchView b (map (fun a => (a, displayName (w_workers w) (w_users w) a,
                                latest_finalized (w_payouts w) a))
                   (List.filter (of_batch (batch_id b)) (w_allocations w))).

(** [deleteMany] of allocation rows: a payout that refers to one of them makes
    the database refuse (foreign key, P2003). *)
Definition deleteAllocations (p : WorkerAllocation -> bool) : handler unit :=
  act (fun w =>
    if existsb (fun a => p a && existsb (fun y => payout_allocationId y ==? alloc_id a) (w_payouts w))
         (w_allocations w)
    then (w, Err (PrismaError "P2003"))
    else (w <| w_allocations ::= List.filter (fun a => negb (p a)) |>, Ok tt)).

Section service.
Context `{Platform}.

Definition getBatch (id : string) : handler BatchView :=
  let* view := query (fun w => option_map (fun b => view_batch b w) (List.find (by_id id) (w_batches w))) in
  require view (NotFoundException ("Batch " +:+ id +:+ " not found")).

Definition getAllocation (id : string) : handler (WorkerAllocation * string) :=
  let* row := query (fun w =>
    match List.find (by_id id) (w_allocations w) with
    | None => None
    | Some a => option_map (fun b => (a, batch_venueId b))
                  (List.find (by_id (alloc_batchId a)) (w_batches w))
    end) in
  require row (NotFoundException ("Allocation " +:+ id +:+ " not found")).

(** The policy of the requested version, or the active one of the highest
    version ([policyVersion] 0 is falsy). *)
Definition find_policy (venueId : string) (policyVersion : option Z)
    : handler (option AllocationPolicy) :=
  let latest := query (fun w => head (orderByDesc policy_version
    (List.filter (fun p => (policy_venueId p ==? venueId)
                           && (policy_status p ==? PolicyStatus.ACTIVE)) (w_policies w)))) in
  match policyVersion with
  | Some v => if v ==? 0%Z then latest
              else findFirst (fun p => (policy_venueId p ==? venueId) && (policy_version p ==? v))
  | None => latest
  end.

Definition evidence_json (tips : list TipEvidence) (shifts : list ShiftEvidence) : json :=
  JObj [("tips", JArr (map JStr (stable_sort str_lt (map tip_sourceHash tips))));
        ("shifts", JArr (map JStr (stable_sort str_lt (map shift_sourceHash shifts))))].

Definition allocation_json (policy : AllocationPolicy) (result : AllocationBatchResult) : json :=
  JObj [("policyVersion", JInt (policy_version policy));
        ("poolUsdCents", JInt (br_poolUsdCents result));
        ("allocations", JArr (map result_json (br_allocations result)))].

Definition batch_status_of (result : AllocationBatchResult) : BatchStatus.t :=
  if existsb is_blocking (br_issues result) then BatchStatus.REVIEW_REQUIRED
  else BatchStatus.CALCULATED.

(** The rows [createMany] inserts. *)
Definition create_allocation (batchId : string) (rails : list (string * PayoutRail.t))
    (a : WorkerAllocationResult) : handler unit :=
  let* i := freshId in
  do* create (mkWorkerAllocation i batchId (ar_workerId a) (ar_provider a)
                (ar_externalWorkerId a) (ar_pooledTipUsdCents a) (ar_netAllocatedUsdCents a)
                (match ar_workerId a with
                 | Some w => if w ==? "" then None else map_get rails w
                 | None => None
                 end) None AllocPayoutStatus.UNPAID) in
  Ret tt.

Definition issues_json (result : AllocationBatchResult) : json :=
  JArr (map issue_json (br_issues result)).

(** The [update] of the upsert. *)
Definition recalculated (result : AllocationBatchResult) (evidenceHash allocationHash : string)
    (calculatedAt : Z) (calculatedBy : option string) (b : AllocationBatch) : AllocationBatch :=
  mkAllocationBatch (batch_id b) (batch_venueId b) (batch_businessDate b)
    (br_poolUsdCents result) (batch_policyId b) (batch_policyVersion b) (batch_status_of result)
    (Some evidenceHash) (Some allocationHash) (issues_json result)
    (Some calculatedAt) calculatedBy None None.

(** The transaction of [calculate]. *)
Definition store_batch (venueId businessDate : string) (calculatedBy : option string)
    (policy : AllocationPolicy) (existing : option AllocationBatch)
    (result : AllocationBatchResult) (evidenceHash allocationHash : string)
    (rails : list (string * PayoutRail.t)) : handler AllocationBatch :=
  transaction (
    do* match existing with
        | Some b => deleteAllocations (of_batch (batch_id b))
        | None => Ret tt
        end in
    let* updatedAt := newDate in
    let* createdAt := newDate in
    let* i := freshId in
    let* saved := upsert (batch_key venueId businessDate (policy_version policy))
      (recalculated result evidenceHash allocationHash updatedAt calculatedBy)
      (mkAllocationBatch i venueId businessDate (br_poolUsdCents result) (policy_id policy)
         (policy_version policy) (batch_status_of result) (Some evidenceHash) (Some allocationHash)
         (issues_json result)
         (Some createdAt) calculatedBy None None) in
    do* for_each (br_allocations result) (create_allocation (batch_id saved) rails) in
    Ret saved).

Definition calculate (venueId businessDate : string) (policyVersion : option Z)
    (calculatedBy : option string) : handler BatchView :=
  let* venue := findUnique (R:=Venue) venueId in
  do* require venue (NotFoundException ("Venue " +:+ venueId +:+ " not found")) in
  let* policy := find_policy venueId policyVersion in
  let* policy := require policy (NotFoundException "No allocation policy found for venue") in
  let* tips := findMany (fun t => (tip_venueId t ==? venueId) && (tip_businessDate t ==? businessDate)) in
  let* shifts := findMany (fun s => (shift_venueId s ==? venueId)
                                    && (shift_businessDate s ==? businessDate)) in
  do* throw_if ((length tips =? 0)%nat && (length shifts =? 0)%nat)
    (BadRequestException ("No evidence for venue on business date " +:+ businessDate)) in
  let* existing := findFirst (batch_key venueId businessDate (policy_version policy)) in
  do* match existing with
      | Some b =>
          throw_if (negb (includes recalculable (batch_status b)))
            (ConflictException ("Batch " +:+ batch_id b +:+ " is "
               +:+ BatchStatus.name (batch_status b)
               +:+ "; corrections must go through the correction ledger"))
      | None => Ret tt
      end in
  let* result := lift_result (computeAllocationBatch (map engineTip tips) (map engineShift shifts)
                                (enginePolicy policy)) in
  let rails := plannedRailByWorker shifts in
  let evidenceHash := sha256 (stringify (evidence_json tips shifts)) in
  let allocationHash := sha256 (stringify (allocation_json policy result)) in
  let* batch := store_batch venueId businessDate calculatedBy policy existing result
                  evidenceHash allocationHash rails in
  getBatch (batch_id batch).

Definition approve (id approvedBy : string) : handler AllocationBatch :=
  let* batch := findUnique (R:=AllocationBatch) id in
  let* batch := require batch (NotFoundException ("Batch " +:+ id +:+ " not found")) in
  do* throw_if (batch_status batch ==? BatchStatus.REVIEW_REQUIRED)
    (BadRequestException "Batch has blocking review issues; resolve them first") in
  do* throw_if (batch_status batch !=? BatchStatus.CALCULATED)
    (ConflictException ("Batch is " +:+ BatchStatus.name (batch_status batch)
                        +:+ "; only CALCULATED can be approved")) in
  let* approvedAt := newDate in
  transaction (
    let* updated := update id (fun b => b <| batch_status := BatchStatus.PAYABLE |>
                                         <| batch_approvedBy := Some approvedBy |>
                                         <| batch_approvedAt := Some approvedAt |>) in
    do* audit None (Some (batch_venueId batch)) (Some approvedBy) "ALLOCATION_BATCH_APPROVED"
          "AllocationBatch" (Some id)
          (JObj [("allocationHash", JStrOpt (batch_allocationHash batch));
                 ("evidenceHash", JStrOpt (batch_evidenceHash batch));
                 ("tipPoolAmountUsdCents", JInt (batch_tipPoolAmountUsdCents batch))]) in
    Ret updated).

Definition reject (id rejectedBy reason : string) : handler AllocationBatch :=
  let* batch := findUnique (R:=AllocationBatch) id in
  let* batch := require batch (NotFoundException ("Batch " +:+ id +:+ " not found")) in
  do* throw_if (negb (includes [BatchStatus.CALCULATED; BatchStatus.REVIEW_REQUIRED]
                        (batch_status batch)))
    (ConflictException ("Batch is " +:+ BatchStatus.name (batch_status batch) +:+ "; cannot reject")) in
  transaction (
    let* updated := update id (fun b => b <| batch_status := BatchStatus.DRAFT |>) in
    do* audit None (Some (batch_venueId batch)) (Some rejectedBy) "ALLOCATION_BATCH_REJECTED"
          "AllocationBatch" (Some id) (JObj [("reason", JStr reason)]) in
    Ret updated).

(** [allocation.worker?.defaultWallet?.status === "ACTIVE"] *)
Definition has_active_wallet (w : World) (a : WorkerAllocation) : bool :=
  match alloc_workerId a with
  | None => false
  | Some i =>
      match List.find (by_id i) (w_workers w) with
      | None => false
      | Some wk =>
          match worker_defaultWalletId wk with
          | None => false
          | Some wi => match List.find (by_id wi) (w_wallets w) with
                       | Some x => wallet_status x ==? WalletStatus.ACTIVE
                       | None => false
                       end
          end
      end
  end.

Definition assignable (a : WorkerAllocation) : bool :=
  truthy (alloc_workerId a)
  && match alloc_plannedPayoutRail a with None => true | Some _ => false end
  && (alloc_payoutStatus a !=? AllocPayoutStatus.PAID).

Record AutoAssigned := mkAutoAssigned {
  aa_assigned : nat; aa_usdc : nat; aa_payroll : nat; aa_batch : BatchView
}.

Definition autoAssignRails (batchId actorUserId : string) : handler AutoAssigned :=
  let* row := query (fun w =>
    option_map (fun b => (b, map (fun a => (a, has_active_wallet w a))
                               (List.filter (of_batch batchId) (w_allocations w))))
      (List.find (by_id batchId) (w_batches w))) in
  let* ' (batch, allocations) := require row (NotFoundException ("Batch " +:+ batchId +:+ " not found")) in
  let assignments := map (fun x : WorkerAllocation * bool =>
      (alloc_id x.1, if x.2 then PayoutRail.USDC else PayoutRail.PAYROLL))
    (List.filter (fun x : WorkerAllocation * bool => assignable x.1) allocations) in
  let usdc := length (List.filter (fun x : string * PayoutRail.t => x.2 ==? PayoutRail.USDC) assignments) in
  let payroll := (length assignments - usdc)%nat in
  do* (if (0 <? length assignments)%nat
       then transaction (
         do* for_each assignments (fun x =>
           do* update (R:=WorkerAllocation) x.1 (fun a => a <| alloc_plannedPayoutRail := Some x.2 |>) in
           Ret tt) in
         do* audit None (Some (batch_venueId batch)) (Some actorUserId)
               "ALLOCATION_RAILS_AUTO_ASSIGNED" "AllocationBatch" (Some batchId)
               (JObj [("assigned", JInt (Z.of_nat (length assignments)));
                      ("usdc", JInt (Z.of_nat usdc)); ("payroll", JInt (Z.of_nat payroll))]) in
         Ret tt)
       else Ret tt) in
  let* view := getBatch batchId in
  Ret (mkAutoAssigned (length assignments) usdc payroll view).

Definition setPlannedRail (allocationId : string) (rail : PayoutRail.t) (actorUserId : string)
    : handler WorkerAllocation :=
  let* ' (allocation, venueId) := getAllocation allocationId in
  do* throw_if (alloc_payoutStatus allocation ==? AllocPayoutStatus.PAID)
    (ConflictException "A paid allocation's settlement route cannot be changed") in
  transaction (
    let* updated := update allocationId (fun a => a <| alloc_plannedPayoutRail := Some rail |>) in
    do* audit None (Some venueId) (Some actorUserId) "ALLOCATION_PLANNED_RAIL_CHANGED"
          "WorkerAllocation" (Some allocationId)
          (JObj [("previous", JStrOpt (PayoutRail.name <$> alloc_plannedPayoutRail allocation));
                 ("next", JStr (PayoutRail.name rail))]) in
    Ret updated).

(** *** The controller: the guard, then the service. *)

Definition post_calculate (userId venueId businessDate : string) (policyVersion : option Z)
    : handler BatchView :=
  do* assertVenueRole userId venueId VENUE_MANAGE_ROLES in
  calculate venueId businessDate policyVersion (Some userId).

Definition get_batch (userId id : string) : handler BatchView :=
  let* view := getBatch id in
  do* assertVenueRole userId (batch_venueId (bv_batch view)) VENUE_READ_ROLES in
  Ret view.

Definition post_approve (userId id : string) : handler AllocationBatch :=
  let* view := getBatch id in
  do* assertVenueRole userId (batch_venueId (bv_batch view)) VENUE_MANAGE_ROLES in
  approve id userId.

Definition post_reject (userId id reason : string) : handler AllocationBatch :=
  let* view := getBatch id in
  do* assertVenueRole userId (batch_venueId (bv_batch view)) VENUE_MANAGE_ROLES in
  reject id userId reason.

Definition post_autoAssignRails (userId id : string) : handler AutoAssigned :=
  let* view := getBatch id in
  do* assertVenueRole userId (batch_venueId (bv_batch view)) VENUE_MANAGE_ROLES in
  autoAssignRails id userId.

Definition patch_plannedRail (userId allocationId : string) (rail : PayoutRail.t)
    : handler WorkerAllocation :=
  let* ' (_, venueId) := getAllocation allocationId in
  do* assertVenueRole userId venueId VENUE_MANAGE_ROLES in
  setPlannedRail allocationId rail userId.
End service.

(* ------------------------------------------------------------------ *)
(** ** What a calculation stores *)

(** The columns of an allocation row that come from the engine. *)
Definition row_of_result (a : WorkerAllocation) : option string * option string * option string * Z * Z :=
  (alloc_workerId a, alloc_provider a, alloc_externalWorkerId a, alloc_pooledTipUsdCents a,
   alloc_netAllocatedUsdCents a).
Definition result_row (a : WorkerAllocationResult) : option string * option string * option string * Z * Z :=
  (ar_workerId a, ar_provider a, ar_externalWorkerId a, ar_pooledTipUsdCents a,
   ar_netAllocatedUsdCents a).

Section proofs.
Context `{Platform}.

Lemma create_allocations_spec batchId rails results w w' r :
  run (for_each results (create_allocation batchId rails)) w = (w', r) ->
  w_batches w' = w_batches w /\
  exists new, w_allocations w' = w_allocations w ++ new /\
    Forall (fun a => of_batch batchId a = true) new /\
    (r = Ok tt -> map row_of_result new = map result_row results).
Proof.
  revert w. induction results as [|a results IH]; intros w E; cbn [for_each] in E.
  { injection E as <- <-. split; [done|]. exists []. by rewrite app_nil_r. }
  unfold create_allocation at 1 in E. revert E. wexec.
  match goal with |- context [existsb ?f ?l] => destruct (existsb f l) end.
  - intros E. injection E as <- <-. split; [done|]. exists []. rewrite app_nil_r. by repeat split.
  - cbn [run]. intros E. apply IH in E as (E1 & new & E2 & E3 & E4). rewrite E1, E2. wcbn.
    split; [done|]. rewrite <- app_assoc. eexists. split; [reflexivity|]. split.
    + constructor; [|done]. unfold of_batch. cbn [alloc_batchId]. apply bd_refl.
    + intros Hr. cbn [app map]. by rewrite (E4 Hr).
Qed.

(** The batch row a calculation leaves behind. *)
Definition stored (result : AllocationBatchResult) (b : AllocationBatch) : Prop :=
  batch_status b = batch_status_of result /\
  batch_tipPoolAmountUsdCents b = br_poolUsdCents result /\
  batch_approvedAt b = None /\ batch_approvedBy b = None.

Lemma store_batch_spec v d by_ policy existing result eh ah rails w w' r :
  let key := batch_key v d (policy_version policy) in
  existing = List.find key (w_batches w) ->
  run (store_batch v d by_ policy existing result eh ah rails) w = (w', r) ->
  match r with
  | Err _ => w_batches w' = w_batches w /\ w_allocations w' = w_allocations w
  | Ok saved =>
      stored result saved /\ key saved = true /\
      (exists f, (forall b, batch_id (f b) = batch_id b) /\
       match existing with
       | Some b => saved = f b /\ w_batches w' = upd_where key f (w_batches w)
       | None => w_batches w' = w_batches w ++ [saved] /\
                 (forall b, In b (w_batches w) -> batch_id b <> batch_id saved)
       end) /\
      exists new,
        w_allocations w' = match existing with
                           | Some b => List.filter (fun a => negb (of_batch (batch_id b) a)) (w_allocations w)
                           | None => w_allocations w
                           end ++ new /\
        Forall (fun a => of_batch (batch_id saved) a = true) new /\
        map row_of_result new = map result_row (br_allocations result)
  end.
Proof.
  intros key Hex. unfold store_batch. rewrite run_transaction.
  match goal with |- context [run ?p w] => destruct (run p w) as [w1 [saved|e]] eqn:E end;
    [|intros E0; injection E0 as <- <-; done].
  intros E0. injection E0 as <- <-. destruct existing as [b|].
  - assert (key b = true) as Kb by (symmetry in Hex; by apply find_In in Hex as [_ ?]).
    revert E. unfold deleteAllocations. wexec.
    match goal with |- context [existsb ?f ?l] => destruct (existsb f l) end; [done|].
    wexec. fold key. rewrite <- Hex. wexec. change (batch_id (recalculated ?a ?b ?c ?d ?e ?f)) with (batch_id f).
    destruct (run _ _) as [w2 [[]|e]] eqn:E2; [|done]. intros E. cbn [run] in E. injection E as <- <-.
    apply create_allocations_spec in E2 as (B & new & A & F & M). rewrite B, A. wcbn.
    split; [done|]. split; [exact Kb|]. split.
    + exists (recalculated result eh ah (now (w_tick w)) by_). by repeat split.
    + exists new. split; [done|]. split; [exact F|]. by apply M.
  - revert E. wexec. fold key. rewrite <- Hex. wexec.
    match goal with |- context [existsb ?f ?l] => destruct (existsb f l) eqn:Ec end; [done|].
    wexec. destruct (run _ _) as [w2 [[]|e]] eqn:E2; [|done]. intros E. cbn [run] in E. injection E as <- <-.
    apply create_allocations_spec in E2 as (B & new & A & F & M). rewrite B, A. wcbn.
    split; [done|]. split; [unfold key, batch_key; cbn; by rewrite !bd_refl|]. split.
    + exists id. split; [done|]. split; [done|]. intros b Hb Eb.
      assert (existsb (row_clash (mkAllocationBatch (uuid (S (S (w_tick w)))) v d (br_poolUsdCents result)
        (policy_id policy) (policy_version policy) (batch_status_of result) (Some eh) (Some ah)
        (issues_json result) (Some (now (S (w_tick w)))) by_ None None)) (w_batches w) = true)
        as Hc by (apply existsb_exists; exists b; split; [done|]; cbn; by rewrite Eb, bd_refl).
      cbn in Hc, Ec. congruence.
    + exists new. split; [done|]. split; [exact F|]. by apply M.
Qed.

Definition evidence_of {R} (venue date : R -> string) (v d : string) (r : R) : bool :=
  (venue r ==? v) && (date r ==? d).

Definition day_tips (w : World) (v d : string) : list TipEvidence :=
  List.filter (evidence_of tip_venueId tip_businessDate v d) (w_tips w).
Definition day_shifts (w : World) (v d : string) : list ShiftEvidence :=
  List.filter (evidence_of shift_venueId shift_businessDate v d) (w_shifts w).

Lemma run_find_policy v pv w : exists o, run (find_policy v pv) w = (w, Ok o).
Proof.
  unfold find_policy. destruct pv as [z|]; [|eexists; wexec; done].
  destruct (z ==? 0%Z); eexists; wexec; done.
Qed.

Lemma run_getBatch i w :
  run (getBatch i) w =
  (w, match List.find (by_id i) (w_batches w) with
      | Some b => Ok (view_batch b w)
      | None => Err (NotFoundException ("Batch " +:+ i +:+ " not found"))
      end).
Proof. unfold getBatch. wexec. by destruct (List.find _ _). Qed.

(** A calculation either changes no batch and no allocation, or stores the
    engine's result on the evidence of the day over a recalculable batch. *)
Lemma calculate_cases v d pv by_ w w' r :
  run (calculate v d pv by_) w = (w', r) ->
  ((exists e, r = Err e) /\ w_batches w' = w_batches w /\ w_allocations w' = w_allocations w) \/
  exists policy result eh ah saved,
    let existing := List.find (batch_key v d (policy_version policy)) (w_batches w) in
    let shifts := day_shifts w v d in
    computeAllocationBatch (map engineTip (day_tips w v d)) (map engineShift shifts)
      (enginePolicy policy) = Ok result /\
    (forall b, existing = Some b -> In (batch_status b) recalculable) /\
    run (store_batch v d by_ policy existing result eh ah (plannedRailByWorker shifts)) w
      = (w', Ok saved) /\
    (w', r) = run (getBatch (batch_id saved)) w'.
Proof.
  unfold calculate. wexec. destruct (List.find (by_id v) (w_venues w)) as [venue|];
    [|intros E; injection E as <- <-; left; eauto].
  wexec. destruct (run_find_policy v pv w) as [o ->]. wexec.
  destruct o as [policy|]; wexec; [|intros E; injection E as <- <-; left; eauto].
  fold (evidence_of tip_venueId tip_businessDate v d) (evidence_of shift_venueId shift_businessDate v d).
  fold (day_tips w v d) (day_shifts w v d).
  destruct (_ && _); [intros E; injection E as <- <-; left; eauto|]. wexec.
  set (existing := List.find (batch_key v d (policy_version policy)) (w_batches w)).
  assert (Hg : run match existing with
      | Some b => throw_if (negb (includes recalculable (batch_status b)))
            (ConflictException ("Batch " +:+ batch_id b +:+ " is "
               +:+ BatchStatus.name (batch_status b)
               +:+ "; corrections must go through the correction ledger"))
      | None => Ret tt end w = (w, Ok tt) /\ (forall b, existing = Some b -> In (batch_status b) recalculable)
    \/ exists e, run match existing with
      | Some b => throw_if (negb (includes recalculable (batch_status b)))
            (ConflictException ("Batch " +:+ batch_id b +:+ " is "
               +:+ BatchStatus.name (batch_status b)
               +:+ "; corrections must go through the correction ledger"))
      | None => Ret tt end w = (w, Err e)).
  { destruct existing as [b|]; [|left; wexec; done]. rewrite run_throw_if.
    destruct (includes recalculable (batch_status b)) eqn:Ei; cbn [negb]; [left|right; eauto].
    split; [done|]. intros b' [= <-]. by apply includes_In. }
  destruct Hg as [[-> Hrec]|[e ->]]; [|intros E; injection E as <- <-; left; eauto].
  destruct (computeAllocationBatch _ _ _) as [result|e] eqn:Ec; cbn [lift_result]; wexec;
    [|intros E; injection E as <- <-; left; eauto].
  match goal with |- context [run (store_batch ?a ?b ?c ?d ?e ?f ?g ?h ?i) w] =>
    destruct (run (store_batch a b c d e f g h i) w) as [w1 [saved|e']] eqn:Es;
    [|intros E; injection E as <- <-; left; split; [eauto|];
      by apply (store_batch_spec a b c d e f g h i w w1 (Err e') eq_refl)];
    intros E; right; exists policy, result, g, h, saved
  end.
  cbv zeta. rewrite run_getBatch in E |- *. injection E as <- <-. done.
Qed.

(** At most one batch has the key of a calculation. *)
Lemma batch_key_unique v d n l b1 b2 :
  unique_rows l -> In b1 l -> In b2 l -> batch_key v d n b1 = true -> batch_key v d n b2 = true -> b1 = b2.
Proof.
  intros HU H1 H2 K1 K2. apply (proj2 HU); [done|done|]. cbn. unfold batch_key in K1, K2.
  repeat match goal with H : _ && _ = true |- _ => apply andb_true_iff in H as [? ?] end.
  repeat match goal with H : bool_decide _ = true |- _ => apply bool_decide_eq_true in H end.
  repeat match goal with H : batch_venueId _ = _ |- _ => rewrite H; clear H
    | H : batch_businessDate _ = _ |- _ => rewrite H; clear H
    | H : batch_policyVersion _ = _ |- _ => rewrite H; clear H end.
  rewrite !bd_refl. by rewrite orb_true_r.
Qed.

(** A calculation whose batch has left the review states stops before it
    writes anything. *)
Lemma calculate_refused v d pv by_ w policy b :
  unique_rows (w_batches w) -> In b (w_batches w) ->
  ~ In (batch_status b) recalculable ->
  run (find_policy v pv) w = (w, Ok (Some policy)) -> batch_key v d (policy_version policy) b = true ->
  exists e, run (calculate v d pv by_) w = (w, Err e).
Proof.
  intros HU Hb Hn Ep Kb. unfold calculate. wexec.
  destruct (List.find (by_id v) (w_venues w)) as [venue|]; [|eauto].
  wexec. rewrite Ep. wexec. destruct (_ && _); [eauto|]. wexec.
  destruct (List.find _ (w_batches w)) as [b0|] eqn:E0.
  - apply find_In in E0 as [In0 K0]. assert (b0 = b) as -> by by eapply batch_key_unique.
    rewrite run_throw_if. destruct (includes recalculable (batch_status b)) eqn:Ei; cbn [negb]; [|eauto].
    by apply includes_In in Ei.
  - exfalso. pose proof (List.find_none _ _ E0 b Hb). congruence.
Qed.

(** C11: one recalculation, without another handler in between, leaves every
    batch that has left the review states (approved, payable, paid, corrected,
    reversed or disputed) and its allocations as they are; and when the batch
    it is to store is one of those, it is refused and writes nothing at all. *)
Theorem recalculation_spares_approved v d pv by_ w w' r b :
  run (calculate v d pv by_) w = (w', r) ->
  unique_rows (w_batches w) -> In b (w_batches w) ->
  ~ In (batch_status b) [BatchStatus.DRAFT; BatchStatus.CALCULATED; BatchStatus.REVIEW_REQUIRED] ->
  In b (w_batches w') /\
  List.filter (of_batch (batch_id b)) (w_allocations w')
  = List.filter (of_batch (batch_id b)) (w_allocations w) /\
  (forall policy, run (find_policy v pv) w = (w, Ok (Some policy)) ->
     batch_key v d (policy_version policy) b = true -> (exists e, r = Err e) /\ w' = w).
Proof.
  intros E HU Hb Hn.
  cut (In b (w_batches w') /\ List.filter (of_batch (batch_id b)) (w_allocations w')
                              = List.filter (of_batch (batch_id b)) (w_allocations w)).
  { intros [H1 H2]. split; [done|]. split; [done|]. intros policy Ep Kb.
    destruct (calculate_refused v d pv by_ w policy b HU Hb Hn Ep Kb) as [e E1].
    rewrite E in E1. injection E1 as -> ->. eauto. }
  apply calculate_cases in E as [(_ & -> & ->)|(policy & result & eh & ah & saved & E)];
    [done|].
  cbv zeta in E. destruct E as (_ & Hrec & Es & _).
  apply store_batch_spec in Es; [|done]. destruct Es as (_ & Ks & (f & Hf & Hx) & new & -> & Hnew & _).
  set (key := batch_key v d (policy_version policy)) in *.
  assert (Hother : batch_id b <> batch_id saved ->
    List.filter (of_batch (batch_id b)) new = []).
  { intros Hne. apply filter_none. intros a Ha. rewrite List.Forall_forall in Hnew. specialize (Hnew a Ha).
    unfold of_batch in *. apply bool_decide_eq_true in Hnew. apply bool_decide_eq_false_2. congruence. }
  rewrite List.filter_app. destruct (List.find key (w_batches w)) as [b0|] eqn:E0.
  - destruct Hx as [-> ->]. apply find_In in E0 as E0'. destruct E0' as [In0 K0].
    assert (b0 <> b) as Hne0 by (intros ->; apply Hn; by apply Hrec).
    assert (batch_id b0 <> batch_id b) as Hid.
    { intros Hid. apply Hne0. by apply (unique_by_id (w_batches w)). }
    assert (key b = false) as Kb.
    { destruct (key b) eqn:Kb; [|done]. exfalso. apply Hne0. by eapply batch_key_unique. }
    rewrite Hother by (rewrite Hf; congruence). split.
    + apply in_upd_where. exists b. split; [done|]. by rewrite Kb.
    + rewrite app_nil_r, filter_filter. apply filter_ext_in. intros a _. unfold of_batch.
      destruct (bool_decide (alloc_batchId a = batch_id b)) eqn:Ea; [|done]. cbn [andb].
      apply bool_decide_eq_true in Ea. rewrite bool_decide_eq_false_2; [done|congruence].
  - destruct Hx as [-> Hfresh]. split; [apply in_or_app; by left|].
    rewrite Hother by (by apply Hfresh). apply app_nil_r.
Qed.

(** Every allocation row refers to a batch (the foreign key). *)
Definition allocations_fk (w : World) : Prop :=
  forall a, In a (w_allocations w) -> exists b, In b (w_batches w) /\ batch_id b = alloc_batchId a.

(** A successful calculation stores what the engine computed on the
    evidence of the day: the batch is in review exactly when the engine
    reported a blocking issue and is not approved, its rows are the engine's
    allocations and nothing else, and they add up to the stored pool (unless
    no shift has a score, when there are none). *)
Theorem calculation_stores_result v d pv by_ w w' view :
  run (calculate v d pv by_) w = (w', Ok view) ->
  unique_rows (w_batches w) -> allocations_fk w ->
  exists policy result,
    computeAllocationBatch (map engineTip (day_tips w v d)) (map engineShift (day_shifts w v d))
      (enginePolicy policy) = Ok result /\
    let b := bv_batch view in
    let stored_rows := List.filter (of_batch (batch_id b)) (w_allocations w') in
    In b (w_batches w') /\ stored result b /\
    map row_of_result stored_rows = map result_row (br_allocations result) /\
    (if num_eqb (br_totalScore result) (num_of_Z 0) then stored_rows = []
     else sumZ alloc_pooledTipUsdCents stored_rows = batch_tipPoolAmountUsdCents b).
Proof.
  intros E HU HF. apply calculate_cases in E as [((e & E) & _)|(policy & result & eh & ah & saved & E)]; [done|].
  cbv zeta in E. destruct E as (Ec & _ & Es & Ev). exists policy, result. split; [done|].
  apply store_batch_spec in Es; [|done].
  destruct Es as (Hst & Ks & (f & Hf & Hx) & new & Ha & Hnew & Hm).
  set (key := batch_key v d (policy_version policy)) in *.
  rewrite run_getBatch in Ev.
  assert (List.find (by_id (batch_id saved)) (w_batches w') = Some saved /\
          List.filter (of_batch (batch_id saved)) (w_allocations w') = new) as [Hfind Hrows].
  { rewrite Ha, List.filter_app.
    assert (List.filter (of_batch (batch_id saved)) new = new) as ->.
    { clear -Hnew. induction Hnew as [|a new H _ IH]; cbn; [done|]. by rewrite H, IH. }
    destruct (List.find key (w_batches w)) as [b0|] eqn:E0.
    - destruct Hx as [-> Hb]. apply find_In in E0 as [In0 K0]. rewrite Hb, Hf. split.
      + rewrite find_upd_where by (intros r _ _; unfold by_id; cbn; by rewrite Hf).
        change (batch_id b0) with (row_id b0).
        rewrite (find_by_id_unique _ b0 HU In0). cbn. by rewrite K0.
      + rewrite filter_filter, filter_none; [done|]. intros a _.
        destruct (of_batch (batch_id b0) a); done.
    - destruct Hx as [Hb Hfresh]. rewrite Hb, find_app. split.
      + destruct (List.find (by_id (batch_id saved)) (w_batches w)) as [x|] eqn:Ex.
        * exfalso. apply find_In in Ex as [Hx Ex]. apply bool_decide_eq_true in Ex. by apply (Hfresh x).
        * cbn [List.find]. unfold by_id; cbn [row_id row_AllocationBatch]. by rewrite bd_refl.
      + rewrite filter_none; [done|]. intros a Ha'. destruct (HF a Ha') as (b & Hb' & Eb).
        apply bool_decide_eq_false_2. rewrite <- Eb. by apply Hfresh. }
  rewrite Hfind in Ev. injection Ev as ->. cbn [bv_batch view_batch]. cbv zeta. rewrite Hrows.
  split; [by apply find_In in Hfind as [? _]|]. split; [done|]. split; [done|].
  apply compute_total in Ec. destruct (num_eqb _ _).
  - rewrite Ec in Hm. by destruct new.
  - destruct Hst as (_ & -> & _). rewrite <- Ec.
    transitivity (sumZ (fun x => x.1.2) (map row_of_result new)); [by rewrite sumZ_map|].
    rewrite Hm. by rewrite sumZ_map.
Qed.

(** approval, with its guard: it succeeds only for an owner or manager of
    the batch's venue on a CALCULATED batch; then exactly that batch becomes
    PAYABLE with the approver recorded, with one audit row, and no allocation
    or payout changes.  When it fails nothing but the tick changes. *)
Theorem approve_guarded userId i w w' r :
  run (post_approve userId i) w = (w', r) ->
  w_allocations w' = w_allocations w /\ w_payouts w' = w_payouts w /\
  match r with
  | Ok b' => exists b at_ entry,
      List.find (by_id i) (w_batches w) = Some b /\
      has_venue_role w userId (batch_venueId b) VENUE_MANAGE_ROLES = true /\
      batch_status b = BatchStatus.CALCULATED /\
      let f b := b <| batch_status := BatchStatus.PAYABLE |> <| batch_approvedBy := Some userId |>
                   <| batch_approvedAt := Some at_ |> in
      b' = f b /\ w_batches w' = upd_where (by_id i) f (w_batches w) /\
      w_auditLogs w' = w_auditLogs w ++ [entry] /\ audit_actorUserId entry = Some userId
  | Err _ => w_batches w' = w_batches w /\ w_auditLogs w' = w_auditLogs w
  end.
Proof.
  unfold post_approve. rewrite run_bind, run_getBatch.
  destruct (List.find (by_id i) (w_batches w)) as [b|] eqn:Eb; [|intros E; injection E as <- <-; done].
  cbn [bv_batch view_batch]. wexec.
  destruct (List.find (by_id (batch_venueId b)) (w_venues w)) as [v|] eqn:Ev; [|intros E; injection E as <- <-; done].
  destruct (role_allowed VENUE_MANAGE_ROLES _) eqn:Er; [|intros E; injection E as <- <-; done].
  unfold approve. wexec. rewrite Eb. wexec.
  destruct (_ ==? BatchStatus.REVIEW_REQUIRED); [intros E; injection E as <- <-; done|]. wexec.
  destruct (batch_status b ==? BatchStatus.CALCULATED) eqn:Es; cbn [negb]; [|intros E; injection E as <- <-; done].
  wexec. rewrite Eb. wexec. unfold audit. wexec.
  match goal with |- context [existsb ?f ?l] => destruct (existsb f l) eqn:Ec end; wexec;
    intros E; injection E as <- <-; [done|].
  split; [done|]. split; [done|]. do 3 eexists. split; [reflexivity|].
  split; [unfold has_venue_role; by rewrite Ev|]. split; [by apply bool_decide_eq_true in Es|].
  repeat split; reflexivity.
Qed.

Definition set_rail (rails : list (string * PayoutRail.t)) (a : WorkerAllocation) : WorkerAllocation :=
  match map_get rails (alloc_id a) with
  | Some rail => a <| alloc_plannedPayoutRail := Some rail |>
  | None => a
  end.

Lemma run_set_rails assignments w w' r :
  NoDup (map fst assignments) ->
  run (for_each assignments (fun x =>
    do* update (R:=WorkerAllocation) x.1 (fun a => a <| alloc_plannedPayoutRail := Some x.2 |>) in
    Ret tt)) w = (w', r) ->
  (r = Ok tt -> w' = w <| w_allocations ::= map (set_rail assignments) |>).
Proof.
  revert w. induction assignments as [|[k rail] l IH]; intros w HN E Hr; cbn [for_each map fst] in *.
  - injection E as <- _. destruct w. unfold set; cbn. f_equal. symmetry. apply map_id.
  - apply NoDup_cons in HN as [Hk HN]. revert E. wexec.
    destruct (List.find (by_id k) (w_allocations w)) as [a|]; [|intros E; injection E as _ <-; done].
    wexec. intros E. rewrite (IH _ HN E Hr). clear IH E. destruct w. unfold set; cbn. f_equal.
    unfold upd_where. rewrite map_map. apply map_ext. intros x. unfold set_rail, by_id. cbn.
    destruct (bool_decide (alloc_id x = k)) eqn:Ek.
    + apply bool_decide_eq_true in Ek. cbn. rewrite (bool_decide_eq_true_2 (k = alloc_id x)) by done.
      destruct (map_get l (alloc_id x)) eqn:Em; [|done]. exfalso. apply Hk.
      apply map_get_In in Em. rewrite list_elem_of_In, <- Ek. by apply (in_map fst) in Em.
    + apply bool_decide_eq_false in Ek. rewrite (bool_decide_eq_false_2 (k = alloc_id x)) by congruence.
      done.
Qed.

Definition suggested_rail (w : World) (a : WorkerAllocation) : PayoutRail.t :=
  if has_active_wallet w a then PayoutRail.USDC else PayoutRail.PAYROLL.

Lemma map_get_filter_map {V} (key : WorkerAllocation -> string) (val : WorkerAllocation -> V)
    (p : WorkerAllocation -> bool) (l : list WorkerAllocation) a :
  (forall x y, In x l -> In y l -> key x = key y -> x = y) -> In a l ->
  map_get (map (fun x => (key x, val x)) (List.filter p l)) (key a)
  = if p a then Some (val a) else None.
Proof.
  intros HU Ha. induction l as [|x l IH]; [done|]. cbn [List.filter].
  destruct (decide (key x = key a)) as [Ek|Hne].
  - assert (x = a) as -> by (apply HU; [by left|done|done]).
    destruct (p a) eqn:Pa; cbn [map map_get].
    + by rewrite bd_refl.
    + assert (Hn : forall y, In y l -> p y = true -> key y <> key a).
      { intros y Hy Py E. assert (y = a) as -> by (apply HU; [by right|by left|done]). congruence. }
      clear -Hn. induction l as [|y l IH]; cbn [List.filter]; [done|].
      destruct (p y) eqn:Py; cbn [map map_get].
      * rewrite bool_decide_eq_false_2 by (apply Hn; [by left|done]).
        apply IH. intros; apply Hn; [by right|done].
      * apply IH. intros; apply Hn; [by right|done].
  - destruct Ha as [->|Ha]; [done|].
    assert (IH' := IH (fun y z Hy Hz => HU y z (or_intror Hy) (or_intror Hz)) Ha).
    destruct (p x); cbn [map map_get]; [rewrite bool_decide_eq_false_2 by done|]; exact IH'.
Qed.

Lemma filter_mem {R} (p : R -> bool) (l : list R) x : In x (List.filter p l) <-> In x l /\ p x = true.
Proof. apply List.filter_In. Qed.

(** Auto-assignment fills only the unassigned rails of connected workers'
    unpaid rows of that batch (USDC when the worker's default wallet is
    active, payroll otherwise); every other row and every other column is
    unchanged, explicit choices, paid rows and held shares included.  On an
    error no row changes. *)
Theorem autoAssign_only_unassigned i actor w w' r :
  run (autoAssignRails i actor) w = (w', r) -> unique_rows (w_allocations w) ->
  w_batches w' = w_batches w /\ w_payouts w' = w_payouts w /\
  w_allocations w' =
    match r with
    | Ok _ => map (fun a => if of_batch i a && assignable a
                            then a <| alloc_plannedPayoutRail := Some (suggested_rail w a) |> else a)
                (w_allocations w)
    | Err _ => w_allocations w
    end.
Proof.
  intros E HU. revert E. unfold autoAssignRails. wexec.
  destruct (List.find (by_id i) (w_batches w)) as [b|] eqn:Eb; cbn [option_map]; wexec;
    [|intros E; injection E as <- <-; done].
  set (rows_ := List.filter (of_batch i) (w_allocations w)).
  set (assignments := map (fun x : WorkerAllocation * bool =>
      (alloc_id x.1, if x.2 then PayoutRail.USDC else PayoutRail.PAYROLL)) _).
  assert (assignments = map (fun a => (alloc_id a, suggested_rail w a))
            (List.filter (fun a => of_batch i a && assignable a) (w_allocations w))) as Ea.
  { unfold assignments, rows_. clear. induction (w_allocations w) as [|a l IH]; [done|].
    cbn [List.filter]. destruct (of_batch i a); cbn [andb map List.filter]; [|exact IH].
    cbn [fst]. destruct (assignable a); cbn [map]; [|exact IH]. by rewrite IH. }
  assert (Hkeys : forall x y, In x (w_allocations w) -> In y (w_allocations w) ->
            alloc_id x = alloc_id y -> x = y).
  { intros x y Hx Hy Exy. by apply (unique_by_id (w_allocations w)). }
  assert (Hmap : map (set_rail assignments) (w_allocations w)
    = map (fun a => if of_batch i a && assignable a
                    then a <| alloc_plannedPayoutRail := Some (suggested_rail w a) |> else a)
        (w_allocations w)).
  { apply map_ext_in. intros a Ha. unfold set_rail. rewrite Ea.
    rewrite (map_get_filter_map alloc_id (suggested_rail w)) by done. by destruct (_ && _). }
  destruct (0 <? length assignments)%nat eqn:El.
  - wexec. destruct (run (for_each assignments _) w) as [w1 [[]|e]] eqn:Er; wexec;
      [|intros E; injection E as <- <-; done].
    assert (NoDup (map fst assignments)) as HN
      by (rewrite Ea, map_map; apply (NoDup_map_filter alloc_id), HU).
    pose proof (run_set_rails _ _ _ _ HN Er eq_refl) as ->. unfold audit. wexec.
    match goal with |- context [existsb ?f ?l] => destruct (existsb f l) end; wexec;
      [intros E; injection E as <- <-; done|].
    rewrite run_getBatch. wcbn. rewrite Eb. wexec. intros E. injection E as <- <-. wcbn.
    split; [done|]. split; [done|]. exact Hmap.
  - wexec. rewrite run_getBatch, Eb. wexec. intros E. injection E as <- <-.
    split; [done|]. split; [done|]. rewrite <- Hmap. symmetry.
    assert (assignments = []) as -> by (destruct assignments; [done|cbn in El; lia]).
    unfold set_rail. cbn [map_get]. apply map_id.
Qed.
End proofs.

(* ------------------------------------------------------------------ *)
(** ** A day of evidence *)

(** One venue with an owner, an equal-weight policy, a card tip of 10.01 and
    three shifts, one of them of an unconnected worker. *)
Definition demo_day : World :=
  empty_world
    <| w_venues := [mkVenue "v" "org" "Bar" "UTC" None None None []] |>
    <| w_members := [mkOrganizationMember "m" "org" "boss" OrgRole.OWNER] |>
    <| w_policies := [mkAllocationPolicy "pol" "v" 1 PolicyStatus.ACTIVE AllocationType.ROLE_WEIGHTED_HOURS
                        [("server", num_of_Z 1)] JNull [("CARD_TIP", true)] [] 0 None "boss"] |>
    <| w_tips := [mkTipEvidence "t1" "csv" IngestSource.CSV_UPLOAD "v" "pay1" None TipType.CARD_TIP 1001
                    PaymentStatus.COMPLETED RefundStatus.NONE "2026-01-01" "h1" None None] |>
    <| w_shifts := [mkShiftEvidence "s1" "csv" IngestSource.CSV_UPLOAD "v" "x1" "e1" (Some "w1") "server" 0
                      (Some 1) 300 ShiftStatus.COMPLETED "2026-01-01" "h2" None None;
                    mkShiftEvidence "s2" "csv" IngestSource.CSV_UPLOAD "v" "x2" "e2" (Some "w2") "server" 0
                      (Some 1) 300 ShiftStatus.COMPLETED "2026-01-01" "h3" (Some PayoutRail.USDC) None;
                    mkShiftEvidence "s3" "csv" IngestSource.CSV_UPLOAD "v" "x3" "e3" None "server" 0
                      (Some 1) 300 ShiftStatus.COMPLETED "2026-01-01" "h4" None None] |>.

(** The day calculated, and the batch then approved by the owner. *)
Definition demo_calculated : World :=
  Eval vm_compute in (run (post_calculate "boss" "v" "2026-01-01" None) demo_day).1.
Definition demo_batch_id : string :=
  Eval vm_compute in nullish (batch_id <$> head (w_batches demo_calculated)) "".
Definition demo_approved : World :=
  Eval vm_compute in (run (post_approve "boss" demo_batch_id) demo_calculated).1.

Example demo_shares :
  map alloc_pooledTipUsdCents (w_allocations demo_calculated) = [334; 334; 333]%Z /\
  map batch_status (w_batches demo_approved) = [BatchStatus.PAYABLE].
Proof. vm_compute. done. Qed.

Lemma unique_one {R} `{Row R} (r : R) : unique_rows [r].
Proof.
  split; [apply NoDup_singleton|]. intros r1 r2 [<-|[]] [<-|[]] _. done.
Qed.

Lemma recalculation_spares_approved_witness :
  let '(w', r) := run (calculate "v" "2026-01-01" None None) demo_approved in
  exists b, In b (w_batches demo_approved) /\ In b (w_batches w') /\ is_ok r = false /\ w' = demo_approved.
Proof.
  destruct (run (calculate "v" "2026-01-01" None None) demo_approved) as [w' r] eqn:E.
  eexists. split; [left; reflexivity|].
  match goal with |- In ?b _ /\ _ => destruct (recalculation_spares_approved _ _ _ _ _ _ _ b E) as (Hin & _ & Hr) end.
  - apply unique_one.
  - left. reflexivity.
  - vm_compute. intros [|[|[|[]]]]; discriminate.
  - split; [exact Hin|]. edestruct Hr as [[e ->] ->]; [vm_compute; reflexivity..|]. done.
Defined.

Lemma calculation_stores_result_witness :
  exists w' view, run (calculate "v" "2026-01-01" None None) demo_day = (w', Ok view) /\
    In (bv_batch view) (w_batches w').
Proof.
  destruct (run (calculate "v" "2026-01-01" None None) demo_day) as [w' [view|e]] eqn:E.
  - exists w', view. split; [done|].
    destruct (calculation_stores_result _ _ _ _ _ _ _ E) as (p & r & _ & Hin & _); [| |exact Hin].
    + split; [apply NoDup_nil_2|]. intros ? ? [].
    + intros a [].
  - apply (f_equal (fun c => is_ok c.2)) in E. vm_compute in E. discriminate E.
Defined.

Lemma approve_guarded_witness :
  exists w' b, run (post_approve "boss" demo_batch_id) demo_calculated = (w', Ok b) /\
    w_allocations w' = w_allocations demo_calculated.
Proof.
  destruct (run (post_approve "boss" demo_batch_id) demo_calculated) as [w' [b|e]] eqn:E.
  - exists w', b. split; [done|]. exact (proj1 (approve_guarded _ _ _ _ _ E)).
  - apply (f_equal (fun c => is_ok c.2)) in E. vm_compute in E. discriminate E.
Defined.

Lemma autoAssign_only_unassigned_witness :
  exists w' x, run (autoAssignRails demo_batch_id "boss") demo_calculated = (w', Ok x) /\
    map alloc_plannedPayoutRail (w_allocations w')
    = [None; Some PayoutRail.PAYROLL; Some PayoutRail.USDC].
Proof.
  destruct (run (autoAssignRails demo_batch_id "boss") demo_calculated) as [w' [x|e]] eqn:E.
  - exists w', x. split; [done|].
    destruct (autoAssign_only_unassigned _ _ _ _ _ E) as (_ & _ & ->).
    + split; [apply (bool_decide_unpack _); vm_compute; done|].
      intros r1 r2 [<-|[<-|[<-|[]]]] [<-|[<-|[<-|[]]]]; vm_compute; done.
    + vm_compute. reflexivity.
  - apply (f_equal (fun c => is_ok c.2)) in E. vm_compute in E. discriminate E.
Defined.

(** The answer of a handler is not needed. *)
Definition void {A} (p : handler A) : handler unit := do* p in Ret tt.

(** The check that protects approved batches is not in the transaction that
    overwrites them.  A recalculation that has read the batch as CALCULATED and
    is then overtaken by its approval puts the approved (PAYABLE) batch back to
    CALCULATED, clears the approval and replaces its rows, although both
    handlers report success and the approval stays in the audit log. *)
Theorem recalculation_races_approval :
  let c := schedule [0; 0; 0; 0; 0; 1; 1; 1; 0; 0]%nat
             (demo_calculated, [void (calculate "v" "2026-01-01" None None);
                                void (approve demo_batch_id "boss")]) in
  c.2 = [Ret tt; Ret tt] /\
  map (fun b => (batch_id b, batch_status b, batch_approvedBy b)) (w_batches c.1)
    = [(demo_batch_id, BatchStatus.CALCULATED, None)] /\
  map audit_action (w_auditLogs c.1) = ["ALLOCATION_BATCH_APPROVED"].
Proof. vm_compute. done. Qed.

End AllocationsService.
