(* ===== verification/IncomeProjector.v ===== *)
(** * The income projection

    packages/db/src/income-projector.ts: the rebuild of the materialised income
    entries and of the discrepancy alerts of one venue, in one transaction.
    The split of an amount over shifts uses JavaScript numbers, like the
    allocation engine. *)

From Stdlib Require Import Reals Lra Psatz.
From S2P Require Import Prelude Concurrency Strings Schema Demo Float64 AllocationEngine Allocations.

Open Scope Z_scope.

Module IncomeProjector.

(** [Math.floor] of a finite number, as an integer. *)
Definition floorZ (x : number) : Z := nullish (num_floor x) 0.

Record Fraction := mkFraction { fr_fraction : number; fr_index : nat }.

(** [b.fraction - a.fraction || a.index - b.index] is negative. *)
Definition fraction_lt (a b : Fraction) : bool :=
  let d := num_sub (fr_fraction b) (fr_fraction a) in
  if num_eqb d (num_of_Z 0) || AllocationEngine.is_nan d then (fr_index a <? fr_index b)%nat
  else num_ltb d (num_of_Z 0).

(** The loop that hands out the remaining cents, cycling through [order];
    [remainder] turns are all it makes. *)
Fixpoint distribute (order : list Fraction) (remainder : nat) (cursor : nat) (slices : list Z)
    : list Z :=
  match remainder with
  | O => slices
  | S remainder' =>
      let index := match order !! cursor with Some f => fr_index f | None => 0%nat end in
      distribute order remainder' ((cursor + 1) mod length order)
        (<[index := nullish (slices !! index) 0 + 1]> slices)
  end.

Definition raw_slices (totalCents : Z) (weights : list Z) : list number :=
  let weightSum := sumZ (fun w => w) weights in
  let effective := if 0 <? weightSum then weights else map (fun _ => 1) weights in
  let effectiveSum := if 0 <? weightSum then weightSum else Z.of_nat (length weights) in
  map (fun w => num_div (num_mul (num_of_Z totalCents) (num_of_Z w)) (num_of_Z effectiveSum)) effective.

Definition splitProportionally (totalCents : Z) (weights : list Z) : list Z :=
  if (length weights =? 0)%nat then []
  else
    let raw := raw_slices totalCents weights in
    let slices := map floorZ raw in
    let remainder := totalCents - sumZ (fun z => z) slices in
    let order := stable_sort fraction_lt
      (imap (fun i v => mkFraction (num_sub v (num_of_Z (floorZ v))) i) raw) in
    distribute order (Z.to_nat remainder) 0 slices.

Example split_ex : splitProportionally 100 [1; 1; 1] = [34; 33; 33].
Proof. vm_compute. reflexivity. Qed.
Example split_ex0 : splitProportionally 5 [0; 0] = [3; 2].
Proof. vm_compute. reflexivity. Qed.

Definition computeGrade (hasTipEvidence hasShiftEvidence hasApprovedAllocation usdcFinalized
    venueAttestedPayout payrollConfirmed : bool) : EvidenceGrade.t :=
  let base := hasTipEvidence && hasShiftEvidence in
  if base && hasApprovedAllocation && (usdcFinalized || venueAttestedPayout) && payrollConfirmed
  then EvidenceGrade.A
  else if base && hasApprovedAllocation && usdcFinalized then EvidenceGrade.B
  else if base && hasApprovedAllocation && venueAttestedPayout then EvidenceGrade.C
  else if base then EvidenceGrade.D
  else EvidenceGrade.E.

(* ------------------------------------------------------------------ *)
(** ** Shares per shift *)

(** A batch with its allocations and their payouts. *)
Record BatchData := mkBatchData {
  bd_batch : AllocationBatch;
  bd_allocations : list (WorkerAllocation * list Payout)
}.

(** [tip.externalPaymentId.replace(/^csv:/, "")] *)
Definition strip_csv (s : string) : string :=
  if String.prefix "csv:" s then slice_from s 4 else s.

Definition add_tip_key (m : list (string * Z)) (tip : TipEvidence) : list (string * Z) :=
  if (tip_refundStatus tip ==? RefundStatus.FULL) || (tip_paymentStatus tip ==? PaymentStatus.CANCELED)
  then m
  else
    let key := tip_provider tip +:+ ":" +:+ strip_csv (tip_externalPaymentId tip) in
    map_set m key (nullish (map_get m key) 0 + tip_grossAmountUsdCents tip).

Definition is_mapped (s : ShiftEvidence) : bool := truthy (shift_mappedWorkerId s).

Definition day_key (s : ShiftEvidence) : string :=
  nullish (shift_mappedWorkerId s) "null" +:+ ":" +:+ shift_businessDate s.

Definition group_day (m : list (string * list ShiftEvidence)) (s : ShiftEvidence)
    : list (string * list ShiftEvidence) :=
  map_set m (day_key s) (nullish (map_get m (day_key s)) [] ++ [s]).

Definition shiftsByWorkerDay (mappedShifts : list ShiftEvidence) : list (string * list ShiftEvidence) :=
  fold_left group_day mappedShifts [].

(** [batches.find(...)], then the worker's allocation in it, then its first
    finalized payout. *)
Definition find_batch (batches : list BatchData) (businessDate : string) : option BatchData :=
  List.find (fun b => batch_businessDate (bd_batch b) ==? businessDate) batches.

Definition find_allocation (batch : option BatchData) (workerId : string)
    : option (WorkerAllocation * list Payout) :=
  match batch with
  | Some b => List.find (fun a => alloc_workerId a.1 ==? Some workerId) (bd_allocations b)
  | None => None
  end.

Definition finalized_of (allocation : option (WorkerAllocation * list Payout)) : option Payout :=
  match allocation with
  | Some (_, payouts) => List.find (fun p => payout_status p ==? PayoutStatus.FINALIZED) payouts
  | None => None
  end.

Definition allocated_amount (allocation : option (WorkerAllocation * list Payout)) : Z :=
  match allocation with Some (a, _) => alloc_netAllocatedUsdCents a | None => 0 end.

Definition paid_amount (payout : option Payout) : Z :=
  match payout with Some p => payout_amountUsdCents p | None => 0 end.

(** [items.forEach((x, i) => m.set(x.id, slices[i] ?? 0))] *)
Fixpoint set_slices (m : list (string * Z)) (shifts : list ShiftEvidence) (slices : list Z)
    : list (string * Z) :=
  match shifts with
  | [] => m
  | s :: shifts' => set_slices (map_set m (shift_id s) (nullish (head slices) 0)) shifts' (tail slices)
  end.

(** One worker-day: (allocationShare, paidShare). *)
Definition share_day (batches : list BatchData) (st : list (string * Z) * list (string * Z))
    (dayShifts : list ShiftEvidence) : list (string * Z) * list (string * Z) :=
  match dayShifts with
  | [] => st
  | first :: _ =>
      let workerId := nullish (shift_mappedWorkerId first) "null" in
      let allocation := find_allocation (find_batch batches (shift_businessDate first)) workerId in
      let finalizedPayout := finalized_of allocation in
      let weights := map (fun s => Z.max (shift_workedMinutes s) 0) dayShifts in
      (set_slices st.1 dayShifts (splitProportionally (allocated_amount allocation) weights),
       set_slices st.2 dayShifts (splitProportionally (paid_amount finalizedPayout) weights))
  end.

Definition day_shares (batches : list BatchData) (mappedShifts : list ShiftEvidence)
    : list (string * Z) * list (string * Z) :=
  fold_left (share_day batches) (map snd (shiftsByWorkerDay mappedShifts)) ([], []).

(** [record.periodStart <= date && record.periodEnd >= date]; an invalid date
    compares false. *)
Definition in_period (record : PayrollRecord) (businessDate : string) : bool :=
  match noonUtc businessDate with
  | Some date => (payroll_periodStart record <=? date) && (date <=? payroll_periodEnd record)
  | None => false
  end.

Definition of_record (record : PayrollRecord) (s : ShiftEvidence) : bool :=
  (shift_mappedWorkerId s ==? Some (payroll_workerId record)) && in_period record (shift_businessDate s).

Definition share_payroll (allocationShare : list (string * Z)) (mappedShifts : list ShiftEvidence)
    (m : list (string * Z)) (record : PayrollRecord) : list (string * Z) :=
  let periodShifts := List.filter (of_record record) mappedShifts in
  if (length periodShifts =? 0)%nat then m
  else
    let weights := map (fun s => nullish (map_get allocationShare (shift_id s)) 0) periodShifts in
    set_slices m periodShifts (splitProportionally (payroll_reportedTipUsdCents record) weights).

(* ------------------------------------------------------------------ *)
(** ** The rebuild *)

Record AlertData := mkAlertData {
  ad_workerId : option string;
  ad_shiftId : option string;
  ad_type : DiscrepancyType.t;
  ad_detail : json
}.

(** The projected columns of one shift. *)
Record Projected := mkProjected {
  pr_payoutId : option string;
  pr_earned : Z; pr_allocated : Z; pr_paid : Z; pr_payrollReported : Z;
  pr_withholding : WithholdingStatus.t;
  pr_rail : option PayoutRail.t;
  pr_grade : EvidenceGrade.t
}.

Record ProjectionInputs := mkInputs {
  in_tipsByShiftKey : list (string * Z);
  in_allocationShare : list (string * Z);
  in_paidShare : list (string * Z);
  in_payrollShare : list (string * Z);
  in_batches : list BatchData;
  in_payrollRecords : list PayrollRecord
}.

Definition project_shift (i : ProjectionInputs) (workerId : string) (shift : ShiftEvidence) : Projected :=
  let earned := nullish (map_get (in_tipsByShiftKey i)
                           (shift_provider shift +:+ ":" +:+ shift_externalShiftId shift)) 0 in
  let batch := find_batch (in_batches i) (shift_businessDate shift) in
  let allocation := find_allocation batch workerId in
  let allocated := nullish (map_get (in_allocationShare i) (shift_id shift)) 0 in
  let finalizedPayout := finalized_of allocation in
  let paid := nullish (map_get (in_paidShare i) (shift_id shift)) 0 in
  let payoutRail := match finalizedPayout with
                    | Some p => Some (payout_rail p)
                    | None => match allocation with Some (a, _) => alloc_payoutRail a | None => None end
                    end in
  let payroll := List.find (fun r => (payroll_workerId r ==? workerId)
                                     && in_period r (shift_businessDate shift)) (in_payrollRecords i) in
  let payrollReported := match payroll with
                         | Some _ => nullish (map_get (in_payrollShare i) (shift_id shift)) 0
                         | None => 0 end in
  let withholding :=
    match payroll with
    | None => WithholdingStatus.UNKNOWN
    | Some r => if match payroll_federalWithholdingUsdCents r with Some _ => true | None => false end
                   && (payroll_status r ==? PayrollStatus.PROVIDER_CONFIRMED)
                then WithholdingStatus.CONFIRMED else WithholdingStatus.PENDING
    end in
  let grade := computeGrade
    ((0 <? earned) || (0 <? match batch with Some b => batch_tipPoolAmountUsdCents (bd_batch b) | None => 0 end))
    true (0 <? allocated)
    match finalizedPayout with Some p => payout_rail p ==? PayoutRail.USDC | None => false end
    match finalizedPayout with Some p => payout_rail p !=? PayoutRail.USDC | None => false end
    (withholding ==? WithholdingStatus.CONFIRMED) in
  mkProjected (payout_id <$> finalizedPayout) earned allocated paid payrollReported withholding
    payoutRail grade.

Definition rail_json (r : option PayoutRail.t) : json := JStrOpt (PayoutRail.name <$> r).

(** The alerts of one projected shift, in the order of the source. *)
Definition shift_alerts (workerId shiftId : string) (p : Projected) : list AlertData :=
  let alert t d := mkAlertData (Some workerId) (Some shiftId) t (JObj d) in
  (if (0 <? pr_earned p) && (pr_allocated p =? 0)
   then [alert DiscrepancyType.ALLOCATION_GAP
           [("earnedUsdCents", JInt (pr_earned p)); ("allocatedUsdCents", JInt (pr_allocated p))]] else [])
  ++ (if (0 <? pr_allocated p) && (pr_paid p =? 0)
      then [alert DiscrepancyType.PAYOUT_GAP
              [("allocatedUsdCents", JInt (pr_allocated p)); ("paidUsdCents", JInt (pr_paid p))]] else [])
  ++ (if (0 <? pr_paid p) && (pr_payrollReported p =? 0)
      then [alert DiscrepancyType.PAYROLL_GAP
              [("paidUsdCents", JInt (pr_paid p));
               ("payrollReportedUsdCents", JInt (pr_payrollReported p));
               ("payoutRail", rail_json (pr_rail p))]] else [])
  ++ (if (0 <? pr_payrollReported p) && (pr_withholding p !=? WithholdingStatus.CONFIRMED)
      then [alert DiscrepancyType.WITHHOLDING_UNKNOWN
              [("payrollReportedUsdCents", JInt (pr_payrollReported p))]] else []).

Definition unmapped_alert (shift : ShiftEvidence) : AlertData :=
  mkAlertData None (Some (shift_id shift)) DiscrepancyType.UNMAPPED_WORKER
    (JObj [("externalWorkerId", JStr (shift_externalWorkerId shift));
           ("provider", JStr (shift_provider shift))]).

Definition refund_alerts (batches : list BatchData) (tips : list TipEvidence) : list AlertData :=
  flat_map (fun tip =>
    match find_batch batches (tip_businessDate tip) with
    | Some b =>
        if existsb (fun a => alloc_payoutStatus a.1 ==? AllocPayoutStatus.PAID) (bd_allocations b)
        then [mkAlertData None None DiscrepancyType.REFUND_ADJUSTMENT_REQUIRED
                (JObj [("tipEvidenceId", JStr (tip_id tip));
                       ("refundStatus", JStr (RefundStatus.name (tip_refundStatus tip)))])]
        else []
    | None => []
    end) (List.filter (fun t => tip_refundStatus t !=? RefundStatus.NONE) tips).

(** The update and the row of one entry. *)
Definition projected_entry (venueId workerId shiftId : string) (p : Projected) (e : IncomeEntry)
    : IncomeEntry :=
  mkIncomeEntry (entry_id e) workerId venueId (Some shiftId) (pr_payoutId p) (pr_earned p)
    (pr_allocated p) (pr_paid p) (pr_payrollReported p) (pr_withholding p) (pr_rail p) (pr_grade p)
    EffectiveStatus.ACTIVE (entry_originalEntryId e) (entry_correctionOfId e)
    (entry_correctionReason e) (entry_createdAt e).

Definition entry_of (workerId shiftId : string) (e : IncomeEntry) : bool :=
  (entry_workerId e ==? workerId) && (entry_shiftId e ==? Some shiftId).

Definition superseded_of (workerId shiftId : string) (e : IncomeEntry) : bool :=
  entry_of workerId shiftId e && (entry_effectiveStatus e ==? EffectiveStatus.SUPERSEDED).

Definition original_of (workerId shiftId : string) (e : IncomeEntry) : bool :=
  entry_of workerId shiftId e && (entry_correctionOfId e ==? None).

Definition projectable : list BatchStatus.t :=
  [BatchStatus.PAYABLE; BatchStatus.PARTIALLY_PAID; BatchStatus.PAID].

Definition batch_data (w : World) (b : AllocationBatch) : BatchData :=
  mkBatchData b (map (fun a => (a, List.filter (fun p => payout_allocationId p ==? alloc_id a) (w_payouts w)))
                   (List.filter (fun a => alloc_batchId a ==? batch_id b) (w_allocations w))).

Section rebuild.
Context `{Platform}.

(** One turn of the loop over the shifts: (entriesUpserted, alerts). *)
Definition rebuild_shift (venueId : string) (i : ProjectionInputs) (acc : nat * list AlertData)
    (shift : ShiftEvidence) : handler (nat * list AlertData) :=
  let '(entriesUpserted, alerts) := acc in
  if negb (is_mapped shift) then Ret (entriesUpserted, alerts ++ [unmapped_alert shift])
  else
    let workerId := nullish (shift_mappedWorkerId shift) "" in
    let p := project_shift i workerId shift in
    let* superseded := findFirst (superseded_of workerId (shift_id shift)) in
    match superseded with
    | Some _ => Ret (entriesUpserted, alerts)
    | None =>
        let* existing := findFirst (original_of workerId (shift_id shift)) in
        do* match existing with
            | Some e => do* update (entry_id e) (projected_entry venueId workerId (shift_id shift) p) in
                        Ret tt
            | None =>
                let* i := freshId in
                let* t := newDate in
                do* create (projected_entry venueId workerId (shift_id shift) p
                       (mkIncomeEntry i workerId venueId None None 0 0 0 0 WithholdingStatus.UNKNOWN
                          None EvidenceGrade.E EffectiveStatus.ACTIVE None None None t)) in
                Ret tt
            end in
        Ret (S entriesUpserted, alerts ++ shift_alerts workerId (shift_id shift) p)
    end.

Definition create_alert (venueId : string) (a : AlertData) : handler unit :=
  let* i := freshId in
  let* t := newDate in
  do* create (mkDiscrepancyAlert i (ad_workerId a) venueId (ad_shiftId a) (ad_type a) (ad_detail a) None t) in
  Ret tt.

Definition projection_inputs (shifts : list ShiftEvidence) (tips : list TipEvidence)
    (batches : list BatchData) (payrollRecords : list PayrollRecord) : ProjectionInputs :=
  let mappedShifts := List.filter is_mapped shifts in
  let '(allocationShare, paidShare) := day_shares batches mappedShifts in
  mkInputs (fold_left add_tip_key tips []) allocationShare paidShare
    (fold_left (share_payroll allocationShare mappedShifts) payrollRecords [])
    batches payrollRecords.

Definition rebuildVenueIncomeLocked (venueId : string) (actorUserId : option string)
    (source : string) : handler (nat * nat) :=
  let* shifts := findMany (fun s => shift_venueId s ==? venueId) in
  let* tips := findMany (fun t => tip_venueId t ==? venueId) in
  let* batches := query (fun w => map (batch_data w)
    (List.filter (fun b => (batch_venueId b ==? venueId) && includes projectable (batch_status b))
       (w_batches w))) in
  let* payrollRecords := findMany (fun r => payroll_venueId r ==? venueId) in
  let i := projection_inputs shifts tips batches payrollRecords in
  let* ' (entriesUpserted, alerts) := fold_prog shifts (0%nat, []) (rebuild_shift venueId i) in
  let alerts := alerts ++ refund_alerts batches tips in
  do* deleteMany (fun a => (alert_venueId a ==? venueId) && (alert_resolvedAt a ==? None)) in
  do* for_each alerts (create_alert venueId) in
  do* audit None (Some venueId) actorUserId "INCOME_ENTRIES_REBUILT" "Venue" (Some venueId)
        (JObj [("source", JStr source); ("entriesUpserted", JInt (Z.of_nat entriesUpserted));
               ("alerts", JInt (Z.of_nat (length alerts)))]) in
  Ret (entriesUpserted, length alerts).

(** The venue's row is locked for the transaction; [None] when it is gone. *)
Definition rebuildVenueIncome (venueId : string) (actorUserId : option string) (source : string)
    : handler (option (nat * nat)) :=
  transaction (
    let* locked := findUnique (R:=Venue) venueId in
    match locked with
    | None => Ret None
    | Some _ => let* r := rebuildVenueIncomeLocked venueId actorUserId source in Ret (Some r)
    end).
End rebuild.

(* ------------------------------------------------------------------ *)
(** ** The split is exact *)

Lemma sumZ_insert (l : list Z) i (x : Z) :
  (i < length l)%nat -> sumZ (fun z => z) (<[i := nullish (l !! i) 0 + x]> l) = sumZ (fun z => z) l + x.
Proof.
  revert i. induction l as [|y l IH]; intros [|i] H; cbn in *; [lia|lia|lia|].
  rewrite IH by lia. lia.
Qed.

Lemma distribute_spec order n cursor slices :
  Forall (fun f => fr_index f < length slices)%nat order -> (0 < length slices)%nat ->
  sumZ (fun z => z) (distribute order n cursor slices) = sumZ (fun z => z) slices + Z.of_nat n /\
  length (distribute order n cursor slices) = length slices /\
  (Forall (fun z => 0 <= z) slices -> Forall (fun z => 0 <= z) (distribute order n cursor slices)).
Proof.
  revert cursor slices. induction n as [|n IH]; intros cursor slices HO HL; cbn [distribute].
  { split; [lia|done]. }
  set (idx := match order !! cursor with Some f => fr_index f | None => 0%nat end).
  assert (idx < length slices)%nat as Hi.
  { unfold idx. destruct (order !! cursor) as [f|] eqn:E; [|done].
    apply list_elem_of_lookup_2 in E. rewrite Forall_forall in HO. by apply HO. }
  destruct (IH ((cursor + 1) mod length order)%nat (<[idx:=nullish (slices !! idx) 0 + 1]> slices)) as (S1 & S2 & S3).
  - by rewrite length_insert.
  - by rewrite length_insert.
  - rewrite S1, S2, sumZ_insert, length_insert by done. split; [lia|]. split; [done|].
    intros HN. apply S3. apply Forall_insert; [done|].
    destruct (slices !! idx) as [z|] eqn:E; cbn; [|lia].
    apply list_elem_of_lookup_2 in E. rewrite Forall_forall in HN. pose proof (HN z E) as Hz. cbn in Hz. lia.
Qed.

Section rounding.
Local Open Scope R_scope.

(** One slice before the remainder: a non-negative integer at most the exact
  quotient times [(1 + u)^2]. *)
Lemma floor_slice total w W :
(0 <= total < 2 ^ 31)%Z -> (0 <= w < 2 ^ 31)%Z -> (0 < W < 2 ^ 52)%Z ->
let f := floorZ (num_div (num_mul (num_of_Z total) (num_of_Z w)) (num_of_Z W)) in
(0 <= f)%Z /\ IZR f * IZR W <= (1 + u) * (1 + u) * (IZR total * IZR w).
Proof.
intros Ht Hw HW. destruct (num_of_Z_spec total ltac:(lia)) as [Nt Vt].
destruct (num_of_Z_spec w ltac:(lia)) as [Nw Vw]. destruct (num_of_Z_spec W ltac:(lia)) as [NW VW].
pose proof AllocationEngine.u_small as [U0 _]. pose proof AllocationEngine.u_tiny as U1.
assert (1 <= IZR W <= bpow 52) as HWR by (rewrite bpow_IZR by lia; split; apply IZR_le; lia).
set (q := IZR total * IZR w).
assert (q = 0 \/ 1 <= q <= bpow 62) as Hq.
{ unfold q. rewrite <- mult_IZR. destruct (Z.eq_dec (total * w) 0) as [->|]; [by left|right].
  rewrite bpow_IZR by lia. split; apply IZR_le; nia. }
assert (in_range q) as Rq.
{ destruct Hq as [->|Hq]; [by left|right]. split.
  - apply Rle_trans with (bpow 0); [by apply bpow_le|change (bpow 0) with 1; lra].
  - apply Rle_trans with (bpow 62); [lra|by apply bpow_le]. }
pose proof (num_mul_spec _ _ Nt Nw) as Dq. rewrite Vt, Vw in Dq. fold q in Dq. specialize (Dq Rq).
assert (0 <= q) as q0 by (destruct Hq; lra).
destruct (AllocationEngine.within_bounds _ _ Dq q0) as [L U].
set (y := num_mul (num_of_Z total) (num_of_Z w)) in *.
assert (0 <= num_val y) as v0 by nra.
assert (in_range (num_val y / IZR W)) as Rd.
{ destruct Hq as [Hq|Hq]; [left; assert (num_val y = 0) as -> by (rewrite Hq in L, U; lra); unfold Rdiv; ring|right].
  assert (/ 2 <= num_val y <= 2 * bpow 62) as Hv by nra.
  pose proof (bpow_opp_mul 52) as O. pose proof (bpow_pos (-52)). change (- (52))%Z with (-52)%Z in O.
  assert (IZR W * / IZR W = 1) as OW by (apply Rinv_r; lra).
  assert (0 < / IZR W) as I0 by (apply Rinv_0_lt_compat; lra).
  assert (bpow (-52) <= / IZR W <= 1) as HI by nra. unfold Rdiv. split.
  - apply Rle_trans with (bpow (-53)); [by apply bpow_le|].
    pose proof (AllocationEngine.bpow_double (-53)) as E. change (-53 + 1)%Z with (-52)%Z in E. nra.
  - apply Rle_trans with (bpow 63); [|by apply bpow_le].
    pose proof (AllocationEngine.bpow_double 62) as E. change (62 + 1)%Z with 63%Z in E.
    pose proof (bpow_pos 62). nra. }
pose proof (num_div_spec y (num_of_Z W) (proj1 Dq) NW) as D. rewrite VW in D.
specialize (D ltac:(lra) Rd).
assert (0 <= num_val y / IZR W) as d0.
{ unfold Rdiv. apply Rmult_le_pos; [done|]. left. apply Rinv_0_lt_compat. lra. }
destruct (AllocationEngine.within_bounds _ _ D d0) as [L' U'].
destruct (num_floor_spec _ (proj1 D)) as (f & Ef & Hf & Lf & Uf).
unfold floorZ. rewrite Ef. cbn [nullish]. split; [done|].
assert (num_val y / IZR W * IZR W = num_val y) as EW by (field; lra).
apply Rle_trans with ((1 + u) * num_val y).
- rewrite <- EW, <- Rmult_assoc. apply Rmult_le_compat_r; lra.
- rewrite Rmult_assoc. apply Rmult_le_compat_l; lra.
Qed.

Lemma slices_sum total ws W :
(0 <= total < 2 ^ 31)%Z -> Forall (fun w => 0 <= w < 2 ^ 31)%Z ws -> (0 < W < 2 ^ 52)%Z ->
let fs := map floorZ (map (fun w => num_div (num_mul (num_of_Z total) (num_of_Z w)) (num_of_Z W)) ws) in
Forall (fun z => 0 <= z)%Z fs /\
IZR (sumZ (fun z => z) fs) * IZR W <= (1 + u) * (1 + u) * (IZR total * IZR (sumZ (fun w => w) ws)).
Proof.
intros Ht Hws HW. induction Hws as [|w ws Hw _ [I1 I2]]; cbn [map sumZ].
- split; [constructor|]. cbn [map sumZ]. rewrite Rmult_0_l, !Rmult_0_r. lra.
- destruct (floor_slice total w W Ht Hw HW) as [F1 F2]. split; [by constructor|].
  cbn [map sumZ]. rewrite !plus_IZR. lra.
Qed.

(** The floors never exceed the amount. *)
Lemma slices_le total ws :
(0 <= total < 2 ^ 31)%Z -> Forall (fun w => 0 <= w < 2 ^ 31)%Z ws ->
(0 < sumZ (fun w => w) ws < 2 ^ 52)%Z ->
let fs := map floorZ (map (fun w => num_div (num_mul (num_of_Z total) (num_of_Z w))
                                       (num_of_Z (sumZ (fun w => w) ws))) ws) in
Forall (fun z => 0 <= z)%Z fs /\ (sumZ (fun z => z) fs <= total)%Z.
Proof.
intros Ht Hws HW. destruct (slices_sum total ws _ Ht Hws HW) as [H1 H2]. split; [done|].
set (W := sumZ (fun w => w) ws) in *. set (F := sumZ (fun z => z) (map floorZ _)) in *.
assert (0 < IZR W) as W0 by (apply IZR_lt; lia).
assert (IZR F <= (1 + u) * (1 + u) * IZR total) as HF.
{ apply (Rmult_le_reg_r (IZR W)); [done|]. rewrite Rmult_assoc. exact H2. }
assert (F < total + 1)%Z; [|lia]. apply lt_IZR. rewrite plus_IZR.
assert (0 <= IZR total <= bpow 31) as HT by (rewrite bpow_IZR by lia; split; apply IZR_le; lia).
pose proof AllocationEngine.u_small as [U0 _]. pose proof AllocationEngine.u_tiny as U1.
assert (bpow 31 * u <= / 4) as HU.
{ unfold u. rewrite <- bpow_add. apply Rle_trans with (bpow (-2)); [by apply bpow_le|].
  change (bpow (-2)) with (/ (2 * (2 * 1))). lra. }
assert (IZR total * u <= / 4) by nra. nra.
Qed.
End rounding.

Lemma sum_ones (l : list Z) : sumZ (fun w => w) (map (fun _ => 1) l) = Z.of_nat (length l).
Proof. induction l as [|x l IH]; cbn [map sumZ length]; [done|]. rewrite IH. lia. Qed.

Lemma sum_bound (l : list Z) : Forall (fun w => 0 <= w < 2 ^ 31) l ->
  0 <= sumZ (fun w => w) l <= Z.of_nat (length l) * 2 ^ 31.
Proof. induction 1 as [|x l Hx _ IH]; cbn [sumZ length]; lia. Qed.

(** The slices before and after the remaining cents are given out. *)
Lemma split_shape (total : Z) (weights : list Z) :
  0 <= total < 2 ^ 31 -> Forall (fun w => 0 <= w < 2 ^ 31) weights ->
  (0 < length weights)%nat -> Z.of_nat (length weights) <= 2 ^ 20 ->
  exists order fs,
    splitProportionally total weights = distribute order (Z.to_nat (total - sumZ (fun z => z) fs)) 0 fs /\
    length fs = length weights /\ Forall (fun z => 0 <= z) fs /\ sumZ (fun z => z) fs <= total /\
    Forall (fun f => fr_index f < length fs)%nat order.
Proof.
  intros Ht Hw Hl Hn. unfold splitProportionally.
  destruct (Nat.eqb_spec (length weights) 0); [lia|]. cbv zeta.
  pose proof (sum_bound weights Hw) as HB.
  assert (exists ws, length ws = length weights /\ Forall (fun w => 0 <= w < 2 ^ 31) ws /\
            0 < sumZ (fun w => w) ws < 2 ^ 52 /\
            raw_slices total weights = map (fun w => num_div (num_mul (num_of_Z total) (num_of_Z w))
                                         (num_of_Z (sumZ (fun w => w) ws))) ws) as (ws & El & Hws & HW & ->).
  { unfold raw_slices. destruct (Z.ltb_spec 0 (sumZ (fun w => w) weights)).
    - exists weights. split; [done|]. split; [done|]. split; [lia|done].
    - exists (map (fun _ => 1) weights). rewrite sum_ones, length_map. split; [done|]. split; [|split; [lia|done]].
      apply List.Forall_forall. intros x Hx. apply in_map_iff in Hx as (? & <- & _). lia. }
  destruct (slices_le total ws Ht Hws HW) as [H1 H2]. cbv zeta in H1, H2.
  set (raw := map _ ws) in *. set (fs := map floorZ raw) in *.
  exists (stable_sort fraction_lt (imap (fun i v => mkFraction (num_sub v (num_of_Z (floorZ v))) i) raw)), fs.
  split; [done|]. split; [unfold fs, raw; by rewrite !length_map|]. split; [done|]. split; [done|].
  rewrite stable_sort_Permutation. apply Forall_forall. intros f Hf.
  apply elem_of_lookup_imap in Hf as (i & v & -> & Hi). apply lookup_lt_Some in Hi. cbn.
  unfold fs. by rewrite length_map.
Qed.

Lemma split_total (total : Z) (weights : list Z) :
  0 <= total < 2 ^ 31 -> Forall (fun w => 0 <= w < 2 ^ 31) weights ->
  (0 < length weights)%nat -> Z.of_nat (length weights) <= 2 ^ 20 ->
  sumZ (fun z => z) (splitProportionally total weights) = total /\
  length (splitProportionally total weights) = length weights.
Proof.
  intros Ht Hw Hl Hn. destruct (split_shape total weights Ht Hw Hl Hn) as (order & fs & -> & El & _ & Hs & HO).
  destruct (distribute_spec order (Z.to_nat (total - sumZ (fun z => z) fs)) 0 fs HO) as (-> & -> & _); lia.
Qed.

(** splitting an amount over shifts (or over payroll-period shifts) loses
    and invents nothing: one non-negative slice per weight, adding up to the
    amount to the cent, for amounts and weights in the 32-bit range and up to
    2^20 weights, all-zero weights included. *)
Theorem splitProportionally_exact (total : Z) (weights : list Z) :
  0 <= total < 2 ^ 31 -> Forall (fun w => 0 <= w < 2 ^ 31) weights ->
  (0 < length weights)%nat -> Z.of_nat (length weights) <= 2 ^ 20 ->
  let slices := splitProportionally total weights in
  sumZ (fun z => z) slices = total /\ length slices = length weights /\
  Forall (fun z => 0 <= z) slices.
Proof.
  intros Ht Hw Hl Hn slices. destruct (split_total total weights Ht Hw Hl Hn) as [H1 H2].
  split; [exact H1|]. split; [exact H2|]. unfold slices.
  destruct (split_shape total weights Ht Hw Hl Hn) as (order & fs & -> & El & H0 & _ & HO).
  apply distribute_spec; [exact HO|lia|exact H0].
Qed.

Lemma splitProportionally_exact_witness :
  sumZ (fun z => z) (splitProportionally 100 [180; 60; 0]) = 100.
Proof.
  apply (splitProportionally_exact 100 [180; 60; 0]); [lia|repeat constructor; lia|cbn; lia|cbn; lia].
Defined.

(* ------------------------------------------------------------------ *)
(** ** Conservation over a worker's day *)

Definition same_day (k : string) (s : ShiftEvidence) : bool := day_key s ==? k.

Lemma group_day_inv shifts :
  let m := shiftsByWorkerDay shifts in
  NoDup (map fst m) /\
  (forall k g, In (k, g) m -> g = List.filter (same_day k) shifts) /\
  (forall s, In s shifts -> In (day_key s) (map fst m)).
Proof.
  unfold shiftsByWorkerDay. induction shifts as [|s shifts IH] using rev_ind; cbv zeta.
  { cbn. split; [constructor|]. by split. }
  rewrite fold_left_app. cbn [fold_left]. set (m := fold_left group_day shifts []) in *.
  destruct IH as (H1 & H2 & H3). unfold group_day. set (k := day_key s).
  split; [by apply map_set_NoDup|]. split.
  - intros k' g Hin. rewrite List.filter_app. cbn [List.filter]. unfold same_day at 2. fold k.
    destruct (decide (k = k')) as [<-|Hne].
    + rewrite bd_refl.
      assert (g = nullish (map_get m k) [] ++ [s]) as ->.
      { assert (NoDup (map fst (map_set m k (nullish (map_get m k) [] ++ [s])))) as HN by by apply map_set_NoDup.
        pose proof (map_get_set_eq m k (nullish (map_get m k) [] ++ [s])) as E.
        apply AllocationEngine.map_get_In in E. revert HN E Hin. generalize (map_set m k (nullish (map_get m k) [] ++ [s])).
        intros l HN E Hin. clear -HN E Hin. induction l as [|[a b] l IH]; [done|]. cbn in HN.
        apply NoDup_cons in HN as [Hn HN]. rewrite list_elem_of_In in Hn.
        destruct E as [[= -> ->]|E], Hin as [[= ->]|Hin]; [done| | |by apply IH].
        - exfalso. apply Hn. by apply (in_map fst) in Hin.
        - subst. exfalso. apply Hn. by apply (in_map fst) in E. }
      f_equal. destruct (map_get m k) as [g0|] eqn:E; cbn [nullish].
      * by apply AllocationEngine.map_get_In, H2 in E.
      * symmetry. apply filter_none. intros x Hx. apply bool_decide_eq_false_2. intros Ex.
        pose proof (H3 x Hx) as Hk. rewrite Ex in Hk.
        destruct (AllocationEngine.map_get_Some_keys m k Hk) as [? ?]. congruence.
    + rewrite bool_decide_eq_false_2 by done. rewrite app_nil_r. apply H2.
      apply AllocationEngine.in_map_set in Hin as [[-> _]|Hin]; [done|exact Hin].
  - intros x Hx. apply map_set_keys. apply in_app_or in Hx as [Hx|[<-|[]]]; [right; auto|by left].
Qed.

Definition share (m : list (string * Z)) (s : ShiftEvidence) : Z := nullish (map_get m (shift_id s)) 0.

Lemma set_slices_other m shifts slices i :
  ~ In i (map shift_id shifts) -> map_get (set_slices m shifts slices) i = map_get m i.
Proof.
  revert m slices. induction shifts as [|s shifts IH]; intros m slices H; cbn [set_slices]; [done|].
  cbn in H. rewrite IH by tauto. apply map_get_set_ne. tauto.
Qed.

Lemma set_slices_sum m shifts slices :
  NoDup (map shift_id shifts) -> length slices = length shifts ->
  sumZ (share (set_slices m shifts slices)) shifts = sumZ (fun z => z) slices.
Proof.
  revert m slices. induction shifts as [|s shifts IH]; intros m [|z slices] HN HL; cbn [set_slices map length] in *;
    [done|done|done|].
  apply NoDup_cons in HN as [Hn HN]. rewrite list_elem_of_In in Hn. cbn [sumZ head tail nullish].
  rewrite IH by (done || lia). f_equal. unfold share. rewrite set_slices_other by done.
  by rewrite map_get_set_eq.
Qed.

(** The amounts of one worker-day that the split handles. *)
Definition splittable (amount : Z) (g : list ShiftEvidence) : Prop :=
  0 <= amount < 2 ^ 31 /\ Forall (fun s => shift_workedMinutes s < 2 ^ 31) g /\
  Z.of_nat (length g) <= 2 ^ 20.

Lemma split_day_sum m g amount :
  splittable amount g -> NoDup (map shift_id g) -> (0 < length g)%nat ->
  sumZ (share (set_slices m g (splitProportionally amount
    (map (fun s => Z.max (shift_workedMinutes s) 0) g)))) g = amount.
Proof.
  intros (HA & HM & HL) HN H0.
  destruct (split_total amount (map (fun s => Z.max (shift_workedMinutes s) 0) g)) as (S1 & S2).
  - done.
  - apply List.Forall_forall. intros x Hx. apply in_map_iff in Hx as (s & <- & Hs).
    rewrite List.Forall_forall in HM. specialize (HM s Hs). cbn in HM. lia.
  - by rewrite length_map.
  - by rewrite length_map.
  - rewrite set_slices_sum; [done|done|]. by rewrite S2, length_map.
Qed.

Definition day_allocation (batches : list BatchData) (g : list ShiftEvidence)
    : option (WorkerAllocation * list Payout) :=
  match g with
  | [] => None
  | first :: _ => find_allocation (find_batch batches (shift_businessDate first))
                    (nullish (shift_mappedWorkerId first) "null")
  end.

Lemma share_day_other batches st g i :
  ~ In i (map shift_id g) ->
  map_get (share_day batches st g).1 i = map_get st.1 i /\
  map_get (share_day batches st g).2 i = map_get st.2 i.
Proof.
  intros H. destruct g as [|first g]; [done|]. unfold share_day. cbn [fst snd].
  by rewrite !set_slices_other.
Qed.

Lemma share_days_other batches gs st i :
  (forall g, In g gs -> ~ In i (map shift_id g)) ->
  map_get (fold_left (share_day batches) gs st).1 i = map_get st.1 i /\
  map_get (fold_left (share_day batches) gs st).2 i = map_get st.2 i.
Proof.
  revert st. induction gs as [|g gs IH]; intros st H; cbn [fold_left]; [done|].
  destruct (IH (share_day batches st g)) as [-> ->]; [intros; apply H; by right|].
  apply share_day_other. apply H. by left.
Qed.

(** C16: the projection splits each worker-day's allocation and payout over that
    day's shifts without loss: the shares of the shifts of a day add up to the
    net allocation of that worker on that day, and the paid shares to the
    finalized payout. *)
Theorem day_shares_conserve batches mapped s :
  NoDup (map shift_id mapped) -> In s mapped ->
  let g := List.filter (same_day (day_key s)) mapped in
  let allocation := day_allocation batches g in
  splittable (allocated_amount allocation) g ->
  splittable (paid_amount (finalized_of allocation)) g ->
  sumZ (share (day_shares batches mapped).1) g = allocated_amount allocation /\
  sumZ (share (day_shares batches mapped).2) g = paid_amount (finalized_of allocation).
Proof.
  intros HN Hs g allocation HA HP.
  destruct (group_day_inv mapped) as (N & Hg & Hk).
  specialize (Hk s Hs). apply in_map_iff in Hk as ([k g0] & Ek & Hin). cbn in Ek. subst k.
  pose proof (Hg _ _ Hin) as Eg. fold g in Eg. subst g0.
  apply in_split in Hin as (l1 & l2 & El). unfold day_shares. rewrite El, map_app. cbn [map snd].
  rewrite fold_left_app. cbn [fold_left]. set (st := fold_left _ (map snd l1) _).
  assert (NoDup (map shift_id g)) as HNg by by apply NoDup_map_filter.
  assert (In s g) as Hsg by (apply List.filter_In; split; [done|apply bd_refl]).
  assert (0 < length g)%nat as Hlen by (destruct g; [done|cbn; lia]).
  assert (Hdisj : forall x, In x g -> forall g', In g' (map snd l2) -> ~ In (shift_id x) (map shift_id g')).
  { intros x Hx g' Hg' Hi. apply in_map_iff in Hg' as ([k' g2] & <- & Hin2). cbn [snd] in Hi.
    assert (In (k', g2) (shiftsByWorkerDay mapped)) as Hin' by (rewrite El; apply in_or_app; right; by right).
    rewrite (Hg _ _ Hin') in Hi. apply in_map_iff in Hi as (y & Ey & Hy).
    apply List.filter_In in Hy as [Hy Ky], Hx as [Hx Kx].
    apply bool_decide_eq_true in Ky, Kx.
    assert (x = y) as <-.
    { clear -HN Hx Hy Ey. induction mapped as [|z l IH]; [done|]. cbn in HN.
      apply NoDup_cons in HN as [Hn HN]. rewrite list_elem_of_In in Hn.
      destruct Hx as [->|Hx], Hy as [->|Hy]; [done| | |by apply IH]; exfalso; apply Hn.
      - rewrite <- Ey. by apply in_map.
      - rewrite Ey. by apply in_map. }
    rewrite El, map_app in N. cbn [map fst] in N. apply NoDup_app in N as (_ & _ & N).
    apply NoDup_cons in N as [Nn _]. apply Nn. rewrite list_elem_of_In, <- Kx, Ky. by apply (in_map fst) in Hin2. }
  assert (Hlast : forall x, In x g ->
    share (fold_left (share_day batches) (map snd l2) (share_day batches st g)).1 x
      = share (share_day batches st g).1 x /\
    share (fold_left (share_day batches) (map snd l2) (share_day batches st g)).2 x
      = share (share_day batches st g).2 x).
  { intros x Hx. unfold share.
    destruct (share_days_other batches (map snd l2) (share_day batches st g) (shift_id x)) as [-> ->];
      [by apply Hdisj|done]. }
  split; [transitivity (sumZ (share (share_day batches st g).1) g)
         |transitivity (sumZ (share (share_day batches st g).2) g)];
    try (apply sumZ_ext_in; intros x Hx; by apply Hlast).
  all: clear Hlast Hdisj; unfold allocation, day_allocation in *.
  all: destruct g as [|first g]; [done|]; unfold share_day; cbn [fst snd]; by apply split_day_sum.
Qed.

(* ------------------------------------------------------------------ *)
(** ** The correction ledger survives a rebuild *)

(** Corrections and superseded originals. *)
Definition ledger_entry (e : IncomeEntry) : Prop :=
  entry_correctionOfId e <> None \/ entry_effectiveStatus e = EffectiveStatus.SUPERSEDED.

(** Entries that name none of the shifts. *)
Definition elsewhere (shifts : list ShiftEvidence) (e : IncomeEntry) : Prop :=
  forall s, In s shifts -> entry_shiftId e <> Some (shift_id s).

(** Nothing is deleted, and the ledger's rows are kept as they are, and so are
    those that name none of the projected shifts. *)
Definition keeps_ledger (shifts : list ShiftEvidence) (w w' : World) : Prop :=
  (NoDup (map entry_id (w_incomeEntries w)) -> NoDup (map entry_id (w_incomeEntries w'))) /\
  (exists ext, map entry_id (w_incomeEntries w') = map entry_id (w_incomeEntries w) ++ ext) /\
  (NoDup (map entry_id (w_incomeEntries w)) ->
   forall e, In e (w_incomeEntries w) -> ledger_entry e \/ elsewhere shifts e -> In e (w_incomeEntries w')).

Definition same_entries (w w' : World) : Prop := w_incomeEntries w' = w_incomeEntries w.

#[local] Instance same_entries_preorder : PreOrder same_entries.
Proof. split; [done|]. intros w1 w2 w3 H1 H2. unfold same_entries in *. congruence. Qed.

Lemma keeps_ledger_refl shifts w w' : same_entries w w' -> keeps_ledger shifts w w'.
Proof.
  unfold same_entries, keeps_ledger. intros ->. split; [done|]. split; [|done].
  exists []. by rewrite app_nil_r.
Qed.

Lemma keeps_ledger_trans shifts w1 w2 w3 :
  keeps_ledger shifts w1 w2 -> keeps_ledger shifts w2 w3 -> keeps_ledger shifts w1 w3.
Proof.
  intros (N1 & (x1 & E1) & L1) (N2 & (x2 & E2) & L2). split; [auto|]. split; [|auto].
  exists (x1 ++ x2). by rewrite E2, E1, app_assoc.
Qed.

Section ledger.
Context `{Platform}.

Lemma rebuild_shift_ledger shifts v i acc s w :
  In s shifts -> keeps_ledger shifts w (run (rebuild_shift v i acc s) w).1.
Proof.
  intros Hs. unfold rebuild_shift. destruct acc as [n alerts].
  destruct (negb (is_mapped s)); [by apply keeps_ledger_refl|]. wexec.
  set (wid := nullish (shift_mappedWorkerId s) "").
  destruct (List.find (superseded_of wid (shift_id s)) (w_incomeEntries w)) as [x|] eqn:Es;
    [by apply keeps_ledger_refl|]. wexec.
  destruct (List.find (original_of wid (shift_id s)) (w_incomeEntries w)) as [e|] eqn:Eo; wexec.
  - destruct (List.find (by_id (entry_id e)) (w_incomeEntries w)) as [e0|];
      wexec; [|by apply keeps_ledger_refl].
    apply find_In in Eo as [He Ho]. unfold keeps_ledger. wcbn.
    assert (Hids : map entry_id (upd_where (by_id (entry_id e)) (projected_entry v wid (shift_id s)
              (project_shift i wid s)) (w_incomeEntries w)) = map entry_id (w_incomeEntries w)).
    { unfold upd_where. rewrite map_map. apply map_ext. intros r. by destruct (by_id _ r). }
    rewrite Hids. split; [done|]. split; [exists []; by rewrite app_nil_r|].
    intros HN e' He' HL. apply in_upd_where. exists e'. split; [done|].
    destruct (by_id (entry_id e) e') eqn:Eb; [|done]. exfalso.
    apply bool_decide_eq_true in Eb. cbn in Eb.
    assert (e' = e) as ->.
    { by apply (NoDup_map_inj entry_id (w_incomeEntries w)). }
    unfold original_of in Ho. apply andb_true_iff in Ho as [Hof Hc]. apply bool_decide_eq_true in Hc.
    destruct HL as [[HL|HL]|HL]; [done| |].
    2: { apply (HL s Hs). apply andb_true_iff in Hof as [_ Hof]. by apply bool_decide_eq_true in Hof. }
    apply (List.find_none _ _ Es) in He. unfold superseded_of in He.
    by rewrite Hof, HL, bd_refl in He.
  - match goal with |- context [existsb ?f ?l] => destruct (existsb f l) eqn:Ec end; wexec;
      [by apply keeps_ledger_refl|].
    unfold keeps_ledger. wcbn. rewrite map_app. cbn [map entry_id projected_entry]. split.
    + intros HN. apply NoDup_app. split; [done|]. split; [|apply NoDup_singleton].
      intros k Hk Hk'. apply list_elem_of_singleton in Hk' as ->.
      rewrite list_elem_of_In in Hk. apply in_map_iff in Hk as (e' & Ee & He').
      assert (existsb (fun b => (uuid (w_tick w) ==? entry_id b)) (w_incomeEntries w) = true) as Hx.
      { apply existsb_exists. exists e'. split; [done|]. rewrite Ee. apply bd_refl. }
      cbn in Ec. congruence.
    + split; [eauto|]. intros _ e' He' _. apply in_or_app. by left.
Qed.

Lemma rebuild_shifts_ledger all v i shifts acc w :
  incl shifts all -> keeps_ledger all w (run (fold_prog shifts acc (rebuild_shift v i)) w).1.
Proof.
  revert acc w. induction shifts as [|s shifts IH]; intros acc w Hi; cbn [fold_prog].
  - by apply keeps_ledger_refl.
  - rewrite run_bind. apply List.incl_cons_inv in Hi as [Hs Hi]. pose proof (rebuild_shift_ledger all v i acc s w Hs) as H1.
    destruct (run (rebuild_shift v i acc s) w) as [w1 [acc'|e]]; cbn [fst] in *; [|done].
    eapply keeps_ledger_trans; [exact H1|by apply IH].
Qed.

(** The shifts a rebuild projects. *)
Definition venue_shifts (v : string) (w : World) : list ShiftEvidence :=
  List.filter (fun s => shift_venueId s ==? v) (w_shifts w).

Lemma create_alert_entries v a : guar same_entries (create_alert v a).
Proof.
  unfold create_alert. apply guar_bind; [by intros w|]. intros i.
  apply guar_bind; [by intros w|]. intros t. apply guar_bind; [|done].
  apply guar_act. intros w. by destruct (existsb _ _).
Qed.

Lemma audit_entries o v a act_ ty i d : guar same_entries (audit o v a act_ ty i d).
Proof.
  unfold audit. apply guar_bind; [by intros w|]. intros k.
  apply guar_act. intros w. by destruct (existsb _ _).
Qed.

Lemma rebuildLocked_ledger v actor src w : keeps_ledger (venue_shifts v w) w (run (rebuildVenueIncomeLocked v actor src) w).1.
Proof.
  unfold rebuildVenueIncomeLocked. wexec.
  match goal with |- context [run (fold_prog ?xs ?acc ?body) w] =>
    pose proof (rebuild_shifts_ledger (venue_shifts v w) v (projection_inputs (List.filter (fun s => shift_venueId s ==? v) (w_shifts w))
      (List.filter (fun t => tip_venueId t ==? v) (w_tips w))
      (map (batch_data w) (List.filter (fun b => (batch_venueId b ==? v) && includes projectable (batch_status b)) (w_batches w)))
      (List.filter (fun r => payroll_venueId r ==? v) (w_payrollRecords w))) xs acc w (List.incl_refl _)) as HL;
    destruct (run (fold_prog xs acc body) w) as [w1 [[n alerts]|e]]
  end; cbn [fst] in *; [|exact HL].
  eapply keeps_ledger_trans; [exact HL|]. apply keeps_ledger_refl.
  rewrite run_bind, run_deleteMany. cbv beta iota.
  etransitivity; [|apply (guar_run same_entries (bind _ _))]; [reflexivity|].
  apply guar_bind; [apply guar_for_each; apply create_alert_entries|]. intros _.
  apply guar_bind; [apply audit_entries|done].
Qed.

Lemma rebuild_ledger v actor src w : keeps_ledger (venue_shifts v w) w (run (rebuildVenueIncome v actor src) w).1.
Proof.
  unfold rebuildVenueIncome. rewrite run_transaction. wexec.
  destruct (List.find (by_id v) (w_venues w)); [|by apply keeps_ledger_refl]. wexec.
  pose proof (rebuildLocked_ledger v actor src w) as HL.
  destruct (run (rebuildVenueIncomeLocked v actor src) w) as [w1 [x|e]]; cbn [fst] in *; wexec;
    [done|by apply keeps_ledger_refl].
Qed.

(** C30: a rebuild, whatever it answers, never deletes an income entry and never
    changes a correction or a superseded original, nor an entry of other shifts than
    those of the venue: the correction ledger survives it.  (The rebuild is one
    transaction, which runs alone here.) *)
Theorem rebuild_keeps_ledger v actor src w w' r :
  run (rebuildVenueIncome v actor src) w = (w', r) ->
  NoDup (map entry_id (w_incomeEntries w)) ->
  (exists ext, map entry_id (w_incomeEntries w') = map entry_id (w_incomeEntries w) ++ ext) /\
  forall e, In e (w_incomeEntries w) -> ledger_entry e \/ elsewhere (venue_shifts v w) e -> In e (w_incomeEntries w').
Proof.
  intros E HN. destruct (rebuild_ledger v actor src w) as (_ & Hx & Hl). rewrite E in Hx, Hl. by split; [|apply Hl].
Qed.
End ledger.

(** A rebuild leaves the evidence and the money alone: it writes income
    entries, alerts and the audit log only. *)
Definition same_money (w w' : World) : Prop :=
  w_payouts w' = w_payouts w /\ w_allocations w' = w_allocations w /\
  w_batches w' = w_batches w /\ w_effects w' = w_effects w /\
  w_tips w' = w_tips w /\ w_shifts w' = w_shifts w.

#[global] Instance same_money_preorder : PreOrder same_money.
Proof.
  split; [by repeat split|]. unfold same_money. intros w1 w2 w3 H1 H2.
  repeat match goal with H : _ /\ _ |- _ => destruct H end. repeat split; congruence.
Qed.

Section same_money.
Context `{Platform}.

Lemma rebuild_same_money v actor src : guar same_money (rebuildVenueIncome v actor src).
Proof.
  unfold rebuildVenueIncome, rebuildVenueIncomeLocked, rebuild_shift, create_alert, audit. guar_at same_money.
Qed.
End same_money.

(* ------------------------------------------------------------------ *)
(** ** An approved day with a corrected entry *)

Definition demo_entry (id : string) (status : EffectiveStatus.t) (correctionOf : option string) : IncomeEntry :=
  mkIncomeEntry id "w1" "v" (Some "s1") None 0 334 0 0 WithholdingStatus.UNKNOWN None EvidenceGrade.D
    status None correctionOf None 0.

Definition demo_corrected : World :=
  AllocationsService.demo_approved
    <| w_incomeEntries := [demo_entry "e1" EffectiveStatus.SUPERSEDED None;
                           demo_entry "e2" EffectiveStatus.ACTIVE (Some "e1")] |>.

Lemma rebuild_keeps_ledger_witness :
  exists w' r, run (rebuildVenueIncome "v" None "SYSTEM") demo_corrected = (w', Ok (Some r)) /\
    length (w_incomeEntries w') = 3%nat /\
    In (demo_entry "e1" EffectiveStatus.SUPERSEDED None) (w_incomeEntries w').
Proof.
  destruct (run (rebuildVenueIncome "v" None "SYSTEM") demo_corrected) as [w' [[r|]|e]] eqn:E.
  - exists w', r. split; [done|].
    destruct (rebuild_keeps_ledger _ _ _ _ _ _ E) as [_ HL];
      [apply (bool_decide_unpack _); vm_compute; done|].
    split; [|apply HL; [by left|by left; right]].
    apply (f_equal (fun c => length (w_incomeEntries c.1))) in E. vm_compute in E. symmetry. exact E.
  - apply (f_equal (fun c => match c.2 with Ok (Some _) => true | _ => false end)) in E.
    vm_compute in E. discriminate E.
  - apply (f_equal (fun c => is_ok c.2)) in E. vm_compute in E. discriminate E.
Defined.

Lemma day_shares_conserve_witness :
  let mapped := List.filter is_mapped (w_shifts demo_corrected) in
  let batches := map (batch_data demo_corrected) (w_batches demo_corrected) in
  exists s, In s mapped /\
    sumZ (share (day_shares batches mapped).1) (List.filter (same_day (day_key s)) mapped) = 334.
Proof.
  cbv zeta. eexists. split; [left; reflexivity|].
  etransitivity.
  - refine (proj1 (day_shares_conserve _ _ _ _ _ _ _)).
    + apply (bool_decide_unpack _). vm_compute. done.
    + left. reflexivity.
    + split; [vm_compute; done|]. split; [|vm_compute; done]. repeat constructor.
    + split; [vm_compute; done|]. split; [|vm_compute; done]. repeat constructor.
  - vm_compute. reflexivity.
Defined.

End IncomeProjector.
