(* ===== verification/OnChain.v ===== *)
(** * The settlement program

    onchain/programs/serveproof/src/lib.rs: the Anchor program that holds the
    tokens of the venues and pays them out against settlement records.  A ledger
    maps addresses to accounts; an instruction with its accounts and signers
    either fails, and then leaves the ledger as it was, or changes it.  The
    attributes of the account structs (seeds, bump, address, init,
    associated_token, constraint) are written out as the checks they stand for:
    first the accounts that are not created are loaded, then accounts are
    created, then the constraints are checked, each in the order of the fields.
    The check of Anchor against one account passed twice as mutable is left out: it
    only refuses more.

    Solana and the token program are the interface [Runtime]: the derivation of
    addresses and the effect of a transfer, with their documented laws in
    [RuntimeLaws].  Between two instructions other programs run ([foreign_account]): they
    neither change accounts the program owns nor take tokens from an account
    whose owner is an address only the program can sign for.

    [settled_once]: a payment is settled at most once, and its record stays.
    [vault_accounted]: tokens leave a vault only against settlement records.
    [settle_payout_spec]: what a settlement has checked and done. *)

From stdpp Require Import relations gmap fin_maps.
From S2P Require Import Prelude Strings.

Open Scope Z_scope.

Module Serveproof.

Definition Pubkey : Type := string.
(** [[u8; 32]] *)
Definition bytes32 : Type := list Z.
Definition zero32 : bytes32 := repeat 0 32.

Inductive seed := Literal (s : string) | Bytes (b : bytes32) | Key (k : Pubkey).

Definition CONFIG_SEED : seed := Literal "config".
Definition VENUE_SEED : seed := Literal "venue".
Definition VAULT_AUTHORITY_SEED : seed := Literal "vault_authority".
Definition SETTLEMENT_SEED : seed := Literal "settlement".

Definition SETTLEMENT_STATUS_SETTLED : Z := 1.
Definition SETTLEMENT_STATUS_CORRECTED : Z := 2.
Definition SETTLEMENT_STATUS_DISPUTED : Z := 3.

(* ------------------------------------------------------------------ *)
(** ** Accounts *)

Record GlobalConfig := mkConfig {
  config_admin : Pubkey;
  config_usdc_mint : Pubkey;
  config_paused : bool;
  config_version : Z;
  config_bump : Z
}.
#[export] Instance eta_GlobalConfig : Eta GlobalConfig := fun r => mkConfig
  (config_admin r) (config_usdc_mint r) (config_paused r) (config_version r) (config_bump r).

Record Venue := mkVenue {
  venue_id_hash : bytes32;
  venue_authority : Pubkey;
  venue_vault_authority : Pubkey;
  venue_active : bool;
  venue_created_at : Z;
  venue_bump : Z
}.

Record SettlementRecord := mkRecord {
  payment_id_hash : bytes32;
  allocation_hash : bytes32;
  record_venue : Pubkey;
  worker_wallet : Pubkey;
  record_amount : Z;
  record_status : Z;
  settled_at : Z;
  correction_reference : bytes32;
  record_bump : Z
}.
#[export] Instance eta_SettlementRecord : Eta SettlementRecord := fun r => mkRecord
  (payment_id_hash r) (allocation_hash r) (record_venue r) (worker_wallet r) (record_amount r) (record_status r)
  (settled_at r) (correction_reference r) (record_bump r).

(** The fields of the token program's accounts that are read here, and whether
    the account is frozen, on which a transfer depends. *)
Record Token := mkToken { token_mint : Pubkey; token_owner : Pubkey; token_amount : Z; token_frozen : bool }.
#[export] Instance eta_Token : Eta Token := fun r =>
  mkToken (token_mint r) (token_owner r) (token_amount r) (token_frozen r).
Record Mint := mkMint { mint_decimals : Z }.

(** [Other]: an account of some other program.  Plain wallets are not accounts
    here: creating an account at their address is not refused. *)
Inductive account :=
| ConfigAccount (c : GlobalConfig)
| VenueAccount (v : Venue)
| SettlementAccount (r : SettlementRecord)
| TokenAccount (t : Token)
| MintAccount (m : Mint)
| Other.

Notation accounts := (gmap Pubkey account).

Inductive event :=
| PayoutSettled (payment_id_hash allocation_hash : bytes32) (venue worker_wallet : Pubkey) (amount : Z)
| VenueRegistered (venue : Pubkey) (venue_id_hash : bytes32) (venue_authority : Pubkey)
| VaultInitialized (venue vault : Pubkey)
| SettlementCorrected (payment_id_hash correction_hash : bytes32) (disputed : bool)
| ProgramPaused (paused : bool).

Record Ledger := mkLedger { ledger_accounts : accounts; ledger_events : list event }.

Inductive SpError :=
| ProtocolPaused | VenueInactive | Unauthorized | InvalidMint | InsufficientVaultBalance
| ZeroAllocationHash | ZeroAmount | VenueMismatch.

(** The errors of the program, of Anchor's checks, of creating an account and of
    the token program. *)
Inductive program_error :=
| Custom (e : SpError)
| AccountNotInitialized | AccountNotSigner | ConstraintSeeds | ConstraintAssociated | ConstraintTokenOwner
| ConstraintTokenMint | AccountNotAssociatedTokenAccount
| AlreadyInUse | CannotPay | TokenError.

Definition outcome (A : Type) : Type := program_error + A.
Definition obind {A B} (m : outcome A) (f : A -> outcome B) : outcome B :=
  match m with inl e => inl e | inr a => f a end.
Definition check (b : bool) (e : program_error) : outcome unit := if b then inr tt else inl e.
Notation "'let?' x := m 'in' k" := (obind m (fun x => k)) (at level 200, x name, m at level 100, k at level 200).
Notation "'let?' ' pat := m 'in' k" := (obind m (fun x => match x with pat => k end))
  (at level 200, pat strict pattern, m at level 100, k at level 200).
Notation "'do?' m 'in' k" := (obind m (fun _ => k)) (at level 200, m at level 100, k at level 200).

Class Runtime := {
  (** [Pubkey::find_program_address(seeds, program)]: the address and its bump *)
  find_program_address : list seed -> Pubkey * Z;
  (** the address of seeds with a given bump, if it is one *)
  create_program_address : list seed -> Z -> option Pubkey;
  (** the associated token account of a mint and an owner *)
  associated_token : Pubkey -> Pubkey -> Pubkey;
  (** [transfer_checked] of the token program: from, mint, to, authority, amount,
      decimals; [None] when it fails *)
  transfer_checked : accounts -> Pubkey -> Pubkey -> Pubkey -> Pubkey -> Z -> Z -> option accounts
}.

(** What a transaction is executed with: its signers, the clock, and who can pay
    the rent of new accounts. *)
Record Context := mkContext {
  signers : list Pubkey;
  unix_timestamp : Z;
  can_pay : Pubkey -> bool
}.

Section program.
Context `{Runtime}.

Definition vault_authority_of (venue : Pubkey) : Pubkey := (find_program_address [VAULT_AUTHORITY_SEED; Key venue]).1.
Definition settlement_address (payment : bytes32) : Pubkey := (find_program_address [SETTLEMENT_SEED; Bytes payment]).1.

(* ------------------------------------------------------------------ *)
(** ** What the account attributes check *)

(** [Account<T>] *)
Definition load_config (m : accounts) (k : Pubkey) : outcome GlobalConfig :=
  match m !! k with Some (ConfigAccount c) => inr c | _ => inl AccountNotInitialized end.
Definition load_venue (m : accounts) (k : Pubkey) : outcome Venue :=
  match m !! k with Some (VenueAccount v) => inr v | _ => inl AccountNotInitialized end.
Definition load_record (m : accounts) (k : Pubkey) : outcome SettlementRecord :=
  match m !! k with Some (SettlementAccount r) => inr r | _ => inl AccountNotInitialized end.
Definition load_token (m : accounts) (k : Pubkey) : outcome Token :=
  match m !! k with Some (TokenAccount t) => inr t | _ => inl AccountNotInitialized end.
Definition load_mint (m : accounts) (k : Pubkey) : outcome Mint :=
  match m !! k with Some (MintAccount x) => inr x | _ => inl AccountNotInitialized end.

(** [Signer] *)
Definition signer (ctx : Context) (k : Pubkey) : outcome unit := check (includes (signers ctx) k) AccountNotSigner.

(** [seeds = ..., bump = stored] *)
Definition seeds_with_bump (k : Pubkey) (seeds : list seed) (bump : Z) : outcome unit :=
  check (create_program_address seeds bump ==? Some k) ConstraintSeeds.
(** [seeds = ..., bump] *)
Definition seeds_found (k : Pubkey) (seeds : list seed) : outcome unit :=
  check ((find_program_address seeds).1 ==? k) ConstraintSeeds.

Definition absent (m : accounts) (k : Pubkey) : bool := match m !! k with None => true | Some _ => false end.

(** [init, payer, seeds, bump]: the bump of the account that is created *)
Definition init (ctx : Context) (m : accounts) (k : Pubkey) (seeds : list seed) (payer : Pubkey) : outcome Z :=
  do? seeds_found k seeds in
  do? check (absent m k) AlreadyInUse in
  do? check (can_pay ctx payer) CannotPay in
  inr (find_program_address seeds).2.

(** [init, payer, associated_token::mint, associated_token::authority] *)
Definition init_associated (ctx : Context) (m : accounts) (k mint owner payer : Pubkey) : outcome accounts :=
  do? check (k ==? associated_token mint owner) ConstraintAssociated in
  do? check (absent m k) AlreadyInUse in
  do? check (can_pay ctx payer) CannotPay in
  inr (<[k := TokenAccount (mkToken mint owner 0 false)]> m).

(** [associated_token::mint, associated_token::authority] of an account that
    is there *)
Definition is_associated (t : Token) (k mint owner : Pubkey) : outcome unit :=
  do? check (token_owner t ==? owner) ConstraintTokenOwner in
  check (k ==? associated_token mint owner) ConstraintAssociated.

(** [init_if_needed]: of an account that is there its mint, its owner and its
    address are checked. *)
Definition init_associated_if_needed (ctx : Context) (m : accounts) (k mint owner payer : Pubkey) : outcome accounts :=
  match m !! k with
  | None => init_associated ctx m k mint owner payer
  | Some (TokenAccount t) =>
      do? check (token_mint t ==? mint) ConstraintTokenMint in
      do? check (token_owner t ==? owner) ConstraintTokenOwner in
      do? check (k ==? associated_token mint owner) AccountNotAssociatedTokenAccount in
      inr m
  | Some _ => inl AccountNotInitialized
  end.

Definition emit (e : event) (m : accounts) (l : Ledger) : Ledger := mkLedger m (ledger_events l ++ [e]).

(* ------------------------------------------------------------------ *)
(** ** Instructions *)

Record InitializeConfig := mkInitializeConfig { ic_config : Pubkey; ic_usdc_mint : Pubkey; ic_admin : Pubkey }.

Definition initialize_config (ctx : Context) (a : InitializeConfig) (l : Ledger) : outcome Ledger :=
  let m := ledger_accounts l in
  do? load_mint m (ic_usdc_mint a) in
  do? signer ctx (ic_admin a) in
  let? bump := init ctx m (ic_config a) [CONFIG_SEED] (ic_admin a) in
  inr (mkLedger (<[ic_config a := ConfigAccount (mkConfig (ic_admin a) (ic_usdc_mint a) false 1 bump)]> m)
         (ledger_events l)).

Record RegisterVenue := mkRegisterVenue { rv_config : Pubkey; rv_venue : Pubkey; rv_admin : Pubkey }.

Definition register_venue (ctx : Context) (a : RegisterVenue) (id_hash : bytes32) (authority : Pubkey) (l : Ledger) :
    outcome Ledger :=
  let m := ledger_accounts l in
  let? config := load_config m (rv_config a) in
  do? signer ctx (rv_admin a) in
  let? bump := init ctx m (rv_venue a) [VENUE_SEED; Bytes id_hash] (rv_admin a) in
  do? seeds_with_bump (rv_config a) [CONFIG_SEED] (config_bump config) in
  do? check (rv_admin a ==? config_admin config) (Custom Unauthorized) in
  let venue := mkVenue id_hash authority (vault_authority_of (rv_venue a)) true (unix_timestamp ctx) bump in
  inr (emit (VenueRegistered (rv_venue a) id_hash authority) (<[rv_venue a := VenueAccount venue]> m) l).

Record InitializeVenueVault := mkInitializeVenueVault {
  iv_config : Pubkey;
  iv_venue : Pubkey;
  iv_vault_authority : Pubkey;
  iv_usdc_mint : Pubkey;
  iv_venue_vault : Pubkey;
  iv_payer : Pubkey
}.

Definition initialize_venue_vault (ctx : Context) (a : InitializeVenueVault) (l : Ledger) : outcome Ledger :=
  let m := ledger_accounts l in
  let? config := load_config m (iv_config a) in
  let? venue := load_venue m (iv_venue a) in
  do? load_mint m (iv_usdc_mint a) in
  do? signer ctx (iv_payer a) in
  let? m' := init_associated ctx m (iv_venue_vault a) (iv_usdc_mint a) (iv_vault_authority a) (iv_payer a) in
  do? seeds_with_bump (iv_config a) [CONFIG_SEED] (config_bump config) in
  do? seeds_with_bump (iv_venue a) [VENUE_SEED; Bytes (venue_id_hash venue)] (venue_bump venue) in
  do? seeds_found (iv_vault_authority a) [VAULT_AUTHORITY_SEED; Key (iv_venue a)] in
  do? check (iv_usdc_mint a ==? config_usdc_mint config) (Custom InvalidMint) in
  inr (emit (VaultInitialized (iv_venue a) (iv_venue_vault a)) m' l).

Record SettlePayout := mkSettlePayout {
  sp_config : Pubkey;
  sp_venue : Pubkey;
  sp_venue_authority : Pubkey;
  sp_vault_authority : Pubkey;
  sp_venue_vault : Pubkey;
  sp_worker_wallet : Pubkey;
  sp_worker_token_account : Pubkey;
  sp_settlement_record : Pubkey;
  sp_usdc_mint : Pubkey
}.

(** The constraints of [SettlePayout]: the config, the vault, the mint, the
    accounts with the worker's token account, and the bump of the record. *)
Definition settle_accounts (ctx : Context) (a : SettlePayout) (payment : bytes32) (m : accounts) :
    outcome (GlobalConfig * Venue * Token * Mint * accounts * Z) :=
  let? config := load_config m (sp_config a) in
  let? venue := load_venue m (sp_venue a) in
  do? signer ctx (sp_venue_authority a) in
  let? vault := load_token m (sp_venue_vault a) in
  let? mint := load_mint m (sp_usdc_mint a) in
  let? m1 := init_associated_if_needed ctx m (sp_worker_token_account a) (sp_usdc_mint a) (sp_worker_wallet a)
               (sp_venue_authority a) in
  let? bump := init ctx m1 (sp_settlement_record a) [SETTLEMENT_SEED; Bytes payment] (sp_venue_authority a) in
  do? seeds_with_bump (sp_config a) [CONFIG_SEED] (config_bump config) in
  do? seeds_with_bump (sp_venue a) [VENUE_SEED; Bytes (venue_id_hash venue)] (venue_bump venue) in
  do? check (sp_venue_authority a ==? venue_authority venue) (Custom Unauthorized) in
  do? seeds_found (sp_vault_authority a) [VAULT_AUTHORITY_SEED; Key (sp_venue a)] in
  do? is_associated vault (sp_venue_vault a) (sp_usdc_mint a) (sp_vault_authority a) in
  do? check (sp_usdc_mint a ==? config_usdc_mint config) (Custom InvalidMint) in
  inr (config, venue, vault, mint, m1, bump).

Definition settle_payout (ctx : Context) (a : SettlePayout) (payment allocation : bytes32) (amount : Z) (l : Ledger) :
    outcome Ledger :=
  let? ' (config, venue, vault, mint, m1, bump) := settle_accounts ctx a payment (ledger_accounts l) in
  do? check (negb (config_paused config)) (Custom ProtocolPaused) in
  do? check (venue_active venue) (Custom VenueInactive) in
  do? check (amount <=? token_amount vault) (Custom InsufficientVaultBalance) in
  do? check (allocation !=? zero32) (Custom ZeroAllocationHash) in
  do? check (0 <? amount) (Custom ZeroAmount) in
  match transfer_checked m1 (sp_venue_vault a) (sp_usdc_mint a) (sp_worker_token_account a) (sp_vault_authority a)
          amount (mint_decimals mint) with
  | None => inl TokenError
  | Some m2 =>
      let record := mkRecord payment allocation (sp_venue a) (sp_worker_wallet a) amount SETTLEMENT_STATUS_SETTLED
                      (unix_timestamp ctx) zero32 bump in
      inr (emit (PayoutSettled payment allocation (sp_venue a) (sp_worker_wallet a) amount)
             (<[sp_settlement_record a := SettlementAccount record]> m2) l)
  end.

Record MarkCorrected := mkMarkCorrected {
  mc_config : Pubkey;
  mc_venue : Pubkey;
  mc_settlement_record : Pubkey;
  mc_authority : Pubkey
}.

Definition mark_corrected (ctx : Context) (a : MarkCorrected) (payment correction : bytes32) (disputed : bool)
    (l : Ledger) : outcome Ledger :=
  let m := ledger_accounts l in
  let? config := load_config m (mc_config a) in
  let? venue := load_venue m (mc_venue a) in
  let? record := load_record m (mc_settlement_record a) in
  do? signer ctx (mc_authority a) in
  do? seeds_with_bump (mc_config a) [CONFIG_SEED] (config_bump config) in
  do? seeds_with_bump (mc_venue a) [VENUE_SEED; Bytes (venue_id_hash venue)] (venue_bump venue) in
  do? seeds_with_bump (mc_settlement_record a) [SETTLEMENT_SEED; Bytes payment] (record_bump record) in
  do? check (record_venue record ==? mc_venue a) (Custom VenueMismatch) in
  do? check ((mc_authority a ==? venue_authority venue) || (mc_authority a ==? config_admin config)) (Custom Unauthorized) in
  let record' := record <| record_status := if disputed then SETTLEMENT_STATUS_DISPUTED else SETTLEMENT_STATUS_CORRECTED |>
                        <| correction_reference := correction |> in
  inr (emit (SettlementCorrected (payment_id_hash record) correction disputed)
         (<[mc_settlement_record a := SettlementAccount record']> m) l).

Record SetPaused := mkSetPaused { st_config : Pubkey; st_admin : Pubkey }.

Definition set_paused (paused : bool) (ctx : Context) (a : SetPaused) (l : Ledger) : outcome Ledger :=
  let m := ledger_accounts l in
  let? config := load_config m (st_config a) in
  do? signer ctx (st_admin a) in
  do? seeds_with_bump (st_config a) [CONFIG_SEED] (config_bump config) in
  do? check (st_admin a ==? config_admin config) (Custom Unauthorized) in
  inr (emit (ProgramPaused paused) (<[st_config a := ConfigAccount (config <| config_paused := paused |>)]> m) l).

Definition pause : Context -> SetPaused -> Ledger -> outcome Ledger := set_paused true.
Definition unpause : Context -> SetPaused -> Ledger -> outcome Ledger := set_paused false.

Inductive instruction :=
| IInitializeConfig (a : InitializeConfig)
| IRegisterVenue (a : RegisterVenue) (id_hash : bytes32) (authority : Pubkey)
| IInitializeVenueVault (a : InitializeVenueVault)
| ISettlePayout (a : SettlePayout) (payment allocation : bytes32) (amount : Z)
| IMarkCorrected (a : MarkCorrected) (payment correction : bytes32) (disputed : bool)
| IPause (a : SetPaused)
| IUnpause (a : SetPaused).

(** The entrypoint of the program. *)
Definition process (ctx : Context) (i : instruction) (l : Ledger) : outcome Ledger :=
  match i with
  | IInitializeConfig a => initialize_config ctx a l
  | IRegisterVenue a id_hash authority => register_venue ctx a id_hash authority l
  | IInitializeVenueVault a => initialize_venue_vault ctx a l
  | ISettlePayout a payment allocation amount => settle_payout ctx a payment allocation amount l
  | IMarkCorrected a payment correction disputed => mark_corrected ctx a payment correction disputed l
  | IPause a => pause ctx a l
  | IUnpause a => unpause ctx a l
  end.

(** A transaction: all its instructions or none. *)
Fixpoint execute (ctx : Context) (l : Ledger) (ixs : list instruction) : outcome Ledger :=
  match ixs with
  | [] => inr l
  | i :: ixs' => let? l' := process ctx i l in execute ctx l' ixs'
  end.

(* ------------------------------------------------------------------ *)
(** ** What other programs can do *)

(** The accounts this program owns. *)
Definition program_owned (a : account) : bool :=
  match a with ConfigAccount _ | VenueAccount _ | SettlementAccount _ => true | _ => false end.

(** An address of the vault authorities. *)
Definition is_vault_authority (k : Pubkey) : Prop := exists venue, k = vault_authority_of venue.

(** One account before and after instructions of other programs. *)
Definition foreign_account (before after : option account) : Prop :=
  (forall a, program_owned a = true -> before = Some a <-> after = Some a) /\
  (forall t, before = Some (TokenAccount t) -> is_vault_authority (token_owner t) ->
   exists t', after = Some (TokenAccount t') /\ token_mint t' = token_mint t /\ token_owner t' = token_owner t /\
              token_amount t <= token_amount t').

(** The program runs an instruction, or other programs run theirs. *)
Inductive step : Ledger -> Ledger -> Prop :=
| step_process ctx i l l' : process ctx i l = inr l' -> step l l'
| step_foreign l m' : (forall k, foreign_account (ledger_accounts l !! k) (m' !! k)) ->
                      step l (mkLedger m' (ledger_events l)).

(** Before the program has run. *)
Definition genesis (l : Ledger) : Prop :=
  (forall k a, ledger_accounts l !! k = Some a -> program_owned a = false) /\ ledger_events l = [].

Definition settled_payment (e : event) : option bytes32 :=
  match e with PayoutSettled p _ _ _ _ => Some p | _ => None end.
(** The payments of the [PayoutSettled] events. *)
Definition settled_payments (l : Ledger) : list bytes32 := omap settled_payment (ledger_events l).

(** What a settlement leaves on the ledger, whatever has been corrected since. *)
Definition records (r : SettlementRecord) (e : event) : Prop :=
  e = PayoutSettled (payment_id_hash r) (allocation_hash r) (record_venue r) (worker_wallet r) (record_amount r).

(* ------------------------------------------------------------------ *)
(** ** Amounts *)

(** What an account adds to the settled amount of a vault authority. *)
Definition settled_by (authority : Pubkey) (a : account) : Z :=
  match a with
  | SettlementAccount r => if vault_authority_of (record_venue r) ==? authority then record_amount r else 0
  | _ => 0
  end.
Definition token_held (mint : Pubkey) (a : account) : Z :=
  match a with TokenAccount t => if token_mint t ==? mint then token_amount t else 0 | _ => 0 end.

Definition total (f : account -> Z) (m : accounts) : Z := map_fold (fun _ a s => f a + s) 0 m.
(** The amounts of the settlement records of a vault authority. *)
Definition settled (authority : Pubkey) (m : accounts) : Z := total (settled_by authority) m.
(** The tokens of a mint. *)
Definition supply (mint : Pubkey) (m : accounts) : Z := total (token_held mint) m.

Definition held (k : Pubkey) (m : accounts) : Z :=
  match m !! k with Some (TokenAccount t) => token_amount t | _ => 0 end.
(* ------------------------------------------------------------------ *)
(** ** What a step promises *)

(** A settlement record changes in its status and correction reference only. *)
Definition same_settlement (r r' : SettlementRecord) : Prop :=
  r' = r <| record_status := record_status r' |> <| correction_reference := correction_reference r' |>.
Definition same_record (before after : option account) : Prop :=
  match before, after with
  | Some (SettlementAccount r), Some (SettlementAccount r') => same_settlement r r'
  | Some (SettlementAccount _), _ | _, Some (SettlementAccount _) => False
  | _, _ => True
  end.

(** A token account of a vault authority keeps its mint and owner, and loses at
    most what [paid] grants its owner. *)
Definition kept_token (paid : Pubkey -> Z) (before after : option account) : Prop :=
  forall t, before = Some (TokenAccount t) -> is_vault_authority (token_owner t) ->
  exists t', after = Some (TokenAccount t') /\ token_mint t' = token_mint t /\ token_owner t' = token_owner t /\
             token_amount t <= token_amount t' + paid (token_owner t).

(** Nothing is settled and nothing leaves a vault. *)
Definition quiet (l l' : Ledger) : Prop :=
  (exists es, ledger_events l' = ledger_events l ++ es /\ omap settled_payment es = []) /\
  forall k, same_record (ledger_accounts l !! k) (ledger_accounts l' !! k) /\
            kept_token (fun _ => 0) (ledger_accounts l !! k) (ledger_accounts l' !! k).

(** One settlement is recorded, and at most its amount leaves its venue's vault. *)
Definition settles (r : SettlementRecord) (l l' : Ledger) : Prop :=
  let k := settlement_address (payment_id_hash r) in
  let paid owner := if owner ==? vault_authority_of (record_venue r) then record_amount r else 0 in
  ledger_accounts l !! k = None /\ ledger_accounts l' !! k = Some (SettlementAccount r) /\ 0 < record_amount r /\
  (exists e, records r e /\ ledger_events l' = ledger_events l ++ [e]) /\
  forall j, (j <> k -> same_record (ledger_accounts l !! j) (ledger_accounts l' !! j)) /\
            kept_token paid (ledger_accounts l !! j) (ledger_accounts l' !! j).
End program.

(** The token program and the derivation of addresses, as they are documented. *)
Class RuntimeLaws `{Runtime} := {
  create_found : forall seeds,
    create_program_address seeds (find_program_address seeds).2 = Some (find_program_address seeds).1;
  transfer_effect : forall m from mint to authority n d m',
    transfer_checked m from mint to authority n d = Some m' ->
    exists f t, m !! from = Some (TokenAccount f) /\ m !! to = Some (TokenAccount t) /\
      token_mint f = mint /\ token_mint t = mint /\ n <= token_amount f /\
      (from = to -> m' = m) /\
      (from <> to -> m' = <[to := TokenAccount (t <| token_amount ::= (fun b => b + n) |>)]>
                       (<[from := TokenAccount (f <| token_amount ::= (fun b => b - n) |>)]> m));
  transfer_done : forall m from mint to authority n f t x,
    m !! from = Some (TokenAccount f) -> m !! to = Some (TokenAccount t) -> m !! mint = Some (MintAccount x) ->
    token_mint f = mint -> token_mint t = mint -> token_owner f = authority ->
    token_frozen f = false -> token_frozen t = false ->
    0 <= n <= token_amount f -> token_amount t + n < 2 ^ 64 ->
    is_Some (transfer_checked m from mint to authority n (mint_decimals x))
}.

(* ------------------------------------------------------------------ *)
(** ** Lemmas *)

(** Takes a successful run apart into its checks. *)
Lemma check_inr b e u : check b e = inr u -> b = true.
Proof. destruct b; [done|discriminate]. Qed.
Ltac peel :=
  repeat match goal with
  | H : obind ?m _ = inr _ |- _ => let E := fresh "E" in destruct m eqn:E; cbn [obind] in H; [discriminate H|]
  | H : check _ _ = inr _ |- _ => apply check_inr in H
  | H : inr _ = inr _ |- _ => injection H as H; subst
  | H : inl _ = inr _ |- _ => discriminate H
  | H : bool_decide _ = true |- _ => apply bool_decide_eq_true_1 in H; subst
  | p : (_ * _)%type |- _ => destruct p
  end.

Section totals.
Implicit Types (m : gmap Pubkey account) (f : account -> Z).

Lemma total_insert_fresh f m k a : m !! k = None -> total f (<[k := a]> m) = f a + total f m.
Proof. intros Hk. apply (map_fold_insert_L (fun _ a s => f a + s) 0 k a m); [intros; lia|done]. Qed.

Lemma total_delete f m k : total f m = from_option f 0 (m !! k) + total f (base.delete k m).
Proof.
  destruct (m !! k) as [a|] eqn:Hk; cbn.
  - rewrite <- (insert_delete_id m k a Hk) at 1. apply total_insert_fresh, lookup_delete_eq.
  - by rewrite (delete_id m k Hk).
Qed.

Lemma total_insert f m k a : total f (<[k := a]> m) + from_option f 0 (m !! k) = f a + total f m.
Proof.
  rewrite (total_delete f m k), (total_delete f (<[k := a]> m) k), lookup_insert_eq, delete_insert_eq. cbn. lia.
Qed.

(** Only the contributions matter. *)
Lemma total_ext f m m' :
  (forall k, from_option f 0 (m !! k) = from_option f 0 (m' !! k)) -> total f m = total f m'.
Proof.
  revert m'. induction m as [|k a m Hk IH] using map_ind; intros m'.
  - induction m' as [|k a m' Hk IH] using map_ind; intros Heq; [done|].
    rewrite total_insert_fresh by done. rewrite <- IH.
    + specialize (Heq k). rewrite lookup_empty, lookup_insert_eq in Heq. cbn in Heq. lia.
    + intros j. specialize (Heq j). rewrite lookup_empty in *. destruct (decide (k = j)) as [<-|Hne].
      * by rewrite Hk.
      * by rewrite lookup_insert_ne in Heq by done.
  - intros Heq. rewrite total_insert_fresh by done. rewrite (total_delete f m' k), <- (IH (base.delete k m')).
    + specialize (Heq k). rewrite lookup_insert_eq in Heq. cbn in Heq. lia.
    + intros j. specialize (Heq j). destruct (decide (k = j)) as [<-|Hne].
      * by rewrite Hk, lookup_delete_eq.
      * by rewrite lookup_insert_ne in Heq; [rewrite lookup_delete_ne|].
Qed.
End totals.

Section steps.
Context `{RuntimeLaws}.
Implicit Types (m : gmap Pubkey account) (l : Ledger).

(** The checks and the effect of a settlement. *)
Record settlement_made (ctx : Context) (a : SettlePayout) (payment allocation : bytes32) (amount : Z) m m'
    (config : GlobalConfig) (venue : Venue) (vault worker : Token) : Prop := {
  sm_config : m !! sp_config a = Some (ConfigAccount config);
  sm_venue : m !! sp_venue a = Some (VenueAccount venue);
  sm_vault : m !! sp_venue_vault a = Some (TokenAccount vault);
  sm_running : config_paused config = false;
  sm_active : venue_active venue = true;
  sm_signed : In (sp_venue_authority a) (signers ctx);
  sm_authority : sp_venue_authority a = venue_authority venue;
  sm_usdc : sp_usdc_mint a = config_usdc_mint config;
  sm_vault_authority : sp_vault_authority a = vault_authority_of (sp_venue a);
  sm_vault_owner : token_owner vault = vault_authority_of (sp_venue a);
  sm_vault_address : sp_venue_vault a = associated_token (sp_usdc_mint a) (vault_authority_of (sp_venue a));
  sm_worker_address : sp_worker_token_account a = associated_token (sp_usdc_mint a) (sp_worker_wallet a);
  sm_worker : m !! sp_worker_token_account a = Some (TokenAccount worker) /\ token_owner worker = sp_worker_wallet a \/
              m !! sp_worker_token_account a = None /\ worker = mkToken (sp_usdc_mint a) (sp_worker_wallet a) 0 false;
  sm_record_address : sp_settlement_record a = settlement_address payment;
  sm_fresh : m !! sp_settlement_record a = None;
  sm_record_worker : sp_settlement_record a <> sp_worker_token_account a;
  sm_allocation : allocation <> zero32;
  sm_amount : 0 < amount <= token_amount vault;
  sm_mints : token_mint vault = sp_usdc_mint a /\ token_mint worker = sp_usdc_mint a;
  sm_effect :
    let vault' := vault <| token_amount ::= (fun b => b - amount) |> in
    let worker' := worker <| token_amount ::= (fun b => b + amount) |> in
    let record := mkRecord payment allocation (sp_venue a) (sp_worker_wallet a) amount SETTLEMENT_STATUS_SETTLED
                    (unix_timestamp ctx) zero32 (find_program_address [SETTLEMENT_SEED; Bytes payment]).2 in
    m' = <[sp_settlement_record a := SettlementAccount record]>
           (if sp_venue_vault a ==? sp_worker_token_account a then m
            else <[sp_worker_token_account a := TokenAccount worker']> (<[sp_venue_vault a := TokenAccount vault']> m))
}.

Lemma load_config_inr m k c : load_config m k = inr c -> m !! k = Some (ConfigAccount c).
Proof. unfold load_config. destruct (m !! k) as [[]|]; naive_solver. Qed.
Lemma load_venue_inr m k c : load_venue m k = inr c -> m !! k = Some (VenueAccount c).
Proof. unfold load_venue. destruct (m !! k) as [[]|]; naive_solver. Qed.
Lemma load_record_inr m k c : load_record m k = inr c -> m !! k = Some (SettlementAccount c).
Proof. unfold load_record. destruct (m !! k) as [[]|]; naive_solver. Qed.
Lemma load_token_inr m k c : load_token m k = inr c -> m !! k = Some (TokenAccount c).
Proof. unfold load_token. destruct (m !! k) as [[]|]; naive_solver. Qed.
Lemma load_mint_inr m k c : load_mint m k = inr c -> m !! k = Some (MintAccount c).
Proof. unfold load_mint. destruct (m !! k) as [[]|]; naive_solver. Qed.
Lemma absent_true m k : absent m k = true -> m !! k = None.
Proof. unfold absent. destruct (m !! k); naive_solver. Qed.

Ltac facts :=
  peel; repeat match goal with
  | E : load_config _ _ = inr _ |- _ => apply load_config_inr in E
  | E : load_venue _ _ = inr _ |- _ => apply load_venue_inr in E
  | E : load_record _ _ = inr _ |- _ => apply load_record_inr in E
  | E : load_token _ _ = inr _ |- _ => apply load_token_inr in E
  | E : load_mint _ _ = inr _ |- _ => apply load_mint_inr in E
  | E : absent _ _ = true |- _ => apply absent_true in E
  | E : signer _ _ = inr _ |- _ => unfold signer in E; apply check_inr, includes_In in E
  | E : seeds_found _ _ = inr _ |- _ => unfold seeds_found in E
  | E : is_associated _ _ _ _ = inr _ |- _ => unfold is_associated in E
  end; peel.

Lemma init_inr ctx m k seeds payer bump :
  init ctx m k seeds payer = inr bump ->
  k = (find_program_address seeds).1 /\ m !! k = None /\ bump = (find_program_address seeds).2.
Proof. unfold init. intros Hi. facts. auto. Qed.

Lemma init_associated_inr ctx m k mint owner payer m' :
  init_associated ctx m k mint owner payer = inr m' ->
  k = associated_token mint owner /\ m !! k = None /\ m' = <[k := TokenAccount (mkToken mint owner 0 false)]> m.
Proof. unfold init_associated. intros Hi. facts. auto. Qed.

Lemma init_if_needed_inr ctx m k mint owner payer m' :
  init_associated_if_needed ctx m k mint owner payer = inr m' ->
  k = associated_token mint owner /\
  ((exists t, m !! k = Some (TokenAccount t) /\ token_owner t = owner /\ m' = m) \/
   (m !! k = None /\ m' = <[k := TokenAccount (mkToken mint owner 0 false)]> m)).
Proof.
  unfold init_associated_if_needed. destruct (m !! k) as [[| | |t| |]|] eqn:Hk; intros Hi; try discriminate Hi.
  - facts. split; [done|]. left. eauto.
  - apply init_associated_inr in Hi as (-> & _ & ->). split; [done|]. right. done.
Qed.

Lemma settle_accounts_inr ctx a payment m config venue vault mint m1 bump :
  settle_accounts ctx a payment m = inr (config, venue, vault, mint, m1, bump) ->
  m !! sp_config a = Some (ConfigAccount config) /\ m !! sp_venue a = Some (VenueAccount venue) /\
  m !! sp_venue_vault a = Some (TokenAccount vault) /\ In (sp_venue_authority a) (signers ctx) /\
  sp_venue_authority a = venue_authority venue /\ sp_usdc_mint a = config_usdc_mint config /\
  sp_vault_authority a = vault_authority_of (sp_venue a) /\ token_owner vault = vault_authority_of (sp_venue a) /\
  sp_venue_vault a = associated_token (sp_usdc_mint a) (vault_authority_of (sp_venue a)) /\
  init_associated_if_needed ctx m (sp_worker_token_account a) (sp_usdc_mint a) (sp_worker_wallet a)
    (sp_venue_authority a) = inr m1 /\
  sp_settlement_record a = settlement_address payment /\ m1 !! sp_settlement_record a = None /\
  bump = (find_program_address [SETTLEMENT_SEED; Bytes payment]).2.
Proof.
  unfold settle_accounts. intros Hs. destruct a; cbn in *. facts.
  repeat match goal with Hi : init _ _ _ _ _ = inr _ |- _ => apply init_inr in Hi as (? & ? & ?); subst end.
  unfold vault_authority_of, settlement_address. repeat split; auto; congruence.
Qed.

(** A settlement that succeeds has passed every check and moved its amount. *)
Lemma settle_payout_inr ctx a payment allocation amount l l' :
  settle_payout ctx a payment allocation amount l = inr l' ->
  (exists config venue vault worker,
     settlement_made ctx a payment allocation amount (ledger_accounts l) (ledger_accounts l') config venue vault worker) /\
  ledger_events l' =
    ledger_events l ++ [PayoutSettled payment allocation (sp_venue a) (sp_worker_wallet a) amount].
Proof.
  unfold settle_payout. intros Hs.
  destruct (settle_accounts ctx a payment (ledger_accounts l)) as [|[[[[[config venue] vault] mint] m1] bump]] eqn:Ha;
    [discriminate|]. cbn [obind] in Hs. facts.
  destruct (transfer_checked _ _ _ _ _ _ _) as [m2|] eqn:Ht in Hs; [injection Hs as <-|discriminate]. cbn.
  split; [|done].
  apply settle_accounts_inr in Ha as (Hc & Hv & Hvault & Hs & Hau & Hu & Hva & Ho & Haddr & Hi & Hr & Hfresh & ->).
  apply init_if_needed_inr in Hi as [Hw Hi].
  apply transfer_effect in Ht as (f & t & Hf & Ht & Hmf & Hmt & Hle & Hsame & Hdiff).
  repeat match goal with
  | E : negb _ = true |- _ => apply negb_true_iff in E
  | E : bool_decide _ = false |- _ => apply bool_decide_eq_false_1 in E
  | E : (_ <? _) = true |- _ => apply Z.ltb_lt in E
  | E : (_ <=? _) = true |- _ => apply Z.leb_le in E
  end.
  exists config, venue, vault, t.
  assert (f = vault) as ->.
  { destruct Hi as [(t0 & Hk & _ & ->)|[Hk ->]]; [congruence|].
    rewrite lookup_insert_ne in Hf by congruence. congruence. }
  assert (sp_settlement_record a <> sp_worker_token_account a) as Hne by congruence.
  split; auto with lia; try congruence.
  - destruct Hi as [(t0 & Hk & Hown & ->)|[Hk ->]]; [left|right].
    + split; [done|congruence].
    + rewrite lookup_insert_eq in Ht. split; [done|congruence].
  - destruct Hi as [(? & _ & _ & ->)|[_ ->]]; [done|]. by rewrite lookup_insert_ne in Hfresh.
  - cbn zeta. f_equal. case_bool_decide as Heq.
    + rewrite (Hsame Heq). destruct Hi as [(? & _ & _ & ->)|[Hk ->]]; [done|congruence].
    + rewrite (Hdiff Heq). destruct Hi as [(? & _ & _ & ->)|[Hk ->]]; [done|].
      rewrite (insert_insert_ne _ (sp_venue_vault a)) by done. by rewrite insert_insert_eq.
Qed.

Lemma same_settlement_refl r : same_settlement r r.
Proof. by destruct r. Qed.
Lemma same_settlement_trans r1 r2 r3 : same_settlement r1 r2 -> same_settlement r2 r3 -> same_settlement r1 r3.
Proof. unfold same_settlement. intros -> ->. by destruct r1. Qed.
Lemma same_record_refl o : same_record o o.
Proof. destruct o as [[]|]; cbn; auto using same_settlement_refl. Qed.
Lemma kept_token_refl paid o : (forall k, 0 <= paid k) -> kept_token paid o o.
Proof. intros Hp t -> _. exists t. specialize (Hp (token_owner t)). split_and!; [done..|lia]. Qed.
Lemma kept_not_token paid o o' : (forall t, o <> Some (TokenAccount t)) -> kept_token paid o o'.
Proof. intros Hn t Ht _. by destruct (Hn t). Qed.

Lemma quiet_insert l l' k a es :
  ledger_accounts l' = <[k := a]> (ledger_accounts l) -> ledger_events l' = ledger_events l ++ es ->
  same_record (ledger_accounts l !! k) (Some a) -> (forall t, ledger_accounts l !! k <> Some (TokenAccount t)) ->
  omap settled_payment es = [] -> quiet l l'.
Proof.
  intros Ha He Hr Ht Hes. split; [by exists es|]. intros j. rewrite Ha. destruct (decide (k = j)) as [<-|Hne].
  - rewrite lookup_insert_eq. auto using kept_not_token.
  - rewrite lookup_insert_ne by done. split; [apply same_record_refl|by apply kept_token_refl].
Qed.

Lemma settle_settles ctx a payment allocation amount l l' :
  settle_payout ctx a payment allocation amount l = inr l' -> exists r, payment_id_hash r = payment /\ settles r l l'.
Proof.
  intros Hs. apply settle_payout_inr in Hs as [(config & venue & vault & worker & Hm) Hev].
  eexists (mkRecord payment allocation (sp_venue a) (sp_worker_wallet a) amount SETTLEMENT_STATUS_SETTLED
    (unix_timestamp ctx) zero32 (find_program_address [SETTLEMENT_SEED; Bytes payment]).2).
  split; [done|]. destruct Hm. cbn zeta in sm_effect0. unfold settles. cbn.
  rewrite <- sm_record_address0. split_and!; [done|by rewrite sm_effect0, lookup_insert_eq|lia|by eexists|].
  rewrite sm_effect0. clear sm_effect0. intros j. set (paid := fun owner : Pubkey => if owner ==? vault_authority_of (sp_venue a) then amount else 0).
  assert (forall k, 0 <= paid k) as Hpaid by (intros k; unfold paid; case_bool_decide; lia).
  destruct (decide (sp_settlement_record a = j)) as [<-|Hj].
  - split; [done|]. apply kept_not_token. congruence.
  - rewrite lookup_insert_ne by done. case_bool_decide as Heq; [auto using same_record_refl, kept_token_refl|].
    destruct (decide (sp_worker_token_account a = j)) as [<-|Hw].
    + rewrite lookup_insert_eq. split; [by intros _; destruct sm_worker0 as [[-> _]|[-> _]]|].
      intros t Ht _. destruct sm_worker0 as [[Hk _]|[Hk _]]; [|congruence].
      rewrite Hk in Ht. injection Ht as <-. eexists. split_and!; [done..|]. cbn. specialize (Hpaid (token_owner worker)). lia.
    + rewrite lookup_insert_ne by done. destruct (decide (sp_venue_vault a = j)) as [<-|Hv].
      * rewrite lookup_insert_eq, sm_vault0. split; [done|]. intros t [= <-] _. eexists. split_and!; [done..|].
        unfold paid. cbn. rewrite bool_decide_eq_true_2 by done. lia.
      * rewrite lookup_insert_ne by done. auto using same_record_refl, kept_token_refl.
Qed.

Lemma foreign_quiet l m' :
  (forall k, foreign_account (ledger_accounts l !! k) (m' !! k)) -> quiet l (mkLedger m' (ledger_events l)).
Proof.
  intros Hf. split; [exists []; by rewrite app_nil_r|]. intros k. cbn. destruct (Hf k) as [Hown Htok]. split.
  - destruct (ledger_accounts l !! k) as [[| |r| | |]|] eqn:Hk, (m' !! k) as [[| |r'| | |]|] eqn:Hk'; try exact I;
      try (pose proof (proj1 (Hown (SettlementAccount r) eq_refl) eq_refl); simplify_eq; apply same_settlement_refl);
      try (pose proof (proj2 (Hown (SettlementAccount r') eq_refl) eq_refl); simplify_eq).
  - intros t Ht Hva. destruct (Htok t Ht Hva) as (t' & ? & ? & ? & ?). exists t'. repeat split; auto; lia.
Qed.

(** Every step is one of the two. *)
Lemma step_promise l l' : step l l' -> quiet l l' \/ exists r, settles r l l'.
Proof.
  intros [ctx i l1 l2 Hp|l1 m' Hf]; [|left; by apply foreign_quiet].
  destruct i as [a|a id au|a|a payment allocation amount|a payment correction disputed|a|a]; cbn in Hp.
  4: { right. apply settle_settles in Hp as (r & _ & Hr). eauto. }
  all: left; cbv [initialize_config register_venue initialize_venue_vault mark_corrected pause unpause set_paused emit] in Hp;
    facts; repeat match goal with
    | Hi : init _ _ _ _ _ = inr _ |- _ => apply init_inr in Hi as (? & ? & ?); subst
    | Hi : init_associated _ _ _ _ _ _ = inr _ |- _ => apply init_associated_inr in Hi as (? & ? & ?); subst
    end.
  all: eapply quiet_insert; [reflexivity|first [reflexivity|symmetry; apply app_nil_r]| | |reflexivity];
    repeat match goal with E : _ !! ?k = _ |- context [_ !! ?k] => rewrite E end; try done.
Qed.

(** Records and events of settlements agree, and no payment has two. *)
Record well_settled l : Prop := {
  ws_once : NoDup (settled_payments l);
  ws_record : forall k r, ledger_accounts l !! k = Some (SettlementAccount r) ->
    k = settlement_address (payment_id_hash r) /\ 0 < record_amount r /\
    exists e, records r e /\ In e (ledger_events l);
  ws_event : forall e p, In e (ledger_events l) -> settled_payment e = Some p ->
    exists r, ledger_accounts l !! settlement_address p = Some (SettlementAccount r) /\ records r e
}.

Lemma same_record_after o r : same_record o (Some (SettlementAccount r)) ->
  exists r0, o = Some (SettlementAccount r0) /\ same_settlement r0 r.
Proof. destruct o as [[]|]; cbn; try done. eauto. Qed.
Lemma same_record_before r o : same_record (Some (SettlementAccount r)) o ->
  exists r', o = Some (SettlementAccount r') /\ same_settlement r r'.
Proof. destruct o as [[]|]; cbn; try done. eauto. Qed.
Lemma same_settlement_records r r' e : same_settlement r r' -> records r e <-> records r' e.
Proof. unfold same_settlement, records. intros ->. done. Qed.
Lemma same_settlement_fields r r' : same_settlement r r' ->
  payment_id_hash r' = payment_id_hash r /\ record_amount r' = record_amount r /\ record_venue r' = record_venue r.
Proof. unfold same_settlement. by intros ->. Qed.

Lemma settled_payments_In l p :
  p ∈ settled_payments l <-> exists e, In e (ledger_events l) /\ settled_payment e = Some p.
Proof. unfold settled_payments. rewrite list_elem_of_omap. setoid_rewrite list_elem_of_In. done. Qed.

Lemma quiet_well_settled l l' : quiet l l' -> well_settled l -> well_settled l'.
Proof.
  intros [(es & He & Hes) Hk] [Honce Hrec Hev]. split.
  - unfold settled_payments. rewrite He, omap_app, Hes, app_nil_r. done.
  - intros k r Hr. destruct (Hk k) as [Hs _]. rewrite Hr in Hs. apply same_record_after in Hs as (r0 & Hr0 & Hs).
    destruct (Hrec k r0 Hr0) as (-> & Hpos & e & He1 & He2). apply same_settlement_fields in Hs as Hf.
    destruct Hf as (Hp & Ha & _). rewrite Hp, Ha. split_and!; [done..|]. exists e.
    split; [by apply (same_settlement_records _ _ e Hs)|]. rewrite He. apply in_or_app. by left.
  - intros e p Hin Hp. rewrite He in Hin. apply in_app_or in Hin as [Hin|Hin].
    + destruct (Hev e p Hin Hp) as (r & Hr & Hre). destruct (Hk (settlement_address p)) as [Hs _]. rewrite Hr in Hs.
      apply same_record_before in Hs as (r' & Hr' & Hs). exists r'. split; [done|].
      by apply (same_settlement_records _ _ e Hs).
    + exfalso. assert (p ∈ omap settled_payment es) as Hel; [|rewrite Hes in Hel; by apply not_elem_of_nil in Hel].
      apply list_elem_of_omap. exists e. by rewrite list_elem_of_In.
Qed.

Lemma settles_well_settled r l l' : settles r l l' -> well_settled l -> well_settled l'.
Proof.
  intros (Hnone & Hsome & Hpos & (e0 & He0 & He) & Hk) [Honce Hrec Hev]. rewrite He0 in He. split.
  - unfold settled_payments. rewrite He, omap_app. cbn. apply NoDup_app. split_and!; [done| |apply NoDup_singleton].
    intros p Hp Hin. apply list_elem_of_singleton in Hin as ->. apply settled_payments_In in Hp as (e & Hin & Hp).
    destruct (Hev e _ Hin Hp) as (r' & Hr' & _). congruence.
  - intros k r' Hr'. destruct (decide (k = settlement_address (payment_id_hash r))) as [->|Hne].
    + rewrite Hsome in Hr'. injection Hr' as <-. split_and!; [done..|]. exists e0. rewrite He0.
      split; [done|]. rewrite He. apply in_or_app. right. by left.
    + destruct (Hk k) as [Hs _]. specialize (Hs Hne). rewrite Hr' in Hs. apply same_record_after in Hs as (r0 & Hr0 & Hs).
      destruct (Hrec k r0 Hr0) as (Hka & Hpos' & e & He1 & He2). apply same_settlement_fields in Hs as Hf.
      destruct Hf as (Hp & Ha & _). rewrite Hp, Ha. split_and!; [done..|]. exists e.
      split; [by apply (same_settlement_records _ _ e Hs)|]. rewrite He. apply in_or_app. by left.
  - intros e p Hin Hp. rewrite He in Hin. apply in_app_or in Hin as [Hin|[<-|[]]].
    + destruct (Hev e p Hin Hp) as (r1 & Hr1 & Hre). destruct (Hk (settlement_address p)) as [Hs _].
      rewrite Hr1 in Hs. apply same_record_before in Hs as (r' & Hr' & Hs); [|congruence]. exists r'. split; [done|].
      by apply (same_settlement_records _ _ e Hs).
    + injection Hp as <-. by exists r.
Qed.

Lemma genesis_well_settled l : genesis l -> well_settled l.
Proof.
  intros [Hg He]. split.
  - unfold settled_payments. rewrite He. apply NoDup_nil_2.
  - intros k r Hr. by apply Hg in Hr.
  - intros e p Hin. by rewrite He in Hin.
Qed.

Lemma steps_well_settled l l' : rtc step l l' -> well_settled l -> well_settled l'.
Proof.
  induction 1 as [|l1 l2 l3 Hs _ IH]; [done|]. intros Hw. apply IH.
  destruct (step_promise _ _ Hs) as [Hq|[r Hr]]; eauto using quiet_well_settled, settles_well_settled.
Qed.

(** C6: a payment is settled at most once: from a ledger the program has not
    touched, after any instructions of the program and of others, no payment has
    two [PayoutSettled] events, every event has its record, with the venue,
    worker, amount and allocation it announced, and every record its event. *)
Theorem settled_once l0 l :
  genesis l0 -> rtc step l0 l ->
  NoDup (settled_payments l) /\
  (forall p, p ∈ settled_payments l <->
     exists r, ledger_accounts l !! settlement_address p = Some (SettlementAccount r) /\ payment_id_hash r = p) /\
  (forall k r, ledger_accounts l !! k = Some (SettlementAccount r) ->
     k = settlement_address (payment_id_hash r) /\ 0 < record_amount r /\
     exists e, records r e /\ In e (ledger_events l)).
Proof.
  intros Hg Hs. apply steps_well_settled in Hs; [|by apply genesis_well_settled]. destruct Hs as [Honce Hrec Hev].
  split; [done|]. split; [|exact Hrec]. intros p. rewrite settled_payments_In. split.
  - intros (e & Hin & Hp). destruct (Hev e p Hin Hp) as (r & Hr & ->). exists r. split; [done|]. by injection Hp.
  - intros (r & Hr & <-). destruct (Hrec _ _ Hr) as (_ & _ & e & He & Hin). exists e. split; [done|]. by rewrite He.
Qed.

(* ------------------------------------------------------------------ *)
(** ** What a vault has paid *)

Lemma settled_same authority m m' : (forall k, same_record (m !! k) (m' !! k)) -> settled authority m' = settled authority m.
Proof.
  intros Hs. symmetry. apply total_ext. intros k. specialize (Hs k).
  destruct (m !! k) as [[]|], (m' !! k) as [[]|]; cbn in *; try done; apply same_settlement_fields in Hs as (_ & -> & ->); done.
Qed.

Lemma settled_more authority m m' k r :
  m !! k = None -> m' !! k = Some (SettlementAccount r) ->
  (forall j, j <> k -> same_record (m !! j) (m' !! j)) ->
  settled authority m' = settled_by authority (SettlementAccount r) + settled authority m.
Proof.
  intros Hn Hk Hs. unfold settled. rewrite (total_delete _ m' k), Hk. cbn [from_option]. f_equal.
  rewrite <- (delete_id m k Hn). apply settled_same. intros j. destruct (decide (k = j)) as [<-|Hne].
  - by rewrite !lookup_delete_eq.
  - rewrite !lookup_delete_ne by done. by apply Hs.
Qed.

(** Through every step a vault keeps its mint and owner, and what it holds and
    has settled together never shrinks. *)
Lemma step_accounted l l' k t :
  step l l' -> ledger_accounts l !! k = Some (TokenAccount t) -> is_vault_authority (token_owner t) ->
  exists t', ledger_accounts l' !! k = Some (TokenAccount t') /\ token_mint t' = token_mint t /\
    token_owner t' = token_owner t /\
    token_amount t + settled (token_owner t) (ledger_accounts l) <=
      token_amount t' + settled (token_owner t) (ledger_accounts l').
Proof.
  intros Hs Hk Hva. destruct (step_promise _ _ Hs) as [[_ Hq]|[r (Hn & Hr & Hpos & _ & Hq)]].
  - destruct (Hq k) as [_ Htok]. destruct (Htok t Hk Hva) as (t' & ? & ? & ? & ?). exists t'.
    rewrite (settled_same _ (ledger_accounts l) (ledger_accounts l')); [split_and!; auto; lia|intros j; apply Hq].
  - destruct (Hq k) as [_ Htok]. destruct (Htok t Hk Hva) as (t' & ? & ? & ? & Hle). exists t'.
    rewrite (settled_more _ (ledger_accounts l) (ledger_accounts l') _ r Hn Hr); [|intros; by apply Hq]. cbn [settled_by].
    split_and!; auto. revert Hle. repeat case_bool_decide; try congruence; lia.
Qed.

(** C8: tokens leave a vault only against settlement records: whatever instructions
    of the program and of others run, what a vault held and had settled at first
    is at most what it holds and has settled in the end, where the settled amount
    adds up the records of the venues with its authority. *)
Theorem vault_accounted l l' k t :
  rtc step l l' -> ledger_accounts l !! k = Some (TokenAccount t) -> is_vault_authority (token_owner t) ->
  exists t', ledger_accounts l' !! k = Some (TokenAccount t') /\ token_mint t' = token_mint t /\
    token_owner t' = token_owner t /\
    token_amount t + settled (token_owner t) (ledger_accounts l) <=
      token_amount t' + settled (token_owner t) (ledger_accounts l').
Proof.
  intros Hs. revert t. induction Hs as [|l1 l2 l3 H12 _ IH]; intros t Hk Hva.
  - exists t. split_and!; auto. lia.
  - destruct (step_accounted _ _ _ _ H12 Hk Hva) as (t2 & Hk2 & Hm2 & Ho2 & Hle2).
    destruct (IH t2 Hk2) as (t3 & Hk3 & Hm3 & Ho3 & Hle3); [by rewrite Ho2|]. rewrite Ho2 in *.
    exists t3. split_and!; [done|congruence..|lia].
Qed.

(* ------------------------------------------------------------------ *)
(** ** Where the accounts of the program are *)

(** The address and the bump of an account are the ones its own seeds lead to,
    and a venue is active: no instruction of the program deactivates one. *)
Definition placed_at (k : Pubkey) (a : account) : Prop :=
  match a with
  | ConfigAccount c => (k, config_bump c) = find_program_address [CONFIG_SEED]
  | VenueAccount v => (k, venue_bump v) = find_program_address [VENUE_SEED; Bytes (venue_id_hash v)] /\
                      venue_vault_authority v = vault_authority_of k /\ venue_active v = true
  | SettlementAccount r => (k, record_bump r) = find_program_address [SETTLEMENT_SEED; Bytes (payment_id_hash r)]
  | _ => True
  end.
Definition placed m : Prop := forall k a, m !! k = Some a -> placed_at k a.

Lemma placed_insert m k a : placed m -> placed_at k a -> placed (<[k := a]> m).
Proof.
  intros Hm Ha j b Hb. destruct (decide (k = j)) as [<-|Hne].
  - rewrite lookup_insert_eq in Hb. by injection Hb as <-.
  - rewrite lookup_insert_ne in Hb by done. by apply Hm.
Qed.

Lemma placed_foreign l m' :
  (forall k, foreign_account (ledger_accounts l !! k) (m' !! k)) -> placed (ledger_accounts l) -> placed m'.
Proof.
  intros Hf Hp k a Ha. destruct (program_owned a) eqn:Eo; [|by destruct a].
  apply Hp. by apply (proj1 (Hf k)).
Qed.

Lemma placed_step l l' : step l l' -> placed (ledger_accounts l) -> placed (ledger_accounts l').
Proof.
  intros [ctx i l1 l2 Hp|l1 m' Hf] Hl; [|by eapply placed_foreign].
  destruct i as [a|a id au|a|a payment allocation amount|a payment correction disputed|a|a]; cbn in Hp.
  4: { apply settle_payout_inr in Hp as [(config & venue & vault & worker & []) _]. cbn zeta in sm_effect0.
       rewrite sm_effect0. apply placed_insert; [case_bool_decide; [done|by repeat apply placed_insert]|].
       rewrite sm_record_address0. symmetry. apply surjective_pairing. }
  all: cbv [initialize_config register_venue initialize_venue_vault mark_corrected pause unpause set_paused emit] in Hp;
    facts; repeat match goal with
    | Hi : init _ _ _ _ _ = inr _ |- _ => apply init_inr in Hi as (Hk & ? & ?); subst
    | Hi : init_associated _ _ _ _ _ _ = inr _ |- _ => apply init_associated_inr in Hi as (? & ? & ?); subst
    end; cbn [ledger_accounts]; apply placed_insert; try done; cbn; try (rewrite Hk; by rewrite <- surjective_pairing).
  - exact (Hl _ _ E1).
  - exact (Hl _ _ E).
  - exact (Hl _ _ E).
Qed.

Lemma genesis_placed l : genesis l -> placed (ledger_accounts l).
Proof. intros [Hg _] k a Ha. specialize (Hg k a Ha). by destruct a. Qed.

Lemma steps_placed l0 l : genesis l0 -> rtc step l0 l -> placed (ledger_accounts l).
Proof.
  intros Hg Hs. assert (placed (ledger_accounts l0)) as Hp by (by apply genesis_placed).
  clear Hg. induction Hs; eauto using placed_step.
Qed.

(* ------------------------------------------------------------------ *)
(** ** When a settlement succeeds *)

(** Everything in place for a settlement: the accounts are the ones the seeds
    lead to, the vault holds the amount, and the payment has no record. *)
Record settle_ready (ctx : Context) (a : SettlePayout) (payment allocation : bytes32) (amount : Z) m
    (config : GlobalConfig) (venue : Venue) (vault : Token) (mint : Mint) : Prop := {
  rd_config : m !! sp_config a = Some (ConfigAccount config);
  rd_config_seeds : create_program_address [CONFIG_SEED] (config_bump config) = Some (sp_config a);
  rd_running : config_paused config = false;
  rd_venue : m !! sp_venue a = Some (VenueAccount venue);
  rd_venue_seeds : create_program_address [VENUE_SEED; Bytes (venue_id_hash venue)] (venue_bump venue) = Some (sp_venue a);
  rd_active : venue_active venue = true;
  rd_signed : In (sp_venue_authority a) (signers ctx);
  rd_authority : sp_venue_authority a = venue_authority venue;
  rd_pays : can_pay ctx (sp_venue_authority a) = true;
  rd_usdc : sp_usdc_mint a = config_usdc_mint config;
  rd_mint : m !! sp_usdc_mint a = Some (MintAccount mint);
  rd_vault_authority : sp_vault_authority a = vault_authority_of (sp_venue a);
  rd_vault_address : sp_venue_vault a = associated_token (sp_usdc_mint a) (sp_vault_authority a);
  rd_vault : m !! sp_venue_vault a = Some (TokenAccount vault);
  rd_vault_token : token_owner vault = sp_vault_authority a /\ token_mint vault = sp_usdc_mint a /\ token_frozen vault = false;
  rd_worker_address : sp_worker_token_account a = associated_token (sp_usdc_mint a) (sp_worker_wallet a);
  rd_worker :
    m !! sp_worker_token_account a = None \/
    exists t, m !! sp_worker_token_account a = Some (TokenAccount t) /\ token_owner t = sp_worker_wallet a /\
              token_mint t = sp_usdc_mint a /\ token_frozen t = false /\ token_amount t + amount < 2 ^ 64;
  rd_record_address : sp_settlement_record a = settlement_address payment;
  rd_fresh : m !! sp_settlement_record a = None;
  rd_record_worker : sp_settlement_record a <> sp_worker_token_account a;
  rd_allocation : allocation <> zero32;
  rd_amount : 0 < amount <= token_amount vault;
  rd_u64 : amount < 2 ^ 64
}.

Lemma check_true b e : b = true -> check b e = inr tt.
Proof. by intros ->. Qed.
Lemma init_ready ctx m k seeds payer :
  k = (find_program_address seeds).1 -> m !! k = None -> can_pay ctx payer = true ->
  init ctx m k seeds payer = inr (find_program_address seeds).2.
Proof.
  intros -> Hk Hp. unfold init, seeds_found, absent. rewrite Hk, Hp, bool_decide_eq_true_2 by done. done.
Qed.

Theorem settle_payout_succeeds ctx a payment allocation amount l config venue vault mint :
  settle_ready ctx a payment allocation amount (ledger_accounts l) config venue vault mint ->
  exists l', settle_payout ctx a payment allocation amount l = inr l'.
Proof.
  intros []. destruct rd_vault_token0 as (Ho & Hm & Hf).
  pose (m1 := match ledger_accounts l !! sp_worker_token_account a with
              | None => <[sp_worker_token_account a := TokenAccount (mkToken (sp_usdc_mint a) (sp_worker_wallet a) 0 false)]>
                          (ledger_accounts l)
              | Some _ => ledger_accounts l end).
  assert (init_associated_if_needed ctx (ledger_accounts l) (sp_worker_token_account a) (sp_usdc_mint a)
            (sp_worker_wallet a) (sp_venue_authority a) = inr m1) as Hinit.
  { unfold init_associated_if_needed, init_associated, is_associated, absent, m1.
    destruct rd_worker0 as [Hw|(t & Hw & Hwo & Hwm & _)]; rewrite Hw.
    - by rewrite rd_pays0, bool_decide_eq_true_2.
    - by rewrite !bool_decide_eq_true_2. }
  assert (m1 !! sp_settlement_record a = None) as Hrec.
  { unfold m1. destruct (_ !! sp_worker_token_account a); [done|]. by rewrite lookup_insert_ne. }
  assert (exists t, m1 !! sp_worker_token_account a = Some (TokenAccount t) /\ token_mint t = sp_usdc_mint a /\
            token_frozen t = false /\ token_amount t + amount < 2 ^ 64) as (t & Hw & Hwm & Hwf & Hwa).
  { unfold m1. destruct rd_worker0 as [Hw|(t & Hw & _ & ? & ? & ?)]; rewrite Hw; [|by exists t].
    rewrite lookup_insert_eq. by eexists. }
  assert (m1 !! sp_venue_vault a = Some (TokenAccount vault) /\ m1 !! sp_usdc_mint a = Some (MintAccount mint)) as [Hv Hmint].
  { unfold m1. destruct (_ !! sp_worker_token_account a) eqn:E; [done|]. split; rewrite lookup_insert_ne by congruence; done. }
  destruct (transfer_done m1 (sp_venue_vault a) (sp_usdc_mint a) (sp_worker_token_account a) (sp_vault_authority a)
              amount vault t mint) as [m2 Hm2]; auto with lia.
  unfold settle_payout, settle_accounts, load_config, load_venue, load_token, load_mint, signer, seeds_with_bump,
    seeds_found, is_associated.
  rewrite rd_config0, rd_venue0, rd_vault0, rd_mint0. cbn [obind].
  rewrite (proj2 (includes_In _ _) rd_signed0). cbn [check obind].
  rewrite Hinit. cbn [obind]. rewrite init_ready by done. cbn [obind].
  rewrite rd_config_seeds0, rd_venue_seeds0, !bool_decide_eq_true_2 by done. cbn [check obind].
  rewrite rd_running0, rd_active0. cbn [check obind negb].
  rewrite (bool_decide_eq_false_2 _ rd_allocation0).
  rewrite !check_true by (try apply Z.leb_le; try apply Z.ltb_lt; try done; lia). cbn [obind].
  rewrite Hm2. by eexists.
Qed.

(** A settlement mints and burns nothing. *)
Theorem settle_payout_conserves ctx a payment allocation amount l l' mint :
  settle_payout ctx a payment allocation amount l = inr l' ->
  supply mint (ledger_accounts l') = supply mint (ledger_accounts l).
Proof.
  intros Hs. apply settle_payout_inr in Hs as [(config & venue & vault & worker & Hm) _].
  destruct Hm. cbn zeta in sm_effect0. unfold supply. rewrite sm_effect0. clear sm_effect0.
  destruct sm_mints0 as [Hmv Hmw].
  rewrite total_insert_fresh; cbn [token_held].
  - case_bool_decide as Heq; [done|].
    pose proof (total_insert (token_held mint) (ledger_accounts l) (sp_venue_vault a)
                  (TokenAccount (vault <| token_amount ::= fun b => b - amount |>))) as H1.
    set (m1 := <[sp_venue_vault a := _]> (ledger_accounts l)) in *.
    pose proof (total_insert (token_held mint) m1 (sp_worker_token_account a)
                  (TokenAccount (worker <| token_amount ::= fun b => b + amount |>))) as H2.
    unfold m1 in H2 at 2. rewrite lookup_insert_ne in H2 by done. rewrite sm_vault0 in H1. cbn in H1, H2.
    rewrite Hmv in H1. rewrite Hmw in H2.
    destruct sm_worker0 as [[Hw _]|[Hw ->]]; rewrite Hw in H2; cbn in H2; [rewrite Hmw in H2|];
      destruct (sp_usdc_mint a ==? mint); lia.
  - case_bool_decide; [done|]. rewrite !lookup_insert_ne by congruence. done.
Qed.
(** C14: a settlement that succeeds: the protocol ran, the venue was active and its
    authority signed; the allocation hash was not zero and the vault held the
    amount; the payment had no record and has exactly this one; the amount went
    from the venue's vault to the worker's token account, of the pinned mint; no
    other account changed and no token was made or lost. *)
Theorem settle_payout_spec ctx a payment allocation amount l l' :
  settle_payout ctx a payment allocation amount l = inr l' ->
  let m := ledger_accounts l in
  let m' := ledger_accounts l' in
  let vault := sp_venue_vault a in
  let worker := sp_worker_token_account a in
  let authority := vault_authority_of (sp_venue a) in
  (exists config venue, m !! sp_config a = Some (ConfigAccount config) /\ m !! sp_venue a = Some (VenueAccount venue) /\
     config_paused config = false /\ venue_active venue = true /\ In (venue_authority venue) (signers ctx) /\
     vault = associated_token (config_usdc_mint config) authority /\
     worker = associated_token (config_usdc_mint config) (sp_worker_wallet a)) /\
  allocation <> zero32 /\ 0 < amount <= held vault m /\
  m !! settlement_address payment = None /\
  m' !! settlement_address payment =
    Some (SettlementAccount (mkRecord payment allocation (sp_venue a) (sp_worker_wallet a) amount SETTLEMENT_STATUS_SETTLED
      (unix_timestamp ctx) zero32 (find_program_address [SETTLEMENT_SEED; Bytes payment]).2)) /\
  (vault <> worker -> held vault m' = held vault m - amount /\ held worker m' = held worker m + amount) /\
  (forall k, k <> vault -> k <> worker -> k <> settlement_address payment -> m' !! k = m !! k) /\
  (forall mint, supply mint m' = supply mint m) /\
  settled authority m' = settled authority m + amount.
Proof.
  intros Hs. cbn zeta. assert (forall mint, supply mint (ledger_accounts l') = supply mint (ledger_accounts l)) as Hsup
    by (intros; by eapply settle_payout_conserves).
  pose proof (settle_settles _ _ _ _ _ _ _ Hs) as (r & Hrp & Hn & Hr & _ & _ & Hq).
  apply settle_payout_inr in Hs as [(config & venue & vault & worker & Hm) _].
  destruct Hm. cbn zeta in sm_effect0. rewrite <- sm_record_address0.
  set (m := ledger_accounts l) in *. set (m' := ledger_accounts l') in *.
  assert (held (sp_venue_vault a) m = token_amount vault) as Hv by (unfold held; by rewrite sm_vault0).
  assert (held (sp_worker_token_account a) m = token_amount worker) as Hw
    by (unfold held; by destruct sm_worker0 as [[-> _]|[-> ->]]).
  split_and!; try done; try (rewrite ?Hv; lia).
  - exists config, venue. by rewrite <- sm_usdc0, <- sm_authority0.
  - by rewrite sm_effect0, lookup_insert_eq.
  - intros Hne. rewrite Hv, Hw, sm_effect0, bool_decide_eq_false_2 by done. unfold held.
    rewrite !(lookup_insert_ne _ (sp_settlement_record a)) by congruence.
    by rewrite lookup_insert_eq, lookup_insert_ne, lookup_insert_eq by done.
  - intros k Hkv Hkw Hkr. rewrite sm_effect0, lookup_insert_ne by done. case_bool_decide; [done|].
    by rewrite !lookup_insert_ne by done.
  - rewrite (settled_more _ m m' _ r Hn Hr) by (intros; by apply Hq).
    rewrite Hrp, <- sm_record_address0, sm_effect0, lookup_insert_eq in Hr. injection Hr as <-. cbn [settled_by record_venue record_amount].
    rewrite bool_decide_eq_true_2 by done. lia.
Qed.

Lemma execute_steps ctx ixs l l' : execute ctx l ixs = inr l' -> rtc step l l'.
Proof.
  revert l. induction ixs as [|i ixs IH]; intros l Hx; cbn in Hx.
  - injection Hx as <-. apply rtc_refl.
  - destruct (process ctx i l) as [|l1] eqn:Hp; cbn in Hx; [discriminate|].
    eapply rtc_l; [by econstructor|]. by apply IH.
Qed.
End steps.
End Serveproof.

(* ------------------------------------------------------------------ *)
(** ** A ledger to run on *)

(** Addresses that spell their seeds, and the token program's transfer. *)
Module Validator.
Import Serveproof.

Definition spell_bytes (b : bytes32) : string :=
  String.concat "" (map (fun z => String (Ascii.ascii_of_nat (Z.to_nat z)) EmptyString) b).
Definition spell (s : seed) : string :=
  match s with Literal t => "l:" +:+ t | Bytes b => "b:" +:+ spell_bytes b | Key k => "k:" +:+ k end.
Definition address (seeds : list seed) : Pubkey := "pda/" +:+ String.concat "/" (map spell seeds).

Definition transfer (m : accounts) (from mint to authority : Pubkey) (n d : Z) : option accounts :=
  match m !! from, m !! to, m !! mint with
  | Some (TokenAccount f), Some (TokenAccount t), Some (MintAccount x) =>
      if (token_mint f ==? mint) && (token_mint t ==? mint) && (token_owner f ==? authority) &&
         negb (token_frozen f) && negb (token_frozen t) && (0 <=? n) && (n <=? token_amount f) &&
         (token_amount t + n <? 2 ^ 64) && (d =? mint_decimals x)
      then Some (if from ==? to then m
                 else <[to := TokenAccount (t <| token_amount ::= (fun b => b + n) |>)]>
                        (<[from := TokenAccount (f <| token_amount ::= (fun b => b - n) |>)]> m))
      else None
  | _, _, _ => None
  end.

#[export] Instance validator : Runtime := {
  find_program_address seeds := (address seeds, 255);
  create_program_address seeds bump := if bump =? 255 then Some (address seeds) else None;
  associated_token mint owner := "ata/" +:+ mint +:+ "/" +:+ owner;
  transfer_checked := transfer
}.

#[export] Instance validator_laws : RuntimeLaws.
Proof.
  split.
  - done.
  - intros m from mint to authority n d m' Ht. cbn in Ht. unfold transfer in Ht.
    destruct (m !! from) as [[| | |f| |]|]; try discriminate. destruct (m !! to) as [[| | |t| |]|]; try discriminate.
    destruct (m !! mint) as [[| | | |x|]|]; try discriminate.
    destruct (_ && _) eqn:E in Ht; [injection Ht as <-|discriminate]. rewrite !andb_true_iff in E.
    destruct E as ((((((((Hf & Ht) & _) & _) & _) & _) & Hn) & _) & _).
    apply bool_decide_eq_true in Hf, Ht. apply Z.leb_le in Hn. exists f, t. split_and!; try done.
    + intros ->. by rewrite bool_decide_eq_true_2.
    + intros Hne. by rewrite bool_decide_eq_false_2.
  - intros m from mint to authority n f t x Hf Ht Hx Hmf Hmt Ho Hff Hft Hn Hu. cbn. unfold transfer.
    rewrite Hf, Ht, Hx, !bool_decide_eq_true_2, Hff, Hft, Z.eqb_refl by done.
    rewrite (proj2 (Z.leb_le 0 n)), (proj2 (Z.leb_le n _)), (proj2 (Z.ltb_lt _ _)) by lia. by eexists.
Qed.

Definition hash (b : Z) : bytes32 := repeat b 32.
Definition payer (k : Pubkey) : bool := true.
Definition signed_by (k : Pubkey) : Context := mkContext [k] 1700000000 payer.
Definition usdc_ledger : Ledger := mkLedger {[ "usdc" := MintAccount (mkMint 6) ]} [].

Definition config_address : Pubkey := address [CONFIG_SEED].
Definition venue_address (id : bytes32) : Pubkey := address [VENUE_SEED; Bytes id].
Definition setup_venue (id : bytes32) (authority : Pubkey) (l : Ledger) : outcome Ledger :=
  execute (signed_by "admin") l
    [IRegisterVenue (mkRegisterVenue config_address (venue_address id) "admin") id authority;
     IInitializeVenueVault (mkInitializeVenueVault config_address (venue_address id)
       (vault_authority_of (venue_address id)) "usdc"
       (associated_token "usdc" (vault_authority_of (venue_address id))) "admin")].

(** Tokens sent to an account from outside. *)
Definition fund (k : Pubkey) (n : Z) (l : Ledger) : Ledger :=
  mkLedger (alter (fun a => match a with
                            | TokenAccount t => TokenAccount (t <| token_amount ::= (fun b => b + n) |>)
                            | _ => a end) k (ledger_accounts l)) (ledger_events l).

Definition pay_accounts (id : bytes32) (authority worker : Pubkey) (payment : bytes32) : SettlePayout :=
  let venue := venue_address id in
  mkSettlePayout config_address venue authority (vault_authority_of venue)
    (associated_token "usdc" (vault_authority_of venue)) worker (associated_token "usdc" worker)
    (settlement_address payment) "usdc".
Definition vault_of (id : bytes32) : Pubkey := associated_token "usdc" (vault_authority_of (venue_address id)).

Definition or_same (l : Ledger) (r : outcome Ledger) : Ledger := match r with inr l' => l' | inl _ => l end.
(** Two venues, "alice" paying for the first and "bob" for the second, each with
    50 USDC in its vault. *)
Definition opened_with (id1 id2 : bytes32) : Ledger :=
  let l1 := or_same usdc_ledger (execute (signed_by "admin") usdc_ledger
              [IInitializeConfig (mkInitializeConfig config_address "usdc" "admin")]) in
  let l2 := or_same l1 (setup_venue id1 "alice" l1) in
  let l3 := or_same l2 (setup_venue id2 "bob" l2) in
  fund (vault_of id2) 50000000 (fund (vault_of id1) 50000000 l3).
Definition opened : Ledger := opened_with (hash 1) (hash 2).
Definition pay_worker : outcome Ledger :=
  settle_payout (signed_by "alice") (pay_accounts (hash 1) "alice" "worker" (hash 7)) (hash 7) (hash 9) 12000000 opened.

Example paid_worker :
  let l := or_same opened pay_worker in
  held (vault_of (hash 1)) (ledger_accounts l) = 38000000 /\
  held (associated_token "usdc" "worker") (ledger_accounts l) = 12000000 /\
  settled (vault_authority_of (venue_address (hash 1))) (ledger_accounts l) = 12000000 /\
  settled_payments l = [hash 7].
Proof. vm_compute. done. Qed.

(** Neither the same venue nor another settles the payment again. *)
Example paid_once :
  let l := or_same opened pay_worker in
  settle_payout (signed_by "alice") (pay_accounts (hash 1) "alice" "worker" (hash 7)) (hash 7) (hash 9) 12000000 l
    = inl AlreadyInUse /\
  settle_payout (signed_by "bob") (pay_accounts (hash 2) "bob" "worker" (hash 7)) (hash 7) (hash 9) 1 l
    = inl AlreadyInUse.
Proof. vm_compute. done. Qed.

Lemma fund_step `{R : Runtime} k n l : 0 <= n -> step l (fund k n l).
Proof.
  intros Hn. apply step_foreign. intros j. destruct (decide (k = j)) as [<-|Hne].
  - rewrite lookup_alter_eq. destruct (ledger_accounts l !! k) as [[| | |t| |]|]; cbn; (split; [intros []|]); try done;
      intros t' [= <-] _; eexists; split_and!; try done; cbn; lia.
  - rewrite lookup_alter_ne by done. split; [done|]. intros t -> _. by eexists.
Qed.

Lemma or_same_steps `{R : Runtime} l r : (forall l', r = inr l' -> rtc step l l') -> rtc step l (or_same l r).
Proof. destruct r; cbn; [intros; apply rtc_refl|auto]. Qed.

Lemma opened_reached id1 id2 : rtc step usdc_ledger (opened_with id1 id2).
Proof.
  unfold opened_with, setup_venue. cbn zeta.
  do 2 (eapply rtc_r; [|apply fund_step; lia]).
  do 3 (etransitivity; [|apply or_same_steps; intros l'; apply execute_steps]). apply rtc_refl.
Qed.

Lemma usdc_genesis : genesis usdc_ledger.
Proof. split; [|done]. cbn. intros k a Ha. apply lookup_singleton_Some in Ha as [_ <-]. done. Qed.

Lemma settled_once_witness :
  let l := or_same opened pay_worker in
  genesis usdc_ledger /\ rtc step usdc_ledger l /\ settled_payments l = [hash 7] /\ NoDup (settled_payments l).
Proof.
  assert (rtc step usdc_ledger (or_same opened pay_worker)) as Hs.
  { etransitivity; [apply opened_reached|]. apply or_same_steps. intros l' Hp. apply rtc_once.
    by apply (step_process _ (ISettlePayout _ _ _ _)) in Hp. }
  split_and!; [apply usdc_genesis|exact Hs|vm_compute; reflexivity|].
  exact (proj1 (settled_once usdc_ledger (or_same opened pay_worker) usdc_genesis Hs)).
Defined.

Lemma vault_accounted_witness :
  let l := or_same opened pay_worker in
  let va := vault_authority_of (venue_address (hash 1)) in
  exists t t', ledger_accounts opened !! vault_of (hash 1) = Some (TokenAccount t) /\ token_amount t = 50000000 /\
    ledger_accounts l !! vault_of (hash 1) = Some (TokenAccount t') /\ token_amount t' = 38000000 /\
    token_amount t + settled va (ledger_accounts opened) <= token_amount t' + settled va (ledger_accounts l).
Proof.
  assert (rtc step opened (or_same opened pay_worker)) as Hs.
  { apply or_same_steps. intros l' Hp. apply rtc_once. by apply (step_process _ (ISettlePayout _ _ _ _)) in Hp. }
  pose (t := mkToken "usdc" (vault_authority_of (venue_address (hash 1))) 50000000 false).
  assert (ledger_accounts opened !! vault_of (hash 1) = Some (TokenAccount t)) as Ht by (vm_compute; reflexivity).
  assert (is_vault_authority (token_owner t)) as Hva by (exists (venue_address (hash 1)); reflexivity).
  destruct (vault_accounted opened (or_same opened pay_worker) _ t Hs Ht Hva) as (t' & Ht' & _ & _ & Hle).
  exists t, t'. repeat split; try assumption.
  assert (Some (TokenAccount t') = Some (TokenAccount (t <| token_amount := 38000000 |>))) as Heq
    by (rewrite <- Ht'; vm_compute; reflexivity). by injection Heq as ->.
Defined.

Lemma settle_payout_spec_witness :
  exists l', pay_worker = inr l' /\ held (vault_of (hash 1)) (ledger_accounts l') = 38000000 /\
    held (associated_token "usdc" "worker") (ledger_accounts l') = 12000000 /\
    settled (vault_authority_of (venue_address (hash 1))) (ledger_accounts l') = 12000000.
Proof.
  assert (pay_worker = inr (or_same opened pay_worker)) as Hp by (vm_compute; reflexivity).
  exists (or_same opened pay_worker). split; [exact Hp|].
  destruct (settle_payout_spec _ _ _ _ _ _ _ Hp) as (_ & _ & _ & _ & _ & Hmoved & _ & _ & Hset).
  destruct Hmoved as [Hv Hw]; [by vm_compute|]. split_and!.
  - unfold vault_of. etransitivity; [exact Hv|]. vm_compute. reflexivity.
  - etransitivity; [exact Hw|]. vm_compute. reflexivity.
  - etransitivity; [exact Hset|]. vm_compute. reflexivity.
Defined.
End Validator.
