(* ===== verification/Solana.v ===== *)
(** * The settlement program's client

    packages/solana/src/index.ts.  The Anchor client, the web3 library and the
    RPC nodes are outside the repository: [Chain] lists the answers the code
    takes from them (an RPC answer depends on the tick at which it is asked)
    and nothing is assumed of them here. *)

From S2P Require Import Prelude Strings Schema Money.

Open Scope Z_scope.

Inductive Commitment := confirmed_ | finalized_.

Record SettlementRecordView := mkSettlementRecord {
  sr_paymentIdHashHex : string;
  sr_allocationHashHex : string;
  sr_venue : string;
  sr_workerWallet : string;
  sr_amount : Z;
  sr_status : Z;
  sr_settledAt : Z
}.

(** A parsed transaction: its blockhash, the first signature if present, and
    the serialised bytes. *)
Record SignedTx := mkSignedTx {
  stx_recentBlockhash : option string;
  stx_signature : option (list Z);
  stx_raw : string
}.

Record SignatureStatus := mkSignatureStatus {
  ss_err : option json;
  ss_confirmationStatus : option Money.TransactionConfirmationStatus;
  ss_slot : Z
}.

Class Chain := {
  (** [new PublicKey(address)] succeeds *)
  isPubkey : string -> bool;
  usdcMint : option string;
  (** the address of the settlement record of a payment *)
  deriveSettlementPda : string -> string;
  (** the unsigned transaction of [settle_payout] in base64 *)
  settlePayoutTx : string -> string -> string -> Z -> string -> string -> string -> string -> string;
  (** [Transaction.from(Buffer.from(s, "base64"))]; [None] throws *)
  transactionFrom : string -> option SignedTx;
  getBlockHeight : nat -> Z;
  getLatestBlockhash : nat -> string * Z;
  settlementRecord : string -> Commitment -> nat -> option SettlementRecordView;
  getSignatureStatus : string -> nat -> option SignatureStatus;
  getSlot : nat -> Z;
  getFinalizedTransaction : string -> nat -> bool;
  getBlockTime : Z -> nat -> option Z;
  (** the answer of [sendRawTransaction], [Err] on any failure or timeout *)
  sendRawTransaction : string -> nat -> result string
}.

Module Solana.

(** The length of [Buffer.from(s, "hex")]: pairs of hex digits up to the first
    that is not one. *)
Definition is_hex (c : ascii) : bool :=
  let n := Z.of_N (N_of_ascii c) in
  is_digit c || ((65 <=? n) && (n <=? 70)) || ((97 <=? n) && (n <=? 102)).

Fixpoint hex_length (s : string) : nat :=
  match s with
  | String a (String b s') => if is_hex a && is_hex b then S (hex_length s') else 0%nat
  | _ => 0%nat
  end.

Section client.
Context `{Chain}.

Definition parsePubkey (address : string) : result string :=
  if isPubkey address then Ok address else Err (JsError ("Invalid Solana address: " +:+ address)).

Record BuiltSettleTx := mkBuilt {
  bt_transactionBase64 : string;
  bt_blockhash : string;
  bt_lastValidBlockHeight : Z;
  bt_settlementPda : string
}.

Definition buildSettlePayoutTx (venueId paymentId allocationHashHex : string) (amountBaseUnits : Z)
    (venueAuthority workerWallet mint : string) : handler BuiltSettleTx :=
  do* throw_if (negb (hex_length allocationHashHex =? 32)%nat)
    (JsError "allocationHashHex must be 32 bytes of hex") in
  let* ' (blockhash, lastValidBlockHeight) := ask getLatestBlockhash in
  Ret (mkBuilt (settlePayoutTx venueId paymentId allocationHashHex amountBaseUnits venueAuthority
                  workerWallet mint blockhash)
         blockhash lastValidBlockHeight (deriveSettlementPda paymentId)).

Definition fetchSettlementRecord (paymentId : string) (commitment : Commitment)
    : handler (option SettlementRecordView) :=
  ask (settlementRecord paymentId commitment).

(** Sending bytes to the network: the effect, then the node's answer. *)
Definition sendRaw (raw : string) : handler (result string) :=
  do* emit (Broadcast raw) in
  ask (sendRawTransaction raw).
End client.

End Solana.

(** A network for the examples: heights count the ticks, every address parses,
    nothing has settled and sends succeed. *)
Definition demo_chain : Chain := {|
  isPubkey _ := true;
  usdcMint := Some "mint";
  deriveSettlementPda p := "pda:" +:+ p;
  settlePayoutTx venue payment hash amount authority wallet mint blockhash :=
    join "|" [venue; payment; str_of_Z amount; authority; wallet; mint; blockhash];
  transactionFrom s := Some (mkSignedTx (Some "blockhash") (Some [1; 2; 3]) s);
  getBlockHeight t := Z.of_nat t;
  getLatestBlockhash t := ("blockhash", Z.of_nat t + 150);
  settlementRecord _ _ _ := None;
  getSignatureStatus _ _ := None;
  getSlot t := Z.of_nat t;
  getFinalizedTransaction _ _ := false;
  getBlockTime _ _ := None;
  sendRawTransaction _ _ := Ok "signature"
|}.
