(* ===== verification/Payouts.v ===== *)
(** * Payouts

    apps/api/src/payouts/payouts.service.ts with the guards of
    payouts.controller.ts: the USDC payout of an allocation (create, build the
    unsigned transaction, submit the signed one), the evidence of the legacy
    rails, and the roll-up of a batch's payment status. *)

From stdpp Require Import relations.
From S2P Require Import Prelude Concurrency Strings Schema Demo Float64 Money Access AllocationEngine Allocations IncomeProjector Solana.
Import Solana.

Open Scope Z_scope.

Module PayoutsService.
Import AccessService.

Definition payable : list BatchStatus.t := [BatchStatus.PAYABLE; BatchStatus.PARTIALLY_PAID].
Definition in_flight : list PayoutStatus.t :=
  [PayoutStatus.CREATED; PayoutStatus.INITIATED; PayoutStatus.SUBMITTED; PayoutStatus.CONFIRMED].
Definition rebuildable : list PayoutStatus.t :=
  [PayoutStatus.CREATED; PayoutStatus.INITIATED; PayoutStatus.FAILED].
Definition submitted_or_later : list PayoutStatus.t :=
  [PayoutStatus.SUBMITTED; PayoutStatus.CONFIRMED; PayoutStatus.FINALIZED].

(** The allocation with its batch, its worker and the worker's default wallet. *)
Record AllocationData := mkAllocationData {
  ad_allocation : WorkerAllocation;
  ad_batch : AllocationBatch;
  ad_worker : option Worker;
  ad_wallet : option WorkerWallet
}.

Definition allocation_data (w : World) (id : string) : option AllocationData :=
  match List.find (by_id id) (w_allocations w) with
  | None => None
  | Some a =>
      match List.find (by_id (alloc_batchId a)) (w_batches w) with
      | None => None
      | Some b =>
          let worker := match alloc_workerId a with
                        | Some i => List.find (by_id i) (w_workers w)
                        | None => None end in
          let wallet := match worker with
                        | Some wk => match worker_defaultWalletId wk with
                                     | Some i => List.find (by_id i) (w_wallets w)
                                     | None => None end
                        | None => None end in
          Some (mkAllocationData a b worker wallet)
      end
  end.

Definition by_paymentId (paymentId : string) (p : Payout) : bool := payout_paymentId p ==? paymentId.

Definition payout_is (id : string) (statuses : list PayoutStatus.t) (p : Payout) : bool :=
  by_id id p && includes statuses (payout_status p).

(** The roll-up of the rows of a batch. *)
Definition rollup (allocations : list WorkerAllocation) : BatchStatus.t :=
  let paid := length (List.filter (fun a => alloc_payoutStatus a ==? AllocPayoutStatus.PAID) allocations) in
  if (paid =? 0)%nat then BatchStatus.PAYABLE
  else if (paid =? length allocations)%nat then BatchStatus.PAID
  else BatchStatus.PARTIALLY_PAID.

Definition payment_statuses : list BatchStatus.t :=
  [BatchStatus.PAYABLE; BatchStatus.PARTIALLY_PAID; BatchStatus.PAID].

Definition refreshBatchPaymentStatus (batchId : string) : handler unit :=
  let* allocations := findMany (AllocationsService.of_batch batchId) in
  let status := rollup allocations in
  do* updateMany (R:=AllocationBatch)
        (fun b => by_id batchId b && includes payment_statuses (batch_status b))
        (fun b => b <| batch_status := status |>) in
  Ret tt.

(** The columns of a payout that nothing has set. *)
Definition empty_payout (id paymentId allocationId workerId venueId : string) : Payout :=
  mkPayout id paymentId None allocationId workerId venueId None PayoutRail.USDC "USD" 0 0
    PayoutStatus.CREATED None None None None None None None 0 None None None None None None None None.

Section service.
Context `{Platform} `{Chain}.

(** [createHash("sha256").update(s).digest("hex")] *)
Definition sha256Hex (s : string) : string := sha256 s.

Definition rebuildIncomeProjection (venueId : string) (actorUserId : option string) : handler unit :=
  do* IncomeProjector.rebuildVenueIncome venueId actorUserId "SYSTEM" in Ret tt.

(** The [data] of [createUsdcPayout], written over a row. *)
Definition usdc_data (allocation : WorkerAllocation) (workerId venueId walletId : string)
    (amountBaseUnits : Z) (initiatedByUserId : option string) (p : Payout) : Payout :=
  mkPayout (payout_id p) (alloc_id allocation) (Some (sha256Hex (alloc_id allocation)))
    (alloc_id allocation) workerId venueId (Some walletId) PayoutRail.USDC "tUSDC" amountBaseUnits
    (alloc_netAllocatedUsdCents allocation) PayoutStatus.CREATED (payout_externalReference p)
    None None None None None None 0 (payout_slot p) (payout_blockTime p) None initiatedByUserId
    None None None None.

Definition createUsdcPayout (allocationId : string) (initiatedByUserId : option string) : handler Payout :=
  let* data := query (fun w => allocation_data w allocationId) in
  let* data := require data (NotFoundException ("Allocation " +:+ allocationId +:+ " not found")) in
  let allocation := ad_allocation data in
  let batch := ad_batch data in
  do* throw_if (negb (truthy (alloc_workerId allocation))
                || match ad_worker data with None => true | Some _ => false end)
    (BadRequestException "This share is held for a worker who has not connected their account yet") in
  let workerId := nullish (alloc_workerId allocation) "" in
  do* throw_if (negb (includes payable (batch_status batch)))
    (BadRequestException ("Batch is " +:+ BatchStatus.name (batch_status batch)
                          +:+ "; payouts require an approved (PAYABLE) batch")) in
  do* throw_if (alloc_payoutStatus allocation ==? AllocPayoutStatus.PAID)
    (ConflictException "Allocation is already paid") in
  do* throw_if (alloc_netAllocatedUsdCents allocation <=? 0)
    (BadRequestException "Allocation amount must be positive") in
  let* wallet := require
    match ad_wallet data with
    | Some x => if wallet_status x ==? WalletStatus.ACTIVE then Some x else None
    | None => None
    end (BadRequestException "Worker has no active default wallet") in
  do* lift_result (parsePubkey (wallet_address wallet)) in
  let paymentId := alloc_id allocation in
  let* existing := findFirst (by_paymentId paymentId) in
  match existing with
  | Some e =>
      if payout_status e !=? PayoutStatus.FAILED then
        let allocationStatus :=
          if payout_status e ==? PayoutStatus.FINALIZED then Some AllocPayoutStatus.PAID
          else if includes in_flight (payout_status e) then Some AllocPayoutStatus.PENDING
          else None in
        do* match allocationStatus with
            | Some s =>
                if (alloc_payoutStatus allocation !=? s)
                   || (alloc_payoutRail allocation !=? Some PayoutRail.USDC)
                then
                  do* update (alloc_id allocation)
                        (fun a => a <| alloc_payoutRail := Some PayoutRail.USDC |>
                                    <| alloc_payoutStatus := s |>) in
                  if s ==? AllocPayoutStatus.PAID then
                    do* refreshBatchPaymentStatus (alloc_batchId allocation) in
                    rebuildIncomeProjection (batch_venueId batch) initiatedByUserId
                  else Ret tt
                else Ret tt
            | None => Ret tt
            end in
        Ret e
      else
        do* match payout_lastValidBlockHeight e with
            | Some h =>
                let* currentBlockHeight := ask getBlockHeight in
                throw_if (negb (Money.isBlockhashExpired currentBlockHeight h))
                  (ConflictException ("Previous payout blockhash is still valid through height "
                                      +:+ str_of_Z h))
            | None => Ret tt
            end in
        let* amountBaseUnits := lift_result (Money.centsToUsdcBaseUnits
                                  (num_of_Z (alloc_netAllocatedUsdCents allocation))) in
        transaction (
          let* payout := update (payout_id e)
            (usdc_data allocation workerId (batch_venueId batch) (wallet_id wallet) amountBaseUnits
               initiatedByUserId) in
          do* update (alloc_id allocation)
                (fun a => a <| alloc_payoutRail := Some PayoutRail.USDC |>
                            <| alloc_payoutStatus := AllocPayoutStatus.PENDING |>) in
          Ret payout)
  | None =>
      let* amountBaseUnits := lift_result (Money.centsToUsdcBaseUnits
                                (num_of_Z (alloc_netAllocatedUsdCents allocation))) in
      transaction (
        let* i := freshId in
        let* payout := create (usdc_data allocation workerId (batch_venueId batch) (wallet_id wallet)
          amountBaseUnits initiatedByUserId
          (empty_payout i paymentId (alloc_id allocation) workerId (batch_venueId batch))) in
        do* update (alloc_id allocation)
              (fun a => a <| alloc_payoutRail := Some PayoutRail.USDC |>
                          <| alloc_payoutStatus := AllocPayoutStatus.PENDING |>) in
        Ret payout)
  end.

(** *** The unsigned transaction *)

Record TransactionView := mkTransactionView {
  tv_payoutId : string;
  tv_built : BuiltSettleTx;
  tv_signer : string
}.

(** The payout with its wallet and the allocation hash of its batch. *)
Definition payout_data (w : World) (id : string)
    : option (Payout * option WorkerWallet * option string) :=
  match List.find (by_id id) (w_payouts w) with
  | None => None
  | Some p =>
      let wallet := match payout_walletId p with
                    | Some i => List.find (by_id i) (w_wallets w) | None => None end in
      let hash := match List.find (by_id (payout_allocationId p)) (w_allocations w) with
                  | Some a => match List.find (by_id (alloc_batchId a)) (w_batches w) with
                              | Some b => batch_allocationHash b | None => None end
                  | None => None end in
      Some (p, wallet, hash)
  end.

Definition initiated_data (built : BuiltSettleTx) (signer : string) (initiatedAt : Z)
    (initiatedByUserId : option string) (p : Payout) : Payout :=
  p <| payout_status := PayoutStatus.INITIATED |>
    <| payout_settlementPda := Some (bt_settlementPda built) |>
    <| payout_recentBlockhash := Some (bt_blockhash built) |>
    <| payout_lastValidBlockHeight := Some (bt_lastValidBlockHeight built) |>
    <| payout_signedTransactionBase64 := None |>
    <| payout_txSignature := None |>
    <| payout_lastBroadcastAt := None |>
    <| payout_broadcastAttempts := 0 |>
    <| payout_initiatedAt := Some initiatedAt |>
    <| payout_initiatedByUserId := initiatedByUserId |>
    <| payout_submittedByUserId := None |>
    <| payout_signerWallet := Some signer |>
    <| payout_failedReason := None |>.

Definition status_or_unknown (p : option Payout) : string :=
  match p with Some p => PayoutStatus.name (payout_status p) | None => "UNKNOWN" end.

Definition buildTransaction (payoutId : string) (initiatedByUserId : option string)
    : handler TransactionView :=
  let* data := query (fun w => payout_data w payoutId) in
  let* ' (payout, wallet, allocationHash) :=
    require data (NotFoundException ("Payout " +:+ payoutId +:+ " not found")) in
  do* throw_if (negb (includes rebuildable (payout_status payout)))
    (ConflictException ("Payout is " +:+ PayoutStatus.name (payout_status payout)
                        +:+ "; cannot rebuild transaction")) in
  let* onchain := fetchSettlementRecord (payout_paymentId payout) confirmed_ in
  do* throw_if (match onchain with Some _ => true | None => false end)
    (ConflictException "Settlement already exists on-chain; run reconciliation") in
  do* match payout_lastValidBlockHeight payout with
      | Some h =>
          if includes [PayoutStatus.INITIATED; PayoutStatus.FAILED] (payout_status payout) then
            let* currentBlockHeight := ask getBlockHeight in
            throw_if (negb (Money.isBlockhashExpired currentBlockHeight h))
              (ConflictException ("Previous payout blockhash is still valid through height "
                                  +:+ str_of_Z h))
          else Ret tt
      | None => Ret tt
      end in
  let* venue := findUnique (R:=Venue) (payout_venueId payout) in
  let* signer := require
    match venue with
    | Some v => if truthy (venue_payoutSignerWallet v) then venue_payoutSignerWallet v else None
    | None => None
    end (BadRequestException "Venue payout signer wallet is not configured") in
  let* wallet := require wallet (BadRequestException "Payout has no worker wallet") in
  let* hash := require (if truthy allocationHash then allocationHash else None)
    (BadRequestException "Batch is missing its allocation hash") in
  let* mint := require (if truthy usdcMint then usdcMint else None)
    (BadRequestException "USDC_MINT is not configured") in
  let* authority := lift_result (parsePubkey signer) in
  let* workerWallet := lift_result (parsePubkey (wallet_address wallet)) in
  let* mintKey := lift_result (parsePubkey mint) in
  let* built := buildSettlePayoutTx (payout_venueId payout) (payout_paymentId payout) hash
    (payout_amountBaseUnits payout) authority workerWallet mintKey in
  let* initiatedAt := newDate in
  let* count := updateMany (payout_is payoutId rebuildable)
    (initiated_data built signer initiatedAt
       (nullish2 initiatedByUserId (payout_initiatedByUserId payout))) in
  do* (if (count =? 0)%nat then
         let* current := findUnique payoutId in
         Throw (ConflictException ("Payout is " +:+ status_or_unknown current
                                   +:+ "; cannot rebuild transaction"))
       else Ret tt) in
  Ret (mkTransactionView payoutId built signer).

(** *** Submission *)

Definition submitted_data (signature raw : string) (at_ : Z) (submittedByUserId : option string)
    (p : Payout) : Payout :=
  p <| payout_status := PayoutStatus.SUBMITTED |>
    <| payout_txSignature := Some signature |>
    <| payout_signedTransactionBase64 := Some raw |>
    <| payout_lastBroadcastAt := Some at_ |>
    <| payout_broadcastAttempts := 1 |>
    <| payout_submittedByUserId := submittedByUserId |>.

(** [current && [...].includes(current.status)] after a lost claim. *)
Definition lost_claim (payoutId : string) : handler Payout :=
  let* current := findUnique payoutId in
  match current with
  | Some p => if includes submitted_or_later (payout_status p) then Ret p
              else Throw (ConflictException ("Payout is " +:+ PayoutStatus.name (payout_status p)
                                             +:+ "; expected INITIATED"))
  | None => Throw (ConflictException "Payout is UNKNOWN; expected INITIATED")
  end.

(** What follows the claim: the broadcast and the confirmation job. *)
Definition broadcast_claimed (payoutId raw signature : string) : handler Payout :=
  let* updated := findUnique payoutId in
  let* updated := require updated (PrismaError "P2025") in
  let* answer := sendRaw raw in
  do* match answer with
      | Ok _ => Ret tt
      | Err e =>
          do* updateMany (payout_is payoutId [PayoutStatus.SUBMITTED])
                (fun p => p <| payout_failedReason :=
                                 Some (slice_to ("initial_broadcast:" +:+ exn_message e) 500) |>) in
          Ret tt
      end in
  do* emit (Enqueue "solana-confirmation"
              (JObj [("payoutId", JStr payoutId); ("signature", JStr signature)])) in
  Ret updated.

Definition submitSigned (payoutId signedTransactionBase64 : string)
    (submittedByUserId : option string) : handler Payout :=
  let* payout := findUnique payoutId in
  let* payout := require payout (NotFoundException ("Payout " +:+ payoutId +:+ " not found")) in
  if includes submitted_or_later (payout_status payout) then Ret payout
  else
    do* throw_if (payout_status payout !=? PayoutStatus.INITIATED)
      (ConflictException ("Payout is " +:+ PayoutStatus.name (payout_status payout)
                          +:+ "; expected INITIATED")) in
    let* lastValidBlockHeight := require
      (if truthy (payout_recentBlockhash payout) then payout_lastValidBlockHeight payout else None)
      (ConflictException "Payout is missing its blockhash validity metadata; rebuild it") in
    let* tx := require (transactionFrom signedTransactionBase64) (JsError "invalid transaction") in
    do* throw_if (stx_recentBlockhash tx !=? payout_recentBlockhash payout)
      (BadRequestException "Signed transaction blockhash does not match this payout") in
    let* signatureBytes := require (stx_signature tx)
      (BadRequestException "Transaction is not signed") in
    let signature := Money.encodeBase58 signatureBytes in
    let raw := stx_raw tx in
    let* currentBlockHeight := ask getBlockHeight in
    if Money.isBlockhashExpired currentBlockHeight lastValidBlockHeight then
      let* count := updateMany (payout_is payoutId [PayoutStatus.INITIATED])
        (fun p => p <| payout_status := PayoutStatus.FAILED |>
                    <| payout_failedReason := Some "blockhash_expired_before_submit" |>) in
      if (0 <? count)%nat then
        do* update (R:=WorkerAllocation) (payout_allocationId payout)
              (fun a => a <| alloc_payoutStatus := AllocPayoutStatus.FAILED |>) in
        Throw (ConflictException "Payout blockhash expired before submission; rebuild and sign again")
      else lost_claim payoutId
    else
      let* at_ := newDate in
      let* count := updateMany (payout_is payoutId [PayoutStatus.INITIATED])
        (submitted_data signature raw at_
           (nullish2 submittedByUserId (payout_submittedByUserId payout))) in
      if (count =? 0)%nat then lost_claim payoutId
      else broadcast_claimed payoutId raw signature.

Record PayoutView := mkPayoutView {
  pv_payout : Payout;
  pv_walletAddress : option string;
  pv_displayName : option string
}.

Definition getPayout (payoutId : string) : handler PayoutView :=
  let* view := query (fun w => option_map (fun p =>
      mkPayoutView p
        match payout_walletId p with
        | Some i => option_map wallet_address (List.find (by_id i) (w_wallets w))
        | None => None end
        match List.find (by_id (payout_workerId p)) (w_workers w) with
        | Some wk => option_map user_displayName (List.find (by_id (worker_userId wk)) (w_users w))
        | None => None end)
    (List.find (by_id payoutId) (w_payouts w))) in
  require view (NotFoundException ("Payout " +:+ payoutId +:+ " not found")).

(** *** Legacy rails *)

Definition legacy_update (rail : PayoutRail.t) (externalReference : string) (settledAt : Z)
    (submittedByUserId : option string) (p : Payout) : Payout :=
  p <| payout_rail := rail |>
    <| payout_externalReference := Some externalReference |>
    <| payout_status := PayoutStatus.FINALIZED |>
    <| payout_settledAt := Some settledAt |>
    <| payout_submittedByUserId := submittedByUserId |>.

Definition legacy_create (id : string) (allocation : WorkerAllocation) (workerId venueId : string)
    (rail : PayoutRail.t) (externalReference : string) (settledAt : Z)
    (submittedByUserId : option string) : Payout :=
  (empty_payout id (alloc_id allocation) (alloc_id allocation) workerId venueId)
    <| payout_paymentIdHash := Some (sha256Hex (alloc_id allocation)) |>
    <| payout_rail := rail |>
    <| payout_amountUsdCents := alloc_netAllocatedUsdCents allocation |>
    <| payout_externalReference := Some externalReference |>
    <| payout_status := PayoutStatus.FINALIZED |>
    <| payout_settledAt := Some settledAt |>
    <| payout_initiatedByUserId := submittedByUserId |>
    <| payout_submittedByUserId := submittedByUserId |>.

Definition finalized_payout (allocationId : string) (p : Payout) : bool :=
  (payout_allocationId p ==? allocationId) && (payout_status p ==? PayoutStatus.FINALIZED).

Definition registerLegacyEvidence (allocationId : string) (rail : PayoutRail.t)
    (externalReference : string) (submittedByUserId : option string) : handler Payout :=
  let* data := query (fun w => allocation_data w allocationId) in
  let* data := require data (NotFoundException ("Allocation " +:+ allocationId +:+ " not found")) in
  let allocation := ad_allocation data in
  let batch := ad_batch data in
  do* throw_if (negb (truthy (alloc_workerId allocation)))
    (BadRequestException "This share is held for a worker who has not connected their account yet") in
  let workerId := nullish (alloc_workerId allocation) "" in
  if alloc_payoutStatus allocation ==? AllocPayoutStatus.PAID then
    let* finalized := findFirst (finalized_payout (alloc_id allocation)) in
    let* finalized := require finalized (ConflictException "Allocation is already paid") in
    do* rebuildIncomeProjection (batch_venueId batch) submittedByUserId in
    Ret finalized
  else
    do* throw_if (negb (includes payable (batch_status batch)))
      (BadRequestException ("Batch is " +:+ BatchStatus.name (batch_status batch))) in
    let paymentId := alloc_id allocation in
    let* updatedAt := newDate in
    let* createdAt := newDate in
    let* payout := transaction (
      let* i := freshId in
      let* payout := upsert (by_paymentId paymentId)
        (legacy_update rail externalReference updatedAt submittedByUserId)
        (legacy_create i allocation workerId (batch_venueId batch) rail externalReference createdAt
           submittedByUserId) in
      do* update (alloc_id allocation)
            (fun a => a <| alloc_payoutRail := Some rail |>
                        <| alloc_payoutStatus := AllocPayoutStatus.PAID |>) in
      Ret payout) in
    do* refreshBatchPaymentStatus (alloc_batchId allocation) in
    do* rebuildIncomeProjection (batch_venueId batch) submittedByUserId in
    Ret payout.

(** *** The controller *)

Definition venueIdOfAllocation (allocationId : string) : handler (option string) :=
  query (fun w => option_map (fun d => batch_venueId (ad_batch d)) (allocation_data w allocationId)).

(** [if (venueId) await assertVenueRole(...)] *)
Definition guard_allocation (userId allocationId : string) : handler unit :=
  let* venueId := venueIdOfAllocation allocationId in
  match venueId with
  | Some v => if v ==? "" then Ret tt else assertVenueRole userId v VENUE_MANAGE_ROLES
  | None => Ret tt
  end.

Definition post_create (userId allocationId : string) : handler Payout :=
  do* guard_allocation userId allocationId in
  createUsdcPayout allocationId (Some userId).

Definition get_transaction (userId id : string) : handler TransactionView :=
  let* payout := getPayout id in
  do* assertVenueRole userId (payout_venueId (pv_payout payout)) VENUE_MANAGE_ROLES in
  buildTransaction id (Some userId).

Definition post_submit (userId id signedTransactionBase64 : string) : handler Payout :=
  let* payout := getPayout id in
  do* assertVenueRole userId (payout_venueId (pv_payout payout)) VENUE_MANAGE_ROLES in
  submitSigned id signedTransactionBase64 (Some userId).

Definition get_payout (userId id : string) : handler PayoutView :=
  let* payout := getPayout id in
  do* assertVenueRole userId (payout_venueId (pv_payout payout)) VENUE_READ_ROLES in
  Ret payout.

Definition post_legacyEvidence (userId allocationId : string) (rail : PayoutRail.t)
    (externalReference : string) : handler Payout :=
  do* guard_allocation userId allocationId in
  registerLegacyEvidence allocationId rail externalReference (Some userId).
End service.

(* ------------------------------------------------------------------ *)
(** ** A signed transaction is broadcast at most once by the API *)

Definition is_broadcast (e : effect) : bool := match e with Broadcast _ => true | _ => false end.

Definition broadcasts (w : World) : nat := length (List.filter is_broadcast (w_effects w)).

Definition initiated (w : World) : nat :=
  length (List.filter (fun p => payout_status p ==? PayoutStatus.INITIATED) (w_payouts w)).

Definition submit_pot (w : World) : nat := (broadcasts w + initiated w)%nat.

(** Claiming rows takes them out of the INITIATED ones. *)
Lemma claim_count id f l :
  (forall p, payout_status (f p) <> PayoutStatus.INITIATED) ->
  let q p := payout_status p ==? PayoutStatus.INITIATED in
  (length (List.filter q (upd_where (payout_is id [PayoutStatus.INITIATED]) f l))
   + length (List.filter (payout_is id [PayoutStatus.INITIATED]) l)
   = length (List.filter q l))%nat.
Proof.
  intros Hf q. apply filter_upd_claim. intros p Hp.
  unfold payout_is, includes in Hp. cbn [existsb] in Hp. rewrite orb_false_r in Hp.
  apply andb_true_iff in Hp as [_ Hp]. apply bool_decide_eq_true in Hp.
  split; [by apply bool_decide_eq_true_2|by apply bool_decide_eq_false_2].
Qed.

Section submit.
Context `{Platform} `{Chain}.
Abbreviation safe_ := (safe (fun _ => True) submit_pot).

Lemma safe_ask_ {A} t (f : nat -> A) Q : (forall a, Q (Ok a) t) -> safe_ t (ask f) Q.
Proof. by apply safe_ask. Qed.

Lemma safe_lost_claim t id : safe_ t (lost_claim id) any_end.
Proof.
  unfold lost_claim. apply safe_bind, safe_findFirst. intros [p|]; [|done].
  by destruct (includes _ _).
Qed.

(** An update that keeps the statuses that matter. *)
Lemma safe_update_status t id st f Q :
  (forall p, payout_is id st p = true -> payout_status p <> PayoutStatus.INITIATED) ->
  (forall p, payout_status (f p) = payout_status p) ->
  (forall n, Q (Ok n) t) -> safe_ t (updateMany (payout_is id st) f) Q.
Proof.
  intros Hst Hf HQ. apply safe_updateMany. intros w _. split; [done|]. exists t. split; [|done].
  unfold submit_pot, broadcasts, initiated. wcbn.
  enough (length (List.filter (fun p => payout_status p ==? PayoutStatus.INITIATED)
           (upd_where (payout_is id st) f (w_payouts w)))
    = length (List.filter (fun p => payout_status p ==? PayoutStatus.INITIATED) (w_payouts w))) by lia.
  rewrite filter_upd_where; [apply upd_where_length|]. intros p _ _. by rewrite Hf.
Qed.

Lemma safe_broadcast_claimed id raw signature : safe_ 1 (broadcast_claimed id raw signature) any_end.
Proof.
  unfold broadcast_claimed. apply safe_bind, safe_findFirst. intros o.
  apply safe_bind, safe_require; [|done]. intros p _. unfold sendRaw. apply safe_bind, safe_bind.
  intros w _. cbn. split; [done|]. exists 0%nat. split.
  { unfold submit_pot, broadcasts, initiated. wcbn. rewrite List.filter_app, length_app. cbn. lia. }
  apply safe_ask_. intros answer. apply safe_bind.
  enough (He : forall t, safe_ t (do* emit (Enqueue "solana-confirmation"
              (JObj [("payoutId", JStr id); ("signature", JStr signature)])) in Ret p) any_end).
  { destruct answer as [a|e]; [apply He|]. apply safe_bind, safe_update_status; [|done|intros n; exact (He 0%nat)].
    intros q Hq Hi. apply andb_true_iff in Hq as [_ Hq]. cbn in Hq. rewrite Hi in Hq. done. }
  intros t w' _. cbn. split; [done|]. exists t. split; [|done].
  unfold submit_pot, broadcasts, initiated. wcbn. rewrite List.filter_app, length_app. cbn. lia.
Qed.

Lemma safe_claim t id f Q :
  (forall p, payout_status (f p) <> PayoutStatus.INITIATED) ->
  (forall n, Q (Ok n) (t + n)%nat) ->
  safe_ t (updateMany (payout_is id [PayoutStatus.INITIATED]) f) Q.
Proof.
  intros Hf HQ. apply safe_updateMany. intros w _. split; [done|].
  eexists. split; [|apply HQ]. unfold submit_pot, broadcasts, initiated. wcbn.
  pose proof (claim_count id f (w_payouts w) Hf) as E. cbv zeta in E. lia.
Qed.

Lemma safe_submitSigned id tx user : safe_ 0 (submitSigned id tx user) any_end.
Proof.
  unfold submitSigned. apply safe_bind, safe_findFirst. intros o.
  apply safe_bind, safe_require; [|done]. intros p _.
  destruct (includes submitted_or_later _); [done|].
  apply safe_bind, safe_throw_if; [done|]. intros _.
  apply safe_bind, safe_require; [|done]. intros h _.
  apply safe_bind, safe_require; [|done]. intros stx _.
  apply safe_bind, safe_throw_if; [done|]. intros _.
  apply safe_bind, safe_require; [|done]. intros sig _.
  apply safe_bind, safe_ask_. intros height. destruct (Money.isBlockhashExpired _ _).
  - apply safe_bind, safe_claim; [done|]. intros n. destruct (0 <? n)%nat; [|apply safe_lost_claim].
    apply safe_bind, safe_act. intros w _. split; [done|]. exists (0 + n)%nat.
    destruct (List.find _ (rows w)); cbn [fst snd]; (split; [|done]); [|lia].
    unfold submit_pot, broadcasts, initiated. wcbn. lia.
  - apply safe_bind, safe_ask_. intros t. apply safe_bind, safe_claim; [done|]. intros n.
    destruct n as [|n]; cbn [Nat.eqb]; [apply safe_lost_claim|].
    eapply safe_tokens; [|apply safe_broadcast_claimed]. lia.
Qed.

(** C2: whatever number of submissions run concurrently (several tabs,
    retries, any payloads), in every interleaving the API sends at most one
    transaction per payout that was INITIATED: in particular at most one for
    a single payout. *)
Theorem submit_broadcasts_once (requests : list (string * string * option string)) w c' :
  rtc pool_step (w, map (fun r => submitSigned r.1.1 r.1.2 r.2) requests) c' ->
  (broadcasts c'.1 + initiated c'.1 <= broadcasts w + initiated w)%nat.
Proof.
  intros Hr. destruct (pool_safe (fun _ => True) submit_pot _ _ (map (fun _ => 0%nat) requests) Hr) as [_ Hp].
  - done.
  - cbn [snd]. clear. induction requests as [|r l IH]; constructor; [apply safe_submitSigned|exact IH].
  - unfold submit_pot in Hp. cbn [fst] in Hp.
    assert (sum_list (map (fun _ => 0%nat) requests) = 0%nat) as E by (clear; by induction requests). lia.
Qed.
End submit.

(* ------------------------------------------------------------------ *)
(** ** One payment per allocation *)

Lemma run_refresh id w :
  run (refreshBatchPaymentStatus id) w =
  (w <| w_batches ::= upd_where (fun b => by_id id b && includes payment_statuses (batch_status b))
          (fun b => b <| batch_status := rollup (List.filter (AllocationsService.of_batch id) (w_allocations w)) |>) |>,
   Ok tt).
Proof. unfold refreshBatchPaymentStatus. wexec. done. Qed.

(** The roll-up of a batch reads its rows: PAYABLE when none is paid, PAID
    when there is one and all are, PARTIALLY_PAID in between. *)
Theorem rollup_spec (allocations : list WorkerAllocation) :
  let paid a := alloc_payoutStatus a = AllocPayoutStatus.PAID in
  match rollup allocations with
  | BatchStatus.PAYABLE => forall a, In a allocations -> ~ paid a
  | BatchStatus.PAID => allocations <> [] /\ forall a, In a allocations -> paid a
  | BatchStatus.PARTIALLY_PAID =>
      (exists a, In a allocations /\ paid a) /\ (exists a, In a allocations /\ ~ paid a)
  | _ => False
  end.
Proof.
  intros paid. unfold rollup. set (q := fun a : WorkerAllocation => alloc_payoutStatus a ==? AllocPayoutStatus.PAID).
  assert (Hq : forall a, q a = true <-> paid a) by (intros a; apply bool_decide_eq_true).
  assert (Hall : length (List.filter q allocations) = length allocations ->
                 forall a, In a allocations -> paid a).
  { clear -Hq. induction allocations as [|x l IH]; cbn; [done|].
    pose proof (filter_length_le q l) as HL. destruct (q x) eqn:E; cbn; [|lia].
    intros Hn a [<-|Ha]; [by apply Hq|]. apply IH; [lia|done]. }
  assert (Hsome : forall a, In a allocations -> ~ paid a -> length (List.filter q allocations) <> length allocations).
  { intros a Ha Hp E. by apply Hp, Hall. }
  destruct (Nat.eqb_spec (length (List.filter q allocations)) 0) as [E0|E0].
  - intros a Ha Hp. apply Hq in Hp. assert (In a (List.filter q allocations)) as Hin by by apply List.filter_In.
    destruct (List.filter q allocations); [done|done].
  - destruct (List.filter q allocations) as [|x l] eqn:Ef; [done|].
    assert (In x allocations /\ q x = true) as [Hx Qx] by (apply List.filter_In; rewrite Ef; by left).
    destruct (Nat.eqb_spec (length (x :: l)) (length allocations)) as [E1|E1].
    + split; [by destruct allocations|]. by apply Hall.
    + split; [exists x; split; [done|by apply Hq]|].
      destruct (forallb q allocations) eqn:Fb.
      * exfalso. apply E1. rewrite <- Ef. clear -Fb.
        induction allocations as [|y l IH]; cbn in *; [done|].
        apply andb_true_iff in Fb as [-> Fb]. cbn. by rewrite IH.
      * assert (exists a, In a allocations /\ q a = false) as (a & Ha & Qa).
        { clear -Fb. induction allocations as [|y l IH]; cbn in *; [done|].
          destruct (q y) eqn:E; [|exists y; auto]. destruct (IH Fb) as (a & ? & ?). exists a; auto. }
        exists a. split; [done|]. rewrite <- Hq. by rewrite Qa.
Qed.

Section payments.
Context `{Platform} `{Chain}.

Lemma rebuild_money venueId actor w :
  IncomeProjector.same_money w (run (rebuildIncomeProjection venueId actor) w).1.
Proof.
  apply (guar_run IncomeProjector.same_money). unfold rebuildIncomeProjection.
  apply guar_bind; [apply IncomeProjector.rebuild_same_money|done].
Qed.

(** The conditions under which an allocation can be paid in USDC. *)
Definition usdc_payable (d : AllocationData) : Prop :=
  truthy (alloc_workerId (ad_allocation d)) = true /\
  In (batch_status (ad_batch d)) payable /\
  alloc_payoutStatus (ad_allocation d) <> AllocPayoutStatus.PAID /\
  0 < alloc_netAllocatedUsdCents (ad_allocation d) /\
  exists x, ad_wallet d = Some x /\ wallet_status x = WalletStatus.ACTIVE /\
            isPubkey (wallet_address x) = true.

(** A failed payment is taken up again only once its blockhash has expired. *)
Lemma expiry_checked e w :
  exists w1 g,
    run (match payout_lastValidBlockHeight e with
         | Some h =>
             let* currentBlockHeight := ask getBlockHeight in
             throw_if (negb (Money.isBlockhashExpired currentBlockHeight h))
               (ConflictException ("Previous payout blockhash is still valid through height " +:+ str_of_Z h))
         | None => Ret tt
         end) w = (w1, g) /\
    w_payouts w1 = w_payouts w /\
    (g = Ok tt -> forall h, payout_lastValidBlockHeight e = Some h -> h < getBlockHeight (w_tick w)).
Proof.
  destruct (payout_lastValidBlockHeight e) as [h|]; wexec; [|by do 2 eexists].
  do 2 eexists. split; [done|]. split; [done|]. unfold Money.isBlockhashExpired.
  destruct (Z.ltb_spec h (getBlockHeight (w_tick w))); cbn [negb]; [|done]. by intros _ h' [= <-].
Qed.

(** Bringing the share in line with a payment that is there writes no payout. *)
Lemma share_synced allocation batch user e w :
  let allocationStatus :=
    if payout_status e ==? PayoutStatus.FINALIZED then Some AllocPayoutStatus.PAID
    else if includes in_flight (payout_status e) then Some AllocPayoutStatus.PENDING
    else None in
  w_payouts (run (match allocationStatus with
    | Some s =>
        if (alloc_payoutStatus allocation !=? s) || (alloc_payoutRail allocation !=? Some PayoutRail.USDC)
        then
          do* update (alloc_id allocation)
                (fun a => a <| alloc_payoutRail := Some PayoutRail.USDC |> <| alloc_payoutStatus := s |>) in
          if s ==? AllocPayoutStatus.PAID then
            do* refreshBatchPaymentStatus (alloc_batchId allocation) in
            rebuildIncomeProjection (batch_venueId batch) user
          else Ret tt
        else Ret tt
    | None => Ret tt
    end) w).1 = w_payouts w.
Proof.
  cbv zeta. repeat case_match; wexec; try done; (destruct (List.find (by_id _) (w_allocations w)); wexec; [|done]); try done.
  all: rewrite run_refresh; match goal with |- context [run (rebuildIncomeProjection ?a ?b) ?c] =>
    pose proof (rebuild_money a b c) as (Hm & _) end; wcbn; exact Hm.
Qed.

(** C21: creating a USDC payout is idempotent and keeps one payment per
    allocation.  It succeeds only for a connected worker's unpaid positive
    share of a payable batch with an active wallet; then either the payout
    that already exists (and has not failed) is returned and no payout row
    changes, or the one row of this payment is written with status CREATED
    and exactly 10^4 base units per cent, over a FAILED attempt only when
    the block height read in this run is past its last valid one.  On an error no payout row changes. *)
Theorem createUsdcPayout_spec allocationId user w w' r :
  run (createUsdcPayout allocationId user) w = (w', r) ->
  match r with
  | Err _ => w_payouts w' = w_payouts w
  | Ok p => exists d, allocation_data w allocationId = Some d /\ usdc_payable d /\
      let a := ad_allocation d in
      (payout_status p <> PayoutStatus.FAILED /\ w_payouts w' = w_payouts w /\
       List.find (by_paymentId (alloc_id a)) (w_payouts w) = Some p)
      \/
      (payout_status p = PayoutStatus.CREATED /\ payout_paymentId p = alloc_id a /\
       payout_amountUsdCents p = alloc_netAllocatedUsdCents a /\
       (alloc_netAllocatedUsdCents a < 2 ^ 53 ->
        payout_amountBaseUnits p = alloc_netAllocatedUsdCents a * 10000) /\
       ((List.find (by_paymentId (alloc_id a)) (w_payouts w) = None /\
         w_payouts w' = w_payouts w ++ [p]) \/
        exists e f, List.find (by_paymentId (alloc_id a)) (w_payouts w) = Some e /\
          payout_status e = PayoutStatus.FAILED /\
          (forall h, payout_lastValidBlockHeight e = Some h -> h < getBlockHeight (w_tick w)) /\
          (exists e', List.find (by_id (payout_id e)) (w_payouts w) = Some e' /\ p = f e') /\
          w_payouts w' = upd_where (by_id (payout_id e)) f (w_payouts w)))
  end.
Proof.
  unfold createUsdcPayout. wexec.
  destruct (allocation_data w allocationId) as [d|] eqn:Ed; wexec; [|intros E; by injection E as <- <-].
  destruct (truthy (alloc_workerId (ad_allocation d))) eqn:Ew; cbn [negb orb];
    [|intros E; by injection E as <- <-].
  destruct (ad_worker d) as [wk|] eqn:Ewk; [|intros E; by injection E as <- <-]. wexec.
  destruct (includes payable (batch_status (ad_batch d))) eqn:Eb; cbn [negb];
    [|intros E; by injection E as <- <-]. wexec.
  destruct (bool_decide (alloc_payoutStatus (ad_allocation d) = AllocPayoutStatus.PAID)) eqn:Ep;
    [intros E; by injection E as <- <-|]. wexec.
  destruct (Z.leb_spec (alloc_netAllocatedUsdCents (ad_allocation d)) 0);
    [intros E; by injection E as <- <-|]. wexec.
  destruct (ad_wallet d) as [x|] eqn:Ex; [|intros E; by injection E as <- <-].
  destruct (bool_decide (wallet_status x = WalletStatus.ACTIVE)) eqn:Ea;
    [|intros E; by injection E as <- <-]. wexec.
  unfold parsePubkey. destruct (isPubkey (wallet_address x)) eqn:Ek; cbn [lift_result]; wexec;
    [|intros E; by injection E as <- <-].
  assert (usdc_payable d) as HD.
  { apply includes_In in Eb. apply bool_decide_eq_false in Ep. apply bool_decide_eq_true in Ea.
    repeat split; [done|done|done|done|]. exists x. done. }
  destruct (List.find (by_paymentId (alloc_id (ad_allocation d))) (w_payouts w)) as [e|] eqn:Ee.
  - destruct (bool_decide (payout_status e = PayoutStatus.FAILED)) eqn:Ef; cbn [negb].
    + apply bool_decide_eq_true in Ef. rewrite run_bind.
      destruct (expiry_checked e w) as (w1 & g & -> & Hp1 & Hh).
      destruct g as [[]|g]; [|intros E; by injection E as <- <-]. specialize (Hh eq_refl).
      destruct (Money.centsToUsdcBaseUnits _) as [base|err] eqn:Eb2; cbn [lift_result]; wexec;
        [|intros E; by injection E as <- <-].
      rewrite Hp1. destruct (List.find (by_id (payout_id e)) (w_payouts w)) as [e'|] eqn:Ee'; wexec;
        [|intros E; by injection E as <- <-].
      destruct (List.find (by_id _) (w_allocations w1)); wexec; intros E; injection E as <- <-; [|done].
      exists d. split; [done|]. split; [done|]. right. split; [done|]. split; [done|]. split; [done|].
      split.
      { intros Hn. rewrite Money.centsToUsdcBaseUnits_ok in Eb2 by lia. by injection Eb2 as <-. }
      right. eexists e, _. split; [done|]. split; [done|]. split; [exact Hh|].
      split; [exists e'; split; [done|reflexivity]|done].
    + apply bool_decide_eq_false in Ef. rewrite run_bind.
      pose proof (share_synced (ad_allocation d) (ad_batch d) user e w) as Hp.
      match goal with |- context [run ?q w] => change (w_payouts (run q w).1 = w_payouts w) in Hp;
        destruct (run q w) as [w1 [[]|g]]; cbn [fst] in Hp; intros E; injection E as <- <-; [|done] end.
      exists d. split; [done|]. split; [done|]. by left.
  - destruct (Money.centsToUsdcBaseUnits _) as [base|err] eqn:Eb2; cbn [lift_result]; wexec;
      [|intros E; by injection E as <- <-].
    match goal with |- context [existsb ?f ?l] => destruct (existsb f l) end; wexec;
      [intros E; by injection E as <- <-|].
    destruct (List.find (by_id _) (w_allocations w)); wexec; intros E; injection E as <- <-; [|done].
    exists d. split; [done|]. split; [done|]. right. split; [done|]. split; [done|]. split; [done|].
    split; [|by left]. intros Hn. rewrite Money.centsToUsdcBaseUnits_ok in Eb2 by lia. by injection Eb2 as <-.
Qed.

(** C3: a new transaction is built only for a payout that is CREATED, INITIATED
    or FAILED, when the chain, read in this run at the commitment "confirmed",
    shows no settlement record of the payment, and, if an INITIATED or FAILED
    attempt has a last valid block height, the block height read next in this
    run is past it.  What is signed is the stored payment and amount.
    Afterwards exactly that row is INITIATED under the new blockhash; on an
    error no payout changes. *)
Theorem buildTransaction_golden_rule id user w w' r :
  run (buildTransaction id user) w = (w', r) ->
  match r with
  | Err _ => w_payouts w' = w_payouts w
  | Ok view => exists p built,
      List.find (by_id id) (w_payouts w) = Some p /\ tv_built view = built /\
      In (payout_status p) [PayoutStatus.CREATED; PayoutStatus.INITIATED; PayoutStatus.FAILED] /\
      settlementRecord (payout_paymentId p) confirmed_ (w_tick w) = None /\
      (forall h, payout_lastValidBlockHeight p = Some h -> payout_status p <> PayoutStatus.CREATED ->
         h < getBlockHeight (S (w_tick w))) /\
      (exists hash authority wallet mint,
         bt_transactionBase64 built
         = settlePayoutTx (payout_venueId p) (payout_paymentId p) hash (payout_amountBaseUnits p)
             authority wallet mint (bt_blockhash built)) /\
      exists at_ by_, w_payouts w' = upd_where (payout_is id rebuildable)
                                       (initiated_data built (tv_signer view) at_ by_) (w_payouts w)
  end.
Proof.
  unfold buildTransaction. wexec. unfold payout_data.
  destruct (List.find (by_id id) (w_payouts w)) as [p|] eqn:Ep; wexec; [|intros E; by injection E as <- <-].
  destruct (includes rebuildable (payout_status p)) eqn:Er; cbn [negb]; wexec; [|intros E; by injection E as <- <-].
  unfold fetchSettlementRecord. wexec.
  destruct (settlementRecord (payout_paymentId p) confirmed_ (w_tick w)) as [rec|] eqn:Erec; wexec;
    [intros E; by injection E as <- <-|].
  match goal with |- context [run ?q (w <| w_tick ::= S |>)] =>
    assert (exists w1 g, run q (w <| w_tick ::= S |>) = (w1, g) /\ w_payouts w1 = w_payouts w /\
      (g = Ok tt -> forall h, payout_lastValidBlockHeight p = Some h -> payout_status p <> PayoutStatus.CREATED ->
         h < getBlockHeight (S (w_tick w)))) as (w1 & g & -> & Hp1 & Hh) end.
  { destruct (payout_lastValidBlockHeight p) as [h|]; wexec; [|by do 2 eexists].
    destruct (includes [PayoutStatus.INITIATED; PayoutStatus.FAILED] (payout_status p)) eqn:Ei; wexec.
    - do 2 eexists. split; [done|]. split; [done|]. unfold Money.isBlockhashExpired.
      destruct (Z.ltb_spec h (getBlockHeight (S (w_tick w)))); cbn [negb]; [|done].
      by intros _ h' [= <-] _.
    - do 2 eexists. split; [done|]. split; [done|]. intros _ h' _ Hc. exfalso.
      apply includes_In in Er. apply includes_not_In in Ei. cbn in Er, Ei. intuition congruence. }
  destruct g as [[]|g]; [|intros E; by injection E as <- <-]. specialize (Hh eq_refl). wexec.
  unfold parsePubkey.
  repeat (match goal with
    | |- context [match ?o with Some a => Ok a | None => Err _ end] => destruct o eqn:?; wexec
    | |- context [lift_result (if ?b then Ok _ else Err _)] => destruct b; cbn [lift_result]; wexec
    end; try (intros E; injection E as <- <-; exact Hp1)).
  unfold buildSettlePayoutTx. wexec. destruct (negb _); wexec; [intros E; injection E as <- <-; exact Hp1|].
  destruct (getLatestBlockhash (w_tick w1)) as [bh lv] eqn:El. wexec.
  rewrite Hp1. destruct (Nat.eqb_spec (length (List.filter (payout_is id rebuildable) (w_payouts w))) 0) as [E0|E0]; wexec.
  - intros E. injection E as <- <-. wcbn. apply upd_where_id. intros q Hq Hi. exfalso.
    assert (In q (List.filter (payout_is id rebuildable) (w_payouts w))) as Hin by by apply List.filter_In.
    by destruct (List.filter _ _).
  - intros E. injection E as <- <-. exists p. eexists. split; [done|]. split; [reflexivity|].
    split; [by apply includes_In|]. split; [exact Erec|]. split; [exact Hh|].
    split; [by do 4 eexists|]. by do 2 eexists.
Qed.

(** The allocation of legacy evidence after it is accepted. *)
Definition legacy_paid (rail : PayoutRail.t) (a : WorkerAllocation) : WorkerAllocation :=
  a <| alloc_payoutRail := Some rail |> <| alloc_payoutStatus := AllocPayoutStatus.PAID |>.

(** Accepted legacy evidence for an unpaid share marks exactly that share
    PAID on its rail, leaves one FINALIZED payout for it, and rolls the batch
    up; for a share already paid it changes no row of the money tables and
    returns the finalized payout. *)
Theorem legacyEvidence_spec allocationId rail ref user w w' p :
  run (registerLegacyEvidence allocationId rail ref user) w = (w', Ok p) ->
  exists d, allocation_data w allocationId = Some d /\
    let a := ad_allocation d in
    (alloc_payoutStatus a = AllocPayoutStatus.PAID /\ payout_status p = PayoutStatus.FINALIZED /\
     w_payouts w' = w_payouts w /\ w_allocations w' = w_allocations w /\ w_batches w' = w_batches w)
    \/
    (In (batch_status (ad_batch d)) payable /\ alloc_payoutStatus a <> AllocPayoutStatus.PAID /\
     payout_status p = PayoutStatus.FINALIZED /\ payout_rail p = rail /\
     w_allocations w' = upd_where (by_id (alloc_id a)) (legacy_paid rail) (w_allocations w) /\
     (exists f, w_payouts w' = upd_where (by_paymentId (alloc_id a)) f (w_payouts w) /\
                (exists e, List.find (by_paymentId (alloc_id a)) (w_payouts w) = Some e /\ p = f e)
      \/ List.find (by_paymentId (alloc_id a)) (w_payouts w) = None /\ w_payouts w' = w_payouts w ++ [p]) /\
     w_batches w' = upd_where (fun b => by_id (alloc_batchId a) b && includes payment_statuses (batch_status b))
       (fun b => b <| batch_status := rollup (List.filter (AllocationsService.of_batch (alloc_batchId a)) (w_allocations w')) |>)
       (w_batches w)).
Proof.
  unfold registerLegacyEvidence. wexec.
  destruct (allocation_data w allocationId) as [d|] eqn:Ed; wexec; [|done].
  destruct (truthy _); cbn [negb]; wexec; [|done].
  destruct (bool_decide (alloc_payoutStatus (ad_allocation d) = AllocPayoutStatus.PAID)) eqn:Ep; wexec.
  - destruct (List.find (finalized_payout _) (w_payouts w)) as [q|] eqn:Eq; wexec; [|done].
    pose proof (rebuild_money (batch_venueId (ad_batch d)) user w) as (H1 & H2 & H3 & _).
    destruct (run (rebuildIncomeProjection _ _) w) as [w1 [x|e]]; [|done].
    intros E. injection E as <- <-. exists d. split; [done|]. left.
    apply bool_decide_eq_true in Ep. apply find_In in Eq as [_ Eq].
    apply andb_true_iff in Eq as [_ Eq]. apply bool_decide_eq_true in Eq. done.
  - destruct (includes payable _) eqn:Eb; cbn [negb]; wexec; [|done].
    set (a := ad_allocation d) in *.
    destruct (List.find (by_paymentId (alloc_id a)) (w_payouts w)) as [e|] eqn:Ee; wexec.
    2: destruct (existsb _ _); wexec; [done|].
    all: destruct (List.find (by_id (alloc_id a)) (w_allocations w)) as [a'|]; wexec; [|done].
    all: rewrite run_refresh; wexec.
    all: match goal with |- context [run (rebuildIncomeProjection ?v ?u) ?c] =>
           pose proof (rebuild_money v u c) as (H1 & H2 & H3 & _);
           destruct (run (rebuildIncomeProjection v u) c) as [w1 [x|e1]] end; [|done].
    all: intros E; injection E as <- <-; cbn [fst] in H1, H2, H3; revert H1 H2 H3; wcbn; intros H1 H2 H3.
    all: exists d; split; [done|]; right; split; [by apply includes_In|].
    all: apply bool_decide_eq_false in Ep; split; [done|]; split; [done|]; split; [done|].
    all: split; [exact H2|]; rewrite H2; split; [|exact H3].
    + eexists. left. split; [exact H1|]. exists e. split; [done|reflexivity].
    + exists id. right. by split.
Qed.
End payments.

(* ------------------------------------------------------------------ *)
(** ** An approved day being paid *)

(** The approved day of [AllocationsService] with wallets and a signer. *)
Definition demo_payday : World :=
  Eval vm_compute in
  AllocationsService.demo_approved
    <| w_venues := [mkVenue "v" "org" "Bar" "UTC" None None (Some "signer") []] |>
    <| w_workers := [mkWorker "w1" "u1" (Some "wal1"); mkWorker "w2" "u2" (Some "wal2")] |>
    <| w_wallets := [mkWorkerWallet "wal1" "w1" "solana" "addr1" WalletType.EXTERNAL WalletStatus.ACTIVE true 0;
                     mkWorkerWallet "wal2" "w2" "solana" "addr2" WalletType.EXTERNAL WalletStatus.ACTIVE true 0] |>
    <| w_batches ::= map (fun b => b <| batch_allocationHash := Some (repeat_str "ab" 32) |>) |>.

Definition demo_allocation_id : string :=
  Eval vm_compute in nullish (alloc_id <$> (w_allocations demo_payday !! 1%nat)) "".

#[local] Existing Instance demo_chain.

Definition demo_created : World :=
  Eval vm_compute in (run (post_create "boss" demo_allocation_id) demo_payday).1.
Definition demo_payout_id : string :=
  Eval vm_compute in nullish (payout_id <$> head (w_payouts demo_created)) "".
Definition demo_initiated : World :=
  Eval vm_compute in (run (get_transaction "boss" demo_payout_id) demo_created).1.
Definition demo_submitted : World :=
  Eval vm_compute in (run (post_submit "boss" demo_payout_id "signed") demo_initiated).1.

Example demo_statuses :
  map payout_status (w_payouts demo_created) = [PayoutStatus.CREATED] /\
  map payout_amountBaseUnits (w_payouts demo_created) = [3340000] /\
  map payout_status (w_payouts demo_initiated) = [PayoutStatus.INITIATED] /\
  map payout_status (w_payouts demo_submitted) = [PayoutStatus.SUBMITTED] /\
  broadcasts demo_submitted = 1%nat.
Proof. vm_compute. done. Qed.

Lemma createUsdcPayout_spec_witness :
  exists w' p, run (createUsdcPayout demo_allocation_id None) demo_payday = (w', Ok p) /\
    exists d, allocation_data demo_payday demo_allocation_id = Some d /\ usdc_payable d.
Proof.
  destruct (run (createUsdcPayout demo_allocation_id None) demo_payday) as [w' [p|e]] eqn:E.
  - exists w', p. split; [done|].
    destruct (createUsdcPayout_spec _ _ _ _ _ E) as (d & Hd & Hp & _). by exists d.
  - apply (f_equal (fun c => is_ok c.2)) in E. vm_compute in E. discriminate E.
Defined.

Lemma buildTransaction_golden_rule_witness :
  exists w' view, run (buildTransaction demo_payout_id None) demo_created = (w', Ok view) /\
    exists p, List.find (by_id demo_payout_id) (w_payouts demo_created) = Some p /\
      In (payout_status p) rebuildable.
Proof.
  destruct (run (buildTransaction demo_payout_id None) demo_created) as [w' [view|e]] eqn:E.
  - exists w', view. split; [done|].
    destruct (buildTransaction_golden_rule _ _ _ _ _ E) as (p & built & Hp & _ & Hin & _). by exists p.
  - apply (f_equal (fun c => is_ok c.2)) in E. vm_compute in E. discriminate E.
Defined.

(** Three submissions of two different payloads, interleaved. *)
Lemma submit_broadcasts_once_witness :
  let requests := [(demo_payout_id, "signed", None); (demo_payout_id, "other", None);
                   (demo_payout_id, "signed", Some "u")] in
  let order := [0; 1; 2; 0; 1; 2; 0; 1; 2; 0; 1; 2; 0; 1; 2; 0; 1; 2; 0; 1; 2]%nat in
  let c' := schedule order (demo_initiated, map (fun r => submitSigned r.1.1 r.1.2 r.2) requests) in
  (broadcasts c'.1 + initiated c'.1 <= broadcasts demo_initiated + initiated demo_initiated)%nat /\
  broadcasts c'.1 = 1%nat.
Proof.
  cbv zeta. split; [|vm_compute; reflexivity].
  apply (submit_broadcasts_once [(demo_payout_id, "signed", None); (demo_payout_id, "other", None);
    (demo_payout_id, "signed", Some "u")]).
  apply schedule_sound.
Defined.

Lemma legacyEvidence_spec_witness :
  exists w' p, run (registerLegacyEvidence demo_allocation_id PayoutRail.CASH_DRAWER "till" None) demo_payday
    = (w', Ok p) /\
  exists d, allocation_data demo_payday demo_allocation_id = Some d.
Proof.
  destruct (run (registerLegacyEvidence demo_allocation_id PayoutRail.CASH_DRAWER "till" None) demo_payday)
    as [w' [p|e]] eqn:E.
  - exists w', p. split; [done|].
    destruct (legacyEvidence_spec _ _ _ _ _ _ _ E) as (d & Hd & _). by exists d.
  - apply (f_equal (fun c => is_ok c.2)) in E. vm_compute in E. discriminate E.
Defined.

(** Legacy evidence does not look at the payout it overwrites.  For a share
    whose USDC transaction is signed and already broadcast, cash evidence is
    accepted: the same row becomes a FINALIZED cash payment while its
    transaction is still in flight, so the share can be paid on both rails. *)
Theorem legacy_overwrites_in_flight :
  let c := run (post_legacyEvidence "boss" demo_allocation_id PayoutRail.CASH_DRAWER "till") demo_submitted in
  is_ok c.2 = true /\ broadcasts c.1 = 1%nat /\
  map (fun p => (payout_status p, payout_rail p, payout_asset p, payout_amountBaseUnits p)) (w_payouts c.1)
    = [(PayoutStatus.FINALIZED, PayoutRail.CASH_DRAWER, "tUSDC", 3340000)] /\
  existsb (fun p => match payout_txSignature p with Some _ => true | None => false end) (w_payouts c.1) = true.
Proof. vm_compute. done. Qed.

End PayoutsService.
