(* ===== verification/Settlement.v ===== *)
(** * Settlement of USDC payouts

    apps/worker/src/solana-settlement.service.ts: the confirmation job, the
    reconciliation sweep, the event indexer and the backfill, over the RPC
    answers of [Chain]. *)

From stdpp Require Import relations.
From S2P Require Import Prelude Concurrency Strings Schema Demo Float64 Money Access AllocationEngine Allocations IncomeProjector Solana Payouts.
Import Solana.

Open Scope Z_scope.

Module SolanaSettlementService.

Section service.
Context `{Platform} `{Chain}.

Definition rebuildIncomeProjection (venueId : string) : handler unit :=
  do* IncomeProjector.rebuildVenueIncome venueId None "SYSTEM" in Ret tt.

(** The roll-up, given an allocation of the batch. *)
Definition refreshBatchPaymentStatus (allocationId : string) : handler unit :=
  let* allocation := findUnique (R:=WorkerAllocation) allocationId in
  match allocation with
  | None => Ret tt
  | Some a =>
      let* allocations := findMany (AllocationsService.of_batch (alloc_batchId a)) in
      let status := PayoutsService.rollup allocations in
      do* updateMany (R:=AllocationBatch)
            (fun b => by_id (alloc_batchId a) b
                      && includes PayoutsService.payment_statuses (batch_status b))
            (fun b => b <| batch_status := status |>) in
      Ret tt
  end.

Definition markFailed (payoutId allocationId reason : string) : handler unit :=
  transaction (
    do* update (R:=Payout) payoutId
          (fun p => p <| payout_status := PayoutStatus.FAILED |> <| payout_failedReason := Some reason |>) in
    do* update (R:=WorkerAllocation) allocationId
          (fun a => a <| alloc_payoutStatus := AllocPayoutStatus.FAILED |>) in
    Ret tt).

(** The update of a finalized payout; a missing or zero slot and block time
    leave the columns as they are. *)
Definition finalized_data (slot blockTime : option Z) (settledAt : Z) (p : Payout) : Payout :=
  p <| payout_status := PayoutStatus.FINALIZED |>
    <| payout_slot ::= fun old => match slot with Some s => if s =? 0 then old else Some s | None => old end |>
    <| payout_blockTime ::= fun old =>
         match blockTime with Some b => if b =? 0 then old else Some (b * 1000) | None => old end |>
    <| payout_settledAt := Some (settledAt * 1000) |>
    <| payout_failedReason := None |>.

Definition finalizeFromChain (payoutId allocationId : string) (slot : option Z) : handler unit :=
  let* payout := findUnique (R:=Payout) payoutId in
  match payout with
  | None => Ret tt
  | Some payout =>
      if payout_status payout ==? PayoutStatus.FINALIZED
      then rebuildIncomeProjection (payout_venueId payout)
      else
        let* record := fetchSettlementRecord (payout_paymentId payout) finalized_ in
        let* record := require record (JsError "finalize requested but SettlementRecord not found") in
        let* blockTime := match slot with
                          | Some s => if s =? 0 then Ret None else ask (getBlockTime s)
                          | None => Ret None
                          end in
        do* transaction (
          do* update payoutId (finalized_data slot blockTime (sr_settledAt record)) in
          do* update (R:=WorkerAllocation) allocationId
                (fun a => a <| alloc_payoutStatus := AllocPayoutStatus.PAID |>) in
          Ret tt) in
        do* refreshBatchPaymentStatus allocationId in
        rebuildIncomeProjection (payout_venueId payout)
  end.

(** [true] when the observation of [signature] was on a discarded fork and
    the payout has been decided. *)
Definition failIfObservedForkWasDropped (payout : Payout) (signature : string) (observedSlot : Z)
    (blockhashExpired : bool) : handler bool :=
  if negb blockhashExpired then Ret false
  else
    let* finalizedRoot := ask getSlot in
    if finalizedRoot <=? observedSlot then Ret false
    else
      let* finalizedTransaction := ask (getFinalizedTransaction signature) in
      if finalizedTransaction then Ret false
      else
        let* record := fetchSettlementRecord (payout_paymentId payout) finalized_ in
        do* match record with
            | Some _ => finalizeFromChain (payout_id payout) (payout_allocationId payout) None
            | None => markFailed (payout_id payout) (payout_allocationId payout)
                        "fork_dropped_after_blockhash_expiry"
            end in
        Ret true.

Definition rebroadcastSameTransaction (payout : Payout) : handler unit :=
  match payout_signedTransactionBase64 payout with
  | Some raw =>
      if negb (truthy (payout_txSignature payout)) || (raw ==? "") then Ret tt
      else
        let* at_ := newDate in
        do* updateMany (PayoutsService.payout_is (payout_id payout)
                          [PayoutStatus.SUBMITTED; PayoutStatus.CONFIRMED])
              (fun p => p <| payout_broadcastAttempts ::= Z.succ |>
                          <| payout_lastBroadcastAt := Some at_ |>) in
        do* sendRaw raw in
        Ret tt
  | None => Ret tt
  end.

(** [payout.lastValidBlockHeight !== null && isBlockhashExpired(height, it)] *)
Definition expired_at (payout : Payout) (height : Z) : bool :=
  match payout_lastValidBlockHeight payout with
  | Some h => Money.isBlockhashExpired height h
  | None => false
  end.

Definition set_status (payoutId : string) (s : PayoutStatus.t) : handler unit :=
  do* update (R:=Payout) payoutId (fun p => p <| payout_status := s |>) in Ret tt.

(** A thrown error makes the queue retry the job. *)
Definition processConfirmation (payoutId signature : string) : handler unit :=
  let* payout := findUnique (R:=Payout) payoutId in
  match payout with
  | None => Ret tt
  | Some payout =>
      if payout_status payout ==? PayoutStatus.FINALIZED
      then rebuildIncomeProjection (payout_venueId payout)
      else if payout_status payout ==? PayoutStatus.FAILED then Ret tt
      else if payout_txSignature payout !=? Some signature then Ret tt
      else
        let* status := ask (getSignatureStatus signature) in
        let confirmation := match status with Some s => ss_confirmationStatus s | None => None end in
        let slot := match status with Some s => ss_slot s | None => 0 end in
        match match status with Some s => ss_err s | None => None end with
        | Some err =>
            let* record := fetchSettlementRecord (payout_paymentId payout) finalized_ in
            match record with
            | Some _ => finalizeFromChain (payout_id payout) (payout_allocationId payout) None
            | None => markFailed (payout_id payout) (payout_allocationId payout) (stringify err)
            end
        | None =>
            if confirmation ==? Some Money.finalized then
              finalizeFromChain (payout_id payout) (payout_allocationId payout) (Some slot)
            else if confirmation ==? Some Money.confirmed then
              do* (if payout_status payout ==? PayoutStatus.SUBMITTED
                   then set_status (payout_id payout) PayoutStatus.CONFIRMED else Ret tt) in
              let* blockhashExpired :=
                match payout_lastValidBlockHeight payout with
                | Some h => let* height := ask getBlockHeight in Ret (Money.isBlockhashExpired height h)
                | None => Ret false
                end in
              let* dropped := failIfObservedForkWasDropped payout signature slot blockhashExpired in
              if dropped then Ret tt else Throw (JsError "awaiting finalization")
            else
              let* decided :=
                match payout_lastValidBlockHeight payout with
                | None => Ret false
                | Some h =>
                    let* currentBlockHeight := ask getBlockHeight in
                    let blockhashExpired := Money.isBlockhashExpired currentBlockHeight h in
                    if match status with None => true | Some _ => false end
                       && Money.canReplaceTransactionBlockhash None blockhashExpired then
                      let* record := fetchSettlementRecord (payout_paymentId payout) finalized_ in
                      do* match record with
                          | Some _ => finalizeFromChain (payout_id payout) (payout_allocationId payout) None
                          | None => markFailed (payout_id payout) (payout_allocationId payout)
                                      "transaction_dropped"
                          end in
                      Ret true
                    else if blockhashExpired then
                      let* dropped :=
                        match status with
                        | Some _ => failIfObservedForkWasDropped payout signature slot blockhashExpired
                        | None => Ret false
                        end in
                      if dropped then Ret true
                      else Throw (JsError "expired blockhash has an observed signature; awaiting fork outcome")
                    else Ret false
                end in
              if decided : bool then Ret tt
              else
                do* (if Money.shouldRebroadcastSignedTransaction confirmation false
                     then rebroadcastSameTransaction payout else Ret tt) in
                do* (if (payout_status payout ==? PayoutStatus.SUBMITTED)
                        && (confirmation ==? Some Money.processed)
                     then set_status (payout_id payout) PayoutStatus.SUBMITTED else Ret tt) in
                Throw (JsError ("awaiting confirmation for " +:+ slice_to signature 12 +:+ "…"))
        end
  end.

Definition stale (p : Payout) : bool :=
  (payout_rail p ==? PayoutRail.USDC)
  && includes [PayoutStatus.INITIATED; PayoutStatus.SUBMITTED; PayoutStatus.CONFIRMED] (payout_status p).

(** [orderBy: { initiatedAt: "asc" }]: PostgreSQL puts nulls last. *)
Definition initiated_lt (a b : Payout) : bool :=
  match payout_initiatedAt a, payout_initiatedAt b with
  | Some x, Some y => x <? y
  | Some _, None => true
  | None, _ => false
  end.

(** One turn of the sweep. *)
Definition reconcile_one (currentBlockHeight abandonedBefore : Z) (payout : Payout) : handler unit :=
  let fail := markFailed (payout_id payout) (payout_allocationId payout) in
  let* record := fetchSettlementRecord (payout_paymentId payout) finalized_ in
  match record with
  | Some _ => finalizeFromChain (payout_id payout) (payout_allocationId payout) None
  | None =>
      let txSignature := match payout_txSignature payout with
                         | Some s => if s ==? "" then None else Some s | None => None end in
      let* status := match txSignature with
                     | Some s => ask (getSignatureStatus s)
                     | None => Ret None
                     end in
      let confirmation := match status with Some s => ss_confirmationStatus s | None => None end in
      let slot := match status with Some s => ss_slot s | None => 0 end in
      let blockhashExpired := expired_at payout currentBlockHeight in
      let has_height := match payout_lastValidBlockHeight payout with Some _ => true | None => false end in
      let fork_dropped := match txSignature with
                          | Some s => failIfObservedForkWasDropped payout s slot blockhashExpired
                          | None => Ret false
                          end in
      match match status with Some s => ss_err s | None => None end with
      | Some err => fail (stringify err)
      | None =>
          if confirmation ==? Some Money.finalized then fail "finalized_without_settlement"
          else if confirmation ==? Some Money.confirmed then
            do* (if payout_status payout ==? PayoutStatus.SUBMITTED
                 then set_status (payout_id payout) PayoutStatus.CONFIRMED else Ret tt) in
            do* fork_dropped in Ret tt
          else if confirmation ==? Some Money.processed then
            let* dropped := fork_dropped in
            if dropped : bool then Ret tt
            else if Money.shouldRebroadcastSignedTransaction (Some Money.processed) blockhashExpired
            then rebroadcastSameTransaction payout else Ret tt
          else if match status with None => true | Some _ => false end && has_height
                  && Money.canReplaceTransactionBlockhash None blockhashExpired then
            fail (if truthy (payout_txSignature payout) then "transaction_dropped"
                  else "blockhash_expired_before_submit")
          else if has_height && Money.shouldRebroadcastSignedTransaction None blockhashExpired
          then rebroadcastSameTransaction payout
          else if negb has_height
                  && match payout_initiatedAt payout with Some t => t <? abandonedBefore | None => false end
          then fail "legacy_attempt_timeout"
          else Ret tt
      end
  end.

Definition reconcileStalePayouts : handler unit :=
  let* rows_ := findMany stale in
  let stale := take 50 (stable_sort initiated_lt rows_) in
  if (length stale =? 0)%nat then Ret tt
  else
    let* currentBlockHeight := ask getBlockHeight in
    let* now_ := newDate in
    for_each stale (reconcile_one currentBlockHeight (now_ - 600000)).

(** The listener of the PayoutSettled event. *)
Definition onPayoutSettled (hashHex : string) : handler unit :=
  let* payout := findFirst (fun p => payout_paymentIdHash p ==? Some hashHex) in
  match payout with
  | None => Ret tt
  | Some p =>
      if includes [PayoutStatus.SUBMITTED; PayoutStatus.INITIATED] (payout_status p)
      then set_status (payout_id p) PayoutStatus.CONFIRMED else Ret tt
  end.

Definition backfillFinalizedIncomeProjections : handler unit :=
  let* payouts := findMany (fun p => payout_status p ==? PayoutStatus.FINALIZED) in
  for_each (distinct (map payout_venueId payouts)) rebuildIncomeProjection.
End service.

(* ------------------------------------------------------------------ *)
(** ** Every outcome has been read off the chain *)

Section outcomes.
Context `{Platform} `{Chain}.
(** The payment of each payout, and the payouts decided at the start. *)
Context (payment_of : string -> string) (decided : string -> Prop).

Definition settled_somewhen (paymentId : string) : Prop :=
  exists t record, settlementRecord paymentId finalized_ t = Some record.
Definition unsettled_somewhen (paymentId : string) : Prop :=
  exists t, settlementRecord paymentId finalized_ t = None.

(** A payout is FINALIZED only if a finalized settlement record of its
    payment has been read, and FAILED only if the record has been looked for
    and was missing (payouts decided at the start apart). *)
Definition outcome_ok (p : Payout) : Prop :=
  payout_paymentId p = payment_of (payout_id p) /\
  (payout_status p = PayoutStatus.FINALIZED ->
     decided (payout_id p) \/ settled_somewhen (payout_paymentId p)) /\
  (payout_status p = PayoutStatus.FAILED ->
     decided (payout_id p) \/ unsettled_somewhen (payout_paymentId p)).

Definition outcomes_ok (w : World) : Prop := Forall outcome_ok (w_payouts w).

Abbreviation keeps_ := (keeps outcomes_ok).

Lemma outcomes_upd p (f : Payout -> Payout) w w' :
  w_payouts w' = upd_where p f (w_payouts w) ->
  (forall q, p q = true -> outcome_ok q -> outcome_ok (f q)) -> outcomes_ok w -> outcomes_ok w'.
Proof.
  unfold outcomes_ok. intros -> Hf HI. rewrite List.Forall_forall in HI |- *. intros q Hq.
  apply in_upd_where in Hq as (q0 & Hq0 & ->). destruct (p q0) eqn:E; auto.
Qed.

Lemma outcomes_same w w' : w_payouts w' = w_payouts w -> outcomes_ok w -> outcomes_ok w'.
Proof. unfold outcomes_ok. by intros ->. Qed.

(** A status other than the two decisions is always fine. *)
Lemma outcome_undecided f q :
  payout_paymentId (f q) = payout_paymentId q -> payout_id (f q) = payout_id q ->
  payout_status (f q) <> PayoutStatus.FINALIZED -> payout_status (f q) <> PayoutStatus.FAILED ->
  outcome_ok q -> outcome_ok (f q).
Proof. unfold outcome_ok. intros -> -> H1 H2 (Hp & _). by split. Qed.

Lemma keeps_ask_bind {A B} (g : nat -> A) (f : A -> handler B) :
  (forall t, keeps_ (f (g t))) -> keeps_ (bind (ask g) f).
Proof. intros Hf w Hw. cbn. split; [exact Hw|]. exists 0%nat. split; [done|]. apply Hf. Qed.

Lemma keeps_ask {A} (g : nat -> A) : keeps_ (ask g).
Proof. intros w Hw. cbn. split; [exact Hw|]. by exists 0%nat. Qed.

Lemma keeps_sendRaw raw : keeps_ (sendRaw raw).
Proof.
  apply keeps_bind; [|intros _; apply keeps_ask]. intros w Hw. cbn. split; [exact Hw|]. by exists 0%nat.
Qed.

Lemma keeps_rebuild v : keeps_ (rebuildIncomeProjection v).
Proof.
  apply keeps_bind; [|done]. apply (keeps_guar _ IncomeProjector.same_money).
  - intros w w' Hw (E & _). by eapply outcomes_same.
  - apply IncomeProjector.rebuild_same_money.
Qed.

Lemma keeps_refresh a : keeps_ (refreshBatchPaymentStatus a).
Proof.
  apply keeps_bind; [apply keeps_query|]. intros [x|]; [|exact I].
  apply keeps_bind; [apply keeps_query|]. intros l. apply keeps_bind; [|intros n; exact I].
  refine (keeps_updateMany _ _ _ _). intros w Hw. exact Hw.
Qed.

Lemma keeps_markFailed id a reason :
  unsettled_somewhen (payment_of id) -> keeps_ (markFailed id a reason).
Proof.
  intros Hu. apply keeps_act. intros w Hw. wexec.
  destruct (List.find (by_id id) (w_payouts w)); wexec; [|done].
  destruct (List.find (by_id a) (w_allocations w)); wexec; [|done].
  eapply outcomes_upd; [reflexivity| |exact Hw]. intros q Hq (Hp & _).
  apply bool_decide_eq_true in Hq. cbn in Hq. repeat split; cbn; [done|done|].
  intros _. right. rewrite Hp, Hq. exact Hu.
Qed.

Lemma keeps_finalize id a slot : keeps_ (finalizeFromChain id a slot).
Proof.
  apply (keeps_query_bind outcomes_ok). intros w0 Hw0.
  destruct (List.find (by_id id) (rows w0)) as [p|] eqn:Ep; [|done].
  apply find_In in Ep as [Hin Hid]. unfold outcomes_ok in Hw0. rewrite List.Forall_forall in Hw0.
  destruct (Hw0 p Hin) as (Hpay & _). apply bool_decide_eq_true in Hid. cbn in Hid.
  destruct (_ ==? _); [apply keeps_rebuild|]. unfold fetchSettlementRecord.
  apply keeps_ask_bind. intros t. destruct (settlementRecord _ _ t) as [record|] eqn:Er; [|done].
  apply keeps_bind; [exact I|]. intros r'. apply keeps_bind.
  { destruct slot as [s|]; [|done]. destruct (s =? 0); [done|apply keeps_ask]. }
  intros bt. apply keeps_bind.
  - apply keeps_act. intros w Hw. wexec.
    destruct (List.find (by_id id) (w_payouts w)); wexec; [|done].
    destruct (List.find (by_id a) (w_allocations w)); wexec; [|done].
    eapply outcomes_upd; [reflexivity| |exact Hw]. intros q Hq (Hp & _).
    apply bool_decide_eq_true in Hq. cbn in Hq. repeat split; cbn; [done| |done].
    intros _. right. exists t, record. by rewrite Hp, Hq, <- Hid, <- Hpay.
  - intros _. apply keeps_bind; [apply keeps_refresh|]. intros _. apply keeps_rebuild.
Qed.

Lemma keeps_set_status id s :
  s <> PayoutStatus.FINALIZED -> s <> PayoutStatus.FAILED -> keeps_ (set_status id s).
Proof.
  intros H1 H2. apply keeps_bind; [|done]. apply keeps_act. intros w Hw.
  destruct (List.find (by_id id) (rows w)); [|done].
  eapply outcomes_upd; [reflexivity| |exact Hw]. intros q _. by apply (outcome_undecided (fun p => p <| payout_status := s |>)).
Qed.

Lemma keeps_rebroadcast p : keeps_ (rebroadcastSameTransaction p).
Proof.
  unfold rebroadcastSameTransaction. destruct (payout_signedTransactionBase64 p) as [raw|]; [|done].
  destruct (_ || _); [done|]. apply keeps_ask_bind. intros t. apply keeps_bind.
  - refine (keeps_updateMany _ _ _ _). intros w Hw. eapply outcomes_upd; [reflexivity| |exact Hw].
    intros q _ Hq. exact Hq.
  - intros _. apply keeps_bind; [apply keeps_sendRaw|done].
Qed.

Lemma keeps_decide id a slot reason (o : option SettlementRecordView) t :
  settlementRecord (payment_of id) finalized_ t = o ->
  keeps_ match o with Some _ => finalizeFromChain id a slot | None => markFailed id a reason end.
Proof.
  intros E. destruct o; [apply keeps_finalize|]. apply keeps_markFailed. by exists t.
Qed.

Lemma keeps_fork p signature slot expired :
  payout_paymentId p = payment_of (payout_id p) ->
  keeps_ (failIfObservedForkWasDropped p signature slot expired).
Proof.
  intros Hp. unfold failIfObservedForkWasDropped. destruct (negb expired); [done|].
  apply keeps_ask_bind. intros t. destruct (_ <=? _); [done|].
  apply keeps_ask_bind. intros t2. destruct (getFinalizedTransaction _ _); [done|].
  unfold fetchSettlementRecord. apply keeps_ask_bind. intros t3. apply keeps_bind; [|done].
  apply (keeps_decide _ _ _ _ _ t3). by rewrite Hp.
Qed.

Lemma read_payment w q p :
  outcomes_ok w -> List.find q (w_payouts w) = Some p -> payout_paymentId p = payment_of (payout_id p).
Proof.
  intros HI E. apply find_In in E as [Hin _]. unfold outcomes_ok in HI.
  rewrite List.Forall_forall in HI. by apply (HI p Hin).
Qed.

Lemma keeps_processConfirmation id signature : keeps_ (processConfirmation id signature).
Proof.
  apply (keeps_query_bind outcomes_ok). intros w0 Hw0.
  destruct (List.find (by_id id) (rows w0)) as [p|] eqn:Ep; [|done].
  pose proof (read_payment w0 _ p Hw0 Ep) as Hp.
  destruct (_ ==? PayoutStatus.FINALIZED); [apply keeps_rebuild|].
  destruct (_ ==? PayoutStatus.FAILED); [done|]. destruct (_ !=? _); [done|].
  apply keeps_ask_bind. intros t. set (status := getSignatureStatus signature t). cbv zeta.
  destruct (match status with Some s => ss_err s | None => None end) as [err|].
  { unfold fetchSettlementRecord. apply keeps_ask_bind. intros t2.
    apply (keeps_decide _ _ _ _ _ t2). by rewrite Hp. }
  destruct (_ ==? Some Money.finalized); [apply keeps_finalize|].
  destruct (_ ==? Some Money.confirmed).
  { apply keeps_bind; [destruct (_ ==? _); [by apply keeps_set_status|done]|]. intros _.
    apply keeps_bind; [destruct (payout_lastValidBlockHeight p); [|done]; by apply keeps_ask_bind|].
    intros b. apply keeps_bind; [by apply keeps_fork|]. intros [|]; done. }
  apply keeps_bind.
  - destruct (payout_lastValidBlockHeight p) as [h|]; [|done]. apply keeps_ask_bind. intros t2.
    destruct (_ && _).
    + unfold fetchSettlementRecord. apply keeps_ask_bind. intros t3. apply keeps_bind; [|done].
      apply (keeps_decide _ _ _ _ _ t3). by rewrite Hp.
    + destruct (Money.isBlockhashExpired _ _); [|done].
      apply keeps_bind; [destruct status; [by apply keeps_fork|done]|]. intros [|]; done.
  - intros [|]; [done|]. apply keeps_bind; [destruct (Money.shouldRebroadcastSignedTransaction _ _);
      [apply keeps_rebroadcast|done]|]. intros _.
    apply keeps_bind; [destruct (_ && _); [by apply keeps_set_status|done]|]. done.
Qed.

Lemma keeps_reconcile_one height abandoned p :
  payout_paymentId p = payment_of (payout_id p) -> keeps_ (reconcile_one height abandoned p).
Proof.
  intros Hp. unfold reconcile_one, fetchSettlementRecord. apply keeps_ask_bind. intros t.
  destruct (settlementRecord (payout_paymentId p) finalized_ t) as [rec|] eqn:Er;
    [apply keeps_finalize|].
  assert (forall reason, keeps_ (markFailed (payout_id p) (payout_allocationId p) reason)) as Hfail.
  { intros reason. apply keeps_markFailed. exists t. by rewrite <- Hp. }
  set (sig := match payout_txSignature p with Some s => _ | None => None end).
  apply keeps_bind; [destruct sig; [apply keeps_ask|done]|]. intros status. cbv zeta.
  set (expired := expired_at p height).
  assert (forall slot, keeps_ match sig with Some s => failIfObservedForkWasDropped p s slot expired | None => Ret false end)
    as Hfork by (intros; destruct sig; [by apply keeps_fork|done]).
  destruct (match status with Some s => ss_err s | None => None end); [apply Hfail|].
  destruct (_ ==? Some Money.finalized); [apply Hfail|].
  destruct (_ ==? Some Money.confirmed).
  { apply keeps_bind; [destruct (_ ==? _); [by apply keeps_set_status|done]|]. intros _.
    apply keeps_bind; [apply Hfork|done]. }
  destruct (_ ==? Some Money.processed).
  { apply keeps_bind; [apply Hfork|]. intros [|]; [done|].
    destruct (Money.shouldRebroadcastSignedTransaction _ _); [apply keeps_rebroadcast|done]. }
  destruct (_ && Money.canReplaceTransactionBlockhash None expired); [apply Hfail|].
  destruct (_ && Money.shouldRebroadcastSignedTransaction None expired); [apply keeps_rebroadcast|].
  destruct (_ && _); [apply Hfail|done].
Qed.

Lemma keeps_reconcile : keeps_ reconcileStalePayouts.
Proof.
  apply (keeps_query_bind outcomes_ok). intros w0 Hw0.
  cbv zeta. match goal with |- context [if ?b then _ else _] => destruct b end; [done|]. apply keeps_ask_bind. intros t. apply keeps_ask_bind. intros t2.
  apply keeps_for_each. intros p Hp. apply keeps_reconcile_one.
  assert (p ∈ stable_sort initiated_lt (List.filter stale (rows w0))) as Hi.
  { rewrite list_elem_of_In, <- (take_drop 50). apply in_app_iff. by left. }
  rewrite stable_sort_Permutation in Hi.
  rewrite list_elem_of_In in Hi. apply List.filter_In in Hi as [Hin _].
  unfold outcomes_ok in Hw0. rewrite List.Forall_forall in Hw0. by apply (Hw0 p Hin).
Qed.

Lemma keeps_event hash : keeps_ (onPayoutSettled hash).
Proof.
  apply (keeps_query_bind outcomes_ok). intros w0 _.
  destruct (List.find _ (rows w0)) as [p|]; [|done]. destruct (includes _ _); [|done].
  by apply keeps_set_status.
Qed.
End outcomes.

(** The jobs of the worker. *)
Inductive job :=
| Confirmation (payoutId signature : string)
| Reconcile
| SettledEvent (paymentIdHash : string)
| Backfill.

Definition run_job `{Platform} `{Chain} (j : job) : handler unit :=
  match j with
  | Confirmation payoutId signature => processConfirmation payoutId signature
  | Reconcile => reconcileStalePayouts
  | SettledEvent hash => onPayoutSettled hash
  | Backfill => backfillFinalizedIncomeProjections
  end.

(** The outcomes through every interleaving of the jobs. *)
Lemma jobs_keep_outcomes `{Platform} `{Chain} payment_of decided jobs w c' :
  rtc pool_step (w, map run_job jobs) c' -> outcomes_ok payment_of decided w -> outcomes_ok payment_of decided c'.1.
Proof.
  intros Hr Hw. apply (pool_keeps _ _ _ Hr Hw). cbn [snd]. clear.
  induction jobs as [|j jobs IH]; constructor; [|exact IH]. destruct j; cbn [run_job].
  - apply keeps_processConfirmation.
  - apply keeps_reconcile.
  - apply keeps_event.
  - apply keeps_bind; [apply keeps_query|]. intros l. apply keeps_for_each. intros v _. apply keeps_rebuild.
Qed.

Lemma undecided_outcomes `{Platform} `{Chain} payment_of w i :
  (forall p, In p (w_payouts w) -> payout_paymentId p = payment_of (payout_id p)) ->
  (forall p, In p (w_payouts w) -> payout_id p = i ->
     payout_status p <> PayoutStatus.FINALIZED /\ payout_status p <> PayoutStatus.FAILED) ->
  outcomes_ok payment_of (fun j => j <> i) w.
Proof.
  intros Hpay Hopen. unfold outcomes_ok. rewrite List.Forall_forall. intros p Hp. split; [auto|].
  destruct (decide (payout_id p = i)) as [E|E]; [by destruct (Hopen p Hp E)|]. split; intros _; by left.
Qed.

(** C5: whatever jobs the worker runs (confirmations, sweeps, events), in every
    interleaving, a payout becomes FINALIZED only if a finalized settlement
    record of its payment was read from the chain, and FAILED only if the
    record was looked for and found missing: no failure is declared without
    asking the chain. *)
Theorem outcomes_read_from_chain `{Platform} `{Chain} payment_of jobs w c' p' :
  rtc pool_step (w, map run_job jobs) c' ->
  (forall p, In p (w_payouts w) -> payout_paymentId p = payment_of (payout_id p)) ->
  In p' (w_payouts c'.1) ->
  (forall p, In p (w_payouts w) -> payout_id p = payout_id p' ->
     payout_status p <> PayoutStatus.FINALIZED /\ payout_status p <> PayoutStatus.FAILED) ->
  (payout_status p' = PayoutStatus.FINALIZED -> settled_somewhen (payout_paymentId p')) /\
  (payout_status p' = PayoutStatus.FAILED -> unsettled_somewhen (payout_paymentId p')).
Proof.
  intros Hr Hpay Hp' Hopen.
  pose proof (jobs_keep_outcomes _ _ _ _ _ Hr (undecided_outcomes _ _ _ Hpay Hopen)) as HI.
  unfold outcomes_ok in HI. rewrite List.Forall_forall in HI.
  destruct (HI p' Hp') as (_ & H1 & H2). split; intros E.
  - destruct (H1 E) as [?|?]; done.
  - destruct (H2 E) as [?|?]; done.
Qed.

(* ------------------------------------------------------------------ *)
(** ** A submitted payout meeting the chain *)

(** A network on which the payment settles at tick [t0] and whose answers about
    the signature are always "finalized" from the tick after it was sent. *)
Definition settling_chain (t0 : nat) : Chain := {|
  isPubkey := @isPubkey demo_chain;
  usdcMint := @usdcMint demo_chain;
  deriveSettlementPda := @deriveSettlementPda demo_chain;
  settlePayoutTx := @settlePayoutTx demo_chain;
  transactionFrom := @transactionFrom demo_chain;
  getBlockHeight := @getBlockHeight demo_chain;
  getLatestBlockhash := @getLatestBlockhash demo_chain;
  settlementRecord _ _ t := if (t0 <=? t)%nat then Some (mkSettlementRecord "payment" "hash" "venue" "addr1" 3340000 1 77) else None;
  getSignatureStatus _ t := if (t0 <=? t)%nat then Some (mkSignatureStatus None (Some Money.finalized) 9) else None;
  getSlot := @getSlot demo_chain;
  getFinalizedTransaction _ _ := true;
  getBlockTime _ _ := Some 77;
  sendRawTransaction := @sendRawTransaction demo_chain
|}.

Definition demo_signature : string :=
  Eval vm_compute in nullish (List.hd None (map payout_txSignature (w_payouts PayoutsService.demo_submitted))) "".

Definition payout_statuses (w : World) : list PayoutStatus.t := map payout_status (w_payouts w).

Lemma outcomes_read_from_chain_witness :
  let jobs := [Confirmation PayoutsService.demo_payout_id demo_signature; Reconcile] in
  let c' := schedule (concat (repeat [0; 1]%nat 20))
              (PayoutsService.demo_submitted, map (@run_job demo_platform (settling_chain 0)) jobs) in
  payout_statuses c'.1 = [PayoutStatus.FINALIZED] /\
  Forall (fun p => payout_status p = PayoutStatus.FINALIZED ->
                   @settled_somewhen (settling_chain 0) (payout_paymentId p)) (w_payouts c'.1).
Proof.
  cbv zeta. split; [vm_compute; reflexivity|]. apply List.Forall_forall. intros p Hp.
  refine (proj1 (@outcomes_read_from_chain demo_platform (settling_chain 0) (fun _ => PayoutsService.demo_allocation_id)
    [Confirmation PayoutsService.demo_payout_id demo_signature; Reconcile] PayoutsService.demo_submitted _ p
    (schedule_sound _ _) _ Hp _)).
  - intros q Hq. cbn in Hq. destruct Hq as [<-|[]]. reflexivity.
  - intros q Hq _. cbn in Hq. destruct Hq as [<-|[]]. split; discriminate.
Defined.

(** The sweep reads the settlement record first and the signature status
    afterwards.  If the transaction is finalized in between, the stale "no
    record" makes it mark a settled payout FAILED; from then on no job repairs
    it (a confirmation and further sweeps skip FAILED rows, and the listener too)
    and the API answers "Settlement already exists on-chain; run
    reconciliation" for ever. *)
Theorem reconcile_fails_settled :
  let t0 := (w_tick PayoutsService.demo_submitted + 3)%nat in
  let chain := settling_chain t0 in
  let jobs := for_each (W:=World) [Reconcile; Confirmation PayoutsService.demo_payout_id demo_signature;
                        SettledEvent (sha256 PayoutsService.demo_allocation_id); Backfill; Reconcile] run_job in
  let w1 := (run (run_job Reconcile) PayoutsService.demo_submitted).1 in
  let w2 := (run jobs w1).1 in
  (map (fun p => (payout_status p, payout_failedReason p)) (w_payouts w1),
   match settlementRecord PayoutsService.demo_allocation_id finalized_ (w_tick w1) with Some _ => true | None => false end,
   payout_statuses w2,
   (run (PayoutsService.get_transaction "boss" PayoutsService.demo_payout_id) w2).2)
  = ([(PayoutStatus.FAILED, Some "finalized_without_settlement")], true, [PayoutStatus.FAILED],
     Err (ConflictException "Settlement already exists on-chain; run reconciliation")).
Proof. vm_compute. reflexivity. Qed.

End SolanaSettlementService.

(** apps/worker/src/queue-runner.service.ts: the sweep over overdue reports. *)
Module QueueRunnerService.

Definition overdue (now_ : Z) (r : VerificationReport) : bool :=
  (report_status r ==? ReportStatus.ISSUED)
  && match report_expiresAt r with Some t => t <? now_ | None => false end.

Definition expireOverdueReports `{Platform} : handler unit :=
  let* now_ := newDate in
  do* updateMany (overdue now_) (fun r => r <| report_status := ReportStatus.EXPIRED |>) in
  Ret tt.

End QueueRunnerService.
