(* ===== verification/Settling.v ===== *)
(** * From a payout to the chain and back

    The composition of the API's payouts (Payouts.v), the client of the
    settlement program (packages/solana/src/index.ts), the program itself
    (OnChain.v) and the worker's confirmations (Settlement.v).  The addresses the
    client derives, the instruction it builds and the view of a record it
    returns are definitions here; [on_chain] is the [Chain] whose answers about
    records are read from a history of ledgers.  Keys are named by their base58
    text; SHA-256 and the serialisation of a transaction are parameters.

    [built_transaction_settles]: what the API hands to the wallet settles the
    payout when it reaches a ledger on which the venue can pay.
    [finalized_payout_settled]: what the worker calls FINALIZED has been settled
    by the program, exactly once.
    [finalized_unpaid]: but not necessarily by the venue or for the amount of the
    payout. *)

From stdpp Require Import relations gmap.
From S2P Require Import Prelude Concurrency Strings Schema Demo Money AllocationEngine Allocations IncomeProjector OnChain Solana Payouts Settlement.
Import Solana Serveproof.

Open Scope Z_scope.

Module Settling.

(* ------------------------------------------------------------------ *)
(** ** Hexadecimal text *)

Definition hex_value (c : ascii) : Z :=
  let n := Z.of_N (N_of_ascii c) in
  if n <=? 57 then n - 48 else if n <=? 70 then n - 55 else n - 87.
(** [Buffer.from(s, "hex")] *)
Fixpoint from_hex (s : string) : list Z :=
  match s with
  | String a (String b s') => if is_hex a && is_hex b then (16 * hex_value a + hex_value b) :: from_hex s' else []
  | _ => []
  end.

Definition hex_digit (n : Z) : ascii := ascii_of_N (Z.to_N (if n <? 10 then n + 48 else n + 87)).
(** [Buffer.toString("hex")] *)
Fixpoint to_hex (b : list Z) : string :=
  match b with
  | [] => ""
  | z :: b' => String (hex_digit (z / 16)) (String (hex_digit (z mod 16)) (to_hex b'))
  end.

Lemma from_hex_length s : length (from_hex s) = hex_length s.
Proof.
  induction s as [s IH] using (well_founded_induction (well_founded_ltof _ String.length)).
  destruct s as [|a [|b s]]; [done..|]. cbn [from_hex hex_length]. destruct (is_hex a && is_hex b); [|done].
  cbn. f_equal. apply IH. unfold ltof. cbn. lia.
Qed.

Definition hex_byte_ok (z : Z) : bool :=
  is_hex (hex_digit (z / 16)) && is_hex (hex_digit (z mod 16))
  && (16 * hex_value (hex_digit (z / 16)) + hex_value (hex_digit (z mod 16)) =? z).
Lemma hex_bytes z : 0 <= z < 256 -> hex_byte_ok z = true.
Proof.
  intros Hz. assert (forallb (fun n => hex_byte_ok (Z.of_nat n)) (seq 0 256) = true) as Hall by (vm_compute; reflexivity).
  rewrite forallb_forall in Hall. specialize (Hall (Z.to_nat z)). rewrite Z2Nat.id in Hall by lia.
  apply Hall, in_seq. lia.
Qed.

(** The text of bytes reads back as the bytes. *)
Lemma from_to_hex b : Forall (fun z => 0 <= z < 256) b -> from_hex (to_hex b) = b.
Proof.
  induction 1 as [|z b Hz _ IH]; [done|]. apply hex_bytes in Hz. unfold hex_byte_ok in Hz.
  rewrite !andb_true_iff in Hz. destruct Hz as [[H1 H2] H3]. apply Z.eqb_eq in H3.
  cbn [to_hex from_hex]. rewrite H1, H2. cbn [andb]. by rewrite H3, IH.
Qed.

(* ------------------------------------------------------------------ *)
(** ** packages/solana/src/index.ts *)

(** [createHash("sha256").update(input).digest()] *)
Class Digest := digest : string -> bytes32.

Record ServeproofPdas := mkPdas {
  pda_config : Pubkey;
  pda_venue : Pubkey;
  pda_vaultAuthority : Pubkey;
  pda_venueVault : Pubkey
}.

Section client.
Context `{Runtime} `{Digest}.

Definition sha256Bytes (input : string) : bytes32 := digest input.

Definition deriveVenuePdas (venueId : string) (usdcMint : Pubkey) : ServeproofPdas :=
  let config := (find_program_address [CONFIG_SEED]).1 in
  let venue := (find_program_address [VENUE_SEED; Bytes (sha256Bytes venueId)]).1 in
  let vaultAuthority := (find_program_address [VAULT_AUTHORITY_SEED; Key venue]).1 in
  mkPdas config venue vaultAuthority (associated_token usdcMint vaultAuthority).

Definition deriveSettlementPda (paymentId : string) : Pubkey :=
  (find_program_address [SETTLEMENT_SEED; Bytes (sha256Bytes paymentId)]).1.

(** The instruction of [buildSettlePayoutTx].  Four accounts are given, the
    others are found by the seeds the interface description (idl.json) lists. *)
Definition settle_instruction (venueId paymentId allocationHashHex : string) (amountBaseUnits : Z)
    (venueAuthority workerWallet usdcMint : Pubkey) : instruction :=
  let paymentIdHash := sha256Bytes paymentId in
  let allocationHash := from_hex allocationHashHex in
  let venue := pda_venue (deriveVenuePdas venueId usdcMint) in
  let vaultAuthority := (find_program_address [VAULT_AUTHORITY_SEED; Key venue]).1 in
  ISettlePayout
    (mkSettlePayout (find_program_address [CONFIG_SEED]).1 venue venueAuthority vaultAuthority
       (associated_token usdcMint vaultAuthority) workerWallet (associated_token usdcMint workerWallet)
       (find_program_address [SETTLEMENT_SEED; Bytes paymentIdHash]).1 usdcMint)
    paymentIdHash allocationHash amountBaseUnits.

Definition record_view (r : SettlementRecord) : SettlementRecordView := {|
  sr_paymentIdHashHex := to_hex (payment_id_hash r);
  sr_allocationHashHex := to_hex (allocation_hash r);
  sr_venue := record_venue r;
  sr_workerWallet := worker_wallet r;
  sr_amount := record_amount r;
  sr_status := record_status r;
  sr_settledAt := settled_at r
|}.

(** [fetchSettlementRecord] on a ledger *)
Definition fetchSettlementRecord (l : Ledger) (paymentId : string) : option SettlementRecordView :=
  match ledger_accounts l !! deriveSettlementPda paymentId with
  | Some (SettlementAccount r) => Some (record_view r)
  | _ => None
  end.

(** The job of the worker's listener for an event of the program. *)
Definition listener_job (e : event) : option SolanaSettlementService.job :=
  match e with
  | PayoutSettled payment_id_hash _ _ _ _ => Some (SolanaSettlementService.SettledEvent (to_hex payment_id_hash))
  | _ => None
  end.

(** The network over a history of ledgers (at each commitment, by tick):
    [serialize] writes an instruction with its fee payer and blockhash down; all
    other answers are those of [c]. *)
Definition on_chain (history : Commitment -> nat -> Ledger) (serialize : instruction -> Pubkey -> string -> string)
    (c : Chain) : Chain := {|
  isPubkey := @isPubkey c;
  usdcMint := @usdcMint c;
  Solana.deriveSettlementPda := deriveSettlementPda;
  settlePayoutTx venueId paymentId hash amount authority wallet mint blockhash :=
    serialize (settle_instruction venueId paymentId hash amount authority wallet mint) authority blockhash;
  transactionFrom := @transactionFrom c;
  getBlockHeight := @getBlockHeight c;
  getLatestBlockhash := @getLatestBlockhash c;
  settlementRecord p commitment t := fetchSettlementRecord (history commitment t) p;
  getSignatureStatus := @getSignatureStatus c;
  getSlot := @getSlot c;
  getFinalizedTransaction := @getFinalizedTransaction c;
  getBlockTime := @getBlockTime c;
  sendRawTransaction := @sendRawTransaction c
|}.
End client.

(* ------------------------------------------------------------------ *)
(** ** What the API builds settles the payout *)

Section settles.
Context `{RuntimeLaws} `{Digest}.

(** A ledger on which a venue can pay a worker: the protocol runs with this
    mint, the venue is active under this authority, its vault holds the amount,
    the worker's token account is usable or absent, and the payment is new. *)
Record venue_pays (m : gmap Pubkey account) (venueId paymentId allocationHashHex : string) (amount : Z)
    (authority worker mint : Pubkey) : Prop := {
  vp_config : exists config, m !! (find_program_address [CONFIG_SEED]).1 = Some (ConfigAccount config) /\
    config_paused config = false /\ config_usdc_mint config = mint;
  vp_venue : exists venue, m !! pda_venue (deriveVenuePdas venueId mint) = Some (VenueAccount venue) /\
    venue_active venue = true /\ venue_authority venue = authority;
  vp_mint : exists x, m !! mint = Some (MintAccount x);
  vp_vault : exists vault, m !! pda_venueVault (deriveVenuePdas venueId mint) = Some (TokenAccount vault) /\
    token_owner vault = pda_vaultAuthority (deriveVenuePdas venueId mint) /\ token_mint vault = mint /\
    token_frozen vault = false /\ amount <= token_amount vault;
  vp_worker : m !! associated_token mint worker = None \/
    exists t, m !! associated_token mint worker = Some (TokenAccount t) /\ token_owner t = worker /\
              token_mint t = mint /\ token_frozen t = false /\ token_amount t + amount < 2 ^ 64;
  vp_new : m !! deriveSettlementPda paymentId = None;
  vp_apart : deriveSettlementPda paymentId <> associated_token mint worker;
  vp_hash : from_hex allocationHashHex <> zero32;
  vp_amount : 0 < amount < 2 ^ 64
}.

Lemma instruction_settles ctx l0 l venueId paymentId hash amount authority worker mint :
  genesis l0 -> rtc step l0 l ->
  venue_pays (ledger_accounts l) venueId paymentId hash amount authority worker mint ->
  In authority (signers ctx) -> can_pay ctx authority = true ->
  exists l', process ctx (settle_instruction venueId paymentId hash amount authority worker mint) l = inr l'.
Proof.
  intros Hg Hs [(config & Hc & Hrun & Hmint) (venue & Hv & Hact & Hau) [x Hx] (vault & Hva & Ho & Hvm & Hf & Hle)
    Hw Hnew Hap Hh Hn] Hsig Hpay.
  pose proof (steps_placed _ _ Hg Hs) as Hp. pose proof (Hp _ _ Hc) as Hpc. pose proof (Hp _ _ Hv) as [Hpv _].
  cbn in Hpc.
  eapply (settle_payout_succeeds ctx _ _ _ _ l config venue vault x). split; try done; cbn; auto with lia.
  - apply (f_equal snd) in Hpc. cbn in Hpc. rewrite Hpc. apply create_found.
  - pose proof (create_found [VENUE_SEED; Bytes (venue_id_hash venue)]) as Hcf. rewrite <- Hpv in Hcf.
    exact Hcf.
Qed.

Lemma built_bytes `{Platform} (c : Chain) history serialize venueId paymentId hash amount authority worker mint w w' built :
  run (@buildSettlePayoutTx (on_chain history serialize c) venueId paymentId hash amount authority worker mint) w
    = (w', Ok built) ->
  length (from_hex hash) = 32%nat /\
  bt_transactionBase64 built =
    serialize (settle_instruction venueId paymentId hash amount authority worker mint) authority (bt_blockhash built) /\
  bt_settlementPda built = deriveSettlementPda paymentId.
Proof.
  unfold buildSettlePayoutTx. rewrite from_hex_length.
  destruct (hex_length hash =? 32)%nat eqn:Elen; cbn; [|discriminate].
  apply Nat.eqb_eq in Elen.
  wexec. destruct (getLatestBlockhash (w_tick w)) as [b h] eqn:E. wexec. intros [= _ <-]. done.
Qed.

(** C7: what the API builds settles the payout: when a transaction has been built
    and its instruction reaches, signed by the venue's authority, a ledger of the
    program on which the venue can pay, the program carries it out; then the
    record under the address the API stored names the payment, the allocation
    hash, the venue, the worker and the amount it was built for, and the worker
    has received the amount from the vault. *)
Theorem built_transaction_settles `{Platform} (c : Chain) history serialize ctx l0 l venueId paymentId hash amount
    authority worker mint w w' built :
  run (@buildSettlePayoutTx (on_chain history serialize c) venueId paymentId hash amount authority worker mint) w
    = (w', Ok built) ->
  genesis l0 -> rtc step l0 l ->
  venue_pays (ledger_accounts l) venueId paymentId hash amount authority worker mint ->
  In authority (signers ctx) -> can_pay ctx authority = true ->
  exists i l',
    bt_transactionBase64 built = serialize i authority (bt_blockhash built) /\ process ctx i l = inr l' /\
    bt_settlementPda built = deriveSettlementPda paymentId /\
    fetchSettlementRecord l' paymentId = Some (mkSettlementRecord (to_hex (sha256Bytes paymentId)) (to_hex (from_hex hash))
      (pda_venue (deriveVenuePdas venueId mint)) worker amount SETTLEMENT_STATUS_SETTLED (unix_timestamp ctx)) /\
    let vault := pda_venueVault (deriveVenuePdas venueId mint) in
    let to := associated_token mint worker in
    (vault <> to -> held vault (ledger_accounts l') = held vault (ledger_accounts l) - amount /\
                    held to (ledger_accounts l') = held to (ledger_accounts l) + amount).
Proof.
  intros Hb Hg Hs Hv Hsig Hpay. apply built_bytes in Hb as (_ & Hb & Hpda).
  destruct (instruction_settles ctx _ _ _ _ _ _ _ _ _ Hg Hs Hv Hsig Hpay) as [l' Hl'].
  eexists _, l'. split_and!; [exact Hb|exact Hl'|exact Hpda| |]; cbn in Hl';
    apply settle_payout_inr in Hl' as [(config & venue & vault & t & []) _]; cbn in *.
  - unfold fetchSettlementRecord, deriveSettlementPda. rewrite sm_effect0, lookup_insert_eq. done.
  - intros Hne. rewrite sm_effect0, bool_decide_eq_false_2 by done. unfold held.
    rewrite !(lookup_insert_ne _ (find_program_address [SETTLEMENT_SEED; _]).1) by congruence.
    rewrite lookup_insert_eq, lookup_insert_ne, lookup_insert_eq by done. rewrite sm_vault0.
    destruct sm_worker0 as [[-> _]|[-> ->]]; done.
Qed.

(* ------------------------------------------------------------------ *)
(** ** What the worker calls final was settled *)

Lemma all_equal_NoDup {A} (x : A) xs : NoDup xs -> (forall y, y ∈ xs <-> y = x) -> xs = [x].
Proof.
  intros Hn Hx. assert (xs ≡ₚ [x]) as Hp.
  { apply NoDup_Permutation; [done|apply NoDup_singleton|]. intros y. by rewrite Hx, list_elem_of_singleton. }
  symmetry in Hp. by apply Permutation_length_1_inv in Hp.
Qed.

(** One settlement leads to the address of a record. *)
Lemma one_settlement l0 l k r :
  genesis l0 -> rtc step l0 l -> ledger_accounts l !! k = Some (SettlementAccount r) ->
  0 < record_amount r /\ base.filter (fun p => settlement_address p = k) (settled_payments l) = [payment_id_hash r].
Proof.
  intros Hg Hs Hk. destruct (steps_well_settled _ _ Hs (genesis_well_settled _ Hg)) as [Honce Hrec Hev].
  destruct (Hrec k r Hk) as (Hka & Hpos & e & He & Hin). split; [done|].
  apply all_equal_NoDup; [by apply NoDup_filter|]. intros p. rewrite list_elem_of_filter, settled_payments_In. split.
  - intros (Ha & e' & Hin' & Hp). destruct (Hev e' p Hin' Hp) as (r' & Hr' & ->). rewrite Ha, Hk in Hr'.
    injection Hr' as <-. by injection Hp.
  - intros ->. split; [by symmetry|]. exists e. rewrite He in Hin |- *. done.
Qed.

(** C9: what the worker calls final was settled: however its jobs interleave over a
    network that shows the ledgers of the program, the payment of a payout that
    becomes FINALIZED has a record of a positive amount on a finalized ledger, and
    exactly one settlement on that ledger led to it. *)
Theorem finalized_payout_settled `{Platform} (c : Chain) history serialize l0 payment_of jobs w c' p' :
  genesis l0 -> (forall t, rtc step l0 (history finalized_ t)) ->
  rtc pool_step (w, map (@SolanaSettlementService.run_job _ (on_chain history serialize c)) jobs) c' ->
  (forall p, In p (w_payouts w) -> payout_paymentId p = payment_of (payout_id p)) ->
  (forall p, In p (w_payouts w) -> payout_id p = payout_id p' ->
     payout_status p <> PayoutStatus.FINALIZED /\ payout_status p <> PayoutStatus.FAILED) ->
  In p' (w_payouts c'.1) -> payout_status p' = PayoutStatus.FINALIZED ->
  exists t r,
    let l := history finalized_ t in
    let k := deriveSettlementPda (payout_paymentId p') in
    ledger_accounts l !! k = Some (SettlementAccount r) /\ 0 < record_amount r /\
    base.filter (fun p => settlement_address p = k) (settled_payments l) = [payment_id_hash r].
Proof.
  intros Hg Hh Hr Hpay Hopen Hp' Hfin.
  pose proof (SolanaSettlementService.jobs_keep_outcomes _ _ _ _ _ Hr
    (SolanaSettlementService.undecided_outcomes _ _ _ Hpay Hopen)) as HI.
  unfold SolanaSettlementService.outcomes_ok in HI. rewrite List.Forall_forall in HI.
  destruct (HI p' Hp') as (_ & H4 & _). destruct (H4 Hfin) as [?|(t & v & Hv)]; [done|].
  cbn in Hv. unfold fetchSettlementRecord in Hv.
  destruct (ledger_accounts _ !! _) as [[| |r| | |]|] eqn:Hk; try discriminate Hv.
  exists t, r. split; [exact Hk|]. exact (one_settlement _ _ _ _ Hg (Hh t) Hk).
Qed.
End settles.

(* ------------------------------------------------------------------ *)
(** ** A payout meeting the program *)

Import Validator.

(** A digest for the examples: the first 32 bytes. *)
#[local] Instance demo_digest : Digest := fun s =>
  take 32 (map (fun a => Z.of_N (N_of_ascii a)) (String.list_ascii_of_string s) ++ repeat 0 32).
Definition demo_serialize (i : instruction) (authority : Pubkey) (blockhash : string) : string :=
  match i with
  | ISettlePayout a payment allocation amount =>
      join "|" [sp_venue a; sp_worker_wallet a; to_hex payment; str_of_Z amount; authority; blockhash]
  | _ => blockhash
  end.

Definition demo_ledger : Ledger := opened_with (digest "venue") (digest "other venue").
Definition demo_hash : string := to_hex (hash 9).
Definition demo_amount : Z := 3340000.
Definition demo_network (l : Ledger) : Chain :=
  on_chain (fun _ _ => l) demo_serialize (SolanaSettlementService.settling_chain 0).

(** The transaction of the demo payout, built, signed and processed. *)
Definition demo_settled : Ledger :=
  or_same demo_ledger (process (signed_by "alice")
    (settle_instruction "venue" PayoutsService.demo_allocation_id demo_hash demo_amount "alice" "worker" "usdc") demo_ledger).

Lemma demo_settled_reached : rtc step usdc_ledger demo_settled.
Proof.
  etransitivity; [apply (opened_reached (digest "venue") (digest "other venue"))|].
  apply or_same_steps. intros l' Hl. apply rtc_once. by econstructor.
Qed.

Lemma demo_pays :
  venue_pays (ledger_accounts demo_ledger) "venue" PayoutsService.demo_allocation_id demo_hash demo_amount "alice" "worker" "usdc".
Proof.
  split; try (eexists; split_and!; [vm_compute; reflexivity|..]; vm_compute; done).
  - eexists. vm_compute. reflexivity.
  - left. vm_compute. reflexivity.
  - vm_compute. reflexivity.
  - apply (bool_decide_unpack _). vm_compute. exact I.
  - apply (bool_decide_unpack _). vm_compute. exact I.
  - unfold demo_amount. lia.
Qed.

Lemma built_transaction_settles_witness :
  exists i l', process (signed_by "alice") i demo_ledger = inr l' /\
    option_map sr_amount (fetchSettlementRecord l' PayoutsService.demo_allocation_id) = Some demo_amount /\
    held (associated_token "usdc" "worker") (ledger_accounts l') = demo_amount.
Proof.
  destruct (run (@buildSettlePayoutTx (demo_network demo_ledger) "venue" PayoutsService.demo_allocation_id demo_hash
                   demo_amount "alice" "worker" "usdc") empty_world) as [w' [built|e]] eqn:E;
    [|apply (f_equal (fun x => is_ok x.2)) in E; vm_compute in E; discriminate E].
  destruct (built_transaction_settles _ _ _ (signed_by "alice") usdc_ledger demo_ledger _ _ _ _ _ _ _ _ _ _ E
    usdc_genesis (opened_reached _ _) demo_pays (or_introl eq_refl) eq_refl) as (i & l' & _ & Hp & _ & Hf & Hm).
  exists i, l'. split_and!; [exact Hp|by rewrite Hf|].
  destruct Hm as [_ Hm]; [by vm_compute|]. etransitivity; [exact Hm|]. vm_compute. reflexivity.
Defined.

(** The worker's jobs over the submitted demo payout. *)
Definition demo_jobs : list SolanaSettlementService.job :=
  [SolanaSettlementService.Confirmation PayoutsService.demo_payout_id SolanaSettlementService.demo_signature;
   SolanaSettlementService.Reconcile].
Definition demo_worked (l : Ledger) : World * list (handler unit) :=
  schedule (concat (repeat [0; 1]%nat 20))
    (PayoutsService.demo_submitted, map (@SolanaSettlementService.run_job demo_platform (demo_network l)) demo_jobs).

Lemma demo_worked_reached l :
  rtc pool_step (PayoutsService.demo_submitted,
                 map (@SolanaSettlementService.run_job demo_platform
                        (on_chain (fun _ _ => l) demo_serialize (SolanaSettlementService.settling_chain 0))) demo_jobs)
    (demo_worked l).
Proof. apply schedule_sound. Qed.

Lemma finalized_payout_settled_witness :
  let c' := demo_worked demo_settled in
  SolanaSettlementService.payout_statuses c'.1 = [PayoutStatus.FINALIZED] /\
  Forall (fun p => exists r, ledger_accounts demo_settled !! deriveSettlementPda (payout_paymentId p)
                               = Some (SettlementAccount r) /\ 0 < record_amount r) (w_payouts c'.1).
Proof.
  cbv zeta. split; [vm_compute; reflexivity|]. apply List.Forall_forall. intros p Hp.
  assert (payout_status p = PayoutStatus.FINALIZED) as Hf.
  { assert (In (payout_status p) (SolanaSettlementService.payout_statuses (demo_worked demo_settled).1)) as Hin
      by (apply in_map; exact Hp).
    assert (SolanaSettlementService.payout_statuses (demo_worked demo_settled).1 = [PayoutStatus.FINALIZED]) as E
      by (vm_compute; reflexivity).
    rewrite E in Hin. by destruct Hin as [<-|[]]. }
  destruct (finalized_payout_settled (SolanaSettlementService.settling_chain 0) (fun _ _ => demo_settled) demo_serialize
    usdc_ledger (fun _ => PayoutsService.demo_allocation_id) demo_jobs PayoutsService.demo_submitted
    (demo_worked demo_settled) p usdc_genesis (fun _ => demo_settled_reached) (demo_worked_reached demo_settled))
    as (_ & r & Hr & Hpos & _).
  - intros q Hq. cbn in Hq. destruct Hq as [<-|[]]. reflexivity.
  - intros q Hq _. cbn in Hq. destruct Hq as [<-|[]]. split; discriminate.
  - exact Hp.
  - exact Hf.
  - exists r. split; [exact Hr|exact Hpos].
Defined.

(** The record of a payment is found by the payment alone, and the worker looks
    only whether there is one.  Another venue of the protocol that settles the
    payment first, for one millionth of a USDC to a wallet of its own, makes the
    sweep call the payout FINALIZED and its allocation PAID; the venue's own
    transaction then fails, and its vault has not paid the worker anything. *)
Definition bob_settles : Ledger :=
  or_same demo_ledger (process (signed_by "bob")
    (settle_instruction "other venue" PayoutsService.demo_allocation_id demo_hash 1 "bob" "bob's wallet" "usdc") demo_ledger).

Example finalized_unpaid :
  let w := (demo_worked bob_settles).1 in
  map (fun p => (payout_status p, payout_amountBaseUnits p, payout_failedReason p)) (w_payouts w)
    = [(PayoutStatus.FINALIZED, demo_amount, None)] /\
  map (fun a => alloc_payoutStatus a)
    (List.filter (by_id PayoutsService.demo_allocation_id) (w_allocations w)) = [AllocPayoutStatus.PAID] /\
  option_map (fun v => (sr_amount v, sr_workerWallet v)) (fetchSettlementRecord bob_settles PayoutsService.demo_allocation_id)
    = Some (1, "bob's wallet") /\
  settled (vault_authority_of (pda_venue (deriveVenuePdas "venue" "usdc"))) (ledger_accounts bob_settles) = 0 /\
  process (signed_by "alice")
    (settle_instruction "venue" PayoutsService.demo_allocation_id demo_hash demo_amount "alice" "worker" "usdc") bob_settles
    = inl AlreadyInUse.
Proof. vm_compute. done. Qed.
End Settling.
