(* ===== verification/Income.v ===== *)
(** * Worker income

    apps/api/src/income/income.service.ts and income.controller.ts: the
    timeline, the summary, the open discrepancies and the corrections of income
    entries.  The timeline's page starts after the row the cursor names; a
    cursor that names no row of the list answers an empty page. *)

From stdpp Require Import relations.
From S2P Require Import Prelude Concurrency Strings Schema Demo Float64 Access IncomeProjector.
Import AccessService.

Open Scope Z_scope.

Module IncomeService.

(** [Math.round] of a finite number: the integer below, or the next one from
    one half on. *)
Definition num_round (x : number) : Z :=
  match num_floor x with
  | Some n => if num_ltb (num_sub x (num_of_Z n)) (num_div (num_of_Z 1) (num_of_Z 2)) then n else n + 1
  | None => 0
  end.

(** [Math.round(a / b)] of safe integers rounds the exact quotient, halves
    upwards. *)
Lemma num_round_div a b :
  0 <= a < 2 ^ 52 -> 0 < b < 2 ^ 52 ->
  num_round (num_div (num_of_Z a) (num_of_Z b)) = (2 * a + b) / (2 * b).
Proof.
  intros Ha Hb. unfold num_round. rewrite num_floor_div by lia. rewrite num_half_div by lia.
  pose proof (Z.div_mod a b ltac:(lia)). pose proof (Z.mod_pos_bound a b ltac:(lia)).
  destruct (Z.ltb_spec (2 * (a mod b)) b).
  - apply (Z.div_unique_pos _ _ _ (2 * (a mod b) + b)); lia.
  - apply (Z.div_unique_pos _ _ _ (2 * (a mod b) - b)); lia.
Qed.

(** A negative quotient is not rounded above zero. *)
Lemma num_round_negative a b :
  - 2 ^ 53 < a < 0 -> 0 < b < 2 ^ 53 -> num_round (num_div (num_of_Z a) (num_of_Z b)) <= 0.
Proof.
  intros Ha Hb. pose proof (num_of_Z_opp (- a)) as Eo. rewrite Z.opp_involutive in Eo. rewrite Eo by lia.
  destruct (num_of_Z_spec (- a) ltac:(lia)) as [Na _]. rewrite num_div_opp by (done || lia).
  destruct (num_div_Z (- a) b ltac:(lia) Hb) as (Nq & _ & _).
  destruct Nq as [->|(m & e & -> & _)]; [vm_compute; discriminate|].
  unfold num_round. cbn [num_opp SFopp num_floor negb cond_Zopp].
  assert (Z.shiftl (- Z.pos m) e < 0) as Hs by (apply Z.shiftl_neg; lia). by case_match; lia.
Qed.

(** An [include] of a relation over a nullable key. *)
Definition included {R} `{Row R} (l : list R) (key : option string) : option R :=
  match key with Some i => List.find (by_id i) l | None => None end.

Record TimelineItem := mkTimelineItem {
  ti_id : string;
  ti_venue : option (string * string);
  ti_businessDate : option string;
  ti_role : option string;
  ti_evidenceProvider : option string;
  ti_ingestSource : option IngestSource.t;
  ti_earnedUsdCents : Z;
  ti_allocatedUsdCents : Z;
  ti_paidUsdCents : Z;
  ti_payrollReportedUsdCents : Z;
  ti_withholdingStatus : WithholdingStatus.t;
  ti_payoutRail : option PayoutRail.t;
  ti_payoutTxSignature : option string;
  ti_evidenceGrade : EvidenceGrade.t;
  ti_isCorrection : bool;
  ti_correctionReason : option string
}.

Definition timeline_item (w : World) (e : IncomeEntry) : TimelineItem :=
  let shift := included (w_shifts w) (entry_shiftId e) in
  mkTimelineItem (entry_id e)
    ((fun v => (venue_id v, venue_name v)) <$> List.find (by_id (entry_venueId e)) (w_venues w))
    (shift_businessDate <$> shift) (shift_role <$> shift) (shift_provider <$> shift)
    (shift_ingestSource <$> shift)
    (entry_earnedUsdCents e) (entry_allocatedUsdCents e) (entry_paidUsdCents e)
    (entry_payrollReportedUsdCents e) (entry_withholdingStatus e) (entry_payoutRail e)
    (included (w_payouts w) (entry_payoutId e) ≫= payout_txSignature)
    (entry_evidenceGrade e)
    match entry_correctionOfId e with Some _ => true | None => false end
    (entry_correctionReason e).

Definition active_of (workerId : string) (e : IncomeEntry) : bool :=
  (entry_workerId e ==? workerId) && (entry_effectiveStatus e ==? EffectiveStatus.ACTIVE).

(** [orderBy: [{ createdAt: "desc" }, { id: "desc" }]] *)
Definition newer (a b : IncomeEntry) : bool :=
  (entry_createdAt b <? entry_createdAt a)
  || ((entry_createdAt a =? entry_createdAt b) && str_lt (entry_id b) (entry_id a)).

Definition timeline_rows (w : World) (workerId : string) : list IncomeEntry :=
  stable_sort newer (List.filter (active_of workerId) (w_incomeEntries w)).

(** [cursor: { id }, skip: 1] *)
Fixpoint after_id (cursor : string) (l : list IncomeEntry) : list IncomeEntry :=
  match l with
  | [] => []
  | e :: l' => if entry_id e ==? cursor then l' else after_id cursor l'
  end.

Definition from_cursor (cursor : option string) (l : list IncomeEntry) : list IncomeEntry :=
  match cursor with
  | Some c => if c ==? "" then l else after_id c l
  | None => l
  end.

Record Timeline := mkTimeline { tl_items : list TimelineItem; tl_nextCursor : option string }.

Record Summary := mkSummary {
  su_earnedUsdCents : Z;
  su_allocatedUsdCents : Z;
  su_paidUsdCents : Z;
  su_payrollReportedUsdCents : Z;
  su_shiftCount : nat;
  su_avgMonthlyAllocatedUsdCents : Z;
  su_payerCount : nat;
  su_gradeCounts : list (string * nat);
  su_providerVerifiedShiftCount : nat
}.

(** [COUNT(DISTINCT x)] over a nullable column *)
Definition count_distinct (l : list (option string)) : nat :=
  length (remove_dups (omap id l)).

(** [groupBy] with a count, one group per value that occurs. *)
Definition count_grade (m : list (string * nat)) (e : IncomeEntry) : list (string * nat) :=
  let k := EvidenceGrade.name (entry_evidenceGrade e) in
  map_set m k (S (nullish (map_get m k) 0%nat)).

Record CorrectionInput := mkCorrectionInput {
  ci_reason : string;
  ci_earnedUsdCents : option Z;
  ci_allocatedUsdCents : option Z;
  ci_paidUsdCents : option Z;
  ci_payrollReportedUsdCents : option Z
}.

(** The row that carries the corrected values. *)
Definition correction_of (original : IncomeEntry) (input : CorrectionInput) (id : string) (createdAt : Z)
    : IncomeEntry :=
  mkIncomeEntry id (entry_workerId original) (entry_venueId original) (entry_shiftId original)
    (entry_payoutId original)
    (nullish (ci_earnedUsdCents input) (entry_earnedUsdCents original))
    (nullish (ci_allocatedUsdCents input) (entry_allocatedUsdCents original))
    (nullish (ci_paidUsdCents input) (entry_paidUsdCents original))
    (nullish (ci_payrollReportedUsdCents input) (entry_payrollReportedUsdCents original))
    (entry_withholdingStatus original) (entry_payoutRail original) (entry_evidenceGrade original)
    EffectiveStatus.ACTIVE (Some (nullish (entry_originalEntryId original) (entry_id original)))
    (Some (entry_id original)) (Some (ci_reason input)) createdAt.

Record DiscrepancyView := mkDiscrepancyView {
  dv_alert : DiscrepancyAlert;
  dv_venue : option (string * string);
  dv_shift : option (string * string * string)
}.

Section service.
Context `{Platform}.

Definition rebuildVenue (venueId : string) (actorUserId : option string) (source : string)
    : handler (nat * nat) :=
  let* result := IncomeProjector.rebuildVenueIncome venueId actorUserId source in
  require result (NotFoundException ("Venue " +:+ venueId +:+ " not found")).

Definition workerOf (userId : string) : handler Worker :=
  let* worker := findFirst (fun x => worker_userId x ==? userId) in
  require worker (NotFoundException "No worker profile for this user").

Definition timelineForWorker (workerId : string) (cursor : option string) (limit : nat)
    : handler Timeline :=
  let* entries := query (fun w =>
    map (timeline_item w) (take (limit + 1) (from_cursor cursor (timeline_rows w workerId)))) in
  let hasMore := (limit <? length entries)%nat in
  let page := if hasMore then take limit entries else entries in
  Ret (mkTimeline page (if hasMore then ti_id <$> last page else None)).

Definition timelineForUser (userId : string) (cursor : option string) (limit : nat) : handler Timeline :=
  let* worker := workerOf userId in
  timelineForWorker (worker_id worker) cursor limit.

(** The aggregate of the raw SQL query, and the groups. *)
Definition summaryForWorker (workerId : string) : handler Summary :=
  let* row := query (fun w =>
    let i := List.filter (active_of workerId) (w_incomeEntries w) in
    let s e := included (w_shifts w) (entry_shiftId e) in
    (i, count_distinct (map (fun e => (fun x => slice_to (shift_businessDate x) 7) <$> s e) i),
     count_distinct (map (fun e => Some (entry_venueId e)) i),
     length (List.filter (fun e => match s e with
                                   | Some x => shift_ingestSource x ==? IngestSource.PROVIDER_API
                                   | None => false end) i))) in
  let* grades := query (fun w =>
    fold_left count_grade (List.filter (active_of workerId) (w_incomeEntries w)) []) in
  let '(i, monthCount, payerCount, providerVerified) := row in
  let allocated := sumZ entry_allocatedUsdCents i in
  Ret (mkSummary (sumZ entry_earnedUsdCents i) allocated (sumZ entry_paidUsdCents i)
         (sumZ entry_payrollReportedUsdCents i) (length i)
         (if (0 <? monthCount)%nat
          then num_round (num_div (num_of_Z allocated) (num_of_Z (Z.of_nat monthCount))) else 0)
         payerCount grades providerVerified).

Definition summaryForUser (userId : string) : handler Summary :=
  let* worker := workerOf userId in
  summaryForWorker (worker_id worker).

Definition discrepanciesForWorker (workerId : string) : handler (list DiscrepancyView) :=
  let* alerts := query (fun w => orderByDesc alert_createdAt
    (List.filter (fun a => (alert_workerId a ==? Some workerId) && (alert_resolvedAt a ==? None))
       (w_alerts w))) in
  if (length alerts =? 0)%nat then Ret []
  else
    let* venues := findMany (fun v => includes (map alert_venueId alerts) (venue_id v)) in
    let* shifts := findMany (fun s => includes (omap alert_shiftId alerts) (shift_id s)) in
    Ret (map (fun a => mkDiscrepancyView a
      ((fun v => (venue_id v, venue_name v)) <$> List.find (by_id (alert_venueId a)) venues)
      ((fun s => (shift_id s, shift_businessDate s, shift_role s)) <$> included shifts (alert_shiftId a)))
      alerts).

Definition discrepanciesForUser (userId : string) : handler (list DiscrepancyView) :=
  let* worker := workerOf userId in
  discrepanciesForWorker (worker_id worker).

(** The four statements of the correction, in one transaction. *)
Definition correctEntry (entryId actorUserId : string) (input : CorrectionInput) : handler IncomeEntry :=
  let* original := findUnique (R:=IncomeEntry) entryId in
  let* original := require original (NotFoundException ("Income entry " +:+ entryId +:+ " not found")) in
  do* throw_if (entry_effectiveStatus original !=? EffectiveStatus.ACTIVE)
    (NotFoundException "Only the ACTIVE entry of a lineage can be corrected") in
  transaction (
    do* update (R:=IncomeEntry) entryId
          (fun e => e <| entry_effectiveStatus := EffectiveStatus.SUPERSEDED |>) in
    let* i := freshId in
    let* t := newDate in
    let* correction := create (correction_of original input i t) in
    do* audit None (Some (entry_venueId original)) (Some actorUserId) "INCOME_ENTRY_CORRECTED"
          "IncomeEntry" (Some entryId) (JObj [("reason", JStr (ci_reason input))]) in
    do* updateMany (fun r => (report_workerId r ==? entry_workerId original)
                             && (report_status r ==? ReportStatus.ISSUED))
          (fun r => r <| report_status := ReportStatus.CORRECTED |>) in
    Ret correction).

(** *** Controller *)

Definition post_rebuild (user venueId : string) : handler (nat * nat) :=
  do* assertVenueRole user venueId VENUE_MANAGE_ROLES in
  rebuildVenue venueId (Some user) "MANUAL".

(** [limit] defaults to 25 and is between 1 and 100. *)
Definition get_timeline (user : string) (cursor : option string) (limit : option nat) : handler Timeline :=
  timelineForUser user cursor (nullish limit 25%nat).

Definition get_summary (user : string) : handler Summary := summaryForUser user.

Definition get_discrepancies (user : string) : handler (list DiscrepancyView) := discrepanciesForUser user.

Definition post_correct (user id : string) (input : CorrectionInput) : handler IncomeEntry :=
  let* entry := findUnique (R:=IncomeEntry) id in
  do* match entry with
      | Some e => assertVenueRole user (entry_venueId e) VENUE_MANAGE_ROLES
      | None => Ret tt
      end in
  correctEntry id user input.
End service.

(* ------------------------------------------------------------------ *)
(** ** The timeline *)

(** A client that follows [nextCursor] from the first page, for at most [fuel]
    requests; [None] when a request fails or the requests run out before
    [nextCursor] is null. *)
Fixpoint walk (w : World) (workerId : string) (limit : nat) (fuel : nat) (cursor : option string)
    : option (list TimelineItem) :=
  match fuel with
  | O => None
  | S fuel' =>
      match (run (timelineForWorker workerId cursor limit) w).2 with
      | Ok page =>
          match tl_nextCursor page with
          | Some c => app (tl_items page) <$> walk w workerId limit fuel' (Some c)
          | None => Some (tl_items page)
          end
      | Err _ => None
      end
  end.

(** [a] comes before [b] on a timeline that shows the newest entries first:
    created later, or at the same time and with an identifier that is not
    below that of [b]. *)
Definition shown_before (a b : IncomeEntry) : Prop :=
  entry_createdAt b < entry_createdAt a \/
  (entry_createdAt a = entry_createdAt b /\ str_lt (entry_id a) (entry_id b) = false).

#[export] Instance shown_before_trans : Transitive shown_before.
Proof.
  intros a b c [H1|[E1 L1]] [H2|[E2 L2]]; [left; lia..|right]. split; [congruence|].
  by apply (str_le_trans _ (entry_id b)).
Qed.

Lemma timeline_sorted w workerId : StronglySorted shown_before (timeline_rows w workerId).
Proof.
  apply stable_sort_sorted; [apply _| |]; intros a b; unfold newer, shown_before.
  - intros [H|[E L]%andb_true_iff]%orb_true_iff; [left; lia|right]. split; [lia|]. by apply str_lt_asym.
  - intros [H1 H2]%orb_false_iff. apply Z.ltb_ge in H1.
    destruct (Z.eqb_spec (entry_createdAt a) (entry_createdAt b)) as [E|E]; [right; split; [done|exact H2]|left; lia].
Qed.

Lemma after_id_app e l1 l2 :
  NoDup (map entry_id (l1 ++ e :: l2)) -> after_id (entry_id e) (l1 ++ e :: l2) = l2.
Proof.
  induction l1 as [|x l1 IH]; intros HN; cbn in *; [by rewrite bd_refl|].
  apply NoDup_cons in HN as [Hn HN]. rewrite bool_decide_eq_false_2; [by apply IH|].
  intros E. apply Hn. rewrite E, list_elem_of_In. apply in_map, in_or_app. right. by left.
Qed.

Lemma walk_from w workerId limit fuel cursor rest :
  (0 < limit)%nat -> Forall (fun e => entry_id e <> "") (timeline_rows w workerId) ->
  NoDup (map entry_id (timeline_rows w workerId)) ->
  from_cursor cursor (timeline_rows w workerId) = rest ->
  (exists pre, timeline_rows w workerId = pre ++ rest) -> (length rest < fuel)%nat ->
  walk w workerId limit fuel cursor = Some (map (timeline_item w) rest).
Proof.
  intros HL HE HN. revert cursor rest. induction fuel as [|fuel IH]; intros cursor rest Hc [pre Hr] Hf; [lia|].
  cbn [walk timelineForWorker]. unfold timelineForWorker. rewrite run_bind, run_query, run_ret. cbn [snd].
  rewrite Hc. rewrite length_map, length_take.
  destruct (limit <? (limit + 1) `min` length rest)%nat eqn:E; cbn [tl_items tl_nextCursor].
  2: { apply Nat.ltb_ge in E. rewrite take_ge; [done|lia]. }
  apply Nat.ltb_lt in E. rewrite firstn_map, take_take, Nat.min_l by lia.
  rewrite <- (take_drop limit rest) in Hr.
  assert (exists front e, take limit rest = front ++ [e]) as (front & e & Ef).
  { destruct (take limit rest) as [|a l] eqn:Et using rev_ind; [|eauto].
    apply (f_equal length) in Et. rewrite length_take in Et. cbn in Et. lia. }
  rewrite Ef, map_app, last_app. cbn [map last fmap option_fmap option_map ti_id timeline_item].
  assert (timeline_rows w workerId = (pre ++ front) ++ e :: drop limit rest) as Hsplit.
  { rewrite Hr, Ef, <- !app_assoc. done. }
  rewrite (IH (Some (entry_id e)) (drop limit rest)).
  - cbn [fmap option_fmap option_map]. rewrite <- (take_drop limit rest) at 2. by rewrite Ef, !map_app.
  - cbn [from_cursor]. rewrite bool_decide_eq_false_2.
    + rewrite Hsplit. apply after_id_app. by rewrite <- Hsplit.
    + rewrite Hsplit, Forall_app, Forall_cons in HE. by destruct HE as (_ & He & _).
  - exists (pre ++ take limit rest). by rewrite <- app_assoc.
  - rewrite length_drop. lia.
Qed.

Lemma timeline_rows_Permutation w workerId :
  timeline_rows w workerId ≡ₚ List.filter (active_of workerId) (w_incomeEntries w).
Proof. apply stable_sort_Permutation. Qed.

(** C32: of a ledger that does not change meanwhile, following [nextCursor] from
    the first page ends, within any number of requests above that of the
    entries, and shows every ACTIVE entry of the worker exactly once, the newest
    first (ties by identifier, downwards): no page boundary loses or repeats an
    entry, for every page size. *)
Theorem timeline_pages_cover w workerId limit fuel :
  (0 < limit)%nat -> (length (w_incomeEntries w) < fuel)%nat ->
  NoDup (map entry_id (w_incomeEntries w)) -> Forall (fun e => entry_id e <> "") (w_incomeEntries w) ->
  exists entries,
    walk w workerId limit fuel None = Some (map (timeline_item w) entries) /\
    entries ≡ₚ List.filter (active_of workerId) (w_incomeEntries w) /\
    StronglySorted shown_before entries.
Proof.
  intros HL HF HN HE. pose proof (timeline_rows_Permutation w workerId) as HP. exists (timeline_rows w workerId).
  split; [|split; [exact HP|apply timeline_sorted]].
  apply walk_from; [done| | |done|by exists []|].
  - rewrite HP. rewrite List.Forall_forall in HE |- *. intros e He. apply filter_In in He as [He _]. by apply HE.
  - assert (map entry_id (timeline_rows w workerId)
            ≡ₚ map entry_id (List.filter (active_of workerId) (w_incomeEntries w))) as -> by (by apply Permutation_map).
    by apply NoDup_map_filter.
  - rewrite HP. pose proof (filter_length_le (active_of workerId) (w_incomeEntries w)). lia.
Qed.

(* ------------------------------------------------------------------ *)
(** ** Corrections *)

(** The root entry of a chain of corrections. *)
Definition lineage (e : IncomeEntry) : string := nullish (entry_originalEntryId e) (entry_id e).

Definition is_active (e : IncomeEntry) : bool := entry_effectiveStatus e ==? EffectiveStatus.ACTIVE.

(** Every lineage has at most one ACTIVE entry. *)
Definition one_active (l : list IncomeEntry) : Prop := NoDup (map lineage (List.filter is_active l)).

Definition supersede (id : string) (l : list IncomeEntry) : list IncomeEntry :=
  upd_where (by_id id) (fun e => e <| entry_effectiveStatus := EffectiveStatus.SUPERSEDED |>) l.

Lemma supersede_active id l :
  List.filter is_active (supersede id l) = List.filter (fun e => is_active e && negb (by_id id e)) l.
Proof.
  unfold supersede, upd_where. induction l as [|e l IH]; cbn [map List.filter]; [done|].
  destruct (by_id id e); [|rewrite IH, andb_true_r; done].
  cbn [is_active set entry_effectiveStatus]. by rewrite andb_false_r, IH.
Qed.

Lemma filter_split_one (act : IncomeEntry -> bool) l o :
  NoDup (map entry_id l) -> In o l -> act o = true ->
  List.filter act l ≡ₚ o :: List.filter (fun e => act e && negb (by_id (entry_id o) e)) l.
Proof.
  induction l as [|e l IH]; intros HN Hin Ho; [done|]. cbn in HN. apply NoDup_cons in HN as [Hn HN].
  cbn [List.filter]. destruct Hin as [->|Hin].
  - rewrite Ho. cbn [andb]. unfold by_id at 1. cbn [row_id row_IncomeEntry]. rewrite bd_refl. cbn [negb].
    f_equiv. rewrite (filter_ext_in act (fun e => act e && negb (by_id (entry_id o) e))); [done|].
    intros e He. unfold by_id. cbn. rewrite bool_decide_eq_false_2; [by rewrite andb_true_r|].
    intros E. apply Hn. rewrite <- E, list_elem_of_In. by apply in_map.
  - assert (by_id (entry_id o) e = false) as ->.
    { apply bool_decide_eq_false. cbn. intros E. apply Hn. rewrite E, list_elem_of_In. by apply in_map. }
    rewrite andb_true_r. destruct (act e); rewrite (IH HN Hin Ho); [apply Permutation_swap|done].
Qed.

Section corrections.
Context `{Platform}.

Lemma run_correctEntry entryId actor input w w' c :
  run (correctEntry entryId actor input) w = (w', Ok c) ->
  exists o t, List.find (by_id entryId) (w_incomeEntries w) = Some o /\ is_active o = true /\
    c = correction_of o input (uuid t) (now (S t)) /\
    existsb (row_clash c) (supersede entryId (w_incomeEntries w)) = false /\
    w_incomeEntries w' = supersede entryId (w_incomeEntries w) ++ [c] /\
    w_reports w' = upd_where (fun r => (report_workerId r ==? entry_workerId o)
                                       && (report_status r ==? ReportStatus.ISSUED))
                     (fun r => r <| report_status := ReportStatus.CORRECTED |>) (w_reports w) /\
    IncomeProjector.same_money w w'.
Proof.
  unfold correctEntry. wexec. destruct (List.find _ (w_incomeEntries w)) as [o|] eqn:Eo; wexec; [|done].
  destruct (entry_effectiveStatus o !=? EffectiveStatus.ACTIVE) eqn:Ea; [done|]. wexec.
  rewrite Eo. wexec. unfold audit. wexec.
  match goal with |- context [existsb ?f ?l] => destruct (existsb f l) eqn:Ec end; [done|]. wexec.
  match goal with |- context [existsb ?f ?l] => destruct (existsb f l) eqn:Ed end; [done|]. wexec.
  intros [= <- <-]. exists o, (w_tick w). split; [done|]. split; [by apply negb_false_iff in Ea|].
  split; [done|]. split; [exact Ec|]. repeat split; reflexivity.
Qed.

(** A correction is accepted only for an ACTIVE entry, keeps the original
    row except for its status (SUPERSEDED), appends one ACTIVE row that
    carries the given values over the original's, names the original and the
    root of the lineage, marks the worker's issued reports CORRECTED, and
    touches no evidence, allocation or payout. *)
Theorem correctEntry_spec entryId actor input w w' c :
  run (correctEntry entryId actor input) w = (w', Ok c) ->
  exists o, List.find (by_id entryId) (w_incomeEntries w) = Some o /\ is_active o = true /\
    w_incomeEntries w' = supersede entryId (w_incomeEntries w) ++ [c] /\
    is_active c = true /\ entry_correctionOfId c = Some (entry_id o) /\ lineage c = lineage o /\
    entry_correctionReason c = Some (ci_reason input) /\
    entry_workerId c = entry_workerId o /\ entry_shiftId c = entry_shiftId o /\
    entry_paidUsdCents c = nullish (ci_paidUsdCents input) (entry_paidUsdCents o) /\
    entry_allocatedUsdCents c = nullish (ci_allocatedUsdCents input) (entry_allocatedUsdCents o) /\
    (forall r, In r (w_reports w') -> report_workerId r = entry_workerId o ->
               report_status r <> ReportStatus.ISSUED) /\
    IncomeProjector.same_money w w'.
Proof.
  intros E. apply run_correctEntry in E as (o & t & Ho & Ha & -> & _ & He & Hr & Hm).
  exists o. repeat split; try done; try (by apply Hm).
  intros r Hin. rewrite Hr in Hin. apply in_upd_where in Hin as (r0 & _ & ->).
  destruct (_ && _) eqn:Er; [done|]. intros Hw Hs. by rewrite Hw, Hs, !bd_refl in Er.
Qed.

(** One correction, whatever its outcome: identifiers stay distinct, and the
    lineages that have an ACTIVE entry, with how many each has, stay the same. *)
Lemma correctEntry_lineages entryId actor input w w' r :
  run (correctEntry entryId actor input) w = (w', r) ->
  NoDup (map entry_id (w_incomeEntries w)) ->
  NoDup (map entry_id (w_incomeEntries w')) /\
  map lineage (List.filter is_active (w_incomeEntries w'))
    ≡ₚ map lineage (List.filter is_active (w_incomeEntries w)).
Proof.
  intros E HN. destruct r as [c|e].
  - apply run_correctEntry in E as (o & t & Ho & Ha & -> & Hc & -> & _).
    apply find_In in Ho as [Hin Hid]. apply bool_decide_eq_true in Hid. cbn in Hid. subst entryId.
    assert (map entry_id (supersede (entry_id o) (w_incomeEntries w)) = map entry_id (w_incomeEntries w)) as Hids.
    { unfold supersede, upd_where. rewrite map_map. apply map_ext. intros e. by destruct (by_id _ e). }
    split.
    + rewrite map_app, Hids. apply NoDup_app. split; [done|]. split; [|apply NoDup_singleton].
      intros i Hi Hi'. apply list_elem_of_singleton in Hi' as ->.
      rewrite <- Hids, list_elem_of_In in Hi. apply in_map_iff in Hi as (e & Ee & He).
      assert (existsb (row_clash (correction_of o input (uuid t) (now (S t))))
                (supersede (entry_id o) (w_incomeEntries w)) = true) as Hx; [|congruence].
      apply existsb_exists. exists e. split; [done|]. cbn. by apply bool_decide_eq_true.
    + rewrite List.filter_app, supersede_active, map_app. cbn [List.filter].
      change (is_active (correction_of o input (uuid t) (now (S t)))) with true. cbn [map].
      rewrite (Permutation_map lineage (filter_split_one is_active _ o HN Hin Ha)). cbn [map].
      by rewrite Permutation_app_comm.
  - unfold correctEntry in E. revert E. wexec.
    destruct (List.find _ (w_incomeEntries w)) as [o|] eqn:Eo; wexec; [|by intros [= <- _]].
    destruct (entry_effectiveStatus o !=? EffectiveStatus.ACTIVE); wexec; [by intros [= <- _]|].
    rewrite Eo. wexec. unfold audit. wexec.
    do 2 (match goal with |- context [existsb ?f ?l] => destruct (existsb f l) end; wexec;
          [by intros [= <- _]|]). done.
Qed.

(** Corrections (entry, actor, input) carried out one after the other, refused
    ones included. *)
Definition correct_all (cs : list (string * string * CorrectionInput)) (w : World) : World :=
  fold_left (fun w c => (run (correctEntry c.1.1 c.1.2 c.2) w).1) cs w.

(** C15: after any list of corrections carried out one after the other,
    refused ones included, identifiers are distinct, no lineage has two ACTIVE
    entries, and the lineages with an ACTIVE entry are those that had one: no
    income is counted twice and none disappears. *)
Theorem correctEntry_one_active cs w :
  NoDup (map entry_id (w_incomeEntries w)) -> one_active (w_incomeEntries w) ->
  NoDup (map entry_id (w_incomeEntries (correct_all cs w))) /\
  one_active (w_incomeEntries (correct_all cs w)) /\
  map lineage (List.filter is_active (w_incomeEntries (correct_all cs w)))
    ≡ₚ map lineage (List.filter is_active (w_incomeEntries w)).
Proof.
  intros HN H1.
  assert (NoDup (map entry_id (w_incomeEntries (correct_all cs w))) /\
          map lineage (List.filter is_active (w_incomeEntries (correct_all cs w)))
            ≡ₚ map lineage (List.filter is_active (w_incomeEntries w))) as [HN' HP].
  { clear H1. revert w HN. induction cs as [|c cs IH]; intros w HN; cbn; [done|].
    destruct (correctEntry_lineages c.1.1 c.1.2 c.2 w _ _ (surjective_pairing _) HN) as [HN1 HP1].
    destruct (IH _ HN1) as [HN2 HP2]. split; [exact HN2|]. etrans; [exact HP2|exact HP1]. }
  split; [done|]. split; [|done]. unfold one_active in *. by rewrite HP.
Qed.
End corrections.

Definition demo_ledger : World :=
  empty_world <| w_incomeEntries := [IncomeProjector.demo_entry "e1" EffectiveStatus.ACTIVE None] |>.

Definition demo_input (cents : Z) : CorrectionInput := mkCorrectionInput "typo" None None (Some cents) None.

Definition demo_timeline : World :=
  let entry id status t := (IncomeProjector.demo_entry id status None) <| entry_createdAt := t |> in
  empty_world <| w_incomeEntries := [entry "e1" EffectiveStatus.ACTIVE 10; entry "e2" EffectiveStatus.ACTIVE 20;
                                     entry "e3" EffectiveStatus.ACTIVE 20; entry "e4" EffectiveStatus.SUPERSEDED 30] |>.

(** Three pages of one entry; two requests are not enough. *)
Lemma timeline_pages_cover_witness :
  option_map (map ti_id) (walk demo_timeline "w1" 1 5 None) = Some ["e3"; "e2"; "e1"] /\
  walk demo_timeline "w1" 1 2 None = None /\
  exists entries, walk demo_timeline "w1" 1 5 None = Some (map (timeline_item demo_timeline) entries) /\
    StronglySorted shown_before entries.
Proof.
  split; [vm_compute; reflexivity|]. split; [vm_compute; reflexivity|].
  destruct (timeline_pages_cover demo_timeline "w1" 1 5) as (entries & Hw & _ & Hs);
    [lia|cbn; lia| |repeat constructor; done|by exists entries].
  apply (bool_decide_unpack _). vm_compute. done.
Defined.

Lemma correctEntry_spec_witness :
  exists w' c, run (correctEntry "e1" "boss" (demo_input 500)) demo_ledger = (w', Ok c) /\
    exists o, List.find (by_id "e1") (w_incomeEntries demo_ledger) = Some o /\ lineage c = lineage o.
Proof.
  destruct (run (correctEntry "e1" "boss" (demo_input 500)) demo_ledger) as [w' [c|e]] eqn:E.
  - exists w', c. split; [done|]. destruct (correctEntry_spec _ _ _ _ _ _ E) as (o & Ho & _ & _ & _ & _ & Hl & _).
    by exists o.
  - apply (f_equal (fun c => is_ok c.2)) in E. vm_compute in E. discriminate E.
Defined.

(** Three corrections, the last of an entry that is no longer ACTIVE. *)
Definition demo_corrections : list (string * string * CorrectionInput) :=
  let c1 := ("e1", "boss", demo_input 500) in
  let second := nullish (entry_id <$> last (w_incomeEntries (correct_all [c1] demo_ledger))) "" in
  [c1; (second, "manager", demo_input 700); ("e1", "boss", demo_input 900)].

Lemma correctEntry_one_active_witness :
  let w' := correct_all demo_corrections demo_ledger in
  one_active (w_incomeEntries w') /\
  map (fun e => (entry_paidUsdCents e, is_active e)) (w_incomeEntries w') = [(0, false); (500, false); (700, true)].
Proof.
  split; [|vm_compute; reflexivity].
  refine (proj1 (proj2 (correctEntry_one_active demo_corrections demo_ledger _ _)));
    apply (bool_decide_unpack _); vm_compute; done.
Defined.

(** The check that the entry is ACTIVE is outside the transaction that
    supersedes it.  Two managers who correct the same entry at once both pass
    it, and the lineage ends with two ACTIVE corrections: the summary counts the
    shift twice. *)
Theorem corrections_race :
  let c := schedule [0; 1; 0; 1]%nat
             (demo_ledger, [correctEntry "e1" "boss" (demo_input 500); correctEntry "e1" "manager" (demo_input 700)]) in
  rtc pool_step (demo_ledger, [correctEntry "e1" "boss" (demo_input 500); correctEntry "e1" "manager" (demo_input 700)]) c /\
  one_active (w_incomeEntries demo_ledger) /\ ~ one_active (w_incomeEntries c.1) /\
  match (run (summaryForWorker "w1") c.1).2 with
  | Ok s => (su_shiftCount s, su_paidUsdCents s) = (2%nat, 1200)
  | Err _ => False
  end.
Proof.
  cbv zeta. split; [apply schedule_sound|].
  split; [apply (bool_decide_unpack _); vm_compute; done|].
  split; [apply (bool_decide_unpack _); vm_compute; done|]. vm_compute. reflexivity.
Qed.

End IncomeService.
