(* ===== verification/Evidence.v ===== *)
(** * Evidence intake

    apps/api/src/evidence (csv-normalizer.ts, service and controller) and
    packages/shared/src/csv.ts.  A CSV row becomes the shift it reports and,
    when its tip is positive, the tip; both are upserted under their natural
    keys, and the days they touch are calculated.  The row schema is zod's: what
    it accepts as an ISO instant and how it words an issue is the interface
    [RowSchema]. *)

From stdpp Require Import relations.
From S2P Require Import Prelude Concurrency Strings Schema Demo Float64 Money Access AllocationEngine Allocations Income.
Import AccessService AllocationsService.

Open Scope Z_scope.

Class RowSchema := {
  (** [z.iso.datetime()]: the instants it accepts, with the value of [new Date] *)
  isoDatetime : string -> option Z;
  (** the message of an issue for a field and its input ([None] is undefined) *)
  issueMessage : string -> option string -> string
}.

Module EvidenceService.

(* ------------------------------------------------------------------ *)
(** ** Lines and fields *)

Definition QUOTE : ascii := "034"%char.

(** The loop of [splitCsvLine] from a position on: the field read so far and
    whether it is inside quotes. *)
Fixpoint split_from (line current : string) (inQuotes : bool) : list string :=
  match line with
  | EmptyString => [current]
  | String ch rest =>
      if inQuotes then
        if Ascii.eqb ch QUOTE then
          match rest with
          | String next rest' =>
              if Ascii.eqb next QUOTE then split_from rest' (current +:+ String QUOTE "") true
              else split_from rest current false
          | EmptyString => split_from rest current false
          end
        else split_from rest (current +:+ String ch "") true
      else if Ascii.eqb ch QUOTE then split_from rest current true
      else if Ascii.eqb ch "," then current :: split_from rest "" false
      else split_from rest (current +:+ String ch "") false
  end.

Definition splitCsvLine (line : string) : list string := split_from line "" false.

(** A carriage return at the end of a piece belongs to the separator. *)
Fixpoint drop_cr (s : string) : string :=
  match s with
  | EmptyString => ""
  | String c EmptyString => if Ascii.eqb c "013" then "" else s
  | String c s' => String c (drop_cr s')
  end.

(** [csvText.split(/\r?\n/)] *)
Fixpoint split_lines (pieces : list string) : list string :=
  match pieces with
  | [] => []
  | [s] => [s]
  | s :: pieces' => drop_cr s :: split_lines pieces'
  end.

Definition csv_lines (csvText : string) : list string :=
  List.filter (fun l => (0 <? String.length l)%nat)
    (map trim (split_lines (split "010" csvText))).

(** [Object.fromEntries(headers.map((h, i) => [h, values[i] ?? ""]))] *)
Fixpoint row_object (headers values : list string) (m : list (string * string)) : list (string * string) :=
  match headers with
  | [] => m
  | h :: headers' => row_object headers' (tail values) (map_set m h (nullish (head values) ""))
  end.

(* ------------------------------------------------------------------ *)
(** ** The row schema *)

Definition TIP_TYPES : list TipType.t :=
  [TipType.CASH_TIP; TipType.CARD_TIP; TipType.QR_TIP; TipType.AUTOMATIC_GRATUITY; TipType.SERVICE_CHARGE].

Definition PAYOUT_RAILS : list PayoutRail.t :=
  [PayoutRail.CASH_RETAINED; PayoutRail.CASH_DRAWER; PayoutRail.PAYROLL; PayoutRail.PAYOUT_PROVIDER;
   PayoutRail.BANK_REFERENCE; PayoutRail.USDC].

Record CsvEvidenceRow := mkCsvRow {
  cr_provider : string;
  cr_venue_external_id : string;
  cr_worker_external_id : string;
  cr_shift_external_id : string;
  cr_tip_type : TipType.t;
  cr_gross_tip : string;
  cr_clock_in : string;
  cr_clock_out : string;
  cr_role : string;
  cr_payout_route : PayoutRail.t;
  cr_payroll_status : string
}.

(** [z.string().min(1)] *)
Definition text (o : list (string * string)) (field : string) : option string :=
  match map_get o field with Some v => if v ==? "" then None else Some v | None => None end.

(** [z.enum(values)] *)
Definition one_of {A} (name : A -> string) (values : list A) (o : list (string * string))
    (field : string) : option A :=
  match map_get o field with Some v => List.find (fun a => name a ==? v) values | None => None end.

(** [z.string().regex(/^\d+(\.\d{1,2})?$/)] *)
Definition amount (o : list (string * string)) (field : string) : option string :=
  match map_get o field with
  | Some v => match Money.usd_match v with Some (false, _, _) => Some v | _ => None end
  | None => None
  end.

(** [JSON.stringify(row)]: the fields in the order of the schema. *)
Definition row_json (row : CsvEvidenceRow) : json :=
  JObj [("provider", JStr (cr_provider row)); ("venue_external_id", JStr (cr_venue_external_id row));
        ("worker_external_id", JStr (cr_worker_external_id row));
        ("shift_external_id", JStr (cr_shift_external_id row));
        ("tip_type", JStr (TipType.name (cr_tip_type row))); ("gross_tip", JStr (cr_gross_tip row));
        ("clock_in", JStr (cr_clock_in row)); ("clock_out", JStr (cr_clock_out row));
        ("role", JStr (cr_role row)); ("payout_route", JStr (PayoutRail.name (cr_payout_route row)));
        ("payroll_status", JStr (cr_payroll_status row))].

Record NormalizedTipEvidence := mkTip {
  nt_provider : string;
  nt_externalPaymentId : string;
  nt_tipType : TipType.t;
  nt_grossAmountUsdCents : number;
  nt_businessDate : string;
  nt_sourceHash : string;
  nt_sourcePayoutRail : PayoutRail.t;
  nt_sourcePayrollStatus : string
}.

Record NormalizedShiftEvidence := mkShift {
  ns_provider : string;
  ns_externalShiftId : string;
  ns_externalWorkerId : string;
  ns_role : string;
  ns_clockIn : Z;
  ns_clockOut : Z;
  ns_workedMinutes : Z;
  ns_businessDate : string;
  ns_sourceHash : string;
  ns_sourcePayoutRail : PayoutRail.t;
  ns_sourcePayrollStatus : string
}.

Record CsvNormalizationResult := mkNormalized {
  nr_tips : list NormalizedTipEvidence;
  nr_shifts : list NormalizedShiftEvidence;
  nr_errors : list (nat * string)
}.
#[export] Instance eta_Normalized : Eta CsvNormalizationResult :=
  fun r => mkNormalized (nr_tips r) (nr_shifts r) (nr_errors r).

(* ------------------------------------------------------------------ *)
(** ** Normalization *)

Section normalize.
Context `{Platform} `{RowSchema}.

Definition instant (o : list (string * string)) (field : string) : option string :=
  match map_get o field with
  | Some v => match isoDatetime v with Some _ => Some v | None => None end
  | None => None
  end.

(** The fields that fail, in the order of the schema. *)
Definition row_issues (o : list (string * string)) : list string :=
  let absent {A} (x : option A) (field : string) := match x with None => [field] | Some _ => [] end in
  absent (text o "provider") "provider" ++ absent (text o "venue_external_id") "venue_external_id"
  ++ absent (text o "worker_external_id") "worker_external_id"
  ++ absent (text o "shift_external_id") "shift_external_id"
  ++ absent (one_of TipType.name TIP_TYPES o "tip_type") "tip_type" ++ absent (amount o "gross_tip") "gross_tip"
  ++ absent (instant o "clock_in") "clock_in" ++ absent (instant o "clock_out") "clock_out"
  ++ absent (text o "role") "role" ++ absent (one_of PayoutRail.name PAYOUT_RAILS o "payout_route") "payout_route"
  ++ absent (text o "payroll_status") "payroll_status".

(** [csvEvidenceRowSchema.safeParse(rowObject)] *)
Definition csvEvidenceRowSchema (o : list (string * string)) : option CsvEvidenceRow :=
  match text o "provider", text o "venue_external_id", text o "worker_external_id",
        text o "shift_external_id", one_of TipType.name TIP_TYPES o "tip_type", amount o "gross_tip",
        instant o "clock_in", instant o "clock_out", text o "role",
        one_of PayoutRail.name PAYOUT_RAILS o "payout_route", text o "payroll_status" with
  | Some p, Some v, Some w, Some s, Some t, Some g, Some i, Some u, Some r, Some x, Some y =>
      Some (mkCsvRow p v w s t g i u r x y)
  | _, _, _, _, _, _, _, _, _, _, _ => None
  end.

Definition row_error (o : list (string * string)) : string :=
  join "; " (map (fun field => field +:+ ": " +:+ issueMessage field (map_get o field)) (row_issues o)).

(** [new Date(s).getTime()] of an accepted instant *)
Definition time_of (s : string) : Z := nullish (isoDatetime s) 0.

(** The evidence of one accepted row. *)
Definition row_shift (venueTimezone : string) (row : CsvEvidenceRow) : NormalizedShiftEvidence :=
  let clockIn := time_of (cr_clock_in row) in
  let clockOut := time_of (cr_clock_out row) in
  mkShift (cr_provider row) (cr_shift_external_id row) (cr_worker_external_id row) (cr_role row)
    clockIn clockOut
    (IncomeService.num_round (num_div (num_of_Z (clockOut - clockIn)) (num_of_Z 60000)))
    (AllocationEngine.businessDateInTimezone clockIn venueTimezone)
    (sha256 (stringify (row_json row))) (cr_payout_route row) (cr_payroll_status row).

Definition row_tip (venueTimezone : string) (row : CsvEvidenceRow) (grossCents : number)
    : NormalizedTipEvidence :=
  mkTip (cr_provider row) ("csv:" +:+ cr_shift_external_id row) (cr_tip_type row) grossCents
    (AllocationEngine.businessDateInTimezone (time_of (cr_clock_in row)) venueTimezone)
    (sha256 (stringify (row_json row))) (cr_payout_route row) (cr_payroll_status row).

(** One turn of the loop over the data lines; [lineNo] is the line's index. *)
Definition add_line (venueTimezone : string) (headers : list string) (res : CsvNormalizationResult)
    (lineNo : nat) (line : string) : result CsvNormalizationResult :=
  let rowObject := row_object headers (splitCsvLine line) [] in
  match csvEvidenceRowSchema rowObject with
  | None => Ok (res <| nr_errors ::= fun l => l ++ [(S lineNo, row_error rowObject)] |>)
  | Some row =>
      let res := res <| nr_shifts ::= fun l => l ++ [row_shift venueTimezone row] |> in
      try! grossCents := Money.parseUsdToCents (cr_gross_tip row) in
      Ok (if num_ltb (num_of_Z 0) grossCents
          then res <| nr_tips ::= fun l => l ++ [row_tip venueTimezone row grossCents] |> else res)
  end.

Fixpoint add_lines (venueTimezone : string) (headers : list string) (res : CsvNormalizationResult)
    (lineNo : nat) (lines : list string) : result CsvNormalizationResult :=
  match lines with
  | [] => Ok res
  | line :: lines' =>
      try! res := add_line venueTimezone headers res lineNo line in
      add_lines venueTimezone headers res (S lineNo) lines'
  end.

Definition normalizeCsv (csvText venueTimezone : string) : result CsvNormalizationResult :=
  match csv_lines csvText with
  | [] | [_] => Ok (mkNormalized [] [] [(0%nat, "CSV has no data rows")])
  | header :: lines => add_lines venueTimezone (splitCsvLine header) (mkNormalized [] [] []) 1 lines
  end.
End normalize.

(* ------------------------------------------------------------------ *)
(** ** The import *)

Record AutoCalculation := mkAutoCalculation {
  ac_businessDate : string;
  ac_batchId : option string;
  ac_outcome : string;
  ac_message : option string
}.

Record CsvImportSummary := mkSummary {
  cs_tipsUpserted : nat;
  cs_shiftsUpserted : nat;
  cs_mappedShifts : nat;
  cs_unmappedShifts : nat;
  cs_businessDates : list string;
  cs_autoCalculations : list AutoCalculation;
  cs_errors : list (nat * string)
}.

(** A 32-bit integer column. *)
Definition int4 (z : Z) : bool := (- 2 ^ 31 <=? z) && (z <? 2 ^ 31).

(** An [Int] column given a JavaScript number: Prisma refuses one that is not an
    integer or does not fit. *)
Definition int_column (x : number) : option Z :=
  if num_isInteger x then
    match num_floor x with Some z => if int4 z then Some z else None | None => None end
  else None.

Definition gross_cents (tip : NormalizedTipEvidence) : Z := nullish (int_column (nt_grossAmountUsdCents tip)) 0.

(** The unique key (venue, provider, payment, type) of a tip. *)
Definition tip_key (venueId : string) (tip : NormalizedTipEvidence) (t : TipEvidence) : bool :=
  (tip_venueId t ==? venueId) && (tip_provider t ==? nt_provider tip)
  && (tip_externalPaymentId t ==? nt_externalPaymentId tip) && (tip_tipType t ==? nt_tipType tip).

Definition tip_update (tip : NormalizedTipEvidence) (t : TipEvidence) : TipEvidence :=
  mkTipEvidence (tip_id t) (tip_provider t) (tip_ingestSource t) (tip_venueId t) (tip_externalPaymentId t)
    (tip_externalOrderId t) (tip_tipType t) (gross_cents tip) (tip_paymentStatus t) (tip_refundStatus t)
    (nt_businessDate tip) (nt_sourceHash tip) (Some (nt_sourcePayoutRail tip)) (Some (nt_sourcePayrollStatus tip)).

Definition tip_create (venueId i : string) (tip : NormalizedTipEvidence) : TipEvidence :=
  mkTipEvidence i (nt_provider tip) IngestSource.CSV_UPLOAD venueId (nt_externalPaymentId tip) None
    (nt_tipType tip) (gross_cents tip) PaymentStatus.COMPLETED RefundStatus.NONE (nt_businessDate tip)
    (nt_sourceHash tip) (Some (nt_sourcePayoutRail tip)) (Some (nt_sourcePayrollStatus tip)).

(** The unique key (venue, provider, shift) of a shift. *)
Definition shift_row_key (venueId : string) (shift : NormalizedShiftEvidence) (s : ShiftEvidence) : bool :=
  (shift_venueId s ==? venueId) && (shift_provider s ==? ns_provider shift)
  && (shift_externalShiftId s ==? ns_externalShiftId shift).

Definition shift_update (mappedWorkerId : option string) (shift : NormalizedShiftEvidence) (s : ShiftEvidence)
    : ShiftEvidence :=
  mkShiftEvidence (shift_id s) (shift_provider s) (shift_ingestSource s) (shift_venueId s)
    (shift_externalShiftId s) (ns_externalWorkerId shift) mappedWorkerId (ns_role shift) (ns_clockIn shift)
    (Some (ns_clockOut shift)) (ns_workedMinutes shift) (shift_shiftStatus s) (ns_businessDate shift)
    (ns_sourceHash shift) (Some (ns_sourcePayoutRail shift)) (Some (ns_sourcePayrollStatus shift)).

Definition shift_create (venueId i : string) (mappedWorkerId : option string) (shift : NormalizedShiftEvidence)
    : ShiftEvidence :=
  mkShiftEvidence i (ns_provider shift) IngestSource.CSV_UPLOAD venueId (ns_externalShiftId shift)
    (ns_externalWorkerId shift) mappedWorkerId (ns_role shift) (ns_clockIn shift) (Some (ns_clockOut shift))
    (ns_workedMinutes shift) ShiftStatus.COMPLETED (ns_businessDate shift) (ns_sourceHash shift)
    (Some (ns_sourcePayoutRail shift)) (Some (ns_sourcePayrollStatus shift)).

(** [new Map(mappings.map((m) => [`${m.provider}:${m.externalWorkerId}`, m.workerId]))] *)
Definition workerByExternalId (mappings : list ExternalWorkerAccount) : list (string * string) :=
  fold_left (fun m a => map_set m (account_provider a +:+ ":" +:+ account_externalWorkerId a) (account_workerId a))
    mappings [].

Definition mapped_worker (workers : list (string * string)) (shift : NormalizedShiftEvidence) : option string :=
  map_get workers (ns_provider shift +:+ ":" +:+ ns_externalWorkerId shift).

Definition business_dates (n : CsvNormalizationResult) : list string :=
  stable_sort str_lt (distinct (map ns_businessDate (nr_shifts n) ++ map nt_businessDate (nr_tips n))).

Section service.
Context `{Platform} `{RowSchema}.

Definition import_tip (venueId : string) (tipsUpserted : nat) (tip : NormalizedTipEvidence) : handler nat :=
  do* require (int_column (nt_grossAmountUsdCents tip)) (PrismaError "P2020") in
  let* i := freshId in
  do* upsert (tip_key venueId tip) (tip_update tip) (tip_create venueId i tip) in
  Ret (S tipsUpserted).

(** The counters (shiftsUpserted, mappedShifts, unmappedShifts). *)
Definition import_shift (venueId : string) (workers : list (string * string)) (n : nat * nat * nat)
    (shift : NormalizedShiftEvidence) : handler (nat * nat * nat) :=
  let '(shiftsUpserted, mappedShifts, unmappedShifts) := n in
  let mappedWorkerId := mapped_worker workers shift in
  let '(mappedShifts, unmappedShifts) :=
    if truthy mappedWorkerId then (S mappedShifts, unmappedShifts) else (mappedShifts, S unmappedShifts) in
  do* throw_if (negb (int4 (ns_workedMinutes shift))) (PrismaError "P2020") in
  let* i := freshId in
  do* upsert (shift_row_key venueId shift) (shift_update mappedWorkerId shift)
        (shift_create venueId i mappedWorkerId shift) in
  Ret (S shiftsUpserted, mappedShifts, unmappedShifts).

(** A calculation that fails is reported, never fatal. *)
Definition auto_calculate (venueId : string) (actorUserId : option string) (l : list AutoCalculation)
    (businessDate : string) : handler (list AutoCalculation) :=
  catch
    (let* view := calculate venueId businessDate None actorUserId in
     Ret (l ++ [mkAutoCalculation businessDate (Some (batch_id (bv_batch view)))
                  (BatchStatus.name (batch_status (bv_batch view))) None]))
    (fun error =>
     Ret (l ++ [mkAutoCalculation businessDate None
                  match error with ConflictException _ => "SKIPPED" | _ => "FAILED" end
                  (Some (exn_message error))])).

Definition importCsv (venueId csvText : string) (actorUserId : option string) : handler CsvImportSummary :=
  let* venue := findUnique (R:=Venue) venueId in
  let* venue := require venue (NotFoundException ("Venue " +:+ venueId +:+ " not found")) in
  let* normalized := lift_result (normalizeCsv csvText (venue_timezone venue)) in
  let* mappings := findMany (fun a => (account_venueId a ==? venueId)
                                      && (account_mappingStatus a ==? MappingStatus.CONFIRMED)) in
  let workers := workerByExternalId mappings in
  let* tipsUpserted := fold_prog (nr_tips normalized) 0%nat (import_tip venueId) in
  let* ' (shiftsUpserted, mappedShifts, unmappedShifts) :=
    fold_prog (nr_shifts normalized) (0, 0, 0)%nat (import_shift venueId workers) in
  let businessDates := business_dates normalized in
  let* autoCalculations := fold_prog businessDates [] (auto_calculate venueId actorUserId) in
  Ret (mkSummary tipsUpserted shiftsUpserted mappedShifts unmappedShifts businessDates autoCalculations
         (nr_errors normalized)).

Definition on_date (businessDate : option string) (d : string) : bool :=
  match businessDate with Some b => (b ==? "") || (d ==? b) | None => true end.

Definition listTipEvidence (venueId : string) (businessDate : option string) : handler (list TipEvidence) :=
  query (fun w => stable_sort (fun a b => str_lt (tip_businessDate b) (tip_businessDate a))
    (List.filter (fun t => (tip_venueId t ==? venueId) && on_date businessDate (tip_businessDate t)) (w_tips w))).

Definition listShiftEvidence (venueId : string) (businessDate : option string) : handler (list ShiftEvidence) :=
  query (fun w => orderByAsc shift_clockIn
    (List.filter (fun s => (shift_venueId s ==? venueId) && on_date businessDate (shift_businessDate s)) (w_shifts w))).

Definition post_import (userId venueId csvText : string) : handler CsvImportSummary :=
  do* assertVenueRole userId venueId VENUE_MANAGE_ROLES in
  importCsv venueId csvText (Some userId).

Definition get_tips (userId venueId : string) (businessDate : option string) : handler (list TipEvidence) :=
  do* assertVenueRole userId venueId VENUE_READ_ROLES in
  listTipEvidence venueId businessDate.

Definition get_shifts (userId venueId : string) (businessDate : option string) : handler (list ShiftEvidence) :=
  do* assertVenueRole userId venueId VENUE_READ_ROLES in
  listShiftEvidence venueId businessDate.
End service.

(* ------------------------------------------------------------------ *)
(** ** Fields are read back *)

(** [f] between double quotes, its own quotes doubled. *)
Fixpoint escape (f : string) : string :=
  match f with
  | EmptyString => ""
  | String c f' => if Ascii.eqb c QUOTE then String QUOTE (String QUOTE (escape f')) else String c (escape f')
  end.
Definition quoted (f : string) : string := String QUOTE (escape f +:+ String QUOTE "").

Definition plain_char (c : ascii) : bool := negb (Ascii.eqb c QUOTE) && negb (Ascii.eqb c ",").

(** A field of a CSV line: quoted, or as it is when it needs no quotes. *)
Definition encodes (e f : string) : Prop := e = quoted f \/ (e = f /\ all_chars plain_char f = true).

(** What follows a field: the end of the line or a comma. *)
Definition field_end (rest : string) : Prop :=
  match rest with EmptyString => True | String c _ => Ascii.eqb c "," = true end.

Lemma split_plain f rest cur :
  all_chars plain_char f = true -> split_from (f +:+ rest) cur false = split_from rest (cur +:+ f) false.
Proof.
  revert cur. induction f as [|c f IH]; intros cur H; [by rewrite str_app_nil|].
  apply andb_true_iff in H as [Hc Hf]. apply andb_true_iff in Hc as [Hq Hk].
  apply negb_true_iff in Hq, Hk. cbn [String.append split_from]. rewrite Hq, Hk, IH by done.
  by rewrite str_app_assoc.
Qed.

Lemma split_escaped f rest cur :
  field_end rest ->
  split_from (escape f +:+ String QUOTE rest) cur true = split_from rest (cur +:+ f) false.
Proof.
  intros Hr. revert cur. induction f as [|c f IH]; intros cur.
  - rewrite str_app_nil. cbn [escape String.append split_from]. rewrite Ascii.eqb_refl.
    destruct rest as [|d rest]; [done|]. cbn in Hr. apply Ascii.eqb_eq in Hr as ->. done.
  - cbn [escape]. destruct (Ascii.eqb c QUOTE) eqn:E.
    + apply Ascii.eqb_eq in E as ->. cbn [String.append split_from].
      rewrite Ascii.eqb_refl, IH, str_app_assoc. done.
    + cbn [String.append split_from]. rewrite E, IH, str_app_assoc. done.
Qed.

Lemma split_field e f rest :
  encodes e f -> field_end rest -> split_from (e +:+ rest) "" false = split_from rest f false.
Proof.
  intros [-> | [-> Hf]] Hr; [|by rewrite split_plain].
  unfold quoted. cbn [String.append split_from]. rewrite Ascii.eqb_refl, str_app_assoc.
  exact (split_escaped f rest "" Hr).
Qed.

(** Splitting a CSV line reads back every list of fields, whatever they
    contain (commas, double quotes), from any of their encodings: quoted with
    doubled quotes, or bare when they have neither. *)
Theorem splitCsvLine_reads es fs :
  Forall2 encodes es fs -> fs <> [] -> splitCsvLine (join "," es) = fs.
Proof.
  unfold splitCsvLine. induction 1 as [|e f es fs He Hes IH]; intros Hne; [done|].
  destruct Hes as [|e' f' es fs He' Hes].
  - cbn [join]. rewrite <- (str_app_nil e), (split_field e f) by done. done.
  - change (join "," (e :: e' :: es)) with (e +:+ String "," (join "," (e' :: es))).
    rewrite (split_field e f) by done. cbn [split_from]. rewrite (IH ltac:(done)). done.
Qed.

Lemma splitCsvLine_reads_witness :
  splitCsvLine (join "," [quoted "Kim, Ann"; "server"; quoted (String QUOTE "x")])
  = ["Kim, Ann"; "server"; String QUOTE "x"].
Proof.
  apply splitCsvLine_reads; [|done]. repeat constructor; (by left) || (right; split; vm_compute; done).
Defined.

(* ------------------------------------------------------------------ *)
(** ** What a text normalizes to *)

Section normalized.
Context `{Platform} `{RowSchema}.

Definition line_row (headers : list string) (line : string) : option CsvEvidenceRow :=
  csvEvidenceRowSchema (row_object headers (splitCsvLine line) []).

Definition accepted (headers lines : list string) : list CsvEvidenceRow := omap (line_row headers) lines.

Definition rejected (headers : list string) (from : nat) (lines : list string) : list nat :=
  concat (imap (fun i line => match line_row headers line with None => [S (from + i)] | Some _ => [] end) lines).

Lemma rejected_cons headers from line lines :
  rejected headers from (line :: lines) =
  match line_row headers line with None => [S from] | Some _ => [] end ++ rejected headers (S from) lines.
Proof.
  unfold rejected. cbn [imap concat]. rewrite Nat.add_0_r. f_equal. f_equal.
  apply imap_ext. intros. cbn. by rewrite Nat.add_succ_r.
Qed.

(** The tip of a row: none when its amount is zero. *)
Definition row_tips (venueTimezone : string) (row : CsvEvidenceRow) : list NormalizedTipEvidence :=
  match Money.parseUsdToCents (cr_gross_tip row) with
  | Ok c => if num_ltb (num_of_Z 0) c then [row_tip venueTimezone row c] else []
  | Err _ => []
  end.

(** An accepted amount is an amount. *)
Lemma line_row_amount headers line row :
  line_row headers line = Some row -> exists c, Money.parseUsdToCents (cr_gross_tip row) = Ok c.
Proof.
  unfold line_row, csvEvidenceRowSchema. set (o := row_object _ _ _). clearbody o.
  repeat match goal with |- context [match ?x with Some _ => _ | None => _ end = Some row -> _] =>
    let E := fresh "E" in destruct x eqn:E; [|done] end.
  intros [= <-]. cbn [cr_gross_tip]. unfold amount in *.
  destruct (map_get o "gross_tip") as [v|]; [|done].
  destruct (Money.usd_match v) as [[[[] whole] frac]|] eqn:Em; [done| |done].
  simplify_eq. unfold Money.parseUsdToCents. rewrite (Money.usd_match_trim _ _ _ Em), Em. eauto.
Qed.

Lemma add_lines_spec tz headers lines res from :
  exists res', add_lines tz headers res from lines = Ok res' /\
    nr_shifts res' = nr_shifts res ++ map (row_shift tz) (accepted headers lines) /\
    nr_tips res' = nr_tips res ++ concat (map (row_tips tz) (accepted headers lines)) /\
    map fst (nr_errors res') = map fst (nr_errors res) ++ rejected headers from lines.
Proof.
  revert res from. induction lines as [|line lines IH]; intros res from.
  { exists res. cbn. by rewrite !app_nil_r. }
  rewrite rejected_cons. cbn [add_lines accepted omap list_omap]. unfold add_line. fold (line_row headers line).
  destruct (line_row headers line) as [row|] eqn:El; cbn [rbind map concat].
  - destruct (line_row_amount _ _ _ El) as [c Ec]. rewrite Ec. cbn [rbind].
    set (res1 := if num_ltb _ _ then _ else _). destruct (IH res1 (S from)) as (res' & -> & HS & HT & HE).
    exists res'. split; [done|]. rewrite HS, HT, HE. unfold row_tips at 2, res1. rewrite Ec.
    destruct (num_ltb (num_of_Z 0) c); cbn; by rewrite <- !app_assoc.
  - set (res1 := res <| nr_errors ::= _ |>). destruct (IH res1 (S from)) as (res' & -> & HS & HT & HE).
    exists res'. split; [done|]. rewrite HS, HT, HE. cbn. by rewrite map_app, <- !app_assoc.
Qed.

(** Normalizing a CSV text never throws, and partitions its data lines: the
    lines the schema accepts become one shift each, in order, and one tip each
    when their amount is positive; the others are reported under their line
    number (the header is line 1). *)
Theorem normalizeCsv_partitions csvText tz header lines :
  csv_lines csvText = header :: lines -> lines <> [] ->
  let headers := splitCsvLine header in
  exists n, normalizeCsv csvText tz = Ok n /\
    nr_shifts n = map (row_shift tz) (accepted headers lines) /\
    nr_tips n = concat (map (row_tips tz) (accepted headers lines)) /\
    map fst (nr_errors n) = rejected headers 1 lines /\
    (length (nr_shifts n) + length (nr_errors n) = length lines)%nat.
Proof.
  intros E Hne headers. unfold normalizeCsv. rewrite E. destruct lines as [|l0 lines]; [done|].
  destruct (add_lines_spec tz headers (l0 :: lines) (mkNormalized [] [] []) 1) as (n & En & HS & HT & HE).
  exists n. split; [exact En|]. split; [exact HS|]. split; [exact HT|]. split; [exact HE|].
  rewrite HS, <- (length_map fst (nr_errors n)), HE. cbn [nr_shifts nr_errors map app].
  rewrite length_map. clear. generalize 1%nat. induction (l0 :: lines) as [|l ls IH]; intros from; [done|].
  rewrite rejected_cons. cbn [accepted omap list_omap length]. specialize (IH (S from)). unfold accepted in IH.
  destruct (line_row headers l); cbn [length app]; lia.
Qed.
End normalized.

(* ------------------------------------------------------------------ *)
(** ** What an import leaves *)

(** Calculations, alone or interleaved, leave what the import reads and writes. *)
Definition same_evidence : World -> World -> Prop :=
  same_on (fun w => (w_tips w, w_shifts w, w_accounts w, w_venues w)).

Section imports.
Context `{Platform} `{RowSchema}.

Lemma calculate_same_evidence venueId d v actor : guar same_evidence (calculate venueId d v actor).
Proof.
  unfold calculate, find_policy, store_batch, getBatch, deleteAllocations, create_allocation.
  guar_at same_evidence.
Qed.

Lemma auto_calculate_same_evidence venueId actor l d : guar same_evidence (auto_calculate venueId actor l d).
Proof. unfold auto_calculate. apply guar_catch; [apply guar_bind; [apply calculate_same_evidence|done]|done]. Qed.

Lemma auto_calculate_total venueId actor ds l w :
  exists w' l', run (fold_prog ds l (auto_calculate venueId actor)) w = (w', Ok l').
Proof.
  revert l w. induction ds as [|d ds IH]; intros l w; [by exists w, l|].
  cbn [fold_prog]. rewrite run_bind. unfold auto_calculate at 1. rewrite run_catch, run_bind.
  destruct (run (calculate venueId d None actor) w) as [w1 [view|e]]; exec; apply IH.
Qed.

Definition tip_ok (tip : NormalizedTipEvidence) : Prop := int_column (nt_grossAmountUsdCents tip) <> None.
Definition shift_ok (shift : NormalizedShiftEvidence) : Prop := int4 (ns_workedMinutes shift) = true.

Definition count_shift (workers : list (string * string)) (n : nat * nat * nat) (shift : NormalizedShiftEvidence)
    : nat * nat * nat :=
  let '(u, m, x) := n in
  if truthy (mapped_worker workers shift) then (S u, S m, x) else (S u, m, S x).

Lemma import_tip_spec venueId n tip w w' n' :
  run (import_tip venueId n tip) w = (w', Ok n') ->
  tip_ok tip /\ n' = S n /\
  match List.find (tip_key venueId tip) (w_tips w) with
  | Some _ => w_tips w' = upd_where (tip_key venueId tip) (tip_update tip) (w_tips w)
  | None => exists i, w_tips w' = w_tips w ++ [tip_create venueId i tip]
  end.
Proof.
  unfold import_tip, tip_ok. wexec. destruct (int_column _); [|done]. wexec.
  destruct (List.find _ _); [by intros [= <- <-]|]. destruct (existsb _ _); [done|]. wexec.
  intros [= <- <-]. eauto.
Qed.

Lemma import_shift_spec venueId workers n shift w w' n' :
  run (import_shift venueId workers n shift) w = (w', Ok n') ->
  shift_ok shift /\ n' = count_shift workers n shift /\
  match List.find (shift_row_key venueId shift) (w_shifts w) with
  | Some _ => w_shifts w' = upd_where (shift_row_key venueId shift)
                              (shift_update (mapped_worker workers shift) shift) (w_shifts w)
  | None => exists i, w_shifts w' = w_shifts w ++ [shift_create venueId i (mapped_worker workers shift) shift]
  end.
Proof.
  unfold import_shift, count_shift, shift_ok. destruct n as [[u m] x].
  destruct (truthy _), (int4 _); wexec; try done;
    (destruct (List.find _ _); [by intros [= <- <-]|]; destruct (existsb _ _); [done|]; wexec;
     intros [= <- <-]; eauto).
Qed.

(** The accounts an import resolves workers with. *)
Definition confirmed (venueId : string) (w : World) : list (string * string) :=
  workerByExternalId (List.filter (fun a => (account_venueId a ==? venueId)
                                            && (account_mappingStatus a ==? MappingStatus.CONFIRMED)) (w_accounts w)).

Lemma run_importCsv venueId csvText actor w :
  run (importCsv venueId csvText actor) w =
  match List.find (by_id venueId) (w_venues w) with
  | None => (w, Err (NotFoundException ("Venue " +:+ venueId +:+ " not found")))
  | Some venue =>
      match normalizeCsv csvText (venue_timezone venue) with
      | Err e => (w, Err e)
      | Ok n =>
          match run (fold_prog (nr_tips n) 0%nat (import_tip venueId)) w with
          | (wa, Err e) => (wa, Err e)
          | (wa, Ok k) =>
              match run (fold_prog (nr_shifts n) (0, 0, 0)%nat (import_shift venueId (confirmed venueId w))) wa with
              | (wb, Err e) => (wb, Err e)
              | (wb, Ok (u, m, x)) =>
                  match run (fold_prog (business_dates n) [] (auto_calculate venueId actor)) wb with
                  | (wc, Err e) => (wc, Err e)
                  | (wc, Ok l) => (wc, Ok (mkSummary k u m x (business_dates n) l (nr_errors n)))
                  end
              end
          end
      end
  end.
Proof.
  unfold importCsv. wexec. destruct (List.find _ _) as [venue|]; [|done]. wexec.
  destruct (normalizeCsv csvText (venue_timezone venue)) as [n|e]; [|done]. cbn [lift_result]. wexec.
  destruct (run (fold_prog (nr_tips n) _ _) w) as [wa [k|e]]; [|done]. wexec. unfold confirmed.
  destruct (run (fold_prog (nr_shifts n) _ _) wa) as [wb [[[u m] x]|e]]; [|done]. wexec.
  by destruct (run (fold_prog (business_dates n) _ _) wb) as [wc [l|e]].
Qed.

Lemma import_tips_frame venueId tips k :
  guar (same_on (fun w => (w_shifts w, w_accounts w, w_venues w))) (fold_prog tips k (import_tip venueId)).
Proof. unfold import_tip. guar_at (same_on (fun w => (w_shifts w, w_accounts w, w_venues w))). Qed.

Lemma import_shifts_frame venueId workers shifts n :
  guar (same_on (fun w => (w_tips w, w_accounts w, w_venues w))) (fold_prog shifts n (import_shift venueId workers)).
Proof. unfold import_shift. guar_at (same_on (fun w => (w_tips w, w_accounts w, w_venues w))). Qed.

Lemma auto_frame venueId actor ds l : guar same_evidence (fold_prog ds l (auto_calculate venueId actor)).
Proof. apply guar_fold. intros. apply auto_calculate_same_evidence. Qed.

Lemma import_tips_again venueId tips k k' w w1 w2 :
  run (fold_prog tips k (import_tip venueId)) w = (w1, Ok k') -> w_tips w2 = w_tips w1 ->
  exists w', run (fold_prog tips k (import_tip venueId)) w2 = (w', Ok k') /\ w_tips w' = w_tips w1.
Proof.
  change w_tips with (rows (W:=World) (R:=TipEvidence)).
  apply (upserts_idempotent (tip_key venueId) tip_update (tip_create venueId) (import_tip venueId)
           (fun n _ => S n) tip_ok); try done.
  - intros x i. unfold tip_key, tip_create. cbn. by rewrite !bd_refl.
  - intros n tip u u' n'. apply import_tip_spec.
  - intros n tip u Hok Hf. unfold import_tip, tip_ok in *. wexec. destruct (int_column _); [|done]. wexec.
    cbn [rows table_TipEvidence] in Hf. destruct (List.find _ _); [|done]. eauto.
Qed.

Lemma import_shifts_again venueId workers shifts n n' w w1 w2 :
  run (fold_prog shifts n (import_shift venueId workers)) w = (w1, Ok n') -> w_shifts w2 = w_shifts w1 ->
  exists w', run (fold_prog shifts n (import_shift venueId workers)) w2 = (w', Ok n') /\ w_shifts w' = w_shifts w1.
Proof.
  change w_shifts with (rows (W:=World) (R:=ShiftEvidence)).
  apply (upserts_idempotent (shift_row_key venueId) (fun s => shift_update (mapped_worker workers s) s)
           (fun i s => shift_create venueId i (mapped_worker workers s) s) (import_shift venueId workers)
           (count_shift workers) shift_ok); try done.
  - intros i x. unfold shift_row_key, shift_create. cbn. by rewrite !bd_refl.
  - intros k s u u' k'. apply import_shift_spec.
  - intros [[a m] x] s u Hok Hf. unfold import_shift, count_shift, shift_ok in *. rewrite Hok.
    cbn [rows table_ShiftEvidence] in Hf. destruct (truthy _); wexec; (destruct (List.find _ _); [|done]); eauto.
Qed.

(** Importing a file a second time succeeds, answers the same counts, dates
    and errors, and leaves every tip and every shift as the first import left
    it, whatever the automatic calculations of the two imports did. *)
Theorem importCsv_idempotent venueId csvText actor actor' w w1 s1 :
  run (importCsv venueId csvText actor) w = (w1, Ok s1) ->
  exists w2 l, run (importCsv venueId csvText actor') w1
               = (w2, Ok (mkSummary (cs_tipsUpserted s1) (cs_shiftsUpserted s1) (cs_mappedShifts s1)
                            (cs_unmappedShifts s1) (cs_businessDates s1) l (cs_errors s1))) /\
    w_tips w2 = w_tips w1 /\ w_shifts w2 = w_shifts w1.
Proof.
  rewrite run_importCsv. destruct (List.find _ (w_venues w)) as [venue|] eqn:Ev; [|done].
  destruct (normalizeCsv _ _) as [n|e] eqn:En; [|done].
  destruct (run (fold_prog (nr_tips n) _ _) w) as [wa [k|e]] eqn:Et; [|done].
  destruct (run (fold_prog (nr_shifts n) _ _) wa) as [wb [[[u m] x]|e]] eqn:Es; [|done].
  destruct (run (fold_prog (business_dates n) _ _) wb) as [wc [l|e]] eqn:Ec; [|done]. intros [= <- <-].
  pose proof (guar_run _ _ w (import_tips_frame venueId (nr_tips n) 0)) as Ft. rewrite Et in Ft.
  pose proof (guar_run _ _ wa (import_shifts_frame venueId (confirmed venueId w) (nr_shifts n) (0, 0, 0)%nat)) as Fs.
  rewrite Es in Fs.
  pose proof (guar_run _ _ wb (auto_frame venueId actor (business_dates n) [])) as Fc. rewrite Ec in Fc.
  unfold same_evidence, same_on in *. cbn [fst] in *. simplify_eq.
  destruct (import_tips_again _ _ _ _ _ _ wc Et) as (wa' & Et' & Ht); [congruence|].
  pose proof (guar_run _ _ wc (import_tips_frame venueId (nr_tips n) 0)) as Ft'. rewrite Et' in Ft'.
  unfold same_on in Ft'. cbn [fst] in Ft'. simplify_eq.
  destruct (import_shifts_again _ _ _ _ _ _ _ wa' Es) as (wb' & Es' & Hs); [congruence|].
  pose proof (guar_run _ _ wa' (import_shifts_frame venueId (confirmed venueId w) (nr_shifts n) (0, 0, 0)%nat)) as Fs'.
  rewrite Es' in Fs'. unfold same_on in Fs'. cbn [fst] in Fs'. simplify_eq.
  destruct (auto_calculate_total venueId actor' (business_dates n) [] wb') as (wd & l' & Ed).
  pose proof (guar_run _ _ wb' (auto_frame venueId actor' (business_dates n) [])) as Fd. rewrite Ed in Fd.
  unfold same_evidence, same_on in Fd. cbn [fst] in Fd. simplify_eq.
  exists wd, l'. rewrite run_importCsv.
  assert (w_venues wc = w_venues w) as -> by congruence. rewrite Ev, En, Et'.
  assert (confirmed venueId wc = confirmed venueId w) as -> by (unfold confirmed; congruence).
  rewrite Es', Ed. split; [done|]. split; congruence.
Qed.

(** *** The range of the columns *)

(** Every tip is positive and fits its 32-bit column, and so do the minutes. *)
Definition evidence_in_range (w : World) : Prop :=
  Forall (fun t => 0 < tip_grossAmountUsdCents t < 2 ^ 31) (w_tips w) /\
  Forall (fun s => - 2 ^ 31 <= shift_workedMinutes s < 2 ^ 31) (w_shifts w).

Definition positive_tip (tip : NormalizedTipEvidence) : Prop :=
  num_ltb (num_of_Z 0) (nt_grossAmountUsdCents tip) = true.

Lemma normalizeCsv_positive csvText tz n :
  normalizeCsv csvText tz = Ok n -> Forall positive_tip (nr_tips n).
Proof.
  unfold normalizeCsv. destruct (csv_lines csvText) as [|header [|l0 lines]]; try by intros [= <-].
  destruct (add_lines_spec tz (splitCsvLine header) (l0 :: lines) (mkNormalized [] [] []) 1) as (n' & -> & _ & HT & _).
  intros [= <-]. rewrite HT. cbn [nr_tips app]. apply Forall_concat, Forall_map, Forall_forall. intros row _.
  unfold row_tips. destruct (Money.parseUsdToCents _) as [c|]; [|done].
  destruct (num_ltb (num_of_Z 0) c) eqn:E; [|done]. by repeat constructor.
Qed.

Lemma gross_cents_range tip :
  positive_tip tip -> int_column (nt_grossAmountUsdCents tip) <> None -> 0 < gross_cents tip < 2 ^ 31.
Proof.
  unfold positive_tip, gross_cents, int_column. intros Hp Hc.
  destruct (num_isInteger _) eqn:Ei; [|done]. destruct (num_floor _) as [z|] eqn:Ef; [|done].
  destruct (int4 z) eqn:Ez; [|done]. cbn [nullish]. pose proof (num_floor_positive _ _ Ei Ef Hp).
  apply andb_true_iff in Ez as [_ Hz]. lia.
Qed.

Lemma Forall_upd_where {R} (P : R -> Prop) p f (l : list R) :
  Forall P l -> (forall r, P r -> P (f r)) -> Forall P (upd_where p f l).
Proof. intros HF Hf. apply Forall_map. eapply Forall_impl; [exact HF|]. intros r Hr. cbn. destruct (p r); auto. Qed.

Lemma frame_in_range {A} (p : handler A) :
  guar (same_on (fun w => (w_tips w, w_shifts w))) p -> keeps evidence_in_range p.
Proof. apply keeps_guar. intros w w' HI HG. unfold same_on in HG. simplify_eq. unfold evidence_in_range. by rewrite H1, H2. Qed.

Lemma freshId_in_range : keeps evidence_in_range freshId.
Proof. apply frame_in_range. unfold freshId. guar_at (same_on (fun w => (w_tips w, w_shifts w))). Qed.

Lemma import_tip_in_range venueId k tip :
  positive_tip tip -> keeps evidence_in_range (import_tip venueId k tip).
Proof.
  intros Hp. unfold import_tip. destruct (int_column _) as [z|] eqn:Ec; [|done].
  apply keeps_bind; [done|intros _]. apply keeps_bind; [apply freshId_in_range|intros i].
  apply keeps_bind; [|done]. apply keeps_act. intros w [HT HS].
  assert (0 < gross_cents tip < 2 ^ 31) by (apply gross_cents_range; [done|congruence]).
  cbn [rows table_TipEvidence]. destruct (List.find _ _); [|destruct (existsb _ _); [done|]]; (split; [|exact HS]); cbn.
  - by apply Forall_upd_where.
  - apply Forall_app. split; [done|by apply Forall_singleton].
Qed.

Lemma import_shift_in_range venueId workers n shift :
  keeps evidence_in_range (import_shift venueId workers n shift).
Proof.
  unfold import_shift. destruct n as [[u m] x].
  match goal with |- context [if truthy ?t then ?a else ?b] => destruct (if truthy t then a else b) as [m' x'] end.
  destruct (int4 _) eqn:Ez; [|done]. apply keeps_bind; [done|intros _].
  apply keeps_bind; [apply freshId_in_range|intros i]. apply keeps_bind; [|done].
  apply keeps_act. intros w [HT HS]. assert (- 2 ^ 31 <= ns_workedMinutes shift < 2 ^ 31)
    by (apply andb_true_iff in Ez as [? ?]; lia).
  cbn [rows table_ShiftEvidence]. destruct (List.find _ _); [|destruct (existsb _ _); [done|]]; (split; [exact HT|]); cbn.
  - by apply Forall_upd_where.
  - apply Forall_app. split; [done|by apply Forall_singleton].
Qed.

Lemma importCsv_in_range venueId csvText actor : keeps evidence_in_range (importCsv venueId csvText actor).
Proof.
  unfold importCsv. apply keeps_bind; [apply keeps_query|intros o].
  apply keeps_bind; [apply keeps_require|intros venue].
  destruct (normalizeCsv csvText (venue_timezone venue)) as [n|e] eqn:En; [|done]. apply normalizeCsv_positive in En.
  cbn [lift_result bind]. apply keeps_bind; [apply keeps_query|intros mappings].
  apply keeps_bind; [|intros k].
  { apply keeps_fold. intros k tip Hin. apply import_tip_in_range. rewrite Forall_forall in En.
    apply En. by apply list_elem_of_In. }
  apply keeps_bind; [apply keeps_fold; intros; apply import_shift_in_range|intros [[u m] x]].
  apply keeps_bind; [|done]. apply keeps_fold. intros l d _. apply frame_in_range.
  eapply guar_mono; [|apply auto_calculate_same_evidence]. unfold same_evidence, same_on. intros ?? HG. injection HG. congruence.
Qed.

(** No import, alone or interleaved with any others and whether it succeeds
    or fails half way, stores a tip that is not positive or does not fit its
    32-bit column, nor worked minutes that do not fit theirs. *)
Theorem imports_in_range (requests : list (string * string * option string)) w c :
  rtc pool_step (w, map (fun r => importCsv r.1.1 r.1.2 r.2) requests) c ->
  evidence_in_range w -> evidence_in_range c.1.
Proof.
  intros Hr Hw. apply (pool_keeps _ _ _ Hr Hw). apply Forall_map, Forall_forall. intros r _.
  apply importCsv_in_range.
Qed.
End imports.

(* ------------------------------------------------------------------ *)
(** ** A file imported, then corrected *)

(** A schema for the examples: an instant is a number of milliseconds. *)
Definition demo_schema : RowSchema := {|
  isoDatetime s := if all_chars is_digit s && negb (s ==? "") then Some (digits_value s) else None;
  issueMessage _ _ := "Invalid input"
|}.
#[local] Existing Instance demo_schema.

Definition demo_csv (gross : string) : string :=
  join (String "010" "")
    ["provider,venue_external_id,worker_external_id,shift_external_id,tip_type,gross_tip,clock_in,clock_out,role,payout_route,payroll_status";
     "toast,v1,w1,s1,CARD_TIP," +:+ gross +:+ ",0,28800000,server,PAYROLL,PENDING";
     "toast,v1,w2,s2,CARD_TIP,lots,0,28800000,server,PAYROLL,PENDING"].

Definition demo_venue : World := AllocationsService.demo_day <| w_tips := [] |> <| w_shifts := [] |>.

(** The venue after the first import. *)
Definition demo_imported : World :=
  Eval vm_compute in (run (importCsv "v" (demo_csv "10.00") None) demo_venue).1.

Example demo_import :
  match run (importCsv "v" (demo_csv "10.00") None) demo_venue with
  | (w, Ok s) => (cs_tipsUpserted s, cs_shiftsUpserted s, cs_unmappedShifts s, cs_errors s,
                  map ac_outcome (cs_autoCalculations s), map batch_tipPoolAmountUsdCents (w_batches w),
                  map shift_workedMinutes (w_shifts w))
                 = (1, 1, 1, [(3, "gross_tip: Invalid input")], ["CALCULATED"], [1000%Z], [480%Z])%nat
  | _ => False
  end.
Proof. vm_compute. reflexivity. Qed.

(** a corrected file cannot take a tip back.  A row first imported with a tip
    of 10.00 and imported again with 0 upserts no tip and leaves the old one:
    the day calculated by the second import still has a pool of 10.00. *)
Example corrected_tip_stays :
  match run (importCsv "v" (demo_csv "0") None) demo_imported with
  | (w, Ok s) => cs_tipsUpserted s = 0%nat /\ cs_shiftsUpserted s = 1%nat /\
      map tip_grossAmountUsdCents (w_tips w) = [1000] /\ map batch_tipPoolAmountUsdCents (w_batches w) = [1000]
  | _ => False
  end.
Proof. vm_compute. done. Qed.

Lemma normalizeCsv_partitions_witness :
  exists n, normalizeCsv (demo_csv "10.00") "UTC" = Ok n /\
    (length (nr_shifts n) + length (nr_errors n) = 2)%nat.
Proof.
  edestruct (normalizeCsv_partitions (demo_csv "10.00") "UTC") as (n & E & _ & _ & _ & HL).
  - vm_compute. reflexivity.
  - done.
  - exists n. split; [exact E|exact HL].
Defined.

Lemma importCsv_idempotent_witness :
  exists w1 s1 w2 s2, run (importCsv "v" (demo_csv "10.00") None) demo_venue = (w1, Ok s1) /\
    run (importCsv "v" (demo_csv "10.00") (Some "boss")) w1 = (w2, Ok s2) /\
    w_tips w2 = w_tips w1 /\ w_shifts w2 = w_shifts w1 /\ length (w_tips w1) = 1%nat.
Proof.
  destruct (run (importCsv "v" (demo_csv "10.00") None) demo_venue) as [w1 [s1|e]] eqn:E.
  - destruct (importCsv_idempotent "v" (demo_csv "10.00") None (Some "boss") demo_venue w1 s1 E)
      as (w2 & l & E2 & HT & HS).
    eexists w1, s1, w2, _. split; [done|]. split; [exact E2|]. split; [exact HT|]. split; [exact HS|].
    apply (f_equal (fun c => length (w_tips c.1))) in E. vm_compute in E. symmetry. exact E.
  - apply (f_equal (fun c => is_ok c.2)) in E. vm_compute in E. discriminate E.
Defined.

Lemma imports_in_range_witness :
  let pool0 := (demo_venue, map (fun r => importCsv r.1.1 r.1.2 r.2)
                 [("v", demo_csv "10.00", None); ("v", demo_csv "0", None)]) in
  evidence_in_range demo_venue /\ evidence_in_range (schedule [0; 1; 0; 1; 0; 1]%nat pool0).1.
Proof.
  intros pool0. assert (evidence_in_range demo_venue) as Hw by (split; constructor).
  split; [exact Hw|]. eapply imports_in_range; [apply schedule_sound|exact Hw].
Defined.


End EvidenceService.
