(* ===== verification/Square.v ===== *)
(** * The Square client

    packages/providers/src/square.ts and token-crypto.ts.  What the network
    answers, how JavaScript reads instants and numerals, and the block cipher
    are interfaces ([Square], [Cipher]).  A payment, an order or a timecard is
    the JSON object Square sent.  The do-while loops over pages take a fuel:
    the number of pages is the server's choice; [pages_complete] proves the
    result for any server that ends.  The [retryAfterMs] of an API error, which
    nothing reads, is not modelled. *)

From S2P Require Import Prelude Concurrency Strings Schema Demo Float64 Money AllocationEngine Income Evidence.

Open Scope Z_scope.

(** An HTTP response: status, [ok] and the JSON body ([None] when it does not
    parse). *)
Record Response := mkResponse { rp_status : Z; rp_ok : bool; rp_json : option json }.

Record SquareTokenResponse := mkTokens {
  tk_access_token : string;
  tk_refresh_token : option string;
  tk_expires_at : option string;
  tk_merchant_id : string
}.

(** An invalid date or number given to a column: Prisma refuses the query; the
    text of its error is the library's. *)
Definition refused : exn := PrismaError "PrismaClientValidationError".

Record OauthResponse := mkOauth {
  or_status : Z;
  or_ok : bool;
  or_errors : option (list (option string * option string));
  or_tokens : SquareTokenResponse
}.

Class Square := {
  (** [fetch(url)] with its query parameters and body, authorized by a token;
      [Err] when the network fails *)
  fetch : string -> list (string * string) -> json -> string -> nat -> result Response;
  (** the answer of the token endpoint to a grant *)
  fetchToken : string -> list (string * option string) -> nat -> result OauthResponse;
  (** [new Date(s).getTime()]; [None] is the invalid date *)
  parseInstant : string -> option Z;
  (** [Number(s)] *)
  numberOfString : string -> number;
  (** [String(x)] of a number that is not an integer, an array or an object *)
  stringOf : json -> string
}.

Class Cipher := {
  (** AES-256-GCM with a key and an initialization vector: the tag and the
      ciphertext, in base64url; and back ([Err] when the tag does not match) *)
  aesEncrypt : string -> string -> string -> string * string;
  aesDecrypt : string -> string -> string -> string -> result string;
  (** [randomBytes(12).toString("base64url")] *)
  randomIv : nat -> string
}.

(* ------------------------------------------------------------------ *)
(** ** Token envelopes *)

(** A seller and a cipher for the examples: a seller with one location, two
    pages of payments and one timecard; ciphertext is the plaintext with each
    character written as two letters. *)
Definition demo_pages (url : string) (q : list (string * string)) : json :=
  if url ==? "https://connect.squareupsandbox.com/v2/locations"
  then JObj [("locations", JArr [JObj [("id", JStr "L1"); ("status", JStr "ACTIVE")]])]
  else if url ==? "https://connect.squareupsandbox.com/v2/payments"
  then match map_get q "cursor" with
       | None => JObj [("payments", JArr [JObj [("id", JStr "P1"); ("created_at", JStr "T0"); ("status", JStr "COMPLETED");
                         ("tip_money", JObj [("amount", JInt 500); ("currency", JStr "USD")]);
                         ("total_money", JObj [("amount", JInt 2500)])]]); ("cursor", JStr "next")]
       | Some _ => JObj [("payments", JArr [JObj [("id", JStr "P2"); ("created_at", JStr "T0")]])]
       end
  else if url ==? "https://connect.squareupsandbox.com/v2/labor/timecards/search"
  then JObj [("timecards", JArr [JObj [("id", JStr "C1"); ("team_member_id", JStr "E1"); ("start_at", JStr "T0");
                                        ("end_at", JStr "T1")]])]
  else JObj [].

Definition demo_square : Square := {|
  fetch url q _ _ _ := Ok (mkResponse 200 true (Some (demo_pages url q)));
  fetchToken _ _ _ := Ok (mkOauth 200 true None (mkTokens "access" (Some "refresh") None "M1"));
  parseInstant s := if s ==? "T0" then Some 0 else if s ==? "T1" then Some 3600000
                    else if s ==? "day0" then Some 0 else None;
  numberOfString _ := num_of_Z 0;
  stringOf _ := ""
|}.

Definition letter (n : nat) : ascii := ascii_of_nat (65 + n).
Fixpoint spell (s : string) : string :=
  match s with
  | EmptyString => ""
  | String c s' => String (letter (nat_of_ascii c / 16)) (String (letter (nat_of_ascii c mod 16)) (spell s'))
  end.
Fixpoint unspell (s : string) : string :=
  match s with
  | String a (String b s') => String (ascii_of_nat ((nat_of_ascii a - 65) * 16 + (nat_of_ascii b - 65))) (unspell s')
  | _ => ""
  end.

Definition demo_cipher : Cipher := {|
  aesEncrypt key iv p := ("tag", spell p);
  aesDecrypt key iv tag c := Ok (unspell c);
  randomIv t := "iv"
|}.

Lemma unspell_spell s : unspell (spell s) = s.
Proof. induction s as [|c s IH]; [done|]. cbn [spell unspell]. rewrite IH. by destruct c as [[] [] [] [] [] [] [] []]. Qed.

Module TokenCrypto.
Section crypto.
Context `{Platform} `{Cipher}.

Definition encryptionKey (secret : string) : result string :=
  if (String.length secret <? 16)%nat
  then Err (JsError "Provider encryption secret must be at least 16 characters")
  else Ok (sha256 ("serveproof:provider-token:v1:" +:+ secret)).

Definition encryptProviderToken (plaintext secret : string) : handler string :=
  let* iv := ask randomIv in
  let* key := lift_result (encryptionKey secret) in
  let '(tag, ciphertext) := aesEncrypt key iv plaintext in
  Ret (join "." ["v1"; iv; tag; ciphertext]).

Definition decryptProviderToken (envelope secret : string) : result string :=
  match split "." envelope with
  | version :: iv :: tag :: ciphertext :: _ =>
      if (version !=? "v1") || (iv ==? "") || (tag ==? "") || (ciphertext ==? "")
      then Err (JsError "Invalid token envelope")
      else try! key := encryptionKey secret in aesDecrypt key iv tag ciphertext
  | _ => Err (JsError "Invalid token envelope")
  end.
End crypto.

(** What the cipher and base64url are documented to do. *)
Section envelope.
Context `{Platform} `{Cipher}.

Definition no_dot (s : string) : bool := all_chars (fun a => negb (Ascii.eqb a ".")) s.

(** Decryption inverts encryption under the same key and vector. *)
Hypothesis aes_inverts : forall key iv p tag c, aesEncrypt key iv p = (tag, c) -> aesDecrypt key iv tag c = Ok p.
(** A base64url text has no dot, and the text of at least one byte is not empty. *)
Hypothesis iv_text : forall t, no_dot (randomIv t) = true /\ randomIv t <> "".
Hypothesis cipher_text : forall key iv p tag c, aesEncrypt key iv p = (tag, c) ->
  no_dot tag = true /\ tag <> "" /\ no_dot c = true /\ (p <> "" -> c <> "").

(** A provider token is read back from its envelope with the secret that
    sealed it, whatever random vector was drawn; sealing fails exactly for a
    secret shorter than 16 characters. *)
Theorem decrypt_encrypt plaintext secret w :
  plaintext <> "" ->
  match run (encryptProviderToken plaintext secret) w with
  | (_, Ok envelope) => decryptProviderToken envelope secret = Ok plaintext /\ (16 <= String.length secret)%nat
  | (_, Err _) => (String.length secret < 16)%nat
  end.
Proof.
  intros Hp. unfold encryptProviderToken, decryptProviderToken. wexec. unfold encryptionKey.
  destruct (String.length secret <? 16)%nat eqn:El; [apply Nat.ltb_lt in El; exact El|].
  apply Nat.ltb_ge in El. cbn [lift_result]. wexec.
  destruct (aesEncrypt _ _ _) as [tag c] eqn:Ea. wexec. split; [|exact El].
  destruct (iv_text (w_tick w)) as [Hi Hi0]. destruct (cipher_text _ _ _ _ _ Ea) as (Ht & Ht0 & Hc & Hc0).
  rewrite (split_join "."); [|by repeat constructor|done].
  rewrite bd_refl, (bool_decide_eq_false_2 (randomIv _ = "")), (bool_decide_eq_false_2 (tag = "")),
    (bool_decide_eq_false_2 (c = "")) by auto.
  cbn [negb orb rbind]. by apply aes_inverts.
Qed.
End envelope.

Lemma spell_no_dot s : no_dot (spell s) = true.
Proof.
  induction s as [|c s IH]; [done|]. unfold no_dot in *. cbn [spell all_chars]. rewrite IH.
  by destruct c as [[] [] [] [] [] [] [] []].
Qed.

Lemma decrypt_encrypt_witness :
  exists envelope, run (@encryptProviderToken _ demo_cipher "access" "0123456789abcdef") empty_world
                   = (empty_world <| w_tick := 1%nat |>, Ok envelope) /\
    @decryptProviderToken _ demo_cipher envelope "0123456789abcdef" = Ok "access".
Proof.
  pose proof (@decrypt_encrypt _ demo_cipher) as Hd.
  specialize (Hd ltac:(by intros key iv p tag c [= <- <-]; cbn; rewrite unspell_spell)).
  specialize (Hd ltac:(done)).
  specialize (Hd ltac:(intros key iv p tag c [= <- <-]; repeat split; [done|apply spell_no_dot|by destruct p])).
  specialize (Hd "access" "0123456789abcdef" empty_world ltac:(done)).
  eexists. split; [vm_compute; reflexivity|]. exact (proj1 Hd).
Defined.
End TokenCrypto.

Module SquareClient.

(* ------------------------------------------------------------------ *)
(** ** JavaScript values *)

(** [o.k] *)
Definition field (o : json) (k : string) : option json :=
  match o with JObj l => map_get l k | _ => None end.

Definition defined (o : option json) : option json :=
  match o with Some JNull => None | _ => o end.

Definition js_truthy (o : option json) : bool :=
  match o with
  | None | Some JNull | Some (JBool false) | Some (JInt 0) | Some (JStr "") => false
  | Some (JFloat f) => match f with S754_zero _ | S754_nan => false | _ => true end
  | Some _ => true
  end.

(** [typeof x === "string" ? x : undefined] *)
Definition string_value (o : option json) : option string :=
  match o with Some (JStr s) => Some s | _ => None end.

(** [x ?? []] of an array *)
Definition array_value (o : option json) : list json :=
  match o with Some (JArr l) => l | _ => [] end.

Section values.
Context `{Square}.

Definition js_String (x : json) : string :=
  match x with
  | JStr s => s
  | JInt z => str_of_Z z
  | JBool b => if b then "true" else "false"
  | JNull => "null"
  | _ => stringOf x
  end.

Definition js_Number (x : json) : number :=
  match x with
  | JInt z => num_of_Z z
  | JFloat f => f
  | JStr s => numberOfString s
  | JBool b => num_of_Z (if b then 1 else 0)
  | JNull => num_of_Z 0
  | _ => S754_nan
  end.

(** [Number(money?.amount ?? 0)] *)
Definition money_amount (money : option json) : number :=
  match defined money with
  | Some m => js_Number (nullish (defined (field m "amount")) (JInt 0))
  | None => num_of_Z 0
  end.

(** [money?.currency] *)
Definition money_currency (money : option json) : option string :=
  defined money ≫= fun m => string_value (field m "currency").
End values.

(** [a <= b], false for NaN *)
Definition num_leb : number -> number -> bool := SFleb.

(** [flatMap] of a function that may throw *)
Fixpoint flat_map_result {A B} (f : A -> result (list B)) (l : list A) : result (list B) :=
  match l with
  | [] => Ok []
  | x :: l' => try! ys := f x in try! zs := flat_map_result f l' in Ok (ys ++ zs)
  end.

(* ------------------------------------------------------------------ *)
(** ** Evidence *)

Record DateRange := mkRange { startDate : string; endDate : string }.

Record ProviderTipEvidence := mkProviderTip {
  pt_provider : string;
  pt_externalPaymentId : string;
  pt_externalOrderId : option string;
  pt_tipType : TipType.t;
  pt_grossAmountUsdCents : number;
  pt_paymentStatus : PaymentStatus.t;
  pt_refundStatus : RefundStatus.t;
  pt_businessDate : string;
  pt_sourceHash : string
}.

(** [ps_clockOut] is null, an instant or the invalid date; [ps_workedMinutes]
    is NaN in the last case. *)
Record ProviderShiftEvidence := mkProviderShift {
  ps_provider : string;
  ps_externalShiftId : string;
  ps_externalWorkerId : string;
  ps_role : string;
  ps_clockIn : Z;
  ps_clockOut : option (option Z);
  ps_workedMinutes : option Z;
  ps_shiftStatus : ShiftStatus.t;
  ps_businessDate : string;
  ps_sourceHash : string
}.

Definition apiBase (environment : string) : string :=
  if environment ==? "sandbox" then "https://connect.squareupsandbox.com" else "https://connect.squareup.com".

(** The URL with its query parameters. *)
Definition squareAuthorizationUrl (environment appId redirectUri state : string) : string * list (string * string) :=
  (apiBase environment +:+ "/oauth2/authorize",
   [("client_id", appId);
    ("scope", "MERCHANT_PROFILE_READ PAYMENTS_READ ORDERS_READ TIMECARDS_READ");
    ("session", "false"); ("state", state); ("redirect_uri", redirectUri)]).

(** [errors?.map((e) => e.code ?? e.detail).filter(Boolean).join(", ")] *)
Definition error_detail (errors : option (list (option string * option string))) : string :=
  match errors with
  | None => ""
  | Some l => join ", " (List.filter (fun s => s !=? "") (omap (fun e => nullish2 e.1 e.2) l))
  end.

Definition error_message (prefix : string) (status : Z) (detail : string) : string :=
  prefix +:+ " " +:+ str_of_Z status +:+ (if detail ==? "" then "" else ": " +:+ detail).

Definition body_errors (body : json) : option (list (option string * option string)) :=
  match field body "errors" with
  | Some (JArr l) => Some (map (fun e => (string_value (field e "code"), string_value (field e "detail"))) l)
  | _ => None
  end.

(** A client: its token, environment and time zone. *)
Record Client := mkClient { cl_accessToken : string; cl_environment : string; cl_timezone : string }.

Section client.
Context `{Platform} `{Square}.

Definition hash (value : json) : string := sha256 (stringify value).

(** [businessDate(new Date(String(x)), timezone)]: the invalid date throws. *)
Definition business_date (x : json) (timezone : string) : result (Z * string) :=
  match parseInstant (js_String x) with
  | Some t => Ok (t, AllocationEngine.businessDateInTimezone t timezone)
  | None => Err (JsError "Invalid time value")
  end.

Definition request (c : Client) (path : string) (query : list (string * string)) (body : json) : handler json :=
  let* response := ask (fetch (apiBase (cl_environment c) +:+ path) query body (cl_accessToken c)) in
  let* response := lift_result response in
  if negb (rp_ok response)
  then Throw (SquareApiError
         (error_message "Square API" (rp_status response)
            (error_detail (body_errors (nullish (rp_json response) (JObj [])))))
         (rp_status response))
  else require (rp_json response) (JsError "Unexpected end of JSON input").

(** [SquareClient.obtainToken]: a code or a refresh token is exchanged. *)
Definition obtainToken (environment clientId clientSecret : string) (redirectUri code refreshToken : option string)
    : handler SquareTokenResponse :=
  let body :=
    if truthy code
    then [("client_id", Some clientId); ("client_secret", Some clientSecret); ("code", code);
          ("grant_type", Some "authorization_code"); ("redirect_uri", redirectUri)]
    else [("client_id", Some clientId); ("client_secret", Some clientSecret);
          ("refresh_token", refreshToken); ("grant_type", Some "refresh_token")] in
  let* response := ask (fetchToken (apiBase environment +:+ "/oauth2/token") body) in
  let* response := lift_result response in
  if negb (or_ok response)
  then Throw (SquareApiError
         (error_message "Square OAuth" (or_status response) (error_detail (or_errors response)))
         (or_status response))
  else Ret (or_tokens response).

Definition listLocations (c : Client) : handler (list json) :=
  let* result := request c "/v2/locations" [] JNull in
  Ret (array_value (field result "locations")).

(** [do { ...; cursor = page.cursor } while (cursor)] *)
Fixpoint pages (fuel : nat) (page : option string -> handler json) (key : string)
    (acc : list json) (cursor : option string) : handler (list json) :=
  match fuel with
  | O => Throw (JsError "out of fuel")
  | S fuel' =>
      let* result := page cursor in
      let acc := acc ++ array_value (field result key) in
      let cursor := string_value (field result "cursor") in
      if truthy cursor then pages fuel' page key acc cursor else Ret acc
  end.

Definition cursor_param (cursor : option string) : list (string * string) :=
  match cursor with Some c => if c ==? "" then [] else [("cursor", c)] | None => [] end.

(** The request is widened by a day on both sides. *)
Definition payments_page (c : Client) (locationId : string) (period : DateRange) (cursor : option string)
    : handler json :=
  match parseDate (startDate period), parseDate (endDate period) with
  | Some b, Some e =>
      request c "/v2/payments"
        ([("begin_time", toISOString (b - 86400000)); ("end_time", toISOString (e + 86399999 + 86400000));
          ("location_id", locationId); ("sort_order", "ASC"); ("limit", "100")] ++ cursor_param cursor) JNull
  | _, _ => Throw (JsError "Invalid time value")
  end.

(** [for (index = 0; index < length; index += 100) slice(index, index + 100)] *)
Fixpoint chunks (fuel : nat) (l : list string) : list (list string) :=
  match fuel, l with
  | S fuel', _ :: _ => take 100 l :: chunks fuel' (drop 100 l)
  | _, _ => []
  end.

Definition missing_tip_orders (payments : list json) : list string :=
  omap (fun p => if js_truthy (field p "tip_money") then None else string_value (field p "order_id")) payments.

Definition add_order (orderTips : list (string * number)) (order : json) : list (string * number) :=
  let money := field order "total_tip_money" in
  match string_value (field order "id") with
  | Some i => if money_currency money ==? Some "USD" then map_set orderTips i (money_amount money) else orderTips
  | None => orderTips
  end.

Definition retrieve_orders (c : Client) (locationId : string) (orderTips : list (string * number))
    (orderIds : list string) : handler (list (string * number)) :=
  let* result := request c "/v2/orders/batch-retrieve" []
    (JObj [("location_id", JStr locationId); ("order_ids", JArr (map JStr orderIds))]) in
  Ret (fold_left add_order (array_value (field result "orders")) orderTips).

Definition payment_status (status : string) : PaymentStatus.t :=
  if status ==? "COMPLETED" then PaymentStatus.COMPLETED
  else if (status ==? "CANCELED") || (status ==? "FAILED") then PaymentStatus.CANCELED
  else PaymentStatus.PENDING.

Definition refund_status (refunded total : number) : RefundStatus.t :=
  if num_leb refunded (num_of_Z 0) then RefundStatus.NONE
  else if num_ltb (num_of_Z 0) total && num_leb total refunded then RefundStatus.FULL
  else RefundStatus.PARTIAL.

(** The tip of a payment: its own, else the one of its order. *)
Definition tip_amount (orderTips : list (string * number)) (payment : json) : number :=
  let tipMoney := field payment "tip_money" in
  let orderId := string_value (field payment "order_id") in
  if js_truthy tipMoney then money_amount tipMoney
  else nullish (map_get orderTips (nullish orderId "")) (num_of_Z 0).

(** [tipMoney?.currency ?? (amount > 0 ? "USD" : undefined)] *)
Definition tip_currency (payment : json) (amount : number) : option string :=
  nullish2 (money_currency (field payment "tip_money")) (if num_ltb (num_of_Z 0) amount then Some "USD" else None).

(** The tip of one payment, if it has one in dollars on a day of the period. *)
Definition payment_tip (c : Client) (period : DateRange) (orderTips : list (string * number)) (payment : json)
    : result (list ProviderTipEvidence) :=
  let orderId := string_value (field payment "order_id") in
  let amount := tip_amount orderTips payment in
  let currency := tip_currency payment amount in
  if negb (js_truthy (field payment "id")) || negb (js_truthy (field payment "created_at"))
     || num_leb amount (num_of_Z 0) || (currency !=? Some "USD")
  then Ok []
  else
    try! day := business_date (nullish (field payment "created_at") JNull) (cl_timezone c) in
    let localBusinessDate := day.2 in
    if str_lt localBusinessDate (startDate period) || str_lt (endDate period) localBusinessDate then Ok []
    else
      let refunded := money_amount (field payment "refunded_money") in
      let total := money_amount (field payment "total_money") in
      let status := js_String (nullish (defined (field payment "status")) (JStr "PENDING")) in
      Ok [mkProviderTip "square" (js_String (nullish (field payment "id") JNull)) orderId TipType.CARD_TIP
            amount (payment_status status) (refund_status refunded total) localBusinessDate (hash payment)].

Definition fetchTipEvidence (fuel : nat) (c : Client) (locationId : string) (period : DateRange)
    : handler (list ProviderTipEvidence) :=
  let* payments := pages fuel (payments_page c locationId period) "payments" [] None in
  let missingTipOrderIds := missing_tip_orders payments in
  let* orderTips := fold_prog (chunks (length missingTipOrderIds) missingTipOrderIds) []
                      (retrieve_orders c locationId) in
  lift_result (flat_map_result (payment_tip c period orderTips) payments).

Definition timecards_page (c : Client) (locationId : string) (period : DateRange) (cursor : option string)
    : handler json :=
  request c "/v2/labor/timecards/search" []
    (JObj ([("query", JObj [("filter", JObj [("location_ids", JArr [JStr locationId]);
              ("workday", JObj [("date_range", JObj [("start_date", JStr (startDate period));
                                                    ("end_date", JStr (endDate period))]);
                                ("match_timecards_by", JStr "START_AT");
                                ("default_timezone", JStr (cl_timezone c))])])]);
            ("limit", JInt 200)]
           ++ map (fun kv => (kv.1, JStr kv.2)) (cursor_param cursor))).

Definition timecards (fuel : nat) (c : Client) (locationId : string) (period : DateRange) : handler (list json) :=
  pages fuel (timecards_page c locationId period) "timecards" [] None.

Definition is_open (timecard : json) : bool :=
  match field timecard "status" with Some x => js_String x ==? "OPEN" | None => false end.

(** [Math.max(0, Math.round((end - start) / 60_000))] *)
Definition worked_minutes (start : Z) (finish : option (option Z)) : option Z :=
  match finish with
  | None => Some 0
  | Some None => None
  | Some (Some t) => Some (Z.max 0 (IncomeService.num_round (num_div (num_of_Z (t - start)) (num_of_Z 60000))))
  end.

(** The shift of one timecard. *)
Definition timecard_shift (c : Client) (timecard : json) : result (list ProviderShiftEvidence) :=
  if negb (js_truthy (field timecard "id")) || negb (js_truthy (field timecard "team_member_id"))
     || negb (js_truthy (field timecard "start_at"))
  then Ok []
  else
    try! day := business_date (nullish (field timecard "start_at") JNull) (cl_timezone c) in
    let finish := if js_truthy (field timecard "end_at")
                  then Some (parseInstant (js_String (nullish (field timecard "end_at") JNull))) else None in
    let role := defined (field timecard "wage") ≫= fun wage => string_value (field wage "title") in
    Ok [mkProviderShift "square" (js_String (nullish (field timecard "id") JNull))
          (js_String (nullish (field timecard "team_member_id") JNull)) (nullish role "TEAM_MEMBER")
          day.1 finish (worked_minutes day.1 finish)
          (if is_open timecard then ShiftStatus.IN_PROGRESS else ShiftStatus.COMPLETED) day.2 (hash timecard)].

(** The declared cash tip of one timecard. *)
Definition timecard_tip (c : Client) (timecard : json) : result (list ProviderTipEvidence) :=
  let money := field timecard "declared_cash_tip_money" in
  let amount := money_amount money in
  if negb (js_truthy (field timecard "id")) || negb (js_truthy (field timecard "start_at"))
     || num_leb amount (num_of_Z 0) || (money_currency money !=? Some "USD")
  then Ok []
  else
    try! day := business_date (nullish (field timecard "start_at") JNull) (cl_timezone c) in
    Ok [mkProviderTip "square" ("timecard:" +:+ js_String (nullish (field timecard "id") JNull)) None
          TipType.CASH_TIP amount
          (if is_open timecard then PaymentStatus.PENDING else PaymentStatus.COMPLETED)
          RefundStatus.NONE day.2 (hash timecard)].

(** [tokens.expires_at ? new Date(tokens.expires_at) : null] given to a column *)
Definition token_expiry (tokens : SquareTokenResponse) : result (option Z) :=
  if truthy (tk_expires_at tokens)
  then match parseInstant (nullish (tk_expires_at tokens) "") with Some t => Ok (Some t) | None => Err refused end
  else Ok None.

(** The three fetches of a synchronization on one client: the timecards are
    requested once and cached. *)
Definition fetchEvidence (fuel : nat) (c : Client) (locationId : string) (period : DateRange)
    : handler (list ProviderTipEvidence * list ProviderTipEvidence * list ProviderShiftEvidence) :=
  let* cardTips := fetchTipEvidence fuel c locationId period in
  let* cards := timecards fuel c locationId period in
  let* cashTips := lift_result (flat_map_result (timecard_tip c) cards) in
  let* shifts := lift_result (flat_map_result (timecard_shift c) cards) in
  Ret (cardTips, cashTips, shifts).

Record ProviderHealth := mkHealth {
  ph_ok : bool; ph_provider : string; ph_latencyMs : Z; ph_error : option string
}.

Definition healthCheck (c : Client) : handler ProviderHealth :=
  let* started := newDate in
  catch
    (do* listLocations c in
     let* t := newDate in
     Ret (mkHealth true "square" (t - started) None))
    (fun error =>
     let* t := newDate in
     Ret (mkHealth false "square" (t - started) (Some (exn_message error)))).
End client.

(* ------------------------------------------------------------------ *)
(** ** Enough fuel *)

Section paging.
Context (page : option string -> handler json) (key : string).

(** The server's pages from a cursor on: their items, the state after them and
    their number. *)
Inductive page_chain : option string -> World -> list json -> World -> nat -> Prop :=
| chain_last cursor w result w' :
    run (page cursor) w = (w', Ok result) -> truthy (string_value (field result "cursor")) = false ->
    page_chain cursor w (array_value (field result key)) w' 1
| chain_more cursor w result w1 items w' n :
    run (page cursor) w = (w1, Ok result) -> truthy (string_value (field result "cursor")) = true ->
    page_chain (string_value (field result "cursor")) w1 items w' n ->
    page_chain cursor w (array_value (field result key) ++ items) w' (S n).

(** The fuel of [pages] is enough when it is at least the number of the server's
    pages, and the result is then the same. *)
Lemma pages_complete fuel acc cursor w w' l :
  run (pages fuel page key acc cursor) w = (w', Ok l) <->
  exists items n, page_chain cursor w items w' n /\ (n <= fuel)%nat /\ l = acc ++ items.
Proof.
  split.
  - revert acc cursor w. induction fuel as [|fuel IH]; intros acc cursor w E; [done|].
    cbn [pages] in E. rewrite run_bind in E. destruct (run (page cursor) w) as [w1 [r|e]] eqn:E1; [|done].
    destruct (truthy (string_value (field r "cursor"))) eqn:Et.
    + apply IH in E as (items & n & Hc & Hn & ->). eexists _, (S n). split; [by eapply chain_more|].
      split; [lia|]. by rewrite <- app_assoc.
    + injection E as <- <-. eexists _, 1%nat. split; [by eapply chain_last|]. split; [lia|done].
  - intros (items & n & Hc & Hn & ->). revert acc fuel Hn.
    induction Hc as [cursor w r w' E1 Et|cursor w r w1 items w' n E1 Et Hc IH]; intros acc [|fuel] Hn; try lia;
      cbn [pages]; rewrite run_bind, E1, Et; [done|].
    rewrite (IH _ fuel) by lia. by rewrite <- app_assoc.
Qed.
End paging.

(* ------------------------------------------------------------------ *)
(** ** What the fetched evidence is *)

(** A positive amount, or NaN: the code refuses [amount <= 0], which NaN is
    not.  (The column of the amount refuses NaN, see SquareSync.v.) *)
Definition amount_ok (x : number) : Prop := num_ltb (num_of_Z 0) x = true \/ x = S754_nan.

Lemma num_leb_amount x : num_leb x (num_of_Z 0) = false -> amount_ok x.
Proof. unfold amount_ok. destruct x as [s|[]| |[] m e]; cbn; auto; done. Qed.

Section evidence.
Context `{Platform} `{Square}.

(** What one item yields, over a list of items. *)
Lemma flat_map_result_Forall2 {A B} (p : A -> bool) (R : A -> B -> Prop) (f : A -> result (list B)) l ys :
  (forall x zs, f x = Ok zs -> if p x then exists z, zs = [z] /\ R x z else zs = []) ->
  flat_map_result f l = Ok ys -> Forall2 R (List.filter p l) ys.
Proof.
  intros Hf. revert ys. induction l as [|x l IH]; intros ys; cbn; [by intros [= <-]|].
  destruct (f x) as [zs|] eqn:Ex; [|done]. cbn. destruct (flat_map_result f l) as [us|]; [|done]. cbn.
  intros [= <-]. specialize (Hf x zs Ex). destruct (p x).
  - destruct Hf as (z & -> & Hr). constructor; [exact Hr|by apply IH].
  - subst zs. by apply IH.
Qed.

Lemma flat_map_result_Forall {A B} (P : B -> Prop) (f : A -> result (list B)) l ys :
  (forall x zs, f x = Ok zs -> Forall P zs) -> flat_map_result f l = Ok ys -> Forall P ys.
Proof.
  intros Hf. revert ys. induction l as [|x l IH]; intros ys; cbn; [by intros [= <-]|].
  destruct (f x) as [zs|] eqn:Ex; [|done]. cbn. destruct (flat_map_result f l) as [us|]; [|done]. cbn.
  intros [= <-]. apply Forall_app. split; [by apply (Hf x)|by apply IH].
Qed.

(** [x] is the instant [t], on the business day [day] of the client's zone. *)
Definition dated (c : Client) (x : option json) (t : Z) (day : string) : Prop :=
  parseInstant (js_String (nullish x JNull)) = Some t /\
  day = AllocationEngine.businessDateInTimezone t (cl_timezone c).

Definition in_period (period : DateRange) (day : string) : bool :=
  negb (str_lt day (startDate period)) && negb (str_lt (endDate period) day).

(** A payment with a tip above zero, in dollars or of an order, on a day of the
    period. *)
Definition card_due (c : Client) (period : DateRange) (orderTips : list (string * number)) (payment : json) : bool :=
  js_truthy (field payment "id") && js_truthy (field payment "created_at")
  && negb (num_leb (tip_amount orderTips payment) (num_of_Z 0))
  && (tip_currency payment (tip_amount orderTips payment) ==? Some "USD")
  && match business_date (nullish (field payment "created_at") JNull) (cl_timezone c) with
     | Ok day => in_period period day.2
     | Err _ => false
     end.

Definition card_tip_of (c : Client) (period : DateRange) (orderTips : list (string * number)) (payment : json)
    (t : ProviderTipEvidence) : Prop :=
  pt_provider t = "square" /\ pt_tipType t = TipType.CARD_TIP /\
  pt_externalPaymentId t = js_String (nullish (field payment "id") JNull) /\
  pt_grossAmountUsdCents t = tip_amount orderTips payment /\ amount_ok (pt_grossAmountUsdCents t) /\
  (exists at_, dated c (field payment "created_at") at_ (pt_businessDate t)) /\
  in_period period (pt_businessDate t) = true /\ pt_sourceHash t = hash payment.

(** A timecard with a declared cash tip above zero in dollars. *)
Definition cash_due (timecard : json) : bool :=
  let money := field timecard "declared_cash_tip_money" in
  js_truthy (field timecard "id") && js_truthy (field timecard "start_at")
  && negb (num_leb (money_amount money) (num_of_Z 0)) && (money_currency money ==? Some "USD").

Definition cash_tip_of (c : Client) (timecard : json) (t : ProviderTipEvidence) : Prop :=
  pt_provider t = "square" /\ pt_tipType t = TipType.CASH_TIP /\
  pt_externalPaymentId t = "timecard:" +:+ js_String (nullish (field timecard "id") JNull) /\
  pt_grossAmountUsdCents t = money_amount (field timecard "declared_cash_tip_money") /\
  amount_ok (pt_grossAmountUsdCents t) /\ pt_refundStatus t = RefundStatus.NONE /\
  (exists at_, dated c (field timecard "start_at") at_ (pt_businessDate t)) /\ pt_sourceHash t = hash timecard.

(** A timecard of a team member with a start. *)
Definition shift_due (timecard : json) : bool :=
  js_truthy (field timecard "id") && js_truthy (field timecard "team_member_id") && js_truthy (field timecard "start_at").

(** The nearest number of minutes, halves upwards, not below zero. *)
Definition minutes_between (start finish : Z) : Z := Z.max 0 ((2 * (finish - start) + 60000) / (2 * 60000)).

Definition shift_of (c : Client) (timecard : json) (s : ProviderShiftEvidence) : Prop :=
  ps_provider s = "square" /\
  ps_externalShiftId s = js_String (nullish (field timecard "id") JNull) /\
  ps_externalWorkerId s = js_String (nullish (field timecard "team_member_id") JNull) /\
  dated c (field timecard "start_at") (ps_clockIn s) (ps_businessDate s) /\
  ps_clockOut s = (if js_truthy (field timecard "end_at")
                   then Some (parseInstant (js_String (nullish (field timecard "end_at") JNull))) else None) /\
  (ps_shiftStatus s = ShiftStatus.IN_PROGRESS <-> is_open timecard = true) /\
  match ps_clockOut s with
  | None => ps_workedMinutes s = Some 0
  | Some None => ps_workedMinutes s = None
  | Some (Some t) => - 2 ^ 52 < t - ps_clockIn s < 2 ^ 52 -> ps_workedMinutes s = Some (minutes_between (ps_clockIn s) t)
  end /\ ps_sourceHash s = hash timecard.

Lemma worked_minutes_between start t :
  - 2 ^ 52 < t - start < 2 ^ 52 -> worked_minutes start (Some (Some t)) = Some (minutes_between start t).
Proof.
  intros Hd. unfold worked_minutes, minutes_between. f_equal. destruct (Z.le_gt_cases 0 (t - start)) as [Hle|Hn].
  - by rewrite IncomeService.num_round_div by lia.
  - pose proof (IncomeService.num_round_negative (t - start) 60000 ltac:(lia) ltac:(lia)).
    assert ((2 * (t - start) + 60000) / (2 * 60000) <= 0); [|lia].
    apply Z.lt_succ_r, Z.div_lt_upper_bound; lia.
Qed.

Lemma payment_tip_of c period orders x zs :
  payment_tip c period orders x = Ok zs ->
  if card_due c period orders x then exists t, zs = [t] /\ card_tip_of c period orders x t else zs = [].
Proof.
  unfold payment_tip, card_due, in_period. set (amount := tip_amount orders x). cbv zeta.
  destruct (js_truthy (field x "id")), (js_truthy (field x "created_at")); cbn [negb andb orb]; try by intros [= <-].
  destruct (num_leb amount (num_of_Z 0)) eqn:Ea; cbn [negb andb orb]; [by intros [= <-]|].
  destruct (decide (tip_currency x amount = Some "USD")) as [Ec|Ec]; [rewrite Ec, bd_refl|rewrite bool_decide_eq_false_2 by done];
    cbn [negb andb orb]; [|by intros [= <-]].
  unfold business_date. destruct (parseInstant _) as [at_|] eqn:Ep; cbn [rbind snd]; [|done].
  set (day := AllocationEngine.businessDateInTimezone at_ (cl_timezone c)).
  destruct (str_lt day _) eqn:E1; cbn [negb andb orb]; [by intros [= <-]|].
  destruct (str_lt _ day) eqn:E2; cbn [negb andb orb]; [by intros [= <-]|].
  intros [= <-]. eexists. split; [done|]. split_and!; try done; cbn.
  - by apply num_leb_amount.
  - by exists at_.
  - unfold in_period. by rewrite E1, E2.
Qed.

Lemma timecard_tip_of c x zs :
  timecard_tip c x = Ok zs ->
  if cash_due x then exists t, zs = [t] /\ cash_tip_of c x t else zs = [].
Proof.
  unfold timecard_tip, cash_due. cbv zeta. set (money := field x "declared_cash_tip_money").
  destruct (js_truthy (field x "id")), (js_truthy (field x "start_at")); cbn [negb andb orb]; try by intros [= <-].
  destruct (num_leb _ (num_of_Z 0)) eqn:Ea; cbn [negb andb orb]; [by intros [= <-]|].
  destruct (decide (money_currency money = Some "USD")) as [Ec|Ec]; [rewrite Ec, bd_refl|rewrite bool_decide_eq_false_2 by done];
    cbn [negb andb orb]; [|by intros [= <-]].
  unfold business_date. destruct (parseInstant _) as [at_|] eqn:Ep; cbn [rbind snd]; [|done].
  intros [= <-]. eexists. split; [done|]. split_and!; try done; cbn.
  - by apply num_leb_amount.
  - by exists at_.
Qed.

(** The amounts of the tips. *)
Lemma payment_tip_amounts c period orders x zs :
  payment_tip c period orders x = Ok zs -> Forall (fun t => amount_ok (pt_grossAmountUsdCents t)) zs.
Proof.
  intros E%payment_tip_of. destruct (card_due _ _ _ _); [|by subst].
  destruct E as (t & -> & Ht). apply Forall_singleton. apply Ht.
Qed.
Lemma timecard_tip_amounts c x zs :
  timecard_tip c x = Ok zs -> Forall (fun t => amount_ok (pt_grossAmountUsdCents t)) zs.
Proof.
  intros E%timecard_tip_of. destruct (cash_due _); [|by subst].
  destruct E as (t & -> & Ht). apply Forall_singleton. apply Ht.
Qed.

Lemma timecard_shift_of c x zs :
  timecard_shift c x = Ok zs ->
  if shift_due x then exists s, zs = [s] /\ shift_of c x s else zs = [].
Proof.
  unfold timecard_shift, shift_due.
  destruct (js_truthy (field x "id")), (js_truthy (field x "team_member_id")), (js_truthy (field x "start_at"));
    cbn [negb andb orb]; try by intros [= <-].
  unfold business_date. destruct (parseInstant (js_String (nullish (field x "start_at") JNull))) as [t|] eqn:Ep;
    cbn [rbind fst snd]; [|done].
  intros [= <-]. eexists. split; [done|]. split_and!; try done; cbn [ps_shiftStatus ps_clockOut ps_workedMinutes ps_clockIn].
  - by destruct (is_open x).
  - destruct (js_truthy (field x "end_at")); [|done].
    destruct (parseInstant (js_String (nullish (field x "end_at") JNull))) as [e|]; [|done].
    apply worked_minutes_between.
Qed.

End evidence.

(** The demonstration platform in UTC. *)
Definition utc_platform : Platform := {|
  now t := 1000 * Z.of_nat t;
  uuid t := "id" +:+ str_of_Z (Z.of_nat t);
  randomToken t := "token" +:+ str_of_Z (Z.of_nat t);
  randomCode t := 100000 + Z.of_nat t;
  sha256 s := "#" +:+ s;
  hmacSha256 k s := k +:+ "#" +:+ s;
  stringify := show_json;
  localeLt := str_lt;
  intlDate ms _ := String.substring 0 10 (toISOString ms)
|}.

Definition demo_client : Client := mkClient "access" "sandbox" "UTC".


(** With one unit of fuel the second page is not reached. *)
Example pages_fuel_ex :
  (run (@fetchEvidence utc_platform demo_square 1 demo_client "L1" (mkRange "1970-01-01" "1970-01-01")) empty_world).2
  = Err (JsError "out of fuel").
Proof. vm_compute. reflexivity. Qed.
End SquareClient.
