(* ===== verification/Providers.v ===== *)
(** * Provider connections

    apps/api/src/providers (service and controller): the OAuth connection of a
    venue to Square, synchronization requests and health.  Environment
    variables are the interface [SquareEnvironment]; the queue is an effect. *)

From stdpp Require Import relations.
From S2P Require Import Prelude Concurrency Strings Schema Demo Access Square.
Import AccessService TokenCrypto SquareClient.

Open Scope Z_scope.

Class SquareEnvironment := {
  SQUARE_APP_ID : option string;
  SQUARE_APP_SECRET : option string;
  SQUARE_REDIRECT_URI : option string;
  PROVIDER_ENCRYPTION_KEY : option string;
  AUTH_SECRET : option string;
  SQUARE_ENVIRONMENT : option string
}.

Module ProvidersService.

Record Config := mkConfig {
  cf_appId : string; cf_appSecret : string; cf_redirectUri : string;
  cf_encryptionSecret : string; cf_environment : string
}.

Definition of_provider (venueId provider : string) (c : ProviderConnection) : bool :=
  (connection_venueId c ==? venueId) && (connection_provider c ==? provider).

(** [["CONNECTED", "ERROR"]] *)
Definition connected_statuses : list ConnectionStatus.t := [ConnectionStatus.CONNECTED; ConnectionStatus.ERROR].

(** [location.id] and [location.status] *)
Definition location_id (l : json) : option string := string_value (field l "id").
Definition location_active (l : json) : bool := string_value (field l "status") ==? Some "ACTIVE".

(** The location asked for, or the first active one, or the first. *)
Definition select_location (wanted : option string) (locations : list json) : option json :=
  if truthy wanted then List.find (fun l => location_id l ==? wanted) locations
  else nullish2 (List.find location_active locations) (head locations).

Record CallbackInput := mkCallback {
  cb_state : option string; cb_code : option string; cb_error : option string;
  cb_errorDescription : option string
}.

Record Connected := mkConnected {
  co_venueId : string; co_merchantId : string; co_location : json
}.

Record HealthView := mkHealthView {
  hv_probe : ProviderHealth;
  hv_connectionStatus : ConnectionStatus.t;
  hv_lastSyncSucceededAt : option Z;
  hv_lastSyncFailedAt : option Z;
  hv_consecutiveFailures : Z;
  hv_stale : bool
}.

(** A connection with its venue. *)
Definition with_venue (w : World) (c : option ProviderConnection) : option (ProviderConnection * Venue) :=
  c ← c; v ← List.find (by_id (connection_venueId c)) (w_venues w); Some (c, v).

Section service.
Context `{Platform} `{Square} `{Cipher} `{SquareEnvironment}.

Definition stateHash (state : string) : string := sha256 state.

Definition environment_name : string :=
  if SQUARE_ENVIRONMENT ==? Some "production" then "production" else "sandbox".

Definition config : result Config :=
  let encryptionSecret := nullish2 PROVIDER_ENCRYPTION_KEY AUTH_SECRET in
  if negb (truthy SQUARE_APP_ID) || negb (truthy SQUARE_APP_SECRET) || negb (truthy SQUARE_REDIRECT_URI)
     || negb (truthy encryptionSecret)
  then Err (ServiceUnavailableException "Square OAuth or provider encryption is not configured")
  else Ok (mkConfig (nullish SQUARE_APP_ID "") (nullish SQUARE_APP_SECRET "") (nullish SQUARE_REDIRECT_URI "")
             (nullish encryptionSecret "") environment_name).

(** The [update] of a new authorization: an absent location keeps the old one. *)
Definition reauthorized (environment : string) (locationId : option string) (hash : string) (expires : Z)
    (c : ProviderConnection) : ProviderConnection :=
  c <| connection_environment := environment |> <| connection_status := ConnectionStatus.PENDING |>
    <| connection_locationId ::= fun old => nullish2 locationId old |>
    <| connection_oauthStateHash := Some hash |> <| connection_oauthStateExpiresAt := Some expires |>
    <| connection_lastError := None |>.

Definition new_connection (id venueId environment : string) (locationId : option string) (hash : string)
    (expires : Z) : ProviderConnection :=
  mkProviderConnection id venueId "square" environment ConnectionStatus.PENDING None locationId None None None
    (Some hash) (Some expires) None None None None 0.

Definition createSquareAuthorization (venueId : string) (locationId : option string)
    : handler (string * list (string * string)) :=
  let* config := lift_result config in
  let* state := ask randomToken in
  let* t1 := newDate in
  let* t2 := newDate in
  let* i := freshId in
  do* upsert (of_provider venueId "square")
        (reauthorized (cf_environment config) locationId (stateHash state) (t1 + 600000))
        (new_connection i venueId (cf_environment config) locationId (stateHash state) (t2 + 600000)) in
  Ret (squareAuthorizationUrl (cf_environment config) (cf_appId config) (cf_redirectUri config) state).

(** The connection an authorization state belongs to, while it is valid. *)
Definition pending_for (hash : string) (now_ : Z) (c : ProviderConnection) : bool :=
  (connection_provider c ==? "square") && (connection_oauthStateHash c ==? Some hash)
  && match connection_oauthStateExpiresAt c with Some t => now_ <? t | None => false end.

Definition has_state (id hash : string) (c : ProviderConnection) : bool :=
  by_id id c && (connection_oauthStateHash c ==? Some hash).

(** The update of the connection when the authorization completes. *)
Definition completed (tokens : SquareTokenResponse) (locationId : option string) (access : string)
    (refresh : option string) (expires : option Z) (c : ProviderConnection) : ProviderConnection :=
  c <| connection_status := ConnectionStatus.CONNECTED |>
    <| connection_merchantId := Some (tk_merchant_id tokens) |> <| connection_locationId ::= fun old => nullish2 locationId old |>
    <| connection_encryptedAccessToken := Some access |> <| connection_encryptedRefreshToken := refresh |>
    <| connection_tokenExpiresAt := expires |> <| connection_lastError := None |>
    <| connection_consecutiveFailures := 0 |>.

(** [{ ...externalIds, square: id }] as JSON: an absent id drops the key. *)
Definition with_square (externalIds : list (string * string)) (id : option string) : list (string * string) :=
  match id with
  | Some i => map_set externalIds "square" i
  | None => List.filter (fun kv => kv.1 !=? "square") externalIds
  end.

(** [refresh_token ? encrypt(refresh_token) : old] *)
Definition sealed_refresh (tokens : SquareTokenResponse) (old : option string) (secret : string)
    : handler (option string) :=
  if truthy (tk_refresh_token tokens)
  then let* e := encryptProviderToken (nullish (tk_refresh_token tokens) "") secret in Ret (Some e)
  else Ret old.

Definition completeSquareAuthorization (input : CallbackInput) : handler Connected :=
  do* throw_if (negb (truthy (cb_state input))) (BadRequestException "Missing OAuth state") in
  let hash := stateHash (nullish (cb_state input) "") in
  let* t := newDate in
  let* row := query (fun w => with_venue w (List.find (pending_for hash t) (w_connections w))) in
  let* ' (connection, venue) := require row (BadRequestException "OAuth state is invalid or expired") in
  let* consumed := updateMany (has_state (connection_id connection) hash)
    (fun c => c <| connection_oauthStateHash := None |> <| connection_oauthStateExpiresAt := None |>) in
  do* throw_if (negb (consumed =? 1)%nat) (BadRequestException "OAuth state was already used") in
  do* (if truthy (cb_error input)
       then do* update (R:=ProviderConnection) (connection_id connection)
                  (fun c => c <| connection_status := ConnectionStatus.ERROR |>
                              <| connection_lastError := cb_error input |>) in
            Throw (BadRequestException (nullish (nullish2 (cb_errorDescription input) (cb_error input)) ""))
       else Ret tt) in
  do* throw_if (negb (truthy (cb_code input))) (BadRequestException "Missing OAuth authorization code") in
  let* config := lift_result config in
  let* tokens := obtainToken (cf_environment config) (cf_appId config) (cf_appSecret config)
                   (Some (cf_redirectUri config)) (cb_code input) None in
  let client := mkClient (tk_access_token tokens) (cf_environment config) (venue_timezone venue) in
  let* locations := listLocations client in
  let* selected := require (select_location (connection_locationId connection) locations)
                     (BadRequestException "Square seller has no accessible location") in
  let* access := encryptProviderToken (tk_access_token tokens) (cf_encryptionSecret config) in
  let* refresh := sealed_refresh tokens (connection_encryptedRefreshToken connection) (cf_encryptionSecret config) in
  do* transaction (
    let* expires := lift_result (token_expiry tokens) in
    do* update (connection_id connection)
          (completed tokens (location_id selected) access refresh expires) in
    do* update (R:=Venue) (connection_venueId connection)
          (fun v => v <| venue_externalIds := with_square (venue_externalIds venue) (location_id selected) |>) in
    Ret tt) in
  Ret (mkConnected (connection_venueId connection) (tk_merchant_id tokens) selected).

Definition enqueueSync (venueId startDate endDate : string) : handler string :=
  let* connection := findFirst (of_provider venueId "square") in
  let missing := NotFoundException "Connected Square provider not found for venue" in
  let* connection := require connection missing in
  do* throw_if (negb (includes connected_statuses (connection_status connection))) missing in
  do* emit (Enqueue "provider-sync"
              (JObj [("venueId", JStr venueId); ("provider", JStr "square");
                     ("startDate", JStr startDate); ("endDate", JStr endDate)])) in
  freshId.

Definition health (provider venueId : string) : handler HealthView :=
  do* throw_if (provider !=? "square") (NotFoundException ("Provider " +:+ provider +:+ " is not supported")) in
  let* row := query (fun w => with_venue w (List.find (of_provider venueId provider) (w_connections w))) in
  let missing := NotFoundException "Connected Square provider not found for venue" in
  let* ' (connection, venue) := require row missing in
  do* throw_if (negb (truthy (connection_encryptedAccessToken connection))) missing in
  let* config := lift_result config in
  let* token := lift_result (decryptProviderToken (nullish (connection_encryptedAccessToken connection) "")
                               (cf_encryptionSecret config)) in
  let* probe := healthCheck (mkClient token (cf_environment config) (venue_timezone venue)) in
  let* t := newDate in
  Ret (mkHealthView probe (connection_status connection) (connection_lastSyncSucceededAt connection)
         (connection_lastSyncFailedAt connection) (connection_consecutiveFailures connection)
         match connection_lastSyncSucceededAt connection with
         | None => true
         | Some s => 86400000 <? t - s
         end).

(** *** The controller *)

Definition post_connect (user venueId : string) (locationId : option string)
    : handler (string * list (string * string)) :=
  do* assertVenueRole user venueId VENUE_MANAGE_ROLES in
  createSquareAuthorization venueId locationId.

Definition get_callback (input : CallbackInput) : handler Connected := completeSquareAuthorization input.

Definition get_health (user provider venueId : string) : handler HealthView :=
  do* assertVenueRole user venueId VENUE_READ_ROLES in
  health provider venueId.

Definition post_sync (user venueId startDate endDate : string) : handler string :=
  do* assertVenueRole user venueId VENUE_MANAGE_ROLES in
  enqueueSync venueId startDate endDate.
End service.

(* ------------------------------------------------------------------ *)
(** ** An authorization state is used once *)

(** Requests to the provider endpoints. *)
Inductive provider_request :=
| Connect (user venueId : string) (locationId : option string)
| Callback (input : CallbackInput)
| Health (user provider venueId : string)
| Sync (user venueId startDate endDate : string).

(** The connections an authorization state would complete. *)
Definition awaits (hash : string) (c : ProviderConnection) : bool := connection_oauthStateHash c ==? Some hash.
Definition awaiting (hash : string) (w : World) : nat := length (List.filter (awaits hash) (w_connections w)).

Definition fewer_awaiting (hash : string) (w w' : World) : Prop := (awaiting hash w' <= awaiting hash w)%nat.

#[export] Instance fewer_awaiting_preorder hash : PreOrder (fewer_awaiting hash).
Proof. split; unfold fewer_awaiting; [intros w; lia|intros w1 w2 w3; lia]. Qed.

Section oauth.
Context `{Platform} `{Square} `{Cipher} `{SquareEnvironment}.

Definition serve (r : provider_request) : handler unit :=
  match r with
  | Connect user venueId locationId => do* post_connect user venueId locationId in Ret tt
  | Callback input => do* get_callback input in Ret tt
  | Health user provider venueId => do* get_health user provider venueId in Ret tt
  | Sync user venueId startDate endDate => do* post_sync user venueId startDate endDate in Ret tt
  end.

(** The request is a callback with a state of this hash. *)
Definition presents (hash : string) (r : provider_request) : bool :=
  match r with Callback input => stateHash (nullish (cb_state input) "") ==? hash | _ => false end.

Definition same_connections : World -> World -> Prop := same_on w_connections.
#[local] Instance same_connections_preorder : PreOrder same_connections := same_on_preorder _.

Lemma same_connections_fewer {A} hash (p : handler A) : guar same_connections p -> guar (fewer_awaiting hash) p.
Proof. apply guar_mono. unfold fewer_awaiting, awaiting. intros w w' E. by rewrite E. Qed.

(** An update of a connection that sets no state. *)
Lemma update_fewer hash i f :
  (forall c, awaits hash (f c) = true -> awaits hash c = true) ->
  guar (fewer_awaiting hash) (update (R:=ProviderConnection) i f).
Proof.
  intros Hf. apply guar_act. intros w. unfold fewer_awaiting, awaiting.
  destruct (List.find _ _); cbn [fst]; [|lia]. wcbn. apply filter_upd_le. auto.
Qed.

Lemma request_same c path q body : guar same_connections (request c path q body).
Proof. unfold request. guar_at same_connections. Qed.
Lemma listLocations_same c : guar same_connections (listLocations c).
Proof. unfold listLocations. apply guar_bind; [apply request_same|done]. Qed.
Lemma obtainToken_same e i s r c t : guar same_connections (obtainToken e i s r c t).
Proof. unfold obtainToken. guar_at same_connections. Qed.
Lemma assertVenueRole_same user venueId allowed : guar same_connections (assertVenueRole user venueId allowed).
Proof. unfold assertVenueRole. guar_at same_connections. Qed.
Lemma encrypt_same p s : guar same_connections (encryptProviderToken p s).
Proof. unfold encryptProviderToken. guar_at same_connections. Qed.
Lemma sealed_refresh_same tokens old secret : guar same_connections (sealed_refresh tokens old secret).
Proof. unfold sealed_refresh. repeat first [apply encrypt_same | guar_at same_connections]. Qed.
Lemma enqueueSync_same v s e : guar same_connections (enqueueSync v s e).
Proof. unfold enqueueSync. guar_at same_connections. Qed.
Lemma health_same p v : guar same_connections (health p v).
Proof.
  unfold health, healthCheck. repeat first [apply listLocations_same | guar_at same_connections].
Qed.

(** A drawn state belongs to no callback in flight. *)
Lemma connect_fewer hash user venueId locationId :
  (forall t, stateHash (randomToken t) <> hash) ->
  guar (fewer_awaiting hash) (post_connect user venueId locationId).
Proof.
  intros Hh. unfold post_connect, createSquareAuthorization.
  apply guar_bind; [apply same_connections_fewer, assertVenueRole_same|intros _].
  apply guar_bind; [apply same_connections_fewer; guar_at same_connections|intros c].
  intros w. split; [apply Nat.le_refl|]. cbn [snd bind].
  do 3 (apply guar_bind; [apply same_connections_fewer; guar_at same_connections|intros ?]).
  apply guar_bind; [|done]. apply guar_act. intros w1. unfold fewer_awaiting, awaiting.
  assert (Hf : forall c, connection_oauthStateHash c = Some (stateHash (randomToken (w_tick w))) ->
                         awaits hash c = false).
  { intros x E. unfold awaits. rewrite E. apply bool_decide_eq_false_2. intros [= E1]. exact (Hh _ E1). }
  destruct (List.find _ _); cbn [fst].
  - wcbn. apply filter_upd_le. intros x _ _. by rewrite Hf.
  - destruct (existsb _ _); cbn [fst]; [apply Nat.le_refl|]. wcbn. rewrite List.filter_app, length_app.
    cbn [List.filter]. rewrite Hf by done. cbn [length]. lia.
Qed.

(** One step of a proof that a handler sets no state. *)
Ltac fewer_step :=
  first [ apply update_fewer; by intros c Hc
        | apply same_connections_fewer;
          first [ apply obtainToken_same | apply listLocations_same | apply encrypt_same | apply sealed_refresh_same
                | apply assertVenueRole_same
                | (guar_at same_connections; fail) ] ].

(** A callback consumes a connection awaiting its state before it succeeds. *)
Lemma safe_callback hash input :
  safe (fun _ => True) (awaiting hash) 0 (serve (Callback input))
    (fun r t => presents hash (Callback input) = true -> is_ok r = true -> (1 <= t)%nat).
Proof.
  set (Q := fun r t => presents hash (Callback input) = true -> is_ok r = true -> (1 <= t)%nat).
  assert (Herr : forall t e, Q (Err e) t) by done.
  cbn [serve]. unfold get_callback, completeSquareAuthorization. apply safe_bind, safe_bind, safe_throw_if; [done|intros _].
  apply safe_bind. intros w0 _. split; [done|]. exists 0%nat. split; [done|]. cbn [bind snd].
  apply safe_bind, safe_query. intros w1 _. apply safe_bind, safe_require; [|done]. intros [connection venue] _.
  apply safe_bind, safe_updateMany. intros w2 _. split; [done|].
  exists (if presents hash (Callback input) then length (List.filter (has_state (connection_id connection)
       (stateHash (nullish (cb_state input) ""))) (rows w2)) else 0)%nat. split.
  { unfold awaiting. wcbn. destruct (presents hash (Callback input)) eqn:Ep.
    - cbn [presents] in Ep. apply bool_decide_eq_true in Ep as ->. rewrite filter_upd_claim; [lia|].
      intros c Hc. apply andb_true_iff in Hc as [_ Hc]. split; [exact Hc|done].
    - rewrite Nat.add_0_r, Nat.add_0_r. apply filter_upd_le. done. }
  apply safe_bind, safe_throw_if; [done|]. intros En. apply negb_false_iff, Nat.eqb_eq in En.
  apply (safe_guar _ _ (fewer_awaiting hash)); [by intros ? ? _| |].
  - repeat (cbv beta zeta; first [progress intros | fewer_step | guar_step_at (fewer_awaiting hash) | case_match]).
  - intros [x|e]; [|done]. intros Ep _. rewrite Ep, En. lia.
Qed.

(** Every request of the provider endpoints, while no new authorization draws
    the state. *)
Lemma safe_serve hash r :
  (forall t, stateHash (randomToken t) <> hash) ->
  safe (fun _ => True) (awaiting hash) 0 (serve r)
    (fun x t => presents hash r = true -> is_ok x = true -> (1 <= t)%nat).
Proof.
  intros Hh. destruct r as [user v l|input|user p v|user v s e]; [|apply safe_callback|..];
    apply (safe_guar _ _ (fewer_awaiting hash)); try (by intros ? ? _); try done; cbn [serve];
    (apply guar_bind; [|done]).
  - by apply connect_fewer.
  - unfold get_health. apply same_connections_fewer, guar_bind; [apply assertVenueRole_same|].
    intros _. apply health_same.
  - unfold post_sync. apply same_connections_fewer, guar_bind; [apply assertVenueRole_same|].
    intros _. apply enqueueSync_same.
Qed.

(** C28: however provider requests interleave (replayed and concurrent callbacks,
    new authorizations, health checks, sync requests), the callbacks that
    complete an authorization state are at most the connections that awaited
    it: one, when one connection did, so a state is used once. *)
Theorem oauth_state_single_use hash (requests : list provider_request) w c' :
  (forall t, stateHash (randomToken t) <> hash) ->
  rtc pool_step (w, map serve requests) c' ->
  (successes (map (presents hash) requests) c'.2 <= awaiting hash w)%nat.
Proof.
  intros Hh Hr. apply (pool_successes (fun _ => True) (awaiting hash) _ c' _ Hr); [done|].
  cbn [snd]. clear Hr. induction requests as [|r l IH]; constructor; [by apply safe_serve|exact IH].
Qed.
End oauth.

(* ------------------------------------------------------------------ *)
(** ** An example *)

Definition demo_square_environment : SquareEnvironment := {|
  SQUARE_APP_ID := Some "app"; SQUARE_APP_SECRET := Some "app-secret"; SQUARE_REDIRECT_URI := Some "https://cb";
  PROVIDER_ENCRYPTION_KEY := None; AUTH_SECRET := Some "0123456789abcdef"; SQUARE_ENVIRONMENT := None
|}.

(** A venue whose connection awaits the state "s". *)
Definition demo_pending : World :=
  empty_world <| w_venues := [mkVenue "v" "o" "V" "UTC" None None None []] |>
    <| w_connections := [new_connection "c" "v" "sandbox" None "#s" 600000] |>.

Definition demo_callback (code : option string) : provider_request := Callback (mkCallback (Some "s") code None None).
Definition demo_serve : provider_request -> handler unit :=
  @serve utc_platform demo_square demo_cipher demo_square_environment.

(** Two callbacks with the same state, their first reads interleaved. *)
Definition demo_callbacks : pool :=
  schedule (repeat 0%nat 2 ++ repeat 1%nat 20 ++ repeat 0%nat 20)
    (demo_pending, map demo_serve [demo_callback (Some "x"); demo_callback (Some "y")]).

(** The callback that consumes the state first completes it; the other finds it
    used. *)
Example callbacks_race :
  demo_callbacks.2 = [Throw (BadRequestException "OAuth state was already used"); Ret tt] /\
  map (fun c => (connection_status c, connection_locationId c, connection_encryptedRefreshToken c))
    (w_connections demo_callbacks.1)
  = [(ConnectionStatus.CONNECTED, Some "L1", Some ("v1.iv.tag." +:+ spell "refresh"))].
Proof. split; vm_compute; reflexivity. Qed.

Lemma oauth_state_single_use_witness :
  successes [true; true] demo_callbacks.2 = 1%nat /\
  (successes (map (presents "#s") [demo_callback (Some "x"); demo_callback (Some "y")]) demo_callbacks.2 <= 1)%nat.
Proof.
  split; [vm_compute; reflexivity|].
  apply (@oauth_state_single_use utc_platform demo_square demo_cipher demo_square_environment "#s"
           [demo_callback (Some "x"); demo_callback (Some "y")] demo_pending demo_callbacks).
  - intros t E. injection E as E. discriminate E.
  - apply schedule_sound.
Defined.
End ProvidersService.
