(* ===== verification/SquareSync.v ===== *)
(** * Square synchronization

    apps/worker/src/square-sync.service.ts and the dispatch of the provider
    queue in queue-runner.service.ts.  The venues of a scheduled run are
    synchronized one after the other here, and the three fetches of a
    synchronization too; the code starts them together and fails with the first
    failure. *)

From stdpp Require Import relations.
From S2P Require Import Prelude Concurrency Strings Schema Demo Float64 Money AllocationEngine Income Evidence Square Providers.
Import TokenCrypto SquareClient ProvidersService.

Open Scope Z_scope.

Module SquareSyncService.

Record ProviderSyncJob := mkJob { job_venueId : string; job_startDate : string; job_endDate : string }.

Record SyncConfig := mkSyncConfig {
  sc_appId : string; sc_appSecret : string; sc_encryptionSecret : string; sc_environment : string
}.

Record SyncSummary := mkSyncSummary {
  ss_tipsUpserted : nat; ss_shiftsUpserted : nat; ss_mappedShifts : nat; ss_unmappedShifts : nat
}.

(* ------------------------------------------------------------------ *)
(** ** Rows *)

Definition tip_cents (tip : ProviderTipEvidence) : Z :=
  nullish (EvidenceService.int_column (pt_grossAmountUsdCents tip)) 0.

Definition tip_key (venueId : string) (tip : ProviderTipEvidence) (t : TipEvidence) : bool :=
  (tip_venueId t ==? venueId) && (tip_provider t ==? pt_provider tip)
  && (tip_externalPaymentId t ==? pt_externalPaymentId tip) && (tip_tipType t ==? pt_tipType tip).

(** An absent order leaves the column as it is. *)
Definition tip_update (tip : ProviderTipEvidence) (t : TipEvidence) : TipEvidence :=
  mkTipEvidence (tip_id t) (tip_provider t) IngestSource.PROVIDER_API (tip_venueId t) (tip_externalPaymentId t)
    (nullish2 (pt_externalOrderId tip) (tip_externalOrderId t)) (tip_tipType t) (tip_cents tip)
    (pt_paymentStatus tip) (pt_refundStatus tip) (pt_businessDate tip) (pt_sourceHash tip)
    (tip_sourcePayoutRail t) (tip_sourcePayrollStatus t).

Definition tip_create (venueId i : string) (tip : ProviderTipEvidence) : TipEvidence :=
  mkTipEvidence i (pt_provider tip) IngestSource.PROVIDER_API venueId (pt_externalPaymentId tip)
    (pt_externalOrderId tip) (pt_tipType tip) (tip_cents tip) (pt_paymentStatus tip) (pt_refundStatus tip)
    (pt_businessDate tip) (pt_sourceHash tip) None None.

Definition shift_row_key (venueId : string) (shift : ProviderShiftEvidence) (s : ShiftEvidence) : bool :=
  (shift_venueId s ==? venueId) && (shift_provider s ==? ps_provider shift)
  && (shift_externalShiftId s ==? ps_externalShiftId shift).

(** The columns of a clock-out and of the minutes, when the database takes
    them. *)
Definition clock_out_column (shift : ProviderShiftEvidence) : option (option Z) :=
  match ps_clockOut shift with None => Some None | Some None => None | Some (Some t) => Some (Some t) end.

Definition minutes_column (shift : ProviderShiftEvidence) : option Z :=
  m ← ps_workedMinutes shift; if EvidenceService.int4 m then Some m else None.

Definition shift_update (mappedWorkerId : option string) (clockOut : option Z) (minutes : Z)
    (shift : ProviderShiftEvidence) (s : ShiftEvidence) : ShiftEvidence :=
  mkShiftEvidence (shift_id s) (ps_provider shift) IngestSource.PROVIDER_API (shift_venueId s)
    (ps_externalShiftId shift) (ps_externalWorkerId shift) mappedWorkerId (ps_role shift) (ps_clockIn shift)
    clockOut minutes (ps_shiftStatus shift) (ps_businessDate shift) (ps_sourceHash shift)
    (shift_sourcePayoutRail s) (shift_sourcePayrollStatus s).

Definition shift_create (venueId i : string) (mappedWorkerId clockOut : option _) (minutes : Z)
    (shift : ProviderShiftEvidence) : ShiftEvidence :=
  mkShiftEvidence i (ps_provider shift) IngestSource.PROVIDER_API venueId (ps_externalShiftId shift)
    (ps_externalWorkerId shift) mappedWorkerId (ps_role shift) (ps_clockIn shift) clockOut minutes
    (ps_shiftStatus shift) (ps_businessDate shift) (ps_sourceHash shift) None None.

(** [new Map(mappings.map((m) => [m.externalWorkerId, m.workerId]))] *)
Definition workerByExternalId (mappings : list ExternalWorkerAccount) : list (string * string) :=
  fold_left (fun m a => map_set m (account_externalWorkerId a) (account_workerId a)) mappings [].

Definition open_stale (venueId : string) (a : DiscrepancyAlert) : bool :=
  (alert_venueId a ==? venueId) && (alert_type a ==? DiscrepancyType.STALE_PROVIDER_DATA)
  && (alert_resolvedAt a ==? None).

(** The connections of a scheduled run. *)
Definition scheduled (c : ProviderConnection) : bool :=
  (connection_provider c ==? "square") && includes connected_statuses (connection_status c).

(** ... and those without a success since [cutoff]. *)
Definition stale (cutoff : Z) (c : ProviderConnection) : bool :=
  scheduled c && match connection_lastSyncSucceededAt c with None => true | Some t => t <? cutoff end.

(** The message a failure leaves on the connection. *)
Definition safe_message (error : exn) : string :=
  match error with
  | SquareApiError _ status => "Square API " +:+ str_of_Z status
  | _ => slice_to (exn_message error) 300
  end.

(** The columns of the connection after a failure and after a success. *)
Definition failed_data (t : Z) (error : exn) (c : ProviderConnection) : ProviderConnection :=
  c <| connection_status := ConnectionStatus.ERROR |> <| connection_lastSyncFailedAt := Some t |>
    <| connection_lastError := Some (safe_message error) |> <| connection_consecutiveFailures ::= Z.succ |>.

Definition succeeded_data (t : Z) (c : ProviderConnection) : ProviderConnection :=
  c <| connection_status := ConnectionStatus.CONNECTED |> <| connection_lastSyncSucceededAt := Some t |>
    <| connection_lastError := None |> <| connection_consecutiveFailures := 0 |>.

Definition refreshed_data (access : string) (refresh : option string) (expires : option Z)
    (c : ProviderConnection) : ProviderConnection :=
  c <| connection_encryptedAccessToken := Some access |> <| connection_encryptedRefreshToken := refresh |>
    <| connection_tokenExpiresAt := expires |> <| connection_status := ConnectionStatus.CONNECTED |>.

Definition unauthorized (error : exn) : bool :=
  match error with SquareApiError _ status => status =? 401 | _ => false end.

Section service.
Context `{Platform} `{Square} `{Cipher} `{SquareEnvironment}.

Definition config : result SyncConfig :=
  let encryptionSecret := nullish2 PROVIDER_ENCRYPTION_KEY AUTH_SECRET in
  if negb (truthy SQUARE_APP_ID) || negb (truthy SQUARE_APP_SECRET) || negb (truthy encryptionSecret)
  then Err (JsError "Square provider configuration is incomplete")
  else Ok (mkSyncConfig (nullish SQUARE_APP_ID "") (nullish SQUARE_APP_SECRET "") (nullish encryptionSecret "")
             environment_name).

(** [tokenExpiresAt.getTime() < Date.now() + 24 h], the clock read only when the
    column is set. *)
Definition expires_soon (c : ProviderConnection) : handler bool :=
  match connection_tokenExpiresAt c with
  | None => Ret false
  | Some t => let* now_ := newDate in Ret (t <? now_ + 86400000)
  end.

(** The new access token of a connection. *)
Definition refresh_token (config : SyncConfig) (c : ProviderConnection) : handler string :=
  let* refreshToken := lift_result (decryptProviderToken (nullish (connection_encryptedRefreshToken c) "")
                                      (sc_encryptionSecret config)) in
  let* tokens := obtainToken (sc_environment config) (sc_appId config) (sc_appSecret config) None None
                   (Some refreshToken) in
  let* access := encryptProviderToken (tk_access_token tokens) (sc_encryptionSecret config) in
  let* refresh := sealed_refresh tokens (connection_encryptedRefreshToken c) (sc_encryptionSecret config) in
  let* expires := lift_result (token_expiry tokens) in
  do* update (connection_id c) (refreshed_data access refresh expires) in
  Ret (tk_access_token tokens).

Definition client (c : ProviderConnection) (timezone : string) (forceRefresh : bool) : handler Client :=
  let* config := lift_result config in
  let* accessToken :=
    if truthy (connection_encryptedAccessToken c)
    then let* t := lift_result (decryptProviderToken (nullish (connection_encryptedAccessToken c) "")
                                  (sc_encryptionSecret config)) in Ret (Some t)
    else Ret None in
  let* shouldRefresh := if forceRefresh then Ret true else expires_soon c in
  let* accessToken :=
    if shouldRefresh && truthy (connection_encryptedRefreshToken c)
    then let* t := refresh_token config c in Ret (Some t)
    else Ret accessToken in
  do* throw_if (negb (truthy accessToken)) (JsError "Square access token is missing") in
  Ret (mkClient (nullish accessToken "") (sc_environment config) timezone).

Definition persist_tip (venueId : string) (n : nat) (tip : ProviderTipEvidence) : handler nat :=
  do* require (EvidenceService.int_column (pt_grossAmountUsdCents tip)) refused in
  let* i := freshId in
  do* upsert (tip_key venueId tip) (tip_update tip) (tip_create venueId i tip) in
  Ret (S n).

(** The counters (shifts, mappedShifts, unmappedShifts). *)
Definition persist_shift (venueId : string) (workers : list (string * string)) (n : nat * nat * nat)
    (shift : ProviderShiftEvidence) : handler (nat * nat * nat) :=
  let '(shiftsUpserted, mappedShifts, unmappedShifts) := n in
  let mappedWorkerId := map_get workers (ps_externalWorkerId shift) in
  let '(mappedShifts, unmappedShifts) :=
    if truthy mappedWorkerId then (S mappedShifts, unmappedShifts) else (mappedShifts, S unmappedShifts) in
  let* clockOut := require (clock_out_column shift) refused in
  let* minutes := require (minutes_column shift) refused in
  let* i := freshId in
  do* upsert (shift_row_key venueId shift) (shift_update mappedWorkerId clockOut minutes shift)
        (shift_create venueId i mappedWorkerId clockOut minutes shift) in
  Ret (S shiftsUpserted, mappedShifts, unmappedShifts).

Definition square_account (venueId : string) (a : ExternalWorkerAccount) : bool :=
  (account_venueId a ==? venueId) && (account_provider a ==? "square")
  && (account_mappingStatus a ==? MappingStatus.CONFIRMED).

Definition persist (venueId : string) (tips : list ProviderTipEvidence) (shifts : list ProviderShiftEvidence)
    : handler SyncSummary :=
  let* mappings := findMany (square_account venueId) in
  let workers := workerByExternalId mappings in
  let* tipsUpserted := fold_prog tips 0%nat (persist_tip venueId) in
  let* ' (shiftsUpserted, mappedShifts, unmappedShifts) :=
    fold_prog shifts (0, 0, 0)%nat (persist_shift venueId workers) in
  Ret (mkSyncSummary tipsUpserted shiftsUpserted mappedShifts unmappedShifts).

(** The evidence of a connection; an expired token is refreshed once. *)
Definition fetch_with_retry (fuel : nat) (connection : ProviderConnection) (timezone locationId : string)
    (range : DateRange)
    : handler (list ProviderTipEvidence * list ProviderTipEvidence * list ProviderShiftEvidence) :=
  let* c := client connection timezone false in
  catch (fetchEvidence fuel c locationId range)
    (fun error =>
       if negb (unauthorized error) || negb (truthy (connection_encryptedRefreshToken connection))
       then Throw error
       else
         let* c := client connection timezone true in
         fetchEvidence fuel c locationId range).

(** The [try] block. *)
Definition sync_body (fuel : nat) (input : ProviderSyncJob) (connection : ProviderConnection) (venue : Venue)
    : handler SyncSummary :=
  let locationId := nullish (connection_locationId connection) "" in
  let range := mkRange (job_startDate input) (job_endDate input) in
  let* ' (cardTips, cashTips, shifts) :=
    fetch_with_retry fuel connection (venue_timezone venue) locationId range in
  let* summary := persist (job_venueId input) (cardTips ++ cashTips) shifts in
  let* t1 := newDate in
  let* t2 := newDate in
  do* transaction (
    do* update (connection_id connection) (succeeded_data t1) in
    do* updateMany (open_stale (job_venueId input)) (fun a => a <| alert_resolvedAt := Some t2 |>) in
    Ret tt) in
  Ret summary.

(** The [catch] block. *)
Definition sync_failed (connection : ProviderConnection) (error : exn) : handler SyncSummary :=
  let* t := newDate in
  do* update (connection_id connection) (failed_data t error) in
  Throw error.

Definition sync (fuel : nat) (input : ProviderSyncJob) : handler SyncSummary :=
  let* row := query (fun w => with_venue w (List.find (of_provider (job_venueId input) "square") (w_connections w))) in
  let missing := JsError "Connected Square provider not found for venue" in
  let* ' (connection, venue) := require row missing in
  do* throw_if ((connection_status connection ==? ConnectionStatus.REVOKED)
                || negb (truthy (connection_locationId connection))) missing in
  let* t := newDate in
  do* update (connection_id connection) (fun c => c <| connection_lastSyncStartedAt := Some t |>) in
  catch (sync_body fuel input connection venue) (sync_failed connection).

(** Every venue is synchronized; the first failure is thrown. *)
Definition sync_one (fuel : nat) (yesterday today : string) (acc : result (list SyncSummary)) (venueId : string)
    : handler (result (list SyncSummary)) :=
  catch
    (let* s := sync fuel (mkJob venueId yesterday today) in
     Ret (try! l := acc in Ok (l ++ [s])))
    (fun error => Ret (try! l := acc in Err error)).

Definition syncConnectedVenues (fuel : nat) : handler (list SyncSummary) :=
  let* connections := findMany scheduled in
  let* t1 := newDate in
  let* t2 := newDate in
  let yesterday := slice_to (toISOString (t1 - 86400000)) 10 in
  let today := slice_to (toISOString t2) 10 in
  let* results := fold_prog (map connection_venueId connections) (Ok []) (sync_one fuel yesterday today) in
  lift_result results.

Definition stale_alert (id : string) (createdAt : Z) (c : ProviderConnection) : DiscrepancyAlert :=
  mkDiscrepancyAlert id None (connection_venueId c) None DiscrepancyType.STALE_PROVIDER_DATA
    (JObj [("provider", JStr "square");
           ("lastSuccessAt", match connection_lastSyncSucceededAt c with
                             | Some t => JStr (toISOString t) | None => JNull end)])
    None createdAt.

Definition flag_stale (connection : ProviderConnection) : handler unit :=
  let* existing := findFirst (open_stale (connection_venueId connection)) in
  match existing with
  | Some _ => Ret tt
  | None =>
      let* i := freshId in
      let* t := newDate in
      do* create (stale_alert i t connection) in
      Ret tt
  end.

Definition flagStaleConnections : handler nat :=
  let* t := newDate in
  let cutoff := t - 86400000 in
  let* stale := findMany (stale cutoff) in
  do* for_each stale flag_stale in
  Ret (length stale).
End service.

(* ------------------------------------------------------------------ *)
(** ** Health of a connection *)

(** What the fetches and the upserts of a synchronization leave as it is: the
    alerts, and of each connection these columns. *)
Definition health_columns (c : ProviderConnection) : string * Z * option Z :=
  (connection_id c, connection_consecutiveFailures c, connection_lastSyncSucceededAt c).

Definition same_health : World -> World -> Prop :=
  same_on (fun w => (map health_columns (w_connections w), w_alerts w)).
#[local] Instance same_health_preorder : PreOrder same_health := same_on_preorder _.

Lemma find_same_columns l l' i c :
  map health_columns l' = map health_columns l -> List.find (by_id i) l = Some c ->
  exists c', List.find (by_id i) l' = Some c' /\ health_columns c' = health_columns c.
Proof.
  revert l'. induction l as [|x l IH]; intros [|x' l'] E; try done. injection E as Ei Ef Es E.
  cbn [List.find]. unfold by_id at 1 3. cbn [row_id row_ProviderConnection]. rewrite Ei.
  destruct (connection_id x ==? i); [|by apply IH].
  intros [= <-]. exists x'. split; [done|]. unfold health_columns. congruence.
Qed.

Section health.
Context `{Platform} `{Square} `{Cipher} `{SquareEnvironment}.

(** Handlers that touch neither table. *)
Definition same_tables : World -> World -> Prop := same_on (fun w => (w_connections w, w_alerts w)).
#[local] Instance same_tables_preorder : PreOrder same_tables := same_on_preorder _.

Lemma same_tables_health {A} (p : handler A) : guar same_tables p -> guar same_health p.
Proof. apply guar_mono. unfold same_tables, same_health, same_on. intros w w' [= -> ->]. done. Qed.

Lemma update_same_health i f :
  (forall c, health_columns (f c) = health_columns c) -> guar same_health (update (R:=ProviderConnection) i f).
Proof.
  intros Hf. apply guar_act. intros w. destruct (List.find _ _); [|done]. unfold same_health, same_on. cbn [fst].
  wcbn. f_equal. unfold upd_where. rewrite map_map. apply map_ext. intros c. by destruct (by_id i c).
Qed.

(** The fetches change neither these tables nor the evidence. *)
Definition same_data : World -> World -> Prop :=
  same_on (fun w => (w_connections w, w_alerts w, w_tips w, w_shifts w, w_accounts w)).
#[local] Instance same_data_preorder : PreOrder same_data := same_on_preorder _.

Lemma fetchEvidence_same fuel c l r : guar same_data (fetchEvidence fuel c l r).
Proof.
  unfold fetchEvidence, fetchTipEvidence, timecards.
  assert (Hp : forall n page key acc cursor, (forall x, guar same_data (page x)) ->
            guar same_data (pages n page key acc cursor)).
  { intros n page key acc cursor Hpage. revert acc cursor.
    induction n as [|n IH]; intros acc cursor; cbn [pages]; [done|].
    apply guar_bind; [apply Hpage|]. intros x. destruct (truthy _); [apply IH|done]. }
  assert (Hr : forall path q body, guar same_data (request c path q body))
    by (intros; unfold request; guar_at same_data).
  repeat (cbv beta zeta; first [progress intros | apply Hp | apply Hr | guar_step_at same_data
    | unfold payments_page, timecards_page, retrieve_orders; progress (repeat case_match) | done]).
Qed.

Lemma client_same_health c tz b : guar same_health (client c tz b).
Proof.
  unfold client, refresh_token, expires_soon, obtainToken, encryptProviderToken, sealed_refresh.
  repeat (cbv beta zeta; first [progress intros | done | apply update_same_health; by intros
    | guar_step_at same_health | case_match | unfold encryptProviderToken]).
Qed.

Lemma persist_same venueId tips shifts : guar same_tables (persist venueId tips shifts).
Proof. unfold persist, persist_tip, persist_shift. guar_at same_tables. Qed.

Lemma fetch_same_health fuel c tz l r : guar same_health (fetch_with_retry fuel c tz l r).
Proof.
  unfold fetch_with_retry.
  repeat (cbv beta zeta; first [progress intros | done | apply client_same_health
    | eapply guar_mono; [|apply fetchEvidence_same]; unfold same_data, same_health, same_on; congruence
    | guar_step_at same_health | case_match]).
Qed.

(** An update of a connection that is there. *)
Lemma run_update_connection i f c w :
  (forall c, connection_id (f c) = connection_id c) -> List.find (by_id i) (w_connections w) = Some c ->
  exists w', run (update (R:=ProviderConnection) i f) w = (w', Ok (f c)) /\
    List.find (by_id i) (w_connections w') = Some (f c) /\ w_alerts w' = w_alerts w.
Proof.
  intros Hf Hc. wexec. rewrite Hc. eexists. split; [reflexivity|]. wcbn. split; [|done].
  rewrite find_upd_where, Hc by (intros r _ _; unfold by_id; cbn; by rewrite Hf). cbn.
  apply find_In in Hc as [_ ->]. done.
Qed.

(** The body of a synchronization: when it succeeds the success is on the
    connection and no stale-data alert of the venue is open; when it fails the
    health columns and the alerts are as before. *)
Lemma run_sync_body fuel input connection venue c w :
  List.find (by_id (connection_id connection)) (w_connections w) = Some c ->
  match run (sync_body fuel input connection venue) w with
  | (w', Ok _) =>
      exists c0 t, List.find (by_id (connection_id connection)) (w_connections w') = Some (succeeded_data t c0) /\
        existsb (open_stale (job_venueId input)) (w_alerts w') = false
  | (w', Err _) => same_health w w'
  end.
Proof.
  intros Hc. unfold sync_body. cbv zeta. wexec.
  pose proof (guar_run _ _ w (fetch_same_health fuel connection (venue_timezone venue)
    (nullish (connection_locationId connection) "") (mkRange (job_startDate input) (job_endDate input)))) as HF.
  destruct (run (fetch_with_retry _ _ _ _ _) w) as [w1 [[[card cash] shifts]|e]]; [|exact HF]. cbn [fst] in HF. wexec.
  pose proof (guar_run _ _ w1 (same_tables_health _ (persist_same (job_venueId input) (card ++ cash) shifts))) as HP.
  destruct (run (persist _ _ _) w1) as [w2 [summary|e]]; [|etrans; [exact HF|exact HP]]. cbn [fst] in HP. wexec.
  assert (map health_columns (w_connections w2) = map health_columns (w_connections w)) as Hk.
  { assert (same_health w w2) as Hs by (etrans; [exact HF|exact HP]). by injection Hs. }
  destruct (find_same_columns _ _ _ _ Hk Hc) as (c2 & E2 & _). rewrite E2. wexec.
  exists c2, (now (w_tick w2)). split.
  - rewrite find_upd_where, E2 by done. cbn. apply find_In in E2 as [_ ->]. done.
  - apply not_true_iff_false. rewrite existsb_exists. intros (a & Ha & Ho).
    apply in_upd_where in Ha as (a0 & _ & ->). destruct (open_stale (job_venueId input) a0) eqn:E; [|congruence].
    unfold open_stale in Ho. by rewrite andb_false_r in Ho.
Qed.

(** A synchronization of a connected venue leaves its outcome on the
    connection.  On success: CONNECTED, no error, no consecutive failures, the
    time of the success, and no open stale-data alert of the venue.  On failure
    the error is thrown again and the connection is in ERROR with the bounded
    message, one more consecutive failure, the last success as it was, and every
    alert as it was. *)
Theorem sync_health fuel input connection venue w w' r :
  NoDup (map connection_id (w_connections w)) ->
  with_venue w (List.find (of_provider (job_venueId input) "square") (w_connections w)) = Some (connection, venue) ->
  connection_status connection <> ConnectionStatus.REVOKED -> truthy (connection_locationId connection) = true ->
  run (sync fuel input) w = (w', r) ->
  exists c, List.find (by_id (connection_id connection)) (w_connections w') = Some c /\
    match r with
    | Ok _ => connection_status c = ConnectionStatus.CONNECTED /\ connection_lastError c = None /\
        connection_consecutiveFailures c = 0 /\ connection_lastSyncSucceededAt c <> None /\
        existsb (open_stale (job_venueId input)) (w_alerts w') = false
    | Err e => connection_status c = ConnectionStatus.ERROR /\ connection_lastError c = Some (safe_message e) /\
        connection_consecutiveFailures c = connection_consecutiveFailures connection + 1 /\
        connection_lastSyncSucceededAt c = connection_lastSyncSucceededAt connection /\ w_alerts w' = w_alerts w
    end.
Proof.
  intros HN Hv Hs Hl. unfold sync. cbv zeta. wexec. rewrite Hv. wexec. rewrite Hl.
  assert (connection_status connection ==? ConnectionStatus.REVOKED = false) as -> by by apply bool_decide_eq_false_2.
  wexec.
  assert (Hc : List.find (by_id (connection_id connection)) (w_connections w) = Some connection).
  { unfold with_venue in Hv. destruct (List.find (of_provider _ _) _) as [c|] eqn:Ec; [|done].
    apply find_In in Ec as [Hin _]. cbn in Hv. destruct (List.find _ (w_venues w)); [|done]. injection Hv as -> ->.
    exact (find_by_id_NoDup _ _ HN Hin). }
  rewrite Hc. wexec. cbn [negb orb].
  set (w1 := set w_connections _ _).
  assert (exists c1, List.find (by_id (connection_id connection)) (w_connections w1) = Some c1 /\
            health_columns c1 = health_columns connection) as (c1 & E1 & K1).
  { unfold w1. wcbn. rewrite find_upd_where, Hc by done. cbn. by destruct (by_id _ connection); eexists. }
  assert (w_alerts w1 = w_alerts w) as EA by done. clearbody w1.
  pose proof (run_sync_body fuel input connection venue c1 w1 E1) as Hb.
  destruct (run (sync_body _ _ _ _) w1) as [w2 [s|e]].
  - destruct Hb as (c0 & t & E2 & EO). intros [= <- <-]. eexists. split; [exact E2|]. by repeat split.
  - injection Hb as Ek Ea. destruct (find_same_columns _ _ _ _ Ek E1) as (c2 & E2 & K2).
    unfold sync_failed. wexec. rewrite E2. wexec. intros [= <- <-]. wcbn.
    exists (failed_data (now (w_tick w2)) e c2). split.
    + rewrite find_upd_where, E2 by done. cbn. apply find_In in E2 as [_ ->]. done.
    + rewrite K1 in K2. injection K2 as _ Kf Ks. repeat split; try done; [|congruence]. cbn. by rewrite Kf.
Qed.
End health.

(* ------------------------------------------------------------------ *)
(** ** Stale connections *)

Section staleness.
Context `{Platform}.

(** The open stale-data alerts of a venue. *)
Definition open_alerts (venueId : string) (alerts : list DiscrepancyAlert) : nat :=
  length (List.filter (open_stale venueId) alerts).

Lemma open_alerts_app v a b : open_alerts v (a ++ b) = (open_alerts v a + open_alerts v b)%nat.
Proof. unfold open_alerts. by rewrite List.filter_app, length_app. Qed.

Definition of_venue (venueId : string) (c : ProviderConnection) : bool := connection_venueId c ==? venueId.

(** The open alerts after the connections [cs] have been looked at. *)
Definition flagged (cs : list ProviderConnection) (alerts alerts' : list DiscrepancyAlert) : Prop :=
  (exists added, alerts' = alerts ++ added /\ Forall (fun a => open_stale (alert_venueId a) a = true) added) /\
  forall v, open_alerts v alerts' =
    if existsb (of_venue v) cs then Nat.max 1 (open_alerts v alerts) else open_alerts v alerts.

Lemma find_open v alerts :
  match List.find (open_stale v) alerts with Some _ => (1 <= open_alerts v alerts)%nat | None => open_alerts v alerts = 0%nat end.
Proof.
  unfold open_alerts. induction alerts as [|a l IH]; cbn [List.find List.filter]; [done|].
  destruct (open_stale v a); cbn [length]; [lia|]. destruct (List.find _ l); lia.
Qed.

Lemma open_stale_alert i t c v : open_alerts v [stale_alert i t c] = if of_venue v c then 1%nat else 0%nat.
Proof.
  unfold open_alerts, open_stale, of_venue, stale_alert. cbn. by destruct (connection_venueId c ==? v).
Qed.

Lemma run_flag_stale c w w' :
  run (flag_stale c) w = (w', Ok tt) ->
  flagged [c] (w_alerts w) (w_alerts w') /\ w_connections w' = w_connections w.
Proof.
  unfold flag_stale. wexec. pose proof (find_open (connection_venueId c) (w_alerts w)) as Hf.
  destruct (List.find _ _) as [a|].
  - wexec. intros [= <-]. split; [|done]. split; [exists []; by rewrite app_nil_r|]. intros v. cbn [existsb].
    rewrite orb_false_r. unfold of_venue. destruct (_ ==? v) eqn:E; [|done]. apply bool_decide_eq_true in E as <-. lia.
  - wexec. destruct (existsb _ _); [done|]. wexec. intros [= <-]. wcbn. split; [|done]. split.
    { eexists. split; [reflexivity|]. apply Forall_singleton. unfold open_stale, stale_alert. cbn. by rewrite bd_refl. }
    intros v. rewrite open_alerts_app, open_stale_alert. cbn [existsb]. rewrite orb_false_r. unfold of_venue.
    destruct (_ ==? v) eqn:E; [|lia]. apply bool_decide_eq_true in E as <-. lia.
Qed.

Lemma run_flag_all cs w w' :
  run (for_each cs flag_stale) w = (w', Ok tt) -> flagged cs (w_alerts w) (w_alerts w').
Proof.
  revert w. induction cs as [|c cs IH]; intros w; cbn [for_each].
  { intros [= <-]. split; [exists []; by rewrite app_nil_r|done]. }
  rewrite run_bind. destruct (run (flag_stale c) w) as [w1 [[]|e]] eqn:E1; [|done]. intros E.
  apply run_flag_stale in E1 as [[(a1 & Ha1 & F1) H1] _]. apply IH in E as [(a2 & Ha2 & F2) H2].
  split; [exists (a1 ++ a2); rewrite Ha2, Ha1, app_assoc; split; [done|by apply Forall_app]|]. intros v. rewrite H2, H1. cbn [existsb].
  rewrite orb_false_r. destruct (of_venue v c), (existsb (of_venue v) cs); cbn [orb]; lia.
Qed.

(** The hourly check raises a stale-data alert for every venue with a
    connection that has had no success for a day, unless one is already open,
    so it never opens a second one; it closes none, and touches no other alert
    of any venue. *)
Theorem flagStale_once w w' n :
  run flagStaleConnections w = (w', Ok n) ->
  let late := List.filter (stale (now (w_tick w) - 86400000)) (w_connections w) in
  n = length late /\ flagged late (w_alerts w) (w_alerts w').
Proof.
  unfold flagStaleConnections. wexec. destruct (run (for_each _ _) _) as [w1 [[]|e]] eqn:E; [|done]. wexec.
  intros [= <- <-]. split; [done|]. by apply run_flag_all in E.
Qed.
End staleness.

(* ------------------------------------------------------------------ *)
(** ** The range of the columns, whatever brings the evidence *)

(** Evidence comes from a CSV import or from a synchronization. *)
Inductive evidence_request :=
| Import (venueId csvText : string) (actorUserId : option string)
| Synchronize (fuel : nat) (input : ProviderSyncJob).

Section range.
Context `{Platform} `{RowSchema} `{Square} `{Cipher} `{SquareEnvironment}.
Import EvidenceService (evidence_in_range).

Definition serve_evidence (r : evidence_request) : handler unit :=
  match r with
  | Import venueId csvText actor => do* EvidenceService.importCsv venueId csvText actor in Ret tt
  | Synchronize fuel input => do* sync fuel input in Ret tt
  end.

Definition same_columns : World -> World -> Prop := same_on (fun w => (w_tips w, w_shifts w)).
#[local] Instance same_columns_preorder : PreOrder same_columns := same_on_preorder _.

(** A tip that was fetched: not at most zero (it may be no number at all). *)
Definition fetched_tip (tip : ProviderTipEvidence) : Prop :=
  amount_ok (pt_grossAmountUsdCents tip).

Lemma tip_cents_range tip :
  fetched_tip tip -> EvidenceService.int_column (pt_grossAmountUsdCents tip) <> None -> 0 < tip_cents tip < 2 ^ 31.
Proof.
  unfold fetched_tip, tip_cents, EvidenceService.int_column. intros Hp Hc.
  destruct (num_isInteger _) eqn:Ei; [|done]. destruct (num_floor _) as [z|] eqn:Ef; [|done].
  destruct (EvidenceService.int4 z) eqn:Ez; [|done]. cbn [nullish].
  assert (num_ltb (num_of_Z 0) (pt_grossAmountUsdCents tip) = true) as Hlt.
  { destruct Hp as [Hp|Hp]; [exact Hp|by rewrite Hp in Ei]. }
  pose proof (num_floor_positive _ _ Ei Ef Hlt). apply andb_true_iff in Ez as [_ Hz]. lia.
Qed.

Lemma fetchEvidence_ends fuel c locationId period :
  ends (fun x => Forall fetched_tip (x.1.1 ++ x.1.2)) (fetchEvidence fuel c locationId period).
Proof.
  unfold fetchEvidence. eapply ends_bind with (P := Forall fetched_tip).
  { unfold fetchTipEvidence. repeat (eapply ends_bind; [apply ends_any|intros ? _]). apply ends_lift. intros l.
    apply flat_map_result_Forall. intros x zs. apply payment_tip_amounts. }
  intros card Hcard. eapply ends_bind; [apply ends_any|intros cards _].
  eapply ends_bind with (P := Forall fetched_tip).
  { apply ends_lift. intros l. apply flat_map_result_Forall. intros x zs. apply timecard_tip_amounts. }
  intros cash Hcash. eapply ends_bind; [apply ends_any|]. intros shifts _. by apply Forall_app.
Qed.

Lemma fetch_with_retry_ends fuel connection tz l r :
  ends (fun x => Forall fetched_tip (x.1.1 ++ x.1.2)) (fetch_with_retry fuel connection tz l r).
Proof.
  unfold fetch_with_retry. eapply ends_bind; [apply ends_any|intros c _].
  apply ends_catch; [apply fetchEvidence_ends|]. intros e. destruct (_ || _); [done|].
  eapply ends_bind; [apply ends_any|intros c' _]. apply fetchEvidence_ends.
Qed.

Lemma persist_tip_in_range venueId n tip :
  fetched_tip tip -> keeps evidence_in_range (persist_tip venueId n tip).
Proof.
  intros Hp. unfold persist_tip. destruct (EvidenceService.int_column _) as [z|] eqn:Ec; [|done].
  apply keeps_bind; [done|intros _]. apply keeps_bind; [apply EvidenceService.freshId_in_range|intros i].
  apply keeps_bind; [|done]. apply keeps_act. intros w [HT HS].
  assert (0 < tip_cents tip < 2 ^ 31) by (apply tip_cents_range; [done|congruence]).
  cbn [rows table_TipEvidence]. destruct (List.find _ _); [|destruct (existsb _ _); [done|]]; (split; [|exact HS]); cbn.
  - by apply EvidenceService.Forall_upd_where.
  - apply Forall_app. split; [done|by apply Forall_singleton].
Qed.

Lemma persist_shift_in_range venueId workers n shift :
  keeps evidence_in_range (persist_shift venueId workers n shift).
Proof.
  unfold persist_shift. destruct n as [[u m] x].
  match goal with |- context [if truthy ?t then ?a else ?b] => destruct (if truthy t then a else b) as [m' x'] end.
  apply keeps_bind; [apply keeps_require|intros clockOut].
  eapply keeps_bind_ends with (P := fun m => EvidenceService.int4 m = true); [apply keeps_require| |].
  { unfold minutes_column. destruct (ps_workedMinutes shift) as [z|]; cbn; [|done].
    by destruct (EvidenceService.int4 z) eqn:E. }
  intros minutes Hm. apply keeps_bind; [apply EvidenceService.freshId_in_range|intros i]. apply keeps_bind; [|done].
  apply keeps_act. intros w [HT HS]. apply andb_true_iff in Hm as [? ?].
  cbn [rows table_ShiftEvidence]. destruct (List.find _ _); [|destruct (existsb _ _); [done|]]; (split; [exact HT|]); cbn.
  - apply EvidenceService.Forall_upd_where; [done|]. intros r _. cbn. lia.
  - apply Forall_app. split; [done|]. apply Forall_singleton. cbn. lia.
Qed.

Lemma same_columns_in_range {A} (p : handler A) : guar same_columns p -> keeps evidence_in_range p.
Proof. apply EvidenceService.frame_in_range. Qed.

(** The fetches change neither the evidence nor the accounts. *)
Definition same_sources : World -> World -> Prop := same_on (fun w => (w_tips w, w_shifts w, w_accounts w)).
#[local] Instance same_sources_preorder : PreOrder same_sources := same_on_preorder _.

Lemma fetch_same_sources fuel c tz l r : guar same_sources (fetch_with_retry fuel c tz l r).
Proof.
  unfold fetch_with_retry, client, refresh_token, expires_soon, obtainToken, encryptProviderToken, sealed_refresh.
  repeat (cbv beta zeta; first [progress intros | done
    | eapply guar_mono; [|apply fetchEvidence_same]; unfold same_data, same_sources, same_on; congruence
    | guar_step_at same_sources | case_match | unfold encryptProviderToken]).
Qed.

Lemma fetch_same_columns fuel c tz l r : guar same_columns (fetch_with_retry fuel c tz l r).
Proof. eapply guar_mono; [|apply fetch_same_sources]. unfold same_sources, same_columns, same_on. congruence. Qed.

Lemma sync_in_range fuel input : keeps evidence_in_range (sync fuel input).
Proof.
  unfold sync. cbv zeta. apply keeps_bind; [apply keeps_query|intros row].
  apply keeps_bind; [apply keeps_require|intros [connection venue]].
  apply keeps_bind; [apply keeps_throw_if|intros _].
  apply keeps_bind; [apply same_columns_in_range; guar_at same_columns|intros t].
  apply keeps_bind; [apply same_columns_in_range; guar_at same_columns|intros _].
  apply keeps_catch.
  - unfold sync_body. cbv zeta.
    eapply keeps_bind_ends; [apply same_columns_in_range, fetch_same_columns|apply fetch_with_retry_ends|].
    intros [[card cash] shifts] Ht. cbn [fst snd] in Ht. apply keeps_bind.
    + unfold persist. apply keeps_bind; [apply keeps_query|intros mappings]. cbv zeta. apply keeps_bind; [|intros n].
      { apply keeps_fold. intros n tip Hin. apply persist_tip_in_range. rewrite Forall_forall in Ht.
        apply Ht. by apply list_elem_of_In. }
      apply keeps_bind; [apply keeps_fold; intros; apply persist_shift_in_range|]. by intros [[? ?] ?].
    + intros s. apply same_columns_in_range. guar_at same_columns.
  - intros e. apply same_columns_in_range. unfold sync_failed. guar_at same_columns.
Qed.

(** C27: however CSV imports and Square synchronizations interleave, and whether
    they succeed or fail half way, every stored tip is positive and fits its
    32-bit column, and so do all worked minutes. *)
Theorem evidence_stays_in_range (requests : list evidence_request) w c :
  rtc pool_step (w, map serve_evidence requests) c -> evidence_in_range w -> evidence_in_range c.1.
Proof.
  intros Hr Hw. apply (pool_keeps _ _ _ Hr Hw). apply Forall_map, Forall_forall. intros r _.
  destruct r as [v csv a|fuel input]; (apply keeps_bind; [|done]).
  - apply EvidenceService.importCsv_in_range.
  - apply sync_in_range.
Qed.
End range.

(* ------------------------------------------------------------------ *)
(** ** Examples *)

Section demo.
#[local] Existing Instances utc_platform demo_square demo_cipher demo_square_environment EvidenceService.demo_schema.

(** A connected venue without a success yet. *)
Definition demo_connection : ProviderConnection :=
  mkProviderConnection "c" "v" "square" "sandbox" ConnectionStatus.ERROR (Some "M1") (Some "L1")
    (Some ("v1.iv.tag." +:+ spell "access")) None None None None None None None (Some "Square API 500") 2.

Definition demo_connected : World :=
  empty_world <| w_venues := [mkVenue "v" "o" "V" "UTC" None None None []] |> <| w_connections := [demo_connection] |>.

Definition demo_job : ProviderSyncJob := mkJob "v" "1970-01-01" "1970-01-01".

(** The stale check, then the synchronization. *)
Definition demo_flagged : World := Eval vm_compute in (run flagStaleConnections demo_connected).1.
Definition demo_synced : World := Eval vm_compute in (run (sync 2 demo_job) demo_flagged).1.

Example sync_demo :
  map tip_grossAmountUsdCents (w_tips demo_synced) = [500] /\
  map shift_workedMinutes (w_shifts demo_synced) = [60] /\
  map alert_resolvedAt (w_alerts demo_flagged) = [None] /\ map alert_resolvedAt (w_alerts demo_synced) = [Some 10000] /\
  (run (sync 2 demo_job) demo_flagged).2 = Ok (mkSyncSummary 1 1 0 1).
Proof. vm_compute. done. Qed.

Lemma sync_health_witness :
  exists w' s c, run (sync 2 demo_job) demo_flagged = (w', Ok s) /\
    List.find (by_id "c") (w_connections w') = Some c /\ connection_status c = ConnectionStatus.CONNECTED /\
    connection_consecutiveFailures c = 0.
Proof.
  destruct (run (sync 2 demo_job) demo_flagged) as [w' r] eqn:E.
  assert (Hr : is_ok r = true) by (apply (f_equal (fun x => is_ok x.2)) in E; vm_compute in E; by symmetry).
  destruct r as [s|e]; [|discriminate Hr].
  assert (HN : NoDup (map connection_id (w_connections demo_flagged))).
  { apply NoDup_cons. split; [|constructor]. rewrite list_elem_of_In. by intros []. }
  destruct (sync_health 2 demo_job demo_connection (mkVenue "v" "o" "V" "UTC" None None None []) demo_flagged w' (Ok s)
              HN eq_refl ltac:(discriminate) eq_refl E) as (c & Ec & H1 & _ & H2 & _).
  exists w', s, c. exact (conj eq_refl (conj Ec (conj H1 H2))).
Defined.

(** With a seller that refuses the token and no refresh token, the failure is
    recorded. *)
Definition refusing_square : Square := {|
  fetch _ _ _ _ _ := Ok (mkResponse 401 false None);
  fetchToken _ _ _ := Err (JsError "no network");
  parseInstant := @parseInstant demo_square;
  numberOfString := @numberOfString demo_square;
  stringOf := @stringOf demo_square
|}.

Example sync_failure_demo :
  match run (@sync _ refusing_square _ _ 2 demo_job) demo_flagged with
  | (w, r) => (r, map (fun c => (connection_status c, connection_lastError c, connection_consecutiveFailures c))
                    (w_connections w))
  end = (Err (SquareApiError "Square API 401" 401), [(ConnectionStatus.ERROR, Some "Square API 401", 3)]).
Proof. vm_compute. reflexivity. Qed.

Lemma flagStale_once_witness :
  exists w1 w2, run flagStaleConnections demo_connected = (w1, Ok 1%nat) /\
    run flagStaleConnections w1 = (w2, Ok 1%nat) /\
    open_alerts "v" (w_alerts w1) = 1%nat /\ open_alerts "v" (w_alerts w2) = 1%nat.
Proof.
  destruct (run flagStaleConnections demo_connected) as [w1 r1] eqn:E1.
  destruct (run flagStaleConnections w1) as [w2 r2] eqn:E2. exists w1, w2.
  assert (r1 = Ok 1%nat) as -> by (apply (f_equal snd) in E1; vm_compute in E1; by symmetry).
  assert (w1 = demo_flagged) as -> by (apply (f_equal fst) in E1; symmetry; exact E1).
  assert (r2 = Ok 1%nat) as -> by (apply (f_equal snd) in E2; vm_compute in E2; by symmetry).
  destruct (flagStale_once _ _ _ E1) as [_ [_ H1]]. destruct (flagStale_once _ _ _ E2) as [_ [_ H2]].
  split; [done|]. split; [done|]. split; [rewrite (H1 "v")|rewrite (H2 "v")]; vm_compute; reflexivity.
Defined.

Lemma evidence_stays_in_range_witness :
  let pool0 := (demo_connected, map serve_evidence [Import "v" (EvidenceService.demo_csv "10.00") None;
                                                    Synchronize 2 demo_job]) in
  length (w_tips (schedule (concat (repeat [0; 1]%nat 20)) pool0).1) = 2%nat /\
  EvidenceService.evidence_in_range (schedule (concat (repeat [0; 1]%nat 20)) pool0).1.
Proof.
  intros pool0. split; [vm_compute; reflexivity|].
  eapply evidence_stays_in_range; [apply schedule_sound|]. split; constructor.
Defined.
End demo.
End SquareSyncService.
