(* ===== verification/EvidenceStore.v ===== *)
(** * The evidence tables as finite maps

    What the two writers of evidence promise: a CSV import
    (evidence.service.ts) and a Square synchronization (square-sync.service.ts)
    put what they bring into two finite maps, one value per natural key.  The
    tables refine these maps, and stay free of duplicate keys. *)

From stdpp Require Import base gmap strings.
From S2P Require Import Prelude Concurrency Strings Schema Demo Float64 Money AllocationEngine Allocations Income Evidence Square Providers SquareSync.

Open Scope Z_scope.

(* ------------------------------------------------------------------ *)
(** ** A table refines a finite map *)

Section table.
Context {R K V : Type} `{Countable K} (key : R -> K) (val : R -> V).

(** The map of a table: the value of the first row of each key. *)
Definition table_map (l : list R) : gmap K V := list_to_map (map (fun r => (key r, val r)) l).

Definition keyed (k : K) (r : R) : bool := key r ==? k.

Lemma table_map_lookup l k : table_map l !! k = val <$> List.find (keyed k) l.
Proof.
  unfold table_map, keyed. induction l as [|r l IH]; cbn [map List.find list_to_map]; [apply lookup_empty|].
  destruct (decide (key r = k)) as [<-|Hne].
  - rewrite bd_refl. cbn. apply lookup_insert_eq.
  - rewrite bool_decide_eq_false_2 by done. cbn. by rewrite lookup_insert_ne.
Qed.

(** What an upsert leaves. *)
Definition upserted (k : K) (f : R -> R) (new : R) (l : list R) : list R :=
  match List.find (keyed k) l with Some _ => upd_where (keyed k) f l | None => l ++ [new] end.

(** An upsert of a key puts the value [g] of the old one, if any. *)
Lemma upserted_refines k f new (g : option V -> V) l :
  (forall r, key r = k -> key (f r) = k /\ val (f r) = g (Some (val r))) -> key new = k -> val new = g None ->
  table_map (upserted k f new l) = <[k := g (table_map l !! k)]> (table_map l) /\
  (NoDup (map key l) -> NoDup (map key (upserted k f new l))).
Proof.
  intros Hf Hk Hn.
  assert (Hkey : forall r, keyed k r = true -> key (f r) = key r).
  { intros r Hr. apply bool_decide_eq_true in Hr. rewrite Hr. by apply Hf. }
  split.
  - apply map_eq. intros j. rewrite table_map_lookup.
    assert (Hupd : forall q, List.find (keyed q) (upd_where (keyed k) f l)
                   = (fun r => if keyed k r then f r else r) <$> List.find (keyed q) l).
    { intros q. apply find_upd_where. intros r _ Hr. unfold keyed. by rewrite Hkey. }
    unfold upserted. rewrite (table_map_lookup l k). destruct (decide (j = k)) as [->|Hne].
    + rewrite lookup_insert_eq. destruct (List.find (keyed k) l) as [r|] eqn:E.
      * rewrite Hupd, E. cbn. apply find_In in E as [_ Hr]. rewrite Hr. f_equal. apply Hf.
        by apply bool_decide_eq_true in Hr.
      * rewrite find_app, E. cbn. unfold keyed. rewrite Hk, bd_refl. cbn. by rewrite Hn.
    + rewrite lookup_insert_ne, table_map_lookup by done. destruct (List.find (keyed k) l) as [r|] eqn:E.
      * rewrite Hupd. destruct (List.find (keyed j) l) as [r'|] eqn:E'; [|done]. cbn. apply find_In in E' as [_ Hr].
        destruct (keyed k r') eqn:Er; [|done]. apply bool_decide_eq_true in Hr, Er. congruence.
      * rewrite find_app. destruct (List.find (keyed j) l); [done|]. cbn. unfold keyed. rewrite Hk.
        by rewrite bool_decide_eq_false_2.
  - intros HN. unfold upserted. destruct (List.find (keyed k) l) as [r|] eqn:E.
    + replace (map key (upd_where (keyed k) f l)) with (map key l); [done|].
      unfold upd_where. rewrite map_map. apply map_ext. intros x. destruct (keyed k x) eqn:Ex; [by rewrite Hkey|done].
    + rewrite map_app. apply NoDup_app. split; [done|]. split; [|by apply NoDup_singleton].
      intros x Hx Hin. apply list_elem_of_In in Hx. apply in_map_iff in Hx as (y & <- & Hy).
      apply list_elem_of_In in Hin. destruct Hin as [Hin|[]]. pose proof (List.find_none _ _ E y Hy) as Hf'.
      unfold keyed in Hf'. by rewrite <- Hin, Hk, bd_refl in Hf'.
Qed.

(** The rows after an upsert with any predicate of that key. *)
Lemma table_upserted k (p : R -> bool) f (new : string -> R) (g : option V -> V) l l' :
  (forall r, p r = keyed k r) ->
  (forall r, key r = k -> key (f r) = k /\ val (f r) = g (Some (val r))) ->
  (forall i, key (new i) = k /\ val (new i) = g None) ->
  match List.find p l with Some _ => l' = upd_where p f l | None => exists i, l' = l ++ [new i] end ->
  NoDup (map key l) -> table_map l' = <[k := g (table_map l !! k)]> (table_map l) /\ NoDup (map key l').
Proof.
  intros Hp Hf Hn Hl HN.
  assert (Hfind : List.find p l = List.find (keyed k) l).
  { clear -Hp. induction l as [|r l IH]; cbn; [done|]. rewrite Hp, IH. done. }
  assert (exists i, l' = upserted k f (new i) l) as [i ->].
  { unfold upserted. rewrite <- Hfind. destruct (List.find p l); [|exact Hl].
    exists "". rewrite Hl. unfold upd_where. apply map_ext. intros x. by rewrite Hp. }
  destruct (Hn i) as [Hk Hv]. destruct (upserted_refines k f (new i) g l Hf Hk Hv) as [HM HD]. auto.
Qed.
End table.

(** A fold whose every turn puts one item. *)
Lemma fold_refines {W A B M} (body : B -> A -> prog W B) (rep : W -> M -> Prop) (put : M -> A -> M) xs n n' w w' m :
  (forall n n' x w w' m, run (body n x) w = (w', Ok n') -> rep w m -> rep w' (put m x)) ->
  run (fold_prog xs n body) w = (w', Ok n') -> rep w m -> rep w' (fold_left put xs m).
Proof.
  intros Hb. revert n w m. induction xs as [|x xs IH]; intros n w m; cbn [fold_prog fold_left].
  { by intros [= <- <-]. }
  rewrite run_bind. destruct (run (body n x) w) as [w1 [n1|e]] eqn:E1; [|done]. intros E Hm. eauto.
Qed.

Module EvidenceStore.
Import EvidenceService (NormalizedTipEvidence, NormalizedShiftEvidence, importCsv, normalizeCsv, confirmed).
Import SquareClient SquareSyncService.

(* ------------------------------------------------------------------ *)
(** ** The maps *)

(** What is known of a tip, under its key (venue, provider, payment, type). *)
Record TipFact := mkTipFact {
  tf_source : IngestSource.t;
  tf_orderId : option string;
  tf_cents : Z;
  tf_paymentStatus : PaymentStatus.t;
  tf_refundStatus : RefundStatus.t;
  tf_businessDate : string;
  tf_sourceHash : string;
  tf_payoutRail : option PayoutRail.t;
  tf_payrollStatus : option string
}.

(** What is known of a shift, under its key (venue, provider, shift). *)
Record ShiftFact := mkShiftFact {
  sf_source : IngestSource.t;
  sf_externalWorkerId : string;
  sf_workerId : option string;
  sf_role : string;
  sf_clockIn : Z;
  sf_clockOut : option Z;
  sf_minutes : Z;
  sf_status : ShiftStatus.t;
  sf_businessDate : string;
  sf_sourceHash : string;
  sf_payoutRail : option PayoutRail.t;
  sf_payrollStatus : option string
}.

Abbreviation tip_name := (string * string * string * string)%type (only parsing).
Abbreviation shift_name := (string * string * string)%type (only parsing).

Record Store := mkStore { st_tips : gmap tip_name TipFact; st_shifts : gmap shift_name ShiftFact }.

(** *** What the two writers put *)

Definition csv_tip (tip : NormalizedTipEvidence) (old : option TipFact) : TipFact :=
  let put source orderId payment refund :=
    mkTipFact source orderId (EvidenceService.gross_cents tip) payment refund (EvidenceService.nt_businessDate tip)
      (EvidenceService.nt_sourceHash tip) (Some (EvidenceService.nt_sourcePayoutRail tip))
      (Some (EvidenceService.nt_sourcePayrollStatus tip)) in
  match old with
  | None => put IngestSource.CSV_UPLOAD None PaymentStatus.COMPLETED RefundStatus.NONE
  | Some o => put (tf_source o) (tf_orderId o) (tf_paymentStatus o) (tf_refundStatus o)
  end.

Definition csv_shift (workerId : option string) (shift : NormalizedShiftEvidence) (old : option ShiftFact) : ShiftFact :=
  let put source status :=
    mkShiftFact source (EvidenceService.ns_externalWorkerId shift) workerId (EvidenceService.ns_role shift)
      (EvidenceService.ns_clockIn shift) (Some (EvidenceService.ns_clockOut shift))
      (EvidenceService.ns_workedMinutes shift) status (EvidenceService.ns_businessDate shift)
      (EvidenceService.ns_sourceHash shift) (Some (EvidenceService.ns_sourcePayoutRail shift))
      (Some (EvidenceService.ns_sourcePayrollStatus shift)) in
  match old with
  | None => put IngestSource.CSV_UPLOAD ShiftStatus.COMPLETED
  | Some o => put (sf_source o) (sf_status o)
  end.

Definition api_tip (tip : ProviderTipEvidence) (old : option TipFact) : TipFact :=
  mkTipFact IngestSource.PROVIDER_API (nullish2 (pt_externalOrderId tip) (old ≫= tf_orderId)) (tip_cents tip)
    (pt_paymentStatus tip) (pt_refundStatus tip) (pt_businessDate tip) (pt_sourceHash tip)
    (old ≫= tf_payoutRail) (old ≫= tf_payrollStatus).

Definition api_shift (workerId : option string) (shift : ProviderShiftEvidence) (old : option ShiftFact) : ShiftFact :=
  mkShiftFact IngestSource.PROVIDER_API (ps_externalWorkerId shift) workerId (ps_role shift) (ps_clockIn shift)
    (nullish (clock_out_column shift) None) (nullish (minutes_column shift) 0) (ps_shiftStatus shift)
    (ps_businessDate shift) (ps_sourceHash shift) (old ≫= sf_payoutRail) (old ≫= sf_payrollStatus).

(** Putting an item under its key. *)
Definition put {K V} `{Countable K} (k : K) (f : option V -> V) (m : gmap K V) : gmap K V := <[k := f (m !! k)]> m.

Definition put_csv_tip (venueId : string) (m : gmap tip_name TipFact) (tip : NormalizedTipEvidence) :=
  put (venueId, EvidenceService.nt_provider tip, EvidenceService.nt_externalPaymentId tip,
       TipType.name (EvidenceService.nt_tipType tip)) (csv_tip tip) m.
Definition put_csv_shift (venueId : string) (workers : list (string * string)) (m : gmap shift_name ShiftFact)
    (shift : NormalizedShiftEvidence) :=
  put (venueId, EvidenceService.ns_provider shift, EvidenceService.ns_externalShiftId shift)
    (csv_shift (EvidenceService.mapped_worker workers shift) shift) m.
Definition put_api_tip (venueId : string) (m : gmap tip_name TipFact) (tip : ProviderTipEvidence) :=
  put (venueId, pt_provider tip, pt_externalPaymentId tip, TipType.name (pt_tipType tip)) (api_tip tip) m.
Definition put_api_shift (venueId : string) (workers : list (string * string)) (m : gmap shift_name ShiftFact)
    (shift : ProviderShiftEvidence) :=
  put (venueId, ps_provider shift, ps_externalShiftId shift)
    (api_shift (map_get workers (ps_externalWorkerId shift)) shift) m.

(* ------------------------------------------------------------------ *)
(** ** The tables represent them *)

Definition tip_id_of (t : TipEvidence) : tip_name :=
  (tip_venueId t, tip_provider t, tip_externalPaymentId t, TipType.name (tip_tipType t)).
Definition tip_fact (t : TipEvidence) : TipFact :=
  mkTipFact (tip_ingestSource t) (tip_externalOrderId t) (tip_grossAmountUsdCents t) (tip_paymentStatus t)
    (tip_refundStatus t) (tip_businessDate t) (tip_sourceHash t) (tip_sourcePayoutRail t) (tip_sourcePayrollStatus t).
Definition shift_id_of (s : ShiftEvidence) : shift_name :=
  (shift_venueId s, shift_provider s, shift_externalShiftId s).
Definition shift_fact (s : ShiftEvidence) : ShiftFact :=
  mkShiftFact (shift_ingestSource s) (shift_externalWorkerId s) (shift_mappedWorkerId s) (shift_role s)
    (shift_clockIn s) (shift_clockOut s) (shift_workedMinutes s) (shift_shiftStatus s) (shift_businessDate s)
    (shift_sourceHash s) (shift_sourcePayoutRail s) (shift_sourcePayrollStatus s).

Definition tips_rep (w : World) (m : gmap tip_name TipFact) : Prop :=
  table_map tip_id_of tip_fact (w_tips w) = m /\ NoDup (map tip_id_of (w_tips w)).
Definition shifts_rep (w : World) (m : gmap shift_name ShiftFact) : Prop :=
  table_map shift_id_of shift_fact (w_shifts w) = m /\ NoDup (map shift_id_of (w_shifts w)).
Definition represents (w : World) (s : Store) : Prop := tips_rep w (st_tips s) /\ shifts_rep w (st_shifts s).

Lemma tip_name_inj a b : TipType.name a = TipType.name b -> a = b.
Proof. by destruct a, b. Qed.

Lemma tip_keyed venueId provider payment type t :
  (tip_venueId t ==? venueId) && (tip_provider t ==? provider) && (tip_externalPaymentId t ==? payment)
  && (tip_tipType t ==? type) = keyed tip_id_of (venueId, provider, payment, TipType.name type) t.
Proof.
  unfold keyed, tip_id_of. symmetry. destruct (_ && _) eqn:E.
  - rewrite !andb_true_iff, !bool_decide_eq_true in E. destruct E as [[[-> ->] ->] ->]. by apply bool_decide_eq_true.
  - apply bool_decide_eq_false_2. intros [= <- <- <- Ht]. apply tip_name_inj in Ht as <-. by rewrite !bd_refl in E.
Qed.

Lemma shift_keyed venueId provider shift s :
  (shift_venueId s ==? venueId) && (shift_provider s ==? provider) && (shift_externalShiftId s ==? shift)
  = keyed shift_id_of (venueId, provider, shift) s.
Proof.
  unfold keyed, shift_id_of. symmetry. destruct (_ && _) eqn:E.
  - rewrite !andb_true_iff, !bool_decide_eq_true in E. destruct E as [[-> ->] ->]. by apply bool_decide_eq_true.
  - apply bool_decide_eq_false_2. intros [= <- <- <-]. by rewrite !bd_refl in E.
Qed.

Section refine.
Context `{Platform} `{RowSchema} `{Square} `{Cipher} `{SquareEnvironment}.

Lemma import_tip_refines venueId n n' tip w w' m :
  run (EvidenceService.import_tip venueId n tip) w = (w', Ok n') -> tips_rep w m ->
  tips_rep w' (put_csv_tip venueId m tip).
Proof.
  intros E [<- HN]. apply EvidenceService.import_tip_spec in E as (_ & _ & E).
  refine (table_upserted tip_id_of tip_fact _ _ _ _ (csv_tip tip) _ _ (tip_keyed _ _ _ _) _ _ E HN).
  - by intros t E1.
  - done.
Qed.

Lemma import_shift_refines venueId workers n n' shift w w' m :
  run (EvidenceService.import_shift venueId workers n shift) w = (w', Ok n') -> shifts_rep w m ->
  shifts_rep w' (put_csv_shift venueId workers m shift).
Proof.
  intros E [<- HN]. apply EvidenceService.import_shift_spec in E as (_ & _ & E).
  refine (table_upserted shift_id_of shift_fact _ _ _ _ (csv_shift _ shift) _ _ (shift_keyed _ _ _) _ _ E HN).
  - by intros t E1.
  - done.
Qed.

Lemma persist_tip_refines venueId n n' tip w w' m :
  run (persist_tip venueId n tip) w = (w', Ok n') -> tips_rep w m -> tips_rep w' (put_api_tip venueId m tip).
Proof.
  intros E [<- HN].
  assert (match List.find (tip_key venueId tip) (w_tips w) with
          | Some _ => w_tips w' = upd_where (tip_key venueId tip) (tip_update tip) (w_tips w)
          | None => exists i, w_tips w' = w_tips w ++ [tip_create venueId i tip]
          end) as Ht.
  { revert E. unfold persist_tip. wexec. destruct (EvidenceService.int_column _); [|done]. wexec.
    destruct (List.find _ _); [by intros [= <- <-]|]. destruct (existsb _ _); [done|]. wexec. intros [= <- <-]. eauto. }
  refine (table_upserted tip_id_of tip_fact _ _ _ _ (api_tip tip) _ _ (tip_keyed _ _ _ _) _ _ Ht HN).
  - by intros t E1.
  - intros i. split; [done|]. unfold tip_fact, tip_create, api_tip. cbn. by destruct (pt_externalOrderId tip).
Qed.

Lemma persist_shift_refines venueId workers n n' shift w w' m :
  run (persist_shift venueId workers n shift) w = (w', Ok n') -> shifts_rep w m ->
  shifts_rep w' (put_api_shift venueId workers m shift).
Proof.
  intros E [<- HN]. set (f := shift_update (map_get workers (ps_externalWorkerId shift))
    (nullish (clock_out_column shift) None) (nullish (minutes_column shift) 0) shift).
  set (new := fun i => shift_create venueId i (map_get workers (ps_externalWorkerId shift))
    (nullish (clock_out_column shift) None) (nullish (minutes_column shift) 0) shift).
  assert (match List.find (shift_row_key venueId shift) (w_shifts w) with
          | Some _ => w_shifts w' = upd_where (shift_row_key venueId shift) f (w_shifts w)
          | None => exists i, w_shifts w' = w_shifts w ++ [new i]
          end) as Hs.
  { revert E. unfold persist_shift, f, new. destruct n as [[u m0] x].
    match goal with |- context [if truthy ?t then ?a else ?b] => destruct (if truthy t then a else b) as [m' x'] end.
    destruct (clock_out_column shift); [|done]. wexec. destruct (minutes_column shift); [|done]. wexec.
    destruct (List.find _ _); [by intros [= <- <-]|]. destruct (existsb _ _); [done|]. wexec. intros [= <- <-]. eauto. }
  refine (table_upserted shift_id_of shift_fact _ _ f new
    (api_shift (map_get workers (ps_externalWorkerId shift)) shift) _ _ (shift_keyed _ _ _) _ _ Hs HN).
  - intros s E1. split; [|done]. unfold f, shift_id_of, shift_update. cbn. injection E1 as -> _ _. done.
  - done.
Qed.

(** Handlers that write neither table. *)
Definition same_evidence : World -> World -> Prop := same_on (fun w => (w_tips w, w_shifts w)).
#[local] Instance same_evidence_preorder : PreOrder same_evidence := same_on_preorder _.

Lemma same_evidence_rep w w' s : same_evidence w w' -> represents w s -> represents w' s.
Proof. unfold same_evidence, same_on, represents, tips_rep, shifts_rep. by intros [= -> ->]. Qed.

(** C24: a CSV import refines its specification on the two maps: when it
    succeeds, the tables represent the maps with exactly the tips and the shifts
    of the text put under their keys, in order; what a key held before keeps its
    source, order and payment and refund status, and every other key its value.
    No key is ever represented twice. *)
Theorem importCsv_refines venueId csvText actor w w' summary s :
  run (importCsv venueId csvText actor) w = (w', Ok summary) -> represents w s ->
  exists venue n, List.find (by_id venueId) (w_venues w) = Some venue /\
    normalizeCsv csvText (venue_timezone venue) = Ok n /\
    represents w'
      (mkStore (fold_left (put_csv_tip venueId) (EvidenceService.nr_tips n) (st_tips s))
               (fold_left (put_csv_shift venueId (confirmed venueId w)) (EvidenceService.nr_shifts n) (st_shifts s))).
Proof.
  rewrite EvidenceService.run_importCsv. destruct (List.find _ (w_venues w)) as [venue|] eqn:Ev; [|done].
  destruct (normalizeCsv _ _) as [n|e] eqn:En; [|done].
  destruct (run (fold_prog (EvidenceService.nr_tips n) _ _) w) as [wa [k|e]] eqn:Et; [|done].
  destruct (run (fold_prog (EvidenceService.nr_shifts n) _ _) wa) as [wb [[[u m] x]|e]] eqn:Es; [|done].
  destruct (run (fold_prog (EvidenceService.business_dates n) _ _) wb) as [wc [l|e]] eqn:Ec; [|done].
  intros [= <- <-] [Ht Hs]. exists venue, n. split; [done|]. split; [done|].
  pose proof (guar_run _ _ w (EvidenceService.import_tips_frame venueId (EvidenceService.nr_tips n) 0)) as Ft.
  pose proof (guar_run _ _ wa (EvidenceService.import_shifts_frame venueId (confirmed venueId w)
    (EvidenceService.nr_shifts n) (0, 0, 0)%nat)) as Fs.
  pose proof (guar_run _ _ wb (EvidenceService.auto_frame venueId actor (EvidenceService.business_dates n) [])) as Fc.
  rewrite Et in Ft. rewrite Es in Fs. rewrite Ec in Fc. unfold EvidenceService.same_evidence, same_on in *. cbn [fst] in *.
  injection Ft as Ft _ _. injection Fs as Fs _ _. injection Fc as Fc1 Fc2 _ _.
  pose proof (fold_refines _ tips_rep (put_csv_tip venueId) _ _ _ _ _ _
    (fun n n' x v v' mm => import_tip_refines venueId n n' x v v' mm) Et Ht) as Ht'.
  assert (Hs1 : shifts_rep wa (st_shifts s)) by (unfold shifts_rep; by rewrite Ft).
  pose proof (fold_refines _ shifts_rep (put_csv_shift venueId (confirmed venueId w)) _ _ _ _ _ _
    (fun n n' x v v' mm => import_shift_refines venueId _ n n' x v v' mm) Es Hs1) as Hs'.
  split; cbn [st_tips st_shifts]; [unfold tips_rep; by rewrite Fc1, Fs|unfold shifts_rep; by rewrite Fc2].
Qed.

(** The accounts a synchronization resolves workers with. *)
Definition square_workers (venueId : string) (w : World) : list (string * string) :=
  workerByExternalId (List.filter (square_account venueId) (w_accounts w)).

Lemma persist_tips_frame venueId tips k :
  guar (same_on w_shifts) (fold_prog tips k (persist_tip venueId)).
Proof. unfold persist_tip. guar_at (same_on w_shifts). Qed.

Lemma persist_shifts_frame venueId workers shifts n :
  guar (same_on w_tips) (fold_prog shifts n (persist_shift venueId workers)).
Proof. unfold persist_shift. guar_at (same_on w_tips). Qed.

Lemma persist_refines venueId tips shifts w w' summary s :
  run (persist venueId tips shifts) w = (w', Ok summary) -> represents w s ->
  represents w' (mkStore (fold_left (put_api_tip venueId) tips (st_tips s))
                   (fold_left (put_api_shift venueId (square_workers venueId w)) shifts (st_shifts s))).
Proof.
  intros E [Ht Hs]. revert E. unfold persist. wexec. fold (square_workers venueId w).
  destruct (run (fold_prog tips _ _) w) as [wa [k|e]] eqn:Et; [|done]. wexec.
  destruct (run (fold_prog shifts _ _) wa) as [wb [[[u m] x]|e]] eqn:Es; [|done]. wexec. intros [= <- _].
  pose proof (guar_run _ _ w (persist_tips_frame venueId tips 0)) as Ft.
  pose proof (guar_run _ _ wa (persist_shifts_frame venueId (square_workers venueId w) shifts (0, 0, 0)%nat)) as Fs.
  rewrite Et in Ft. rewrite Es in Fs. unfold same_on in *. cbn [fst] in *. split; cbn [st_tips st_shifts].
  - unfold tips_rep. rewrite Fs.
    exact (fold_refines _ tips_rep (put_api_tip venueId) _ _ _ _ _ _
      (fun n n' x v v' mm => persist_tip_refines venueId n n' x v v' mm) Et Ht).
  - assert (Hs1 : shifts_rep wa (st_shifts s)) by (unfold shifts_rep; by rewrite Ft).
    exact (fold_refines _ shifts_rep (put_api_shift venueId _) _ _ _ _ _ _
      (fun n n' x v v' mm => persist_shift_refines venueId _ n n' x v v' mm) Es Hs1).
Qed.

(** A failed synchronization always throws. *)
Lemma sync_failed_throws connection e w : exists w' e', run (sync_failed connection e) w = (w', Err e').
Proof. unfold sync_failed. wexec. destruct (List.find _ _); wexec; by do 2 eexists. Qed.

(** C25: a Square synchronization refines its specification on the same maps: when
    it succeeds, the tables represent the maps with exactly the evidence its
    fetch answered put under its keys, card tips, then cash tips, then shifts;
    what a key held before keeps its payout rail and payroll status, and its
    order when the new tip names none, and every other key its value. *)
Theorem sync_refines fuel input w w' summary s :
  run (sync fuel input) w = (w', Ok summary) -> represents w s ->
  exists connection venue w1 w2 card cash shifts,
    ProvidersService.with_venue w (List.find (ProvidersService.of_provider (job_venueId input) "square") (w_connections w))
      = Some (connection, venue) /\
    run (fetch_with_retry fuel connection (venue_timezone venue) (nullish (connection_locationId connection) "")
           (mkRange (job_startDate input) (job_endDate input))) w1 = (w2, Ok (card, cash, shifts)) /\
    represents w'
      (mkStore (fold_left (put_api_tip (job_venueId input)) (card ++ cash) (st_tips s))
               (fold_left (put_api_shift (job_venueId input) (square_workers (job_venueId input) w)) shifts (st_shifts s))).
Proof.
  intros E Hrep. revert E. unfold sync. cbv zeta. wexec.
  destruct (ProvidersService.with_venue _ _) as [[connection venue]|]; [|done]. wexec.
  destruct (_ || _); [done|]. wexec. destruct (List.find _ _); [|done]. wexec.
  match goal with |- context [run (sync_body _ _ _ _) ?x] => set (w1 := x) end.
  assert (Hw1 : same_sources w w1) by done. clearbody w1.
  destruct (run (sync_body _ _ _ _) w1) as [wx [sx|e]] eqn:Eb.
  2: { destruct (sync_failed_throws connection e wx) as (wy & e' & ->). done. }
  intros [= <- <-]. revert Eb. unfold sync_body. cbv zeta. wexec.
  match goal with |- context [run (fetch_with_retry ?a ?b ?c ?d ?r) w1] =>
    pose proof (guar_run _ _ w1 (fetch_same_sources a b c d r)) as HF;
    destruct (run (fetch_with_retry a b c d r) w1) as [w2 [[[card cash] shifts]|e]] eqn:Ef; [|done] end.
  cbn [fst] in HF. wexec. destruct (run (persist _ _ _) w2) as [w3 [s3|e]] eqn:Ep; [|done]. wexec.
  destruct (List.find _ (w_connections w3)); [|done]. wexec. intros [= <- <-].
  exists connection, venue, w1, w2, card, cash, shifts. split; [done|]. split; [exact Ef|].
  unfold same_sources, same_on in Hw1, HF. injection Hw1 as T1 S1 A1. injection HF as T2 S2 A2.
  assert (Hrep2 : represents w2 s).
  { apply (same_evidence_rep w); [|exact Hrep]. unfold same_evidence, same_on. congruence. }
  pose proof (persist_refines _ _ _ _ _ _ _ Ep Hrep2) as Hp. unfold square_workers in *. rewrite A2, A1 in Hp. exact Hp.
Qed.
End refine.

(* ------------------------------------------------------------------ *)
(** ** Examples *)

Section demo.
#[local] Existing Instances utc_platform demo_square demo_cipher ProvidersService.demo_square_environment
  EvidenceService.demo_schema.

Definition empty_store : Store := mkStore ∅ ∅.

Lemma empty_represented w : w_tips w = [] -> w_shifts w = [] -> represents w empty_store.
Proof. intros Ht Hs. unfold represents, tips_rep, shifts_rep. rewrite Ht, Hs. repeat split; constructor. Qed.

Lemma importCsv_refines_witness :
  exists w' summary s', run (importCsv "v" (EvidenceService.demo_csv "10.00") None) EvidenceService.demo_venue = (w', Ok summary) /\
    represents w' s' /\ size (st_tips s') = 1%nat /\
    tf_cents <$> (st_tips s' !! ("v", "toast", "csv:s1", "CARD_TIP")) = Some 1000.
Proof.
  destruct (run (importCsv "v" (EvidenceService.demo_csv "10.00") None) EvidenceService.demo_venue) as [w' [summary|e]] eqn:E.
  - destruct (importCsv_refines _ _ _ _ _ _ empty_store E (empty_represented EvidenceService.demo_venue eq_refl eq_refl)) as (venue & n & Ev & En & Hr).
    eexists w', summary, _. split; [reflexivity|]. split; [exact Hr|]. vm_compute in Ev. injection Ev as <-.
    vm_compute in En. injection En as <-. split; vm_compute; reflexivity.
  - apply (f_equal (fun c => is_ok c.2)) in E. vm_compute in E. discriminate E.
Defined.

Lemma sync_refines_witness :
  exists w' summary s', run (sync 2 demo_job) demo_connected = (w', Ok summary) /\ represents w' s' /\
    tip_fact <$> w_tips w' = map snd (map_to_list (st_tips s')).
Proof.
  destruct (run (sync 2 demo_job) demo_connected) as [w' [summary|e]] eqn:E.
  - pose proof (sync_refines _ _ _ _ _ empty_store E (empty_represented demo_connected eq_refl eq_refl))
      as (c & v & w1 & w2 & card & cash & shifts & _ & _ & Hr).
    eexists w', summary, _. split; [reflexivity|]. split; [exact Hr|]. destruct Hr as [[<- _] _].
    apply (f_equal fst) in E. cbn [fst] in E. rewrite <- E. vm_compute. reflexivity.
  - apply (f_equal (fun c => is_ok c.2)) in E. vm_compute in E. discriminate E.
Defined.
End demo.
End EvidenceStore.
