(* ===== verification/Worker.v ===== *)
(** * The worker process

    apps/worker/src/queue-runner.service.ts: the processor of each queue over
    the data of its jobs, and what retrying a failed job achieves.  The queue
    server (BullMQ) is outside the repository: it hands a job to its processor
    until the processor succeeds or the attempts the producer asked for are
    used up ([attempts]). *)

From stdpp Require Import relations.
From S2P Require Import Prelude Concurrency Strings Schema Demo Money IncomeProjector Solana Payouts Settlement Evidence Square Providers SquareSync.
Import Solana SolanaSettlementService SquareSyncService SquareClient.

Open Scope Z_scope.

Module Worker.

Section process.
Context `{Platform} `{Chain} `{Square} `{Cipher} `{SquareEnvironment}.

Definition text (data : json) (key : string) : string := nullish (string_value (field data key)) "".

(** The processor of a queue; the queues without one only log the job. *)
Definition process (fuel : nat) (queue : string) (data : json) : handler unit :=
  if queue ==? "provider-sync" then
    if js_truthy (field data "staleCheck") then do* flagStaleConnections in Ret tt
    else if js_truthy (field data "venueId")
    then do* sync fuel (mkJob (text data "venueId") (text data "startDate") (text data "endDate")) in Ret tt
    else do* syncConnectedVenues fuel in Ret tt
  else if queue ==? "solana-confirmation" then processConfirmation (text data "payoutId") (text data "signature")
  else if queue ==? "payout-reconcile" then reconcileStalePayouts
  else if queue ==? "disclosure-expire" then QueueRunnerService.expireOverdueReports
  else Ret tt.
End process.

(** A job is tried again after a failure: [true] when an attempt succeeded. *)
Fixpoint attempts (n : nat) (job : handler unit) : handler bool :=
  match n with
  | O => Ret false
  | S n' => catch (do* job in Ret true) (fun _ => attempts n' job)
  end.

(* ------------------------------------------------------------------ *)
(** ** A payout whose transaction lands is finalized *)

Section live.
Context `{Platform} `{Chain}.
(** A payout, its allocation, payment and signature, and the last height of its
    blockhash. *)
Context (payoutId allocationId paymentId signature : string) (height : option Z).

(** From tick [T] on the network answers "finalized" and has the settlement
    record. *)
Context (T : nat).
Hypothesis lands : forall t, (T <= t)%nat ->
  (exists slot, getSignatureStatus signature t = Some (mkSignatureStatus None (Some Money.finalized) slot)) /\
  exists record, settlementRecord paymentId finalized_ t = Some record.
(** The transaction does not fail. *)
Hypothesis no_error : forall t s, getSignatureStatus signature t = Some s -> ss_err s = None.
(** While no node has seen it, its blockhash is valid. *)
Hypothesis alive : forall t h, getSignatureStatus signature t = None -> height = Some h ->
  Money.isBlockhashExpired (getBlockHeight (S t)) h = false.
(** A fork that had it is not dropped: once the finalized root has passed the
    observed slot, the finalized transaction is found. *)
Hypothesis not_dropped : forall t t' s, getSignatureStatus signature t = Some s -> (t < t')%nat ->
  ss_slot s < getSlot t' -> getFinalizedTransaction signature (S t') = true.

(** The payout is on its way, or finalized with its allocation paid. *)
Definition on_its_way (w : World) : Prop :=
  exists p a, List.find (by_id payoutId) (w_payouts w) = Some p /\
    List.find (by_id allocationId) (w_allocations w) = Some a /\
    In (payout_status p) [PayoutStatus.SUBMITTED; PayoutStatus.CONFIRMED] /\ payout_id p = payoutId /\
    payout_txSignature p = Some signature /\ payout_paymentId p = paymentId /\
    payout_lastValidBlockHeight p = height /\ payout_allocationId p = allocationId.

Definition paid_out (w : World) : Prop :=
  exists p a, List.find (by_id payoutId) (w_payouts w) = Some p /\
    List.find (by_id allocationId) (w_allocations w) = Some a /\
    payout_status p = PayoutStatus.FINALIZED /\ alloc_payoutStatus a = AllocPayoutStatus.PAID.

Definition same_rows : World -> World -> Prop := same_on (fun w => (w_payouts w, w_allocations w)).
#[local] Instance same_rows_preorder : PreOrder same_rows := same_on_preorder _.

Lemma same_rows_paid w w' : same_rows w w' -> paid_out w -> paid_out w'.
Proof. unfold same_rows, same_on, paid_out. by intros [= -> ->]. Qed.
Lemma same_rows_way w w' : same_rows w w' -> on_its_way w -> on_its_way w'.
Proof. unfold same_rows, same_on, on_its_way. by intros [= -> ->]. Qed.

Lemma rebuild_same_rows venueId : guar same_rows (SolanaSettlementService.rebuildIncomeProjection venueId).
Proof.
  unfold SolanaSettlementService.rebuildIncomeProjection. apply guar_bind; [|done].
  eapply guar_mono; [|apply IncomeProjector.rebuild_same_money].
  unfold IncomeProjector.same_money, same_rows, same_on. intros w w' (-> & -> & _). done.
Qed.

Lemma refresh_same_rows i : guar same_rows (SolanaSettlementService.refreshBatchPaymentStatus i).
Proof. unfold SolanaSettlementService.refreshBatchPaymentStatus. guar_at same_rows. Qed.

(** Finalizing a payout on its way pays it out, whatever its projection does. *)
Lemma run_finalize slot w record :
  on_its_way w -> settlementRecord paymentId finalized_ (w_tick w) = Some record ->
  paid_out (run (finalizeFromChain payoutId allocationId slot) w).1.
Proof.
  intros (p & a & Ep & Ea & Hst & Hid & Hsig & Hpay & Hh & Hal) Hrec. unfold finalizeFromChain. wexec. rewrite Ep.
  assert (payout_status p ==? PayoutStatus.FINALIZED = false) as ->
    by (apply bool_decide_eq_false_2; intros E; rewrite E in Hst; by destruct Hst as [|[|[]]]).
  unfold fetchSettlementRecord. wexec. rewrite Hpay, Hrec. wexec.
  set (w1 := set w_tick _ w).
  assert (exists w2 b, run match slot with Some s => if s =? 0 then Ret None else ask (getBlockTime s) | None => Ret None end w1
          = (w2, Ok b) /\ same_rows w w2) as (w2 & b & -> & Hs).
  { destruct slot as [s|]; [destruct (s =? 0)|]; wexec; by do 2 eexists. }
  unfold same_rows, same_on in Hs. injection Hs as Hp2 Ha2. wexec. rewrite Hp2, Ep. wexec. rewrite Ha2, Ea. wexec.
  match goal with |- context [run (SolanaSettlementService.refreshBatchPaymentStatus _) ?x] => set (w3 := x) end.
  assert (paid_out w3) as H3.
  { unfold paid_out, w3. wcbn. rewrite ?Hp2, ?Ha2, !find_upd_where, Ep, Ea by done. cbn.
    apply find_In in Ep as [_ ->], Ea as [_ ->]. by do 2 eexists. }
  clearbody w3. pose proof (guar_run _ _ w3 (refresh_same_rows allocationId)) as H4.
  destruct (run (SolanaSettlementService.refreshBatchPaymentStatus _) w3) as [w4 [[]|e]]; cbn [fst] in H4.
  - wexec. eapply same_rows_paid; [exact (guar_run _ _ w4 (rebuild_same_rows (payout_venueId p)))|].
    by eapply same_rows_paid.
  - by eapply same_rows_paid.
Qed.

Lemma run_finalize_missing slot w :
  on_its_way w -> settlementRecord paymentId finalized_ (w_tick w) = None ->
  run (finalizeFromChain payoutId allocationId slot) w
  = (w <| w_tick ::= S |>, Err (JsError "finalize requested but SettlementRecord not found")).
Proof.
  intros (p & a & Ep & Ea & Hst & Hid & Hsig & Hpay & Hh & Hal) Hrec. unfold finalizeFromChain. wexec. rewrite Ep.
  assert (payout_status p ==? PayoutStatus.FINALIZED = false) as ->
    by (apply bool_decide_eq_false_2; intros E; rewrite E in Hst; by destruct Hst as [|[|[]]]).
  unfold fetchSettlementRecord. wexec. by rewrite Hpay, Hrec.
Qed.

(** Steps that leave the payout on its way. *)
Definition later (w w' : World) : Prop := on_its_way w' /\ (w_tick w <= w_tick w')%nat.

Lemma ask_later w : on_its_way w -> later w (w <| w_tick ::= S |>).
Proof. intros Hw. split; [by eapply same_rows_way|]. cbn. lia. Qed.

Lemma later_trans w1 w2 w3 : later w1 w2 -> later w2 w3 -> later w1 w3.
Proof. intros [_ H1] [H2 H3]. split; [done|lia]. Qed.

(** An update of the payout that keeps what identifies it. *)
Lemma update_way (f : Payout -> Payout) q w w' :
  on_its_way w ->
  (forall p, payout_id (f p) = payout_id p /\ payout_txSignature (f p) = payout_txSignature p /\
     payout_paymentId (f p) = payout_paymentId p /\
     payout_lastValidBlockHeight (f p) = payout_lastValidBlockHeight p /\
     payout_allocationId (f p) = payout_allocationId p) ->
  (forall p, In (payout_status p) [PayoutStatus.SUBMITTED; PayoutStatus.CONFIRMED] ->
     In (payout_status (f p)) [PayoutStatus.SUBMITTED; PayoutStatus.CONFIRMED]) ->
  w_payouts w' = upd_where q f (w_payouts w) -> w_allocations w' = w_allocations w -> on_its_way w'.
Proof.
  intros (p & a & Ep & Ea & Hst & Hid & Hsig & Hpay & Hh & Hal) Hf Hs E1 E2. unfold on_its_way.
  exists (if q p then f p else p), a. rewrite E1, E2, find_upd_where, Ep
    by (intros r _ _; unfold by_id; cbn; by rewrite (proj1 (Hf r))).
  destruct (Hf p) as (F1 & F2 & F3 & F4 & F5). specialize (Hs p Hst).
  cbn. destruct (q p); (split; [done|]); repeat split; done || congruence.
Qed.

(** [waits_in w p P]: [p] leaves the payout on its way, and answers with [P] or
    throws; [waits t p P]: it does in every world after tick [t] with the payout
    on its way. *)
Definition waits_in {A} (w : World) (p : handler A) (P : A -> Prop) : Prop :=
  exists w' r, run p w = (w', r) /\ later w w' /\ match r with Ok v => P v | Err _ => True end.

Definition waits {A} (t : nat) (p : handler A) (P : A -> Prop) : Prop :=
  forall w, on_its_way w -> (t < w_tick w)%nat -> waits_in w p P.

Lemma waits_ret {A} t (v : A) (P : A -> Prop) : P v -> waits t (Ret v) P.
Proof. intros Hv w Hw _. by exists w, (Ok v). Qed.

Lemma waits_throw {A} t e (P : A -> Prop) : waits t (Throw e) P.
Proof. intros w Hw _. by exists w, (Err e). Qed.

Lemma waits_ask {A} t (f : nat -> A) : waits t (ask f) (fun _ => True).
Proof. intros w Hw _. unfold waits_in. wexec. do 2 eexists. split; [reflexivity|]. split; [by apply ask_later|done]. Qed.

Lemma waits_in_bind {A B} t w (p : handler A) (f : A -> handler B) P Q :
  (t < w_tick w)%nat -> waits_in w p P -> (forall v, P v -> waits t (f v) Q) -> waits_in w (bind p f) Q.
Proof.
  intros Ht (w1 & r & Er & [Hl1 Hl2] & Hr) Hf. unfold waits_in. rewrite run_bind, Er.
  destruct r as [v|e]; [|by exists w1, (Err e)].
  destruct (Hf v Hr w1 Hl1) as (w2 & r2 & -> & Hl3 & Hr2); [lia|]. exists w2, r2. split; [done|]. split; [|done].
  by eapply later_trans.
Qed.

Lemma waits_bind {A B} t (p : handler A) (f : A -> handler B) P Q :
  waits t p P -> (forall v, P v -> waits t (f v) Q) -> waits t (bind p f) Q.
Proof. intros Hp Hf w Hw Ht. eapply waits_in_bind; [exact Ht|by apply Hp|exact Hf]. Qed.

Lemma waits_set_status t s :
  In s [PayoutStatus.SUBMITTED; PayoutStatus.CONFIRMED] -> waits t (set_status payoutId s) (fun _ => True).
Proof.
  intros Hs w Hw _. pose proof Hw as (p & a & Ep & _). unfold set_status, waits_in. wexec. rewrite Ep. wexec.
  do 2 eexists. split; [reflexivity|]. split; [|done]. split; [|by cbn].
  eapply (update_way (fun p => p <| payout_status := s |>)); [exact Hw|by repeat split|by intros|done|done].
Qed.

Lemma waits_rebroadcast t p : waits t (rebroadcastSameTransaction p) (fun _ => True).
Proof.
  unfold rebroadcastSameTransaction. destruct (payout_signedTransactionBase64 p) as [raw|]; [|by apply waits_ret].
  destruct (_ || _); [by apply waits_ret|]. eapply waits_bind; [apply waits_ask|intros at_ _].
  eapply waits_bind with (P := fun _ => True); [|intros _ _; eapply waits_bind with (P := fun _ => True)].
  - intros w Hw _. do 2 eexists. split; [reflexivity|]. split; [|done]. split; [|by cbn].
    eapply (update_way _ _ w); [exact Hw| | |reflexivity|done]; [by repeat split|by intros].
  - unfold sendRaw. eapply waits_bind with (P := fun _ => True); [|intros _ _; apply waits_ask].
    intros w Hw _. do 2 eexists. split; [reflexivity|]. split; [|done]. split; [by eapply same_rows_way|by cbn].
  - intros _ _. by apply waits_ret.
Qed.

(** While the fork that was observed lives, nothing is decided on its account. *)
Lemma waits_fork p t s expired :
  getSignatureStatus signature t = Some s ->
  waits t (failIfObservedForkWasDropped p signature (ss_slot s) expired) (fun dropped => dropped = false).
Proof.
  intros Hs w Hw Ht. unfold failIfObservedForkWasDropped, waits_in. destruct expired; cbn [negb]; [|by do 2 eexists].
  wexec. destruct (_ <=? _) eqn:E; [do 2 eexists; split; [reflexivity|split; [by apply ask_later|done]]|]. wexec.
  apply Z.leb_gt in E. rewrite (not_dropped t (w_tick w) s Hs Ht E). do 2 eexists. split; [reflexivity|].
  split; [|done]. eapply later_trans; apply ask_later; [done|by apply ask_later].
Qed.

(** One attempt of the confirmation job: the payout is paid out, or the job
    fails while the chain has not settled and the payout is still on its way. *)
Lemma attempt w w' r :
  on_its_way w -> run (processConfirmation payoutId signature) w = (w', r) ->
  paid_out w' \/ (is_ok r = false /\ on_its_way w' /\ (w_tick w < w_tick w')%nat /\ (w_tick w < T)%nat).
Proof.
  intros Hw. pose proof Hw as (p & a & Ep & Ea & Hst & Hid & Hsig & Hpay & Hh & Hal).
  unfold processConfirmation. wexec. rewrite Ep.
  assert (payout_status p ==? PayoutStatus.FINALIZED = false) as ->
    by (apply bool_decide_eq_false_2; intros E; rewrite E in Hst; by destruct Hst as [|[|[]]]).
  assert (payout_status p ==? PayoutStatus.FAILED = false) as ->
    by (apply bool_decide_eq_false_2; intros E; rewrite E in Hst; by destruct Hst as [|[|[]]]).
  rewrite Hsig, bd_refl. cbn [negb]. wexec. set (t := w_tick w). set (w1 := set w_tick _ w).
  assert (Hw1 : later w w1) by by apply ask_later. assert (Ht1 : w_tick w1 = S t) by done.
  assert (Herr : match getSignatureStatus signature t with Some s => ss_err s | None => None end = None).
  { destruct (getSignatureStatus signature t) as [s|] eqn:E; [|done]. by apply (no_error t). }
  rewrite Herr. set (status := getSignatureStatus signature t) in *.
  set (confirmation := match status with Some s => ss_confirmationStatus s | None => None end).
  set (slot := match status with Some s => ss_slot s | None => 0 end). rewrite Hid, Hal.
  assert (Hlate : (T <= t)%nat -> confirmation ==? Some Money.finalized = true /\
            exists record, settlementRecord paymentId finalized_ (S t) = Some record).
  { intros HT. destruct (lands t HT) as [[sl Es] _]. split; [|apply (proj2 (lands (S t) ltac:(lia)))].
    unfold confirmation, status. rewrite Es. cbn. by apply bool_decide_eq_true_2. }
  destruct (confirmation ==? Some Money.finalized) eqn:Ef.
  { destruct (settlementRecord paymentId finalized_ (S t)) as [record|] eqn:Er.
    - pose proof (run_finalize (Some slot) w1 record (proj1 Hw1) Er) as Hd. intros E. left. by rewrite E in Hd.
    - rewrite run_finalize_missing by (apply Hw1 || exact Er). intros [= <- <-]. right. split; [done|].
      split; [exact (proj1 (ask_later _ (proj1 Hw1)))|]. split; [cbn; unfold t; lia|].
      destruct (le_lt_dec T t) as [HT|HT]; [|exact HT]. destruct (Hlate HT) as [_ [rec ?]]. congruence. }
  intros E. right.
  match type of E with run ?p _ = _ => assert (waits_in w1 p (fun _ => False)) as Hwait end.
  2: { destruct Hwait as (w2 & r2 & E2 & [Hl Hle] & Hr). rewrite E in E2. injection E2 as <- <-.
       split; [by destruct r|]. split; [done|]. split; [lia|].
       destruct (le_lt_dec T t) as [HT|HT]; [|exact HT]. by destruct (Hlate HT). }
  clear E. 
  assert (Hlt : (t < w_tick w1)%nat) by (rewrite Ht1; lia).
  assert (Hret : forall A (v : A) (P : A -> Prop), P v -> waits_in w1 (Ret v) P)
    by (intros A v P Hv; exact (waits_ret t v P Hv w1 (proj1 Hw1) Hlt)).
  assert (Hset : forall b s, In s [PayoutStatus.SUBMITTED; PayoutStatus.CONFIRMED] ->
            waits t (if b : bool then set_status payoutId s else Ret tt) (fun _ => True)).
  { intros [] s Hs; [by apply waits_set_status|by apply waits_ret]. }
  assert (Hfork : forall s, status = Some s -> forall expired,
            waits t (failIfObservedForkWasDropped p signature slot expired) (fun dropped => dropped = false)).
  { intros s Es expired. unfold slot. rewrite Es. by apply waits_fork. }
  destruct (confirmation ==? Some Money.confirmed) eqn:Ec.
  { destruct status as [s|] eqn:Es; [|done].
    eapply waits_in_bind; [|apply Hset; [by right; left|apply Hw1|]|intros _ _]; [exact Hlt..|].
    eapply waits_bind with (P := fun _ => True); [|intros b _].
    { destruct (payout_lastValidBlockHeight p); [|by apply waits_ret].
      eapply waits_bind; [apply waits_ask|intros h _]. by apply waits_ret. }
    eapply waits_bind; [by eapply Hfork|]. intros dropped ->. apply waits_throw. }
  eapply waits_in_bind with (P := fun decided => decided = false); [exact Hlt| |].
  2: { intros decided ->. eapply waits_bind with (P := fun _ => True); [|intros _ _].
       - destruct (Money.shouldRebroadcastSignedTransaction _ _); [apply waits_rebroadcast|by apply waits_ret].
       - eapply waits_bind; [apply Hset; by left|]. intros _ _. apply waits_throw. }
  rewrite Hh. destruct height as [h|] eqn:Eh; [|by apply Hret].
  set (w2 := set w_tick S w1). assert (Hw2 : later w1 w2) by apply (ask_later _ (proj1 Hw1)).
  match goal with |- waits_in _ (let* h := ask getBlockHeight in @?k h) _ =>
    enough (waits_in w2 (k (getBlockHeight (S t))) (fun decided => decided = false)) as (w3 & r3 & E3 & Hw3 & Hr3) end.
  { exists w3, r3. split; [exact E3|]. split; [by eapply later_trans|exact Hr3]. }
  cbv beta zeta. assert (Hlt2 : (t < w_tick w2)%nat) by (cbn; lia).
  destruct status as [s|] eqn:Es.
  - destruct (Money.isBlockhashExpired _ _); [|apply (waits_ret t); [done|apply Hw2|exact Hlt2]].
    eapply waits_in_bind; [exact Hlt2|by apply (Hfork s eq_refl); [apply Hw2|]|]. intros dropped ->. apply waits_throw.
  - rewrite (alive t h Es eq_refl). cbn. apply (waits_ret t); [done|apply Hw2|exact Hlt2].
Qed.

(** A payout that is paid out stays so. *)
Lemma attempt_paid w : paid_out w -> paid_out (run (processConfirmation payoutId signature) w).1.
Proof.
  intros Hw. pose proof Hw as (p & a & Ep & Ea & Hst & Hal). unfold processConfirmation. wexec. rewrite Ep, Hst, bd_refl.
  eapply same_rows_paid; [exact (guar_run _ _ w (rebuild_same_rows (payout_venueId p)))|exact Hw].
Qed.

Lemma run_attempts n job w :
  run (attempts (S n) job) w =
  match run job w with (w', Ok _) => (w', Ok true) | (w', Err _) => run (attempts n job) w' end.
Proof. cbn [attempts]. rewrite run_catch, run_bind. by destruct (run job w) as [w' [[]|e]]. Qed.

Lemma attempts_paid n w : paid_out w -> paid_out (run (attempts n (processConfirmation payoutId signature)) w).1.
Proof.
  revert w. induction n as [|n IH]; intros w Hw; [exact Hw|]. rewrite run_attempts.
  pose proof (attempt_paid w Hw) as H1. destruct (run _ w) as [w1 [[]|e]]; [exact H1|by apply IH].
Qed.

(** C26: a submitted payout whose transaction lands is paid out by its own
    confirmation job.  If the network
    settles the payment at some tick, never reports the transaction as failed,
    and neither lets its blockhash expire while unseen nor drops the fork that
    has it, then the confirmation job, tried again after each failure while no
    other job or request writes in between (the sweep may fail such a payout, see
    [reconcile_fails_settled]), leaves
    the payout FINALIZED and its allocation PAID: no attempt before the
    settlement gives the payout up, and one attempt after it is enough. *)
Theorem confirmation_finalizes n w :
  on_its_way w -> (T <= w_tick w + n)%nat ->
  paid_out (run (attempts (S n) (processConfirmation payoutId signature)) w).1.
Proof.
  revert w. induction n as [|n IH]; intros w Hw HT; rewrite run_attempts;
    destruct (run (processConfirmation payoutId signature) w) as [w1 r] eqn:E;
    (destruct (attempt w w1 r Hw E) as [Hp|(Hr & Hw1 & Ht & HtT)];
      [destruct r as [[]|e]; [exact Hp|by apply attempts_paid]|]).
  - lia.
  - destruct r as [[]|e]; [done|]. apply IH; [exact Hw1|lia].
Qed.
End live.

(* ------------------------------------------------------------------ *)
(** ** An example *)

(** The payout of the example meets a network that has settled it seven ticks
    later. *)
Definition landing_tick : nat := w_tick PayoutsService.demo_submitted + 7.

Example attempts_demo :
  let job := @processConfirmation demo_platform (settling_chain landing_tick) PayoutsService.demo_payout_id demo_signature in
  (run (attempts 1 job) PayoutsService.demo_submitted).2 = Ok false /\
  payout_statuses (run (attempts 1 job) PayoutsService.demo_submitted).1 = [PayoutStatus.SUBMITTED] /\
  (run (attempts 8 job) PayoutsService.demo_submitted).2 = Ok true.
Proof. vm_compute. done. Qed.

Definition demo_height : option Z :=
  Eval vm_compute in (payout_lastValidBlockHeight <$> List.hd_error (w_payouts PayoutsService.demo_submitted)) ≫= id.

Lemma confirmation_finalizes_witness :
  paid_out PayoutsService.demo_payout_id PayoutsService.demo_allocation_id
    (run (attempts 8 (@processConfirmation demo_platform (settling_chain landing_tick)
                        PayoutsService.demo_payout_id demo_signature)) PayoutsService.demo_submitted).1.
Proof.
  apply (@confirmation_finalizes demo_platform (settling_chain landing_tick) PayoutsService.demo_payout_id
           PayoutsService.demo_allocation_id PayoutsService.demo_allocation_id demo_signature demo_height landing_tick).
  - intros t Ht. cbn [getSignatureStatus settlementRecord settling_chain]. apply Nat.leb_le in Ht. rewrite Ht. eauto.
  - intros t s. cbn [getSignatureStatus settling_chain]. destruct (_ <=? _)%nat; [|done]. by intros [= <-].
  - intros t h. cbn [getSignatureStatus settling_chain]. destruct (landing_tick <=? t)%nat eqn:E; [done|]. intros _ Eh.
    apply Nat.leb_gt in E. unfold Money.isBlockhashExpired, demo_height in *. injection Eh as <-. cbn.
    apply Z.ltb_ge. unfold landing_tick in E. assert (w_tick PayoutsService.demo_submitted <= 60)%nat by (vm_compute; lia). lia.
  - done.
  - do 2 eexists. vm_compute. repeat split; auto.
  - vm_compute. lia.
Defined.
End Worker.
