(* ===== verification/Payroll.v ===== *)
(** * Payroll records

    apps/api/src/payroll (service and controller).  A payroll provider's records
    are matched to workers by e-mail and kept one per worker, venue and period;
    the venue's income is then projected again. *)

From stdpp Require Import relations.
From S2P Require Import Prelude Concurrency Strings Schema Demo Float64 Access Allocations IncomeProjector Income Evidence.
Import AccessService.

Open Scope Z_scope.

Module PayrollService.

Definition PAYROLL_WRITE_ROLES : list OrgRole.t := [OrgRole.OWNER; OrgRole.MANAGER; OrgRole.PAYROLL_ADMIN].

Record PayrollImportRecord := mkImport {
  pi_workerEmail : string;
  pi_periodStart : string;
  pi_periodEnd : string;
  pi_reportedTipUsdCents : Z;
  pi_federalWithholdingUsdCents : option Z;
  pi_stateWithholdingUsdCents : option Z;
  pi_socialSecurityUsdCents : option Z;
  pi_medicareUsdCents : option Z;
  pi_status : PayrollStatus.t;
  pi_providerReference : option string
}.

Record ImportSummary := mkImportSummary {
  is_imported : nat;
  is_skipped : list (string * string)
}.

Section service.
Context `{Platform} `{RowSchema}.

Definition periodStart (record : PayrollImportRecord) : Z := EvidenceService.time_of (pi_periodStart record).
Definition periodEnd (record : PayrollImportRecord) : Z := EvidenceService.time_of (pi_periodEnd record).

(** [findUnique({ where: { email }, include: { worker: true } })] *)
Definition workerByEmail (email : string) (w : World) : option Worker :=
  match List.find (fun u => user_email u ==? toLowerCase email) (w_users w) with
  | Some user => List.find (fun x => worker_userId x ==? user_id user) (w_workers w)
  | None => None
  end.

(** The record of a worker for a venue and a period. *)
Definition period_of (workerId venueId : string) (from until : Z) (r : PayrollRecord) : bool :=
  (payroll_workerId r ==? workerId) && (payroll_venueId r ==? venueId)
  && (payroll_periodStart r ==? from) && (payroll_periodEnd r ==? until).

(** The [data] of the row [id]. *)
Definition payroll_data (provider venueId workerId : string) (record : PayrollImportRecord) (id : string)
    : PayrollRecord :=
  mkPayrollRecord id workerId venueId (periodStart record) (periodEnd record)
    (pi_reportedTipUsdCents record) (pi_federalWithholdingUsdCents record)
    (pi_stateWithholdingUsdCents record) (pi_socialSecurityUsdCents record) (pi_medicareUsdCents record)
    (pi_status record)
    (Some (nullish (pi_providerReference record) (provider +:+ ":" +:+ pi_periodStart record))).

(** The amounts fit their 32-bit columns. *)
Definition fits (record : PayrollImportRecord) : bool :=
  let column (o : option Z) := match o with Some z => EvidenceService.int4 z | None => true end in
  EvidenceService.int4 (pi_reportedTipUsdCents record) && column (pi_federalWithholdingUsdCents record)
  && column (pi_stateWithholdingUsdCents record) && column (pi_socialSecurityUsdCents record)
  && column (pi_medicareUsdCents record).

(** One turn of the loop: (imported, skipped). *)
Definition import_record (provider venueId : string) (acc : ImportSummary) (record : PayrollImportRecord)
    : handler ImportSummary :=
  let* worker := query (workerByEmail (pi_workerEmail record)) in
  match worker with
  | None => Ret (mkImportSummary (is_imported acc)
                   (is_skipped acc ++ [(pi_workerEmail record, "no worker profile")]))
  | Some worker =>
      let* existing := findFirst (period_of (worker_id worker) venueId (periodStart record) (periodEnd record)) in
      do* throw_if (negb (fits record)) (PrismaError "P2020") in
      do* match existing with
          | Some e => update (payroll_id e)
                        (fun r => payroll_data provider venueId (worker_id worker) record (payroll_id r))
          | None => let* i := freshId in create (payroll_data provider venueId (worker_id worker) record i)
          end in
      Ret (mkImportSummary (S (is_imported acc)) (is_skipped acc))
  end.

Definition importRecords (venueId provider : string) (records : list PayrollImportRecord)
    : handler ImportSummary :=
  let* venue := findUnique (R:=Venue) venueId in
  do* require venue (NotFoundException ("Venue " +:+ venueId +:+ " not found")) in
  let* summary := fold_prog records (mkImportSummary 0 []) (import_record provider venueId) in
  do* IncomeService.rebuildVenue venueId None "PAYROLL_IMPORT" in
  Ret summary.

(** A record with what it includes: the venue's id and name. *)
Definition statusForWorker (workerId : string) : handler (list (PayrollRecord * option (string * string))) :=
  let* worker := findUnique (R:=Worker) workerId in
  do* require worker (NotFoundException ("Worker " +:+ workerId +:+ " not found")) in
  query (fun w =>
    map (fun r => (r, option_map (fun v => (venue_id v, venue_name v))
                        (List.find (by_id (payroll_venueId r)) (w_venues w))))
      (orderByDesc payroll_periodStart (List.filter (fun r => payroll_workerId r ==? workerId) (w_payrollRecords w)))).

(** *** The controller *)

Definition post_import (user venueId provider : string) (records : list PayrollImportRecord)
    : handler ImportSummary :=
  do* assertVenueRole user venueId PAYROLL_WRITE_ROLES in
  importRecords venueId provider records.

Definition get_status (user workerId : string) : handler (list (PayrollRecord * option (string * string))) :=
  let* worker := findUnique (R:=Worker) workerId in
  do* (if (worker_userId <$> worker) !=? Some user
       then let* entry := findFirst (fun e => entry_workerId e ==? workerId) in
            let* entry := require entry (ForbiddenException "Not authorized for this worker") in
            assertVenueRole user (entry_venueId entry) VENUE_READ_ROLES
       else Ret tt) in
  statusForWorker workerId.
End service.

(* ------------------------------------------------------------------ *)
(** ** One record per worker, venue and period *)

Definition period_key (r : PayrollRecord) : string * string * Z * Z :=
  (payroll_workerId r, payroll_venueId r, payroll_periodStart r, payroll_periodEnd r).

Definition payroll_unique (l : list PayrollRecord) : Prop :=
  NoDup (map payroll_id l) /\ NoDup (map period_key l).

Lemma period_of_key workerId venueId from until r :
  period_of workerId venueId from until r = true <-> period_key r = (workerId, venueId, from, until).
Proof.
  unfold period_of, period_key. rewrite !andb_true_iff, !bool_decide_eq_true. split; [|by intros [= -> -> -> ->]].
  by intros [[[-> ->] ->] ->].
Qed.

(** Overwriting the row of a period. *)
Lemma overwrite_spec (l : list PayrollRecord) e (d : string -> PayrollRecord) :
  (forall i, payroll_id (d i) = i) -> (forall i, period_key (d i) = period_key e) ->
  payroll_unique l -> In e l ->
  let l' := upd_where (by_id (payroll_id e)) (fun r => d (payroll_id r)) l in
  payroll_unique l' /\ In (d (payroll_id e)) l' /\
  forall r, period_key r <> period_key e -> (In r l' <-> In r l).
Proof.
  intros Hi Hk [HN HK] He l'.
  assert (forall r, In r l -> by_id (payroll_id e) r = true -> r = e) as Hu.
  { intros r Hr E. apply bool_decide_eq_true in E. by apply (NoDup_map_inj payroll_id l). }
  assert (map payroll_id l' = map payroll_id l /\ map period_key l' = map period_key l) as [E1 E2].
  { unfold l', upd_where. rewrite !map_map. split; apply map_ext_in; intros r Hr;
      destruct (by_id (payroll_id e) r) eqn:E; [apply Hi|done| |done]. by rewrite Hk, (Hu r Hr E). }
  split; [split; congruence|]. split.
  - apply in_upd_where. exists e. unfold by_id. by rewrite bd_refl.
  - intros r Hne. unfold l'. rewrite in_upd_where. split.
    + intros (r0 & Hr & ->). destruct (by_id (payroll_id e) r0); [by rewrite Hk in Hne|done].
    + intros Hr. exists r. split; [done|]. destruct (by_id (payroll_id e) r) eqn:E; [|done].
      by rewrite (Hu r Hr E) in Hne.
Qed.

(** Appending the row of a new period. *)
Lemma append_spec (l : list PayrollRecord) d :
  payroll_unique l -> existsb (row_clash d) l = false -> (forall r, In r l -> period_key r <> period_key d) ->
  payroll_unique (l ++ [d]) /\ In d (l ++ [d]) /\
  forall r, period_key r <> period_key d -> (In r (l ++ [d]) <-> In r l).
Proof.
  intros [HN HK] Hc Hd. split; [|split; [apply in_app_iff; right; by left|]].
  - split; rewrite map_app; apply NoDup_app; (split; [done|]; split; [|apply NoDup_singleton]);
      intros x Hx Hin; apply list_elem_of_singleton in Hin as ->; apply list_elem_of_In, in_map_iff in Hx as (r & E & Hr).
    + assert (existsb (row_clash d) l = true); [|congruence]. apply existsb_exists. exists r. split; [done|].
      apply bool_decide_eq_true. cbn. congruence.
    + by apply (Hd r).
  - intros r Hne. rewrite in_app_iff. cbn. naive_solver.
Qed.

Section proofs.
Context `{Platform} `{RowSchema}.

(** The row a record is for, whatever its id. *)
Definition target (venueId : string) (record : PayrollImportRecord) (w : World) (r : PayrollRecord) : bool :=
  match workerByEmail (pi_workerEmail record) w with
  | Some wk => period_of (worker_id wk) venueId (periodStart record) (periodEnd record) r
  | None => false
  end.

Definition matched (w : World) (record : PayrollImportRecord) : bool :=
  match workerByEmail (pi_workerEmail record) w with Some _ => true | None => false end.

Lemma workerByEmail_same email w w' :
  w_users w' = w_users w -> w_workers w' = w_workers w -> workerByEmail email w' = workerByEmail email w.
Proof. intros E1 E2. unfold workerByEmail. by rewrite E1, E2. Qed.

Lemma import_record_spec provider venueId acc record w w' acc' :
  run (import_record provider venueId acc record) w = (w', Ok acc') -> payroll_unique (w_payrollRecords w) ->
  w_users w' = w_users w /\ w_workers w' = w_workers w /\ payroll_unique (w_payrollRecords w') /\
  (forall r, target venueId record w r = false -> (In r (w_payrollRecords w') <-> In r (w_payrollRecords w))) /\
  match workerByEmail (pi_workerEmail record) w with
  | None => acc' = mkImportSummary (is_imported acc) (is_skipped acc ++ [(pi_workerEmail record, "no worker profile")])
  | Some wk => acc' = mkImportSummary (S (is_imported acc)) (is_skipped acc) /\
      exists id, In (payroll_data provider venueId (worker_id wk) record id) (w_payrollRecords w')
  end.
Proof.
  intros E HU. unfold import_record, target in *. revert E. wexec.
  destruct (workerByEmail _ w) as [wk|]; wexec; [|by intros [= <- <-]].
  set (d := payroll_data provider venueId (worker_id wk) record).
  set (key := period_of _ _ _ _). destruct (fits record); wexec; [|done].
  assert (forall i, payroll_id (d i) = i) as Hi by done.
  assert (forall i, period_key (d i) = (worker_id wk, venueId, periodStart record, periodEnd record)) as Hd by done.
  assert (forall r, key r = false <-> period_key r <> (worker_id wk, venueId, periodStart record, periodEnd record)) as Hk
    by (intros r; rewrite <- (period_of_key (worker_id wk)), not_true_iff_false; done).
  destruct (List.find key (w_payrollRecords w)) as [e|] eqn:Ee.
  - apply find_In in Ee as [He Ek]. apply period_of_key in Ek. wexec.
    destruct (List.find _ (w_payrollRecords w)); wexec; [|done]. intros [= <- <-]. wcbn.
    destruct (overwrite_spec (w_payrollRecords w) e d Hi) as (HU' & Hin & HI);
      [intros; rewrite Ek; apply Hd|done|done|].
    repeat split_and!; try done; [by apply HU'..| |by exists (payroll_id e)].
    intros r Hr. apply HI. rewrite Ek. by apply Hk.
  - wexec. destruct (existsb _ _) eqn:Ec; wexec; [done|]. intros [= <- <-]. wcbn.
    destruct (append_spec (w_payrollRecords w) (d (uuid (w_tick w))) HU) as (HU' & Hin & HI); [exact Ec| |].
    { intros r Hr Er. rewrite Hd in Er. apply (List.find_none _ _ Ee) in Hr. by apply Hk in Hr. }
    repeat split_and!; try done; [by apply HU'..| |by exists (uuid (w_tick w))].
    intros r Hr. apply HI. rewrite Hd. by apply Hk.
Qed.

Lemma target_same venueId record w w' r :
  w_users w' = w_users w -> w_workers w' = w_workers w -> target venueId record w' r = target venueId record w r.
Proof. intros E1 E2. unfold target. by rewrite (workerByEmail_same _ _ _ E1 E2). Qed.

Lemma import_loop provider venueId records acc w w' acc' :
  run (fold_prog records acc (import_record provider venueId)) w = (w', Ok acc') ->
  payroll_unique (w_payrollRecords w) ->
  payroll_unique (w_payrollRecords w') /\
  is_imported acc' = (is_imported acc + length (List.filter (matched w) records))%nat /\
  map fst (is_skipped acc') = map fst (is_skipped acc)
    ++ map pi_workerEmail (List.filter (fun r => negb (matched w r)) records) /\
  (forall r, existsb (fun x => target venueId x w r) records = false ->
     In r (w_payrollRecords w') <-> In r (w_payrollRecords w)) /\
  forall l1 record l2 wk, records = l1 ++ record :: l2 ->
    workerByEmail (pi_workerEmail record) w = Some wk ->
    existsb (fun x => target venueId x w (payroll_data provider venueId (worker_id wk) record "")) l2 = false ->
    exists id, In (payroll_data provider venueId (worker_id wk) record id) (w_payrollRecords w').
Proof.
  revert acc w. induction records as [|x records IH]; intros acc w E HU; cbn [fold_prog] in E.
  { injection E as <- <-. split; [done|]. cbn. rewrite app_nil_r. repeat split; [lia|done..|].
    intros l1 ? ? ? Hl. by destruct l1. }
  rewrite run_bind in E. destruct (run (import_record _ _ acc x) w) as [w1 [acc1|e]] eqn:E1; [|done].
  apply import_record_spec in E1 as (U1 & U2 & HU1 & HI1 & HX); [|done].
  apply IH in E as (HU' & Hc & Hs & HI & HL); [|done]. clear IH.
  assert (forall y, matched w1 y = matched w y) as Hm by (intros; unfold matched; by rewrite (workerByEmail_same _ _ _ U1 U2)).
  rewrite (filter_ext_in (matched w1) (matched w)) in Hc by auto.
  rewrite (filter_ext_in (fun r => negb (matched w1 r)) (fun r => negb (matched w r))) in Hs
    by (intros; by rewrite Hm).
  split; [exact HU'|]. cbn [List.filter existsb].
  assert (matched w x = match workerByEmail (pi_workerEmail x) w with Some _ => true | None => false end) as -> by done.
  assert (forall l r, existsb (fun y => target venueId y w1 r) l = existsb (fun y => target venueId y w r) l) as Ht.
  { intros l r. induction l as [|y l IHl]; [done|]. cbn. by rewrite IHl, (target_same _ _ _ _ _ U1 U2). }
  split; [|split; [|split]].
  - rewrite Hc. destruct (workerByEmail _ w); [destruct HX as [-> _]|subst acc1]; cbn; lia.
  - rewrite Hs. destruct (workerByEmail _ w); [by destruct HX as [-> _]|subst acc1]. cbn.
    by rewrite map_app, <- app_assoc.
  - intros r Hr. apply orb_false_iff in Hr as [Hr1 Hr2]. rewrite HI by (by rewrite Ht). by apply HI1.
  - intros l1 record l2 wk Hl Hw Hlater. destruct l1 as [|y l1]; injection Hl as -> ->.
    + rewrite Hw in HX. destruct HX as (_ & id & Hin). exists id. apply HI; [|exact Hin]. rewrite Ht. exact Hlater.
    + apply (HL l1 record l2 wk eq_refl); [by rewrite (workerByEmail_same _ _ _ U1 U2)|]. by rewrite Ht.
Qed.

Lemma rebuild_keeps_payroll venueId actor source :
  guar (same_on w_payrollRecords) (IncomeService.rebuildVenue venueId actor source).
Proof.
  unfold IncomeService.rebuildVenue, IncomeProjector.rebuildVenueIncome, IncomeProjector.rebuildVenueIncomeLocked,
    IncomeProjector.rebuild_shift, IncomeProjector.create_alert, audit.
  guar_at (same_on w_payrollRecords).
Qed.

(** An import keeps one record per worker, venue and period; it counts the
    records of known workers and reports the others by e-mail; the last record
    of a file for a worker and period is what is stored; every row the file does
    not name is left as it was. *)
Theorem importRecords_spec venueId provider records w w' summary :
  run (importRecords venueId provider records) w = (w', Ok summary) -> payroll_unique (w_payrollRecords w) ->
  payroll_unique (w_payrollRecords w') /\
  is_imported summary = length (List.filter (matched w) records) /\
  map fst (is_skipped summary) = map pi_workerEmail (List.filter (fun r => negb (matched w r)) records) /\
  (forall r, existsb (fun x => target venueId x w r) records = false ->
     In r (w_payrollRecords w') <-> In r (w_payrollRecords w)) /\
  forall l1 record l2 wk, records = l1 ++ record :: l2 ->
    workerByEmail (pi_workerEmail record) w = Some wk ->
    existsb (fun x => target venueId x w (payroll_data provider venueId (worker_id wk) record "")) l2 = false ->
    exists id, In (payroll_data provider venueId (worker_id wk) record id) (w_payrollRecords w').
Proof.
  unfold importRecords. wexec. destruct (List.find _ _); wexec; [|done].
  destruct (run (fold_prog _ _ _) w) as [w1 [acc|e]] eqn:E; wexec; [|done].
  pose proof (guar_run _ _ w1 (rebuild_keeps_payroll venueId None "PAYROLL_IMPORT")) as HF.
  destruct (run (IncomeService.rebuildVenue _ _ _) w1) as [w2 [x|e]]; wexec; [|done].
  intros [= <- <-] HU. unfold same_on in HF. cbn [fst] in HF. rewrite HF.
  apply (import_loop _ _ _ _ _ _ _ E HU).
Qed.

Lemma in_orderByDesc {R} (f : R -> Z) l r : In r (orderByDesc f l) <-> In r l.
Proof.
  unfold orderByDesc. split; apply Permutation_in; [|symmetry]; apply stable_sort_Permutation.
Qed.

(** The payroll of a worker is shown only to the worker and to the staff of
    a venue where the worker has an income entry. *)
Theorem payroll_status_guarded user workerId w w' l :
  run (get_status user workerId) w = (w', Ok l) ->
  w' = w /\
  ((exists wk, List.find (by_id workerId) (w_workers w) = Some wk /\ worker_userId wk = user) \/
   exists e, In e (w_incomeEntries w) /\ entry_workerId e = workerId /\
             has_venue_role w user (entry_venueId e) VENUE_READ_ROLES = true) /\
  forall r, In r (map fst l) <-> In r (w_payrollRecords w) /\ payroll_workerId r = workerId.
Proof.
  unfold get_status, statusForWorker. wexec. destruct (_ !=? Some user) eqn:Eu; wexec.
  - destruct (List.find _ (w_incomeEntries w)) as [e|] eqn:Ee; wexec; [|done].
    apply find_In in Ee as [He Ew]. apply bool_decide_eq_true in Ew.
    destruct (List.find (by_id (entry_venueId e)) (w_venues w)) as [v|] eqn:Ev; [|done].
    destruct (role_allowed _ _) eqn:Er; [|done]. wexec.
    destruct (List.find (by_id workerId) (w_workers w)); wexec; [|done]. intros [= <- <-]. split; [done|]. split.
    + right. exists e. unfold has_venue_role. by rewrite Ev, Er.
    + intros r. rewrite map_map, map_id, in_orderByDesc, filter_In, bool_decide_eq_true. done.
  - destruct (List.find (by_id workerId) (w_workers w)) as [wk|] eqn:Ew; wexec; [|done].
    apply negb_false_iff, bool_decide_eq_true in Eu. injection Eu as Eu. intros [= <- <-]. split; [done|]. split.
    + left. eauto.
    + intros r. rewrite map_map, map_id, in_orderByDesc, filter_In, bool_decide_eq_true. done.
Qed.
End proofs.

(* ------------------------------------------------------------------ *)
(** ** A worker of two venues *)

#[local] Existing Instance EvidenceService.demo_schema.

Definition demo_staff : World :=
  AllocationsService.demo_day
    <| w_users := [mkUser "u1" "auth1" "kim@x.test" "Kim" GlobalRole.WORKER] |>
    <| w_workers := [mkWorker "w1" "u1" None] |>
    <| w_venues := [mkVenue "v" "org" "Bar" "UTC" None None None []; mkVenue "v2" "org2" "Cafe" "UTC" None None None []] |>
    <| w_members := [mkOrganizationMember "m" "org" "boss" OrgRole.OWNER;
                     mkOrganizationMember "m2" "org2" "boss2" OrgRole.OWNER] |>
    <| w_incomeEntries := [IncomeProjector.demo_entry "e1" EffectiveStatus.ACTIVE None;
                           (IncomeProjector.demo_entry "e2" EffectiveStatus.ACTIVE None)
                             <| entry_venueId := "v2" |>] |>.

Definition demo_record (email : string) (tips : Z) : PayrollImportRecord :=
  mkImport email "0" "100" tips None None None None PayrollStatus.PENDING None.

(** The staff of the second venue are refused, although the worker has an entry
    there: only the venue of the first entry is looked at. *)
Example status_first_venue_only :
  has_venue_role demo_staff "boss2" "v2" VENUE_READ_ROLES = true /\
  (run (get_status "boss2" "w1") demo_staff).2
  = Err (ForbiddenException "Insufficient organization role for this venue").
Proof. vm_compute. done. Qed.

(** Two imports of one record whose reads both come before the writes store it
    twice: the pair (worker, venue, period) is not a key of the table. *)
Example imports_race :
  let file := [demo_record "kim@x.test" 500] in
  let c := schedule [0; 1; 0; 1; 0; 1; 0; 0; 0; 1; 1; 1]%nat
             (demo_staff, [importRecords "v" "gusto_mock" file; importRecords "v" "gusto_mock" file]) in
  map period_key (w_payrollRecords c.1) = [("w1", "v", 0, 100); ("w1", "v", 0, 100)].
Proof. vm_compute. reflexivity. Qed.

Lemma importRecords_spec_witness :
  let file := [demo_record "Kim@x.test" 500; demo_record "lee@x.test" 1; demo_record "kim@x.test" 700] in
  exists w' summary id, run (importRecords "v" "gusto_mock" file) demo_staff = (w', Ok summary) /\
    is_imported summary = 2%nat /\ map fst (is_skipped summary) = ["lee@x.test"] /\
    In (payroll_data "gusto_mock" "v" "w1" (demo_record "kim@x.test" 700) id) (w_payrollRecords w').
Proof.
  cbv zeta. set (file := [demo_record "Kim@x.test" 500; demo_record "lee@x.test" 1; demo_record "kim@x.test" 700]).
  destruct (run (importRecords "v" "gusto_mock" file) demo_staff) as [w' [summary|e]] eqn:E.
  - destruct (importRecords_spec "v" "gusto_mock" file demo_staff w' summary E) as (_ & Hc & Hs & _ & HL).
    { split; constructor. }
    destruct (HL (take 2 file) (demo_record "kim@x.test" 700) [] (mkWorker "w1" "u1" None)) as [id Hin].
    + reflexivity.
    + vm_compute. reflexivity.
    + reflexivity.
    + exists w', summary, id. split; [done|]. split; [rewrite Hc; vm_compute; done|].
      split; [rewrite Hs; vm_compute; done|exact Hin].
  - apply (f_equal (fun c => is_ok c.2)) in E. vm_compute in E. discriminate E.
Defined.

Lemma payroll_status_guarded_witness :
  exists l, run (get_status "boss" "w1") demo_staff = (demo_staff, Ok l) /\
    exists e, In e (w_incomeEntries demo_staff) /\ entry_workerId e = "w1" /\
              has_venue_role demo_staff "boss" (entry_venueId e) VENUE_READ_ROLES = true.
Proof.
  destruct (run (get_status "boss" "w1") demo_staff) as [w' [l|e]] eqn:E.
  - destruct (payroll_status_guarded "boss" "w1" demo_staff w' l E) as (-> & [(wk & Hw & Hu)|He] & _).
    + vm_compute in Hw. injection Hw as <-. discriminate Hu.
    + exists l. split; [done|exact He].
  - apply (f_equal (fun c => is_ok c.2)) in E. vm_compute in E. discriminate E.
Defined.

End PayrollService.
