(* ===== verification/Workers.v ===== *)
(** * Workers and wallets

    apps/api/src/workers (service and controller) and the masks of
    apps/api/src/common/privacy.ts: the profile of a worker, the cards of the
    venues they are connected to, the unreported income of the year, and the
    wallets payouts go to.  The column [IncomeEntry.updatedAt] is not a column
    of the model, so a card has the count of entries without the latest update. *)

From stdpp Require Import relations.
From S2P Require Import Prelude Concurrency Strings Schema Demo Float64 Access Allocations IncomeProjector Income.

Open Scope Z_scope.

Module Privacy.

Definition maskEmail (email : string) : string :=
  let local := nullish (nth_error (split "@" email) 0) "" in
  let domain := nullish (nth_error (split "@" email) 1) "" in
  if domain ==? "" then "***"
  else
    let visible := slice_to local (Nat.min 2 (String.length local)) in
    visible +:+ repeat_str "*" (Nat.max 3 (String.length local - String.length visible)) +:+ "@" +:+ domain.

Definition maskWallet (address : option string) : option string :=
  match address with
  | None => None
  | Some a =>
      if a ==? "" then None
      else if (String.length a <=? 10)%nat then Some a
      else Some (slice_to a 4 +:+ "…" +:+ slice_from a (String.length a - 4))
  end.

Example mask_ex :
  maskEmail "kim@x.test" = "ki***@x.test" /\ maskEmail "nobody" = "***" /\
  maskWallet (Some "AbCdEfGhIjKlMnOp") = Some "AbCd…MnOp".
Proof. vm_compute. done. Qed.
End Privacy.

Module WorkersService.
Import IncomeService.

(* ------------------------------------------------------------------ *)
(** ** Views *)

Record Me := mkMe {
  me_worker : Worker;
  me_user : option (string * string);
  me_wallets : list WorkerWallet;
  me_externalAccounts : list (ExternalWorkerAccount * option (string * string))
}.

Definition wallets_of (workerId : string) (w : World) : list WorkerWallet :=
  orderByAsc wallet_linkedAt (List.filter (fun x => wallet_workerId x ==? workerId) (w_wallets w)).

Definition user_view (w : World) (worker : Worker) : option (string * string) :=
  (fun u => (user_email u, user_displayName u)) <$> List.find (by_id (worker_userId worker)) (w_users w).

Definition venue_view (w : World) (venueId : string) : option (string * string) :=
  (fun v => (venue_id v, venue_name v)) <$> List.find (by_id venueId) (w_venues w).

(** The worker of a user with everything [getMe] includes. *)
Definition me_data (userId : string) (w : World) : option Me :=
  (fun worker => mkMe worker (user_view w worker) (wallets_of (worker_id worker) w)
     (map (fun a => (a, venue_view w (account_venueId a)))
        (List.filter (fun a => account_workerId a ==? worker_id worker) (w_accounts w))))
  <$> List.find (fun x => worker_userId x ==? userId) (w_workers w).

(** [select: { id, address, isDefault, status, linkedAt }] *)
Definition wallet_columns (x : WorkerWallet) : string * string * bool * WalletStatus.t * Z :=
  (wallet_id x, wallet_address x, wallet_isDefault x, wallet_status x, wallet_linkedAt x).

Record Overview := mkOverview {
  ov_me : string * option (string * string) * list (string * string * bool * WalletStatus.t * Z);
  ov_summary : Summary;
  ov_alerts : list DiscrepancyView;
  ov_timeline : Timeline
}.

(** The rows of a worker's allocations at a venue in the order of the raw query,
    [businessDate DESC, batch.createdAt DESC, id DESC]; the batches of the model
    are in creation order. *)
Definition allocation_rows (workerId venueId : string) (w : World) : list (AllocationBatch * WorkerAllocation) :=
  let of_batch b := stable_sort (fun x y => str_lt (alloc_id x.2) (alloc_id y.2))
    (map (fun a => (b, a))
       (List.filter (fun a => (alloc_batchId a ==? batch_id b) && (alloc_workerId a ==? Some workerId))
          (w_allocations w))) in
  stable_sort (fun x y => str_lt (batch_businessDate y.1) (batch_businessDate x.1))
    (rev (concat (map of_batch (List.filter (fun b => batch_venueId b ==? venueId) (w_batches w))))).

(** The latest payout of a worker at a venue. *)
Definition latest_payout (workerId venueId : string) (w : World) : option Payout :=
  last (List.filter (fun p => (payout_workerId p ==? workerId) && (payout_venueId p ==? venueId)) (w_payouts w)).

Definition active_entries (workerId venueId : string) (w : World) : nat :=
  length (List.filter (fun e => active_of workerId e && (entry_venueId e ==? venueId)) (w_incomeEntries w)).

Record Connection := mkConnection {
  cn_venue : option (string * string);
  cn_connectionStage : string;
  cn_externalAccounts : list (string * string * string * MappingStatus.t * option Z);
  cn_defaultWalletMasked : option string;
  cn_latestAllocation : option (string * Z * AllocPayoutStatus.t * option PayoutRail.t);
  cn_latestPayout : option (PayoutRail.t * PayoutStatus.t * option string * option Z);
  cn_incomeEntryCount : nat
}.

Definition connection_stage (confirmed walletReady : bool) : string :=
  if confirmed then if walletReady then "PAYOUT_READY" else "CONNECTED" else "MAPPING_PENDING".

(** The worker with the default wallet and the connections that were not
    rejected, in the order they were made. *)
Record ConnectedWorker := mkConnected {
  cw_worker : Worker;
  cw_defaultWallet : option WorkerWallet;
  cw_externalAccounts : list (ExternalWorkerAccount * option (string * string))
}.

Definition connected_data (userId : string) (w : World) : option ConnectedWorker :=
  (fun worker => mkConnected worker (included (w_wallets w) (worker_defaultWalletId worker))
     (map (fun a => (a, venue_view w (account_venueId a)))
        (List.filter (fun a => (account_workerId a ==? worker_id worker)
                               && (account_mappingStatus a !=? MappingStatus.REJECTED)) (w_accounts w))))
  <$> List.find (fun x => worker_userId x ==? userId) (w_workers w).

(** One card, given the answers of the three queries. *)
Definition connection_card (worker : ConnectedWorker) (venueId : string)
    (latestAllocation : option (AllocationBatch * WorkerAllocation)) (latestPayout : option Payout)
    (count : nat) : Connection :=
  let accounts := List.filter (fun a => account_venueId a.1 ==? venueId) (cw_externalAccounts worker) in
  let confirmed := existsb (fun a => account_mappingStatus a.1 ==? MappingStatus.CONFIRMED) accounts in
  let walletReady := match cw_defaultWallet worker with
                     | Some x => wallet_status x ==? WalletStatus.ACTIVE
                     | None => false
                     end in
  mkConnection (head accounts ≫= snd) (connection_stage confirmed walletReady)
    (map (fun a => (account_id a.1, account_provider a.1, account_externalWorkerId a.1,
                    account_mappingStatus a.1, account_verifiedAt a.1)) accounts)
    (Privacy.maskWallet (wallet_address <$> cw_defaultWallet worker))
    ((fun x => (batch_businessDate x.1, alloc_netAllocatedUsdCents x.2, alloc_payoutStatus x.2,
                alloc_payoutRail x.2)) <$> latestAllocation)
    ((fun p => (payout_rail p, payout_status p, payout_txSignature p, payout_settledAt p)) <$> latestPayout)
    count.

(* ------------------------------------------------------------------ *)
(** ** Tax readiness *)

Definition utc_year (ms : Z) : Z := let '(y, _, _) := civil_from_days (ms / 86400000) in y.
Definition year_start (year : Z) : Z := days_from_civil year 1 1 * 86400000.

Record TaxReadiness := mkTax {
  tx_year : Z;
  tx_unmatchedUsdCents : Z;
  tx_withholdingUnknownUsdCents : Z;
  tx_devnetTestUsdCents : Z;
  tx_byRail : list (string * Z)
}.
#[export] Instance eta_TaxReadiness : Eta TaxReadiness := fun r => mkTax
  (tx_year r) (tx_unmatchedUsdCents r) (tx_withholdingUnknownUsdCents r) (tx_devnetTestUsdCents r) (tx_byRail r).

Definition unmatched (e : IncomeEntry) : Z := Z.max 0 (entry_paidUsdCents e - entry_payrollReportedUsdCents e).

(** One turn of the loop; an entry comes with the asset of its payout. *)
Definition add_entry (t : TaxReadiness) (x : IncomeEntry * option string) : TaxReadiness :=
  let '(entry, asset) := x in
  if asset ==? Some "tUSDC" then t <| tx_devnetTestUsdCents ::= fun z => z + unmatched entry |>
  else
    let rail := match entry_payoutRail entry with Some r => PayoutRail.name r | None => "UNSPECIFIED" end in
    let t := t <| tx_unmatchedUsdCents ::= fun z => z + unmatched entry |>
               <| tx_byRail ::= fun m => map_set m rail (nullish (map_get m rail) 0 + unmatched entry) |> in
    if entry_withholdingStatus entry !=? WithholdingStatus.CONFIRMED
    then t <| tx_withholdingUnknownUsdCents ::= fun z => z + entry_paidUsdCents entry |>
    else t.

(** The [where] of the year: the shift's clock-in, or the entry's creation when
    it has no shift. *)
Definition in_year (w : World) (yearStart yearEnd : Z) (e : IncomeEntry) : bool :=
  match entry_shiftId e with
  | Some _ => match included (w_shifts w) (entry_shiftId e) with
              | Some s => (yearStart <=? shift_clockIn s) && (shift_clockIn s <? yearEnd)
              | None => false
              end
  | None => (yearStart <=? entry_createdAt e) && (entry_createdAt e <? yearEnd)
  end.

Definition year_entries (workerId : string) (yearStart yearEnd : Z) (w : World)
    : list (IncomeEntry * option string) :=
  map (fun e => (e, payout_asset <$> included (w_payouts w) (entry_payoutId e)))
    (List.filter (fun e => active_of workerId e && in_year w yearStart yearEnd e) (w_incomeEntries w)).

(* ------------------------------------------------------------------ *)
(** ** The operations *)

(** The unique key (worker, chain, address) of a wallet. *)
Definition wallet_key (workerId address : string) (x : WorkerWallet) : bool :=
  (wallet_workerId x ==? workerId) && (wallet_chain x ==? "solana") && (wallet_address x ==? address).

Section service.
Context `{Platform}.

Definition getWorkerByUserId (userId : string) : handler Worker :=
  let* worker := findFirst (fun x => worker_userId x ==? userId) in
  require worker (NotFoundException "No worker profile for this user").

Definition getMe (userId : string) : handler Me :=
  let* me := query (me_data userId) in
  require me (NotFoundException "No worker profile for this user").

Definition overview (userId : string) : handler Overview :=
  let* me := query (me_data userId) in
  let* me := require me (NotFoundException "No worker profile for this user") in
  let id := worker_id (me_worker me) in
  let* summary := summaryForWorker id in
  let* alerts := discrepanciesForWorker id in
  let* timeline := timelineForWorker id None 25 in
  Ret (mkOverview (id, me_user me, map wallet_columns (me_wallets me)) summary alerts timeline).

Definition venueConnections (userId : string) : handler (list Connection) :=
  let* worker := query (connected_data userId) in
  let* worker := require worker (NotFoundException "No worker profile for this user") in
  let venueIds := distinct (map (fun a => account_venueId a.1) (cw_externalAccounts worker)) in
  if (length venueIds =? 0)%nat then Ret []
  else
    let workerId := worker_id (cw_worker worker) in
    let* allocations := query (fun w => map (fun v => (v, head (allocation_rows workerId v w))) venueIds) in
    let* payouts := query (fun w => map (fun v => (v, latest_payout workerId v w)) venueIds) in
    let* incomeEntries := query (fun w => map (fun v => (v, active_entries workerId v w)) venueIds) in
    Ret (map (fun v => connection_card worker v (map_get allocations v ≫= id) (map_get payouts v ≫= id)
                         (nullish (map_get incomeEntries v) 0%nat)) venueIds).

Definition taxReadiness (userId : string) : handler TaxReadiness :=
  let* worker := getWorkerByUserId userId in
  let* t := newDate in
  let year := utc_year t in
  let* entries := query (year_entries (worker_id worker) (year_start year) (year_start (year + 1))) in
  Ret (fold_left add_entry entries (mkTax year 0 0 0 [])).

Definition addWallet (userId address : string) (walletType : option WalletType.t) : handler WorkerWallet :=
  let* worker := getWorkerByUserId userId in
  transaction (
    let* i := freshId in
    let* linkedAt := newDate in
    let* wallet := upsert (wallet_key (worker_id worker) address)
      (fun x => x <| wallet_status := WalletStatus.ACTIVE |>)
      (mkWorkerWallet i (worker_id worker) "solana" address (nullish walletType WalletType.EXTERNAL)
         WalletStatus.ACTIVE false linkedAt) in
    if negb (truthy (worker_defaultWalletId worker))
    then
      do* update (R:=Worker) (worker_id worker) (fun x => x <| worker_defaultWalletId := Some (wallet_id wallet) |>) in
      update (R:=WorkerWallet) (wallet_id wallet) (fun x => x <| wallet_isDefault := true |>)
    else Ret wallet).

Definition setDefaultWallet (userId walletId : string) : handler Me :=
  let* worker := getWorkerByUserId userId in
  let* wallet := findUnique (R:=WorkerWallet) walletId in
  let* wallet := require wallet (NotFoundException "Wallet not found") in
  do* throw_if (wallet_workerId wallet !=? worker_id worker) (NotFoundException "Wallet not found") in
  do* throw_if (wallet_status wallet !=? WalletStatus.ACTIVE)
    (BadRequestException "Disabled wallet cannot be the default") in
  do* transaction (
    do* updateMany (fun x => wallet_workerId x ==? worker_id worker) (fun x => x <| wallet_isDefault := false |>) in
    do* update (R:=WorkerWallet) walletId (fun x => x <| wallet_isDefault := true |>) in
    do* update (R:=Worker) (worker_id worker) (fun x => x <| worker_defaultWalletId := Some walletId |>) in
    Ret tt) in
  getMe userId.
End service.

(* ------------------------------------------------------------------ *)
(** ** Tax readiness adds up *)

Lemma sumZ_map_set (m : list (string * Z)) k d :
  sumZ snd (map_set m k (nullish (map_get m k) 0 + d)) = sumZ snd m + d.
Proof.
  induction m as [|[k' v] m IH]; cbn; [lia|]. destruct (k' ==? k); cbn; [lia|]. rewrite IH. lia.
Qed.

Definition is_test (x : IncomeEntry * option string) : bool := x.2 ==? Some "tUSDC".

Lemma add_entries_sum l t :
  let r := fold_left add_entry l t in
  tx_year r = tx_year t /\
  sumZ snd (tx_byRail r) - tx_unmatchedUsdCents r = sumZ snd (tx_byRail t) - tx_unmatchedUsdCents t /\
  tx_unmatchedUsdCents r = tx_unmatchedUsdCents t
    + sumZ (fun x => unmatched x.1) (List.filter (fun x => negb (is_test x)) l) /\
  tx_devnetTestUsdCents r = tx_devnetTestUsdCents t + sumZ (fun x => unmatched x.1) (List.filter is_test l) /\
  tx_withholdingUnknownUsdCents r = tx_withholdingUnknownUsdCents t
    + sumZ (fun x => entry_paidUsdCents x.1)
        (List.filter (fun x => negb (is_test x) && (entry_withholdingStatus x.1 !=? WithholdingStatus.CONFIRMED)) l).
Proof.
  revert t. induction l as [|[e asset] l IH]; intros t; cbn [fold_left].
  { cbv zeta. cbn. lia. }
  destruct (IH (add_entry t (e, asset))) as (Hy & Hr & Hu & Hd & Hw). cbv zeta in *.
  rewrite Hy, Hr, Hu, Hd, Hw. clear. cbn [List.filter fst snd]. unfold add_entry.
  assert (is_test (e, asset) = (asset ==? Some "tUSDC")) as -> by done.
  destruct t as [y u h d m], (asset ==? Some "tUSDC"), (entry_withholdingStatus e !=? WithholdingStatus.CONFIRMED);
    cbn [negb andb sumZ fst set tx_year tx_unmatchedUsdCents tx_withholdingUnknownUsdCents tx_devnetTestUsdCents tx_byRail];
    rewrite ?sumZ_map_set; repeat split; lia.
Qed.

Section tax.
Context `{Platform}.

(** The tax readiness of a year partitions what was paid beyond the payroll
    reports: the amounts by rail add up to the unmatched total, which is the
    excess of every active entry of the year not paid in test tokens; the
    excess paid in test tokens is counted apart; and the withholding-unknown
    total is what the entries without confirmed withholding were paid. *)
Theorem taxReadiness_partitions userId w w' t :
  run (taxReadiness userId) w = (w', Ok t) ->
  exists wk entries, List.find (fun x => worker_userId x ==? userId) (w_workers w) = Some wk /\
    entries = year_entries (worker_id wk) (year_start (tx_year t)) (year_start (tx_year t + 1)) w /\
    tx_year t = utc_year (now (w_tick w)) /\
    sumZ snd (tx_byRail t) = tx_unmatchedUsdCents t /\
    tx_unmatchedUsdCents t + tx_devnetTestUsdCents t = sumZ (fun x => unmatched x.1) entries /\
    tx_devnetTestUsdCents t = sumZ (fun x => unmatched x.1) (List.filter is_test entries) /\
    tx_withholdingUnknownUsdCents t = sumZ (fun x => entry_paidUsdCents x.1)
      (List.filter (fun x => negb (is_test x) && (entry_withholdingStatus x.1 !=? WithholdingStatus.CONFIRMED)) entries).
Proof.
  unfold taxReadiness, getWorkerByUserId. wexec. destruct (List.find _ _) as [wk|]; wexec; [|done].
  set (y := utc_year _). set (l := year_entries _ _ _ _). intros [= <- <-].
  destruct (add_entries_sum l (mkTax y 0 0 0 [])) as (Hy & Hr & Hu & Hd & Hw). cbv zeta in *.
  cbn [tx_year tx_unmatchedUsdCents tx_withholdingUnknownUsdCents tx_devnetTestUsdCents tx_byRail sumZ] in Hy, Hr, Hu, Hd, Hw.
  exists wk, l. rewrite Hy. repeat (split; [done || lia|]). split; [|lia].
  rewrite Hu, Hd. clear. induction l as [|x l IH]; [done|]. cbn. destruct (is_test x); cbn; lia.
Qed.
End tax.

(* ------------------------------------------------------------------ *)
(** ** Exactly one default wallet *)

(** The wallets of a worker agree with the worker's default: no wallet is marked
    before there is one; then it is an active wallet of the worker and the only
    one marked. *)
Definition default_state (wallets : list WorkerWallet) (wk : Worker) : Prop :=
  match worker_defaultWalletId wk with
  | None => forall x, In x wallets -> wallet_workerId x = worker_id wk -> wallet_isDefault x = false
  | Some d => d <> "" /\
      (exists x, In x wallets /\ wallet_id x = d /\ wallet_workerId x = worker_id wk /\
                 wallet_status x = WalletStatus.ACTIVE) /\
      forall x, In x wallets -> wallet_workerId x = worker_id wk -> wallet_isDefault x = (wallet_id x ==? d)
  end.

Definition wallet_ids_ok (l : list WorkerWallet) : Prop :=
  NoDup (map wallet_id l) /\ Forall (fun x => wallet_id x <> "") l.

Definition wallets_ok (w : World) : Prop :=
  NoDup (map worker_id (w_workers w)) /\ wallet_ids_ok (w_wallets w) /\
  Forall (default_state (w_wallets w)) (w_workers w).

(** A change of the wallets that leaves those of the worker alone, or only
    activates them. *)
Lemma default_state_map (g : WorkerWallet -> WorkerWallet) l wk :
  (forall x, In x l -> wallet_id (g x) = wallet_id x /\ wallet_workerId (g x) = wallet_workerId x /\
     (wallet_workerId x = worker_id wk -> wallet_isDefault (g x) = wallet_isDefault x /\
        (wallet_status x = WalletStatus.ACTIVE -> wallet_status (g x) = WalletStatus.ACTIVE))) ->
  default_state l wk -> default_state (map g l) wk.
Proof.
  intros Hg. unfold default_state. destruct (worker_defaultWalletId wk) as [d|].
  - intros (Hd & (x & Hx & Ei & Ew & Es) & Ha). split; [done|]. split.
    + exists (g x). destruct (Hg x Hx) as (E1 & E2 & E3). split; [by apply in_map|].
      destruct (E3 Ew) as [_ E4]. repeat split; [congruence..|auto].
    + intros y Hy. apply in_map_iff in Hy as (z & <- & Hz). destruct (Hg z Hz) as (E1 & E2 & E3).
      rewrite E2, E1. intros Hw. destruct (E3 Hw) as [-> _]. by apply Ha.
  - intros Ha y Hy. apply in_map_iff in Hy as (z & <- & Hz). destruct (Hg z Hz) as (E1 & E2 & E3).
    rewrite E2. intros Hw. destruct (E3 Hw) as [-> _]. by apply Ha.
Qed.

(** Making [x0] the default: it is the only marked wallet of its worker, and
    the wallets of other workers stay. *)
Lemma default_state_set (g : WorkerWallet -> WorkerWallet) l ws workerId x0 :
  In x0 l -> wallet_workerId x0 = workerId -> wallet_status x0 = WalletStatus.ACTIVE -> wallet_id x0 <> "" ->
  (forall x, In x l -> wallet_id (g x) = wallet_id x /\ wallet_workerId (g x) = wallet_workerId x /\
     wallet_status (g x) = wallet_status x /\
     wallet_isDefault (g x) = if wallet_workerId x ==? workerId then wallet_id x ==? wallet_id x0
                              else wallet_isDefault x) ->
  Forall (default_state l) ws ->
  Forall (default_state (map g l))
    (upd_where (by_id workerId) (fun wk => wk <| worker_defaultWalletId := Some (wallet_id x0) |>) ws).
Proof.
  intros Hx0 Hw0 Hs0 Hi0 Hg HF. apply Forall_map. eapply Forall_impl; [exact HF|]. intros wk Hwk. cbn beta.
  unfold by_id. cbn [row_id row_Worker]. destruct (worker_id wk ==? workerId) eqn:E.
  - apply bool_decide_eq_true in E. unfold default_state. cbn. split; [done|]. split.
    + exists (g x0). destruct (Hg x0 Hx0) as (E1 & E2 & E3 & _). split; [by apply in_map|]. repeat split; congruence.
    + intros y Hy. apply in_map_iff in Hy as (z & <- & Hz). destruct (Hg z Hz) as (E1 & E2 & _ & ->).
      rewrite E2, E1, E. intros ->. by rewrite bd_refl.
  - apply bool_decide_eq_false in E. apply default_state_map; [|done]. intros x Hx.
    destruct (Hg x Hx) as (E1 & E2 & E3 & E4). split; [done|]. split; [done|]. intros Hw.
    rewrite E4, E3. split; [|done]. rewrite bool_decide_eq_false_2; [done|congruence].
Qed.

(** Appending a wallet that is not marked. *)
Lemma default_state_app l x wk :
  wallet_isDefault x = false -> (forall y, In y l -> wallet_id y <> wallet_id x) ->
  default_state l wk -> default_state (l ++ [x]) wk.
Proof.
  intros Hx Hid. unfold default_state. destruct (worker_defaultWalletId wk) as [d|].
  - intros (Hd & (y & Hy & Ei & Ew & Es) & Ha). split; [done|]. split.
    + exists y. rewrite in_app_iff. auto.
    + intros z Hz Hw. apply in_app_iff in Hz as [Hz|[<-|[]]]; [by apply Ha|].
      rewrite Hx, bool_decide_eq_false_2; [done|]. intros E. apply (Hid y Hy). congruence.
  - intros Ha z Hz Hw. apply in_app_iff in Hz as [Hz|[<-|[]]]; [by apply Ha|done].
Qed.

Lemma map_upd_where {R X} (h : R -> X) p f (l : list R) :
  (forall r, h (f r) = h r) -> map h (upd_where p f l) = map h l.
Proof. intros Hf. unfold upd_where. rewrite map_map. apply map_ext. intros r. by destruct (p r). Qed.

Section defaults.
Context `{Platform}.
(** Identifiers are not empty. *)
Hypothesis uuid_nonempty : forall t, uuid t <> "".

Definition activate (x : WorkerWallet) : WorkerWallet := x <| wallet_status := WalletStatus.ACTIVE |>.
Definition mark (x : WorkerWallet) : WorkerWallet := x <| wallet_isDefault := true |>.

Lemma wallet_ids_ok_upd p f l :
  (forall x, wallet_id (f x) = wallet_id x) -> wallet_ids_ok l -> wallet_ids_ok (upd_where p f l).
Proof.
  intros Hf [HN HE]. split; [by rewrite map_upd_where|]. apply Forall_map. eapply Forall_impl; [exact HE|].
  intros x Hx. cbn. destruct (p x); [by rewrite Hf|done].
Qed.

(** What the upsert of [addWallet] leaves. *)
Lemma upsert_wallet_ok l ws workerId address old :
  List.find (wallet_key workerId address) l = Some old ->
  wallet_ids_ok l -> Forall (default_state l) ws ->
  let l' := upd_where (wallet_key workerId address) activate l in
  wallet_ids_ok l' /\ Forall (default_state l') ws /\ In (activate old) l' /\
  wallet_workerId old = workerId /\ wallet_id old <> "".
Proof.
  intros Ef HI HF l'. apply find_In in Ef as [Ho Ek]. split; [by apply wallet_ids_ok_upd|]. split; [|split].
  - eapply Forall_impl; [exact HF|]. intros wk. apply default_state_map. intros x _.
    by destruct (wallet_key workerId address x).
  - apply in_upd_where. exists old. by rewrite Ek.
  - unfold wallet_key in Ek. rewrite !andb_true_iff, !bool_decide_eq_true in Ek. destruct Ek as [[Ew _] _].
    split; [done|]. destruct HI as [_ HE]. rewrite Forall_forall in HE. apply HE. by apply list_elem_of_In.
Qed.

Lemma create_wallet_ok l ws x :
  existsb (row_clash x) l = false -> wallet_isDefault x = false -> wallet_id x <> "" ->
  wallet_ids_ok l -> Forall (default_state l) ws ->
  wallet_ids_ok (l ++ [x]) /\ Forall (default_state (l ++ [x])) ws.
Proof.
  intros Hc Hx Hi [HN HE] HF.
  assert (forall y, In y l -> wallet_id y <> wallet_id x) as Hd.
  { intros y Hy E. assert (existsb (row_clash x) l = true); [|congruence]. apply existsb_exists. exists y.
    split; [done|]. cbn. rewrite E, bd_refl. done. }
  split; [split|].
  - rewrite map_app. apply NoDup_app. split; [done|]. split; [|apply NoDup_singleton].
    intros i Hin Hs. apply list_elem_of_singleton in Hs as ->.
    apply list_elem_of_In, in_map_iff in Hin as (y & E & Hy). by apply (Hd y).
  - apply Forall_app. split; [done|by apply Forall_singleton].
  - eapply Forall_impl; [exact HF|]. intros wk. by apply default_state_app.
Qed.

(** Marking the first wallet of a worker. *)
Lemma mark_first_ok l ws wk x0 :
  In wk ws -> worker_defaultWalletId wk = None -> In x0 l -> wallet_workerId x0 = worker_id wk ->
  wallet_status x0 = WalletStatus.ACTIVE -> wallet_id x0 <> "" -> wallet_ids_ok l -> Forall (default_state l) ws ->
  Forall (default_state (upd_where (by_id (wallet_id x0)) mark l))
    (upd_where (by_id (worker_id wk)) (fun wk => wk <| worker_defaultWalletId := Some (wallet_id x0) |>) ws).
Proof.
  intros Hwk Hn Hx0 Hw0 Hs0 Hi0 [HN _] HF. apply default_state_set; try done.
  intros x Hx. unfold by_id. cbn [row_id row_WorkerWallet].
  destruct (wallet_id x ==? wallet_id x0) eqn:E; cbn; (repeat split).
  - apply bool_decide_eq_true in E. assert (x = x0) as -> by by apply (NoDup_map_inj wallet_id l).
    by rewrite Hw0, bd_refl.
  - destruct (wallet_workerId x ==? worker_id wk) eqn:Ew; [|done]. apply bool_decide_eq_true in Ew.
    rewrite Forall_forall in HF. specialize (HF wk ltac:(by apply list_elem_of_In)).
    unfold default_state in HF. rewrite Hn in HF. by apply HF.
Qed.

Lemma find_worker l wk : NoDup (map worker_id l) -> In wk l -> List.find (by_id (worker_id wk)) l = Some wk.
Proof. intros HN Hw. exact (find_by_id_NoDup l wk HN Hw). Qed.

Lemma find_wallet l x : wallet_ids_ok l -> In x l -> List.find (by_id (wallet_id x)) l = Some x.
Proof. intros [HN _] Hx. exact (find_by_id_NoDup l x HN Hx). Qed.

Lemma addWallet_ok userId address walletType w :
  wallets_ok w -> wallets_ok (run (addWallet userId address walletType) w).1.
Proof.
  intros (HW & HI & HF). unfold addWallet, getWorkerByUserId. wexec.
  destruct (List.find _ (w_workers w)) as [wk|] eqn:Ewk; wexec; [|done]. apply find_In in Ewk as [Hwk _].
  pose proof (find_worker _ _ HW Hwk) as Hfind.
  assert (truthy (worker_defaultWalletId wk) = false -> worker_defaultWalletId wk = None) as Hnone.
  { rewrite Forall_forall in HF. specialize (HF wk ltac:(by apply list_elem_of_In)). unfold default_state in HF.
    destruct (worker_defaultWalletId wk) as [d|]; [|done]. destruct HF as [Hd _]. cbn.
    by rewrite bool_decide_eq_false_2. }
  destruct (List.find (wallet_key (worker_id wk) address) (w_wallets w)) as [old|] eqn:Eo.
  - destruct (upsert_wallet_ok _ _ _ _ _ Eo HI HF) as (HI' & HF' & Hin & How & Hoi). fold activate.
    destruct (truthy _) eqn:Et; cbn [negb]; wexec; [done|]. rewrite Hfind. wexec.
    pose proof (find_wallet _ _ HI' Hin) as Hf. unfold activate in Hf at 1 3. rewrite Hf. wexec.
    split; [|split]; wcbn.
    + by rewrite map_upd_where.
    + by apply wallet_ids_ok_upd.
    + by apply (mark_first_ok _ _ wk (activate old)); auto.
  - destruct (existsb _ _) eqn:Ec; wexec; [done|].
    set (x := mkWorkerWallet _ _ _ _ _ _ _ _) in *.
    destruct (create_wallet_ok _ _ _ Ec eq_refl (uuid_nonempty _) HI HF) as [HI' HF'].
    destruct (truthy _) eqn:Et; cbn [negb]; wexec; [done|]. rewrite Hfind. wexec.
    assert (In x (w_wallets w ++ [x])) as Hin by (apply in_app_iff; right; by left).
    rewrite (find_wallet _ _ HI' Hin). wexec.
    split; [|split]; wcbn.
    + by rewrite map_upd_where.
    + by apply wallet_ids_ok_upd.
    + apply (mark_first_ok _ _ wk x); auto. apply uuid_nonempty.
Qed.

Definition unmark (x : WorkerWallet) : WorkerWallet := x <| wallet_isDefault := false |>.

(** Marking one wallet after unmarking the others of its worker. *)
Lemma mark_only_ok l ws workerId x0 :
  In x0 l -> wallet_workerId x0 = workerId -> wallet_status x0 = WalletStatus.ACTIVE -> wallet_ids_ok l ->
  Forall (default_state l) ws ->
  Forall (default_state (upd_where (by_id (wallet_id x0)) mark (upd_where (fun x => wallet_workerId x ==? workerId) unmark l)))
    (upd_where (by_id workerId) (fun wk => wk <| worker_defaultWalletId := Some (wallet_id x0) |>) ws).
Proof.
  intros Hx0 Hw0 Hs0 [HN HE] HF. unfold upd_where at 1 2. rewrite map_map.
  apply default_state_set; try done.
  { rewrite Forall_forall in HE. apply HE. by apply list_elem_of_In. }
  intros x Hx. unfold by_id. cbn [row_id row_WorkerWallet].
  destruct (wallet_workerId x ==? workerId) eqn:Ew; cbn; destruct (wallet_id x ==? wallet_id x0) eqn:E; cbn;
    try done. exfalso. apply bool_decide_eq_true in E. apply bool_decide_eq_false in Ew. apply Ew.
  assert (x = x0) as -> by (by apply (NoDup_map_inj wallet_id l)). done.
Qed.

Lemma setDefaultWallet_ok userId walletId w :
  wallets_ok w -> wallets_ok (run (setDefaultWallet userId walletId) w).1.
Proof.
  intros (HW & HI & HF). unfold setDefaultWallet, getWorkerByUserId. wexec.
  destruct (List.find _ (w_workers w)) as [wk|] eqn:Ewk; wexec; [|done]. apply find_In in Ewk as [Hwk _].
  destruct (List.find (by_id walletId) (w_wallets w)) as [x0|] eqn:Ex; wexec; [|done].
  apply find_In in Ex as [Hx0 Ei]. apply bool_decide_eq_true in Ei. cbn [row_id row_WorkerWallet] in Ei. subst walletId.
  destruct (wallet_workerId x0 !=? worker_id wk) eqn:Ew; wexec; [done|]. apply negb_false_iff, bool_decide_eq_true in Ew.
  destruct (wallet_status x0 !=? WalletStatus.ACTIVE) eqn:Es; wexec; [done|]. apply negb_false_iff, bool_decide_eq_true in Es.
  set (l1 := upd_where _ _ (w_wallets w)).
  assert (List.find (by_id (wallet_id x0)) l1 = Some (unmark x0)) as ->.
  { assert (wallet_ids_ok l1) as HI1 by (by apply wallet_ids_ok_upd).
    apply (find_wallet l1 (unmark x0) HI1). apply in_upd_where. exists x0. by rewrite Ew, bd_refl. }
  wexec. rewrite (find_worker _ _ HW Hwk). wexec.
  unfold getMe. wexec. split; [|split]; wcbn.
  - by rewrite map_upd_where.
  - apply wallet_ids_ok_upd; [done|]. by apply wallet_ids_ok_upd.
  - by apply mark_only_ok.
Qed.

Inductive request :=
| AddWallet (userId address : string) (walletType : option WalletType.t)
| SetDefaultWallet (userId walletId : string).

Definition serve (r : request) : handler unit :=
  match r with
  | AddWallet u a t => do* addWallet u a t in Ret tt
  | SetDefaultWallet u i => do* setDefaultWallet u i in Ret tt
  end.

(** whatever wallet requests arrive one after the other, with whatever
    outcome, every worker with a default wallet has exactly one wallet marked as
    default: the recorded one, active and the worker's own. *)
Theorem one_default_wallet requests w :
  wallets_ok w -> wallets_ok (fold_left (fun w r => (run (serve r) w).1) requests w).
Proof.
  revert w. induction requests as [|r requests IH]; intros w Hw; [done|]. cbn. apply IH.
  assert (forall A (p : handler A), (run (do* p in Ret tt) w).1 = (run p w).1) as Hrun.
  { intros A p. rewrite run_bind. by destruct (run p w) as [w' [a|e]]. }
  destruct r; cbn [serve]; rewrite Hrun; [by apply addWallet_ok|by apply setDefaultWallet_ok].
Qed.
End defaults.

(* ------------------------------------------------------------------ *)
(** ** A worker and two wallets *)

Definition demo_worker : World :=
  empty_world
    <| w_users := [mkUser "u1" "auth1" "kim@x.test" "Kim" GlobalRole.WORKER] |>
    <| w_workers := [mkWorker "w1" "u1" None] |>.

(** The wallets of the example after a list of requests: address and mark. *)
Definition marks (w : World) : list (string * bool) :=
  map (fun x => (wallet_address x, wallet_isDefault x)) (w_wallets w).

Example demo_wallets :
  let w1 := (run (addWallet "u1" "AAA" None) demo_worker).1 in
  let w2 := (run (addWallet "u1" "BBB" None) w1).1 in
  let w3 := (run (setDefaultWallet "u1" (nullish (wallet_id <$> nth_error (w_wallets w2) 1) "")) w2).1 in
  (marks w1, marks w2, marks w3)
  = ([("AAA", true)], [("AAA", true); ("BBB", false)], [("AAA", false); ("BBB", true)]).
Proof. vm_compute. reflexivity. Qed.

(** two first wallets added at once are both marked as the default, because
    the worker is read before the transaction that decides: "exactly one active
    default" holds request by request only. *)
Example add_wallet_race :
  let c := schedule [0; 1; 0; 1]%nat (demo_worker, [AllocationsService.void (addWallet "u1" "AAA" None); AllocationsService.void (addWallet "u1" "BBB" None)]) in
  marks c.1 = [("AAA", true); ("BBB", true)].
Proof. vm_compute. reflexivity. Qed.

Lemma one_default_wallet_witness :
  wallets_ok demo_worker /\
  wallets_ok (fold_left (fun w r => (run (serve r) w).1)
    [AddWallet "u1" "AAA" None; AddWallet "u1" "BBB" None; SetDefaultWallet "u1" "nowhere"] demo_worker).
Proof.
  assert (wallets_ok demo_worker) as Hw.
  { split; [apply (bool_decide_unpack _); vm_compute; done|]. split; [split; constructor|].
    constructor; [|constructor]. intros x []. }
  split; [exact Hw|]. apply one_default_wallet; [|exact Hw]. intros t E. cbn in E. discriminate E.
Defined.

Definition demo_tax : World :=
  demo_worker <| w_incomeEntries :=
    [mkIncomeEntry "e1" "w1" "v" None None 0 0 1000 400 WithholdingStatus.UNKNOWN (Some PayoutRail.CASH_DRAWER)
       EvidenceGrade.D EffectiveStatus.ACTIVE None None None 0;
     mkIncomeEntry "e2" "w1" "v" None None 0 0 300 500 WithholdingStatus.CONFIRMED None
       EvidenceGrade.D EffectiveStatus.ACTIVE None None None 0] |>.

Lemma taxReadiness_partitions_witness :
  exists w' t, run (taxReadiness "u1") demo_tax = (w', Ok t) /\ sumZ snd (tx_byRail t) = tx_unmatchedUsdCents t /\
    (tx_year t, tx_unmatchedUsdCents t, tx_withholdingUnknownUsdCents t) = (1970, 600, 1000).
Proof.
  destruct (run (taxReadiness "u1") demo_tax) as [w' [t|e]] eqn:E.
  - destruct (taxReadiness_partitions "u1" demo_tax w' t E) as (wk & l & _ & _ & _ & Hs & _).
    exists w', t. split; [done|]. split; [exact Hs|].
    apply (f_equal (fun c => match c.2 with
                             | Ok t => (tx_year t, tx_unmatchedUsdCents t, tx_withholdingUnknownUsdCents t)
                             | Err _ => (0, 0, 0) end)) in E. vm_compute in E. symmetry. exact E.
  - apply (f_equal (fun c => is_ok c.2)) in E. vm_compute in E. discriminate E.
Defined.
End WorkersService.
