(* ===== verification/Staffing.v ===== *)
(** * Staffing

    apps/api/src/staffing/staffing.service.ts and staffing.controller.ts: open
    shifts, the assignments of workers to them, clocking in and out, and the
    attested shift evidence an approval writes. *)

From stdpp Require Import relations.
From S2P Require Import Prelude Concurrency Strings Schema Demo Float64 Access AllocationEngine Income.
Import AccessService.

Open Scope Z_scope.

Module StaffingService.

Definition ACTIVE_ASSIGNMENTS : list AssignmentStatus.t :=
  [AssignmentStatus.ACCEPTED; AssignmentStatus.CLOCKED_IN; AssignmentStatus.CLOCKED_OUT;
   AssignmentStatus.APPROVED].

Record CreateShiftInput := mkCreateShiftInput {
  cs_role : string;
  cs_description : option string;
  cs_startsAt : Z;
  cs_endsAt : Z;
  cs_hourlyRateUsdCents : Z;
  cs_expectedTipUsdCents : option Z;
  cs_headcount : option Z
}.

(** [s?.trim() || null] *)
Definition trimmed (s : option string) : option string :=
  match s with
  | Some s => if trim s ==? "" then None else Some (trim s)
  | None => None
  end.

Definition of_shift (shiftId : string) (a : ShiftAssignment) : bool := assignment_openShiftId a ==? shiftId.

Definition in_statuses (l : list AssignmentStatus.t) (a : ShiftAssignment) : bool :=
  includes l (assignment_status a).

Definition active_on (shiftId : string) (a : ShiftAssignment) : bool :=
  of_shift shiftId a && in_statuses ACTIVE_ASSIGNMENTS a.

(** The unique key (openShiftId, workerId). *)
Definition of_worker (shiftId workerId : string) (a : ShiftAssignment) : bool :=
  of_shift shiftId a && (assignment_workerId a ==? workerId).

Definition connected (venueId workerId : string) (c : ExternalWorkerAccount) : bool :=
  (account_venueId c ==? venueId) && (account_workerId c ==? workerId)
  && (account_mappingStatus c ==? MappingStatus.CONFIRMED).

(** An assignment with its shift. *)
Definition assignment_data (w : World) (id : string) : option (ShiftAssignment * OpenShift) :=
  match List.find (by_id id) (w_assignments w) with
  | Some a => pair a <$> List.find (by_id (assignment_openShiftId a)) (w_openShifts w)
  | None => None
  end.

(** The columns of an assignment that nothing has set. *)
Definition new_assignment (id shiftId workerId : string) (status : AssignmentStatus.t) : ShiftAssignment :=
  mkShiftAssignment id shiftId workerId status None None None None None None None None.

Inductive Response := ACCEPT | DECLINE.
Definition Response_name (r : Response) : string := match r with ACCEPT => "ACCEPT" | DECLINE => "DECLINE" end.
Definition answered (r : Response) : AssignmentStatus.t :=
  match r with ACCEPT => AssignmentStatus.ACCEPTED | DECLINE => AssignmentStatus.DECLINED end.

(** The key of the evidence of an assignment. *)
Definition evidence_key (venueId assignmentId : string) (s : ShiftEvidence) : bool :=
  (shift_venueId s ==? venueId) && (shift_provider s ==? "serveproof_staffing")
  && (shift_externalShiftId s ==? assignmentId).

Record VenueShift := mkVenueShift {
  vs_shift : OpenShift;
  vs_assignments : list (ShiftAssignment * option (string * string))
}.

Record WorkerShift := mkWorkerShift {
  ws_shift : OpenShift;
  ws_venue : option (string * string * string);
  ws_assignments : list ShiftAssignment
}.

Section service.
Context `{Platform}.

Definition staffing_audit (venueId actorUserId action entityType entityId : string) (detail : json)
    : handler unit :=
  do* audit None (Some venueId) (Some actorUserId) action entityType (Some entityId) detail in Ret tt.

Definition createShift (venueId actorUserId : string) (input : CreateShiftInput) : handler OpenShift :=
  do* throw_if (cs_endsAt input <=? cs_startsAt input)
    (BadRequestException "Shift end must be after its start") in
  do* throw_if (24 * 60 * 60 * 1000 <? cs_endsAt input - cs_startsAt input)
    (BadRequestException "A staffing shift cannot exceed 24 hours") in
  let* i := freshId in
  let* shift := create (mkOpenShift i venueId (cs_role input) (trimmed (cs_description input))
    (cs_startsAt input) (cs_endsAt input) (cs_hourlyRateUsdCents input)
    (nullish (cs_expectedTipUsdCents input) 0) (nullish (cs_headcount input) 1)
    OpenShiftStatus.DRAFT actorUserId None None) in
  do* staffing_audit venueId actorUserId "OPEN_SHIFT_CREATED" "OpenShift" (openShift_id shift)
        (JObj [("role", JStr (openShift_role shift));
               ("startsAt", JStr (toISOString (openShift_startsAt shift)));
               ("headcount", JInt (openShift_headcount shift))]) in
  Ret shift.

Definition listVenueShifts (venueId : string) : handler (list VenueShift) :=
  query (fun w => map (fun s => mkVenueShift s (map (fun a =>
      (a, (fun u => (user_displayName u, user_email u)) <$>
            (List.find (by_id (assignment_workerId a)) (w_workers w)
             ≫= fun x => List.find (by_id (worker_userId x)) (w_users w))))
      (List.filter (of_shift (openShift_id s)) (w_assignments w))))
    (take 100 (orderByDesc openShift_startsAt
      (List.filter (fun s => openShift_venueId s ==? venueId) (w_openShifts w))))).

Definition getShift (id : string) : handler OpenShift :=
  let* shift := findUnique (R:=OpenShift) id in
  require shift (NotFoundException ("Open shift " +:+ id +:+ " not found")).

Definition getAssignment (id : string) : handler (ShiftAssignment * OpenShift) :=
  let* data := query (fun w => assignment_data w id) in
  require data (NotFoundException ("Shift assignment " +:+ id +:+ " not found")).

Definition getWorker (userId : string) : handler Worker :=
  let* worker := findFirst (fun x => worker_userId x ==? userId) in
  require worker (NotFoundException "No worker profile for this user").

Definition workerAssignment (assignmentId userId : string)
    : handler (ShiftAssignment * OpenShift * Worker) :=
  let* worker := getWorker userId in
  let* data := query (fun w => assignment_data w assignmentId) in
  let* ' (assignment, shift) := require match data with
    | Some (a, s) => if assignment_workerId a ==? worker_id worker then Some (a, s) else None
    | None => None
    end (NotFoundException "Shift assignment not found") in
  Ret (assignment, shift, worker).

Definition publishShift (shiftId actorUserId : string) : handler OpenShift :=
  let* shift := getShift shiftId in
  do* throw_if (openShift_status shift !=? OpenShiftStatus.DRAFT)
    (ConflictException ("Shift is " +:+ OpenShiftStatus.name (openShift_status shift)
                        +:+ "; only DRAFT can be published")) in
  let* t := newDate in
  let* updated := update shiftId (fun s => s <| openShift_status := OpenShiftStatus.OPEN |>
                                             <| openShift_publishedAt := Some t |>) in
  do* staffing_audit (openShift_venueId shift) actorUserId "OPEN_SHIFT_PUBLISHED" "OpenShift" shiftId
        (JObj []) in
  Ret updated.

Definition cancelShift (shiftId actorUserId : string) (reason : option string) : handler OpenShift :=
  let* data := query (fun w => option_map (fun s => (s, List.filter (of_shift shiftId) (w_assignments w)))
                               (List.find (by_id shiftId) (w_openShifts w))) in
  let* ' (shift, assignments) :=
    require data (NotFoundException ("Open shift " +:+ shiftId +:+ " not found")) in
  do* throw_if (includes [OpenShiftStatus.CANCELLED; OpenShiftStatus.COMPLETED] (openShift_status shift))
    (ConflictException ("Shift is already " +:+ OpenShiftStatus.name (openShift_status shift))) in
  do* throw_if (existsb (in_statuses [AssignmentStatus.CLOCKED_IN; AssignmentStatus.CLOCKED_OUT]) assignments)
    (ConflictException "A shift with recorded work must be resolved before cancellation") in
  let* t := newDate in
  let* updated := transaction (
    let* updated := update shiftId (fun s => s <| openShift_status := OpenShiftStatus.CANCELLED |>
                                               <| openShift_cancelledAt := Some t |>) in
    do* updateMany (fun a => of_shift shiftId a
                             && in_statuses [AssignmentStatus.INVITED; AssignmentStatus.ACCEPTED] a)
          (fun a => a <| assignment_status := AssignmentStatus.CANCELLED |>
                      <| assignment_cancellationReason :=
                           Some (nullish (trimmed reason) "Shift cancelled") |>) in
    Ret updated) in
  do* staffing_audit (openShift_venueId shift) actorUserId "OPEN_SHIFT_CANCELLED" "OpenShift" shiftId
        (JObj [("reason", JStrOpt (trimmed reason))]) in
  Ret updated.

Definition invite (shiftId workerId actorUserId : string) : handler ShiftAssignment :=
  let* shift := getShift shiftId in
  do* throw_if (openShift_status shift !=? OpenShiftStatus.OPEN)
    (ConflictException ("Shift is " +:+ OpenShiftStatus.name (openShift_status shift)
                        +:+ "; invitations require a published shift")) in
  let* connection := findFirst (connected (openShift_venueId shift) workerId) in
  do* require connection (BadRequestException "Worker is not connected to this venue") in
  let* existing := findFirst (of_worker shiftId workerId) in
  do* match existing with
      | Some e => throw_if (in_statuses ACTIVE_ASSIGNMENTS e)
          (ConflictException ("Worker assignment is already " +:+ AssignmentStatus.name (assignment_status e)))
      | None => Ret tt
      end in
  let* i := freshId in
  let* assignment := upsert (of_worker shiftId workerId)
    (fun a => a <| assignment_status := AssignmentStatus.INVITED |>
                <| assignment_invitedByUserId := Some actorUserId |>
                <| assignment_cancellationReason := None |>)
    ((new_assignment i shiftId workerId AssignmentStatus.INVITED)
       <| assignment_invitedByUserId := Some actorUserId |>) in
  do* staffing_audit (openShift_venueId shift) actorUserId "SHIFT_INVITATION_SENT" "ShiftAssignment"
        (assignment_id assignment) (JObj [("workerId", JStr workerId)]) in
  Ret assignment.

Definition listWorkerShifts (userId : string) : handler (list WorkerShift) :=
  let* worker := getWorker userId in
  let* connections := findMany (fun c => (account_workerId c ==? worker_id worker)
                                         && (account_mappingStatus c ==? MappingStatus.CONFIRMED)) in
  let venueIds := map account_venueId connections in
  if (length venueIds =? 0)%nat then Ret []
  else
    let* t1 := newDate in
    let historyStart := t1 - 90 * 24 * 60 * 60 * 1000 in
    let* t2 := newDate in
    query (fun w =>
      let mine s := List.filter (of_worker (openShift_id s) (worker_id worker)) (w_assignments w) in
      map (fun s => mkWorkerShift s
             ((fun v => (venue_id v, venue_name v, venue_timezone v))
                <$> List.find (by_id (openShift_venueId s)) (w_venues w)) (mine s))
        (take 100 (orderByAsc openShift_startsAt
          (List.filter (fun s => includes venueIds (openShift_venueId s)
                                 && (historyStart <=? openShift_startsAt s)
                                 && (((openShift_status s ==? OpenShiftStatus.OPEN)
                                      && (t2 <=? openShift_endsAt s))
                                     || negb (length (mine s) =? 0)%nat)) (w_openShifts w))))).

(** The body of the serializable transaction. *)
Definition respond_transaction (shift : OpenShift) (shiftId workerId : string) (response : Response)
    : handler ShiftAssignment :=
  do* match response with
      | ACCEPT =>
          let* acceptedCount := countRows (active_on shiftId) in
          let* existing := findFirst (of_worker shiftId workerId) in
          let alreadyAccepted := match existing with
                                 | Some e => in_statuses ACTIVE_ASSIGNMENTS e | None => false end in
          throw_if (negb alreadyAccepted && (openShift_headcount shift <=? Z.of_nat acceptedCount))
            (ConflictException "Shift has already reached its headcount")
      | DECLINE => Ret tt
      end in
  let* t1 := newDate in
  let* t2 := newDate in
  let* i := freshId in
  let* saved := upsert (of_worker shiftId workerId)
    (fun a => a <| assignment_status := answered response |>
                <| assignment_respondedAt := Some t1 |>
                <| assignment_cancellationReason := None |>)
    ((new_assignment i shiftId workerId (answered response))
       <| assignment_respondedAt := Some t2 |>) in
  let* acceptedCount := countRows (active_on shiftId) in
  do* update (R:=OpenShift) shiftId
        (fun s => s <| openShift_status :=
           if openShift_headcount shift <=? Z.of_nat acceptedCount
           then OpenShiftStatus.FILLED else OpenShiftStatus.OPEN |>) in
  Ret saved.

Definition respond (shiftId userId : string) (response : Response) : handler ShiftAssignment :=
  let* worker := getWorker userId in
  let* shift := getShift shiftId in
  let* connection := findFirst (connected (openShift_venueId shift) (worker_id worker)) in
  do* require connection (BadRequestException "Worker is not connected to this venue") in
  do* throw_if match response with
               | ACCEPT => openShift_status shift !=? OpenShiftStatus.OPEN
               | DECLINE => false end
    (ConflictException ("Shift is " +:+ OpenShiftStatus.name (openShift_status shift)
                        +:+ "; it is not accepting workers")) in
  let* assignment := transaction (respond_transaction shift shiftId (worker_id worker) response) in
  do* staffing_audit (openShift_venueId shift) userId ("SHIFT_" +:+ Response_name response +:+ "ED")
        "ShiftAssignment" (assignment_id assignment) (JObj []) in
  Ret assignment.

Definition clockIn (assignmentId userId : string) : handler ShiftAssignment :=
  let* ' (assignment, shift, worker) := workerAssignment assignmentId userId in
  do* throw_if (assignment_status assignment !=? AssignmentStatus.ACCEPTED)
    (ConflictException ("Assignment is " +:+ AssignmentStatus.name (assignment_status assignment)
                        +:+ "; cannot clock in")) in
  let* now_ := newDate in
  let* updated := transaction (
    let* saved := update assignmentId (fun a => a <| assignment_status := AssignmentStatus.CLOCKED_IN |>
                                                  <| assignment_checkInAt := Some now_ |>) in
    do* update (R:=OpenShift) (assignment_openShiftId assignment)
          (fun s => s <| openShift_status := OpenShiftStatus.IN_PROGRESS |>) in
    Ret saved) in
  do* staffing_audit (openShift_venueId shift) (worker_userId worker) "SHIFT_CLOCKED_IN" "ShiftAssignment"
        assignmentId (JObj [("at", JStr (toISOString now_))]) in
  Ret updated.

Definition clockOut (assignmentId userId : string) : handler ShiftAssignment :=
  let* ' (assignment, shift, worker) := workerAssignment assignmentId userId in
  do* throw_if (assignment_status assignment !=? AssignmentStatus.CLOCKED_IN)
    (ConflictException ("Assignment is " +:+ AssignmentStatus.name (assignment_status assignment)
                        +:+ "; cannot clock out")) in
  let* now_ := newDate in
  let* updated := update assignmentId (fun a => a <| assignment_status := AssignmentStatus.CLOCKED_OUT |>
                                                  <| assignment_checkOutAt := Some now_ |>) in
  do* staffing_audit (openShift_venueId shift) (worker_userId worker) "SHIFT_CLOCKED_OUT" "ShiftAssignment"
        assignmentId (JObj [("at", JStr (toISOString now_))]) in
  Ret updated.

(** Giving a place back: a FILLED shift that has not started opens again.
    The status is the one read with the assignment, the clock is read only
    when it is FILLED. *)
Definition reopen (shift : OpenShift) : handler unit :=
  if openShift_status shift ==? OpenShiftStatus.FILLED then
    let* t := newDate in
    if t <? openShift_startsAt shift then
      do* update (R:=OpenShift) (openShift_id shift)
            (fun s => s <| openShift_status := OpenShiftStatus.OPEN |>) in
      Ret tt
    else Ret tt
  else Ret tt.

Definition cancelAssignment (assignmentId userId : string) (reason : option string)
    : handler ShiftAssignment :=
  let* ' (assignment, shift, worker) := workerAssignment assignmentId userId in
  do* throw_if (negb (in_statuses [AssignmentStatus.INVITED; AssignmentStatus.ACCEPTED] assignment))
    (ConflictException ("Assignment is " +:+ AssignmentStatus.name (assignment_status assignment)
                        +:+ "; cannot cancel")) in
  let* updated := transaction (
    let* t := newDate in
    let* saved := update assignmentId
      (fun a => a <| assignment_status := AssignmentStatus.CANCELLED |>
                  <| assignment_cancellationReason := Some (nullish (trimmed reason) "Cancelled by worker") |>
                  <| assignment_respondedAt := Some t |>) in
    do* reopen shift in
    Ret saved) in
  do* staffing_audit (openShift_venueId shift) (worker_userId worker) "SHIFT_ASSIGNMENT_CANCELLED"
        "ShiftAssignment" assignmentId (JObj [("reason", JStrOpt (trimmed reason))]) in
  Ret updated.

(** The assignment with its shift, the shift's venue and the worker. *)
Definition approval_data (w : World) (id : string) : option (ShiftAssignment * OpenShift * Venue) :=
  match assignment_data w id with
  | Some (a, s) => pair (a, s) <$> List.find (by_id (openShift_venueId s)) (w_venues w)
  | None => None
  end.

(** [Math.max(1, Math.round((checkOut - checkIn) / 60_000))] *)
Definition worked_minutes (checkInAt checkOutAt : Z) : Z :=
  Z.max 1 (IncomeService.num_round
             (num_div (num_of_Z (checkOutAt - checkInAt)) (num_of_Z 60000))).

Definition attestation (assignment : ShiftAssignment) (shift : OpenShift) (checkInAt checkOutAt : Z)
    : json :=
  JObj [("assignmentId", JStr (assignment_id assignment));
        ("workerId", JStr (assignment_workerId assignment));
        ("checkInAt", JStr (toISOString checkInAt)); ("checkOutAt", JStr (toISOString checkOutAt));
        ("role", JStr (openShift_role shift))].

(** The columns the approval writes over an evidence row. *)
Definition attested (assignment : ShiftAssignment) (shift : OpenShift) (checkInAt checkOutAt : Z)
    (businessDate : string) (s : ShiftEvidence) : ShiftEvidence :=
  mkShiftEvidence (shift_id s) (shift_provider s) IngestSource.PLATFORM_ATTESTED (shift_venueId s)
    (shift_externalShiftId s) (shift_externalWorkerId s) (Some (assignment_workerId assignment))
    (openShift_role shift) checkInAt (Some checkOutAt) (worked_minutes checkInAt checkOutAt)
    ShiftStatus.APPROVED businessDate (sha256 (stringify (attestation assignment shift checkInAt checkOutAt)))
    (Some PayoutRail.PAYROLL) (Some "PENDING").

(** The rest of the transaction, once the evidence is written. *)
Definition link_evidence (assignment : ShiftAssignment) (assignmentId actorUserId : string)
    (evidence : ShiftEvidence) : handler ShiftAssignment :=
  let* t := newDate in
  let* saved := update assignmentId
    (fun a => a <| assignment_status := AssignmentStatus.APPROVED |>
                <| assignment_approvedAt := Some t |>
                <| assignment_approvedByUserId := Some actorUserId |>
                <| assignment_shiftEvidenceId := Some (shift_id evidence) |>) in
  let* unresolved := countRows (fun a => of_shift (assignment_openShiftId assignment) a
    && in_statuses [AssignmentStatus.ACCEPTED; AssignmentStatus.CLOCKED_IN; AssignmentStatus.CLOCKED_OUT] a) in
  do* (if (unresolved =? 0)%nat
       then do* update (R:=OpenShift) (assignment_openShiftId assignment)
                  (fun s => s <| openShift_status := OpenShiftStatus.COMPLETED |>) in Ret tt
       else Ret tt) in
  Ret saved.

Definition approveAssignment (assignmentId actorUserId : string) : handler ShiftAssignment :=
  let* data := query (fun w => approval_data w assignmentId) in
  let* ' (assignment, shift, venue) :=
    require data (NotFoundException ("Shift assignment " +:+ assignmentId +:+ " not found")) in
  if (assignment_status assignment ==? AssignmentStatus.APPROVED)
     && truthy (assignment_shiftEvidenceId assignment)
  then Ret assignment
  else
    let* ' (checkInAt, checkOutAt) := require
      match assignment_checkInAt assignment, assignment_checkOutAt assignment with
      | Some i, Some o => if assignment_status assignment ==? AssignmentStatus.CLOCKED_OUT
                          then Some (i, o) else None
      | _, _ => None
      end (ConflictException "Only a clocked-out assignment can be approved") in
    do* throw_if (worked_minutes checkInAt checkOutAt <=? 0)
      (BadRequestException "Recorded shift duration must be positive") in
    let businessDate := AllocationEngine.businessDateInTimezone checkInAt (venue_timezone venue) in
    let data := attested assignment shift checkInAt checkOutAt businessDate in
    let* updated := transaction (
      let* i := freshId in
      let* evidence := upsert (evidence_key (openShift_venueId shift) (assignment_id assignment)) data
        (data (mkShiftEvidence i "serveproof_staffing" IngestSource.PLATFORM_ATTESTED
           (openShift_venueId shift) (assignment_id assignment) (assignment_workerId assignment)
           None "" 0 None 0 ShiftStatus.APPROVED "" "" None None)) in
      link_evidence assignment assignmentId actorUserId evidence) in
    do* staffing_audit (openShift_venueId shift) actorUserId "SHIFT_ASSIGNMENT_APPROVED" "ShiftAssignment"
          assignmentId
          (JObj [("workedMinutes", JInt (worked_minutes checkInAt checkOutAt));
                 ("businessDate", JStr businessDate);
                 ("shiftEvidenceId", JStrOpt (assignment_shiftEvidenceId updated))]) in
    Ret updated.

Definition markNoShow (assignmentId actorUserId : string) : handler ShiftAssignment :=
  let* ' (assignment, shift) := getAssignment assignmentId in
  do* throw_if (negb (in_statuses [AssignmentStatus.INVITED; AssignmentStatus.ACCEPTED] assignment))
    (ConflictException ("Assignment is " +:+ AssignmentStatus.name (assignment_status assignment)
                        +:+ "; cannot mark no-show")) in
  let* updated := transaction (
    let* saved := update assignmentId (fun a => a <| assignment_status := AssignmentStatus.NO_SHOW |>) in
    do* reopen shift in
    Ret saved) in
  do* staffing_audit (openShift_venueId shift) actorUserId "SHIFT_MARKED_NO_SHOW" "ShiftAssignment"
        assignmentId (JObj []) in
  Ret updated.

(** *** Controller *)

Definition manage_shift {A} (user shiftId : string) (k : handler A) : handler A :=
  let* shift := getShift shiftId in
  do* assertVenueRole user (openShift_venueId shift) VENUE_MANAGE_ROLES in
  k.

Definition manage_assignment {A} (user assignmentId : string) (k : handler A) : handler A :=
  let* ' (_, shift) := getAssignment assignmentId in
  do* assertVenueRole user (openShift_venueId shift) VENUE_MANAGE_ROLES in
  k.

Definition post_createShift (user venueId : string) (input : CreateShiftInput) : handler OpenShift :=
  do* assertVenueRole user venueId VENUE_MANAGE_ROLES in
  createShift venueId user input.

Definition get_venueShifts (user venueId : string) : handler (list VenueShift) :=
  do* assertVenueRole user venueId VENUE_READ_ROLES in
  listVenueShifts venueId.

Definition post_publish (user shiftId : string) : handler OpenShift :=
  manage_shift user shiftId (publishShift shiftId user).
Definition post_cancel (user shiftId : string) (reason : option string) : handler OpenShift :=
  manage_shift user shiftId (cancelShift shiftId user reason).
Definition post_invite (user shiftId workerId : string) : handler ShiftAssignment :=
  manage_shift user shiftId (invite shiftId workerId user).
Definition get_workerShifts (user : string) : handler (list WorkerShift) := listWorkerShifts user.
Definition post_respond (user shiftId : string) (response : Response) : handler ShiftAssignment :=
  respond shiftId user response.
Definition post_clockIn (user assignmentId : string) : handler ShiftAssignment := clockIn assignmentId user.
Definition post_clockOut (user assignmentId : string) : handler ShiftAssignment := clockOut assignmentId user.
Definition post_cancelAssignment (user assignmentId : string) (reason : option string)
    : handler ShiftAssignment := cancelAssignment assignmentId user reason.
Definition post_approve (user assignmentId : string) : handler ShiftAssignment :=
  manage_assignment user assignmentId (approveAssignment assignmentId user).
Definition post_noShow (user assignmentId : string) : handler ShiftAssignment :=
  manage_assignment user assignmentId (markNoShow assignmentId user).
End service.

(* ------------------------------------------------------------------ *)
(** ** No shift is overbooked *)

Definition slot (a : ShiftAssignment) : string * string := (assignment_openShiftId a, assignment_workerId a).

(** The tables of the component: identifiers and the unique key hold, every
    assignment belongs to a shift, and no shift has more workers with an active
    assignment than its headcount. *)
Record staffed (l : list ShiftAssignment) (ss : list OpenShift) : Prop := {
  st_ids : NoDup (map assignment_id l);
  st_slots : NoDup (map slot l);
  st_shiftIds : NoDup (map openShift_id ss);
  st_fk : forall a, In a l -> In (assignment_openShiftId a) (map openShift_id ss);
  st_headcount : forall s, In s ss ->
    Z.of_nat (length (List.filter (active_on (openShift_id s)) l)) <= openShift_headcount s
}.

Definition headcount_ok (w : World) : Prop := staffed (w_assignments w) (w_openShifts w).

(** The updates of shifts change neither identifiers nor headcounts. *)
Lemma staffed_shifts l ss p (f : OpenShift -> OpenShift) :
  (forall s, openShift_id (f s) = openShift_id s /\ openShift_headcount (f s) = openShift_headcount s) ->
  staffed l ss -> staffed l (upd_where p f ss).
Proof.
  intros Hf [H1 H2 H3 H4 H5].
  assert (map openShift_id (upd_where p f ss) = map openShift_id ss) as Hids.
  { unfold upd_where. rewrite map_map. apply map_ext. intros s. destruct (p s); [apply Hf|done]. }
  split; [done|done|by rewrite Hids|by rewrite Hids|].
  intros s Hs. apply in_upd_where in Hs as (s0 & Hs0 & ->).
  destruct (p s0); [|by apply H5]. destruct (Hf s0) as [-> ->]. by apply H5.
Qed.

Definition keeps_slot (f : ShiftAssignment -> ShiftAssignment) : Prop :=
  forall a, assignment_id (f a) = assignment_id a /\ slot (f a) = slot a.

Lemma upd_where_map {R X} (g : R -> X) p (f : R -> R) l :
  (forall r, g (f r) = g r) -> map g (upd_where p f l) = map g l.
Proof. intros H. unfold upd_where. rewrite map_map. apply map_ext. intros r. by destruct (p r). Qed.

(** Updates that make no assignment active. *)
Lemma staffed_upd l ss p f :
  keeps_slot f ->
  (forall a, In a l -> p a = true -> in_statuses ACTIVE_ASSIGNMENTS (f a) = true ->
             in_statuses ACTIVE_ASSIGNMENTS a = true) ->
  staffed l ss -> staffed (upd_where p f l) ss.
Proof.
  intros Hf Ha [H1 H2 H3 H4 H5]. split; [|by rewrite upd_where_map by apply Hf|done| |].
  - rewrite upd_where_map; [done|]. intros r. apply Hf.
  - intros a Hin. apply in_upd_where in Hin as (a0 & Ha0 & ->).
    destruct (p a0); [|by apply H4]. destruct (Hf a0) as [_ E]. unfold slot in E.
    injection E as E _. rewrite E. by apply H4.
  - intros s Hs. etransitivity; [|by apply H5]. apply inj_le, filter_upd_le.
    intros a Hin Hp. unfold active_on, of_shift. destruct (Hf a) as [_ E]. injection E as E _. rewrite E.
    intros Hq. apply andb_true_iff in Hq as [-> Hq]. by apply Ha.
Qed.

Lemma staffed_app l ss a :
  existsb (row_clash a) l = false -> In (assignment_openShiftId a) (map openShift_id ss) ->
  (in_statuses ACTIVE_ASSIGNMENTS a = true -> forall s, In s ss -> openShift_id s = assignment_openShiftId a ->
     Z.of_nat (length (List.filter (active_on (openShift_id s)) l)) < openShift_headcount s) ->
  staffed l ss -> staffed (l ++ [a]) ss.
Proof.
  intros Hc Hfk Hact [H1 H2 H3 H4 H5].
  assert (forall b, In b l -> row_clash a b = false) as Hn.
  { intros b Hb. destruct (row_clash a b) eqn:E; [|done]. exfalso.
    assert (existsb (row_clash a) l = true); [|congruence]. apply existsb_exists. eauto. }
  split.
  - rewrite map_app. apply NoDup_app. split; [done|]. split; [|apply NoDup_singleton].
    intros i Hi Hi'. apply list_elem_of_singleton in Hi' as ->.
    rewrite list_elem_of_In in Hi. apply in_map_iff in Hi as (b & Eb & Hb).
    specialize (Hn b Hb). cbn in Hn. by rewrite Eb, bd_refl in Hn.
  - rewrite map_app. apply NoDup_app. split; [done|]. split; [|apply NoDup_singleton].
    intros i Hi Hi'. apply list_elem_of_singleton in Hi' as ->.
    rewrite list_elem_of_In in Hi. apply in_map_iff in Hi as (b & Eb & Hb).
    specialize (Hn b Hb). cbn in Hn. injection Eb as E1 E2. by rewrite E1, E2, !bd_refl, orb_true_r in Hn.
  - done.
  - intros b Hb. apply in_app_iff in Hb as [Hb|[<-|[]]]; auto.
  - intros s Hs. rewrite List.filter_app, length_app. cbn [List.filter].
    unfold active_on at 2, of_shift. pose proof (H5 s Hs) as H5s.
    destruct (assignment_openShiftId a ==? openShift_id s) eqn:E; cbn [andb length]; [|lia].
    apply bool_decide_eq_true in E.
    destruct (in_statuses ACTIVE_ASSIGNMENTS a) eqn:Ea; cbn [length]; [|lia].
    pose proof (Hact eq_refl s Hs (eq_sym E)). lia.
Qed.

Lemma filter_upd_plus p (f : ShiftAssignment -> ShiftAssignment) q l :
  (length (List.filter q (upd_where p f l)) <= length (List.filter q l) + length (List.filter p l))%nat.
Proof.
  unfold upd_where. induction l as [|a l IH]; cbn [map List.filter]; [done|].
  destruct (p a) eqn:Ep.
  - destruct (q (f a)), (q a); cbn [length]; lia.
  - destruct (q a); cbn [length]; lia.
Qed.

Lemma of_worker_slot shiftId workerId a : of_worker shiftId workerId a = true -> slot a = (shiftId, workerId).
Proof.
  unfold of_worker, of_shift. intros E. apply andb_true_iff in E as [E1 E2].
  apply bool_decide_eq_true in E1, E2. unfold slot. congruence.
Qed.

Lemma slot_unique l shiftId workerId a b :
  NoDup (map slot l) -> In a l -> In b l ->
  of_worker shiftId workerId a = true -> of_worker shiftId workerId b = true -> a = b.
Proof.
  intros HN Ha Hb Ea Eb. apply of_worker_slot in Ea, Eb.
  apply (NoDup_map_inj slot l); [done..|congruence].
Qed.

Lemma of_worker_one l shiftId workerId :
  NoDup (map slot l) -> (length (List.filter (of_worker shiftId workerId) l) <= 1)%nat.
Proof.
  intros HN. pose proof (NoDup_map_filter slot (of_worker shiftId workerId) l HN) as HF.
  destruct (List.filter (of_worker shiftId workerId) l) as [|a [|b r]] eqn:E; cbn [length]; [lia..|].
  exfalso. assert (In a (List.filter (of_worker shiftId workerId) l) /\
                   In b (List.filter (of_worker shiftId workerId) l)) as [Ha Hb].
  { rewrite E. split; [by left|right; by left]. }
  apply filter_In in Ha as [_ Ha], Hb as [_ Hb]. apply of_worker_slot in Ha, Hb.
  cbn in HF. apply NoDup_cons in HF as [Hn _]. apply Hn. rewrite Ha, Hb. apply list_elem_of_here.
Qed.

(** An update that gives the worker's place on one shift, with a free place. *)
Lemma staffed_take l ss shift workerId f :
  keeps_slot f -> In shift ss ->
  Z.of_nat (length (List.filter (active_on (openShift_id shift)) l)) < openShift_headcount shift ->
  staffed l ss -> staffed (upd_where (of_worker (openShift_id shift) workerId) f l) ss.
Proof.
  intros Hf Hin Hlt [H1 H2 H3 H4 H5]. split; [|by rewrite upd_where_map by apply Hf|done| |].
  - rewrite upd_where_map; [done|]. intros r. apply Hf.
  - intros a Ha. apply in_upd_where in Ha as (a0 & Ha0 & ->).
    destruct (of_worker _ _ a0); [|by apply H4]. destruct (Hf a0) as [_ E]. injection E as E _.
    rewrite E. by apply H4.
  - intros s Hs. destruct (decide (openShift_id s = openShift_id shift)) as [E|E].
    + assert (s = shift) as -> by (by apply (NoDup_map_inj openShift_id ss)).
      pose proof (filter_upd_plus (of_worker (openShift_id shift) workerId) f (active_on (openShift_id shift)) l).
      pose proof (of_worker_one l (openShift_id shift) workerId H2). lia.
    + etransitivity; [|by apply H5]. apply inj_le, filter_upd_le. intros a Ha Hp Hq. exfalso. apply E.
      apply of_worker_slot in Hp. destruct (Hf a) as [_ Es]. rewrite Hp in Es. injection Es as Es _.
      unfold active_on, of_shift in Hq. apply andb_true_iff in Hq as [Hq _]. apply bool_decide_eq_true in Hq.
      congruence.
Qed.

Section headcount.
Context `{Platform}.

Definition same_staffing (w w' : World) : Prop :=
  w_assignments w' = w_assignments w /\ w_openShifts w' = w_openShifts w.

Lemma audit_staffing v a act_ ty i d w :
  same_staffing w (run (staffing_audit v a act_ ty i d) w).1.
Proof.
  unfold staffing_audit, audit. wexec.
  match goal with |- context [existsb ?f ?l] => destruct (existsb f l) end; by wexec.
Qed.

Lemma same_ok w w' : same_staffing w w' -> headcount_ok w -> headcount_ok w'.
Proof. unfold headcount_ok. by intros [-> ->]. Qed.

Lemma shift_found w id s :
  headcount_ok w -> List.find (by_id id) (w_openShifts w) = Some s ->
  In s (w_openShifts w) /\ openShift_id s = id.
Proof. intros _ E. apply find_In in E as [Hin E]. apply bool_decide_eq_true in E. done. Qed.

(** The place is free, or the worker has it already. *)
Definition may_take (w : World) (shift : OpenShift) (workerId : string) (r : Response) : Prop :=
  r = ACCEPT ->
  (exists e, List.find (of_worker (openShift_id shift) workerId) (w_assignments w) = Some e /\
             in_statuses ACTIVE_ASSIGNMENTS e = true) \/
  Z.of_nat (length (List.filter (active_on (openShift_id shift)) (w_assignments w))) < openShift_headcount shift.

Lemma staffed_respond w shift workerId r f :
  headcount_ok w -> In shift (w_openShifts w) -> may_take w shift workerId r ->
  keeps_slot f -> (forall a, assignment_status (f a) = answered r) ->
  staffed (upd_where (of_worker (openShift_id shift) workerId) f (w_assignments w)) (w_openShifts w).
Proof.
  intros Hok Hin Hm Hf Hst. destruct r.
  - destruct (Hm eq_refl) as [(e & He & Ha)|Hlt]; [|by apply staffed_take].
    apply find_In in He as [He Hw]. apply staffed_upd; [done| |done]. intros a Hina Hp _.
    pose proof Hok as [_ Hs _ _ _]. by rewrite (slot_unique _ _ _ a e Hs Hina He Hp Hw).
  - apply staffed_upd; [done| |done]. intros a _ _. unfold in_statuses. by rewrite Hst.
Qed.

Lemma staffed_join w shift workerId r a :
  headcount_ok w -> In shift (w_openShifts w) -> may_take w shift workerId r ->
  List.find (of_worker (openShift_id shift) workerId) (w_assignments w) = None ->
  existsb (row_clash a) (w_assignments w) = false ->
  assignment_openShiftId a = openShift_id shift -> assignment_status a = answered r ->
  staffed (w_assignments w ++ [a]) (w_openShifts w).
Proof.
  intros Hok Hin Hm Hn Hc Es Hst. apply staffed_app; [done| | |done].
  - rewrite Es. by apply in_map.
  - unfold in_statuses. rewrite Hst. destruct r; [|done]. intros _ s Hs Eid.
    destruct (Hm eq_refl) as [(e & He & _)|Hlt]; [congruence|].
    pose proof Hok as [_ _ Hu _ _]. rewrite Es in Eid. by rewrite (NoDup_map_inj openShift_id _ s shift Hu Hs Hin Eid).
Qed.

Lemma respond_transaction_ok w shift shiftId workerId r :
  headcount_ok w -> List.find (by_id shiftId) (w_openShifts w) = Some shift ->
  headcount_ok (run (respond_transaction shift shiftId workerId r) w).1.
Proof.
  intros Hok Hs. destruct (shift_found w _ _ Hok Hs) as [Hin <-].
  unfold respond_transaction. rewrite run_bind.
  destruct (run match r with ACCEPT => _ | DECLINE => _ end w) as [w1 [[]|e]] eqn:Eg.
  2: { destruct r; revert Eg; wexec; [|done]. by intros [= <- _]. }
  assert (w1 = w /\ may_take w shift workerId r) as [-> Hm].
  { destruct r; revert Eg; wexec; [|by intros [= <-]].
    match goal with |- context [if ?c then Err _ else _] => destruct c eqn:E end; [done|].
    intros [= <-]. split; [done|]. intros _. apply andb_false_iff in E as [E|E].
    - left. destruct (List.find (of_worker _ _) _) as [e|]; [|done]. exists e. split; [done|]. by apply negb_false_iff.
    - right. lia. }
  wexec. destruct (List.find (of_worker _ _) (w_assignments w)) as [e|] eqn:Ee; wexec.
  - rewrite Hs. wexec. apply staffed_shifts; [done|].
    by apply (staffed_respond w shift workerId r).
  - match goal with |- context [existsb ?f ?l] => destruct (existsb f l) eqn:Ec end; wexec; [done|].
    rewrite Hs. wexec. apply staffed_shifts; [done|].
    by apply (staffed_join w shift workerId r).
Qed.
End headcount.

Lemma staffed_by_id l ss id a f :
  keeps_slot f -> List.find (by_id id) l = Some a ->
  (in_statuses ACTIVE_ASSIGNMENTS (f a) = true -> in_statuses ACTIVE_ASSIGNMENTS a = true) ->
  staffed l ss -> staffed (upd_where (by_id id) f l) ss.
Proof.
  intros Hf Ha Hact Hok. apply staffed_upd; [done| |done]. intros b Hb Eb.
  apply find_In in Ha as [Ha Ea]. apply bool_decide_eq_true in Ea, Eb. cbn in Ea, Eb.
  assert (b = a) as ->; [|done]. apply (NoDup_map_inj assignment_id l); [apply Hok|done..|congruence].
Qed.

Lemma assignment_data_find w id a s :
  assignment_data w id = Some (a, s) -> List.find (by_id id) (w_assignments w) = Some a.
Proof.
  unfold assignment_data. destruct (List.find _ (w_assignments w)) as [x|]; [|done].
  destruct (List.find _ (w_openShifts w)); [|done]. by intros [= -> _].
Qed.

(** What is left of a handler that only writes its audit row. *)
Ltac audit_end :=
  match goal with
  | |- context [run (staffing_audit ?v ?a ?b ?c ?d ?e) ?w] =>
      let H := fresh "Hsame" in
      pose proof (audit_staffing v a b c d e w) as H;
      destruct (run (staffing_audit v a b c d e) w) as [? [[]|?]]; cbn [fst] in *; wexec;
      apply (same_ok _ _ H)
  end.

Ltac find_case E :=
  match goal with |- context [match List.find ?p ?l with Some _ => _ | None => _ end] =>
    destruct (List.find p l) eqn:E end.

Ltac throw_case :=
  match goal with |- context [if ?c then Err _ else _] => destruct c end; [done|]; wexec.

Section operations.
Context `{Platform}.

Lemma createShift_ok v u input w :
  headcount_ok w -> 0 <= nullish (cs_headcount input) 1 -> headcount_ok (run (createShift v u input) w).1.
Proof.
  intros Hok Hh. unfold createShift. wexec. destruct (_ <=? _); [done|]. wexec.
  destruct (_ <? _); [done|]. wexec.
  match goal with |- context [existsb ?f ?l] => destruct (existsb f l) eqn:Ec end; wexec; [done|].
  audit_end; clear Hsame; pose proof Hok as [H1 H2 H3 H4 H5]; unfold headcount_ok; wcbn.
  all: assert (~ In (uuid (w_tick w)) (map openShift_id (w_openShifts w))) as Hn by
    (intros Hi; apply in_map_iff in Hi as (s & Es & Hs);
     match type of Ec with existsb ?f ?l = _ => assert (existsb f l = true) as Hx end;
     [apply existsb_exists; exists s; split; [done|]; cbn; rewrite Es; apply bd_refl|congruence]).
  all: split; [done|done| | |].
  1, 4: rewrite map_app; apply NoDup_app; split; [done|]; split; [|apply NoDup_singleton];
    intros i Hi Hi'; apply list_elem_of_singleton in Hi' as ->; by rewrite list_elem_of_In in Hi.
  1, 3: intros a Ha; rewrite map_app; apply in_or_app; left; by apply H4.
  all: intros s Hs; apply in_app_iff in Hs as [Hs|[<-|[]]]; [by apply H5|];
    cbn [openShift_id openShift_headcount]; rewrite filter_none; [done|];
    intros a Ha; unfold active_on, of_shift;
    rewrite bool_decide_eq_false_2; [done|intros E; apply Hn; rewrite <- E; by apply H4].
Qed.

Lemma publishShift_ok s u w : headcount_ok w -> headcount_ok (run (publishShift s u) w).1.
Proof.
  intros Hok. unfold publishShift, getShift. wexec. find_case Es; wexec; [|done].
  destruct (_ !=? _); [done|]. wexec. rewrite Es. wexec. audit_end; by apply staffed_shifts.
Qed.

Lemma cancelShift_ok s u r w : headcount_ok w -> headcount_ok (run (cancelShift s u r) w).1.
Proof.
  intros Hok. unfold cancelShift. wexec. destruct (List.find (by_id s) (w_openShifts w)) as [x|] eqn:Es; wexec; [|done].
  cbn [option_map]. wexec. throw_case. throw_case. rewrite Es. wexec.
  audit_end; apply staffed_shifts; try done; (apply staffed_upd; [done|done|done]).
Qed.

Lemma invite_ok s k u w : headcount_ok w -> headcount_ok (run (invite s k u) w).1.
Proof.
  intros Hok. unfold invite, getShift. wexec. find_case Es; wexec; [|done].
  destruct (_ !=? _); [done|]. wexec. destruct (List.find _ (w_accounts w)); wexec; [|done].
  destruct (List.find (of_worker s k) (w_assignments w)) as [a|] eqn:Ea; wexec.
  - destruct (in_statuses _ a) eqn:Eact; wexec; [done|]. rewrite Ea. wexec.
    audit_end; (apply staffed_upd; [done|done|done]).
  - rewrite Ea. wexec.
    match goal with |- context [existsb ?f ?l] => destruct (existsb f l) eqn:Ec end; wexec; [done|].
    destruct (shift_found _ _ _ Hok Es) as [Hin Hid].
    audit_end; (apply staffed_app; [exact Ec|cbn; rewrite <- Hid; by apply in_map|done|done]).
Qed.

Lemma respond_ok s u r w : headcount_ok w -> headcount_ok (run (respond s u r) w).1.
Proof.
  intros Hok. unfold respond, getShift, getWorker. wexec. find_case Ew; wexec; [|done].
  find_case Es; wexec; [|done]. destruct (List.find _ (w_accounts w)); wexec; [|done].
  match goal with |- context [if ?c then _ else _] => destruct c end; [done|]. wexec.
  pose proof (respond_transaction_ok w o s (worker_id w0) r Hok Es) as Ht.
  destruct (run (respond_transaction _ _ _ _) w) as [w1 [a|e1]]; wexec; [|done]. audit_end; exact Ht.
Qed.

Lemma workerAssignment_at {A} id u (k : ShiftAssignment * OpenShift * Worker -> handler A) w :
  headcount_ok w ->
  (forall a s x, assignment_data w id = Some (a, s) -> headcount_ok (run (k (a, s, x)) w).1) ->
  headcount_ok (run (bind (workerAssignment id u) k) w).1.
Proof.
  intros Hok Hk. unfold workerAssignment, getWorker. wexec. find_case Ew; wexec; [|done].
  destruct (assignment_data w id) as [[a s]|]; wexec; [|done].
  destruct (_ ==? _); wexec; [|done]. by apply Hk.
Qed.

Lemma clockIn_ok id u w : headcount_ok w -> headcount_ok (run (clockIn id u) w).1.
Proof.
  intros Hok. apply workerAssignment_at; [done|]. intros a s x Hd. apply assignment_data_find in Hd.
  destruct (assignment_status a !=? AssignmentStatus.ACCEPTED) eqn:Ea; wexec; [done|].
  apply negb_false_iff, bool_decide_eq_true in Ea. rewrite Hd. wexec.
  find_case Es; wexec; [|done].
  audit_end; (apply staffed_shifts; [done|]); (apply (staffed_by_id _ _ _ a); [done|done| |done]);
    intros _; unfold in_statuses; by rewrite Ea.
Qed.

Lemma clockOut_ok id u w : headcount_ok w -> headcount_ok (run (clockOut id u) w).1.
Proof.
  intros Hok. apply workerAssignment_at; [done|]. intros a s x Hd. apply assignment_data_find in Hd.
  destruct (assignment_status a !=? AssignmentStatus.CLOCKED_IN) eqn:Ea; wexec; [done|].
  apply negb_false_iff, bool_decide_eq_true in Ea. rewrite Hd. wexec.
  audit_end; (apply (staffed_by_id _ _ _ a); [done|done| |done]); intros _; unfold in_statuses; by rewrite Ea.
Qed.

Lemma reopen_ok s w : headcount_ok w -> headcount_ok (run (reopen s) w).1.
Proof.
  intros Hok. unfold reopen. destruct (_ ==? _); [|done]. wexec. destruct (_ <? _); wexec; [|done].
  find_case Es; wexec; [|done]. by apply staffed_shifts.
Qed.

Lemma release_ok {A} id s (f : Z -> ShiftAssignment -> ShiftAssignment) (t : Z) w (k : ShiftAssignment -> handler A) :
  headcount_ok w -> keeps_slot (f t) -> (forall a, in_statuses ACTIVE_ASSIGNMENTS (f t a) = false) ->
  (forall a w', headcount_ok w' -> headcount_ok (run (k a) w').1) ->
  headcount_ok (run (bind (update id (f t)) (fun saved => bind (reopen s) (fun _ => k saved))) w).1.
Proof.
  intros Hok Hf Hi Hk. wexec. find_case Ea; wexec; [|done].
  match goal with |- context [run (reopen s) ?w1] =>
    assert (headcount_ok w1) as Hok1 by
      (apply (staffed_by_id _ _ _ s0); [done|done|by rewrite Hi|done]);
    pose proof (reopen_ok s w1 Hok1) as Hr; destruct (run (reopen s) w1) as [w2 [[]|e]]
  end; wexec; [|done]. by apply Hk.
Qed.

Lemma bind_ok {A B} (p : handler A) (f : A -> handler B) w :
  headcount_ok (run p w).1 -> (forall a w', headcount_ok w' -> headcount_ok (run (f a) w').1) ->
  headcount_ok (run (bind p f) w).1.
Proof. intros Hp Hf. rewrite run_bind. destruct (run p w) as [w1 [a|e]]; [by apply Hf|exact Hp]. Qed.

Lemma transaction_ok {A} (p : handler A) w :
  headcount_ok w -> headcount_ok (run p w).1 -> headcount_ok (run (transaction p) w).1.
Proof. intros Hok Hp. rewrite run_transaction. by destruct (run p w) as [w1 [a|e]]. Qed.

Lemma audit_ok v a act_ ty i d w : headcount_ok w -> headcount_ok (run (staffing_audit v a act_ ty i d) w).1.
Proof. apply same_ok, audit_staffing. Qed.

Lemma cancelAssignment_ok id u r w : headcount_ok w -> headcount_ok (run (cancelAssignment id u r) w).1.
Proof.
  intros Hok. apply workerAssignment_at; [done|]. intros a s x _. rewrite run_bind, run_throw_if.
  destruct (negb _); [done|]. apply bind_ok.
  - apply transaction_ok; [done|]. rewrite run_bind, run_newDate. cbv beta iota.
    apply (release_ok id s (fun t a => a <| assignment_status := AssignmentStatus.CANCELLED |>
      <| assignment_cancellationReason := Some (nullish (trimmed r) "Cancelled by worker") |>
      <| assignment_respondedAt := Some t |>)); done.
  - intros y w' Hw'. apply bind_ok; [by apply audit_ok|done].
Qed.

Lemma markNoShow_ok id u w : headcount_ok w -> headcount_ok (run (markNoShow id u) w).1.
Proof.
  intros Hok. unfold markNoShow. rewrite run_bind. unfold getAssignment. rewrite run_bind, run_query.
  cbv beta iota. rewrite run_require. destruct (assignment_data w id) as [[a s]|]; [|done].
  rewrite run_bind, run_throw_if. destruct (negb _); [done|]. apply bind_ok.
  - apply transaction_ok; [done|].
    apply (release_ok id s (fun _ a => a <| assignment_status := AssignmentStatus.NO_SHOW |>) 0); done.
  - intros y w' Hw'. apply bind_ok; [by apply audit_ok|done].
Qed.

Lemma approveAssignment_ok id u w : headcount_ok w -> headcount_ok (run (approveAssignment id u) w).1.
Proof.
  intros Hok. unfold approveAssignment. rewrite run_bind, run_query. cbv beta iota.
  rewrite run_bind, run_require. destruct (approval_data w id) as [[[a s] v]|] eqn:Ed; [|done].
  unfold approval_data in Ed. destruct (assignment_data w id) as [[a' s']|] eqn:Ea; [|done].
  destruct (List.find _ (w_venues w)); [|done]. injection Ed as -> -> _.
  apply assignment_data_find in Ea.
  destruct ((assignment_status a ==? AssignmentStatus.APPROVED) && _); [done|]. rewrite run_bind, run_require.
  destruct (assignment_checkInAt a) as [i|]; [|done]. destruct (assignment_checkOutAt a) as [o|]; [|done].
  destruct (assignment_status a ==? AssignmentStatus.CLOCKED_OUT) eqn:Est; [|done].
  apply bool_decide_eq_true in Est. cbv beta iota. rewrite run_bind, run_throw_if. destruct (_ <=? 0); [done|].
  apply bind_ok; [|intros y w' Hw'; apply bind_ok; [by apply audit_ok|done]].
  apply transaction_ok; [done|].
  assert (forall w1 e t, w_assignments w1 = w_assignments w -> w_openShifts w1 = w_openShifts w ->
    staffed (upd_where (by_id id) (fun a => a <| assignment_status := AssignmentStatus.APPROVED |>
              <| assignment_approvedAt := Some t |> <| assignment_approvedByUserId := Some u |>
              <| assignment_shiftEvidenceId := Some e |>) (w_assignments w1)) (w_openShifts w1)) as Hup.
  { intros w1 e t -> ->. apply (staffed_by_id _ _ _ a); [done|done| |done].
    intros _. unfold in_statuses. by rewrite Est. }
  unfold link_evidence. wexec. destruct (List.find (evidence_key _ _) _) as [ev|]; wexec.
  - rewrite Ea. wexec. destruct (length _ =? 0)%nat; wexec; [|by apply (Hup w)].
    find_case Es; wexec; [|by apply (Hup w)]. apply staffed_shifts; [done|]. by apply (Hup w).
  - match goal with |- context [existsb ?f ?l] => destruct (existsb f l) end; wexec; [done|].
    rewrite Ea. wexec. destruct (length _ =? 0)%nat; wexec; [|by apply (Hup w)].
    find_case Es; wexec; [|by apply (Hup w)]. apply staffed_shifts; [done|]. by apply (Hup w).
Qed.
End operations.

(** The requests that change staffing. *)
Inductive operation :=
| CreateShift (venueId userId : string) (input : CreateShiftInput)
| PublishShift (shiftId userId : string)
| CancelShift (shiftId userId : string) (reason : option string)
| Invite (shiftId workerId userId : string)
| Respond (shiftId userId : string) (response : Response)
| ClockIn (assignmentId userId : string)
| ClockOut (assignmentId userId : string)
| CancelAssignment (assignmentId userId : string) (reason : option string)
| ApproveAssignment (assignmentId userId : string)
| MarkNoShow (assignmentId userId : string).

Definition perform `{Platform} (o : operation) (w : World) : World :=
  match o with
  | CreateShift v u input => (run (createShift v u input) w).1
  | PublishShift s u => (run (publishShift s u) w).1
  | CancelShift s u r => (run (cancelShift s u r) w).1
  | Invite s k u => (run (invite s k u) w).1
  | Respond s u r => (run (respond s u r) w).1
  | ClockIn a u => (run (clockIn a u) w).1
  | ClockOut a u => (run (clockOut a u) w).1
  | CancelAssignment a u r => (run (cancelAssignment a u r) w).1
  | ApproveAssignment a u => (run (approveAssignment a u) w).1
  | MarkNoShow a u => (run (markNoShow a u) w).1
  end.

(** The request schema asks for a headcount of at least one. *)
Definition well_formed (o : operation) : Prop :=
  match o with CreateShift _ _ input => 0 <= nullish (cs_headcount input) 1 | _ => True end.

(** C12: whatever requests arrive, one after the other and failing or not, the
    unique keys of shifts and assignments hold, every assignment has its shift,
    and no shift ever has more active workers than its headcount. *)
Theorem headcount_never_exceeded `{Platform} ops w :
  headcount_ok w -> Forall well_formed ops ->
  headcount_ok (fold_left (fun w o => perform o w) ops w).
Proof.
  intros Hok HF. revert w Hok. induction HF as [|o ops Ho _ IH]; intros w Hok; cbn; [done|].
  apply IH. destruct o; cbn [perform].
  - by apply createShift_ok.
  - by apply publishShift_ok.
  - by apply cancelShift_ok.
  - by apply invite_ok.
  - by apply respond_ok.
  - by apply clockIn_ok.
  - by apply clockOut_ok.
  - by apply cancelAssignment_ok.
  - by apply approveAssignment_ok.
  - by apply markNoShow_ok.
Qed.

(* ------------------------------------------------------------------ *)
(** ** Approval attests the recorded work *)

Lemma find_upd_key {R} (p q : R -> bool) (f : R -> R) l r :
  (forall x, q (f x) = q x) -> List.find q l = Some r ->
  List.find q (upd_where p f l) = Some (if p r then f r else r).
Proof. intros Hf E. rewrite find_upd_where by (intros; apply Hf). by rewrite E. Qed.

Section approval.
Context `{Platform}.

Lemma link_evidence_spec a id actor e w w' a' :
  run (link_evidence a id actor e) w = (w', Ok a') ->
  w_shifts w' = w_shifts w /\ List.find (by_id id) (w_assignments w') = Some a' /\
  assignment_status a' = AssignmentStatus.APPROVED /\ assignment_shiftEvidenceId a' = Some (shift_id e).
Proof.
  unfold link_evidence. wexec. find_case Ea; wexec; [|done].
  destruct (length _ =? 0)%nat; wexec; [find_case Es; wexec; [|done]|].
  all: intros [= <- <-]; wcbn; repeat split.
  all: erewrite find_upd_key; [|done|exact Ea].
  all: apply find_In in Ea as [_ Ea]; by rewrite Ea.
Qed.

Lemma audit_tables v a act_ ty i d w w' r :
  run (staffing_audit v a act_ ty i d) w = (w', r) ->
  w_shifts w' = w_shifts w /\ w_assignments w' = w_assignments w.
Proof.
  unfold staffing_audit, audit. wexec.
  match goal with |- context [existsb ?f ?l] => destruct (existsb f l) end; wexec; by intros [= <- _].
Qed.

(** The upsert of the evidence of an approval. *)
Lemma run_upsert_evidence key (f : ShiftEvidence -> ShiftEvidence) r w w' e :
  (forall x, key (f x) = key x) -> key r = true ->
  run (upsert key f (f r)) w = (w', Ok e) ->
  List.find key (w_shifts w') = Some e /\ exists x, e = f x.
Proof.
  intros Hf Hr. wexec. destruct (List.find key (w_shifts w)) as [old|] eqn:Eo; wexec.
  - intros [= <- <-]. wcbn. split; [|eauto]. erewrite find_upd_key; [|done|exact Eo].
    apply find_In in Eo as [_ Eo]. by rewrite Eo.
  - destruct (existsb _ _); [done|]. intros [= <- <-]. wcbn. split; [|eauto].
    rewrite find_app, Eo. cbn [List.find]. by rewrite Hf, Hr.
Qed.

(** approving a clocked-out assignment writes the evidence of exactly the
    recorded clock times, with at least one minute of work, mapped to the
    assigned worker under the key (venue, serveproof_staffing, assignment), and links
    it from the assignment; anything else but an approved assignment is
    refused, and approving an approved one changes nothing. *)
Theorem approve_attests id actor w w' a' :
  run (approveAssignment id actor) w = (w', Ok a') ->
  exists a s, assignment_data w id = Some (a, s) /\
    ((assignment_status a = AssignmentStatus.APPROVED /\ w' = w /\ a' = a) \/
     (assignment_status a = AssignmentStatus.CLOCKED_OUT /\
      exists i o e, assignment_checkInAt a = Some i /\ assignment_checkOutAt a = Some o /\
        List.find (evidence_key (openShift_venueId s) (assignment_id a)) (w_shifts w') = Some e /\
        shift_mappedWorkerId e = Some (assignment_workerId a) /\
        shift_clockIn e = i /\ shift_clockOut e = Some o /\
        shift_workedMinutes e = worked_minutes i o /\ 1 <= shift_workedMinutes e /\
        shift_shiftStatus e = ShiftStatus.APPROVED /\
        shift_ingestSource e = IngestSource.PLATFORM_ATTESTED /\
        assignment_status a' = AssignmentStatus.APPROVED /\
        assignment_shiftEvidenceId a' = Some (shift_id e) /\
        List.find (by_id id) (w_assignments w') = Some a')).
Proof.
  unfold approveAssignment. rewrite run_bind, run_query. cbv beta iota. rewrite run_bind, run_require.
  destruct (approval_data w id) as [[[a s] v]|] eqn:Ed; [|done].
  unfold approval_data in Ed. destruct (assignment_data w id) as [[a1 s1]|] eqn:Ea; [|done].
  destruct (List.find _ (w_venues w)); [|done]. injection Ed as -> -> _.
  intros E. exists a, s. split; [done|]. revert E.
  destruct ((assignment_status a ==? AssignmentStatus.APPROVED) && _) eqn:E1.
  { intros [= <- <-]. left. apply andb_true_iff in E1 as [E1 _]. by apply bool_decide_eq_true in E1. }
  clear E1. rewrite run_bind, run_require.
  destruct (assignment_checkInAt a) as [i|]; [|done]. destruct (assignment_checkOutAt a) as [o|]; [|done].
  destruct (assignment_status a ==? AssignmentStatus.CLOCKED_OUT) eqn:Est; [|done].
  apply bool_decide_eq_true in Est. cbv beta iota. rewrite run_bind, run_throw_if. destruct (_ <=? 0); [done|].
  rewrite run_bind, run_transaction, run_bind, run_freshId. cbv beta iota. rewrite run_bind.
  match goal with |- context [run (upsert ?p ?f ?r) ?w0] =>
    destruct (run (upsert p f r) w0) as [w1 [e|]] eqn:Eu end; [|done].
  apply run_upsert_evidence in Eu as [He [x ->]]; [|done|].
  2: { unfold evidence_key. cbn. by rewrite !bd_refl. }
  match goal with |- context [run (link_evidence ?p ?q ?r ?e) ?w0] =>
    destruct (run (link_evidence p q r e) w0) as [w2 [u|]] eqn:El end; [|done].
  apply link_evidence_spec in El as (Hs & Hfind & Hst & Hev). rewrite run_bind.
  match goal with |- context [run (staffing_audit ?b ?c ?d ?f ?g ?h) ?w0] =>
    destruct (run (staffing_audit b c d f g h) w0) as [w3 [[]|]] eqn:Et end; [|done].
  apply audit_tables in Et as [Ht1 Ht2]. intros [= <- <-]. right. split; [done|].
  eexists i, o, _. split; [done|]. split; [done|]. rewrite Ht1, Ht2, Hs. split; [exact He|].
  repeat split; try done. cbn. unfold worked_minutes. lia.
Qed.
End approval.

(* ------------------------------------------------------------------ *)
(** ** A shift for one *)

Definition demo_venue : World :=
  empty_world
    <| w_members := [mkOrganizationMember "m" "org" "boss" OrgRole.MANAGER] |>
    <| w_venues := [mkVenue "v" "org" "Bar" "UTC" None None None []] |>
    <| w_workers := [mkWorker "w1" "u1" None; mkWorker "w2" "u2" None] |>
    <| w_accounts := [mkExternalWorkerAccount "x1" "w1" "v" "csv" "e1" MappingStatus.CONFIRMED None None;
                      mkExternalWorkerAccount "x2" "w2" "v" "csv" "e2" MappingStatus.CONFIRMED None None] |>.

Definition demo_operations : list operation :=
  [CreateShift "v" "boss" (mkCreateShiftInput "server" None 7200000 36000000 1500 None None);
   PublishShift "id0" "boss"; Respond "id0" "u1" ACCEPT; Respond "id0" "u2" ACCEPT].

(** [w1] has the one place; [w2] was refused. *)
Definition demo_filled : World :=
  Eval vm_compute in fold_left (fun w o => perform o w) demo_operations demo_venue.

Definition demo_assignment : string :=
  Eval vm_compute in nullish (assignment_id <$> head (w_assignments demo_filled)) "".

Definition demo_worked : World :=
  Eval vm_compute in
  fold_left (fun w o => perform o w) [ClockIn demo_assignment "u1"; ClockOut demo_assignment "u1"] demo_filled.

Example demo_staffing_ex :
  map (fun a => (assignment_workerId a, assignment_status a)) (w_assignments demo_filled)
    = [("w1", AssignmentStatus.ACCEPTED)] /\
  map openShift_status (w_openShifts demo_filled) = [OpenShiftStatus.FILLED] /\
  map assignment_status (w_assignments demo_worked) = [AssignmentStatus.CLOCKED_OUT].
Proof. vm_compute. done. Qed.

Lemma headcount_never_exceeded_witness :
  headcount_ok (fold_left (fun w o => perform o w) demo_operations demo_venue).
Proof.
  apply (headcount_never_exceeded demo_operations demo_venue).
  - split; try (apply (bool_decide_unpack _); vm_compute; done); done.
  - repeat constructor; vm_compute; done.
Defined.

Lemma approve_attests_witness :
  exists w' a', run (approveAssignment demo_assignment "boss") demo_worked = (w', Ok a') /\
    exists a s, assignment_data demo_worked demo_assignment = Some (a, s).
Proof.
  destruct (run (approveAssignment demo_assignment "boss") demo_worked) as [w' [a'|e]] eqn:E.
  - exists w', a'. split; [done|]. destruct (approve_attests _ _ _ _ _ E) as (a & s & Hd & _). by exists a, s.
  - apply (f_equal (fun c => is_ok c.2)) in E. vm_compute in E. discriminate E.
Defined.

(** The status of an assignment is read before the transaction that clocks it
    in.  A worker who cancels and clocks in at once gives the place to someone
    else and then takes it anyway: the shift for one ends with two active
    workers. *)
Theorem clock_in_race :
  let handlers := [clockIn demo_assignment "u1"; cancelAssignment demo_assignment "u1" None;
                   respond "id0" "u2" ACCEPT] in
  let order := ([0; 0; 0] ++ [1; 1; 1; 1; 1] ++ [2; 2; 2; 2; 2; 2] ++ [0; 0; 0])%nat in
  let c := schedule order (demo_filled, handlers) in
  headcount_ok demo_filled /\
  map (fun a => (assignment_workerId a, assignment_status a)) (w_assignments c.1)
    = [("w1", AssignmentStatus.CLOCKED_IN); ("w2", AssignmentStatus.ACCEPTED)] /\
  map openShift_headcount (w_openShifts c.1) = [1] /\ ~ headcount_ok c.1.
Proof.
  cbv zeta. split; [|split; [vm_compute; reflexivity|split; [vm_compute; reflexivity|]]].
  - split; try (apply (bool_decide_unpack _); vm_compute; done).
    + intros a Ha. vm_compute in Ha. destruct Ha as [<-|[]]. by left.
    + intros s Hs. vm_compute in Hs. destruct Hs as [<-|[]]. vm_compute. done.
  - intros [_ _ _ _ H5].
    match type of H5 with forall s, In s ?l -> _ =>
      destruct l as [|s l'] eqn:E; [vm_compute in E; discriminate E|] end.
    specialize (H5 s (or_introl eq_refl)). revert H5. vm_compute in E. injection E as <- _.
    vm_compute. intros H5. by apply H5.
Qed.

(** Declining does not look at the shift or at the assignment.  A worker whose
    work was approved declines the completed shift afterwards: the assignment
    becomes DECLINED although its evidence stands, and the completed shift is OPEN
    again. *)
Theorem decline_reopens_completed :
  let w1 := perform (ApproveAssignment demo_assignment "boss") demo_worked in
  let w2 := perform (Respond "id0" "u1" DECLINE) w1 in
  map openShift_status (w_openShifts w1) = [OpenShiftStatus.COMPLETED] /\
  map assignment_status (w_assignments w1) = [AssignmentStatus.APPROVED] /\
  map openShift_status (w_openShifts w2) = [OpenShiftStatus.OPEN] /\
  map assignment_status (w_assignments w2) = [AssignmentStatus.DECLINED] /\
  w_shifts w2 = w_shifts w1 /\ length (w_shifts w2) = 1%nat.
Proof. vm_compute. done. Qed.

End StaffingService.
