(* ===== verification/Auth.v ===== *)
(** * Sign-in and sessions

    apps/api/src/auth/auth.service.ts and auth.controller.ts: the one-time code
    of an e-mail address, the token pair of a session and the rotation of
    refresh tokens. *)

From stdpp Require Import relations.
From S2P Require Import Prelude Concurrency Strings Schema Runtime Demo.

Open Scope Z_scope.

Module AuthService.

Definition OTP_TTL_SECONDS : Z := 300.
Definition OTP_MAX_ATTEMPTS : Z := 5.
Definition ACCESS_TOKEN_TTL : string := "15m".
Definition REFRESH_TOKEN_TTL_MS : Z := 7 * 24 * 60 * 60 * 1000.

Inductive AppMode := worker_mode | staff_mode.
Definition AppMode_name (m : AppMode) : string := match m with worker_mode => "worker" | staff_mode => "staff" end.

Record TokenPair := mkTokenPair { accessToken : string; refreshToken : string }.

Record OtpSent := mkOtpSent { os_sent : bool; os_devCode : option string }.

Record Session := mkSession { se_userId : string; se_email : string; se_modes : list AppMode }.

(** The capabilities of a person. *)
Definition modes_of (w : World) (userId : string) : list AppMode :=
  (if existsb (fun x => worker_userId x ==? userId) (w_workers w) then [worker_mode] else [])
  ++ (if existsb (fun m => member_userId m ==? userId) (w_members w) then [staff_mode] else []).

Definition otp_key (email : string) : string := "otp:" +:+ toLowerCase email.
Definition attempts_key (key : string) : string := key +:+ ":attempts".

Definition unrevoked (t : RefreshToken) : bool := token_revokedAt t ==? None.

Section service.
Context `{Platform} `{Environment}.

(** A Redis command whose failure is reported as 503.  (The connection status
    at the end of the message is not modelled.) *)
Definition otpStore {A} (op : handler (result A)) : handler A :=
  orThrow (fun message => ServiceUnavailableException ("OTP store unavailable: " +:+ message)) op.

(** [String(randomInt(0, 1_000_000)).padStart(6, "0")] *)
Definition randomOtp : handler string :=
  let* n := ask randomCode in
  Ret (padStart (str_of_Z n) 6 "0").

Definition requestOtp (email : string) : handler OtpSent :=
  let* code := randomOtp in
  let key := otp_key email in
  do* otpStore (redis_set key (sha256 code) OTP_TTL_SECONDS) in
  do* otpStore (redis_set (attempts_key key) "0" OTP_TTL_SECONDS) in
  if exposesDevCode (email_domain (toLowerCase email))
  then Ret (mkOtpSent true (Some code))
  else
    do* MailService.sendOtp email code in
    Ret (mkOtpSent true None).

Definition issueTokens (userId email role : string) : handler TokenPair :=
  let* i := freshId in
  do* upsert (R:=Worker) (fun x => worker_userId x ==? userId) (fun x => x) (mkWorker i userId None) in
  let* modes := query (fun w => if existsb (fun u => user_id u ==? userId) (w_users w)
                                then modes_of w userId else []) in
  let* access := ask (signJwt
    (JObj [("sub", JStr userId); ("email", JStr email); ("role", JStr role);
           ("modes", JArr (map (fun m => JStr (AppMode_name m)) modes)); ("typ", JStr "access")])
    ACCESS_TOKEN_TTL) in
  let* refresh := ask randomToken in
  let* t := newDate in
  let* j := freshId in
  do* create (mkRefreshToken j userId (sha256 refresh) (t + REFRESH_TOKEN_TTL_MS) None) in
  Ret (mkTokenPair access refresh).

Definition verifyOtp (email code : string) : handler (TokenPair * string) :=
  let key := otp_key email in
  let* attempts := otpStore (redis_incr (attempts_key key)) in
  do* (if OTP_MAX_ATTEMPTS <? attempts then
         do* orThrow JsError (redis_del [key]) in
         Throw (UnauthorizedException "Too many attempts; request a new code")
       else Ret tt) in
  let* storedHash := otpStore (redis_get key) in
  do* throw_if (negb (truthy storedHash) || (storedHash !=? Some (sha256 code)))
    (UnauthorizedException "Invalid or expired code") in
  do* orThrow JsError (redis_del [key; attempts_key key]) in
  let normalizedEmail := toLowerCase email in
  let* found := findFirst (fun u => user_email u ==? normalizedEmail) in
  let* user := match found with
               | Some u => Ret u
               | None =>
                   let* i := freshId in
                   create (mkUser i ("otp:" +:+ normalizedEmail) normalizedEmail
                             (email_local normalizedEmail) GlobalRole.WORKER)
               end in
  let* tokens := issueTokens (user_id user) (user_email user) (GlobalRole.name (user_role user)) in
  Ret (tokens, user_id user).

(** A refresh token with its user. *)
Definition token_data (w : World) (tokenHash : string) : option (RefreshToken * User) :=
  match List.find (fun t => token_tokenHash t ==? tokenHash) (w_refreshTokens w) with
  | Some t => option_map (pair t) (List.find (by_id (token_userId t)) (w_users w))
  | None => None
  end.

Definition refresh (refreshToken : string) : handler TokenPair :=
  let tokenHash := sha256 refreshToken in
  let* stored := query (fun w => token_data w tokenHash) in
  let invalid := UnauthorizedException "Invalid refresh token" in
  let* ' (token, user) := require stored invalid in
  do* throw_if (negb (unrevoked token)) invalid in
  let* t1 := newDate in
  do* throw_if (token_expiresAt token <? t1) invalid in
  let* t2 := newDate in
  let* t3 := newDate in
  let* claimed := updateMany
    (fun t => by_id (token_id token) t && unrevoked t && (t2 <=? token_expiresAt t))
    (fun t => t <| token_revokedAt := Some t3 |>) in
  do* throw_if (negb (claimed =? 1)%nat) invalid in
  issueTokens (user_id user) (user_email user) (GlobalRole.name (user_role user)).

Definition logout (refreshToken : string) : handler bool :=
  let* t := newDate in
  let* count := updateMany (fun x => (token_tokenHash x ==? sha256 refreshToken) && unrevoked x)
                  (fun x => x <| token_revokedAt := Some t |>) in
  Ret (0 <? count)%nat.

Definition getSession (userId : string) : handler Session :=
  let* data := query (fun w => option_map (fun u => (user_email u, modes_of w userId))
                                 (List.find (by_id userId) (w_users w))) in
  let* ' (email, modes) := require data (UnauthorizedException "User no longer exists") in
  Ret (mkSession userId email modes).
End service.

(* ------------------------------------------------------------------ *)
(** ** Rotation *)

(** The refresh tokens that are not revoked, those past their expiry included. *)
Definition sessions (w : World) : nat := length (List.filter unrevoked (w_refreshTokens w)).

Lemma revoke_count q t l :
  (forall x, q x = true -> unrevoked x = true) ->
  (length (List.filter unrevoked (upd_where q (fun x => x <| token_revokedAt := Some t |>) l))
   + length (List.filter q l) = length (List.filter unrevoked l))%nat.
Proof.
  intros Hq. apply filter_upd_claim. intros x Hx. split; [by apply Hq|done].
Qed.

Section rotation.
Context `{Platform} `{Environment}.

Definition same_sessions (w w' : World) : Prop := w_refreshTokens w' = w_refreshTokens w.

#[local] Instance same_sessions_preorder : PreOrder same_sessions.
Proof. split; [done|]. unfold same_sessions. intros a b c -> ->. done. Qed.

Abbreviation safe_ := (safe (fun _ => True) sessions).

Lemma safe_same {A} t (p : handler A) Q : guar same_sessions p -> (forall r, Q r t) -> safe_ t p Q.
Proof. apply safe_guar. unfold sessions. intros w w' _ ->. split; [done|lia]. Qed.

Lemma guar_act_same {A} (op : World -> World * result A) :
  (forall w, same_sessions w (op w).1) -> guar same_sessions (act op).
Proof. apply guar_act. Qed.

(** A token pair costs one token: the refresh token it stores. *)
Lemma safe_issueTokens userId email role : safe_ 1 (issueTokens userId email role) any_end.
Proof.
  unfold issueTokens. apply safe_bind, safe_same; [by intros w|]. intros [i|e]; [|exact I].
  apply safe_bind, safe_same.
  { apply guar_act. intros w. by repeat case_match. }
  intros [x|e]; [|exact I]. apply safe_bind, safe_same; [apply (guar_query same_sessions)|].
  intros [modes|e]; [|exact I].
  do 4 (apply safe_bind, safe_same; [by intros w|]; intros [?|?]; [|exact I]).
  apply safe_bind, safe_act. intros w _. split; [done|].
  destruct (existsb _ (rows w)); [by exists 1%nat|]. exists 0%nat. split; [|exact I].
  unfold sessions. cbn [fst]. wcbn. rewrite List.filter_app, length_app. cbn. lia.
Qed.

Lemma safe_revoke q t {A} (k : nat -> handler A) Q :
  (forall x, q x = true -> unrevoked x = true) -> (forall n, safe_ n (k n) Q) ->
  safe_ 0 (bind (updateMany q (fun x : RefreshToken => x <| token_revokedAt := Some t |>)) k) Q.
Proof.
  intros Hq Hk. apply safe_bind. intros w _. cbn [fst snd]. split; [done|].
  exists (length (List.filter q (w_refreshTokens w))). split; [|apply Hk].
  unfold sessions. wcbn. pose proof (revoke_count q t (w_refreshTokens w) Hq). lia.
Qed.

Lemma safe_refresh token : safe_ 0 (refresh token) any_end.
Proof.
  unfold refresh. apply safe_bind, safe_same; [apply (guar_query same_sessions)|].
  intros [data|e]; [|exact I]. apply safe_bind, safe_require; [|done]. intros [x user] _.
  apply safe_bind, safe_throw_if; [done|]. intros _.
  apply safe_bind, safe_same; [by intros w|]. intros [t1|e]; [|exact I].
  apply safe_bind, safe_throw_if; [done|]. intros _.
  do 2 (apply safe_bind, safe_same; [by intros w|]; intros [?|?]; [|exact I]).
  apply safe_revoke.
  - intros y Hy. apply andb_true_iff in Hy as [Hy _]. by apply andb_true_iff in Hy as [_ ?].
  - intros n. apply safe_bind, safe_throw_if; [done|]. intros En.
    apply negb_false_iff, Nat.eqb_eq in En as ->. apply safe_issueTokens.
Qed.

Lemma safe_logout token : safe_ 0 (logout token) any_end.
Proof.
  unfold logout. apply safe_bind, safe_same; [by intros w|]. intros [t|e]; [|exact I].
  apply safe_revoke; [|done]. intros y Hy. by apply andb_true_iff in Hy as [_ ?].
Qed.
End rotation.

(** Requests that present a refresh token. *)
Inductive token_request := Refresh (token : string) | Logout (token : string).

Definition serve `{Platform} `{Environment} (r : token_request) : handler unit :=
  match r with
  | Refresh token => do* refresh token in Ret tt
  | Logout token => do* logout token in Ret tt
  end.

(** C22: however refreshes and logouts of any tokens interleave, the number of
    refresh tokens that are not revoked (those that expired without being used
    count) never grows: a presented token is spent
    at most once, so no race turns one session into two. *)
Theorem refresh_never_multiplies `{Platform} `{Environment} requests w c' :
  rtc pool_step (w, map serve requests) c' -> (sessions c'.1 <= sessions w)%nat.
Proof.
  intros Hr.
  assert (Forall2 (fun t p => safe (fun _ => True) sessions t p any_end)
            (map (fun _ => 0%nat) requests) (map serve requests)) as HF.
  { clear Hr. induction requests as [|r l IH]; cbn; constructor; [|exact IH].
    destruct r; apply safe_bind; (eapply safe_weaken; [|apply safe_refresh || apply safe_logout]);
      intros [x|e] t' _; done. }
  destruct (pool_safe _ _ _ _ _ Hr I HF) as [_ Hle]. cbn [fst] in Hle.
  replace (sum_list (map (fun _ => 0%nat) requests)) with 0%nat in Hle; [lia|].
  clear. induction requests as [|r l IH]; cbn; [done|exact IH].
Qed.

(* ------------------------------------------------------------------ *)
(** ** One-time codes *)

Section otp.
Context `{Platform} `{Environment}.

Lemma attempts_key_ne key : attempts_key key <> key.
Proof.
  intros E. apply (f_equal String.length) in E. unfold attempts_key in E. rewrite str_length_app in E.
  cbn in E. lia.
Qed.

Definition same_redis (w w' : World) : Prop := w_redis w' = w_redis w.

#[local] Instance same_redis_preorder : PreOrder same_redis.
Proof. split; [done|]. unfold same_redis. intros a b c -> ->. done. Qed.

Lemma issueTokens_redis userId email role : guar same_redis (issueTokens userId email role).
Proof.
  unfold issueTokens. repeat (apply guar_bind; [|intros ?]); try done.
  all: try (by intros w). all: try apply (guar_query same_redis).
  all: apply guar_act; intros w; by repeat case_match.
Qed.

(** a sign-in succeeds only with the code whose digest is stored and not
    expired for the address, and only while fewer than five attempts were
    counted before; the code is destroyed by the sign-in, so it is used once. *)
Theorem verifyOtp_consumes email code w w' s :
  run (verifyOtp email code) w = (w', Ok s) ->
  let key := otp_key email in
  counter (live (now (w_tick w)) (w_redis w) (attempts_key key)) < OTP_MAX_ATTEMPTS /\
  (exists e, live (now (S (w_tick w))) (w_redis w) key = Some (sha256 code, e)) /\
  map_get (w_redis w') key = None /\ map_get (w_redis w') (attempts_key key) = None.
Proof.
  cbv zeta. unfold verifyOtp, otpStore. set (key := otp_key email).
  rewrite run_bind, run_orThrow. unfold redis_incr. rewrite run_redis.
  destruct (redisError (w_tick w)); [done|]. cbv beta iota.
  set (o := live _ _ (attempts_key key)). set (v := (str_of_Z _, _)).
  destruct (OTP_MAX_ATTEMPTS <? counter o + 1) eqn:Ea.
  { rewrite run_bind, run_bind, run_orThrow. destruct (run (redis_del _) _) as [w1 [[x|e]|e]]; done. }
  rewrite run_bind, run_ret. cbv beta iota. rewrite run_bind, run_orThrow.
  unfold redis_get. rewrite run_redis. wcbn.
  destruct (redisError (S (w_tick w))); [done|]. cbv beta iota.
  rewrite live_set_ne by apply attempts_key_ne.
  destruct (live (now (S (w_tick w))) (w_redis w) key) as [[h e]|] eqn:El; cbn [option_map].
  2: { rewrite run_bind, run_throw_if. done. }
  rewrite run_bind, run_throw_if.
  destruct (negb (truthy (Some _)) || _) eqn:Eh; [done|]. cbv beta iota.
  apply orb_false_iff in Eh as [_ Eh]. apply negb_false_iff, bool_decide_eq_true in Eh. cbn in Eh.
  injection Eh as ->. rewrite run_bind, run_orThrow. unfold redis_del. rewrite run_redis. wcbn.
  destruct (redisError (S (S (w_tick w)))); [done|]. cbv beta iota.
  match goal with |- run ?p ?w0 = _ -> _ => intros E;
    assert (same_redis w0 (run p w0).1) as Hsame; [|rewrite E in Hsame] end.
  { apply (guar_run same_redis). apply guar_bind; [apply (guar_query same_redis)|]. intros u.
    apply guar_bind.
    - destruct u; [done|]. apply guar_bind; [by intros w0|]. intros i. apply guar_act. intros w0. by case_match.
    - intros u'. apply guar_bind; [apply issueTokens_redis|done]. }
  unfold same_redis in Hsame. cbn [fst] in Hsame. revert Hsame. wcbn. intros ->.
  split; [lia|]. split; [by exists e|]. split; apply store_del_In; [by left|right; by left].
Qed.

(** C33: after five counted attempts every code is refused, the right one
    included, and the code is destroyed. *)
Theorem verifyOtp_lockout email code w :
  (forall t, redisError t = None) ->
  OTP_MAX_ATTEMPTS <= counter (live (now (w_tick w)) (w_redis w) (attempts_key (otp_key email))) ->
  (run (verifyOtp email code) w).2 = Err (UnauthorizedException "Too many attempts; request a new code") /\
  map_get (w_redis (run (verifyOtp email code) w).1) (otp_key email) = None.
Proof.
  intros Hr Hc. unfold verifyOtp, otpStore.
  rewrite run_bind, run_orThrow. unfold redis_incr. rewrite run_redis, Hr. cbv beta iota.
  rewrite (proj2 (Z.ltb_lt OTP_MAX_ATTEMPTS _)) by lia.
  rewrite run_bind, run_bind, run_orThrow. unfold redis_del. rewrite run_redis, Hr. cbv beta iota.
  rewrite run_throw. split; [done|]. cbn [fst]. wcbn. apply store_del_In. by left.
Qed.
End otp.

(* ------------------------------------------------------------------ *)
(** ** A sign-in *)

#[local] Existing Instance demo_environment.

Definition demo_requested : World :=
  Eval vm_compute in (run (requestOtp "Ann@bar.io") empty_world).1.
Definition demo_login : World * result (TokenPair * string) :=
  Eval vm_compute in run (verifyOtp "ann@bar.io" "100000") demo_requested.
Definition demo_refresh_token : string :=
  Eval vm_compute in match demo_login.2 with Ok s => refreshToken s.1 | Err _ => "" end.

Example demo_login_ex :
  is_ok demo_login.2 = true /\ sessions demo_login.1 = 1%nat /\
  is_ok (run (verifyOtp "ann@bar.io" "100000") demo_login.1).2 = false /\
  is_ok (run (refresh demo_refresh_token) demo_login.1).2 = true.
Proof. vm_compute. done. Qed.

Lemma verifyOtp_consumes_witness :
  map_get (w_redis demo_login.1) (otp_key "ann@bar.io") = None.
Proof.
  destruct (run (verifyOtp "ann@bar.io" "100000") demo_requested) as [w' [s|e]] eqn:E.
  - destruct (verifyOtp_consumes _ _ _ _ _ E) as (_ & _ & Hk & _).
    apply (f_equal fst) in E. cbn [fst] in E. subst w'. exact Hk.
  - apply (f_equal (fun c => is_ok c.2)) in E. vm_compute in E. discriminate E.
Defined.

(** Five wrong guesses, then the right code. *)
Definition demo_locked : World :=
  Eval vm_compute in
  fold_left (fun w c => (run (verifyOtp "ann@bar.io" c) w).1) ["1"; "2"; "3"; "4"; "5"] demo_requested.

Lemma verifyOtp_lockout_witness :
  (run (verifyOtp "ann@bar.io" "100000") demo_locked).2
    = Err (UnauthorizedException "Too many attempts; request a new code").
Proof. refine (proj1 (verifyOtp_lockout "ann@bar.io" "100000" demo_locked _ _)); [done|vm_compute; done]. Defined.

(** The same token presented three times at once, and a logout. *)
Lemma refresh_never_multiplies_witness :
  let requests := [Refresh demo_refresh_token; Refresh demo_refresh_token; Logout demo_refresh_token;
                   Refresh demo_refresh_token] in
  let c' := schedule (concat (repeat [0; 1; 2; 3]%nat 12)) (demo_login.1, map serve requests) in
  (sessions c'.1 <= sessions demo_login.1)%nat.
Proof.
  cbv zeta. eapply (refresh_never_multiplies [Refresh demo_refresh_token; Refresh demo_refresh_token;
    Logout demo_refresh_token; Refresh demo_refresh_token]).
  apply schedule_sound.
Defined.

End AuthService.
