(* ===== verification/Policies.v ===== *)
(** * Allocation policies

    apps/api/src/policies/policies.service.ts and policies.controller.ts: the
    versions of a venue's policy.  The date strings of the requests are the
    instants they denote. *)

From S2P Require Import Prelude Concurrency Strings Schema Demo Access.
Import AccessService.

Open Scope Z_scope.

Module PoliciesService.

Record PolicyInput := mkPolicyInput {
  pi_allocationType : AllocationType.t;
  pi_roleWeights : list (string * spec_float);
  pi_poolInclusion : list (string * bool);
  pi_excludedRoles : list string;
  pi_tipOutRules : option json;
  pi_effectiveFrom : Z
}.

(** [Partial<PolicyInput>] *)
Record PolicyOverrides := mkPolicyOverrides {
  po_allocationType : option AllocationType.t;
  po_roleWeights : option (list (string * spec_float));
  po_poolInclusion : option (list (string * bool));
  po_excludedRoles : option (list string);
  po_tipOutRules : option json;
  po_effectiveFrom : option Z
}.

Definition of_venue (venueId : string) (p : AllocationPolicy) : bool := policy_venueId p ==? venueId.

Definition active_in (venueId : string) (p : AllocationPolicy) : bool :=
  of_venue venueId p && (policy_status p ==? PolicyStatus.ACTIVE).

(** The highest version of a venue, 0 when it has none. *)
Definition latest_version (w : World) (venueId : string) : Z :=
  match orderByDesc policy_version (List.filter (of_venue venueId) (w_policies w)) with
  | p :: _ => policy_version p
  | [] => 0
  end.

Definition archive (t : Z) (p : AllocationPolicy) : AllocationPolicy :=
  p <| policy_status := PolicyStatus.ARCHIVED |> <| policy_effectiveTo := Some t |>.

Section service.
Context `{Platform}.

Definition list_ (venueId : string) : handler (list AllocationPolicy) :=
  query (fun w => orderByDesc policy_version (List.filter (of_venue venueId) (w_policies w))).

Definition createVersion (venueId createdBy : string) (input : PolicyInput) : handler AllocationPolicy :=
  transaction (
    let* latest := query (fun w => latest_version w venueId) in
    let* t := newDate in
    do* updateMany (active_in venueId) (archive t) in
    let* i := freshId in
    create (mkAllocationPolicy i venueId (latest + 1) PolicyStatus.ACTIVE (pi_allocationType input)
      (pi_roleWeights input) (nullish (pi_tipOutRules input) (JArr [])) (pi_poolInclusion input)
      (pi_excludedRoles input) (pi_effectiveFrom input) None createdBy)).

Definition newVersionFrom (policyId createdBy : string) (overrides : PolicyOverrides)
    : handler AllocationPolicy :=
  let* base := findUnique (R:=AllocationPolicy) policyId in
  let* base := require base (NotFoundException ("Policy " +:+ policyId +:+ " not found")) in
  let* effectiveFrom := match po_effectiveFrom overrides with
                        | Some t => Ret t
                        | None => newDate
                        end in
  createVersion (policy_venueId base) createdBy
    (mkPolicyInput (nullish (po_allocationType overrides) (policy_allocationType base))
       (nullish (po_roleWeights overrides) (policy_roleWeights base))
       (nullish (po_poolInclusion overrides) (policy_poolInclusion base))
       (nullish (po_excludedRoles overrides) (policy_excludedRoles base))
       (Some (nullish (po_tipOutRules overrides) (policy_tipOutRules base)))
       effectiveFrom).

Definition getVenueIdOf (policyId : string) : handler string :=
  let* policy := findUnique (R:=AllocationPolicy) policyId in
  let* policy := require policy (NotFoundException ("Policy " +:+ policyId +:+ " not found")) in
  Ret (policy_venueId policy).

(** *** Controller *)

Definition get_policies (user venueId : string) : handler (list AllocationPolicy) :=
  do* assertVenueRole user venueId VENUE_READ_ROLES in
  list_ venueId.

Definition post_policy (user venueId : string) (input : PolicyInput) : handler AllocationPolicy :=
  do* assertVenueRole user venueId VENUE_MANAGE_ROLES in
  createVersion venueId user input.

Definition post_newVersion (user id : string) (overrides : PolicyOverrides) : handler AllocationPolicy :=
  let* venueId := getVenueIdOf id in
  do* assertVenueRole user venueId VENUE_MANAGE_ROLES in
  newVersionFrom id user overrides.
End service.

(* ------------------------------------------------------------------ *)
(** ** Versions are appended, never rewritten *)

(** The head of a list sorted downwards bounds the list. *)
Lemma sort_insert_head {R} (f : R -> Z) x l :
  (forall y, In y l -> match l with z :: _ => f y <= f z | [] => True end) ->
  match sort_insert (fun a b => f b <? f a) x l with
  | z :: _ => forall y, y = x \/ In y l -> f y <= f z
  | [] => False
  end.
Proof.
  destruct l as [|z l]; intros H; cbn; [intros y [->|[]]; lia|].
  destruct (f x <? f z) eqn:E.
  - intros y [->|Hy]; [lia|]. by apply (H y).
  - intros y [->|Hy]; [lia|]. pose proof (H y Hy). lia.
Qed.

Lemma orderByDesc_head {R} (f : R -> Z) (l : list R) z r :
  orderByDesc f l = z :: r -> In z l /\ forall y, In y l -> f y <= f z.
Proof.
  intros E. split.
  { rewrite <- list_elem_of_In, <- (stable_sort_Permutation (fun a b => f b <? f a) l).
    unfold orderByDesc in E. rewrite E. apply list_elem_of_here. }
  revert z r E. induction l as [|x l IH]; intros z r E y Hy; [done|].
  unfold orderByDesc in *. cbn in E.
  set (s := stable_sort (fun a b => f b <? f a) l) in *.
  change (fold_right _ [] l) with s in E.
  assert (forall y, In y s <-> In y l) as Hs.
  { intros y0. rewrite <- !list_elem_of_In. unfold s. by rewrite stable_sort_Permutation. }
  pose proof (sort_insert_head f x s) as Hh. rewrite E in Hh. apply Hh.
  - intros y0 Hy0. destruct s as [|z' r'] eqn:Es; [done|]. apply (IH z' r' eq_refl). by apply Hs.
  - destruct Hy as [->|Hy]; [by left|]. right. by apply Hs.
Qed.

Lemma latest_version_bounds w venueId p :
  In p (w_policies w) -> policy_venueId p = venueId -> policy_version p <= latest_version w venueId.
Proof.
  intros Hp E. unfold latest_version.
  assert (In p (List.filter (of_venue venueId) (w_policies w))) as Hin.
  { apply filter_In. split; [done|]. by apply bool_decide_eq_true. }
  destruct (orderByDesc _ _) as [|z r] eqn:Eo.
  - exfalso. apply (f_equal length) in Eo. unfold orderByDesc in Eo. rewrite stable_sort_Permutation in Eo.
    by destruct (List.filter _ _).
  - apply orderByDesc_head in Eo as [_ Eo]. by apply Eo.
Qed.

(** What a version keeps for ever. *)
Definition terms (p : AllocationPolicy) :=
  (policy_id p, policy_venueId p, policy_version p, policy_allocationType p,
   (policy_roleWeights p, policy_tipOutRules p, policy_poolInclusion p, policy_excludedRoles p,
    policy_effectiveFrom p, policy_createdBy p)).

Section theorems.
Context `{Platform}.

(** A new policy version gets a number above every earlier version of its
    venue, becomes the venue's only ACTIVE version, and leaves the terms of
    every existing version, and the status of other venues' versions, as they
    were: the rules a batch was computed with cannot change afterwards. *)
Theorem createVersion_appends venueId createdBy input w w' p :
  run (createVersion venueId createdBy input) w = (w', Ok p) ->
  (forall q, In q (w_policies w) -> policy_venueId q = venueId -> policy_version q < policy_version p) /\
  List.filter (active_in venueId) (w_policies w') = [p] /\
  map terms (w_policies w') = map terms (w_policies w) ++ [terms p] /\
  (forall v, v <> venueId ->
     List.filter (of_venue v) (w_policies w') = List.filter (of_venue v) (w_policies w)).
Proof.
  unfold createVersion. wexec.
  match goal with |- context [existsb ?f ?l] => destruct (existsb f l) end; wexec; [done|].
  intros [= <- <-]. wcbn. split; [|split; [|split]].
  - intros q Hq E. cbn. pose proof (latest_version_bounds w venueId q Hq E). lia.
  - rewrite List.filter_app, filter_none.
    + cbn. unfold active_in, of_venue. cbn. by rewrite !bd_refl.
    + intros q Hq. apply in_upd_where in Hq as (q0 & _ & ->). destruct (active_in venueId q0) eqn:E; [|exact E].
      unfold active_in. cbn. by rewrite andb_false_r.
  - rewrite map_app. f_equal. unfold upd_where. rewrite map_map. apply map_ext. intros q.
    by destruct (active_in venueId q).
  - intros v Hv. rewrite List.filter_app. cbn [List.filter]. unfold of_venue at 2. cbn [policy_venueId].
    rewrite bool_decide_eq_false_2 by done. rewrite app_nil_r, filter_upd_where by done.
    apply upd_where_id. intros q Hq Ea. apply filter_In in Hq as [_ Hq].
    apply andb_true_iff in Ea as [Ea _]. apply bool_decide_eq_true in Hq, Ea. congruence.
Qed.
End theorems.

Definition demo_policy : PolicyInput :=
  mkPolicyInput AllocationType.HOURS_WEIGHTED [("server", S754_zero false)] [("CASH_TIP", true)] [] None 0.

Lemma createVersion_appends_witness :
  exists w' p, run (createVersion "v" "boss" demo_policy)
                 (run (createVersion "v" "boss" demo_policy) empty_world).1 = (w', Ok p) /\
    List.filter (active_in "v") (w_policies w') = [p] /\ policy_version p = 2.
Proof.
  destruct (run (createVersion "v" "boss" demo_policy)
              (run (createVersion "v" "boss" demo_policy) empty_world).1) as [w' [p|e]] eqn:E.
  - exists w', p. split; [done|].
    split; [exact (proj1 (proj2 (createVersion_appends _ _ _ _ _ _ E)))|].
    apply (f_equal (fun c => match c.2 with Ok p => policy_version p | Err _ => 0 end)) in E.
    vm_compute in E. symmetry. exact E.
  - apply (f_equal (fun c => is_ok c.2)) in E. vm_compute in E. discriminate E.
Defined.

End PoliciesService.
