(* ===== verification/Mappings.v ===== *)
(** * Connecting workers to their external identities

    apps/api/src/mappings/mappings.service.ts and mappings.controller.ts: a
    venue proposes that an external worker id is a worker; the worker accepts;
    the evidence and the shares that were held for the id are attached to the
    worker. *)

From stdpp Require Import relations.
From S2P Require Import Prelude Concurrency Strings Schema Runtime Demo Access Allocations IncomeProjector Solana Payouts.
Import AccessService.

Open Scope Z_scope.

Module MappingsService.

Record MappingInput := mkMappingInput {
  mi_workerId : option string;
  mi_workerEmail : option string;
  mi_venueId : string;
  mi_provider : string;
  mi_externalWorkerId : string
}.

Record CreatedMapping := mkCreatedMapping {
  cm_mapping : ExternalWorkerAccount;
  cm_invitationEmailSent : bool;
  cm_accountCreated : bool;
  cm_heldUsdCents : Z
}.

Record MappingResult := mkMappingResult {
  mr_mapping : ExternalWorkerAccount;
  mr_backfilledShifts : nat;
  mr_heldAllocationsAttached : nat
}.

Record Unmapped := mkUnmapped {
  um_shiftWorkers : list (string * string);
  um_pending : list (ExternalWorkerAccount * option (string * string))
}.

(** The unique key of an external identity at a venue. *)
Definition identity_of (venueId provider externalWorkerId : string) (c : ExternalWorkerAccount) : bool :=
  (account_venueId c ==? venueId) && (account_provider c ==? provider)
  && (account_externalWorkerId c ==? externalWorkerId).

(** A share held for an external identity of the venue: no worker yet. *)
Definition held_for (w : World) (venueId provider externalWorkerId : string) (a : WorkerAllocation) : bool :=
  (alloc_workerId a ==? None) && (alloc_provider a ==? Some provider)
  && (alloc_externalWorkerId a ==? Some externalWorkerId)
  && match List.find (by_id (alloc_batchId a)) (w_batches w) with
     | Some b => batch_venueId b ==? venueId
     | None => false
     end.

Definition unmapped_shift (venueId provider externalWorkerId : string) (s : ShiftEvidence) : bool :=
  (shift_venueId s ==? venueId) && (shift_provider s ==? provider)
  && (shift_externalWorkerId s ==? externalWorkerId) && (shift_mappedWorkerId s ==? None).

Definition in_batch_of (batchId workerId : string) (a : WorkerAllocation) : bool :=
  (alloc_batchId a ==? batchId) && (alloc_workerId a ==? Some workerId).

Inductive Decision := ACCEPT | REJECT.

Section service.
Context `{Platform} `{Environment}.

(** [distinct: ["provider", "externalWorkerId"]]; the keys of the pending
    requests are joined with ":". *)
Definition listUnmapped (venueId : string) : handler Unmapped :=
  let* shifts := query (fun w => distinct
    (map (fun s => (shift_provider s, shift_externalWorkerId s))
      (List.filter (fun s => (shift_venueId s ==? venueId) && (shift_mappedWorkerId s ==? None))
         (w_shifts w)))) in
  let* pending := query (fun w => map (fun c => (c,
      match List.find (by_id (account_workerId c)) (w_workers w) with
      | Some x => option_map (fun u => (user_displayName u, user_email u))
                    (List.find (by_id (worker_userId x)) (w_users w))
      | None => None end))
    (List.filter (fun c => (account_venueId c ==? venueId) && (account_mappingStatus c ==? MappingStatus.PENDING))
       (w_accounts w))) in
  let pendingKeys := map (fun c => account_provider c.1 +:+ ":" +:+ account_externalWorkerId c.1) pending in
  Ret (mkUnmapped (List.filter (fun k => negb (includes pendingKeys (k.1 +:+ ":" +:+ k.2))) shifts) pending).

(** The worker of an e-mail address; an unknown address is onboarded. *)
Definition worker_by_email (workerEmail : option string) : handler (string * bool) :=
  let email := toLowerCase (nullish workerEmail "") in
  let* found := query (fun w => option_map
    (fun u => (u, List.find (fun x => worker_userId x ==? user_id u) (w_workers w)))
    (List.find (fun u => user_email u ==? email) (w_users w))) in
  match found with
  | Some (u, Some x) => Ret (worker_id x, false)
  | Some (u, None) =>
      let* i := freshId in
      let* x := upsert (R:=Worker) (fun x => worker_userId x ==? user_id u) (fun x => x)
                  (mkWorker i (user_id u) None) in
      Ret (worker_id x, false)
  | None =>
      let* x := transaction (
        let* i := freshId in
        do* create (mkUser i ("otp:" +:+ email) email (email_local email) GlobalRole.WORKER) in
        let* j := freshId in
        create (mkWorker j i None)) in
      Ret (worker_id x, true)
  end.

Definition createMapping (input : MappingInput) : handler CreatedMapping :=
  let* ' (workerId, accountCreated) :=
    if truthy (mi_workerId input) then Ret (nullish (mi_workerId input) "", false)
    else worker_by_email (mi_workerEmail input) in
  let* worker := findUnique (R:=Worker) workerId in
  do* require worker (NotFoundException ("Worker " +:+ workerId +:+ " not found")) in
  let* i := freshId in
  let* mapping := upsert (identity_of (mi_venueId input) (mi_provider input) (mi_externalWorkerId input))
    (fun c => c <| account_workerId := workerId |>
                <| account_mappingStatus := MappingStatus.PENDING |>
                <| account_verifiedBy := None |>
                <| account_verifiedAt := None |>)
    (mkExternalWorkerAccount i workerId (mi_venueId input) (mi_provider input) (mi_externalWorkerId input)
       MappingStatus.PENDING None None) in
  let* heldUsdCents := query (fun w => sumZ alloc_netAllocatedUsdCents
    (List.filter (held_for w (mi_venueId input) (mi_provider input) (mi_externalWorkerId input))
       (w_allocations w))) in
  let* invitationEmailSent :=
    match mi_workerEmail input with
    | Some to =>
        if negb (to ==? "") && MailService.enabled then
          let* venue := findUnique (R:=Venue) (mi_venueId input) in
          let name := match venue with Some v => venue_name v | None => "A venue" end in
          catch (do* MailService.send to ("[ServeProof] " +:+ name +:+ " sent an account connection request") in
                 Ret true)
                (fun _ => Ret false)
        else Ret false
    | None => Ret false
    end in
  Ret (mkCreatedMapping mapping invitationEmailSent accountCreated heldUsdCents).

(** One held share, in one transaction. *)
Definition attach_one (workerId : string) (allocation : WorkerAllocation) : handler unit :=
  transaction (
    let* existing := findFirst (in_batch_of (alloc_batchId allocation) workerId) in
    match existing with
    | Some e =>
        do* update (alloc_id e)
              (fun a => a <| alloc_pooledTipUsdCents ::= Z.add (alloc_pooledTipUsdCents allocation) |>
                          <| alloc_netAllocatedUsdCents ::= Z.add (alloc_netAllocatedUsdCents allocation) |>) in
        delete (R:=WorkerAllocation) (alloc_id allocation)
    | None =>
        do* update (alloc_id allocation) (fun a => a <| alloc_workerId := Some workerId |>) in
        Ret tt
    end).

Definition attachHeldAllocations (mapping : ExternalWorkerAccount) : handler nat :=
  let* held := query (fun w => List.filter
    (held_for w (account_venueId mapping) (account_provider mapping) (account_externalWorkerId mapping))
    (w_allocations w)) in
  do* for_each held (attach_one (account_workerId mapping)) in
  Ret (length held).

Definition verifyMapping (id verifiedBy : string) : handler MappingResult :=
  let* mapping := findUnique (R:=ExternalWorkerAccount) id in
  let* mapping := require mapping (NotFoundException ("Mapping " +:+ id +:+ " not found")) in
  do* throw_if (account_mappingStatus mapping ==? MappingStatus.REJECTED)
    (BadRequestException "Rejected mapping cannot be verified") in
  let* t := newDate in
  let* ' (updated, backfill) := transaction (
    let* updated := update id
      (fun c => c <| account_mappingStatus := MappingStatus.CONFIRMED |>
                  <| account_verifiedBy := Some verifiedBy |>
                  <| account_verifiedAt := Some t |>) in
    let* backfill := updateMany
      (unmapped_shift (account_venueId mapping) (account_provider mapping) (account_externalWorkerId mapping))
      (fun s => s <| shift_mappedWorkerId := Some (account_workerId mapping) |>) in
    Ret (updated, backfill)) in
  let* heldAllocationsAttached := attachHeldAllocations mapping in
  do* (if (0 <? backfill)%nat || (0 <? heldAllocationsAttached)%nat then
         catch (do* IncomeProjector.rebuildVenueIncome (account_venueId mapping) (Some verifiedBy) "SYSTEM" in
                Ret tt)
               (fun _ => Ret tt)
       else Ret tt) in
  Ret (mkMappingResult updated backfill heldAllocationsAttached).

(** The request with the user of its worker. *)
Definition mapping_data (w : World) (id : string) : option (ExternalWorkerAccount * string) :=
  match List.find (by_id id) (w_accounts w) with
  | Some c => option_map (fun x => (c, worker_userId x)) (List.find (by_id (account_workerId c)) (w_workers w))
  | None => None
  end.

Definition respondToMapping (id userId : string) (decision : Decision) : handler MappingResult :=
  let* data := query (fun w => mapping_data w id) in
  let* ' (mapping, owner) := require data (NotFoundException ("Mapping " +:+ id +:+ " not found")) in
  do* throw_if (owner !=? userId)
    (ForbiddenException "This connection request belongs to another worker") in
  match decision with
  | REJECT =>
      do* throw_if (account_mappingStatus mapping ==? MappingStatus.CONFIRMED)
        (BadRequestException "A confirmed mapping cannot be rejected") in
      let* t := newDate in
      let* rejected := update id
        (fun c => c <| account_mappingStatus := MappingStatus.REJECTED |>
                    <| account_verifiedBy := Some userId |>
                    <| account_verifiedAt := Some t |>) in
      Ret (mkMappingResult rejected 0 0)
  | ACCEPT =>
      do* throw_if (account_mappingStatus mapping ==? MappingStatus.REJECTED)
        (BadRequestException "A rejected mapping requires a new venue request") in
      if account_mappingStatus mapping ==? MappingStatus.CONFIRMED
      then Ret (mkMappingResult mapping 0 0)
      else verifyMapping id userId
  end.

(** *** Controller *)

Definition get_unmapped (user venueId : string) : handler Unmapped :=
  do* assertVenueRole user venueId VENUE_READ_ROLES in
  listUnmapped venueId.

Definition post_mapping (user : string) (input : MappingInput) : handler CreatedMapping :=
  do* assertVenueRole user (mi_venueId input) VENUE_MANAGE_ROLES in
  createMapping input.

Definition patch_respond (user id : string) (decision : Decision) : handler MappingResult :=
  respondToMapping id user decision.
End service.

(* ------------------------------------------------------------------ *)
(** ** Attaching held shares moves no money *)

Lemma upd_where_keeps {R X} (f : R -> X) p (g : R -> R) l :
  (forall r, f (g r) = f r) -> map f (upd_where p g l) = map f l.
Proof. intros H. unfold upd_where. rewrite map_map. apply map_ext. intros r. by destruct (p r). Qed.

Lemma by_id_alloc i (a : WorkerAllocation) : by_id i a = true <-> alloc_id a = i.
Proof. unfold by_id. apply bool_decide_eq_true. Qed.

Lemma find_alloc (l : list WorkerAllocation) r :
  NoDup (map alloc_id l) -> In r l -> List.find (by_id (alloc_id r)) l = Some r.
Proof. exact (find_by_id_NoDup l r). Qed.

Lemma sumZ_upd_by_id (g : WorkerAllocation -> Z) F l r :
  NoDup (map alloc_id l) -> In r l ->
  sumZ g (upd_where (by_id (alloc_id r)) F l) = sumZ g l - g r + g (F r).
Proof.
  unfold upd_where. induction l as [|a l IH]; cbn; intros HN Hr; [done|].
  apply NoDup_cons in HN as [Hn HN]. rewrite list_elem_of_In in Hn. destruct Hr as [->|Hr].
  - rewrite (proj2 (by_id_alloc _ r) eq_refl).
    rewrite (map_ext_in _ id); [rewrite map_id; lia|].
    intros b Hb. destruct (by_id (alloc_id r) b) eqn:E; [|done]. apply by_id_alloc in E.
    exfalso. apply Hn. rewrite <- E. by apply in_map.
  - destruct (by_id (alloc_id r) a) eqn:E.
    + apply by_id_alloc in E. exfalso. apply Hn. rewrite E. by apply in_map.
    + rewrite (IH HN Hr). lia.
Qed.

Lemma sumZ_delete_by_id (g : WorkerAllocation -> Z) l r :
  NoDup (map alloc_id l) -> In r l ->
  sumZ g (List.filter (fun a => negb (by_id (alloc_id r) a)) l) = sumZ g l - g r.
Proof.
  induction l as [|a l IH]; cbn [map List.filter sumZ]; intros HN Hr; [done|].
  apply NoDup_cons in HN as [Hn HN]. rewrite list_elem_of_In in Hn. destruct Hr as [->|Hr].
  - rewrite (proj2 (by_id_alloc _ r) eq_refl). cbn [negb].
    assert (List.filter (fun a => negb (by_id (alloc_id r) a)) l = l) as ->; [|lia].
    rewrite (filter_ext_in _ (fun _ => true)).
    + clear. induction l as [|x l IH]; cbn; [done|by rewrite IH].
    + intros b Hb. destruct (by_id (alloc_id r) b) eqn:E; [|done]. apply by_id_alloc in E.
      exfalso. apply Hn. rewrite <- E. by apply in_map.
  - destruct (by_id (alloc_id r) a) eqn:E.
    + apply by_id_alloc in E. exfalso. apply Hn. rewrite E. by apply in_map.
    + cbn [negb sumZ]. rewrite (IH HN Hr). lia.
Qed.

(** The amount [f] of a batch. *)
Definition batch_total (f : WorkerAllocation -> Z) (batchId : string) (l : list WorkerAllocation) : Z :=
  sumZ (fun a => if alloc_batchId a ==? batchId then f a else 0) l.

(** Same identifiers or fewer, same amounts in every batch. *)
Definition same_totals (l l' : list WorkerAllocation) : Prop :=
  forall batchId, batch_total alloc_netAllocatedUsdCents batchId l' = batch_total alloc_netAllocatedUsdCents batchId l /\
                  batch_total alloc_pooledTipUsdCents batchId l' = batch_total alloc_pooledTipUsdCents batchId l.

Section attach.
Context `{Platform}.

Definition merge_into (h a : WorkerAllocation) : WorkerAllocation :=
  a <| alloc_pooledTipUsdCents ::= Z.add (alloc_pooledTipUsdCents h) |>
    <| alloc_netAllocatedUsdCents ::= Z.add (alloc_netAllocatedUsdCents h) |>.

(** One share: its amount goes to the worker's row of the same batch, or the
    row becomes the worker's; the other held rows stay. *)
Lemma attach_one_spec workerId h w :
  NoDup (map alloc_id (w_allocations w)) -> In h (w_allocations w) -> alloc_workerId h = None ->
  exists w', run (attach_one workerId h) w = (w', Ok tt) /\
    NoDup (map alloc_id (w_allocations w')) /\
    same_totals (w_allocations w) (w_allocations w') /\
    (forall a, alloc_workerId a = None -> In a (w_allocations w') <-> In a (w_allocations w) /\ a <> h) /\
    w' = w <| w_allocations := w_allocations w' |>.
Proof.
  intros HN Hh Hw. unfold attach_one. wexec.
  destruct (List.find (in_batch_of (alloc_batchId h) workerId) (w_allocations w)) as [e|] eqn:Ee; wexec.
  - apply find_In in Ee as [He Ee]. apply andb_true_iff in Ee as [Eb Ew].
    apply bool_decide_eq_true in Eb, Ew.
    assert (alloc_id e <> alloc_id h) as Hne.
    { intros E. assert (e = h) as -> by (by apply (NoDup_map_inj alloc_id (w_allocations w))). congruence. }
    rewrite (find_alloc (w_allocations w) e HN He). wexec.
    set (l1 := upd_where (by_id (alloc_id e)) _ (w_allocations w)).
    assert (map alloc_id l1 = map alloc_id (w_allocations w)) as Hids by (by apply upd_where_keeps).
    assert (In h l1) as Hh1.
    { apply in_upd_where. exists h. split; [done|]. destruct (by_id (alloc_id e) h) eqn:E; [|done].
      apply by_id_alloc in E. congruence. }
    rewrite (find_alloc l1 h) by (rewrite ?Hids; done). wexec.
    eexists. split; [reflexivity|]. wcbn. split; [|split; [|split]].
    + apply NoDup_map_filter. by rewrite Hids.
    + intros b. unfold batch_total. rewrite !sumZ_delete_by_id by (rewrite ?Hids; done).
      unfold l1. rewrite !sumZ_upd_by_id by done. cbn [set alloc_batchId]. wcbn. cbn.
      rewrite Eb. destruct (alloc_batchId h ==? b); lia.
    + intros a Ha. rewrite filter_In. unfold l1. rewrite in_upd_where. split.
      * intros [(r0 & Hr0 & ->) Hd]. destruct (by_id (alloc_id e) r0) eqn:E.
        -- apply by_id_alloc in E. assert (r0 = e) as -> by (by apply (NoDup_map_inj alloc_id (w_allocations w))).
           cbn in Ha. congruence.
        -- split; [done|]. intros ->. by rewrite (proj2 (by_id_alloc _ h) eq_refl) in Hd.
      * intros [Hin Hah]. split.
        -- exists a. split; [done|]. destruct (by_id (alloc_id e) a) eqn:E; [|done].
           apply by_id_alloc in E. assert (a = e) as -> by (by apply (NoDup_map_inj alloc_id (w_allocations w))).
           congruence.
        -- destruct (by_id (alloc_id h) a) eqn:E; [|done]. exfalso. apply Hah. apply by_id_alloc in E.
           by apply (NoDup_map_inj alloc_id (w_allocations w)).
    + done.
  - rewrite (find_alloc (w_allocations w) h HN Hh). wexec.
    eexists. split; [reflexivity|]. wcbn. split; [|split; [|split]].
    + rewrite upd_where_keeps; done.
    + intros b. unfold batch_total. rewrite !sumZ_upd_by_id by done. cbn.
      destruct (alloc_batchId h ==? b); lia.
    + intros a Ha. rewrite in_upd_where. split.
      * intros (r0 & Hr0 & ->). destruct (by_id (alloc_id h) r0) eqn:E; [done|]. split; [done|].
        intros ->. by rewrite (proj2 (by_id_alloc _ h) eq_refl) in E.
      * intros [Hin Hah]. exists a. split; [done|]. destruct (by_id (alloc_id h) a) eqn:E; [|done].
        exfalso. apply Hah. apply by_id_alloc in E. by apply (NoDup_map_inj alloc_id (w_allocations w)).
    + done.
Qed.

Lemma attach_all workerId hs w :
  NoDup (map alloc_id (w_allocations w)) -> NoDup hs ->
  (forall h, In h hs -> In h (w_allocations w) /\ alloc_workerId h = None) ->
  exists w', run (for_each hs (attach_one workerId)) w = (w', Ok tt) /\
    NoDup (map alloc_id (w_allocations w')) /\
    same_totals (w_allocations w) (w_allocations w') /\
    (forall a, alloc_workerId a = None -> In a (w_allocations w') <-> In a (w_allocations w) /\ ~ In a hs) /\
    w' = w <| w_allocations := w_allocations w' |>.
Proof.
  revert w. induction hs as [|h hs IH]; intros w HN HD Hin.
  { exists w. split; [done|]. split; [done|]. split; [by intros b|]. split; [naive_solver|by destruct w]. }
  apply NoDup_cons in HD as [Hh HD]. rewrite list_elem_of_In in Hh.
  destruct (Hin h (or_introl eq_refl)) as [Hh1 Hh2].
  destruct (attach_one_spec workerId h w HN Hh1 Hh2) as (w1 & E1 & N1 & T1 & S1 & W1).
  destruct (IH w1 N1 HD) as (w2 & E2 & N2 & T2 & S2 & W2).
  { intros x Hx. destruct (Hin x (or_intror Hx)) as [Hx1 Hx2]. split; [|done].
    apply S1; [done|]. split; [done|]. by intros ->. }
  exists w2. cbn [for_each]. rewrite run_bind, E1. split; [done|]. split; [done|].
  split; [intros b; destruct (T1 b), (T2 b); split; congruence|]. split.
  - intros a Ha. rewrite S2, S1 by done. cbn. naive_solver.
  - rewrite W2, W1. done.
Qed.

(** C23: one attachment, without another handler in between, moves no money:
    attaching the held shares of an
    external identity (merged into the worker's row of the same batch or
    handed over) keeps the pooled and the net amount of every batch, always
    succeeds, and leaves no share held for that identity; shares held for others
    stay held. *)
Theorem attach_conserves mapping w :
  NoDup (map alloc_id (w_allocations w)) ->
  let held := held_for w (account_venueId mapping) (account_provider mapping) (account_externalWorkerId mapping) in
  exists w', run (attachHeldAllocations mapping) w = (w', Ok (length (List.filter held (w_allocations w)))) /\
    same_totals (w_allocations w) (w_allocations w') /\
    NoDup (map alloc_id (w_allocations w')) /\
    List.filter (held_for w' (account_venueId mapping) (account_provider mapping)
                   (account_externalWorkerId mapping)) (w_allocations w') = [] /\
    (forall a, alloc_workerId a = None -> In a (w_allocations w) -> held a = false -> In a (w_allocations w')).
Proof.
  intros HN held. unfold attachHeldAllocations. rewrite run_bind, run_query. fold held.
  assert (NoDup (List.filter held (w_allocations w))) as HD.
  { apply (NoDup_fmap_1 alloc_id). by apply NoDup_map_filter. }
  destruct (attach_all (account_workerId mapping) (List.filter held (w_allocations w)) w HN HD)
    as (w' & E & N & T & S & W).
  { intros h Hh. apply filter_In in Hh as [Hin Hh]. split; [done|]. unfold held, held_for in Hh.
    do 3 apply andb_true_iff in Hh as [Hh _]. by apply bool_decide_eq_true in Hh. }
  exists w'. cbv beta iota. rewrite run_bind, E. split; [done|]. split; [done|]. split; [done|]. split.
  - apply filter_none. intros a Ha. destruct (held_for w' _ _ _ a) eqn:Eh; [|done]. exfalso.
    assert (held a = true) as Hheld.
    { revert Eh. unfold held, held_for. rewrite W. by wcbn. }
    assert (alloc_workerId a = None) as Hn.
    { unfold held, held_for in Hheld. do 3 apply andb_true_iff in Hheld as [Hheld _].
      by apply bool_decide_eq_true in Hheld. }
    apply (S a Hn) in Ha as [Ha Hnot]. apply Hnot. by apply filter_In.
  - intros a Hn Ha Hh. apply S; [done|]. split; [done|]. rewrite filter_In. by intros [_ ?]; congruence.
Qed.

(** Attaching writes shares only. *)
Lemma attach_shifts mapping w : w_shifts (run (attachHeldAllocations mapping) w).1 = w_shifts w.
Proof.
  unfold attachHeldAllocations. rewrite run_bind, run_query. cbv beta iota. rewrite run_bind.
  assert (forall hs w1, w_shifts (run (for_each hs (attach_one (account_workerId mapping))) w1).1 = w_shifts w1) as Hl.
  { intros hs. induction hs as [|h hs IH]; intros w1; [done|]. cbn [for_each]. rewrite run_bind.
    assert (w_shifts (run (attach_one (account_workerId mapping) h) w1).1 = w_shifts w1) as H1.
    { unfold attach_one. wexec. destruct (List.find (in_batch_of _ _) (w_allocations w1)); wexec.
      - destruct (List.find _ (w_allocations w1)); wexec; [|done]. destruct (List.find _ (upd_where _ _ _)); by wexec.
      - destruct (List.find _ (w_allocations w1)); by wexec. }
    destruct (run (attach_one _ h) w1) as [w2 [[]|e]]; cbn [fst] in *; [|done]. by rewrite IH. }
  match goal with |- context [run (for_each ?hs ?b) w] => specialize (Hl hs w);
    destruct (run (for_each hs b) w) as [w2 [[]|e]] end; done.
Qed.
End attach.

(* ------------------------------------------------------------------ *)
(** ** Only the worker decides *)

Section respond.
Context `{Platform}.

(** A connection request is answered only by the user of its own worker;
    a rejection or a repeated acceptance changes no evidence and no share; an
    acceptance of a pending request confirms it and maps to that worker exactly
    the unmapped shifts of that identity at that venue. *)
Theorem respond_owner_only id userId d w w' r :
  run (respondToMapping id userId d) w = (w', Ok r) ->
  exists m, mapping_data w id = Some (m, userId) /\
    match d with
    | REJECT => account_mappingStatus m <> MappingStatus.CONFIRMED /\
        account_mappingStatus (mr_mapping r) = MappingStatus.REJECTED /\
        IncomeProjector.same_money w w'
    | ACCEPT => account_mappingStatus m <> MappingStatus.REJECTED /\
        (account_mappingStatus m = MappingStatus.CONFIRMED -> w' = w) /\
        (account_mappingStatus m = MappingStatus.PENDING ->
           account_mappingStatus (mr_mapping r) = MappingStatus.CONFIRMED /\
           w_shifts w' = upd_where (unmapped_shift (account_venueId m) (account_provider m) (account_externalWorkerId m))
             (fun s => s <| shift_mappedWorkerId := Some (account_workerId m) |>) (w_shifts w))
    end.
Proof.
  unfold respondToMapping. rewrite run_bind, run_query. cbv beta iota. rewrite run_bind, run_require.
  destruct (mapping_data w id) as [[m owner]|] eqn:Em; [|done]. rewrite run_bind, run_throw_if.
  destruct (owner !=? userId) eqn:Eo; [done|]. apply negb_false_iff, bool_decide_eq_true in Eo as ->.
  intros E. exists m. split; [done|]. revert E.
  assert (List.find (by_id id) (w_accounts w) = Some m) as Hf.
  { unfold mapping_data in Em. destruct (List.find _ (w_accounts w)) as [c|]; [|done].
    destruct (List.find _ (w_workers w)); [|done]. cbn in Em. congruence. }
  destruct d; rewrite run_bind, run_throw_if.
  - destruct (account_mappingStatus m ==? MappingStatus.REJECTED) eqn:E1; [done|].
    apply bool_decide_eq_false in E1. intros E. split; [done|]. revert E.
    destruct (account_mappingStatus m ==? MappingStatus.CONFIRMED) eqn:E2.
    { apply bool_decide_eq_true in E2. intros [= <- <-]. split; [done|]. congruence. }
    apply bool_decide_eq_false in E2. intros E. split; [done|]. intros Ep. revert E.
    unfold verifyMapping. rewrite run_bind, run_findUnique. wcbn. rewrite Hf.
    cbv beta iota. rewrite run_bind, run_require. rewrite run_bind, run_throw_if, Ep.
    rewrite (bool_decide_eq_false_2 (MappingStatus.PENDING = MappingStatus.REJECTED)) by done.
    rewrite run_bind, run_newDate. cbv beta iota. rewrite run_bind, run_transaction. wexec. rewrite Hf. wexec.
    match goal with |- context [run (attachHeldAllocations m) ?w0] =>
      pose proof (attach_shifts m w0) as Hs; destruct (run (attachHeldAllocations m) w0) as [w2 [n|e]] end;
      [|done].
    cbn [fst] in Hs.
    match goal with |- context [if ?c then _ else _] => destruct c end; wexec.
    + match goal with |- context [run (IncomeProjector.rebuildVenueIncome ?a ?b ?c) ?w0] =>
        pose proof (guar_run IncomeProjector.same_money _ w0 (IncomeProjector.rebuild_same_money a b c)) as Hm;
        destruct (run (IncomeProjector.rebuildVenueIncome a b c) w0) as [w3 [x|e]] end;
        wexec; intros [= <- <-]; destruct Hm as (_ & _ & _ & _ & _ & Hm); cbn [fst] in Hm; rewrite Hm, Hs; done.
    + intros [= <- <-]. by rewrite Hs.
  - destruct (account_mappingStatus m ==? MappingStatus.CONFIRMED) eqn:E1; [done|].
    apply bool_decide_eq_false in E1. wexec. rewrite Hf. wexec. intros [= <- <-]. done.
Qed.
End respond.

(* ------------------------------------------------------------------ *)
(** ** A worker with two external identities *)

Definition demo_batch : AllocationBatch :=
  mkAllocationBatch "b" "v" "2026-01-01" 800 "p" 1 BatchStatus.PARTIALLY_PAID None None JNull None None None None.

(** [w1] was paid 500 as "e1"; 300 are held for "e9", which is [w1] too. *)
Definition demo_held : World :=
  empty_world
    <| w_venues := [mkVenue "v" "org" "Bar" "UTC" None None None []] |>
    <| w_workers := [mkWorker "w1" "u1" None] |>
    <| w_batches := [demo_batch] |>
    <| w_allocations :=
         [mkWorkerAllocation "a1" "b" (Some "w1") (Some "csv") (Some "e1") 500 500 None
            (Some PayoutRail.CASH_DRAWER) AllocPayoutStatus.PAID;
          mkWorkerAllocation "a2" "b" None (Some "csv") (Some "e9") 300 300 None None AllocPayoutStatus.UNPAID] |>
    <| w_accounts := [mkExternalWorkerAccount "x" "w1" "v" "csv" "e9" MappingStatus.PENDING None None] |>.

Lemma attach_conserves_witness :
  exists w', run (attachHeldAllocations
                    (mkExternalWorkerAccount "x" "w1" "v" "csv" "e9" MappingStatus.PENDING None None)) demo_held
    = (w', Ok 1%nat) /\ same_totals (w_allocations demo_held) (w_allocations w').
Proof.
  destruct (attach_conserves (mkExternalWorkerAccount "x" "w1" "v" "csv" "e9" MappingStatus.PENDING None None) demo_held)
    as (w' & E & T & _).
  - apply (bool_decide_unpack _). vm_compute. done.
  - exists w'. split; [exact E|exact T].
Defined.

Lemma respond_owner_only_witness :
  exists w' r, run (respondToMapping "x" "u1" ACCEPT) demo_held = (w', Ok r) /\
    exists m, mapping_data demo_held "x" = Some (m, "u1").
Proof.
  destruct (run (respondToMapping "x" "u1" ACCEPT) demo_held) as [w' [r|e]] eqn:E.
  - exists w', r. split; [done|]. destruct (respond_owner_only _ _ _ _ _ _ E) as (m & Hm & _). by exists m.
  - apply (f_equal (fun c => is_ok c.2)) in E. vm_compute in E. discriminate E.
Defined.

(** A held share is merged into the worker's row whatever the row's payment
    status is.  When that row is PAID already, accepting the connection raises its
    amount without a payout for the difference: the row stays PAID with 800
    although 500 were paid, the batch counts as fully paid, and a payout is refused. *)
Theorem attach_to_paid_row :
  let w' := (run (respondToMapping "x" "u1" ACCEPT) demo_held).1 in
  map (fun a => (alloc_id a, alloc_netAllocatedUsdCents a, alloc_payoutStatus a)) (w_allocations w')
    = [("a1", 800, AllocPayoutStatus.PAID)] /\
  map batch_status (w_batches (run (PayoutsService.refreshBatchPaymentStatus "b") w').1) = [BatchStatus.PAID] /\
  (run (PayoutsService.createUsdcPayout (H0 := demo_chain) "a1" None) w').2
    = Err (ConflictException "Allocation is already paid").
Proof. vm_compute. done. Qed.

(** Two acceptances of one request at the same time read the same held share.
    The first hands it over to the worker; the second then finds that very row as
    the worker's row of the batch, adds the share to it and deletes it: 300 cents
    of a settled batch are gone, and both acceptances succeed. *)
Definition demo_unmerged : World :=
  demo_held <| w_allocations ::= List.filter (fun a => alloc_id a ==? "a2") |>.

Theorem attach_race :
  let accept := respondToMapping "x" "u1" ACCEPT in
  let c := schedule (concat (repeat [0; 1]%nat 20)) (demo_unmerged, [accept; accept]) in
  rtc pool_step (demo_unmerged, [accept; accept]) c /\
  map alloc_netAllocatedUsdCents (w_allocations demo_unmerged) = [300] /\
  w_allocations c.1 = [] /\ forallb ended_ok c.2 = true.
Proof. cbv zeta. split; [apply schedule_sound|]. vm_compute. done. Qed.

End MappingsService.
