(* ===== verification/Disclosure.v ===== *)
(** * Disclosure of verified income

    apps/api/src/disclosure/disclosure.service.ts and disclosure.controller.ts:
    the grants of a worker, the signed snapshots issued under them, the public
    verification by token and the one-time code of a named recipient.  The
    rendering of the PDF (pdfkit, qrcode, the file system) is outside the model:
    [Renderer] says where the file goes and whether writing it fails.  Dates of
    requests are the instants they denote. *)

From S2P Require Import Prelude Concurrency Strings Schema Runtime Demo Float64 IncomeProjector Income.

Open Scope Z_scope.

(** What [renderPdf] needs from its libraries. *)
Class Renderer := {
  REPORTS_DIR : string;
  renderError : nat -> option string
}.

Module DisclosureService.

Definition ACCESS_OTP_TTL_SECONDS : Z := 300.
Definition ACCESS_OTP_MAX_ATTEMPTS : Z := 5.
Definition ACCESS_SESSION_TTL_SECONDS : Z := 15 * 60.
Definition ACCESS_OTP_COOLDOWN_SECONDS : Z := 60.
Definition ACCESS_OTP_MAX_REQUESTS_PER_HOUR : Z := 5.

Definition maskEmail (email : string) : string :=
  let parts := split "@" email in
  let local := nullish (nth_error parts 0) "" in
  let domain := nullish (nth_error parts 1) "" in
  slice_to local (Nat.min 2 (String.length local))
  +:+ repeat_str "*" (Nat.max 3 (String.length local - 2)) +:+ "@" +:+ domain.

(** [normalized.replace(/^::ffff:/, "")] *)
Definition strip_mapped (ip : string) : string :=
  if String.prefix "::ffff:" ip then slice_from ip 7 else ip.

Definition maskIp (ip : option string) : option string :=
  match ip with
  | None => None
  | Some ip =>
      if ip ==? "" then None
      else
        let normalized := strip_mapped ip in
        match indexOf "." normalized with
        | Some _ =>
            match split "." normalized with
            | [a; b; c; _] => Some (a +:+ "." +:+ b +:+ "." +:+ c +:+ ".*")
            | _ => Some "***"
            end
        | None =>
            match List.filter (fun p => negb (p ==? "")) (split ":" normalized) with
            | [] => Some "***"
            | parts => Some (join ":" (take 3 parts) +:+ ":…")
            end
        end
  end.

Example maskIp_ex : maskIp (Some "::ffff:10.1.2.3") = Some "10.1.2.*" /\
  maskIp (Some "2001:db8::1:2") = Some "2001:db8:1:…" /\ maskEmail "ann@bar.io" = "an***@bar.io".
Proof. vm_compute. done. Qed.

Record GrantInput := mkGrantInput {
  gi_purpose : string;
  gi_level : DisclosureLevel.t;
  gi_dateRangeStart : Z;
  gi_dateRangeEnd : Z;
  gi_expiresAt : Z;
  gi_recipientEmail : option string;
  gi_accessMode : option AccessMode.t;
  gi_allowDownload : option bool;
  gi_thresholdUsdCents : option Z
}.

(** A number that is there and not zero. *)
Definition nonzero (o : option Z) : option Z :=
  match o with Some z => if z =? 0 then None else Some z | None => None end.

(** A report status as the verifier sees it. *)
Inductive Verdict := VALID | EXPIRED | REVOKED | CORRECTED | NOT_ISSUED.

(** A grant with the name of its worker's user and its latest report. *)
Record GrantData := mkGrantData {
  gd_grant : DisclosureGrant;
  gd_workerDisplayName : string;
  gd_report : option VerificationReport
}.

Definition latest_report (w : World) (grantId : string) : option VerificationReport :=
  List.find (fun r => report_disclosureGrantId r ==? grantId) (rev (w_reports w)).

Definition display_name (w : World) (workerId : string) : string :=
  match List.find (by_id workerId) (w_workers w) with
  | Some x => match List.find (by_id (worker_userId x)) (w_users w) with
              | Some u => user_displayName u | None => "" end
  | None => ""
  end.

Definition grant_data (w : World) (tokenHash : string) : option GrantData :=
  option_map (fun g => mkGrantData g (display_name w (grant_workerId g)) (latest_report w (grant_id g)))
    (List.find (fun g => grant_accessTokenHash g ==? tokenHash) (w_grants w)).

(* ------------------------------------------------------------------ *)
(** ** The snapshot *)

(** An entry with its shift and the name of its venue. *)
Record EntryData := mkEntryData {
  ed_entry : IncomeEntry;
  ed_shift : option ShiftEvidence;
  ed_venue : string
}.

Definition entry_data (w : World) (workerId : string) : list EntryData :=
  map (fun e => mkEntryData e (IncomeService.included (w_shifts w) (entry_shiftId e))
         match List.find (by_id (entry_venueId e)) (w_venues w) with Some v => venue_name v | None => "" end)
    (List.filter (IncomeService.active_of workerId) (w_incomeEntries w)).

Definition in_range (start end_ : Z) (e : EntryData) : bool :=
  match ed_shift e with
  | Some s => if shift_businessDate s ==? "" then false
              else match noonUtc (shift_businessDate s) with
                   | Some date => (start <=? date) && (date <=? end_)
                   | None => false
                   end
  | None => false
  end.

Definition entry_date (e : EntryData) : string :=
  match ed_shift e with Some s => shift_businessDate s | None => "" end.
Definition entry_month (e : EntryData) : string := slice_to (entry_date e) 7.

(** [m[k] = (m[k] ?? 0) + n] *)
Definition bump (m : list (string * Z)) (k : string) (n : Z) : list (string * Z) :=
  map_set m k (nullish (map_get m k) 0 + n).

Definition counts (m : list (string * Z)) : json := JObj (map (fun kv => (kv.1, JInt kv.2)) m).

Definition is_api (e : EntryData) : bool :=
  match ed_shift e with Some s => shift_ingestSource s ==? IngestSource.PROVIDER_API | None => false end.

Definition avg_monthly (inRange : list EntryData) : Z :=
  let months := length (distinct (map entry_month inRange)) in
  if (0 <? months)%nat
  then IncomeService.num_round (num_div (num_of_Z (sumZ (fun e => entry_allocatedUsdCents (ed_entry e)) inRange))
                                  (num_of_Z (Z.of_nat months)))
  else 0.

Definition grade_counts (inRange : list EntryData) : list (string * Z) :=
  fold_left (fun m e => bump m (EvidenceGrade.name (entry_evidenceGrade (ed_entry e))) 1) inRange [].

(** [(cents / 100).toFixed(2)] of a non-negative amount *)
Definition toFixed2 (cents : Z) : string :=
  str_of_Z (cents / 100) +:+ "." +:+ padStart (str_of_Z (cents mod 100)) 2 "0".

Definition shift_detail (e : EntryData) : json :=
  let i := ed_entry e in
  JObj [("businessDate", JStr (entry_date e)); ("venue", JStr (ed_venue e));
        ("role", JStrOpt (shift_role <$> ed_shift e));
        ("allocatedUsdCents", JInt (entry_allocatedUsdCents i)); ("paidUsdCents", JInt (entry_paidUsdCents i));
        ("payrollReportedUsdCents", JInt (entry_payrollReportedUsdCents i));
        ("withholdingStatus", JStr (WithholdingStatus.name (entry_withholdingStatus i)));
        ("payoutRail", JStrOpt (PayoutRail.name <$> entry_payoutRail i));
        ("evidenceGrade", JStr (EvidenceGrade.name (entry_evidenceGrade i)));
        ("ingestSource", JStrOpt ((fun s => IngestSource.name (shift_ingestSource s)) <$> ed_shift e));
        ("corrected", JBool match entry_correctionOfId i with Some _ => true | None => false end)].

Definition level2_fields (level : DisclosureLevel.t) (inRange : list EntryData) : list (string * json) :=
  let grades := grade_counts inRange in
  [("level", JStr (DisclosureLevel.name level));
   ("avgMonthlyIncomeUsdCents", JInt (avg_monthly inRange));
   ("monthsCovered", JInt (Z.of_nat (length (distinct (map entry_month inRange)))));
   ("payerCount", JInt (Z.of_nat (length (distinct (map (fun e => entry_venueId (ed_entry e)) inRange)))));
   ("verificationGrades", counts grades);
   ("bestGrade", JStr (nullish (List.find (fun g => match nonzero (map_get grades g) with
                                                    | Some _ => true | None => false end)
                                  ["A"; "B"; "C"; "D"; "E"]) "E"));
   ("hasCorrections", JBool (existsb (fun e => match entry_correctionOfId (ed_entry e) with
                                               | Some _ => true | None => false end) inRange));
   ("totalVerifiedIncomeUsdCents", JInt (sumZ (fun e => entry_allocatedUsdCents (ed_entry e)) inRange));
   ("totalPaidUsdCents", JInt (sumZ (fun e => entry_paidUsdCents (ed_entry e)) inRange));
   ("posVerifiedSharePct",
     JInt (if (0 <? length inRange)%nat
           then IncomeService.num_round (num_mul (num_div (num_of_Z (Z.of_nat (length (List.filter is_api inRange))))
                                                     (num_of_Z (Z.of_nat (length inRange)))) (num_of_Z 100))
           else 0));
   ("monthlyBreakdown",
     counts (fold_left (fun m e => if entry_month e ==? "" then m
                                   else bump m (entry_month e) (entry_allocatedUsdCents (ed_entry e))) inRange []));
   ("observedShiftDays", JInt (Z.of_nat (length (distinct (map entry_date inRange)))))].

(** What the level of the grant lets through. *)
Definition snapshot_of (grant : DisclosureGrant) (entries : list EntryData) : json :=
  let inRange := List.filter (in_range (grant_dateRangeStart grant) (grant_dateRangeEnd grant)) entries in
  match grant_level grant with
  | DisclosureLevel.LEVEL_1 =>
      let threshold := nullish (grant_thresholdUsdCents grant) 0 in
      JObj [("level", JStr "LEVEL_1");
            ("criterion", JStr ("평균 월소득 ≥ $" +:+ toFixed2 threshold));
            ("result", JBool (threshold <=? avg_monthly inRange))]
  | DisclosureLevel.LEVEL_2 => JObj (level2_fields (grant_level grant) inRange)
  | DisclosureLevel.LEVEL_3 =>
      JObj (level2_fields (grant_level grant) inRange ++ [("entries", JArr (map shift_detail inRange))])
  end.

(* ------------------------------------------------------------------ *)
(** ** The service *)

(** What the public verification answers. *)
Record Metadata := mkMetadata {
  vm_status : Verdict;
  vm_purpose : string;
  vm_level : DisclosureLevel.t;
  vm_workerDisplayName : string;
  vm_issuedAt : option Z;
  vm_expiresAt : Z;
  vm_reportId : option string;
  vm_reportHash : option string;
  vm_accessMode : AccessMode.t
}.

Inductive Verification :=
| Withheld (base : Metadata)
| AuthRequired (accessMode : AccessMode.t) (expiresAt : Z) (recipientEmailMasked : string)
| Disclosed (base : Metadata) (snapshot : json).

Record AccessRequested := mkAccessRequested {
  ar_recipientEmailMasked : string;
  ar_expiresInSeconds : Z;
  ar_devCode : option string
}.

Record GrantView := mkGrantView {
  gv_grant : DisclosureGrant;
  gv_report : option VerificationReport;
  gv_accesses : list (DisclosureAccessLog * option string)
}.

Definition reissuable : list ReportStatus.t := [ReportStatus.ISSUED; ReportStatus.CORRECTED].

Definition otp_key (grantId : string) : string := "disclosure:otp:" +:+ grantId.
Definition session_key (grantId tokenHash : string) : string :=
  "disclosure:session:" +:+ grantId +:+ ":" +:+ tokenHash.

Section service.
Context `{Platform} `{Environment} `{Renderer}.

Definition accessStore {A} (op : handler (result A)) : handler A :=
  orThrow (fun message =>
    ServiceUnavailableException ("Disclosure access store unavailable: " +:+ message)) op.

(** The worker with the display name of the user. *)
Definition workerOf (userId : string) : handler (Worker * string) :=
  let* data := query (fun w => option_map (fun x => (x, display_name w (worker_id x)))
                                 (List.find (fun x => worker_userId x ==? userId) (w_workers w))) in
  require data (NotFoundException "No worker profile for this user").

Definition createGrant (userId : string) (input : GrantInput) : handler (DisclosureGrant * string) :=
  let* ' (worker, _) := workerOf userId in
  do* throw_if ((gi_level input ==? DisclosureLevel.LEVEL_1)
                && match nonzero (gi_thresholdUsdCents input) with Some _ => false | None => true end)
    (BadRequestException "LEVEL_1 requires thresholdUsdCents") in
  let accessMode := nullish (gi_accessMode input) AccessMode.LINK in
  do* throw_if ((accessMode ==? AccessMode.RECIPIENT_OTP) && negb (truthy (gi_recipientEmail input)))
    (BadRequestException "Recipient email is required for recipient-only access") in
  let* rawToken := ask randomToken in
  let* i := freshId in
  let* grant := create (mkDisclosureGrant i (worker_id worker) (option_map toLowerCase (gi_recipientEmail input))
    accessMode (gi_purpose input) (gi_level input) (nonzero (gi_thresholdUsdCents input))
    (gi_dateRangeStart input) (gi_dateRangeEnd input) (gi_expiresAt input)
    (nullish (gi_allowDownload input) false) None (sha256 rawToken)) in
  Ret (grant, rawToken).

(** The latest grants first, each with its last report and last five accesses. *)
Definition listGrants (userId : string) : handler (list GrantView) :=
  let* ' (worker, _) := workerOf userId in
  query (fun w => map (fun g => mkGrantView g (latest_report w (grant_id g))
      (map (fun a => (a, maskIp (access_ip a)))
        (take 5 (orderByDesc access_accessedAt
          (List.filter (fun a => access_grantId a ==? grant_id g) (w_accesses w))))))
    (rev (List.filter (fun g => grant_workerId g ==? worker_id worker) (w_grants w)))).

(** The grant of the worker, or 404. *)
Definition own_grant (worker : Worker) (grantId : string) : handler DisclosureGrant :=
  let* grant := findUnique (R:=DisclosureGrant) grantId in
  require match grant with
          | Some g => if grant_workerId g ==? worker_id worker then Some g else None
          | None => None
          end (NotFoundException "Disclosure grant not found").

Definition revokeGrant (userId grantId : string) : handler unit :=
  let* ' (worker, _) := workerOf userId in
  do* own_grant worker grantId in
  let* t1 := newDate in
  let* t2 := newDate in
  transaction (
    do* update (R:=DisclosureGrant) grantId (fun g => g <| grant_revokedAt := Some t1 |>) in
    do* updateMany (fun r => (report_disclosureGrantId r ==? grantId) && includes reissuable (report_status r))
          (fun r => r <| report_status := ReportStatus.REVOKED |> <| report_revokedAt := Some t2 |>) in
    Ret tt).

Definition buildSnapshot (grant : DisclosureGrant) : handler json :=
  let* entries := query (fun w => entry_data w (grant_workerId grant)) in
  Ret (snapshot_of grant entries).

(** [renderPdf] writes the file or throws. *)
Definition renderPdf (path : string) : handler unit :=
  let* failure := ask renderError in
  match failure with Some m => Throw (JsError m) | None => Ret tt end.

Definition issueReport (userId grantId verifyBaseUrl : string) : handler VerificationReport :=
  let* ' (worker, _) := workerOf userId in
  let* grant := own_grant worker grantId in
  do* throw_if match grant_revokedAt grant with Some _ => true | None => false end
    (BadRequestException "Grant is revoked") in
  let* t := newDate in
  do* throw_if (grant_expiresAt grant <? t) (BadRequestException "Grant is expired") in
  let* snapshot := buildSnapshot grant in
  let* issuedAt := newDate in
  let reportHash := hmacSha256 (nullish REPORT_SIGNING_KEY "dev-report-signing-key")
    (stringify (JObj [("snapshot", snapshot); ("grantId", JStr grantId);
                      ("issuedAt", JStr (toISOString issuedAt))])) in
  let* previous := query (fun w => List.find
    (fun r => (report_disclosureGrantId r ==? grantId) && includes reissuable (report_status r))
    (rev (w_reports w))) in
  let* i := freshId in
  let* createdAt := newDate in
  let* report := create (mkVerificationReport i (worker_id worker) grantId reportHash None snapshot
    ReportStatus.ISSUED (Some issuedAt) (Some (grant_expiresAt grant)) None
    (option_map report_id previous) createdAt) in
  let pdfPath := REPORTS_DIR +:+ "/" +:+ report_id report +:+ ".pdf" in
  do* renderPdf pdfPath in
  do* update (R:=VerificationReport) (report_id report) (fun r => r <| report_reportUri := Some pdfPath |>) in
  Ret report.

Definition getPdfPath (userId reportId : string) : handler string :=
  let* ' (worker, _) := workerOf userId in
  let* report := findUnique (R:=VerificationReport) reportId in
  let* report := require match report with
                         | Some r => if report_workerId r ==? worker_id worker then Some r else None
                         | None => None
                         end (NotFoundException "Report not found") in
  do* throw_if (report_status report ==? ReportStatus.REVOKED)
    (ForbiddenException "Report is revoked; PDF access is blocked") in
  do* throw_if (negb (truthy (report_reportUri report))) (NotFoundException "PDF not generated") in
  Ret (nullish (report_reportUri report) "").

Definition reportStatus (d : GrantData) : handler Verdict :=
  let revoked := match gd_report d with Some r => report_status r ==? ReportStatus.REVOKED | None => false end in
  if match grant_revokedAt (gd_grant d) with Some _ => true | None => false end || revoked
  then Ret REVOKED
  else match gd_report d with
       | None => Ret NOT_ISSUED
       | Some report =>
           let* t := newDate in
           if (grant_expiresAt (gd_grant d) <? t) || (report_status report ==? ReportStatus.EXPIRED)
           then Ret EXPIRED
           else if report_status report ==? ReportStatus.CORRECTED then Ret CORRECTED
           else Ret VALID
       end.

Definition grantByToken (rawToken : string) : handler GrantData :=
  let* data := query (fun w => grant_data w (sha256 rawToken)) in
  require data (NotFoundException "Unknown verification token").

Definition assertRecipientAccessAvailable (d : GrantData) : handler unit :=
  let* status := reportStatus d in
  do* match status with
      | VALID => Ret tt
      | _ => Throw (ForbiddenException "This report is not available for recipient access")
      end in
  throw_if ((grant_accessMode (gd_grant d) !=? AccessMode.RECIPIENT_OTP)
            || negb (truthy (grant_recipientEmail (gd_grant d))))
    (BadRequestException "This report does not require recipient authentication").

(** [INCR], and the expiry of an hour on the first. *)
Definition count_request (hourlyKey : string) : handler Z :=
  let* count := accessStore (redis_incr hourlyKey) in
  do* (if count =? 1 then accessStore (redis_expire hourlyKey (60 * 60)) else Ret tt) in
  Ret count.

Definition redis_decr (key : string) : handler (result unit) :=
  redis (fun t s => let o := live t s key in
    (map_set s key (str_of_Z (counter o - 1), match o with Some (_, e) => e | None => None end), tt)).

Definition requestRecipientOtp (rawToken : string) : handler AccessRequested :=
  let* d := grantByToken rawToken in
  do* assertRecipientAccessAvailable d in
  let grant := gd_grant d in
  let email := nullish (grant_recipientEmail grant) "" in
  let otpKey := otp_key (grant_id grant) in
  let cooldownKey := otpKey +:+ ":cooldown" in
  let* allowed := accessStore (redis_set_nx cooldownKey "1" ACCESS_OTP_COOLDOWN_SECONDS) in
  do* throw_if (negb allowed) (TooManyRequestsException "Please wait before requesting another code") in
  let hourlyKey := otpKey +:+ ":hourly-requests" in
  let* hourlyRequests := count_request hourlyKey in
  do* throw_if (ACCESS_OTP_MAX_REQUESTS_PER_HOUR <? hourlyRequests)
    (TooManyRequestsException "Too many access-code requests") in
  let* n := ask randomCode in
  let code := padStart (str_of_Z n) 6 "0" in
  do* accessStore (redis_set otpKey (sha256 code) ACCESS_OTP_TTL_SECONDS) in
  do* accessStore (redis_set (otpKey +:+ ":attempts") "0" ACCESS_OTP_TTL_SECONDS) in
  let exposeDevCode := exposesDevCode (email_domain email) in
  do* (if exposeDevCode then Ret tt
       else catch (MailService.send email "[ServeProof] 소득증명 열람 코드")
              (fun error =>
                 do* catch (do* accessStore (redis_del [otpKey; otpKey +:+ ":attempts"; cooldownKey]) in
                            accessStore (redis_decr hourlyKey))
                       (fun _ => Ret tt) in
                 Throw error)) in
  Ret (mkAccessRequested (maskEmail email) ACCESS_OTP_TTL_SECONDS
         (if exposeDevCode then Some code else None)).

Definition verifyRecipientOtp (rawToken code : string) : handler (string * Z) :=
  let* d := grantByToken rawToken in
  do* assertRecipientAccessAvailable d in
  let grant := gd_grant d in
  let otpKey := otp_key (grant_id grant) in
  let attemptsKey := otpKey +:+ ":attempts" in
  let* storedHash := accessStore (redis_get otpKey) in
  do* throw_if (negb (truthy storedHash)) (UnauthorizedException "Invalid or expired code") in
  let* attempts := accessStore (redis_incr attemptsKey) in
  do* (if ACCESS_OTP_MAX_ATTEMPTS <? attempts then
         do* accessStore (redis_del [otpKey; attemptsKey]) in
         Throw (UnauthorizedException "Too many attempts; request a new code")
       else Ret tt) in
  do* throw_if (storedHash !=? Some (sha256 code)) (UnauthorizedException "Invalid or expired code") in
  do* accessStore (redis_del [otpKey; attemptsKey]) in
  let* accessToken := ask randomToken in
  let* t := newDate in
  let expiresInSeconds := Z.max 1 (Z.min ACCESS_SESSION_TTL_SECONDS
    (IncomeProjector.floorZ (num_div (num_of_Z (grant_expiresAt grant - t)) (num_of_Z 1000)))) in
  do* accessStore (redis_set (session_key (grant_id grant) (sha256 accessToken)) "1" expiresInSeconds) in
  Ret (accessToken, expiresInSeconds).

Definition metadata (d : GrantData) (status : Verdict) : Metadata :=
  let grant := gd_grant d in
  mkMetadata status (grant_purpose grant) (grant_level grant) (gd_workerDisplayName d)
    (gd_report d ≫= report_issuedAt) (grant_expiresAt grant) (report_id <$> gd_report d)
    (report_reportHash <$> gd_report d) (grant_accessMode grant).

(** Whether the caller holds a session of the recipient. *)
Definition session_valid (grantId : string) (accessSession : option string) : handler bool :=
  match accessSession with
  | Some s => if s ==? "" then Ret false
              else let* v := accessStore (redis_get (session_key grantId (sha256 s))) in Ret (truthy v)
  | None => Ret false
  end.

Definition verifyByToken (rawToken : string) (ip userAgent accessSession : option string)
    : handler Verification :=
  let* d := grantByToken rawToken in
  let* status := reportStatus d in
  let grant := gd_grant d in
  let base := metadata d status in
  match status with
  | VALID =>
      let* allowed := if grant_accessMode grant ==? AccessMode.RECIPIENT_OTP
                      then session_valid (grant_id grant) accessSession else Ret true in
      if negb allowed then
        Ret (AuthRequired (grant_accessMode grant) (grant_expiresAt grant)
               (maskEmail (nullish (grant_recipientEmail grant) "")))
      else
        let* i := freshId in
        let* t := newDate in
        do* create (mkDisclosureAccessLog i (grant_id grant) ip userAgent t) in
        Ret (Disclosed base match gd_report d with Some r => report_snapshot r | None => JNull end)
  | _ => Ret (Withheld base)
  end.

Definition expireOverdue : handler nat :=
  let* now_ := newDate in
  updateMany (fun r => (report_status r ==? ReportStatus.ISSUED)
                       && match report_expiresAt r with Some t => t <? now_ | None => false end)
    (fun r => r <| report_status := ReportStatus.EXPIRED |>).

(** *** Controller *)

Record Created := mkCreated {
  cr_grant : DisclosureGrant;
  cr_report : option VerificationReport;
  cr_shareUrl : string;
  cr_emailSent : option bool;
  cr_emailError : option string
}.

Definition post_disclosures (user : string) (input : GrantInput) (autoIssue : bool) : handler Created :=
  let* ' (grant, rawToken) := createGrant user input in
  let shareUrl := nullish WEB_ORIGIN "http://localhost:3000" +:+ "/verify/" +:+ rawToken in
  let* report := if autoIssue || truthy (gi_recipientEmail input)
                 then let* r := issueReport user (grant_id grant) shareUrl in Ret (Some r)
                 else Ret None in
  let* ' (emailSent, emailError) :=
    match gi_recipientEmail input with
    | Some to =>
        if to ==? "" then Ret (None, None)
        else catch (do* MailService.send to ("[ServeProof] 소득 증빙 공유 — " +:+ gi_purpose input) in
                    Ret (Some true, None))
               (fun error => Ret (Some false, Some (exn_message error)))
    | None => Ret (None, None)
    end in
  Ret (mkCreated grant report shareUrl emailSent emailError).

Definition get_disclosures (user : string) : handler (list GrantView) := listGrants user.
Definition delete_disclosure (user id : string) : handler unit := revokeGrant user id.
Definition post_reports (user disclosureGrantId : string) (shareUrl : option string)
    : handler VerificationReport :=
  issueReport user disclosureGrantId
    (nullish shareUrl (nullish WEB_ORIGIN "http://localhost:3000" +:+ "/verify")).
Definition get_pdf (user id : string) : handler string := getPdfPath user id.
Definition get_verify (token : string) (ip userAgent accessSession : option string) : handler Verification :=
  verifyByToken token ip userAgent accessSession.
Definition post_accessRequest (token : string) : handler AccessRequested := requestRecipientOtp token.
Definition post_accessVerify (token code : string) : handler (string * Z) := verifyRecipientOtp token code.
End service.

(* ------------------------------------------------------------------ *)
(** ** What a verifier can see *)

Section disclosure.
Context `{Platform} `{Environment} `{Renderer}.

Lemma run_grantByToken tok w :
  run (grantByToken tok) w =
  (w, match grant_data w (sha256 tok) with
      | Some d => Ok d | None => Err (NotFoundException "Unknown verification token") end).
Proof. unfold grantByToken. rewrite run_bind, run_query, run_require. by destruct (grant_data w _). Qed.

(** The verdict VALID: nothing revoked, a report that is neither expired nor
    corrected, and the grant not over at the clock of the tick. *)
Lemma reportStatus_valid d w w' :
  run (reportStatus d) w = (w', Ok VALID) ->
  w' = w <| w_tick ::= S |> /\ grant_revokedAt (gd_grant d) = None /\
  now (w_tick w) <= grant_expiresAt (gd_grant d) /\
  exists r, gd_report d = Some r /\
    ~ In (report_status r) [ReportStatus.REVOKED; ReportStatus.EXPIRED; ReportStatus.CORRECTED].
Proof.
  unfold reportStatus. destruct (grant_revokedAt (gd_grant d)); [by wexec|]. cbn [orb].
  destruct (gd_report d) as [r|]; [|by wexec].
  destruct (report_status r ==? ReportStatus.REVOKED) eqn:E1; wexec; [done|].
  destruct ((_ <? _) || _) eqn:E2; wexec; [done|].
  destruct (report_status r ==? ReportStatus.CORRECTED) eqn:E3; wexec; [done|].
  intros [= <-]. apply orb_false_iff in E2 as [Et E2].
  apply bool_decide_eq_false in E1, E2, E3. split; [done|]. split; [done|]. split; [lia|].
  exists r. split; [done|]. cbn. naive_solver.
Qed.

Lemma run_session_valid i s w w' :
  run (session_valid i s) w = (w', Ok true) ->
  w_accesses w' = w_accesses w /\
  exists token v, s = Some token /\ live (now (w_tick w)) (w_redis w) (session_key i (sha256 token)) = Some v.
Proof.
  unfold session_valid. destruct s as [s|]; [|by wexec]. destruct (s ==? ""); [by wexec|].
  unfold accessStore. rewrite run_bind, run_orThrow. unfold redis_get. rewrite run_redis.
  destruct (redisError (w_tick w)); [done|]. cbv beta iota. rewrite run_ret.
  destruct (live _ _ _) as [v|] eqn:E; cbn [option_map]; [|done]. intros [= <- _]. wcbn.
  split; [done|]. by exists s, v.
Qed.

Lemma verify_valid tok ip ua s w w' base snapshot :
  run (verifyByToken tok ip ua s) w = (w', Ok (Disclosed base snapshot)) ->
  exists d, grant_data w (sha256 tok) = Some d /\
    run (reportStatus d) w = (w <| w_tick ::= S |>, Ok VALID) /\
    snapshot = match gd_report d with Some r => report_snapshot r | None => JNull end /\
    length (w_accesses w') = S (length (w_accesses w)) /\
    (grant_accessMode (gd_grant d) = AccessMode.RECIPIENT_OTP ->
     exists token v, s = Some token /\
       live (now (S (w_tick w))) (w_redis w) (session_key (grant_id (gd_grant d)) (sha256 token)) = Some v).
Proof.
  unfold verifyByToken. rewrite run_bind, run_grantByToken.
  destruct (grant_data w (sha256 tok)) as [d|]; [|done]. rewrite run_bind.
  destruct (run (reportStatus d) w) as [w1 [st|e]] eqn:Es; [|done].
  destruct st; try (intros [= <- ?]; done).
  destruct (reportStatus_valid _ _ _ Es) as (-> & _). intros E. exists d. split; [done|]. split; [done|].
  revert E. cbv zeta. rewrite run_bind.
  match goal with |- context [run (if ?c then ?p else ?q) ?w1] =>
    destruct (run (if c then p else q) w1) as [w2 [[]|e]] eqn:Ea end; [|by wexec|done].
  cbn [negb]. wexec.
  match goal with |- context [existsb ?f ?l] => destruct (existsb f l) end; [done|]. wexec.
  intros [= <- _ <-]. wcbn. split; [done|]. rewrite length_app. cbn [length].
  destruct (grant_accessMode (gd_grant d) ==? AccessMode.RECIPIENT_OTP) eqn:Em.
  - apply run_session_valid in Ea as [Hacc Hs]. revert Hacc Hs. wcbn. intros -> Hs.
    split; [lia|]. intros _. exact Hs.
  - revert Ea. wexec. intros [= <-]. wcbn. split; [lia|]. intros Hm. by rewrite Hm, bd_refl in Em.
Qed.

(** C18: the public verification discloses a snapshot only for the grant whose
    token it is given, while the grant is neither revoked nor over, from its
    latest report, which is neither revoked, expired nor corrected, and for a
    recipient-only grant only to a live session of the recipient; every
    disclosure is logged. *)
Theorem verify_discloses_only_valid tok ip ua s w w' base snapshot :
  run (verifyByToken tok ip ua s) w = (w', Ok (Disclosed base snapshot)) ->
  exists g r, List.find (fun g => grant_accessTokenHash g ==? sha256 tok) (w_grants w) = Some g /\
    grant_revokedAt g = None /\ now (w_tick w) <= grant_expiresAt g /\
    latest_report w (grant_id g) = Some r /\
    ~ In (report_status r) [ReportStatus.REVOKED; ReportStatus.EXPIRED; ReportStatus.CORRECTED] /\
    snapshot = report_snapshot r /\
    length (w_accesses w') = S (length (w_accesses w)) /\
    (grant_accessMode g = AccessMode.RECIPIENT_OTP ->
     exists token v, s = Some token /\
       live (now (S (w_tick w))) (w_redis w) (session_key (grant_id g) (sha256 token)) = Some v).
Proof.
  intros E. apply verify_valid in E as (d & Hd & Hs & -> & Hl & Ha).
  unfold grant_data in Hd. destruct (List.find _ (w_grants w)) as [g|]; [|done]. injection Hd as <-.
  apply reportStatus_valid in Hs as (_ & Hr & Ht & r & Hrep & Hst). cbn [gd_grant gd_report] in *.
  exists g, r. rewrite Hrep. done.
Qed.

(** a worker's revocation works at once: only the grant's own worker can do
    it, all issued and corrected reports of the grant become REVOKED, other
    grants and reports stay, and from then on the grant's token discloses
    nothing. *)
Theorem revoke_effective user grantId w w' :
  run (revokeGrant user grantId) w = (w', Ok tt) ->
  NoDup (map grant_id (w_grants w)) ->
  exists g, List.find (by_id grantId) (w_grants w) = Some g /\
    (exists x, List.find (fun x => worker_userId x ==? user) (w_workers w) = Some x /\ worker_id x = grant_workerId g) /\
    (forall r, In r (w_reports w') -> report_disclosureGrantId r = grantId -> ~ In (report_status r) reissuable) /\
    (forall i, i <> grantId -> List.find (by_id i) (w_grants w') = List.find (by_id i) (w_grants w)) /\
    (forall tok ip ua s w2 base snapshot,
       List.find (fun g => grant_accessTokenHash g ==? sha256 tok) (w_grants w) = Some g ->
       run (verifyByToken tok ip ua s) w' <> (w2, Ok (Disclosed base snapshot))).
Proof.
  unfold revokeGrant, workerOf. rewrite run_bind, run_bind, run_query. cbv beta iota. rewrite run_require.
  destruct (List.find (fun x => worker_userId x ==? user) (w_workers w)) as [x|]; [|done].
  cbn [option_map]. rewrite run_bind. unfold own_grant. rewrite run_bind, run_findUnique. wcbn.
  rewrite run_require. destruct (List.find (by_id grantId) (w_grants w)) as [g|] eqn:Eg; [|done].
  destruct (grant_workerId g ==? worker_id x) eqn:Ew; [|done]. apply bool_decide_eq_true in Ew.
  wexec. rewrite Eg. wexec. intros [= <-] HN. exists g. split; [done|]. split; [by exists x|].
  apply find_In in Eg as [Hin Hid]. apply bool_decide_eq_true in Hid. cbn in Hid.
  split; [|split]; wcbn.
  - intros r Hr Hg Hs. apply in_upd_where in Hr as (r0 & _ & ->).
    destruct (_ && _) eqn:E; [by destruct Hs as [?|[?|[]]]|].
    apply includes_In in Hs. rewrite Hg, bd_refl in E. unfold includes in Hs. cbn in E, Hs. congruence.
  - intros i Hi. rewrite find_upd_where by done.
    destruct (List.find (by_id i) (w_grants w)) as [g2|] eqn:E2; [|done]. cbn.
    apply find_In in E2 as [_ E2]. apply bool_decide_eq_true in E2. cbn in E2.
    unfold by_id. cbn. rewrite bool_decide_eq_false_2; [done|congruence].
  - intros tok ip ua s w2 base snapshot Hf E.
    apply verify_valid in E as (d & Hd & Hs & _). apply reportStatus_valid in Hs as (_ & Hr & _). revert Hd Hr.
    unfold grant_data. wcbn. rewrite find_upd_where by done. rewrite Hf. cbn. unfold by_id at 1. cbn. rewrite Hid, bd_refl.
    intros [= <-]. done.
Qed.

(** a recipient session is granted only for a recipient-only grant that is
    VALID, against the stored, unexpired code, with fewer than five counted
    attempts; the code is destroyed, and the session lasts at most fifteen
    minutes. *)
Theorem recipient_session_spec tok code w w' token seconds :
  run (verifyRecipientOtp tok code) w = (w', Ok (token, seconds)) ->
  exists d, grant_data w (sha256 tok) = Some d /\
    run (reportStatus d) w = (w <| w_tick ::= S |>, Ok VALID) /\
    grant_accessMode (gd_grant d) = AccessMode.RECIPIENT_OTP /\
    let key := otp_key (grant_id (gd_grant d)) in
    (exists e, live (now (S (w_tick w))) (w_redis w) key = Some (sha256 code, e)) /\
    counter (live (now (S (S (w_tick w)))) (w_redis w) (key +:+ ":attempts")) < ACCESS_OTP_MAX_ATTEMPTS /\
    1 <= seconds <= ACCESS_SESSION_TTL_SECONDS /\
    map_get (w_redis w') (session_key (grant_id (gd_grant d)) (sha256 token)) <> None /\
    map_get (w_redis w') key = None.
Proof.
  unfold verifyRecipientOtp. rewrite run_bind, run_grantByToken.
  destruct (grant_data w (sha256 tok)) as [d|]; [|done].
  rewrite run_bind. unfold assertRecipientAccessAvailable at 1. rewrite run_bind.
  destruct (run (reportStatus d) w) as [w1 [st|e]] eqn:Es; [|done].
  destruct st; try (rewrite run_bind, run_throw; done).
  destruct (reportStatus_valid _ _ _ Es) as (-> & _). rewrite run_bind, run_ret, run_throw_if.
  destruct (_ || _) eqn:Em; [done|]. apply orb_false_iff in Em as [Em _].
  apply negb_false_iff, bool_decide_eq_true in Em.
  intros E. exists d. split; [done|]. split; [done|]. split; [done|]. revert E. cbv zeta.
  set (key := otp_key (grant_id (gd_grant d))). unfold accessStore.
  rewrite run_bind, run_orThrow. unfold redis_get. rewrite run_redis. wcbn.
  destruct (redisError (S (w_tick w))); [done|]. cbv beta iota.
  destruct (live (now (S (w_tick w))) (w_redis w) key) as [[h e]|] eqn:El; cbn [option_map fst].
  2: { rewrite run_bind, run_throw_if. done. }
  rewrite run_bind, run_throw_if. destruct (negb _); [done|].
  rewrite run_bind, run_orThrow. unfold redis_incr. rewrite run_redis. wcbn.
  destruct (redisError (S (S (w_tick w)))); [done|]. cbv beta iota.
  set (o := live _ _ (key +:+ ":attempts")).
  destruct (ACCESS_OTP_MAX_ATTEMPTS <? counter o + 1) eqn:Ea.
  { rewrite run_bind, run_bind, run_orThrow. destruct (run (redis_del _) _) as [w2 [[x|x]|x]]; done. }
  rewrite run_bind, run_ret. cbv beta iota. rewrite run_bind, run_throw_if.
  destruct (Some h !=? Some (sha256 code)) eqn:Eh; [done|].
  apply negb_false_iff, bool_decide_eq_true in Eh. injection Eh as ->.
  rewrite run_bind, run_orThrow. unfold redis_del. rewrite run_redis. wcbn.
  destruct (redisError (S (S (S (w_tick w))))); [done|]. cbv beta iota.
  rewrite run_bind, run_ask. cbv beta iota. rewrite run_bind, run_newDate. cbv beta iota. wcbn.
  rewrite run_bind, run_orThrow. unfold redis_set. rewrite run_redis. wcbn.
  destruct (redisError _); [done|]. cbv beta iota. rewrite run_ret. intros [= <- <- <-]. wcbn.
  split; [by exists e|]. split; [lia|]. split; [unfold ACCESS_SESSION_TTL_SECONDS; lia|].
  rewrite map_get_set_eq. split; [done|]. rewrite map_get_set_ne; [|done]. apply store_del_In. by left.
Qed.
End disclosure.

(* ------------------------------------------------------------------ *)
(** ** A recipient-only proof *)

#[local] Existing Instance demo_environment.

Definition demo_renderer : Renderer := {| REPORTS_DIR := "/var/reports"; renderError _ := None |}.
#[local] Existing Instance demo_renderer.

Definition demo_person : World :=
  empty_world
    <| w_users := [mkUser "u1" "otp:ann@bar.io" "ann@bar.io" "Ann" GlobalRole.WORKER] |>
    <| w_workers := [mkWorker "w1" "u1" None] |>.

Definition demo_grant_input : GrantInput :=
  mkGrantInput "rent" DisclosureLevel.LEVEL_1 0 100000000 100000000 (Some "Bank@demo.test")
    (Some AccessMode.RECIPIENT_OTP) None (Some 100).

Definition demo_created : World * result Created :=
  Eval vm_compute in run (post_disclosures "u1" demo_grant_input true) demo_person.
Definition demo_token : string :=
  Eval vm_compute in match demo_created.2 with
                     | Ok c => slice_from (cr_shareUrl c) 29 | Err _ => "" end.
Definition demo_asked : World * result AccessRequested :=
  Eval vm_compute in run (requestRecipientOtp demo_token) demo_created.1.
Definition demo_code : string :=
  Eval vm_compute in match demo_asked.2 with Ok a => nullish (ar_devCode a) "" | Err _ => "" end.
Definition demo_opened : World * result (string * Z) :=
  Eval vm_compute in run (verifyRecipientOtp demo_token demo_code) demo_asked.1.
Definition demo_session : string :=
  Eval vm_compute in match demo_opened.2 with Ok a => a.1 | Err _ => "" end.
Definition demo_grant_id : string :=
  Eval vm_compute in nullish (grant_id <$> head (w_grants demo_created.1)) "".

Lemma verify_discloses_only_valid_witness :
  exists w' base snapshot,
    run (verifyByToken demo_token None None (Some demo_session)) demo_opened.1 = (w', Ok (Disclosed base snapshot)) /\
    length (w_accesses w') = 1%nat.
Proof.
  destruct (run (verifyByToken demo_token None None (Some demo_session)) demo_opened.1) as [w' [[| |b sn]|e]] eqn:E;
    try (apply (f_equal (fun c => match c.2 with Ok (Disclosed _ _) => true | _ => false end)) in E;
         vm_compute in E; discriminate E).
  exists w', b, sn. split; [done|].
  destruct (verify_discloses_only_valid _ _ _ _ _ _ _ _ E) as (g & r & _ & _ & _ & _ & _ & _ & Hl & _).
  exact Hl.
Defined.

Lemma revoke_effective_witness :
  exists w', run (revokeGrant "u1" demo_grant_id) demo_opened.1 = (w', Ok tt) /\
    exists g, List.find (by_id demo_grant_id) (w_grants demo_opened.1) = Some g.
Proof.
  destruct (run (revokeGrant "u1" demo_grant_id) demo_opened.1) as [w' [[]|e]] eqn:E.
  - exists w'. split; [done|].
    destruct (revoke_effective _ _ _ _ E) as (g & Hg & _);
      [apply (bool_decide_unpack _); vm_compute; done|]. by exists g.
  - apply (f_equal (fun c => is_ok c.2)) in E. vm_compute in E. discriminate E.
Defined.

Lemma recipient_session_spec_witness :
  exists w' token seconds, run (verifyRecipientOtp demo_token demo_code) demo_asked.1 = (w', Ok (token, seconds)) /\
    1 <= seconds <= ACCESS_SESSION_TTL_SECONDS.
Proof.
  destruct (run (verifyRecipientOtp demo_token demo_code) demo_asked.1) as [w' [[token seconds]|e]] eqn:E.
  - exists w', token, seconds. split; [done|].
    by destruct (recipient_session_spec _ _ _ _ _ _ E) as (d & _ & _ & _ & _ & _ & Hs & _).
  - apply (f_equal (fun c => is_ok c.2)) in E. vm_compute in E. discriminate E.
Defined.

End DisclosureService.
