(* ===== verification/DemoCsv.v ===== *)
(** * The demonstration data

    scripts/generate-demo-csv.mjs: repeatable evidence for rehearsals.  The random
    numbers are a 32-bit generator seeded with a text; [state] is a JavaScript
    number that is only added to, so it is exact (each draw adds less than 2^31)
    and is taken to 32 bits where the code uses a bit operation.  A draw is a
    fraction of 2^32 times a range of at most 2201, which a double holds exactly:
    [randInt] divides integers.  Seed texts are ASCII.

    [generated_csv_reads_back]: what is generated the evidence intake accepts, row
    by row, with the amounts the generator announces. *)

From S2P Require Import Prelude Concurrency Strings Calendar Schema Demo Float64 Money AllocationEngine Income Disclosure Evidence.
Import EvidenceService Income.

Open Scope Z_scope.

Module DemoCsv.

(* ------------------------------------------------------------------ *)
(** ** 32-bit operations *)

Definition uint32 (x : Z) : Z := x mod 2 ^ 32.
Definition int32 (x : Z) : Z := let u := uint32 x in if u <? 2 ^ 31 then u else u - 2 ^ 32.
(** [a ^ b], [a | b], [a >>> n] and [Math.imul(a, b)] *)
Definition bit_xor (a b : Z) : Z := Z.lxor (int32 a) (int32 b).
Definition bit_or (a b : Z) : Z := Z.lor (int32 a) (int32 b).
Definition shift_right (a n : Z) : Z := Z.shiftr (uint32 a) n.
Definition imul (a b : Z) : Z := int32 (a * b).

(** The state [seededRandom] starts with. *)
Definition seed_state (seedText : string) : Z :=
  fold_left (fun state c => imul (bit_xor state (Z.of_N (N_of_ascii c))) 16777619) (list_of_str seedText) 2166136261.

(** A draw: the numerator over 2^32, and the next state. *)
Definition draw (state : Z) : Z * Z :=
  let state := state + 1831565813 in
  let value := imul (bit_xor state (shift_right state 15)) (bit_or state 1) in
  let value := bit_xor value (value + imul (bit_xor value (shift_right value 7)) (bit_or value 61)) in
  (uint32 (bit_xor value (shift_right value 14)), state).

Definition randInt (min max state : Z) : Z * Z :=
  let '(u, state) := draw state in (min + u * (max - min + 1) / 2 ^ 32, state).

(* ------------------------------------------------------------------ *)
(** ** The rows *)

Record DemoWorker := mkDemoWorker { dw_id : string; dw_role : string; dw_route : string; dw_payrollStatus : string }.

Definition baseWorkers : list DemoWorker :=
  [mkDemoWorker "worker_001" "SERVER" "USDC" "UNKNOWN";
   mkDemoWorker "worker_002" "SERVER" "USDC" "UNKNOWN";
   mkDemoWorker "worker_003" "BUSSER" "PAYROLL" "PROVIDER_CONFIRMED"].

Definition demo_workers (profile : string) (unmapped : bool) : list DemoWorker :=
  map (fun w => if profile ==? "history" then mkDemoWorker (dw_id w) (dw_role w) "PAYROLL" "PROVIDER_CONFIRMED" else w)
    (if profile ==? "live" then take 2 baseWorkers else baseWorkers)
  ++ (if unmapped then [mkDemoWorker "worker_099" "SERVER" "USDC" "UNKNOWN"] else []).

(** A row before it is written: the date, the worker, the start, the minutes and
    the tip. *)
Record DemoRow := mkDemoRow { dr_ymd : string; dr_worker : DemoWorker; dr_start : Z; dr_minutes : Z; dr_tipCents : Z }.

(** The draws of a row, in their order; [start] is
    [new Date(`${ymd}T${pad(startHour)}:${pad(startMinute)}:00Z`)]. *)
Definition demo_row (profile ymd : string) (worker : DemoWorker) (state : Z) : result (DemoRow * Z) :=
  let live := profile ==? "live" in
  let '(startHour, state) := if live then (16, state) else randInt 15 18 state in
  let '(minutes, state) := if live then (300, state) else randInt 210 360 state in
  let '(startMinute, state) := if live then (0, state) else randInt 0 59 state in
  match parseDate ymd with
  | None => Err (JsError "Invalid time value")
  | Some midnight =>
      let start := midnight + startHour * 3600000 + startMinute * 60000 in
      let '(tipCents, state) := if live then (1500, state) else randInt 800 3000 state in
      Ok (mkDemoRow ymd worker start minutes tipCents, state)
  end.

Definition row_fields (r : DemoRow) : list string :=
  let w := dr_worker r in
  ["toast_mock"; "venue_001"; dw_id w; "shift_" +:+ dr_ymd r +:+ "_" +:+ dw_id w; "CARD_TIP";
   DisclosureService.toFixed2 (dr_tipCents r); toISOString (dr_start r);
   toISOString (dr_start r + dr_minutes r * 60000); dw_role w; dw_route w; dw_payrollStatus w].

(** The inner loop: a row for each worker of a day. *)
Fixpoint day_rows (profile ymd : string) (workers : list DemoWorker) (state : Z) : result (list DemoRow * Z) :=
  match workers with
  | [] => Ok ([], state)
  | w :: workers' =>
      try! r := demo_row profile ymd w state in
      try! rest := day_rows profile ymd workers' r.2 in
      Ok (r.1 :: rest.1, rest.2)
  end.

(** The outer loop: [n] days up to [end_], the oldest first. *)
Fixpoint all_rows (profile : string) (workers : list DemoWorker) (end_ : Z) (n : nat) (state : Z) : result (list DemoRow) :=
  match n with
  | O => Ok []
  | S offset =>
      let day := end_ - Z.of_nat offset * 86400000 in
      try! r := day_rows profile (slice_to (toISOString day) 10) workers state in
      try! rest := all_rows profile workers end_ offset r.2 in
      Ok (r.1 ++ rest)
  end.

Record Meta := mkMeta {
  meta_days : Z;
  meta_shiftCount : nat;
  meta_usdcCents : Z;
  meta_payrollCents : Z;
  meta_profile : string;
  meta_endDate : string
}.

Definition CSV_EVIDENCE_HEADERS : list string :=
  ["provider"; "venue_external_id"; "worker_external_id"; "shift_external_id"; "tip_type"; "gross_tip";
   "clock_in"; "clock_out"; "role"; "payout_route"; "payroll_status"].

(** What [generateDemoCsv] returns, with the rows its text is made of. *)
Record Generated := mkGenerated { g_csv : string; g_meta : Meta; g_rows : list DemoRow }.

Definition is_usdc (r : DemoRow) : bool := dw_route (dr_worker r) ==? "USDC".
Definition NEWLINE : string := String "010" "".

(** [days] is [Number(days)] where that is a whole number, and [None] when it is not
    a number; a fractional count of days is not modelled. *)
Definition safe_days (days : option Z) : Z := Z.max 1 (match days with Some n => if n =? 0 then 5 else n | None => 5 end).

Definition generateDemoCsv (days : option Z) (endDate : option string) (seed profile : string) (unmapped : bool)
    (now_ : Z) : result Generated :=
  let safeDays := safe_days days in
  let defaultEnd := slice_to (toISOString (now_ - 86400000)) 10 in
  match noonUtc (nullish endDate defaultEnd) with
  | None => Err (JsError ("Invalid --end-date: " +:+ nullish endDate "undefined"))
  | Some parsedEnd =>
      if negb (includes ["default"; "history"; "live"] profile)
      then Err (JsError ("Invalid --profile: " +:+ profile))
      else
        let workers := demo_workers profile unmapped in
        let endYmd := slice_to (toISOString parsedEnd) 10 in
        let seedText := join ":" [seed; profile; endYmd; str_of_Z safeDays; if unmapped then "true" else "false"] in
        try! rows := all_rows profile workers parsedEnd (Z.to_nat safeDays) (seed_state seedText) in
        Ok (mkGenerated
              (join NEWLINE (join "," CSV_EVIDENCE_HEADERS :: map (fun r => join "," (row_fields r)) rows) +:+ NEWLINE)
              (mkMeta safeDays (length rows)
                 (sumZ dr_tipCents (List.filter is_usdc rows))
                 (sumZ dr_tipCents (List.filter (fun r => negb (is_usdc r)) rows)) profile endYmd)
              rows)
  end.

(** A script's option: the argument after its name. *)
Definition option_ (args : list string) (name fallback : string) : string :=
  match list_find (fun a => a = name) args with
  | Some (index, _) => nullish (args !! S index) fallback
  | None => fallback
  end.

(* ------------------------------------------------------------------ *)
(** ** Draws stay in their range *)

Lemma draw_range state : 0 <= (draw state).1 < 2 ^ 32.
Proof. unfold draw. cbn [fst]. unfold uint32. apply Z.mod_pos_bound. lia. Qed.

Lemma randInt_range lo hi state : lo <= hi -> lo <= (randInt lo hi state).1 <= hi.
Proof.
  intros H. pose proof (draw_range state) as Hu. unfold randInt. destruct (draw state) as [u s]. cbn [fst] in *.
  assert (0 <= u * (hi - lo + 1) / 2 ^ 32 < hi - lo + 1); [|lia].
  split; [apply Z.div_pos; nia|]. apply Z.div_lt_upper_bound; [lia|]. nia.
Qed.

Lemma live_or_draw (live : bool) fixed lo hi state :
  lo <= fixed <= hi -> exists v st, (if live then (fixed, state) else randInt lo hi state) = (v, st) /\ lo <= v <= hi.
Proof.
  intros H. destruct live; [by exists fixed, state|].
  pose proof (randInt_range lo hi state ltac:(lia)). destruct (randInt lo hi state) as [v st]. by exists v, st.
Qed.

(** What the rows are made of: a known worker, three and a half to six hours, and
    8 to 30 dollars. *)
Definition all_workers : list DemoWorker :=
  flat_map (fun p => demo_workers p true) ["default"; "history"; "live"].
Definition row_ok (r : DemoRow) : Prop :=
  In (dr_worker r) all_workers /\ 210 <= dr_minutes r <= 360 /\ 800 <= dr_tipCents r <= 3000 /\
  exists ms, dr_ymd r = slice_to (toISOString ms) 10.

(** A day of the calendar gives a row for each worker. *)
Lemma demo_row_ok profile ms w state :
  In w all_workers -> Calendar.in_calendar ms ->
  exists r st, demo_row profile (slice_to (toISOString ms) 10) w state = Ok (r, st) /\ row_ok r /\ dr_worker r = w.
Proof.
  unfold demo_row. intros Hw Hms. set (live := profile ==? "live").
  edestruct (live_or_draw live 16 15 18 state) as (h & st1 & -> & Hh); [lia|].
  edestruct (live_or_draw live 300 210 360 st1) as (n & st2 & -> & Hn); [lia|].
  edestruct (live_or_draw live 0 0 59 st2) as (k & st3 & -> & Hk); [lia|].
  pose proof (Calendar.iso_day_midnight ms Hms) as Hd. unfold Calendar.iso_day in Hd. rewrite Hd.
  edestruct (live_or_draw live 1500 800 3000 st3) as (t & st4 & -> & Ht); [lia|].
  eexists _, _. split; [done|]. split; [|done]. split; [done|]. split; [done|]. split; [done|]. by exists ms.
Qed.

Lemma day_rows_ok profile ms ws state :
  Forall (fun w => In w all_workers) ws -> Calendar.in_calendar ms ->
  exists rs st, day_rows profile (slice_to (toISOString ms) 10) ws state = Ok (rs, st) /\ Forall row_ok rs /\
    map dr_worker rs = ws.
Proof.
  intros Hws Hms. revert state. induction Hws as [|w ws Hw _ IH]; intros state; cbn [day_rows].
  - by exists [], state.
  - destruct (demo_row_ok profile ms w state Hw Hms) as (r & st & -> & Hr & Hrw). cbn [rbind snd].
    destruct (IH st) as (rs & st' & -> & Hrs & Hm). cbn. eexists _, _. split; [done|]. split; [by constructor|].
    cbn. by rewrite Hrw, Hm.
Qed.

Lemma all_rows_ok profile ws end_ n state :
  Forall (fun w => In w all_workers) ws ->
  (forall k, (k < n)%nat -> Calendar.in_calendar (end_ - Z.of_nat k * 86400000)) ->
  exists rs, all_rows profile ws end_ n state = Ok rs /\ Forall row_ok rs /\ length rs = (n * length ws)%nat.
Proof.
  intros Hws. revert state. induction n as [|n IH]; intros state Hc; cbn [all_rows].
  - by exists [].
  - destruct (day_rows_ok profile (end_ - Z.of_nat n * 86400000) ws state Hws (Hc n ltac:(lia))) as (r1 & st & -> & H1 & M1).
    cbn [rbind snd fst]. destruct (IH st) as (rs & -> & H2 & L2); [intros; apply Hc; lia|]. cbn.
    eexists. split; [done|]. split; [by apply Forall_app|]. rewrite length_app, L2.
    apply (f_equal length) in M1. rewrite length_map in M1. lia.
Qed.

(* ------------------------------------------------------------------ *)
(** ** The text has no character that a CSV reader minds *)

Definition csv_char (c : ascii) : bool :=
  plain_char c && negb (is_space c) && negb (Ascii.eqb c "010") && negb (Ascii.eqb c "013").

Lemma digit_csv c : is_digit c = true -> csv_char c = true.
Proof. destruct c as [[] [] [] [] [] [] [] []]; vm_compute; done. Qed.
Lemma digits_csv s : all_chars is_digit s = true -> all_chars csv_char s = true.
Proof.
  induction s as [|c s IH]; [done|]. cbn. intros H. apply andb_true_iff in H as [Hc Hs].
  by rewrite (digit_csv c Hc), IH.
Qed.

Lemma padded_csv n z : 0 <= z -> all_chars csv_char (pad_Z n z) = true.
Proof.
  intros Hz. unfold pad_Z, padStart. rewrite all_chars_app, (digits_csv (str_of_Z z)) by (by apply str_of_Z_digits).
  rewrite andb_true_r. by induction (n - _)%nat as [|k IH].
Qed.

Lemma iso_csv ms : all_chars csv_char (toISOString ms) = true.
Proof.
  unfold toISOString. destruct (civil_from_days (ms / 86400000)) as [[y m] d] eqn:E.
  destruct (Calendar.civil_spec _ _ _ _ E) as (_ & Hm & Hd).
  pose proof (Z.mod_pos_bound ms 86400000 ltac:(lia)) as Ht. set (t := ms mod 86400000) in *.
  rewrite !all_chars_app, !padded_csv; try (apply Z.mod_pos_bound; lia); try (apply Z.div_pos; lia); try lia.
  assert (all_chars csv_char (if (0 <=? y) && (y <=? 9999) then pad_Z 4 y
            else (if y <? 0 then "-" else "+") +:+ pad_Z 6 (Z.abs y)) = true) as ->; [|done].
  destruct ((0 <=? y) && (y <=? 9999)) eqn:Ey.
  - apply andb_true_iff in Ey as [Ey _]. apply Z.leb_le in Ey. by apply padded_csv.
  - destruct (y <? 0); rewrite all_chars_app, padded_csv by lia; done.
Qed.

Lemma slice_csv s n : all_chars csv_char s = true -> all_chars csv_char (slice_to s n) = true.
Proof.
  unfold slice_to. revert n. induction s as [|c s IH]; intros [|n] H; try done.
  cbn in *. apply andb_true_iff in H as [Hc Hs]. by rewrite Hc, IH.
Qed.

Lemma fixed2_csv c : 0 <= c -> all_chars csv_char (DisclosureService.toFixed2 c) = true.
Proof.
  intros Hc. unfold DisclosureService.toFixed2. rewrite !all_chars_app.
  change (padStart (str_of_Z (c mod 100)) 2 "0") with (pad_Z 2 (c mod 100)).
  pose proof (Z.mod_pos_bound c 100 ltac:(lia)).
  rewrite padded_csv by lia. rewrite (digits_csv (str_of_Z _)) by (apply str_of_Z_digits, Z.div_pos; lia). done.
Qed.

(** A line of such fields: none of its characters ends or trims it. *)
Definition line_char (c : ascii) : bool := csv_char c || Ascii.eqb c ",".
Lemma csv_line_char c : csv_char c = true -> line_char c = true.
Proof. unfold line_char. by intros ->. Qed.
Lemma all_chars_impl (p q : ascii -> bool) s :
  (forall c, p c = true -> q c = true) -> all_chars p s = true -> all_chars q s = true.
Proof.
  intros Hpq. induction s as [|c s IH]; [done|]. cbn. intros H. apply andb_true_iff in H as [Hc Hs].
  by rewrite (Hpq c Hc), IH.
Qed.

Lemma join_line fs : Forall (fun f => all_chars csv_char f = true) fs -> all_chars line_char (join "," fs) = true.
Proof.
  induction 1 as [|f fs Hf Hfs IH]; [done|]. pose proof (all_chars_impl _ _ f csv_line_char Hf) as Hl.
  destruct Hfs as [|f' fs Hf' Hfs]; [exact Hl|].
  change (join "," (f :: f' :: fs)) with (f +:+ "," +:+ join "," (f' :: fs)). by rewrite !all_chars_app, Hl, IH.
Qed.

Lemma line_no_newline c : line_char c = true -> negb (Ascii.eqb c "010") = true.
Proof. destruct c as [[] [] [] [] [] [] [] []]; vm_compute; done. Qed.
Lemma line_no_space c : line_char c = true -> negb (is_space c) = true.
Proof. destruct c as [[] [] [] [] [] [] [] []]; vm_compute; done. Qed.
Lemma line_drop_cr s : all_chars line_char s = true -> drop_cr s = s.
Proof.
  induction s as [|c s IH]; [done|]. cbn [all_chars drop_cr]. intros H. apply andb_true_iff in H as [Hc Hs].
  rewrite (IH Hs). assert (Ascii.eqb c "013" = false) as ->; [|by destruct s].
  destruct c as [[] [] [] [] [] [] [] []]; vm_compute in Hc |- *; done.
Qed.

(** A text of such lines is split into them. *)
Lemma csv_lines_join ls :
  Forall (fun l => all_chars line_char l = true /\ l <> "") ls -> csv_lines (join NEWLINE ls +:+ NEWLINE) = ls.
Proof.
  intros Hls. destruct ls as [|l0 ls]; [vm_compute; done|].
  assert (join NEWLINE (l0 :: ls) +:+ NEWLINE = join NEWLINE ((l0 :: ls) ++ [""])) as ->.
  { clear Hls. revert l0. induction ls as [|l1 ls IH]; intros l0; [done|].
    change (join NEWLINE (l0 :: l1 :: ls)) with (l0 +:+ NEWLINE +:+ join NEWLINE (l1 :: ls)).
    rewrite !str_app_assoc, IH. done. }
  unfold csv_lines. change NEWLINE with (String "010" ""). rewrite split_join.
  - assert (split_lines ((l0 :: ls) ++ [""]) = (l0 :: ls) ++ [""]) as ->.
    { induction Hls as [|l l' [Hl _] _ IH]; [done|].
      change ((l :: l') ++ [""]) with (l :: (l' ++ [""])). destruct (l' ++ [""]) as [|x xs] eqn:E; [by destruct l'|].
      change (split_lines (l :: x :: xs)) with (drop_cr l :: split_lines (x :: xs)).
      by rewrite (line_drop_cr l Hl), IH. }
    rewrite map_app, List.filter_app. change (List.filter _ (map trim [""])) with (@nil string). rewrite app_nil_r.
    induction Hls as [|l l' [Hl Hne] _ IH]; [done|]. cbn [map List.filter].
    rewrite (trim_id l) by (eapply all_chars_impl; [apply line_no_space|done]).
    destruct l as [|c l]; [done|]. f_equal. exact IH.
  - apply Forall_app. split; [|by repeat constructor]. eapply Forall_impl; [exact Hls|].
    intros l [Hl _]. eapply all_chars_impl; [apply line_no_newline|done].
  - done.
Qed.

(* ------------------------------------------------------------------ *)
(** ** What the intake reads *)

Section reads.
Context `{Platform} `{RowSchema}.

Definition rail_of (route : string) : PayoutRail.t := if route ==? "USDC" then PayoutRail.USDC else PayoutRail.PAYROLL.
(** The row of the intake for a generated row. *)
Definition read_row (r : DemoRow) : CsvEvidenceRow :=
  let w := dr_worker r in
  mkCsvRow "toast_mock" "venue_001" (dw_id w) ("shift_" +:+ dr_ymd r +:+ "_" +:+ dw_id w) TipType.CARD_TIP
    (DisclosureService.toFixed2 (dr_tipCents r)) (toISOString (dr_start r))
    (toISOString (dr_start r + dr_minutes r * 60000)) (dw_role w) (rail_of (dw_route w)) (dw_payrollStatus w).

(** The instants of a row are read as they were written. *)
Definition instants_read (r : DemoRow) : Prop :=
  isoDatetime (toISOString (dr_start r)) = Some (dr_start r) /\
  isoDatetime (toISOString (dr_start r + dr_minutes r * 60000)) = Some (dr_start r + dr_minutes r * 60000).

Lemma worker_fields w :
  In w all_workers ->
  (all_chars csv_char (dw_id w) && all_chars csv_char (dw_role w) && all_chars csv_char (dw_route w)
   && all_chars csv_char (dw_payrollStatus w)) = true /\
  dw_id w <> "" /\ dw_role w <> "" /\ dw_payrollStatus w <> "" /\
  List.find (fun a => PayoutRail.name a ==? dw_route w) PAYOUT_RAILS = Some (rail_of (dw_route w)).
Proof.
  intros Hw. assert (Forall (fun w => In w all_workers) all_workers) as _ by (by apply List.Forall_forall).
  vm_compute in Hw. repeat destruct Hw as [<-|Hw]; try done; vm_compute; done.
Qed.

Lemma row_fields_csv r : row_ok r -> Forall (fun f => all_chars csv_char f = true) (row_fields r).
Proof.
  intros (Hw & _ & Ht & ms & Hy). apply worker_fields in Hw as (Hc & _). rewrite !andb_true_iff in Hc.
  destruct Hc as [[[H1 H2] H3] H4]. unfold row_fields. cbv zeta. repeat constructor; try done.
  - rewrite !all_chars_app, H1, Hy, slice_csv by apply iso_csv. done.
  - apply fixed2_csv. lia.
  - apply iso_csv.
  - apply iso_csv.
Qed.

Lemma fixed2_amount c : 0 <= c -> exists whole frac, Money.usd_match (DisclosureService.toFixed2 c) = Some (false, whole, frac).
Proof.
  intros Hc. destruct (Money.frac_digits (c mod 100)) as (Hf & Hl & _); [apply Z.mod_pos_bound; lia|].
  assert (0 <= c / 100) as Hq by (apply Z.div_pos; lia).
  destruct (Money.usd_match_unsigned (str_of_Z (c / 100)) (padStart (str_of_Z (c mod 100)) 2 "0")) as [Hm _];
    [by apply str_of_Z_digits|by apply str_of_Z_nonempty|done|done|]. by do 2 eexists.
Qed.

(** The schema accepts a row with these fields. *)
Lemma schema_accepts p v w s t g i u ro x y tt rail :
  p <> "" -> v <> "" -> w <> "" -> s <> "" -> ro <> "" -> y <> "" ->
  List.find (fun a => TipType.name a ==? t) TIP_TYPES = Some tt ->
  List.find (fun a => PayoutRail.name a ==? x) PAYOUT_RAILS = Some rail ->
  (exists whole frac, Money.usd_match g = Some (false, whole, frac)) ->
  isoDatetime i <> None -> isoDatetime u <> None ->
  csvEvidenceRowSchema (row_object CSV_EVIDENCE_HEADERS [p; v; w; s; t; g; i; u; ro; x; y] [])
    = Some (mkCsvRow p v w s tt g i u ro rail y).
Proof.
  intros Hp Hv Hw Hs Hro Hy Ht Hx (whole & frac & Hg) Hi Hu.
  assert (row_object CSV_EVIDENCE_HEADERS [p; v; w; s; t; g; i; u; ro; x; y] []
    = combine CSV_EVIDENCE_HEADERS [p; v; w; s; t; g; i; u; ro; x; y]) as -> by reflexivity.
  set (o := combine _ _). unfold csvEvidenceRowSchema, text, one_of, amount, instant.
  assert (map_get o "provider" = Some p /\ map_get o "venue_external_id" = Some v /\
    map_get o "worker_external_id" = Some w /\ map_get o "shift_external_id" = Some s /\ map_get o "tip_type" = Some t /\
    map_get o "gross_tip" = Some g /\ map_get o "clock_in" = Some i /\ map_get o "clock_out" = Some u /\
    map_get o "role" = Some ro /\ map_get o "payout_route" = Some x /\ map_get o "payroll_status" = Some y)
    as (-> & -> & -> & -> & -> & -> & -> & -> & -> & -> & ->) by (repeat split; reflexivity).
  rewrite !bool_decide_eq_false_2 by done. rewrite Ht, Hx, Hg.
  destruct (isoDatetime i); [|done]. by destruct (isoDatetime u).
Qed.

Lemma line_read r :
  row_ok r -> instants_read r -> line_row CSV_EVIDENCE_HEADERS (join "," (row_fields r)) = Some (read_row r).
Proof.
  intros Hr [Hi Hu]. pose proof (row_fields_csv r Hr) as Hf. destruct Hr as (Hw & _ & Ht & _).
  apply worker_fields in Hw as (_ & H1 & H2 & H3 & H4). unfold line_row. rewrite (splitCsvLine_reads (row_fields r) (row_fields r)).
  - unfold row_fields. cbv zeta. apply schema_accepts; try done; try congruence. apply fixed2_amount. lia.
  - clear -Hf. induction Hf as [|f fs Hf _ IH]; constructor; [|done]. right. split; [done|].
    eapply all_chars_impl; [|exact Hf]. intros c Hc. unfold csv_char in Hc. rewrite !andb_true_iff in Hc. tauto.
  - done.
Qed.

Lemma minutes_read m :
  210 <= m <= 360 -> IncomeService.num_round (num_div (num_of_Z (m * 60000)) (num_of_Z 60000)) = m.
Proof.
  intros Hm. apply Z.eqb_eq.
  apply (Calendar.all_from_In 151 210 (fun m => IncomeService.num_round (num_div (num_of_Z (m * 60000)) (num_of_Z 60000)) =? m));
    [vm_compute; reflexivity|lia].
Qed.

Lemma cents_read c : 800 <= c <= 3000 ->
  Money.parseUsdToCents (DisclosureService.toFixed2 c) = Ok (num_of_Z c) /\ num_ltb (num_of_Z 0) (num_of_Z c) = true.
Proof.
  intros Hc. split.
  - rewrite <- (Money.parse_formatted c) by lia. f_equal. unfold Money.formatCentsToUsd.
    destruct (Money.format_parts c) as [Hq Hr]; [lia|]. rewrite Z.abs_eq, Hq, Hr by lia.
    by rewrite (proj2 (Z.ltb_ge c 0)) by lia.
  - apply (Calendar.all_from_In (Z.to_nat 2201) 800 (fun c => num_ltb (num_of_Z 0) (num_of_Z c)));
      [vm_compute; reflexivity|lia].
Qed.

Lemma sumZ_split {R} (f : R -> Z) (p : R -> bool) l :
  sumZ f (List.filter p l) + sumZ f (List.filter (fun r => negb (p r)) l) = sumZ f l.
Proof. induction l as [|r l IH]; [done|]. cbn. destruct (p r); cbn; lia. Qed.

(** Rows normalize to their shifts and tips. *)
Lemma rows_read tz rows :
  Forall row_ok rows -> Forall instants_read rows ->
  let lines := map (fun r => join "," (row_fields r)) rows in
  accepted CSV_EVIDENCE_HEADERS lines = map read_row rows /\
  rejected CSV_EVIDENCE_HEADERS 1 lines = [] /\
  map ns_workedMinutes (map (row_shift tz) (map read_row rows)) = map dr_minutes rows /\
  map nt_grossAmountUsdCents (concat (map (row_tips tz) (map read_row rows))) = map (fun r => num_of_Z (dr_tipCents r)) rows.
Proof.
  intros Hok Hin lines. unfold lines. clear lines.
  assert (forall from, rejected CSV_EVIDENCE_HEADERS from (map (fun r => join "," (row_fields r)) rows) = []) as Hrej.
  { induction Hok as [|r rows Hr _ IH]; intros from; [done|]. inversion Hin; subst. cbn [map].
    rewrite rejected_cons, line_read by done. by apply IH. }
  split; [|split; [apply Hrej|]]; clear Hrej; induction Hok as [|r rows Hr _ IH]; try done; inversion Hin as [|? ? H1 H2]; subst.
  - specialize (IH H2). cbn [map accepted omap list_omap]. rewrite line_read by done. cbn [map]. f_equal. exact IH.
  - destruct (IH H2) as [IH1 IH2]. destruct H1 as [Hi Hu]. destruct Hr as (_ & Hm & Ht & _).
    destruct (cents_read _ Ht) as [Hc Hpos]. cbn [map concat]. split.
    + f_equal; [|exact IH1]. cbn [ns_workedMinutes row_shift read_row cr_clock_in cr_clock_out]. unfold time_of.
      rewrite Hi, Hu. cbn [nullish]. replace (dr_start r + dr_minutes r * 60000 - dr_start r) with (dr_minutes r * 60000) by lia.
      by apply minutes_read.
    + rewrite map_app, IH2. unfold row_tips. cbn [cr_gross_tip read_row]. by rewrite Hc, Hpos.
Qed.

(** C40: what is generated the intake accepts: for a known profile and an end date
    whose days are in the calendar the generator returns, and when the reader reads
    back the instants of the rows, the text normalizes without an error into a
    shift for every row, of the worker and the minutes that were drawn, and a tip
    for every row, of exactly the cents that were drawn; their sum is the total the
    generator announces, and every amount and length is in its range. *)
Theorem generated_csv_reads_back days endDate seed profile unmapped now_ end_ tz :
  noonUtc (nullish endDate (slice_to (toISOString (now_ - 86400000)) 10)) = Some end_ ->
  In profile ["default"; "history"; "live"] ->
  (forall k, Z.of_nat k < safe_days days -> Calendar.in_calendar (end_ - Z.of_nat k * 86400000)) ->
  exists g, generateDemoCsv days endDate seed profile unmapped now_ = Ok g /\ Forall row_ok (g_rows g) /\
    sumZ dr_tipCents (g_rows g) = meta_usdcCents (g_meta g) + meta_payrollCents (g_meta g) /\
    (Forall instants_read (g_rows g) ->
     exists n, normalizeCsv (g_csv g) tz = Ok n /\ nr_errors n = [] /\
       map ns_externalWorkerId (nr_shifts n) = map (fun r => dw_id (dr_worker r)) (g_rows g) /\
       map ns_workedMinutes (nr_shifts n) = map dr_minutes (g_rows g) /\
       map nt_grossAmountUsdCents (nr_tips n) = map (fun r => num_of_Z (dr_tipCents r)) (g_rows g) /\
       length (nr_shifts n) = meta_shiftCount (g_meta g)).
Proof.
  intros He Hp Hc. unfold generateDemoCsv. rewrite He.
  assert (includes ["default"; "history"; "live"] profile = true) as -> by (by apply includes_In). cbn [negb].
  set (st := seed_state _).
  assert (Forall (fun w => In w all_workers) (demo_workers profile unmapped)) as Hw.
  { apply List.Forall_forall. intros w Hw. cbn in Hp.
    destruct Hp as [<-|[<-|[<-|[]]]]; destruct unmapped; vm_compute in Hw |- *; tauto. }
  assert (0 < safe_days days) as Hs by (unfold safe_days; lia).
  destruct (all_rows_ok profile _ end_ (Z.to_nat (safe_days days)) st Hw) as (rows & -> & Hok & Hlen).
  { intros k Hk. apply Hc. lia. }
  cbn [rbind]. eexists. split; [reflexivity|]. cbn [g_rows g_meta g_csv meta_usdcCents meta_payrollCents meta_shiftCount].
  split; [exact Hok|]. split; [symmetry; apply sumZ_split|]. intros Hin.
  destruct (rows_read tz rows Hok Hin) as (Ha & Hrej & Hm & Ht). set (lines := map _ rows) in *.
  assert (lines <> []) as Hne.
  { unfold lines. intros E. apply map_eq_nil in E as ->. cbn in Hlen.
    assert (length (demo_workers profile unmapped) <> 0)%nat by (unfold demo_workers; rewrite length_app, length_map;
      destruct (profile ==? "live"); cbn; lia). nia. }
  destruct (normalizeCsv_partitions (join NEWLINE (join "," CSV_EVIDENCE_HEADERS :: lines) +:+ NEWLINE) tz
              (join "," CSV_EVIDENCE_HEADERS) lines) as (n & En & HS & HT & HE & _).
  - apply csv_lines_join. constructor; [split; [vm_compute; reflexivity|vm_compute; done]|].
    apply List.Forall_forall. intros l Hl. apply in_map_iff in Hl as (r & <- & Hr). rewrite List.Forall_forall in Hok.
    split; [apply join_line, row_fields_csv; auto|]. by unfold row_fields.
  - exact Hne.
  - change (splitCsvLine (join "," CSV_EVIDENCE_HEADERS)) with CSV_EVIDENCE_HEADERS in HS, HT, HE. rewrite Ha in HS, HT.
    exists n. split; [exact En|]. split; [by apply (map_eq_nil fst); rewrite HE|].
    rewrite HS, HT. split_and!; [by rewrite !map_map|exact Hm|exact Ht|by rewrite !length_map].
Qed.
End reads.

(** A schema that reads what [toISOString] prints. *)
Definition iso_schema : RowSchema := {|
  isoDatetime s :=
    let part from n := digits_value (slice_to (slice_from s from) n) in
    (fun midnight => midnight + part 11%nat 2%nat * 3600000 + part 14%nat 2%nat * 60000 + part 17%nat 2%nat * 1000
                     + part 20%nat 3%nat) <$> parseDate (slice_to s 10);
  issueMessage _ _ := "Invalid input"
|}.
#[local] Existing Instance iso_schema.

Definition reads_instants (r : DemoRow) : bool :=
  bool_decide (isoDatetime (toISOString (dr_start r)) = Some (dr_start r)) &&
  bool_decide (isoDatetime (toISOString (dr_start r + dr_minutes r * 60000)) = Some (dr_start r + dr_minutes r * 60000)).

Lemma reads_instants_sound r : reads_instants r = true -> instants_read r.
Proof.
  unfold reads_instants. intros H. apply andb_true_iff in H as [H1 H2].
  split; [exact (bool_decide_eq_true_1 _ H1)|exact (bool_decide_eq_true_1 _ H2)].
Qed.

(** Two days of a rehearsal with a worker nobody has mapped. *)
Definition generated_ok (x : result Generated) : bool :=
  match x with Ok g => forallb reads_instants (g_rows g) && (meta_shiftCount (g_meta g) =? 8)%nat | Err _ => false end.
Lemma rehearsal_ok :
  generated_ok (generateDemoCsv (Some 2) (Some "2026-08-17") "serveproof-demo" "default" true 0) = true.
Proof. vm_compute. reflexivity. Qed.
Lemma rehearsal_rows g :
  generated_ok (Ok g) = true -> Forall instants_read (g_rows g) /\ meta_shiftCount (g_meta g) = 8%nat.
Proof.
  cbn. intros H. apply andb_true_iff in H as [Hr Hc]. split; [|by apply Nat.eqb_eq].
  apply List.Forall_forall. intros r Hin. rewrite forallb_forall in Hr. by apply reads_instants_sound, Hr.
Qed.

Lemma rehearsal_days k : Z.of_nat k < safe_days (Some 2) -> Calendar.in_calendar (1786968000000 - Z.of_nat k * 86400000).
Proof.
  intros Hk. assert (k = 0 \/ k = 1)%nat as [->| ->] by (change (safe_days (Some 2)) with 2 in Hk; lia);
    vm_compute; split; congruence.
Qed.

Lemma generated_csv_reads_back_witness :
  exists g n, generateDemoCsv (Some 2) (Some "2026-08-17") "serveproof-demo" "default" true 0 = Ok g /\
    normalizeCsv (g_csv g) "UTC" = Ok n /\ nr_errors n = [] /\ length (nr_shifts n) = 8%nat /\
    map nt_grossAmountUsdCents (nr_tips n) = map (fun r => num_of_Z (dr_tipCents r)) (g_rows g).
Proof.
  assert (noonUtc "2026-08-17" = Some 1786968000000) as He by (vm_compute; reflexivity).
  destruct (generated_csv_reads_back (Some 2) (Some "2026-08-17") "serveproof-demo" "default" true 0 1786968000000 "UTC"
              He (or_introl eq_refl) rehearsal_days) as (g & Eg & _ & _ & Hn).
  pose proof rehearsal_ok as Hok. rewrite Eg in Hok. destruct (rehearsal_rows g Hok) as [Hr Hc]. destruct (Hn Hr) as (n & En & Hne & _ & _ & Ht & Hl).
  exists g, n. split; [exact Eg|]. split; [exact En|]. split; [exact Hne|]. split; [|exact Ht].
  rewrite Hl. exact Hc.
Defined.
End DemoCsv.
