(* ===== verification/Organizations.v ===== *)
(** * Organizations and venues

    apps/api/src/organizations (service and controller): memberships, venues
    with their default policy, the manager's inbox and worker list, the close of
    a day with the state of the treasury, and the payroll export.  The balances
    of the treasury are answers of the network ([Treasury]); the columns
    [createdAt] of the audit log and [updatedAt] of the entries are not columns
    of the model, so the two instants that only display them are left out. *)

From S2P Require Import Prelude Concurrency Strings Schema Demo Float64 Money Access AllocationEngine Allocations Solana Income Evidence Workers Disclosure.
Import AccessService.

Open Scope Z_scope.

Class Treasury := {
  SERVEPROOF_PROGRAM_ID : option string;
  (** the token account of a venue, derived from program, venue and mint *)
  deriveVenueVault : string -> string -> string -> string;
  (** the base units of a token account, [Err] on any failure or timeout *)
  getTokenAccountBalance : string -> nat -> result Z;
  (** the lamports of a wallet *)
  getBalance : string -> nat -> result Z
}.

Module OrganizationsService.

(* ------------------------------------------------------------------ *)
(** ** Memberships and venues *)

Record OrganizationInput := mkOrganizationInput {
  oi_legalName : string; oi_displayName : string; oi_country : string; oi_timezone : string
}.

Record VenueInput := mkVenueInput {
  vi_organizationId : string; vi_name : string; vi_timezone : string;
  vi_externalIds : option (list (string * string))
}.

(** [roleWeights: { SERVER: 1.0, BUSSER: 0.7, BARTENDER: 1.0 }] *)
Definition default_roleWeights : list (string * number) :=
  [("SERVER", num_of_Z 1); ("BUSSER", num_div (num_of_Z 7) (num_of_Z 10)); ("BARTENDER", num_of_Z 1)].

Definition default_poolInclusion : list (string * bool) :=
  [("CARD_TIP", true); ("QR_TIP", true); ("CASH_TIP", false); ("AUTOMATIC_GRATUITY", false);
   ("SERVICE_CHARGE", false)].

Definition default_policy (id venueId : string) (effectiveFrom : Z) (createdBy : string) : AllocationPolicy :=
  mkAllocationPolicy id venueId 1 PolicyStatus.ACTIVE AllocationType.ROLE_WEIGHTED_HOURS default_roleWeights
    (JArr []) default_poolInclusion ["MANAGER"; "SUPERVISOR"] effectiveFrom None createdBy.

(** An organization with what [listMine] includes. *)
Definition organization_view (w : World) (o : Organization)
    : Organization * list Venue * list (OrganizationMember * option string) :=
  (o, List.filter (fun v => venue_organizationId v ==? organization_id o) (w_venues w),
   map (fun m => (m, user_email <$> List.find (by_id (member_userId m)) (w_users w)))
     (List.filter (fun m => member_organizationId m ==? organization_id o) (w_members w))).

Section membership.
Context `{Platform}.

Definition createOrganization (creatorUserId : string) (input : OrganizationInput)
    : handler (Organization * list OrganizationMember) :=
  transaction (
    let* i := freshId in
    let* o := create (mkOrganization i (oi_legalName input) (oi_displayName input) OrganizationStatus.ACTIVE
                        (oi_country input) (oi_timezone input)) in
    let* j := freshId in
    let* m := create (mkOrganizationMember j i creatorUserId OrgRole.OWNER) in
    Ret (o, [m])).

Definition addMember (organizationId email : string) (role : OrgRole.t) : handler OrganizationMember :=
  let* user := findFirst (fun u => user_email u ==? toLowerCase email) in
  let* user := require user
    (NotFoundException ("No user with email " +:+ email +:+ "; they must log in once first")) in
  let* i := freshId in
  upsert (is_member organizationId (user_id user)) (fun m => m <| member_role := role |>)
    (mkOrganizationMember i organizationId (user_id user) role).

Definition listMine (userId : string) : handler (list (Organization * list Venue * list (OrganizationMember * option string))) :=
  query (fun w => map (organization_view w)
    (List.filter (fun o => existsb (is_member (organization_id o) userId) (w_members w)) (w_organizations w))).

Definition createVenue (creatorUserId : string) (input : VenueInput) : handler Venue :=
  transaction (
    let* i := freshId in
    let* venue := create (mkVenue i (vi_organizationId input) (vi_name input) (vi_timezone input) None None None
                            (nullish (vi_externalIds input) [])) in
    let* j := freshId in
    let* effectiveFrom := newDate in
    do* create (default_policy j (venue_id venue) effectiveFrom creatorUserId) in
    Ret venue).

Definition getVenue (venueId : string) : handler (Venue * list AllocationPolicy) :=
  let* venue := query (fun w =>
    option_map (fun v => (v, orderByDesc policy_version
                              (List.filter (fun p => policy_venueId p ==? venueId) (w_policies w))))
      (List.find (by_id venueId) (w_venues w))) in
  require venue (NotFoundException ("Venue " +:+ venueId +:+ " not found")).

Definition setVenueWallet (venueId payoutSignerWallet : string) : handler Venue :=
  update venueId (fun v => v <| venue_payoutSignerWallet := Some payoutSignerWallet |>).

(** *** The controller *)

Definition post_organization (user : string) (input : OrganizationInput) := createOrganization user input.
Definition get_mine (user : string) := listMine user.

Definition post_member (user organizationId email : string) (role : OrgRole.t) : handler OrganizationMember :=
  do* assertOrgRole user organizationId [OrgRole.OWNER] in
  addMember organizationId email role.

Definition post_venue (user : string) (input : VenueInput) : handler Venue :=
  do* assertOrgRole user (vi_organizationId input) VENUE_MANAGE_ROLES in
  createVenue user input.

Definition get_venue (user venueId : string) : handler (Venue * list AllocationPolicy) :=
  do* assertVenueRole user venueId VENUE_READ_ROLES in
  getVenue venueId.

Definition post_wallet (user venueId payoutSignerWallet : string) : handler Venue :=
  do* assertVenueRole user venueId VENUE_MANAGE_ROLES in
  setVenueWallet venueId payoutSignerWallet.
End membership.

(* ------------------------------------------------------------------ *)
(** ** The inbox *)

Record UnpaidBatch := mkUnpaidBatch {
  ub_id : string; ub_businessDate : string; ub_status : BatchStatus.t; ub_unpaidCount : nat
}.
#[export] Instance eta_UnpaidBatch : Eta UnpaidBatch := fun r => mkUnpaidBatch
  (ub_id r) (ub_businessDate r) (ub_status r) (ub_unpaidCount r).

Record ActionItems := mkActionItems {
  ai_unmappedWorkerCount : nat;
  ai_uncalculatedDates : list string;
  ai_awaitingApproval : list (string * string * BatchStatus.t);
  ai_unpaidAllocationCount : nat;
  ai_unpaidTotalUsdCents : Z;
  ai_unpaidBatches : list UnpaidBatch
}.

(** The shifts of a venue nobody is mapped to, one per identity. *)
Definition unmapped_identities (venueId : string) (w : World) : list (string * string) :=
  distinct (map (fun s => (shift_provider s, shift_externalWorkerId s))
    (List.filter (fun s => (shift_venueId s ==? venueId) && (shift_mappedWorkerId s ==? None)) (w_shifts w))).

(** The unpaid rows of the approved batches, with their batch. *)
Definition unpaid_rows (venueId : string) (w : World) : list (WorkerAllocation * AllocationBatch) :=
  omap (fun a =>
    match List.find (by_id (alloc_batchId a)) (w_batches w) with
    | Some b => if (alloc_payoutStatus a ==? AllocPayoutStatus.UNPAID) && (batch_venueId b ==? venueId)
                   && includes [BatchStatus.PAYABLE; BatchStatus.PARTIALLY_PAID] (batch_status b)
                then Some (a, b) else None
    | None => None
    end) (w_allocations w).

Definition count_unpaid (m : list (string * UnpaidBatch)) (x : WorkerAllocation * AllocationBatch)
    : list (string * UnpaidBatch) :=
  let b := x.2 in
  let entry := nullish (map_get m (batch_id b)) (mkUnpaidBatch (batch_id b) (batch_businessDate b) (batch_status b) 0) in
  map_set m (batch_id b) (entry <| ub_unpaidCount ::= S |>).

(* ------------------------------------------------------------------ *)
(** ** The close of a day *)

Record RailSummary := mkRailSummary {
  rs_workerCount : nat; rs_totalUsdCents : Z; rs_remainingUsdCents : Z
}.

(** [allocation.payoutRail ?? allocation.plannedPayoutRail] *)
Definition railFor (a : WorkerAllocation) : option PayoutRail.t :=
  nullish2 (alloc_payoutRail a) (alloc_plannedPayoutRail a).

Definition on_rail (rails : list PayoutRail.t) (a : WorkerAllocation) : bool :=
  match railFor a with Some r => includes rails r | None => false end.

Definition summarize (rails : list PayoutRail.t) (allocations : list WorkerAllocation) : RailSummary :=
  let selected := List.filter (on_rail rails) allocations in
  mkRailSummary (length selected) (sumZ alloc_netAllocatedUsdCents selected)
    (sumZ alloc_netAllocatedUsdCents
       (List.filter (fun a => alloc_payoutStatus a !=? AllocPayoutStatus.PAID) selected)).

Definition CASH_RAILS : list PayoutRail.t := [PayoutRail.CASH_RETAINED; PayoutRail.CASH_DRAWER].

Definition is_held (a : WorkerAllocation) : bool := negb (truthy (alloc_workerId a)).
Definition is_unassigned (a : WorkerAllocation) : bool :=
  truthy (alloc_workerId a) && (railFor a ==? None).

Inductive TreasuryStatus := AVAILABLE | UNAVAILABLE | MISCONFIGURED.

Record TreasuryView := mkTreasury {
  tv_status : TreasuryStatus;
  tv_checkedAt : string;
  tv_vaultAddress : option string;
  tv_vaultBalanceUsdCents : option Z;
  tv_requiredUsdCents : Z;
  tv_differenceUsdCents : option Z;
  tv_signerWallet : option string;
  tv_signerSolLamports : option Z;
  tv_error : option string
}.

Record SettlementClose := mkClose {
  sc_businessDate : string;
  sc_batch : option (string * BatchStatus.t);
  sc_cash : RailSummary;
  sc_observedUsdCents : Z;
  sc_retainedUsdCents : Z;
  sc_drawerUsdCents : Z;
  sc_payroll : RailSummary;
  sc_usdc : RailSummary;
  sc_missingWalletCount : nat;
  sc_unassigned : nat * Z;
  sc_held : nat * Z;
  sc_treasury : TreasuryView
}.

(** The batch of the day with the highest policy version, and its rows with
    whether their worker's default wallet is active. *)
Definition day_batch (venueId businessDate : string) (w : World)
    : option (AllocationBatch * list (WorkerAllocation * bool)) :=
  (fun b => (b, map (fun a => (a, AllocationsService.has_active_wallet w a))
                 (List.filter (AllocationsService.of_batch (batch_id b)) (w_allocations w))))
  <$> head (orderByDesc batch_policyVersion
              (List.filter (fun b => (batch_venueId b ==? venueId) && (batch_businessDate b ==? businessDate))
                 (w_batches w))).

Definition cash_tips (venueId businessDate : string) (w : World) : list TipEvidence :=
  List.filter (fun t => (tip_venueId t ==? venueId) && (tip_businessDate t ==? businessDate)
                        && (tip_tipType t ==? TipType.CASH_TIP)
                        && (tip_paymentStatus t ==? PaymentStatus.COMPLETED)) (w_tips w).

Definition cash_by (rail : PayoutRail.t) (tips : list TipEvidence) : Z :=
  sumZ tip_grossAmountUsdCents (List.filter (fun t => tip_sourcePayoutRail t ==? Some rail) tips).

Section treasury.
Context `{Platform} `{Chain} `{Treasury}.

(** The [try] block: an address that does not parse and a balance that does not
    arrive are thrown. *)
Definition treasury_balances (venue : Venue) (checkedAt : string) (required : Z) : handler TreasuryView :=
  do* throw_if (negb (truthy SERVEPROOF_PROGRAM_ID) || negb (truthy usdcMint))
    (JsError "Solana program or tUSDC mint is not configured") in
  let* program := lift_result (Solana.parsePubkey (nullish SERVEPROOF_PROGRAM_ID "")) in
  let* mint := lift_result (Solana.parsePubkey (nullish usdcMint "")) in
  let expectedVault := deriveVenueVault program (venue_id venue) mint in
  if truthy (venue_vaultTokenAccount venue) && (venue_vaultTokenAccount venue !=? Some expectedVault)
  then Ret (mkTreasury MISCONFIGURED checkedAt (venue_vaultTokenAccount venue) None required None
              (venue_payoutSignerWallet venue) None
              (Some "Stored vault does not match the venue PDA-derived token account"))
  else
    let* balance := ask (getTokenAccountBalance expectedVault) in
    let* signerLamports :=
      (if truthy (venue_payoutSignerWallet venue)
       then let* signer := lift_result (Solana.parsePubkey (nullish (venue_payoutSignerWallet venue) "")) in
            let* lamports := ask (getBalance signer) in
            let* lamports := lift_result lamports in
            Ret (Some lamports)
       else Ret None) in
    let* balance := lift_result balance in
    let vaultBalanceUsdCents := Z.quot balance 10000 in
    Ret (mkTreasury AVAILABLE checkedAt (Some expectedVault) (Some vaultBalanceUsdCents) required
           (Some (vaultBalanceUsdCents - required)) (venue_payoutSignerWallet venue) signerLamports None).

Definition treasury (venue : Venue) (checkedAt : string) (required : Z) : handler TreasuryView :=
  catch (treasury_balances venue checkedAt required)
    (fun error => Ret (mkTreasury UNAVAILABLE checkedAt (venue_vaultTokenAccount venue) None required None
                         (venue_payoutSignerWallet venue) None (Some (exn_message error)))).

Definition settlementClose (venueId businessDate : string) : handler SettlementClose :=
  let* venue := findUnique (R:=Venue) venueId in
  let* venue := require venue (NotFoundException ("Venue " +:+ venueId +:+ " not found")) in
  let* batch := query (day_batch venueId businessDate) in
  let* cashTips := query (cash_tips venueId businessDate) in
  let rows := match batch with Some (_, l) => l | None => [] end in
  let allocations := map fst rows in
  let usdc := summarize [PayoutRail.USDC] allocations in
  let heldAllocations := List.filter is_held allocations in
  let unassigned := List.filter is_unassigned allocations in
  let* t := newDate in
  let* treasury := treasury venue (toISOString t) (rs_remainingUsdCents usdc) in
  Ret (mkClose businessDate ((fun x => (batch_id x.1, batch_status x.1)) <$> batch)
         (summarize CASH_RAILS allocations)
         (sumZ tip_grossAmountUsdCents cashTips) (cash_by PayoutRail.CASH_RETAINED cashTips)
         (cash_by PayoutRail.CASH_DRAWER cashTips)
         (summarize [PayoutRail.PAYROLL] allocations) usdc
         (length (List.filter (fun x : WorkerAllocation * bool =>
            (alloc_workerId x.1 !=? None) && (railFor x.1 ==? Some PayoutRail.USDC) && negb x.2) rows))
         (length unassigned, sumZ alloc_netAllocatedUsdCents unassigned)
         (length heldAllocations, sumZ alloc_netAllocatedUsdCents heldAllocations) treasury).
End treasury.

Section inbox.
Context `{Platform}.

Definition actionItems (venueId : string) : handler ActionItems :=
  let* unmapped := query (unmapped_identities venueId) in
  let* batches := findMany (fun b => batch_venueId b ==? venueId) in
  let* evidenceDates := query (fun w => distinct (map shift_businessDate
    (List.filter (fun s => shift_venueId s ==? venueId) (w_shifts w)))) in
  let* unpaidAllocations := query (unpaid_rows venueId) in
  let batchDates := map batch_businessDate batches in
  let uncalculatedDates := rev (stable_sort str_lt
    (List.filter (fun d => negb (includes batchDates d)) evidenceDates)) in
  let awaitingApproval := stable_sort (fun a b => localeLt (batch_businessDate b) (batch_businessDate a))
    (List.filter (fun b => includes [BatchStatus.CALCULATED; BatchStatus.REVIEW_REQUIRED] (batch_status b)) batches) in
  let unpaidBatches := map snd (fold_left count_unpaid unpaidAllocations []) in
  Ret (mkActionItems (length unmapped) uncalculatedDates
         (map (fun b => (batch_id b, batch_businessDate b, batch_status b)) awaitingApproval)
         (length unpaidAllocations) (sumZ (fun x => alloc_netAllocatedUsdCents x.1) unpaidAllocations)
         (stable_sort (fun a b => localeLt (ub_businessDate b) (ub_businessDate a)) unpaidBatches)).

Definition get_actionItems (user venueId : string) : handler ActionItems :=
  do* assertVenueRole user venueId VENUE_READ_ROLES in
  actionItems venueId.
End inbox.

(* ------------------------------------------------------------------ *)
(** ** The payroll export *)

(** A value between double quotes, its own double quotes doubled. *)
Definition escape (value : string) : string := EvidenceService.quoted value.

(** An allocation with the columns its line shows: the worker's name and
    e-mail and their first account at the venue. *)
Record ExportRow := mkExportRow {
  er_allocation : WorkerAllocation;
  er_displayName : option string;
  er_email : option string;
  er_externalWorkerId : option string;
  er_allocationHash : option string
}.

Definition export_row (venueId : string) (w : World) (a : WorkerAllocation) : ExportRow :=
  let worker := IncomeService.included (w_workers w) (alloc_workerId a) in
  let user := worker ≫= fun x => List.find (by_id (worker_userId x)) (w_users w) in
  let account := worker ≫= fun x =>
    List.find (fun c => (account_workerId c ==? worker_id x) && (account_venueId c ==? venueId)) (w_accounts w) in
  mkExportRow a (user_displayName <$> user) (user_email <$> user) (account_externalWorkerId <$> account)
    (List.find (by_id (alloc_batchId a)) (w_batches w) ≫= batch_allocationHash).

(** [orderBy: { workerId: "asc" }]: nulls last. *)
Definition worker_before (a b : ExportRow) : bool :=
  match alloc_workerId (er_allocation a), alloc_workerId (er_allocation b) with
  | Some x, Some y => str_lt x y
  | Some _, None => true
  | None, _ => false
  end.

Definition export_rows (venueId batchId : string) (w : World) : list ExportRow :=
  stable_sort worker_before
    (map (export_row venueId w) (List.filter (AllocationsService.of_batch batchId) (w_allocations w))).

Definition export_header : list string :=
  ["business_date"; "worker_name"; "worker_email"; "external_worker_id"; "amount_usd"; "allocation_id";
   "allocation_hash"].

Definition export_fields (businessDate : string) (r : ExportRow) : list string :=
  let a := er_allocation r in
  [businessDate; nullish (er_displayName r) ""; nullish (er_email r) "";
   nullish (nullish2 (er_externalWorkerId r) (alloc_externalWorkerId a)) "";
   DisclosureService.toFixed2 (alloc_netAllocatedUsdCents a); alloc_id a; nullish (er_allocationHash r) ""].

Definition csv_line (row : list string) : string := join "," (map escape row).

Record PayrollExport := mkExport {
  pe_filename : string; pe_csv : string; pe_recordCount : nat
}.

Section export.
Context `{Platform} `{Chain} `{Treasury}.

Definition payrollExport (venueId businessDate actorUserId : string) : handler PayrollExport :=
  let* close := settlementClose venueId businessDate in
  let* ' (batchId, _) := require (sc_batch close)
    (NotFoundException ("No allocation batch for " +:+ businessDate)) in
  let* allocations := query (export_rows venueId batchId) in
  let payrollAllocations := List.filter (fun r => railFor (er_allocation r) ==? Some PayoutRail.PAYROLL) allocations in
  let rows := map (export_fields businessDate) payrollAllocations in
  let csv := join (String "010" "") (map csv_line (export_header :: rows)) in
  do* audit None (Some venueId) (Some actorUserId) "PAYROLL_CLOSE_EXPORTED" "AllocationBatch" (Some batchId)
        (JObj [("businessDate", JStr businessDate);
               ("recordCount", JInt (Z.of_nat (length payrollAllocations)));
               ("totalUsdCents", JInt (rs_totalUsdCents (sc_payroll close)))]) in
  Ret (mkExport ("serveproof-payroll-" +:+ businessDate +:+ ".csv") csv (length payrollAllocations)).

Definition get_settlementClose (user venueId businessDate : string) : handler SettlementClose :=
  do* assertVenueRole user venueId VENUE_READ_ROLES in
  settlementClose venueId businessDate.

Definition get_payrollExport (user venueId businessDate : string) : handler PayrollExport :=
  do* assertVenueRole user venueId VENUE_MANAGE_ROLES in
  payrollExport venueId businessDate user.
End export.

(* ------------------------------------------------------------------ *)
(** ** The worker list *)

(** A person who acted: display name and masked e-mail. *)
Definition Actor : Type := string * option string.

Record Member := mkMember {
  mb_key : string;
  mb_workerId : option string;
  mb_displayName : string;
  mb_emailMasked : option string;
  mb_connectionStage : string;
  mb_externalAccounts : list (string * string * string * option Z * option Actor);
  mb_defaultWalletMasked : option string;
  mb_latestAllocation : option (string * Z * AllocPayoutStatus.t * option Z * option Actor * option Z * option Actor);
  mb_latestPayout : option (PayoutRail.t * PayoutStatus.t * option string * option Actor * option string * option Z);
  mb_incomeEntryCount : nat
}.

Record WorkerConnections := mkWorkerConnections {
  wc_venue : string * string * option string;
  wc_latestIncomeRebuild : option (option Actor * string);
  wc_members : list Member
}.

(** An account with its worker, the worker's user and default wallet (foreign
    keys, so the worker and the user exist). *)
Record AccountData := mkAccountData {
  ac_account : ExternalWorkerAccount;
  ac_user : User;
  ac_defaultWallet : option WorkerWallet
}.

Definition account_data (venueId : string) (w : World) : list AccountData :=
  omap (fun a =>
    worker ← List.find (by_id (account_workerId a)) (w_workers w);
    user ← List.find (by_id (worker_userId worker)) (w_users w);
    Some (mkAccountData a user (IncomeService.included (w_wallets w) (worker_defaultWalletId worker))))
  (List.filter (fun a => (account_venueId a ==? venueId)
                         && (account_mappingStatus a !=? MappingStatus.REJECTED)) (w_accounts w)).

(** The last [INCOME_ENTRIES_REBUILT] of the venue. *)
Definition latest_rebuild (venueId : string) (w : World) : option AuditLog :=
  last (List.filter (fun l => (audit_venueId l ==? Some venueId)
                              && (audit_action l ==? "INCOME_ENTRIES_REBUILT")) (w_auditLogs w)).

(** [detail.source ?? "SYSTEM"] *)
Definition rebuild_source (detail : json) : string :=
  match detail with
  | JObj l => match map_get l "source" with Some (JStr s) => s | _ => "SYSTEM" end
  | _ => "SYSTEM"
  end.

(** The allocations of the workers at the venue, with their batch. *)
Definition worker_rows (venueId : string) (workerIds : list string) (w : World)
    : list (WorkerAllocation * AllocationBatch) :=
  omap (fun a =>
    i ← alloc_workerId a;
    b ← List.find (by_id (alloc_batchId a)) (w_batches w);
    if includes workerIds i && (batch_venueId b ==? venueId) then Some (a, b) else None) (w_allocations w).

Definition actor_ids (accounts : list AccountData) (allocations : list (WorkerAllocation * AllocationBatch))
    (payouts : list Payout) (rebuild : option AuditLog) : list string :=
  distinct (List.filter (fun i => i !=? "") (omap id
    (concat (map (fun x => [batch_calculatedBy x.2; batch_approvedBy x.2]) allocations)
     ++ concat (map (fun p => [payout_initiatedByUserId p; payout_submittedByUserId p]) payouts)
     ++ map (fun a => account_verifiedBy (ac_account a)) accounts ++ [rebuild ≫= audit_actorUserId]))).

Definition actor (actors : list User) (id : option string) : option Actor :=
  match id with
  | Some i => if i ==? "" then None
              else Some match List.find (by_id i) actors with
                        | Some u => (user_displayName u, Some (Privacy.maskEmail (user_email u)))
                        | None => ("Unknown user", None)
                        end
  | None => None
  end.

Section members.
Context `{Platform}.

(** [b.businessDate.localeCompare(a.businessDate) || calculatedAt(b) - calculatedAt(a)] *)
Definition later_batch (x y : WorkerAllocation * AllocationBatch) : bool :=
  let d z := batch_businessDate z.2 in
  let t z := nullish (batch_calculatedAt z.2) 0 in
  localeLt (d y) (d x) || (negb (localeLt (d x) (d y)) && (t y <? t x)).

Definition linked_member (actors : list User) (accounts : list AccountData)
    (allocations : list (WorkerAllocation * AllocationBatch)) (payouts : list Payout)
    (entries : list IncomeEntry) (workerId : string) : option Member :=
  let mine := List.filter (fun a => account_workerId (ac_account a) ==? workerId) accounts in
  profile ← head mine;
  let latestAllocation := head (stable_sort later_batch
    (List.filter (fun x => alloc_workerId x.1 ==? Some workerId) allocations)) in
  let latestPayout := List.find (fun p => payout_workerId p ==? workerId) payouts in
  let confirmed := existsb (fun a => account_mappingStatus (ac_account a) ==? MappingStatus.CONFIRMED) mine in
  let walletReady := match ac_defaultWallet profile with
                     | Some x => wallet_status x ==? WalletStatus.ACTIVE
                     | None => false
                     end in
  Some (mkMember workerId (Some workerId) (user_displayName (ac_user profile))
    (Some (Privacy.maskEmail (user_email (ac_user profile))))
    (WorkersService.connection_stage confirmed walletReady)
    (map (fun a => let c := ac_account a in
            (account_provider c, account_externalWorkerId c, MappingStatus.name (account_mappingStatus c),
             account_verifiedAt c, actor actors (account_verifiedBy c))) mine)
    (Privacy.maskWallet (wallet_address <$> ac_defaultWallet profile))
    ((fun x => (batch_businessDate x.2, alloc_netAllocatedUsdCents x.1, alloc_payoutStatus x.1,
                batch_calculatedAt x.2, actor actors (batch_calculatedBy x.2), batch_approvedAt x.2,
                actor actors (batch_approvedBy x.2))) <$> latestAllocation)
    ((fun p => (payout_rail p, payout_status p, Privacy.maskWallet (payout_signerWallet p),
                actor actors (payout_submittedByUserId p), payout_txSignature p, payout_settledAt p)) <$> latestPayout)
    (length (List.filter (fun e => entry_workerId e ==? workerId) entries))).

(** An identity of the evidence that has no account. *)
Definition external_member (identity : string * string) : Member :=
  mkMember ("external:" +:+ identity.1 +:+ ":" +:+ identity.2) None identity.2 None "EXTERNAL_ONLY"
    [(identity.1, identity.2, "UNMAPPED", None, None)] None None None 0.

Definition workerConnections (venueId : string) : handler WorkerConnections :=
  let* venue := findUnique (R:=Venue) venueId in
  let* venue := require venue (NotFoundException ("Venue " +:+ venueId +:+ " not found")) in
  let* accounts := query (account_data venueId) in
  let* unmappedShifts := query (unmapped_identities venueId) in
  let* latestRebuild := query (latest_rebuild venueId) in
  let workerIds := distinct (map (fun a => account_workerId (ac_account a)) accounts) in
  let* allocations := query (worker_rows venueId workerIds) in
  let* payouts := query (fun w => rev (List.filter (fun p => includes workerIds (payout_workerId p)
                                                        && (payout_venueId p ==? venueId)) (w_payouts w))) in
  let* entries := findMany (fun e => includes workerIds (entry_workerId e) && (entry_venueId e ==? venueId)
                                     && (entry_effectiveStatus e ==? EffectiveStatus.ACTIVE)) in
  let* actors := findMany (fun u => includes (actor_ids accounts allocations payouts latestRebuild) (user_id u)) in
  let mappedKeys := map (fun a => account_provider (ac_account a) +:+ ":" +:+ account_externalWorkerId (ac_account a))
                      accounts in
  Ret (mkWorkerConnections
    (venue_id venue, venue_name venue, Privacy.maskWallet (venue_payoutSignerWallet venue))
    ((fun r => (actor actors (audit_actorUserId r), rebuild_source (audit_detail r))) <$> latestRebuild)
    (omap (linked_member actors accounts allocations payouts entries) workerIds
     ++ map external_member
          (List.filter (fun x => negb (includes mappedKeys (x.1 +:+ ":" +:+ x.2))) unmappedShifts))).

Definition get_workerConnections (user venueId : string) : handler WorkerConnections :=
  do* assertVenueRole user venueId VENUE_READ_ROLES in
  workerConnections venueId.
End members.

(* ------------------------------------------------------------------ *)
(** ** What the operations promise *)

Section proofs.
Context `{Platform} `{Chain} `{Treasury}.

(** Paid through a provider or a bank: in no column of the close. *)
Definition elsewhere (a : WorkerAllocation) : bool :=
  on_rail [PayoutRail.PAYOUT_PROVIDER; PayoutRail.BANK_REFERENCE] a.

Lemma close_columns (l : list WorkerAllocation) :
  (forall a, In a l -> is_held a = true -> railFor a = None) ->
  sumZ alloc_netAllocatedUsdCents l =
  rs_totalUsdCents (summarize CASH_RAILS l) + rs_totalUsdCents (summarize [PayoutRail.PAYROLL] l)
  + rs_totalUsdCents (summarize [PayoutRail.USDC] l)
  + sumZ alloc_netAllocatedUsdCents (List.filter is_unassigned l)
  + sumZ alloc_netAllocatedUsdCents (List.filter is_held l)
  + sumZ alloc_netAllocatedUsdCents (List.filter elsewhere l).
Proof.
  cbn [summarize rs_totalUsdCents]. induction l as [|a l IH]; intros Hh; [done|].
  specialize (IH (fun x Hx => Hh x (or_intror Hx))). pose proof (Hh a (or_introl eq_refl)) as Ha.
  cbn [List.filter sumZ].
  assert (forall rails, on_rail rails a = match railFor a with Some r => includes rails r | None => false end) as Hr by done.
  assert (is_unassigned a = truthy (alloc_workerId a) && (railFor a ==? None)) as -> by done.
  assert (elsewhere a = on_rail [PayoutRail.PAYOUT_PROVIDER; PayoutRail.BANK_REFERENCE] a) as -> by done.
  assert (is_held a = negb (truthy (alloc_workerId a))) as Eh by done. rewrite Eh in *. rewrite !Hr.
  destruct (truthy (alloc_workerId a)); cbn [negb andb].
  - destruct (railFor a) as [[]|];
      repeat match goal with |- context [if ?c then _ else _] =>
        lazymatch c with true => fail | false => fail | _ => let b := eval vm_compute in c in change c with b end end;
      cbn [sumZ]; lia.
  - rewrite (Ha eq_refl). cbn [sumZ]. lia.
Qed.

Lemma balances_required venue checkedAt required w w' t :
  run (treasury_balances venue checkedAt required) w = (w', Ok t) -> tv_requiredUsdCents t = required.
Proof.
  unfold treasury_balances. wexec. destruct (_ || _); [done|].
  destruct (Solana.parsePubkey (nullish SERVEPROOF_PROGRAM_ID "")) as [program|]; [|done]. cbn [lift_result]. wexec.
  destruct (Solana.parsePubkey (nullish usdcMint "")) as [mint|]; [|done]. cbn [lift_result]. wexec.
  destruct (_ && _); [by intros [= _ <-]|]. wexec. destruct (truthy (venue_payoutSignerWallet venue)); wexec.
  - destruct (Solana.parsePubkey _) as [signer|]; [|done]. cbn [lift_result]. wexec.
    destruct (getBalance _ _); [|done]. cbn [lift_result]. wexec.
    destruct (getTokenAccountBalance _ _); [|done]. by intros [= _ <-].
  - destruct (getTokenAccountBalance _ _); [|done]. by intros [= _ <-].
Qed.

Lemma treasury_total venue checkedAt required w :
  exists w' t, run (treasury venue checkedAt required) w = (w', Ok t) /\ tv_requiredUsdCents t = required.
Proof.
  unfold treasury. rewrite run_catch.
  destruct (run (treasury_balances venue checkedAt required) w) as [w' [t|e]] eqn:E.
  - exists w', t. split; [done|]. by eapply balances_required.
  - eexists _, _. split; reflexivity.
Qed.

Lemma treasury_frame venue checkedAt required :
  guar (same_on (fun w : World => w <| w_tick := 0%nat |>)) (treasury venue checkedAt required).
Proof. unfold treasury, treasury_balances. guar_at (same_on (fun w : World => w <| w_tick := 0%nat |>)). Qed.

(** The close of a day always answers for an existing venue, whatever the
    network answers, and writes nothing.  Its columns (cash, payroll, USDC,
    unassigned, held), with the rows routed to a provider or a bank, add up to
    the net amount of the batch to the cent, and the treasury is asked for
    exactly what is left to pay in USDC. *)
Theorem settlementClose_adds_up venueId businessDate venue w :
  List.find (by_id venueId) (w_venues w) = Some venue ->
  let rows := match day_batch venueId businessDate w with Some (_, l) => map fst l | None => [] end in
  (forall a, In a rows -> is_held a = true -> railFor a = None) ->
  exists w' c, run (settlementClose venueId businessDate) w = (w', Ok c) /\
    (w' <| w_tick := 0%nat |>) = (w <| w_tick := 0%nat |>) /\
    sc_batch c = (fun x => (batch_id x.1, batch_status x.1)) <$> day_batch venueId businessDate w /\
    sumZ alloc_netAllocatedUsdCents rows =
      rs_totalUsdCents (sc_cash c) + rs_totalUsdCents (sc_payroll c) + rs_totalUsdCents (sc_usdc c)
      + (sc_unassigned c).2 + (sc_held c).2 + sumZ alloc_netAllocatedUsdCents (List.filter elsewhere rows) /\
    tv_requiredUsdCents (sc_treasury c) = rs_remainingUsdCents (sc_usdc c).
Proof.
  intros Ev rows Hh. unfold settlementClose. wexec. rewrite Ev. wexec.
  assert (rows = map fst match day_batch venueId businessDate w with Some (_, l) => l | None => [] end) as Er
    by (unfold rows; by destruct (day_batch venueId businessDate w) as [[b l]|]).
  rewrite <- Er.
  set (required := rs_remainingUsdCents _). set (w1 := w <| w_tick ::= S |>).
  match goal with |- context [run (treasury venue ?t required) w1] =>
    pose proof (guar_run _ _ w1 (treasury_frame venue t required)) as Hf;
    destruct (treasury_total venue t required w1) as (w2 & tr & E & Hr) end.
  rewrite E in Hf |- *.
  wexec. eexists _, _. split; [reflexivity|]. split; [exact Hf|]. split; [done|].
  cbn [sc_cash sc_payroll sc_usdc sc_unassigned sc_held sc_treasury snd]. split; [by apply close_columns|exact Hr].
Qed.

Lemma split_csv_line row : row <> [] -> EvidenceService.splitCsvLine (csv_line row) = row.
Proof.
  intros Hr. apply EvidenceService.splitCsvLine_reads; [|done]. clear. induction row; constructor; [by left|done].
Qed.

(** A field without a line break. *)
Definition single_line (f : string) : Prop := all_chars (fun c => negb (Ascii.eqb c "010")) f = true.
#[export] Instance single_line_dec f : Decision (single_line f).
Proof. unfold single_line. apply _. Defined.

Lemma escape_single_line f : single_line f -> single_line (EvidenceService.escape f).
Proof.
  unfold single_line. induction f as [|c f IH]; [done|]. cbn [all_chars EvidenceService.escape].
  intros [Hc Hf]%andb_true_iff. destruct (Ascii.eqb_spec c EvidenceService.QUOTE) as [->|]; cbn [all_chars];
    by rewrite ?Hc, (IH Hf).
Qed.

Lemma csv_line_single_line row : Forall single_line row -> single_line (csv_line row).
Proof.
  unfold single_line, csv_line. induction 1 as [|f row Hf Hrow IH]; [done|]. cbn [map].
  assert (all_chars (fun c => negb (Ascii.eqb c "010")) (escape f) = true) as He.
  { unfold escape, EvidenceService.quoted. cbn [all_chars]. rewrite all_chars_app, (escape_single_line f Hf). done. }
  destruct Hrow as [|g row Hg Hrow]; [exact He|]. cbn [map] in *.
  change (join "," (escape f :: escape g :: map escape row)) with (escape f +:+ "," +:+ join "," (escape g :: map escape row)).
  by rewrite !all_chars_app, He, IH.
Qed.

(** A line begins and ends with a double quote, so that neither the carriage
    return of a separator nor white space is cut off. *)
Lemma csv_line_quotes f row :
  exists m, csv_line (f :: row) = String EvidenceService.QUOTE (m +:+ String EvidenceService.QUOTE "").
Proof.
  revert f. induction row as [|g row IH]; intros f; [by eexists|]. destruct (IH g) as [m Hm].
  exists (EvidenceService.escape f +:+ String EvidenceService.QUOTE ("," +:+ String EvidenceService.QUOTE m)).
  change (csv_line (f :: g :: row)) with (escape f +:+ "," +:+ csv_line (g :: row)). rewrite Hm.
  unfold escape, EvidenceService.quoted. cbn [String.append]. by rewrite !str_app_assoc.
Qed.

Lemma trim_end_quote m : trim_end (m +:+ String EvidenceService.QUOTE "") = m +:+ String EvidenceService.QUOTE "".
Proof. induction m as [|c m IH]; [done|]. cbn [String.append trim_end]. rewrite IH. by destruct m. Qed.

Lemma drop_cr_quote m :
  EvidenceService.drop_cr (m +:+ String EvidenceService.QUOTE "") = m +:+ String EvidenceService.QUOTE "".
Proof.
  induction m as [|c m IH]; [done|]. cbn [String.append EvidenceService.drop_cr]. rewrite IH. by destruct m.
Qed.

(** The reader of the intake splits a text of such lines into them. *)
Lemma csv_lines_export rows :
  Forall (fun row => row <> []) rows -> Forall (Forall single_line) rows -> rows <> [] ->
  EvidenceService.csv_lines (join (String "010" "") (map csv_line rows)) = map csv_line rows.
Proof.
  intros Hne Hs Hr. unfold EvidenceService.csv_lines. rewrite split_join; [| |by destruct rows].
  2: { apply Forall_fmap. eapply Forall_impl; [exact Hs|]. intros row. apply csv_line_single_line. }
  assert (EvidenceService.split_lines (map csv_line rows) = map csv_line rows) as ->.
  { clear Hs Hr. induction Hne as [|row rows Hn _ IH]; [done|]. destruct rows as [|row2 rows]; [done|].
    change (EvidenceService.split_lines (map csv_line (row :: row2 :: rows)))
      with (EvidenceService.drop_cr (csv_line row) :: EvidenceService.split_lines (map csv_line (row2 :: rows))).
    rewrite IH. destruct row as [|f row]; [done|]. destruct (csv_line_quotes f row) as [m Hm]. cbn [map].
    rewrite Hm. pose proof (drop_cr_quote (String EvidenceService.QUOTE m)) as Hd. cbn [String.append] in Hd. by rewrite Hd. }
  clear Hs Hr. induction Hne as [|row rows Hn _ IH]; [done|]. cbn [map List.filter].
  destruct row as [|f row]; [done|]. destruct (csv_line_quotes f row) as [m ->].
  pose proof (trim_end_quote (String EvidenceService.QUOTE m)) as Ht. cbn [String.append] in Ht.
  assert (trim (String EvidenceService.QUOTE (m +:+ String EvidenceService.QUOTE ""))
          = String EvidenceService.QUOTE (m +:+ String EvidenceService.QUOTE "")) as -> by exact Ht.
  by rewrite IH.
Qed.

Lemma day_batch_rows venueId businessDate w b l :
  day_batch venueId businessDate w = Some (b, l) ->
  map fst l = List.filter (AllocationsService.of_batch (batch_id b)) (w_allocations w).
Proof.
  unfold day_batch. destruct (head _) as [b'|]; [|done]. cbn. intros [= <- <-].
  rewrite map_map. apply map_id.
Qed.

Lemma close_summary venueId businessDate w w' c :
  run (settlementClose venueId businessDate) w = (w', Ok c) ->
  (w' <| w_tick := 0%nat |>) = (w <| w_tick := 0%nat |>) /\
  sc_batch c = (fun x => (batch_id x.1, batch_status x.1)) <$> day_batch venueId businessDate w /\
  sc_payroll c = summarize [PayoutRail.PAYROLL]
    match day_batch venueId businessDate w with Some (_, l) => map fst l | None => [] end.
Proof.
  intros E. assert (guar (same_on (fun w : World => w <| w_tick := 0%nat |>)) (settlementClose venueId businessDate)) as Hg.
  { unfold settlementClose. repeat first [apply treasury_frame | progress guar_at (same_on (fun w : World => w <| w_tick := 0%nat |>))]. }
  pose proof (guar_run _ _ w Hg) as Hf. rewrite E in Hf. split; [exact Hf|]. clear Hf Hg. revert E.
  unfold settlementClose. wexec. destruct (List.find _ (w_venues w)) as [venue|]; wexec; [|done].
  match goal with |- context [run ?p ?u] => destruct (run p u) as [w2 [tr|e]] end; wexec; [|done].
  intros [= _ <-]. cbn [sc_batch sc_payroll]. split; [done|]. by destruct (day_batch venueId businessDate w) as [[b l]|].
Qed.

Lemma sumZ_export_rows venueId batchId w :
  sumZ (fun r => alloc_netAllocatedUsdCents (er_allocation r))
    (List.filter (fun r => railFor (er_allocation r) ==? Some PayoutRail.PAYROLL) (export_rows venueId batchId w))
  = rs_totalUsdCents (summarize [PayoutRail.PAYROLL]
      (List.filter (AllocationsService.of_batch batchId) (w_allocations w))).
Proof.
  unfold export_rows. cbn [summarize rs_totalUsdCents].
  set (l := List.filter (AllocationsService.of_batch batchId) _). clearbody l.
  assert (forall l1 l2 : list ExportRow, l1 ≡ₚ l2 ->
    List.filter (fun r => railFor (er_allocation r) ==? Some PayoutRail.PAYROLL) l1
    ≡ₚ List.filter (fun r => railFor (er_allocation r) ==? Some PayoutRail.PAYROLL) l2) as Hp.
  { induction 1; cbn; repeat case_match; eauto using Permutation. }
  rewrite (sumZ_Permutation _ _ _ (Hp _ _ (stable_sort_Permutation _ _))). clear Hp.
  induction l as [|a l IH]; [done|]. cbn [map List.filter er_allocation export_row]. unfold on_rail at 1.
  assert ((railFor a ==? Some PayoutRail.PAYROLL)
          = match railFor a with Some r => includes [PayoutRail.PAYROLL] r | None => false end) as ->
    by (destruct (railFor a) as [[]|]; vm_compute; done).
  destruct (match railFor a with Some _ => _ | None => _ end); cbn [sumZ er_allocation export_row]; lia.
Qed.

(** C31: the payroll export of a day has one line per payroll row of the day's
    batch, and its fields are read back from each line by the line reader of the
    evidence intake (double quotes, commas and all); the whole text is read back,
    split into lines as the intake splits it, when no field has a line break.
    What is audited is the number of lines and the exact sum of their amounts. *)
Theorem payrollExport_reads_back venueId businessDate actor w w' e :
  run (payrollExport venueId businessDate actor) w = (w', Ok e) ->
  exists b l lines log, day_batch venueId businessDate w = Some (b, l) /\
    let rows := List.filter (fun r => railFor (er_allocation r) ==? Some PayoutRail.PAYROLL)
                  (export_rows venueId (batch_id b) w) in
    pe_csv e = join (String "010" "") lines /\
    map EvidenceService.splitCsvLine lines = export_header :: map (export_fields businessDate) rows /\
    (Forall (Forall single_line) (map (export_fields businessDate) rows) ->
     map EvidenceService.splitCsvLine (EvidenceService.csv_lines (pe_csv e))
       = export_header :: map (export_fields businessDate) rows) /\
    pe_recordCount e = length rows /\
    w_auditLogs w' = w_auditLogs w ++ [log] /\ audit_entityId log = Some (batch_id b) /\
    audit_detail log = JObj [("businessDate", JStr businessDate);
      ("recordCount", JInt (Z.of_nat (length rows)));
      ("totalUsdCents", JInt (sumZ (fun r => alloc_netAllocatedUsdCents (er_allocation r)) rows))].
Proof.
  unfold payrollExport. wexec. destruct (run (settlementClose _ _) w) as [w1 [c|x]] eqn:E; wexec; [|done].
  apply close_summary in E as (Hf & Hb & Hp).
  destruct (day_batch venueId businessDate w) as [[b l]|] eqn:Ed; cbn in Hb; rewrite Hb; wexec; [|done].
  assert (w_allocations w1 = w_allocations w /\ w_workers w1 = w_workers w /\ w_users w1 = w_users w /\
          w_accounts w1 = w_accounts w /\ w_batches w1 = w_batches w /\ w_auditLogs w1 = w_auditLogs w) as (A1 & A2 & A3 & A4 & A5 & A6)
    by (repeat split; [exact (f_equal w_allocations Hf)|exact (f_equal w_workers Hf)|exact (f_equal w_users Hf)
       |exact (f_equal w_accounts Hf)|exact (f_equal w_batches Hf)|exact (f_equal w_auditLogs Hf)]).
  assert (export_rows venueId (batch_id b) w1 = export_rows venueId (batch_id b) w) as ->
    by (unfold export_rows, export_row; by rewrite A1, A2, A3, A4, A5).
  unfold audit. wexec. destruct (existsb _ _); wexec; [done|]. intros [= <- <-].
  set (rows := List.filter _ _).
  eexists b, l, (map csv_line (export_header :: map (export_fields businessDate) rows)), _.
  assert (Forall (fun row => row <> []) (export_header :: map (export_fields businessDate) rows)) as Hne.
  { constructor; [done|]. apply Forall_fmap. by apply Forall_true. }
  assert (map EvidenceService.splitCsvLine (map csv_line (export_header :: map (export_fields businessDate) rows))
          = export_header :: map (export_fields businessDate) rows) as Hread.
  { rewrite map_map. clear -Hne. induction Hne as [|row l Hr _ IH]; [done|]. cbn [map]. by rewrite split_csv_line, IH. }
  split; [done|]. match goal with |- ?P /\ _ => assert P as Hcsv by reflexivity end. split; [exact Hcsv|].
  split; [exact Hread|].
  split; [|split; [done|split; [wcbn; by rewrite A6|split; [done|]]]].
  - intros Hs. rewrite Hcsv. etransitivity; [|exact Hread]. f_equal.
    apply csv_lines_export; [exact Hne| |done]. constructor; [|exact Hs]. by repeat constructor.
  - cbn [audit_detail]. do 5 f_equal. by rewrite sumZ_export_rows, Hp, (day_batch_rows _ _ _ _ _ Ed).
Qed.
End proofs.

Section venues.
Context `{Platform}.

(** The policies belong to existing venues (a foreign key). *)
Definition policies_have_venue (w : World) : Prop :=
  forall p, In p (w_policies w) -> In (policy_venueId p) (map venue_id (w_venues w)).

Lemma fresh_venue i w :
  existsb (fun v => i ==? venue_id v) (w_venues w) = false -> ~ In i (map venue_id (w_venues w)).
Proof.
  intros E Hin. apply in_map_iff in Hin as (v & Ev & Hv).
  assert (existsb (fun v => i ==? venue_id v) (w_venues w) = true); [|congruence].
  apply existsb_exists. exists v. split; [done|]. by apply bool_decide_eq_true.
Qed.

(** A venue created by an owner or manager of its organization is ready to
    use: the creator passes the venue guard, and the policy a calculation picks
    for the venue is the default one, version 1 and the only one. *)
Theorem post_venue_ready user input w w' venue :
  run (post_venue user input) w = (w', Ok venue) -> policies_have_venue w ->
  venue_organizationId venue = vi_organizationId input /\
  has_venue_role w' user (venue_id venue) VENUE_MANAGE_ROLES = true /\
  exists p, policy_version p = 1 /\ policy_roleWeights p = default_roleWeights /\
    run (AllocationsService.find_policy (venue_id venue) None) w' = (w', Ok (Some p)) /\
    run (getVenue (venue_id venue)) w' = (w', Ok (venue, [p])).
Proof.
  unfold post_venue. wexec. destruct (role_allowed _ _) eqn:Er; wexec; [|done].
  unfold createVenue. wexec. destruct (existsb _ (w_venues w)) eqn:Ec; wexec; [done|].
  destruct (existsb _ (w_policies w)) eqn:Ep; wexec; [done|]. intros [= <- <-] Hpol.
  set (i := uuid (w_tick w)) in *. cbn [venue_id venue_organizationId]. split; [done|].
  assert (~ In i (map venue_id (w_venues w))) as Hnew by by apply fresh_venue.
  assert (List.find (by_id i) (w_venues w) = None) as Hnone.
  { destruct (List.find (by_id i) (w_venues w)) as [v|] eqn:Ev; [|done]. exfalso. apply find_In in Ev as [Hv Ei].
    apply bool_decide_eq_true in Ei. apply Hnew. rewrite <- Ei. by apply in_map. }
  assert (forall q, List.filter (fun p => (policy_venueId p ==? i) && q p) (w_policies w) = []) as Hpf.
  { intros q. apply filter_none. intros p Hp. rewrite bool_decide_eq_false_2; [done|]. intros E.
    apply Hnew. rewrite <- E. by apply Hpol. }
  split.
  - unfold has_venue_role. wcbn. rewrite find_app, Hnone. cbn. unfold by_id. cbn. rewrite bd_refl. exact Er.
  - eexists. repeat split; cycle 2.
    + unfold AllocationsService.find_policy. wexec. rewrite List.filter_app, Hpf. cbn. rewrite bd_refl. reflexivity.
    + unfold getVenue. wexec. rewrite find_app, Hnone. cbn. unfold by_id. cbn. rewrite bd_refl. cbn.
      rewrite List.filter_app.
      assert (List.filter (fun p => policy_venueId p ==? i) (w_policies w) = []) as ->
        by (rewrite <- (Hpf (fun _ => true)); apply filter_ext_in; intros; by rewrite andb_true_r).
      cbn. rewrite bd_refl. reflexivity.
    + done.
    + done.
Qed.

(** One membership per organization and user. *)
Definition members_unique (w : World) : Prop :=
  NoDup (map (fun m => (member_organizationId m, member_userId m)) (w_members w)).

(** Only an owner adds members; the person named by the e-mail then has the
    given role, in one membership, and nobody else's membership changes. *)
Theorem post_member_spec user organizationId email role w w' m :
  run (post_member user organizationId email role) w = (w', Ok m) -> members_unique w ->
  exists u, List.find (fun u => user_email u ==? toLowerCase email) (w_users w) = Some u /\
    role_allowed [OrgRole.OWNER] (List.find (is_member organizationId user) (w_members w)) = true /\
    members_unique w' /\
    List.find (is_member organizationId (user_id u)) (w_members w') = Some m /\ member_role m = role /\
    List.filter (fun x => negb (is_member organizationId (user_id u) x)) (w_members w')
    = List.filter (fun x => negb (is_member organizationId (user_id u) x)) (w_members w).
Proof.
  unfold post_member, addMember. wexec. destruct (role_allowed _ _) eqn:Er; wexec; [|done].
  destruct (List.find _ (w_users w)) as [u|]; wexec; [|done]. set (key := is_member organizationId (user_id u)).
  set (f := fun m : OrganizationMember => m <| member_role := role |>).
  assert (forall x, key (f x) = key x) as Hk by done.
  destruct (List.find key (w_members w)) as [old|] eqn:Eo; wexec.
  - intros [= <- <-] HU. exists u. split; [done|]. split; [done|]. wcbn. split; [|split; [|split; [done|]]].
    + unfold members_unique. wcbn. unfold upd_where. rewrite map_map. erewrite map_ext; [exact HU|].
      intros x. by destruct (key x).
    + fold key. rewrite find_upd_where by (intros; apply Hk). rewrite Eo. cbn. apply find_In in Eo as [_ ->]. done.
    + fold key. unfold upd_where. clear -Hk. induction (w_members w) as [|x l IH]; [done|]. cbn.
      destruct (key x) eqn:E; [rewrite Hk|]; rewrite E; cbn; [exact IH|by rewrite IH].
  - destruct (existsb _ _) eqn:Ec; wexec; [done|]. intros [= <- <-] HU. exists u. split; [done|]. split; [done|]. wcbn.
    assert (forall l, key (mkOrganizationMember l organizationId (user_id u) role) = true) as Hn
      by (intros; unfold key, is_member; cbn; by rewrite !bd_refl).
    split; [|split; [|split; [done|]]].
    + unfold members_unique. wcbn. rewrite map_app. apply NoDup_app. split; [done|]. split; [|apply NoDup_singleton].
      intros k Hin Hs. apply list_elem_of_singleton in Hs as ->.
      apply list_elem_of_In, in_map_iff in Hin as (x & E & Hx). cbn in E. injection E as E1 E2.
      apply (List.find_none _ _ Eo) in Hx. unfold key, is_member in Hx. by rewrite E1, E2, !bd_refl in Hx.
    + fold key. rewrite find_app, Eo. cbn [List.find]. by rewrite Hn.
    + fold key. rewrite List.filter_app. cbn [List.filter]. rewrite Hn. cbn. by rewrite app_nil_r.
Qed.
End venues.

(* ------------------------------------------------------------------ *)
(** ** A venue and its day *)

#[local] Existing Instance demo_chain.

(** A network that knows the vault's balance and no wallet. *)
Definition demo_treasury : Treasury := {|
  SERVEPROOF_PROGRAM_ID := Some "program";
  deriveVenueVault p v m := join ":" [p; v; m];
  getTokenAccountBalance _ _ := Ok 5000000;
  getBalance _ _ := Err (JsError "Solana RPC balance check timed out")
|}.
#[local] Existing Instance demo_treasury.

(** The calculated day of the example with its rails assigned, and a worker
    whose name holds a quote and a comma. *)
Definition demo_assigned : World :=
  Eval vm_compute in
    (run (AllocationsService.autoAssignRails AllocationsService.demo_batch_id "boss")
       (AllocationsService.demo_calculated
          <| w_users := [mkUser "u1" "auth1" "kim@x.test" ("Kim, " +:+ String EvidenceService.QUOTE "K") GlobalRole.WORKER] |>
          <| w_workers := [mkWorker "w1" "u1" None; mkWorker "w2" "u2" None] |>)).1.

Example demo_close :
  match run (settlementClose "v" "2026-01-01") demo_assigned with
  | (_, Ok c) => (rs_totalUsdCents (sc_payroll c), sc_unassigned c, sc_held c,
                  tv_vaultBalanceUsdCents (sc_treasury c), tv_differenceUsdCents (sc_treasury c))
                 = (334, (0%nat, 0), (1%nat, 334), Some 500, Some 167)
  | _ => False
  end.
Proof. vm_compute. reflexivity. Qed.

Example demo_unavailable :
  match run (settlementClose "v" "2026-01-01")
          (demo_assigned <| w_venues := [mkVenue "v" "org" "Bar" "UTC" None None (Some "signer") []] |>) with
  | (_, Ok c) => tv_status (sc_treasury c) = UNAVAILABLE /\
                 tv_error (sc_treasury c) = Some "Solana RPC balance check timed out"
  | _ => False
  end.
Proof. vm_compute. done. Qed.

Lemma settlementClose_adds_up_witness :
  exists w' c, run (settlementClose "v" "2026-01-01") demo_assigned = (w', Ok c) /\
    1001 = rs_totalUsdCents (sc_cash c) + rs_totalUsdCents (sc_payroll c) + rs_totalUsdCents (sc_usdc c)
      + (sc_unassigned c).2 + (sc_held c).2.
Proof.
  destruct (settlementClose_adds_up "v" "2026-01-01" (mkVenue "v" "org" "Bar" "UTC" None None None []) demo_assigned)
    as (w' & c & E & _ & _ & Hs & _).
  - vm_compute. reflexivity.
  - intros a Ha Hh. vm_compute in Ha.
    repeat (destruct Ha as [<-|Ha]; [first [discriminate Hh | reflexivity]|]). destruct Ha.
  - exists w', c. split; [exact E|]. etransitivity; [|etransitivity; [exact Hs|]]; [vm_compute; reflexivity|].
    match goal with |- ?x + ?y = _ => replace y with 0 by (vm_compute; reflexivity) end. apply Z.add_0_r.
Defined.

(** A field with a line break is not read back: the intake splits the line. *)
Example export_line_break :
  let row := ["a"; "x" +:+ String "010" "y"] in
  EvidenceService.splitCsvLine (csv_line row) = row /\
  map EvidenceService.splitCsvLine (EvidenceService.csv_lines (csv_line row)) <> [row].
Proof. split; [vm_compute; reflexivity|vm_compute; discriminate]. Qed.

Lemma payrollExport_reads_back_witness :
  exists w' e b lines, run (payrollExport "v" "2026-01-01" "boss") demo_assigned = (w', Ok e) /\
    pe_csv e = join (String "010" "") lines /\
    map EvidenceService.splitCsvLine (EvidenceService.csv_lines (pe_csv e))
      = export_header :: map (export_fields "2026-01-01")
          (List.filter (fun r => railFor (er_allocation r) ==? Some PayoutRail.PAYROLL)
             (export_rows "v" (batch_id b) demo_assigned)) /\
    length lines = 2%nat.
Proof.
  destruct (run (payrollExport "v" "2026-01-01" "boss") demo_assigned) as [w' [e|x]] eqn:E.
  - destruct (payrollExport_reads_back "v" "2026-01-01" "boss" demo_assigned w' e E)
      as (b & l & lines & log & Hb & Hc & Hl & Hw & Hn & _).
    exists w', e, b, lines. split; [done|]. split; [exact Hc|].
    split; [apply Hw; vm_compute in Hb; injection Hb as <- _; apply (bool_decide_unpack _); vm_compute; done|].
    apply (f_equal length) in Hl. rewrite length_map in Hl. rewrite Hl. cbn [length]. rewrite length_map, <- Hn. f_equal.
    apply (f_equal (fun c => match c.2 with Ok e => pe_recordCount e | Err _ => 0%nat end)) in E.
    vm_compute in E. symmetry. exact E.
  - apply (f_equal (fun c => is_ok c.2)) in E. vm_compute in E. discriminate E.
Defined.

Lemma post_venue_ready_witness :
  exists w' venue, run (post_venue "boss" (mkVenueInput "org" "Grill" "UTC" None)) AllocationsService.demo_day = (w', Ok venue) /\
    has_venue_role w' "boss" (venue_id venue) VENUE_MANAGE_ROLES = true.
Proof.
  destruct (run (post_venue "boss" (mkVenueInput "org" "Grill" "UTC" None)) AllocationsService.demo_day) as [w' [v|x]] eqn:E.
  - exists w', v. split; [done|]. eapply (post_venue_ready "boss" _ _ _ _ E).
    intros p [<-|[]]. left. reflexivity.
  - apply (f_equal (fun c => is_ok c.2)) in E. vm_compute in E. discriminate E.
Defined.

Lemma post_member_spec_witness :
  exists w' m, run (post_member "boss" "org" "Kim@x.test" OrgRole.VIEWER) demo_assigned = (w', Ok m) /\
    members_unique w' /\ member_role m = OrgRole.VIEWER.
Proof.
  destruct (run (post_member "boss" "org" "Kim@x.test" OrgRole.VIEWER) demo_assigned) as [w' [m|x]] eqn:E.
  - destruct (post_member_spec "boss" "org" "Kim@x.test" OrgRole.VIEWER _ _ _ E) as (u & _ & _ & HU & _ & Hr & _).
    { apply (bool_decide_unpack _). vm_compute. done. }
    exists w', m. split; [done|]. split; [exact HU|exact Hr].
  - apply (f_equal (fun c => is_ok c.2)) in E. vm_compute in E. discriminate E.
Defined.
End OrganizationsService.
