(* ===== verification/Seeding.v ===== *)
(** * The demo seed

    packages/db/prisma/seed.mjs with scripts/demo-config.mjs: the manager and the
    organization of the demo, its venue with the fixed identifier, three workers
    with their mappings, and the first policy.  Each statement is one action; the
    uniqueness of an updated e-mail or login is checked as the database does
    ([updateUnique]).

    [seed_idempotent]: on any database whose unique columns are unique, a second
    run right after a successful one changes no row of the model (User.updatedAt,
    which Prisma writes on every update, is not in it).  [seed_refuses_other_venue]:
    a venue of the same name with another identifier is neither reused nor
    overwritten. *)

From S2P Require Import Prelude Concurrency Strings Schema Demo AllocationEngine Organizations.

Open Scope Z_scope.

(* ------------------------------------------------------------------ *)
(** ** The configuration *)

Module DemoConfig.
Definition organizationLegalName : string := "ServeProof Demo LLC".
Definition organizationDisplayName : string := "ServeProof Demo".
Definition venueId : string := "02acca32-d4c2-46c8-828f-3bec1dd4d848".
Definition venueName : string := "Demo Diner".
Definition venueTimezone : string := "America/New_York".
Definition externalVenueId : string := "venue_001".
Definition managerAuthUserId : string := "demo-manager".
Definition managerEmail : string := "manager@demo.serveproof.local".

(** [devnet] *)
Definition rpcUrl : string := "https://api.devnet.solana.com".
Definition programId : string := "A2snJHtFRK8wKawieDTQy6wMReJCP3BxU6i6y9aECJhi".
Definition usdcMint : string := "4R3s4BJLvBMKKgWFxsxPTCnZDuDK9dB46WJKPeaJMrDF".
Definition venueAuthority : string := "8uBouRGv78yhVRHEcdmd385YTLV9WuFJNhmprZdNZU8k".
Definition venuePda : string := "2Kv3zS5MCMPHaCijs6jxuz2kzZp3jHXz8w2yNZDcSHrQ".
Definition vaultAuthorityPda : string := "8MsEjXabbWx1pbS4n2Rb4k7DzBnBKEp9V7Vg1khzx4EN".
Definition venueVault : string := "69Lxm416u7omGGzhoc3jmgnyukdtuLnhuZyhojtE19FJ".
Definition minimumVaultBaseUnits : Z := 60000000.
Definition minimumSignerLamports : Z := 50000000.
End DemoConfig.

Module Seeding.

(* ------------------------------------------------------------------ *)
(** ** Statements *)

(** [update({ where: { id } })] of unique columns: P2002 when another row has
    the new value. *)
Definition updateUnique {R} `{Row R, Table World R} (i : string) (f : R -> R) : handler R :=
  act (fun w => match List.find (by_id i) (rows w) with
                | None => (w, Err (PrismaError "P2025"))
                | Some r =>
                    if existsb (fun o => negb (by_id i o) && row_clash (f r) o) (rows w)
                    then (w, Err (PrismaError "P2002"))
                    else (set_rows (upd_where (by_id i) f (rows w)) w, Ok (f r))
                end).

(** [process.env] *)
Abbreviation env := (list (string * string)).

Section seed.
Context `{Platform}.

Definition by_auth (authUserId : string) (u : User) : bool := user_authUserId u ==? authUserId.
Definition by_email (email : string) (u : User) : bool := user_email u ==? email.

Definition upsertUser (authUserId email displayName : string) (role : GlobalRole.t) : handler User :=
  let* byAuthUserId := findFirst (by_auth authUserId) in
  match byAuthUserId with
  | Some u => updateUnique (user_id u)
                (fun u => u <| user_email := email |> <| user_displayName := displayName |> <| user_role := role |>)
  | None =>
      let* byEmail := findFirst (by_email email) in
      match byEmail with
      | Some u => updateUnique (user_id u)
                    (fun u => u <| user_authUserId := authUserId |> <| user_displayName := displayName |>
                                <| user_role := role |>)
      | None => let* i := freshId in create (mkUser i authUserId email displayName role)
      end
  end.

(** [prisma.worker.upsert({ where: { userId }, update: {}, create: { userId } })] *)
Definition worker_of (userId : string) (w : Worker) : bool := worker_userId w ==? userId.
Definition upsertWorker (userId : string) : handler Worker :=
  let* i := freshId in upsert (worker_of userId) (fun w => w) (mkWorker i userId None).

(** [useDevnetIdentity] *)
Definition useDevnetIdentity (e : env) : bool :=
  (map_get e "APP_ENV" ==? Some "staging") || (map_get e "SOLANA_NETWORK" ==? Some "devnet").

(** [...onchainData] *)
Definition onchainData (e : env) (v : Venue) : Venue :=
  if useDevnetIdentity e
  then v <| venue_solanaVenuePda := Some DemoConfig.venuePda |>
         <| venue_vaultTokenAccount := Some DemoConfig.venueVault |>
         <| venue_payoutSignerWallet := Some DemoConfig.venueAuthority |>
  else v.

Definition demo_externalIds : list (string * string) :=
  [("csv", DemoConfig.externalVenueId); ("toast_mock", DemoConfig.externalVenueId)].

Definition venue_create (e : env) (organizationId : string) : Venue :=
  onchainData e (mkVenue DemoConfig.venueId organizationId DemoConfig.venueName DemoConfig.venueTimezone
                   None None None demo_externalIds).
Definition venue_update (e : env) (v : Venue) : Venue :=
  onchainData e (v <| venue_name := DemoConfig.venueName |> <| venue_timezone := DemoConfig.venueTimezone |>
                   <| venue_externalIds := demo_externalIds |>).

Record WorkerSpec := mkSpec {
  ws_authUserId : string;
  ws_email : string;
  ws_name : string;
  ws_externalWorkerId : string;
  ws_mappingStatus : MappingStatus.t
}.

Definition workerSpecs : list WorkerSpec :=
  [mkSpec "demo-worker-a" "worker.a@demo.serveproof.local" "Alice" "worker_001" MappingStatus.CONFIRMED;
   mkSpec "demo-worker-b" "worker.b@demo.serveproof.local" "Bob" "worker_002" MappingStatus.CONFIRMED;
   mkSpec "demo-worker-c" "worker.c@demo.serveproof.local" "Carol" "worker_003" MappingStatus.PENDING].

Definition mapping_of (venueId externalWorkerId : string) (a : ExternalWorkerAccount) : bool :=
  (account_venueId a ==? venueId) && (account_provider a ==? "toast_mock")
  && (account_externalWorkerId a ==? externalWorkerId).

(** [b ? new Date() : null] *)
Definition date_if (b : bool) : handler (option Z) :=
  if b then (let* t := newDate in Ret (Some t)) else Ret None.

(** The body of the loop over [workerSpecs]. *)
Definition seed_worker (venueId managerId : string) (spec : WorkerSpec) : handler unit :=
  let* user := upsertUser (ws_authUserId spec) (ws_email spec) (ws_name spec) GlobalRole.WORKER in
  let* worker := upsertWorker (user_id user) in
  let confirmed := ws_mappingStatus spec ==? MappingStatus.CONFIRMED in
  let* t := date_if confirmed in
  let* i := freshId in
  do* upsert (mapping_of venueId (ws_externalWorkerId spec))
        (fun a => a <| account_mappingStatus := ws_mappingStatus spec |>)
        (mkExternalWorkerAccount i (worker_id worker) venueId "toast_mock" (ws_externalWorkerId spec)
           (ws_mappingStatus spec) (if confirmed then Some managerId else None) t) in
  Ret tt.

Definition by_legalName (o : Organization) : bool :=
  organization_legalName o ==? DemoConfig.organizationLegalName.

Definition seed_organization : handler Organization :=
  let* org := findFirst by_legalName in
  match org with
  | Some org => Ret org
  | None =>
      let* i := freshId in
      create (mkOrganization i DemoConfig.organizationLegalName DemoConfig.organizationDisplayName
                OrganizationStatus.ACTIVE "US" DemoConfig.venueTimezone)
  end.

Definition member_of (organizationId userId : string) (m : OrganizationMember) : bool :=
  (member_organizationId m ==? organizationId) && (member_userId m ==? userId).

Definition seed_venue (e : env) (org : Organization) : handler Venue :=
  let* venue := findUnique (R:=Venue) DemoConfig.venueId in
  let* venueByName := findFirst (fun v => (venue_organizationId v ==? organization_id org)
                                          && (venue_name v ==? DemoConfig.venueName)) in
  do* match venue, venueByName with
      | None, Some other => Throw (JsError ("Demo Diner identity mismatch: expected " +:+ DemoConfig.venueId +:+ ", found "
            +:+ venue_id other +:+ ". Refusing to create or silently reuse a venue with a different on-chain identity."))
      | _, _ => Ret tt
      end in
  match venue with
  | Some v =>
      if venue_organizationId v !=? organization_id org
      then Throw (JsError ("Canonical demo venue " +:+ DemoConfig.venueId +:+ " belongs to another organization. Refusing seed."))
      else update (venue_id v) (venue_update e)
  | None => create (venue_create e (organization_id org))
  end.

Definition policy_key (venueId : string) (p : AllocationPolicy) : bool :=
  (policy_venueId p ==? venueId) && (policy_version p =? 1).

(** [new Date("2026-01-01T00:00:00Z")] *)
Definition effectiveFrom : Z := 1767225600000.

Record Counts := mkCounts {
  c_users : nat; c_organizations : nat; c_venues : nat; c_workers : nat;
  c_externalWorkerAccounts : nat; c_allocationPolicies : nat
}.

Definition seed (e : env) : handler Counts :=
  let* manager := upsertUser DemoConfig.managerAuthUserId DemoConfig.managerEmail "Demo Manager" GlobalRole.VENUE_MANAGER in
  do* upsertWorker (user_id manager) in
  let* org := seed_organization in
  let* i := freshId in
  do* upsert (member_of (organization_id org) (user_id manager)) (fun m => m <| member_role := OrgRole.OWNER |>)
        (mkOrganizationMember i (organization_id org) (user_id manager) OrgRole.OWNER) in
  let* venue := seed_venue e org in
  do* for_each workerSpecs (seed_worker (venue_id venue) (user_id manager)) in
  let* j := freshId in
  do* upsert (policy_key (venue_id venue)) (fun p => p)
        (OrganizationsService.default_policy j (venue_id venue) effectiveFrom (user_id manager)) in
  query (fun w => mkCounts (length (w_users w)) (length (w_organizations w)) (length (w_venues w))
                    (length (w_workers w)) (length (w_accounts w)) (length (w_policies w))).
End seed.

(* ------------------------------------------------------------------ *)
(** ** Unique columns *)

(** The rows of a table respect its unique constraints. *)
Fixpoint unique {R} `{Row R} (l : list R) : Prop :=
  match l with
  | [] => True
  | r :: l' => (forall o, In o l' -> row_clash r o = false) /\ unique l'
  end.

(** What a unique constraint is: symmetric, and of the identifier at least. *)
Class UniqueRow (R : Type) `{Row R} : Prop := {
  clash_sym : forall a b : R, row_clash a b = row_clash b a;
  clash_id : forall a b : R, row_id a = row_id b -> row_clash a b = true
}.

Lemma bd_sym {A} `{EqDecision A} (a b : A) : (a ==? b) = (b ==? a).
Proof. by apply bool_decide_ext. Qed.
Lemma same_key_sym {A} `{EqDecision A} (a b : option A) : same_key a b = same_key b a.
Proof. destruct a, b; [apply bd_sym|done..]. Qed.

Ltac solve_unique_row :=
  split; cbn; intros a b;
  [ repeat first [apply (f_equal2 orb) | apply (f_equal2 andb) | apply bd_sym | apply same_key_sym]
  | intros ->; by rewrite bd_refl ].
#[export] Instance unique_User : UniqueRow User.
Proof. solve_unique_row. Qed.
#[export] Instance unique_Worker : UniqueRow Worker.
Proof. solve_unique_row. Qed.
#[export] Instance unique_OrganizationMember : UniqueRow OrganizationMember.
Proof. solve_unique_row. Qed.
#[export] Instance unique_Venue : UniqueRow Venue.
Proof. solve_unique_row. Qed.
#[export] Instance unique_ExternalWorkerAccount : UniqueRow ExternalWorkerAccount.
Proof. solve_unique_row. Qed.
#[export] Instance unique_AllocationPolicy : UniqueRow AllocationPolicy.
Proof. solve_unique_row. Qed.

Section unique.
Context {R : Type} `{UniqueRow R}.
Implicit Types (l : list R) (p : R -> bool) (f : R -> R).

Lemma unique_eq l a b : unique l -> In a l -> In b l -> row_clash a b = true -> a = b.
Proof.
  induction l as [|r l IH]; [done|]. intros [Hr Hl]. cbn. intros [->|Ha] [->|Hb] Hc; auto.
  - by rewrite (Hr _ Hb) in Hc.
  - by rewrite clash_sym, (Hr _ Ha) in Hc.
Qed.

(** The row of a key is the one a lookup finds. *)
Lemma unique_find l p a :
  unique l -> In a l -> p a = true -> (forall b, p b = true -> row_clash a b = true) -> List.find p l = Some a.
Proof.
  intros Hl Ha Hp Hk. destruct (List.find p l) as [b|] eqn:E.
  - apply find_In in E as [Hb Hpb]. f_equal. symmetry. eauto using unique_eq.
  - apply (List.find_none _ _ E) in Ha. congruence.
Qed.

Lemma unique_app l r : unique l -> existsb (row_clash r) l = false -> unique (l ++ [r]).
Proof.
  intros Hl He. assert (forall o, In o l -> row_clash o r = false) as Hr.
  { intros o Ho. rewrite clash_sym. destruct (row_clash r o) eqn:E; [|done].
    rewrite <- He. symmetry. apply existsb_exists. eauto. }
  clear He. induction l as [|x l IH]; cbn; [done|]. destruct Hl as [Hx Hl]. split.
  - intros o [Ho| [<-|[]]]%in_app_iff; [auto|apply Hr; by left].
  - apply IH; [done|]. intros o Ho. apply Hr. by right.
Qed.

Lemma unique_upd_same l p f :
  (forall a b, row_clash (f a) b = row_clash a b) -> unique l -> unique (upd_where p f l).
Proof.
  intros Hf. unfold upd_where. induction l as [|x l IH]; cbn; [done|]. intros [Hx Hl]. split; [|auto].
  intros o (y & <- & Hy)%in_map_iff. specialize (Hx y Hy).
  assert (forall a b, row_clash a (f b) = row_clash a b) as Hf' by (intros; by rewrite clash_sym, Hf, clash_sym).
  destruct (p x), (p y); by rewrite ?Hf, ?Hf'.
Qed.

(** The other rows stay when the row of an identifier is rewritten. *)
Lemma unique_upd_id l i f r :
  unique l -> List.find (by_id i) l = Some r -> existsb (fun o => negb (by_id i o) && row_clash (f r) o) l = false ->
  unique (upd_where (by_id i) f l) /\ In (f r) (upd_where (by_id i) f l) /\
  (forall o, In o l -> o <> r -> In o (upd_where (by_id i) f l)).
Proof.
  intros Hl Hr He. apply find_In in Hr as [Hr Hi].
  assert (forall o, In o l -> by_id i o = true -> o = r) as Honly.
  { intros o Ho Ho'. apply (unique_eq l); [done..|]. apply clash_id.
    apply bool_decide_eq_true in Hi, Ho'. congruence. }
  assert (forall o, In o l -> by_id i o = false -> row_clash (f r) o = false) as Hfr.
  { intros o Ho Hoi. destruct (row_clash (f r) o) eqn:E; [|done]. rewrite <- He. symmetry. apply existsb_exists.
    exists o. by rewrite Hoi, E. }
  split; [|split].
  - clear He Hr. unfold upd_where. induction l as [|x l IH]; cbn; [done|]. destruct Hl as [Hx Hl]. split.
    + intros o (y & <- & Hy)%in_map_iff. pose proof (Hx y Hy) as Hxy.
      destruct (by_id i x) eqn:Ex, (by_id i y) eqn:Ey; [| | |done].
      * rewrite clash_id in Hxy; [done|]. apply bool_decide_eq_true in Ex, Ey. congruence.
      * rewrite (Honly x) by (cbn; auto). apply Hfr; cbn; auto.
      * rewrite clash_sym, (Honly y) by (cbn; auto). apply Hfr; cbn; auto.
    + apply IH; [done|..]; intros; (apply Honly || apply Hfr); cbn; auto.
  - apply in_upd_where. exists r. by rewrite Hi.
  - intros o Ho Hne. apply in_upd_where. exists o. split; [done|].
    destruct (by_id i o) eqn:E; [|done]. exfalso. auto.
Qed.

(** Nothing to do: the rewritten row is the row. *)
Lemma upd_id_same l i f r : unique l -> List.find (by_id i) l = Some r -> f r = r -> upd_where (by_id i) f l = l.
Proof.
  intros Hl Hr Hf. apply find_In in Hr as [Hr Hi]. apply upd_where_id. intros o Ho Hoi.
  rewrite (unique_eq l o r); [done..|]. apply clash_id. apply bool_decide_eq_true in Hi, Hoi. congruence.
Qed.

Lemma find_by_id l r : unique l -> In r l -> List.find (by_id (row_id r)) l = Some r.
Proof.
  intros Hl Hr. apply unique_find; [done..| |]; unfold by_id; [apply bd_refl|].
  intros b Hb. apply bool_decide_eq_true in Hb. by apply clash_id.
Qed.

Lemma no_other_clash l r :
  unique l -> In r l -> existsb (fun o => negb (by_id (row_id r) o) && row_clash r o) l = false.
Proof.
  intros Hl Hr. apply not_true_iff_false. intros (o & Ho & [Hi Hc]%andb_true_iff)%existsb_exists.
  rewrite (unique_eq l r o) in Hi by done. unfold by_id in Hi. by rewrite bd_refl in Hi.
Qed.
End unique.

(* ------------------------------------------------------------------ *)
(** ** What a statement leaves behind *)

Section effects.
Context `{Platform}.

Definition has_user (a em n : string) (r : GlobalRole.t) (i : string) (l : list User) : Prop :=
  In (mkUser i a em n r) l.

Lemma user_shape (u : User) a em n r :
  user_authUserId u = a -> user_email u = em -> user_displayName u = n -> user_role u = r ->
  u = mkUser (user_id u) a em n r.
Proof. destruct u; cbn. by intros -> -> -> ->. Qed.

Lemma updateUnique_ok {R} `{UniqueRow R} `{HT : !Table World R} o (f : R -> R) w w' x :
  unique (rows w) -> In o (rows w) -> run (updateUnique (row_id o) f) w = (w', Ok x) ->
  exists l, w' = set_rows l w /\ unique l /\ x = f o /\ In x l /\ (forall y, In y (rows w) -> y <> o -> In y l).
Proof.
  intros Hu Ho. unfold updateUnique. rewrite run_act, (find_by_id _ _ Hu Ho).
  destruct (existsb _ _) eqn:Ec; [done|]. intros [= <- <-].
  destruct (unique_upd_id _ _ _ o Hu (find_by_id _ _ Hu Ho) Ec) as (H3 & H4 & H5). eauto 10.
Qed.

Lemma updateUnique_again {R} `{UniqueRow R} `{HT : !Table World R} o (f : R -> R) w :
  unique (rows w) -> In o (rows w) -> f o = o -> run (updateUnique (row_id o) f) w = (set_rows (rows w) w, Ok o).
Proof.
  intros Hu Ho Hf. unfold updateUnique. rewrite run_act, (find_by_id _ _ Hu Ho), Hf, (no_other_clash _ _ Hu Ho).
  by rewrite (upd_id_same _ _ _ _ Hu (find_by_id _ _ Hu Ho) Hf).
Qed.

(** A user of another login and another e-mail is not touched. *)
Lemma upsertUser_ok a em n r w w' u :
  unique (w_users w) -> run (upsertUser a em n r) w = (w', Ok u) ->
  exists l t, w' = w <| w_users := l |> <| w_tick := t |> /\ unique l /\ has_user a em n r (user_id u) l /\
    (forall x, In x (w_users w) -> user_authUserId x <> a -> user_email x <> em -> In x l).
Proof.
  intros Hu. unfold upsertUser. wexec.
  destruct (List.find (by_auth a) (w_users w)) as [o|] eqn:Ea;
    [|wexec; destruct (List.find (by_email em) (w_users w)) as [o|] eqn:Ee].
  1: apply find_In in Ea as [Ho Ha]; apply bool_decide_eq_true in Ha.
  2: apply find_In in Ee as [Ho He]; apply bool_decide_eq_true in He.
  1,2: intros Hr; destruct (updateUnique_ok (HT := table_User) o _ w w' u Hu Ho Hr) as (l & -> & Hl & -> & Hin & Hkeep).
  1,2: exists l, (w_tick w); split; [reflexivity|]; split; [exact Hl|]; split.
  1,3: unfold has_user; rewrite <- user_shape; [exact Hin|done..].
  1,2: intros x Hx Hxa Hxe; apply Hkeep; [done|]; by intros ->.
  wexec. destruct (existsb _ _) eqn:Ec; intros [= <- <-]. eexists _, _. split; [reflexivity|].
  split; [by apply unique_app|]. unfold has_user. split; [apply in_app_iff; right; by left|].
  intros x Hx _ _. apply in_app_iff. by left.
Qed.

Lemma upsertUser_again a em n r i w :
  unique (w_users w) -> has_user a em n r i (w_users w) -> run (upsertUser a em n r) w = (w, Ok (mkUser i a em n r)).
Proof.
  intros Hu Hi. unfold upsertUser. wexec.
  rewrite (unique_find _ (by_auth a) (mkUser i a em n r) Hu Hi); [|apply bd_refl|].
  2: { intros b Hb. apply bool_decide_eq_true in Hb. cbn. by rewrite Hb, bd_refl, orb_true_r. }
  etransitivity; [exact (updateUnique_again (HT := table_User) (mkUser i a em n r) _ w Hu Hi eq_refl)|by destruct w].
Qed.

(** An upsert on a unique key: the row it answers satisfies [post], which the
    update and the new row establish, and the rows outside of the key stay. *)
Lemma upsert_ok {R} `{UniqueRow R} `{HT : !Table World R} (p : R -> bool) f r (post : R -> Prop) w w' x :
  (forall a b, row_clash (f a) b = row_clash a b) -> (forall a, p a = true -> post (f a)) -> post r ->
  run (upsert p f r) w = (w', Ok x) -> unique (rows w) ->
  exists l, w' = set_rows l w /\ unique l /\ In x l /\ post x /\
    (forall o, In o (rows w) -> p o = false \/ f o = o -> In o l).
Proof.
  intros Hf Hp Hr. rewrite run_upsert. destruct (List.find p (rows w)) as [old|] eqn:E.
  - intros [= <- <-] Hu. apply find_In in E as [Ho Hpo]. eexists. split; [reflexivity|].
    split; [by apply unique_upd_same|]. split; [|split; [auto|]].
    + apply in_upd_where. exists old. by rewrite Hpo.
    + intros o Hin Hor. apply in_upd_where. exists o. split; [done|]. destruct (p o); [|done]. by destruct Hor.
  - destruct (existsb _ _) eqn:Ec; [done|]. intros [= <- <-] Hu. eexists. split; [reflexivity|].
    split; [by apply unique_app|]. split; [apply in_app_iff; right; by left|]. split; [done|].
    intros o Hin _. apply in_app_iff. by left.
Qed.

(** An upsert that finds its row as it should be changes nothing. *)
Lemma upsert_again {R} `{UniqueRow R} `{HT : !Table World R} (p : R -> bool) f r w x :
  unique (rows w) -> In x (rows w) -> p x = true -> (forall b, p b = true -> row_clash x b = true) -> f x = x ->
  run (upsert p f r) w = (set_rows (rows w) w, Ok x).
Proof.
  intros Hu Hx Hp Hk Hf. rewrite run_upsert, (unique_find _ p x) by done. rewrite Hf. f_equal. f_equal.
  apply upd_where_id. intros o Ho Hpo. rewrite <- (unique_eq _ x o Hu Hx Ho); auto.
Qed.
End effects.

(* ------------------------------------------------------------------ *)
(** ** The workers *)

(** The tables the seed writes by a unique key. *)
Record tables_unique (w : World) : Prop := {
  tu_users : unique (w_users w);
  tu_workers : unique (w_workers w);
  tu_members : unique (w_members w);
  tu_venues : unique (w_venues w);
  tu_accounts : unique (w_accounts w);
  tu_policies : unique (w_policies w)
}.

Definition has_worker (userId : string) (w : World) : Prop :=
  exists k, In k (w_workers w) /\ worker_of userId k = true.

Definition seeded_worker (venueId : string) (w : World) (spec : WorkerSpec) : Prop :=
  exists i, has_user (ws_authUserId spec) (ws_email spec) (ws_name spec) GlobalRole.WORKER i (w_users w) /\
    has_worker i w /\
    exists a, In a (w_accounts w) /\ mapping_of venueId (ws_externalWorkerId spec) a = true /\
      account_mappingStatus a = ws_mappingStatus spec.

(** What the loop leaves alone: the other tables, other users, all workers, other
    mappings. *)
Record workers_frame (venueId : string) (specs : list WorkerSpec) (w w' : World) : Prop := {
  wf_unique : tables_unique w -> tables_unique w';
  wf_members : w_members w' = w_members w;
  wf_venues : w_venues w' = w_venues w;
  wf_policies : w_policies w' = w_policies w;
  wf_organizations : w_organizations w' = w_organizations w;
  wf_users : forall x, In x (w_users w) ->
    (forall s, In s specs -> user_authUserId x <> ws_authUserId s /\ user_email x <> ws_email s) -> In x (w_users w');
  wf_workers : forall x, In x (w_workers w) -> In x (w_workers w');
  wf_accounts : forall x, In x (w_accounts w) ->
    (forall s, In s specs -> mapping_of venueId (ws_externalWorkerId s) x = false) -> In x (w_accounts w')
}.

Definition apart (s s' : WorkerSpec) : Prop :=
  ws_authUserId s <> ws_authUserId s' /\ ws_email s <> ws_email s' /\ ws_externalWorkerId s <> ws_externalWorkerId s'.

Lemma mapping_other venueId x y a :
  mapping_of venueId x a = true -> x <> y -> mapping_of venueId y a = false.
Proof.
  unfold mapping_of. intros [_ Hx%bool_decide_eq_true]%andb_true_iff Hne. apply andb_false_iff. right.
  apply bool_decide_eq_false. congruence.
Qed.

Lemma seeded_worker_stays venueId specs s w w' :
  workers_frame venueId specs w w' -> Forall (apart s) specs -> seeded_worker venueId w s -> seeded_worker venueId w' s.
Proof.
  intros F Ha (i & Hu & (k & Hk & Hki) & a & Hain & Hm & Hst). rewrite List.Forall_forall in Ha.
  exists i. split; [|split].
  - apply (wf_users _ _ _ _ F); [done|]. intros s' Hs'. by destruct (Ha s' Hs') as (? & ? & _).
  - exists k. split; [by apply (wf_workers _ _ _ _ F)|done].
  - exists a. split; [|done]. apply (wf_accounts _ _ _ _ F); [done|]. intros s' Hs'.
    destruct (Ha s' Hs') as (_ & _ & Hx). eauto using mapping_other.
Qed.

Section workers.
Context `{Platform}.

Lemma upsertWorker_ok i w w' k :
  unique (w_workers w) -> run (upsertWorker i) w = (w', Ok k) ->
  exists l t, w' = w <| w_workers := l |> <| w_tick := t |> /\ unique l /\ In k l /\ worker_of i k = true /\
    (forall x, In x (w_workers w) -> In x l).
Proof.
  intros Hu. unfold upsertWorker. rewrite run_bind, run_freshId. cbv beta iota. intros Hr.
  destruct (upsert_ok (HT := table_Worker) (worker_of i) (fun k => k) (mkWorker (uuid (w_tick w)) i None)
              (fun k => worker_of i k = true) _ _ _ ltac:(done) ltac:(done) (bd_refl i) Hr Hu) as (l & -> & Hl & Hin & Hp & Hk).
  exists l, (S (w_tick w)). split_and!; auto.
Qed.

Lemma upsertWorker_again i w :
  unique (w_workers w) -> has_worker i w -> exists k, run (upsertWorker i) w = (w <| w_tick ::= S |>, Ok k).
Proof.
  intros Hu (k & Hk & Hi). exists k. unfold upsertWorker. rewrite run_bind, run_freshId. cbv beta iota.
  rewrite (upsert_again (HT := table_Worker) _ _ _ _ k); [by destruct w|done..| |done].
  intros b Hb. unfold worker_of in Hi, Hb. apply bool_decide_eq_true in Hi, Hb. cbn. rewrite Hi, Hb.
  by rewrite bd_refl, orb_true_r.
Qed.

Lemma date_if_ok b (w : World) : exists t o, run (date_if b) w = (w <| w_tick := t |>, Ok o).
Proof.
  unfold date_if. destruct b; [wexec; by eexists _, _|]. exists (w_tick w), None. by destruct w.
Qed.

Lemma seed_worker_ok venueId managerId spec w w' :
  tables_unique w -> run (seed_worker venueId managerId spec) w = (w', Ok tt) ->
  workers_frame venueId [spec] w w' /\ seeded_worker venueId w' spec.
Proof.
  intros [Uu Uw Um Uv Ua Up]. unfold seed_worker. rewrite run_bind.
  destruct (run (upsertUser _ _ _ _) w) as [w1 [u|]] eqn:E1; [|done].
  apply upsertUser_ok in E1 as (lu & t1 & -> & Hlu & Hu & Hku); [|done]. rewrite run_bind.
  destruct (run (upsertWorker _) _) as [w2 [k|]] eqn:E2; [|done].
  apply upsertWorker_ok in E2 as (lw & t2 & -> & Hlw & Hk & Hki & Hkw); [|exact Uw]. rewrite run_bind.
  destruct (date_if_ok (ws_mappingStatus spec ==? MappingStatus.CONFIRMED)
              (w <| w_users := lu |> <| w_tick := t1 |> <| w_workers := lw |> <| w_tick := t2 |>)) as (t3 & o & ->).
  rewrite run_bind, run_freshId, run_bind. cbv beta iota.
  match goal with |- context [run (upsert ?p ?f ?r) ?w3] => destruct (run (upsert p f r) w3) as [w4 [a|]] eqn:E4; [|done] end.
  intros [= <-].
  apply (upsert_ok (HT := table_ExternalWorkerAccount) _ _ _
           (fun a => mapping_of venueId (ws_externalWorkerId spec) a = true /\ account_mappingStatus a = ws_mappingStatus spec))
    in E4 as (la & -> & Hla & Hain & (Ham & Hast) & Hka);
    [|done|done|by split; [unfold mapping_of; cbn; rewrite !bd_refl|]|exact Ua].
  split; [split|]; try done.
  - intros x Hx Hs. destruct (Hs spec (or_introl eq_refl)). by apply Hku.
  - intros x Hx Hs. apply Hka; [done|]. left. by apply Hs; left.
  - exists (user_id u). split; [exact Hu|]. split; [by exists k|]. eauto.
Qed.

Lemma seed_workers_ok venueId managerId specs w w' :
  tables_unique w -> ForallOrdPairs apart specs ->
  run (for_each specs (seed_worker venueId managerId)) w = (w', Ok tt) ->
  workers_frame venueId specs w w' /\ Forall (seeded_worker venueId w') specs.
Proof.
  intros Hw Hs. revert w Hw. induction Hs as [|s specs Ha _ IH]; intros w Hw; cbn [for_each].
  { intros [= <-]. split; [by split|constructor]. }
  rewrite run_bind. destruct (run (seed_worker _ _ s) w) as [w1 [[]|]] eqn:E1; [|done].
  destruct (seed_worker_ok _ _ _ _ _ Hw E1) as [F1 S1]. intros E2.
  destruct (IH w1 (wf_unique _ _ _ _ F1 Hw) E2) as [F2 S2]. split.
  - destruct F1 as [F11 F12 F13 F14 F15 F16 F17 F18], F2 as [F21 F22 F23 F24 F25 F26 F27 F28]. split; try congruence; auto.
    + intros x Hx Hall. apply F26; [apply F16; [done|]|]; intros s' Hs'; apply Hall; cbn in *; tauto.
    + intros x Hx Hall. apply F28; [apply F18; [done|]|]; intros s' Hs'; apply Hall; cbn in *; tauto.
  - constructor; [|done]. by apply (seeded_worker_stays _ specs _ w1).
Qed.

Lemma seed_worker_again venueId managerId spec w :
  tables_unique w -> seeded_worker venueId w spec ->
  exists t, run (seed_worker venueId managerId spec) w = (w <| w_tick := t |>, Ok tt).
Proof.
  intros [Uu Uw Um Uv Ua Up] (i & Hu & Hk & a & Hain & Hm & Hst). unfold seed_worker.
  rewrite run_bind, (upsertUser_again _ _ _ _ i w Uu Hu), run_bind. cbn [user_id].
  destruct (upsertWorker_again i w Uw Hk) as [k ->]. rewrite run_bind.
  destruct (date_if_ok (ws_mappingStatus spec ==? MappingStatus.CONFIRMED) (w <| w_tick ::= S |>)) as (t & o & ->).
  rewrite run_bind, run_freshId, run_bind. cbv beta iota.
  rewrite (upsert_again (HT := table_ExternalWorkerAccount) _ _ _ _ a); [|done..| |].
  - exists (S t). rewrite run_ret. by destruct w.
  - intros b Hb. unfold mapping_of in Hm, Hb. rewrite !andb_true_iff, !bool_decide_eq_true in Hm, Hb. cbn.
    destruct Hm as [[-> ->] ->], Hb as [[-> ->] ->]. by rewrite !bd_refl, orb_true_r.
  - destruct a. cbn in *. by rewrite <- Hst.
Qed.
End workers.

(* ------------------------------------------------------------------ *)
(** ** The whole seed *)

Definition counts_of (w : World) : Counts :=
  mkCounts (length (w_users w)) (length (w_organizations w)) (length (w_venues w))
    (length (w_workers w)) (length (w_accounts w)) (length (w_policies w)).

(** What the seed promises of a database. *)
Definition seeded (e : env) (w : World) : Prop :=
  exists i org venue member policy,
    has_user DemoConfig.managerAuthUserId DemoConfig.managerEmail "Demo Manager" GlobalRole.VENUE_MANAGER i (w_users w) /\
    has_worker i w /\
    List.find by_legalName (w_organizations w) = Some org /\
    (In member (w_members w) /\ member_of (organization_id org) i member = true /\ member_role member = OrgRole.OWNER) /\
    (In venue (w_venues w) /\ venue_id venue = DemoConfig.venueId /\
       venue_organizationId venue = organization_id org /\ venue_update e venue = venue) /\
    Forall (seeded_worker DemoConfig.venueId w) workerSpecs /\
    In policy (w_policies w) /\ policy_key DemoConfig.venueId policy = true.

Section main.
Context `{Platform}.

Lemma seed_organization_ok w w' org :
  run seed_organization w = (w', Ok org) ->
  exists l t, w' = w <| w_organizations := l |> <| w_tick := t |> /\ List.find by_legalName l = Some org.
Proof.
  unfold seed_organization. wexec. destruct (List.find by_legalName (w_organizations w)) as [o|] eqn:E; wexec.
  - intros [= <- <-]. exists (w_organizations w), (w_tick w). split; [by destruct w|done].
  - destruct (existsb _ _); [done|]. intros [= <- <-]. eexists (_ ++ [_]), (S (w_tick w)). split; [reflexivity|]. by rewrite find_app, E.
Qed.

Lemma venue_update_id e v : venue_id (venue_update e v) = venue_id v /\
  venue_organizationId (venue_update e v) = venue_organizationId v.
Proof. unfold venue_update, onchainData. by destruct (useDevnetIdentity e). Qed.

Lemma venue_update_twice e v : venue_update e (venue_update e v) = venue_update e v.
Proof. unfold venue_update, onchainData. by destruct (useDevnetIdentity e). Qed.

Lemma venue_update_create e o : venue_update e (venue_create e o) = venue_create e o /\
  venue_id (venue_create e o) = DemoConfig.venueId /\ venue_organizationId (venue_create e o) = o.
Proof. unfold venue_update, venue_create, onchainData. by destruct (useDevnetIdentity e). Qed.

Lemma seed_venue_ok e org w w' v :
  unique (w_venues w) -> run (seed_venue e org) w = (w', Ok v) ->
  exists l, w' = w <| w_venues := l |> /\ unique l /\ In v l /\ venue_id v = DemoConfig.venueId /\
    venue_organizationId v = organization_id org /\ venue_update e v = v.
Proof.
  intros Hu. unfold seed_venue. wexec.
  destruct (List.find (by_id DemoConfig.venueId) (w_venues w)) as [o|] eqn:Eo; wexec.
  - destruct (venue_organizationId o ==? organization_id org) eqn:Eorg; cbn [negb]; wexec; [|done].
    apply bool_decide_eq_true in Eorg. pose proof Eo as [Ho Hi]%find_In. apply bool_decide_eq_true in Hi. cbn in Hi.
    destruct (venue_update_id e o) as [Hvi Hvo].
    cbn [negb]. rewrite Hi. wexec. rewrite Eo. intros [= <- <-]. eexists. split; [reflexivity|]. split_and!; try congruence.
    + apply unique_upd_same; [|done]. intros a b. cbn. by rewrite (proj1 (venue_update_id e a)).
    + apply in_upd_where. exists o. unfold by_id. cbn. by rewrite Hi, bd_refl.
    + apply venue_update_twice.
  - match goal with |- context [List.find ?p (w_venues w)] => destruct (List.find p (w_venues w)) as [other|] end; wexec; [done|].
    destruct (existsb _ _) eqn:Ec; [done|]. intros [= <- <-].
    destruct (venue_update_create e (organization_id org)) as (H1 & H2 & H3).
    eexists. split; [reflexivity|]. split_and!; auto.
    + by apply unique_app.
    + apply in_app_iff. right. by left.
Qed.

Lemma seed_venue_again e org v w :
  unique (w_venues w) -> In v (w_venues w) -> venue_id v = DemoConfig.venueId ->
  venue_organizationId v = organization_id org -> venue_update e v = v -> run (seed_venue e org) w = (w, Ok v).
Proof.
  intros Hu Hv Hi Ho Hf. pose proof (find_by_id _ _ Hu Hv) as Hfind. cbn [row_id row_Venue] in Hfind.
  unfold seed_venue. wexec. rewrite Hi in Hfind. rewrite Hfind. wexec. rewrite Ho, bd_refl. cbn [negb]. wexec.
  rewrite Hi, Hfind. wexec. rewrite Hf, (upd_id_same _ _ _ _ Hu Hfind Hf). by destruct w.
Qed.

Lemma specs_apart : ForallOrdPairs apart workerSpecs.
Proof. repeat constructor; by apply (bool_decide_unpack _). Qed.

Lemma seed_ok e w w' c :
  tables_unique w -> run (seed e) w = (w', Ok c) -> seeded e w' /\ tables_unique w' /\ c = counts_of w'.
Proof.
  intros [Uu Uw Um Uv Ua Up]. unfold seed. rewrite run_bind.
  destruct (run (upsertUser _ _ _ _) w) as [w1 [u|]] eqn:E1; [|done].
  apply upsertUser_ok in E1 as (lu & t1 & -> & Hlu & Hu & _); [|done]. rewrite run_bind.
  destruct (run (upsertWorker _) _) as [w2 [k|]] eqn:E2; [|done].
  apply upsertWorker_ok in E2 as (lw & t2 & -> & Hlw & Hk & Hki & _); [|exact Uw]. rewrite run_bind.
  destruct (run seed_organization _) as [w3 [org|]] eqn:E3; [|done].
  apply seed_organization_ok in E3 as (lo & t3 & -> & Hlo). rewrite run_bind, run_freshId, run_bind. cbv beta iota.
  match goal with |- context [run (upsert ?p ?f ?r) ?x] => destruct (run (upsert p f r) x) as [w4 [m|]] eqn:E4; [|done] end.
  apply (upsert_ok (HT := table_OrganizationMember) _ _ _
           (fun m => member_of (organization_id org) (user_id u) m = true /\ member_role m = OrgRole.OWNER))
    in E4 as (lm & -> & Hlm & Hm & [Hmo Hmr] & _); [|done|done|by split; [unfold member_of; cbn; rewrite !bd_refl|]|exact Um].
  rewrite run_bind. destruct (run (seed_venue e org) _) as [w5 [v|]] eqn:E5; [|done].
  apply seed_venue_ok in E5 as (lv & -> & Hlv & Hv & Hvi & Hvo & Hvu); [|exact Uv]. rewrite run_bind, Hvi.
  match goal with |- context [run (for_each workerSpecs ?b) ?x] => set (w5 := x) end.
  assert (tables_unique w5) as U5 by by split.
  destruct (run (for_each _ _) w5) as [w6 [[]|]] eqn:E6; [|done].
  destruct (seed_workers_ok _ _ _ _ _ U5 specs_apart E6) as [F Hws]. pose proof (wf_unique _ _ _ _ F U5) as U6.
  destruct F as [_ F1 F2 F3 F4 F5 F6 _]. rewrite run_bind, run_freshId, run_bind. cbv beta iota.
  match goal with |- context [run (upsert ?p ?f ?r) ?x] => destruct (run (upsert p f r) x) as [w7 [q|]] eqn:E7; [|done] end.
  apply (upsert_ok (HT := table_AllocationPolicy) _ _ _ (fun q => policy_key DemoConfig.venueId q = true))
    in E7 as (lq & -> & Hlq & Hq & Hqk & _); [|done|done|unfold policy_key; cbn; by rewrite bd_refl|exact (tu_policies _ U6)].
  rewrite run_query. intros [= <- <-]. split_and!; [|destruct U6; by split|done].
  exists (user_id u), org, v, m, q. split_and!; auto; cbn in *; try (by rewrite ?F1, ?F2, ?F4).
  - apply F5; [exact Hu|]. intros s Hs. cbn.
    destruct Hs as [<-|[<-|[<-|[]]]]; split; apply (bool_decide_unpack _); exact I.
  - exists k. split; [by apply F6|done].
Qed.

Lemma seed_again e w :
  tables_unique w -> seeded e w -> exists t, run (seed e) w = (w <| w_tick := t |>, Ok (counts_of w)).
Proof.
  intros U (i & org & v & m & q & Hu & Hk & Ho & (Hm & Hmo & Hmr) & (Hv & Hvi & Hvo & Hvu) & Hws & Hq & Hqk).
  destruct U as [Uu Uw Um Uv Ua Up] eqn:EU. unfold seed.
  rewrite run_bind, (upsertUser_again _ _ _ _ i w Uu Hu), run_bind. cbn [user_id].
  destruct (upsertWorker_again i w Uw Hk) as [k ->]. rewrite run_bind.
  unfold seed_organization at 1. rewrite run_bind, run_findFirst. wcbn. rewrite Ho, run_ret. cbv beta iota.
  rewrite run_bind, run_freshId, run_bind. cbv beta iota.
  rewrite (upsert_again (HT := table_OrganizationMember) _ _ _ _ m); [|done..| |].
  2: { intros b Hb. unfold member_of in Hmo, Hb. rewrite !andb_true_iff, !bool_decide_eq_true in Hmo, Hb. cbn.
       destruct Hmo as [-> ->], Hb as [-> ->]. by rewrite !bd_refl, orb_true_r. }
  2: { destruct m. cbn in *. by rewrite <- Hmr. }
  rewrite run_bind. rewrite (seed_venue_again e org v); [|done..]. rewrite run_bind, Hvi.
  match goal with |- context [run (for_each workerSpecs ?b) ?x] =>
    assert (exists t, run (for_each workerSpecs b) x = (w <| w_tick := t |>, Ok tt)) as [t ->] end.
  { clear - Hws Uu Uw Um Uv Ua Up. match goal with |- context [run _ ?x] => assert (exists t, x = w <| w_tick := t |>) as [t ->] end.
    { by eexists. }
    revert t. induction Hws as [|s specs Hs _ IH]; intros t; cbn [for_each]; [by eexists|].
    destruct (seed_worker_again DemoConfig.venueId i s (w <| w_tick := t |>)) as [t' Ht']; [by split|done|].
    rewrite run_bind, Ht'. apply (IH t'). }
  rewrite run_bind, run_freshId, run_bind. cbv beta iota.
  rewrite (upsert_again (HT := table_AllocationPolicy) _ _ _ _ q); [|done..| |done].
  - rewrite run_query. by eexists.
  - intros b Hb. unfold policy_key in Hqk, Hb. rewrite !andb_true_iff, !bool_decide_eq_true, !Z.eqb_eq in Hqk, Hb. cbn.
    destruct Hqk as [-> ->], Hb as [-> ->]. by rewrite !bd_refl, orb_true_r.
Qed.

(** C39: the seed is idempotent: on any database whose unique columns are unique, a
    run that succeeds leaves what the seed promises, and a second run right after
    it succeeds, answers the same counts, adds and removes no row, and leaves every
    column of the rows that the model has as it was.  (Of the users it updates with
    the values they have, the database client also rewrites updatedAt,
    schema.prisma:42, which is not in the model.) *)
Theorem seed_idempotent e w w1 c :
  tables_unique w -> run (seed e) w = (w1, Ok c) ->
  seeded e w1 /\ exists t, run (seed e) w1 = (w1 <| w_tick := t |>, Ok c).
Proof.
  intros Hw Hr. destruct (seed_ok _ _ _ _ Hw Hr) as (Hs & Hu & ->). split; [done|]. by apply seed_again.
Qed.

(** A venue of the organization with the name of the demo and another identifier
    stops the seed before any venue, mapping or policy is written. *)
Theorem seed_refuses_other_venue e w w' r other :
  run (seed e) w = (w', r) -> List.find (by_id DemoConfig.venueId) (w_venues w) = None ->
  (exists org, List.find by_legalName (w_organizations w) = Some org /\
     In other (w_venues w) /\ venue_organizationId other = organization_id org /\ venue_name other = DemoConfig.venueName) ->
  is_ok r = false /\ w_venues w' = w_venues w /\ w_accounts w' = w_accounts w /\ w_policies w' = w_policies w.
Proof.
  intros Hr Hnone (org & Ho & Hin & Horg & Hname). revert Hr. unfold seed. rewrite run_bind.
  set (same := fun x : World => (w_venues x, w_organizations x, w_accounts x, w_policies x)).
  assert (forall a em n ro, guar (same_on same) (upsertUser a em n ro)) as Gu.
  { intros. unfold upsertUser, updateUnique. guar_at (same_on same). }
  assert (forall i, guar (same_on same) (upsertWorker i)) as Gw by (intros; unfold upsertWorker; guar_at (same_on same)).
  pose proof (guar_run _ _ w (Gu DemoConfig.managerAuthUserId DemoConfig.managerEmail "Demo Manager" GlobalRole.VENUE_MANAGER)) as H1.
  destruct (run (upsertUser _ _ _ _) w) as [w1 [u|x]]; cbn [fst] in H1; [|intros [= <- <-]; by injection H1 as -> _ -> ->].
  rewrite run_bind. pose proof (guar_run _ _ w1 (Gw (user_id u))) as H2.
  destruct (run (upsertWorker _) w1) as [w2 [k|x]]; cbn [fst] in H2; unfold same_on, same in *; rewrite H1 in H2;
    [|intros [= <- <-]; by injection H2 as -> _ -> ->].
  injection H2 as Hv2 Ho2 Ha2 Hp2. rewrite run_bind. unfold seed_organization at 1. wexec. rewrite Ho2, Ho. wexec.
  match goal with |- context [List.find ?p (w_members w2)] => destruct (List.find p (w_members w2)) end; wexec;
    [|destruct (existsb _ _); [intros [= <- <-]; cbn; by rewrite Hv2, Ha2, Hp2|wexec]].
  all: unfold seed_venue; wexec; rewrite Hv2, Hnone; wexec.
  all: match goal with |- context [List.find ?p ?l] => destruct (List.find p l) as [v|] eqn:E end;
    [|apply (List.find_none _ _ E) in Hin; by rewrite Horg, Hname, !bd_refl in Hin].
  all: wexec; intros [= <- <-]; cbn; by rewrite Hv2, Ha2, Hp2.
Qed.
End main.

(* ------------------------------------------------------------------ *)
(** ** A fresh database *)

Definition seeded_demo : World := Eval vm_compute in (run (seed []) empty_world).1.

Lemma seeded_demo_run : exists c : Counts, run (seed []) empty_world = (seeded_demo, Ok c).
Proof. eexists. vm_compute. reflexivity. Qed.

Lemma seed_idempotent_witness :
  exists c : Counts, run (seed []) empty_world = (seeded_demo, Ok c) /\
    seeded [] seeded_demo /\ exists t, run (seed []) seeded_demo = (seeded_demo <| w_tick := t |>, Ok c).
Proof.
  destruct seeded_demo_run as [c Hc]. exists c. split; [exact Hc|].
  apply (seed_idempotent [] empty_world seeded_demo c); [by split|exact Hc].
Defined.

Definition other_diner : World :=
  empty_world <| w_organizations := [mkOrganization "o" DemoConfig.organizationLegalName "Demo" OrganizationStatus.ACTIVE "US" "UTC"] |>
    <| w_venues := [mkVenue "v" "o" DemoConfig.venueName "UTC" None None None []] |>.

Lemma seed_refuses_other_venue_witness :
  is_ok (run (seed []) other_diner).2 = false /\ w_venues (run (seed []) other_diner).1 = w_venues other_diner.
Proof.
  destruct (run (seed []) other_diner) as [w' r] eqn:E.
  destruct (seed_refuses_other_venue [] other_diner w' r (mkVenue "v" "o" DemoConfig.venueName "UTC" None None None []) E)
    as (H1 & H2 & _); [reflexivity| |by split].
  eexists. split; [reflexivity|]. split; [by left|done].
Defined.

End Seeding.
