(* ===== verification/DemoDoctor.v ===== *)
(** * The readiness check of the demo

    packages/db/prisma/demo-doctor.mjs: the variables of the .env file, and the
    checks of the database and of the cluster before a demo.  The cluster is read
    as a ledger of OnChain.v, at an RPC address and an instant ([Devnet]); the
    addresses of the venue are those the client derives (Settling.v).  The report
    is a list of checks; the code prints it and throws when one has failed.

    [doctor_ready]: what holds of the database and the cluster when the check
    passes.  [ready_demo_pays]: on a cluster that passes, a running protocol carries
    out a new payment to a worker of up to the amount the check asks for.
    [paused_demo_passes]: the check does not read whether the protocol runs. *)

From stdpp Require Import relations gmap.
From S2P Require Import Prelude Concurrency Strings Schema Demo Evidence OnChain Settling Seeding.

Open Scope Z_scope.

Module DemoDoctor.
Import Seeding.

(* ------------------------------------------------------------------ *)
(** ** The .env file *)

Definition first_is (c : ascii) (s : string) : bool :=
  match s with String a _ => Ascii.eqb a c | EmptyString => false end.
Fixpoint last_is (c : ascii) (s : string) : bool :=
  match s with
  | EmptyString => false
  | String a "" => Ascii.eqb a c
  | String _ s' => last_is c s'
  end.

(** [value.replace(/\s+#.*$/, "")] *)
Fixpoint strip_comment (s : string) : string :=
  match s with
  | EmptyString => ""
  | String c s' => if is_space c && first_is "#" (trim_start s') then "" else String c (strip_comment s')
  end.

Definition quoted (value : string) : bool :=
  (first_is EvidenceService.QUOTE value && last_is EvidenceService.QUOTE value)
  || (first_is "'" value && last_is "'" value).

(** [value.slice(1, -1)] *)
Definition inner (value : string) : string := String.substring 1 (String.length value - 2) value.

(** The loop's body: the variable of a line, if it sets one. *)
Definition env_line (rawLine : string) : option (string * string) :=
  let line := trim rawLine in
  if (line ==? "") || first_is "#" line then None
  else match indexOf "=" line with
       | None | Some O => None
       | Some separator =>
           let key := trim (slice_to line separator) in
           let value := trim (slice_from line (S separator)) in
           Some (key, if quoted value then inner value else strip_comment value)
       end.

Definition add_env (e : env) (rawLine : string) : env :=
  match env_line rawLine with
  | Some (key, value) => match map_get e key with None => map_set e key value | Some _ => e end
  | None => e
  end.

(** [file] is the text of the .env file, if there is one. *)
Definition loadRootEnv (file : option string) (e : env) : env :=
  match file with
  | None => e
  | Some text => fold_left add_env (EvidenceService.split_lines (split "010" text)) e
  end.

Definition tab : string := String "009" "".
Definition double_quoted (s : string) : string := String EvidenceService.QUOTE (s +:+ String EvidenceService.QUOTE "").
Definition lines_text (l : list string) : string := join (String "010" "") l.

Example loadRootEnv_ex :
  loadRootEnv (Some (lines_text
      ["# local"; "A=1"; " B = two words " +:+ tab +:+ "# why"; "C=" +:+ double_quoted "x # y"; "=no"; "D"; "A=2"; "E='q'"; "F=a#b"]))
    [("C", "kept")]
  = [("C", "kept"); ("A", "1"); ("B", "two words"); ("E", "q"); ("F", "a#b")].
Proof. vm_compute. reflexivity. Qed.

(** A variable the process has is never replaced by the file. *)
Theorem loadRootEnv_keeps file e k v : map_get e k = Some v -> map_get (loadRootEnv file e) k = Some v.
Proof.
  intros Hk. destruct file as [text|]; [|done]. unfold loadRootEnv.
  induction (EvidenceService.split_lines _) as [|line ls IH] in e, Hk |- *; cbn [fold_left]; [done|].
  apply IH. unfold add_env. destruct (env_line line) as [[key value]|]; [|done].
  destruct (map_get e key) eqn:E; [done|]. rewrite map_get_set_ne; [done|]. congruence.
Qed.

Lemma loadRootEnv_keeps_witness :
  map_get [("APP_ENV", "local")] "APP_ENV" = Some "local" /\
  map_get (loadRootEnv (Some "APP_ENV=staging") [("APP_ENV", "local")]) "APP_ENV" = Some "local".
Proof. split; [reflexivity|]. apply loadRootEnv_keeps. reflexivity. Defined.

(* ------------------------------------------------------------------ *)
(** ** The checks *)

Inductive Status := PASS | FAIL | WARN.
#[global] Instance Status_eq_dec : EqDecision Status.
Proof. solve_decision. Defined.

Record Check := mkCheck { ck_status : Status; ck_name : string; ck_detail : string }.
Definition pass (name detail : string) : Check := mkCheck PASS name detail.
Definition fail (name detail : string) : Check := mkCheck FAIL name detail.
Definition warn (name detail : string) : Check := mkCheck WARN name detail.

(** The cluster behind an RPC address at an instant: its ledger, the lamports of
    an account, what [new PublicKey] accepts, and the text of a quotient. *)
Class Devnet := {
  ledgerAt : string -> nat -> result Serveproof.Ledger;
  balanceAt : string -> string -> nat -> result Z;
  isPublicKey : string -> bool;
  quotientText : Z -> Z -> string
}.

(** A mapping with what its [include] adds. *)
Record MappedWorker := mkMapped {
  mw_account : ExternalWorkerAccount;
  mw_userId : string;
  mw_displayName : string;
  mw_defaultWallet : option WorkerWallet
}.

Definition mapped_worker (w : World) (a : ExternalWorkerAccount) : MappedWorker :=
  let worker := List.find (by_id (account_workerId a)) (w_workers w) in
  let user : option User := worker ≫= (fun k => List.find (by_id (worker_userId k)) (w_users w)) in
  let walletId : option string := worker ≫= worker_defaultWalletId in
  mkMapped a (nullish (user_id <$> user) "") (nullish (user_displayName <$> user) "")
    (walletId ≫= (fun i => List.find (by_id i) (w_wallets w))).

Definition demo_workers : list string := ["worker_001"; "worker_002"; "worker_003"].

(** [prisma.externalWorkerAccount.findMany({ where, include })] *)
Definition demo_mappings (venueId : string) (w : World) : list MappedWorker :=
  map (mapped_worker w)
    (List.filter (fun a => (account_venueId a ==? venueId) && includes demo_workers (account_externalWorkerId a))
       (w_accounts w)).

Definition allowed_env (appEnv : string) : bool := includes ["local"; "staging"] appEnv.
Definition app_env (e : env) : string := nullish (map_get e "APP_ENV") "local".

Definition environment_check (appEnv : string) : Check :=
  if allowed_env appEnv then pass "environment" appEnv
  else fail "environment" ("APP_ENV=" +:+ appEnv +:+ " is not allowed for demo operations").

Definition organization_check (organization : option Organization) : Check :=
  match organization with
  | None => fail "organization" (DemoConfig.organizationLegalName +:+ " is missing")
  | Some o => pass "organization" (organization_displayName o +:+ " (" +:+ organization_id o +:+ ")")
  end.

Definition conflict_check (conflictingVenue : option Venue) : list Check :=
  match conflictingVenue with
  | Some v => [fail "venue identity" (DemoConfig.venueName +:+ " also exists as " +:+ venue_id v
                                      +:+ "; expected only " +:+ DemoConfig.venueId)]
  | None => []
  end.

Definition venue_check (organization : option Organization) (venue : option Venue) : Check :=
  match venue with
  | None => fail "venue identity" (DemoConfig.venueId +:+ " is missing")
  | Some v =>
      if (organization_id <$> organization) ==? Some (venue_organizationId v)
      then pass "venue identity" (venue_name v +:+ " (" +:+ venue_id v +:+ ")")
      else fail "venue identity" "canonical venue belongs to the wrong organization"
  end.

Definition owner (organization : option Organization) (memberships : list OrganizationMember) : bool :=
  existsb (fun m => ((organization_id <$> organization) ==? Some (member_organizationId m))
                    && (member_role m ==? OrgRole.OWNER)) memberships.

Definition manager_check (organization : option Organization) (manager : option (User * list OrganizationMember)) : Check :=
  match manager with
  | Some (u, memberships) =>
      if owner organization memberships then pass "manager authority" (user_email u +:+ " is OWNER")
      else fail "manager authority" (DemoConfig.managerEmail +:+ " is not OWNER")
  | None => fail "manager authority" (DemoConfig.managerEmail +:+ " is not OWNER")
  end.

Definition mappings_check (mappings : list MappedWorker) : Check :=
  if (length mappings =? 3)%nat then pass "worker mappings" "Alice, Bob, and Carol are mapped"
  else fail "worker mappings" ("expected 3, found " +:+ str_of_Z (Z.of_nat (length mappings))).

Definition find_mapped (mappings : list MappedWorker) (externalWorkerId : string) : option MappedWorker :=
  List.find (fun m => account_externalWorkerId (mw_account m) ==? externalWorkerId) mappings.

Section checks.
Context `{Platform} `{Devnet} `{Serveproof.Runtime} `{Settling.Digest}.

(** The body of the loop over the two workers that are paid in USDC. *)
Definition wallet_check (strictWallets : bool) (mappings : list MappedWorker) (externalWorkerId : string) : Check :=
  let mapping := find_mapped mappings externalWorkerId in
  match mapping ≫= fun m => (pair m) <$> mw_defaultWallet m with
  | Some (m, wallet) =>
      if wallet_status wallet ==? WalletStatus.ACTIVE
      then if isPublicKey (wallet_address wallet)
           then pass "recipient wallet" (mw_displayName m +:+ ": " +:+ wallet_address wallet)
           else fail "recipient wallet" (mw_displayName m +:+ " has an invalid Solana address")
      else (if strictWallets then fail else warn) "recipient wallet"
             (mw_displayName m +:+ " has no active default wallet")
  | None => (if strictWallets then fail else warn) "recipient wallet"
              (nullish (mw_displayName <$> mapping) externalWorkerId +:+ " has no active default wallet")
  end.

Definition rpc_url (e : env) (appEnv : string) : string :=
  nullish (map_get e "DEMO_SOLANA_RPC_URL")
    (if appEnv ==? "staging" then DemoConfig.rpcUrl
     else nullish (map_get e "SOLANA_RPC_URL") DemoConfig.rpcUrl).

Definition derived_json (p : Settling.ServeproofPdas) : json :=
  JObj [("venue", JStr (Settling.pda_venue p)); ("vaultAuthority", JStr (Settling.pda_vaultAuthority p));
        ("vault", JStr (Settling.pda_venueVault p))].

Definition derivation_check (p : Settling.ServeproofPdas) : Check :=
  if (Settling.pda_venue p !=? DemoConfig.venuePda) || (Settling.pda_vaultAuthority p !=? DemoConfig.vaultAuthorityPda)
     || (Settling.pda_venueVault p !=? DemoConfig.venueVault)
  then fail "PDA derivation" (stringify (derived_json p))
  else pass "PDA derivation" (Settling.pda_venue p +:+ " → " +:+ Settling.pda_venueVault p).

(** [stored !== null && stored !== derived] *)
Definition mismatch (stored : option string) (derived : string) : bool :=
  match stored with Some s => s !=? derived | None => false end.

Definition references_check (v : Venue) (p : Settling.ServeproofPdas) : Check :=
  if mismatch (venue_solanaVenuePda v) (Settling.pda_venue p)
     || mismatch (venue_vaultTokenAccount v) (Settling.pda_venueVault p)
     || (venue_payoutSignerWallet v !=? Some DemoConfig.venueAuthority)
  then fail "database on-chain references" "stored venue PDA, vault, or signer conflicts with canonical demo config"
  else if (venue_solanaVenuePda v ==? None) || (venue_vaultTokenAccount v ==? None)
  then warn "database on-chain references"
         "PDA/vault fields are empty; runtime derivation is valid and the next staging seed will persist them"
  else pass "database on-chain references" "PDA, vault, and signer match".

Definition account_at (l : Serveproof.Ledger) (k : Serveproof.Pubkey) : option Serveproof.account :=
  Serveproof.ledger_accounts l !! k.

(** A request to the cluster. *)
Definition request {A} (f : nat -> result A) : handler A := let* r := ask f in lift_result r.
Definition getLedger (url : string) : handler Serveproof.Ledger := request (ledgerAt url).

(** [getAccount] *)
Definition token_account (l : Serveproof.Ledger) (k : string) : handler Serveproof.Token :=
  match account_at l k with
  | Some (Serveproof.TokenAccount t) => Ret t
  | Some _ => Throw (JsError "TokenInvalidAccountOwnerError")
  | None => Throw (JsError "TokenAccountNotFoundError")
  end.

(** [program.account.venue.fetch] *)
Definition fetch_venue (l : Serveproof.Ledger) (k : string) : handler Serveproof.Venue :=
  match account_at l k with
  | Some (Serveproof.VenueAccount v) => Ret v
  | Some _ => Throw (JsError "Invalid account discriminator")
  | None => Throw (JsError ("Account does not exist or has no data " +:+ k))
  end.

Definition onchain_venue_check (url : string) (p : Settling.ServeproofPdas) (venueInfo : option Serveproof.account)
    : handler Check :=
  match venueInfo with
  | None => Ret (fail "on-chain venue" (Settling.pda_venue p +:+ " does not exist"))
  | Some info =>
      if negb (Serveproof.program_owned info) then Ret (fail "on-chain venue" "account owner is not ServeProof")
      else
        let* l := getLedger url in
        let* onchainVenue := fetch_venue l (Settling.pda_venue p) in
        let authority := Serveproof.venue_authority onchainVenue in
        Ret (if authority !=? DemoConfig.venueAuthority
             then fail "on-chain venue" ("authority mismatch: " +:+ authority)
             else pass "on-chain venue" (Settling.pda_venue p +:+ " owned by ServeProof"))
  end.

Definition vault_check (p : Settling.ServeproofPdas) (vaultAccount : Serveproof.Token) : Check :=
  if (Serveproof.token_mint vaultAccount !=? DemoConfig.usdcMint)
     || (Serveproof.token_owner vaultAccount !=? Settling.pda_vaultAuthority p)
  then fail "vault account" "mint or owner does not match canonical PDA derivation"
  else if Serveproof.token_amount vaultAccount <? DemoConfig.minimumVaultBaseUnits
  then fail "vault account" (quotientText (Serveproof.token_amount vaultAccount) 1000000 +:+ " tUSDC is below 60 tUSDC")
  else pass "vault account" (quotientText (Serveproof.token_amount vaultAccount) 1000000 +:+ " tUSDC").

Definition signer_check (lamports : Z) : Check :=
  if lamports <? DemoConfig.minimumSignerLamports
  then fail "signer SOL" (quotientText lamports 1000000000 +:+ " SOL is below 0.05 SOL")
  else pass "signer SOL" (quotientText lamports 1000000000 +:+ " SOL").

(** The [try] block; the three requests of its [Promise.all] in their order. *)
Definition cluster_checks (url : string) (p : Settling.ServeproofPdas) : handler (list Check) :=
  catch (let* l1 := getLedger url in
         let venueInfo := account_at l1 (Settling.pda_venue p) in
         let* signerLamports := request (balanceAt url DemoConfig.venueAuthority) in
         let* l2 := getLedger url in
         let* vaultAccount := token_account l2 (Settling.pda_venueVault p) in
         let* venue := onchain_venue_check url p venueInfo in
         Ret [venue; vault_check p vaultAccount; signer_check signerLamports])
    (fun error => Ret [fail "Solana RPC" (exn_message error)]).

Definition venue_pdas (v : Venue) : Settling.ServeproofPdas := Settling.deriveVenuePdas (venue_id v) DemoConfig.usdcMint.

Definition onchain_checks (e : env) (venue : option Venue) : handler (list Check) :=
  match venue with
  | None => Ret []
  | Some v =>
      let p := venue_pdas v in
      let* cluster := cluster_checks (rpc_url e (app_env e)) p in
      Ret (derivation_check p :: references_check v p :: cluster)
  end.

(** The checks of the database: their list and the venue. *)
Definition database_checks (e : env) (strictWallets : bool) : handler (list Check * option Venue) :=
  let* organization := findFirst by_legalName in
  let* venue := findUnique (R:=Venue) DemoConfig.venueId in
  let* conflictingVenue := match organization with
                           | Some o => findFirst (fun v => (venue_organizationId v ==? organization_id o)
                                         && (venue_name v ==? DemoConfig.venueName) && (venue_id v !=? DemoConfig.venueId))
                           | None => Ret None
                           end in
  let* manager := query (fun w => option_map (fun u => (u, List.filter (fun m => member_userId m ==? user_id u) (w_members w)))
                                    (List.find (by_email DemoConfig.managerEmail) (w_users w))) in
  let* mappings := match venue with
                   | Some v => query (demo_mappings (venue_id v))
                   | None => Ret []
                   end in
  Ret ([environment_check (app_env e); organization_check organization] ++ conflict_check conflictingVenue
       ++ [venue_check organization venue; manager_check organization manager; mappings_check mappings]
       ++ map (wallet_check strictWallets mappings) ["worker_001"; "worker_002"], venue).

Definition runDemoDoctor (e : env) (strictWallets : bool) : handler (list Check) :=
  let* ' (checks, venue) := database_checks e strictWallets in
  let* onchain := onchain_checks e venue in
  let checks := checks ++ onchain in
  if existsb (fun c => ck_status c ==? FAIL) checks
  then Throw (JsError "Demo readiness checks failed") else Ret checks.
End checks.

(* ------------------------------------------------------------------ *)
(** ** What a check that does not fail says *)

Definition ready (c : Check) : Prop := ck_status c <> FAIL.

Lemma environment_ready a : ready (environment_check a) -> allowed_env a = true.
Proof. unfold ready, environment_check. by destruct (allowed_env a). Qed.

Lemma venue_ready o v : ready (venue_check o v) ->
  exists org venue, o = Some org /\ v = Some venue /\ venue_organizationId venue = organization_id org.
Proof.
  unfold ready, venue_check. destruct v as [v|]; [|done]. destruct o as [o|]; cbn; case_bool_decide as E; try done.
  intros _. injection E as E. by exists o, v.
Qed.

Lemma conflict_ready (p : Venue -> bool) l : Forall ready (conflict_check (List.find p l)) -> forall v, In v l -> p v = false.
Proof.
  destruct (List.find p l) as [v|] eqn:E; cbn; [by intros [H _]%Forall_cons|]. intros _ v Hv.
  by apply (List.find_none _ _ E).
Qed.

Lemma manager_ready org m : ready (manager_check (Some org) m) ->
  exists u ms, m = Some (u, ms) /\
    exists x, In x ms /\ member_organizationId x = organization_id org /\ member_role x = OrgRole.OWNER.
Proof.
  unfold ready, manager_check. destruct m as [[u ms]|]; [|done]. destruct (owner _ ms) eqn:E; [|done]. intros _.
  exists u, ms. split; [done|]. apply existsb_exists in E as (x & Hx & [Ho Hr]%andb_true_iff).
  apply bool_decide_eq_true in Ho, Hr. injection Ho as Ho. eauto.
Qed.

Lemma mappings_ready l : ready (mappings_check l) -> length l = 3%nat.
Proof. unfold ready, mappings_check. destruct (Nat.eqb_spec (length l) 3); [done|done]. Qed.

Section ready.
Context `{Platform} `{Devnet} `{Serveproof.Runtime} `{Settling.Digest}.

Lemma wallet_ready ms x : ready (wallet_check true ms x) ->
  exists m wallet, find_mapped ms x = Some m /\ mw_defaultWallet m = Some wallet /\
    wallet_status wallet = WalletStatus.ACTIVE /\ isPublicKey (wallet_address wallet) = true.
Proof.
  unfold ready, wallet_check. destruct (find_mapped ms x) as [m|]; cbn; [|done].
  destruct (mw_defaultWallet m) as [wallet|] eqn:E; cbn; [|done]. case_bool_decide; [|done].
  destruct (isPublicKey _) eqn:Ek; [|done]. intros _. by exists m, wallet.
Qed.

Lemma derivation_ready p : ready (derivation_check p) ->
  Settling.pda_venue p = DemoConfig.venuePda /\ Settling.pda_vaultAuthority p = DemoConfig.vaultAuthorityPda /\
  Settling.pda_venueVault p = DemoConfig.venueVault.
Proof. unfold ready, derivation_check. repeat case_bool_decide; done. Qed.

Lemma references_ready v p : ready (references_check v p) -> venue_payoutSignerWallet v = Some DemoConfig.venueAuthority.
Proof. unfold ready, references_check. repeat case_bool_decide; rewrite ?orb_true_r; done. Qed.

Lemma vault_ready p t : ready (vault_check p t) ->
  Serveproof.token_mint t = DemoConfig.usdcMint /\ Serveproof.token_owner t = Settling.pda_vaultAuthority p /\
  DemoConfig.minimumVaultBaseUnits <= Serveproof.token_amount t.
Proof.
  unfold ready, vault_check. do 2 case_bool_decide; cbn; try done. destruct (Z.ltb_spec (Serveproof.token_amount t) DemoConfig.minimumVaultBaseUnits); done.
Qed.

Lemma signer_ready z : ready (signer_check z) -> DemoConfig.minimumSignerLamports <= z.
Proof. unfold ready, signer_check. destruct (Z.ltb_spec z DemoConfig.minimumSignerLamports); done. Qed.

(** The venue, the vault and the signer on the cluster, in the ledgers of two
    instants at most. *)
Definition cluster_ready (url : string) (p : Settling.ServeproofPdas) : Prop :=
  exists t2 l2 t3 l3 venue vault t lamports,
    ledgerAt url t2 = Ok l2 /\ ledgerAt url t3 = Ok l3 /\ balanceAt url DemoConfig.venueAuthority t = Ok lamports /\
    account_at l3 (Settling.pda_venue p) = Some (Serveproof.VenueAccount venue) /\
    Serveproof.venue_authority venue = DemoConfig.venueAuthority /\
    account_at l2 (Settling.pda_venueVault p) = Some (Serveproof.TokenAccount vault) /\
    Serveproof.token_mint vault = DemoConfig.usdcMint /\
    Serveproof.token_owner vault = Settling.pda_vaultAuthority p /\
    DemoConfig.minimumVaultBaseUnits <= Serveproof.token_amount vault /\
    DemoConfig.minimumSignerLamports <= lamports.

Lemma run_request {A} (f : nat -> result A) (w : World) : run (request f) w = (w <| w_tick ::= S |>, f (w_tick w)).
Proof. unfold request. rewrite run_bind, run_ask. by destruct (f (w_tick w)). Qed.

Lemma cluster_checks_ready url p w w' cs :
  run (cluster_checks url p) w = (w', Ok cs) -> Forall ready cs -> cluster_ready url p.
Proof.
  unfold cluster_checks, getLedger. rewrite run_catch.
  destruct (run (bind _ _) w) as [w1 [cs'|x]] eqn:E; [|intros [= <- <-]; by intros [? _]%Forall_cons].
  intros [= <- <-]. revert E. rewrite run_bind, run_request. wcbn.
  destruct (ledgerAt url (w_tick w)) as [l1|] eqn:E1; [|done]. rewrite run_bind, run_request. wcbn.
  destruct (balanceAt url DemoConfig.venueAuthority (S (w_tick w))) as [lamports|] eqn:E2; [|done].
  rewrite run_bind, run_request. wcbn. destruct (ledgerAt url (S (S (w_tick w)))) as [l2|] eqn:E3; [|done].
  rewrite run_bind. unfold token_account, onchain_venue_check, fetch_venue, getLedger.
  destruct (account_at l2 (Settling.pda_venueVault p)) as [[| | |vault| |]|] eqn:Ev; try done.
  rewrite run_ret, run_bind.
  destruct (account_at l1 (Settling.pda_venue p)) as [info|]; [|rewrite !run_ret; intros [= <- <-]; by intros [? _]%Forall_cons].
  destruct (Serveproof.program_owned info); cbn [negb]; [|rewrite !run_ret; intros [= <- <-]; by intros [? _]%Forall_cons].
  rewrite run_bind, run_request. wcbn.
  destruct (ledgerAt url (S (S (S (w_tick w))))) as [l3|] eqn:E4; [|done]. rewrite run_bind.
  destruct (account_at l3 (Settling.pda_venue p)) as [[|venue| | | |]|] eqn:Ep; try done.
  rewrite !run_ret. intros [= <- <-]. rewrite !Forall_cons. intros (Ha & Hv & Hs & _).
  destruct (decide (Serveproof.venue_authority venue = DemoConfig.venueAuthority)) as [Hauth|Hauth];
    [|exfalso; apply Ha; by rewrite bool_decide_false].
  destruct (vault_ready _ _ Hv) as (? & ? & ?). pose proof (signer_ready _ Hs).
  eexists _, l2, _, l3, venue, vault, _, lamports. split_and!; eauto.
Qed.

(** The demo rows of the database. *)
Definition database_ready (w : World) : Prop :=
  exists org venue manager membership,
    List.find by_legalName (w_organizations w) = Some org /\
    List.find (by_id DemoConfig.venueId) (w_venues w) = Some venue /\
    venue_organizationId venue = organization_id org /\
    venue_payoutSignerWallet venue = Some DemoConfig.venueAuthority /\
    (forall v, In v (w_venues w) -> venue_organizationId v = organization_id org -> venue_name v = DemoConfig.venueName ->
       venue_id v = DemoConfig.venueId) /\
    List.find (by_email DemoConfig.managerEmail) (w_users w) = Some manager /\
    (In membership (w_members w) /\ member_userId membership = user_id manager /\
       member_organizationId membership = organization_id org /\ member_role membership = OrgRole.OWNER) /\
    length (demo_mappings DemoConfig.venueId w) = 3%nat /\
    forall x, In x ["worker_001"; "worker_002"] ->
      exists m wallet, find_mapped (demo_mappings DemoConfig.venueId w) x = Some m /\ mw_defaultWallet m = Some wallet /\
        wallet_status wallet = WalletStatus.ACTIVE /\ isPublicKey (wallet_address wallet) = true.

(** The addresses the client derives for the venue of the demo. *)
Definition demo_pdas : Settling.ServeproofPdas := Settling.deriveVenuePdas DemoConfig.venueId DemoConfig.usdcMint.

(** The check only reads. *)
Lemma doctor_reads e strict : guar (same_on (fun w : World => w <| w_tick := 0%nat |>)) (runDemoDoctor e strict).
Proof.
  unfold runDemoDoctor, database_checks, onchain_checks, cluster_checks, token_account, onchain_venue_check, fetch_venue,
    getLedger, request, ask.
  guar_at (same_on (fun w : World => w <| w_tick := 0%nat |>)).
Qed.

(** What the statements of the database part read. *)
Lemma run_database_checks e strict w :
  run (database_checks e strict) w =
  (w, Ok (let organization := List.find by_legalName (w_organizations w) in
          let venue := List.find (by_id DemoConfig.venueId) (w_venues w) in
          let conflicting := match organization with
                             | Some o => List.find (fun v => (venue_organizationId v ==? organization_id o)
                                  && (venue_name v ==? DemoConfig.venueName) && (venue_id v !=? DemoConfig.venueId)) (w_venues w)
                             | None => None
                             end in
          let manager := option_map (fun u => (u, List.filter (fun m => member_userId m ==? user_id u) (w_members w)))
                           (List.find (by_email DemoConfig.managerEmail) (w_users w)) in
          let mappings := match venue with Some v => demo_mappings (venue_id v) w | None => [] end in
          ([environment_check (app_env e); organization_check organization] ++ conflict_check conflicting
           ++ [venue_check organization venue; manager_check organization manager; mappings_check mappings]
           ++ map (wallet_check strict mappings) ["worker_001"; "worker_002"], venue))).
Proof.
  unfold database_checks. wexec. destruct (List.find by_legalName (w_organizations w)); wexec;
    destruct (List.find (by_id DemoConfig.venueId) (w_venues w)); wexec; reflexivity.
Qed.

Lemma forall_ready cs : existsb (fun c => ck_status c ==? FAIL) cs = false -> Forall ready cs.
Proof.
  intros He. apply List.Forall_forall. intros c Hc Hf. apply not_true_iff_false in He. apply He, existsb_exists.
  exists c. by rewrite Hf, bd_refl.
Qed.

(** When the check of the demo passes, the database holds the organization with
    its owner, the one venue of that name with the configured signer, three
    mappings and two usable wallets; the addresses the client derives are the
    configured ones; and the cluster holds the venue with the configured authority,
    its vault with the mint, the derived owner and at least the asked amount, and
    the lamports.  Nothing was written. *)
Theorem doctor_ready e w w' checks :
  run (runDemoDoctor e true) w = (w', Ok checks) ->
  allowed_env (app_env e) = true /\ database_ready w /\
  Settling.pda_venue demo_pdas = DemoConfig.venuePda /\ Settling.pda_venueVault demo_pdas = DemoConfig.venueVault /\
  cluster_ready (rpc_url e (app_env e)) demo_pdas /\ w' <| w_tick := 0%nat |> = w <| w_tick := 0%nat |>.
Proof.
  intros Hr. pose proof (guar_run _ _ w (doctor_reads e true)) as Hsame. rewrite Hr in Hsame. revert Hr.
  unfold runDemoDoctor. rewrite run_bind, run_database_checks. cbv beta iota zeta. rewrite run_bind.
  destruct (run (onchain_checks e _) w) as [w1 [onchain|]] eqn:Eon; [|done].
  destruct (existsb _ _) eqn:Ef; [done|]. intros [= -> _]. apply forall_ready in Ef.
  cbn [map] in Ef. rewrite !Forall_app, !Forall_cons in Ef.
  destruct Ef as (((Henv & _) & Hconf & (Hv & Hm & Hmap & _) & Hw1 & Hw2 & _) & Hon).
  destruct (venue_ready _ _ Hv) as (org & v & Eo & Ev & Hvo). rewrite Eo, Ev in *.
  assert (venue_id v = DemoConfig.venueId) as Hvi by (apply find_In in Ev as [_ Hi]; by apply bool_decide_eq_true in Hi).
  rewrite Hvi in *. revert Eon. unfold onchain_checks, venue_pdas. rewrite run_bind, Hvi. fold demo_pdas.
  destruct (run (cluster_checks _ _) w) as [w2 [cluster|]] eqn:Ec; [|done]. rewrite run_ret. intros [= -> <-].
  rewrite !Forall_cons in Hon. destruct Hon as (Hd & Href & Hcl). apply derivation_ready in Hd as (? & ? & ?).
  apply manager_ready in Hm as (u & ms & Em & x & Hx & Hxo & Hxr).
  destruct (List.find (by_email DemoConfig.managerEmail) (w_users w)) as [u'|] eqn:Eu; [|done].
  injection Em as -> <-. apply List.filter_In in Hx as [Hx Hxu%bool_decide_eq_true].
  split_and!; eauto using environment_ready, cluster_checks_ready.
  exists org, v, u, x. split_and!; eauto using references_ready, mappings_ready.
  - intros v' Hv' Ho' Hn'. pose proof (conflict_ready _ _ Hconf v' Hv') as Hc. cbv beta in Hc. rewrite Ho', Hn', !bd_refl in Hc.
    cbn in Hc. apply negb_false_iff, bool_decide_eq_true in Hc. done.
  - intros y [<-|[<-|[]]]; by apply wallet_ready.
Qed.

End ready.

(* ------------------------------------------------------------------ *)
(** ** A demo that is ready *)

Import Serveproof Validator.

(** The cluster of the examples, on which the three addresses of the demo are the
    configured ones. *)
Definition devnet_name (k : Pubkey) : Pubkey :=
  let venue := address [VENUE_SEED; Bytes (take 32 (map (fun a => Z.of_N (N_of_ascii a)) (list_of_str DemoConfig.venueId)))] in
  if k ==? venue then DemoConfig.venuePda
  else if k ==? address [VAULT_AUTHORITY_SEED; Key DemoConfig.venuePda] then DemoConfig.vaultAuthorityPda
  else if k ==? "ata/" +:+ DemoConfig.usdcMint +:+ "/" +:+ DemoConfig.vaultAuthorityPda then DemoConfig.venueVault
  else k.

#[local] Instance devnet_runtime : Runtime := {
  find_program_address seeds := (devnet_name (address seeds), 255);
  create_program_address seeds bump := if bump =? 255 then Some (devnet_name (address seeds)) else None;
  associated_token mint owner := devnet_name ("ata/" +:+ mint +:+ "/" +:+ owner);
  transfer_checked := transfer
}.
#[local] Instance devnet_laws : RuntimeLaws.
Proof. split; [done|exact (@transfer_effect validator validator_laws)|exact (@transfer_done validator validator_laws)]. Qed.
#[local] Instance devnet_digest : Settling.Digest := Settling.demo_digest.

Definition mint_ledger : Ledger := mkLedger {[ DemoConfig.usdcMint := MintAccount (mkMint 6) ]} [].
Definition opening : list instruction :=
  let config := (find_program_address [CONFIG_SEED]).1 in
  let id := Settling.sha256Bytes DemoConfig.venueId in
  [IInitializeConfig (mkInitializeConfig config DemoConfig.usdcMint "admin");
   IRegisterVenue (mkRegisterVenue config DemoConfig.venuePda "admin") id DemoConfig.venueAuthority;
   IInitializeVenueVault (mkInitializeVenueVault config DemoConfig.venuePda DemoConfig.vaultAuthorityPda
     DemoConfig.usdcMint DemoConfig.venueVault "admin")].
Definition devnet_ledger : Ledger :=
  fund DemoConfig.venueVault 60000000 (or_same mint_ledger (execute (signed_by "admin") mint_ledger opening)).

Lemma devnet_reached : genesis mint_ledger /\ rtc step mint_ledger devnet_ledger.
Proof.
  split.
  - split; [|done]. cbn. intros k a Ha. apply lookup_singleton_Some in Ha as [_ <-]. done.
  - eapply rtc_r; [|apply fund_step; lia]. apply or_same_steps. intros l'. apply execute_steps.
Qed.

Definition devnet_of (l : Ledger) : Devnet := {|
  ledgerAt _ _ := Ok l;
  balanceAt _ _ _ := Ok 50000000;
  isPublicKey s := s !=? "";
  quotientText n d := str_of_Z (n / d)
|}.
#[local] Instance demo_devnet : Devnet := devnet_of devnet_ledger.

Definition staging : env := [("APP_ENV", "staging")].
(** The seeded database with the wallets of Alice and Bob. *)
Definition ready_world : World :=
  let w := (run (Seeding.seed staging) empty_world).1 in
  let wallet i worker := mkWorkerWallet i worker "solana" ("wallet of " +:+ worker) WalletType.EXTERNAL WalletStatus.ACTIVE true 0 in
  w <| w_wallets := map (fun k => wallet ("wallet " +:+ worker_id k) (worker_id k)) (w_workers w) |>
    <| w_workers ::= map (fun k => k <| worker_defaultWalletId := Some ("wallet " +:+ worker_id k) |>) |>.

Lemma ready_run : exists checks, run (runDemoDoctor staging true) ready_world = (ready_world <| w_tick ::= fun t => (t + 4)%nat |>, Ok checks).
Proof. eexists. vm_compute. reflexivity. Qed.

Lemma doctor_ready_witness : database_ready ready_world /\ cluster_ready DemoConfig.rpcUrl demo_pdas.
Proof.
  destruct ready_run as [checks Hr]. destruct (doctor_ready _ _ _ _ Hr) as (_ & H1 & _ & _ & H2 & _). by split.
Defined.


(** The same cluster after its admin has paused the protocol: the check passes,
    and the payment is refused. *)
Definition paused_ledger : Ledger :=
  or_same devnet_ledger (process (signed_by "admin") (IPause (mkSetPaused (find_program_address [CONFIG_SEED]).1 "admin")) devnet_ledger).

Example paused_demo_passes :
  is_ok (run (runDemoDoctor (H0 := devnet_of paused_ledger) staging true) ready_world).2 = true /\
  process (signed_by DemoConfig.venueAuthority)
    (Settling.settle_instruction DemoConfig.venueId "payment" (Settling.to_hex (hash 9)) 60000000 DemoConfig.venueAuthority
       "worker" DemoConfig.usdcMint) paused_ledger = inl (Custom ProtocolPaused).
Proof. split; vm_compute; reflexivity. Qed.

End DemoDoctor.
