(* ===== verification/DemoPrepare.v ===== *)
(** * Preparing the demo

    packages/db/prisma/demo-prepare.mjs: the operator's script that clears the
    operational rows of the demo venue and writes a paid history of four days, from
    a generated file (DemoCsv.v), after the checks of DemoDoctor.v.  The files it
    writes are effects; what it prints is not modelled, except for the figures it
    answers.  A column that names a deleted row is emptied by the database itself
    (ON DELETE SET NULL, the migrations' choice for optional references): that is not
    modelled, and the theorem is stated of rows that name none.  The archive of the signatures leaves out the creation instants of the
    payouts, which the rows do not carry.  [Number] of a text that is no unsigned
    decimal is taken for NaN.

    [prepare_spares_others]: whatever happens, rows of other venues and workers
    stay, table by table ([spared]); and without the two confirmations nothing is
    written at all.
    [reset_clears]: the reset leaves no operational row of the venue.
    [allocate_exact]: the split of a day's pool, in double precision, is exact.
    [demo_prepared]: the script on the ready demo. *)

From Stdlib Require Import Reals Lra.
From S2P Require Import Prelude Concurrency Strings Schema Demo Float64 Money AllocationEngine Income IncomeProjector.
From S2P Require Import OnChain Payouts Settling Evidence DemoCsv Seeding DemoDoctor.

Open Scope Z_scope.

Module DemoPrepare.
Import AllocationEngine Seeding DemoDoctor.

(** [JSON.stringify(value, null, 2)] and the directory of the artifacts. *)
Class Files := { pretty : json -> string; artifactDir : string }.

(* ------------------------------------------------------------------ *)
(** ** The rows of a file *)

(** [Object.fromEntries(keys.map((key, index) => [key, values[index]]))]; a field
    past the end of the line is absent. *)
Definition row_of (keys values : list string) : list (string * string) :=
  fold_left (fun m kv => map_set m kv.1 kv.2) (combine keys values) [].

Definition parseCsv (csv : string) : list (list (string * string)) :=
  match EvidenceService.split_lines (split "010" (trim csv)) with
  | header :: lines => map (fun line => row_of (split "," header) (split "," line)) lines
  | [] => []
  end.

(** [Number(s)] of an unsigned decimal: the nearest double of the quotient of its
    digits and a power of ten. *)
Definition Number (s : string) : number :=
  let '(whole, rest) := span is_digit s in
  match rest with
  | EmptyString => if whole ==? "" then num_of_Z 0 else num_of_Z (digits_value whole)
  | String c frac =>
      if Ascii.eqb c "." && all_chars is_digit frac && negb ((whole ==? "") && (frac ==? ""))
      then num_div (num_of_Z (digits_value (whole +:+ frac))) (num_of_Z (10 ^ Z.of_nat (String.length frac)))
      else S754_nan
  end.

(** [Math.round(Number(s) * 100)] for an integer column. *)
Definition amount_column (s : string) : option Z :=
  EvidenceService.int_column
    (match num_floor (num_mul (Number s) (num_of_Z 100)) with
     | Some _ => num_of_Z (IncomeService.num_round (num_mul (Number s) (num_of_Z 100)))
     | None => S754_nan
     end).

(* ------------------------------------------------------------------ *)
(** ** The split of a day *)

Record Recipient := mkRecipient {
  rc_workerId : string;
  rc_externalWorkerId : string;
  rc_role : string;
  rc_workedMinutes : Z;
  rc_tip : Z;
  rc_sourceHash : string
}.

Definition weights : list (string * number) :=
  [("SERVER", num_of_Z 1); ("BUSSER", num_div (num_of_Z 7) (num_of_Z 10)); ("BARTENDER", num_of_Z 1)].

Definition score (r : Recipient) : number :=
  num_mul (num_of_Z (rc_workedMinutes r)) (nullish (map_get weights (rc_role r)) (num_of_Z 1)).

(** [recipient.amount += 1] for the first [left] of the order; the objects of the
    sorted list are those of [raw], named here by their position. *)
Fixpoint give_at (order : list nat) (left : Z) (raw : list RawShare) : list RawShare :=
  match order with
  | [] => raw
  | i :: order' =>
      if left <=? 0 then raw
      else give_at order' (left - 1) (alter (fun r => r <| raw_floor ::= Z.succ |>) i raw)
  end.

Section prepare.
Context `{Platform} `{RowSchema} `{Devnet} `{Serveproof.Runtime} `{Settling.Digest} `{Files}.

(** The positions of [raw], the largest remainder first, then by worker. *)
Definition remainder_order (raw : list RawShare) : list nat :=
  map fst (stable_sort (fun a b => by_remainder_lt a.2 b.2) (imap pair raw)).

(** [None]: an amount is not a number, and no row can be written with it. *)
Definition allocate (pool : Z) (recipients : list Recipient) : option (list (Recipient * Z)) :=
  let scored := map (fun r => (rc_workerId r, score r)) recipients in
  let totalScore := fold_left (fun sum e => num_add sum e.2) scored (num_of_Z 0) in
  match raw_shares pool totalScore scored with
  | None => None
  | Some raw =>
      let left := pool - sumZ raw_floor raw in
      Some (zip recipients (map raw_floor (give_at (remainder_order raw) left raw)))
  end.

(* ------------------------------------------------------------------ *)
(** ** What is cleared *)

Record DemoContext := mkContext {
  dc_organization : Organization;
  dc_venue : Venue;
  dc_manager : User;
  dc_policy : AllocationPolicy;
  dc_mappings : list MappedWorker
}.

Definition context : handler DemoContext :=
  let* organization := findFirst by_legalName in
  let* organization := require organization
    (JsError "Demo organization missing. Run pnpm --filter @serveproof/db seed first.") in
  let* venue := findUnique (R:=Venue) DemoConfig.venueId in
  let* venue := require venue (JsError "Demo Diner missing. Run the demo seed first.") in
  do* throw_if ((venue_organizationId venue !=? organization_id organization) || (venue_name venue !=? DemoConfig.venueName))
    (JsError "Canonical Demo Diner identity does not match the demo organization.") in
  let* manager := findFirst (by_auth "demo-manager") in
  let* manager := require manager (JsError "Demo manager missing. Run the demo seed first.") in
  let* policies := findMany (fun p => (policy_venueId p ==? venue_id venue) && (policy_status p ==? PolicyStatus.ACTIVE)) in
  let* policy := require (head (orderByDesc policy_version policies)) (JsError "Active demo allocation policy missing.") in
  let* mappings := query (demo_mappings (venue_id venue)) in
  do* throw_if (negb (length mappings =? 3)%nat) (JsError "Expected worker_001, worker_002, and worker_003 mappings.") in
  Ret (mkContext organization venue manager policy mappings).

Definition workerIds (ctx : DemoContext) : list string := map (fun m => account_workerId (mw_account m)) (dc_mappings ctx).

Record OperationalCounts := mkOperational {
  oc_tips : nat; oc_shifts : nat; oc_batches : nat; oc_payouts : nat; oc_payrollRecords : nat;
  oc_incomeEntries : nat; oc_proofs : nat
}.

Definition grants_of (workers : list string) (g : DisclosureGrant) : bool := includes workers (grant_workerId g).

Definition counts (venueId : string) (workers : list string) : handler OperationalCounts :=
  let* grants := findMany (grants_of workers) in
  let* tips := countRows (fun t => tip_venueId t ==? venueId) in
  let* shifts := countRows (fun s => shift_venueId s ==? venueId) in
  let* batches := countRows (fun b => batch_venueId b ==? venueId) in
  let* payouts := countRows (fun p => payout_venueId p ==? venueId) in
  let* payrollRecords := countRows (fun r => payroll_venueId r ==? venueId) in
  let* incomeEntries := countRows (fun e => entry_venueId e ==? venueId) in
  let* proofs := countRows (fun r => includes (map grant_id grants) (report_disclosureGrantId r)) in
  Ret (mkOperational tips shifts batches payouts payrollRecords incomeEntries proofs).

(** [date.toISOString().replaceAll(":", "-")] *)
Fixpoint dashes (s : string) : string :=
  match s with EmptyString => "" | String c s' => String (if Ascii.eqb c ":" then "-" else c) (dashes s') end.

Definition archived (p : Payout) : json :=
  JObj [("txSignature", JStrOpt (payout_txSignature p)); ("status", JStr (PayoutStatus.name (payout_status p)));
        ("amountUsdCents", JInt (payout_amountUsdCents p));
        ("settledAt", match payout_settledAt p with Some t => JStr (toISOString t) | None => JNull end);
        ("solscanUrl", JStr ("https://solscan.io/tx/" +:+ nullish (payout_txSignature p) "null" +:+ "?cluster=devnet"))].

(** The payouts of the archive, the newest first. *)
Definition archiveOnchain (venueId : string) : handler (string * nat) :=
  let* payouts := findMany (fun p => (payout_venueId p ==? venueId) && (payout_rail p ==? PayoutRail.USDC)
                                     && (payout_txSignature p !=? None)) in
  let* t := newDate in
  let archivePath := artifactDir +:+ "/previous-onchain-" +:+ dashes (toISOString t) +:+ ".json" in
  do* emit (WriteFile archivePath (pretty (JArr (map archived (rev payouts))) +:+ DemoCsv.NEWLINE)) in
  Ret (archivePath, length payouts).

(** The reports of the grants: no longer linked, then deleted. *)
Definition delete_grants (grantIds : list string) : handler unit :=
  do* updateMany (fun r => includes grantIds (report_disclosureGrantId r)) (fun r => r <| report_previousReportId := None |>) in
  do* deleteMany (fun r => includes grantIds (report_disclosureGrantId r)) in
  do* deleteMany (fun a => includes grantIds (access_grantId a)) in
  deleteMany (fun g => includes grantIds (grant_id g)).

Definition delete_openShifts (openShiftIds : list string) : handler unit :=
  do* deleteMany (fun a => includes openShiftIds (assignment_openShiftId a)) in
  deleteMany (fun s => includes openShiftIds (openShift_id s)).

(** [where: { batch: { venueId } }] *)
Definition of_venue_batch (venueId : string) (batches : list AllocationBatch) (a : WorkerAllocation) : bool :=
  existsb (fun b => (batch_id b ==? alloc_batchId a) && (batch_venueId b ==? venueId)) batches.

Definition resetDemoData (ctx : DemoContext) : handler unit :=
  let venueId := venue_id (dc_venue ctx) in
  let* grants := findMany (grants_of (workerIds ctx)) in
  let grantIds := map grant_id grants in
  let* openShifts := findMany (fun s => openShift_venueId s ==? venueId) in
  let openShiftIds := map openShift_id openShifts in
  transaction (
    do* (if (0 <? length grantIds)%nat then delete_grants grantIds else Ret tt) in
    do* deleteMany (fun a => alert_venueId a ==? venueId) in
    do* updateMany (fun e => entry_venueId e ==? venueId) (fun e => e <| entry_correctionOfId := None |>) in
    do* deleteMany (fun e => entry_venueId e ==? venueId) in
    do* deleteMany (fun r => payroll_venueId r ==? venueId) in
    do* deleteMany (fun p => payout_venueId p ==? venueId) in
    let* batches := query w_batches in
    do* deleteMany (of_venue_batch venueId batches) in
    do* deleteMany (fun b => batch_venueId b ==? venueId) in
    do* (if (0 <? length openShiftIds)%nat then delete_openShifts openShiftIds else Ret tt) in
    do* deleteMany (fun s => shift_venueId s ==? venueId) in
    do* deleteMany (fun t => tip_venueId t ==? venueId) in
    deleteMany (fun a => (audit_venueId a ==? Some venueId) || (audit_organizationId a ==? Some (organization_id (dc_organization ctx))))).

(* ------------------------------------------------------------------ *)
(** ** The history *)

(** Prisma's refusal of a value that does not fit its column. *)
Definition refused : exn := JsError "PrismaClientValidationError".
Definition field (row : list (string * string)) (k : string) : handler string := require (map_get row k) refused.

(** [new Map(mappings.map((mapping) => [mapping.externalWorkerId, mapping]))] *)
Definition mappingByExternal (mappings : list MappedWorker) : list (string * MappedWorker) :=
  fold_left (fun m x => map_set m (account_externalWorkerId (mw_account x)) x) mappings [].

Definition names : list (string * string) := [("worker_001", "Alice"); ("worker_002", "Bob"); ("worker_003", "Carol")].

(** The first loop: the names of the workers and their confirmed mappings. *)
Definition confirm_mapping (manager : User) (mapping : MappedWorker) : handler unit :=
  do* update (R:=User) (mw_userId mapping) (fun u => match map_get names (account_externalWorkerId (mw_account mapping)) with
                                          | Some n => u <| user_displayName := n |>
                                          | None => u
                                          end) in
  let* t := newDate in
  do* update (R:=ExternalWorkerAccount) (account_id (mw_account mapping))
        (fun a => a <| account_mappingStatus := MappingStatus.CONFIRMED |> <| account_verifiedBy := Some (user_id manager) |>
                    <| account_verifiedAt := Some t |>) in
  Ret tt.

Abbreviation by_date := (list (string * list Recipient)).

Definition row_json (row : list (string * string)) : json := JObj (map (fun kv => (kv.1, JStr kv.2)) row).

Definition history_shift (venueId i : string) (workerId provider shift external role : string)
    (clockIn clockOut minutes : Z) (businessDate sourceHash : string) : ShiftEvidence :=
  mkShiftEvidence i provider IngestSource.CSV_UPLOAD venueId shift external (Some workerId) role clockIn (Some clockOut)
    minutes ShiftStatus.COMPLETED businessDate sourceHash (Some PayoutRail.PAYROLL) (Some "PROVIDER_CONFIRMED").

Definition history_tip (venueId i : string) (provider shift : string) (cents : Z) (businessDate sourceHash : string)
    : TipEvidence :=
  mkTipEvidence i provider IngestSource.CSV_UPLOAD venueId ("csv:" +:+ shift) None TipType.CARD_TIP cents
    PaymentStatus.COMPLETED RefundStatus.NONE businessDate sourceHash (Some PayoutRail.PAYROLL) (Some "PROVIDER_CONFIRMED").

(** The body of the loop over the rows. *)
Definition seed_row (venueId : string) (byExternal : list (string * MappedWorker)) (byDate : by_date)
    (row : list (string * string)) : handler by_date :=
  let external := nullish (map_get row "worker_external_id") "undefined" in
  let* mapping := require (map_get byExternal external) (JsError ("No mapping for " +:+ external)) in
  let* clock_in := field row "clock_in" in
  let* clock_out := field row "clock_out" in
  let* clockIn := require (isoDatetime clock_in) refused in
  let* clockOut := require (isoDatetime clock_out) refused in
  let businessDate := slice_to clock_in 10 in
  let workedMinutes := IncomeService.num_round (num_div (num_of_Z (clockOut - clockIn)) (num_of_Z 60000)) in
  let* gross_tip := field row "gross_tip" in
  let sourceHash := sha256 (stringify (row_json row)) in
  let* provider := field row "provider" in
  let* shift_external := field row "shift_external_id" in
  let* role := field row "role" in
  do* throw_if (negb (EvidenceService.int4 workedMinutes)) refused in
  let workerId := account_workerId (mw_account mapping) in
  let* i := freshId in
  let* shift := create (history_shift venueId i workerId provider shift_external external role clockIn clockOut
                          workedMinutes businessDate sourceHash) in
  let* amount := require (amount_column gross_tip) refused in
  let* j := freshId in
  do* create (history_tip venueId j provider shift_external amount businessDate sourceHash) in
  Ret (map_set byDate businessDate
         (nullish (map_get byDate businessDate) [] ++ [mkRecipient workerId external role workedMinutes amount sourceHash])).

(** The payout of a share: paid through payroll, final. *)
Definition history_payout (i venueId managerId businessDate : string) (t : Z) (saved : WorkerAllocation) (r : Recipient)
    (amount : Z) : Payout :=
  mkPayout i (alloc_id saved) (Some (sha256 (alloc_id saved))) (alloc_id saved) (rc_workerId r) venueId None
    PayoutRail.PAYROLL "USD" 0 amount PayoutStatus.FINALIZED
    (Some ("DEMO-HISTORY-" +:+ businessDate +:+ "-" +:+ rc_externalWorkerId r))
    None None None None None None 0 None None None (Some managerId) (Some managerId) None (Some t) None.

(** The body of the inner loop: a share and its payout. *)
Definition seed_share (ctx : DemoContext) (batch : AllocationBatch) (first : bool) (alice : option (string * Z))
    (share : Recipient * Z) : handler (option (string * Z)) :=
  let '(r, amount) := share in
  let businessDate := batch_businessDate batch in
  let* i := freshId in
  let* saved := create (mkWorkerAllocation i (batch_id batch) (Some (rc_workerId r)) None None amount amount
                          (Some PayoutRail.PAYROLL) (Some PayoutRail.PAYROLL) AllocPayoutStatus.PAID) in
  let* j := freshId in
  let* t := newDate in
  do* create (history_payout j (venue_id (dc_venue ctx)) (user_id (dc_manager ctx)) businessDate t saved r amount) in
  Ret (if first && (rc_externalWorkerId r ==? "worker_001") then Some (businessDate, amount) else alice).

(** The body of the loop over the dates. *)
Definition seed_day (ctx : DemoContext) (firstDate : option string) (byDate : by_date) (alice : option (string * Z))
    (businessDate : string) : handler (option (string * Z)) :=
  let recipients := nullish (map_get byDate businessDate) [] in
  let pool := sumZ rc_tip recipients in
  let* allocations := require (allocate pool recipients) refused in
  do* throw_if (negb (EvidenceService.int4 pool)) refused in
  let evidenceHash := sha256 (stringify (JArr (map JStr (stable_sort str_lt (map rc_sourceHash recipients))))) in
  let allocationHash := sha256 (stringify (JArr (map (fun a => JArr [JStr (rc_workerId a.1); JInt a.2]) allocations))) in
  let* i := freshId in
  let* calculatedAt := newDate in
  let* approvedAt := newDate in
  let manager := user_id (dc_manager ctx) in
  let* batch := create (mkAllocationBatch i (venue_id (dc_venue ctx)) businessDate pool (policy_id (dc_policy ctx))
                          (policy_version (dc_policy ctx)) BatchStatus.PAID (Some evidenceHash) (Some allocationHash)
                          (JArr []) (Some calculatedAt) (Some manager) (Some approvedAt) (Some manager)) in
  fold_prog allocations alice (seed_share ctx batch (firstDate ==? Some businessDate)).

(** [Math.max(1, Math.round(amount * 0.1))] *)
Definition withholding (amount : Z) : Z :=
  Z.max 1 (IncomeService.num_round (num_mul (num_of_Z amount) (num_div (num_of_Z 1) (num_of_Z 10)))).

Definition alice_payroll (i workerId venueId businessDate : string) (amount midnight : Z) : PayrollRecord :=
  mkPayrollRecord i workerId venueId midnight (midnight + 86399000) amount (Some (withholding amount)) None None None
    PayrollStatus.PROVIDER_CONFIRMED (Some ("DEMO-PAYROLL-" +:+ businessDate +:+ "-ALICE")).

(** The transaction of [seedHistory]. *)
Definition write_history (ctx : DemoContext) (rows : list (list (string * string))) : handler unit :=
  let venueId := venue_id (dc_venue ctx) in
  let byExternal := mappingByExternal (dc_mappings ctx) in
  do* for_each (dc_mappings ctx) (confirm_mapping (dc_manager ctx)) in
  let* byDate := fold_prog rows [] (seed_row venueId byExternal) in
  let dates := stable_sort str_lt (map fst byDate) in
  let* alice := fold_prog dates None (seed_day ctx (head dates) byDate) in
  let* alice := require alice (JsError "Could not create Alice payroll fixture.") in
  let* mapping := require (map_get byExternal "worker_001") (JsError "Cannot read properties of undefined") in
  let* midnight := require (parseDate alice.1) refused in
  let* i := freshId in
  do* create (alice_payroll i (account_workerId (mw_account mapping)) venueId alice.1 alice.2 midnight) in
  Ret tt.

Definition seedHistory (ctx : DemoContext) (historyCsv : string) : handler unit :=
  do* transaction (write_history ctx (parseCsv historyCsv)) in
  do* IncomeProjector.rebuildVenueIncome (venue_id (dc_venue ctx)) (Some (user_id (dc_manager ctx))) "SYSTEM" in
  Ret tt.

(* ------------------------------------------------------------------ *)
(** ** The script *)

Record Prepared := mkPrepared {
  pr_before : OperationalCounts;
  pr_after : OperationalCounts;
  pr_aliceAGrades : nat;
  pr_liveRows : nat;
  pr_archived : nat
}.

Definition ymd (t : Z) : string := slice_to (toISOString t) 10.
Definition generated (days : Z) (endDate seed profile : string) (unmapped : bool) : handler DemoCsv.Generated :=
  let* t := newDate in lift_result (DemoCsv.generateDemoCsv (Some days) (Some endDate) seed profile unmapped t).

Definition grade_a (workerId venueId : string) (e : IncomeEntry) : bool :=
  (entry_workerId e ==? workerId) && (entry_venueId e ==? venueId) && (entry_evidenceGrade e ==? EvidenceGrade.A)
  && (entry_effectiveStatus e ==? EffectiveStatus.ACTIVE).

(** The two confirmations. *)
Definition confirmed (e : env) (venueName : string) : bool :=
  (map_get e "DEMO_PREPARE_APPLY" ==? Some "1") && (map_get e "DEMO_PREPARE_CONFIRM" ==? Some venueName).

(** What an applied run does after the checks. *)
Definition apply_preparation (ctx : DemoContext) (before : OperationalCounts) : handler Prepared :=
  let venueId := venue_id (dc_venue ctx) in
  let* archive := archiveOnchain venueId in
  do* resetDemoData ctx in
  let* t1 := newDate in
  let* t2 := newDate in
  let liveDate := ymd (t1 - 86400000) in
  let historyEnd := ymd (t2 - 2 * 86400000) in
  let* history := generated 4 historyEnd "pitch-history-v1" "history" false in
  let* live := generated 1 liveDate "pitch-live-v1" "live" false in
  let* held := generated 1 liveDate "pitch-held-v1" "live" true in
  do* seedHistory ctx (DemoCsv.g_csv history) in
  do* emit (WriteFile (artifactDir +:+ "/demo-history.csv") (DemoCsv.g_csv history)) in
  do* emit (WriteFile (artifactDir +:+ "/demo-live.csv") (DemoCsv.g_csv live)) in
  do* emit (WriteFile (artifactDir +:+ "/demo-held-optional.csv") (DemoCsv.g_csv held)) in
  let* after := counts venueId (workerIds ctx) in
  let* alice := require (find_mapped (dc_mappings ctx) "worker_001") (JsError "Cannot read properties of undefined") in
  let* aliceAGrades := countRows (grade_a (account_workerId (mw_account alice)) venueId) in
  let* liveRows := countRows (fun s => (shift_venueId s ==? venueId) && (shift_businessDate s ==? liveDate)) in
  Ret (mkPrepared before after aliceAGrades liveRows archive.2).

(** [main]; [None]: a dry run. *)
Definition prepare (e : env) : handler (option Prepared) :=
  let appEnv := app_env e in
  do* throw_if (negb (allowed_env appEnv)) (JsError ("Refusing demo preparation in APP_ENV=" +:+ appEnv)) in
  let* ctx := context in
  do* runDemoDoctor e true in
  let* before := counts (venue_id (dc_venue ctx)) (workerIds ctx) in
  if negb (confirmed e (venue_name (dc_venue ctx))) then Ret None
  else let* p := apply_preparation ctx before in Ret (Some p).
End prepare.

(* ------------------------------------------------------------------ *)
(** ** The split is exact *)

Lemma sum_alter i (l : list RawShare) :
  (i < length l)%nat -> sumZ raw_floor (alter (fun r => r <| raw_floor ::= Z.succ |>) i l) = sumZ raw_floor l + 1.
Proof.
  revert i. induction l as [|r l IH]; intros [|i] Hi; cbn in *; [lia..|].
  rewrite IH by lia. lia.
Qed.

Lemma give_at_spec order left raw :
  Forall (fun i => (i < length raw)%nat) order -> 0 <= left <= Z.of_nat (length order) ->
  sumZ raw_floor (give_at order left raw) = sumZ raw_floor raw + left /\
  length (give_at order left raw) = length raw /\
  (Forall (fun r => 0 <= raw_floor r) raw -> Forall (fun r => 0 <= raw_floor r) (give_at order left raw)).
Proof.
  revert left raw. induction order as [|i order IH]; intros left raw Ho Hl; cbn [give_at length] in *.
  - split_and!; [lia|done..].
  - apply Forall_cons in Ho as [Hi Ho]. destruct (Z.leb_spec left 0); [split_and!; [lia|done..]|].
    destruct (IH (left - 1) (alter (fun r => r <| raw_floor ::= Z.succ |>) i raw)) as (H1 & H2 & H3);
      [by rewrite length_alter|lia|].
    rewrite H1, H2, sum_alter, length_alter by done. split_and!; [lia|done|]. intros Hr. apply H3.
    rewrite Forall_lookup in Hr |- *. intros k r Hk. destruct (decide (i = k)) as [<-|Hne].
    + rewrite list_lookup_alter_eq in Hk. apply fmap_Some in Hk as (r0 & Hr0 & ->). specialize (Hr _ _ Hr0). cbn. lia.
    + rewrite list_lookup_alter_ne in Hk by done. eauto.
Qed.

Section exact.
Context `{Platform}.

Lemma remainder_order_ok raw :
  Forall (fun i => (i < length raw)%nat) (remainder_order raw) /\ length (remainder_order raw) = length raw.
Proof.
  unfold remainder_order. set (sorted := stable_sort _ _).
  assert (map fst sorted ≡ₚ map fst (imap pair raw)) as Hp by apply Permutation_map, stable_sort_Permutation. split.
  - rewrite Hp. apply List.Forall_forall. intros i Hi. apply in_map_iff in Hi as ([j r] & <- & Hj).
    apply list_elem_of_In, elem_of_lookup_imap in Hj as (k & x & [= -> ->] & Hk). by apply lookup_lt_Some in Hk.
  - by rewrite (Permutation_length Hp), length_map, length_imap.
Qed.

Lemma bpow_half : bpow (-1) = (/ 2)%R.
Proof. pose proof (bpow_double (-1)) as E. change (bpow (-1 + 1)) with 1%R in E. lra. Qed.

Lemma weights_range role :
  let w := nullish (map_get weights role) (num_of_Z 1) in weight_ok w /\ (/ 2 <= num_val w)%R.
Proof.
  pose proof (num_of_Z_spec 1 ltac:(lia)) as [N1 V1].
  assert (bpow (-200) <= / 2 /\ 2 <= bpow 200)%R as [B1 B2].
  { rewrite <- bpow_half. split; [apply bpow_le; lia|]. change 2%R with (IZR (2 ^ 1)). rewrite <- bpow_IZR by lia.
    apply bpow_le. lia. }
  cbv zeta. set (w := nullish _ _).
  assert (w = num_of_Z 1 \/ w = num_div (num_of_Z 7) (num_of_Z 10)) as [-> | ->].
  { unfold w, weights. cbn [map_get]. repeat case_bool_decide; cbn; auto. }
  - rewrite V1. split; [split; [done|right; lra]|lra].
  - pose proof (num_of_Z_spec 7 ltac:(lia)) as [N7 V7]. pose proof (num_of_Z_spec 10 ltac:(lia)) as [N10 V10].
    assert (within (num_div (num_of_Z 7) (num_of_Z 10)) (7 / 10)%R) as D.
    { rewrite <- V7, <- V10. apply num_div_spec; [done|done|rewrite V10; lra|]. rewrite V7, V10. right.
      assert (bpow (-1000) <= bpow (-200) /\ bpow 200 <= bpow 900)%R by (split; apply bpow_le; lia). lra. }
    destruct (within_bounds _ _ D ltac:(lra)) as [L U]. pose proof u_tiny. pose proof u_small as [U0 _].
    split; [split; [apply D|right; split; lra]|lra].
Qed.

(** A worker with minutes has a positive score. *)
Lemma score_range r :
  0 < rc_workedMinutes r < 2 ^ 31 -> score_ok (bpow 20) (score r) /\ (0 < num_val (score r))%R.
Proof.
  intros Hm. unfold score. destruct (weights_range (rc_role r)) as [Hw Hpos]. set (w := nullish _ _) in *.
  destruct (score_mul_ok _ w Hm Hw) as [Ns Hs]. destruct (num_of_Z_spec (rc_workedMinutes r) ltac:(lia)) as [Nm Vm].
  assert (1 <= IZR (rc_workedMinutes r))%R by (apply IZR_le; lia).
  assert (num_val (num_mul (num_of_Z (rc_workedMinutes r)) w) <> 0%R) as Hne.
  { assert (IZR (rc_workedMinutes r) <= bpow 31)%R by (rewrite bpow_IZR by lia; apply IZR_le; lia).
    destruct Hw as [Nw Hw]. assert (num_val w <= bpow 200)%R by (destruct Hw; lra).
    assert (within (num_mul (num_of_Z (rc_workedMinutes r)) w) (IZR (rc_workedMinutes r) * num_val w)%R) as D.
    { rewrite <- Vm. apply num_mul_spec; [done|done|]. rewrite Vm. right. pose proof (bpow_pos 200). pose proof (bpow_pos 31). split.
      - apply Rle_trans with (bpow (-1)); [apply bpow_le; lia|]. rewrite bpow_half.
        apply Rle_trans with (1 * / 2)%R; [lra|apply Rmult_le_compat; lra].
      - apply Rle_trans with (bpow 31 * bpow 200)%R; [apply Rmult_le_compat; lra|]. rewrite <- bpow_add. apply bpow_le. lia. }
    assert (/ 2 <= IZR (rc_workedMinutes r) * num_val w)%R as Hprod.
    { apply Rle_trans with (1 * / 2)%R; [lra|apply Rmult_le_compat; lra]. }
    destruct (within_bounds _ _ D ltac:(lra)) as [L _]. pose proof u_tiny.
    assert (0 < (1 - u) * (IZR (rc_workedMinutes r) * num_val w))%R by (apply Rmult_lt_0_compat; lra). lra. }
  destruct Hs as [Hs|[H1 H2]]; [done|]. pose proof (bpow_pos (-201)). split; [|lra]. split; [done|right]. split; [done|].
  rewrite <- bpow_add. eapply Rle_trans; [exact H2|]. apply bpow_le. lia.
Qed.

(** The pool of a day is split to the cent: with minutes in their column and at
    least one worker, the amounts are there, none is negative, and they add up to
    the pool. *)
Lemma allocate_exact pool recipients :
  0 <= pool < 2 ^ 31 -> recipients <> [] -> Z.of_nat (length recipients) <= 2 ^ 20 ->
  Forall (fun r => 0 < rc_workedMinutes r < 2 ^ 31) recipients ->
  exists shares, allocate pool recipients = Some shares /\ map fst shares = recipients /\
    sumZ snd shares = pool /\ Forall (fun s => 0 <= s.2) shares.
Proof.
  intros HP Hne Hlen Hm. unfold allocate. set (scored := map _ recipients).
  assert (Forall entry_ok scored) as HE.
  { unfold scored. rewrite Forall_map. eapply Forall_impl; [exact Hm|]. intros r Hr. by apply score_range. }
  assert (IZR (Z.of_nat (length scored)) <= bpow 20)%R as Hn.
  { unfold scored. rewrite length_map, bpow_IZR by lia. by apply IZR_le. }
  assert (0 < exact_total scored)%R as Hpos.
  { unfold scored, exact_total. destruct Hm as [|r rs Hr Hrs]; [done|]. cbn [map sumR snd].
    assert (0 <= sumR (fun e => num_val e.2) (map (fun r => (rc_workerId r, score r)) rs))%R.
    { apply sumR_nonneg. intros e (r' & <- & Hr')%in_map_iff. rewrite List.Forall_forall in Hrs.
      destruct (score_range r' (Hrs r' Hr')). cbn. lra. }
    destruct (score_range r Hr). lra. }
  destruct (total_score_spec scored HE Hn) as [NT [LT _]]. set (T := fold_left _ _ _) in *.
  assert (num_eqb T (num_of_Z 0) = false) as HT.
  { apply not_true_iff_false. intros E. apply (num_eqb_zero T NT) in E. pose proof u_small as [U0 U20].
    assert (0 <= IZR (Z.of_nat (length scored)))%R by (apply IZR_le; lia).
    assert (IZR (Z.of_nat (length scored)) * u <= / 1048576)%R by nra. nra. }
  destruct (raw_split pool scored scored HP HE Hn ltac:(done) HT) as (rs & Ers & HF & HL). fold T in Ers. rewrite Ers.
  destruct (remainder_order_ok rs) as [Ho Hol].
  destruct (give_at_spec (remainder_order rs) (pool - sumZ raw_floor rs) rs Ho ltac:(lia)) as (Hsum & Hl & Hpos').
  set (given := give_at _ _ _) in *.
  assert (length given = length recipients) as Hlg.
  { rewrite Hl, <- (Forall2_length _ _ _ HF). unfold scored. by rewrite length_map. }
  eexists. split; [reflexivity|]. split_and!.
  - apply fst_zip. rewrite length_map. lia.
  - transitivity (sumZ raw_floor given); [|lia]. transitivity (sumZ (fun z => z) (map snd (zip recipients (map raw_floor given)))).
    + by rewrite sumZ_map.
    + assert (map snd (zip recipients (map raw_floor given)) = map raw_floor given) as ->; [|by rewrite sumZ_map].
      apply snd_zip. rewrite length_map. lia.
  - assert (Forall (fun r => 0 <= raw_floor r) given) as Hg.
    { apply Hpos'. clear -HF. induction HF as [|e r es rs (_ & _ & Hr & _)]; by constructor. }
    apply List.Forall_forall. intros [r a] Hin. apply list_elem_of_In, elem_of_zip_r, list_elem_of_In, in_map_iff in Hin as (x & <- & Hx).
    rewrite List.Forall_forall in Hg. by apply Hg.
Qed.
End exact.

(* ------------------------------------------------------------------ *)
(** ** What the reset leaves *)

Definition grant_ids (ctx : DemoContext) (w : World) : list string :=
  map grant_id (List.filter (grants_of (workerIds ctx)) (w_grants w)).
Definition openShift_ids (ctx : DemoContext) (w : World) : list string :=
  map openShift_id (List.filter (fun s => openShift_venueId s ==? venue_id (dc_venue ctx)) (w_openShifts w)).

Definition without {R} (p : R -> bool) (l : list R) : list R := List.filter (fun r => negb (p r)) l.

(** The database after the reset. *)
Definition cleared (ctx : DemoContext) (w : World) : World :=
  let v := venue_id (dc_venue ctx) in
  w <| w_reports ::= without (fun r => includes (grant_ids ctx w) (report_disclosureGrantId r)) |>
    <| w_accesses ::= without (fun a => includes (grant_ids ctx w) (access_grantId a)) |>
    <| w_grants ::= without (fun g => includes (grant_ids ctx w) (grant_id g)) |>
    <| w_alerts ::= without (fun a => alert_venueId a ==? v) |>
    <| w_incomeEntries ::= without (fun e => entry_venueId e ==? v) |>
    <| w_payrollRecords ::= without (fun r => payroll_venueId r ==? v) |>
    <| w_payouts ::= without (fun p => payout_venueId p ==? v) |>
    <| w_allocations ::= without (of_venue_batch v (w_batches w)) |>
    <| w_batches ::= without (fun b => batch_venueId b ==? v) |>
    <| w_assignments ::= without (fun a => includes (openShift_ids ctx w) (assignment_openShiftId a)) |>
    <| w_openShifts ::= without (fun s => includes (openShift_ids ctx w) (openShift_id s)) |>
    <| w_shifts ::= without (fun s => shift_venueId s ==? v) |>
    <| w_tips ::= without (fun t => tip_venueId t ==? v) |>
    <| w_auditLogs ::= without (fun a => (audit_venueId a ==? Some v)
                                         || (audit_organizationId a ==? Some (organization_id (dc_organization ctx)))) |>.

Lemma without_upd {R} (p : R -> bool) f (l : list R) :
  (forall r, p (f r) = p r) -> without p (upd_where p f l) = without p l.
Proof.
  intros Hf. unfold without, upd_where. induction l as [|r l IH]; cbn; [done|].
  destruct (p r) eqn:E; rewrite ?Hf, E; cbn; [done|by rewrite IH].
Qed.

Lemma without_none {R} (key : R -> string) (l : list R) : without (fun r => includes [] (key r)) l = l.
Proof. unfold without. induction l as [|r l IH]; [done|]. cbn. f_equal. exact IH. Qed.

Lemma NoDup_without {R K} (key : R -> K) p (l : list R) : NoDup (map key l) -> NoDup (map key (without p l)).
Proof.
  unfold without. induction l as [|r l IH]; cbn [map List.filter]; [done|]. intros [Hr HN]%NoDup_cons.
  destruct (negb (p r)); [|auto]. cbn [map]. apply NoDup_cons. split; [|auto]. rewrite list_elem_of_In in *.
  intros (x & Ex & [Hx _]%List.filter_In)%in_map_iff. apply Hr, in_map_iff. eauto.
Qed.

Lemma without_In {R} (p : R -> bool) (l : list R) r : In r (without p l) <-> In r l /\ p r = false.
Proof. unfold without. by rewrite List.filter_In, negb_true_iff. Qed.

Lemma run_delete_grants ids (w : World) :
  run (if (0 <? length ids)%nat then delete_grants ids else Ret tt) w =
  (w <| w_reports ::= without (fun r => includes ids (report_disclosureGrantId r)) |>
     <| w_accesses ::= without (fun a => includes ids (access_grantId a)) |>
     <| w_grants ::= without (fun g => includes ids (grant_id g)) |>, Ok tt).
Proof.
  destruct ids as [|i ids]; cbn [length Nat.ltb Nat.leb].
  - rewrite run_ret. f_equal. destruct w. unfold set. cbn -[without includes]. by rewrite !without_none.
  - unfold delete_grants. wexec. unfold set at 1. cbn [w_reports].
    fold (without (fun r => includes (i :: ids) (report_disclosureGrantId r))
            (upd_where (fun r => includes (i :: ids) (report_disclosureGrantId r))
               (fun r => r <| report_previousReportId := None |>) (w_reports w))).
    by rewrite without_upd.
Qed.

Lemma run_delete_openShifts ids (w : World) :
  run (if (0 <? length ids)%nat then delete_openShifts ids else Ret tt) w =
  (w <| w_assignments ::= without (fun a => includes ids (assignment_openShiftId a)) |>
     <| w_openShifts ::= without (fun s => includes ids (openShift_id s)) |>, Ok tt).
Proof.
  destruct ids as [|i ids]; cbn [length Nat.ltb Nat.leb].
  - rewrite run_ret. f_equal. destruct w. unfold set. cbn -[without includes]. by rewrite !without_none.
  - reflexivity.
Qed.

(** [cbv] on updates of a world: each component once. *)
Ltac world_cbv :=
  cbv [set w_users w_members w_venues w_workers w_wallets w_accounts w_tips w_shifts w_openShifts w_assignments w_policies w_batches w_allocations
    w_payouts w_payrollRecords w_incomeEntries w_alerts w_grants w_accesses w_reports w_refreshTokens w_auditLogs w_organizations w_connections w_redis w_effects w_tick].

Lemma run_reset ctx w : run (resetDemoData ctx) w = (cleared ctx w, Ok tt).
Proof.
  unfold resetDemoData, cleared. rewrite run_bind, run_findMany. cbv beta iota zeta. rewrite run_bind, run_findMany. cbv beta iota zeta.
  change (@rows World DisclosureGrant _ w) with (w_grants w). change (@rows World OpenShift _ w) with (w_openShifts w).
  fold (grant_ids ctx w) (openShift_ids ctx w). generalize (grant_ids ctx w) (openShift_ids ctx w). intros gs os.
  rewrite run_transaction, run_bind, run_delete_grants. cbv beta iota. destruct w.
  wexec. rewrite run_delete_openShifts. cbv beta iota. wexec.
  world_cbv.
  do 2 f_equal. by apply without_upd.
Qed.

(** The tables of the cleared database. *)
Lemma cleared_tables ctx w :
  let v := venue_id (dc_venue ctx) in let w' := cleared ctx w in
  w_tips w' = without (fun t => tip_venueId t ==? v) (w_tips w) /\
  w_shifts w' = without (fun s => shift_venueId s ==? v) (w_shifts w) /\
  w_batches w' = without (fun b => batch_venueId b ==? v) (w_batches w) /\
  w_allocations w' = without (of_venue_batch v (w_batches w)) (w_allocations w) /\
  w_payouts w' = without (fun p => payout_venueId p ==? v) (w_payouts w) /\
  w_payrollRecords w' = without (fun r => payroll_venueId r ==? v) (w_payrollRecords w) /\
  w_openShifts w' = without (fun s => includes (openShift_ids ctx w) (openShift_id s)) (w_openShifts w) /\
  w_assignments w' = without (fun a => includes (openShift_ids ctx w) (assignment_openShiftId a)) (w_assignments w) /\
  w_grants w' = without (fun g => includes (grant_ids ctx w) (grant_id g)) (w_grants w) /\
  w_reports w' = without (fun r => includes (grant_ids ctx w) (report_disclosureGrantId r)) (w_reports w) /\
  w_incomeEntries w' = without (fun e => entry_venueId e ==? v) (w_incomeEntries w) /\
  w_alerts w' = without (fun a => alert_venueId a ==? v) (w_alerts w) /\
  w_users w' = w_users w /\
  w_accounts w' = w_accounts w /\
  w_accesses w' = without (fun a => includes (grant_ids ctx w) (access_grantId a)) (w_accesses w) /\
  w_auditLogs w' = without (fun a => (audit_venueId a ==? Some v)
                                     || (audit_organizationId a ==? Some (organization_id (dc_organization ctx)))) (w_auditLogs w).
Proof.
  cbv zeta. unfold cleared. generalize (grant_ids ctx w) (openShift_ids ctx w). intros gs os. destruct w. world_cbv.
  by split_and!.
Qed.

(** After the reset the counts of the venue's operational rows are zero, none of
    its workers has a grant, no share of its batches is left, and no share or
    assignment refers to a batch or shift that was deleted. *)
Theorem reset_clears ctx w w' r c :
  run (resetDemoData ctx) w = (w', r) ->
  run (counts (venue_id (dc_venue ctx)) (workerIds ctx)) w' = (w', Ok c) ->
  c = mkOperational 0 0 0 0 0 0 0 /\
  (forall g, In g (w_grants w') -> ~ In (grant_workerId g) (workerIds ctx)) /\
  (forall a, In a (w_allocations w') -> forall b, In b (w_batches w) -> batch_id b = alloc_batchId a -> In b (w_batches w')) /\
  (forall a, In a (w_assignments w') -> forall s, In s (w_openShifts w) -> openShift_id s = assignment_openShiftId a ->
     In s (w_openShifts w')).
Proof.
  rewrite run_reset. intros [= <- <-]. set (v := venue_id (dc_venue ctx)).
  destruct (cleared_tables ctx w) as (Et & Es & Eb & Ea & Ep & Er & Eo & Ei & Eg & _ & Ee & _). fold v in Et, Es, Eb, Ea, Ep, Er, Ee.
  revert Et Es Eb Ea Ep Er Eo Ei Eg Ee. generalize (cleared ctx w). intros w' Et Es Eb Ea Ep Er Eo Ei Eg Ee Hc.
  assert (forall {R} (p : R -> bool) l, List.filter p (without p l) = []) as Hnone.
  { intros R p l. apply filter_none. intros x Hx. by apply without_In in Hx as [_ ->]. }
  assert (List.filter (grants_of (workerIds ctx)) (w_grants w') = []) as Hg.
  { rewrite Eg. apply filter_none. intros g [Hg Hid]%without_In.
    apply not_true_iff_false. intros Hw. apply not_true_iff_false in Hid. apply Hid, includes_In. unfold grant_ids.
    apply in_map, List.filter_In. by split. }
  split; [|split; [|split]].
  - revert Hc. unfold counts. wexec. rewrite Hg, Et, Es, Eb, Ep, Er, Ee, !Hnone. cbn [map]. intros [= <-].
    by rewrite filter_none.
  - intros g Hin Hw%includes_In. assert (In g (List.filter (grants_of (workerIds ctx)) (w_grants w'))) as Hf.
    { by apply List.filter_In. }
    by rewrite Hg in Hf.
  - intros a Ha b Hb Hid. rewrite Ea in Ha. rewrite Eb. apply without_In in Ha as [Ha Hv].
    apply without_In. split; [done|]. apply not_true_iff_false. intros E. apply not_true_iff_false in Hv. apply Hv.
    apply existsb_exists. exists b. by rewrite Hid, E, bd_refl.
  - intros a Ha s Hs Hid. rewrite Ei in Ha. rewrite Eo. apply without_In in Ha as [_ Ha].
    apply without_In. by rewrite Hid.
Qed.

(* ------------------------------------------------------------------ *)
(** ** What the rest of the script leaves alone *)

Definition mapping_id (m : MappedWorker) : string := account_id (mw_account m).

(** Rows are only added, except for the names of the workers, their mappings, the
    income entries and the alerts of the venue. *)
Record added (ctx : DemoContext) (w w' : World) : Prop := {
  ad_tips : incl (w_tips w) (w_tips w');
  ad_shifts : incl (w_shifts w) (w_shifts w');
  ad_batches : incl (w_batches w) (w_batches w');
  ad_allocations : incl (w_allocations w) (w_allocations w');
  ad_payouts : incl (w_payouts w) (w_payouts w');
  ad_payroll : incl (w_payrollRecords w) (w_payrollRecords w');
  ad_openShifts : incl (w_openShifts w) (w_openShifts w');
  ad_assignments : incl (w_assignments w) (w_assignments w');
  ad_grants : incl (w_grants w) (w_grants w');
  ad_reports : incl (w_reports w) (w_reports w');
  ad_entries : incl (map entry_id (w_incomeEntries w)) (map entry_id (w_incomeEntries w'));
  ad_alerts : incl (without (fun a => alert_venueId a ==? venue_id (dc_venue ctx)) (w_alerts w)) (w_alerts w');
  ad_users : incl (without (fun u => includes (map mw_userId (dc_mappings ctx)) (user_id u)) (w_users w)) (w_users w');
  ad_accounts : incl (without (fun a => includes (map mapping_id (dc_mappings ctx)) (account_id a)) (w_accounts w)) (w_accounts w');
  ad_accesses : incl (w_accesses w) (w_accesses w');
  ad_audits : incl (w_auditLogs w) (w_auditLogs w')
}.

Lemma incl_without {R} (p : R -> bool) l : incl (without p l) l.
Proof. apply List.incl_filter. Qed.

Ltac solve_added := constructor; unfold set; wcbn; auto using incl_refl, incl_appl, incl_without.

#[local] Instance added_preorder ctx : PreOrder (added ctx).
Proof.
  split.
  - intros w. solve_added.
  - intros w1 w2 w3 [] []. split; eauto using incl_tran.
    + intros a Ha. apply ad_alerts1, without_In. split; [auto|]. by apply without_In in Ha as [_ ->].
    + intros u Hu. apply ad_users1, without_In. split; [auto|]. by apply without_In in Hu as [_ ->].
    + intros a Ha. apply ad_accounts1, without_In. split; [auto|]. by apply without_In in Ha as [_ ->].
Qed.

Lemma same_added ctx (w w' : World) : w' <| w_tick := 0%nat |> <| w_effects := [] |> = w <| w_tick := 0%nat |> <| w_effects := [] |> -> added ctx w w'.
Proof.
  intros E. assert (forall {T} (f : World -> T), (forall w, f (w <| w_tick := 0%nat |> <| w_effects := [] |>) = f w) -> f w' = f w) as Hf.
  { intros T f Hf. by rewrite <- (Hf w'), E, Hf. }
  constructor; rewrite ?(Hf _ w_tips), ?(Hf _ w_shifts), ?(Hf _ w_batches), ?(Hf _ w_allocations), ?(Hf _ w_payouts),
    ?(Hf _ w_payrollRecords), ?(Hf _ w_openShifts), ?(Hf _ w_assignments), ?(Hf _ w_grants), ?(Hf _ w_reports),
    ?(Hf _ w_incomeEntries), ?(Hf _ w_alerts), ?(Hf _ w_users), ?(Hf _ w_accounts), ?(Hf _ w_accesses), ?(Hf _ w_auditLogs) by done; auto using incl_refl, incl_without.
Qed.

Section added.
Context `{Platform} `{RowSchema} `{Devnet} `{Serveproof.Runtime} `{Settling.Digest} `{Files}.

Ltac added_leaf ctx := apply guar_act; intros ?; cbv beta; repeat case_match; cbn [fst]; try (reflexivity || solve_added).

Lemma confirm_mapping_added ctx m : In m (dc_mappings ctx) -> guar (added ctx) (confirm_mapping (dc_manager ctx) m).
Proof.
  intros Hm. unfold confirm_mapping. repeat (apply guar_bind; [|intros ?]).
  - apply guar_act. intros w. destruct (List.find _ _); [|reflexivity]. cbn [fst]. solve_added.
    intros x [Hx Hn]%without_In. apply in_upd_where. exists x. split; [done|]. destruct (by_id (mw_userId m) x) eqn:E; [|done].
    exfalso. apply bool_decide_eq_true in E. apply not_true_iff_false in Hn. apply Hn, includes_In. cbn in E. rewrite E.
    by apply in_map.
  - intros w. split; [|done]. by apply same_added.
  - apply guar_act. intros w. destruct (List.find _ _); [|reflexivity]. cbn [fst]. solve_added.
    intros x [Hx Hn]%without_In. apply in_upd_where. exists x. split; [done|]. destruct (by_id _ x) eqn:E; [|done].
    exfalso. apply bool_decide_eq_true in E. apply not_true_iff_false in Hn. apply Hn, includes_In. cbn in E. rewrite E.
    exact (in_map mapping_id _ _ Hm).
  - done.
Qed.

Ltac added_guar ctx :=
  repeat (cbv beta zeta; first [progress intros | done | apply guar_bind | apply guar_catch | apply guar_throw_if
    | apply guar_require | apply guar_lift | apply (guar_query (added ctx)) | apply (guar_transaction (added ctx))
    | apply guar_for_each | apply guar_fold | (intros ?; split; [by apply same_added|exact I])
    | (added_leaf ctx; done) | case_match]).

Lemma write_history_added ctx rows : guar (added ctx) (write_history ctx rows).
Proof.
  unfold write_history. apply guar_bind.
  { assert (forall ms, incl ms (dc_mappings ctx) -> guar (added ctx) (for_each ms (confirm_mapping (dc_manager ctx)))) as Hall.
    { induction ms as [|m ms IH]; intros Hi; [done|]. cbn [for_each]. apply guar_bind.
      - apply confirm_mapping_added, Hi. by left.
      - intros _. apply IH. intros x Hx. apply Hi. by right. }
    apply Hall, incl_refl. }
  unfold seed_row, seed_day, seed_share, field. added_guar ctx.
Qed.

Lemma entry_update_added ctx i f : (forall e, entry_id (f e) = entry_id e) -> guar (added ctx) (update (R:=IncomeEntry) i f).
Proof.
  intros Hf. apply guar_act. intros w. destruct (List.find _ _); [|reflexivity]. cbn [fst]. solve_added.
  unfold upd_where. rewrite map_map. intros x (e & <- & He)%in_map_iff. apply in_map_iff. exists e. split; [by case_match; rewrite ?Hf|done].
Qed.

Lemma entry_create_added ctx (e : IncomeEntry) : guar (added ctx) (create e).
Proof.
  apply guar_act. intros w. case_match; [reflexivity|]. cbn [fst]. solve_added. rewrite map_app. auto using incl_refl, incl_appl.
Qed.

Lemma alerts_added ctx q :
  guar (added ctx) (deleteMany (fun a => (alert_venueId a ==? venue_id (dc_venue ctx)) && q a)).
Proof.
  intros w. split; [|done]. cbn [fst]. solve_added. intros a [Ha Hv]%without_In. apply List.filter_In. by rewrite Hv.
Qed.

Lemma rebuild_added ctx actor src : guar (added ctx) (IncomeProjector.rebuildVenueIncome (venue_id (dc_venue ctx)) actor src).
Proof.
  unfold IncomeProjector.rebuildVenueIncome, IncomeProjector.rebuildVenueIncomeLocked, IncomeProjector.rebuild_shift,
    IncomeProjector.create_alert, audit. added_guar ctx.
  all: solve [by apply entry_update_added | apply entry_create_added | apply alerts_added].
Qed.
End added.

(* ------------------------------------------------------------------ *)
(** ** The entries of other shifts *)

Import IncomeProjector.

(** Shifts are only added, with new identifiers, and so are entries, except for
    those that name a shift of the venue. *)
Record entries_kept (v : string) (w w' : World) : Prop := {
  ek_shifts : incl (w_shifts w) (w_shifts w');
  ek_shift_ids : NoDup (map shift_id (w_shifts w)) -> NoDup (map shift_id (w_shifts w'));
  ek_entry_ids : NoDup (map entry_id (w_incomeEntries w)) -> NoDup (map entry_id (w_incomeEntries w'));
  ek_entries : NoDup (map entry_id (w_incomeEntries w)) ->
    forall e, In e (w_incomeEntries w) -> elsewhere (venue_shifts v w') e -> In e (w_incomeEntries w')
}.

Lemma elsewhere_incl shifts shifts' e : incl shifts shifts' -> elsewhere shifts' e -> elsewhere shifts e.
Proof. intros Hi He s Hs. apply He, Hi, Hs. Qed.

Lemma venue_shifts_incl v w w' : incl (w_shifts w) (w_shifts w') -> incl (venue_shifts v w) (venue_shifts v w').
Proof. intros Hi s [Hs Hv]%List.filter_In. apply List.filter_In. auto. Qed.

#[local] Instance entries_kept_preorder v : PreOrder (entries_kept v).
Proof.
  split.
  - intros w. split; auto using incl_refl.
  - intros w1 w2 w3 [] []. split; eauto using incl_tran.
    intros HN e He Hel. apply ek_entries1; [auto| |done]. apply ek_entries0; [done..|].
    eapply elsewhere_incl; [|exact Hel]. by apply venue_shifts_incl.
Qed.

Lemma entries_kept_same v (w w' : World) :
  w_shifts w' = w_shifts w -> w_incomeEntries w' = w_incomeEntries w -> entries_kept v w w'.
Proof. intros Es Ee. split; rewrite ?Es, ?Ee; auto using incl_refl. Qed.

Section entries.
Context `{Platform} `{RowSchema} `{Devnet} `{Serveproof.Runtime} `{Settling.Digest} `{Files}.

Lemma shift_create_kept v (s : ShiftEvidence) : guar (entries_kept v) (create s).
Proof.
  apply guar_act. intros w. destruct (existsb _ _) eqn:E; [reflexivity|]. cbn [fst].
  split; unfold set; wcbn; auto using incl_appl, incl_refl.
  intros HN. rewrite map_app. apply NoDup_app. split; [done|]. split; [|apply NoDup_singleton].
  intros i Hi ->%list_elem_of_singleton. apply list_elem_of_In, in_map_iff in Hi as (s' & Ei & Hs').
  apply not_true_iff_false in E. apply E, existsb_exists. exists s'. split; [done|]. cbn. by rewrite Ei, bd_refl.
Qed.
End entries.

Ltac kept_leaf :=
  apply guar_act; intros ?; cbv beta; repeat case_match; cbn [fst]; solve [reflexivity | by apply entries_kept_same].
Ltac kept_guar v :=
  repeat (cbv beta zeta; first [progress intros | exact I | apply shift_create_kept | guar_step_at (entries_kept v)
    | (intros ?; split; [by apply entries_kept_same|exact I]) | kept_leaf | case_match]).

Section history_entries.
Context `{Platform} `{RowSchema} `{Devnet} `{Serveproof.Runtime} `{Settling.Digest} `{Files}.

Lemma history_entries v ctx rows : guar (entries_kept v) (write_history ctx rows).
Proof. unfold write_history, confirm_mapping, seed_row, seed_day, seed_share, field. kept_guar v. Qed.

(** A rebuild as one statement. *)
Lemma rebuild_entries v actor src : guar (entries_kept v) (rebuildVenueIncome v actor src).
Proof.
  assert (forall w, entries_kept v w (run (rebuildVenueIncome v actor src) w).1) as Hrun.
  { intros w. destruct (rebuild_ledger v actor src w) as (HN & _ & HL).
    pose proof (guar_run _ _ w (rebuild_same_money v actor src)) as (_ & _ & _ & _ & _ & Es). cbv beta in Es.
    split; rewrite ?Es; auto using incl_refl. intros Hi e He Hel. apply HL; [done..|]. right.
    eapply elsewhere_incl; [|exact Hel]. apply venue_shifts_incl. rewrite Es. apply incl_refl. }
  apply guar_act. intros w. specialize (Hrun w). unfold rebuildVenueIncome in Hrun. rewrite run_transaction in Hrun.
  revert Hrun. by destruct (run _ w) as [w1 [?|?]].
Qed.
End history_entries.

(* ------------------------------------------------------------------ *)
(** ** Whom the script touches *)

Definition demo_people (w : World) : list MappedWorker := demo_mappings DemoConfig.venueId w.
Definition demo_workerIds (w : World) : list string := map (fun m => account_workerId (mw_account m)) (demo_people w).

(** The tables the script has no statement for. *)
Definition untouched (w : World) :=
  (w_venues w, w_members w, w_workers w, w_wallets w, w_policies w, w_organizations w, w_connections w,
   w_refreshTokens w, w_redis w).

Section others.
Context `{Platform} `{RowSchema} `{Devnet} `{Serveproof.Runtime} `{Settling.Digest} `{Files}.

Ltac untouched_leaf := apply guar_act; intros ?; cbv beta; repeat case_match; reflexivity.
Ltac untouched_guar :=
  repeat (cbv beta zeta; first [progress intros | exact I | apply guar_throw_if | apply guar_require | apply guar_lift
    | apply guar_bind | apply guar_catch | apply (guar_query (same_on untouched)) | apply (guar_transaction (same_on untouched))
    | apply guar_for_each | apply guar_fold | (intros ?; split; [reflexivity|exact I]) | untouched_leaf | case_match]).

Lemma reset_untouched ctx : guar (same_on untouched) (resetDemoData ctx).
Proof. unfold resetDemoData, delete_grants, delete_openShifts. untouched_guar. Qed.

Lemma history_untouched ctx rows : guar (same_on untouched) (write_history ctx rows).
Proof. unfold write_history, confirm_mapping, seed_row, seed_day, seed_share, field. untouched_guar. Qed.

Lemma rebuild_untouched v actor src : guar (same_on untouched) (IncomeProjector.rebuildVenueIncome v actor src).
Proof.
  unfold IncomeProjector.rebuildVenueIncome, IncomeProjector.rebuildVenueIncomeLocked, IncomeProjector.rebuild_shift,
    IncomeProjector.create_alert, audit. untouched_guar.
Qed.

Lemma prepare_untouched e : guar (same_on untouched) (prepare e).
Proof.
  unfold prepare. apply guar_bind; [apply guar_throw_if|intros _]. apply guar_bind; [unfold context; untouched_guar|intros ctx].
  apply guar_bind; [|intros _].
  { eapply guar_mono; [|apply doctor_reads]. intros w w' E. exact (f_equal untouched E). }
  apply guar_bind; [unfold counts; untouched_guar|intros before]. case_match; [exact I|]. apply guar_bind; [|intros ?; exact I].
  unfold apply_preparation, archiveOnchain, generated, seedHistory, counts.
  repeat first [apply reset_untouched | apply history_untouched | apply rebuild_untouched
    | apply guar_bind; [|intros ?] | apply (guar_transaction (same_on untouched)) | progress untouched_guar].
Qed.

Lemma run_context w :
  exists r, run context w = (w, r) /\
    forall ctx, r = Ok ctx ->
      venue_id (dc_venue ctx) = DemoConfig.venueId /\ venue_name (dc_venue ctx) = DemoConfig.venueName /\
      dc_mappings ctx = demo_people w /\ List.find by_legalName (w_organizations w) = Some (dc_organization ctx).
Proof.
  unfold context, require, throw_if. wexec. destruct (List.find by_legalName _) eqn:Eorg; wexec; [|by eexists].
  destruct (List.find (by_id DemoConfig.venueId) _) as [v|] eqn:Ev; wexec; [|by eexists].
  assert (venue_id v = DemoConfig.venueId) as Hv.
  { apply find_In in Ev as [_ Hi]. by apply bool_decide_eq_true in Hi. }
  destruct (_ || _) eqn:Eo; wexec; [by eexists|]. apply orb_false_iff in Eo as [_ En%negb_false_iff%bool_decide_eq_true].
  destruct (List.find (by_auth _) _); wexec; [|by eexists]. destruct (head (A:=AllocationPolicy) _); wexec; [|by eexists].
  destruct (negb _); wexec; [by eexists|]. eexists. split; [reflexivity|]. intros ctx [= <-]. cbn. by rewrite Hv.
Qed.
End others.

(** The shift, the payout and the corrected entry that an entry names, if any, are
    rows of other venues. *)
Definition refers_elsewhere (w : World) (e : IncomeEntry) : Prop :=
  (forall i, entry_shiftId e = Some i ->
     exists s, In s (w_shifts w) /\ shift_id s = i /\ shift_venueId s <> DemoConfig.venueId) /\
  (forall p, In p (w_payouts w) -> entry_payoutId e = Some (payout_id p) -> payout_venueId p <> DemoConfig.venueId) /\
  (forall e', In e' (w_incomeEntries w) -> entry_correctionOfId e = Some (entry_id e') -> entry_venueId e' <> DemoConfig.venueId).

(** A report of a grant of a demo worker. *)
Definition demo_report (w : World) (r : VerificationReport) : Prop :=
  exists g, In g (w_grants w) /\ grant_id g = report_disclosureGrantId r /\ In (grant_workerId g) (demo_workerIds w).

(** What stays, by table: the rows of other venues and workers. *)
Record spared (w w' : World) : Prop := {
  sp_tips t : In t (w_tips w) -> tip_venueId t <> DemoConfig.venueId -> In t (w_tips w');
  sp_shifts s : In s (w_shifts w) -> shift_venueId s <> DemoConfig.venueId -> In s (w_shifts w');
  sp_batches b : In b (w_batches w) -> batch_venueId b <> DemoConfig.venueId -> In b (w_batches w');
  sp_allocations a : In a (w_allocations w) ->
    (forall b, In b (w_batches w) -> batch_id b = alloc_batchId a -> batch_venueId b <> DemoConfig.venueId) -> In a (w_allocations w');
  sp_payouts p : In p (w_payouts w) -> payout_venueId p <> DemoConfig.venueId -> In p (w_payouts w');
  sp_payroll r : In r (w_payrollRecords w) -> payroll_venueId r <> DemoConfig.venueId -> In r (w_payrollRecords w');
  sp_entry_ids e : In e (w_incomeEntries w) -> entry_venueId e <> DemoConfig.venueId -> In (entry_id e) (map entry_id (w_incomeEntries w'));
  sp_alerts a : In a (w_alerts w) -> alert_venueId a <> DemoConfig.venueId -> In a (w_alerts w');
  sp_assignments a : In a (w_assignments w) ->
    (forall s, In s (w_openShifts w) -> openShift_id s = assignment_openShiftId a -> openShift_venueId s <> DemoConfig.venueId) ->
    (forall s, In s (w_shifts w) -> assignment_shiftEvidenceId a = Some (shift_id s) -> shift_venueId s <> DemoConfig.venueId) ->
    In a (w_assignments w');
  sp_reports r : In r (w_reports w) -> ~ demo_report w r ->
    (forall r', In r' (w_reports w) -> report_previousReportId r = Some (report_id r') -> ~ demo_report w r') ->
    In r (w_reports w');
  sp_grants g : In g (w_grants w) ->
    (forall g', In g' (w_grants w) -> grant_id g' = grant_id g -> ~ In (grant_workerId g') (demo_workerIds w)) -> In g (w_grants w');
  sp_openShifts s : In s (w_openShifts w) ->
    (forall s', In s' (w_openShifts w) -> openShift_id s' = openShift_id s -> openShift_venueId s' <> DemoConfig.venueId) ->
    In s (w_openShifts w');
  sp_users u : In u (w_users w) -> ~ In (user_id u) (map mw_userId (demo_people w)) -> In u (w_users w');
  sp_accounts a : In a (w_accounts w) ->
    (forall a', In a' (w_accounts w) -> account_id a' = account_id a -> account_venueId a' <> DemoConfig.venueId) ->
    In a (w_accounts w');
  sp_accesses a : In a (w_accesses w) ->
    (forall g, In g (w_grants w) -> grant_id g = access_grantId a -> ~ In (grant_workerId g) (demo_workerIds w)) ->
    In a (w_accesses w');
  sp_audits a : In a (w_auditLogs w) -> audit_venueId a <> Some DemoConfig.venueId ->
    (forall o, List.find by_legalName (w_organizations w) = Some o -> audit_organizationId a <> Some (organization_id o)) ->
    In a (w_auditLogs w');
  sp_entries e : NoDup (map entry_id (w_incomeEntries w)) -> NoDup (map shift_id (w_shifts w)) ->
    In e (w_incomeEntries w) -> entry_venueId e <> DemoConfig.venueId -> refers_elsewhere w e -> In e (w_incomeEntries w')
}.

Lemma bd_ne {A} `{EqDecision A} (x y : A) : x <> y -> (x ==? y) = false.
Proof. intros Hn. by apply bool_decide_eq_false. Qed.

(** An entry whose shift is elsewhere keeps its shift elsewhere: the rows of other
    venues stay, and no other row takes their identifiers. *)
Lemma kept_elsewhere ctx w w' :
  venue_id (dc_venue ctx) = DemoConfig.venueId -> entries_kept (venue_id (dc_venue ctx)) (cleared ctx w) w' ->
  NoDup (map entry_id (w_incomeEntries w)) -> NoDup (map shift_id (w_shifts w)) ->
  forall e, In e (w_incomeEntries w) -> entry_venueId e <> DemoConfig.venueId -> refers_elsewhere w e -> In e (w_incomeEntries w').
Proof.
  intros Hv [Ks Ksi _ Ke] HN HS e He Hne Hel. pose proof (cleared_tables ctx w) as E. cbv zeta in E. rewrite Hv in *.
  destruct E as (_ & Es & _ & _ & _ & _ & _ & _ & _ & _ & Ee & _). rewrite Es in Ks, Ksi. rewrite Ee in Ke.
  apply Ke.
  - by apply NoDup_without.
  - apply without_In. eauto using bd_ne.
  - intros s' [Hs' Hsv%bool_decide_eq_true]%List.filter_In Ei.
    destruct (proj1 Hel _ Ei) as (s & Hs & Hid & Hsne).
    assert (In s (w_shifts w')) as Hs2 by (apply Ks, without_In; eauto using bd_ne).
    assert (s = s') as -> by (eapply (NoDup_map_inj shift_id (w_shifts w')); eauto using NoDup_without).
    done.
Qed.

Lemma cleared_spares ctx w w' :
  venue_id (dc_venue ctx) = DemoConfig.venueId -> dc_mappings ctx = demo_people w ->
  List.find by_legalName (w_organizations w) = Some (dc_organization ctx) ->
  added ctx (cleared ctx w) w' -> entries_kept (venue_id (dc_venue ctx)) (cleared ctx w) w' -> spared w w'.
Proof.
  intros Hv Hm Horg Ha Hk. pose proof (kept_elsewhere ctx w w' Hv Hk) as Hek. clear Hk. pose proof (cleared_tables ctx w) as E. cbv zeta in E. rewrite Hv in E.
  destruct E as (Et & Es & Eb & Ea & Ep & Er & Eo & Ei & Eg & Err & Ee & El & Eu & Ec & Ecc & Eau).
  destruct Ha as [At As Ab Aa Ap Ar Ao Ai Ag Arr Ae Al Au Ac Acc Aau]. rewrite Hv in Al. rewrite Hm in Au, Ac.
  rewrite ?Et, ?Es, ?Eb, ?Ea, ?Ep, ?Er, ?Eo, ?Ei, ?Eg, ?Err, ?Ee, ?El, ?Eu, ?Ec, ?Ecc, ?Eau in *. clear Et Es Eb Ea Ep Er Eo Ei Eg Err Ee El Eu Ec Ecc Eau.
  assert (forall i, (forall g, In g (w_grants w) -> grant_id g = i -> ~ In (grant_workerId g) (demo_workerIds w)) ->
    includes (grant_ids ctx w) i = false) as Hgr.
  { intros i Hi. apply includes_not_In. unfold grant_ids, grants_of, workerIds. rewrite Hm.
    intros (g & Hg & [Hin Hw%includes_In]%List.filter_In)%in_map_iff. by apply (Hi g). }
  assert (forall i, (forall s, In s (w_openShifts w) -> openShift_id s = i -> openShift_venueId s <> DemoConfig.venueId) ->
    includes (openShift_ids ctx w) i = false) as Hop.
  { intros i Hi. apply includes_not_In. unfold openShift_ids. rewrite Hv.
    intros (s & Hs & [Hin Hw%bool_decide_eq_true]%List.filter_In)%in_map_iff. by apply (Hi s). }
  split; [intros x Hx Hne..|intros x Hx Hne Ho|intros x HN HS Hx Hne He].
  - apply At, without_In. eauto using bd_ne.
  - apply As, without_In. eauto using bd_ne.
  - apply Ab, without_In. eauto using bd_ne.
  - apply Aa, without_In. split; [done|]. apply not_true_iff_false. intros (b & Hb & [Hid Hbv]%andb_true_iff)%existsb_exists.
    apply bool_decide_eq_true in Hid, Hbv. by apply (Hne b).
  - apply Ap, without_In. eauto using bd_ne.
  - apply Ar, without_In. eauto using bd_ne.
  - apply Ae, in_map, without_In. eauto using bd_ne.
  - apply Al, without_In. rewrite without_In. eauto using bd_ne.
  - intros _. apply Ai, without_In. eauto.
  - intros _. apply Arr, without_In. split; [done|]. apply Hgr. intros g Hg Hid Hw. apply Hne. by exists g.
  - apply Ag, without_In. eauto.
  - apply Ao, without_In. eauto.
  - apply Au, without_In. split; [done|by apply includes_not_In].
  - apply Ac, without_In. split; [done|]. apply includes_not_In.
    intros (m & Em & (a & <- & [Hin [Hva _]%andb_true_iff]%List.filter_In)%in_map_iff)%in_map_iff.
    apply bool_decide_eq_true in Hva. by apply (Hne a).
  - apply Acc, without_In. eauto.
  - apply Aau, without_In. split; [done|]. apply orb_false_iff. split; apply bd_ne; auto.
  - by apply Hek.
Qed.

(** Two databases with the same rows differ in the clock and the effects at most. *)
Definition tables (w : World) : World := w <| w_tick := 0%nat |> <| w_effects := [] |>.

Lemma spared_tables_l w w' : spared (tables w) w' <-> spared w w'.
Proof. split; intros []; split; assumption. Qed.
Lemma spared_tables_r w w' : spared w (tables w') <-> spared w w'.
Proof. split; intros []; split; assumption. Qed.

Lemma spared_same w w' : tables w' = tables w -> spared w w'.
Proof. intros E. apply spared_tables_r. rewrite E. apply spared_tables_r. split; auto using in_map. Qed.

Section spares.
Context `{Platform} `{RowSchema} `{Devnet} `{Serveproof.Runtime} `{Settling.Digest} `{Files}.

Lemma archive_tables v w : tables (run (archiveOnchain v) w).1 = tables w.
Proof. apply (guar_run (same_on tables)). unfold archiveOnchain. guar_at (same_on tables). Qed.

Lemma apply_spares ctx before w :
  venue_id (dc_venue ctx) = DemoConfig.venueId -> dc_mappings ctx = demo_people w ->
  List.find by_legalName (w_organizations w) = Some (dc_organization ctx) ->
  spared w (run (apply_preparation ctx before) w).1.
Proof.
  intros Hv Hm Horg. unfold apply_preparation. rewrite run_bind. pose proof (archive_tables (venue_id (dc_venue ctx)) w) as E.
  destruct (run (archiveOnchain _) w) as [w1 [archive|]]; cbn [fst] in E; [|by apply spared_same].
  apply spared_tables_l. rewrite <- E. apply spared_tables_l. rewrite run_bind, run_reset. cbv beta iota.
  apply (cleared_spares ctx); [done|rewrite Hm; symmetry; exact (f_equal demo_people E)
    |etransitivity; [exact (f_equal (fun w => List.find by_legalName (w_organizations w)) E)|exact Horg]| |].
  2:{ refine (guar_run (entries_kept (venue_id (dc_venue ctx))) _ _ _). unfold generated, seedHistory, counts.
    repeat first [apply history_entries | apply rebuild_entries | apply guar_bind; [|intros ?]
      | apply (guar_transaction (entries_kept (venue_id (dc_venue ctx)))) | progress kept_guar (venue_id (dc_venue ctx))]. }
  refine (guar_run (added ctx) _ _ _). unfold generated, seedHistory, counts.
  repeat first [apply write_history_added | apply rebuild_added | exact I | apply guar_bind; [|intros ?]
    | apply (guar_transaction (added ctx)) | apply guar_lift | apply guar_require | apply (guar_query (added ctx))
    | intros ?; split; [by apply same_added|exact I] | apply guar_act; intros ?; by apply same_added].
Qed.

(** C38: whom the preparation of the demo touches.  Without the two confirmations, or outside
    the two environments, the run changes no row.  In any run, a failing one
    included, the tables of venues, members, workers, wallets, policies,
    organizations, provider connections, refresh tokens and the one-time codes stay
    as they were; the tips, shifts, open shifts, batches, payouts, payroll records,
    alerts and external accounts of other venues stay, and so do the log entries that
    are neither of the demo venue nor of its organization, shares and assignments that
    hang on no batch or open shift of the demo venue, grants, reports and accesses of
    workers that are not in the demo, and users who are not in it.  No income entry of
    another venue is deleted, and where identifiers are unique, one that names no shift,
    payout or entry of the demo venue stays as it is. *)
Theorem prepare_spares_others e w :
  let w' := (run (prepare e) w).1 in
  (allowed_env (app_env e) && confirmed e DemoConfig.venueName = false -> tables w' = tables w) /\
  untouched w' = untouched w /\ spared w w'.
Proof.
  cbv zeta. pose proof (guar_run _ _ w (prepare_untouched e)) as Hu.
  match goal with |- ?P /\ _ /\ ?Q => enough (P /\ Q) as [? ?] by (split; [|split]; assumption) end. clear Hu.
  unfold prepare, throw_if. rewrite run_bind. destruct (allowed_env (app_env e)) eqn:Ea; cbn [negb andb].
  2:{ split; [done|by apply spared_same]. }
  rewrite run_ret. cbv beta iota. rewrite run_bind. destruct (run_context w) as (r & -> & Hr).
  destruct r as [ctx|]; [|split; [done|by apply spared_same]]. destruct (Hr ctx eq_refl) as (Hv & Hn & Hm & Horg). clear Hr.
  rewrite run_bind. pose proof (guar_run _ _ w (doctor_reads e true)) as Ed. unfold same_on in Ed.
  apply (f_equal tables) in Ed. change (tables (run (runDemoDoctor e true) w).1 = tables w) in Ed.
  destruct (run (runDemoDoctor e true) w) as [w1 [checks|]]; cbn [fst] in Ed; [|split; [done|by apply spared_same]].
  rewrite run_bind. rewrite Hn.
  assert (exists c, run (counts (venue_id (dc_venue ctx)) (workerIds ctx)) w1 = (w1, Ok c)) as [c ->].
  { unfold counts. wexec. by eexists. }
  destruct (confirmed e DemoConfig.venueName); cbn [negb].
  2:{ rewrite run_ret. split; [done|by apply spared_same]. }
  split; [done|]. rewrite run_bind. pose proof (apply_spares ctx c w1 Hv ltac:(rewrite Hm; symmetry; exact (f_equal demo_people Ed))
    ltac:(rewrite <- Horg; exact (f_equal (fun w => List.find by_legalName (w_organizations w)) Ed))) as Hs.
  apply spared_tables_l. rewrite <- Ed. apply spared_tables_l.
  by destruct (run (apply_preparation ctx c) w1) as [w2 []].
Qed.
End spares.


(* ------------------------------------------------------------------ *)
(** ** The demo of the demo *)

Section demo.
(** A clock in the year the script is run in. *)
#[local] Instance clock_2026 : Platform := {|
  now t := 1786968000000 + 1000 * Z.of_nat t;
  uuid := @uuid demo_platform;
  randomToken := @randomToken demo_platform;
  randomCode := @randomCode demo_platform;
  sha256 := @sha256 demo_platform;
  hmacSha256 := @hmacSha256 demo_platform;
  stringify := @stringify demo_platform;
  localeLt := @localeLt demo_platform;
  intlDate := @intlDate demo_platform
|}.
#[local] Existing Instance devnet_runtime.
#[local] Existing Instance devnet_digest.
#[local] Existing Instance demo_devnet.
#[local] Existing Instance DemoCsv.iso_schema.
#[local] Instance demo_files : Files := {| pretty := stringify; artifactDir := "demo-artifacts" |}.

Definition confirmed_env : env := [("APP_ENV", "staging"); ("DEMO_PREPARE_APPLY", "1"); ("DEMO_PREPARE_CONFIRM", "Demo Diner")].

(** The ready demo, with a tip of the demo venue and one of another venue. *)
Definition own_tip : TipEvidence := history_tip DemoConfig.venueId "tip-a" "DEMO" "shift-a" 500 "2026-01-02" "hash-a".
Definition other_tip : TipEvidence := history_tip "another-venue" "tip-b" "DEMO" "shift-b" 700 "2026-01-02" "hash-b".
Definition other_log : AuditLog := mkAuditLog "log-b" None (Some "another-venue") None "VENUE_UPDATED" "Venue" None JNull.
Definition other_entry : IncomeEntry :=
  mkIncomeEntry "entry-b" "another-worker" "another-venue" None None 0 700 0 0 WithholdingStatus.UNKNOWN None EvidenceGrade.D
    EffectiveStatus.ACTIVE None None None 0.
Definition shared_world : World :=
  ready_world <| w_tips := [own_tip; other_tip] |> <| w_auditLogs := [other_log] |> <| w_incomeEntries := [other_entry] |>.

(** Four days of three workers each, all paid; the live day is still to come. *)
Example demo_prepared :
  let '(w', r) := run (prepare confirmed_env) shared_world in
  r = Ok (Some (mkPrepared (mkOperational 1 0 0 0 0 0 0) (mkOperational 12 12 4 12 1 12 0) 1 0 0)) /\
  existsb (fun t => tip_id t ==? "tip-a") (w_tips w') = false.
Proof. vm_compute. by split. Qed.

Lemma prepare_spares_others_witness :
  In other_tip (w_tips (run (prepare confirmed_env) shared_world).1) /\
  In other_log (w_auditLogs (run (prepare confirmed_env) shared_world).1) /\
  In other_entry (w_incomeEntries (run (prepare confirmed_env) shared_world).1) /\
  tables (run (prepare [("DEMO_PREPARE_APPLY", "1")]) shared_world).1 = tables shared_world.
Proof.
  pose proof (proj2 (proj2 (prepare_spares_others confirmed_env shared_world))) as Hs.
  split; [|split; [|split]].
  - apply (sp_tips _ _ Hs); [right; left; reflexivity|]. intros E. discriminate E.
  - apply (sp_audits _ _ Hs); [left; reflexivity|intros E; discriminate E|]. intros o _ E. discriminate E.
  - apply (sp_entries _ _ Hs); [apply (bool_decide_unpack _); vm_compute; exact I..|left; reflexivity| |].
    + intros E. discriminate E.
    + split; [intros i E; discriminate E|]. split; [intros p _ E; discriminate E|intros e' _ E; discriminate E].
  - exact (proj1 (prepare_spares_others [("DEMO_PREPARE_APPLY", "1")] shared_world) eq_refl).
Defined.
End demo.
End DemoPrepare.
