(* ===== verification/WebSession.v ===== *)
(** * The sessions of the web client

    apps/web/src/lib/api.ts: the identities a browser keeps, which of them a
    tab shows, and the renewal of their tokens.  The state is a browser:
    [localStorage], shared by the tabs, and the [sessionStorage] and the module
    variables of each tab.  Every access to a storage, every clock reading and
    the two halves of a fetch (the request leaves, the answer arrives) are one
    action each, so the tabs may interleave between any two of them.  The
    network, [JSON.parse], [atob], the clock and the presence of the Web Locks
    API are the interface [Web].

    A page waits for a lock or for a promise of its tab by asking up to [polls]
    times; a page whose polls are used up stands for one that still waits.
    The theorems hold for every number of polls.  Server-side rendering
    (no [window]) is not modelled; the claims of a token and the entries of the
    index have the types the code declares for them, an instant being an
    integer, and a field of another type counts as absent. *)

From stdpp Require Import relations gmap.
From S2P Require Import Prelude Concurrency Strings Schema.

Open Scope Z_scope.

Module WebSession.

(* ------------------------------------------------------------------ *)
(** ** The browser *)

(** [sessionStorage], [location.pathname] and the module variables
    [legacyMigrationDone] and [refreshPromises]; a promise is its index in
    [tab_promises], which has its value once it is settled. *)
Record Tab := mkTab {
  tab_session : gmap string string;
  tab_path : string;
  tab_migrated : bool;
  tab_refreshPromises : gmap string nat;
  tab_promises : list (option bool)
}.
#[export] Instance eta_Tab : Eta Tab := fun r => mkTab
  (tab_session r) (tab_path r) (tab_migrated r) (tab_refreshPromises r) (tab_promises r).

(** A request as the code makes it; the body before its serialization. *)
Record HttpRequest := mkRequest {
  rq_url : string;
  rq_method : string;
  rq_headers : list (string * string);
  rq_body : option json
}.

(** The status and the body ([None]: not JSON). *)
Record HttpResponse := mkResponse { rs_status : Z; rs_json : option json }.

Definition rs_ok (r : HttpResponse) : bool := (200 <=? rs_status r) && (rs_status r <? 300).

Inductive net_event :=
| Sent (q : HttpRequest)
| Answered (q : HttpRequest) (r : HttpResponse).

Record Browser := mkBrowser {
  br_local : gmap string string;
  br_tabs : gmap nat Tab;
  (** the Web Locks held, each with the tab that holds it *)
  br_locks : list (string * nat);
  br_log : list net_event;
  br_tick : nat
}.
#[export] Instance eta_Browser : Eta Browser := fun r => mkBrowser
  (br_local r) (br_tabs r) (br_locks r) (br_log r) (br_tick r).

Class Web := {
  NEXT_PUBLIC_API_URL : option string;
  (** whether [navigator.locks] is there *)
  webLocks : bool;
  (** the answer to a request at a tick; [None] when the network fails *)
  answer : HttpRequest -> nat -> option HttpResponse;
  dateNow : nat -> Z;
  (** [atob]; [None] when it throws *)
  atob : string -> option string;
  (** [JSON.parse] ([None] when it throws) and [JSON.stringify] *)
  parseJson : string -> option json;
  printJson : json -> string
}.

Abbreviation page := (prog Browser).

Definition empty_tab : Tab := mkTab ∅ "" false ∅ [].
Definition tab_of (b : Browser) (t : nat) : Tab := default empty_tab (br_tabs b !! t).
Definition on_tab (t : nat) (f : Tab -> Tab) (b : Browser) : Browser :=
  b <| br_tabs := <[t := f (tab_of b t)]> (br_tabs b) |>.

(** [localStorage] *)
Definition getItem (k : string) : page (option string) := query (fun b => br_local b !! k).
Definition setItem (k v : string) : page unit :=
  Act (fun b => (b <| br_local ::= insert k v |>, tt)) Ret.
Definition removeItem (k : string) : page unit :=
  Act (fun b => (b <| br_local ::= base.delete k |>, tt)) Ret.

(** [sessionStorage] of the tab [t] *)
Definition tabGetItem (t : nat) (k : string) : page (option string) :=
  query (fun b => tab_session (tab_of b t) !! k).
Definition tabSetItem (t : nat) (k v : string) : page unit :=
  Act (fun b => (on_tab t (fun x => x <| tab_session ::= insert k v |>) b, tt)) Ret.
Definition tabRemoveItem (t : nat) (k : string) : page unit :=
  Act (fun b => (on_tab t (fun x => x <| tab_session ::= base.delete k |>) b, tt)) Ret.

(** [xs.filter(p)] and [xs.find(p)] of a predicate that reads the browser *)
Fixpoint filter_page {A} (p : A -> page bool) (xs : list A) : page (list A) :=
  match xs with
  | [] => Ret []
  | x :: xs' => let* c := p x in let* ys := filter_page p xs' in Ret (if c then x :: ys else ys)
  end.

Fixpoint find_page {A} (p : A -> page bool) (xs : list A) : page (option A) :=
  match xs with
  | [] => Ret None
  | x :: xs' => let* c := p x in if c then Ret (Some x) else find_page p xs'
  end.

(* ------------------------------------------------------------------ *)
(** ** Modes, keys and sessions *)

Inductive AppMode := staff | worker.
#[global] Instance AppMode_eq_dec : EqDecision AppMode.
Proof. solve_decision. Defined.

Definition AppMode_name (m : AppMode) : string := match m with staff => "staff" | worker => "worker" end.

(** [mode === "worker" || mode === "staff"] *)
Definition mode_of_name (s : string) : option AppMode :=
  if s ==? "worker" then Some worker else if s ==? "staff" then Some staff else None.

Record StoredSession := mkSession {
  ss_id : string;
  ss_email : string;
  ss_role : string;
  ss_modes : list AppMode;
  ss_defaultMode : AppMode;
  ss_updatedAt : Z
}.
#[export] Instance eta_StoredSession : Eta StoredSession := fun r => mkSession
  (ss_id r) (ss_email r) (ss_role r) (ss_modes r) (ss_defaultMode r) (ss_updatedAt r).
#[global] Instance StoredSession_eq_dec : EqDecision StoredSession.
Proof. solve_decision. Defined.

Definition LEGACY_ACCESS_KEY : string := "sp_access_token".
Definition LEGACY_REFRESH_KEY : string := "sp_refresh_token".
Definition legacyAccessKey (mode : AppMode) : string := "sp_" +:+ AppMode_name mode +:+ "_access_token".
Definition legacyRefreshKey (mode : AppMode) : string := "sp_" +:+ AppMode_name mode +:+ "_refresh_token".
Definition SESSION_INDEX_KEY : string := "sp_session_index_v2".
Definition ACTIVE_SESSION_KEY : string := "sp_active_session_id".
Definition ACTIVE_MODE_KEY : string := "sp_active_app_mode".
Definition LAST_SESSION_KEY : string := "sp_last_session_id".
Definition lastModeKey (mode : AppMode) : string := "sp_last_" +:+ AppMode_name mode +:+ "_session_id".
Definition sessionAccessKey (id : string) : string := "sp_session_" +:+ id +:+ "_access_token".
Definition sessionRefreshKey (id : string) : string := "sp_session_" +:+ id +:+ "_refresh_token".

Record TokenClaims := mkClaims {
  cl_sub : option string;
  cl_email : option string;
  cl_role : option string;
  cl_modes : option (list string);
  cl_exp : option Z
}.

(** The fields of a JSON value by type. *)
Definition field (o : json) (k : string) : option json := match o with JObj l => map_get l k | _ => None end.
Definition as_string (o : option json) : option string := match o with Some (JStr s) => Some s | _ => None end.
Definition as_number (o : option json) : option Z := match o with Some (JInt z) => Some z | _ => None end.
Definition as_strings (o : option json) : option (list string) :=
  match o with Some (JArr l) => Some (omap (fun x => as_string (Some x)) l) | _ => None end.

Definition claims_of (j : json) : TokenClaims :=
  mkClaims (as_string (field j "sub")) (as_string (field j "email")) (as_string (field j "role"))
    (as_strings (field j "modes")) (as_number (field j "exp")).

Definition replace_char (c d : ascii) : string -> string :=
  fix go s := match s with
              | EmptyString => ""
              | String a s' => String (if Ascii.eqb a c then d else a) (go s')
              end.

(** The first entry of the index with an id; the others. *)
Definition session_by_id (id : string) (l : list StoredSession) : option StoredSession :=
  List.find (fun s => ss_id s ==? id) l.
Definition without_id (id : string) (l : list StoredSession) : list StoredSession :=
  List.filter (fun s => ss_id s !=? id) l.

(** [s.startsWith(p)] *)
Definition startsWith (p s : string) : bool := String.prefix p s.

Definition legacyModeForRole (role : option string) : option AppMode :=
  match role with
  | Some r => if r ==? "" then None else if r ==? "WORKER" then Some worker else Some staff
  | None => None
  end.

Definition modeForPath (pathname : string) : option AppMode :=
  if startsWith "/me" pathname then Some worker
  else if startsWith "/dashboard" pathname then Some staff else None.

Definition modeForPage (t : nat) : page (option AppMode) := query (fun b => modeForPath (tab_path (tab_of b t))).

Definition destinationFor (mode : AppMode) : string := match mode with worker => "/me" | staff => "/dashboard" end.

(** One entry of the index, validated. *)
Definition stored_session (raw : json) : list StoredSession :=
  match as_string (field raw "id"), as_string (field raw "email"), as_string (field raw "role"),
        as_number (field raw "updatedAt") with
  | Some id, Some email, Some role, Some updatedAt =>
      let legacyMode := as_string (field raw "slot") ≫= mode_of_name in
      let modes := match as_strings (field raw "modes") with
                   | Some l => omap mode_of_name l
                   | None => match legacyMode with Some m => [m] | None => [] end
                   end in
      match modes with
      | [] => []
      | m0 :: _ =>
          let defaultMode := match as_string (field raw "defaultMode") ≫= mode_of_name with
                             | Some m => if includes modes m then m else m0
                             | None => m0
                             end in
          [mkSession id email role modes defaultMode updatedAt]
      end
  | _, _, _, _ => []
  end.

Definition session_json (s : StoredSession) : json :=
  JObj [("id", JStr (ss_id s)); ("email", JStr (ss_email s)); ("role", JStr (ss_role s));
        ("modes", JArr (map (fun m => JStr (AppMode_name m)) (ss_modes s)));
        ("defaultMode", JStr (AppMode_name (ss_defaultMode s))); ("updatedAt", JInt (ss_updatedAt s))].

(** No fractional number in the value. *)
Fixpoint integral (j : json) : Prop :=
  match j with
  | JFloat _ => False
  | JArr l => fold_right (fun x P => integral x /\ P) True l
  | JObj l => fold_right (fun kv P => integral kv.2 /\ P) True l
  | _ => True
  end.

Section client.
Context `{Web}.

Definition API_URL : string := nullish NEXT_PUBLIC_API_URL "http://localhost:3001".

Definition now_ms : page Z := Act (fun b => (b <| br_tick ::= S |>, dateNow (br_tick b))) Ret.

(** [fetch(url, init)]: the request leaves; later the answer arrives, or the
    network fails. *)
Definition fetch (q : HttpRequest) : page HttpResponse :=
  do* (Act (fun b => (b <| br_log ::= (fun l => l ++ [Sent q]) |>, tt)) Ret) in
  act (fun b =>
    let b' := b <| br_tick ::= S |> in
    match answer q (br_tick b) with
    | Some r => (b' <| br_log ::= (fun l => l ++ [Answered q r]) |>, Ok r)
    | None => (b', Err (JsError "Failed to fetch"))
    end).

(** [await response.json()] *)
Definition json_body (r : HttpResponse) : page json := require (rs_json r) (JsError "Unexpected token").

(* ------------------------------------------------------------------ *)
(** ** The index of sessions *)

Definition decodeClaims (token : string) : option TokenClaims :=
  match split "." token with
  | _ :: encoded :: _ =>
      if encoded ==? "" then None else
      let base64 := padEnd (replace_char "_" "/" (replace_char "-" "+" encoded))
                      (4 * ((String.length encoded + 3) / 4)) "=" in
      match atob base64 ≫= parseJson with
      | None | Some JNull => None
      | Some j => Some (claims_of j)
      end
  | _ => None
  end.

(** The entries of the index in the text under [SESSION_INDEX_KEY]. *)
Definition parse_index (text : option string) : list StoredSession :=
  match parseJson (nullish text "[]") with
  | Some (JArr l) => flat_map stored_session l
  | _ => []
  end.

Definition readSessionIndex : page (list StoredSession) :=
  let* text := getItem SESSION_INDEX_KEY in Ret (parse_index text).

Definition writeSessionIndex (sessions : list StoredSession) : page unit :=
  setItem SESSION_INDEX_KEY (printJson (JArr (map session_json sessions))).

(** For each of [modes]: the pointer to the last session of the mode is dropped
    when it is [id]. *)
Definition forget_modes (modes : list AppMode) (id : string) : page unit :=
  for_each modes (fun mode =>
    let* last := getItem (lastModeKey mode) in
    if last ==? Some id then removeItem (lastModeKey mode) else Ret tt).

Definition lost_modes (previous modes : list AppMode) : list AppMode :=
  List.filter (fun m => negb (includes modes m)) previous.

(** The session a token describes. *)
Definition session_of_token (accessToken : string) (fallbackId : option string) (t : Z) : result StoredSession :=
  let claims := decodeClaims accessToken in
  let legacyMode := legacyModeForRole (claims ≫= cl_role) in
  let own := omap mode_of_name (nullish (claims ≫= cl_modes) []) in
  let modes := match own, legacyMode with [], Some m => [m] | _, _ => own end in
  match modes with
  | [] => Err (JsError "Invalid access token capabilities")
  | m0 :: _ =>
      let id := if truthy (claims ≫= cl_sub) then claims ≫= cl_sub else fallbackId in
      if negb (truthy id) then Err (JsError "Invalid access token subject") else
      let defaultMode := match legacyMode with Some m => if includes modes m then m else m0 | None => m0 end in
      Ok (mkSession (nullish id "") (nullish (claims ≫= cl_email) "") (nullish (claims ≫= cl_role) "")
            modes defaultMode t)
  end.

(** The clock is read before the guards, which do not depend on it. *)
Definition persistSession (t : nat) (accessToken refreshToken : string) (activate : bool)
    (fallbackId : option string) : page StoredSession :=
  let* updatedAt := now_ms in
  let* session := lift_result (session_of_token accessToken fallbackId updatedAt) in
  let id := ss_id session in
  let* existingSessions := readSessionIndex in
  do* match session_by_id id existingSessions with
      | Some previous => forget_modes (lost_modes (ss_modes previous) (ss_modes session)) id
      | None => Ret tt
      end in
  do* writeSessionIndex (without_id id existingSessions ++ [session]) in
  do* setItem (sessionAccessKey id) accessToken in
  do* (if refreshToken ==? "" then Ret tt else setItem (sessionRefreshKey id) refreshToken) in
  do* setItem LAST_SESSION_KEY id in
  do* for_each (ss_modes session) (fun mode => setItem (lastModeKey mode) id) in
  do* (if activate then tabSetItem t ACTIVE_SESSION_KEY id else Ret tt) in
  Ret session.

(** The keys of the earlier versions, with the mode of their session. *)
Definition legacy_candidates : list (string * string * option AppMode) :=
  [(LEGACY_ACCESS_KEY, LEGACY_REFRESH_KEY, None);
   (legacyAccessKey staff, legacyRefreshKey staff, Some staff);
   (legacyAccessKey worker, legacyRefreshKey worker, Some worker)].

Definition migrate_candidate (t : nat) (candidate : string * string * option AppMode) : page unit :=
  let '(accessKey, refreshKey, fallbackMode) := candidate in
  let* stored := getItem accessKey in
  match stored with
  | Some accessToken =>
      if accessToken ==? "" then Ret tt else
      let claims := decodeClaims accessToken in
      match nullish2 (legacyModeForRole (claims ≫= cl_role)) fallbackMode with
      | None => Ret tt
      | Some mode =>
          let* refreshToken := getItem refreshKey in
          let fallbackId := nullish (claims ≫= cl_sub) ("legacy-" +:+ AppMode_name mode) in
          let* persisted := catch (let* _ := persistSession t accessToken (nullish refreshToken "") false
                                               (Some fallbackId) in Ret true)
                                  (fun _ => Ret false) in
          if persisted then do* removeItem accessKey in removeItem refreshKey else Ret tt
      end
  | None => Ret tt
  end.

Definition migrateLegacySessions (t : nat) : page unit :=
  let* done := query (fun b => tab_migrated (tab_of b t)) in
  if done : bool then Ret tt else
  do* (Act (fun b => (on_tab t (fun x => x <| tab_migrated := true |>) b, tt)) Ret) in
  for_each legacy_candidates (migrate_candidate t).

Definition sessionHasToken (session : StoredSession) : page bool :=
  let* token := getItem (sessionAccessKey (ss_id session)) in Ret (truthy token).

Definition findSession (id : option string) : page (option StoredSession) :=
  match id with
  | Some i =>
      if i ==? "" then Ret None else
      let* index := readSessionIndex in
      find_page (fun session => if ss_id session ==? i then sessionHasToken session else Ret false) index
  | None => Ret None
  end.

(** The sessions with a token, the last updated first. *)
Definition usable_sessions : page (list StoredSession) :=
  let* index := readSessionIndex in
  let* usable := filter_page sessionHasToken index in
  Ret (stable_sort (fun a b => ss_updatedAt b <? ss_updatedAt a) usable).

Definition has_mode (mode : AppMode) (session : StoredSession) : bool := includes (ss_modes session) mode.

Definition currentSession (t : nat) : page (option StoredSession) :=
  do* migrateLegacySessions t in
  let* sessions := usable_sessions in
  let* requiredMode := modeForPage t in
  let* activeId := tabGetItem t ACTIVE_SESSION_KEY in
  let* active := findSession activeId in
  match active, requiredMode with
  | Some session, _ => Ret (Some session)
  | None, Some mode =>
      let* lastId := getItem (lastModeKey mode) in
      let* lastForMode := findSession lastId in
      let selected := nullish2 (lastForMode ≫= fun s => if has_mode mode s then Some s else None)
                        (List.find (has_mode mode) sessions) in
      match selected with
      | Some session =>
          do* tabSetItem t ACTIVE_SESSION_KEY (ss_id session) in
          do* tabSetItem t ACTIVE_MODE_KEY (AppMode_name mode) in
          Ret (Some session)
      | None => Ret None
      end
  | None, None =>
      let* lastId := getItem LAST_SESSION_KEY in
      let* last := findSession lastId in
      match nullish2 last (head sessions) with
      | Some session => do* tabSetItem t ACTIVE_SESSION_KEY (ss_id session) in Ret (Some session)
      | None => Ret None
      end
  end.

Definition removeSession (t : nat) (id : string) : page unit :=
  let* removed := findSession (Some id) in
  let* index := readSessionIndex in
  do* writeSessionIndex (without_id id index) in
  do* removeItem (sessionAccessKey id) in
  do* removeItem (sessionRefreshKey id) in
  let* active := tabGetItem t ACTIVE_SESSION_KEY in
  do* (if active ==? Some id then tabRemoveItem t ACTIVE_SESSION_KEY else Ret tt) in
  let* last := getItem LAST_SESSION_KEY in
  do* (if last ==? Some id then removeItem LAST_SESSION_KEY else Ret tt) in
  match removed with Some s => forget_modes (ss_modes s) id | None => Ret tt end.

Definition getStoredSessions (t : nat) : page (list StoredSession) :=
  do* migrateLegacySessions t in usable_sessions.

(** The requested mode, else the mode of the tab, else the default, the first
    the session has. *)
Definition pick_mode (requested : option AppMode) (saved : option string) (session : StoredSession) : AppMode :=
  let held o := o ≫= fun m => if has_mode m session then Some m else None in
  nullish (nullish2 (held requested) (held (saved ≫= mode_of_name))) (ss_defaultMode session).

Definition activateSession (t : nat) (id : string) (requestedMode : option AppMode) : page (option string) :=
  let* found := findSession (Some id) in
  match found with
  | None => Ret None
  | Some session =>
      let* tabMode := tabGetItem t ACTIVE_MODE_KEY in
      let mode := pick_mode requestedMode tabMode session in
      do* tabSetItem t ACTIVE_SESSION_KEY id in
      do* tabSetItem t ACTIVE_MODE_KEY (AppMode_name mode) in
      do* setItem LAST_SESSION_KEY id in
      do* setItem (lastModeKey mode) id in
      Ret (Some (destinationFor mode))
  end.

Definition switchAppMode (t : nat) (mode : AppMode) : page (option string) :=
  let* current := currentSession t in
  match current with
  | Some session =>
      if has_mode mode session then
        do* tabSetItem t ACTIVE_MODE_KEY (AppMode_name mode) in
        do* setItem (lastModeKey mode) (ss_id session) in
        Ret (Some (destinationFor mode))
      else Ret None
  | None => Ret None
  end.

Definition bearer (token : string) : list (string * string) := [("Authorization", "Bearer " +:+ token)].

(** The session with the e-mail and the modes the server reports. *)
Definition synced (session : StoredSession) (email : option string) (m0 : AppMode) (modes : list AppMode) : StoredSession :=
  session <| ss_email := nullish email (ss_email session) |> <| ss_modes := modes |>
          <| ss_defaultMode := if includes modes (ss_defaultMode session) then ss_defaultMode session else m0 |>.

Definition syncCurrentSession (t : nat) : page (option StoredSession) :=
  let* current := currentSession t in
  match current with
  | None => Ret None
  | Some session =>
      let* accessToken := getItem (sessionAccessKey (ss_id session)) in
      match accessToken with
      | None | Some "" => Ret None
      | Some token =>
          catch
            (let* response := fetch (mkRequest (API_URL +:+ "/auth/session") "GET" (bearer token) None) in
             if negb (rs_ok response) then Ret (Some session) else
             let* data := json_body response in
             let modes := omap mode_of_name (nullish (as_strings (field data "modes")) []) in
             match modes with
             | [] => Ret (Some session)
             | m0 :: _ =>
                 let updated := synced session (as_string (field data "email")) m0 modes in
                 let* index := readSessionIndex in
                 do* writeSessionIndex (without_id (ss_id session) index ++ [updated]) in
                 do* forget_modes (lost_modes (ss_modes session) modes) (ss_id session) in
                 do* for_each modes (fun mode => setItem (lastModeKey mode) (ss_id session)) in
                 Ret (Some updated)
             end)
            (fun _ => Ret (Some session))
      end
  end.

Definition getToken (t : nat) : page (option string) :=
  let* current := currentSession t in
  match current with Some s => getItem (sessionAccessKey (ss_id s)) | None => Ret None end.

Definition setTokens (t : nat) (accessToken refreshToken : string) : page unit :=
  let* _ := persistSession t accessToken refreshToken true None in Ret tt.

Definition clearTokens (t : nat) : page unit :=
  let* current := currentSession t in
  match current with Some s => removeSession t (ss_id s) | None => Ret tt end.

Definition getRefreshToken (id : string) : page (option string) := getItem (sessionRefreshKey id).

(* ------------------------------------------------------------------ *)
(** ** Renewing the tokens *)

Definition waiting : exn := JsError "waiting".

Definition lock_held (b : Browser) (name : string) : bool := includes (map fst (br_locks b)) name.

(** A Web Lock in exclusive mode, asked for by a page of the tab [t]. *)
Fixpoint acquire (polls t : nat) (name : string) : page unit :=
  match polls with
  | O => Throw waiting
  | S n =>
      let* got := Act (fun b => if lock_held b name then (b, false)
                                else (b <| br_locks ::= cons (name, t) |>, true)) Ret in
      if got : bool then Ret tt else acquire n t name
  end.

Definition release (name : string) : page unit :=
  Act (fun b => (b <| br_locks ::= List.filter (fun x => x.1 !=? name) |>, tt)) Ret.

(** The task does not throw.  A tab that is closed or reloaded meanwhile loses
    the lock without ending the task: see [tab_leaves] in SessionTabs.v. *)
Definition withRefreshLock {A} (polls t : nat) (sessionId : string) (task : page A) : page A :=
  let name := "serveproof-refresh-" +:+ sessionId in
  if webLocks then
    do* acquire polls t name in
    let* a := task in
    do* release name in
    Ret a
  else task.

(** [refreshPromises.get(id)], and when there is none
    [refreshPromises.set(id, pending)]: nothing of the tab runs between them. *)
Definition joinOrStart (t : nat) (id : string) : page (nat + nat) :=
  Act (fun b =>
    match tab_refreshPromises (tab_of b t) !! id with
    | Some p => (b, inl p)
    | None =>
        let p := length (tab_promises (tab_of b t)) in
        (on_tab t (fun x => x <| tab_refreshPromises ::= insert id p |>
                              <| tab_promises ::= (fun l => l ++ [None]) |>) b, inr p)
    end) Ret.

(** [.finally(() => refreshPromises.delete(id))], and the promise has its value. *)
Definition settle (t : nat) (id : string) (p : nat) (r : bool) : page unit :=
  Act (fun b => (on_tab t (fun x => x <| tab_refreshPromises ::= base.delete id |>
                                      <| tab_promises ::= insert p (Some r) |>) b, tt)) Ret.

Fixpoint await_promise (polls : nat) (t p : nat) : page bool :=
  match polls with
  | O => Throw waiting
  | S n =>
      let* v := query (fun b => tab_promises (tab_of b t) !! p) in
      match v with Some (Some r) => Ret r | _ => await_promise n t p end
  end.

Definition refresh_request (refreshToken : string) : HttpRequest :=
  mkRequest (API_URL +:+ "/auth/refresh") "POST" [("Content-Type", "application/json")]
    (Some (JObj [("refreshToken", JStr refreshToken)])).

(** The tokens in the body of an answer are kept. *)
Definition persist_answer (t : nat) (body : json) : page bool :=
  match as_string (field body "accessToken") with
  | Some accessToken =>
      do* setTokens t accessToken (nullish (as_string (field body "refreshToken")) "") in
      Ret true
  | None => Throw (JsError "Invalid access token capabilities")
  end.

(** What is done with the answer to a refresh. *)
Definition refresh_answered (t : nat) (id attemptedRefreshToken : string) (response : HttpResponse) : page bool :=
  if negb (rs_ok response) then
    let* currentRefreshToken := getRefreshToken id in
    let* currentAccessToken := getItem (sessionAccessKey id) in
    if truthy currentRefreshToken && (currentRefreshToken !=? Some attemptedRefreshToken)
       && truthy currentAccessToken
    then Ret true
    else do* removeSession t id in Ret false
  else
    let* tokens := json_body response in
    persist_answer t tokens.

(** The task under the lock. *)
Definition refresh_task (t : nat) (id : string) (staleAccessToken : option string) : page bool :=
  let* latestAccessToken := getItem (sessionAccessKey id) in
  if truthy staleAccessToken && truthy latestAccessToken && (latestAccessToken !=? staleAccessToken)
  then Ret true
  else
    let* attempted := getRefreshToken id in
    if negb (truthy attempted)
    then do* removeSession t id in Ret false
    else
      let attemptedRefreshToken := nullish attempted "" in
      catch (let* response := fetch (refresh_request attemptedRefreshToken) in
             refresh_answered t id attemptedRefreshToken response)
            (fun _ => Ret false).

(** The session whose access token was refused, else the current one. *)
Definition refresh_subject (t : nat) (staleAccessToken : option string) : page (option StoredSession) :=
  let* owner := (if truthy staleAccessToken
                 then let* index := readSessionIndex in
                      find_page (fun item => let* token := getItem (sessionAccessKey (ss_id item)) in
                                             Ret (token ==? staleAccessToken)) index
                 else Ret None) in
  match owner with Some s => Ret (Some s) | None => currentSession t end.

Definition refreshSession (polls t : nat) (staleAccessToken : option string) : page bool :=
  let* subject := refresh_subject t staleAccessToken in
  match subject with
  | None => Ret false
  | Some session =>
      let* joined := joinOrStart t (ss_id session) in
      match joined with
      | inl p => await_promise polls t p
      | inr p =>
          let* r := withRefreshLock polls t (ss_id session) (refresh_task t (ss_id session) staleAccessToken) in
          do* settle t (ss_id session) p r in
          Ret r
      end
  end.

(** [Boolean(accessToken && claims?.exp && claims.exp * 1000 > Date.now() + 10_000)] *)
Definition token_usable (accessToken : option string) : page bool :=
  match (if truthy accessToken then accessToken ≫= decodeClaims else None) ≫= cl_exp with
  | Some exp => if exp =? 0 then Ret false else let* t := now_ms in Ret (t + 10000 <? exp * 1000)
  | None => Ret false
  end.

Definition restoreSession (polls t : nat) : page (option string) :=
  let* current := currentSession t in
  match current with
  | None => Ret None
  | Some session =>
      let* accessToken := getItem (sessionAccessKey (ss_id session)) in
      let* usable := token_usable accessToken in
      let* ready := (if usable : bool then Ret true else refreshSession polls t accessToken) in
      if negb ready then Ret None else
      let* refreshed := syncCurrentSession t in
      match refreshed with
      | None => Ret None
      | Some r =>
          let* requiredMode := modeForPage t in
          let* savedMode := tabGetItem t ACTIVE_MODE_KEY in
          let mode := pick_mode requiredMode savedMode r in
          do* tabSetItem t ACTIVE_MODE_KEY (AppMode_name mode) in
          Ret (Some (destinationFor mode))
      end
  end.

Definition logoutSession (t : nat) : page unit :=
  let* current := currentSession t in
  match current with
  | None => Ret tt
  | Some session =>
      let* refreshToken := getRefreshToken (ss_id session) in
      do* catch (if truthy refreshToken then
                   do* fetch (mkRequest (API_URL +:+ "/auth/logout") "POST" [("Content-Type", "application/json")]
                                (Some (JObj [("refreshToken", JStr (nullish refreshToken ""))]))) in
                   Ret tt
                 else Ret tt)
                (fun _ => Ret tt) in
      removeSession t (ss_id session)
  end.

(* ------------------------------------------------------------------ *)
(** ** Requests *)

Record ApiOptions := mkOptions {
  op_method : option string;
  op_body : option json;
  op_auth : bool;
  op_headers : list (string * string)
}.

Definition set_headers (base extra : list (string * string)) : list (string * string) :=
  fold_left (fun hs kv => map_set hs kv.1 kv.2) extra base.

(** One request of [api], and the token it used. *)
Definition api_request (t : nat) (path : string) (options : ApiOptions) : page (option string * HttpResponse) :=
  let headers := set_headers [("Content-Type", "application/json")] (op_headers options) in
  let* tokenUsed := (if op_auth options then getToken t else Ret None) in
  let headers' := match tokenUsed with
                  | Some token => if token ==? "" then headers else set_headers headers (bearer token)
                  | None => headers
                  end in
  let* response := fetch (mkRequest (API_URL +:+ path) (nullish (op_method options) "GET") headers' (op_body options)) in
  Ret (tokenUsed, response).

Definition api (polls t : nat) (path : string) (options : ApiOptions) : page json :=
  let* ' (tokenUsed, first) := api_request t path options in
  let* retry := (if (rs_status first =? 401) && op_auth options
                 then refreshSession polls t tokenUsed else Ret false) in
  let* response := (if retry : bool
                    then let* ' (_, second) := api_request t path options in Ret second
                    else Ret first) in
  let data := nullish (rs_json response) (JObj []) in
  if negb (rs_ok response)
  then Throw (ApiError (rs_status response)
    (nullish (as_string (field data "message"))
       ("Request failed (" +:+ str_of_Z (rs_status response) +:+ ")")))
  else Ret data.

(** [verifyOtp] of the login page: the destination of the router, or the error
    shown. *)
Definition verifyOtp (polls t : nat) (email code : string) : page (string + string) :=
  catch
    (let* res := api polls t "/auth/otp/verify"
       (mkOptions (Some "POST") (Some (JObj [("email", JStr email); ("code", JStr code)])) false []) in
     do* persist_answer t res in
     let* destination := restoreSession polls t in
     Ret (inl (nullish destination "/login")))
    (fun e => Ret (inr (exn_message e))).

(** What the pages call. *)
Inductive task :=
| GetStoredSessions
| GetCurrentSession
| ActivateSession (id : string) (mode : option AppMode)
| SwitchAppMode (mode : AppMode)
| RestoreSession
| Logout
| ClearTokens
| Api (path : string) (options : ApiOptions)
| Login (email code : string).

Definition run_task (polls t : nat) (k : task) : page unit :=
  match k with
  | GetStoredSessions => do* getStoredSessions t in Ret tt
  | GetCurrentSession => do* currentSession t in Ret tt
  | ActivateSession id mode => do* activateSession t id mode in Ret tt
  | SwitchAppMode mode => do* switchAppMode t mode in Ret tt
  | RestoreSession => do* restoreSession polls t in Ret tt
  | Logout => logoutSession t
  | ClearTokens => clearTokens t
  | Api path options => do* api polls t path options in Ret tt
  | Login email code => do* verifyOtp polls t email code in Ret tt
  end.

(** A page of the tab [t]: its calls one after the other; an error ends a call,
    not the page. *)
Definition run_page (polls t : nat) (ks : list task) : page unit :=
  for_each ks (fun k => catch (run_task polls t k) (fun _ => Ret tt)).
End client.

End WebSession.
