(* ===== verification/WebDemo.v ===== *)
(** * A concrete browser

    An instance of the interface [Web] for the examples and witnesses of the
    web client: a JSON codec that reads back what it prints (a text of binary
    digits, through the countable encoding of finite trees), a server that
    issues tokens numbered by the interaction, and a clock that advances one
    second per interaction. *)

From stdpp Require Import countable gmap.
From S2P Require Import Prelude Concurrency Strings Schema WebSession.

Module WebDemo.
Import WebSession.

(* ------------------------------------------------------------------ *)
(** ** A JSON codec *)

(** A JSON value without fractional numbers as a tree whose leaves are texts
    and integers. *)
Definition leaf : Type := string + Z.

Fixpoint tree_of (j : json) : gen_tree leaf :=
  match j with
  | JNull | JFloat _ => GenNode 0 []
  | JBool b => GenNode (if b then 2 else 1) []
  | JInt z => GenLeaf (inr z)
  | JStr s => GenLeaf (inl s)
  | JArr l => GenNode 3 (map tree_of l)
  | JObj l => GenNode 4 (flat_map (fun kv => [GenLeaf (inl kv.1); tree_of kv.2]) l)
  end.

Section pairs.
Context {A : Type} (f : gen_tree leaf -> A).
Fixpoint pairs_of (l : list (gen_tree leaf)) : list (string * A) :=
  match l with
  | GenLeaf (inl k) :: t :: l' => (k, f t) :: pairs_of l'
  | _ => []
  end.
End pairs.

Fixpoint json_of (t : gen_tree leaf) : json :=
  match t with
  | GenLeaf (inl s) => JStr s
  | GenLeaf (inr z) => JInt z
  | GenNode 1 _ => JBool false
  | GenNode 2 _ => JBool true
  | GenNode 3 l => JArr (map json_of l)
  | GenNode 4 l => JObj (pairs_of json_of l)
  | GenNode _ _ => JNull
  end.

Fixpoint digits_of_pos (p : positive) : string :=
  match p with
  | xH => ""
  | xO p' => String "0" (digits_of_pos p')
  | xI p' => String "1" (digits_of_pos p')
  end.

Fixpoint pos_of_digits (s : string) : positive :=
  match s with
  | String c s' => if Ascii.eqb c "1" then xI (pos_of_digits s') else xO (pos_of_digits s')
  | EmptyString => xH
  end.

Lemma pos_of_digits_of p : pos_of_digits (digits_of_pos p) = p.
Proof. induction p as [p IH|p IH|]; cbn; congruence. Qed.

Definition print_json (j : json) : string := digits_of_pos (encode (tree_of j)).

Definition parse_json (s : string) : option json :=
  if s ==? "[]" then Some (JArr []) else json_of <$> decode (pos_of_digits s).

Fixpoint json_of_tree_of (j : json) : integral j -> json_of (tree_of j) = j.
Proof.
  destruct j as [|[]|z|f|s|l|l]; cbn; try done.
  - intros H. f_equal. induction l as [|x l IH]; cbn; [done|]. destruct H as [Hx Hl].
    f_equal; [by apply json_of_tree_of|by apply IH].
  - intros H. f_equal. induction l as [|[k x] l IH]; cbn; [done|]. destruct H as [Hx Hl].
    f_equal; [f_equal; by apply json_of_tree_of|by apply IH].
Qed.

Lemma digits_not_array p : (digits_of_pos p ==? "[]") = false.
Proof. apply bool_decide_eq_false_2. by destruct p. Qed.

Lemma parse_print j : integral j -> parse_json (print_json j) = Some j.
Proof.
  intros Hj. unfold parse_json, print_json. rewrite digits_not_array, pos_of_digits_of, decode_encode. cbn.
  by rewrite json_of_tree_of.
Qed.

(* ------------------------------------------------------------------ *)
(** ** A server and a browser *)

(** The claims AuthService.issueTokens signs, for the workers [ada] and [bob]. *)
Definition claims_json (user : string) : json :=
  JObj [("sub", JStr user); ("email", JStr (user +:+ "@example.org")); ("role", JStr "WORKER");
        ("modes", JArr [JStr "worker"]); ("typ", JStr "access")].

Definition number (n : nat) : string := str_of_Z (Z.of_nat n).
Definition access_token (user : string) (n : nat) : string :=
  "h." +:+ print_json (claims_json user) +:+ "." +:+ number n.
Definition refresh_token (user : string) (n : nat) : string := user +:+ ":" +:+ number n.

(** Whose refresh token it is. *)
Definition token_owner (r : string) : string := (span (fun c => negb (Ascii.eqb c ":")) r).1.

Definition demo_pair (user : string) (n : nat) : HttpResponse :=
  mkResponse 201 (Some (JObj [("accessToken", JStr (access_token user n)); ("refreshToken", JStr (refresh_token user n))])).

Definition base : string := "http://localhost:3001".
Definition demo_refused : HttpResponse := mkResponse 401 (Some (JObj [("message", JStr "Invalid or expired token")])).

Definition body_text (q : HttpRequest) (k : string) : option string := rq_body q ≫= fun j => as_string (field j k).

Definition demo_answer (q : HttpRequest) (n : nat) : option HttpResponse :=
  if rq_url q ==? base +:+ "/auth/refresh" then
    Some (match token_owner <$> body_text q "refreshToken" with
          | Some user => if includes ["ada"; "bob"] user then demo_pair user n else demo_refused
          | None => demo_refused
          end)
  else if rq_url q ==? base +:+ "/auth/otp/verify" then
    Some (demo_pair (if body_text q "email" ==? Some "bob@example.org" then "bob" else "ada") n)
  else if rq_url q ==? base +:+ "/auth/session" then
    Some (mkResponse 200 (Some (JObj [("email", JStr "ada@example.org"); ("modes", JArr [JStr "worker"; JStr "staff"])])))
  else if map_get (rq_headers q) "Authorization" ==? Some ("Bearer " +:+ access_token "ada" 0) then Some demo_refused
  else Some (mkResponse 200 (Some (JObj []))).

Definition demo_web (locks : bool) : Web := {|
  NEXT_PUBLIC_API_URL := None;
  webLocks := locks;
  answer := demo_answer;
  dateNow n := (1000 * Z.of_nat n)%Z;
  atob s := Some (span (fun c => negb (Ascii.eqb c "=")) s).1;
  parseJson := parse_json;
  printJson := print_json
|}.

Definition ada : StoredSession := mkSession "ada" "ada@example.org" "WORKER" [worker] worker 0.
Definition bob : StoredSession := mkSession "bob" "bob@example.org" "WORKER" [worker] worker 5.

(** Two saved accounts; the access token of [ada] has expired at the server. *)
Definition demo_local : gmap string string :=
  list_to_map [(SESSION_INDEX_KEY, print_json (JArr (map session_json [ada; bob])));
               (sessionAccessKey "ada", access_token "ada" 0); (sessionRefreshKey "ada", refresh_token "ada" 0);
               (sessionAccessKey "bob", access_token "bob" 0); (sessionRefreshKey "bob", refresh_token "bob" 0);
               (LAST_SESSION_KEY, "ada")].

Definition demo_tab : Tab := mkTab {[ ACTIVE_SESSION_KEY := "ada" ]} "/me" false ∅ [].
Definition demo_browser : Browser := mkBrowser demo_local {[ 0%nat := demo_tab; 1%nat := demo_tab ]} [] [] 1.

Definition get_income : task := Api "/workers/me/income" (mkOptions None None true []).

(** Two tabs of [ada] ask for the income at the same time. *)
Definition demo_pages (locks : bool) : list (page unit) :=
  [@run_page (demo_web locks) 60 0 [get_income]; @run_page (demo_web locks) 60 1 [get_income]].
Definition alternate (n : nat) : list nat := concat (repeat [0%nat; 1%nat] n).

End WebDemo.
