(* ===== verification/SessionTabs.v ===== *)
(** * Tabs that share a session

    A refresh token may be exchanged once: the server (AuthService.refresh)
    revokes it and answers with a new pair.  The tabs of a browser keep one
    pair per identity in [localStorage] and renew it when a request is refused.
    This file proves, for every interleaving of the storage accesses of any
    number of tabs and with logins, logouts and failures of the network, that a
    token is not presented again once the server has answered it
    ([refresh_token_single_use]), unless a tab is closed in the middle of its
    renewal ([closed_tab_replays]).  The proof follows each page through the
    stages of a renewal ([stage]) with the outline rules of Concurrency.v. *)

From stdpp Require Import relations gmap.
From S2P Require Import Prelude Concurrency Strings Schema WebSession WebDemo.

Module SessionTabs.
Import WebSession.

(* ------------------------------------------------------------------ *)
(** ** The keys of the storage *)

#[export] Instance sessionRefreshKey_inj : Inj (=) (=) sessionRefreshKey.
Proof. intros a b E. apply (str_app_inv_head "sp_session_") in E. by apply (str_app_inv_tail a b) in E as [E _]. Qed.

(** The keys other than the refresh tokens. *)
Definition other_key (k : string) : Prop := forall id, k <> sessionRefreshKey id.

Lemma access_key_other id : other_key (sessionAccessKey id).
Proof.
  intros id' E. apply (str_app_inv_head "sp_session_") in E.
  change (id +:+ ("_acces" +:+ "s_token") = id' +:+ ("_refres" +:+ "h_token")) in E.
  rewrite <- !str_app_assoc in E. by apply str_app_inv_tail in E as [_ E].
Qed.

Lemma index_key_other : other_key SESSION_INDEX_KEY.
Proof.
  intros id E. apply (str_app_inv_head "sp_session_" "index_v2") in E.
  apply (f_equal String.length) in E. rewrite str_length_app in E. cbn in E. lia.
Qed.

Lemma last_key_other : other_key LAST_SESSION_KEY.
Proof. by intros id E. Qed.
Lemma mode_key_other m : other_key (lastModeKey m).
Proof. by destruct m; intros id E. Qed.

Definition legacy_keys : list string := [LEGACY_ACCESS_KEY; legacyAccessKey staff; legacyAccessKey worker].

Lemma legacy_not_access id k : In k legacy_keys -> k <> sessionAccessKey id.
Proof. by intros [<-|[<-|[<-|[]]]] E. Qed.
Lemma legacy_not_mode m k : In k legacy_keys -> k <> lastModeKey m.
Proof. by destruct m; intros [<-|[<-|[<-|[]]]] E. Qed.
Lemma legacy_not_index k : In k legacy_keys -> k <> SESSION_INDEX_KEY.
Proof. by intros [<-|[<-|[<-|[]]]] E. Qed.
Lemma legacy_not_last k : In k legacy_keys -> k <> LAST_SESSION_KEY.
Proof. by intros [<-|[<-|[<-|[]]]] E. Qed.
Lemma legacy_not_refresh id k : In k legacy_keys -> k <> sessionRefreshKey id.
Proof. by intros [<-|[<-|[<-|[]]]] E. Qed.

(* ------------------------------------------------------------------ *)
(** ** What the server sees *)

(** A refresh token arrives at the server; the server has answered it. *)
Inductive token_event :=
| Presented (refreshToken : string)
| Settled (refreshToken : string).

Section events.
Context `{Web}.

Definition refresh_token_of (q : HttpRequest) : option string :=
  if rq_url q ==? API_URL +:+ "/auth/refresh"
  then rq_body q ≫= fun body => as_string (field body "refreshToken") else None.

Definition token_event_of (e : net_event) : option token_event :=
  match e with
  | Sent q => Presented <$> refresh_token_of q
  | Answered q _ => Settled <$> refresh_token_of q
  end.

Definition token_events (b : Browser) : list token_event := omap token_event_of (br_log b).

(** No token is presented after it was answered. *)
Definition single_use (l : list token_event) : Prop :=
  forall l1 l2 r, l = l1 ++ Presented r :: l2 -> ~ In (Settled r) l1.

Definition answered (b : Browser) (r : string) : Prop := In (Settled r) (token_events b).

(** An answer with tokens, to a sign-in or a renewal. *)
Definition token_request (q : HttpRequest) : Prop :=
  rq_url q = API_URL +:+ "/auth/refresh" \/ rq_url q = API_URL +:+ "/auth/otp/verify".

Definition body_tokens (body : json) : option (string * string) :=
  match as_string (field body "accessToken"), as_string (field body "refreshToken") with
  | Some a, Some r => Some (a, r)
  | _, _ => None
  end.

(** At the tick [n] the server issues the refresh token [r]. *)
Definition issues (q : HttpRequest) (n : nat) (r : string) : Prop :=
  token_request q /\ exists resp body a, answer q n = Some resp /\ rs_ok resp = true /\
    rs_json resp = Some body /\ body_tokens body = Some (a, r).

(** What the API promises the client (AuthService.issueTokens, verifyOtp and
    refresh): the answer to a sign-in or a renewal has a pair of tokens; the
    access token names the person the refresh token belongs to, with at least
    one mode; no refresh token is issued twice; a renewal answers with a token
    of the same person. *)
Record TokenServer (owner : string -> string) : Prop := {
  server_pair q n resp : token_request q -> answer q n = Some resp -> rs_ok resp = true ->
    exists body a r, rs_json resp = Some body /\ body_tokens body = Some (a, r) /\ r <> "" /\ owner r <> "" /\
      exists c, decodeClaims a = Some c /\ cl_sub c = Some (owner r) /\
        omap mode_of_name (nullish (cl_modes c) []) <> [];
  server_fresh q1 q2 n1 n2 r : issues q1 n1 r -> issues q2 n2 r -> n1 = n2;
  server_same_owner q n r r' : refresh_token_of q = Some r -> issues q n r' -> owner r' = owner r
}.
End events.

(* ------------------------------------------------------------------ *)
(** ** The stages of a renewal *)

(** Where a page stands: with the lock of an identity; with the token it is
    about to present or waits for; with a token the server has answered, which
    may still be stored; with a new token not yet stored. *)
Inductive stage :=
| Idle
| Locked (id : string)
| Attempt (id r : string)
| Spent (id r : string)
| Renewed (id r r' : string)
| Fresh (r' : string).

Definition lock_of (s : stage) : option string :=
  match s with Locked id | Attempt id _ | Spent id _ | Renewed id _ _ => Some id | _ => None end.
Definition attempt_of (s : stage) : option string := match s with Attempt _ r => Some r | _ => None end.
Definition spent_of (s : stage) : option string := match s with Spent _ r | Renewed _ r _ => Some r | _ => None end.
Definition fresh_of (s : stage) : option string := match s with Renewed _ _ r' | Fresh r' => Some r' | _ => None end.

Definition lock_name (id : string) : string := "serveproof-refresh-" +:+ id.

#[export] Instance lock_name_inj : Inj (=) (=) lock_name.
Proof. intros a b E. by apply str_app_inv_head in E. Qed.

Section protocol.
Context `{Web} (owner : string -> string).

(** The server will not issue [r] from now on. *)
Definition known (b : Browser) (r : string) : Prop := forall q n, issues q n r -> (n < br_tick b)%nat.

Definition stored (b : Browser) (id r : string) : Prop := br_local b !! sessionRefreshKey id = Some r.

(** A token that nobody has seen. *)
Definition unseen (b : Browser) (r : string) : Prop := ~ answered b r /\ (forall id, ~ stored b id r) /\ known b r.

Record world_ok (b : Browser) : Prop := {
  ok_owner id r : stored b id r -> owner r = id /\ known b r;
  ok_answered r : answered b r -> known b r;
  ok_log : single_use (token_events b);
  ok_legacy k : In k legacy_keys -> br_local b !! k = None
}.

Record stage_ok (b : Browser) (s : stage) : Prop := {
  st_lock id : lock_of s = Some id -> In (lock_name id) (map fst (br_locks b));
  st_attempt id r : s = Attempt id r -> owner r = id /\ ~ answered b r /\ known b r;
  st_spent id r : lock_of s = Some id -> spent_of s = Some r -> owner r = id;
  st_fresh r' : fresh_of s = Some r' -> unseen b r' /\ (forall id, lock_of s = Some id -> owner r' = id)
}.

(** Two pages at work at the same time. *)
Record compat (s1 s2 : stage) : Prop := {
  cp_lock id : lock_of s1 = Some id -> lock_of s2 <> Some id;
  cp_fresh r : fresh_of s1 = Some r -> fresh_of s2 <> Some r /\ attempt_of s2 <> Some r
}.

Record protocol (b : Browser) (ss : list stage) : Prop := {
  pr_world : world_ok b;
  pr_stages i s : ss !! i = Some s -> stage_ok b s;
  pr_compat i j s1 s2 : i <> j -> ss !! i = Some s1 -> ss !! j = Some s2 -> compat s1 s2;
  (** a stored token that was answered belongs to a renewal under way *)
  pr_spent id r : stored b id r -> answered b r ->
    exists i s, ss !! i = Some s /\ lock_of s = Some id /\ spent_of s = Some r
}.

(** A page moves from [s] to [s'] while the browser changes from [b] to [b']. *)
Lemma protocol_move b b' ss i s s' :
  protocol b ss -> ss !! i = Some s ->
  (world_ok b -> world_ok b') ->
  (stage_ok b s -> stage_ok b' s') ->
  (forall s0, stage_ok b s0 -> compat s s0 -> compat s0 s -> stage_ok b' s0 /\ compat s' s0 /\ compat s0 s') ->
  (forall id r, stored b' id r -> answered b' r ->
     (lock_of s' = Some id /\ spent_of s' = Some r) \/
     (stored b id r /\ answered b r /\ ~ (lock_of s = Some id /\ spent_of s = Some r))) ->
  protocol b' (<[i:=s']> ss).
Proof.
  intros [Hw Hs Hc Hp] Hi HW HS HO HP. pose proof (lookup_lt_Some _ _ _ Hi) as Hlt.
  assert (Hoth : forall j s0, j <> i -> ss !! j = Some s0 -> stage_ok b' s0 /\ compat s' s0 /\ compat s0 s').
  { intros j s0 Hne Hj. apply HO; [by eapply Hs|eapply (Hc i j)|eapply (Hc j i)]; eauto. }
  split.
  - by apply HW.
  - intros j s0 [(<- & <- & _)|[Hne Hj]]%list_lookup_insert_Some.
    + apply HS. by eapply Hs.
    + by eapply Hoth.
  - intros j1 j2 s1 s2 Hne [(<- & <- & _)|[Hne1 H1]]%list_lookup_insert_Some
      [(<- & <- & _)|[Hne2 H2]]%list_lookup_insert_Some; try done.
    + by destruct (Hoth j2 s2) as (?&?&?); [congruence|..].
    + by destruct (Hoth j1 s1) as (?&?&?); [congruence|..].
    + by eapply (Hc j1 j2).
  - intros id r Hst Ha. destruct (HP id r Hst Ha) as [[Hl Hr]|(Hst0 & Ha0 & Hn)].
    + exists i, s'. by rewrite list_lookup_insert_eq.
    + destruct (Hp id r Hst0 Ha0) as (j & s0 & Hj & Hl & Hr). exists j, s0.
      destruct (decide (j = i)) as [->|Hne]; [exfalso; apply Hn; naive_solver|].
      by rewrite list_lookup_insert_ne.
Qed.

(** Steps that do not touch the refresh tokens. *)
Record neutral (b b' : Browser) : Prop := {
  nt_tokens id : br_local b' !! sessionRefreshKey id = br_local b !! sessionRefreshKey id;
  nt_legacy k : In k legacy_keys -> br_local b !! k = None -> br_local b' !! k = None;
  nt_locks : br_locks b' = br_locks b;
  nt_log : token_events b' = token_events b;
  nt_tick : (br_tick b <= br_tick b')%nat
}.

#[export] Instance neutral_preorder : PreOrder neutral.
Proof.
  split; [intros b; by split|]. intros b1 b2 b3 [T1 G1 K1 L1 N1] [T2 G2 K2 L2 N2].
  split; [congruence|auto|congruence|congruence|lia].
Qed.

Lemma neutral_stored b b' id r : neutral b b' -> stored b' id r <-> stored b id r.
Proof. intros []. unfold stored. by rewrite nt_tokens0. Qed.
Lemma neutral_answered b b' r : neutral b b' -> answered b' r <-> answered b r.
Proof. intros []. unfold answered. by rewrite nt_log0. Qed.
Lemma known_mono b b' r : (br_tick b <= br_tick b')%nat -> known b r -> known b' r.
Proof. intros Ht Hk q n Hi. specialize (Hk q n Hi). lia. Qed.

Lemma world_ok_neutral b b' : neutral b b' -> world_ok b -> world_ok b'.
Proof.
  intros Hn [H1 H2 H3 H4]. pose proof Hn as [Ht Hg Hk Hl Htk]. split.
  - intros id r Hs. apply (neutral_stored b b') in Hs; [|done]. destruct (H1 id r Hs).
    split; [done|]. by eapply known_mono.
  - intros r Ha. apply (neutral_answered b b') in Ha; [|done]. eapply known_mono; eauto.
  - by rewrite Hl.
  - intros k Hin. by apply Hg, H4.
Qed.

Lemma stage_ok_neutral b b' s : neutral b b' -> stage_ok b s -> stage_ok b' s.
Proof.
  intros Hn [H1 H2 H3 H4]. pose proof Hn as [Ht Hg Hk Hl Htk]. split.
  - intros id E. rewrite Hk. by apply H1.
  - intros id r E. destruct (H2 id r E) as (?&?&?). rewrite (neutral_answered b b') by done.
    split_and!; [done..|]. by eapply known_mono.
  - done.
  - intros r' E. destruct (H4 r' E) as [(?&Hst&?) ?]. split; [|done]. split_and!.
    + by rewrite (neutral_answered b b').
    + intros id. rewrite (neutral_stored b b'); [apply Hst|done].
    + by eapply known_mono.
Qed.

Lemma protocol_neutral b b' ss : neutral b b' -> protocol b ss -> protocol b' ss.
Proof.
  intros Hn [Hw Hs Hc Hp]. split.
  - by eapply world_ok_neutral.
  - intros i s Hi. eapply stage_ok_neutral; eauto.
  - done.
  - intros id r Hst Ha. apply Hp; [by rewrite <- (neutral_stored b b')|by rewrite <- (neutral_answered b b')].
Qed.

(* ------------------------------------------------------------------ *)
(** ** The calls that leave the refresh tokens alone *)

Lemma neutral_tabs t f b : neutral b (on_tab t f b).
Proof. by split. Qed.

Lemma guar_set k v : other_key k -> (forall k', In k' legacy_keys -> k' <> k) -> guar neutral (setItem k v).
Proof.
  intros Ho Hl b. split; [|exact I]. split; cbn; try done.
  - intros id. rewrite lookup_insert_ne; [done|]. apply Ho.
  - intros k' Hk. rewrite lookup_insert_ne; [done|]. intros ->. by destruct (Hl k').
Qed.

Lemma guar_remove k : other_key k -> guar neutral (removeItem k).
Proof.
  intros Ho b. split; [|exact I]. split; cbn; try done.
  - intros id. rewrite lookup_delete_ne; [done|]. apply Ho.
  - intros k' _ E. rewrite lookup_delete_None. by right.
Qed.

Lemma guar_tabSet t k v : guar neutral (tabSetItem t k v).
Proof. intros b. split; [apply neutral_tabs|exact I]. Qed.
Lemma guar_tabRemove t k : guar neutral (tabRemoveItem t k).
Proof. intros b. split; [apply neutral_tabs|exact I]. Qed.

Lemma guar_now : guar neutral now_ms.
Proof. intros b. split; [|exact I]. split; try done. cbn. lia. Qed.

Lemma guar_getItem k : guar neutral (getItem k).
Proof. apply guar_query, _. Qed.
Lemma guar_tabGetItem t k : guar neutral (tabGetItem t k).
Proof. apply guar_query, _. Qed.
Lemma guar_modeForPage t : guar neutral (modeForPage t).
Proof. apply guar_query, _. Qed.

Lemma guar_settle t id p r : guar neutral (settle t id p r).
Proof. intros b. split; [apply neutral_tabs|exact I]. Qed.
Lemma guar_joinOrStart t id : guar neutral (joinOrStart t id).
Proof.
  intros b. cbn. destruct (tab_refreshPromises _ !! id); (split; [|exact I]); [reflexivity|apply neutral_tabs].
Qed.
Lemma guar_await polls t p : guar neutral (await_promise polls t p).
Proof.
  induction polls as [|n IH]; cbn [await_promise]; [done|]. apply guar_bind; [apply guar_query, _|].
  intros v. by repeat case_match.
Qed.

(** A request that presents no refresh token. *)
Lemma guar_fetch q : refresh_token_of q = None -> guar neutral (fetch q).
Proof.
  intros Hq b. split.
  - split; cbn; try done. unfold token_events. cbn. rewrite omap_app. cbn. by rewrite Hq, app_nil_r.
  - cbn. intros b2. destruct (answer q (br_tick b2)) as [r|]; (split; [|done]); split; cbn; try done; try lia.
    unfold token_events. cbn. rewrite omap_app. cbn. by rewrite Hq, app_nil_r.
Qed.

Create HintDb neutral.
#[local] Hint Resolve guar_now guar_getItem guar_tabGetItem guar_modeForPage guar_tabSet guar_tabRemove
  guar_settle guar_joinOrStart guar_await guar_set guar_remove access_key_other index_key_other last_key_other
  mode_key_other legacy_not_access legacy_not_mode legacy_not_index legacy_not_last : neutral.

Ltac guar_neutral :=
  repeat (cbv beta zeta;
          first [ progress intros | done | solve [eauto 3 with neutral] | apply guar_bind | apply guar_catch
                | apply guar_require | apply guar_lift | apply guar_for_each | case_match ]).

Lemma guar_readSessionIndex : guar neutral readSessionIndex.
Proof. unfold readSessionIndex. guar_neutral. Qed.
Lemma guar_writeSessionIndex l : guar neutral (writeSessionIndex l).
Proof. unfold writeSessionIndex. guar_neutral. Qed.
Lemma guar_forget ms id : guar neutral (forget_modes ms id).
Proof. unfold forget_modes. guar_neutral. Qed.
Lemma guar_hasToken s : guar neutral (sessionHasToken s).
Proof. unfold sessionHasToken. guar_neutral. Qed.
#[local] Hint Resolve guar_readSessionIndex guar_writeSessionIndex guar_forget guar_hasToken : neutral.

Lemma guar_filter_page {A} (p : A -> page bool) xs :
  (forall x, guar neutral (p x)) -> guar neutral (filter_page p xs).
Proof. intros Hp. induction xs as [|x xs IH]; cbn [filter_page]; guar_neutral; auto. Qed.
Lemma guar_find_page {A} (p : A -> page bool) xs :
  (forall x, guar neutral (p x)) -> guar neutral (find_page p xs).
Proof. intros Hp. induction xs as [|x xs IH]; cbn [find_page]; guar_neutral; auto. Qed.
#[local] Hint Resolve guar_filter_page guar_find_page : neutral.

Lemma guar_usable : guar neutral usable_sessions.
Proof. unfold usable_sessions. guar_neutral. Qed.
Lemma guar_findSession id : guar neutral (findSession id).
Proof.
  unfold findSession. destruct id as [i|]; guar_neutral. apply guar_find_page. guar_neutral.
Qed.
Lemma guar_token_usable a : guar neutral (token_usable a).
Proof. unfold token_usable. guar_neutral. Qed.
Lemma guar_json_body r : guar neutral (json_body r).
Proof. unfold json_body. guar_neutral. Qed.
#[local] Hint Resolve guar_usable guar_findSession guar_token_usable guar_json_body : neutral.

(* ------------------------------------------------------------------ *)
(** ** Outlines of the calls *)

Abbreviation outlined := (outline protocol).

Lemma outline_neutral {A} s (p : page A) : guar neutral p -> outlined s p (ends_at s).
Proof. apply outline_guar. intros b b' ss. apply protocol_neutral. Qed.

(** A neutral part of a call, and the rest of it at the same stage. *)
Lemma outline_neutral_bind {A B} s (p : page A) (f : A -> page B) Q :
  guar neutral p -> (forall a, outlined s (f a) Q) -> (forall e, Q (Err e) s) -> outlined s (bind p f) Q.
Proof. intros Hp. apply outline_bind_at. by apply outline_neutral. Qed.

(** There is nothing to migrate. *)
Lemma outline_migrate s t : outlined s (migrateLegacySessions t) (ends_at s).
Proof.
  unfold migrateLegacySessions. eapply outline_neutral_bind; [apply guar_query, _| |done]. intros [|]; [done|].
  eapply outline_neutral_bind; [intros b; split; [apply neutral_tabs|exact I]| |done]. intros _.
  apply outline_for_each. intros [[k k'] m] Hin. unfold migrate_candidate.
  apply outline_bind, outline_query_same. intros b ss i Hp _.
  rewrite (ok_legacy _ (pr_world _ _ Hp)); [done|].
  cbn in Hin. unfold legacy_keys. cbn. naive_solver.
Qed.

Lemma outline_current s t : outlined s (currentSession t) (ends_at s).
Proof.
  unfold currentSession. eapply outline_bind_at; [apply outline_migrate| |done]. intros _.
  apply outline_neutral. guar_neutral.
Qed.

Lemma outline_getToken s t : outlined s (getToken t) (ends_at s).
Proof.
  unfold getToken. eapply outline_bind_at; [apply outline_current| |done]. intros c.
  apply outline_neutral. guar_neutral.
Qed.

(* ------------------------------------------------------------------ *)
(** ** The moves of a renewal *)

Lemma single_use_snoc l e :
  single_use l -> (forall r, e = Presented r -> ~ In (Settled r) l) -> single_use (l ++ [e]).
Proof.
  intros Hl He l1 l2 r E. destruct l2 as [|e2 l2 _] using rev_ind.
  - apply app_inj_tail in E as [-> ->]. by apply He.
  - rewrite app_comm_cons, app_assoc in E. apply app_inj_tail in E as [-> ->]. by eapply Hl.
Qed.

(** A page without the lock gets it. *)
Lemma outline_acquire polls t id :
  outlined Idle (acquire polls t (lock_name id)) (fun r s => s = if is_ok r then Locked id else Idle).
Proof.
  induction polls as [|n IH]; cbn [acquire]; [done|].
  intros b ss i Hp Hi. destruct (lock_held b (lock_name id)) eqn:Ef; cbn.
  - exists Idle. by rewrite list_insert_id.
  - apply includes_not_In in Ef. exists (Locked id). split; [|done].
    eapply protocol_move; [exact Hp|exact Hi|..].
    + intros [H1 H2 H3 H4]. by split.
    + intros _. split; try done. intros id' [= <-]. by left.
    + intros s0 [S1 S2 S3 S4] C1 C2. split; [|split].
      * split; try done. intros id' E. right. by apply S1.
      * split; [|done]. intros id' [= <-] E. by apply Ef, S1.
      * split; [intros id' E [= <-]; by apply Ef, S1|intros r E; by apply (cp_fresh _ _ C2)].
    + intros id' r Hs Ha. right. split; [done|]. split; [done|]. by intros [].
Qed.

(** A page that is done, with its last attempt unanswered or without one. *)
Definition at_rest (id : string) (s : stage) : Prop := s = Locked id \/ exists r, s = Attempt id r.

Lemma at_rest_spec id s : at_rest id s -> lock_of s = Some id /\ spent_of s = None /\ fresh_of s = None.
Proof. by intros [->|[r ->]]. Qed.

Lemma outline_release id s : at_rest id s -> outlined s (release (lock_name id)) (ends_at Idle).
Proof.
  intros (Hl & Hsp & _)%at_rest_spec b ss i Hp Hi. cbn. exists Idle. split; [|done].
  eapply protocol_move; [exact Hp|exact Hi|..].
  - intros [H1 H2 H3 H4]. by split.
  - intros _. by split.
  - intros s0 [S1 S2 S3 S4] C1 C2. split; [|split].
    + split; try done. intros id' E. cbn. apply in_map_iff.
      destruct (proj1 (in_map_iff _ _ _) (S1 _ E)) as ([n t] & En & Hin). cbn in En. subst n. exists (lock_name id', t). split; [done|].
      apply filter_In. split; [done|]. cbn.
      apply negb_true_iff, bool_decide_eq_false_2. intros ->%(inj lock_name). by apply (cp_lock _ _ C1 id).
    + by split.
    + split; [done|]. intros r E. by destruct (cp_fresh _ _ C2 r E).
  - intros id' r Hs Ha. right. split; [done|]. split; [done|]. rewrite Hsp. by intros [_ ?].
Qed.

(** The holder of the lock reads the token it is going to present. *)
Lemma outline_read_attempt id :
  outlined (Locked id) (getRefreshToken id)
    (fun o s => exists x, o = Ok x /\ s = match x with Some r => Attempt id r | None => Locked id end).
Proof.
  apply outline_query. intros b ss i Hp Hi.
  destruct (br_local b !! sessionRefreshKey id) as [r|] eqn:Er.
  - exists (Attempt id r). split; [|by exists (Some r)].
    destruct (ok_owner _ (pr_world _ _ Hp) id r Er) as [Ho Hk].
    assert (~ answered b r) as Hna.
    { intros Ha. destruct (pr_spent _ _ Hp id r Er Ha) as (j & s & Hj & Hl & Hr).
      destruct (decide (i = j)) as [->|Hne]; [naive_solver|].
      by apply (cp_lock _ _ (pr_compat _ _ Hp i j (Locked id) s Hne Hi Hj) id). }
    eapply protocol_move; [exact Hp|exact Hi|..].
    + done.
    + intros [S1 S2 S3 S4]. split; [done| |done|done]. by intros id' r' [= <- <-].
    + intros s0 S C1 C2. split; [done|]. split.
      * split; [exact (cp_lock _ _ C1)|done].
      * split; [exact (cp_lock _ _ C2)|]. intros r' E. destruct (cp_fresh _ _ C2 r' E) as [? _].
        split; [done|]. intros [= <-]. destruct (st_fresh _ _ S r E) as [(_&Hn&_) _]. by apply (Hn id).
    + intros id' r' Hs Ha. right. split; [done|]. split; [done|]. by intros [_ ?].
  - exists (Locked id). rewrite list_insert_id by done. split; [done|]. by exists None.
Qed.

(** The access token that comes with [r] names its owner. *)
Definition pair_of (a r : string) : Prop :=
  r <> "" /\ owner r <> "" /\ exists c, decodeClaims a = Some c /\ cl_sub c = Some (owner r) /\
    omap mode_of_name (nullish (cl_modes c) []) <> [].

(** What the attempt has become when the answer is there. *)
Definition answered_stage (id r : string) (response : HttpResponse) (s : stage) : Prop :=
  if rs_ok response
  then exists body a r', rs_json response = Some body /\ body_tokens body = Some (a, r') /\ pair_of a r' /\
         s = Renewed id r r'
  else s = Spent id r.

Context (server : TokenServer owner).

Lemma refresh_token_of_request r : refresh_token_of (refresh_request r) = Some r.
Proof. unfold refresh_token_of. by rewrite bd_refl. Qed.

Lemma protocol_present b ss i id r :
  protocol b ss -> ss !! i = Some (Attempt id r) ->
  protocol (b <| br_log ::= (fun l => l ++ [Sent (refresh_request r)]) |>) ss.
Proof.
  intros Hp Hi. destruct (st_attempt _ _ (pr_stages _ _ Hp _ _ Hi) id r eq_refl) as (Ho & Hna & Hk).
  assert (forall r0, answered (b <| br_log ::= (fun l => l ++ [Sent (refresh_request r)]) |>) r0 <-> answered b r0) as Ha.
  { intros r0. unfold answered, token_events. cbn. rewrite omap_app, in_app_iff. cbn.
    rewrite refresh_token_of_request. cbn. naive_solver. }
  rewrite <- (list_insert_id ss i (Attempt id r)) at 1 by done.
  eapply protocol_move; [exact Hp|exact Hi|..].
  - intros [H1 H2 H3 H4]. split; [done| | |done].
    + intros r0 A. apply H2. by apply Ha.
    + unfold token_events. cbn. rewrite omap_app. cbn. rewrite refresh_token_of_request. cbn.
      apply single_use_snoc; [done|]. by intros r0 [= <-].
  - intros [S1 S2 S3 S4]. split; [done| |done|done]. intros id' r' E. rewrite Ha. by apply S2.
  - intros s0 [S1 S2 S3 S4] C1 C2. split; [|done]. split; [done| |done|].
    + intros id' r' E. rewrite Ha. by apply S2.
    + intros r' E. unfold unseen. rewrite Ha. by apply S4.
  - intros id' r' Hs A. apply Ha in A. right. split; [done|]. split; [done|]. by intros [_ ?].
Qed.

Lemma issues_answer q n resp body a r :
  token_request q -> answer q n = Some resp -> rs_ok resp = true -> rs_json resp = Some body ->
  body_tokens body = Some (a, r) -> issues q n r.
Proof. intros Ht Ha Hok Hj Hb. split; [done|]. by exists resp, body, a. Qed.

(** A token issued now was not seen before, and is known from now on. *)
Lemma issued_unseen b b' q r :
  world_ok b -> issues q (br_tick b) r -> br_local b' = br_local b -> br_tick b' = S (br_tick b) ->
  (forall r0, answered b' r0 -> answered b r0 \/ refresh_token_of q = Some r0) ->
  (forall r0, refresh_token_of q = Some r0 -> known b r0) ->
  unseen b' r.
Proof.
  intros [H1 H2 _ _] Hi El Et Ha Hq.
  assert (forall r0, known b r0 -> r0 <> r) as Hne by (intros r0 Hk ->; specialize (Hk _ _ Hi); lia).
  split; [|split].
  - intros A. destruct (Ha r A) as [A0|E]; [by apply (Hne r); [apply H2|]|by apply (Hne r); [apply Hq|]].
  - intros id Hs. unfold stored in Hs. rewrite El in Hs. destruct (H1 id r Hs) as [_ Hk]. by apply (Hne r).
  - intros q' n Hi'. rewrite (server_fresh owner server _ _ _ _ _ Hi' Hi), Et. lia.
Qed.

Lemma known_not_issued b q r : known b r -> ~ issues q (br_tick b) r.
Proof. intros Hk Hi. specialize (Hk _ _ Hi). lia. Qed.

(** A token issued now is none of those the other pages have. *)
Lemma issued_compat b s0 q r :
  stage_ok b s0 -> issues q (br_tick b) r -> fresh_of s0 <> Some r /\ attempt_of s0 <> Some r.
Proof.
  intros S Hi. split.
  - intros E. destruct (st_fresh _ _ S r E) as [(_&_&Hk) _]. by eapply known_not_issued.
  - intros E. destruct s0; try done. injection E as ->.
    destruct (st_attempt _ _ S _ _ eq_refl) as (_&_&Hk). by eapply known_not_issued.
Qed.

Lemma refresh_is_token_request r : token_request (refresh_request r).
Proof. by left. Qed.
#[local] Hint Resolve refresh_is_token_request : neutral.

(** The browser when the answer to the attempt of [r] is there. *)
Section settled.
Context (b : Browser) (ss : list stage) (i : nat) (id r : string) (resp : HttpResponse).
Context (Hp : protocol b ss) (Hi : ss !! i = Some (Attempt id r)).

Definition after_answer (q : HttpRequest) : Browser :=
  b <| br_tick ::= S |> <| br_log ::= (fun l => l ++ [Answered q resp]) |>.
Local Abbreviation b' := (after_answer (refresh_request r)).

Lemma settled_owner : owner r = id.
Proof. by destruct (st_attempt _ _ (pr_stages _ _ Hp _ _ Hi) id r eq_refl). Qed.
Lemma settled_known : known b r.
Proof. by destruct (st_attempt _ _ (pr_stages _ _ Hp _ _ Hi) id r eq_refl) as (_&_&?). Qed.

Lemma settled_answered r0 : answered b' r0 <-> answered b r0 \/ r0 = r.
Proof.
  unfold answered, token_events. cbn. rewrite omap_app, in_app_iff. cbn.
  rewrite refresh_token_of_request. cbn. naive_solver.
Qed.

Lemma after_known q r0 : known b r0 -> known (after_answer q) r0.
Proof. apply known_mono. cbn. lia. Qed.

Lemma settled_world : world_ok b -> world_ok b'.
Proof.
  intros [H1 H2 H3 H4]. split; [| | |done].
  - intros id0 r0 Hs. destruct (H1 id0 r0 Hs). auto using after_known.
  - intros r0 [A| ->]%settled_answered; [by apply after_known, H2|apply after_known, settled_known].
  - unfold token_events. cbn. rewrite omap_app. cbn. rewrite refresh_token_of_request. cbn.
    by apply single_use_snoc.
Qed.

Lemma settled_stage s0 :
  stage_ok b s0 -> compat (Attempt id r) s0 -> compat s0 (Attempt id r) -> stage_ok b' s0.
Proof.
  intros [S1 S2 S3 S4] C1 C2. split; [done| |done|].
  - intros id0 r0 E. destruct (S2 id0 r0 E) as (Ho0 & Hn0 & Hk0). split; [done|]. split; [|by apply after_known].
    intros [A| ->]%settled_answered; [done|]. apply (cp_lock _ _ C1 id); [done|]. subst s0. cbn.
    rewrite <- Ho0. f_equal. apply settled_owner.
  - intros r0 E. destruct (S4 r0 E) as [(Hn0&Hs0&Hk0) ?]. split; [|done]. split; [|by auto using after_known].
    intros [A| ->]%settled_answered; [done|]. by apply (cp_fresh _ _ C2 r E).
Qed.

Lemma settled_stored id0 r0 : stored b' id0 r0 -> answered b' r0 ->
  (id0 = id /\ r0 = r) \/ (stored b id0 r0 /\ answered b r0 /\ ~ (Some id = Some id0 /\ None = Some r0)).
Proof.
  intros Hs [A| ->]%settled_answered; [right; by split_and!; [..|intros []]|].
  destruct (ok_owner _ (pr_world _ _ Hp) id0 r Hs) as [Ho _]. left. split; [|done].
  rewrite <- Ho. apply settled_owner.
Qed.

Lemma protocol_spent : protocol b' (<[i:=Spent id r]> ss).
Proof.
  eapply protocol_move; [exact Hp|exact Hi|exact settled_world|..].
  - intros S. split; [exact (st_lock _ _ S)|done| |done]. intros ? ? [= <-] [= <-]. apply settled_owner.
  - intros s0 S C1 C2. split; [by apply settled_stage|]. split.
    + split; [exact (cp_lock _ _ C1)|done].
    + split; [exact (cp_lock _ _ C2)|]. intros x E. split; [|done]. by destruct (cp_fresh _ _ C2 x E).
  - intros id0 r0 Hs A. destruct (settled_stored id0 r0 Hs A) as [[-> ->]|?]; [by left|by right].
Qed.

Lemma protocol_renewed r' :
  issues (refresh_request r) (br_tick b) r' -> protocol b' (<[i:=Renewed id r r']> ss).
Proof.
  intros His. eapply protocol_move; [exact Hp|exact Hi|exact settled_world|..].
  - intros S. split; [exact (st_lock _ _ S)|done| |].
    { intros ? ? [= <-] [= <-]. apply settled_owner. }
    intros ? [= <-]. split.
    + eapply issued_unseen; [exact (pr_world _ _ Hp)|exact His|done|done| |].
      * intros r0 [A| ->]%settled_answered; [by left|]. right. apply refresh_token_of_request.
      * intros r0. rewrite refresh_token_of_request. intros [= <-]. apply settled_known.
    + intros ? [= <-]. rewrite <- settled_owner.
      eapply (server_same_owner owner server); [apply refresh_token_of_request|exact His].
  - intros s0 S C1 C2. split; [by apply settled_stage|]. destruct (issued_compat b s0 _ _ S His) as [F1 F2]. split.
    + split; [exact (cp_lock _ _ C1)|]. by intros ? [= <-].
    + split; [exact (cp_lock _ _ C2)|]. intros x E. split; [|done]. cbn. congruence.
  - intros id0 r0 Hs A. destruct (settled_stored id0 r0 Hs A) as [[-> ->]|?]; [by left|by right].
Qed.
End settled.

(** The answer to the attempt: the token is spent. *)
Lemma outline_settle id r :
  outlined (Attempt id r) (fetch (refresh_request r))
    (fun o s => match o with Ok resp => answered_stage id r resp s | Err _ => s = Attempt id r end).
Proof.
  intros b0 ss0 i0 Hp0 Hi0. cbn. exists (Attempt id r).
  split; [rewrite list_insert_id by done; by eapply protocol_present|]. clear b0 ss0 i0 Hp0 Hi0.
  intros b ss i Hp Hi. destruct (answer (refresh_request r) (br_tick b)) as [resp|] eqn:Ea; cbn.
  2:{ exists (Attempt id r). rewrite list_insert_id by done. split; [|done]. eapply protocol_neutral; [|exact Hp].
      split; cbn; try done. lia. }
  destruct (rs_ok resp) eqn:Eok.
  - pose proof (refresh_is_token_request r) as Ht.
    destruct (server_pair owner server _ _ resp Ht Ea Eok) as (body & a & r' & Ej & Eb & Hpair).
    exists (Renewed id r r'). split; [|cbv [outline answered_stage]; rewrite Eok; by exists body, a, r'].
    eapply protocol_renewed; [done..|]. by eapply issues_answer.
  - exists (Spent id r). split; [by eapply protocol_spent|]. cbv [outline answered_stage]. by rewrite Eok.
Qed.

(* ------------------------------------------------------------------ *)
(** ** Removing and keeping a session *)

Ltac returns_page :=
  repeat (cbv beta zeta;
          first [ progress intros | done | solve [auto with neutral] | apply returns_bind | apply returns_for_each
                | case_match ]).

Lemma returns_find_page {A} (p : A -> page bool) xs : (forall x, returns (p x)) -> returns (find_page p xs).
Proof. intros Hp. induction xs as [|x xs IH]; cbn [find_page]; returns_page; auto. Qed.
Lemma returns_findSession id : returns (findSession id).
Proof.
  unfold findSession, readSessionIndex, sessionHasToken. destruct id; returns_page.
  apply returns_find_page. returns_page.
Qed.
Lemma returns_forget ms id : returns (forget_modes ms id).
Proof. unfold forget_modes. returns_page. Qed.

(** A neutral part that does not throw, and the rest at the same stage. *)
Lemma outline_quiet {A B} s (p : page A) (f : A -> page B) Q :
  guar neutral p -> returns p -> (forall a, outlined s (f a) Q) -> outlined s (bind p f) Q.
Proof. apply outline_returns_bind. intros b b' ss. apply protocol_neutral. Qed.

(** The stage once the refresh token of [id] is deleted. *)
Definition removed (id : string) (s s' : stage) : Prop := s' = s \/ exists r, s = Spent id r /\ s' = Locked id.

Lemma protocol_delete b ss i id s s' :
  removed id s s' -> protocol b ss -> ss !! i = Some s ->
  protocol (b <| br_local ::= base.delete (sessionRefreshKey id) |>) (<[i:=s']> ss).
Proof.
  intros Hr Hp Hi. set (b' := b <| br_local ::= _ |>).
  assert (HS : forall id0 r0, stored b' id0 r0 <-> id0 <> id /\ stored b id0 r0).
  { intros id0 r0. unfold stored. cbn. rewrite lookup_delete_Some. split; intros [Hne ?]; (split; [|done]).
    - intros ->. by apply Hne.
    - intros E. apply Hne. by apply (inj sessionRefreshKey) in E. }
  assert (HO : forall s0, stage_ok b s0 -> stage_ok b' s0).
  { intros s0 [S1 S2 S3 S4]. split; [done..|]. intros r' E. destruct (S4 r' E) as [(?&Hn&?) ?].
    split; [|done]. split; [done|]. split; [|done]. intros id0 [_ ?]%HS. by apply (Hn id0). }
  eapply protocol_move; [exact Hp|exact Hi|..].
  - intros [H1 H2 H3 H4]. split; [|done|done|].
    + intros id0 r0 [_ ?]%HS. by apply H1.
    + intros k Hk. cbn. rewrite lookup_delete_None. right. by apply H4.
  - intros [S1 S2 S3 S4]%HO. destruct Hr as [->|(r&->&->)]; by split.
  - intros s0 S C1 C2. split; [by apply HO|]. destruct Hr as [->|(r&->&->)]; [done|]. split.
    + split; [exact (cp_lock _ _ C1)|done].
    + split; [exact (cp_lock _ _ C2)|]. intros x E. split; [|done]. by destruct (cp_fresh _ _ C2 x E).
  - intros id0 r0 [Hne Hs]%HS Ha.
    destruct (decide (lock_of s = Some id0 /\ spent_of s = Some r0)) as [Hd|Hd]; [left|by right].
    destruct Hr as [->|(r&->&->)]; [done|]. destruct Hd as [[= ->] _]. done.
Qed.

Lemma outline_remove t id s s' : removed id s s' -> outlined s (removeSession t id) (fun o s1 => is_ok o = true /\ s1 = s').
Proof.
  intros Hr. unfold removeSession.
  apply outline_quiet; [guar_neutral|apply returns_findSession|intros removed].
  apply outline_quiet; [guar_neutral|done|intros index].
  apply outline_quiet; [guar_neutral|done|intros _].
  apply outline_quiet; [guar_neutral|done|intros _].
  apply outline_bind. intros b ss i Hp Hi. exists s'. split; [by eapply protocol_delete|].
  apply outline_quiet; [guar_neutral|done|intros active].
  apply outline_quiet; [guar_neutral|by case_match|intros _].
  apply outline_quiet; [guar_neutral|done|intros last].
  apply outline_quiet; [guar_neutral|by case_match|intros _].
  destruct removed as [x|]; [|done]. eapply outline_returns; [|apply guar_forget|apply returns_forget].
  intros b0 b0' ss0. apply protocol_neutral.
Qed.

(** The stage once the new token is stored. *)
Definition kept (s s' : stage) : Prop :=
  match s with Fresh _ => s' = Idle | Renewed id _ _ => s' = Locked id | _ => False end.

Lemma protocol_insert b ss i r s s' :
  kept s s' -> fresh_of s = Some r -> protocol b ss -> ss !! i = Some s ->
  protocol (b <| br_local ::= insert (sessionRefreshKey (owner r)) r |>) (<[i:=s']> ss).
Proof.
  intros Hk Hf Hp Hi. set (b' := b <| br_local ::= _ |>).
  destruct (st_fresh _ _ (pr_stages _ _ Hp _ _ Hi) r Hf) as [(Hna & Hns & Hkn) Hl].
  assert (HS : forall id0 r0, stored b' id0 r0 -> (id0 = owner r /\ r0 = r) \/ (id0 <> owner r /\ stored b id0 r0)).
  { intros id0 r0. unfold stored. cbn. rewrite lookup_insert_Some. intros [[E <-]|[Hne ?]].
    - apply (inj sessionRefreshKey) in E. by left.
    - right. split; [|done]. intros ->. by apply Hne. }
  assert (lock_of s' = lock_of s /\ fresh_of s' = None /\ spent_of s' = None /\ attempt_of s' = None)
    as (El & Ef & Es & Et) by (destruct s; try done; cbn in Hk; by subst s').
  eapply protocol_move; [exact Hp|exact Hi|..].
  - intros [H1 H2 H3 H4]. split; [|done|done|].
    + intros id0 r0 [[-> ->]|[_ ?]]%HS; [done|by apply H1].
    + intros k Hin. cbn. rewrite lookup_insert_ne; [by apply H4|]. intros E. by destruct (legacy_not_refresh (owner r) k).
  - intros [S1 S2 S3 S4]. split; [by rewrite El|by intros ? ? ->|by rewrite Es|by rewrite Ef].
  - intros s0 [S1 S2 S3 S4] C1 C2. split; [|split].
    + split; [done..|]. intros x E. destruct (S4 x E) as [(?&Hn&?) ?]. split; [|done]. split; [done|]. split; [|done].
      intros id0 [[_ ->]|[_ ?]]%HS; [by destruct (cp_fresh _ _ C1 r Hf)|by apply (Hn id0)].
    + split; [rewrite El; exact (cp_lock _ _ C1)|by rewrite Ef].
    + split; [rewrite El; exact (cp_lock _ _ C2)|]. intros x E. by rewrite Ef, Et.
  - intros id0 r0 [[-> ->]|[Hne Hs]]%HS Ha; [done|]. right. split; [done|]. split; [done|]. intros [E _].
    by rewrite (Hl _ E) in Hne.
Qed.

Lemma session_of_pair a r t :
  pair_of a r -> exists s, session_of_token a None t = Ok s /\ ss_id s = owner r.
Proof.
  intros (_ & Ho & c & Ec & Esub & Em). unfold session_of_token. rewrite Ec. cbn. rewrite Esub. cbn.
  destruct (omap mode_of_name _) as [|m0 ms]; [done|].
  rewrite bool_decide_eq_false_2 by done. cbn. rewrite bool_decide_eq_false_2 by done. by eexists.
Qed.

Lemma outline_setTokens t a r s s' :
  pair_of a r -> kept s s' -> fresh_of s = Some r ->
  outlined s (setTokens t a r) (fun o s1 => is_ok o = true /\ s1 = s').
Proof.
  intros Hpair Hk Hf. unfold setTokens. apply outline_bind. unfold persistSession.
  apply outline_quiet; [guar_neutral|done|intros n].
  destruct (session_of_pair a r (n : Z) Hpair) as (x & Ex & Eid). rewrite Ex. cbn [lift_result bind]. rewrite Eid.
  apply outline_quiet; [guar_neutral|done|intros index].
  apply outline_quiet; [guar_neutral|destruct (session_by_id _ _); [apply returns_forget|done]|intros _].
  apply outline_quiet; [guar_neutral|done|intros _].
  apply outline_quiet; [guar_neutral|done|intros _].
  destruct Hpair as (Hr & _). rewrite (bool_decide_eq_false_2 (r = "")) by done.
  apply outline_bind. intros b ss i Hp Hi. exists s'. split; [by eapply protocol_insert|].
  apply outline_quiet; [guar_neutral|done|intros _].
  apply outline_quiet; [guar_neutral|returns_page|intros _].
  apply outline_quiet; [guar_neutral|done|intros _]. done.
Qed.

(* ------------------------------------------------------------------ *)
(** ** Renewing *)

(** The current token is another one: somebody signed in meanwhile. *)
Lemma outline_read_current id r :
  outlined (Spent id r) (getRefreshToken id)
    (fun o s => exists x, o = Ok x /\ if decide (x = Some r) then s = Spent id r else s = Locked id).
Proof.
  apply outline_query. intros b ss i Hp Hi. destruct (decide (br_local b !! sessionRefreshKey id = Some r)) as [E|Hne].
  - exists (Spent id r). rewrite list_insert_id by done. split; [done|]. eexists. split; [done|]. by rewrite decide_True.
  - exists (Locked id). split; [|eexists; split; [done|]; by rewrite decide_False].
    eapply protocol_move; [exact Hp|exact Hi|done|..].
    + intros [S1 S2 S3 S4]. by split.
    + intros s0 S C1 C2. split; [done|]. split; [split; [exact (cp_lock _ _ C1)|done]|].
      split; [exact (cp_lock _ _ C2)|]. intros x E. split; [|done]. by destruct (cp_fresh _ _ C2 x E).
    + intros id0 r0 Hs Ha. right. split; [done|]. split; [done|]. by intros [[= <-] [= <-]].
Qed.

Definition rests {A} (id : string) (o : result A) (s : stage) : Prop := is_ok o = true /\ at_rest id s.

Lemma outline_remove_false t id s s' (Q : result bool -> stage -> Prop) :
  removed id s s' -> Q (Ok false) s' -> outlined s (do* removeSession t id in Ret false) Q.
Proof.
  intros Hr HQ. apply outline_bind. eapply outline_weaken; [|by apply outline_remove].
  intros [[]|e] s1 [Ho ->]; [done|discriminate].
Qed.

Lemma outline_persist_answer t body a r s s' :
  body_tokens body = Some (a, r) -> pair_of a r -> kept s s' -> fresh_of s = Some r ->
  outlined s (persist_answer t body) (fun o s1 => is_ok o = true /\ s1 = s').
Proof.
  intros Hb Hpair Hk Hf. unfold persist_answer. unfold body_tokens in Hb.
  destruct (as_string (field body "accessToken")) as [a'|]; [|done].
  destruct (as_string (field body "refreshToken")) as [r'|]; [|done]. injection Hb as -> ->. cbn [nullish].
  apply outline_bind. eapply outline_weaken; [|by apply outline_setTokens].
  intros [[]|e] s1 [Ho ->]; [done|discriminate].
Qed.

(** What is done with the answer ends with the lock alone. *)
Lemma outline_answered t id r resp s :
  answered_stage id r resp s ->
  outlined s (refresh_answered t id r resp) (rests id).
Proof.
  unfold answered_stage, refresh_answered. destruct (rs_ok resp); cbn [negb].
  - intros (body & a & r' & Ej & Eb & Hpair & ->). unfold json_body, require. rewrite Ej. cbn [bind].
    eapply outline_weaken; [|eapply (outline_persist_answer t body a r' _ (Locked id)); eauto; done].
    intros o s1 [Ho ->]. split; [done|]. by left.
  - intros ->. apply outline_bind. eapply outline_weaken; [|apply outline_read_current]. intros o s (cur & -> & Hs).
    apply outline_quiet; [guar_neutral|done|intros access].
    destruct (decide (cur = Some r)) as [->|Hne]; subst s.
    + rewrite bd_refl, andb_false_r. cbn [negb andb].
      eapply outline_remove_false; [right; by exists r|]. split; [done|]. by left.
    + case_match; [split; [done|by left]|]. eapply outline_remove_false; [by left|]. split; [done|]. by left.
Qed.


Lemma outline_refresh_task t id stale : outlined (Locked id) (refresh_task t id stale) (rests id).
Proof.
  unfold refresh_task. apply outline_quiet; [guar_neutral|done|intros latest].
  case_match; [split; [done|by left]|]. apply outline_bind.
  eapply outline_weaken; [|apply outline_read_attempt]. intros o s (attempted & -> & Hs).
  assert (at_rest id s) as Hrest by (destruct attempted; subst s; [right; by eexists|by left]).
  destruct (truthy attempted) eqn:Et; cbn [negb].
  - destruct attempted as [r|]; [|done]. subst s. cbn [nullish].
    apply outline_catch, outline_bind. eapply outline_weaken; [|apply outline_settle].
    intros [resp|e] s Hs; [|subst s; split; [done|right; by eexists]].
    eapply outline_weaken; [|by apply outline_answered].
    intros [x|e] s1 [Ho ?]; [by split|discriminate].
  - eapply outline_remove_false; [left; reflexivity|]. by split.
Qed.

Lemma outline_with_lock t id stale polls :
  webLocks = true ->
  outlined Idle (withRefreshLock polls t id (refresh_task t id stale)) (ends_at Idle).
Proof.
  intros Hl. unfold withRefreshLock. rewrite Hl. cbv zeta. fold (lock_name id). apply outline_bind.
  eapply outline_weaken; [|apply outline_acquire]. intros [[]|e] s Hs; cbn [is_ok] in Hs; subst s; [|done].
  apply outline_bind. eapply outline_weaken; [|apply outline_refresh_task].
  intros [x|e] s [Ho Hr]; [|discriminate].
  eapply (outline_bind_at _ _ Idle); [by apply outline_release|done|done].
Qed.

Context (locks : webLocks = true).

Lemma outline_refreshSession polls t stale : outlined Idle (refreshSession polls t stale) (ends_at Idle).
Proof.
  unfold refreshSession. eapply outline_bind_at; [| |done].
  { unfold refresh_subject. eapply outline_neutral_bind; [|intros o|done].
    - guar_neutral.
    - destruct o; [done|apply outline_current]. }
  intros [s|]; [|done]. eapply outline_neutral_bind; [apply guar_joinOrStart|intros [p|p]|done].
  - apply outline_neutral, guar_await.
  - eapply outline_bind_at; [by apply outline_with_lock|intros r|done].
    apply outline_neutral. guar_neutral.
Qed.

(* ------------------------------------------------------------------ *)
(** ** Requests, sign-in and the pages *)

Lemma other_url path method hs body :
  path <> "/auth/refresh" -> refresh_token_of (mkRequest (API_URL +:+ path) method hs body) = None.
Proof.
  intros Hne. unfold refresh_token_of. cbn [rq_url]. rewrite bool_decide_eq_false_2; [done|].
  intros E. by apply str_app_inv_head in E.
Qed.

Lemma guar_other path method hs body :
  path <> "/auth/refresh" -> guar neutral (fetch (mkRequest (API_URL +:+ path) method hs body)).
Proof. intros Hne. by apply guar_fetch, other_url. Qed.

Lemma outline_sync t : outlined Idle (syncCurrentSession t) (ends_at Idle).
Proof.
  unfold syncCurrentSession. eapply outline_bind_at; [apply outline_current|intros [s|]|done]; [|done].
  apply outline_neutral. apply guar_bind; [apply guar_getItem|intros [token|]]; [|done].
  destruct token; [done|]. apply guar_catch; [|done]. apply guar_bind; [by apply guar_other|intros response].
  guar_neutral.
Qed.

Lemma outline_restore polls t : outlined Idle (restoreSession polls t) (ends_at Idle).
Proof.
  unfold restoreSession. eapply outline_bind_at; [apply outline_current|intros [s|]|done]; [|done].
  eapply outline_neutral_bind; [guar_neutral|intros token|done].
  eapply outline_neutral_bind; [guar_neutral|intros usable|done].
  eapply outline_bind_at; [|intros ready|done].
  { destruct usable; [done|apply outline_refreshSession]. }
  destruct (negb ready); [done|].
  eapply outline_bind_at; [apply outline_sync|intros [r|]|done]; [|done].
  apply outline_neutral. guar_neutral.
Qed.

Lemma outline_logout t : outlined Idle (logoutSession t) (ends_at Idle).
Proof.
  unfold logoutSession. eapply outline_bind_at; [apply outline_current|intros [s|]|done]; [|done].
  eapply outline_neutral_bind; [guar_neutral|intros token|done].
  eapply outline_neutral_bind; [|intros _|done].
  - apply guar_catch; [|done]. destruct (truthy token); [|done].
    apply guar_bind; [by apply guar_other|done].
  - eapply outline_weaken; [|apply outline_remove; by left]. by intros o s1 [_ ->].
Qed.

Lemma outline_request t path options :
  path <> "/auth/refresh" -> outlined Idle (api_request t path options) (ends_at Idle).
Proof.
  intros Hne. unfold api_request. eapply outline_bind_at; [|intros token|done].
  { destruct (op_auth options); [apply outline_getToken|done]. }
  apply outline_neutral. apply guar_bind; [by apply guar_other|done].
Qed.

Lemma outline_api polls t path options :
  path <> "/auth/refresh" -> outlined Idle (api polls t path options) (ends_at Idle).
Proof.
  intros Hne. unfold api. eapply outline_bind_at; [by apply outline_request|intros [token first]|done].
  eapply outline_bind_at; [|intros retry|done].
  { destruct ((rs_status first =? 401)%Z && op_auth options); [apply outline_refreshSession|done]. }
  eapply outline_bind_at; [|intros response|done].
  { destruct retry; [|done]. eapply outline_bind_at; [by apply outline_request|by intros []|done]. }
by destruct (negb (rs_ok response)).
Qed.

(** The answer to a sign-in with a pair: the page has a new token. *)
Definition signed_in (body : json) (s : stage) : Prop :=
  exists a r, body_tokens body = Some (a, r) /\ pair_of a r /\ s = Fresh r.

Lemma outline_signin q :
  rq_url q = API_URL +:+ "/auth/otp/verify" ->
  outlined Idle (fetch q)
    (fun o s => match o with
                | Ok resp => if rs_ok resp then exists body, rs_json resp = Some body /\ signed_in body s else s = Idle
                | Err _ => s = Idle
                end).
Proof.
  intros Hu. assert (refresh_token_of q = None) as Hq.
  { unfold refresh_token_of. rewrite Hu, bool_decide_eq_false_2; [done|]. intros E. by apply str_app_inv_head in E. }
  assert (token_request q) as Ht by (by right).
  intros b0 ss0 i0 Hp0 Hi0. cbn. exists Idle. rewrite list_insert_id by done.
  split; [exact (protocol_neutral _ _ _ (proj1 (guar_fetch q Hq b0)) Hp0)|]. clear b0 ss0 i0 Hp0 Hi0.
  intros b ss i Hp Hi. assert (neutral b (b <| br_tick ::= S |>)) as Hn1 by (split; try done; cbn; lia).
  assert (forall resp, neutral b (after_answer b resp q)) as Hn2.
  { intros resp. split; cbn; try done; [|lia]. unfold token_events. cbn. rewrite omap_app. cbn. by rewrite Hq, app_nil_r. }
  destruct (answer q (br_tick b)) as [resp|] eqn:Ea; cbn.
  2:{ exists Idle. rewrite list_insert_id by done. split; [by eapply protocol_neutral|done]. }
  destruct (rs_ok resp) eqn:Eok.
  2:{ exists Idle. rewrite list_insert_id by done. split; [eapply protocol_neutral; [apply (Hn2 resp)|done]|].
      cbv [outline]. by rewrite Eok. }
  destruct (server_pair owner server _ _ resp Ht Ea Eok) as (body & a & r & Ej & Eb & Hpair).
  exists (Fresh r). split; [|cbv [outline]; rewrite Eok; exists body; split; [done|by exists a, r]].
  pose proof (issues_answer _ _ _ _ _ _ Ht Ea Eok Ej Eb) as His.
  eapply protocol_move; [exact Hp|exact Hi|apply world_ok_neutral, (Hn2 resp)|..].
  - intros _. split; [done..|]. intros ? [= <-]. split; [|done].
    eapply issued_unseen; [exact (pr_world _ _ Hp)|exact His|done|done| |by rewrite Hq].
    intros r0 A. left. by apply (neutral_answered b _ r0 (Hn2 resp)).
  - intros s0 S C1 C2. split; [eapply stage_ok_neutral; [apply (Hn2 resp)|done]|].
    destruct (issued_compat b s0 _ _ S His) as [F1 F2]. split.
    + split; [done|]. by intros ? [= <-].
    + split; [done|]. intros x E. split; [|done]. cbn. congruence.
  - intros id0 r0 Hs A. right. split; [done|]. split; [by apply (neutral_answered b _ r0 (Hn2 resp))|]. by intros [].
Qed.

(** What a sign-in leaves: a new token exactly when the answer is a success. *)
Definition signin_stage (resp : HttpResponse) (s : stage) : Prop :=
  if rs_ok resp then exists body, rs_json resp = Some body /\ signed_in body s else s = Idle.

Lemma outline_request_signin t options :
  op_auth options = false ->
  outlined Idle (api_request t "/auth/otp/verify" options)
    (fun o s => match o with Ok (_, resp) => signin_stage resp s | Err _ => s = Idle end).
Proof.
  intros Ha. unfold api_request. rewrite Ha. eapply outline_neutral_bind; [done|intros token|done].
  apply outline_bind. eapply outline_weaken; [|by apply outline_signin]. by intros [resp|e] s.
Qed.

Lemma outline_ret_bind {A B} s (a : A) (f : A -> page B) Q : outlined s (f a) Q -> outlined s (bind (Ret a) f) Q.
Proof. done. Qed.

Lemma outline_api_signin polls t options :
  op_auth options = false ->
  outlined Idle (api polls t "/auth/otp/verify" options)
    (fun o s => match o with Ok body => signed_in body s | Err _ => s = Idle end).
Proof.
  intros Ha. unfold api. apply outline_bind. eapply outline_weaken; [|by apply outline_request_signin].
  intros [[token resp]|e] s Hs; [|done]. rewrite Ha, andb_false_r. unfold signin_stage in Hs.
  apply outline_ret_bind, outline_ret_bind. cbv zeta. destruct (rs_ok resp); cbn [negb]; [|done].
  destruct Hs as (body & Ej & Hs). by rewrite Ej.
Qed.

Lemma outline_login polls t email code : outlined Idle (verifyOtp polls t email code) (ends_at Idle).
Proof.
  unfold verifyOtp. eapply outline_catch_at; [|done|done].
  apply outline_bind. eapply outline_weaken; [|by apply outline_api_signin].
  intros [body|e] s; [|done]. intros (a & r & Eb & Hpair & ->).
  apply outline_bind. eapply outline_weaken; [|by eapply (outline_persist_answer t body a r _ Idle)].
  intros [x|e] s [Ho ->]; [|done].
  eapply outline_bind_at; [apply outline_restore|done|done].
Qed.

(** The calls of the pages; [api] is not called on the refresh endpoint. *)
Definition page_task (k : task) : Prop := match k with Api path _ => path <> "/auth/refresh" | _ => True end.

Lemma outline_task polls t k : page_task k -> outlined Idle (run_task polls t k) (ends_at Idle).
Proof.
  intros Hk.
  assert (forall A (p : page A), outlined Idle p (ends_at Idle) -> outlined Idle (do* p in Ret tt) (ends_at Idle)) as Hdo
    by (intros A p Hp; by eapply outline_bind_at).
  destruct k as [| |id m|m| | | |path options|email code]; cbn [run_task]; try apply Hdo.
  - unfold getStoredSessions. eapply outline_bind_at; [apply outline_migrate|intros _|done].
    apply outline_neutral. guar_neutral.
  - apply outline_current.
  - unfold activateSession. apply outline_neutral. guar_neutral.
  - unfold switchAppMode. eapply outline_bind_at; [apply outline_current|intros [s|]|done]; [|done].
    apply outline_neutral. guar_neutral.
  - apply outline_restore.
  - apply outline_logout.
  - unfold clearTokens. eapply outline_bind_at; [apply outline_current|intros [s|]|done]; [|done].
    eapply outline_weaken; [|apply outline_remove; by left]. by intros o s1 [_ ->].
  - by apply outline_api.
  - apply outline_login.
Qed.

Lemma outline_page polls t ks :
  Forall page_task ks -> outlined Idle (run_page polls t ks) (ends_at Idle).
Proof.
  intros HF. apply outline_for_each. intros k Hin. eapply outline_catch_at; [|done|done].
  apply outline_task. rewrite Forall_forall in HF. apply HF. by apply list_elem_of_In.
Qed.

(** A browser before any request: the stored tokens belong to the person they
    are stored for and are not going to be issued again, and the keys of the
    earlier versions are gone. *)
Record starts (b : Browser) : Prop := {
  starts_log : br_log b = [];
  starts_tokens id r : stored b id r -> owner r = id /\ known b r;
  starts_migrated k : In k legacy_keys -> br_local b !! k = None
}.

Lemma protocol_starts b n : starts b -> protocol b (replicate n Idle).
Proof.
  intros [Hl Ht Hm].
  assert (forall r, ~ answered b r) as Hna by (intros r; unfold answered, token_events; rewrite Hl; by intros []).
  split.
  - split; [done|by intros r ?%Hna| |done]. unfold token_events. rewrite Hl. by intros [|] ? ?.
  - intros i s [-> _]%lookup_replicate. by split.
  - intros i j s1 s2 _ [-> _]%lookup_replicate [-> _]%lookup_replicate. by split.
  - by intros id r _ ?%Hna.
Qed.
End protocol.

(* ------------------------------------------------------------------ *)
(** ** Tabs that come and go

    A tab that is closed or reloaded ends its handlers where they stand and
    gives up its Web Locks; a reloaded tab keeps its [sessionStorage] and
    starts its modules afresh, and runs what it runs from then on as a new
    page. *)

Definition close_tab (t : nat) (b : Browser) : Browser :=
  b <| br_tabs ::= base.delete t |> <| br_locks ::= List.filter (fun x => negb (x.2 =? t)%nat) |>.

Definition reload_tab (t : nat) (b : Browser) : Browser :=
  on_tab t (fun x => mkTab (tab_session x) (tab_path x) false ∅ []) b
    <| br_locks ::= List.filter (fun x => negb (x.2 =? t)%nat) |>.

(** The handlers of the tab [t] end. *)
Definition stop_tab (t : nat) (pages : list (nat * page unit)) : list (nat * page unit) :=
  map (fun x => if (x.1 =? t)%nat then (t, Ret tt) else x) pages.

(** The tab [t] holds no lock: none of its handlers is renewing. *)
Definition lock_free (t : nat) (b : Browser) : Prop := ~ In t (map snd (br_locks b)).

(** The browser and the handlers of its tabs: a handler performs its next
    action, a tab that holds no lock is closed or reloaded, a page is opened. *)
Inductive tabs_step `{Web} (polls : nat) :
  Browser * list (nat * page unit) -> Browser * list (nat * page unit) -> Prop :=
| page_acts b pages b' ps :
    pool_step (b, map snd pages) (b', ps) ->
    tabs_step polls (b, pages) (b', zip (map fst pages) ps)
| tab_leaves t b pages b' :
    lock_free t b -> b' = close_tab t b \/ b' = reload_tab t b ->
    tabs_step polls (b, pages) (b', stop_tab t pages)
| page_opens t ks b pages :
    Forall page_task ks ->
    tabs_step polls (b, pages) (b, pages ++ [(t, run_page polls t ks)]).

Section leaving.
Context `{Web} (owner : string -> string).

Lemma free_locks t (l : list (string * nat)) : ~ In t (map snd l) -> List.filter (fun x => negb (x.2 =? t)%nat) l = l.
Proof.
  induction l as [|x l IH]; intros Hn; [done|]. cbn. destruct (Nat.eqb_spec x.2 t) as [E|E].
  - destruct Hn. left. exact E.
  - cbn. f_equal. apply IH. intros Hin. apply Hn. by right.
Qed.

Lemma neutral_leaves t b b' :
  lock_free t b -> b' = close_tab t b \/ b' = reload_tab t b -> neutral b b'.
Proof.
  intros Hf Hb. assert (br_locks b' = br_locks b) as Hl by (destruct Hb as [->| ->]; apply (free_locks t), Hf).
  destruct Hb as [->| ->]; by split.
Qed.

Lemma protocol_opens b ss : protocol owner b ss -> protocol owner b (ss ++ [Idle]).
Proof.
  intros [Hw Hs Hc Hp].
  assert (forall i s, (ss ++ [Idle]) !! i = Some s -> ss !! i = Some s \/ s = Idle) as Hl.
  { intros i s [E|[_ E]]%lookup_app_Some; [by left|]. right. by apply list_lookup_singleton_Some in E as [_ <-]. }
  split; [done|..].
  - intros i s [E| ->]%Hl; [by eapply Hs|]. by split.
  - intros i j s1 s2 Hne [E1| ->]%Hl [E2| ->]%Hl; [by eapply (Hc i j)|by split| |]; by split.
  - intros id r Hst Ha. destruct (Hp id r Hst Ha) as (i & s & Hi & ?). exists i, s. split; [|done].
    by apply lookup_app_l_Some.
Qed.

Abbreviation page_outline := (fun s (p : page unit) => outline (protocol owner) s p (fun _ _ => True)).

(** The steps of the tabs keep the protocol. *)
Lemma step_protocol polls c c' ss :
  webLocks = true -> TokenServer owner -> tabs_step polls c c' ->
  protocol owner c.1 ss -> Forall2 page_outline ss (map snd c.2) ->
  exists ss', protocol owner c'.1 ss' /\ Forall2 page_outline ss' (map snd c'.2).
Proof.
  intros Hl Hserv Hs Hp HF. destruct Hs as [b pages b' ps Hs|t b pages b' Hf Hb|t ks b pages Hks]; cbn in *.
  - destruct (step_outline _ _ _ _ Hs Hp HF) as (ss' & Hp' & HF'). exists ss'. split; [done|]. cbn in *.
    rewrite snd_zip; [done|]. apply pool_step_length in Hs. cbn in Hs. rewrite Hs, !length_map. lia.
  - exists ss. split; [eapply protocol_neutral, Hp; by eapply neutral_leaves|].
    unfold stop_tab. rewrite map_map. clear -HF. revert ss HF.
    induction pages as [|[t' p] pages IH]; intros ss HF; inversion HF; subst; constructor; [|by apply IH].
    cbn. by destruct (t' =? t)%nat.
  - exists (ss ++ [Idle]). split; [by apply protocol_opens|]. rewrite map_app. apply Forall2_app; [done|].
    constructor; [|done]. eapply outline_weaken; [|by apply outline_page]. done.
Qed.

Lemma steps_protocol polls c c' ss :
  webLocks = true -> TokenServer owner -> rtc (tabs_step polls) c c' ->
  protocol owner c.1 ss -> Forall2 page_outline ss (map snd c.2) ->
  exists ss', protocol owner c'.1 ss'.
Proof.
  intros Hl Hserv Hr. revert ss. induction Hr as [c|c c1 c2 Hs Hr IH]; intros ss Hp HF; [by eauto|].
  destruct (step_protocol _ _ _ _ Hl Hserv Hs Hp HF) as (ss1 & Hp1 & HF1). by apply (IH ss1).
Qed.
End leaving.

(** A schedule of the handlers is one of the behaviours of the tabs. *)
Lemma tabs_of_pool `{Web} polls ts c c' :
  rtc pool_step c c' -> length ts = length c.2 ->
  rtc (tabs_step polls) (c.1, zip ts c.2) (c'.1, zip ts c'.2).
Proof.
  intros Hr. induction Hr as [c|c c1 c2 Hs Hr IH]; intros Hlen; [done|].
  pose proof (pool_step_length _ _ Hs) as E. eapply rtc_l; [|apply IH; congruence].
  pose proof (page_acts polls c.1 (zip ts c.2) c1.1 c1.2) as Ha.
  rewrite snd_zip, fst_zip in Ha by lia. apply Ha. by destruct c, c1.
Qed.

(** C4: with the Web Locks API and an API that keeps its promises
    ([TokenServer]), in a browser without keys of the earlier versions: whatever
    the pages of the tabs do (renewals, sign-ins, logouts, requests), however
    their storage accesses, requests and answers interleave, and whichever tabs
    are opened, closed or reloaded, as long as no tab is closed or reloaded
    while it holds the lock of a renewal, a refresh token is not presented to
    /auth/refresh once that endpoint has answered it.  (/auth/logout, which also
    receives the stored token, only revokes it.) *)
Theorem refresh_token_single_use `{Web} (owner : string -> string) polls (b b' : Browser) pages :
  webLocks = true ->
  TokenServer owner ->
  starts owner b ->
  rtc (tabs_step polls) (b, []) (b', pages) ->
  single_use (token_events b').
Proof.
  intros Hl Hs Hb Hr.
  destruct (steps_protocol owner polls _ _ [] Hl Hs Hr) as [ss Hp]; [by apply (protocol_starts _ _ 0)|constructor|].
  exact (ok_log _ _ (pr_world _ _ _ Hp)).
Qed.

(* ------------------------------------------------------------------ *)
(** ** Two tabs *)

Import WebDemo.

Lemma number_inj n1 n2 : number n1 = number n2 -> n1 = n2.
Proof. intros E. apply (f_equal digits_value) in E. unfold number in E. rewrite !digits_value_str in E; lia. Qed.

Lemma demo_pair_issues n resp user :
  In user ["ada"; "bob"] -> resp = demo_pair user n ->
  exists body a r, rs_json resp = Some body /\ body_tokens body = Some (a, r) /\ r <> "" /\ token_owner r <> "" /\
    exists c, @decodeClaims (demo_web true) a = Some c /\ cl_sub c = Some (token_owner r) /\
      omap mode_of_name (nullish (cl_modes c) []) <> [].
Proof.
  intros Hu ->. eexists _, _, _. split; [done|]. split; [done|].
  assert (token_owner (refresh_token user n) = user) as -> by (by destruct Hu as [<-|[<-|[]]]).
  split; [by destruct Hu as [<-|[<-|[]]]|]. split; [by destruct Hu as [<-|[<-|[]]]|].
  exists (claims_of (claims_json user)). split; [|by destruct Hu as [<-|[<-|[]]]].
  destruct Hu as [<-|[<-|[]]]; vm_compute; reflexivity.
Qed.

(** The answers with tokens are pairs of one of the two people. *)
Lemma demo_answer_pair q n resp :
  @token_request (demo_web true) q -> demo_answer q n = Some resp -> rs_ok resp = true ->
  exists user, In user ["ada"; "bob"] /\ resp = demo_pair user n /\
    (forall r, @refresh_token_of (demo_web true) q = Some r -> token_owner r = user).
Proof.
  intros Ht Ha Hok. unfold demo_answer in Ha.
  destruct Ht as [Hu|Hu]; unfold refresh_token_of; rewrite Hu in *.
  - change (@API_URL (demo_web true)) with base in *. rewrite bd_refl in *. unfold body_text in Ha.
    destruct (rq_body q ≫= _) as [r|]; cbn [fmap option_fmap option_map] in Ha;
      [|injection Ha as <-; vm_compute in Hok; discriminate].
    destruct (includes ["ada"; "bob"] (token_owner r)) eqn:Eu; injection Ha as <-; [|vm_compute in Hok; discriminate].
    exists (token_owner r). apply includes_In in Eu. split; [done|]. split; [done|]. by intros r0 [= <-].
  - change (@API_URL (demo_web true)) with base in *. rewrite bd_refl in Ha. cbn in Ha. injection Ha as <-.
    eexists. split; [|split; [reflexivity|by intros r [=]]]. case_match; cbn; auto.
Qed.

Lemma demo_issues q n r :
  @issues (demo_web true) q n r ->
  exists user, In user ["ada"; "bob"] /\ r = refresh_token user n /\
    (forall r0, @refresh_token_of (demo_web true) q = Some r0 -> token_owner r0 = user).
Proof.
  intros (Ht & resp & body & a & Ha & Hok & Ej & Eb).
  destruct (demo_answer_pair q n resp Ht Ha Hok) as (user & Hu & -> & Hq). exists user. split; [done|].
  split; [|done]. cbn in Ej. injection Ej as <-. cbn in Eb. by injection Eb as _ <-.
Qed.

Lemma demo_owner user n : In user ["ada"; "bob"] -> token_owner (refresh_token user n) = user.
Proof. by intros [<-|[<-|[]]]. Qed.

Lemma demo_server : @TokenServer (demo_web true) token_owner.
Proof.
  split.
  - intros q n resp Ht Ha Hok. destruct (demo_answer_pair q n resp Ht Ha Hok) as (user & Hu & E & _).
    exact (demo_pair_issues n resp user Hu E).
  - intros q1 q2 n1 n2 r (u1 & H1 & -> & _)%demo_issues (u2 & H2 & E & _)%demo_issues.
    apply number_inj. destruct H1 as [<-|[<-|[]]], H2 as [<-|[<-|[]]]; cbn in E; congruence.
  - intros q n r r' Hq (user & Hu & -> & Hown)%demo_issues. rewrite demo_owner by done. symmetry. by apply Hown.
Qed.

Lemma demo_stored id r : stored demo_browser id r -> In id ["ada"; "bob"] /\ r = refresh_token id 0.
Proof.
  unfold stored. cbn [demo_browser br_local]. unfold demo_local. intros E%elem_of_list_to_map_2.
  rewrite !elem_of_cons in E.
  destruct E as [[E E2]%pair_eq|[[E E2]%pair_eq|[[E E2]%pair_eq|[[E E2]%pair_eq|[[E E2]%pair_eq|[[E E2]%pair_eq|E]]]]]].
  - by destruct (index_key_other id).
  - by destruct (access_key_other "ada" id).
  - apply (inj sessionRefreshKey) in E. subst id. split; [by left|done].
  - by destruct (access_key_other "bob" id).
  - apply (inj sessionRefreshKey) in E. subst id. split; [by right; left|done].
  - by destruct (last_key_other id).
  - by apply not_elem_of_nil in E.
Qed.

Lemma demo_starts : @starts (demo_web true) token_owner demo_browser.
Proof.
  split; [done| |].
  - intros id r [Hu ->]%demo_stored. split; [by apply demo_owner|].
    intros q n (u & Hu' & E & _)%demo_issues. assert (n = 0%nat) as ->; [|cbn; lia]. apply number_inj.
    destruct Hu as [<-|[<-|[]]], Hu' as [<-|[<-|[]]]; cbn in E; congruence.
  - intros k [<-|[<-|[<-|[]]]]; vm_compute; reflexivity.
Qed.

(** The two tabs are opened, then their handlers step in some order. *)
Lemma demo_tabs order :
  let c := schedule order (demo_browser, demo_pages true) in
  rtc (@tabs_step (demo_web true) 60) (demo_browser, []) (c.1, zip [0%nat; 1%nat] c.2).
Proof.
  eapply rtc_l; [apply (page_opens 60 0%nat [get_income]); repeat constructor; discriminate|].
  eapply rtc_l; [apply (page_opens 60 1%nat [get_income]); repeat constructor; discriminate|].
  exact (@tabs_of_pool (demo_web true) 60 [0%nat; 1%nat] _ _ (schedule_sound order (demo_browser, demo_pages true)) eq_refl).
Qed.

(** Two tabs whose requests are refused at the same time: one of them renews
    the tokens, the other finds the new ones. *)
Lemma refresh_token_single_use_witness :
  let c := schedule (alternate 100) (demo_browser, demo_pages true) in
  @token_events (demo_web true) c.1 = [Presented "ada:0"; Settled "ada:0"] /\
  map (@Ret Browser unit) [tt; tt] = c.2 /\
  @single_use (@token_events (demo_web true) c.1).
Proof.
  split; [vm_compute; reflexivity|]. split; [vm_compute; reflexivity|].
  exact (@refresh_token_single_use (demo_web true) token_owner 60 demo_browser _ _
           eq_refl demo_server demo_starts (demo_tabs (alternate 100))).
Defined.

(** Without the Web Locks API both tabs may present the token, the second after
    the answer to the first; the server refuses it, and the tab finds the new
    tokens in the storage. *)
Example unlocked_tabs_replay :
  let c := schedule (alternate 20 ++ repeat 0%nat 80 ++ repeat 1%nat 80) (demo_browser, demo_pages false) in
  @token_events (demo_web false) c.1 = [Presented "ada:0"; Settled "ada:0"; Presented "ada:0"; Settled "ada:0"].
Proof. vm_compute. reflexivity. Qed.

(** A tab that is closed after the server answered its renewal and before the new
    tokens are stored takes them with it: its lock is released, and the next
    renewal presents the used token again. *)
Example closed_tab_replays :
  let c1 := schedule (repeat 0%nat 25) (demo_browser, demo_pages true) in
  let c2 := schedule (repeat 1%nat 80) (close_tab 0 c1.1, map snd (stop_tab 0 (zip [0%nat; 1%nat] c1.2))) in
  map snd (br_locks c1.1) = [0%nat] /\
  @token_events (demo_web true) c1.1 = [Presented "ada:0"; Settled "ada:0"] /\
  @token_events (demo_web true) c2.1 = [Presented "ada:0"; Settled "ada:0"; Presented "ada:0"; Settled "ada:0"].
Proof. cbv zeta. split; [|split]; vm_compute; reflexivity. Qed.

End SessionTabs.
