(* ===== verification/SessionStore.v ===== *)
(** * The saved sessions of a browser

    What apps/web/src/lib/api.ts keeps true of [localStorage] and of the
    identity of a tab: the index reads back what was written and holds one
    valid entry per account under every interleaving ([index_one_entry]);
    which account a tab shows ([currentSession_spec]) and that no other tab
    changes it ([tab_identity_isolated]); and what a logout leaves
    ([logout_forgets]). *)

From stdpp Require Import relations gmap.
From S2P Require Import Prelude Concurrency Strings Schema WebSession WebDemo SessionTabs.

Open Scope Z_scope.

Module SessionStore.
Import WebSession.

(* ------------------------------------------------------------------ *)
(** ** The index *)

(** A session has a mode, and its default is one of its modes. *)
Definition wf_session (s : StoredSession) : Prop := In (ss_defaultMode s) (ss_modes s).

Lemma default_mode_in (o : option AppMode) m0 ms :
  In (match o with Some m => if includes (m0 :: ms) m then m else m0 | None => m0 end) (m0 :: ms).
Proof.
  destruct o as [m|]; [|by left]. destruct (includes (m0 :: ms) m) eqn:E; [|by left].
  by apply includes_In in E.
Qed.

Lemma stored_session_wf raw s : In s (stored_session raw) -> wf_session s.
Proof.
  unfold stored_session.
  destruct (as_string (field raw "id")), (as_string (field raw "email")), (as_string (field raw "role")),
    (as_number (field raw "updatedAt")); try done.
  cbv zeta. destruct (match as_strings _ with Some _ => _ | None => _ end) as [|m0 ms]; [done|].
  intros [<-|[]]. apply default_mode_in.
Qed.

Lemma mode_reads_back m : mode_of_name (AppMode_name m) = Some m.
Proof. by destruct m. Qed.

Lemma modes_read_back ms : omap mode_of_name (map AppMode_name ms) = ms.
Proof.
  induction ms as [|m ms IH]; [done|].
  change (omap mode_of_name (map AppMode_name (m :: ms)))
    with (match mode_of_name (AppMode_name m) with
          | Some x => x :: omap mode_of_name (map AppMode_name ms)
          | None => omap mode_of_name (map AppMode_name ms)
          end).
  by rewrite mode_reads_back, IH.
Qed.

Lemma names_read_back ms :
  as_strings (Some (JArr (map (fun m => JStr (AppMode_name m)) ms))) = Some (map AppMode_name ms).
Proof.
  cbn [as_strings]. f_equal. induction ms as [|m ms IH]; [done|]. cbn [map]. cbn. f_equal. exact IH.
Qed.

Lemma session_reads_back s : wf_session s -> stored_session (session_json s) = [s].
Proof.
  intros Hd. destruct s as [id email role modes def upd]. unfold wf_session in Hd. cbn in Hd.
  set (j := session_json _).
  assert (field j "id" = Some (JStr id)) as E1 by reflexivity.
  assert (field j "email" = Some (JStr email)) as E2 by reflexivity.
  assert (field j "role" = Some (JStr role)) as E3 by reflexivity.
  assert (field j "updatedAt" = Some (JInt upd)) as E4 by reflexivity.
  assert (field j "modes" = Some (JArr (map (fun m => JStr (AppMode_name m)) modes))) as E5 by reflexivity.
  assert (field j "defaultMode" = Some (JStr (AppMode_name def))) as E6 by reflexivity.
  unfold stored_session. rewrite E1, E2, E3, E4, E5, E6.
  cbn [as_string as_number mbind option_bind]. rewrite names_read_back, modes_read_back, mode_reads_back.
  destruct modes as [|m0 ms]; [done|]. by rewrite (proj2 (includes_In _ _) Hd).
Qed.

Section store.
Context `{Web}.

(** The index as the code reads it. *)
Definition index (b : Browser) : list StoredSession := parse_index (br_local b !! SESSION_INDEX_KEY).

(** Whatever is stored, each session read from it has modes and a default among
    them. *)
Lemma parse_index_wf text : Forall wf_session (parse_index text).
Proof.
  unfold parse_index. apply Forall_forall. intros s Hs%list_elem_of_In.
  destruct (parseJson _) as [[| | | | |l|]|]; try done. apply in_flat_map in Hs as (raw & _ & Hs).
  by eapply stored_session_wf.
Qed.

(** [JSON.parse] inverts [JSON.stringify]. *)
Definition json_reads_back : Prop := forall j, integral j -> parseJson (printJson j) = Some j.

Context (codec : json_reads_back).

Lemma session_integral s : integral (session_json s).
Proof. cbn. split_and!; try done. by induction (ss_modes s). Qed.

(** The sessions written to the index are read back as they were. *)
Theorem index_reads_back l :
  Forall wf_session l -> parse_index (Some (printJson (JArr (map session_json l)))) = l.
Proof.
  intros Hl. unfold parse_index. cbn [nullish]. rewrite codec.
  - induction Hl as [|s l Hs Hl IH]; [done|]. cbn [map flat_map]. by rewrite session_reads_back, IH.
  - cbn. clear Hl. induction l as [|s l IH]; cbn [map fold_right]; [done|]. split; [apply session_integral|done].
Qed.

Lemma without_id_wf id l : Forall wf_session l -> Forall wf_session (without_id id l).
Proof.
  rewrite !Forall_forall. intros Hl s Hs. apply Hl. apply list_elem_of_In in Hs.
  apply list_elem_of_In. by apply filter_In in Hs as [? _].
Qed.

Lemma session_of_token_wf a f t s : session_of_token a f t = Ok s -> wf_session s.
Proof.
  unfold session_of_token. cbv zeta.
  destruct (match omap _ _ with [] => _ | _ => _ end) as [|m0 ms]; [done|].
  destruct (negb _); [done|]. intros [= <-]. apply default_mode_in.
Qed.

Lemma synced_wf s email m0 ms : wf_session (synced s email m0 (m0 :: ms)).
Proof. apply (default_mode_in (Some (ss_defaultMode s))). Qed.

(* ------------------------------------------------------------------ *)
(** ** One entry per account *)

Definition unique (l : list StoredSession) : Prop := NoDup (map ss_id l).

Lemma unique_without id l : unique l -> unique (without_id id l).
Proof. apply NoDup_map_filter. Qed.

Lemma unique_replace s l : unique l -> unique (without_id (ss_id s) l ++ [s]).
Proof.
  intros Hl. unfold unique. rewrite map_app. apply NoDup_app. split; [by apply unique_without|].
  split; [|apply NoDup_singleton]. intros i Hi Hs. apply list_elem_of_In in Hi, Hs. cbn in Hs.
  destruct Hs as [<-|[]]. apply in_map_iff in Hi as (x & E & Hx). apply filter_In in Hx as [_ Hx].
  by rewrite E, bd_refl in Hx.
Qed.

(* ------------------------------------------------------------------ *)
(** ** Invariants of the pages *)

Lemma access_not_index id : sessionAccessKey id <> SESSION_INDEX_KEY.
Proof.
  intros E. apply (str_app_inv_head "sp_session_" _ "index_v2") in E.
  apply (f_equal String.length) in E. rewrite str_length_app in E. cbn in E. lia.
Qed.
Lemma refresh_not_index id : sessionRefreshKey id <> SESSION_INDEX_KEY.
Proof. intros E. by apply (SessionTabs.index_key_other id). Qed.
Lemma mode_not_index m : lastModeKey m <> SESSION_INDEX_KEY.
Proof. by destruct m. Qed.
Lemma last_not_index : LAST_SESSION_KEY <> SESSION_INDEX_KEY.
Proof. done. Qed.

(** What an invariant of the pages of the tab [t] has to be kept by: every
    access, and a new index computed from the one read.  [L] is what is known of
    the lists read from the index. *)
Record page_invariant (I : Browser -> Prop) (L : list StoredSession -> Prop) (t : nat) : Prop := {
  pi_without id l : L l -> L (without_id id l);
  pi_replace s l : L l -> L (without_id (ss_id s) l ++ [s]);
  pi_index b : I b -> L (index b);
  pi_write l : Forall wf_session l -> L l -> keeps I (writeSessionIndex l);
  pi_set k v : k <> SESSION_INDEX_KEY -> keeps I (setItem k v);
  pi_remove k : k <> SESSION_INDEX_KEY -> keeps I (removeItem k);
  pi_tab f : keeps I (Act (fun b => (on_tab t f b, tt)) Ret);
  pi_join id : keeps I (joinOrStart t id);
  pi_now : keeps I now_ms;
  pi_fetch q : keeps I (fetch q);
  pi_acquire polls t0 n : keeps I (acquire polls t0 n);
  pi_release n : keeps I (release n)
}.

Section pages.
Context (I : Browser -> Prop) (L : list StoredSession -> Prop) (t : nat) (HI : page_invariant I L t).

Lemma keeps_read_bind {A} (f : list StoredSession -> page A) :
  (forall l, Forall wf_session l -> L l -> keeps I (f l)) -> keeps I (bind readSessionIndex f).
Proof.
  intros Hf. unfold readSessionIndex. apply (keeps_query_bind I). intros b Hb.
  cbn [bind]. apply Hf; [apply parse_index_wf|by apply (pi_index _ _ _ HI)].
Qed.

Lemma keeps_set k v : k <> SESSION_INDEX_KEY -> keeps I (setItem k v).
Proof. apply (pi_set _ _ _ HI). Qed.
Lemma keeps_remove k : k <> SESSION_INDEX_KEY -> keeps I (removeItem k).
Proof. apply (pi_remove _ _ _ HI). Qed.
Lemma keeps_join id : keeps I (joinOrStart t id).
Proof. apply (pi_join _ _ _ HI). Qed.
Lemma keeps_now : keeps I now_ms.
Proof. apply (pi_now _ _ _ HI). Qed.
Lemma keeps_fetch q : keeps I (fetch q).
Proof. apply (pi_fetch _ _ _ HI). Qed.
Lemma keeps_acquire polls t0 n : keeps I (acquire polls t0 n).
Proof. apply (pi_acquire _ _ _ HI). Qed.
Lemma keeps_release n : keeps I (release n).
Proof. apply (pi_release _ _ _ HI). Qed.
Lemma keeps_tabSet k v : keeps I (tabSetItem t k v).
Proof. apply (pi_tab _ _ _ HI). Qed.
Lemma keeps_tabRemove k : keeps I (tabRemoveItem t k).
Proof. apply (pi_tab _ _ _ HI). Qed.
Lemma keeps_settle id p r : keeps I (settle t id p r).
Proof. apply (pi_tab _ _ _ HI). Qed.
Lemma keeps_await polls p : keeps I (await_promise polls t p).
Proof.
  induction polls as [|k IH]; [done|]. cbn [await_promise]. apply keeps_bind; [apply keeps_query|].
  intros v. by repeat case_match.
Qed.

Create HintDb keeps_index.
#[local] Hint Resolve keeps_set keeps_remove keeps_join keeps_now keeps_fetch keeps_acquire keeps_release access_not_index refresh_not_index mode_not_index last_not_index
  keeps_tabSet keeps_tabRemove keeps_settle keeps_await keeps_query keeps_lift keeps_require : keeps_index.

Ltac keeps_page :=
  repeat (cbv beta zeta;
          first [ progress intros | done | solve [eauto 3 with keeps_index] | apply keeps_read_bind | apply keeps_bind
                | apply keeps_catch | apply keeps_for_each | case_match ]).

Lemma keeps_getItem k : keeps I (getItem k).
Proof. apply keeps_query. Qed.
Lemma keeps_tabGetItem k : keeps I (tabGetItem t k).
Proof. apply keeps_query. Qed.
Lemma keeps_modeForPage : keeps I (modeForPage t).
Proof. apply keeps_query. Qed.
#[local] Hint Resolve keeps_getItem keeps_tabGetItem keeps_modeForPage : keeps_index.

Lemma keeps_forget ms id : keeps I (forget_modes ms id).
Proof. unfold forget_modes. keeps_page. Qed.
Lemma keeps_hasToken s : keeps I (sessionHasToken s).
Proof. unfold sessionHasToken. keeps_page. Qed.
Lemma keeps_filter_page {A} (p : A -> page bool) xs :
  (forall x, keeps I (p x)) -> keeps I (filter_page p xs).
Proof. intros Hp. induction xs as [|x xs IH]; cbn [filter_page]; keeps_page; auto. Qed.
Lemma keeps_find_page {A} (p : A -> page bool) xs :
  (forall x, keeps I (p x)) -> keeps I (find_page p xs).
Proof. intros Hp. induction xs as [|x xs IH]; cbn [find_page]; keeps_page; auto. Qed.
#[local] Hint Resolve keeps_forget keeps_hasToken keeps_filter_page keeps_find_page : keeps_index.

Lemma keeps_usable : keeps I usable_sessions.
Proof. unfold usable_sessions. keeps_page. Qed.
Lemma keeps_findSession o : keeps I (findSession o).
Proof. unfold findSession. keeps_page. apply keeps_find_page. keeps_page. Qed.
#[local] Hint Resolve keeps_usable keeps_findSession : keeps_index.

(** The three writers of the index. *)
Lemma keeps_persist a r act f : keeps I (persistSession t a r act f).
Proof.
  unfold persistSession. apply keeps_bind; [auto with keeps_index|intros n].
  apply (keeps_bind_ends _ wf_session); [apply keeps_lift|apply ends_lift; by apply session_of_token_wf|].
  intros s Hs. cbv zeta. apply keeps_read_bind. intros l Hl Hu.
  apply keeps_bind; [keeps_page|intros _].
  apply keeps_bind; [|keeps_page].
  apply (pi_write _ _ _ HI); [|by apply (pi_replace _ _ _ HI)]. apply Forall_app. split; [by apply without_id_wf|by constructor].
Qed.

Lemma keeps_removeSession id : keeps I (removeSession t id).
Proof.
  unfold removeSession. apply keeps_bind; [auto with keeps_index|intros o]. apply keeps_read_bind. intros l Hl Hu.
  apply keeps_bind; [apply (pi_write _ _ _ HI); [by apply without_id_wf|by apply (pi_without _ _ _ HI)]|]. keeps_page.
Qed.
#[local] Hint Resolve keeps_persist keeps_removeSession : keeps_index.

Lemma keeps_migrate : keeps I (migrateLegacySessions t).
Proof.
  unfold migrateLegacySessions, migrate_candidate. apply keeps_bind; [apply keeps_query|intros d]. destruct d; [done|].
  apply keeps_bind; [apply (pi_tab _ _ _ HI)|intros _].
  apply keeps_for_each. intros [[k k'] m] Hin.
  assert (k <> SESSION_INDEX_KEY /\ k' <> SESSION_INDEX_KEY) as [Hk Hk'].
  { by destruct Hin as [[= <- <- _]|[[= <- <- _]|[[= <- <- _]|[]]]]. }
  keeps_page.
Qed.
#[local] Hint Resolve keeps_migrate : keeps_index.

Lemma keeps_current : keeps I (currentSession t).
Proof. unfold currentSession. keeps_page. Qed.
#[local] Hint Resolve keeps_current : keeps_index.

Lemma keeps_sync : keeps I (syncCurrentSession t).
Proof.
  unfold syncCurrentSession. apply keeps_bind; [auto with keeps_index|intros [s|]]; [|done].
  apply keeps_bind; [auto with keeps_index|intros [token|]]; [|done]. destruct token; [done|].
  apply keeps_catch; [|done]. apply keeps_bind; [auto with keeps_index|intros response].
  destruct (negb _); [done|]. apply keeps_bind; [unfold json_body; auto with keeps_index|intros data].
  cbv zeta. destruct (omap mode_of_name _) as [|m0 ms]; [done|]. apply keeps_read_bind. intros l Hl Hu.
  apply keeps_bind; [|keeps_page].
  apply (pi_write _ _ _ HI); [apply Forall_app; split; [by apply without_id_wf|constructor; [apply synced_wf|done]]|].
  exact (pi_replace _ _ _ HI (synced s (as_string (field data "email")) m0 (m0 :: ms)) l Hu).
Qed.
#[local] Hint Resolve keeps_sync : keeps_index.

Lemma keeps_setTokens a r : keeps I (setTokens t a r).
Proof. unfold setTokens. keeps_page. Qed.
#[local] Hint Resolve keeps_setTokens : keeps_index.
Lemma keeps_persist_answer body : keeps I (persist_answer t body).
Proof. unfold persist_answer. keeps_page. Qed.
#[local] Hint Resolve keeps_persist_answer : keeps_index.
Lemma keeps_refreshSession polls stale : keeps I (refreshSession polls t stale).
Proof.
  unfold refreshSession, refresh_subject, withRefreshLock, refresh_task, refresh_answered, json_body, getRefreshToken.
  keeps_page; apply keeps_find_page; keeps_page.
Qed.
#[local] Hint Resolve keeps_refreshSession : keeps_index.
Lemma keeps_getToken : keeps I (getToken t).
Proof. unfold getToken. keeps_page. Qed.
#[local] Hint Resolve keeps_getToken : keeps_index.
Lemma keeps_api_request path o : keeps I (api_request t path o).
Proof. unfold api_request. keeps_page. Qed.
#[local] Hint Resolve keeps_api_request : keeps_index.
Lemma keeps_api polls path o : keeps I (api polls t path o).
Proof. unfold api. keeps_page. Qed.
Lemma keeps_restore polls : keeps I (restoreSession polls t).
Proof. unfold restoreSession, token_usable. keeps_page. Qed.
#[local] Hint Resolve keeps_api keeps_restore : keeps_index.

Lemma keeps_task polls k : keeps I (run_task polls t k).
Proof.
  destruct k; cbn [run_task];
    unfold getStoredSessions, activateSession, switchAppMode, logoutSession, clearTokens, verifyOtp, getRefreshToken;
    keeps_page.
Qed.

Lemma keeps_run_page polls ks : keeps I (run_page polls t ks).
Proof. apply keeps_for_each. intros k _. apply keeps_catch; [apply keeps_task|done]. Qed.
End pages.

(* ------------------------------------------------------------------ *)
(** ** One entry per account *)

(** The index has at most one entry per account. *)
Definition index_unique (b : Browser) : Prop := unique (index b).

(** Steps that leave the index alone. *)
Definition same_index : Browser -> Browser -> Prop := same_on (fun b => br_local b !! SESSION_INDEX_KEY).

Lemma keeps_same_index {A} (p : page A) : guar same_index p -> keeps index_unique p.
Proof.
  apply keeps_guar. intros b b' Hu E. unfold index_unique, index. by rewrite E.
Qed.

Lemma index_keeps_write l : Forall wf_session l -> unique l -> keeps index_unique (writeSessionIndex l).
Proof.
  intros Hw Hu b _. cbn. split; [|by exists 0%nat].
  unfold index_unique, index. cbn. rewrite lookup_insert_eq. by rewrite index_reads_back.
Qed.
Lemma index_keeps_set k v : k <> SESSION_INDEX_KEY -> keeps index_unique (setItem k v).
Proof.
  intros Hk. apply keeps_same_index. intros b. split; [|exact I]. unfold same_index, same_on. cbn.
  by rewrite lookup_insert_ne.
Qed.
Lemma index_keeps_remove k : k <> SESSION_INDEX_KEY -> keeps index_unique (removeItem k).
Proof.
  intros Hk. apply keeps_same_index. intros b. split; [|exact I]. unfold same_index, same_on. cbn.
  by rewrite lookup_delete_ne.
Qed.

(** Steps outside the storage of the origin. *)
Lemma index_keeps_tab {A} (f : Browser -> Browser) (g : Browser -> A) :
  (forall b, br_local (f b) = br_local b) -> keeps index_unique (Act (fun b => (f b, g b)) Ret).
Proof.
  intros Hf. apply keeps_same_index. intros b. split; [|exact I]. unfold same_index, same_on. cbn. by rewrite Hf.
Qed.
Lemma index_keeps_now : keeps index_unique now_ms.
Proof. by apply (index_keeps_tab (fun b => b <| br_tick ::= S |>)). Qed.
Lemma index_keeps_release n : keeps index_unique (release n).
Proof. by apply (index_keeps_tab (fun b => b <| br_locks ::= _ |>)). Qed.
Lemma index_keeps_joinOrStart t id : keeps index_unique (joinOrStart t id).
Proof.
  apply keeps_same_index. intros b. cbn. destruct (tab_refreshPromises _ !! id); (split; [|exact I]); reflexivity.
Qed.
Lemma index_keeps_fetch q : keeps index_unique (fetch q).
Proof.
  apply keeps_same_index. intros b. split; [reflexivity|]. cbn. intros b2.
  destruct (answer q (br_tick b2)); (split; [reflexivity|done]).
Qed.
Lemma index_keeps_acquire polls t n : keeps index_unique (acquire polls t n).
Proof.
  apply keeps_same_index. induction polls as [|k IH]; [done|]. cbn [acquire]. intros b.
  destruct (lock_held b n); (split; [reflexivity|]); cbn; [exact IH|done].
Qed.

Lemma index_page_invariant t : page_invariant index_unique unique t.
Proof.
  split.
  - apply unique_without.
  - apply unique_replace.
  - done.
  - apply index_keeps_write.
  - apply index_keeps_set.
  - apply index_keeps_remove.
  - intros f. by apply (index_keeps_tab (on_tab t f)).
  - apply index_keeps_joinOrStart.
  - apply index_keeps_now.
  - apply index_keeps_fetch.
  - apply index_keeps_acquire.
  - apply index_keeps_release.
Qed.
End store.


(** Whatever the pages of the tabs do and however they interleave, the
    index holds at most one entry per account, and every entry has a default
    among its modes. *)
Theorem index_one_entry `{Web} polls (b : Browser) (pages : list (nat * list task)) c :
  json_reads_back ->
  index_unique b ->
  rtc pool_step (b, map (fun p => run_page polls p.1 p.2) pages) c ->
  NoDup (map ss_id (index c.1)) /\ Forall wf_session (index c.1).
Proof.
  intros Hc Hb Hr. split; [|apply parse_index_wf].
  apply (pool_keeps index_unique _ c Hr Hb). apply Forall_fmap, Forall_true. intros p. apply (keeps_run_page _ _ _ (index_page_invariant Hc p.1)).
Qed.

(* ------------------------------------------------------------------ *)
(** ** The identity of a tab *)

Section isolation.
Context `{Web} (t' : nat) (v : gmap string string).

(** The tab [t'] has the session storage [v]. *)
Definition tab_shows (b : Browser) : Prop := tab_session (tab_of b t') = v.

Lemma tab_of_other t f b : t <> t' -> tab_of (on_tab t f b) t' = tab_of b t'.
Proof. intros Hne. unfold tab_of, on_tab. cbn. by rewrite lookup_insert_ne. Qed.

Lemma shows_same {A} (p : page A) : guar (same_on br_tabs) p -> keeps tab_shows p.
Proof. apply keeps_guar. intros b b' Hb E. unfold tab_shows, tab_of in *. by rewrite E. Qed.

Lemma shows_local f : keeps tab_shows (Act (fun b => (b <| br_local ::= f |>, tt)) Ret).
Proof. apply shows_same. intros b. by split. Qed.

Lemma shows_page_invariant t : t <> t' -> page_invariant tab_shows (fun _ => True) t.
Proof.
  intros Hne. split; try done.
  - intros l _ _. apply shows_local.
  - intros k x _. apply shows_local.
  - intros k _. apply shows_local.
  - intros f b Hb. cbn. split; [|by exists 0%nat]. unfold tab_shows. by rewrite tab_of_other.
  - intros id b Hb. cbn. destruct (tab_refreshPromises _ !! id); cbn; (split; [|by exists 0%nat]); [done|].
    unfold tab_shows. by rewrite tab_of_other.
  - apply shows_same. intros b. by split.
  - intros q. apply shows_same. intros b. split; [done|]. cbn. intros b2. by destruct (answer q (br_tick b2)).
  - intros polls t0 n. apply shows_same. induction polls as [|k IH]; [done|]. cbn [acquire]. intros b.
    destruct (lock_held b n); (split; [reflexivity|]); cbn; [exact IH|done].
  - intros n. apply shows_same. intros b. by split.
Qed.
End isolation.

(** The account and the mode a tab shows are its own: whatever the pages of
    the other tabs do, in any interleaving, the session storage of the tab
    stays. *)
Theorem tab_identity_isolated `{Web} polls (b : Browser) (pages : list (nat * list task)) c t :
  Forall (fun p => p.1 <> t) pages ->
  rtc pool_step (b, map (fun p => run_page polls p.1 p.2) pages) c ->
  tab_session (tab_of c.1 t) = tab_session (tab_of b t).
Proof.
  intros HF Hr. apply (pool_keeps (tab_shows t _) _ c Hr eq_refl). apply Forall_fmap.
  eapply Forall_impl; [exact HF|]. intros [t0 ks] Hne. cbn.
  by apply (keeps_run_page _ _ _ (shows_page_invariant t _ t0 Hne)).
Qed.

(* ------------------------------------------------------------------ *)
(** ** Which account a tab shows *)

Section identity.
Context `{Web}.

Definition has_token (b : Browser) (s : StoredSession) : bool := truthy (br_local b !! sessionAccessKey (ss_id s)).

(** [findSession] on a browser. *)
Definition found (b : Browser) (id : option string) : option StoredSession :=
  id ≫= fun i => if i ==? "" then None
                 else List.find (fun s => if ss_id s ==? i then has_token b s else false) (index b).

Lemma run_find_page {A} (p : A -> page bool) (f : A -> bool) b xs :
  (forall x, run (p x) b = (b, Ok (f x))) -> run (find_page p xs) b = (b, Ok (List.find f xs)).
Proof.
  intros Hp. induction xs as [|x xs IH]; [done|]. cbn [find_page List.find].
  rewrite run_bind, Hp. by destruct (f x).
Qed.

Lemma run_filter_page {A} (p : A -> page bool) (f : A -> bool) b xs :
  (forall x, run (p x) b = (b, Ok (f x))) -> run (filter_page p xs) b = (b, Ok (List.filter f xs)).
Proof.
  intros Hp. induction xs as [|x xs IH]; [done|]. cbn [filter_page List.filter].
  rewrite run_bind, Hp, run_bind, IH. by destruct (f x).
Qed.

Lemma run_index b : run readSessionIndex b = (b, Ok (index b)).
Proof. done. Qed.
Lemma run_getItem k b : run (getItem k) b = (b, Ok (br_local b !! k)).
Proof. done. Qed.
Lemma run_tabGetItem t k b : run (tabGetItem t k) b = (b, Ok (tab_session (tab_of b t) !! k)).
Proof. done. Qed.
Lemma run_modeForPage t b : run (modeForPage t) b = (b, Ok (modeForPath (tab_path (tab_of b t)))).
Proof. done. Qed.

Lemma run_findSession id b : run (findSession id) b = (b, Ok (found b id)).
Proof.
  unfold findSession, found. destruct id as [i|]; [|done]. cbn [mbind option_bind]. destruct (i ==? ""); [done|].
  rewrite run_bind, run_index. apply run_find_page.
  intros s. by destruct (ss_id s ==? i).
Qed.

Definition usable (b : Browser) : list StoredSession :=
  stable_sort (fun x y => ss_updatedAt y <? ss_updatedAt x) (List.filter (has_token b) (index b)).

Lemma run_usable b : run usable_sessions b = (b, Ok (usable b)).
Proof.
  unfold usable_sessions. by rewrite run_bind, run_index, run_bind, (run_filter_page _ (has_token b)).
Qed.

Lemma usable_In b s : In s (usable b) <-> In s (index b) /\ has_token b s = true.
Proof.
  unfold usable. rewrite <- filter_In. pose proof (stable_sort_Permutation (fun x y : StoredSession => ss_updatedAt y <? ss_updatedAt x)
    (List.filter (has_token b) (index b))) as Hp. split; apply Permutation_in; [done|by symmetry].
Qed.

Lemma found_usable b id s : found b id = Some s -> In s (usable b) /\ id = Some (ss_id s).
Proof.
  unfold found. destruct id as [i|]; [|done]. cbn. destruct (i ==? ""); [done|].
  intros [Hin Ht]%find_In. destruct (ss_id s ==? i) eqn:E; [|done]. apply bool_decide_eq_true in E.
  split; [by apply usable_In|congruence].
Qed.

(** The account a tab has selected, if it is still usable. *)
Definition active (b : Browser) (t : nat) : option StoredSession :=
  found b (tab_session (tab_of b t) !! ACTIVE_SESSION_KEY).

(** The account chosen for a tab without one. *)
Definition chosen (b : Browser) (required : option AppMode) : option StoredSession :=
  match required with
  | Some mode => nullish2 (found b (br_local b !! lastModeKey mode) ≫= fun s => if has_mode mode s then Some s else None)
                   (List.find (has_mode mode) (usable b))
  | None => nullish2 (found b (br_local b !! LAST_SESSION_KEY)) (head (usable b))
  end.

(** The tab with its choice. *)
Definition selected (b : Browser) (t : nat) (required : option AppMode) (s : StoredSession) : Browser :=
  let b1 := on_tab t (fun x => x <| tab_session ::= insert ACTIVE_SESSION_KEY (ss_id s) |>) b in
  match required with
  | Some mode => on_tab t (fun x => x <| tab_session ::= insert ACTIVE_MODE_KEY (AppMode_name mode) |>) b1
  | None => b1
  end.

(** What [currentSession] answers once the earlier versions are migrated. *)
Definition current (b : Browser) (t : nat) : Browser * result (option StoredSession) :=
  match active b t with
  | Some s => (b, Ok (Some s))
  | None => let required := modeForPath (tab_path (tab_of b t)) in
            match chosen b required with
            | Some s => (selected b t required s, Ok (Some s))
            | None => (b, Ok None)
            end
  end.

Lemma run_current_migrate b t :
  run (currentSession t) b =
    match run (migrateLegacySessions t) b with
    | (b0, Ok _) => current b0 t
    | (b0, Err e) => (b0, Err e)
    end.
Proof.
  unfold currentSession. rewrite run_bind. destruct (run (migrateLegacySessions t) b) as [b0 [u|e]]; [|done]. clear b.
  unfold current. rename b0 into b.
  rewrite run_bind, run_usable, run_bind, run_modeForPage, run_bind, run_tabGetItem, run_bind, run_findSession. fold (active b t). destruct (active b t) as [s|]; [done|].
  cbv zeta. destruct (modeForPath _) as [m|]; unfold chosen.
  - rewrite run_bind, run_getItem, run_bind, run_findSession.
    by destruct (nullish2 _ _).
  - rewrite run_bind, run_getItem, run_bind, run_findSession.
    by destruct (nullish2 _ _).
Qed.

Lemma run_current b t :
  tab_migrated (tab_of b t) = true -> run (currentSession t) b = current b t.
Proof.
  intros Hm. rewrite run_current_migrate.
  assert (run (migrateLegacySessions t) b = (b, Ok tt)) as ->; [|done].
  unfold migrateLegacySessions. by rewrite run_bind, run_query, Hm.
Qed.

Lemma chosen_usable b required s :
  chosen b required = Some s -> In s (usable b) /\ (forall m, required = Some m -> has_mode m s = true).
Proof.
  destruct required as [m|]; cbn [chosen].
  - destruct (found b _) as [x|] eqn:E; cbn [mbind option_bind].
    + destruct (has_mode m x) eqn:Em; cbn [nullish2].
      * intros [= <-]. split; [by apply found_usable in E as [? _]|]. by intros ? [= <-].
      * intros [Hin Hs]%find_In. split; [done|]. by intros ? [= <-].
    + intros [Hin Hs]%find_In. split; [done|]. by intros ? [= <-].
  - destruct (found b _) as [x|] eqn:E; cbn [nullish2].
    + intros [= <-]. split; [by apply found_usable in E as [? _]|done].
    + intros Hh. split; [|done]. destruct (usable b); [done|]. injection Hh as <-. by left.
Qed.

Lemma chosen_none b required s :
  chosen b required = None -> In s (usable b) -> exists m, required = Some m /\ has_mode m s = false.
Proof.
  destruct required as [m|]; cbn [chosen].
  - intros Hn Hin. exists m. split; [done|]. destruct (found b _ ≫= _); [done|]. cbn [nullish2] in Hn.
    exact (List.find_none _ _ Hn s Hin).
  - destruct (found b _); [done|]. cbn. by destruct (usable b).
Qed.

Lemma tab_of_same t f b : tab_of (on_tab t f b) t = f (tab_of b t).
Proof. unfold tab_of at 1, on_tab. cbn. by rewrite lookup_insert_eq. Qed.

Lemma selected_active b t required s :
  tab_session (tab_of (selected b t required s) t) !! ACTIVE_SESSION_KEY = Some (ss_id s).
Proof.
  unfold selected. destruct required as [m|]; rewrite ?tab_of_same;
    [change (<[ACTIVE_MODE_KEY := AppMode_name m]> (<[ACTIVE_SESSION_KEY := ss_id s]> (tab_session (tab_of b t)))
               !! ACTIVE_SESSION_KEY = Some (ss_id s)); rewrite lookup_insert_ne by done
    |change (<[ACTIVE_SESSION_KEY := ss_id s]> (tab_session (tab_of b t)) !! ACTIVE_SESSION_KEY = Some (ss_id s))];
    apply lookup_insert_eq.
Qed.

Lemma selected_local b t required s : br_local (selected b t required s) = br_local b.
Proof. by destruct required. Qed.

(** The account shown is one of the usable ones. *)
Lemma current_usable b t b1 s :
  run (currentSession t) b = (b1, Ok (Some s)) -> In s (usable b1).
Proof.
  rewrite run_current_migrate. destruct (run (migrateLegacySessions t) b) as [b0 [u|e]]; [|done]. unfold current.
  destruct (active b0 t) as [x|] eqn:Ea.
  - intros [= <- <-]. by apply found_usable in Ea as [? _].
  - cbv zeta. destruct (chosen b0 _) as [x|] eqn:Ec; [|done]. intros [= <- <-].
    apply chosen_usable in Ec as [Hin _]. rewrite usable_In in *. unfold index, has_token in *. by rewrite selected_local.
Qed.

(** With one entry per identifier, [findSession] finds every usable account. *)
Lemma usable_found b s : index_unique b -> ss_id s <> "" -> In s (usable b) -> found b (Some (ss_id s)) = Some s.
Proof.
  intros Hu Hne [Hin Ht]%usable_In. unfold found. cbn. rewrite bool_decide_eq_false_2 by done.
  destruct (List.find _ (index b)) as [x|] eqn:E.
  - apply find_In in E as [Hx Hp]. destruct (ss_id x ==? ss_id s) eqn:Ei; [|done]. apply bool_decide_eq_true in Ei.
    f_equal. by eapply NoDup_map_inj.
  - pose proof (List.find_none _ _ E s Hin) as Hn. cbv beta in Hn. by rewrite bd_refl, Ht in Hn.
Qed.
End identity.

(** the account a tab shows.  The selected account is kept as long as it is
    saved and has a token, whatever the page asks for; otherwise an account is
    selected that is saved, has a token and has the mode of the page, and stays
    selected; only when there is none the tab has no account. *)
Theorem currentSession_spec `{Web} b t :
  tab_migrated (tab_of b t) = true ->
  let required := modeForPath (tab_path (tab_of b t)) in
  let '(b', r) := run (currentSession t) b in
  br_local b' = br_local b /\
  match active b t with
  | Some s => r = Ok (Some s) /\ b' = b
  | None =>
      match r with
      | Ok (Some s) => In s (index b) /\ has_token b s = true /\ wf_session s /\
                       (forall m, required = Some m -> has_mode m s = true) /\
                       tab_session (tab_of b' t) !! ACTIVE_SESSION_KEY = Some (ss_id s)
      | Ok None => b' = b /\ forall s, In s (index b) -> has_token b s = true ->
                     exists m, required = Some m /\ has_mode m s = false
      | Err _ => False
      end
  end.
Proof.
  intros Hm. cbv zeta. rewrite run_current by done. unfold current. destruct (active b t) as [s|]; [done|]. cbv zeta.
  destruct (chosen b _) as [s|] eqn:Ec.
  - rewrite selected_local. split; [done|]. destruct (chosen_usable _ _ _ Ec) as [[Hi Ht]%usable_In Hr].
    split; [done|]. split; [done|]. split; [|split; [done|apply selected_active]].
    pose proof (parse_index_wf (br_local b !! SESSION_INDEX_KEY)) as Hw. rewrite Forall_forall in Hw.
    apply Hw. by apply list_elem_of_In.
  - split; [done|]. split; [done|]. intros s Hi Ht. eapply chosen_none; [exact Ec|]. by apply usable_In.
Qed.

(* ------------------------------------------------------------------ *)
(** ** Logout *)

Section logout.
Context `{Web}.

Lemma includes_cons (m m' : AppMode) ms : includes (m :: ms) m' = bool_decide (m' = m) || includes ms m'.
Proof. unfold includes. cbn. f_equal. by apply bool_decide_ext. Qed.

Lemma lastModeKey_inj m m' : lastModeKey m = lastModeKey m' -> m = m'.
Proof. by destruct m, m'. Qed.

(** The tabs and the storage outside the pointers of the modes are the same. *)
Definition same_but_modes (b b' : Browser) : Prop :=
  br_tabs b' = br_tabs b /\ forall k, (forall m, k <> lastModeKey m) -> br_local b' !! k = br_local b !! k.

(** The pointers of the modes [ms] that name [id] are dropped, the others kept. *)
Definition pointers_forgotten (ms : list AppMode) (id : string) (b b' : Browser) : Prop :=
  forall m, br_local b' !! lastModeKey m =
    if (br_local b !! lastModeKey m ==? Some id) && includes ms m then None else br_local b !! lastModeKey m.

Lemma run_forget ms id b :
  exists b', run (forget_modes ms id) b = (b', Ok tt) /\ same_but_modes b b' /\ pointers_forgotten ms id b b'.
Proof.
  revert b. induction ms as [|m ms IH]; intros b.
  { exists b. split_and!; [done..|]. intros m. by rewrite andb_false_r. }
  unfold forget_modes. cbn [for_each]. rewrite run_bind, run_bind, run_getItem.
  destruct (br_local b !! lastModeKey m ==? Some id) eqn:E.
  - destruct (IH (b <| br_local ::= base.delete (lastModeKey m) |>)) as (b' & Hr & [Ht Hk] & Hp). exists b'. split; [exact Hr|].
    split; [split; [exact Ht|]|].
    + intros k Hne. rewrite Hk by done. cbn. rewrite lookup_delete_ne; [done|]. intros Ek. by apply (Hne m).
    + intros m'. rewrite (Hp m'). cbn [br_local set]. destruct (decide (m = m')) as [<-|Hne].
      * change (br_local (b <| br_local ::= base.delete (lastModeKey m) |>)) with (base.delete (lastModeKey m) (br_local b)).
        rewrite lookup_delete_eq, E, includes_cons, bd_refl. done.
      * change (br_local (b <| br_local ::= base.delete (lastModeKey m) |>)) with (base.delete (lastModeKey m) (br_local b)).
        rewrite lookup_delete_ne by (by intros ?%lastModeKey_inj). rewrite includes_cons. by rewrite (bool_decide_eq_false_2 (m' = m)) by done.
  - destruct (IH b) as (b' & Hr & Hs & Hp). exists b'. split; [exact Hr|]. split; [exact Hs|]. intros m'. rewrite (Hp m').
    destruct (decide (m' = m)) as [->|Hne]; [by rewrite E|]. rewrite includes_cons. by rewrite (bool_decide_eq_false_2 (m' = m)) by done.
Qed.

(** The request of a logout changes nothing here, whether it succeeds or not. *)
Lemma run_send_logout q b :
  exists b', run (catch (do* fetch q in Ret tt) (fun _ => Ret tt)) b = (b', Ok tt) /\
    br_local b' = br_local b /\ br_tabs b' = br_tabs b.
Proof.
  rewrite run_catch, run_bind. unfold fetch. rewrite run_bind. cbn -[act]. rewrite run_act. cbn.
  destruct (answer q (br_tick b)); cbn; (eexists; split; [reflexivity|done]).
Qed.

(** What [removeSession] leaves. *)
Record forgotten (t : nat) (id : string) (b b' : Browser) : Prop := {
  fg_index : index b' = without_id id (index b);
  fg_access : br_local b' !! sessionAccessKey id = None;
  fg_refresh : br_local b' !! sessionRefreshKey id = None;
  fg_others id' : id' <> id ->
    br_local b' !! sessionAccessKey id' = br_local b !! sessionAccessKey id' /\
    br_local b' !! sessionRefreshKey id' = br_local b !! sessionRefreshKey id';
  fg_last : br_local b' !! LAST_SESSION_KEY <> Some id;
  fg_modes : pointers_forgotten (nullish (ss_modes <$> found b (Some id)) []) id b b';
  fg_active : tab_session (tab_of b' t) !! ACTIVE_SESSION_KEY <> Some id
}.

Lemma access_inj : Inj (=) (=) sessionAccessKey.
Proof.
  intros a b E. apply (str_app_inv_head "sp_session_") in E. by apply str_app_inv_tail in E as [E _].
Qed.
Lemma access_not_refresh id id' : sessionAccessKey id <> sessionRefreshKey id'.
Proof. apply SessionTabs.access_key_other. Qed.
Lemma access_not_last id : sessionAccessKey id <> LAST_SESSION_KEY.
Proof. done. Qed.
Lemma refresh_not_last id : sessionRefreshKey id <> LAST_SESSION_KEY.
Proof. done. Qed.
Lemma access_not_mode id m : sessionAccessKey id <> lastModeKey m.
Proof. by destruct m. Qed.
Lemma refresh_not_mode id m : sessionRefreshKey id <> lastModeKey m.
Proof. by destruct m. Qed.
Lemma last_not_mode m : LAST_SESSION_KEY <> lastModeKey m.
Proof. by destruct m. Qed.

(** The storage of the origin without an account, but for the pointers of the
    modes; the session storage of a tab without it. *)
Definition forget_local (b : Browser) (id : string) : gmap string string :=
  let m := base.delete (sessionRefreshKey id) (base.delete (sessionAccessKey id)
             (<[SESSION_INDEX_KEY := printJson (JArr (map session_json (without_id id (index b))))]> (br_local b))) in
  if br_local b !! LAST_SESSION_KEY ==? Some id then base.delete LAST_SESSION_KEY m else m.

Definition forget_tab (b : Browser) (t : nat) (id : string) : Browser :=
  if tab_session (tab_of b t) !! ACTIVE_SESSION_KEY ==? Some id
  then on_tab t (fun x => x <| tab_session ::= base.delete ACTIVE_SESSION_KEY |>) b else b.

Lemma run_remove t id b :
  exists b', run (removeSession t id) b = (b', Ok tt) /\
    let b5 := (forget_tab b t id) <| br_local := forget_local b id |> in
    same_but_modes b5 b' /\ pointers_forgotten (nullish (ss_modes <$> found b (Some id)) []) id b5 b'.
Proof.
  unfold removeSession. rewrite run_bind, run_findSession, run_bind, run_index.
  set (m := base.delete (sessionRefreshKey id) (base.delete (sessionAccessKey id)
             (<[SESSION_INDEX_KEY := printJson (JArr (map session_json (without_id id (index b))))]> (br_local b)))).
  set (b3 := b <| br_local := m |>).
  assert (forall A (k : page A), run (do* writeSessionIndex (without_id id (index b)) in
      do* removeItem (sessionAccessKey id) in do* removeItem (sessionRefreshKey id) in k) b = run k b3) as Hw by done.
  rewrite Hw. rewrite run_bind, run_tabGetItem, run_bind.
  change (tab_session (tab_of b3 t)) with (tab_session (tab_of b t)).
  set (b4 := (forget_tab b t id) <| br_local := m |>).
  assert (run (if tab_session (tab_of b t) !! ACTIVE_SESSION_KEY ==? Some id
               then tabRemoveItem t ACTIVE_SESSION_KEY else Ret tt) b3 = (b4, Ok tt)) as ->.
  { unfold b4, forget_tab. by destruct (_ ==? _). }
  rewrite run_bind, run_getItem, run_bind.
  assert (br_local b4 !! LAST_SESSION_KEY = br_local b !! LAST_SESSION_KEY) as ->.
  { unfold b4, m. cbn. rewrite lookup_delete_ne by (intros E; by apply (refresh_not_last id)).
    rewrite lookup_delete_ne by (intros E; by apply (access_not_last id)). by rewrite lookup_insert_ne. }
  set (b5 := (forget_tab b t id) <| br_local := forget_local b id |>).
  assert (run (if br_local b !! LAST_SESSION_KEY ==? Some id then removeItem LAST_SESSION_KEY else Ret tt) b4
          = (b5, Ok tt)) as ->.
  { unfold b5, forget_local. fold m. by destruct (_ ==? _). }
  destruct (found b (Some id)) as [s|]; [apply run_forget|]. exists b5. split_and!; [done..|].
  intros m'. by rewrite andb_false_r.
Qed.

Context (codec : json_reads_back).

Lemma remove_forgets t id b b' :
  let b5 := (forget_tab b t id) <| br_local := forget_local b id |> in
  same_but_modes b5 b' -> pointers_forgotten (nullish (ss_modes <$> found b (Some id)) []) id b5 b' ->
  forgotten t id b b'.
Proof.
  intros b5 [Ht Hk] Hp.
  assert (forall k, (forall m, k <> lastModeKey m) -> br_local b' !! k = forget_local b id !! k) as Hloc by (by intros k ->%Hk).
  assert (forall k, k <> LAST_SESSION_KEY -> forget_local b id !! k =
    base.delete (sessionRefreshKey id) (base.delete (sessionAccessKey id)
      (<[SESSION_INDEX_KEY := printJson (JArr (map session_json (without_id id (index b))))]> (br_local b))) !! k) as Hf.
  { intros k Hne. unfold forget_local. destruct (_ ==? _); [by rewrite lookup_delete_ne|done]. }
  split.
  - unfold index at 1. rewrite Hloc, Hf by done.
    rewrite !lookup_delete_ne, lookup_insert_eq by (apply refresh_not_index || apply access_not_index).
    apply index_reads_back; [exact codec|]. apply without_id_wf, parse_index_wf.
  - rewrite Hloc, Hf by (apply access_not_mode || apply access_not_last).
    rewrite lookup_delete_ne by (intros E; by apply (access_not_refresh id id)). apply lookup_delete_eq.
  - rewrite Hloc, Hf by (apply refresh_not_mode || apply refresh_not_last). apply lookup_delete_eq.
  - intros id' Hne. split.
    + rewrite Hloc, Hf by (apply access_not_mode || apply access_not_last).
      rewrite !lookup_delete_ne, lookup_insert_ne; [done|..].
      * intros E. by apply (access_not_index id').
      * intros E. apply Hne. by apply access_inj.
      * intros E. by apply (access_not_refresh id' id).
    + rewrite Hloc, Hf by (apply refresh_not_mode || apply refresh_not_last).
      rewrite !lookup_delete_ne, lookup_insert_ne; [done|..].
      * intros E. by apply (refresh_not_index id').
      * intros E. by apply (access_not_refresh id id').
      * intros E. apply Hne. by apply SessionTabs.sessionRefreshKey_inj.
  - rewrite Hloc by apply last_not_mode. unfold forget_local. destruct (_ ==? _) eqn:E.
    + by rewrite lookup_delete_eq.
    + apply bool_decide_eq_false in E. rewrite !lookup_delete_ne, lookup_insert_ne; [done|done|..].
      * intros E2. by apply (access_not_last id).
      * intros E2. by apply (refresh_not_last id).
  - intros m. rewrite (Hp m).
    assert (br_local b5 !! lastModeKey m = br_local b !! lastModeKey m) as ->; [|done].
    change (br_local b5) with (forget_local b id). rewrite Hf by (intros E; by apply (last_not_mode m)).
    rewrite !lookup_delete_ne, lookup_insert_ne; [done|by destruct m|..]; intros E; symmetry in E.
    + by apply (access_not_mode id m).
    + by apply (refresh_not_mode id m).
  - unfold tab_of. rewrite Ht. change (br_tabs b5) with (br_tabs (forget_tab b t id)).
    fold (tab_of (forget_tab b t id) t). unfold forget_tab. destruct (_ ==? _) eqn:E.
    + rewrite tab_of_same.
      change (base.delete ACTIVE_SESSION_KEY (tab_session (tab_of b t)) !! ACTIVE_SESSION_KEY <> Some id).
      by rewrite lookup_delete_eq.
    + by apply bool_decide_eq_false in E.
Qed.

Lemma run_logout t b b1 s :
  run (currentSession t) b = (b1, Ok (Some s)) ->
  exists b2 b', br_local b2 = br_local b1 /\ br_tabs b2 = br_tabs b1 /\
    run (logoutSession t) b = (b', Ok tt) /\ forgotten t (ss_id s) b2 b'.
Proof.
  intros Hc. unfold logoutSession. rewrite run_bind, Hc, run_bind. unfold getRefreshToken. rewrite run_getItem, run_bind.
  set (o := br_local b1 !! sessionRefreshKey (ss_id s)). destruct (truthy o).
  - set (q := mkRequest _ _ _ _). destruct (run_send_logout q b1) as (b2 & -> & Hl & Ht).
    destruct (run_remove t (ss_id s) b2) as (b' & Hr & Hs & Hp). exists b2, b'. split_and!; try done. by apply remove_forgets.
  - cbn [catch run]. destruct (run_remove t (ss_id s) b1) as (b' & Hr & Hs & Hp). exists b1, b'.
    split_and!; try done. by apply remove_forgets.
Qed.

Lemma found_without b id : index b = without_id id (index b) -> found b (Some id) = None.
Proof.
  intros E. unfold found. cbn. destruct (id ==? ""); [done|]. rewrite E.
  destruct (List.find _ _) as [s|] eqn:Ef; [|done]. apply find_In in Ef as [[_ Hn]%filter_In Hs].
  destruct (ss_id s ==? id); done.
Qed.
End logout.


(* ------------------------------------------------------------------ *)
(** ** Examples *)

Import WebDemo.

Lemma demo_codec : @json_reads_back (demo_web true).
Proof. intros j. apply parse_print. Qed.

Lemma demo_index_unique : @index_unique (demo_web true) demo_browser.
Proof.
  unfold index_unique, unique. replace (map ss_id _) with ["ada"; "bob"];
    [|vm_compute; reflexivity].
  repeat constructor; rewrite ?elem_of_cons, ?elem_of_nil; naive_solver.
Qed.

(** Two tabs of one account, one of which logs out. *)
Definition leaving_pages : list (nat * list task) := [(0%nat, [get_income]); (1%nat, [Logout])].

Lemma index_one_entry_witness :
  let c := schedule (alternate 100) (demo_browser, map (fun p => @run_page (demo_web true) 60 p.1 p.2) leaving_pages) in
  NoDup (map ss_id (@index (demo_web true) c.1)) /\ Forall wf_session (@index (demo_web true) c.1).
Proof.
  apply (@index_one_entry (demo_web true) 60 demo_browser leaving_pages).
  - exact demo_codec.
  - exact demo_index_unique.
  - apply schedule_sound.
Defined.

Lemma tab_identity_isolated_witness :
  let c := schedule (alternate 100) (demo_browser, map (fun p => @run_page (demo_web true) 60 p.1 p.2) leaving_pages) in
  tab_session (tab_of c.1 2) = tab_session (tab_of demo_browser 2).
Proof.
  apply (@tab_identity_isolated (demo_web true) 60 demo_browser leaving_pages).
  - repeat constructor; discriminate.
  - apply schedule_sound.
Defined.

(** A new tab on the page of the worker. *)
Definition new_tab : Browser :=
  demo_browser <| br_local ::= insert (lastModeKey worker) "bob" |> <| br_tabs := {[ 0%nat := mkTab ∅ "/me" true ∅ [] ]} |>.

Lemma currentSession_spec_witness :
  (run (@currentSession (demo_web true) 0) new_tab).2 = Ok (Some bob) /\
  has_token new_tab bob = true /\ wf_session bob.
Proof.
  assert ((run (@currentSession (demo_web true) 0) new_tab).2 = Ok (Some bob)) as E by (vm_compute; reflexivity).
  pose proof (@currentSession_spec (demo_web true) new_tab 0 eq_refl) as Hs. cbv zeta in Hs.
  assert (@active (demo_web true) new_tab 0 = None) as Ea by (vm_compute; reflexivity).
  rewrite Ea in Hs. revert E Hs. generalize (run (@currentSession (demo_web true) 0) new_tab). intros [b' r] E Hs.
  cbn [snd] in E. subst r. destruct Hs as (_ & _ & Ht & Hw & _). done.
Defined.


(** A logout while another tab has a renewal under way: the answer arrives
    after the logout and the account is back, with tokens the server accepts. *)
Example logout_undone_by_renewal :
  let pages := map (fun p => @run_page (demo_web true) 60 p.1 p.2) leaving_pages in
  let c := schedule (repeat 0%nat 22 ++ repeat 1%nat 80) (demo_browser, pages) in
  let c' := schedule (repeat 0%nat 80) c in
  map ss_id (@index (demo_web true) c.1) = ["bob"] /\ br_local c.1 !! sessionRefreshKey "ada" = None /\
  map ss_id (@index (demo_web true) c'.1) = ["bob"; "ada"] /\ br_local c'.1 !! sessionRefreshKey "ada" = Some "ada:3".
Proof. vm_compute. repeat split; reflexivity. Qed.

End SessionStore.
