(* ===== verification/ApiShell.v ===== *)
(** * The entrance of the API

    apps/api/src/auth/jwt-auth.guard.ts, auth.controller.ts and current-user
    (who a request is made by), common/zod.ts (the validation of bodies) and
    common/performance-context.ts (what a request spent in the database).  The
    verification of a JWT and the syntax of an e-mail address belong to the
    libraries and are the interface [Shell].  [session_pair_valid] is what the
    web client relies on (SessionTabs.TokenServer): the pair a sign-in or a
    renewal answers with belongs to one person, is new, and is accepted by the
    guard. *)

From S2P Require Import Prelude Concurrency Strings Schema Runtime Demo Auth WebSession WebDemo.

Open Scope Z_scope.

Module ApiShell.
Import AuthService.

Class Shell := {
  (** [jwt.verifyAsync(token)] at a tick: the claims, or [None] when it throws *)
  verifyJwt : string -> nat -> option json;
  (** [z.email()] *)
  isEmail : string -> bool
}.

(* ------------------------------------------------------------------ *)
(** ** Validation *)

(** [schema.safeParse(body)]: the data, or the issues with path and message. *)
Definition schema (A : Type) : Type := json -> A + list (string * string).

(** The issues are part of the response; the exception has its message. *)
Definition parseBody {A} (s : schema A) (body : json) : result A :=
  match s body with
  | inl data => Ok data
  | inr _ => Err (BadRequestException "Validation failed")
  end.

Definition json_field (o : json) (k : string) : option json := match o with JObj l => map_get l k | _ => None end.
Definition json_text (o : option json) : option string := match o with Some (JStr s) => Some s | _ => None end.
Definition json_texts (o : option json) : list string :=
  match o with Some (JArr l) => omap (fun x => json_text (Some x)) l | _ => [] end.

Section shell.
Context `{Platform} `{Environment} `{Shell}.

Definition text_issue (k : string) : string * string := (k, "Invalid input: expected string").

Definition requestOtpSchema : schema string := fun body =>
  match json_text (json_field body "email") with
  | Some email => if isEmail email then inl email else inr [("email", "Invalid email address")]
  | None => inr [text_issue "email"]
  end.

Definition verifyOtpSchema : schema (string * string) := fun body =>
  match requestOtpSchema body, json_text (json_field body "code") with
  | inl email, Some code => if (String.length code =? 6)%nat then inl (email, code) else inr [("code", "Invalid length")]
  | inr issues, _ => inr issues
  | _, None => inr [text_issue "code"]
  end.

Definition refreshSchema : schema string := fun body =>
  match json_text (json_field body "refreshToken") with
  | Some token => if (32 <=? String.length token)%nat then inl token else inr [("refreshToken", "Too small")]
  | None => inr [text_issue "refreshToken"]
  end.

(* ------------------------------------------------------------------ *)
(** ** The guard *)

Record AuthenticatedUser := mkAuthenticated {
  au_id : option string;
  au_email : option string;
  au_role : option string;
  au_modes : list string
}.

Definition invalid_token : exn := UnauthorizedException "Invalid or expired token".

(** [header?.startsWith("Bearer ") ? header.slice(7) : undefined] *)
Definition bearer_token (header : option string) : option string :=
  header ≫= fun h => if String.prefix "Bearer " h then Some (slice_from h 7) else None.

(** The user of the request; [None] on a public route. *)
Definition canActivate (isPublic : bool) (authorization : option string) : handler (option AuthenticatedUser) :=
  if isPublic then Ret None else
  let token := bearer_token authorization in
  do* throw_if (negb (truthy token)) (UnauthorizedException "Missing bearer token") in
  let* verified := ask (verifyJwt (nullish token "")) in
  let* payload := require verified invalid_token in
  do* throw_if (json_text (json_field payload "typ") !=? Some "access") invalid_token in
  Ret (Some (mkAuthenticated (json_text (json_field payload "sub")) (json_text (json_field payload "email"))
               (json_text (json_field payload "role")) (json_texts (json_field payload "modes")))).

(* ------------------------------------------------------------------ *)
(** ** The controller of the sign-in *)

Definition post_requestOtp (body : json) : handler OtpSent :=
  let* email := lift_result (parseBody requestOtpSchema body) in requestOtp email.

Definition post_verifyOtp (body : json) : handler (TokenPair * string) :=
  let* ' (email, code) := lift_result (parseBody verifyOtpSchema body) in verifyOtp email code.

Definition post_refresh (body : json) : handler TokenPair :=
  let* token := lift_result (parseBody refreshSchema body) in refresh token.

Definition post_logout (body : json) : handler bool :=
  let* token := lift_result (parseBody refreshSchema body) in logout token.

Definition get_session (authorization : option string) : handler Session :=
  let* user := canActivate false authorization in
  getSession (nullish (user ≫= au_id) "").

(* ------------------------------------------------------------------ *)
(** ** What a request spent in the database *)

Record RequestPerformanceStore := mkPerformance {
  dbDurationSumMs : Z;
  dbQueryCount : Z;
  maxDbQueryMs : Z;
  slowDbQueryCount : Z
}.

Definition createStore : RequestPerformanceStore := mkPerformance 0 0 0 0.

(** [recordQuery] on the store of the request, if there is one. *)
Definition recordQuery (durationMs slowThresholdMs : Z) (store : option RequestPerformanceStore) :
    option RequestPerformanceStore :=
  option_map (fun s =>
    mkPerformance (dbDurationSumMs s + durationMs) (dbQueryCount s + 1) (Z.max (maxDbQueryMs s) durationMs)
      (if slowThresholdMs <=? durationMs then slowDbQueryCount s + 1 else slowDbQueryCount s)) store.
End shell.

(** The counters of a request after its queries: the sum, the number, the
    longest and the number of slow ones. *)
Theorem recorded_queries threshold durations :
  fold_left (fun s d => recordQuery d threshold s) durations (Some createStore) =
    Some (mkPerformance (sumZ id durations) (Z.of_nat (length durations)) (fold_left Z.max durations 0)
            (Z.of_nat (length (List.filter (fun d => threshold <=? d) durations)))).
Proof.
  unfold createStore.
  assert (forall s n m k, fold_left (fun s d => recordQuery d threshold s) durations (Some (mkPerformance s n m k)) =
    Some (mkPerformance (s + sumZ id durations) (n + Z.of_nat (length durations)) (fold_left Z.max durations m)
            (k + Z.of_nat (length (List.filter (fun d => threshold <=? d) durations))))) as Hg.
  { induction durations as [|d ds IH]; intros s n m k; cbn [fold_left recordQuery option_map sumZ length List.filter].
    - do 2 f_equal; cbn; lia.
    - rewrite IH. cbn [dbDurationSumMs dbQueryCount maxDbQueryMs slowDbQueryCount]. unfold id.
      destruct (threshold <=? d); cbn [length]; f_equal; f_equal; lia. }
  rewrite Hg. do 2 f_equal; lia.
Qed.
(* ------------------------------------------------------------------ *)
(** ** The pair of a session *)

Section pair.
Context `{Platform} `{Environment} `{Shell}.

(** What issueTokens signs. *)
Definition access_claims (userId email role : string) (modes : list AppMode) : json :=
  JObj [("sub", JStr userId); ("email", JStr email); ("role", JStr role);
        ("modes", JArr (map (fun m => JStr (AppMode_name m)) modes)); ("typ", JStr "access")].

(** What the library makes of claims it signs with [expiresIn]: it appends the
    times of issue and of expiry. *)
Definition with_times (claims : json) (iat exp : Z) : json :=
  match claims with
  | JObj l => JObj (l ++ [("iat", JInt iat); ("exp", JInt exp)])
  | j => j
  end.

(** When the library verifies an access token, it answers with the claims that
    were signed and the two times. *)
Definition jwt_reads_back : Prop := forall u e r ms n t claims,
  verifyJwt (signJwt (access_claims u e r ms) ACCESS_TOKEN_TTL n) t = Some claims ->
  exists iat exp, claims = with_times (access_claims u e r ms) iat exp.

(** A pair for a person: the access token is signed for them with at least one
    mode, the refresh token is drawn between [w] and [w'] and stored as theirs. *)
Definition pair_for (w w' : World) (userId email role : string) (p : TokenPair) : Prop :=
  (exists modes n, modes <> [] /\ accessToken p = signJwt (access_claims userId email role modes) ACCESS_TOKEN_TTL n) /\
  (exists k, (w_tick w <= k < w_tick w')%nat /\ refreshToken p = randomToken k) /\
  (exists row, In row (w_refreshTokens w') /\ token_userId row = userId /\ token_revokedAt row = None /\
     token_tokenHash row = sha256 (refreshToken p)).

Definition known_user (w : World) (userId : string) : bool := existsb (fun u => user_id u ==? userId) (w_users w).

Lemma run_upsert_worker i userId w w' x :
  run (upsert (R:=Worker) (fun y => worker_userId y ==? userId) (fun y => y) (mkWorker i userId None)) w = (w', Ok x) ->
  w_users w' = w_users w /\ w_tick w' = w_tick w /\ existsb (fun y => worker_userId y ==? userId) (w_workers w') = true.
Proof.
  rewrite run_upsert. wcbn. destruct (List.find _ (w_workers w)) as [old|] eqn:Ef.
  - intros [= <- <-]. wcbn. split; [done|]. split; [done|]. unfold upd_where.
    rewrite (map_ext _ id) by (intros y; by destruct (worker_userId y ==? userId)). rewrite map_id.
    apply find_In in Ef as [Hin Hu]. apply existsb_exists. by exists old.
  - destruct (existsb _ _); [done|]. intros [= <- <-]. wcbn. split; [done|]. split; [done|].
    rewrite existsb_app. cbn. rewrite bd_refl. by rewrite orb_true_r.
Qed.

Lemma run_issueTokens userId email role w w' p :
  run (issueTokens userId email role) w = (w', Ok p) -> known_user w userId = true ->
  pair_for w w' userId email role p.
Proof.
  unfold issueTokens. intros E Hu. rewrite run_bind, run_freshId, run_bind in E.
  set (w0 := w <| w_tick ::= S |>) in *.
  destruct (run (upsert _ _ _) w0) as [w1 [x|e]] eqn:Eu; [|done].
  apply run_upsert_worker in Eu as (Eus & Et & Ew). rewrite run_bind, run_query in E.
  unfold known_user in Hu. rewrite Eus in E. change (w_users w0) with (w_users w) in E. rewrite Hu in E.
  rewrite run_bind, run_ask, run_bind, run_ask, run_bind, run_newDate, run_bind, run_freshId, run_bind, run_create in E.
  revert E. wcbn. match goal with |- context [if ?c then _ else _] => destruct c end; [intros [=]|]. cbn [run]. intros [= <- <-].
  assert (modes_of w1 userId <> []) as Hm by (unfold modes_of; by rewrite Ew).
  change (w_tick w0) with (S (w_tick w)) in Et. split; [|split].
  - exists (modes_of w1 userId), (w_tick w1). by split.
  - exists (S (w_tick w1)). split; [|done]. wcbn. lia.
  - eexists. split; [wcbn; apply in_or_app; right; by left|]. done.
Qed.

(** A renewal answers with a pair for the person of the presented token, which
    was not revoked. *)
Theorem refresh_pair token w w' p :
  run (refresh token) w = (w', Ok p) ->
  exists row user, In row (w_refreshTokens w) /\ token_tokenHash row = sha256 token /\ token_revokedAt row = None /\
    In user (w_users w) /\ user_id user = token_userId row /\
    pair_for w w' (user_id user) (user_email user) (GlobalRole.name (user_role user)) p.
Proof.
  unfold refresh. rewrite run_bind, run_query, run_bind, run_require. unfold token_data.
  destruct (List.find _ (w_refreshTokens w)) as [row|] eqn:Er; [|done]. cbn [option_map].
  destruct (List.find _ (w_users w)) as [user|] eqn:Eu; [|done]. cbn [option_map].
  apply find_In in Er as [Hin Hh]. apply find_In in Eu as [Huin Hu].
  apply bool_decide_eq_true in Hh. unfold by_id in Hu. apply bool_decide_eq_true in Hu. cbn in Hu.
  rewrite run_bind, run_throw_if. destruct (negb (unrevoked row)) eqn:Ev; [done|].
  apply negb_false_iff, bool_decide_eq_true in Ev.
  rewrite run_bind, run_newDate, run_bind, run_throw_if. destruct (_ <? _)%Z; [done|].
  rewrite run_bind, run_newDate, run_bind, run_newDate, run_bind, run_updateMany.
  set (w1 := set_rows _ _). rewrite run_bind, run_throw_if. destruct (negb (_ =? _)%nat); [done|]. intros E.
  assert (known_user w1 (user_id user) = true) as Hk.
  { apply existsb_exists. exists user. split; [exact Huin|apply bd_refl]. }
  pose proof (run_issueTokens _ _ _ _ _ _ E Hk) as [Ha [(k & Hlt & Hr) Hrow]].
  exists row, user. split_and!; try done.
  split; [done|]. split; [|done]. exists k. split; [|done]. change (w_tick w1) with (S (S (S (w_tick w)))) in Hlt. lia.
Qed.

Lemma texts_of_names (modes : list AppMode) :
  json_texts (Some (JArr (map (fun m => JStr (AppMode_name m)) modes))) = map AppMode_name modes.
Proof. cbn [json_texts]. induction modes as [|m ms IH]; [done|]. cbn [map]. cbn. f_equal. exact IH. Qed.

Lemma bearer_of token : bearer_token (Some ("Bearer " +:+ token)) = Some token.
Proof. unfold bearer_token. cbn. by destruct token. Qed.

Lemma run_guard token claims w :
  token <> "" -> verifyJwt token (w_tick w) = Some claims ->
  json_text (json_field claims "typ") = Some "access" ->
  run (canActivate false (Some ("Bearer " +:+ token))) w =
    (w <| w_tick ::= S |>,
     Ok (Some (mkAuthenticated (json_text (json_field claims "sub")) (json_text (json_field claims "email"))
                 (json_text (json_field claims "role")) (json_texts (json_field claims "modes"))))).
Proof.
  intros Ht Hv Hty. unfold canActivate. rewrite bearer_of. cbv zeta. rewrite run_bind, run_throw_if. cbn [truthy nullish].
  rewrite bool_decide_eq_false_2 by done. cbn [negb]. rewrite run_bind, run_ask, Hv, run_bind, run_require, run_bind, run_throw_if.
  by rewrite Hty, bd_refl.
Qed.
End pair.

(** A route that is not public is entered only with an access token: the
    header has a bearer token, the library verifies it, its type is access, and
    the user of the request is the one of its claims. *)
Theorem guard_admits `{Platform} `{Environment} `{Shell} header w w' user :
  run (canActivate false header) w = (w', Ok user) ->
  exists token claims, bearer_token header = Some token /\ token <> "" /\
    verifyJwt token (w_tick w) = Some claims /\ json_text (json_field claims "typ") = Some "access" /\
    (au_id <$> user) = Some (json_text (json_field claims "sub")) /\
    (au_modes <$> user) = Some (json_texts (json_field claims "modes")).
Proof.
  unfold canActivate. cbv zeta. rewrite run_bind, run_throw_if. destruct (bearer_token header) as [token|]; [|done].
  cbn [truthy nullish]. destruct (bool_decide (token = "")) eqn:Et; [done|]. cbn [negb].
  rewrite run_bind, run_ask, run_bind, run_require. destruct (verifyJwt token (w_tick w)) as [claims|] eqn:Ev; [|done].
  rewrite run_bind, run_throw_if. destruct (json_text (json_field claims "typ") !=? Some "access") eqn:Ety; [done|].
  rewrite run_ret. intros [= <- <-]. apply bool_decide_eq_false in Et. apply negb_false_iff, bool_decide_eq_true in Ety.
  by exists token, claims.
Qed.

(** C20: the pair a renewal answers with is valid: it is for the person the
    presented token was stored for, its refresh token is a new draw and stored
    for the same person, and as long as the library still verifies the access
    token the guard admits it as that person, with at least one mode. *)
Theorem renewed_session_accepted `{Platform} `{Environment} `{Shell} body token w w' p w2 :
  refreshSchema body = inl token ->
  run (post_refresh body) w = (w', Ok p) ->
  jwt_reads_back -> accessToken p <> "" -> verifyJwt (accessToken p) (w_tick w2) <> None ->
  exists row user modes,
    In row (w_refreshTokens w) /\ token_tokenHash row = sha256 token /\ token_revokedAt row = None /\
    In user (w_users w) /\ user_id user = token_userId row /\
    pair_for w w' (user_id user) (user_email user) (GlobalRole.name (user_role user)) p /\ modes <> [] /\
    (run (canActivate false (Some ("Bearer " +:+ accessToken p))) w2).2 =
      Ok (Some (mkAuthenticated (Some (user_id user)) (Some (user_email user)) (Some (GlobalRole.name (user_role user))) modes)).
Proof.
  intros Hs. unfold post_refresh, parseBody. rewrite Hs. cbn [lift_result bind]. intros E Hjwt Hne Hver.
  destruct (refresh_pair _ _ _ _ E) as (row & user & Hin & Hh & Hv & Hu & Hid & Hp).
  pose proof Hp as [(modes & n & Hm & Ea) _]. exists row, user, (map AppMode_name modes). split_and!; try done.
  - by destruct modes.
  - destruct (verifyJwt (accessToken p) (w_tick w2)) as [claims|] eqn:Ev; [|done].
    rewrite Ea in Ev. apply Hjwt in Ev as Ec. destruct Ec as (iat & exp & ->). rewrite <- Ea in Ev.
    rewrite (run_guard _ _ _ Hne Ev) by done. cbn [snd].
    change (json_field (with_times (access_claims _ _ _ modes) iat exp) "modes")
      with (Some (JArr (map (fun m => JStr (AppMode_name m)) modes))).
    by rewrite texts_of_names.
Qed.

(* ------------------------------------------------------------------ *)
(** ** A renewal *)

(** Long random tokens, and a library whose tokens are the printed claims with
    the tick they were signed at, and expire 900 ticks later. *)
Definition shell_platform : Platform := {|
  now t := 1000 * Z.of_nat t;
  uuid t := "id" +:+ str_of_Z (Z.of_nat t);
  randomToken t := "a-random-token-of-48-bytes-in-base64url-" +:+ str_of_Z (Z.of_nat t);
  randomCode t := 100000 + Z.of_nat t;
  sha256 s := "#" +:+ s;
  hmacSha256 k s := k +:+ "#" +:+ s;
  stringify := show_json;
  localeLt := str_lt;
  intlDate ms _ := "day" +:+ str_of_Z (ms / 86400000)
|}.

Definition shell_environment : Environment := {|
  APP_ENV := Some "staging";
  OTP_DEVCODE_DOMAINS := Some "demo.test";
  REPORT_SIGNING_KEY := Some "key";
  WEB_ORIGIN := None;
  BREVO_API_KEY := Some "brevo";
  SMTP_HOST := None;
  redisError _ := None;
  mailError _ := None;
  signJwt j _ t := "h." +:+ WebDemo.print_json j +:+ "." +:+ str_of_Z (Z.of_nat t)
|}.

Definition demo_shell : Shell := {|
  verifyJwt token t :=
    match split "." token with
    | _ :: encoded :: issued :: _ =>
        let iat := digits_value issued in
        if iat + 900 <? Z.of_nat t then None
        else (fun claims => with_times claims iat (iat + 900)) <$> WebDemo.parse_json encoded
    | _ => None
    end;
  isEmail s := String.prefix "ann@" s
|}.

#[local] Existing Instance shell_platform | 0.
#[local] Existing Instance shell_environment | 0.
#[local] Existing Instance demo_shell.

Definition signed_in_world : World :=
  Eval vm_compute in
  (run (let* _ := post_requestOtp (JObj [("email", JStr "ann@demo.test")]) in
        post_verifyOtp (JObj [("email", JStr "ann@demo.test"); ("code", JStr "100000")])) empty_world).1.

Definition ann_body : json := JObj [("refreshToken", JStr "a-random-token-of-48-bytes-in-base64url-9")].
Definition renewal : World * result TokenPair := Eval vm_compute in run (post_refresh ann_body) signed_in_world.

Definition renewed_pair : TokenPair :=
  Eval vm_compute in match renewal.2 with Ok p => p | Err _ => mkTokenPair "" "" end.

Lemma access_claims_integral u e r ms : WebSession.integral (access_claims u e r ms).
Proof. cbn. split_and!; try done. by induction ms. Qed.

Lemma no_dot_digits p : all_chars (fun a => negb (Ascii.eqb a ".")) (WebDemo.digits_of_pos p) = true.
Proof. induction p as [p IH|p IH|]; cbn; [exact IH|exact IH|done]. Qed.

Lemma split_digits p s : split "." (WebDemo.digits_of_pos p +:+ "." +:+ s) = WebDemo.digits_of_pos p :: split "." s.
Proof. exact (split_app "." _ s (no_dot_digits p)). Qed.

(** The tokens of the demo library verify to what was signed. *)
Lemma demo_jwt : jwt_reads_back.
Proof.
  intros u e r ms n t claims. cbn [verifyJwt demo_shell signJwt shell_environment]. unfold WebDemo.print_json.
  match goal with |- context [split "." ?t] =>
    match t with context [WebDemo.digits_of_pos ?p] =>
      change (split "." t) with ("h" :: split "." (WebDemo.digits_of_pos p +:+ "." +:+ str_of_Z (Z.of_nat n))) end end.
  rewrite split_digits. destruct (split "." (str_of_Z (Z.of_nat n))) as [|issued rest]; [done|]. cbv zeta.
  destruct (_ <? _); [done|]. fold (WebDemo.print_json (access_claims u e r ms)).
  rewrite WebDemo.parse_print by apply access_claims_integral. intros [= <-]. by do 2 eexists.
Qed.

Lemma renewed_session_accepted_witness :
  exists user modes, user_email user = "ann@demo.test" /\ modes <> [] /\
    (run (canActivate false (Some ("Bearer " +:+ accessToken renewed_pair))) renewal.1).2 =
      Ok (Some (mkAuthenticated (Some (user_id user)) (Some (user_email user)) (Some (GlobalRole.name (user_role user))) modes)).
Proof.
  assert (run (post_refresh ann_body) signed_in_world = (renewal.1, Ok renewed_pair)) as E by (vm_compute; reflexivity).
  destruct (renewed_session_accepted ann_body "a-random-token-of-48-bytes-in-base64url-9" _ _ _ renewal.1
              eq_refl E) as (row & user & modes & _ & _ & _ & Hu & _ & _ & Hm & Hg).
  - exact demo_jwt.
  - discriminate.
  - vm_compute. discriminate.
  - exists user, modes. split; [|by split]. cbn in Hu. destruct Hu as [<-|[]]. reflexivity.
Defined.

Lemma guard_admits_witness :
  exists user, (run (canActivate false (Some ("Bearer " +:+ accessToken renewed_pair))) renewal.1).2 = Ok user /\
    (au_id <$> user) = Some (Some "id6") /\ verifyJwt (accessToken renewed_pair) (w_tick renewal.1) <> None.
Proof.
  destruct (run (canActivate false (Some ("Bearer " +:+ accessToken renewed_pair))) renewal.1) as [w' [user|e]] eqn:E.
  - destruct (guard_admits _ _ _ _ E) as (token & claims & Hb & _ & Hv & _ & Hi & _).
    exists user. split; [done|]. vm_compute in Hb. injection Hb as <-. vm_compute in Hv. injection Hv as <-.
    split; [exact Hi|]. vm_compute. discriminate.
  - apply (f_equal (fun c => is_ok c.2)) in E. vm_compute in E. discriminate E.
Defined.

(** A refresh token is not an access token, and a public route needs none. *)
Example guard_ex :
  (run (canActivate false (Some ("Bearer " +:+ refreshToken renewed_pair))) renewal.1).2 = Err invalid_token /\
  (run (canActivate false None) renewal.1).2 = Err (UnauthorizedException "Missing bearer token") /\
  (run (canActivate true None) renewal.1).2 = Ok None /\
  (run (post_refresh (JObj [("refreshToken", JStr "short")])) renewal.1).2 = Err (BadRequestException "Validation failed").
Proof. vm_compute. repeat split; reflexivity. Qed.

End ApiShell.
