(* ===== verification/Observability.v ===== *)
(** * What the API reports about itself

    apps/api/src/health/health.controller.ts (the probes of the database, Redis
    and the RPC node), common/performance.interceptor.ts (one line per slow
    request) and the query log of prisma/prisma.service.ts.  [probes_answer]: a
    probe answers whatever its dependency does; [causes_bounded]: the chain of
    causes of an error is cut, also when it is cyclic; [intercept_transparent]:
    the interceptor changes nothing of the answer and logs at most one line. *)

From Stdlib Require Import SpecFloat.
From S2P Require Import Prelude Concurrency Strings Schema Float64 IncomeProjector Income ApiShell.

Open Scope Z_scope.

Module Observability.
Import ApiShell(RequestPerformanceStore, mkPerformance, dbDurationSumMs, dbQueryCount, maxDbQueryMs, slowDbQueryCount,
  createStore, recordQuery).

(* ------------------------------------------------------------------ *)
(** ** Errors *)

(** A thrown value: nothing, a value that is no Error (with its [String]), an
    [Error] made from a message, or an object of class Error by reference. *)
Inductive thrown :=
| Undefined
| Value (text : string)
| NewError (message : string)
| AnError (ref : nat).

Record ErrorObject := mkError {
  eo_message : string;
  eo_code : option string;
  eo_address : option string;
  eo_cause : thrown;
  (** the errors of an AggregateError *)
  eo_errors : option (list thrown)
}.

(** The objects the references point to; chains may be cyclic. *)
Class Errors := { error_at : nat -> ErrorObject }.

Record Described := mkDescribed { ds_message : string; ds_causes : list string }.

Section describe.
Context `{Errors}.

Definition filter_truthy (l : list (option string)) : list string := omap (fun o => if truthy o then o else None) l.

(** [visit(e, depth)] at depth [5 - fuel]: the causes it appends. *)
Fixpoint visit (fuel : nat) (e : thrown) : list string :=
  match fuel, e with
  | S rest, AnError ref =>
      let o := error_at ref in
      match eo_errors o with
      | Some errors => concat (map (visit rest) (firstn 4 errors))
      | None => join " " (filter_truthy [eo_code o; Some (eo_message o); eo_address o]) :: visit rest (eo_cause o)
      end
  | S _, NewError message => [message]
  | _, _ => []
  end.

Definition describeError (error : thrown) : Described :=
  match error with
  | AnError ref =>
      let o := error_at ref in
      mkDescribed (eo_message o) (visit 5 match eo_cause o with Undefined => error | cause => cause end)
  | NewError message => mkDescribed message (visit 5 error)
  | Value text => mkDescribed text []
  | Undefined => mkDescribed "undefined" []
  end.

Definition error_message (error : thrown) : string := ds_message (describeError error).
End describe.

(** The number of causes is bounded, whatever the errors refer to. *)
Lemma visit_bounded `{Errors} n e : (length (visit n e) <= match n with O => 0 | S m => 4 ^ m end)%nat.
Proof.
  revert e. induction n as [|n IH]; intros e; [done|]. cbn [visit].
  pose proof (Nat.pow_nonzero 4 n ltac:(done)) as Hpos.
  destruct e as [|text|message|ref]; cbn [length]; [lia|lia|lia|].
  assert (forall x, length (visit n x) <= match n with O => 0 | S m => 4 ^ m end)%nat as Hx by auto.
  destruct (eo_errors (error_at ref)) as [errors|].
  - assert (forall l, (length (concat (map (visit n) l)) <= length l * match n with O => 0 | S m => 4 ^ m end)%nat) as Hl.
    { induction l as [|x l IHl]; [done|]. cbn [map concat length]. rewrite length_app. specialize (Hx x). lia. }
    specialize (Hl (firstn 4 errors)). pose proof (firstn_le_length 4 errors).
    destruct n as [|m]; [lia|]. cbn [Nat.pow] in *. nia.
  - cbn [length]. specialize (Hx (eo_cause (error_at ref))). destruct n as [|m]; [cbn in *; lia|].
    cbn [Nat.pow]. pose proof (Nat.pow_nonzero 4 m ltac:(done)). lia.
Qed.

(** At most 256 causes of an error are reported, also when its chain of causes is
    a cycle. *)
Theorem causes_bounded `{Errors} e : (length (ds_causes (describeError e)) <= 256)%nat.
Proof.
  destruct e as [|text|message|ref]; cbn [describeError ds_causes length]; [lia|lia| |];
    etransitivity; [apply visit_bounded|by apply Nat.leb_le|apply visit_bounded|by apply Nat.leb_le].
Qed.

(** An error that is its own cause. *)
Example cyclic_ex :
  let cyclic := {| error_at _ := mkError "connect failed" (Some "ECONNREFUSED") (Some "127.0.0.1") (AnError 0) None |} in
  ds_causes (@describeError cyclic (AnError 0)) = repeat "ECONNREFUSED connect failed 127.0.0.1" 5.
Proof. reflexivity. Qed.

(* ------------------------------------------------------------------ *)
(** ** The probes *)

Class Dependencies := {
  REDIS_URL : option string;
  SOLANA_RPC_URL : option string;
  dateNow : nat -> Z;
  (** the fields protocol, hostname and port of [new URL(raw)]; [None]: it throws *)
  parseUrl : string -> option (string * string * string);
  (** the dependencies: after how many milliseconds a call settles ([None]:
      never) and with what *)
  selectOne : nat -> option (Z * (thrown + unit));
  redisPing : nat -> option (Z * (thrown + unit));
  getSlot : nat -> option (Z * (thrown + Z));
  redisStatus : nat -> string;
  (** [redis.connect()], bounded by the client's own connect timeout *)
  redisConnect : nat -> thrown + unit;
  (** [new Connection(url)]; an error when the URL is none *)
  newConnection : string -> nat -> thrown + unit
}.

(** The controller: the last socket error of the Redis client. *)
Record Health := mkHealth { he_lastRedisError : thrown; he_tick : nat }.
#[export] Instance eta_Health : Eta Health := fun r => mkHealth (he_lastRedisError r) (he_tick r).

Record Report := mkReport {
  rp_ok : bool;
  rp_latencyMs : option Z;
  rp_target : option string;
  rp_slot : option Z;
  rp_error : option string;
  rp_causes : list string
}.

Section probes.
Context `{Errors} `{Dependencies}.

Abbreviation probe := (prog Health).

Definition outside {A} (f : nat -> A) : probe A := Act (fun h => (h <| he_tick ::= S |>, f (he_tick h))) Ret.

(** [timeout(promise, ms)] *)
Definition timeout {A} (promise : nat -> option (Z * (thrown + A))) (ms : Z) : probe (thrown + A) :=
  let* settled := outside promise in
  Ret match settled with
      | Some (elapsed, r) => if elapsed <? ms then r else inl (NewError ("timeout " +:+ str_of_Z ms +:+ "ms"))
      | None => inl (NewError ("timeout " +:+ str_of_Z ms +:+ "ms"))
      end.

Definition sanitizedTarget (raw : option string) : string :=
  if negb (truthy raw) then "(unset)" else
  let raw := nullish raw "" in
  match parseUrl raw with
  | Some (protocol, hostname, port) => protocol +:+ "//" +:+ hostname +:+ ":" +:+ (if port ==? "" then "(default)" else port)
  | None => "(unparseable: " +:+ slice_to raw 12 +:+ "…)"
  end.

(** The listener of the "error" event. *)
Definition onRedisError (error : thrown) : probe unit := Act (fun h => (h <| he_lastRedisError := error |>, tt)) Ret.

Definition database : probe Report :=
  let* started := outside dateNow in
  let* r := timeout selectOne 5000 in
  match r with
  | inr _ => let* finished := outside dateNow in Ret (mkReport true (Some (finished - started)) None None None [])
  | inl error => Ret (mkReport false None None None (Some (error_message error)) [])
  end.

Definition is_truthy (e : thrown) : bool :=
  match e with Undefined => false | Value text => text !=? "" | _ => true end.

Definition redisHealth : probe Report :=
  let* started := outside dateNow in
  let* status := outside redisStatus in
  let* connected := (if includes ["end"; "close"] status then outside redisConnect else Ret (inr tt)) in
  let* r := match connected with inl e => Ret (inl e) | inr _ => timeout redisPing 5000 end in
  match r with
  | inr _ =>
      let* finished := outside dateNow in
      Ret (mkReport true (Some (finished - started)) (Some (sanitizedTarget REDIS_URL)) None None [])
  | inl error =>
      let described := describeError error in
      let* last := query he_lastRedisError in
      let socket := if is_truthy last then map (fun c => "socket: " +:+ c) (ds_causes (describeError last)) else [] in
      Ret (mkReport false None (Some (sanitizedTarget REDIS_URL)) None (Some (ds_message described))
             (ds_causes described ++ socket))
  end.

Definition rpc_url : string := nullish SOLANA_RPC_URL "https://api.devnet.solana.com".

Definition solana : probe Report :=
  let* started := outside dateNow in
  let* connection := outside (newConnection rpc_url) in
  let* r := match connection with inl e => Ret (inl e) | inr _ => timeout getSlot 8000 end in
  match r with
  | inr slot =>
      let* finished := outside dateNow in
      Ret (mkReport true (Some (finished - started)) None (Some slot) None [])
  | inl error =>
      let described := describeError error in
      Ret (mkReport false None (Some (sanitizedTarget (Some rpc_url))) None (Some (ds_message described))
             (ds_causes described))
  end.

(** What a probe answers, whatever else happens meanwhile. *)
Definition well_formed (r : Report) : Prop :=
  (rp_ok r = true /\ rp_latencyMs r <> None /\ rp_error r = None) \/
  (rp_ok r = false /\ rp_error r <> None /\ (length (rp_causes r) <= 512)%nat).
End probes.

Section answers.
Context `{Errors} `{Dependencies}.

Lemma returns_outside {A} (f : nat -> A) : returns (outside f).
Proof. done. Qed.
Lemma returns_timeout {A} (f : nat -> option (Z * (thrown + A))) ms : returns (timeout f ms).
Proof. by apply returns_bind. Qed.

Lemma well_formed_ok latency target slot : well_formed (mkReport true (Some latency) target slot None []).
Proof. by left. Qed.
Lemma well_formed_failed target message causes :
  (length causes <= 512)%nat -> well_formed (mkReport false None target None (Some message) causes).
Proof. by right. Qed.

Lemma ends_then {A B} (p : prog Health A) (f : A -> prog Health B) Q : (forall a, ends Q (f a)) -> ends Q (bind p f).
Proof. intros Hf. apply (ends_bind (fun _ => True)); [apply ends_any|auto]. Qed.

Lemma database_answers : returns database /\ ends well_formed database.
Proof.
  unfold database. split.
  - repeat (apply returns_bind; [first [apply returns_outside|apply returns_timeout]|intros ?]). by case_match.
  - repeat (apply ends_then; intros ?). case_match; [apply well_formed_failed; cbn; lia|].
    apply ends_then. intros ?. apply well_formed_ok.
Qed.

Lemma redis_answers : returns redisHealth /\ ends well_formed redisHealth.
Proof.
  unfold redisHealth. split.
  - apply returns_bind; [done|intros ?]. apply returns_bind; [done|intros ?].
    apply returns_bind; [by case_match|intros c]. apply returns_bind; [destruct c; [done|apply returns_timeout]|intros r].
    by destruct r.
  - repeat (apply ends_then; intros ?). case_match; apply ends_then; intros ?; [|apply well_formed_ok].
    apply well_formed_failed. rewrite length_app. pose proof (causes_bounded t).
    case_match; cbn [length]; [|lia]. rewrite length_map. pose proof (causes_bounded a3). lia.
Qed.

Lemma solana_answers : returns solana /\ ends well_formed solana.
Proof.
  unfold solana. split.
  - apply returns_bind; [done|intros ?]. apply returns_bind; [done|intros c].
    apply returns_bind; [destruct c; [done|apply returns_timeout]|intros r]. by destruct r.
  - repeat (apply ends_then; intros ?). case_match; [|apply ends_then; intros ?; apply well_formed_ok].
    apply well_formed_failed. etransitivity; [apply causes_bounded|]. lia.
Qed.
End answers.

(** Every probe answers and never throws, whatever its dependency does and
    whatever socket errors arrive meanwhile: a latency when the dependency
    answered in time, and otherwise a message with a bounded list of causes. *)
Theorem probes_answer `{Errors} `{Dependencies} :
  List.Forall (fun p => returns p /\ ends well_formed p) [database; redisHealth; solana].
Proof.
  constructor; [exact database_answers|]. constructor; [exact redis_answers|].
  constructor; [exact solana_answers|constructor].
Qed.

(** A port that refuses connections, and a Redis URL that is none: its beginning,
    with the password in it, is part of the answer. *)
Definition refusing : Dependencies := {|
  REDIS_URL := Some ":hunter2@cache:6379";
  SOLANA_RPC_URL := None;
  dateNow t := 1000 * Z.of_nat t;
  parseUrl raw := if raw ==? "https://api.devnet.solana.com" then Some ("https:", "api.devnet.solana.com", "") else None;
  selectOne _ := None;
  redisPing _ := Some (3, inl (AnError 0));
  getSlot _ := Some (9, inr 77);
  redisStatus _ := "ready";
  redisConnect _ := inr tt;
  newConnection _ _ := inr tt
|}.
Definition refused_socket : Errors := {|
  error_at ref := match ref with
                  | 0%nat => mkError "Connection is closed." None None Undefined None
                  | _ => mkError "connect ECONNREFUSED" (Some "ECONNREFUSED") (Some "10.0.0.7") Undefined None
                  end
|}.

Example probes_ex :
  let h := mkHealth (AnError 1) 0 in
  (run (@database refused_socket refusing) h).2 = Ok (mkReport false None None None (Some "timeout 5000ms") []) /\
  (run (@redisHealth refused_socket refusing) h).2 =
    Ok (mkReport false None (Some "(unparseable: :hunter2@cac…)") None (Some "Connection is closed.")
          ["Connection is closed."; "socket: ECONNREFUSED connect ECONNREFUSED 10.0.0.7"]) /\
  (run (@solana refused_socket refusing) h).2 = Ok (mkReport true (Some 3000) None (Some 77) None []).
Proof. vm_compute. done. Qed.

(* ------------------------------------------------------------------ *)
(** ** Timing of requests *)

(** The process environment with [Number(value)] of a text. *)
Class Timing := {
  PERFORMANCE_LOGGING_ENABLED : option string;
  API_SLOW_REQUEST_MS : option string;
  PRISMA_SLOW_QUERY_MS : option string;
  numberOf : string -> number
}.

Definition num_finite (x : number) : bool :=
  match x with S754_zero _ | S754_finite _ _ _ => true | _ => false end.

(** What the interceptor reads of an error: its string [code], and the number
    its [getStatus()] returns. *)
Record Failure := mkFailure { fl_code : option string; fl_status : option Z }.

(** An emission of the handler, with the time since the start of the request,
    the counters and the status of the response at that moment.  [Failed None]
    is a falsy error. *)
Inductive Signal := Next (value : json) | Failed (error : option Failure) | Completed.
Record Emission := mkEmission {
  em_signal : Signal;
  em_totalMs : number;
  em_store : RequestPerformanceStore;
  em_statusCode : Z
}.

Record RequestInfo := mkRequestInfo {
  ri_isHttp : bool;
  ri_method : string;
  ri_baseUrl : option string;
  ri_routePath : option string;
  ri_path : string
}.

Record SlowLine := mkSlowLine {
  sl_event : string;
  sl_method : string;
  sl_route : string;
  sl_status : Z;
  sl_totalMs : Z;
  sl_dbQueryCount : Z;
  sl_dbDurationSumMs : Z;
  sl_maxDbQueryMs : Z;
  sl_slowDbQueryCount : Z;
  sl_errorCode : option string
}.

Section timing.
Context `{Timing}.

Definition positiveNumber (value : option string) (fallback : Z) : number :=
  match value with
  | None => num_of_Z fallback
  | Some text => let parsed := numberOf text in
                 if num_finite parsed && num_ltb (num_of_Z 0) parsed then parsed else num_of_Z fallback
  end.

Definition logging_enabled : bool := PERFORMANCE_LOGGING_ENABLED !=? Some "false".
Definition slowRequestMs : number := positiveNumber API_SLOW_REQUEST_MS 750.

Definition prismaErrorCode (error : option Failure) : option string := error ≫= fl_code.

Definition responseStatus (statusCode : Z) (error : option Failure) : Z :=
  match error with
  | Some e => nullish (fl_status e) 500
  | None => statusCode
  end.

Definition logIfNeeded (r : RequestInfo) (statusCode : Z) (store : RequestPerformanceStore) (totalMs : number)
    (error : option Failure) : list SlowLine :=
  let errorCode := prismaErrorCode error in
  let poolTimeout := errorCode ==? Some "P2024" in
  if num_ltb totalMs slowRequestMs && negb poolTimeout then []
  else [mkSlowLine (if poolTimeout then "db_pool_timeout" else "slow_api_request") (ri_method r)
          (nullish (ri_baseUrl r) "" +:+ nullish (ri_routePath r) (ri_path r))
          (responseStatus statusCode error) (IncomeService.num_round totalMs) (dbQueryCount store)
          (dbDurationSumMs store) (maxDbQueryMs store) (slowDbQueryCount store)
          (if truthy errorCode then errorCode else None)].

Definition is_last (s : Signal) : bool := match s with Next _ => false | _ => true end.

(** What an observable delivers: nothing after its error or completion. *)
Fixpoint deliver (l : list Emission) : list Emission :=
  match l with
  | [] => []
  | e :: l' => if is_last (em_signal e) then [e] else e :: deliver l'
  end.

Record Watch := mkWatch { wa_finished : bool; wa_sent : list Signal; wa_lines : list SlowLine }.

(** [finish(error)], once. *)
Definition finish (r : RequestInfo) (e : Emission) (error : option Failure) (w : Watch) : Watch :=
  if wa_finished w then w
  else mkWatch true (wa_sent w) (wa_lines w ++ logIfNeeded r (em_statusCode e) (em_store e) (em_totalMs e) error).

Definition forward (s : Signal) (w : Watch) : Watch := mkWatch (wa_finished w) (wa_sent w ++ [s]) (wa_lines w).

Definition watch (r : RequestInfo) (w : Watch) (e : Emission) : Watch :=
  match em_signal e with
  | Next v => forward (Next v) w
  | Failed error => forward (Failed error) (finish r e error w)
  | Completed => forward Completed (finish r e None w)
  end.

(** What the subscriber of the response gets, and the lines logged. *)
Definition intercept (r : RequestInfo) (emissions : list Emission) : list Signal * list SlowLine :=
  if negb logging_enabled || negb (ri_isHttp r) then (map em_signal (deliver emissions), [])
  else let w := fold_left (watch r) (deliver emissions) (mkWatch false [] []) in (wa_sent w, wa_lines w).

(** The line of the emission that ends the request. *)
Definition last_line (r : RequestInfo) (emissions : list Emission) : list SlowLine :=
  match List.find (fun e => is_last (em_signal e)) emissions with
  | Some e => logIfNeeded r (em_statusCode e) (em_store e) (em_totalMs e)
                match em_signal e with Failed error => error | _ => None end
  | None => []
  end.

Lemma watch_delivered r emissions sent :
  let w := fold_left (watch r) (deliver emissions) (mkWatch false sent []) in
  wa_sent w = sent ++ map em_signal (deliver emissions) /\ wa_lines w = last_line r emissions.
Proof.
  revert sent. induction emissions as [|e l IH]; intros sent; [by rewrite app_nil_r|].
  unfold last_line. cbn [deliver List.find]. destruct (em_signal e) as [v|error|] eqn:Es; cbn [is_last].
  - cbn [fold_left map].
    assert (watch r (mkWatch false sent []) e = mkWatch false (sent ++ [Next v]) []) as -> by (unfold watch; by rewrite Es).
    destruct (IH (sent ++ [Next v])) as [H1 H2]. cbv zeta in *. rewrite H1, H2, <- app_assoc, Es. done.
  - cbn. unfold watch. rewrite Es. done.
  - cbn. unfold watch. rewrite Es. done.
Qed.
End timing.

(** The interceptor is transparent: the response gets exactly what the handler
    emits, with logging or without; and at most one line is logged, by the
    emission that ends the request: exactly when logging is on and the request
    was not fast or the connection pool timed out. *)
Theorem intercept_transparent `{Timing} r emissions :
  (intercept r emissions).1 = map em_signal (deliver emissions) /\
  (intercept r emissions).2 = (if logging_enabled && ri_isHttp r then last_line r emissions else []) /\
  (length (intercept r emissions).2 <= 1)%nat.
Proof.
  assert (length (last_line r emissions) <= 1)%nat as Hl.
  { unfold last_line, logIfNeeded. destruct (List.find _ _); [|cbn; lia]. destruct (_ && _); cbn; lia. }
  unfold intercept. destruct logging_enabled, (ri_isHttp r); cbn [negb orb andb fst snd]; try (split_and!; [done..|cbn; lia]).
  destruct (watch_delivered r emissions []) as [-> ->]. by split_and!.
Qed.

(* ------------------------------------------------------------------ *)
(** ** The query log *)

Definition quote : ascii := ascii_of_nat 34.
Definition upper_char (c : ascii) : ascii :=
  let n := Z.of_N (N_of_ascii c) in
  if (97 <=? n) && (n <=? 122) then ascii_of_N (Z.to_N (n - 32)) else c.
Fixpoint toUpperCase (s : string) : string :=
  match s with EmptyString => "" | String c s' => String (upper_char c) (toUpperCase s') end.

Definition is_letter (c : ascii) : bool :=
  let n := Z.of_N (N_of_ascii (upper_char c)) in (65 <=? n) && (n <=? 90).
Definition is_word (c : ascii) : bool := is_letter c || is_digit c || Ascii.eqb c "_".

(** The rest after a keyword, in either case, and after the white space that must
    follow it. *)
Definition after_keyword (s keyword : string) : option string :=
  if String.prefix keyword (toUpperCase s) then
    match slice_from s (String.length keyword) with
    | String c s' => if is_space c then Some (trim_start s') else None
    | EmptyString => None
    end
  else None.

Definition skip_quote (s : string) : string :=
  match s with String c s' => if Ascii.eqb c quote then s' else s | EmptyString => s end.

(** [([A-Za-z][A-Za-z0-9_]* )] after an optional quote *)
Definition table_name (s : string) : option string :=
  match skip_quote s with
  | String c s' => if is_letter c then Some (String c (span is_word s').1) else None
  | EmptyString => None
  end.

(** The rest after a quoted name and a dot, if there is one. *)
Definition after_schema (s : string) : option string :=
  match s with
  | String c s' =>
      if Ascii.eqb c quote then
        let '(name, rest) := span (fun a => negb (Ascii.eqb a quote)) s' in
        match name, rest with
        | String _ _, String _ (String d rest') => if Ascii.eqb d "." then Some rest' else None
        | _, _ => None
        end
      else None
  | EmptyString => None
  end.

(** The match at one position: the schema is optional. *)
Definition table_here (s : string) : option string :=
  List.fold_left (fun o keyword => nullish2 o (after_keyword s keyword ≫= fun rest =>
    nullish2 (after_schema rest ≫= table_name) (table_name rest))) ["FROM"; "UPDATE"; "INTO"; "JOIN"] None.

Fixpoint first_table (s : string) : option string :=
  match table_here s with
  | Some t => Some t
  | None => match s with String _ s' => first_table s' | EmptyString => None end
  end.

Record QueryIdentity := mkIdentity { qi_operation : string; qi_table : string }.

Definition queryIdentity (q : string) : QueryIdentity :=
  mkIdentity (toUpperCase (span (fun c => negb (is_space c)) (trim_start q)).1) (nullish (first_table q) "unknown").

Section queries.
Context `{Timing}.

Definition slowQueryMs : number := positiveNumber PRISMA_SLOW_QUERY_MS 200.

(** The listener of the "query" event: the counters of the request it belongs to,
    and a line for a slow query. *)
Definition onQuery (duration : Z) (q : string) (store : option RequestPerformanceStore) :
    option RequestPerformanceStore * list (Z * QueryIdentity) :=
  if negb logging_enabled then (store, []) else
  let slow := negb (num_ltb (num_of_Z duration) slowQueryMs) in
  (option_map (fun s => mkPerformance (dbDurationSumMs s + duration) (dbQueryCount s + 1) (Z.max (maxDbQueryMs s) duration)
     (if slow then slowDbQueryCount s + 1 else slowDbQueryCount s)) store,
   if slow then [(duration, queryIdentity q)] else []).
End queries.

Definition q1 : string := String quote "".
Example queryIdentity_ex :
  queryIdentity (" select " +:+ q1 +:+ "public" +:+ q1 +:+ "." +:+ q1 +:+ "User" +:+ q1 +:+ " FROM " +:+ q1 +:+ "public" +:+ q1 +:+ "."
                 +:+ q1 +:+ "User" +:+ q1 +:+ " WHERE 1=1") = mkIdentity "SELECT" "User" /\
  queryIdentity "update Payout set x = 1" = mkIdentity "UPDATE" "Payout" /\
  queryIdentity "COMMIT" = mkIdentity "COMMIT" "unknown".
Proof. vm_compute. done. Qed.

(** The text of a query shows no more than its first word and the name of a
    table: a name of letters, digits and underscores. *)
Lemma table_name_word s t : table_name s = Some t -> all_chars is_word t = true.
Proof.
  unfold table_name. destruct (skip_quote s) as [|c s']; [done|]. destruct (is_letter c) eqn:Ec; [|done].
  intros [= <-]. cbn [all_chars]. unfold is_word at 1. rewrite Ec. cbn [orb andb].
  induction s' as [|a s' IH]; [done|]. cbn [span]. destruct (is_word a) eqn:Ea; [|done].
  destruct (span is_word s') as [x y]. cbn [fst all_chars] in *. by rewrite Ea.
Qed.

Lemma table_here_word s t : table_here s = Some t -> all_chars is_word t = true.
Proof.
  unfold table_here.
  assert (forall l o, (forall t, o = Some t -> all_chars is_word t = true) ->
    fold_left (fun o keyword => nullish2 o (after_keyword s keyword ≫= fun rest =>
      nullish2 (after_schema rest ≫= table_name) (table_name rest))) l o = Some t -> all_chars is_word t = true) as Hg.
  { induction l as [|k l IH]; intros o Ho; [apply Ho|]. apply IH. intros t' Ht. destruct o as [x|]; [by apply Ho|].
    cbn in Ht. destruct (after_keyword s k) as [rest|]; [|done]. cbn in Ht.
    destruct (after_schema rest) as [rest'|]; cbn in Ht; [|by apply table_name_word in Ht].
    destruct (table_name rest') eqn:E; cbn in Ht; [|by apply table_name_word in Ht].
    injection Ht as <-. by apply table_name_word in E. }
  by apply Hg.
Qed.

Theorem queryIdentity_names q : all_chars is_word (qi_table (queryIdentity q)) = true.
Proof.
  cbn. destruct (first_table q) as [t|] eqn:E; [|done]. cbn.
  induction q as [|c q IH]; cbn [first_table] in E.
  - destruct (table_here "") eqn:Et; [|done]. injection E as <-. by apply table_here_word in Et.
  - destruct (table_here (String c q)) eqn:Et; [|by apply IH]. injection E as <-. by apply table_here_word in Et.
Qed.
End Observability.
