(* ===== verification/Pages.v ===== *)
(** * The pages of the web client

    What the pages under apps/web/src share: a React page as a state with the
    log of its interactions, the call of the API (lib/api.ts, modelled in
    WebSession, here an interface that answers with JSON or throws), the query
    cache (lib/query.tsx), the wallet of the browser (lib/wallet.ts) and the
    handling of errors.  A handler reads the values of the render it was created
    in (its closure) and changes the state through setters; between two awaits
    other handlers of the page may run.  Every setter, request and answer is an
    action of its own.  Texts that depend on the language are those of the English
    locale. *)

From stdpp Require Import gmap.
From S2P Require Import Prelude Concurrency Strings Schema WebSession.

Open Scope Z_scope.

Module Pages.
Export WebSession(field, as_string, as_number).

(** What the page did: the requests it sent, the prompts of the wallet, and the
    refetches it started without waiting for them. *)
Inductive io :=
| Called (method path : string) (body : option json)
| PromptOpened (tx : string)
| PromptClosed (tx : string)
| Invalidated (prefixes : list string)
| Refetch (query : string)
(** an answer taken from the query cache or the API *)
| Queried (path : string)
| Reloaded
| Downloaded (filename content : string)
(** a refresh scheduled for later; a pause of the handler itself *)
| Delayed (ms : Z)
| Slept (ms : Z).

Record App (St : Type) := mkApp {
  app_state : St;
  app_route : option string;
  app_log : list io;
  app_tick : nat
}.
Arguments mkApp {St} _ _ _ _.
Arguments app_state {St} _.
Arguments app_route {St} _.
Arguments app_log {St} _.
Arguments app_tick {St} _.
#[export] Instance eta_App St : Eta (App St) := fun r => mkApp
  (app_state r) (app_route r) (app_log r) (app_tick r).

Class Client := {
  (** [api(path, { method, body })] at a tick *)
  apiAnswer : string -> string -> option json -> nat -> result json;
  (** the transaction of a base64 text ([atob], [Transaction.from]): the error
      when there is none *)
  deserialize : string -> result unit;
  (** the injected wallet: whether there is one, its connected account, what
      [connect] answers, and the signature of a transaction ([Err]: declined) *)
  walletInstalled : bool;
  walletAccount : nat -> option string;
  walletConnect : nat -> result string;
  walletDisconnect : nat -> result unit;
  walletSign : string -> nat -> result string;
  clock : nat -> Z;
  (** [encodeURIComponent] *)
  encodeURI : string -> string;
  (** the dictionary of lib/i18n.tsx *)
  t : string -> string;
  (** [Math.random() * (max - min) + min], to two digits *)
  randomAmount : Z -> Z -> nat -> string
}.

(** What JavaScript makes of the texts of a form: a local date and time, and
    [Math.round(Number(s) * 100)] and [Number(s)] of what is typed. *)
Class FormReading := {
  readLocal : string -> Z;
  readCents : string -> Z;
  readNumber : string -> Z
}.

Section page.
Context {St : Type} `{Client}.

Abbreviation ui := (prog (App St)).

Definition modify (f : St -> St) : ui unit := Act (fun a => (a <| app_state ::= f |>, tt)) Ret.
Definition look {A} (f : St -> A) : ui A := query (fun a => f (app_state a)).
Definition log (e : io) : ui unit := Act (fun a => (a <| app_log ::= (fun l => l ++ [e]) |>, tt)) Ret.
Definition push (route : string) : ui unit := Act (fun a => (a <| app_route := Some route |>, tt)) Ret.
(** A numbered answer of the outside. *)
Definition outside {A} (f : nat -> A) : ui A := Act (fun a => (a <| app_tick ::= S |>, f (app_tick a))) Ret.
Definition outside_may_fail {A} (f : nat -> result A) : ui A := let* r := outside f in lift_result r.

Definition api (method path : string) (body : option json) : ui json :=
  do* log (Called method path body) in
  outside_may_fail (apiAnswer method path body).

(** [fetchApiQuery(client, path, staleTime)]: within the stale time the answer
    may be an earlier one. *)
Definition fetchApiQuery (path : string) : ui json :=
  do* log (Queried path) in
  outside_may_fail (apiAnswer "GET" path None).

(** [finally]: the clean-up runs whatever the handler did. *)
Definition finally {A} (p : ui A) (cleanup : ui unit) : ui A :=
  let* r := catch (let* a := p in Ret (Ok a)) (fun e => Ret (Err e)) in
  do* cleanup in
  lift_result r.

(** [invalidateApiQueries] of the session's queries by prefix *)
Definition invalidateApiQueries (prefixes : list string) : ui unit := log (Invalidated prefixes).

(** [guard(e)]: an expired session goes to the login page, any other error is
    shown. *)
Definition guard (setError : option string -> St -> St) (e : exn) : ui unit :=
  match e with
  | ApiError 401 _ => push "/login"
  | _ => modify (setError (Some (exn_message e)))
  end.

(* ------------------------------------------------------------------ *)
(** ** The wallet *)

Definition no_wallet : exn := JsError "Solana 지갑을 찾을 수 없습니다. Phantom 또는 Solflare를 설치하세요.".

Definition getProvider : ui unit := if walletInstalled then Ret tt else Throw no_wallet.

Definition connectWallet (forceReconnect : bool) : ui string :=
  do* getProvider in
  let* account := outside walletAccount in
  do* (if forceReconnect && (match account with Some _ => true | None => false end)
       then catch (outside_may_fail walletDisconnect) (fun _ => Ret tt)
       else Ret tt) in
  outside_may_fail walletConnect.

Definition wrong_wallet (connected expected : string) : exn :=
  JsError ("연결된 지갑(" +:+ slice_to connected 8 +:+ "…)이 등록된 사업장 지급 지갑("
           +:+ slice_to expected 8 +:+ "…)과 다릅니다.").

(** The prompt of the wallet is open between the request and the answer. *)
Definition signTransactionBase64 (unsignedBase64 expectedSigner : string) : ui string :=
  do* getProvider in
  let* publicKey := outside_may_fail walletConnect in
  do* throw_if (publicKey !=? expectedSigner) (wrong_wallet publicKey expectedSigner) in
  do* lift_result (deserialize unsignedBase64) in
  do* log (PromptOpened unsignedBase64) in
  let* signed := outside (walletSign unsignedBase64) in
  do* log (PromptClosed unsignedBase64) in
  lift_result signed.
End page.

Lemma run_finally {St A} (p : prog (App St) A) cleanup a :
  run (finally p cleanup) a =
  match run cleanup (run p a).1 with
  | (a', Ok _) => (a', (run p a).2)
  | (a', Err e) => (a', Err e)
  end.
Proof.
  unfold finally. autorewrite with run. destruct (run p a) as [a1 [x|e]]; autorewrite with run; cbn [fst snd];
    destruct (run cleanup a1) as [a2 [[]|e']]; done.
Qed.

Section runs.
Context {St : Type} `{Client}.

Lemma run_modify (f : St -> St) a : run (modify f) a = (a <| app_state ::= f |>, Ok tt).
Proof. done. Qed.
Lemma run_log e (a : App St) : run (log e) a = (a <| app_log ::= (fun l => l ++ [e]) |>, Ok tt).
Proof. done. Qed.
Lemma run_outside {A} (f : nat -> A) (a : App St) : run (outside f) a = (a <| app_tick ::= S |>, Ok (f (app_tick a))).
Proof. done. Qed.
Lemma run_api method path body (a : App St) :
  run (api method path body) a =
  (a <| app_log ::= (fun l => l ++ [Called method path body]) |> <| app_tick ::= S |>,
   apiAnswer method path body (app_tick a)).
Proof.
  unfold api, outside_may_fail. autorewrite with run. rewrite run_log, run_bind, run_outside. cbn.
  by destruct (apiAnswer _ _ _ _).
Qed.
End runs.

#[export] Hint Rewrite @run_modify @run_log @run_outside @run_api @run_finally : run.
#[global] Arguments modify : simpl never.
#[global] Arguments api : simpl never.
End Pages.
