(* ===== verification/Dashboard.v ===== *)
(** * The dashboard of a venue

    apps/web/src/app/dashboard/page.tsx: the handlers of the page.  The payment
    of a share ([payUsdc]) creates the payout, has the wallet of the venue sign
    the transaction and follows the payout until it is settled; a lock per share
    keeps two clicks from opening two signatures (WalletPrompts.v).  The refreshes
    a handler starts without waiting for them are recorded in the log of the
    page ([Invalidated], [Refetch]). *)

From stdpp Require Import relations gmap strings.
From S2P Require Import Prelude Concurrency Strings Schema Disclosure WebSession Pages.

Open Scope Z_scope.

Module Dashboard.
Import Pages.

(** The state of the page its handlers change. *)
Record Dash := mkDash {
  ds_batch : option json;
  ds_progress : gmap string string;
  ds_error : option string;
  ds_busy : bool;
  ds_businessDate : string;
  ds_importResult : option json;
  ds_csvText : string;
  ds_syncMessage : option string;
  ds_rebuildResult : option json;
  ds_mappingMessage : option string;
  ds_mappingEmails : gmap string string;
  ds_inviteEmail : string;
  ds_inviteExternalId : string;
  ds_memberEmail : string;
  ds_memberMessage : option string;
  ds_legacyOpenFor : option string;
  ds_walletAddress : option string;
  (** [payoutLocks.current] *)
  ds_payoutLocks : gset string
}.
#[export] Instance eta_Dash : Eta Dash := fun r => mkDash
  (ds_batch r) (ds_progress r) (ds_error r) (ds_busy r) (ds_businessDate r) (ds_importResult r) (ds_csvText r)
  (ds_syncMessage r) (ds_rebuildResult r) (ds_mappingMessage r) (ds_mappingEmails r) (ds_inviteEmail r)
  (ds_inviteExternalId r) (ds_memberEmail r) (ds_memberMessage r) (ds_legacyOpenFor r) (ds_walletAddress r)
  (ds_payoutLocks r).

(** The values of a render that its handlers close over. *)
Record Render := mkRender {
  rd_venueId : string;
  rd_businessDate : string;
  rd_batch : option json;
  rd_csvText : string;
  rd_organizationId : option string;
  rd_mappingEmails : gmap string string;
  rd_inviteEmail : string;
  rd_inviteProvider : string;
  rd_inviteExternalId : string;
  rd_setupOrgName : string;
  rd_setupVenueName : string;
  rd_setupTimezone : string;
  rd_memberEmail : string;
  rd_memberRole : string
}.

Definition PAYOUT_VERIFICATION_ERRORS : list string :=
  ["Payout is CONFIRMED"; "Payout is SUBMITTED"; "Settlement already exists on-chain";
   "Previous payout blockhash is still valid"; "Payout transaction blockhash is still valid"].

(** [s.includes(p)] *)
Fixpoint contains (p s : string) : bool :=
  String.prefix p s || match s with EmptyString => false | String _ s' => contains p s' end.

Definition isPayoutVerificationError (message : string) : bool :=
  existsb (fun fragment => contains fragment message) PAYOUT_VERIFICATION_ERRORS.

Definition isPayoutBlockhashExpiredError (message : string) : bool :=
  contains "blockhash expired before submission" message.

Section handlers.
Context `{Client}.

Abbreviation ui := (prog (App Dash)).

Definition setError (e : option string) : Dash -> Dash := fun s => s <| ds_error := e |>.
Definition setBusy (b : bool) : ui unit := modify (fun s => s <| ds_busy := b |>).
Definition setBatch (b : option json) : ui unit := modify (fun s => s <| ds_batch := b |>).
Definition setBusinessDate (d : string) : ui unit := modify (fun s => s <| ds_businessDate := d |>).
Definition guard (e : exn) : ui unit := Pages.guard setError e.

Definition run (fn : ui unit) : ui unit :=
  do* setBusy true in
  do* modify (setError None) in
  finally (catch fn guard) (setBusy false).

Definition text_of (j : json) (k : string) : string := nullish (as_string (field j k)) "".

Definition refreshUnmapped (r : Render) : ui unit :=
  if rd_venueId r ==? "" then Ret tt else
  do* invalidateApiQueries ["/venues/" +:+ rd_venueId r +:+ "/unmapped-workers";
                            "/venues/" +:+ rd_venueId r +:+ "/action-items";
                            "/venues/" +:+ rd_venueId r +:+ "/worker-connections"] in
  log (Refetch "connections").

Definition refreshSettlementClose (r : Render) : ui unit :=
  if (rd_venueId r ==? "") || (rd_businessDate r ==? "") then Ret tt else
  do* invalidateApiQueries ["/venues/" +:+ rd_venueId r +:+ "/settlement-close?businessDate="
                            +:+ encodeURI (rd_businessDate r)] in
  log (Refetch "settlement-close").

(** The batch of the render is loaded again. *)
Definition refreshBatch (r : Render) : ui unit :=
  match rd_batch r with
  | None => Ret tt
  | Some batch =>
      let* refreshed := api "GET" ("/allocation-batches/" +:+ text_of batch "id") None in
      setBatch (Some refreshed)
  end.

Definition connect : ui unit :=
  run (let* address := connectWallet false in modify (fun s => s <| ds_walletAddress := Some address |>)).

Definition createFirstVenue (r : Render) : ui unit :=
  run (let orgName := trim (rd_setupOrgName r) in
       let venueName := trim (rd_setupVenueName r) in
       let timezone := trim (rd_setupTimezone r) in
       if (venueName ==? "") || (timezone ==? "") then Ret tt else
       let* organizationId :=
         (if truthy (rd_organizationId r) then Ret (rd_organizationId r)
          else if orgName ==? "" then Ret None
          else let* org := api "POST" "/organizations"
                 (Some (JObj [("legalName", JStr orgName); ("displayName", JStr orgName);
                              ("country", JStr "US"); ("timezone", JStr timezone)])) in
               Ret (Some (text_of org "id"))) in
       match organizationId with
       | None => Ret tt
       | Some id =>
           let* _ := api "POST" "/venues"
             (Some (JObj [("organizationId", JStr id); ("name", JStr venueName); ("timezone", JStr timezone)])) in
           do* invalidateApiQueries ["/organizations/mine"] in
           log Reloaded
       end).

Definition inviteOrgMember (r : Render) : ui unit :=
  run (let email := trim (rd_memberEmail r) in
       if negb (truthy (rd_organizationId r)) || (email ==? "") then Ret tt else
       let* _ := api "POST" ("/organizations/" +:+ nullish (rd_organizationId r) "" +:+ "/members")
         (Some (JObj [("email", JStr email); ("role", JStr (rd_memberRole r))])) in
       modify (fun s => s <| ds_memberEmail := "" |>
                          <| ds_memberMessage := Some (email +:+ " was added as " +:+ rd_memberRole r +:+ ".") |>)).

(** One line of the demo file. *)
Definition toast_line (today worker shift tip amount start finish route status : string) : string :=
  "toast_mock,venue_demo," +:+ worker +:+ "," +:+ today +:+ shift +:+ "," +:+ tip +:+ "," +:+ amount +:+ ","
  +:+ today +:+ start +:+ "," +:+ today +:+ finish +:+ ",SERVER," +:+ route +:+ "," +:+ status.

Definition fillToastDemoCsv : ui unit :=
  let* now := outside clock in
  let today := slice_to (toISOString now) 10 in
  let* a1 := outside (randomAmount 90 180) in
  let* a2 := outside (randomAmount 60 150) in
  let* a3 := outside (randomAmount 50 120) in
  let* a4 := outside (randomAmount 10 40) in
  do* modify (fun s => s <| ds_csvText := join (String "010" "")
    ["provider,venue_external_id,worker_external_id,shift_external_id,tip_type,gross_tip,clock_in,clock_out,role,payout_route,payroll_status";
     toast_line today "smoke.a" "_s1" "CARD_TIP" a1 "T17:00:00Z" "T22:00:00Z" "PAYROLL" "PROVIDER_CONFIRMED";
     toast_line today "smoke.b" "_s2" "CARD_TIP" a2 "T17:30:00Z" "T23:00:00Z" "USDC" "PENDING";
     toast_line today "demo.b" "_s3" "CARD_TIP" a3 "T18:00:00Z" "T23:30:00Z" "USDC" "PENDING";
     toast_line today "demo.b" "_s3" "CASH_TIP" a4 "T18:00:00Z" "T23:30:00Z" "USDC" "PENDING"] |>) in
  modify (fun s => s <| ds_syncMessage := None |>).

Definition syncSquare (r : Render) : ui unit :=
  run (let* now1 := outside clock in
       let* now2 := outside clock in
       let finish := slice_to (toISOString now1) 10 in
       let start := slice_to (toISOString (now2 - 14 * 86400000)) 10 in
       let* res := api "POST" "/evidence/sync"
         (Some (JObj [("venueId", JStr (rd_venueId r)); ("provider", JStr "square");
                      ("startDate", JStr start); ("endDate", JStr finish)])) in
       do* modify (fun s => s <| ds_syncMessage :=
         Some (t "dash.source.syncQueued" +:+ " (job " +:+ text_of res "jobId" +:+ ")") |>) in
       log (Delayed 5000)).

Definition json_items (o : option json) : list json := match o with Some (JArr l) => l | _ => [] end.

Definition importCsv (r : Render) : ui unit :=
  run (let* result := api "POST" "/providers/csv/import"
         (Some (JObj [("venueId", JStr (rd_venueId r)); ("csvText", JStr (rd_csvText r))])) in
       do* modify (fun s => s <| ds_importResult := Some result |>) in
       do* (match last (json_items (field result "businessDates")) with
            | Some (JStr latest) => if latest ==? "" then Ret tt else setBusinessDate latest
            | _ => Ret tt
            end) in
       do* (match List.find (fun calc => truthy (as_string (field calc "batchId")))
                    (rev (json_items (field result "autoCalculations"))) with
            | Some calc =>
                do* setBusinessDate (text_of calc "businessDate") in
                let* batch := api "GET" ("/allocation-batches/" +:+ text_of calc "batchId") None in
                setBatch (Some batch)
            | None => Ret tt
            end) in
       refreshUnmapped r).

Definition as_bool (o : option json) : bool := match o with Some (JBool b) => b | _ => false end.

Definition mapping_message (result : json) (workerEmail : string) : string :=
  if as_bool (field result "accountCreated") then
    if as_bool (field result "invitationEmailSent")
    then workerEmail +:+ " had no account yet — one was created and a sign-in email was sent. The connection completes once they log in and accept."
    else "An account was created for " +:+ workerEmail +:+ " with the request waiting. Ask them to sign in with this email and accept."
  else if as_bool (field result "invitationEmailSent")
  then "Connection request sent to " +:+ workerEmail +:+ "."
  else "Connection request created. The worker must accept it from their Work tab.".

Definition sendMappingRequest (r : Render) (provider externalWorkerId workerEmail : string) : ui unit :=
  let* result := api "POST" "/worker-mappings"
    (Some (JObj [("venueId", JStr (rd_venueId r)); ("provider", JStr provider);
                 ("externalWorkerId", JStr externalWorkerId); ("workerEmail", JStr workerEmail)])) in
  do* modify (fun s => s <| ds_mappingMessage := Some (mapping_message result workerEmail) |>) in
  refreshUnmapped r.

Definition requestWorkerMapping (r : Render) (provider externalWorkerId : string) : ui unit :=
  run (let key := provider +:+ ":" +:+ externalWorkerId in
       let workerEmail := trim (nullish (rd_mappingEmails r !! key) "") in
       if workerEmail ==? "" then Ret tt else
       do* sendMappingRequest r provider externalWorkerId workerEmail in
       modify (fun s => s <| ds_mappingEmails ::= insert key "" |>)).

Definition inviteNewWorker (r : Render) : ui unit :=
  run (let workerEmail := trim (rd_inviteEmail r) in
       let provider := trim (rd_inviteProvider r) in
       let externalWorkerId := trim (rd_inviteExternalId r) in
       if (workerEmail ==? "") || (provider ==? "") || (externalWorkerId ==? "") then Ret tt else
       do* sendMappingRequest r provider externalWorkerId workerEmail in
       modify (fun s => s <| ds_inviteEmail := "" |> <| ds_inviteExternalId := "" |>)).

Definition calculate (r : Render) : ui unit :=
  run (let* result := api "POST" "/allocation-batches/calculate"
         (Some (JObj [("venueId", JStr (rd_venueId r)); ("businessDate", JStr (rd_businessDate r))])) in
       do* setBatch (Some result) in
       refreshSettlementClose r).

Definition approve (r : Render) : ui unit :=
  run (match rd_batch r with
       | None => Ret tt
       | Some batch =>
           let* _ := api "POST" ("/allocation-batches/" +:+ text_of batch "id" +:+ "/approve") (Some (JObj [])) in
           do* refreshBatch r in
           do* refreshUnmapped r in
           refreshSettlementClose r
       end).

Definition openBatch (id businessDate : string) : ui unit :=
  run (do* setBusinessDate businessDate in
       let* batch := api "GET" ("/allocation-batches/" +:+ id) None in
       setBatch (Some batch)).

(** The texts the progress of a share takes from the dictionary. *)
Definition setProgress (allocationId message : string) : ui unit :=
  modify (fun s => s <| ds_progress ::= insert allocationId message |>).

(** The set of the shares whose payment is running: looked up and extended in
    one go, since [useRef] is not a state of React. *)
Definition acquirePayoutLock (allocationId : string) : ui bool :=
  Act (fun a => if decide (allocationId ∈ ds_payoutLocks (app_state a)) then (a, false)
                else (a <| app_state ::= (fun s => s <| ds_payoutLocks ::= union {[allocationId]} |>) |>, true)) Ret.

Definition releasePayoutLock (allocationId : string) : ui unit :=
  modify (fun s => s <| ds_payoutLocks ::= (fun locks => locks ∖ {[allocationId]}) |>).

(** The loop that follows the payout: whether it reached an end. *)
Fixpoint followPayout (polls : nat) (allocationId payoutId : string) : ui bool :=
  match polls with
  | O => Ret false
  | S polls' =>
      let* current := api "GET" ("/payouts/" +:+ payoutId) None in
      let status := text_of current "status" in
      do* setProgress allocationId
        (if status ==? "CONFIRMED" then t "dash.progress.confirmed"
         else t "dash.progress.onchain" +:+ " " +:+ status) in
      if includes ["FINALIZED"; "FAILED"] status then Ret true
      else do* log (Slept 3000) in followPayout polls' allocationId payoutId
  end.

Definition payUsdcInner (r : Render) (allocationId : string) : ui unit :=
  do* setProgress allocationId (t "dash.progress.create") in
  let* payout := api "POST" "/payouts" (Some (JObj [("allocationId", JStr allocationId)])) in
  let status := text_of payout "status" in
  if includes ["SUBMITTED"; "CONFIRMED"] status then
    do* setProgress allocationId (t "dash.progress.verifying") in
    do* refreshBatch r in
    refreshUnmapped r
  else if status ==? "FINALIZED" then
    do* setProgress allocationId (t "dash.progress.onchain" +:+ " FINALIZED") in
    do* refreshBatch r in
    refreshUnmapped r
  else
    let payoutId := text_of payout "id" in
    do* setProgress allocationId (t "dash.progress.build") in
    let* tx := api "GET" ("/payouts/" +:+ payoutId +:+ "/transaction") None in
    do* setProgress allocationId (t "dash.progress.sign") in
    let* signed := signTransactionBase64 (text_of tx "transactionBase64") (text_of tx "signer") in
    do* setProgress allocationId (t "dash.progress.submit") in
    let* _ := api "POST" ("/payouts/" +:+ payoutId +:+ "/submit")
      (Some (JObj [("signedTransactionBase64", JStr signed)])) in
    let* terminal := followPayout 30 allocationId payoutId in
    do* (if terminal then Ret tt else setProgress allocationId (t "dash.progress.verifying")) in
    do* refreshBatch r in
    do* refreshUnmapped r in
    refreshSettlementClose r.

(** The [catch] of the payment: the failure is shown in the row of the share. *)
Definition payment_failed (r : Render) (allocationId : string) (e : exn) : ui unit :=
  let message := exn_message e in
  if isPayoutVerificationError message then
    do* setProgress allocationId (t "dash.progress.verifying") in
    catch (refreshBatch r) guard
  else if isPayoutBlockhashExpiredError message then
    do* setProgress allocationId (t "dash.progress.expired") in
    catch (refreshBatch r) guard
  else
    do* setProgress allocationId (t "dash.progress.failed" +:+ ": " +:+ message) in
    guard e.

Definition payUsdc (r : Render) (allocationId : string) : ui unit :=
  let* acquired := acquirePayoutLock allocationId in
  if negb acquired then Ret tt else
  do* setBusy true in
  do* modify (setError None) in
  finally (catch (payUsdcInner r allocationId) (payment_failed r allocationId))
          (do* releasePayoutLock allocationId in setBusy false).

(** The rail of the evidence: the planned one unless it is USDC. *)
Definition legacy_rail (allocation : json) : string :=
  match as_string (field allocation "plannedPayoutRail") with
  | Some rail => if (rail ==? "") || (rail ==? "USDC") then "PAYROLL" else rail
  | None => "PAYROLL"
  end.

Definition payLegacy (r : Render) (allocation : json) (reference : string) : ui unit :=
  run (let id := text_of allocation "id" in
       do* catch
         (let* _ := api "POST" "/payouts/legacy-evidence"
            (Some (JObj [("allocationId", JStr id); ("rail", JStr (legacy_rail allocation));
                         ("externalReference", JStr reference)])) in
          do* setProgress id (t "dash.progress.legacyDone") in
          modify (fun s => s <| ds_legacyOpenFor := None |>))
         (fun e => do* setProgress id (t "dash.progress.failed" +:+ ": " +:+ exn_message e) in Throw e) in
       do* refreshBatch r in
       do* refreshUnmapped r in
       refreshSettlementClose r).

Definition setPlannedRail (r : Render) (allocationId rail : string) : ui unit :=
  run (let* _ := api "PATCH" ("/allocation-batches/allocations/" +:+ allocationId +:+ "/planned-rail")
         (Some (JObj [("rail", JStr rail)])) in
       do* refreshBatch r in
       refreshSettlementClose r).

Definition autoAssignRails (r : Render) : ui unit :=
  run (match rd_batch r with
       | None => Ret tt
       | Some batch =>
           let* result := api "POST" ("/allocation-batches/" +:+ text_of batch "id" +:+ "/auto-assign-rails")
             (Some (JObj [])) in
           do* setBatch (field result "batch") in
           refreshSettlementClose r
       end).

Definition exportPayroll (r : Render) : ui unit :=
  run (let* result := api "GET" ("/venues/" +:+ rd_venueId r +:+ "/payroll-export?businessDate="
                                 +:+ encodeURI (rd_businessDate r)) None in
       log (Downloaded (text_of result "filename") (text_of result "csv"))).

Definition rebuildIncome (r : Render) : ui unit :=
  run (let* result := api "POST" ("/venues/" +:+ rd_venueId r +:+ "/income/rebuild") (Some (JObj [])) in
       do* modify (fun s => s <| ds_rebuildResult := Some result |>) in
       refreshUnmapped r).

(** What the user does on the page, each in the render he did it in. *)
Inductive click :=
| Connect
| CreateFirstVenue (r : Render)
| InviteOrgMember (r : Render)
| FillToastDemoCsv
| SyncSquare (r : Render)
| ImportCsv (r : Render)
| RequestWorkerMapping (r : Render) (provider externalWorkerId : string)
| InviteNewWorker (r : Render)
| Calculate (r : Render)
| Approve (r : Render)
| OpenBatch (id businessDate : string)
| PayUsdc (r : Render) (allocationId : string)
| PayLegacy (r : Render) (allocation : json) (reference : string)
| SetPlannedRail (r : Render) (allocationId rail : string)
| AutoAssignRails (r : Render)
| ExportPayroll (r : Render)
| RebuildIncome (r : Render).

Definition handle (c : click) : ui unit :=
  match c with
  | Connect => connect
  | CreateFirstVenue r => createFirstVenue r
  | InviteOrgMember r => inviteOrgMember r
  | FillToastDemoCsv => fillToastDemoCsv
  | SyncSquare r => syncSquare r
  | ImportCsv r => importCsv r
  | RequestWorkerMapping r provider externalWorkerId => requestWorkerMapping r provider externalWorkerId
  | InviteNewWorker r => inviteNewWorker r
  | Calculate r => calculate r
  | Approve r => approve r
  | OpenBatch id businessDate => openBatch id businessDate
  | PayUsdc r allocationId => payUsdc r allocationId
  | PayLegacy r allocation reference => payLegacy r allocation reference
  | SetPlannedRail r allocationId rail => setPlannedRail r allocationId rail
  | AutoAssignRails r => autoAssignRails r
  | ExportPayroll r => exportPayroll r
  | RebuildIncome r => rebuildIncome r
  end.
End handlers.

(** The amounts and the conditions the page shows. *)
Definition in_dollars (cents : Z) : string :=
  if cents <? 0 then "-" +:+ DisclosureService.toFixed2 (- cents) else DisclosureService.toFixed2 cents.
Definition usd (cents : Z) : string := "$" +:+ in_dollars cents.
Definition tusdc (cents : Z) : string := in_dollars cents +:+ " tUSDC".

Definition payable (batch : option json) : bool :=
  match batch with
  | Some b => includes ["PAYABLE"; "PARTIALLY_PAID"; "PAID"] (text_of b "status")
  | None => false
  end.

Definition onchainPayoutReady (settlementClose : option json) : bool :=
  match settlementClose ≫= (fun close => field close "treasury") with
  | Some treasury =>
      (text_of treasury "status" ==? "AVAILABLE") &&
      (match as_number (field treasury "differenceUsdCents") with Some d => 0 <=? d | None => false end) &&
      truthy (as_string (field treasury "signerWallet")) &&
      (match as_number (field treasury "signerSolLamports") with Some n => 0 <? n | None => false end)
  | None => false
  end.

(** A share of a worker of the platform without a rail, not yet paid. *)
Definition share_unassigned (a : json) : bool :=
  (match field a "worker" with None | Some JNull => false | Some _ => true end) &&
  negb (truthy (as_string (field a "plannedPayoutRail"))) &&
  negb (text_of a "payoutStatus" ==? "PAID").

Definition hasUnassignedRails (batch : option json) : bool :=
  match batch with Some b => existsb share_unassigned (json_items (field b "allocations")) | None => false end.
End Dashboard.
