(* ===== verification/WalletPrompts.v ===== *)
(** * The prompts of the wallet

    The dashboard asks the wallet of the venue to sign the payout of a share.
    Two signatures for one share would be two transfers; the page holds a lock
    per share while its payment runs.  In every interleaving of clicks the
    prompts that are open belong to different shares
    ([one_prompt_per_share]), and a share whose payout is already resolving is
    not signed again ([resolving_payout_not_signed]). *)

From stdpp Require Import relations gmap strings.
From S2P Require Import Prelude Concurrency Strings Schema WebSession Pages Dashboard.

Open Scope Z_scope.

Module WalletPrompts.
Import Pages Dashboard.

(** A prompt that is answered is closed. *)
Fixpoint close_prompt (tx : string) (prompts : list string) : list string :=
  match prompts with
  | [] => []
  | p :: prompts' => if p ==? tx then prompts' else p :: close_prompt tx prompts'
  end.

Definition prompt_event (prompts : list string) (e : io) : list string :=
  match e with
  | PromptOpened tx => tx :: prompts
  | PromptClosed tx => close_prompt tx prompts
  | _ => prompts
  end.

(** The prompts open after what the page did. *)
Definition open_prompts (l : list io) : list string := fold_left prompt_event l [].
#[global] Arguments open_prompts : simpl never.

Lemma open_prompts_snoc l e : open_prompts (l ++ [e]) = prompt_event (open_prompts l) e.
Proof. unfold open_prompts. by rewrite fold_left_app. Qed.

Lemma close_prompt_Permutation tx l m : l ≡ₚ tx :: m -> close_prompt tx l ≡ₚ m.
Proof.
  revert m. induction l as [|x l IH]; intros m Hp; [by apply Permutation_nil_cons in Hp|]. cbn.
  destruct (bool_decide_reflect (x = tx)) as [->|Hne]; [by apply Permutation_cons_inv in Hp|].
  assert (x ∈ m) as [m1 [m2 ->]]%list_elem_of_split.
  { assert (x ∈ tx :: m) as Hin by (rewrite <- Hp; by left). by apply elem_of_cons in Hin as [?|?]. }
  rewrite <- Permutation_middle in Hp |- *. constructor. apply IH.
  apply (Permutation_cons_inv (a := x)). rewrite Hp. apply perm_swap.
Qed.

(** What the payout endpoints of the API promise: a payout is one of the share
    asked for, and the transaction of a payout settles the share of the payout. *)
Class PayoutApi `{Client} (payout_share tx_share : string -> string) : Prop := {
  payouts_post a n j :
    apiAnswer "POST" "/payouts" (Some (JObj [("allocationId", JStr a)])) n = Ok j ->
    payout_share (text_of j "id") = a;
  payouts_transaction id n j :
    apiAnswer "GET" ("/payouts/" +:+ id +:+ "/transaction") None n = Ok j ->
    tx_share (text_of j "transactionBase64") = payout_share id
}.

(* ------------------------------------------------------------------ *)
(** ** The actions that leave the locks and the prompts alone *)

Definition quiet (a a' : App Dash) : Prop :=
  ds_payoutLocks (app_state a') = ds_payoutLocks (app_state a) /\
  open_prompts (app_log a') = open_prompts (app_log a).

#[export] Instance quiet_preorder : PreOrder quiet.
Proof. split; [done|]. intros a1 a2 a3 [] []. split; congruence. Qed.

Section protocol.
Context `{PayoutApi}.

Abbreviation ui := (prog (App Dash)).

Lemma quiet_modify (f : Dash -> Dash) : (forall s, ds_payoutLocks (f s) = ds_payoutLocks s) -> guar quiet (modify f).
Proof. intros Hf a. split; [|done]. by split; cbn. Qed.

Lemma quiet_log e : (forall l, prompt_event l e = l) -> guar quiet (log (St:=Dash) e).
Proof. intros He a. split; [|done]. split; [done|]. cbn. by rewrite open_prompts_snoc. Qed.

Lemma quiet_push route : guar quiet (push (St:=Dash) route).
Proof. done. Qed.

Lemma quiet_outside {A} (f : nat -> A) : guar quiet (outside (St:=Dash) f).
Proof. done. Qed.

Lemma quiet_api method path body : guar quiet (api (St:=Dash) method path body).
Proof.
  apply guar_bind; [by apply quiet_log|]. intros _. apply guar_bind; [apply quiet_outside|intros; apply guar_lift].
Qed.

Lemma quiet_finally {A} (p : ui A) cleanup : guar quiet p -> guar quiet cleanup -> guar quiet (finally p cleanup).
Proof.
  intros Hp Hc. apply guar_bind; [|intros r; apply guar_bind; [done|intros; apply guar_lift]].
  apply guar_catch; [by apply guar_bind|done].
Qed.

Hint Resolve quiet_modify quiet_log quiet_push quiet_outside quiet_api quiet_finally : quiet.

(** The rules by the shape of the code. *)
Ltac guar_quiet :=
  repeat (cbv beta zeta;
          first [ progress intros | done | solve [auto with quiet] | apply quiet_modify; done | apply quiet_finally
                | apply quiet_log; done | guar_step_at quiet | case_match ]).

Lemma quiet_guard e : guar quiet (guard e).
Proof. unfold guard, Pages.guard. guar_quiet. Qed.

Lemma quiet_run p : guar quiet p -> guar quiet (run p).
Proof. pose proof quiet_guard. intros Hp. unfold run, setBusy. guar_quiet. Qed.

Lemma quiet_refreshBatch r : guar quiet (refreshBatch r).
Proof. unfold refreshBatch, setBatch. guar_quiet. Qed.
Lemma quiet_refreshUnmapped r : guar quiet (refreshUnmapped r).
Proof. unfold refreshUnmapped, invalidateApiQueries. guar_quiet. Qed.
Lemma quiet_refreshSettlementClose r : guar quiet (refreshSettlementClose r).
Proof. unfold refreshSettlementClose, invalidateApiQueries. guar_quiet. Qed.
Lemma quiet_connectWallet b : guar quiet (connectWallet (St:=Dash) b).
Proof. unfold connectWallet, getProvider, outside_may_fail. guar_quiet. Qed.
Lemma quiet_setProgress a m : guar quiet (setProgress a m).
Proof. by apply quiet_modify. Qed.
Lemma quiet_sendMappingRequest r p x e : guar quiet (sendMappingRequest r p x e).
Proof. pose proof (quiet_refreshUnmapped r). unfold sendMappingRequest. guar_quiet. Qed.
Lemma quiet_followPayout n a id : guar quiet (followPayout n a id).
Proof. pose proof quiet_setProgress. induction n as [|n IH]; cbn [followPayout]; guar_quiet. Qed.

Hint Resolve quiet_guard quiet_run quiet_refreshBatch quiet_refreshUnmapped quiet_refreshSettlementClose
  quiet_connectWallet quiet_setProgress quiet_sendMappingRequest quiet_followPayout : quiet.

Lemma quiet_payment_failed r a e : guar quiet (payment_failed r a e).
Proof. unfold payment_failed. guar_quiet. Qed.
Hint Resolve quiet_payment_failed : quiet.

(** Every click but a payment. *)
Lemma quiet_handle c : (forall r a, c <> PayUsdc r a) -> guar quiet (handle c).
Proof.
  intros Hc. destruct c as [| | | | | | | | | | |r a| | | | |]; cbn [handle]; [..|by destruct (Hc r a)| | | | |];
    unfold connect, createFirstVenue, inviteOrgMember, fillToastDemoCsv, syncSquare, importCsv, requestWorkerMapping,
      inviteNewWorker, calculate, approve, openBatch, payLegacy, setPlannedRail, autoAssignRails, exportPayroll,
      rebuildIncome, setBatch, setBusinessDate, invalidateApiQueries; guar_quiet.
Qed.

(* ------------------------------------------------------------------ *)
(** ** The stages of a payment *)

Inductive stage := Idle | Paying (a : string) | Prompting (a tx : string).

Definition share_of (s : stage) : option string :=
  match s with Idle => None | Paying a | Prompting a _ => Some a end.
Definition prompt_of (s : stage) : option string :=
  match s with Prompting _ tx => Some tx | _ => None end.

Definition stage_ok (app : App Dash) (s : stage) : Prop :=
  match s with
  | Idle => True
  | Paying a => a ∈ ds_payoutLocks (app_state app)
  | Prompting a tx => a ∈ ds_payoutLocks (app_state app) /\ tx_share tx = a
  end.

(** The shares of the running payments are locked and distinct, and the open
    prompts are those of the payments that wait for the wallet. *)
Record protocol (app : App Dash) (ss : list stage) : Prop := {
  pr_stages : Forall (stage_ok app) ss;
  pr_shares : NoDup (omap share_of ss);
  pr_prompts : open_prompts (app_log app) ≡ₚ omap prompt_of ss
}.

Lemma protocol_quiet app app' ss : quiet app app' -> protocol app ss -> protocol app' ss.
Proof.
  intros [El Ep] [H1 H2 H3]. split; [|done|by rewrite Ep].
  eapply Forall_impl; [exact H1|]. intros [|a|a tx]; cbn; by rewrite ?El.
Qed.

Abbreviation outlined := (outline protocol).

Lemma outline_quiet_at {A} s (p : ui A) : guar quiet p -> outlined s p (ends_at s).
Proof. apply outline_guar. intros app app' ss. apply protocol_quiet. Qed.

(** A quiet part, and the rest at the same stage. *)
Lemma outline_quiet_bind {A B} s (p : ui A) (f : A -> ui B) Q :
  guar quiet p -> (forall a, outlined s (f a) Q) -> (forall e, Q (Err e) s) -> outlined s (bind p f) Q.
Proof. intros Hp. eapply outline_bind_at. by apply outline_quiet_at. Qed.

(** The same for a part that does not throw. *)
Lemma outline_quiet_returns {A B} s (p : ui A) (f : A -> ui B) Q :
  guar quiet p -> returns p -> (forall a, outlined s (f a) Q) -> outlined s (bind p f) Q.
Proof. apply outline_returns_bind. intros app app' ss. apply protocol_quiet. Qed.

Lemma split_stage (ss : list stage) i s s' :
  ss !! i = Some s -> exists l1 l2, ss = l1 ++ s :: l2 /\ <[i:=s']> ss = l1 ++ s' :: l2.
Proof.
  intros Hi. exists (take i ss), (drop (S i) ss). split; [symmetry; by apply take_drop_middle|].
  apply insert_take_drop. by eapply lookup_lt_Some.
Qed.

Lemma protocol_lock app ss i a :
  protocol app ss -> ss !! i = Some Idle -> a ∉ ds_payoutLocks (app_state app) ->
  protocol (app <| app_state ::= (fun s => s <| ds_payoutLocks ::= union {[a]} |>) |>) (<[i:=Paying a]> ss).
Proof.
  intros [H1 H2 H3] Hi Ha. destruct (split_stage ss i Idle (Paying a) Hi) as (l1 & l2 & -> & ->).
  rewrite omap_app in H2, H3. rewrite Forall_app, Forall_cons in H1. destruct H1 as (F1 & _ & F2).
  assert (forall s, stage_ok app s -> stage_ok (app <| app_state ::= (fun s => s <| ds_payoutLocks ::= union {[a]} |>) |>) s)
    as Hmono by (intros [|b|b tx]; cbn; set_solver).
  split; cbn; rewrite ?omap_app; [|cbn|done].
  - apply Forall_app. split; [by eapply Forall_impl|]. constructor; [cbn; set_solver|by eapply Forall_impl].
  - rewrite <- Permutation_middle. constructor; [|done]. rewrite <- omap_app. intros (s & Hin & Hs)%list_elem_of_omap.
    apply Ha. assert (stage_ok app s) as Hok.
    { apply (proj1 (Forall_forall (stage_ok app) (l1 ++ l2))); [by apply Forall_app|done]. }
    destruct s as [|b|b tx]; cbn in Hs, Hok; naive_solver.
Qed.

Lemma protocol_unlock app ss i a :
  protocol app ss -> ss !! i = Some (Paying a) ->
  protocol (app <| app_state ::= (fun s => s <| ds_payoutLocks ::= (fun locks => locks ∖ {[a]}) |>) |>) (<[i:=Idle]> ss).
Proof.
  intros [H1 H2 H3] Hi. destruct (split_stage ss i _ Idle Hi) as (l1 & l2 & -> & ->).
  rewrite omap_app in H2, H3. rewrite Forall_app, Forall_cons in H1. destruct H1 as (F1 & _ & F2).
  cbn in H2. rewrite <- Permutation_middle in H2. apply NoDup_cons in H2 as [Ha H2]. rewrite <- omap_app in Ha.
  split; cbn; rewrite ?omap_app; [|done|done].
  assert (Forall (stage_ok (app <| app_state ::= (fun s => s <| ds_payoutLocks ::= (fun locks => locks ∖ {[a]}) |>) |>)) (l1 ++ l2))
    as [G1 G2]%Forall_app; [|by apply Forall_app; split; [|constructor]].
  apply Forall_forall. intros s Hin. assert (stage_ok app s) as Hok.
  { apply (proj1 (Forall_forall (stage_ok app) (l1 ++ l2))); [by apply Forall_app|done]. }
  assert (share_of s <> Some a) as Hne. { intros E. apply Ha. apply list_elem_of_omap. eauto. }
  destruct s as [|b|b tx]; cbn in *; [done| |]; set_solver.
Qed.

Lemma protocol_open app ss i a tx :
  protocol app ss -> ss !! i = Some (Paying a) -> tx_share tx = a ->
  protocol (app <| app_log ::= (fun l => l ++ [PromptOpened tx]) |>) (<[i:=Prompting a tx]> ss).
Proof.
  intros [H1 H2 H3] Hi Ha. destruct (split_stage ss i _ (Prompting a tx) Hi) as (l1 & l2 & -> & ->).
  rewrite omap_app in H2, H3. rewrite Forall_app, Forall_cons in H1. destruct H1 as (F1 & F & F2).
  split; cbn; rewrite ?omap_app; [by apply Forall_app; split; [|constructor]|done|].
  rewrite open_prompts_snoc. cbn. rewrite H3. cbn. by rewrite <- Permutation_middle.
Qed.

Lemma protocol_close app ss i a tx :
  protocol app ss -> ss !! i = Some (Prompting a tx) ->
  protocol (app <| app_log ::= (fun l => l ++ [PromptClosed tx]) |>) (<[i:=Paying a]> ss).
Proof.
  intros [H1 H2 H3] Hi. destruct (split_stage ss i _ (Paying a) Hi) as (l1 & l2 & -> & ->).
  rewrite omap_app in H2, H3. rewrite Forall_app, Forall_cons in H1. destruct H1 as (F1 & [F _] & F2).
  split; cbn; rewrite ?omap_app; [by apply Forall_app; split; [|constructor]|done|].
  rewrite open_prompts_snoc. cbn. apply close_prompt_Permutation. rewrite H3. cbn. by rewrite <- Permutation_middle.
Qed.

(* ------------------------------------------------------------------ *)
(** ** The outline of a payment *)

Lemma outline_sign a tx signer :
  tx_share tx = a -> outlined (Paying a) (signTransactionBase64 tx signer) (ends_at (Paying a)).
Proof.
  intros Htx. unfold signTransactionBase64.
  apply outline_quiet_bind; [unfold getProvider; guar_quiet|intros _|done].
  apply outline_quiet_bind; [unfold outside_may_fail; guar_quiet|intros publicKey|done].
  apply outline_quiet_bind; [guar_quiet|intros _|done].
  apply outline_quiet_bind; [apply guar_lift|intros _|done].
  intros app ss i Hp Hi. exists (Prompting a tx). split; [by apply protocol_open|]. cbn [bind snd]. clear app ss i Hp Hi.
  apply outline_quiet_returns; [apply quiet_outside|done|intros signed].
  intros app ss i Hp Hi. exists (Paying a). split; [by apply protocol_close|]. cbn [bind snd].
  by apply outline_quiet_at, guar_lift.
Qed.

(** An answer of the API, with what it promises. *)
Lemma outline_call {B} s method path body (f : json -> ui B) Q :
  (forall n j, apiAnswer method path body n = Ok j -> outlined s (f j) Q) ->
  (forall e, Q (Err e) s) ->
  outlined s (let* j := api method path body in f j) Q.
Proof.
  intros Hf He. unfold api. apply outline_bind.
  apply outline_quiet_bind; [by apply quiet_log|intros _|exact He].
  intros app ss i Hp Hi. exists s. rewrite list_insert_id by done.
  split; [eapply protocol_quiet; [|done]; done|]. cbn [bind snd outside].
  destruct (apiAnswer method path body (app_tick app)) as [j|e] eqn:E; cbn; [by eapply Hf|apply He].
Qed.

Lemma outline_payUsdcInner r a : outlined (Paying a) (payUsdcInner r a) (ends_at (Paying a)).
Proof.
  unfold payUsdcInner. apply outline_quiet_bind; [guar_quiet|intros _|done].
  apply outline_call; [|done]. intros n payout Hpost. cbv zeta.
  destruct (includes _ _); [apply outline_quiet_at; guar_quiet|].
  destruct (_ ==? _); [apply outline_quiet_at; guar_quiet|].
  apply outline_quiet_bind; [guar_quiet|intros _|done].
  apply outline_call; [|done]. intros n' tx Htx.
  apply outline_quiet_bind; [guar_quiet|intros _|done].
  eapply outline_bind_at; [apply outline_sign|intros signed; apply outline_quiet_at; guar_quiet|done].
  rewrite (payouts_transaction _ _ _ Htx). by eapply payouts_post.
Qed.

Lemma outline_payUsdc r a : outlined Idle (payUsdc r a) (ends_at Idle).
Proof.
  unfold payUsdc. apply outline_bind. intros app ss i Hp Hi. cbn.
  destruct (decide _) as [Hin|Hnin]; cbn.
  { exists Idle. by rewrite list_insert_id. }
  exists (Paying a). split; [by apply protocol_lock|]. clear app ss i Hp Hi Hnin.
  cbn [negb bind snd].
  apply outline_quiet_returns; [unfold setBusy; guar_quiet|done|intros _].
  apply outline_quiet_returns; [guar_quiet|done|intros _].
  unfold finally. apply outline_bind. apply outline_weaken with (Q := fun o s => is_ok o = true /\ s = Paying a).
  - intros [o|e] s [Ho ->]; [|discriminate]. intros app ss i Hp Hi. exists Idle. split; [by apply protocol_unlock|].
    cbn [bind snd]. apply outline_quiet_at. unfold setBusy. guar_quiet.
  - apply outline_catch. apply outline_bind. apply outline_catch. eapply outline_weaken; [|apply outline_payUsdcInner].
    intros [[]|e] s ->; [by split|]. eapply outline_weaken; [|apply outline_quiet_at, quiet_payment_failed].
    intros [[]|e'] s ->; by split.
Qed.

Lemma outline_handle c : outlined Idle (handle c) (ends_at Idle).
Proof.
  assert ((exists r a, c = PayUsdc r a) \/ forall r a, c <> PayUsdc r a) as [(r & a & ->)|Hc]
    by (destruct c; eauto; by right).
  - apply outline_payUsdc.
  - by apply outline_quiet_at, quiet_handle.
Qed.

Lemma protocol_start app n : open_prompts (app_log app) = [] -> protocol app (replicate n Idle).
Proof.
  intros Hl. assert (forall B (f : stage -> option B), f Idle = None -> omap f (replicate n Idle) = []) as Ho.
  { intros B f Hf. induction n as [|n IH]; cbn; [done|]. by rewrite Hf. }
  split; rewrite ?Ho by done; [by apply Forall_replicate|constructor|by rewrite Hl].
Qed.

(** The shares of the open prompts are among those of the running payments. *)
Lemma protocol_prompts app ss : protocol app ss -> NoDup (map tx_share (open_prompts (app_log app))).
Proof.
  intros [H1 H2 H3]. rewrite H3.
  eapply sublist_NoDup; [exact H2|]. clear H2 H3. induction H1 as [|s ss Hs _ IH]; [constructor|].
  destruct s as [|a|a tx]; cbn; [done|by constructor|]. destruct Hs as [_ ->]. by constructor.
Qed.

End protocol.

(** C10: however the clicks of the dashboard interleave with the answers of the
    API and of the wallet, the prompts of the wallet that are open at a time
    settle different shares: no share is offered for signature twice at once. *)
Theorem one_prompt_per_share `{Client} (payout_share tx_share : string -> string) (app : App Dash) (clicks : list click) c :
  PayoutApi payout_share tx_share ->
  open_prompts (app_log app) = [] ->
  rtc pool_step (app, map handle clicks) c ->
  NoDup (map tx_share (open_prompts (app_log c.1))).
Proof.
  intros Hapi Hl Hr.
  destruct (pool_outline (@protocol tx_share) _ c (replicate (length clicks) Idle) Hr) as [ss Hp].
  - by apply protocol_start.
  - cbn. clear Hr. induction clicks as [|k clicks IH]; cbn; constructor; [|exact IH].
    eapply outline_weaken; [|by apply outline_handle]. done.
  - by eapply protocol_prompts.
Qed.

(* ------------------------------------------------------------------ *)
(** ** A demo *)

(** An API with two shares; [status] is that of the payouts it creates. *)
Definition demo_answer (status method path : string) (body : option json) (n : nat) : result json :=
  if method ==? "POST" then
    if path ==? "/payouts" then
      match body with
      | Some (JObj [(_, JStr a)]) => Ok (JObj [("id", JStr ("p-" +:+ a)); ("status", JStr status)])
      | _ => Err (ApiError 400 "allocationId is required")
      end
    else Ok (JObj [])
  else if path ==? "/payouts/p-A/transaction" then
    Ok (JObj [("transactionBase64", JStr "tx-A"); ("signer", JStr "VENUE")])
  else if path ==? "/payouts/p-B/transaction" then
    Ok (JObj [("transactionBase64", JStr "tx-B"); ("signer", JStr "VENUE")])
  else if path ==? "/payouts/p-A" then Ok (JObj [("id", JStr "p-A"); ("status", JStr "FINALIZED")])
  else Err (ApiError 404 "Not found").

#[local] Instance demo_client (status : string) : Client := {|
  apiAnswer := demo_answer status;
  deserialize := fun _ => Ok tt;
  walletInstalled := true;
  walletAccount := fun _ => None;
  walletConnect := fun _ => Ok "VENUE";
  walletDisconnect := fun _ => Ok tt;
  walletSign := fun tx _ => Ok ("signed " +:+ tx);
  clock := fun n => Z.of_nat n;
  encodeURI := fun s => s;
  t := fun k => k;
  randomAmount := fun _ _ _ => "1.00"
|}.

Definition demo_render : Render :=
  mkRender "venue" "2026-08-05" None "" None ∅ "" "" "" "" "" "" "" "MANAGER".
Definition demo_dash : Dash :=
  mkDash None ∅ None false "2026-08-05" None "" None None None ∅ "" "" "" None None None ∅.
Definition demo_app : App Dash := mkApp demo_dash None [] 0.

(** The share in the name of a payout or of a transaction. *)
Definition demo_payout_share (id : string) : string := slice_from id 2.
Definition demo_tx_share (tx : string) : string := slice_from tx 3.

Lemma demo_payout_api : @PayoutApi (demo_client "CREATED") demo_payout_share demo_tx_share.
Proof.
  split.
  - intros a n j [= <-]. by destruct a.
  - intros id n j. cbn [apiAnswer demo_client]. unfold demo_answer. change ("GET" ==? "POST") with false. cbv iota.
    repeat (case_bool_decide as E; [|clear E]); [..|done]; apply (str_app_inv_head "/payouts/") in E.
    + apply (str_app_inv_tail id "p-A" "/transaction" "/transaction" eq_refl) in E as [-> _]. by intros [= <-].
    + apply (str_app_inv_tail id "p-B" "/transaction" "/transaction" eq_refl) in E as [-> _]. by intros [= <-].
    + apply (f_equal String.length) in E. rewrite str_length_app in E. cbn in E. lia.
Qed.

(** Two clicks on one share and one on another: the first and the third reach
    the wallet, the second finds the lock taken; in the end all prompts are
    closed. *)
Lemma one_prompt_per_share_witness :
  let cs := map (@handle (demo_client "CREATED")) [PayUsdc demo_render "A"; PayUsdc demo_render "A"; PayUsdc demo_render "B"] in
  let c := schedule (repeat 0%nat 12 ++ repeat 1%nat 40 ++ repeat 2%nat 12) (demo_app, cs) in
  let c' := schedule (repeat 0%nat 60 ++ repeat 2%nat 300) c in
  open_prompts (app_log c.1) = ["tx-B"; "tx-A"] /\ open_prompts (app_log c'.1) = [] /\
  map (@Ret (App Dash) unit) [tt; tt; tt] = c'.2 /\
  NoDup (map demo_tx_share (open_prompts (app_log c.1))).
Proof.
  split; [vm_compute; reflexivity|]. split; [vm_compute; reflexivity|]. split; [vm_compute; reflexivity|].
  apply (@one_prompt_per_share (demo_client "CREATED") demo_payout_share demo_tx_share demo_app
           [PayUsdc demo_render "A"; PayUsdc demo_render "A"; PayUsdc demo_render "B"]).
  - exact demo_payout_api.
  - reflexivity.
  - apply schedule_sound.
Defined.

(* ------------------------------------------------------------------ *)
(** ** A payout that is already resolving *)

(** What the page did since then, without a prompt. *)
Definition no_prompt (a a' : App Dash) : Prop :=
  exists l, app_log a' = app_log a ++ l /\ forall tx, ~ In (PromptOpened tx) l.

Lemma no_prompt_same a a' : app_log a' = app_log a -> no_prompt a a'.
Proof. intros E. exists []. rewrite app_nil_r. split; [done|]. by intros tx []. Qed.

#[export] Instance no_prompt_preorder : PreOrder no_prompt.
Proof.
  split.
  - intros a. by apply no_prompt_same.
  - intros a1 a2 a3 (l1 & E1 & H1) (l2 & E2 & H2). exists (l1 ++ l2). rewrite E2, E1, app_assoc. split; [done|].
    intros tx [?|?]%in_app_iff; [by eapply H1|by eapply H2].
Qed.

Section resolving.
Context `{Client}.

Lemma no_prompt_modify (f : Dash -> Dash) : guar no_prompt (modify f).
Proof. intros a. split; [|done]. by apply no_prompt_same. Qed.

Lemma no_prompt_log e : (forall tx, e <> PromptOpened tx) -> guar no_prompt (log (St:=Dash) e).
Proof. intros He a. split; [|done]. exists [e]. split; [done|]. intros tx [->|[]]. by apply (He tx). Qed.

Lemma no_prompt_outside {A} (f : nat -> A) : guar no_prompt (outside (St:=Dash) f).
Proof. intros a. split; [|done]. by apply no_prompt_same. Qed.

Ltac guar_no_prompt :=
  repeat (cbv beta zeta;
          first [ progress intros | done | apply no_prompt_modify | apply no_prompt_log; done | apply no_prompt_outside
                | guar_step_at no_prompt | case_match ]).

Lemma no_prompt_push route : guar no_prompt (push (St:=Dash) route).
Proof. intros a. split; [|done]. by apply no_prompt_same. Qed.

Lemma no_prompt_failed r a e : guar no_prompt (payment_failed r a e).
Proof.
  pose proof no_prompt_push.
  unfold payment_failed, setProgress, refreshBatch, guard, Pages.guard, setBatch, api, outside_may_fail.
  guar_no_prompt; auto.
Qed.

(** The part of a payment after a payout that is already resolving. *)
Lemma no_prompt_resolving r a m :
  guar no_prompt (do* setProgress a m in do* refreshBatch r in refreshUnmapped r).
Proof.
  unfold setProgress, refreshBatch, refreshUnmapped, setBatch, api, outside_may_fail, invalidateApiQueries.
  guar_no_prompt.
Qed.

(** The world of a payment when its first request is answered. *)
Definition payment_asked (a : string) (app : App Dash) : App Dash :=
  app <| app_state ::= (fun s => s <| ds_progress ::= insert a (t "dash.progress.create") |>) |>
      <| app_log ::= (fun l => l ++ [Called "POST" "/payouts" (Some (JObj [("allocationId", JStr a)]))]) |>
      <| app_tick ::= S |>.

Lemma run_payUsdcInner_resolving r a app payout :
  apiAnswer "POST" "/payouts" (Some (JObj [("allocationId", JStr a)])) (app_tick app) = Ok payout ->
  In (text_of payout "status") ["SUBMITTED"; "CONFIRMED"; "FINALIZED"] ->
  exists m, Prelude.run (payUsdcInner r a) app =
    Prelude.run (do* setProgress a m in do* refreshBatch r in refreshUnmapped r) (payment_asked a app).
Proof.
  intros Hpost Hst. unfold payUsdcInner, setProgress at 1. rewrite run_bind, run_modify, run_bind, run_api.
  match goal with |- context [apiAnswer _ _ _ (app_tick ?w)] => change (app_tick w) with (app_tick app) end.
  rewrite Hpost. cbv zeta.
  destruct Hst as [<-|[<-|[<-|[]]]]; eexists; reflexivity.
Qed.

Lemma no_prompt_asked a app : no_prompt app (payment_asked a app).
Proof. eexists. split; [reflexivity|]. by intros tx [|[]]. Qed.

Lemma no_prompt_inner r a app payout :
  apiAnswer "POST" "/payouts" (Some (JObj [("allocationId", JStr a)])) (app_tick app) = Ok payout ->
  In (text_of payout "status") ["SUBMITTED"; "CONFIRMED"; "FINALIZED"] ->
  no_prompt app (Prelude.run (catch (payUsdcInner r a) (payment_failed r a)) app).1.
Proof.
  intros Hpost Hst. rewrite run_catch. destruct (run_payUsdcInner_resolving r a app payout Hpost Hst) as [m ->].
  pose proof (guar_run no_prompt _ (payment_asked a app) (no_prompt_resolving r a m)) as Hn.
  pose proof (no_prompt_asked a app). destruct (Prelude.run _ _) as [w [x|e]]; cbn in *; [by etrans|].
  etrans; [done|]. etrans; [exact Hn|]. apply guar_run; [apply _|apply no_prompt_failed].
Qed.

(** The world in which the body of a payment starts, and the one it leaves. *)
Definition payment_locked (a : string) (app : App Dash) : App Dash :=
  app <| app_state ::= (fun s => s <| ds_payoutLocks ::= union {[a]} |>) |>
      <| app_state ::= (fun s => s <| ds_busy := true |>) |>
      <| app_state ::= (fun s => s <| ds_error := None |>) |>.

Definition payment_ended (a : string) (app : App Dash) : App Dash :=
  app <| app_state ::= (fun s => s <| ds_payoutLocks ::= (fun locks => locks ∖ {[a]}) |>) |>
      <| app_state ::= (fun s => s <| ds_busy := false |>) |>.

Lemma run_payUsdc r a app :
  a ∉ ds_payoutLocks (app_state app) ->
  (Prelude.run (payUsdc r a) app).1 =
  payment_ended a (Prelude.run (catch (payUsdcInner r a) (payment_failed r a)) (payment_locked a app)).1.
Proof.
  intros Ha. unfold payUsdc. rewrite run_bind. cbn [acquirePayoutLock Prelude.run]. rewrite decide_False by done.
  cbn [negb]. unfold setBusy at 1. rewrite run_bind, run_modify, run_bind, run_modify, run_finally.
  unfold releasePayoutLock, setBusy. rewrite run_bind, run_modify, run_modify. done.
Qed.

Lemma unlock_lock (a : string) (locks : gset string) : a ∉ locks -> ({[a]} ∪ locks) ∖ {[a]} = locks.
Proof. set_solver. Qed.

(** The body of a payment leaves the locks, whatever fails. *)
Lemma locks_body r a :
  guar (same_on (fun app => ds_payoutLocks (app_state app))) (catch (payUsdcInner r a) (payment_failed r a)).
Proof.
  assert (forall n id, guar (same_on (fun app => ds_payoutLocks (app_state app))) (followPayout n a id)) as Hf.
  { intros n id. induction n as [|n IH]; cbn [followPayout]; unfold setProgress, api, outside_may_fail;
      guar_at (same_on (fun app : App Dash => ds_payoutLocks (app_state app))). }
  unfold payUsdcInner, payment_failed, signTransactionBase64, getProvider, setProgress, refreshBatch, refreshUnmapped,
    refreshSettlementClose, invalidateApiQueries, setBatch, guard, Pages.guard, api, outside_may_fail.
  guar_at (same_on (fun app : App Dash => ds_payoutLocks (app_state app))); auto.
Qed.
End resolving.

(** a share whose payout is already submitted, confirmed or final is not
    signed again: the payment ends without a prompt of the wallet, and the share
    can be paid for again. *)
Theorem resolving_payout_not_signed `{Client} r a app payout :
  a ∉ ds_payoutLocks (app_state app) ->
  apiAnswer "POST" "/payouts" (Some (JObj [("allocationId", JStr a)])) (app_tick app) = Ok payout ->
  In (text_of payout "status") ["SUBMITTED"; "CONFIRMED"; "FINALIZED"] ->
  let app' := (Prelude.run (payUsdc r a) app).1 in
  no_prompt app app' /\ ds_payoutLocks (app_state app') = ds_payoutLocks (app_state app) /\
  ds_busy (app_state app') = false.
Proof.
  intros Ha Hpost Hst app'. unfold app'. rewrite run_payUsdc by done. split_and!; [| |done].
  - etrans; [apply (no_prompt_same app (payment_locked a app)); done|].
    etrans; [eapply (no_prompt_inner r a (payment_locked a app)); [exact Hpost|exact Hst]|].
    by apply no_prompt_same.
  - pose proof (guar_run _ _ (payment_locked a app) (locks_body r a)) as E. unfold same_on in E.
    unfold payment_ended. cbn. rewrite E. by apply unlock_lock.
Qed.

(** A share whose payout is final: it is shown so, without a signature. *)
Lemma resolving_payout_not_signed_witness :
  let app' := (Prelude.run (@payUsdc (demo_client "FINALIZED") demo_render "A") demo_app).1 in
  ds_progress (app_state app') !! "A" = Some "dash.progress.onchain FINALIZED" /\ no_prompt demo_app app' /\
  ds_payoutLocks (app_state app') = ∅ /\ ds_busy (app_state app') = false.
Proof.
  split; [vm_compute; reflexivity|].
  apply (@resolving_payout_not_signed (demo_client "FINALIZED") demo_render "A" demo_app
           (JObj [("id", JStr "p-A"); ("status", JStr "FINALIZED")])).
  - done.
  - reflexivity.
  - right; right; left; reflexivity.
Defined.
End WalletPrompts.
