(* ===== verification/VerifyPage.v ===== *)
(** * The page of a verifier

    apps/web/src/app/verify/[token]/page.tsx against the service it calls
    (Disclosure): loading a report with the session kept in the tab, asking for
    a code, entering it, and what the page shows of the answer.  The server is a
    parameter of the page; [disclosure_server] is the one of the repository.
    [recipient_opens_report]: the recipient who enters the code of a valid report
    sees its figures. *)

From S2P Require Import Prelude Concurrency Strings Schema Runtime Demo Access Square IncomeProjector Disclosure WebSession Dashboard.

Open Scope Z_scope.

Module VerifyPage.
Import DisclosureService.
Import SquareClient(js_truthy).
Export WebSession(field, as_string).

(** The public endpoints, as the page calls them: [GET /verify/:token] with the
    [x-disclosure-session] header, and the two access endpoints. *)
Record PublicApi (Srv : Type) := mkPublicApi {
  getReport : string -> option string -> prog Srv json;
  postAccessRequest : string -> prog Srv json;
  postAccessVerify : string -> string -> prog Srv json
}.
Arguments getReport {Srv} _ _ _.
Arguments postAccessRequest {Srv} _ _.
Arguments postAccessVerify {Srv} _ _ _.

(** What JavaScript makes of values that are not strings or whole numbers. *)
Class Showing := {
  textOf : json -> string;
  usdOf : json -> string;
  atMostOne : json -> bool
}.

Record VerifyState := mkVerify {
  vp_result : option json;
  vp_error : option string;
  vp_otpRequested : bool;
  vp_otpCode : string;
  vp_busy : bool;
  vp_devCode : option string
}.
#[export] Instance eta_VerifyState : Eta VerifyState := fun r => mkVerify
  (vp_result r) (vp_error r) (vp_otpRequested r) (vp_otpCode r) (vp_busy r) (vp_devCode r).

Definition opened : VerifyState := mkVerify None None false "" false None.

(** A tab on the page: its state, the session storage of the tab, and the server. *)
Record Visit (Srv : Type) := mkVisit {
  vi_page : VerifyState;
  vi_storage : list (string * string);
  vi_server : Srv
}.
Arguments mkVisit {Srv} _ _ _.
Arguments vi_page {Srv} _.
Arguments vi_storage {Srv} _.
Arguments vi_server {Srv} _.
#[export] Instance eta_Visit Srv : Eta (Visit Srv) := fun r => mkVisit (vi_page r) (vi_storage r) (vi_server r).

Definition sessionKey (token : string) : string := "serveproof-disclosure-session:" +:+ token.

Section page.
Context {Srv : Type} (server : PublicApi Srv).

Abbreviation ui := (prog (Visit Srv)).

Definition set (f : VerifyState -> VerifyState) : ui unit := Act (fun v => (v <| vi_page ::= f |>, tt)) Ret.
Definition call {A} (p : prog Srv A) : ui A := within vi_server (fun s v => v <| vi_server := s |>) p.
Definition setError (e : option string) : ui unit := set (fun s => s <| vp_error := e |>).
Definition setBusy (b : bool) : ui unit := set (fun s => s <| vp_busy := b |>).

(** A header is sent for a session that is not empty. *)
Definition loadReport (token : string) (accessSession : option string) : ui unit :=
  let* loaded := call (getReport server token (if truthy accessSession then accessSession else None)) in
  set (fun s => s <| vp_result := Some loaded |>).

Definition shown_failure (p : ui unit) : ui unit := catch p (fun e => setError (Some (exn_message e))).

(** The effect of the page for a token. *)
Definition openPage (token : string) : ui unit :=
  let* accessSession := query (fun v => map_get (vi_storage v) (sessionKey token)) in
  shown_failure (loadReport token accessSession).

Definition requestOtp (token : string) : ui unit :=
  do* setBusy true in
  do* setError None in
  do* shown_failure (
    let* response := call (postAccessRequest server token) in
    do* set (fun s => s <| vp_otpRequested := js_truthy (field response "sent") |>) in
    let devCode := as_string (field response "devCode") in
    do* set (fun s => s <| vp_devCode := devCode |>) in
    if truthy devCode then set (fun s => s <| vp_otpCode := nullish devCode "" |>) else Ret tt) in
  setBusy false.

(** [otpCode] is the value of the render the handler belongs to. *)
Definition verifyOtp (token otpCode : string) : ui unit :=
  do* setBusy true in
  do* setError None in
  do* shown_failure (
    let* response := call (postAccessVerify server token otpCode) in
    let accessToken := nullish (as_string (field response "accessToken")) "undefined" in
    do* Act (fun v => (v <| vi_storage ::= (fun l => map_set l (sessionKey token) accessToken) |>, tt)) Ret in
    loadReport token (as_string (field response "accessToken"))) in
  setBusy false.

(** [event.target.value.replace(/\D/g, "")] *)
Definition enterCode (value : string) : ui unit :=
  set (fun s => s <| vp_otpCode := str_of_list (List.filter is_digit (list_of_str value)) |>).
End page.

(* ------------------------------------------------------------------ *)
(** ** What the page shows *)

Record CodeForm := mkCodeForm {
  cf_code : string;
  cf_devCode : option string;
  cf_verifyEnabled : bool;
  cf_resendEnabled : bool
}.

(** The card that asks for a code: a button that sends one, then the form. *)
Inductive AuthCard :=
| AskCode (email : string) (enabled : bool)
| EnterCode (email : string) (form : CodeForm).

Inductive Figures :=
| Criterion (criterion : string) (holds : bool)
| Summary (rows : list (string * string)) (monthly : list (string * string)) (shortWindow : bool).

Record ReportView := mkReportView {
  rv_status : string;
  rv_info : list (string * string);
  rv_figures : option Figures;
  rv_entries : list (list string)
}.

Record Shown := mkShown {
  sh_loading : bool;
  sh_error : option string;
  sh_auth : option AuthCard;
  sh_report : option ReportView
}.

(** The keys of [STATUS_HERO] *)
Definition hero_statuses : list string := ["VALID"; "EXPIRED"; "REVOKED"; "CORRECTED"; "NOT_ISSUED"].

Section shown.
Context `{Showing}.

(** [String(x)] and [usd(x)] *)
Definition text (o : option json) : string :=
  match o with
  | None => "undefined"
  | Some JNull => "null"
  | Some (JBool b) => if b then "true" else "false"
  | Some (JInt z) => str_of_Z z
  | Some (JStr s) => s
  | Some x => textOf x
  end.
Definition usd (o : option json) : string :=
  match o with
  | None => "$NaN"
  | Some JNull => "$0.00"
  | Some (JInt z) => Dashboard.usd z
  | Some x => usdOf x
  end.

Definition is_number (o : option json) : bool :=
  match o with Some (JInt _) | Some (JFloat _) => true | _ => false end.

(** [Number(x) <= 1] *)
Definition at_most_one (o : option json) : bool :=
  match o with
  | None => false
  | Some (JInt z) => z <=? 1
  | Some x => atMostOne x
  end.

(** [Object.entries(o).sort()]: pairs are compared as texts. *)
Definition sorted_entries (o : option json) : list (string * json) :=
  match o with
  | Some (JObj l) => stable_sort (fun a b => str_lt (a.1 +:+ "," +:+ text (Some a.2)) (b.1 +:+ "," +:+ text (Some b.2))) l
  | _ => []
  end.

Definition figures (d : json) : Figures :=
  if as_string (field d "level") ==? Some "LEVEL_1"
  then Criterion (text (field d "criterion")) (js_truthy (field d "result"))
  else Summary
    ([("verify.totalIncome", usd (field d "totalVerifiedIncomeUsdCents"));
      ("verify.avgMonthly", usd (field d "avgMonthlyIncomeUsdCents"));
      ("verify.months", text (field d "monthsCovered"));
      ("verify.payers", text (field d "payerCount"));
      ("verify.bestGrade", text (field d "bestGrade"));
      ("verify.corrections", if js_truthy (field d "hasCorrections") then "verify.yes" else "verify.no")]
     ++ (if is_number (field d "posVerifiedSharePct")
         then [("verify.posShare", text (field d "posVerifiedSharePct") +:+ "%")] else [])
     ++ (if is_number (field d "observedShiftDays")
         then [("verify.observedDays", text (field d "observedShiftDays"))] else []))
    (map (fun e => (e.1, usd (Some e.2))) (sorted_entries (field d "monthlyBreakdown")))
    (at_most_one (field d "monthsCovered")).

Definition entry_row (e : json) : list string :=
  [text (field e "businessDate"); text (field e "venue"); usd (field e "allocatedUsdCents");
   usd (field e "paidUsdCents"); text (field e "withholdingStatus"); text (field e "evidenceGrade")].

Definition entry_rows (d : json) : list (list string) :=
  match field d "entries" with Some (JArr l) => map entry_row l | _ => [] end.

Definition or_none (o : option json) : string :=
  match o with None | Some JNull => "Not available" | x => text x end.

Definition report_view (result : json) : ReportView :=
  let disclosed := field result "disclosed" in
  let shows := js_truthy disclosed in
  let d := nullish disclosed JNull in
  mkReportView (text (field result "status"))
    [("verify.issuer", text (field result "issuer")); ("verify.subject", text (field result "workerDisplayName"));
     ("verify.purpose", text (field result "purpose")); ("verify.level", text (field result "level"));
     ("verify.issuedAt", or_none (field result "issuedAt")); ("verify.expiresAt", text (field result "expiresAt"));
     ("Report hash", or_none (field result "reportHash"))]
    (if shows then Some (figures d) else None) (if shows then entry_rows d else []).

Definition auth_card (s : VerifyState) (result : json) : AuthCard :=
  let email := match field result "recipientEmailMasked" with None | Some JNull => "***" | x => text x end in
  if negb (vp_otpRequested s) then AskCode email (negb (vp_busy s))
  else EnterCode email (mkCodeForm (vp_otpCode s) (if truthy (vp_devCode s) then vp_devCode s else None)
         ((String.length (vp_otpCode s) =? 6)%nat && negb (vp_busy s)) (negb (vp_busy s))).

Definition render (s : VerifyState) : Shown :=
  let status := vp_result s ≫= fun r => as_string (field r "status") in
  mkShown (match vp_result s with None => negb (truthy (vp_error s)) | Some _ => false end)
    (if truthy (vp_error s) then vp_error s else None)
    (if status ==? Some "AUTH_REQUIRED" then auth_card s <$> vp_result s else None)
    (if includes (map Some hero_statuses) status then report_view <$> vp_result s else None).
End shown.

(* ------------------------------------------------------------------ *)
(** ** The server of the repository *)

(** The error of [fetch] when a request, or the answer to it, is lost at a tick. *)
Class Network := { lost : nat -> option string }.

(** The answer to an exception, as the [api] function of the client throws it;
    what is not an HTTP exception is answered with status 500. *)
Definition http_error (e : exn) : exn :=
  match e with
  | BadRequestException m => ApiError 400 m
  | UnauthorizedException m => ApiError 401 m
  | ForbiddenException m => ApiError 403 m
  | NotFoundException m => ApiError 404 m
  | ConflictException m => ApiError 409 m
  | TooManyRequestsException m => ApiError 429 m
  | ServiceUnavailableException m => ApiError 503 m
  | _ => ApiError 500 "Internal server error"
  end.

Definition Verdict_name (v : Verdict) : string :=
  match v with
  | VALID => "VALID" | EXPIRED => "EXPIRED" | REVOKED => "REVOKED" | CORRECTED => "CORRECTED"
  | NOT_ISSUED => "NOT_ISSUED"
  end.

Definition base_fields (m : Metadata) : list (string * json) :=
  [("status", JStr (Verdict_name (vm_status m))); ("issuer", JStr "ServeProof POC"); ("purpose", JStr (vm_purpose m));
   ("level", JStr (DisclosureLevel.name (vm_level m))); ("workerDisplayName", JStr (vm_workerDisplayName m));
   ("issuedAt", JStrOpt (toISOString <$> vm_issuedAt m)); ("expiresAt", JStr (toISOString (vm_expiresAt m)));
   ("reportId", JStrOpt (vm_reportId m)); ("reportHash", JStrOpt (vm_reportHash m));
   ("accessMode", JStr (AccessMode.name (vm_accessMode m)))].

Definition verification_json (v : Verification) : json :=
  match v with
  | Withheld m => JObj (base_fields m)
  | AuthRequired mode expiresAt email =>
      JObj [("status", JStr "AUTH_REQUIRED"); ("accessMode", JStr (AccessMode.name mode));
            ("expiresAt", JStr (toISOString expiresAt)); ("recipientEmailMasked", JStr email)]
  | Disclosed m snapshot => JObj (base_fields m ++ [("disclosed", snapshot)])
  end.

Definition requested_json (a : AccessRequested) : json :=
  JObj ([("sent", JBool true); ("recipientEmailMasked", JStr (ar_recipientEmailMasked a));
         ("expiresInSeconds", JInt (ar_expiresInSeconds a))]
        ++ match ar_devCode a with Some code => [("devCode", JStr code)] | None => [] end).

Section server.
Context `{Platform} `{Environment} `{Network}.

Definition reach : handler unit :=
  let* failure := ask lost in
  match failure with Some m => Throw (JsError m) | None => Ret tt end.

(** A request: either way it can be lost. *)
Definition serve {A} (p : handler A) (answer : A -> json) : handler json :=
  do* reach in
  let* a := catch p (fun e => do* reach in Throw (http_error e)) in
  do* reach in
  Ret (answer a).

(** [verifyRecipientOtpSchema] *)
Definition six_digits (code : string) : bool := (String.length code =? 6)%nat && all_chars is_digit code.

Definition access_verify (token code : string) : handler (string * Z) :=
  do* throw_if (negb (six_digits code)) (BadRequestException "Validation failed") in
  post_accessVerify token code.

Definition disclosure_server (ip userAgent : option string) : PublicApi World := {|
  getReport token session := serve (get_verify token ip userAgent session) verification_json;
  postAccessRequest token := serve (post_accessRequest token) requested_json;
  postAccessVerify token code := serve (access_verify token code)
    (fun r => JObj [("accessToken", JStr r.1); ("expiresInSeconds", JInt r.2)])
|}.
End server.

(* ------------------------------------------------------------------ *)
(** ** From the code to the figures *)

#[global] Arguments within : simpl never.

Section runs.
Context {Srv : Type}.

Lemma run_set f (v : Visit Srv) : run (set f) v = (v <| vi_page ::= f |>, Ok tt).
Proof. done. Qed.

Lemma run_call {A} (p : prog Srv A) v :
  run (call p) v = let '(s, r) := run p (vi_server v) in (v <| vi_server := s |>, r).
Proof. unfold call. rewrite run_within; [done|done|done|]. by intros []. Qed.

(** Both requests answered: the session is kept and the report shown. *)
Lemma run_verifyOtp (server : PublicApi Srv) tok code v s1 s2 response session loaded :
  run (postAccessVerify server tok code) (vi_server v) = (s1, Ok response) ->
  as_string (field response "accessToken") = Some session -> truthy (Some session) = true ->
  run (getReport server tok (Some session)) s1 = (s2, Ok loaded) ->
  run (verifyOtp server tok code) v =
    (mkVisit (let p := vi_page v in mkVerify (Some loaded) None (vp_otpRequested p) (vp_otpCode p) false (vp_devCode p))
       (map_set (vi_storage v) (sessionKey tok) session) s2, Ok tt).
Proof.
  destruct v as [p st w]. cbn [vi_server]. intros E1 Es Ht E2. unfold verifyOtp, setBusy, setError, shown_failure, loadReport.
  rewrite run_bind, run_set, run_bind, run_set, run_bind, run_catch, run_bind, run_call.
  cbn -[run bind field as_string truthy map_set sessionKey call]. rewrite E1. cbv beta iota.
  rewrite Es. cbn [nullish]. rewrite Ht. cbn [bind]. cbn [run]. rewrite run_bind, run_call.
  cbn -[run bind field as_string truthy map_set sessionKey call]. rewrite E2. cbv beta iota. by rewrite !run_set.
Qed.
End runs.

Section opening.
Context `{Platform} `{Environment} `{Network} `{Showing}.

(** Nothing is lost and Redis answers. *)
Definition all_well (w : World) : Prop :=
  forall k, (w_tick w <= k)%nat -> lost k = None /\ redisError k = None.

(** The report of a grant that only its recipient may open, at a clock before
    its end. *)
Definition open_to_recipient (w : World) (tok : string) (d : GrantData) (r : VerificationReport) : Prop :=
  grant_data w (sha256 tok) = Some d /\ gd_report d = Some r /\
  grant_revokedAt (gd_grant d) = None /\
  ~ In (report_status r) [ReportStatus.REVOKED; ReportStatus.EXPIRED; ReportStatus.CORRECTED] /\
  grant_accessMode (gd_grant d) = AccessMode.RECIPIENT_OTP /\
  truthy (grant_recipientEmail (gd_grant d)) = true.

Lemma open_to_recipient_tick w tok d r n : open_to_recipient w tok d r -> open_to_recipient (w <| w_tick := n |>) tok d r.
Proof. by destruct w. Qed.
Lemma open_to_recipient_redis w tok d r s : open_to_recipient w tok d r -> open_to_recipient (w <| w_redis := s |>) tok d r.
Proof. by destruct w. Qed.
Lemma later_tick (w : World) : w <| w_tick ::= S |> = w <| w_tick := S (w_tick w) |>.
Proof. done. Qed.

Lemma run_reach w : all_well w -> run reach w = (w <| w_tick ::= S |>, Ok tt).
Proof. intros Hw. unfold reach. rewrite run_bind, run_ask. by rewrite (proj1 (Hw _ (le_n _))). Qed.

Lemma all_well_later w w' : all_well w -> (w_tick w <= w_tick w')%nat -> all_well w'.
Proof. intros Hw Hle k Hk. apply Hw. lia. Qed.

(** A request that is answered, when nothing is lost. *)
Lemma run_serve {A} (p : handler A) answer w w' a :
  all_well w -> run p (w <| w_tick ::= S |>) = (w', Ok a) -> (S (w_tick w) <= w_tick w')%nat ->
  run (serve p answer) w = (w' <| w_tick ::= S |>, Ok (answer a)).
Proof.
  intros Hw Hp Hle. unfold serve. rewrite run_bind, (run_reach _ Hw), run_bind, run_catch, Hp, run_bind, run_reach.
  - done.
  - apply (all_well_later w); [done|lia].
Qed.

Lemma run_reportStatus d r w :
  gd_report d = Some r -> grant_revokedAt (gd_grant d) = None ->
  ~ In (report_status r) [ReportStatus.REVOKED; ReportStatus.EXPIRED; ReportStatus.CORRECTED] ->
  now (w_tick w) <= grant_expiresAt (gd_grant d) ->
  run (reportStatus d) w = (w <| w_tick ::= S |>, Ok VALID).
Proof.
  intros Hr Hv Hs Ht. unfold reportStatus. rewrite Hv, Hr. cbn [orb].
  rewrite !bool_decide_eq_false_2 by (intros E; apply Hs; rewrite E; cbn; auto). rewrite run_bind, run_newDate.
  rewrite orb_false_r. by destruct (Z.ltb_spec (grant_expiresAt (gd_grant d)) (now (w_tick w))); [lia|].
Qed.

Lemma run_accessStore {A} (f : Z -> store -> store * A) w :
  redisError (w_tick w) = None ->
  run (accessStore (redis f)) w =
    let '(s, a) := f (now (w_tick w)) (w_redis w) in ((w <| w_tick ::= S |>) <| w_redis := s |>, Ok a).
Proof.
  intros Hr. unfold accessStore. rewrite run_orThrow, run_redis, Hr. by destruct (f (now (w_tick w)) (w_redis w)).
Qed.

(** A stored code that may still be entered, until [e]. *)
Definition code_stored (w : World) (d : GrantData) (code : string) (e : Z) : Prop :=
  let key := otp_key (grant_id (gd_grant d)) in
  map_get (w_redis w) key = Some (sha256 code, Some e) /\ sha256 code <> "" /\
  counter (map_get (w_redis w) (key +:+ ":attempts")) < ACCESS_OTP_MAX_ATTEMPTS.

(** The fifteen clock readings and draws of two requests are before the end of
    the code and of the grant, and within a second. *)
Definition in_time (w : World) (d : GrantData) (e : Z) : Prop :=
  forall j k, (j <= 15)%nat -> (k <= 15)%nat ->
    now (k + w_tick w) < e /\ now (k + w_tick w) <= grant_expiresAt (gd_grant d) /\
    now (k + w_tick w) < now (j + w_tick w) + 1000.

Lemma counter_live t s key : counter (live t s key) = 0 \/ counter (live t s key) = counter (map_get s key).
Proof. unfold live. destruct (map_get s key) as [[v [e|]]|]; [destruct (e <=? t); auto|auto|auto]. Qed.

(** Entering it opens a session of at least a second; only Redis changes. *)
Lemma run_right_code w tok d r code e :
  open_to_recipient w tok d r -> all_well w -> code_stored w d code e ->
  now (w_tick w) <= grant_expiresAt (gd_grant d) -> now (S (w_tick w)) < e ->
  let token := randomToken (4 + w_tick w) in
  exists s seconds, 1 <= seconds /\
    run (verifyRecipientOtp tok code) w =
      ((w <| w_tick := (7 + w_tick w)%nat |>) <| w_redis := s |>, Ok (token, seconds)) /\
    map_get s (session_key (grant_id (gd_grant d)) (sha256 token)) =
      Some ("1", Some (now (6 + w_tick w) + seconds * 1000)).
Proof.
  intros (Hd & Hr & Hv & Hs & Hm & He) Hw (Hl & Hne & Ha) Ht Hle.
  set (key := otp_key (grant_id (gd_grant d))) in *.
  assert (live (now (S (w_tick w))) (w_redis w) key = Some (sha256 code, Some e)) as Hlive.
  { unfold live. rewrite Hl. by destruct (Z.leb_spec e (now (S (w_tick w)))); [lia|]. }
  assert (forall k, redisError (k + w_tick w) = None) as Hok by (intros k; apply Hw; lia).
  unfold verifyRecipientOtp. rewrite run_bind, run_grantByToken, Hd, run_bind. unfold assertRecipientAccessAvailable.
  rewrite run_bind, (run_reportStatus d r) by done. rewrite run_bind, run_ret, run_throw_if, Hm, He, bd_refl. cbn [negb orb].
  rewrite run_bind. unfold redis_get. rewrite run_accessStore by exact (Hok 1%nat). wcbn. fold key. rewrite Hlive. cbn [option_map fst].
  rewrite run_bind, run_throw_if. cbn [truthy]. rewrite (bool_decide_eq_false_2 (sha256 code = "")) by done. cbn [negb].
  rewrite run_bind. unfold redis_incr. rewrite run_accessStore by exact (Hok 2%nat). wcbn.
  set (o := live _ _ (key +:+ ":attempts")).
  assert (counter o + 1 <= ACCESS_OTP_MAX_ATTEMPTS) as Ho.
  { destruct (counter_live (now (S (S (w_tick w)))) (w_redis w) (key +:+ ":attempts")) as [E|E]; fold o in E; rewrite E;
      unfold ACCESS_OTP_MAX_ATTEMPTS in *; lia. }
  destruct (Z.ltb_spec ACCESS_OTP_MAX_ATTEMPTS (counter o + 1)); [lia|].
  rewrite run_bind, run_ret, run_bind, run_throw_if, bd_refl. cbn [negb].
  rewrite run_bind. unfold redis_del. rewrite run_accessStore by exact (Hok 3%nat).
  rewrite run_bind, run_ask, run_bind, run_newDate, run_bind. unfold redis_set.
  rewrite run_accessStore by exact (Hok 6%nat). rewrite run_ret. wcbn.
  eexists _, _. split; [|split; [reflexivity|]]; [lia|]. by rewrite map_get_set_eq.
Qed.

(** A live session of the recipient discloses the report, and the access is
    recorded. *)
Lemma run_disclosing w tok d r ip userAgent session until :
  open_to_recipient w tok d r -> all_well w -> truthy (Some session) = true ->
  map_get (w_redis w) (session_key (grant_id (gd_grant d)) (sha256 session)) = Some ("1", Some until) ->
  now (w_tick w) <= grant_expiresAt (gd_grant d) -> now (S (w_tick w)) < until ->
  ~ In (uuid (2 + w_tick w)) (map access_id (w_accesses w)) ->
  run (verifyByToken tok ip userAgent (Some session)) w =
    ((w <| w_accesses ::= (fun l => l ++ [mkDisclosureAccessLog (uuid (2 + w_tick w)) (grant_id (gd_grant d)) ip userAgent
                                            (now (3 + w_tick w))]) |>) <| w_tick := (4 + w_tick w)%nat |>,
     Ok (Disclosed (metadata d VALID) (report_snapshot r))).
Proof.
  intros (Hd & Hr & Hv & Hs & Hm & _) Hw Hne Hl Ht Hlt Hf.
  unfold verifyByToken. rewrite run_bind, run_grantByToken, Hd, run_bind, (run_reportStatus d r) by done.
  rewrite run_bind, Hm, bd_refl. unfold session_valid. cbn [truthy] in Hne. apply negb_true_iff in Hne. rewrite Hne.
  rewrite run_bind. unfold redis_get. rewrite run_accessStore by (apply Hw; wcbn; lia). wcbn.
  assert (live (now (S (w_tick w))) (w_redis w) (session_key (grant_id (gd_grant d)) (sha256 session)) =
    Some ("1", Some until)) as ->.
  { unfold live. rewrite Hl. by destruct (Z.leb_spec until (now (S (w_tick w)))); [lia|]. }
  rewrite run_ret. cbn [option_map fst truthy]. rewrite bool_decide_eq_false_2 by done. cbn [negb].
  rewrite run_bind, run_freshId, run_bind, run_newDate, run_bind, run_create. wcbn.
  destruct (existsb _ (w_accesses w)) eqn:Ex.
  { exfalso. apply Hf. apply existsb_exists in Ex as (x & Hin & Hx). cbn in Hx. apply bool_decide_eq_true in Hx.
    cbn in Hx. change (2 + w_tick w)%nat with (S (S (w_tick w))). rewrite Hx. by apply in_map. }
  rewrite run_ret, Hr. reflexivity.
Qed.

(** The answer VALID with a snapshot, as the page shows it. *)
Lemma render_disclosed m snapshot s :
  vm_status m = VALID -> js_truthy (Some snapshot) = true ->
  vp_result s = Some (verification_json (Disclosed m snapshot)) ->
  exists view, sh_report (render s) = Some view /\ rv_status view = "VALID" /\
    rv_figures view = Some (figures snapshot) /\ rv_entries view = entry_rows snapshot.
Proof.
  intros Hm Hs Hr. set (result := verification_json (Disclosed m snapshot)) in *.
  assert (field result "status" = Some (JStr "VALID")) as Est
    by (change (Some (JStr (Verdict_name (vm_status m))) = Some (JStr "VALID")); by rewrite Hm).
  assert (field result "disclosed" = Some snapshot) as Ed by reflexivity.
  exists (report_view result). unfold render. rewrite Hr. cbn [mbind option_bind]. rewrite Est.
  split; [done|]. unfold report_view. rewrite Est, Ed, Hs. done.
Qed.
End opening.

(** C17: when the code of a valid report has been sent to its recipient, the
    recipient who enters it in time sees the figures of the report: the two
    requests of the page open a session, keep it in the tab, and load the
    report with it; the page shows it as VALID with the figures of the snapshot,
    without an error, and the access is on record. *)
Theorem recipient_opens_report `{Platform} `{Environment} `{Network} `{Showing} ip userAgent tok code d r e
    (v : Visit World) :
  open_to_recipient (vi_server v) tok d r -> code_stored (vi_server v) d code e -> six_digits code = true ->
  all_well (vi_server v) -> in_time (vi_server v) d e ->
  (forall k, randomToken k <> "") ->
  (forall k, ~ In (uuid k) (map access_id (w_accesses (vi_server v)))) ->
  js_truthy (Some (report_snapshot r)) = true ->
  exists v' session,
    run (verifyOtp (disclosure_server ip userAgent) tok code) v = (v', Ok tt) /\
    map_get (vi_storage v') (sessionKey tok) = Some session /\
    (exists view, sh_report (render (vi_page v')) = Some view /\ rv_status view = "VALID" /\
       rv_figures view = Some (figures (report_snapshot r)) /\ rv_entries view = entry_rows (report_snapshot r)) /\
    sh_error (render (vi_page v')) = None /\ vp_busy (vi_page v') = false /\
    length (w_accesses (vi_server v')) = S (length (w_accesses (vi_server v))).
Proof.
  destruct v as [p st w]. cbn [vi_server]. intros Ho Hc Hsix Hw Ht Hrand Hfresh Hsnap.
  set (w1 := w <| w_tick := S (w_tick w) |>).
  assert (all_well w1) as Hw1 by (apply (all_well_later w); [done|cbn; lia]).
  assert (code_stored w1 d code e) as Hc1 by exact Hc.
  destruct (run_right_code w1 tok d r code e (open_to_recipient_tick _ _ _ _ _ Ho) Hw1 Hc1) as (s & seconds & Hs & E1 & Hl).
  - apply (Ht 0 1)%nat; lia.
  - apply (Ht 0 2)%nat; lia.
  - set (token := randomToken _) in *.
    set (w2 := (w <| w_redis := s |>) <| w_tick := (8 + w_tick w)%nat |>).
    assert (run (access_verify tok code) (w <| w_tick ::= S |>) = (w2, Ok (token, seconds))) as E2
      by (unfold access_verify; rewrite Hsix; exact E1).
    assert (truthy (Some token) = true) as Htok by (unfold token; cbn; by rewrite bool_decide_eq_false_2).
    pose proof (run_serve _ (fun r => JObj [("accessToken", JStr r.1); ("expiresInSeconds", JInt r.2)]) _ _ _ Hw E2
                  ltac:(cbn; lia)) as E3.
    set (w3 := (w <| w_redis := s |>) <| w_tick := (9 + w_tick w)%nat |>).
    change (w2 <| w_tick ::= S |>) with w3 in E3.
    assert (all_well w3) as Hw3 by (apply (all_well_later w); [done|cbn; lia]).
    set (w4 := (w <| w_redis := s |>) <| w_tick := (10 + w_tick w)%nat |>).
    assert (all_well w4) as Hw4 by (apply (all_well_later w); [done|cbn; lia]).
    destruct (Ht 7 11)%nat as (_ & Hexp & Hsec); [lia|lia|].
    pose proof (run_disclosing w4 tok d r ip userAgent token (now (7 + w_tick w) + seconds * 1000)
      (open_to_recipient_tick _ _ _ _ _ (open_to_recipient_redis _ _ _ _ _ Ho)) Hw4 Htok Hl) as E4.
    specialize (E4 (proj1 (proj2 (Ht 0 10 ltac:(lia) ltac:(lia))))%nat).
    specialize (E4 ltac:(change (now (11 + w_tick w) < now (7 + w_tick w) + seconds * 1000); lia) (Hfresh _)).
    change w4 with (w3 <| w_tick ::= S |>) in E4 at 1.
    pose proof (run_serve _ verification_json _ _ _ Hw3 E4 ltac:(cbn; lia)) as E5.
    destruct (render_disclosed (metadata d VALID) (report_snapshot r)
      (mkVerify (Some (verification_json (Disclosed (metadata d VALID) (report_snapshot r)))) None
         (vp_otpRequested p) (vp_otpCode p) false (vp_devCode p)) eq_refl Hsnap eq_refl) as (view & Hview).
    eexists _, token. split.
    { refine (run_verifyOtp (disclosure_server ip userAgent) tok code (mkVisit p st w) _ _ _ _ _ E3 eq_refl Htok E5). }
    cbn [vi_page vi_storage vi_server]. rewrite map_get_set_eq. split; [done|]. split; [by exists view|].
    split; [done|]. split; [done|]. cbn. rewrite length_app. cbn. lia.
Qed.

(** The figures are on the page exactly when the service disclosed a snapshot:
    no other answer shows any. *)
Theorem figures_only_disclosed `{Showing} s answer :
  vp_result s = Some (verification_json answer) ->
  (exists view fig, sh_report (render s) = Some view /\ rv_figures view = Some fig) ->
  exists m snapshot, answer = Disclosed m snapshot /\ js_truthy (Some snapshot) = true.
Proof.
  intros Hr (view & fig & Hv & Hf). revert Hv. unfold render. rewrite Hr. cbn [sh_report fmap option_fmap option_map].
  destruct answer as [m|mode ex email|m snapshot]; [| |exists m, snapshot; split; [done|]].
  - destruct (includes _ _); [|done]. intros E. injection E as <-. exfalso. revert Hf. unfold report_view.
    done.
  - done.
  - destruct (includes _ _); [|done]. injection Hv as <-. revert Hf. unfold report_view.
    change (field (JObj _) "disclosed") with (Some snapshot).
    cbn [nullish rv_figures]. by destruct (js_truthy (Some snapshot)).
Qed.

(* ------------------------------------------------------------------ *)
(** ** A bank opens a proof *)

(** The world of the example of Disclosure, after its code was sent, with a clock
    of a millisecond per reading. *)
Definition quick_platform : Platform := {|
  now t := Z.of_nat t;
  uuid := @uuid demo_platform;
  randomToken := @randomToken demo_platform;
  randomCode := @randomCode demo_platform;
  sha256 := @sha256 demo_platform;
  hmacSha256 := @hmacSha256 demo_platform;
  stringify := @stringify demo_platform;
  localeLt := @localeLt demo_platform;
  intlDate := @intlDate demo_platform
|}.
#[local] Existing Instance quick_platform | 0.
#[local] Existing Instance demo_environment.
Definition demo_network : Network := {| lost _ := None |}.
#[local] Existing Instance demo_network.
Definition demo_showing : Showing := {| textOf _ := ""; usdOf _ := ""; atMostOne _ := false |}.
#[local] Existing Instance demo_showing.

Definition demo_visit : Visit World := mkVisit opened [] demo_asked.1.

(** The page asks for the code, and a wrong one is refused. *)
Example asks_first :
  let first := (run (openPage (disclosure_server None None) demo_token) demo_visit).1 in
  sh_auth (render (vi_page first)) = Some (AskCode "ba***@demo.test" true) /\
  sh_error (render (vi_page (run (verifyOtp (disclosure_server None None) demo_token "000000") first).1)) =
    Some "Invalid or expired code".
Proof. vm_compute. done. Qed.

Lemma demo_times d e :
  20000 < grant_expiresAt (gd_grant d) -> 20000 < e -> in_time demo_asked.1 d e.
Proof.
  intros Hd He j k Hj Hk. set (n := w_tick demo_asked.1). assert (n <= 100)%nat by (apply Nat.leb_le; vm_compute; reflexivity).
  cbn [now quick_platform]. lia.
Qed.

Lemma recipient_opens_report_witness :
  exists v' session view, run (verifyOtp (disclosure_server None None) demo_token demo_code) demo_visit = (v', Ok tt) /\
    map_get (vi_storage v') (sessionKey demo_token) = Some session /\
    sh_report (render (vi_page v')) = Some view /\
    rv_figures view = Some (Criterion "평균 월소득 ≥ $1.00" false).
Proof.
  edestruct (recipient_opens_report None None demo_token demo_code) as (v' & session & E & Hs & (view & Hv & _ & Hf & _) & _);
    [..|exists v', session, view; split; [exact E|]; split; [exact Hs|]; split; [exact Hv|]].
  - split; [vm_compute; reflexivity|]. split; [vm_compute; reflexivity|]. split; [reflexivity|].
    split; [intros Hin; vm_compute in Hin; intuition discriminate|]. split; reflexivity.
  - split; [vm_compute; reflexivity|]. split; [discriminate|]. reflexivity.
  - reflexivity.
  - intros k _. split; reflexivity.
  - apply demo_times; reflexivity.
  - intros k. discriminate.
  - intros k [].
  - reflexivity.
  - rewrite Hf. reflexivity.
Defined.
End VerifyPage.
