(* ===== verification/LoginPage.v ===== *)
(** * The sign-in page

    apps/web/src/app/login/page.tsx and the entrance page (app/page.tsx): a
    visitor with a session is sent to the page of its mode; with [?switch=1] the
    saved accounts of the browser are listed; a code is requested by e-mail and
    exchanged for the tokens of a session.  The session functions are those of
    WebSession, run on the browser of the page.  [listed_session_opens]: an
    account that is listed can be entered. *)

From stdpp Require Import gmap.
From S2P Require Import Prelude Concurrency Strings Schema WebSession WebDemo SessionTabs SessionStore.

Open Scope Z_scope.

Module LoginPage.
Import WebSession WebDemo SessionStore.

Inductive Step := EmailStep | CodeStep.
#[export] Instance Step_eq_dec : EqDecision Step.
Proof. solve_decision. Defined.

Record LoginState := mkLogin {
  lp_email : string;
  lp_code : string;
  lp_step : Step;
  lp_devCode : option string;
  lp_error : option string;
  lp_busy : bool;
  lp_checkingSession : bool;
  lp_switchMode : bool;
  lp_savedSessions : list StoredSession;
  lp_activating : option string
}.
#[export] Instance eta_LoginState : Eta LoginState := fun r => mkLogin
  (lp_email r) (lp_code r) (lp_step r) (lp_devCode r) (lp_error r) (lp_busy r) (lp_checkingSession r)
  (lp_switchMode r) (lp_savedSessions r) (lp_activating r).

Definition arrived : LoginState :=
  mkLogin "manager@demo.serveproof.local" "" EmailStep None None false true false [] None.

(** The page in a tab of a browser; whether its effect still applies; where the
    router was sent last. *)
Record Screen := mkScreen {
  sc_login : LoginState;
  sc_active : bool;
  sc_route : option string;
  sc_browser : Browser
}.
#[export] Instance eta_Screen : Eta Screen := fun r => mkScreen
  (sc_login r) (sc_active r) (sc_route r) (sc_browser r).

Abbreviation ui := (prog Screen).

Definition set (f : LoginState -> LoginState) : ui unit := Act (fun v => (v <| sc_login ::= f |>, tt)) Ret.
Definition go (route : string) : ui unit := Act (fun v => (v <| sc_route := Some route |>, tt)) Ret.
Definition inBrowser {A} (p : page A) : ui A := within sc_browser (fun b v => v <| sc_browser := b |>) p.

Definition setBusy (b : bool) : ui unit := set (fun s => s <| lp_busy := b |>).
Definition setError (e : option string) : ui unit := set (fun s => s <| lp_error := e |>).

Section login.
Context `{Web}.

(** The continuation of [restoreSession()] in the effect of both pages. *)
Definition arrive (destination : option string) : ui unit :=
  let* active := query sc_active in
  if negb active then Ret tt
  else if truthy destination then go (nullish destination "")
  else set (fun s => s <| lp_checkingSession := false |>).

(** The effect of the entrance page. *)
Definition home (polls t : nat) : ui unit :=
  let* destination := inBrowser (restoreSession polls t) in arrive destination.

(** The effect of the sign-in page; [switching] is [?switch=1]. *)
Definition openLogin (polls t : nat) (switching : bool) : ui unit :=
  do* set (fun s => s <| lp_switchMode := switching |>) in
  let* sessions := inBrowser (getStoredSessions t) in
  do* set (fun s => s <| lp_savedSessions := sessions |>) in
  if switching then set (fun s => s <| lp_checkingSession := false |>)
  else let* destination := inBrowser (restoreSession polls t) in arrive destination.

(** The clean-up of the effect. *)
Definition leave : ui unit := Act (fun v => (v <| sc_active := false |>, tt)) Ret.

(** [email] and [code] are the values of the render the handler belongs to. *)
Definition requestOtp (polls t : nat) (email : string) : ui unit :=
  do* setBusy true in
  do* setError None in
  do* catch
    (let* res := inBrowser (api polls t "/auth/otp/request"
       (mkOptions (Some "POST") (Some (JObj [("email", JStr email)])) false [])) in
     do* set (fun s => s <| lp_devCode := as_string (field res "devCode") |>) in
     set (fun s => s <| lp_step := CodeStep |>))
    (fun e => setError (Some (exn_message e))) in
  setBusy false.

Definition verifyOtp (polls t : nat) (email code : string) : ui unit :=
  do* setBusy true in
  do* setError None in
  let* outcome := inBrowser (WebSession.verifyOtp polls t email code) in
  do* match outcome with
      | inl destination => go destination
      | inr message => setError (Some message)
      end in
  setBusy false.

(** A click on a saved account. *)
Definition chooseSession (t : nat) (id : string) : ui unit :=
  do* set (fun s => s <| lp_activating := Some id |>) in
  let* destination := inBrowser (activateSession t id None) in
  if truthy destination then go (nullish destination "")
  else set (fun s => s <| lp_activating := None |>).

Definition typeEmail (value : string) : ui unit := set (fun s => s <| lp_email := value |>).
Definition typeCode (value : string) : ui unit := set (fun s => s <| lp_code := value |>).
Definition back : ui unit := set (fun s => s <| lp_step := EmailStep |>).

(** The Enter key in the two fields, and the two buttons. *)
Definition enterEmail (polls t : nat) (s : LoginState) : ui unit := requestOtp polls t (lp_email s).
Definition enterCode (polls t : nat) (s : LoginState) : ui unit :=
  if (String.length (lp_code s) =? 6)%nat then verifyOtp polls t (lp_email s) (lp_code s) else Ret tt.
Definition clickRequest (polls t : nat) (s : LoginState) : ui unit :=
  if lp_busy s then Ret tt else requestOtp polls t (lp_email s).
Definition clickVerify (polls t : nat) (s : LoginState) : ui unit :=
  if lp_busy s || negb (String.length (lp_code s) =? 6)%nat then Ret tt
  else verifyOtp polls t (lp_email s) (lp_code s).
End login.

(** The saved accounts the page lists, with whether their buttons work. *)
Definition listed (s : LoginState) : list (string * string * list string * bool) :=
  if lp_switchMode s && (0 <? length (lp_savedSessions s))%nat && (lp_step s ==? EmailStep) then
    map (fun x => (ss_id x, (if ss_email x ==? "" then "login.savedAccount" else ss_email x),
                   map (fun m => match m with worker => "login.workerAccount" | staff => "login.staffAccount" end) (ss_modes x),
                   match lp_activating s with None => true | Some _ => false end)) (lp_savedSessions s)
  else [].

Lemma run_setLogin f v : run (set f) v = (v <| sc_login ::= f |>, Ok tt).
Proof. done. Qed.

Lemma run_inBrowser {A} (p : page A) v :
  run (inBrowser p) v = let '(b, r) := run p (sc_browser v) in (v <| sc_browser := b |>, r).
Proof. unfold inBrowser. rewrite run_within; [done|done|done|]. by intros []. Qed.

Section sessions.
Context `{Web}.

Lemma has_token_found b s : In s (usable b) -> ss_id s <> "" ->
  exists s', found b (Some (ss_id s)) = Some s' /\ ss_id s' = ss_id s.
Proof.
  intros [Hin Ht]%usable_In Hid. unfold found. cbn [mbind option_bind]. rewrite bool_decide_eq_false_2 by done.
  destruct (List.find _ (index b)) as [s'|] eqn:E.
  - exists s'. split; [done|]. apply find_In in E as [_ E]. destruct (ss_id s' ==? ss_id s) eqn:Ei; [|done].
    by apply bool_decide_eq_true in Ei.
  - exfalso. pose proof (List.find_none _ _ E s Hin) as Hn. cbn in Hn. by rewrite bd_refl, Ht in Hn.
Qed.

Lemma destination_truthy m : truthy (Some (destinationFor m)) = true.
Proof. by destruct m. Qed.

(** A session with a token is entered: the tab and the browser remember it. *)
Lemma run_activateSession t b s :
  In s (usable b) -> ss_id s <> "" ->
  exists b' m, run (activateSession t (ss_id s) None) b = (b', Ok (Some (destinationFor m))) /\
    tab_session (tab_of b' t) !! ACTIVE_SESSION_KEY = Some (ss_id s) /\
    br_local b' !! LAST_SESSION_KEY = Some (ss_id s).
Proof.
  intros Hin Hid. destruct (has_token_found b s Hin Hid) as (s' & Hf & _).
  unfold activateSession. rewrite run_bind, run_findSession, Hf. rewrite run_bind, run_tabGetItem.
  set (m := pick_mode _ _ s'). eexists _, m. split; [reflexivity|]. split.
  - cbn -[tab_of]. unfold tab_of at 1. cbn -[tab_of]. rewrite lookup_insert_eq. cbn -[tab_of]. rewrite tab_of_same. cbn.
    rewrite lookup_insert_ne by done. apply lookup_insert_eq.
  - change (<[lastModeKey m := ss_id s]> (<[LAST_SESSION_KEY := ss_id s]> (br_local b)) !! LAST_SESSION_KEY = Some (ss_id s)).
    rewrite lookup_insert_ne by (by destruct m). apply lookup_insert_eq.
Qed.
End sessions.

(** An account that the page lists can be entered: a click on it sends the
    visitor to the page of one of its modes, and makes it the account of the tab
    and the last one used. *)
Theorem listed_session_opens `{Web} polls t v v' row :
  run (openLogin polls t true) v = (v', Ok tt) ->
  In row (listed (sc_login v')) -> row.1.1.1 <> "" ->
  exists v2 m, run (chooseSession t row.1.1.1) v' = (v2, Ok tt) /\
    sc_route v2 = Some (destinationFor m) /\
    tab_session (tab_of (sc_browser v2) t) !! ACTIVE_SESSION_KEY = Some row.1.1.1 /\
    br_local (sc_browser v2) !! LAST_SESSION_KEY = Some row.1.1.1.
Proof.
  unfold openLogin. rewrite run_bind, run_setLogin, run_bind, run_inBrowser.
  unfold getStoredSessions. rewrite run_bind.
  destruct (run (migrateLegacySessions t) _) as [b1 [[]|e]]; [|done]. rewrite run_usable.
  rewrite run_bind, run_setLogin, run_setLogin. intros E. injection E as <-. unfold listed. cbn [sc_login].
  destruct (_ && _) eqn:Ec; [|done]. intros (s & <- & Hin)%in_map_iff Hid. cbn [fst] in *.
  unfold chooseSession. rewrite run_bind, run_setLogin, run_bind, run_inBrowser.
  match goal with |- context [run (activateSession t _ None) ?b] => change b with b1 end. change (In s (usable b1)) in Hin.
  destruct (run_activateSession t b1 s Hin Hid) as (b2 & m & E & Ha & Hl). rewrite E. cbv iota beta.
  rewrite destination_truthy. eexists _, m. split; [reflexivity|]. split; [done|]. by split.
Qed.

(* ------------------------------------------------------------------ *)
(** ** The browser of WebDemo *)

Definition demo_screen : Screen := mkScreen arrived true None demo_browser.
Definition demo_switching : Screen := Eval vm_compute in (run (@openLogin (demo_web true) 20 0 true) demo_screen).1.

(** Both accounts are listed; without [?switch=1] the visitor is sent on. *)
Example lists_accounts :
  map (fun row => row.1.1.1) (listed (sc_login demo_switching)) = ["bob"; "ada"] /\
  sc_route (run (@openLogin (demo_web true) 20 0 false) demo_screen).1 = Some "/me" /\
  sc_route (run (@home (demo_web true) 20 0) demo_screen).1 = Some "/me" /\
  sc_route (run (let* _ := leave in @home (demo_web true) 20 0) demo_screen).1 = None.
Proof. vm_compute. done. Qed.

Lemma listed_session_opens_witness :
  exists v2 m, run (@chooseSession (demo_web true) 0 "bob") demo_switching = (v2, Ok tt) /\
    sc_route v2 = Some (destinationFor m) /\ br_local (sc_browser v2) !! LAST_SESSION_KEY = Some "bob".
Proof.
  destruct (@listed_session_opens (demo_web true) 20 0 demo_screen demo_switching
    ("bob", "bob@example.org", ["login.workerAccount"], true)) as (v2 & m & E & Hr & _ & Hl).
  - vm_compute. reflexivity.
  - vm_compute. by left.
  - discriminate.
  - exists v2, m. exact (conj E (conj Hr Hl)).
Defined.
End LoginPage.
