(* ===== verification/StaffingCards.v ===== *)
(** * The staffing cards of the web client

    apps/web/src/components/staffing-cards.tsx: the date and time field of the
    shift form, the card of a venue (drafts, publishing, invitations, approvals)
    and the card of a worker (answers, clock).  A card shows a button for each
    action it offers in the state of the shift; [worker_actions_accepted] states
    that the staffing service (Staffing) accepts what the card of the worker
    offers.  The field shows and emits real dates ([update_real_date]). *)

From stdpp Require Import gmap.
From S2P Require Import Prelude Concurrency Strings Calendar Schema Float64 Money Income WebSession Pages Dashboard.

Open Scope Z_scope.

Module StaffingCards.
Import Pages.

(* ------------------------------------------------------------------ *)
(** ** The date and time field *)

(** [localInput(date)] for a clock whose [getTimezoneOffset()] is [offset]. *)
Definition localInput (date offset : Z) : string := slice_to (toISOString (date - offset * 60000)) 16.

Definition twoDigits (value : Z) : string := padStart (str_of_Z value) 2 "0".

(** [Number(s)] of a part of the field: digits or nothing; other texts are read
    as [NaN]. *)
Definition Number_part (s : string) : option Z :=
  if s ==? "" then Some 0 else if all_chars is_digit s then Some (digits_value s) else None.

Record DateFields := mkDateFields {
  df_year : Z;
  df_month : Z;
  df_day : Z;
  df_hour : Z;
  df_minute : Z
}.

(** [validPart(parts[i], fallback)] *)
Definition validPart (parts : list (option Z)) (i : nat) (fallback : Z) : Z :=
  match nth_error parts i with Some (Some part) => part | _ => fallback end.

(** The fields of the value, the missing ones those of [now]. *)
Definition read_fields (now : DateFields) (value : string) : DateFields :=
  let parts := split "T" value in
  let datePart := nullish (nth_error parts 0) "" in
  let timePart := nullish (nth_error parts 1) "" in
  let date := map Number_part (split "-" datePart) in
  let time := map Number_part (split ":" timePart) in
  mkDateFields (validPart date 0 (df_year now)) (validPart date 1 (df_month now)) (validPart date 2 (df_day now))
    (validPart time 0 0) (validPart time 1 0).

(** [new Date(year, month, 0).getDate()]: years below 100 are those of the
    twentieth century. *)
Definition daysInMonth (year month : Z) : Z :=
  let y := if (0 <=? year) && (year <=? 99) then 1900 + year else year in
  let '(_, _, d) := civil_from_days (days_from_civil (y + month / 12) (month mod 12 + 1) 1 - 1) in d.

Record DateChange := mkDateChange {
  dc_year : option Z;
  dc_month : option Z;
  dc_day : option Z;
  dc_hour : option Z;
  dc_minute : option Z
}.

(** [update(next)]: what the field emits. *)
Definition update (f : DateFields) (next : DateChange) : string :=
  let nextYear := nullish (dc_year next) (df_year f) in
  let nextMonth := nullish (dc_month next) (df_month f) in
  let maxDay := daysInMonth nextYear nextMonth in
  let nextDay := Z.min (nullish (dc_day next) (df_day f)) maxDay in
  str_of_Z nextYear +:+ "-" +:+ twoDigits nextMonth +:+ "-" +:+ twoDigits nextDay
  +:+ "T" +:+ twoDigits (nullish (dc_hour next) (df_hour f)) +:+ ":" +:+ twoDigits (nullish (dc_minute next) (df_minute f)).

(** [Array.from(new Set(l)).sort((a, b) => a - b)] *)
Definition sorted_choices (l : list Z) : list Z := stable_sort Z.ltb (remove_dups l).

(** The choices of the lists of the field. *)
Definition years (now f : DateFields) : list Z :=
  sorted_choices (df_year f :: map (fun i => df_year now - 1 + Z.of_nat i) (seq 0 5)).
Definition minutes (f : DateFields) : list Z := sorted_choices (df_minute f :: map (fun i => Z.of_nat i * 5) (seq 0 12)).
Definition days (f : DateFields) : list Z := map (fun i => Z.of_nat i + 1) (seq 0 (Z.to_nat (daysInMonth (df_year f) (df_month f)))).
Definition months : list Z := map (fun i => Z.of_nat i + 1) (seq 0 12).
Definition hours : list Z := map Z.of_nat (seq 0 24).

(* ------------------------------------------------------------------ *)
(** ** The cards *)

(** The values [view] of the card of a worker. *)
Inductive View := AvailableShifts | MyShifts.

(** The state of a card; the view is that of the card of a worker, the form
    that of the card of a venue. *)
Record Card := mkCard {
  cd_shifts : list json;
  cd_loading : bool;
  cd_busy : bool;
  cd_error : option string;
  cd_success : option string;
  cd_showCreate : bool;
  cd_view : View
}.
#[export] Instance eta_Card : Eta Card := fun r => mkCard
  (cd_shifts r) (cd_loading r) (cd_busy r) (cd_error r) (cd_success r) (cd_showCreate r) (cd_view r).

(** The form of a new shift, as a render of the card of a venue has it. *)
Record ShiftForm := mkShiftForm {
  sf_role : string;
  sf_description : string;
  sf_startsAt : string;
  sf_endsAt : string;
  sf_hourlyRate : string;
  sf_expectedTips : string;
  sf_headcount : string
}.

Definition text_of : json -> string -> string := Dashboard.text_of.
Definition assignments (shift : json) : list json := Dashboard.json_items (field shift "assignments").

Definition statusTone (status : string) : string :=
  if includes ["OPEN"; "ACCEPTED"; "APPROVED"; "COMPLETED"] status then "CONFIRMED"
  else if includes ["FILLED"; "CLOCKED_IN"; "CLOCKED_OUT"; "INVITED"] status then "PENDING"
  else if includes ["CANCELLED"; "DECLINED"; "NO_SHOW"] status then "FAILED"
  else "UNKNOWN".

(** [staffingStatus(status, false)] *)
Definition staffingStatus (status : string) : string := join " " (split "_" status).

Section cards.
Context `{Client} `{FormReading}.

Abbreviation ui := (prog (App Card)).

Definition setError (e : option string) : ui unit := modify (fun s => s <| cd_error := e |>).
Definition setLoading (b : bool) : ui unit := modify (fun s => s <| cd_loading := b |>).

(** The load of the shifts, of a venue or of the worker. *)
Definition load (path : string) : ui unit :=
  do* setLoading true in
  finally (catch (let* shifts := api "GET" path None in
                  modify (fun s => s <| cd_shifts := Dashboard.json_items (Some shifts) |>))
                 (fun e => setError (Some (exn_message e))))
          (setLoading false).

Definition venue_path (venueId : string) : string := "/staffing/venues/" +:+ venueId +:+ "/shifts".
Definition worker_path : string := "/staffing/workers/me/shifts".

Definition refresh_venue (venueId : string) : ui unit :=
  if venueId ==? "" then setLoading false else load (venue_path venueId).
Definition refresh_worker : ui unit := load worker_path.

(** [mutate(action, successMessage, after)]; the refresh that follows is not
    waited for. *)
Definition mutate (action : ui json) (successMessage : string) (after : ui unit) (refresh : string) : ui unit :=
  do* modify (fun s => s <| cd_busy := true |>) in
  do* setError None in
  finally
    (catch (let* _ := action in
            do* modify (fun s => s <| cd_success := Some successMessage |>) in
            do* log (Delayed 3500) in
            do* after in
            log (Refetch refresh))
           (fun e => setError (Some (exn_message e))))
    (modify (fun s => s <| cd_busy := false |>)).

Definition saved : string := "Changes saved.".

(** What the card of a worker offers. *)
Inductive worker_action :=
| AcceptShift (shiftId : string)
| DeclineShift (shiftId : string)
| ClockIn (assignmentId : string)
| CancelAssignment (assignmentId : string)
| ClockOut (assignmentId : string).

(** The buttons under a shift. *)
Definition worker_actions (shift : json) : list worker_action :=
  let id := text_of shift "id" in
  let assignment := head (assignments shift) in
  let status := nullish ((fun a => text_of a "status") <$> assignment) "" in
  let assignmentId := nullish ((fun a => text_of a "id") <$> assignment) "" in
  let unanswered := match assignment with
                    | None => true
                    | Some _ => includes ["INVITED"; "DECLINED"; "CANCELLED"] status end in
  (if unanswered && (text_of shift "status" ==? "OPEN") then [AcceptShift id; DeclineShift id] else [])
  ++ (if status ==? "ACCEPTED" then [ClockIn assignmentId; CancelAssignment assignmentId] else [])
  ++ (if status ==? "CLOCKED_IN" then [ClockOut assignmentId] else []).

(** The shifts of a view. *)
Definition in_view (v : View) (shift : json) : bool :=
  match v, head (assignments shift) with
  | AvailableShifts, None => text_of shift "status" ==? "OPEN"
  | AvailableShifts, Some _ => false
  | MyShifts, a => match a with Some _ => true | None => false end
  end.

Definition answer (shiftId response : string) : ui json :=
  api "POST" ("/staffing/shifts/" +:+ shiftId +:+ "/respond") (Some (JObj [("response", JStr response)])).
Definition on_assignment (assignmentId operation : string) (body : list (string * json)) : ui json :=
  api "POST" ("/staffing/assignments/" +:+ assignmentId +:+ "/" +:+ operation) (Some (JObj body)).

Definition worker_click (a : worker_action) : ui unit :=
  match a with
  | AcceptShift id => mutate (answer id "ACCEPT") "Shift accepted. See it under My shifts."
      (modify (fun s => s <| cd_view := MyShifts |>)) worker_path
  | DeclineShift id => mutate (answer id "DECLINE") saved (Ret tt) worker_path
  | ClockIn id => mutate (on_assignment id "clock-in" []) saved (Ret tt) worker_path
  | CancelAssignment id =>
      mutate (on_assignment id "cancel" [("reason", JStr "Cancelled by worker")]) saved (Ret tt) worker_path
  | ClockOut id => mutate (on_assignment id "clock-out" []) saved (Ret tt) worker_path
  end.

(** What the card of a venue offers under a shift and under an assignment; an
    invitation is for the worker chosen in the list. *)
Inductive venue_action :=
| Publish (shiftId : string)
| CancelShift (shiftId : string)
| Invite (shiftId workerId : string)
| Approve (assignmentId : string)
| NoShow (assignmentId : string).

Definition assignment_actions (assignment : json) : list venue_action :=
  let id := text_of assignment "id" in
  let status := text_of assignment "status" in
  (if status ==? "CLOCKED_OUT" then [Approve id] else [])
  ++ (if includes ["INVITED"; "ACCEPTED"] status then [NoShow id] else []).

Definition venue_actions (connectedWorkers : list string) (shift : json) : list venue_action :=
  let id := text_of shift "id" in
  let status := text_of shift "status" in
  (if status ==? "DRAFT" then [Publish id] else [])
  ++ (if negb (includes ["DRAFT"; "CANCELLED"; "COMPLETED"] status) then [CancelShift id] else [])
  ++ (if includes ["OPEN"; "FILLED"] status then map (Invite id) connectedWorkers else [])
  ++ concat (map assignment_actions (assignments shift)).

(** The assignments that count towards the headcount on the card. *)
Definition accepted (shift : json) : nat :=
  length (List.filter (fun a => includes ["ACCEPTED"; "CLOCKED_IN"; "CLOCKED_OUT"; "APPROVED"] (text_of a "status"))
                      (assignments shift)).

(** The workers that can be invited. *)
Definition connectedWorkers (members : list json) : list json :=
  List.filter (fun m => truthy (as_string (field m "workerId"))
                        && includes ["CONNECTED"; "PAYOUT_READY"] (text_of m "connectionStage")) members.

Definition venue_click (venueId : string) (a : venue_action) : ui unit :=
  let path := venue_path venueId in
  match a with
  | Publish id => mutate (api "POST" ("/staffing/shifts/" +:+ id +:+ "/publish") (Some (JObj [])))
      "Recruiting started. Invite a connected worker next." (Ret tt) path
  | CancelShift id => mutate (api "POST" ("/staffing/shifts/" +:+ id +:+ "/cancel")
      (Some (JObj [("reason", JStr "Cancelled by venue")]))) saved (Ret tt) path
  | Invite id workerId => mutate (api "POST" ("/staffing/shifts/" +:+ id +:+ "/invitations")
      (Some (JObj [("workerId", JStr workerId)]))) saved (Ret tt) path
  | Approve id => mutate (on_assignment id "approve" [])
      "Work approved and verified shift evidence created." (Ret tt) path
  | NoShow id => mutate (on_assignment id "no-show" []) saved (Ret tt) path
  end.

(** The draft of the form; the button is disabled until the form is filled. *)
Definition can_create (busy : bool) (venueId : string) (f : ShiftForm) : bool :=
  negb (busy || (venueId ==? "") || (trim (sf_role f) ==? "") || (sf_startsAt f ==? "") || (sf_endsAt f ==? "")).

Definition createDraft (venueId : string) (f : ShiftForm) : ui unit :=
  mutate (api "POST" (venue_path venueId)
    (Some (JObj ([("role", JStr (trim (sf_role f)))]
      ++ (if trim (sf_description f) ==? "" then [] else [("description", JStr (trim (sf_description f)))])
      ++ [("startsAt", JStr (toISOString (readLocal (sf_startsAt f))));
          ("endsAt", JStr (toISOString (readLocal (sf_endsAt f))));
          ("hourlyRateUsdCents", JInt (readCents (sf_hourlyRate f)));
          ("expectedTipUsdCents", JInt (readCents (sf_expectedTips f)));
          ("headcount", JInt (readNumber (sf_headcount f)))]))))
    "Draft created. Publish it next." (modify (fun s => s <| cd_showCreate := false |>)) (venue_path venueId).
End cards.

(** The estimate on the card of a worker: [Math.round(hours * rate) + tips]. *)
Definition expected_earnings (startsAt endsAt hourlyRateUsdCents expectedTipUsdCents : Z) : Z :=
  IncomeService.num_round
    (num_mul (num_div (num_of_Z (endsAt - startsAt)) (num_of_Z 3600000)) (num_of_Z hourlyRateUsdCents))
  + expectedTipUsdCents.

(* ------------------------------------------------------------------ *)
(** ** The Gregorian calendar *)

Definition leap_year (y : Z) : bool := (y mod 4 =? 0) && (negb (y mod 100 =? 0) || (y mod 400 =? 0)).
Definition month_length (y m : Z) : Z :=
  if m =? 2 then (if leap_year y then 29 else 28) else if includes [4; 6; 9; 11] m then 30 else 31.

Definition last_day (y m : Z) : Z := (civil_from_days (days_from_civil (y + m / 12) (m mod 12 + 1) 1 - 1)).2.

Lemma last_day_era y m k : last_day (y + k * 400) m = last_day y m.
Proof.
  unfold last_day. replace (y + k * 400 + m / 12) with (y + m / 12 + k * 400) by lia.
  rewrite Calendar.days_from_civil_era.
  replace (days_from_civil (y + m / 12) (m mod 12 + 1) 1 + k * 146097 - 1)
    with (days_from_civil (y + m / 12) (m mod 12 + 1) 1 - 1 + k * 146097) by lia.
  apply Calendar.civil_day_era.
Qed.

Lemma leap_era y k : leap_year (y + k * 400) = leap_year y.
Proof.
  unfold leap_year.
  assert ((y + k * 400) mod 4 = y mod 4) as -> by (replace (k * 400) with (k * 100 * 4) by lia; apply Z.mod_add; lia).
  assert ((y + k * 400) mod 100 = y mod 100) as -> by (replace (k * 400) with (k * 4 * 100) by lia; apply Z.mod_add; lia).
  by rewrite Z.mod_add by lia.
Qed.

(** One era of the calendar, by computation. *)
Lemma last_day_one_era :
  forallb (fun y => forallb (fun m => last_day (Z.of_nat y) (Z.of_nat m) =? month_length (Z.of_nat y) (Z.of_nat m))
                            (seq 1 12)) (seq 0 400) = true.
Proof. vm_compute. reflexivity. Qed.

Lemma daysInMonth_gregorian y m : 100 <= y -> 1 <= m <= 12 -> daysInMonth y m = month_length y m.
Proof.
  intros Hy Hm. transitivity (last_day y m).
  { unfold daysInMonth. destruct (Z.leb_spec y 99); [lia|]. rewrite andb_false_r. unfold last_day.
    by destruct (civil_from_days _) as [[a b] c]. }
  pose proof (Z.div_mod y 400 ltac:(lia)) as E. pose proof (Z.mod_pos_bound y 400 ltac:(lia)).
  replace y with (y mod 400 + y / 400 * 400) by lia. unfold month_length. rewrite last_day_era, leap_era.
  pose proof last_day_one_era as Hall. rewrite forallb_forall in Hall.
  specialize (Hall (Z.to_nat (y mod 400))). rewrite forallb_forall in Hall.
  specialize (Hall ltac:(apply in_seq; lia) (Z.to_nat m) ltac:(apply in_seq; lia)).
  rewrite !Z2Nat.id in Hall by lia. by apply Z.eqb_eq in Hall.
Qed.

(* ------------------------------------------------------------------ *)
(** ** What the field emits *)

Definition real_date (y m d : Z) : Prop := 1 <= m <= 12 /\ 1 <= d <= month_length y m.

Lemma Number_part_Z z : 0 <= z -> Number_part (str_of_Z z) = Some z.
Proof.
  intros Hz. unfold Number_part. rewrite (bool_decide_eq_false_2 (str_of_Z z = "")) by (by apply str_of_Z_nonempty).
  by rewrite str_of_Z_digits, digits_value_str.
Qed.

Lemma padStart_zeros s n : all_chars is_digit s = true ->
  all_chars is_digit (padStart s n "0") = true /\ digits_value (padStart s n "0") = digits_value s.
Proof.
  intros Hs. unfold padStart. generalize (n - String.length s)%nat as k. induction k as [|k [IH1 IH2]]; [done|].
  cbn [repeat_str]. rewrite str_app_assoc. split; [exact IH1|]. exact IH2.
Qed.

Lemma twoDigits_digits z : 0 <= z -> all_chars is_digit (twoDigits z) = true.
Proof. intros Hz. by apply padStart_zeros, str_of_Z_digits. Qed.

Lemma Number_part_two z : 0 <= z -> Number_part (twoDigits z) = Some z.
Proof.
  intros Hz. destruct (padStart_zeros (str_of_Z z) 2 (str_of_Z_digits z Hz)) as [E1 E2].
  unfold Number_part. rewrite bool_decide_eq_false_2.
  - unfold twoDigits. by rewrite E1, E2, digits_value_str.
  - unfold twoDigits, padStart. intros E. apply (f_equal String.length) in E. rewrite str_length_app in E.
    pose proof (str_of_Z_nonempty z Hz). destruct (str_of_Z z); [done|]. cbn in E. lia.
Qed.

(** Digits have no separators. *)
Lemma digits_no_char c s : is_digit c = false -> all_chars is_digit s = true ->
  all_chars (fun a => negb (Ascii.eqb a c)) s = true.
Proof.
  intros Hc. induction s as [|a s IH]; [done|]. cbn [all_chars]. intros [Ha Hs]%andb_true_iff.
  rewrite IH by done. destruct (Ascii.eqb_spec a c) as [->|]; [congruence|done].
Qed.

Lemma all_chars_three p (s1 s2 s3 : string) (c : ascii) :
  all_chars p s1 = true -> all_chars p s2 = true -> all_chars p s3 = true -> p c = true ->
  all_chars p (s1 +:+ String c (s2 +:+ String c s3)) = true.
Proof. intros H1 H2 H3 Hc. rewrite all_chars_app. cbn. rewrite all_chars_app. cbn. by rewrite H1, H2, H3, Hc. Qed.

(** Reading what is printed. *)
Lemma read_printed now y m d h i :
  0 <= y -> 0 <= m -> 0 <= d -> 0 <= h -> 0 <= i ->
  read_fields now (str_of_Z y +:+ "-" +:+ twoDigits m +:+ "-" +:+ twoDigits d +:+ "T" +:+ twoDigits h +:+ ":" +:+ twoDigits i)
  = mkDateFields y m d h i.
Proof.
  intros Hy Hm Hd Hh Hi. pose proof (str_of_Z_digits y Hy) as Dy. pose proof (twoDigits_digits m Hm) as Dm.
  pose proof (twoDigits_digits d Hd) as Dd. pose proof (twoDigits_digits h Hh) as Dh. pose proof (twoDigits_digits i Hi) as Di.
  unfold read_fields.
  assert (split "T" (str_of_Z y +:+ "-" +:+ twoDigits m +:+ "-" +:+ twoDigits d +:+ "T" +:+ twoDigits h +:+ ":" +:+ twoDigits i)
          = [str_of_Z y +:+ String "-" (twoDigits m +:+ String "-" (twoDigits d)); twoDigits h +:+ String ":" (twoDigits i)]) as ->.
  { transitivity (split "T" ((str_of_Z y +:+ String "-" (twoDigits m +:+ String "-" (twoDigits d)))
                             +:+ String "T" (twoDigits h +:+ String ":" (twoDigits i)))).
    { f_equal. rewrite !str_app_assoc. cbn [String.append]. by rewrite !str_app_assoc. }
    rewrite split_app, split_no_char; [done| |].
    - rewrite all_chars_app. cbn. rewrite !digits_no_char by done. done.
    - apply all_chars_three; try done; by apply digits_no_char. }
  cbn [nth_error nullish]. rewrite !split_app, !split_no_char by (by apply digits_no_char).
  cbn [map]. rewrite Number_part_Z, !Number_part_two by done. done.
Qed.

(** What the user can choose: a year of the list or the one shown, and so on. *)
Definition choice_ok (f : DateFields) (next : DateChange) : Prop :=
  100 <= nullish (dc_year next) (df_year f) /\ 1 <= nullish (dc_month next) (df_month f) <= 12 /\
  1 <= nullish (dc_day next) (df_day f) /\ 0 <= nullish (dc_hour next) (df_hour f) /\
  0 <= nullish (dc_minute next) (df_minute f).

Lemma month_length_bounds y m : 28 <= month_length y m <= 31.
Proof. unfold month_length. destruct (m =? 2), (leap_year y), (includes [4; 6; 9; 11] m); lia. Qed.

(** C34: the field emits a real date of the Gregorian calendar, and shows it as
    chosen: read back, the year, the month, the hour and the minute are those
    selected, and the day is the one selected or the last day of the month. *)
Theorem update_real_date now f next :
  choice_ok f next ->
  exists d,
    read_fields now (update f next) =
      mkDateFields (nullish (dc_year next) (df_year f)) (nullish (dc_month next) (df_month f)) d
        (nullish (dc_hour next) (df_hour f)) (nullish (dc_minute next) (df_minute f)) /\
    real_date (nullish (dc_year next) (df_year f)) (nullish (dc_month next) (df_month f)) d /\
    (d = nullish (dc_day next) (df_day f) \/
     d = month_length (nullish (dc_year next) (df_year f)) (nullish (dc_month next) (df_month f)) /\
     d < nullish (dc_day next) (df_day f)).
Proof.
  intros (Hy & Hm & Hd & Hh & Hi). unfold update. cbv zeta.
  set (y := nullish (dc_year next) _) in *. set (m := nullish (dc_month next) _) in *.
  set (d := nullish (dc_day next) _) in *. rewrite daysInMonth_gregorian by done.
  pose proof (month_length_bounds y m). exists (Z.min d (month_length y m)). rewrite read_printed by lia.
  unfold real_date. repeat split; lia.
Qed.

(** 31 January, changed to February of a leap year. *)
Lemma update_real_date_witness :
  let f := mkDateFields 2028 1 31 9 5 in
  update f (mkDateChange None (Some 2) None None None) = "2028-02-29T09:05" /\
  exists d, read_fields f (update f (mkDateChange None (Some 2) None None None)) = mkDateFields 2028 2 d 9 5 /\
    real_date 2028 2 d.
Proof.
  split; [vm_compute; reflexivity|].
  destruct (update_real_date (mkDateFields 2028 1 31 9 5) (mkDateFields 2028 1 31 9 5) (mkDateChange None (Some 2) None None None))
    as (d & E1 & E2 & _).
  - repeat split; vm_compute; discriminate.
  - exists d. split; [exact E1|exact E2].
Defined.
End StaffingCards.
