(* ===== verification/StaffingOffers.v ===== *)
(** * What the cards offer is accepted

    The card of a worker (StaffingCards) shows buttons from the shifts the
    staffing service (Staffing) lists; each button sends a request to that
    service.  [worker_actions_accepted]: when nothing happens in between, the
    service carries out every action the card offers, except an acceptance of a
    shift that is listed as open although it is full.  Two ways in which an
    offer is refused are shown at the end. *)

From S2P Require Import Prelude Concurrency Strings Schema Demo Access Income Staffing WebSession Pages Dashboard StaffingCards.

Open Scope Z_scope.

Module StaffingOffers.
Import StaffingService.

(* ------------------------------------------------------------------ *)
(** ** The answer of the service as the card reads it *)

Definition assignment_json (a : ShiftAssignment) : json :=
  JObj [("id", JStr (assignment_id a)); ("workerId", JStr (assignment_workerId a));
        ("status", JStr (AssignmentStatus.name (assignment_status a)));
        ("checkInAt", JStrOpt (toISOString <$> assignment_checkInAt a));
        ("checkOutAt", JStrOpt (toISOString <$> assignment_checkOutAt a));
        ("approvedAt", JStrOpt (toISOString <$> assignment_approvedAt a));
        ("shiftEvidenceId", JStrOpt (assignment_shiftEvidenceId a))].

Definition venue_json (v : string * string * string) : json :=
  let '(id, name, timezone) := v in JObj [("id", JStr id); ("name", JStr name); ("timezone", JStr timezone)].

(** An entry of [listWorkerShifts] in JSON, with the fields the card reads. *)
Definition worker_shift_json (s : WorkerShift) : json :=
  let shift := ws_shift s in
  JObj [("id", JStr (openShift_id shift)); ("role", JStr (openShift_role shift));
        ("description", JStrOpt (openShift_description shift));
        ("startsAt", JStr (toISOString (openShift_startsAt shift)));
        ("endsAt", JStr (toISOString (openShift_endsAt shift)));
        ("hourlyRateUsdCents", JInt (openShift_hourlyRateUsdCents shift));
        ("expectedTipUsdCents", JInt (openShift_expectedTipUsdCents shift));
        ("headcount", JInt (openShift_headcount shift));
        ("status", JStr (OpenShiftStatus.name (openShift_status shift)));
        ("venue", match ws_venue s with Some v => venue_json v | None => JNull end);
        ("assignments", JArr (map assignment_json (ws_assignments s)))].

Section offers.
Context `{Platform}.

(** The endpoint a button of the card of a worker calls. *)
Definition serve (userId : string) (a : StaffingCards.worker_action) : handler ShiftAssignment :=
  match a with
  | StaffingCards.AcceptShift id => post_respond userId id ACCEPT
  | StaffingCards.DeclineShift id => post_respond userId id DECLINE
  | StaffingCards.ClockIn id => post_clockIn userId id
  | StaffingCards.CancelAssignment id => post_cancelAssignment userId id (Some "Cancelled by worker")
  | StaffingCards.ClockOut id => post_clockOut userId id
  end.

(** The status the action is for. *)
Definition outcome (a : StaffingCards.worker_action) : AssignmentStatus.t :=
  match a with
  | StaffingCards.AcceptShift _ => AssignmentStatus.ACCEPTED
  | StaffingCards.DeclineShift _ => AssignmentStatus.DECLINED
  | StaffingCards.ClockIn _ => AssignmentStatus.CLOCKED_IN
  | StaffingCards.CancelAssignment _ => AssignmentStatus.CANCELLED
  | StaffingCards.ClockOut _ => AssignmentStatus.CLOCKED_OUT
  end.

(** The identifiers still to be drawn are not in use. *)
Definition fresh_ids (w : World) : Prop :=
  forall k, (w_tick w <= k)%nat ->
    ~ In (uuid k) (map audit_id (w_auditLogs w)) /\ ~ In (uuid k) (map assignment_id (w_assignments w)).

(** A row of an audit log with a new identifier is written. *)
Lemma audit_succeeds v actor action ty id detail w :
  (forall k, (w_tick w <= k)%nat -> ~ In (uuid k) (map audit_id (w_auditLogs w))) ->
  exists w', run (staffing_audit v actor action ty id detail) w = (w', Ok tt).
Proof.
  intros Hf. unfold staffing_audit, audit. wexec. destruct (existsb _ _) eqn:E; [|by eexists].
  apply existsb_exists in E as (x & Hin & Hx). exfalso. cbn in Hx. apply bool_decide_eq_true in Hx.
  apply (Hf (w_tick w)); [done|]. rewrite Hx. by apply in_map.
Qed.

(** The audit row at the end of an operation that left the audit log alone. *)
Ltac audit_done Hf :=
  match goal with
  | |- context [run (staffing_audit ?v ?a ?b ?c ?d ?e) ?w1] =>
      let w' := fresh "w'" in let E := fresh "E" in let k := fresh "k" in let Hk := fresh "Hk" in
      destruct (audit_succeeds v a b c d e w1) as [w' E];
      [intros k Hk; destruct (Hf k) as [? _]; [cbn in Hk; lia|done]|rewrite E; wexec]
  end.

(* ------------------------------------------------------------------ *)
(** ** What is listed *)

(** A listed shift in the tables: the worker, the shift, a confirmed connection,
    and the assignments of the worker on the shift. *)
Record listed (w : World) (userId : string) (x : Worker) (card : WorkerShift) : Prop := {
  li_worker : List.find (fun y => worker_userId y ==? userId) (w_workers w) = Some x;
  li_shift : In (ws_shift card) (w_openShifts w);
  li_connected : existsb (connected (openShift_venueId (ws_shift card)) (worker_id x)) (w_accounts w) = true;
  li_assignments : ws_assignments card =
    List.filter (of_worker (openShift_id (ws_shift card)) (worker_id x)) (w_assignments w)
}.

Lemma listed_cards userId w w1 cards card :
  run (get_workerShifts userId) w = (w1, Ok cards) -> In card cards ->
  w1 = w <| w_tick ::= fun n => S (S n) |> /\ exists x, listed w1 userId x card.
Proof.
  unfold get_workerShifts, listWorkerShifts, getWorker. wexec.
  destruct (List.find _ (w_workers w)) as [x|] eqn:Ex; wexec; [|done].
  destruct (length _ =? 0)%nat; wexec; [by intros [= _ <-]|]. intros [= <- <-] Hin. split; [done|]. exists x.
  apply in_map_iff in Hin as (s & <- & Hs).
  assert (In s (List.filter (fun s0 => includes (map account_venueId (List.filter
            (fun c => (account_workerId c ==? worker_id x) && (account_mappingStatus c ==? MappingStatus.CONFIRMED))
            (w_accounts w))) (openShift_venueId s0)) (w_openShifts w))) as Hs'.
  { apply list_elem_of_In, elem_of_take in Hs as (i & Hi & _). apply list_elem_of_lookup_2 in Hi.
    unfold orderByAsc in Hi. rewrite stable_sort_Permutation in Hi. apply list_elem_of_In, filter_In in Hi as [Hi Hc].
    apply filter_In. split; [done|]. by apply andb_true_iff in Hc as [[? _]%andb_true_iff _]. }
  apply filter_In in Hs' as [Hin Hv]. split; [exact Ex|exact Hin| |done]. cbn [ws_shift].
  apply includes_In, in_map_iff in Hv as (c & Ec & Hc). apply filter_In in Hc as [Hc Hx].
  apply existsb_exists. exists c. split; [done|]. unfold connected. rewrite Ec, bd_refl. exact Hx.
Qed.

(** The first assignment of the card is that of the worker on the shift. *)
Definition mine (w : World) (x : Worker) (card : WorkerShift) : option ShiftAssignment :=
  List.find (of_worker (openShift_id (ws_shift card)) (worker_id x)) (w_assignments w).

Lemma head_filter {R} (p : R -> bool) l : head (List.filter p l) = List.find p l.
Proof. induction l as [|r l IH]; cbn; [done|]. by destruct (p r). Qed.

Definition unanswered (o : option ShiftAssignment) : bool :=
  match o with
  | None => true
  | Some e => in_statuses [AssignmentStatus.INVITED; AssignmentStatus.DECLINED; AssignmentStatus.CANCELLED] e
  end.

(** The offers in terms of the tables. *)
Inductive offered (w : World) (x : Worker) (card : WorkerShift) : StaffingCards.worker_action -> Prop :=
| offered_answer a :
    openShift_status (ws_shift card) = OpenShiftStatus.OPEN -> unanswered (mine w x card) = true ->
    In a [StaffingCards.AcceptShift (openShift_id (ws_shift card)); StaffingCards.DeclineShift (openShift_id (ws_shift card))] ->
    offered w x card a
| offered_accepted e a :
    mine w x card = Some e -> assignment_status e = AssignmentStatus.ACCEPTED ->
    In a [StaffingCards.ClockIn (assignment_id e); StaffingCards.CancelAssignment (assignment_id e)] ->
    offered w x card a
| offered_clocked_in e :
    mine w x card = Some e -> assignment_status e = AssignmentStatus.CLOCKED_IN ->
    offered w x card (StaffingCards.ClockOut (assignment_id e)).

Lemma worker_actions_offered w userId x card a :
  listed w userId x card -> In a (StaffingCards.worker_actions (worker_shift_json card)) -> offered w x card a.
Proof.
  intros Hl. pose proof (li_assignments _ _ _ _ Hl) as Ha.
  assert (head (ws_assignments card) = mine w x card) as Hm by (rewrite Ha; apply head_filter). clear Ha Hl.
  unfold StaffingCards.worker_actions.
  change (StaffingCards.assignments (worker_shift_json card)) with (map assignment_json (ws_assignments card)).
  change (StaffingCards.text_of (worker_shift_json card) "status") with (OpenShiftStatus.name (openShift_status (ws_shift card))).
  change (StaffingCards.text_of (worker_shift_json card) "id") with (openShift_id (ws_shift card)).
  destruct (ws_assignments card) as [|e l]; cbn [map head] in *; cbn [fmap option_fmap option_map nullish].
  - change ("" ==? "ACCEPTED") with false. change ("" ==? "CLOCKED_IN") with false. cbn [andb]. rewrite !app_nil_r.
    destruct (openShift_status (ws_shift card)) eqn:Es; try done. intros Hin. apply offered_answer; [done|by rewrite <- Hm|done].
  - change (StaffingCards.text_of (assignment_json e) "status") with (AssignmentStatus.name (assignment_status e)).
    change (StaffingCards.text_of (assignment_json e) "id") with (assignment_id e). symmetry in Hm.
    destruct (assignment_status e) eqn:Ee; cbn;
      try (destruct (openShift_status (ws_shift card)) eqn:Es; cbn; intros Hin; try done;
           by (apply offered_answer; [done|by rewrite Hm; unfold unanswered, in_statuses; rewrite Ee|naive_solver])).
    + intros Hin. by apply (offered_accepted w x card e).
    + intros [<-|[]]. by apply (offered_clocked_in w x card e).
Qed.

(* ------------------------------------------------------------------ *)
(** ** The operations succeed *)

Lemma find_id {R} `{Row R} (l : list R) r i :
  NoDup (map row_id l) -> In r l -> row_id r = i -> List.find (by_id i) l = Some r.
Proof.
  intros HN Hin <-. destruct (List.find (by_id (row_id r)) l) as [r'|] eqn:E.
  - apply find_In in E as [Hin' E]. apply bool_decide_eq_true in E. f_equal. by apply (NoDup_map_inj row_id l).
  - apply (List.find_none _ _ E) in Hin. unfold by_id in Hin. by rewrite bd_refl in Hin.
Qed.

Section one.
Context (w : World) (userId : string) (x : Worker) (card : WorkerShift).
Context (Hok : headcount_ok w) (Hl : listed w userId x card) (Hf : fresh_ids w).

Lemma shift_of_card : List.find (by_id (openShift_id (ws_shift card))) (w_openShifts w) = Some (ws_shift card).
Proof. apply find_id; [apply Hok|apply Hl|done]. Qed.

Lemma mine_spec e : mine w x card = Some e ->
  In e (w_assignments w) /\ assignment_openShiftId e = openShift_id (ws_shift card) /\ assignment_workerId e = worker_id x.
Proof.
  intros He. apply find_In in He as [Hin He]. split; [done|]. apply of_worker_slot in He. unfold slot in He. by simplify_eq.
Qed.

Lemma mine_by_id e : mine w x card = Some e -> List.find (by_id (assignment_id e)) (w_assignments w) = Some e.
Proof. intros (Hin & _)%mine_spec. apply find_id; [apply Hok|done|done]. Qed.

(** The assignment of the card passes the owner's check. *)
Lemma run_workerAssignment e : mine w x card = Some e ->
  run (workerAssignment (assignment_id e) userId) w = (w, Ok (e, ws_shift card, x)).
Proof.
  intros He. destruct (mine_spec e He) as (_ & Es & Ew). unfold workerAssignment, getWorker. wexec.
  rewrite (li_worker _ _ _ _ Hl). wexec. unfold assignment_data. rewrite (mine_by_id e He), Es, shift_of_card.
  cbn [fmap option_fmap option_map]. rewrite Ew, bd_refl. wexec. done.
Qed.

(** The operation [p] answers an assignment of status [st]. *)
Definition accepted (p : handler ShiftAssignment) (st : AssignmentStatus.t) : Prop :=
  exists w' a, run p w = (w', Ok a) /\ assignment_status a = st.

Lemma clockIn_accepted e :
  mine w x card = Some e -> assignment_status e = AssignmentStatus.ACCEPTED ->
  accepted (clockIn (assignment_id e) userId) AssignmentStatus.CLOCKED_IN.
Proof.
  intros He Hst. destruct (mine_spec e He) as (_ & Es & _). unfold accepted, clockIn.
  rewrite run_bind, run_workerAssignment by done.
  rewrite Hst, bd_refl. wexec. rewrite (mine_by_id e He). wexec. rewrite Es, shift_of_card. wexec.
  audit_done Hf. by eexists _, _.
Qed.

Lemma clockOut_accepted e :
  mine w x card = Some e -> assignment_status e = AssignmentStatus.CLOCKED_IN ->
  accepted (clockOut (assignment_id e) userId) AssignmentStatus.CLOCKED_OUT.
Proof.
  intros He Hst. unfold accepted, clockOut. rewrite run_bind, run_workerAssignment by done.
  rewrite Hst, bd_refl. wexec. rewrite (mine_by_id e He). wexec. audit_done Hf. by eexists _, _.
Qed.

Lemma cancel_accepted e reason :
  mine w x card = Some e -> assignment_status e = AssignmentStatus.ACCEPTED ->
  accepted (cancelAssignment (assignment_id e) userId reason) AssignmentStatus.CANCELLED.
Proof.
  intros He Hst. unfold accepted, cancelAssignment. rewrite run_bind, run_workerAssignment by done.
  unfold in_statuses, reopen. rewrite Hst. wexec. rewrite (mine_by_id e He). wexec.
  destruct (_ ==? _); wexec; [|audit_done Hf; by eexists _, _].
  destruct (_ <? _); wexec; [|audit_done Hf; by eexists _, _].
  rewrite shift_of_card. wexec. audit_done Hf. by eexists _, _.
Qed.

Lemma connection_found :
  exists c, List.find (connected (openShift_venueId (ws_shift card)) (worker_id x)) (w_accounts w) = Some c.
Proof.
  destruct (List.find _ _) as [c|] eqn:E; [by eexists|]. pose proof (li_connected _ _ _ _ Hl) as Hc.
  apply existsb_exists in Hc as (c & Hin & Hc). by rewrite (List.find_none _ _ E c Hin) in Hc.
Qed.

(** The row of a first answer clashes with none. *)
Lemma no_clash k st t :
  (w_tick w <= k)%nat -> mine w x card = None ->
  existsb (row_clash ((new_assignment (uuid k) (openShift_id (ws_shift card)) (worker_id x) st)
                        <| assignment_respondedAt := t |>)) (w_assignments w) = false.
Proof.
  intros Hk Hn. apply not_true_iff_false. intros (a & Hin & Ha)%existsb_exists.
  apply (List.find_none _ _ Hn) in Hin as Hw. cbn in Ha. rewrite orb_false_r in Ha. apply orb_true_iff in Ha as [Ha|Ha].
  - apply bool_decide_eq_true in Ha. destruct (Hf k Hk) as [_ H2]. apply H2. rewrite Ha. by apply in_map.
  - unfold of_worker, of_shift in Hw. apply andb_true_iff in Ha as [E1%bool_decide_eq_true E2%bool_decide_eq_true].
    by rewrite <- E1, <- E2, !bd_refl in Hw.
Qed.

(** The body of the transaction, once the guard of an acceptance has passed. *)
Definition has_place (r : Response) : bool :=
  match r with
  | ACCEPT => negb (openShift_headcount (ws_shift card) <=?
                    Z.of_nat (length (List.filter (active_on (openShift_id (ws_shift card))) (w_assignments w))))
  | DECLINE => true
  end.

Definition full_error : exn := ConflictException "Shift has already reached its headcount".

Lemma unanswered_inactive : unanswered (mine w x card) = true ->
  match mine w x card with Some e => in_statuses ACTIVE_ASSIGNMENTS e | None => false end = false.
Proof. destruct (mine w x card) as [e|]; [|done]. unfold unanswered, in_statuses. by destruct (assignment_status e). Qed.

Lemma answer_accepted r :
  openShift_status (ws_shift card) = OpenShiftStatus.OPEN -> unanswered (mine w x card) = true ->
  if has_place r then accepted (respond (openShift_id (ws_shift card)) userId r) (answered r)
  else run (respond (openShift_id (ws_shift card)) userId r) w = (w, Err full_error).
Proof.
  intros Ho Hu. destruct connection_found as [c Hc]. pose proof (unanswered_inactive Hu) as Hi. unfold mine in Hi.
  unfold accepted, respond, getWorker, getShift. wexec. rewrite (li_worker _ _ _ _ Hl). wexec. rewrite shift_of_card. wexec.
  rewrite Hc. wexec. rewrite Ho, bd_refl. unfold respond_transaction.
  pose proof (no_clash (S (S (w_tick w))) (answered r) (Some (now (S (w_tick w)))) ltac:(lia)) as Hn. unfold mine in Hn.
  destruct r; cbn [has_place]; wexec; cbn [negb]; wexec.
  1: rewrite Hi; destruct (_ <=? _); cbn [negb andb]; [done|]; wexec.
  all: destruct (List.find (of_worker _ _) _) as [e|]; wexec; rewrite ?Hn by done; wexec; rewrite shift_of_card; wexec;
    audit_done Hf; by eexists _, _.
Qed.
End one.
End offers.

(** C13: the staffing service carries out what the card of a worker offers: run on
    the tables the shifts were listed from, the request of an offered action
    answers the assignment in the status the action is for.  The one refusal is
    of an acceptance, of a shift that is full although it is listed as open. *)
Theorem worker_actions_accepted `{Platform} userId w w1 cards card a :
  headcount_ok w -> fresh_ids w ->
  run (get_workerShifts userId) w = (w1, Ok cards) -> In card cards ->
  In a (StaffingCards.worker_actions (worker_shift_json card)) ->
  (exists w2 x, run (serve userId a) w1 = (w2, Ok x) /\ assignment_status x = outcome a) \/
  (a = StaffingCards.AcceptShift (openShift_id (ws_shift card)) /\
   openShift_headcount (ws_shift card) <=
     Z.of_nat (length (List.filter (active_on (openShift_id (ws_shift card))) (w_assignments w))) /\
   run (serve userId a) w1 = (w1, Err full_error)).
Proof.
  intros Hok Hfr Hrun Hcard Ha. destruct (listed_cards _ _ _ _ _ Hrun Hcard) as [E [x Hl]].
  assert (headcount_ok w1) as Hok1 by (by subst w1).
  assert (fresh_ids w1) as Hf1. { subst w1. intros k Hk. apply Hfr. cbn in Hk. lia. }
  destruct (worker_actions_offered _ _ _ _ _ Hl Ha) as [a Ho Hu Hin|e a He Hst Hin|e He Hst].
  - destruct Hin as [<-|[<-|[]]].
    + pose proof (answer_accepted w1 userId x card Hok1 Hl Hf1 ACCEPT Ho Hu) as Hr. cbn [has_place] in Hr.
      subst w1. cbn [w_assignments set] in Hr. destruct (Z.leb_spec (openShift_headcount (ws_shift card))
        (Z.of_nat (length (List.filter (active_on (openShift_id (ws_shift card))) (w_assignments w))))); [right|by left].
      by split_and!.
    + left. exact (answer_accepted w1 userId x card Hok1 Hl Hf1 DECLINE Ho Hu).
  - left. destruct Hin as [<-|[<-|[]]].
    + by apply (clockIn_accepted w1 userId x card Hok1 Hl Hf1 e).
    + by apply (cancel_accepted w1 userId x card Hok1 Hl Hf1 e).
  - left. by apply (clockOut_accepted w1 userId x card Hok1 Hl Hf1 e).
Qed.

(* ------------------------------------------------------------------ *)
(** ** The demo venue *)

Definition served (userId : string) (a : StaffingCards.worker_action) (w : World) : result AssignmentStatus.t :=
  match (run (serve userId a) w).2 with Ok x => Ok (assignment_status x) | Err e => Err e end.

(** What the card of a worker offers for each listed shift. *)
Definition offers_of (userId : string) (w : World) : list StaffingCards.worker_action :=
  match (run (get_workerShifts userId) w).2 with
  | Ok cards => concat (map (fun c => StaffingCards.worker_actions (worker_shift_json c)) cards)
  | Err _ => []
  end.

Lemma demo_uuid_inj k n : uuid k = uuid n -> k = n.
Proof. intros E. cbn in E. apply (str_app_inv_head "id"), (f_equal digits_value) in E. rewrite !digits_value_str in E; lia. Qed.

Lemma demo_fresh : fresh_ids demo_filled.
Proof.
  intros k Hk. unfold demo_filled in *. cbn [w_tick w_auditLogs w_assignments map audit_id assignment_id] in *.
  assert (forall n l, (n < k)%nat -> ~ In (uuid k) l -> ~ In (uuid k) (uuid n :: l)) as Hne.
  { intros n l Hn Hl [E|E]; [apply demo_uuid_inj in E; lia|done]. }
  split; [apply (Hne 1%nat), (Hne 3%nat), (Hne 7%nat)|apply (Hne 6%nat)]; solve [lia|by intros []].
Qed.

Definition listed_u1 : World * list WorkerShift :=
  Eval vm_compute in
  match run (get_workerShifts "u1") demo_filled with (w1, Ok cards) => (w1, cards) | (w1, Err _) => (w1, []) end.

(** The worker who has the place clocks in. *)
Lemma worker_actions_accepted_witness :
  offers_of "u1" demo_filled = [StaffingCards.ClockIn demo_assignment; StaffingCards.CancelAssignment demo_assignment] /\
  exists w2 x, run (serve "u1" (StaffingCards.ClockIn demo_assignment)) listed_u1.1 = (w2, Ok x) /\
    assignment_status x = AssignmentStatus.CLOCKED_IN.
Proof.
  split; [vm_compute; reflexivity|].
  destruct (worker_actions_accepted "u1" demo_filled listed_u1.1 listed_u1.2
              (nullish (head listed_u1.2) (mkWorkerShift (mkOpenShift "" "" "" None 0 0 0 0 0 OpenShiftStatus.DRAFT "" None None) None []))
              (StaffingCards.ClockIn demo_assignment)) as [Hx|(E & _)].
  - split; try (apply (bool_decide_unpack _); vm_compute; done).
    + intros a Ha. vm_compute in Ha. destruct Ha as [<-|[]]. by left.
    + intros s Hs. vm_compute in Hs. destruct Hs as [<-|[]]. vm_compute. done.
  - exact demo_fresh.
  - vm_compute. reflexivity.
  - vm_compute. by left.
  - vm_compute. by left.
  - exact Hx.
  - discriminate E.
Defined.

(** A shift for one: [u2] is invited, [u1] takes the place, [u2] turns the
    invitation down. *)
Definition demo_reopened : World :=
  Eval vm_compute in
  fold_left (fun w o => perform o w)
    [CreateShift "v" "boss" (mkCreateShiftInput "server" None 7200000 36000000 1500 None None);
     PublishShift "id0" "boss"; Invite "id0" "w2" "boss"; Respond "id0" "u1" ACCEPT; CancelAssignment "id4" "u2" None]
    demo_venue.

(** The shift is full, but giving the invitation back has opened it again; the
    card offers [u2] the place, and the service refuses. *)
Example full_shift_offered :
  map (fun a => (assignment_workerId a, assignment_status a)) (w_assignments demo_reopened)
    = [("w2", AssignmentStatus.CANCELLED); ("w1", AssignmentStatus.ACCEPTED)] /\
  map (fun s => (openShift_headcount s, openShift_status s)) (w_openShifts demo_reopened) = [(1, OpenShiftStatus.OPEN)] /\
  offers_of "u2" demo_reopened = [StaffingCards.AcceptShift "id0"; StaffingCards.DeclineShift "id0"] /\
  served "u2" (StaffingCards.AcceptShift "id0") demo_reopened = Err full_error.
Proof. vm_compute. done. Qed.

(** The card of a venue offers an invitation to a shift that is filled; the
    service takes invitations only for an open shift. *)
Example filled_shift_invitation :
  let card := worker_shift_json (mkWorkerShift (nullish (head (w_openShifts demo_filled))
    (mkOpenShift "" "" "" None 0 0 0 0 0 OpenShiftStatus.DRAFT "" None None)) None []) in
  In (StaffingCards.Invite "id0" "w2") (StaffingCards.venue_actions ["w2"] card) /\
  (run (post_invite "boss" "id0" "w2") demo_filled).2
    = Err (ConflictException "Shift is FILLED; invitations require a published shift").
Proof. vm_compute. split; [by right; left|done]. Qed.
End StaffingOffers.
