(* ===== verification/MyIncome.v ===== *)
(** * The income page of a worker

    apps/web/src/app/me/page.tsx: the handlers of the page of a worker's income
    (the timeline, the connections to venues, the receiving wallets, the
    sharing of reports).  Pages of the timeline are appended as they arrive,
    whichever clicks are under way: no entry is shown twice
    ([timeline_no_duplicates]).  The list of available modes, which comes from
    the stored session (WebSession), is not part of the state. *)

From stdpp Require Import relations gmap strings.
From S2P Require Import Prelude Concurrency Strings Schema Disclosure WebSession Pages Dashboard.

Open Scope Z_scope.

Module MyIncome.
Import Pages.

Definition text_of : json -> string -> string := Dashboard.text_of.
Definition json_items : option json -> list json := Dashboard.json_items.

(** The state of the page. *)
Record Me := mkMe {
  me_me : option json;
  me_timeline : list json;
  me_timelineCursor : option string;
  me_timelineLoading : bool;
  me_summary : option json;
  me_alerts : list json;
  me_grants : list json;
  me_venueConnections : list json;
  me_respondingMappingId : option string;
  me_connectionMessage : option string;
  me_taxReadiness : option json;
  me_emailStatus : option string;
  me_shareUrl : option string;
  me_qrDataUrl : option string;
  me_lastReportId : option string;
  me_busy : bool;
  me_initialLoading : bool;
  me_incomeSecondaryLoading : bool;
  me_incomeSecondaryLoaded : bool;
  me_workDataLoading : bool;
  me_workDataLoaded : bool;
  me_copied : bool;
  me_copiedAlertId : option string;
  me_copiedWalletId : option string;
  me_walletNotice : option string;
  me_error : option string;
  (** [incomeSecondaryRequested.current] and [workDataRequested.current] *)
  me_incomeSecondaryRequested : bool;
  me_workDataRequested : bool
}.
#[export] Instance eta_Me : Eta Me := fun r => mkMe
  (me_me r) (me_timeline r) (me_timelineCursor r) (me_timelineLoading r) (me_summary r) (me_alerts r) (me_grants r)
  (me_venueConnections r) (me_respondingMappingId r) (me_connectionMessage r) (me_taxReadiness r) (me_emailStatus r)
  (me_shareUrl r) (me_qrDataUrl r) (me_lastReportId r) (me_busy r) (me_initialLoading r) (me_incomeSecondaryLoading r)
  (me_incomeSecondaryLoaded r) (me_workDataLoading r) (me_workDataLoaded r) (me_copied r) (me_copiedAlertId r)
  (me_copiedWalletId r) (me_walletNotice r) (me_error r) (me_incomeSecondaryRequested r) (me_workDataRequested r).

(** The values of a render that its handlers close over. *)
Record Render := mkRender {
  rn_me : option json;
  rn_timelineCursor : option string;
  rn_timelineLoading : bool;
  rn_initialLoading : bool;
  rn_workspace : string;
  rn_purpose : string;
  rn_level : string;
  rn_rangeMonths : string;
  rn_expiresInDays : string;
  rn_thresholdUsd : string;
  rn_recipientEmail : string;
  rn_recipientEmailConfirm : string;
  rn_accessMode : string;
  rn_shareUrl : option string
}.

(** The local clock of the browser, its clipboard, the QR codes of the qrcode
    package, and the download of a report. *)
Class Devices := {
  toLocal : Z -> Z;
  ofLocal : Z -> Z;
  clipboardWrite : string -> nat -> result unit;
  qrCode : string -> nat -> result string;
  (** the answer of [fetch] of a PDF, [None] when it is not a success *)
  pdfAnswer : string -> nat -> result (option string);
  isEmailShape : string -> bool
}.

Section handlers.
Context `{Client} `{Devices} `{FormReading}.

Abbreviation ui := (prog (App Me)).

Definition setError (e : option string) : Me -> Me := fun s => s <| me_error := e |>.
Definition setBusy (b : bool) : ui unit := modify (fun s => s <| me_busy := b |>).
Definition guard (e : exn) : ui unit := Pages.guard setError e.

(** A JSON text that may be missing or [null]. *)
Definition text_opt (j : json) (k : string) : option string := as_string (field j k).

(** The load of the page, after the check of the session. *)
Definition loadOverview : ui unit :=
  finally (catch
    (let* overview := fetchApiQuery "/workers/me/overview" in
     let timeline := nullish (field overview "timeline") JNull in
     do* modify (fun s => s <| me_me := field overview "me" |>) in
     do* modify (fun s => s <| me_timeline := json_items (field timeline "items") |>) in
     do* modify (fun s => s <| me_timelineCursor := text_opt timeline "nextCursor" |>) in
     do* modify (fun s => s <| me_summary := field overview "summary" |>) in
     modify (fun s => s <| me_alerts := json_items (field overview "alerts") |>)) guard)
    (modify (fun s => s <| me_initialLoading := false |>)).

(** A flag of [useRef]: read and set in one go. *)
Definition once (read : Me -> bool) (set : Me -> Me) : ui bool :=
  Act (fun a => if read (app_state a) then (a, false) else (a <| app_state ::= set |>, true)) Ret.

(** The data of the income view, requested once. *)
Definition loadIncomeSecondary (r : Render) : ui unit :=
  if rn_initialLoading r || negb (rn_workspace r ==? "income") then Ret tt else
  let* first := once me_incomeSecondaryRequested (fun s => s <| me_incomeSecondaryRequested := true |>) in
  if negb first then Ret tt else
  do* modify (fun s => s <| me_incomeSecondaryLoading := true |>) in
  finally (catch
    (let* grantData := fetchApiQuery "/disclosures" in
     let* taxData := fetchApiQuery "/workers/me/tax-readiness" in
     do* modify (fun s => s <| me_grants := json_items (Some grantData) |>) in
     modify (fun s => s <| me_taxReadiness := Some taxData |>)) guard)
    (modify (fun s => s <| me_incomeSecondaryLoaded := true |> <| me_incomeSecondaryLoading := false |>)).

(** The data of the work view, requested once. *)
Definition loadWorkData (r : Render) : ui unit :=
  if rn_initialLoading r || negb (rn_workspace r ==? "work") then Ret tt else
  let* first := once me_workDataRequested (fun s => s <| me_workDataRequested := true |>) in
  if negb first then Ret tt else
  do* modify (fun s => s <| me_workDataLoading := true |>) in
  finally (catch
    (let* connections := fetchApiQuery "/workers/me/venue-connections" in
     modify (fun s => s <| me_venueConnections := json_items (Some connections) |>)) guard)
    (modify (fun s => s <| me_workDataLoaded := true |> <| me_workDataLoading := false |>)).

(** The invalidation is awaited, the load that follows is not. *)
Definition refreshGrants : ui unit :=
  do* invalidateApiQueries ["/disclosures"] in log (Refetch "/disclosures").

(** The load [refreshGrants] starts. *)
Definition reloadGrants : ui unit :=
  catch (let* grants := fetchApiQuery "/disclosures" in
         modify (fun s => s <| me_grants := json_items (Some grants) |>)) guard.

Definition reloadConnections : ui unit :=
  let* connections := fetchApiQuery "/workers/me/venue-connections" in
  modify (fun s => s <| me_venueConnections := json_items (Some connections) |>).

Definition respondToMapping (mappingId decision : string) : ui unit :=
  do* modify (fun s => s <| me_respondingMappingId := Some mappingId |>) in
  do* modify (fun s => s <| me_connectionMessage := None |>) in
  do* modify (setError None) in
  finally (catch
    (let* _ := api "PATCH" ("/worker-mappings/" +:+ mappingId +:+ "/respond")
                 (Some (JObj [("decision", JStr decision)])) in
     do* invalidateApiQueries ["/workers/me/venue-connections"; "/workers/me/overview"] in
     do* reloadConnections in
     modify (fun s => s <| me_connectionMessage := Some
       (if decision ==? "ACCEPT"
        then "Connection accepted. Existing work records are now linked to this account."
        else "Connection request rejected.") |>)) guard)
    (modify (fun s => s <| me_respondingMappingId := None |>)).

Definition timeline_path (cursor : string) : string :=
  "/workers/me/income-timeline?limit=25&cursor=" +:+ encodeURI cursor.

(** The entries of a page that are not shown yet, after those that are. *)
Definition append_page (page : json) (current : list json) : list json :=
  current ++ List.filter (fun entry =>
    negb (existsb (fun existing => text_of existing "id" ==? text_of entry "id") current))
    (json_items (field page "items")).

Definition loadMoreTimeline (r : Render) : ui unit :=
  match rn_timelineCursor r with
  | None => Ret tt
  | Some cursor =>
      if (cursor ==? "") || rn_timelineLoading r then Ret tt else
      do* modify (fun s => s <| me_timelineLoading := true |>) in
      finally (catch
        (let* page := fetchApiQuery (timeline_path cursor) in
         do* modify (fun s => s <| me_timeline ::= append_page page |>) in
         modify (fun s => s <| me_timelineCursor := text_opt page "nextCursor" |>)) guard)
        (modify (fun s => s <| me_timelineLoading := false |>))
  end.

(* ------------------------------------------------------------------ *)
(** ** Sharing a report *)

(** The date and the time of day of a local time, and back: [MakeDay] counts the
    months over the end of a year and the days over the end of a month. *)
Definition local_day (ms : Z) : Z * Z * Z := civil_from_days (ms / 86400000).
Definition make_day (year month day : Z) : Z :=
  days_from_civil (year + month / 12) (month mod 12 + 1) 1 + (day - 1).

(** [date.setMonth(month, day)], [date.setFullYear(year, month, day)] and
    [date.setHours(h, m, s, ms)], months counted from 0. *)
Definition setMonth (month : Z) (day : option Z) (date : Z) : Z :=
  let '(y, _, d) := local_day (toLocal date) in
  ofLocal (make_day y month (nullish day d) * 86400000 + toLocal date mod 86400000).
Definition setFullYear (year month day : Z) (date : Z) : Z :=
  ofLocal (make_day year month day * 86400000 + toLocal date mod 86400000).
Definition setHours (h m s ms : Z) (date : Z) : Z :=
  ofLocal (toLocal date / 86400000 * 86400000 + (((h * 60 + m) * 60 + s) * 1000 + ms)).
Definition getFullYear (date : Z) : Z := let '(y, _, _) := local_day (toLocal date) in y.
Definition getMonth (date : Z) : Z := let '(_, m, _) := local_day (toLocal date) in m - 1.

(** The dates a report covers. *)
Definition disclosure_range (rangeMonths : string) (now : Z) : Z * Z :=
  if rangeMonths ==? "ytd" then (setHours 0 0 0 0 (setMonth 0 (Some 1) now), now)
  else if rangeMonths ==? "lastYear" then
    (setHours 0 0 0 0 (setFullYear (getFullYear now - 1) 0 1 now),
     setHours 23 59 59 999 (setFullYear (getFullYear now - 1) 11 31 now))
  else (setMonth (getMonth now - readNumber rangeMonths) None now, now).

Definition disclosure_body (r : Render) (now : Z) : json :=
  let '(start, finish) := disclosure_range (rn_rangeMonths r) now in
  let expiry := now + readNumber (rn_expiresInDays r) * 24 * 60 * 60 * 1000 in
  JObj ([("purpose", JStr (rn_purpose r)); ("level", JStr (rn_level r));
         ("dateRangeStart", JStr (toISOString start)); ("dateRangeEnd", JStr (toISOString finish));
         ("expiresAt", JStr (toISOString expiry)); ("accessMode", JStr (rn_accessMode r));
         ("allowDownload", JBool true); ("autoIssue", JBool true)]
        ++ (if rn_level r ==? "LEVEL_1" then [("thresholdUsdCents", JInt (readCents (rn_thresholdUsd r)))] else [])
        ++ (if trim (rn_recipientEmail r) ==? "" then []
            else [("recipientEmail", JStr (trim (rn_recipientEmail r)))])).

(** [created.emailSent === undefined ? null : created.emailSent ? "sent" : "failed"] *)
Definition email_status (created : json) : option string :=
  match field created "emailSent" with
  | None => None
  | Some v => Some (if Dashboard.as_bool (Some v) then "sent" else "failed")
  end.

Definition createDisclosure (r : Render) : ui unit :=
  do* setBusy true in
  do* modify (setError None) in
  finally (catch
    (let* now := outside clock in
     let* created := api "POST" "/disclosures" (Some (disclosure_body r now)) in
     let shareUrl := text_of created "shareUrl" in
     do* modify (fun s => s <| me_emailStatus := email_status created |>) in
     do* modify (fun s => s <| me_shareUrl := Some shareUrl |>) in
     do* modify (fun s => s <| me_copied := false |>) in
     do* modify (fun s => s <| me_lastReportId := Some (text_of (nullish (field created "report") JNull) "id") |>) in
     let* qr := outside_may_fail (qrCode shareUrl) in
     do* modify (fun s => s <| me_qrDataUrl := Some qr |>) in
     refreshGrants) guard)
    (setBusy false).

(** The conditions that disable the button that shares. *)
Definition invalidEmail (r : Render) : bool :=
  (0 <? Z.of_nat (String.length (rn_recipientEmail r))) && negb (isEmailShape (rn_recipientEmail r)).
Definition recipientRequired (r : Render) : bool :=
  (rn_accessMode r ==? "RECIPIENT_OTP") && (rn_recipientEmail r ==? "").
Definition recipientMismatch (r : Render) : bool :=
  negb (rn_recipientEmail r ==? "") &&
  negb (toLowerCase (rn_recipientEmail r) ==? toLowerCase (rn_recipientEmailConfirm r)).

Definition revokeGrant (r : Render) (grantId : string) : ui unit :=
  do* setBusy true in
  finally (catch
    (let* _ := api "DELETE" ("/disclosures/" +:+ grantId) None in
     do* (if truthy (rn_shareUrl r) then modify (fun s => s <| me_shareUrl := None |>) else Ret tt) in
     do* modify (fun s => s <| me_qrDataUrl := None |>) in
     refreshGrants) guard)
    (setBusy false).

Definition downloadPdf (reportId : string) : ui unit :=
  let* blob := outside_may_fail (pdfAnswer reportId) in
  match blob with
  | None => modify (setError (Some (t "me.share.pdfFail")))
  | Some content => log (Downloaded ("serveproof-report-" +:+ reportId +:+ ".pdf") content)
  end.

Definition copyShareLink (r : Render) : ui unit :=
  match rn_shareUrl r with
  | Some shareUrl =>
      if shareUrl ==? "" then Ret tt else
      do* outside_may_fail (clipboardWrite shareUrl) in
      do* modify (fun s => s <| me_copied := true |>) in
      log (Delayed 2000)
  | None => Ret tt
  end.

Definition copyWalletAddress (walletId address : string) : ui unit :=
  do* outside_may_fail (clipboardWrite address) in
  do* modify (fun s => s <| me_copiedWalletId := Some walletId |>) in
  log (Delayed 2000).

(** [Number(a ?? b ?? c ?? 0)] of the amounts of an alert. *)
Definition alert_amount (alert : json) : Z :=
  let detail := nullish (field alert "detail") JNull in
  let amount k := as_number (field detail k) in
  nullish (amount "allocatedUsdCents") (nullish (amount "paidUsdCents") (nullish (amount "payrollReportedUsdCents") 0)).

Definition alert_message (alert : json) : string :=
  let part o k := nullish (o ≫= fun j => as_string (field j k)) "" in
  let context := join " · " (List.filter (fun s => negb (s ==? ""))
    [part (field alert "venue") "name"; part (field alert "shift") "businessDate"; part (field alert "shift") "role"]) in
  let type := text_of alert "type" in
  "[ServeProof review request] " +:+ t ("alert.label." +:+ type)
  +:+ (if context ==? "" then "" else " — " +:+ context)
  +:+ (if 0 <? alert_amount alert then " — " +:+ Dashboard.usd (alert_amount alert) else "")
  +:+ String "010" (t ("alert." +:+ type)).

Definition copyAlertInquiry (alert : json) : ui unit :=
  catch (do* outside_may_fail (clipboardWrite (alert_message alert)) in
         do* modify (fun s => s <| me_copiedAlertId := Some (text_of alert "id") |>) in
         log (Delayed 2000))
        (fun _ => modify (setError (Some (t "me.alerts.copyFailed")))).

(* ------------------------------------------------------------------ *)
(** ** The receiving wallet *)

Definition registerWallet (r : Render) : ui unit :=
  do* setBusy true in
  do* modify (setError None) in
  do* modify (fun s => s <| me_walletNotice := None |>) in
  finally (catch
    (let existing := json_items (rn_me r ≫= fun me => field me "wallets") in
     let* address := connectWallet (0 <? Z.of_nat (length existing)) in
     if existsb (fun wallet => text_of wallet "address" ==? address) existing
     then modify (fun s => s <| me_walletNotice := Some (t "me.wallet.alreadyLinked") |>)
     else
       let* _ := api "POST" "/workers/me/wallets" (Some (JObj [("address", JStr address)])) in
       do* invalidateApiQueries ["/workers/me/overview"; "/workers/me/venue-connections"] in
       let* me := api "GET" "/workers/me" None in
       do* modify (fun s => s <| me_me := Some me |>) in
       reloadConnections) guard)
    (setBusy false).

(** What happens on the page. *)
Inductive event :=
| LoadOverview
| LoadIncomeSecondary (r : Render)
| LoadWorkData (r : Render)
| ReloadGrants
| RespondToMapping (mappingId decision : string)
| LoadMoreTimeline (r : Render)
| CreateDisclosure (r : Render)
| RevokeGrant (r : Render) (grantId : string)
| DownloadPdf (reportId : string)
| CopyShareLink (r : Render)
| CopyWalletAddress (walletId address : string)
| CopyAlertInquiry (alert : json)
| RegisterWallet (r : Render).

Definition handle (e : event) : ui unit :=
  match e with
  | LoadOverview => loadOverview
  | LoadIncomeSecondary r => loadIncomeSecondary r
  | LoadWorkData r => loadWorkData r
  | ReloadGrants => reloadGrants
  | RespondToMapping mappingId decision => respondToMapping mappingId decision
  | LoadMoreTimeline r => loadMoreTimeline r
  | CreateDisclosure r => createDisclosure r
  | RevokeGrant r grantId => revokeGrant r grantId
  | DownloadPdf reportId => downloadPdf reportId
  | CopyShareLink r => copyShareLink r
  | CopyWalletAddress walletId address => copyWalletAddress walletId address
  | CopyAlertInquiry alert => copyAlertInquiry alert
  | RegisterWallet r => registerWallet r
  end.
End handlers.

(** [maskEmail] of the page: a text without a domain is hidden. *)
Definition maskEmail (email : string) : string :=
  let parts := split "@" email in
  let local := nullish (nth_error parts 0) "" in
  let domain := nullish (nth_error parts 1) "" in
  if domain ==? "" then "***" else
  let visible := slice_to local (Nat.min 2 (String.length local)) in
  visible +:+ repeat_str "*" (Nat.max 3 (String.length local - String.length visible)) +:+ "@" +:+ domain.

(* ------------------------------------------------------------------ *)
(** ** The timeline has no duplicates *)

Definition entry_ids (l : list json) : list string := map (fun e => text_of e "id") l.

(** What the API promises: a page of the timeline has different entries. *)
Class TimelineApi `{Client} : Prop := {
  overview_page n overview :
    apiAnswer "GET" "/workers/me/overview" None n = Ok overview ->
    NoDup (entry_ids (json_items (field (nullish (field overview "timeline") JNull) "items")));
  timeline_page cursor n page :
    apiAnswer "GET" (timeline_path cursor) None n = Ok page -> NoDup (entry_ids (json_items (field page "items")))
}.

Definition timeline_ok (a : App Me) : Prop := NoDup (entry_ids (me_timeline (app_state a))).

Lemma append_page_unique page current :
  NoDup (entry_ids (json_items (field page "items"))) -> NoDup (entry_ids current) ->
  NoDup (entry_ids (append_page page current)).
Proof.
  intros Hp Hc. unfold append_page, entry_ids. rewrite map_app. apply NoDup_app. split; [done|]. split.
  - intros i Hi Hi'. rewrite list_elem_of_In, in_map_iff in Hi, Hi'. destruct Hi as (e & <- & He), Hi' as (e' & E & He').
    apply filter_In in He' as [_ Hn]. apply negb_true_iff, not_true_iff_false in Hn. apply Hn.
    apply existsb_exists. exists e. split; [done|]. apply bool_decide_eq_true. by rewrite E.
  - by apply NoDup_map_filter.
Qed.

(** The actions that leave the timeline alone. *)
Definition same_timeline : App Me -> App Me -> Prop := same_on (fun a => me_timeline (app_state a)).

Section timeline.
Context `{TimelineApi} `{Devices} `{FormReading}.

Abbreviation ui := (prog (App Me)).

Lemma keeps_same {A} (p : ui A) : guar same_timeline p -> keeps timeline_ok p.
Proof. apply keeps_guar. intros a a' Ha E. unfold timeline_ok. unfold same_timeline, same_on in E. by rewrite E. Qed.

Lemma keeps_finally {A} (p : ui A) cleanup : keeps timeline_ok p -> keeps timeline_ok cleanup -> keeps timeline_ok (finally p cleanup).
Proof.
  intros Hp Hc. apply keeps_bind; [|intros r; apply keeps_bind; [done|intros _; apply keeps_lift]].
  apply keeps_catch; [|intros e; apply keeps_ret]. apply keeps_bind; [done|intros a; apply keeps_ret].
Qed.

(** What an answer satisfies. *)
Lemma ends_query path (P : json -> Prop) :
  (forall n j, apiAnswer "GET" path None n = Ok j -> P j) -> ends P (fetchApiQuery (St:=Me) path).
Proof. intros HP a b. cbn. apply ends_lift. intros j. apply HP. Qed.

Lemma guard_same e : guar same_timeline (guard e).
Proof. unfold guard, Pages.guard. guar_at same_timeline. Qed.

Lemma keeps_modify (f : Me -> Me) :
  (forall s, NoDup (entry_ids (me_timeline s)) -> NoDup (entry_ids (me_timeline (f s)))) -> keeps timeline_ok (modify f).
Proof. intros Hf a Ha. split; [by apply Hf|]. by exists 0%nat. Qed.

Lemma same_query path : guar same_timeline (fetchApiQuery (St:=Me) path).
Proof. unfold fetchApiQuery, outside_may_fail. guar_at same_timeline. Qed.

Lemma keeps_loadOverview : keeps timeline_ok loadOverview.
Proof.
  apply keeps_finally; [|by apply keeps_modify]. apply keeps_catch; [|intros e; apply keeps_same, guard_same].
  eapply keeps_bind_ends; [apply keeps_same, same_query|by apply ends_query, overview_page|].
  intros overview Hn. repeat (apply keeps_bind; [by apply keeps_modify|intros _]). by apply keeps_modify.
Qed.

Lemma keeps_loadMoreTimeline r : keeps timeline_ok (loadMoreTimeline r).
Proof.
  unfold loadMoreTimeline. destruct (rn_timelineCursor r) as [cursor|]; [|done]. destruct (_ || _); [done|].
  apply keeps_bind; [by apply keeps_modify|intros _]. apply keeps_finally; [|by apply keeps_modify].
  apply keeps_catch; [|intros e; apply keeps_same, guard_same].
  eapply keeps_bind_ends; [apply keeps_same, same_query|by apply ends_query, timeline_page|].
  intros page Hn. apply keeps_bind; [|intros _; by apply keeps_modify].
  apply keeps_modify. intros s. by apply append_page_unique.
Qed.

Lemma same_once read set : (forall s, me_timeline (set s) = me_timeline s) -> guar same_timeline (once read set).
Proof. intros Hs a. cbn. destruct (read (app_state a)); [done|]. split; [apply Hs|done]. Qed.

Lemma same_others e : e <> LoadOverview -> (forall r, e <> LoadMoreTimeline r) -> guar same_timeline (handle e).
Proof.
  intros Hov Hmore. pose proof guard_same as Hg. pose proof same_query as Hq.
  destruct e; cbn [handle]; [done|..]; try (by destruct (Hmore r));
    unfold loadIncomeSecondary, loadWorkData, reloadGrants, respondToMapping, reloadConnections, createDisclosure,
      revokeGrant, downloadPdf, copyShareLink, copyWalletAddress, copyAlertInquiry, registerWallet, connectWallet,
      getProvider, refreshGrants, invalidateApiQueries, setBusy, finally, api, outside_may_fail;
    repeat (guar_at same_timeline; try (by apply same_once); eauto).
Qed.

Lemma keeps_handle e : keeps timeline_ok (handle e).
Proof.
  assert (e = LoadOverview \/ (exists r, e = LoadMoreTimeline r) \/ (e <> LoadOverview /\ forall r, e <> LoadMoreTimeline r))
    as [->|[[r ->]|[Hov Hmore]]] by (destruct e; eauto; right; right; done).
  - apply keeps_loadOverview.
  - apply keeps_loadMoreTimeline.
  - by apply keeps_same, same_others.
Qed.
End timeline.

(** in every interleaving of what happens on the page (two clicks on the
    button for more, a reload under way) the timeline shows no entry twice, if
    the pages the API answers have different entries. *)
Theorem timeline_no_duplicates `{Client} `{Devices} `{FormReading} (a : App Me) (events : list event) c :
  TimelineApi ->
  NoDup (entry_ids (me_timeline (app_state a))) ->
  rtc pool_step (a, map handle events) c ->
  NoDup (entry_ids (me_timeline (app_state c.1))).
Proof.
  intros Hapi Ha Hr. eapply (pool_keeps timeline_ok); [exact Hr|exact Ha|].
  apply Forall_forall. intros p (e & -> & _)%list_elem_of_fmap. apply keeps_handle.
Qed.

(* ------------------------------------------------------------------ *)
(** ** Two clicks for more *)

Definition entry (id : string) : json := JObj [("id", JStr id)].
Definition page_of (ids : list string) (next : json) : json := JObj [("items", JArr (map entry ids)); ("nextCursor", next)].

(** Three entries; the second page overlaps the first. *)
Definition demo_answer (method path : string) (body : option json) (n : nat) : result json :=
  if path ==? "/workers/me/overview" then Ok (JObj [("timeline", page_of ["e1"; "e2"] (JStr "c1"))])
  else Ok (page_of ["e2"; "e3"] JNull).

#[local] Instance demo_client : Client := {|
  apiAnswer := demo_answer;
  deserialize := fun _ => Err (JsError "no transaction");
  walletInstalled := false;
  walletAccount := fun _ => None;
  walletConnect := fun _ => Err no_wallet;
  walletDisconnect := fun _ => Ok tt;
  walletSign := fun _ _ => Err no_wallet;
  clock := fun n => 1780228800000 + Z.of_nat n;
  encodeURI := fun s => s;
  t := fun k => k;
  randomAmount := fun _ _ _ => "1.00"
|}.

(** A browser at UTC. *)
#[local] Instance demo_devices : Devices := {|
  toLocal := fun ms => ms;
  ofLocal := fun ms => ms;
  clipboardWrite := fun _ _ => Ok tt;
  qrCode := fun s _ => Ok ("qr:" +:+ s);
  pdfAnswer := fun _ _ => Ok None;
  isEmailShape := fun _ => true
|}.
#[local] Instance demo_form : FormReading := {|
  readLocal := fun _ => 0;
  readCents := digits_value;
  readNumber := digits_value
|}.

Definition demo_me : Me :=
  mkMe None [] None false None [] [] [] None None None None None None None false true false false false false false
    None None None None false false.
Definition demo_render : Render :=
  mkRender None (Some "c1") false false "income" "rent" "LEVEL_2" "3" "7" "" "" "" "LINK" None.

Lemma demo_timeline_api : @TimelineApi demo_client.
Proof.
  split.
  - intros n overview [= <-]. apply (bool_decide_unpack _). vm_compute. done.
  - intros cursor n page. cbn [apiAnswer demo_client]. unfold demo_answer. rewrite bool_decide_eq_false_2 by discriminate.
    intros [= <-]. apply (bool_decide_unpack _). vm_compute. done.
Qed.

(** The page is loaded, then the button is clicked twice before the first answer. *)
Lemma timeline_no_duplicates_witness :
  let events := [LoadOverview; LoadMoreTimeline demo_render; LoadMoreTimeline demo_render] in
  let order := repeat 0%nat 12 ++ [1; 2; 1; 2; 1; 2; 1; 2; 1; 2; 1; 2; 1; 2]%nat in
  let c := schedule order (mkApp demo_me None [] 0%nat, map handle events) in
  entry_ids (me_timeline (app_state c.1)) = ["e1"; "e2"; "e3"] /\ map (@Ret (App Me) unit) [tt; tt; tt] = c.2 /\
  NoDup (entry_ids (me_timeline (app_state c.1))).
Proof.
  split; [vm_compute; reflexivity|]. split; [vm_compute; reflexivity|].
  apply (timeline_no_duplicates (mkApp demo_me None [] 0%nat)
           [LoadOverview; LoadMoreTimeline demo_render; LoadMoreTimeline demo_render]).
  - exact demo_timeline_api.
  - constructor.
  - apply schedule_sound.
Defined.

(** Three months before 31 May is 3 March: February has no 31st, and setMonth
    counts on. *)
Example range_skips_short_month :
  toISOString (disclosure_range "3" 1780228800000).1 = "2026-03-03T12:00:00.000Z" /\
  toISOString (disclosure_range "lastYear" 1780228800000).1 = "2025-01-01T00:00:00.000Z" /\
  toISOString (disclosure_range "lastYear" 1780228800000).2 = "2025-12-31T23:59:59.999Z".
Proof. vm_compute. done. Qed.
End MyIncome.
