(* ===== verification/I18n.v ===== *)
(** * The dictionary and the locale of the web client

    apps/web/src/lib/i18n.tsx: the texts in both languages (UTF-8), [t], and the
    provider that keeps the chosen locale in the storage of the browser.  An effect
    of React runs after the render it belongs to, with the values of that render.

    [locale_kept]: the locale chosen last is shown, survives every reload and is the
    language of the document.  [rebuild_labels], [stale_labels]: alerts that name a
    worker stay of the types the dictionary has texts for, so [shown_alerts_labelled]:
    no key is shown to a worker in place of a text. *)

From S2P Require Import Prelude Concurrency Strings Schema Demo IncomeProjector Income SquareSync.

Open Scope Z_scope.

Module I18n.

Inductive Locale := ko | en.
#[global] Instance Locale_eq_dec : EqDecision Locale.
Proof. solve_decision. Defined.
Definition name (l : Locale) : string := match l with ko => "ko" | en => "en" end.

Record Entry := mkEntry { e_ko : string; e_en : string }.

Definition common : list (string * Entry) :=
  [("logout", mkEntry "로그아웃" "Log out");
   ("worker", mkEntry "직원" "Worker");
   ("amount", mkEntry "배분액" "Amount");
   ("status", mkEntry "상태" "Status");
   ("actions", mkEntry "처리" "Actions")].

Definition landing : list (string * Entry) :=
  [("landing.badge", mkEntry "Income & Tax Observability · Solana Devnet POC" "Income & Tax Observability · Solana Devnet POC");
   ("landing.desc", mkEntry "흩어진 팁·근무·지급·Payroll 증거를 시프트 단위로 연결하고, 승인된 배분을 검증 가능한 지급과 휴대 가능한 소득증명으로 바꿉니다." "Connects tip, shift, payout, and payroll records to create verifiable payouts and portable income proof.");
   ("landing.cta", mkEntry "시작하기" "Get started");
   ("landing.login", mkEntry "로그인" "Sign in");
   ("landing.f1.title", mkEntry "증거 수집" "Evidence intake");
   ("landing.f1.body", mkEntry "Square·CSV에서 팁과 근무 기록을 정규화" "Normalize tips and shifts from Square & CSV");
   ("landing.f2.title", mkEntry "승인·지급" "Approve & pay");
   ("landing.f2.body", mkEntry "정책 기반 배분 승인 후 온체인 USDC 정산" "Policy-based allocation approval, settled in on-chain USDC");
   ("landing.f3.title", mkEntry "선택적 공개" "Selective disclosure");
   ("landing.f3.body", mkEntry "노동자가 범위를 정하는 PDF·QR 소득증명" "Worker-scoped PDF & QR income proof");
   ("landing.footer", mkEntry "Devnet 테스트 토큰은 화폐 가치가 없습니다 · ServeProof POC" "Devnet test tokens have no monetary value · ServeProof POC")].

Definition login : list (string * Entry) :=
  [("login.title", mkEntry "로그인" "Sign in");
   ("login.subtitle", mkEntry "이메일로 6자리 인증 코드를 보내드립니다." "We'll send a 6-digit verification code to your email.");
   ("login.email", mkEntry "이메일" "Email");
   ("login.request", mkEntry "인증 코드 받기" "Send code");
   ("login.requesting", mkEntry "인증 코드를 보내는 중…" "Sending code…");
   ("login.sentTo", mkEntry "로 전송된 코드를 입력해 주세요." ". Enter the code we sent.");
   ("login.devCode", mkEntry "로컬 개발 코드" "Local dev code");
   ("login.submit", mkEntry "로그인" "Sign in");
   ("login.verifying", mkEntry "계정 정보를 불러오는 중…" "Loading your account…");
   ("login.back", mkEntry "이메일 다시 입력" "Use a different email");
   ("login.demo", mkEntry "데모 계정" "Demo accounts");
   ("login.savedAccounts", mkEntry "저장된 계정" "Saved accounts");
   ("login.savedAccount", mkEntry "저장된 계정" "Saved account");
   ("login.workerAccount", mkEntry "노동자 화면" "Worker view");
   ("login.staffAccount", mkEntry "사업장 관리" "Venue management");
   ("login.continue", mkEntry "계속" "Continue");
   ("auth.restoring", mkEntry "로그인 상태를 확인하고 있습니다…" "Restoring your session…");
   ("loading.wait", mkEntry "잠시만 기다려 주세요." "Please wait a moment.");
   ("loading.dashboard", mkEntry "사업장 정보를 불러오는 중…" "Loading venue data…");
   ("loading.income", mkEntry "소득 정보를 불러오는 중…" "Loading income data…");
   ("loading.report", mkEntry "소득증명을 확인하는 중…" "Checking income proof…");
   ("loading.shifts", mkEntry "근무 목록을 불러오는 중…" "Loading shifts…");
   ("loading.connections", mkEntry "사업장 연결을 불러오는 중…" "Loading venue connections…");
   ("loading.incomeDetails", mkEntry "세금·증빙 정보를 불러오는 중…" "Loading tax and proof details…");
   ("auth.switch", mkEntry "계정 전환" "Switch account");
   ("auth.viewAsWorker", mkEntry "노동자로 보기" "Worker view");
   ("auth.viewAsStaff", mkEntry "사업장 관리자로 보기" "Venue manager view")].

Definition dashboard : list (string * Entry) :=
  [("dash.subtitle", mkEntry "팁과 근무 기록을 가져온 뒤 배분 승인과 지급까지 처리할 수 있습니다." "From tip evidence to allocation approval and USDC settlement, in one flow.");
   ("dash.csv.desc", mkEntry "정해진 형식의 팁과 근무 데이터를 붙여넣어 가져오세요. 같은 데이터를 다시 가져와도 중복으로 저장되지 않습니다." "Paste tip & shift data in the §7.3 common format. Re-imports are idempotent.");
   ("dash.tips", mkEntry "팁" "tips");
   ("dash.shifts", mkEntry "근무 기록" "shifts");
   ("dash.rows", mkEntry "건" "");
   ("dash.mapped", mkEntry "연결됨" "mapped");
   ("dash.unmapped", mkEntry "연결 필요" "unmapped");
   ("dash.errors", mkEntry "오류" "errors");
   ("dash.mapping.desc", mkEntry "외부 서비스의 직원 정보를 ServeProof 노동자 계정에 연결해 주세요." "Link external worker IDs to ServeProof worker profiles.");
   ("dash.mapping.empty", mkEntry "연결을 확인할 직원이 없습니다." "No mappings awaiting confirmation.");
   ("dash.mapping.confirm", mkEntry "직원 연결" "Confirm mapping");
   ("dash.alloc.title", mkEntry "팁 배분 계산 및 승인" "Calculate & Approve");
   ("dash.alloc.desc", mkEntry "정책 기반으로 배분을 계산하고, 검토 후 승인하면 지급 가능한 상태가 됩니다." "Calculate policy-based allocations; approval makes them payable.");
   ("dash.calc", mkEntry "계산" "Calculate");
   ("dash.approve", mkEntry "승인" "Approve");
   ("dash.policy", mkEntry "정책" "policy");
   ("dash.pool", mkEntry "팁 풀" "Tip pool");
   ("dash.payout.title", mkEntry "지급" "Payouts");
   ("dash.payout.desc", mkEntry "USDC는 사업장 지급 지갑으로 서명해 전송합니다. 급여 이체 등 다른 방법으로 지급했다면 참조번호를 등록하세요." "USDC settles on-chain with the venue signer wallet; other rails register evidence.");
   ("dash.payout.callout", mkEntry "현재 USDC 지급에는 화폐 가치가 없는 Devnet 테스트 토큰(tUSDC)을 사용합니다. 등록된 사업장 지급 지갑으로 서명해 주세요." "USDC payouts use Devnet test tokens (tUSDC) with no monetary value. Sign with the venue signer wallet.");
   ("dash.wallet.connect", mkEntry "지갑 연결" "Connect wallet");
   ("dash.wallet.connected", mkEntry "연결됨" "Connected");
   ("dash.wallet.match", mkEntry "사업장 지급 지갑과 일치" "matches venue signer");
   ("dash.wallet.mismatch", mkEntry "사업장 지급 지갑과 다름" "does not match venue signer");
   ("dash.wallet.expectedSigner", mkEntry "필요한 서명자" "Required signer");
   ("dash.payout.usdc", mkEntry "USDC 지급 (지갑 서명)" "Pay USDC (wallet sign)");
   ("dash.payout.legacy", mkEntry "급여 이체 기록" "Payroll transfer record");
   ("dash.progress.create", mkEntry "지급 요청 만드는 중…" "creating payout…");
   ("dash.progress.build", mkEntry "트랜잭션 생성 중…" "building transaction…");
   ("dash.progress.sign", mkEntry "지갑 서명 대기…" "waiting for wallet signature…");
   ("dash.progress.submit", mkEntry "제출 중…" "submitting…");
   ("dash.progress.onchain", mkEntry "온체인" "on-chain");
   ("dash.progress.confirmed", mkEntry "블록체인에서 확인되었습니다. 최종 확정을 기다리고 있습니다." "RPC observed CONFIRMED · awaiting finalization");
   ("dash.progress.expired", mkEntry "서명 유효 시간이 만료되었습니다. USDC 지급 버튼을 다시 눌러 새 거래에 서명해 주세요." "The signature expired. Click Pay USDC again to sign a new transaction.");
   ("dash.progress.legacyDone", mkEntry "급여 이체 기록이 등록되었습니다." "The payroll transfer record was registered.");
   ("dash.income.desc", mkEntry "지급 또는 급여 신고 내역을 변경한 뒤 실행하면 근무별 소득 상태와 확인 항목이 갱신됩니다." "Run after payout/payroll changes to refresh per-shift status and discrepancy alerts.");
   ("dash.income.rebuild", mkEntry "소득 상태 새로고침" "Refresh income status");
   ("dash.income.note1", mkEntry "노동자는" "Workers see their own status on the");
   ("dash.income.myIncome", mkEntry "내 소득" "My income");
   ("dash.income.note2", mkEntry "화면에서 지급 상태를 확인할 수 있습니다." "screen.");
   ("dash.rebuilt", mkEntry "재계산" "rebuilt");
   ("dash.alertsCount", mkEntry "확인 필요 항목" "items requiring review")].

Definition income : list (string * Entry) :=
  [("me.title", mkEntry "내 소득" "My income");
   ("me.stat.allocated", mkEntry "확정 배분 총액" "Total allocated");
   ("me.stat.paid", mkEntry "실지급 총액" "Total paid");
   ("me.stat.avg", mkEntry "기록된 월평균 소득" "Avg per observed month");
   ("me.stat.payers", mkEntry "사업장 수 및 근무 건수" "Venues and shifts");
   ("me.alerts.title", mkEntry "확인이 필요한 항목" "Items requiring review");
   ("me.alerts.desc", mkEntry "배분, 지급 또는 급여 신고 내역 중 확인이 필요한 항목입니다." "Review issues found in allocation, payment, or payroll records.");
   ("me.alerts.empty", mkEntry "현재 확인할 항목이 없습니다." "There are no items to review.");
   ("me.alerts.workerAction", mkEntry "내가 할 일 · 수취 지갑을 연결한 뒤 사업장에 지급을 요청하세요." "Your action · Connect a payout wallet, then ask the venue to complete payment.");
   ("me.alerts.venueAction", mkEntry "처리 주체 · 사업장 또는 급여 담당자의 확인이 필요합니다." "Owner · The venue or payroll administrator needs to review this item.");
   ("me.alerts.checkWallet", mkEntry "수취 지갑 확인" "Check payout wallet");
   ("me.alerts.viewIncome", mkEntry "근무 내역 보기" "View income entry");
   ("me.alerts.copyInquiry", mkEntry "사업장 문의 문구 복사" "Copy venue inquiry");
   ("me.alerts.inquiryCopied", mkEntry "문의 문구 복사됨 ✓" "Inquiry copied ✓");
   ("me.alerts.copyFailed", mkEntry "문의 문구를 복사하지 못했습니다. 브라우저의 클립보드 권한을 확인해 주세요." "Could not copy the inquiry. Check the browser clipboard permission.");
   ("me.timeline.title", mkEntry "근무별 소득 내역" "Income by shift");
   ("me.timeline.desc", mkEntry "근무일별 팁 배분, 지급, 급여 신고 및 원천징수 상태를 확인할 수 있습니다." "Review allocation, payment, payroll, and withholding status for each shift.");
   ("me.timeline.loadMore", mkEntry "이전 내역 더 보기" "Load older entries");
   ("me.timeline.loadingMore", mkEntry "이전 내역을 불러오는 중…" "Loading older entries…");
   ("me.col.date", mkEntry "날짜" "Date");
   ("me.col.venue", mkEntry "사업장" "Venue");
   ("me.col.allocated", mkEntry "배분" "Allocated");
   ("me.col.paid", mkEntry "지급" "Paid");
   ("me.col.payroll", mkEntry "급여 신고" "Payroll");
   ("me.col.withholding", mkEntry "원천징수" "Withholding");
   ("me.col.rail", mkEntry "지급 방법" "Payment method");
   ("me.col.source", mkEntry "출처" "Source");
   ("me.source.pos", mkEntry "POS 연동" "POS-verified");
   ("me.source.staffing", mkEntry "사업장 승인 근무" "Venue-approved shift");
   ("me.source.self", mkEntry "직접 등록" "Self-reported");
   ("me.col.grade", mkEntry "확인 등급" "Verification grade");
   ("me.corrected", mkEntry "정정" "Corrected")].

Definition share : list (string * Entry) :=
  [("me.share.title", mkEntry "소득증명 공유" "Share income proof");
   ("me.share.desc", mkEntry "필요한 정보만 선택해 원하는 기간 동안 공유할 수 있습니다." "Choose only the information needed and how long to share it.");
   ("optional", mkEntry "(선택)" "(optional)");
   ("me.share.private", mkEntry "언제든 공유를 철회할 수 있습니다" "You can revoke access anytime");
   ("me.share.forWhat", mkEntry "어디에 제출하나요?" "What is this for?");
   ("me.share.forWhatHint", mkEntry "제출 목적을 선택하면 권장 기간과 공개 범위가 함께 설정됩니다." "Choose a real destination to set its recommended period and disclosure scope.");
   ("me.share.supplement.title", mkEntry "제출용 소득 확인 자료를 만들 수 있습니다." "This is verifiable supplemental income evidence.");
   ("me.share.supplement.detail", mkEntry "공식 급여명세서, W-2, 세금신고서 또는 기관 지정 양식을 대체하지 않습니다. 제출 전에 담당자에게 인정 여부를 확인해 주세요." "It does not replace official pay stubs, W-2s, tax returns, or agency forms. Confirm acceptance with the recipient before submitting.");
   ("me.share.priority", mkEntry "우선 사용처" "Priority use");
   ("me.share.moreUses", mkEntry "다른 제출 목적 보기" "See other submission purposes");
   ("me.share.typicalRecipient", mkEntry "주요 수신처:" "Typical recipient:");
   ("me.share.recommendedSettings", mkEntry "권장 설정:" "Recommended:");
   ("me.share.purpose", mkEntry "공개 목적" "Purpose");
   ("me.share.purposePlaceholder", mkEntry "예: 8월 임대 계약 소득 확인" "e.g. Income check for an August lease");
   ("me.share.chooseScope", mkEntry "어디까지 공개할까요?" "How much should be shared?");
   ("me.share.chooseScopeHint", mkEntry "상세 정보가 적은 범위를 우선 선택하세요." "Prefer the least detailed scope that meets the request.");
   ("me.share.l1.title", mkEntry "충족 여부만" "Pass/fail only");
   ("me.share.l1.detail", mkEntry "직접 입력한 월 소득 기준의 충족 여부만 공개합니다. 금액과 근무 내역은 공개하지 않습니다." "Share only whether the custom monthly income threshold is met. Amounts and shifts remain private.");
   ("me.share.l2.title", mkEntry "소득 요약" "Income summary");
   ("me.share.l2.detail", mkEntry "월평균 소득, 지급 사업장 수, 확인 등급을 공개합니다. 근무별 상세 내역은 공개하지 않습니다." "Share monthly average, payer count, and verification grade. Shift details remain private.");
   ("me.share.l3.title", mkEntry "근무별 상세 내역" "Per-shift detail");
   ("me.share.l3.detail", mkEntry "근무일, 사업장, 배분액, 지급액 및 급여 신고액을 공개합니다." "Includes dates, venues, allocations, payments, and reported amounts")].

Definition access : list (string * Entry) :=
  [("me.share.accessSettings", mkEntry "기간과 수신자를 정하세요" "Set timing and recipient");
   ("me.share.accessRecipient", mkEntry "지정 이메일만 열람" "Recipient email only");
   ("me.share.accessRecipientHint", mkEntry "수신자가 이메일 OTP를 인증해야 소득 내용을 볼 수 있습니다. 권장 방식입니다." "The recipient must verify an email OTP before income details appear. Recommended.");
   ("me.share.accessLink", mkEntry "링크를 가진 누구나" "Anyone with the link");
   ("me.share.accessLinkHint", mkEntry "로그인 없이 열립니다. 전달되거나 잘못 발송되면 다른 사람이 볼 수 있습니다." "No sign-in is required. Forwarded or misdirected links can be viewed by others.");
   ("me.share.accessRecipientShort", mkEntry "이메일 OTP" "Email OTP");
   ("me.share.accessLinkShort", mkEntry "공개 링크" "Public link");
   ("me.share.period", mkEntry "소득 조회 기간" "Income period");
   ("me.share.expiration", mkEntry "링크 만료" "Link expiration");
   ("me.share.range.1", mkEntry "최근 1개월" "Last month");
   ("me.share.range.3", mkEntry "최근 3개월" "Last 3 months");
   ("me.share.range.6", mkEntry "최근 6개월" "Last 6 months");
   ("me.share.range.12", mkEntry "최근 12개월" "Last 12 months");
   ("me.share.range.24", mkEntry "최근 24개월" "Last 24 months");
   ("me.share.range.ytd", mkEntry "올해 누적" "Year to date");
   ("me.share.range.lastYear", mkEntry "지난 역년 전체" "Previous calendar year");
   ("me.share.expiresIn", mkEntry "{days}일 후 만료" "Expires in {days} days");
   ("me.share.recipientLabel", mkEntry "수신자 이메일" "Recipient email");
   ("me.share.recipientHint", mkEntry "입력하지 않으면 공유 링크만 만들어 직접 전달할 수 있습니다." "Leave blank to create a link you can share yourself.");
   ("me.share.emailInvalid", mkEntry "올바른 이메일 주소를 입력해 주세요." "Enter a valid email address.");
   ("me.share.emailRequired", mkEntry "지정 이메일 열람에는 수신자 이메일이 필요합니다." "A recipient email is required for recipient-only access.");
   ("me.share.recipientSecureHint", mkEntry "이 주소로 링크와 열람 OTP가 발송됩니다." "The share link and access OTP will be sent to this address.");
   ("me.share.recipientConfirm", mkEntry "수신자 이메일 다시 입력" "Confirm recipient email");
   ("me.share.recipientConfirmHint", mkEntry "잘못된 사람에게 전송되지 않도록 주소를 한 번 더 확인합니다." "Enter it again to reduce accidental delivery to the wrong person.");
   ("me.share.recipientMismatch", mkEntry "두 이메일 주소가 일치하지 않습니다." "The recipient email addresses do not match.");
   ("me.share.accessHistory", mkEntry "최근 열람 기록" "Recent access history");
   ("me.share.noAccess", mkEntry "아직 확인된 열람이 없습니다." "No verified views yet.");
   ("me.share.unknownIp", mkEntry "IP 정보 없음" "IP unavailable");
   ("me.share.review", mkEntry "공유 전 확인" "Review before sharing");
   ("me.share.destination", mkEntry "제출처" "Destination");
   ("me.share.destinationCustom", mkEntry "직접 지정" "Custom destination");
   ("me.share.included", mkEntry "공개 정보" "Information shared");
   ("me.share.threshold", mkEntry "월 소득 기준" "Monthly income threshold");
   ("me.share.thresholdHint", mkEntry "임대 신청이라면 해당 커뮤니티의 기준을 확인하세요. 흔히 월세의 2.5~3배를 요구하지만 고정 규칙은 아닙니다." "For rentals, check the property's own policy. Many use 2.5–3× monthly rent, but there is no universal rule.");
   ("me.share.perMonth", mkEntry " /월" " /month");
   ("me.share.delivery", mkEntry "전달 방법" "Delivery");
   ("me.share.deliveryLink", mkEntry "링크를 직접 전달" "Share the link yourself");
   ("me.share.create", mkEntry "소득 확인 자료 만들기" "Create supplemental income evidence");
   ("me.share.issuing", mkEntry "링크 만드는 중…" "Creating link…");
   ("me.share.controlNote", mkEntry "발급 후에도 만료 전 언제든 접근을 철회할 수 있습니다." "You can revoke access anytime before the link expires.");
   ("me.share.created", mkEntry "공유 링크가 준비되었습니다" "Your share link is ready");
   ("me.share.copy", mkEntry "링크 복사" "Copy link");
   ("me.share.copied", mkEntry "복사됨 ✓" "Copied ✓");
   ("me.share.l1", mkEntry "1단계: 직접 입력한 조건의 충족 여부만 공개" "Level 1: custom threshold check only");
   ("me.share.l2", mkEntry "2단계: 월평균 소득, 지급 사업장 수 및 확인 등급 공개" "Level 2: monthly average, payers, and grade");
   ("me.share.l3", mkEntry "3단계: 근무별 상세 내역 공개" "Level 3: per-shift detail");
   ("me.share.issue", mkEntry "소득 확인 자료 발급" "Issue supplemental income evidence");
   ("me.share.linkOnce", mkEntry "공유 링크 (지금 한 번만 표시됩니다)" "Share link (shown only once)");
   ("me.share.pdf", mkEntry "PDF 다운로드" "Download PDF");
   ("me.share.expires", mkEntry "만료" "Expires");
   ("me.share.revoked", mkEntry "철회됨" "Revoked");
   ("me.share.revoke", mkEntry "철회" "Revoke");
   ("me.share.pdfFail", mkEntry "PDF 다운로드 실패" "PDF download failed");
   ("me.share.recipient", mkEntry "수신자 이메일 (선택)" "Recipient email (optional)");
   ("me.share.emailSent", mkEntry "검증 링크가 수신자 이메일로 발송되었습니다." "The verification link was emailed to the recipient.");
   ("me.share.emailFailed", mkEntry "이메일 발송에 실패했습니다. 아래 링크를 직접 전달하세요." "Email delivery failed. Share the link below manually.");
   ("me.share.emailFailedSecure", mkEntry "이메일 발송에 실패했습니다. 주소를 확인한 뒤 이 공유를 철회하고 다시 발급하세요." "Email delivery failed. Check the address, revoke this share, and issue a new one.")].

Definition presets : list (string * Entry) :=
  [("me.share.preset.custom", mkEntry "용도 프리셋…" "Purpose preset…");
   ("me.share.preset.rent", mkEntry "아파트·주택 임대" "Apartment or home rental");
   ("me.share.preset.rent.hint", mkEntry "최근 2~3개월 소득·팁 요약" "2–3 months of income and tip summary");
   ("me.share.preset.rent.audience", mkEntry "임대인 또는 부동산 관리자(예: Greystar)" "Landlord or property manager (e.g. Greystar)");
   ("me.share.preset.rent.purpose", mkEntry "아파트 임대 신청용 보조 소득자료" "Supplemental income evidence for a rental application");
   ("me.share.preset.benefits", mkEntry "SNAP·Medicaid" "SNAP or Medicaid");
   ("me.share.preset.benefits.hint", mkEntry "최근 4주 급여·팁 상세" "4 weeks of wage and tip detail");
   ("me.share.preset.benefits.audience", mkEntry "주·지방 복지기관 담당자 (예: NYC HRA)" "State or local benefits caseworker (e.g. NYC HRA)");
   ("me.share.preset.benefits.purpose", mkEntry "SNAP·Medicaid 자격 확인용 근로·팁 소득자료" "Wage and tip income evidence for SNAP or Medicaid eligibility");
   ("me.share.preset.housing", mkEntry "공공임대 재심사" "Public housing recertification");
   ("me.share.preset.housing.hint", mkEntry "현재 소득과 지급 내역" "Current income and payment history");
   ("me.share.preset.housing.audience", mkEntry "지역 Public Housing Agency (예: NYCHA)" "Local Public Housing Agency (e.g. NYCHA)");
   ("me.share.preset.housing.purpose", mkEntry "공공임대·Section 8 재심사용 보조 소득자료" "Supplemental income evidence for public housing or Section 8 recertification");
   ("me.share.preset.auto", mkEntry "자동차 대출" "Auto loan application");
   ("me.share.preset.auto.hint", mkEntry "최근 1~3개월 확정 소득 요약" "1–3 months of confirmed income");
   ("me.share.preset.auto.audience", mkEntry "딜러 제휴 금융사 (예: Capital One Auto)" "Dealer-affiliated lender (e.g. Capital One Auto)");
   ("me.share.preset.auto.purpose", mkEntry "자동차 대출 신청용 확정 소득 요약" "Confirmed income summary for an auto loan application");
   ("me.share.preset.mortgage", mkEntry "모기지 사전심사" "Mortgage pre-approval");
   ("me.share.preset.mortgage.hint", mkEntry "12개월 변동 소득 추세" "12-month variable-income trend");
   ("me.share.preset.mortgage.audience", mkEntry "모기지 금융사·대출 담당자" "Mortgage lender or loan officer");
   ("me.share.preset.mortgage.purpose", mkEntry "모기지 사전심사용 변동 소득 보조자료" "Supplemental variable-income evidence for mortgage pre-approval");
   ("me.share.preset.marketplace", mkEntry "건강보험 Marketplace" "Health Insurance Marketplace");
   ("me.share.preset.marketplace.hint", mkEntry "올해 누적·예상 소득 보조" "Year-to-date and projected income support");
   ("me.share.preset.marketplace.audience", mkEntry "HealthCare.gov·주별 Marketplace" "HealthCare.gov or a state Marketplace");
   ("me.share.preset.marketplace.purpose", mkEntry "건강보험 보조금 확인용 올해 누적 소득자료" "Year-to-date income evidence for Marketplace savings verification");
   ("me.share.preset.immigration", mkEntry "이민·가족초청 보조" "Immigration affidavit support");
   ("me.share.preset.immigration.hint", mkEntry "최근 6개월 현재 소득 보조" "6 months of current income support");
   ("me.share.preset.immigration.audience", mkEntry "USCIS Form I-864 제출 보조" "USCIS Form I-864 supporting evidence");
   ("me.share.preset.immigration.purpose", mkEntry "가족초청 재정보증용 현재 소득 보조자료" "Supplemental current-income evidence for an affidavit of support");
   ("me.share.preset.tax", mkEntry "세무 신고" "Tax filing");
   ("me.share.preset.tax.hint", mkEntry "지난해 근무별 전체 내역" "Full prior-calendar-year shift detail");
   ("me.share.preset.tax.audience", mkEntry "세무 전문가·본인 기록" "Tax preparer or personal records");
   ("me.share.preset.tax.purpose", mkEntry "세무 신고용 근무별 상세 내역" "Per-shift detail for tax filing");
   ("me.share.preset.other", mkEntry "기타 소득 확인" "Other income verification");
   ("me.share.preset.other.hint", mkEntry "제출처와 목적을 직접 입력" "Enter the destination and purpose yourself")].

Definition wallets_alerts : list (string * Entry) :=
  [("me.explorer.title", mkEntry "Solana Explorer에서 온체인 지급 확인" "View the on-chain payout on Solana Explorer");
   ("me.wallet.title", mkEntry "수취 지갑" "Payout wallets");
   ("me.wallet.desc", mkEntry "지급받을 Solana 지갑입니다. 기본 지갑 하나만 활성화됩니다." "Solana wallets for receiving payouts. Only one default is active.");
   ("me.wallet.empty", mkEntry "연결된 지갑이 없습니다." "No wallets connected.");
   ("me.wallet.default", mkEntry "기본" "Default");
   ("me.wallet.linkedAt", mkEntry "등록" "Linked");
   ("me.wallet.copy", mkEntry "주소 복사" "Copy address");
   ("me.wallet.copied", mkEntry "복사됨" "Copied");
   ("me.wallet.alreadyLinked", mkEntry "이미 등록된 지갑입니다. 다른 지갑을 추가하려면 Phantom 확장 프로그램에서 계정을 전환한 뒤 다시 시도하세요." "This wallet is already linked. To add a different one, switch accounts in the Phantom extension and try again.");
   ("gradeGuide.link", mkEntry "확인 등급 기준 보기" "How grades work");
   ("alert.ALLOCATION_GAP", mkEntry "배분 내역을 확인해 주세요. 근무 기록은 있지만 배분 내역이 없습니다." "Review the allocation. A shift is recorded, but no allocation was found.");
   ("alert.PAYOUT_GAP", mkEntry "지급 내역을 확인해 주세요. 승인된 배분의 지급 내역이 아직 확인되지 않았습니다." "Review the payment. An approved allocation has not been recorded as paid yet.");
   ("alert.PAYROLL_GAP", mkEntry "급여 신고 내역을 확인해 주세요. 지급 내역이 아직 급여 신고에 반영되지 않았습니다." "Review the payroll record. The payment has not been reported to payroll yet.");
   ("alert.WITHHOLDING_UNKNOWN", mkEntry "원천징수 내역을 확인해 주세요. 급여 신고에는 반영되었지만 원천징수 여부가 확인되지 않았습니다." "Review withholding. Payroll was reported, but withholding has not been confirmed.");
   ("alert.REFUND_ADJUSTMENT_REQUIRED", mkEntry "환불 반영 내역을 확인해 주세요." "Review the refund adjustment.");
   ("alert.UNMAPPED_WORKER", mkEntry "직원 계정 연결 상태를 확인해 주세요." "Review the worker account connection.");
   ("alert.label.ALLOCATION_GAP", mkEntry "배분 확인" "Allocation review");
   ("alert.label.PAYOUT_GAP", mkEntry "지급 확인" "Payment review");
   ("alert.label.PAYROLL_GAP", mkEntry "급여 신고 확인" "Payroll review");
   ("alert.label.WITHHOLDING_UNKNOWN", mkEntry "원천징수 확인" "Withholding review");
   ("alert.label.REFUND_ADJUSTMENT_REQUIRED", mkEntry "환불 반영 확인" "Refund review");
   ("alert.label.UNMAPPED_WORKER", mkEntry "직원 연결 확인" "Worker connection review")].

Definition verify : list (string * Entry) :=
  [("verify.header", mkEntry "소득증명 검증" "Income verification");
   ("verify.msg.VALID", mkEntry "이 보고서는 유효합니다." "This report is valid.");
   ("verify.msg.EXPIRED", mkEntry "이 보고서는 만료되었습니다. 소득 정보는 표시되지 않습니다." "This report has expired. No income data is shown.");
   ("verify.msg.REVOKED", mkEntry "이 공유 링크는 노동자에 의해 철회되었습니다. 소득 정보는 표시되지 않습니다." "This link was revoked by the worker. No income data is shown.");
   ("verify.msg.CORRECTED", mkEntry "원본 기록에 정정이 발생해 소득 정보가 차단되었습니다. 최신 보고서를 요청하세요." "Income data is blocked because the underlying records changed. Request an up-to-date report.");
   ("verify.msg.NOT_ISSUED", mkEntry "아직 보고서가 발급되지 않았습니다." "No report has been issued yet.");
   ("verify.info.title", mkEntry "보고서 정보" "Report details");
   ("verify.auth.title", mkEntry "수신자 이메일 확인" "Verify recipient email");
   ("verify.auth.description", mkEntry "소득 정보는 지정된 수신자만 볼 수 있습니다. {email}로 일회용 코드를 받으세요." "Only the designated recipient can view the income details. Request a one-time code at {email}.");
   ("verify.auth.send", mkEntry "이메일로 코드 받기" "Send email code");
   ("verify.auth.sending", mkEntry "코드 보내는 중…" "Sending code…");
   ("verify.auth.code", mkEntry "6자리 열람 코드" "6-digit access code");
   ("verify.auth.verify", mkEntry "확인하고 열람" "Verify and view");
   ("verify.auth.checking", mkEntry "확인 중…" "Verifying…");
   ("verify.auth.resend", mkEntry "코드 다시 받기" "Resend code");
   ("verify.auth.notice", mkEntry "인증된 열람은 소득 제공자에게 시각, 마스킹된 IP 및 브라우저 정보로 기록됩니다." "Verified access is logged for the income owner with time, masked IP, and browser information.");
   ("verify.auth.devCode", mkEntry "로컬·데모 코드: {code}" "Local/demo code: {code}");
   ("verify.issuer", mkEntry "발급자" "Issuer");
   ("verify.subject", mkEntry "대상" "Subject");
   ("verify.purpose", mkEntry "목적" "Purpose");
   ("verify.level", mkEntry "공개 수준" "Disclosure level");
   ("verify.issuedAt", mkEntry "발급 시각" "Issued at");
   ("verify.expiresAt", mkEntry "만료 시각" "Expires at");
   ("verify.disclosed.title", mkEntry "공개 허용된 필드" "Disclosed fields");
   ("verify.totalIncome", mkEntry "검증된 소득 총액" "Total verified income");
   ("verify.avgMonthly", mkEntry "월평균 소득" "Avg monthly income");
   ("verify.months", mkEntry "포함 개월 수" "Months covered");
   ("verify.payers", mkEntry "지급 사업장 수" "Payer count");
   ("verify.bestGrade", mkEntry "최고 확인 등급" "Best verification grade");
   ("verify.corrections", mkEntry "정정 이력" "Corrections");
   ("verify.posShare", mkEntry "POS로 확인된 자료 비율" "POS-verified evidence");
   ("verify.observedDays", mkEntry "확인된 근무일 수" "Observed shift days");
   ("verify.monthly.title", mkEntry "월별 내역(확인된 값만 표시)" "Monthly breakdown (observed, not extrapolated)");
   ("verify.shortWindow", mkEntry "확인된 기간이 1개월 이하이므로 월평균 소득을 해석할 때 주의해 주세요. 이 보고서에는 확인된 값만 포함되며 추정값은 포함되지 않습니다." "The observation window is one month or less. Interpret the monthly average with care. This report includes observed values only and does not estimate missing periods.");
   ("dash.todo.title", mkEntry "오늘 할 일" "Needs attention");
   ("dash.todo.desc", mkEntry "사업장 관리자가 확인하거나 처리해야 하는 항목입니다." "Items in this venue that still need a manager.");
   ("dash.todo.unmapped", mkEntry "계정 연결 필요" "Account connection needed");
   ("dash.todo.uncalculated", mkEntry "배분 계산 전 영업일" "Uncalculated dates");
   ("dash.todo.approval", mkEntry "승인 대기 중인 배분" "Batches awaiting approval");
   ("dash.todo.unpaid", mkEntry "지급 전 배분" "Unpaid allocations");
   ("dash.todo.cta.map", mkEntry "직원 연결" "Go map workers");
   ("dash.todo.cta.calc", mkEntry "배분 계산" "Go calculate");
   ("dash.todo.cta.review", mkEntry "검토 및 승인" "Review & approve");
   ("dash.todo.cta.pay", mkEntry "지급 처리" "Go pay");
   ("dash.progress.failed", mkEntry "실패" "Failed");
   ("dash.progress.verifying", mkEntry "이전 지급 요청을 블록체인에서 확인하고 있습니다. 거래가 최종 확정되거나 서명 유효 시간이 만료될 때까지 다시 서명할 수 없습니다." "The previous attempt is being verified on-chain. Re-signing is blocked until it finalizes or the blockhash expires.");
   ("dash.payout.refPlaceholder", mkEntry "급여 이체 참조번호" "Payroll transfer reference");
   ("dash.source.label", mkEntry "데이터 소스" "Data sources");
   ("dash.source.toast", mkEntry "Toast POS (데모 데이터 생성)" "Toast POS (demo data)");
   ("dash.source.square", mkEntry "Square Sandbox 동기화" "Sync Square Sandbox");
   ("dash.source.syncQueued", mkEntry "동기화를 요청했습니다. 잠시 후 자동으로 반영됩니다." "Sync was queued. Updates will appear shortly.");
   ("dash.banner.signerMismatch", mkEntry "연결된 지갑이 등록된 사업장 지급 지갑과 다릅니다. 이 지갑으로는 USDC 지급에 서명할 수 없습니다." "The connected wallet differs from the venue signer. It cannot sign this USDC payout.");
   ("me.banner.noWallet", mkEntry "USDC 팁을 받으려면 수령 지갑을 연결해야 합니다. 지갑이 없으면 사업장이 지급을 진행할 수 없습니다." "Connect a wallet to receive USDC tips. Without one, the venue cannot pay you on-chain.");
   ("me.banner.goConnect", mkEntry "지갑 연결하러 가기" "Go connect a wallet");
   ("me.wallet.connect", mkEntry "지갑 연결 (Phantom)" "Connect wallet (Phantom)");
   ("me.wallet.connectMore", mkEntry "다른 지갑 추가" "Add another wallet");
   ("dash.payout.refConfirm", mkEntry "기록" "Record");
   ("dash.payout.refCancel", mkEntry "취소" "Cancel");
   ("dash.payout.noWallet", mkEntry "직원의 수취 지갑이 등록되지 않았습니다. 직원이 내 소득 화면에서 지갑을 연결해야 합니다." "No worker wallet is registered. The worker must connect one on their income page.");
   ("verify.yes", mkEntry "있음" "Yes");
   ("verify.no", mkEntry "없음" "No");
   ("verify.footer", mkEntry "원본 소득 데이터와 PDF는 공개되지 않습니다. Devnet 테스트 토큰은 화폐 가치가 없습니다." "Raw income data and the PDF are never exposed. Devnet test tokens have no monetary value.")].

Definition dict : list (string * Entry) :=
  common ++ landing ++ login ++ dashboard ++ income ++ share ++ access ++ presets ++ wallets_alerts ++ verify.

(** [dict[key]?.[locale] ?? key] *)
Definition t (locale : Locale) (key : string) : string :=
  match map_get dict key with
  | Some e => match locale with ko => e_ko e | en => e_en e end
  | None => key
  end.

(* ------------------------------------------------------------------ *)
(** ** The provider *)

Record Provider := mkProvider {
  pv_locale : Locale;
  pv_localeReady : bool;
  (** [document.documentElement.lang] *)
  pv_lang : string;
  (** [localStorage.getItem("sp_locale")] *)
  pv_stored : option string
}.
#[export] Instance eta_Provider : Eta Provider := fun r => mkProvider
  (pv_locale r) (pv_localeReady r) (pv_lang r) (pv_stored r).

Definition savedLocale (stored : option string) : Locale := if stored ==? Some "en" then en else ko.

(** The first effect of the mount. *)
Definition restore (p : Provider) : Provider :=
  let saved := savedLocale (pv_stored p) in
  p <| pv_locale := saved |> <| pv_lang := name saved |> <| pv_localeReady := true |>.

(** The effect of a render with the locale [locale]. *)
Definition set_lang (locale : Locale) (p : Provider) : Provider := p <| pv_lang := name locale |>.

(** A new page on a stored choice: the effects of the first render, whose locale is
    [ko], and those of the render after it, when the locale has changed. *)
Definition mount (stored : option string) : Provider :=
  let first := mkProvider ko false "ko" stored in
  let p := set_lang (pv_locale first) (restore first) in
  if pv_locale p ==? pv_locale first then p else set_lang (pv_locale p) p.

Definition setLocale (next : Locale) (p : Provider) : Provider :=
  let p' := p <| pv_stored := Some (name next) |> <| pv_locale := next |> in
  if pv_locale p' ==? pv_locale p then p' else set_lang (pv_locale p') p'.

Inductive event := Choose (next : Locale) | Reload.

Definition step (p : Provider) (e : event) : Provider :=
  match e with Choose next => setLocale next p | Reload => mount (pv_stored p) end.

(** The locale chosen last, [l] when none was. *)
Definition last_choice (l : Locale) (es : list event) : Locale :=
  fold_left (fun l e => match e with Choose next => next | Reload => l end) es l.

Definition settled (l : Locale) (p : Provider) : Prop :=
  pv_locale p = l /\ pv_localeReady p = true /\ pv_lang p = name l /\ savedLocale (pv_stored p) = l.

Lemma mount_settled stored : settled (savedLocale stored) (mount stored).
Proof.
  unfold settled, mount, set_lang, restore. cbn. 
  destruct (savedLocale stored) eqn:E; [change (ko ==? ko) with true|change (en ==? ko) with false]; cbn; rewrite ?E; by split_and!.
Qed.

Lemma step_settled l p e : settled l p -> settled (last_choice l [e]) (step p e).
Proof.
  intros (E1 & E2 & E3 & E4). destruct e as [next|]; cbn.
  - unfold settled, setLocale, set_lang. cbn. destruct (decide (next = pv_locale p)) as [->|Hn].
    + rewrite bd_refl. cbn. rewrite E1. split_and!; [done..|by destruct l].
    + rewrite bool_decide_eq_false_2 by done. cbn. split_and!; [done..|by destruct next].
  - rewrite <- E4. apply mount_settled.
Qed.

(** Whatever the user chooses and however often the page is loaded again, it shows
    the locale chosen last (before the first choice the stored one, Korean when none
    is), announces it as the language of the document and would show it again. *)
Theorem locale_kept stored es :
  settled (last_choice (savedLocale stored) es) (fold_left step es (mount stored)).
Proof.
  pose proof (mount_settled stored) as H. revert H. generalize (savedLocale stored) (mount stored).
  induction es as [|e es IH]; intros l p H; [done|]. cbn. apply (IH _ _ (step_settled _ _ _ H)).
Qed.

(* ------------------------------------------------------------------ *)
(** ** The texts *)

Definition known (key : string) : bool :=
  match map_get dict key with Some _ => true | None => false end.

Fixpoint distinct_keys (ks : list string) : bool :=
  match ks with [] => true | k :: ks' => negb (includes ks' k) && distinct_keys ks' end.

(** No key is listed twice, and every Korean text is there. *)
Lemma dict_ok : distinct_keys (map fst dict) = true /\ forallb (fun e => e_ko e.2 !=? "") dict = true.
Proof. split; vm_compute; reflexivity. Qed.

(** One English text is left empty on purpose. *)
Example empty_texts : map fst (List.filter (fun e => e_en e.2 ==? "") dict) = ["dash.rows"].
Proof. vm_compute. reflexivity. Qed.

(** The keys the verification page and the income page build. *)
Definition verify_key (status : string) : string := "verify.msg." +:+ status.
Definition alert_keys (type : DiscrepancyType.t) : list string :=
  ["alert." +:+ DiscrepancyType.name type; "alert.label." +:+ DiscrepancyType.name type].

Lemma verify_keys_known :
  forallb (fun s => known (verify_key s)) ["VALID"; "EXPIRED"; "REVOKED"; "CORRECTED"; "NOT_ISSUED"] = true.
Proof. vm_compute. reflexivity. Qed.

Definition labelled (type : DiscrepancyType.t) : bool := forallb known (alert_keys type).

(** Two types have no text. *)
Lemma labelled_iff type :
  labelled type = true <-> type <> DiscrepancyType.DUPLICATE_EVIDENCE /\ type <> DiscrepancyType.STALE_PROVIDER_DATA.
Proof.
  assert (labelled type = match type with DiscrepancyType.DUPLICATE_EVIDENCE | DiscrepancyType.STALE_PROVIDER_DATA => false
                          | _ => true end) as -> by (destruct type; vm_compute; reflexivity).
  destruct type; naive_solver.
Qed.

(* ------------------------------------------------------------------ *)
(** ** The alerts a worker sees *)

Section alerts.
Context `{Platform}.
Import IncomeProjector.

Definition good (a : AlertData) : Prop := ad_workerId a <> None -> labelled (ad_type a) = true.

(** Alerts of workers have texts. *)
Definition alerts_labelled (w : World) : Prop :=
  forall a, In a (w_alerts w) -> alert_workerId a <> None -> labelled (alert_type a) = true.

Lemma shift_alerts_good workerId shiftId p : Forall good (shift_alerts workerId shiftId p).
Proof.
  unfold shift_alerts. rewrite !Forall_app. split_and!; case_match; constructor; try constructor; intros _; vm_compute; reflexivity.
Qed.

Lemma refund_alerts_good batches tips : Forall good (refund_alerts batches tips).
Proof.
  unfold refund_alerts. apply List.Forall_forall. intros a (tip & _ & Ha)%in_flat_map. repeat case_match; [|done..].
  destruct Ha as [<-|[]]. by intros [].
Qed.

Lemma rebuild_shift_good v i acc s w w' acc' :
  run (rebuild_shift v i acc s) w = (w', Ok acc') -> Forall good acc.2 -> Forall good acc'.2.
Proof.
  destruct acc as [n alerts]. unfold rebuild_shift. intros Hr Ha.
  destruct (negb (is_mapped s)).
  - injection Hr as _ <-. apply Forall_app. split; [done|]. constructor; [by intros []|done].
  - revert Hr. wexec. destruct (List.find (superseded_of _ _) _); wexec; [by intros [= _ <-]|].
    destruct (List.find (original_of _ _) _); wexec.
    + destruct (List.find _ _); wexec; [|done]. intros [= _ <-]. apply Forall_app. split; [done|apply shift_alerts_good].
    + destruct (existsb _ _); wexec; [done|]. intros [= _ <-]. apply Forall_app. split; [done|apply shift_alerts_good].
Qed.

Lemma rebuild_shifts_good v i shifts acc w w' acc' :
  run (fold_prog shifts acc (rebuild_shift v i)) w = (w', Ok acc') -> Forall good acc.2 -> Forall good acc'.2.
Proof.
  revert acc w. induction shifts as [|s shifts IH]; intros acc w; cbn [fold_prog].
  - by intros [= _ <-].
  - rewrite run_bind. destruct (run (rebuild_shift v i acc s) w) as [w1 [acc1|]] eqn:E; [|done].
    intros Hr Ha. eapply IH; [exact Hr|]. by eapply rebuild_shift_good.
Qed.

Lemma shifts_alerts_same v i shifts acc : guar (same_on w_alerts) (fold_prog shifts acc (rebuild_shift v i)).
Proof. unfold rebuild_shift. guar_at (same_on w_alerts). Qed.

(** Only labelled alerts are created. *)
Definition keeps_labels (w w' : World) : Prop := alerts_labelled w -> alerts_labelled w'.
#[local] Instance keeps_labels_preorder : PreOrder keeps_labels.
Proof. split; [by intros w Hl|]. intros w1 w2 w3 H1 H2 Hl. by apply H2, H1. Qed.

Lemma same_keeps w w' : w_alerts w' = w_alerts w -> keeps_labels w w'.
Proof. intros E. unfold keeps_labels, alerts_labelled. by rewrite E. Qed.

Lemma create_alert_keeps v a : good a -> guar keeps_labels (create_alert v a).
Proof.
  intros Ha. unfold create_alert. apply guar_bind; [intros w; split; [by apply same_keeps|done]|]. intros i.
  apply guar_bind; [intros w; split; [by apply same_keeps|done]|]. intros t0. apply guar_bind; [|done].
  apply guar_act. intros w. case_match; [reflexivity|]. cbn [fst]. intros Hl b. wcbn. rewrite in_app_iff.
  intros [Hb|[<-|[]]]; [by apply Hl|exact Ha].
Qed.

Lemma create_alerts_keep v alerts : Forall good alerts -> guar keeps_labels (for_each alerts (create_alert v)).
Proof.
  induction 1 as [|a alerts Ha Hs IH]; [done|]. cbn [for_each]. apply guar_bind; [by apply create_alert_keeps|done].
Qed.

(** A rebuild of a venue's income, failing or not, keeps the alerts labelled. *)
Theorem rebuild_labels v actor src w :
  alerts_labelled w -> alerts_labelled (run (rebuildVenueIncome v actor src) w).1.
Proof.
  intros Hl. unfold rebuildVenueIncome. rewrite run_transaction, run_bind, run_findUnique. cbv beta iota.
  destruct (List.find _ _); [|done]. rewrite run_bind. unfold rebuildVenueIncomeLocked. wexec.
  match goal with |- context [run (fold_prog ?xs ?acc (rebuild_shift v ?i)) w] =>
    pose proof (guar_run _ _ w (shifts_alerts_same v i xs acc)) as Hs; pose proof (rebuild_shifts_good v i xs acc w) as Hg;
    destruct (run (fold_prog xs acc (rebuild_shift v i)) w) as [w1 [[n alerts]|]] end; [|done].
  specialize (Hg _ _ eq_refl ltac:(constructor)). cbn [fst snd] in *. rewrite run_bind, run_deleteMany. cbv beta iota.
  match goal with |- context [run (bind (for_each ?l _) ?k) ?w2] =>
    assert (keeps_labels w (run (bind (for_each l (create_alert v)) k) w2).1) as Hk;
    [|destruct (run (bind (for_each l (create_alert v)) k) w2) as [w3 [[]|]]; [exact (Hk Hl)|exact Hl]] end.
  etransitivity; [|apply (guar_run keeps_labels)].
  - intros _ a. wcbn. intros [Ha _]%List.filter_In. unfold same_on in Hs. rewrite Hs in Ha. by apply Hl.
  - apply guar_bind.
    + apply create_alerts_keep, Forall_app. split; [done|apply refund_alerts_good].
    + intros []. apply guar_bind; [|done]. unfold audit. apply guar_bind; [intros w2; split; [by apply same_keeps|done]|].
      intros k. apply guar_act. intros w2. case_match; [reflexivity|]. by apply same_keeps.
Qed.

(** The watch over stale connections as well. *)
Theorem stale_labels w : alerts_labelled w -> alerts_labelled (run SquareSyncService.flagStaleConnections w).1.
Proof.
  apply (guar_run keeps_labels). unfold SquareSyncService.flagStaleConnections.
  apply guar_bind; [intros w1; split; [by apply same_keeps|done]|]. intros t0.
  apply guar_bind; [apply (guar_query keeps_labels)|]. intros stale. apply guar_bind; [|done]. apply guar_for_each. intros c.
  unfold SquareSyncService.flag_stale. apply guar_bind; [apply (guar_query keeps_labels)|]. intros [|]; [done|].
  apply guar_bind; [intros w1; split; [by apply same_keeps|done]|]. intros i.
  apply guar_bind; [intros w1; split; [by apply same_keeps|done]|]. intros t1. apply guar_bind; [|done].
  apply guar_act. intros w1. case_match; [reflexivity|]. cbn [fst]. intros Hl b. wcbn. rewrite in_app_iff.
  intros [Hb|[<-|[]]]; [by apply Hl|]. by intros [].
Qed.

(** The jobs that create alerts. *)
Inductive job := Rebuild (venueId : string) (actor : option string) (source : string) | FlagStale.
Definition run_job (w : World) (j : job) : World :=
  match j with
  | Rebuild v actor source => (run (rebuildVenueIncome v actor source) w).1
  | FlagStale => (run SquareSyncService.flagStaleConnections w).1
  end.

(** After any jobs a worker is shown alerts with texts only, in either language. *)
Theorem shown_alerts_labelled w jobs userId w' views :
  alerts_labelled w -> run (IncomeService.discrepanciesForUser userId) (fold_left run_job jobs w) = (w', Ok views) ->
  Forall (fun v => Forall (fun k => known k = true) (alert_keys (alert_type (IncomeService.dv_alert v)))) views.
Proof.
  intros Hl. assert (alerts_labelled (fold_left run_job jobs w)) as Hj.
  { revert w Hl. induction jobs as [|j jobs IH]; intros w Hl; [done|]. cbn. apply IH.
    destruct j; [by apply rebuild_labels|by apply stale_labels]. }
  generalize dependent (fold_left run_job jobs w). intros w1 Hj. unfold IncomeService.discrepanciesForUser, IncomeService.workerOf. wexec.
  destruct (List.find _ _) as [wk|]; wexec; [|done]. unfold IncomeService.discrepanciesForWorker. wexec.
  destruct (_ =? _)%nat; wexec; [by intros [= _ <-]|]. intros [= _ <-]. rewrite Forall_map. apply List.Forall_forall.
  intros a Ha. cbn. apply List.Forall_forall, forallb_forall.
  apply (Permutation_in _ (stable_sort_Permutation _ _)) in Ha. apply List.filter_In in Ha as [Ha Hw].
  apply andb_true_iff in Hw as [Hw%bool_decide_eq_true _]. apply Hj; [done|]. by rewrite Hw.
Qed.
End alerts.
End I18n.
