(* ===== verification/Ui.v ===== *)
(** * Shared components

    apps/web/src/components/ui.tsx: what its components decide — the colours of a
    badge, when a button can be pressed and what it says, the pressed segment of the
    language toggle, the frame of a loading state.  Markup and classes that do not
    depend on anything are left out.

    [status_tones]: which statuses of shares, batches, payouts, grades and reports
    have a colour of their own. *)

From S2P Require Import Prelude Strings Schema I18n.

Module Ui.
Import I18n.

(* ------------------------------------------------------------------ *)
(** ** The language *)

Record Segment := mkSegment { sg_value : Locale; sg_label : string; sg_pressed : bool }.

Definition LanguageToggle (locale : Locale) : list Segment :=
  map (fun x => mkSegment x.1 x.2 (locale ==? x.1)) [(ko, "KO"); (en, "EN")].

(** A click on a segment: [setLocale(value)]. *)
Definition click_segment (s : Segment) (p : Provider) : Provider := setLocale (sg_value s) p.

(** After a click exactly the clicked segment is pressed. *)
Lemma toggle_shows_choice s p :
  In s (LanguageToggle (pv_locale p)) ->
  map sg_value (List.filter sg_pressed (LanguageToggle (pv_locale (click_segment s p)))) = [sg_value s].
Proof.
  intros Hs. assert (pv_locale (click_segment s p) = sg_value s) as ->.
  { unfold click_segment, setLocale, set_lang. by case_match. }
  by destruct (sg_value s).
Qed.

(* ------------------------------------------------------------------ *)
(** ** Buttons *)

Record ButtonView := mkButton { bt_disabled : bool; bt_busy : bool; bt_spinner : bool; bt_text : string }.

Definition Button (disabled loading : bool) (loadingLabel : option string) (children : string) : ButtonView :=
  mkButton (disabled || loading) loading loading
    (if loading && truthy loadingLabel then nullish loadingLabel "" else children).

Definition BUTTON_VARIANTS : list (string * string) :=
  [("primary", "bg-emerald-600 text-white hover:bg-emerald-700 shadow-sm shadow-emerald-600/20 disabled:hover:bg-emerald-600");
   ("dark", "bg-zinc-900 text-white hover:bg-zinc-700 disabled:hover:bg-zinc-900");
   ("secondary", "border border-zinc-300 bg-white text-zinc-700 hover:bg-zinc-50 disabled:hover:bg-white");
   ("danger", "bg-red-600 text-white hover:bg-red-700 disabled:hover:bg-red-600");
   ("violet", "bg-violet-600 text-white hover:bg-violet-700 disabled:hover:bg-violet-600")].

(* ------------------------------------------------------------------ *)
(** ** Badges *)

Definition neutral : string := "bg-zinc-100 text-zinc-600 ring-zinc-400/30".

Definition BADGE_TONES : list (string * string) :=
  [("CALCULATED", "bg-blue-50 text-blue-700 ring-blue-600/20");
   ("REVIEW_REQUIRED", "bg-amber-50 text-amber-700 ring-amber-600/25");
   ("PAYABLE", "bg-emerald-50 text-emerald-700 ring-emerald-600/20");
   ("PARTIALLY_PAID", "bg-emerald-50 text-emerald-700 ring-emerald-600/20");
   ("PAID", "bg-emerald-600 text-white ring-emerald-600");
   ("DRAFT", "bg-zinc-100 text-zinc-600 ring-zinc-400/30");
   ("UNPAID", "bg-zinc-100 text-zinc-600 ring-zinc-400/30");
   ("PENDING", "bg-blue-50 text-blue-700 ring-blue-600/20");
   ("FAILED", "bg-red-50 text-red-700 ring-red-600/20");
   ("ISSUED", "bg-emerald-50 text-emerald-700 ring-emerald-600/20");
   ("CONFIRMED", "bg-emerald-50 text-emerald-700 ring-emerald-600/20");
   ("UNKNOWN", "bg-zinc-100 text-zinc-500 ring-zinc-400/30");
   ("A", "bg-emerald-50 text-emerald-700 ring-emerald-600/25");
   ("B", "bg-blue-50 text-blue-700 ring-blue-600/25");
   ("C", "bg-amber-50 text-amber-700 ring-amber-600/25");
   ("D", "bg-orange-50 text-orange-700 ring-orange-600/25");
   ("E", "bg-red-50 text-red-700 ring-red-600/25")].

(** [(tone && BADGE_TONES[tone]) ?? neutral]: an empty tone is an empty class. *)
Definition toneClass (tone : option string) : string :=
  match tone with
  | None => neutral
  | Some tone => if tone ==? "" then "" else nullish (map_get BADGE_TONES tone) neutral
  end.

(** The tone has a colour of its own. *)
Definition toned (tone : string) : bool := match map_get BADGE_TONES tone with Some _ => true | None => false end.

(** Every status of a share and every grade has a colour; of the other statuses
    these stay neutral. *)
Lemma status_tones :
  (forall s, toned (AllocPayoutStatus.name s) = true) /\ (forall g, toned (EvidenceGrade.name g) = true) /\
  (forall s, toned (BatchStatus.name s) =
     negb (includes [BatchStatus.APPROVED; BatchStatus.CORRECTED; BatchStatus.REVERSED; BatchStatus.DISPUTED] s)) /\
  (forall s, toned (PayoutStatus.name s) = includes [PayoutStatus.CONFIRMED; PayoutStatus.FAILED] s) /\
  (forall s, toned (ReportStatus.name s) = includes [ReportStatus.DRAFT; ReportStatus.ISSUED] s).
Proof. split_and!; intros s; destruct s; vm_compute; reflexivity. Qed.

(* ------------------------------------------------------------------ *)
(** ** Other components *)

(** The size of the spinner of a loading state. *)
Definition LoadingState_spinner (compact : bool) : string := if compact then "md" else "lg".
Definition Spinner_size (size : string) : option string :=
  map_get [("sm", "h-4 w-4"); ("md", "h-5 w-5"); ("lg", "h-8 w-8")] size.

(** A card shows its step and its description only with a title; [step] may be 0. *)
Definition Card_head (step : option Z) (title description : option string) : option (option string * string * option string) :=
  if truthy title
  then Some (str_of_Z <$> step, nullish title "", if truthy description then description else None)
  else None.

Definition Callout_tone (tone : string) : option string :=
  map_get [("amber", "border-amber-200 bg-amber-50 text-amber-800"); ("red", "border-red-200 bg-red-50 text-red-700");
           ("emerald", "border-emerald-200 bg-emerald-50 text-emerald-800")] tone.
End Ui.
