(* ===== verification/Connections.v ===== *)
(** * The cards of connections

    apps/web/src/components/venue-connection-cards.tsx, the venues of a worker with
    the requests to answer, and worker-connections.tsx, the workers of a venue: the
    texts of the cards over the answers of the services (Workers.v,
    Organizations.v).  The instant of the last refresh comes as a text, which the
    rows of the model do not carry.

    [offered_answers]: a card offers both answers exactly for its pending requests,
    and none can be pressed while one is sent.  [offered_answers_accepted]: the
    service carries out every answer a card offers.
    [member_stages_labelled]: every stage the service answers for a worker has a text.
    [korean_payout_texts]: of the statuses of a payout the Korean cards have a text
    for FAILED alone. *)

From S2P Require Import Prelude Concurrency Strings Schema Runtime Demo IncomeProjector Money Mappings Workers Organizations.
From S2P Require Import Dashboard I18n Ui.

Open Scope Z_scope.

Module Connections.
Import I18n.

(** [(cents / 100).toFixed(2)] after a dollar sign, in both files. *)
Definition usd (cents : Z) : string := Dashboard.usd cents.

(** [{ ... }[status] ?? status] in Korean, the status itself in English. *)
Definition translated (texts : list (string * string)) (locale : Locale) (status : string) : string :=
  match locale with ko => nullish (map_get texts status) status | en => status end.

Definition mappingStatus : Locale -> string -> string :=
  translated [("PENDING", "확인 대기"); ("CONFIRMED", "연결됨"); ("REJECTED", "연결 거절")].
Definition payoutStatus : Locale -> string -> string :=
  translated [("UNPAID", "지급 전"); ("PENDING", "지급 처리 중"); ("PAID", "지급 완료"); ("FAILED", "지급 실패")].

Definition said (locale : Locale) (korean english : string) : string :=
  match locale with ko => korean | en => english end.
Definition empty (locale : Locale) : string := said locale "없음" "Not available".

(** The provider and the identifier of the accounts of a card. *)
Definition account_line (provider externalWorkerId : string) : string := provider +:+ " · " +:+ externalWorkerId.

(* ------------------------------------------------------------------ *)
(** ** The venues of a worker *)

Section venue_cards.
(** the function of JavaScript *)
Variable encodeURIComponent : string -> string.

Definition solscanTxUrl (network signature : string) : string :=
  "https://solscan.io/tx/" +:+ encodeURIComponent signature
  +:+ (if network ==? "mainnet-beta" then "" else "?cluster=" +:+ encodeURIComponent network).

(** A button that answers a request. *)
Record Answer := mkAnswer {
  an_mappingId : string;
  an_decision : MappingsService.Decision;
  an_button : Ui.ButtonView
}.

Record AccountView := mkAccountView { av_text : string; av_answers : list Answer }.

Record VenueCard := mkVenueCard {
  vc_venueId : string;
  vc_open : bool;
  vc_title : string;
  vc_accounts : string;
  vc_tone : string;
  vc_stage : string;
  vc_wallet : string;
  vc_identity : list AccountView;
  vc_recipient : string;
  vc_settlement : string;
  vc_payout : string;
  vc_entries : string;
  vc_link : option string
}.

Definition stageLabel (locale : Locale) (stage : string) : string :=
  if stage ==? "PAYOUT_READY" then said locale "지급 준비 완료" "Payout ready"
  else if stage ==? "CONNECTED" then said locale "사업장 연결됨" "Connected"
  else said locale "계정 연결 대기" "Mapping pending".

Definition stageTone (stage : string) : string :=
  if stage ==? "PAYOUT_READY" then "CONFIRMED" else if stage ==? "CONNECTED" then "CALCULATED" else "PENDING".

(** [Boolean(respondingId)] *)
Definition responding (respondingId : option string) : bool := truthy respondingId.

(** The two buttons of a pending request, when the page answers requests. *)
Definition answers (locale : Locale) (respondingId : option string) (onRespond : bool) (mappingId status : string)
    : list Answer :=
  if (status ==? "PENDING") && onRespond
  then [mkAnswer mappingId MappingsService.ACCEPT
          (Ui.Button (responding respondingId) (respondingId ==? Some mappingId) (Some (said locale "처리 중…" "Saving…"))
             (said locale "내 근무 계정이 맞습니다" "Accept connection"));
        mkAnswer mappingId MappingsService.REJECT
          (Ui.Button (responding respondingId) false None (said locale "내 계정이 아닙니다" "Reject"))]
  else [].

Definition account_view (locale : Locale) (respondingId : option string) (onRespond : bool)
    (account : string * string * string * MappingStatus.t * option Z) : AccountView :=
  let '(i, provider, externalWorkerId, status, _) := account in
  mkAccountView (account_line provider externalWorkerId +:+ " · " +:+ mappingStatus locale (MappingStatus.name status))
    (answers locale respondingId onRespond i (MappingStatus.name status)).

Definition venue_card (locale : Locale) (network : string) (respondingId : option string) (onRespond : bool)
    (venue : string * string) (c : WorkersService.Connection) : VenueCard :=
  let stage := WorkersService.cn_connectionStage c in
  let count := str_of_Z (Z.of_nat (WorkersService.cn_incomeEntryCount c)) in
  mkVenueCard venue.1 (stage ==? "MAPPING_PENDING") venue.2
    (join " / " (map (fun a => let '(_, provider, externalWorkerId, _, _) := a in account_line provider externalWorkerId)
                   (WorkersService.cn_externalAccounts c)))
    (stageTone stage) (stageLabel locale stage)
    (nullish (WorkersService.cn_defaultWalletMasked c) (said locale "지갑 없음" "No wallet"))
    (map (account_view locale respondingId onRespond) (WorkersService.cn_externalAccounts c))
    (said locale "수취 지갑" "Recipient wallet" +:+ ": " +:+ nullish (WorkersService.cn_defaultWalletMasked c) (empty locale))
    (match WorkersService.cn_latestAllocation c with
     | Some (businessDate, cents, _, _) => businessDate +:+ " · " +:+ usd cents
     | None => empty locale
     end)
    (said locale "지급" "Payout" +:+ ": " +:+
     match WorkersService.cn_latestPayout c with
     | Some (rail, status, _, _) => PayoutRail.name rail +:+ " · " +:+ payoutStatus locale (PayoutStatus.name status)
     | None => empty locale
     end)
    (said locale "소득 내역" "Income entries" +:+ ": " +:+ count +:+ said locale "건" " entries")
    (match WorkersService.cn_latestPayout c with
     | Some (_, _, Some signature, _) => if signature ==? "" then None else Some (solscanTxUrl network signature)
     | _ => None
     end).

(** [connections.map(...)]; [None]: a connection without its venue, on which the
    render throws. *)
Fixpoint venue_cards (locale : Locale) (network : string) (respondingId : option string) (onRespond : bool)
    (connections : list WorkersService.Connection) : option (list VenueCard) :=
  match connections with
  | [] => Some []
  | c :: cs =>
      match WorkersService.cn_venue c, venue_cards locale network respondingId onRespond cs with
      | Some v, Some rest => Some (venue_card locale network respondingId onRespond v c :: rest)
      | _, _ => None
      end
  end.
End venue_cards.

(* ------------------------------------------------------------------ *)
(** ** The workers of a venue *)

Definition not_recorded (locale : Locale) : string := said locale "기록 없음" "Not recorded".

(** An e-mail that is empty is left out like a missing one. *)
Definition actorLabel (locale : Locale) (actor : option OrganizationsService.Actor) : string :=
  match actor with
  | None => not_recorded locale
  | Some (displayName, emailMasked) =>
      if truthy emailMasked then displayName +:+ " · " +:+ nullish emailMasked "" else displayName
  end.

Definition rebuildSources : list (string * string) :=
  [("MANUAL", "직접 새로고침"); ("SCHEDULED", "자동 새로고침"); ("PROVIDER_SYNC", "자료 동기화")].

Definition rebuildActorLabel (locale : Locale) (rebuild : option (option OrganizationsService.Actor * string)) : string :=
  match rebuild with
  | None => not_recorded locale
  | Some (Some actor, _) => actorLabel locale (Some actor)
  | Some (None, source) => said locale ("시스템 · " +:+ nullish (map_get rebuildSources source) source) ("System · " +:+ source)
  end.

Definition member_tone (stage : string) : string :=
  if stage ==? "PAYOUT_READY" then "CONFIRMED"
  else if stage ==? "CONNECTED" then "CALCULATED"
  else if stage ==? "MAPPING_PENDING" then "PENDING" else "UNKNOWN".

(** [replaceAll("_", " ")] *)
Fixpoint spaced (s : string) : string :=
  match s with EmptyString => "" | String c s' => String (if Ascii.eqb c "_" then " " else c) (spaced s') end.

(** [None]: Korean has no text for the stage. *)
Definition member_stage (locale : Locale) (stage : string) : option string :=
  match locale with
  | ko => map_get [("EXTERNAL_ONLY", "외부 기록만 있음"); ("MAPPING_PENDING", "계정 연결 대기");
                   ("CONNECTED", "사업장 연결됨"); ("PAYOUT_READY", "지급 준비 완료")] stage
  | en => Some (spaced stage)
  end.

Record MemberCard := mkMemberCard {
  mc_name : string;
  mc_tone : string;
  mc_stage : option string;
  mc_email : string;
  mc_accounts : string;
  mc_wallet : string;
  mc_latest : string;
  mc_identity : list string;
  mc_recipient : string;
  mc_allocation : string;
  mc_calculatedBy : string;
  mc_approvedBy : string;
  mc_payout : string;
  mc_signer : string;
  mc_submittedBy : string;
  mc_entries : string;
  mc_refreshedBy : string
}.

Definition member_card (locale : Locale) (rebuild : option (option OrganizationsService.Actor * string))
    (m : OrganizationsService.Member) : MemberCard :=
  let labelled title text := title +:+ ": " +:+ text in
  let allocation := OrganizationsService.mb_latestAllocation m in
  let payout := OrganizationsService.mb_latestPayout m in
  mkMemberCard (OrganizationsService.mb_displayName m)
    (member_tone (OrganizationsService.mb_connectionStage m)) (member_stage locale (OrganizationsService.mb_connectionStage m))
    (nullish (OrganizationsService.mb_emailMasked m) (said locale "ServeProof 계정 미연결" "No ServeProof account"))
    (join " / " (map (fun a => let '(provider, external, _, _, _) := a in account_line provider external)
                   (OrganizationsService.mb_externalAccounts m)))
    (nullish (OrganizationsService.mb_defaultWalletMasked m) (said locale "지갑 없음" "No wallet"))
    (match payout with
     | Some (rail, status, _, _, _, _) => PayoutRail.name rail +:+ " · " +:+ PayoutStatus.name status
     | None => said locale "지급 이력 없음" "No payout"
     end)
    (map (fun a => let '(provider, external, status, _, _) := a in
                   account_line provider external +:+ " · " +:+ mappingStatus locale status)
       (OrganizationsService.mb_externalAccounts m))
    (labelled (said locale "수취 지갑" "Recipient wallet") (nullish (OrganizationsService.mb_defaultWalletMasked m) (empty locale)))
    (match allocation with
     | Some (businessDate, cents, _, _, _, _, _) => businessDate +:+ " · " +:+ usd cents
     | None => empty locale
     end)
    (labelled (said locale "계산자" "Calculated by")
       (actorLabel locale (allocation ≫= fun x => let '(_, _, _, _, calculatedBy, _, _) := x in calculatedBy)))
    (labelled (said locale "승인자" "Approved by")
       (actorLabel locale (allocation ≫= fun x => let '(_, _, _, _, _, _, approvedBy) := x in approvedBy)))
    (match payout with
     | Some (rail, status, _, _, _, _) => PayoutRail.name rail +:+ " · " +:+ payoutStatus locale (PayoutStatus.name status)
     | None => empty locale
     end)
    (labelled (said locale "서명 지갑" "Signer wallet")
       (nullish (payout ≫= fun x => let '(_, _, signer, _, _, _) := x in signer) (empty locale)))
    (labelled (said locale "제출 계정" "Submitted by")
       (actorLabel locale (payout ≫= fun x => let '(_, _, _, submittedBy, _, _) := x in submittedBy)))
    (str_of_Z (Z.of_nat (OrganizationsService.mb_incomeEntryCount m)) +:+ said locale "건" " entries")
    (labelled (said locale "최근 새로고침" "Latest refresh by") (rebuildActorLabel locale rebuild)).

Record VenuePanel := mkVenuePanel {
  vp_name : string;
  vp_signer : string;
  vp_refresh : string;
  vp_members : list MemberCard
}.

(** [refreshedAt]: the instant of the last refresh in the language of the locale. *)
Definition venue_panel (locale : Locale) (refreshedAt : string) (d : OrganizationsService.WorkerConnections) : VenuePanel :=
  let '(_, venueName, signer) := OrganizationsService.wc_venue d in
  let rebuild := OrganizationsService.wc_latestIncomeRebuild d in
  mkVenuePanel venueName (said locale "사업장 지급 지갑" "Venue signer" +:+ ": " +:+ nullish signer (empty locale))
    (said locale "최근 소득 상태 새로고침" "Latest income refresh" +:+ ": " +:+
     match rebuild with Some _ => rebuildActorLabel locale rebuild +:+ " · " +:+ refreshedAt | None => empty locale end)
    (map (member_card locale rebuild) (OrganizationsService.wc_members d)).

(* ------------------------------------------------------------------ *)
(** ** What the cards show *)

(** Of the statuses of a payout the Korean card has a text for [FAILED] alone: its
    table lists the statuses of a share. *)
Lemma korean_payout_texts s : payoutStatus ko (PayoutStatus.name s) <> PayoutStatus.name s <-> s = PayoutStatus.FAILED.
Proof.
  split.
  - intros Hn. destruct s; first [reflexivity|exfalso; apply Hn; vm_compute; reflexivity].
  - intros ->. by vm_compute.
Qed.

(** The tone of every stage has a colour of its own. *)
Lemma stage_tones stage : Ui.toned (stageTone stage) = true /\ Ui.toned (member_tone stage) = true.
Proof. unfold stageTone, member_tone. by split; repeat case_match. Qed.

(** While an answer is sent no other can be given. *)
Lemma one_answer_at_a_time locale i id status answer :
  id <> "" -> In answer (answers locale (Some id) true i status) -> Ui.bt_disabled (an_button answer) = true.
Proof.
  intros Hi. unfold answers, responding, truthy. case_match; [|done]. rewrite bool_decide_eq_false_2 by done.
  by intros [<-|[<-|[]]].
Qed.

(** Every stage the service answers has a text. *)
Theorem member_stages_labelled `{Platform} v w w' d :
  run (OrganizationsService.workerConnections v) w = (w', Ok d) ->
  Forall (fun m => is_Some (member_stage ko (OrganizationsService.mb_connectionStage m))) (OrganizationsService.wc_members d).
Proof.
  unfold OrganizationsService.workerConnections. wexec. destruct (List.find _ _); wexec; [|done]. intros [= _ <-].
  cbn [OrganizationsService.wc_members]. apply Forall_app. split.
  2:{ apply List.Forall_forall. intros m (x & <- & _)%in_map_iff. eexists. reflexivity. }
  apply List.Forall_forall. intros m (i & _ & Hm)%list_elem_of_In%list_elem_of_omap.
  apply bind_Some in Hm as (profile & _ & [= <-]).
  cbn [OrganizationsService.mb_connectionStage]. unfold WorkersService.connection_stage. repeat case_match; eexists; reflexivity.
Qed.

(** ** The answers *)

Section answers.
Variable enc : string -> string.

(** Both answers for a pending request, none for another. *)
Lemma offered_answers locale respondingId onRespond account :
  let '(i, _, _, status, _) := account in
  map (fun a => (an_mappingId a, an_decision a)) (av_answers (account_view locale respondingId onRespond account)) =
  if bool_decide (status = MappingStatus.PENDING) && onRespond
  then [(i, MappingsService.ACCEPT); (i, MappingsService.REJECT)] else [].
Proof.
  destruct account as [[[[i provider] external] status] verifiedAt]. unfold account_view, answers. cbn [av_answers].
  assert ((MappingStatus.name status ==? "PENDING") = bool_decide (status = MappingStatus.PENDING)) as -> by by destruct status.
  by case_match.
Qed.

Lemma venue_cards_In locale network respondingId onRespond cs cards card :
  venue_cards enc locale network respondingId onRespond cs = Some cards -> In card cards ->
  exists c v, In c cs /\ card = venue_card enc locale network respondingId onRespond v c.
Proof.
  revert cards. induction cs as [|c cs IH]; intros cards; cbn [venue_cards]; [by intros [= <-]|].
  destruct (WorkersService.cn_venue c) as [v|]; [|done].
  destruct (venue_cards enc locale network respondingId onRespond cs) as [rest|]; [|done].
  intros [= <-] [<-|Hin]; [exists c, v; split; [by left|done]|].
  destruct (IH rest eq_refl Hin) as (c' & v' & Hc & ->). exists c', v'. split; [by right|done].
Qed.
End answers.

(** The primary keys the answer relies on. *)
Definition keyed (w : World) : Prop :=
  NoDup (map worker_id (w_workers w)) /\ NoDup (map account_id (w_accounts w)) /\ NoDup (map alloc_id (w_allocations w)).

Section accepted.
Context `{Platform}.

Lemma attach_succeeds m w : NoDup (map alloc_id (w_allocations w)) ->
  exists w' n, run (MappingsService.attachHeldAllocations m) w = (w', Ok n).
Proof.
  intros HN. unfold MappingsService.attachHeldAllocations. rewrite run_bind, run_query. cbv beta iota.
  set (held := List.filter _ _).
  destruct (MappingsService.attach_all (account_workerId m) held w HN) as (w' & E & _).
  - apply (NoDup_fmap_1 alloc_id). by apply NoDup_map_filter.
  - intros h [Hin Hh]%List.filter_In. split; [done|]. unfold MappingsService.held_for in Hh.
    do 3 apply andb_true_iff in Hh as [Hh _]. by apply bool_decide_eq_true in Hh.
  - rewrite run_bind, E. by do 2 eexists.
Qed.

(** An account of the card is one of the worker's own. *)
Lemma listed_account userId w w1 cs c account :
  run (WorkersService.venueConnections userId) w = (w1, Ok cs) -> In c cs -> In account (WorkersService.cn_externalAccounts c) ->
  exists worker a, List.find (fun x => worker_userId x ==? userId) (w_workers w) = Some worker /\ In a (w_accounts w) /\
    account_workerId a = worker_id worker /\
    account = (account_id a, account_provider a, account_externalWorkerId a, account_mappingStatus a, account_verifiedAt a).
Proof.
  unfold WorkersService.venueConnections. rewrite run_bind, run_query. cbv beta iota.
  unfold WorkersService.connected_data. destruct (List.find _ (w_workers w)) as [worker|] eqn:Ew; cbn [fmap option_fmap option_map];
    wexec; [|done]. destruct (_ =? _)%nat; wexec; [by intros [= _ <-]|]. intros [= _ <-] (v & <- & _)%in_map_iff Ha.
  cbn [WorkersService.cn_externalAccounts WorkersService.connection_card] in Ha.
  apply in_map_iff in Ha as ([a vv] & <- & [Ha _]%List.filter_In). cbn [WorkersService.cw_externalAccounts] in Ha.
  apply in_map_iff in Ha as (a' & [= -> _] & [Hin Hw]%List.filter_In). apply andb_true_iff in Hw as [Hw%bool_decide_eq_true _].
  exists worker, a. by split_and!.
Qed.

Lemma find_account (w : World) a : NoDup (map account_id (w_accounts w)) -> In a (w_accounts w) ->
  List.find (by_id (account_id a)) (w_accounts w) = Some a.
Proof. intros HN Ha. exact (find_by_id_NoDup (w_accounts w) a HN Ha). Qed.

Lemma verify_succeeds w a userId : keyed w -> In a (w_accounts w) -> account_mappingStatus a = MappingStatus.PENDING ->
  exists w' r, run (MappingsService.verifyMapping (account_id a) userId) w = (w', Ok r).
Proof.
  intros (_ & Hac & Hal) Ha Hp. unfold MappingsService.verifyMapping. rewrite run_bind, run_findUnique. cbv beta iota.
  change (@rows World ExternalWorkerAccount _ w) with (w_accounts w). rewrite (find_account w a Hac Ha). wexec. rewrite Hp.
  change (MappingStatus.PENDING ==? MappingStatus.REJECTED) with false. wexec.
  rewrite (find_account w a Hac Ha). wexec.
  match goal with |- context [run (MappingsService.attachHeldAllocations a) ?w2] =>
    destruct (attach_succeeds a w2 Hal) as (w3 & n & E) end.
  rewrite E. wexec. destruct (_ || (0 <? n)%nat); wexec; [|by do 2 eexists].
  destruct (run (IncomeProjector.rebuildVenueIncome _ _ _) w3) as [w4 [|]]; wexec; by do 2 eexists.
Qed.

(** What a card of a worker offers the service carries out: each answer to a pending
    request of a venue, given by the person the card was made for, succeeds. *)
Theorem offered_answers_accepted enc userId w w1 cs locale network cards card view answer :
  keyed w -> run (WorkersService.venueConnections userId) w = (w1, Ok cs) ->
  venue_cards enc locale network None true cs = Some cards -> In card cards -> In view (vc_identity card) ->
  In answer (av_answers view) ->
  Ui.bt_disabled (an_button answer) = false /\
  exists w' r, run (MappingsService.patch_respond userId (an_mappingId answer) (an_decision answer)) w = (w', Ok r).
Proof.
  intros (Hwk & Hac & Hal) Hr Hcards Hcard Hview Hanswer.
  destruct (venue_cards_In _ _ _ _ _ _ _ _ Hcards Hcard) as (c & v & Hc & ->). cbn [vc_identity venue_card] in Hview.
  apply in_map_iff in Hview as (account & <- & Hacc).
  destruct (listed_account _ _ _ _ _ _ Hr Hc Hacc) as (worker & a & Ew & Ha & Hw & ->).
  unfold account_view, answers in Hanswer. cbn [av_answers] in Hanswer.
  destruct (MappingStatus.name (account_mappingStatus a) ==? "PENDING") eqn:Es; [|done].
  assert (account_mappingStatus a = MappingStatus.PENDING) as Hp by by destruct (account_mappingStatus a).
  assert (MappingsService.mapping_data w (account_id a) = Some (a, userId)) as Hm.
  { unfold MappingsService.mapping_data. rewrite (find_account w a Hac Ha).
    apply find_In in Ew as [Hin Hu%bool_decide_eq_true]. rewrite Hw, (WorkersService.find_worker _ _ Hwk Hin). cbn. by rewrite Hu. }
  assert (Ui.bt_disabled (an_button answer) = false /\ an_mappingId answer = account_id a) as [Hd ->] by by destruct Hanswer as [<-|[<-|[]]].
  split; [done|]. unfold MappingsService.patch_respond, MappingsService.respondToMapping.
  rewrite run_bind, run_query. cbv beta iota. rewrite Hm. wexec. rewrite bd_refl. cbn [negb]. wexec.
  destruct (an_decision answer); rewrite Hp; change (MappingStatus.PENDING ==? MappingStatus.REJECTED) with false;
    change (MappingStatus.PENDING ==? MappingStatus.CONFIRMED) with false.
  - wexec. apply (verify_succeeds w a); done.
  - wexec. rewrite (find_account w a Hac Ha). wexec. by do 2 eexists.
Qed.
End accepted.

(* ------------------------------------------------------------------ *)
(** ** The card of a request *)

(** The card of the worker of the demo: one request and both answers. *)
Lemma demo_card :
  exists cs card view,
    run (WorkersService.venueConnections "u1") MappingsService.demo_held = (MappingsService.demo_held, Ok cs) /\
    venue_cards (fun s => s) en "devnet" None true cs = Some [card] /\ vc_identity card = [view] /\
    vc_stage card = "Mapping pending" /\ av_text view = "csv · e9 · PENDING" /\
    av_answers view = [mkAnswer "x" MappingsService.ACCEPT (Ui.mkButton false false false "Accept connection");
                       mkAnswer "x" MappingsService.REJECT (Ui.mkButton false false false "Reject")].
Proof. do 3 eexists. split; [vm_compute; reflexivity|]. split; [vm_compute; reflexivity|]. by split_and!. Qed.

Lemma offered_answers_accepted_witness :
  exists w' r, run (MappingsService.patch_respond "u1" "x" MappingsService.ACCEPT) MappingsService.demo_held = (w', Ok r).
Proof.
  destruct demo_card as (cs & card & view & E1 & E2 & E3 & _ & _ & E4).
  destruct (offered_answers_accepted (fun s => s) "u1" MappingsService.demo_held MappingsService.demo_held cs en "devnet" [card] card view
    (mkAnswer "x" MappingsService.ACCEPT (Ui.mkButton false false false "Accept connection"))) as [_ Hw].
  - split_and!; apply (bool_decide_unpack _); vm_compute; done.
  - exact E1.
  - exact E2.
  - by left.
  - rewrite E3. by left.
  - rewrite E4. by left.
  - exact Hw.
Defined.

End Connections.
