(* ===== verification/ShareForm.v ===== *)
(** * Sharing an income proof

    The form of apps/web/src/app/me/page.tsx that shares a report: its presets, its
    inputs as steps on a state, the texts of its review and the conditions of its
    button; the schema of [POST /disclosures] in
    apps/api/src/disclosure/disclosure.controller.ts, and the two against each other.
    The request itself is [createDisclosure] of MyIncome.v.

    [form_consistent]: whatever is clicked and typed, the chosen level exists (the
    page asserts it with [!]), every key the form builds has a text, and while a
    preset is selected level and purpose are those of the preset.
    [ready_share_accepted]: what the enabled button sends, the schema of the API reads
    as the form has it, and the service does not call it a bad request.
    [fraction_of_a_cent]: the exception, a threshold that rounds to no cent. *)

From S2P Require Import Prelude Concurrency Strings Schema Runtime Demo WebSession Pages MyIncome I18n ApiShell Evidence Disclosure.
From S2P Require Import DemoCsv.

Open Scope Z_scope.

Module ShareForm.

(* ------------------------------------------------------------------ *)
(** ** The options *)

Record Preset := mkPreset {
  ps_value : string;
  ps_label : string;
  ps_description : string;
  ps_audience : string;
  ps_level : string;
  ps_range : string;
  ps_expiry : string;
  ps_purposeKey : string;
  ps_primary : bool
}.

(** The four keys of a preset are made of its value. *)
Definition preset (value level range expiry : string) (primary : bool) : Preset :=
  let key := "me.share.preset." +:+ value in
  mkPreset value key (key +:+ ".hint") (key +:+ ".audience") level range expiry (key +:+ ".purpose") primary.

Definition presetOptions : list Preset :=
  [preset "rent" "LEVEL_2" "3" "7" true; preset "benefits" "LEVEL_3" "1" "30" true;
   preset "housing" "LEVEL_3" "3" "30" true; preset "auto" "LEVEL_2" "3" "7" false;
   preset "mortgage" "LEVEL_2" "12" "30" false; preset "marketplace" "LEVEL_2" "ytd" "30" false;
   preset "immigration" "LEVEL_3" "6" "30" false; preset "tax" "LEVEL_3" "lastYear" "30" false].

(** Value, title and detail. *)
Definition levelOptions : list (string * string * string) :=
  [("LEVEL_1", "me.share.l1.title", "me.share.l1.detail"); ("LEVEL_2", "me.share.l2.title", "me.share.l2.detail");
   ("LEVEL_3", "me.share.l3.title", "me.share.l3.detail")].

Definition rangeOptions : list string := ["1"; "3"; "6"; "12"; "24"; "ytd"; "lastYear"].
Definition expiryOptions : list string := ["1"; "7"; "30"].

(* ------------------------------------------------------------------ *)
(** ** The form *)

Record Form := mkForm {
  f_level : string;
  f_purposeKey : string;
  f_customPurpose : option string;
  f_selectedPreset : string;
  f_rangeMonths : string;
  f_expiresInDays : string;
  f_thresholdUsd : string;
  f_recipientEmail : string;
  f_recipientEmailConfirm : string;
  f_accessMode : AccessMode.t
}.
#[export] Instance eta_Form : Eta Form := fun r => mkForm
  (f_level r) (f_purposeKey r) (f_customPurpose r) (f_selectedPreset r) (f_rangeMonths r) (f_expiresInDays r)
  (f_thresholdUsd r) (f_recipientEmail r) (f_recipientEmailConfirm r) (f_accessMode r).

(** The initial values of the page. *)
Definition initial : Form :=
  mkForm "LEVEL_2" "me.share.preset.rent.purpose" None "rent" "3" "7" "3000" "" "" AccessMode.RECIPIENT_OTP.

Definition selectPreset (p : Preset) (f : Form) : Form :=
  f <| f_selectedPreset := ps_value p |> <| f_level := ps_level p |> <| f_purposeKey := ps_purposeKey p |>
    <| f_customPurpose := None |> <| f_rangeMonths := ps_range p |> <| f_expiresInDays := ps_expiry p |>.

(** What the user does; a select and a radio group offer their options only. *)
Inductive input :=
| SelectPreset (p : Preset)
| SelectOther
| TypePurpose (s : string)
| ChooseLevel (level : string)
| TypeThreshold (s : string)
| ChooseRange (months : string)
| ChooseExpiry (days : string)
| ChooseAccess (mode : AccessMode.t)
| TypeEmail (s : string)
| TypeEmailConfirm (s : string).

Definition offered (i : input) : Prop :=
  match i with
  | SelectPreset p => In p presetOptions
  | ChooseLevel level => In level (map (fun o => o.1.1) levelOptions)
  | ChooseRange months => In months rangeOptions
  | ChooseExpiry days => In days expiryOptions
  | _ => True
  end.

Definition handle (f : Form) (i : input) : Form :=
  match i with
  | SelectPreset p => selectPreset p f
  | SelectOther => f <| f_selectedPreset := "custom" |> <| f_customPurpose := Some "" |>
  | TypePurpose s => f <| f_customPurpose := Some s |> <| f_selectedPreset := "custom" |>
  | ChooseLevel level => f <| f_level := level |> <| f_selectedPreset := "custom" |>
  | TypeThreshold s => f <| f_thresholdUsd := s |>
  | ChooseRange months => f <| f_rangeMonths := months |>
  | ChooseExpiry days => f <| f_expiresInDays := days |>
  | ChooseAccess mode => f <| f_accessMode := mode |>
  | TypeEmail s => f <| f_recipientEmail := trim s |>
  | TypeEmailConfirm s => f <| f_recipientEmailConfirm := trim s |>
  end.

Definition chosenLevel (f : Form) : option (string * string * string) :=
  List.find (fun o => o.1.1 ==? f_level f) levelOptions.
Definition chosenPreset (f : Form) : option Preset :=
  List.find (fun p => ps_value p ==? f_selectedPreset f) presetOptions.

(** [customPurpose ?? t(purposeKey)] *)
Definition purpose (locale : I18n.Locale) (f : Form) : string :=
  nullish (f_customPurpose f) (I18n.t locale (f_purposeKey f)).

Definition range_key (months : string) : string := "me.share.range." +:+ months.

(** [s.replace("{days}", days)]: the first occurrence. *)
Definition replace_days (days s : string) : string :=
  match String.index 0 "{days}" s with
  | Some n => slice_to s n +:+ days +:+ slice_from s (n + 6)
  | None => s
  end.
Definition expires_text (locale : I18n.Locale) (days : string) : string :=
  replace_days days (I18n.t locale "me.share.expiresIn").

(** What [Number] makes of the threshold: finite and positive. *)
Class Amounts := { validAmount : string -> bool }.

Section form.
Context `{MyIncome.Devices} `{Amounts}.

(** The form as the handlers of the page see it. *)
Definition render_of (locale : I18n.Locale) (base : MyIncome.Render) (f : Form) : MyIncome.Render :=
  MyIncome.mkRender (MyIncome.rn_me base) (MyIncome.rn_timelineCursor base) (MyIncome.rn_timelineLoading base)
    (MyIncome.rn_initialLoading base) (MyIncome.rn_workspace base) (purpose locale f) (f_level f) (f_rangeMonths f)
    (f_expiresInDays f) (f_thresholdUsd f) (f_recipientEmail f) (f_recipientEmailConfirm f)
    (AccessMode.name (f_accessMode f)) (MyIncome.rn_shareUrl base).

Definition invalidThreshold (f : Form) : bool :=
  (f_level f ==? "LEVEL_1") && negb (validAmount (f_thresholdUsd f)).

(** The [disabled] of the button. *)
Definition share_disabled (locale : I18n.Locale) (busy : bool) (base : MyIncome.Render) (f : Form) : bool :=
  let r := render_of locale base f in
  busy || (trim (purpose locale f) ==? "") || MyIncome.invalidEmail r || MyIncome.recipientRequired r
  || MyIncome.recipientMismatch r || invalidThreshold f.

(** The key of the text under the address. *)
Definition recipient_help (locale : I18n.Locale) (base : MyIncome.Render) (f : Form) : string :=
  let r := render_of locale base f in
  if MyIncome.invalidEmail r then "me.share.emailInvalid"
  else if MyIncome.recipientRequired r then "me.share.emailRequired"
  else match f_accessMode f with
       | AccessMode.RECIPIENT_OTP => "me.share.recipientSecureHint"
       | AccessMode.LINK => "me.share.recipientHint"
       end.

Record Review := mkReview {
  rv_destination : string;
  rv_purpose : string;
  rv_included : option (string * string);
  rv_period : string;
  rv_expiration : string;
  rv_delivery : string
}.

(** The review next to the form; the threshold, which the locale formats, is left out. *)
Definition review (locale : I18n.Locale) (f : Form) : Review :=
  let t := I18n.t locale in
  mkReview
    (match chosenPreset f with Some p => t (ps_audience p) | None => t "me.share.destinationCustom" end)
    (if purpose locale f ==? "" then match locale with I18n.ko => "입력하지 않음" | I18n.en => "Not provided" end
     else purpose locale f)
    ((fun o => (t o.1.2, t o.2)) <$> chosenLevel f)
    (t (range_key (f_rangeMonths f)))
    (expires_text locale (f_expiresInDays f))
    (match f_accessMode f with
     | AccessMode.RECIPIENT_OTP => (if f_recipientEmail f ==? "" then "—" else f_recipientEmail f) +:+ " · OTP"
     | AccessMode.LINK => if f_recipientEmail f ==? "" then t "me.share.deliveryLink" else f_recipientEmail f
     end).
End form.

(* ------------------------------------------------------------------ *)
(** ** The schema of the request *)

Section schema.
Context `{RowSchema} `{ApiShell.Shell}.

Definition text_at (body : json) (k : string) : option string := WebSession.as_string (WebSession.field body k).

Definition level_named (s : string) : option DisclosureLevel.t :=
  List.find (fun l => DisclosureLevel.name l ==? s) [DisclosureLevel.LEVEL_1; DisclosureLevel.LEVEL_2; DisclosureLevel.LEVEL_3].
Definition mode_named (s : string) : option AccessMode.t :=
  List.find (fun m => AccessMode.name m ==? s) [AccessMode.LINK; AccessMode.RECIPIENT_OTP].

(** [.optional()]: absent, or accepted by [p]. *)
Definition optional {A} (p : json -> option A) (o : option json) : option (option A) :=
  match o with None => Some None | Some j => Some <$> p j end.

Definition email_json (j : json) : option string :=
  match j with JStr s => if ApiShell.isEmail s then Some s else None | _ => None end.
Definition bool_json (j : json) : option bool := match j with JBool b => Some b | _ => None end.
Definition cents_json (j : json) : option Z :=
  match j with JInt z => if (0 <? z) && (z <? 2 ^ 53) then Some z else None | _ => None end.

(** [createGrantSchema.safeParse]: the input with its [autoIssue], or nothing. *)
Definition createGrantSchema (body : json) : option (DisclosureService.GrantInput * bool) :=
  purpose ← text_at body "purpose";
  if purpose ==? "" then None else
  level ← text_at body "level" ≫= level_named;
  dateRangeStart ← text_at body "dateRangeStart" ≫= isoDatetime;
  dateRangeEnd ← text_at body "dateRangeEnd" ≫= isoDatetime;
  expiresAt ← text_at body "expiresAt" ≫= isoDatetime;
  recipientEmail ← optional email_json (WebSession.field body "recipientEmail");
  accessMode ← optional (fun j => WebSession.as_string (Some j) ≫= mode_named) (WebSession.field body "accessMode");
  allowDownload ← optional bool_json (WebSession.field body "allowDownload");
  thresholdUsdCents ← optional cents_json (WebSession.field body "thresholdUsdCents");
  autoIssue ← optional bool_json (WebSession.field body "autoIssue");
  Some (DisclosureService.mkGrantInput purpose level dateRangeStart dateRangeEnd expiresAt recipientEmail accessMode
          allowDownload thresholdUsdCents, nullish autoIssue false).
End schema.

(* ------------------------------------------------------------------ *)
(** ** The form is consistent *)

(** The keys the form builds. *)
Definition form_keys (f : Form) : list string := [f_purposeKey f; range_key (f_rangeMonths f); "me.share.expiresIn"].

Definition preset_kept (f : Form) (p : Preset) : Prop :=
  f_selectedPreset f = ps_value p -> f_level f = ps_level p /\ f_purposeKey f = ps_purposeKey p /\ f_customPurpose f = None.

Record form_ok (f : Form) : Prop := {
  fo_level : In (f_level f) (map (fun o => o.1.1) levelOptions);
  fo_range : In (f_rangeMonths f) rangeOptions;
  fo_expiry : In (f_expiresInDays f) expiryOptions;
  fo_purpose : In (f_purposeKey f) (map ps_purposeKey presetOptions);
  fo_preset : Forall (preset_kept f) presetOptions;
  fo_email : trim (f_recipientEmail f) = f_recipientEmail f
}.

Lemma trim_start_head s : match trim_start s with "" => True | String c _ => is_space c = false end.
Proof. induction s as [|c s IH]; cbn; [done|]. by destruct (is_space c) eqn:E. Qed.

Lemma trim_end_head c s : is_space c = false -> exists s', trim_end (String c s) = String c s'.
Proof. intros Hc. cbn. rewrite Hc. destruct (trim_end s); eauto. Qed.

Lemma trim_end_idem s : trim_end (trim_end s) = trim_end s.
Proof.
  induction s as [|c s IH]; [done|]. cbn. destruct (trim_end s) as [|c' s'] eqn:E.
  - destruct (is_space c) eqn:Hc; [done|]. cbn. by rewrite Hc.
  - cbn [trim_end] in IH |- *. by rewrite IH.
Qed.

Lemma trim_idem s : trim (trim s) = trim s.
Proof.
  unfold trim. pose proof (trim_start_head s) as Hh. destruct (trim_start s) as [|c s'] eqn:E; [done|].
  destruct (trim_end_head c s' Hh) as [s'' E']. rewrite E' at 1. cbn [trim_start]. rewrite Hh, <- E'. apply trim_end_idem.
Qed.

Lemma presets_differ p q : In p presetOptions -> In q presetOptions -> ps_value p = ps_value q -> p = q.
Proof.
  intros Hp Hq E. assert (NoDup (map ps_value presetOptions)) as HN by (apply (bool_decide_unpack _); vm_compute; done).
  by apply (NoDup_map_inj ps_value presetOptions).
Qed.

Lemma initial_ok : form_ok initial.
Proof.
  split; try (cbn; tauto). apply List.Forall_forall. intros p Hp E. cbn in E.
  assert (p = preset "rent" "LEVEL_2" "3" "7" true) as ->; [|done]. apply presets_differ; [done|by left|by rewrite <- E].
Qed.

Lemma not_custom p : In p presetOptions -> ps_value p <> "custom".
Proof. intros Hp E. apply (in_map ps_value) in Hp. rewrite E in Hp. vm_compute in Hp. intuition discriminate. Qed.

(** Whatever selects "custom" keeps the invariant of the presets. *)
Lemma custom_kept f : f_selectedPreset f = "custom" -> Forall (preset_kept f) presetOptions.
Proof. intros E. apply List.Forall_forall. intros p Hp Ep. exfalso. apply (not_custom p Hp). congruence. Qed.

Lemma preset_options p : In p presetOptions ->
  In (ps_level p) (map (fun o => o.1.1) levelOptions) /\ In (ps_range p) rangeOptions /\ In (ps_expiry p) expiryOptions.
Proof. intros Hp. repeat (destruct Hp as [<-|Hp]; [cbn; tauto|]). destruct Hp. Qed.

Lemma select_ok p f : In p presetOptions -> form_ok f -> form_ok (selectPreset p f).
Proof.
  intros Hp Hf. destruct (preset_options p Hp) as (Hl & Hr & He). constructor; [exact Hl|exact Hr|exact He| | |apply Hf].
  - by apply (in_map ps_purposeKey presetOptions p).
  - apply List.Forall_forall. intros q Hq E. cbn in E. assert (q = p) as -> by (by apply presets_differ). done.
Qed.

Lemma handle_ok f i : offered i -> form_ok f -> form_ok (handle f i).
Proof.
  intros Hi Hf. destruct i; [by apply select_ok|..]; destruct Hf; constructor; try assumption; try apply trim_idem;
    by apply custom_kept.
Qed.

Lemma inputs_ok js f : Forall offered js -> form_ok f -> form_ok (fold_left handle js f).
Proof. intros His. revert f. induction His as [|i js Hi His IH]; intros f Hf; [done|]. cbn. by apply IH, handle_ok. Qed.

(** Whatever is clicked and typed into the form: the chosen level is one of the
    three, the period and the expiry are options, every key of the form has a text,
    and a selected preset is shown with the form's own level and purpose. *)
Theorem form_consistent js :
  Forall offered js ->
  let f := fold_left handle js initial in
  is_Some (chosenLevel f) /\ Forall (fun k => I18n.known k = true) (form_keys f) /\
  forall p locale, chosenPreset f = Some p ->
    f_level f = ps_level p /\ purpose locale f = I18n.t locale (ps_purposeKey p) /\
    Forall (fun k => I18n.known k = true) [ps_label p; ps_description p; ps_audience p; ps_purposeKey p].
Proof.
  intros His f. destruct (inputs_ok js initial His initial_ok) as [H1 H2 H3 H4 H5 H6]. fold f in H1, H2, H3, H4, H5, H6.
  split_and!.
  - unfold chosenLevel. destruct (List.find _ _) as [o|] eqn:E; [by eexists|]. exfalso. apply in_map_iff in H1 as (o & Ho & Hin).
    apply (List.find_none _ _ E) in Hin. cbv beta in Hin. by rewrite Ho, bd_refl in Hin.
  - unfold form_keys. apply Forall_cons. split; [|apply Forall_cons; split; [|by repeat constructor]].
    + assert (Forall (fun k => I18n.known k = true) (map ps_purposeKey presetOptions)) as Hk.
      { apply List.Forall_forall, forallb_forall. vm_compute. reflexivity. }
      rewrite List.Forall_forall in Hk. by apply Hk.
    + assert (Forall (fun m => I18n.known (range_key m) = true) rangeOptions) as Hk.
      { apply List.Forall_forall, forallb_forall. vm_compute. reflexivity. }
      rewrite List.Forall_forall in Hk. by apply Hk.
  - intros p locale Hp. apply find_In in Hp as [Hin Hv%bool_decide_eq_true]. rewrite List.Forall_forall in H5.
    destruct (H5 p Hin (eq_sym Hv)) as (El & Ek & Ec). unfold purpose. rewrite Ec, Ek. cbn [nullish]. split; [done|]. split; [done|].
    assert (forallb (fun p => forallb I18n.known [ps_label p; ps_description p; ps_audience p; ps_purposeKey p]) presetOptions = true) as Hk
      by (vm_compute; reflexivity).
    rewrite forallb_forall in Hk. apply List.Forall_forall, forallb_forall. by apply Hk.
Qed.

(* ------------------------------------------------------------------ *)
(** ** The form against the API *)

Section accepted.
Context `{Pages.FormReading} `{MyIncome.Devices} `{Amounts} `{RowSchema} `{ApiShell.Shell}.

(** The dates of a request can be read. *)
Definition dates_read (r : MyIncome.Render) (now : Z) : Prop :=
  let '(start, finish) := MyIncome.disclosure_range (MyIncome.rn_rangeMonths r) now in
  is_Some (isoDatetime (toISOString start)) /\ is_Some (isoDatetime (toISOString finish)) /\
  is_Some (isoDatetime (toISOString (now + Pages.readNumber (MyIncome.rn_expiresInDays r) * 24 * 60 * 60 * 1000))).

(** The input a request carries. *)
Definition carries (locale : I18n.Locale) (f : Form) (gi : DisclosureService.GrantInput) : Prop :=
  DisclosureService.gi_purpose gi = purpose locale f /\
  DisclosureLevel.name (DisclosureService.gi_level gi) = f_level f /\
  DisclosureService.gi_accessMode gi = Some (f_accessMode f) /\
  DisclosureService.gi_recipientEmail gi = (if f_recipientEmail f ==? "" then None else Some (f_recipientEmail f)) /\
  DisclosureService.gi_thresholdUsdCents gi =
    (if f_level f ==? "LEVEL_1" then Some (Pages.readCents (f_thresholdUsd f)) else None).

(** What the schema makes of the fields of a body. *)
Lemma schema_reads body p ls sS sF sE l ds df de ms m re th :
  text_at body "purpose" = Some p -> p <> "" ->
  text_at body "level" = Some ls -> level_named ls = Some l ->
  text_at body "dateRangeStart" = Some sS -> isoDatetime sS = Some ds ->
  text_at body "dateRangeEnd" = Some sF -> isoDatetime sF = Some df ->
  text_at body "expiresAt" = Some sE -> isoDatetime sE = Some de ->
  WebSession.field body "accessMode" = Some (JStr ms) -> mode_named ms = Some m ->
  WebSession.field body "allowDownload" = Some (JBool true) ->
  WebSession.field body "autoIssue" = Some (JBool true) ->
  optional email_json (WebSession.field body "recipientEmail") = Some re ->
  optional cents_json (WebSession.field body "thresholdUsdCents") = Some th ->
  createGrantSchema body = Some (DisclosureService.mkGrantInput p l ds df de re (Some m) (Some true) th, true).
Proof.
  intros E1 E2 E3 E4 E5 E6 E7 E8 E9 E10 E11 E12 E13 E14 E15 E16. unfold createGrantSchema.
  assert ((p ==? "") = false) as Ep by by apply bool_decide_eq_false.
  rewrite E1, E3, E5, E7, E9, E11, E13, E14, E15, E16. cbn [mbind option_bind]. rewrite Ep, E4, E6, E8, E10.
  cbn [mbind option_bind optional fmap option_fmap option_map WebSession.as_string bool_json]. by rewrite E12.
Qed.

Lemma body_parsed locale base f now :
  form_ok f -> purpose locale f <> "" ->
  (f_level f = "LEVEL_1" -> 0 < Pages.readCents (f_thresholdUsd f) < 2 ^ 53) ->
  (f_recipientEmail f <> "" -> ApiShell.isEmail (f_recipientEmail f) = true) ->
  dates_read (render_of locale base f) now ->
  exists gi, createGrantSchema (MyIncome.disclosure_body (render_of locale base f) now) = Some (gi, true) /\ carries locale f gi.
Proof.
  intros Hf Hp Hth Hem Hd. unfold dates_read, MyIncome.disclosure_body in *.
  destruct (MyIncome.disclosure_range _ now) as [start finish].
  destruct Hd as ([ds Es] & [df Ef] & [de Ee]).
  cbn [render_of MyIncome.rn_rangeMonths MyIncome.rn_expiresInDays MyIncome.rn_purpose MyIncome.rn_level MyIncome.rn_thresholdUsd
    MyIncome.rn_recipientEmail MyIncome.rn_accessMode] in *. rewrite (fo_email f Hf).
  assert (exists l, level_named (f_level f) = Some l /\ DisclosureLevel.name l = f_level f) as (l & El & Enl).
  { destruct (fo_level f Hf) as [E|[E|[E|[]]]]; cbn in E; rewrite <- E; eexists; by split. }
  assert (mode_named (AccessMode.name (f_accessMode f)) = Some (f_accessMode f)) as Em by by destruct (f_accessMode f).
  assert (f_level f = "LEVEL_1" -> cents_json (JInt (Pages.readCents (f_thresholdUsd f))) = Some (Pages.readCents (f_thresholdUsd f))) as Ht.
  { intros E. cbn. specialize (Hth E). by rewrite (proj2 (Z.ltb_lt _ _) (proj1 Hth)), (proj2 (Z.ltb_lt _ _) (proj2 Hth)). }
  assert (f_recipientEmail f <> "" -> email_json (JStr (f_recipientEmail f)) = Some (f_recipientEmail f)) as Hm.
  { intros E. cbn. by rewrite (Hem E). }
  destruct (f_level f ==? "LEVEL_1") eqn:Elv, (f_recipientEmail f ==? "") eqn:Ere; eexists;
    (split; [eapply schema_reads; try reflexivity; try eassumption|unfold carries; by rewrite ?Elv, ?Ere]).
  all: first
    [ change (Some <$> cents_json (JInt (Pages.readCents (f_thresholdUsd f))) = Some (Some (Pages.readCents (f_thresholdUsd f))));
      by rewrite (Ht ltac:(by apply bool_decide_eq_true in Elv))
    | change (Some <$> email_json (JStr (f_recipientEmail f)) = Some (Some (f_recipientEmail f)));
      by rewrite (Hm ltac:(by apply bool_decide_eq_false in Ere)) ].
Qed.

Context `{Platform}.

(** A request that carries a form its button accepts is not a bad request. *)
Lemma carried_accepted locale base f gi userId w m :
  MyIncome.recipientRequired (render_of locale base f) = false ->
  (f_level f = "LEVEL_1" -> 0 < Pages.readCents (f_thresholdUsd f)) -> carries locale f gi ->
  (run (DisclosureService.createGrant userId gi) w).2 <> Err (BadRequestException m).
Proof.
  intros Hr Hth (_ & El & Em & Ee & Et). unfold DisclosureService.createGrant, DisclosureService.workerOf.
  wexec. destruct (List.find _ _) as [worker|]; [|done]. wexec. rewrite Et, Em, Ee.
  assert ((DisclosureService.gi_level gi ==? DisclosureLevel.LEVEL_1)
    && match DisclosureService.nonzero (if f_level f ==? "LEVEL_1" then Some (Pages.readCents (f_thresholdUsd f)) else None) with
       | Some _ => false | None => true end = false) as ->.
  { rewrite <- El. destruct (DisclosureService.gi_level gi) eqn:E; cbn; try done. rewrite <- El in Hth.
    specialize (Hth eq_refl). destruct (Pages.readCents (f_thresholdUsd f)) eqn:Ez; by try lia. }
  unfold MyIncome.recipientRequired in Hr. cbn [render_of MyIncome.rn_accessMode MyIncome.rn_recipientEmail] in Hr.
  assert ((f_accessMode f ==? AccessMode.RECIPIENT_OTP)
    && negb (truthy (if f_recipientEmail f ==? "" then None else Some (f_recipientEmail f))) = false) as Eo.
  { destruct (f_accessMode f); [done|]. cbn in Hr |- *. destruct (f_recipientEmail f ==? "") eqn:E; [done|]. cbn. by rewrite E. }
  cbn [nullish]. rewrite Eo. cbn [option_map]. wexec.
  match goal with |- context [existsb ?g ?l] => destruct (existsb g l) end; done.
Qed.

(** What the enabled button of the form sends is read by the schema of the API as
    the form has it, and is not a bad request for the service, whoever sends it: for
    a form reached by what the page offers, an address that zod accepts too, dates
    that can be read and, at the level that has one, a threshold of a cent or more
    within the safe integers. *)
Theorem ready_share_accepted js locale base now :
  Forall offered js ->
  let f := fold_left handle js initial in
  let body := MyIncome.disclosure_body (render_of locale base f) now in
  share_disabled locale false base f = false ->
  (f_level f = "LEVEL_1" -> 0 < Pages.readCents (f_thresholdUsd f) < 2 ^ 53) ->
  (f_recipientEmail f <> "" -> ApiShell.isEmail (f_recipientEmail f) = true) ->
  dates_read (render_of locale base f) now ->
  exists gi, createGrantSchema body = Some (gi, true) /\ carries locale f gi /\
    forall userId w m, (run (DisclosureService.createGrant userId gi) w).2 <> Err (BadRequestException m).
Proof.
  intros Hjs f body Hd Hth Hem Hdt. pose proof (inputs_ok js initial Hjs initial_ok) as Hf. fold f in Hf.
  unfold share_disabled in Hd. cbn [orb] in Hd.
  apply orb_false_iff in Hd as [Hd _]. apply orb_false_iff in Hd as [Hd _].
  apply orb_false_iff in Hd as [Hd Hr]. apply orb_false_iff in Hd as [Hp _].
  assert (purpose locale f <> "") as Hne by (intros E; by rewrite E in Hp).
  destruct (body_parsed locale base f now Hf Hne Hth Hem Hdt) as (gi & Es & Hc). exists gi. split_and!; [done..|].
  intros userId w m. apply (carried_accepted locale base f); [done| |done]. intros E. by apply Hth.
Qed.

(** A threshold that rounds to no cent is refused, though the condition of the
    button only asks for a positive number. *)
Lemma no_cents_refused locale base f now :
  f_level f = "LEVEL_1" -> Pages.readCents (f_thresholdUsd f) <= 0 ->
  createGrantSchema (MyIncome.disclosure_body (render_of locale base f) now) = None.
Proof.
  intros El Hc. unfold createGrantSchema.
  assert (optional cents_json (WebSession.field (MyIncome.disclosure_body (render_of locale base f) now) "thresholdUsdCents") = None) as ->.
  { unfold MyIncome.disclosure_body. destruct (MyIncome.disclosure_range _ now) as [start finish].
    cbn [render_of MyIncome.rn_level MyIncome.rn_thresholdUsd]. rewrite El.
    change (Some <$> cents_json (JInt (Pages.readCents (f_thresholdUsd f))) = None). cbn.
    by rewrite (proj2 (Z.ltb_ge _ _) Hc). }
  do 10 (match goal with
         | |- (?o ≫= _) = None => destruct o; cbn [mbind option_bind]
         | |- (if ?b then None else _) = None => destruct b
         end; try done).
Qed.
End accepted.

(* ------------------------------------------------------------------ *)
(** ** Examples *)

#[local] Existing Instances demo_platform MyIncome.demo_client MyIncome.demo_devices.
#[local] Existing Instance DemoCsv.iso_schema.

(** Whole dollars, and the one fraction below. *)
#[local] Instance demo_reading : Pages.FormReading := {|
  Pages.readLocal := fun _ => 0;
  Pages.readCents := fun s => if s ==? "0.001" then 0 else digits_value s * 100;
  Pages.readNumber := digits_value
|}.
#[local] Instance demo_amounts : Amounts := {| validAmount s := (s ==? "0.001") || (0 <? digits_value s) |}.
#[local] Instance demo_shell : ApiShell.Shell := {|
  ApiShell.verifyJwt := fun _ _ => None;
  ApiShell.isEmail := fun s => String.prefix "ann@" s
|}.

Definition demo_now : Z := 1786924800123.

(** The benefits preset with another level, for a recipient. *)
Definition demo_inputs : list input :=
  [SelectPreset (preset "benefits" "LEVEL_3" "1" "30" true); ChooseLevel "LEVEL_1"; TypeThreshold "2500";
   TypeEmail " ann@rent.com"; TypeEmailConfirm "Ann@rent.com "].
Definition demo_form_state : Form := fold_left handle demo_inputs initial.

Lemma ready_share_accepted_witness :
  share_disabled I18n.ko false MyIncome.demo_render demo_form_state = false /\
  exists gi, createGrantSchema (MyIncome.disclosure_body (render_of I18n.ko MyIncome.demo_render demo_form_state) demo_now) = Some (gi, true) /\
    carries I18n.ko demo_form_state gi /\
    forall userId w m, (run (DisclosureService.createGrant userId gi) w).2 <> Err (BadRequestException m).
Proof.
  assert (share_disabled I18n.ko false MyIncome.demo_render demo_form_state = false) as Hd by (vm_compute; reflexivity).
  split; [exact Hd|]. apply (ready_share_accepted demo_inputs I18n.ko MyIncome.demo_render demo_now).
  - repeat constructor; cbn; tauto.
  - exact Hd.
  - intros _. vm_compute. done.
  - intros _. vm_compute. reflexivity.
  - vm_compute. split_and!; eexists; reflexivity.
Defined.

(** The button is enabled for a thousandth of a dollar, and the API refuses it. *)
Example fraction_of_a_cent :
  let f := fold_left handle (demo_inputs ++ [TypeThreshold "0.001"]) initial in
  share_disabled I18n.en false MyIncome.demo_render f = false /\
  createGrantSchema (MyIncome.disclosure_body (render_of I18n.en MyIncome.demo_render f) demo_now) = None.
Proof. split; [vm_compute; reflexivity|]. by apply no_cents_refused. Qed.

End ShareForm.
